(* ===== verification/_CoqProject ===== *)
-Q . S2P
Prelude.v
Fifo.v
Itf.v
Ost.v
OstSpec.v
Isa.v
ExuState.v
Alu.v
Branch.v
Ldst.v
Misc.v
Amo.v
Sys.v
Exu.v
CsrFile.v
Csr.v
Trap.v
Arb.v
OstScan.v
OstSlot.v
Lsu.v
LsuSpec.v
Bti.v
Mmu.v
MmuSpec.v
MmuTlb.v
Bpu.v
BpuSpec.v
Ifu.v
IfuSpec.v
Hbi.v
HbiSpec.v
Apb.v
Plic.v
PlicSpec.v
Aclint.v
AclintSpec.v
Axi.v
L1.v
L1Cache.v
AxiMem.v
L1Inv.v
L1Stages.v
L1Pipe.v
L1Spec.v
L1Run.v
L1Thm.v
OstKey.v
BtiBus.v
BtiMuxSpec.v
AxiLog.v
L2.v
L2Mem.v
L2Port.v
L2Data.v
L2Spec.v
L2Run.v
L2Thm.v
Ram.v
RamSpec.v
AxiBus.v
Bridge.v
KeyRoute.v
HostRoute.v
AxiMuxSpec.v
Rom.v
BridgeSpec.v
Peri.v
