(* ===== verification/Prelude.v ===== *)
(** * RVBucket: a verified model of the RV32 SoC simulator

    RVBucket is a cycle-accurate model of an RV32IMA system on chip, written in C.  Its modules are C
    structures with a [*_construct], a [*_reset] and a [*_clock] function; a cycle of the machine calls the
    clock functions one after the other.  Modules are connected by interfaces: FIFOs of packets with a
    bounded depth ([base/itf.c]) or signals.  This library models the modules of the hart, both caches, the
    interconnect with its bridges, the memories, the interrupt controllers and the small peripherals,
    function by function, and proves what they promise: how a module sees its neighbours is part of each
    theorem, as the steps that an environment may take between two clocks.

    ** How the C code is read

    - A [u32] is a [Z], with [u32] written out wherever the C arithmetic can wrap; [s32], bit fields and
      shifts likewise (this file).
    - A structure is a record; [p->f = v] is [p <| f := v |>].  A function that changes its structure is
      a value of the monad [M S A] of this file: a state [S] in, a result and a state out, or [None] when
      a [DBG_CHECK] fails or an array access is out of bounds.  [on proj m] runs [m] on a member.
    - [wp m Q s] says that [m] runs from [s] without a failed check and ends in [Q]: theorems that
      mention it, or an equation [m s = Some _], include the absence of failures.
    - An interface is a [chan] (Fifo.v), a depth and the packets in it; [fifo_refines_chan] and
      [itf_fifo_refines_chan] show that the ring buffers of [base/fifo.c] and [base/itf.c] implement it,
      through the class [FifoImpl].
    - A loop is a [Fixpoint] on the number of turns left, or has fuel that is shown to be enough:
      the entries counted for [itf_fifo_pop_all] and [ostq_clock], the depth for the slot searches.

    ** The files, by the sources under src/ (the order of compilation is that of _CoqProject)

    base/model/base:
    - Fifo.v ([fifo.c]), Itf.v ([itf.c], FIFO mode): the ring buffer and the interface refine [chan].
    - Ost.v, OstSpec.v ([ost.c]): the in-order table of outstanding transactions refines a queue in which
      a freed head stays until the clock, the keyed one refines a table of tickets.  OstScan.v and
      OstSlot.v are the rules their clients use: the live entries as a list, searches from the oldest
      entry on, slots held over several cycles; OstKey.v has those of the keyed table.
    - Arb.v ([arb.c]): the round-robin arbiter grants the next request and starves none.

    design/model/spec/core and core/hart/exu:
    - Isa.v ([isa.h]): immediate formats, with encoders and the round trip.
    - ExuState.v, Alu.v, Branch.v, Ldst.v, Misc.v, Amo.v, Sys.v, Exu.v ([exu/*.c], [exu.h], [utils.h]): every
      instruction handler, checked against a specification of the instruction; load, store and atomic
      transactions through their response, reservations included; the invariant of the unit over all
      runs of its clock.
    - CsrFile.v ([spec/core/csr.c]), Csr.v ([csr.c]): the register file and the module that publishes it:
      access control, the supervisor views of the machine registers, pending interrupts.
    - Trap.v ([trap.c]): the clock refines the rules of the privileged architecture: delegation,
      priority, entry and return.

    design/model/core/hart:
    - Lsu.v, LsuSpec.v ([lsu.c]): answers in the order of the requests, page-crossing accesses split into
      bytes and put together again.
    - Bti.v (bus packets), Mmu.v, MmuSpec.v, MmuTlb.v ([mmu.c]): a walk computes the Sv32 translation or
      the page fault; the TLB agrees with the page tables.
    - Bpu.v, BpuSpec.v ([bpu.c]) and Ifu.v, IfuSpec.v ([ifu.c]): predictions; the instructions sent are the
      words of memory along one path.  The fetch unit is proved against the class [BpuPort], what it
      needs of a predictor.
    - Hbi.v, HbiSpec.v ([hbi.c]): both lanes of the bus interface answer in the order of the requests, each
      from its own outcome, in whatever order faults and responses arrive.
    - Axi.v (AXI4 packets), L1.v ([l1.c]): the cache.  L1Cache.v says when its arrays and the memory behind
      it represent a flat memory; AxiMem.v is that memory, with each channel at its own pace; L1Inv.v is
      the invariant of the whole pipeline and miss machine; L1Stages.v, L1Pipe.v and L1Spec.v show that every
      stage of [l1_clock] keeps it; L1Run.v has runs with the memory and a client; L1Thm.v the theorems:
      the cache is transparent, a flush leaves the memory up to date.

    design/model/core:
    - Apb.v (packets), Plic.v, PlicSpec.v ([plic.c]): a cycle is a step of the gateway, claim and complete
      specification on sets of sources.
    - Aclint.v, AclintSpec.v ([aclint.c]): register accesses byte by byte, the timer interrupt fires
      when its time has come.
    - AxiLog.v: histories of an AXI port, beat by beat, and what a flat memory answers to them; shared by
      the two theorems that follow.
    - L2.v ([l2.c]): the shared cache.  L2Mem.v its memory side, L2Port.v and L2Data.v the state of the two ports
      and of the arrays, L2Spec.v the stages of a cycle, L2Run.v runs, L2Thm.v the theorem: the beats of
      both ports are linearizable.

    design/model/mem and bus:
    - Ram.v, RamSpec.v ([ram.c]): every access is inside the memory or refused; the memory serves bursts in
      one sequential history, with and without latency.  Rom.v ([rom.c]): reads return the bytes, nothing changes them.
    - BtiBus.v ([bti_mux.c], [bti_demux.c], [bti2apb.c], [apb_demux.c]), BtiMuxSpec.v: each host of the
      multiplexer gets the answers to its own requests.
    - AxiBus.v ([axi_mux.c], [axi_demux.c]), KeyRoute.v, HostRoute.v, AxiMuxSpec.v: the same for AXI, with bursts
      of several beats and write data in the order of the addresses.  KeyRoute.v relates a keyed table
      to the requests on their way, HostRoute.v is one direction of a multiplexer; both halves of the
      AXI multiplexer are instances.
    - Bridge.v ([bti2axi.c], [axi2bti.c]), BridgeSpec.v: two ways in which the bridges lose the connection
      between requests, data and answers.

    design/model/peri:
    - Peri.v ([uart.c], [gpio.c], [gtimer.c]): the register files; pins in output mode follow the register,
      the timer fires when it has counted down.

    ** Bounds

    Depths of tables are below 2^31 where a search computes with slot numbers, and ticket numbers below
    2^64.  A walk takes three answered cycles, the levels of Sv32 and its start.  Returns are predicted
    up to 15 nested calls, one less than the 16 entries of the stack, since calls and returns in flight
    share it.  [HART_NUM] is 1 and the interrupt controller has 33 sources, as configured in the source.
    The level 1 cache is proved for requests within a line, outside the bypass ranges, without
    [cbo.inval], and a memory that answers without errors; its definitions have the other cases too, and
    [l1_crossing_store_overtaken] shows why an access that crosses a line is left out.  The level 2 cache
    is proved for cacheable INCR bursts of aligned words, stores and cleaning operations (of any burst
    kind) from the data port only, no bypass traffic, and a memory that answers without errors: a
    cleaning operation of the other port could clear the dirty flag of a line while a store to it is
    under way.  The history of the memory is proved in AXI mode for INCR bursts of words within it, its
    bounds for every access.  The load-store unit is proved for successful responses of the bus
    ([lsu_fault_misroutes_response] shows why).  The TLBs are coherent when the tables change only while
    the walker is idle and every entry is invalid ([mmu_flush_keeps_stale_walk] shows why).  The fetch
    unit fails a check only when it asks for a redirection before the execution unit has taken the
    flush request of the one before.  In the bus interface a response belongs to the oldest open
    transaction of its lane, and an exception to the oldest fetch in the table at its address.  The
    guests of the multiplexers answer the transactions of one number in
    their order, as the protocols ask for.

    ** Behaviour the theorems show to be wrong

    Theorems about all runs or all packets of a kind: [plic_source_32_never_served],
    [bti2apb_answer_misrouted], [axi2bti_failed_burst_shifts_data], and the refused store of
    [lr_sc_pairing].  Examples of one run each: [lsu_fault_misroutes_response],
    [mmu_flush_keeps_stale_walk], [l1_crossing_store_overtaken] and [ram_write_error_hidden].

    ** Not modelled

    Constructors whose only effect is to allocate and to register names, destructors, waveforms, logging
    and performance output are left out.  The demultiplexers and [bti2axi.c] are modelled without a theorem
    of their own.  The wiring of the system ([hart.c], [cbi.c], [rv32g.c], [peri.c], [io.c], [soc.c]) binds the interfaces
    of modules and has no behaviour of its own; [pcm.c] reads counters of the host; [boot.c] is the
    generated image of the boot program; the SD card controller speaks to a card that is simulated
    outside of the design.  The simulator's main program, the test benches, the software kit and the
    build tools are input, output or test code around the model. *)

From stdpp Require Import base numbers list gmap.
From Stdlib Require Import ZArith Lia Bool Btauto.

Open Scope Z_scope.

(** ** Machine words *)

(** A [u32] of the C sources is a [Z] in [[0, 2^32)]; every operation that can
    leave that range is followed by [u32], the wrap-around of unsigned
    arithmetic.  [s32] reads the same bits as the two's complement [s32] member
    of the [i32] union of [base/types.h]. *)
Definition W32 : Z := 4294967296.
Definition W64 : Z := 18446744073709551616.
Definition u32 (x : Z) : Z := x mod W32.
Definition u64 (x : Z) : Z := x mod W64.
Definition s32 (x : Z) : Z := if x <? 2147483648 then x else x - W32.
Definition is_u32 (x : Z) : Prop := 0 <= x < W32.
Definition is_u64 (x : Z) : Prop := 0 <= x < W64.

(** Bit field [w] bits wide whose least significant bit is bit [lo]. *)
Definition bits (x lo w : Z) : Z := Z.land (Z.shiftr x lo) (Z.ones w).
(** The word [x] with the bit field [(lo, w)] replaced by [v] (a store to a C bit field). *)
Definition set_bits (x lo w v : Z) : Z :=
  Z.lor (Z.land x (Z.lnot (Z.shiftl (Z.ones w) lo))) (Z.shiftl (Z.land v (Z.ones w)) lo).
(** [~x] on 32 bits. *)
Definition not32 (x : Z) : Z := Z.lxor x (W32 - 1).

#[global] Arguments Z.ltb : simpl never.
#[global] Arguments Z.leb : simpl never.
#[global] Arguments Z.eqb : simpl never.
#[global] Arguments Z.compare : simpl never.
#[global] Arguments Z.testbit : simpl never.
#[global] Arguments u32 : simpl never.
#[global] Arguments s32 : simpl never.
#[global] Arguments bits : simpl never.
#[global] Arguments set_bits : simpl never.

Definition b2z (b : bool) : Z := if b then 1 else 0.

(** ** Functional record update *)

(** [r <| f := v |>] is the record [r] with field [f] set to [v]: the Gallina
    reading of the assignment [r->f = v].  A record type declares [Eta], its
    eta-expansion; the setter of a field abstracts that field's projection out
    of the eta-expansion. *)
Class Eta (R : Type) := eta_expand : R -> R.
Class Setter {R T : Type} (proj : R -> T) := upd : (T -> T) -> R -> R.
Arguments upd {R T} proj {_} f r : rename.

Ltac derive_setter R proj :=
  let inst := constr:(_ : Eta R) in
  let e := eval hnf in inst in
  let p := eval pattern proj in e in
  match p with
  | ?F proj => exact (fun f => F (fun r => f (proj r)))
  end.

#[export] Hint Extern 0 (@Setter ?R _ ?proj) => derive_setter R proj : typeclass_instances.

Declare Scope upd_scope.
Delimit Scope upd_scope with upd.
Open Scope upd_scope.
#[warnings="-postfix-notation-not-level-1"]
Notation "r <| f := v |>" := (upd f (fun _ => v) r)
  (at level 12, left associativity, format "r  <| f  :=  v |>") : upd_scope.

(** Evaluates field accesses of updated records, one update at a time.  The equation is checked
    on a variable record, so that a nest of updates is never unfolded as a whole. *)
Ltac upd_proj :=
  repeat match goal with
  | |- context [?p (@upd ?R ?T ?q ?i ?f ?r)] =>
    first
      [ let E := constr:(fun (g : T -> T) (x : R) =>
          (eq_refl : p (@upd R T q i g x) = p x)) in rewrite (E f r)
      | let E := constr:(fun (g : T -> T) (x : R) =>
          (eq_refl : p (@upd R T q i g x) = g (q x))) in rewrite (E f r) ]; cbv beta
  end.

(** ** The error and state monad *)

(** Stateful code is a computation on an explicit state.  [None] is a failed
    [DBG_CHECK] of [base/model/dbg/chk.h], i.e. [assert]: the process aborts. *)
Definition M (S A : Type) : Type := S -> option (A * S).

#[export] Instance M_ret S : MRet (M S) := fun _ a s => Some (a, s).
#[export] Instance M_bind S : MBind (M S) := fun _ _ f m s =>
  match m s with
  | Some (a, s') => f a s'
  | None => None
  end.

Section monad_ops.
  Context {S : Type}.

Definition DBG_CHECK (b : bool) : M S unit := fun s => if b then Some (tt, s) else None.
Definition abort {A} : M S A := fun _ => None.
Definition gets {A} (f : S -> A) : M S A := fun s => Some (f s, s).
Definition modify (f : S -> S) : M S unit := fun s => Some (tt, f s).

(** A computation from a partial value. *)
Definition of_option {A} (o : option A) : M S A := fun s =>
  match o with
  | Some a => Some (a, s)
  | None => None
  end.

(** Runs a computation of a sub-object on the field [proj] of the state: a call
    that passes a pointer to that field. *)
Definition on {T A} (proj : S -> T) `{!Setter proj} (m : M T A) : M S A := fun s =>
  match m (proj s) with
  | Some (a, t) => Some (a, upd proj (fun _ => t) s)
  | None => None
  end.

(** [if (b) { m }] with nothing on the other branch. *)
Definition when (b : bool) (m : M S unit) : M S unit := if b then m else mret tt.

(** Total correctness: the computation returns and its result satisfies [Q]. *)
Definition wp {A} (m : M S A) (Q : A -> S -> Prop) (s : S) : Prop :=
  match m s with
  | Some (a, s') => Q a s'
  | None => False
  end.

(** Partial correctness: whenever no check fails, the result satisfies [Q]. *)
Definition wlp {A} (m : M S A) (Q : A -> S -> Prop) (s : S) : Prop :=
  match m s with
  | Some (a, s') => Q a s'
  | None => True
  end.

Lemma wp_ret {A} (a : A) Q s : Q a s -> wp (mret a) Q s.
Proof. done. Qed.

Lemma wp_bind {A B} (m : M S A) (f : A -> M S B) Q s :
  wp m (fun a s' => wp (f a) Q s') s -> wp (m ≫= f) Q s.
Proof. unfold wp, mbind, M_bind. destruct (m s) as [[a s']|]; done. Qed.

Lemma wp_check b Q s : b = true -> Q tt s -> wp (DBG_CHECK b) Q s.
Proof. by intros ->. Qed.

Lemma wp_gets {A} (f : S -> A) Q s : Q (f s) s -> wp (gets f) Q s.
Proof. done. Qed.

Lemma wp_modify f Q s : Q tt (f s) -> wp (modify f) Q s.
Proof. done. Qed.

Lemma wp_mono {A} (m : M S A) (Q Q' : A -> S -> Prop) s :
  wp m Q s -> (forall a s', Q a s' -> Q' a s') -> wp m Q' s.
Proof. unfold wp. destruct (m s) as [[a s']|]; auto. Qed.

Lemma wp_elim {A} (m : M S A) Q s :
  wp m Q s -> exists a s', m s = Some (a, s') /\ Q a s'.
Proof. unfold wp. destruct (m s) as [[a s']|]; naive_solver. Qed.

Lemma wp_intro {A} (m : M S A) (Q : A -> S -> Prop) s a s' :
  m s = Some (a, s') -> Q a s' -> wp m Q s.
Proof. unfold wp. by intros ->. Qed.

Lemma wlp_bind {A B} (m : M S A) (f : A -> M S B) Q s :
  wlp m (fun a s' => wlp (f a) Q s') s -> wlp (m ≫= f) Q s.
Proof. unfold wlp, mbind, M_bind. destruct (m s) as [[a s']|]; done. Qed.

Lemma wlp_ret {A} (a : A) Q s : Q a s -> wlp (mret a) Q s.
Proof. done. Qed.

Lemma wlp_check b (Q : unit -> S -> Prop) s : (b = true -> Q tt s) -> wlp (DBG_CHECK b) Q s.
Proof. unfold wlp, DBG_CHECK. destruct b; auto. Qed.

Lemma wlp_abort {A} (Q : A -> S -> Prop) s : wlp abort Q s.
Proof. done. Qed.

Lemma wlp_gets {A} (f : S -> A) Q s : Q (f s) s -> wlp (gets f) Q s.
Proof. done. Qed.

Lemma wlp_modify f Q s : Q tt (f s) -> wlp (modify f) Q s.
Proof. done. Qed.

Lemma wlp_when b m Q s :
  (b = true -> wlp m Q s) -> (b = false -> Q tt s) -> wlp (when b m) Q s.
Proof. unfold when. destruct b; [auto|]. intros _ H. exact (H eq_refl). Qed.

Lemma wlp_mono {A} (m : M S A) (Q Q' : A -> S -> Prop) s :
  wlp m Q s -> (forall a s', Q a s' -> Q' a s') -> wlp m Q' s.
Proof. unfold wlp. destruct (m s) as [[a s']|]; auto. Qed.

Lemma wlp_and {A} (m : M S A) (P Q : A -> S -> Prop) s :
  wlp m P s -> wlp m Q s -> wlp m (fun a s' => P a s' /\ Q a s') s.
Proof. unfold wlp. destruct (m s) as [[a s']|]; auto. Qed.

Lemma wlp_elim {A} (m : M S A) Q s a s' : wlp m Q s -> m s = Some (a, s') -> Q a s'.
Proof. unfold wlp. intros H E. by rewrite E in H. Qed.

Lemma wlp_of_option {A} (o : option A) Q s : (forall a, o = Some a -> Q a s) -> wlp (of_option o) Q s.
Proof. unfold wlp, of_option. destruct o; auto. Qed.

End monad_ops.

Lemma wp_on {S T A} (proj : S -> T) `{!Setter proj} (m : M T A) Q s :
  wp m (fun a t => Q a (upd proj (fun _ => t) s)) (proj s) -> wp (on proj m) Q s.
Proof. unfold wp, on. destruct (m (proj s)) as [[a t]|]; done. Qed.

Lemma wlp_on {S T A} (proj : S -> T) `{!Setter proj} (m : M T A) Q s :
  wlp m (fun a t => Q a (upd proj (fun _ => t) s)) (proj s) -> wlp (on proj m) Q s.
Proof. unfold wlp, on. destruct (m (proj s)) as [[a t]|]; done. Qed.


(** Unfolds the monad's operations, so that a computation on a given state reduces. *)
Ltac mred :=
  unfold mbind, M_bind, mret, M_ret, gets, modify, DBG_CHECK, of_option, when, on, abort, id in *;
  simpl.

(** Decides the comparisons of constants in the goal, and takes the branches they select. *)
Ltac zconst :=
  repeat match goal with
  | |- context [Z.eqb ?a ?b] =>
    let v := eval vm_compute in (Z.eqb a b) in
    lazymatch v with
    | true => change (Z.eqb a b) with true
    | false => change (Z.eqb a b) with false
    end
  end; cbv beta iota zeta.

(** ** Word lemmas *)

Create HintDb word discriminated.
Create HintDb testbit discriminated.

(** Linear arithmetic with division and modulus by constants. *)
Ltac zdiv := Z.div_mod_to_equations; lia.

Lemma u32_range x : is_u32 (u32 x).
Proof. unfold is_u32, u32, W32. zdiv. Qed.

Lemma u32_small x : is_u32 x -> u32 x = x.
Proof. unfold is_u32, u32. intros. by apply Z.mod_small. Qed.

Lemma u64_small x : is_u64 x -> u64 x = x.
Proof. unfold is_u64, u64. intros. by apply Z.mod_small. Qed.

Lemma u32_idemp x : u32 (u32 x) = u32 x.
Proof. apply u32_small, u32_range. Qed.

Lemma s32_range x : is_u32 x -> -2147483648 <= s32 x < 2147483648.
Proof. unfold is_u32, s32, W32. case_match; lia. Qed.

Lemma u32_s32 x : is_u32 x -> u32 (s32 x) = x.
Proof.
  unfold is_u32, s32, u32, W32. intros. case_match; [apply Z.mod_small; lia|zdiv].
Qed.

Lemma s32_u32 x : -2147483648 <= x < 2147483648 -> s32 (u32 x) = x.
Proof. unfold s32, u32, W32. intros. case_match; zdiv. Qed.

Lemma b2z_u32 b : is_u32 (b2z b).
Proof. by destruct b. Qed.

(** A word is known by its 32 low bits. *)
Lemma testbit_u32 x i : 0 <= i -> Z.testbit (u32 x) i = Z.testbit x i && (i <? 32).
Proof.
  intros. unfold u32. change W32 with (2 ^ 32).
  destruct (Z.ltb_spec i 32).
  - rewrite andb_true_r. apply Z.mod_pow2_bits_low. lia.
  - rewrite andb_false_r. apply Z.mod_pow2_bits_high. lia.
Qed.

Lemma testbit_high x i : is_u32 x -> 32 <= i -> Z.testbit x i = false.
Proof.
  intros Hx Hi. rewrite <- (u32_small x Hx), testbit_u32 by lia.
  destruct (Z.ltb_spec i 32); [lia|apply andb_false_r].
Qed.

Lemma u32_by_testbit x :
  0 <= x -> (forall i, 32 <= i -> Z.testbit x i = false) -> is_u32 x.
Proof.
  intros Hx Hb. enough (u32 x = x) as <- by apply u32_range.
  apply Z.bits_inj'. intros i Hi. rewrite testbit_u32 by done.
  destruct (Z.ltb_spec i 32); [apply andb_true_r|].
  by rewrite andb_false_r, Hb.
Qed.

Lemma testbit_ones w i : 0 <= i -> 0 <= w -> Z.testbit (Z.ones w) i = (i <? w).
Proof. intros. rewrite Z.testbit_ones by lia. destruct (Z.leb_spec 0 i); [done|lia]. Qed.

Lemma testbit_bits x lo w i :
  0 <= lo -> 0 <= w -> 0 <= i -> Z.testbit (bits x lo w) i = Z.testbit x (i + lo) && (i <? w).
Proof. intros. unfold bits. by rewrite Z.land_spec, Z.shiftr_spec, testbit_ones by lia. Qed.

Lemma testbit_shiftl x n i : 0 <= n -> 0 <= i ->
  Z.testbit (Z.shiftl x n) i = (n <=? i) && Z.testbit x (i - n).
Proof.
  intros. rewrite Z.shiftl_spec by lia.
  destruct (Z.leb_spec n i); [done|]. by rewrite Z.testbit_neg_r by lia.
Qed.

Lemma testbit_set_bits x lo w v i : 0 <= lo -> 0 <= w -> 0 <= i ->
  Z.testbit (set_bits x lo w v) i =
  if (lo <=? i) && (i <? lo + w) then Z.testbit v (i - lo) else Z.testbit x i.
Proof.
  intros. unfold set_bits.
  rewrite Z.lor_spec, Z.land_spec, Z.lnot_spec, !testbit_shiftl, Z.land_spec by lia.
  destruct (Z.leb_spec lo i); simpl.
  - rewrite testbit_ones by lia.
    destruct (Z.ltb_spec (i - lo) w), (Z.ltb_spec i (lo + w)); try lia; btauto.
  - btauto.
Qed.

(** Concatenation of bit fields is addition. *)
Lemma lor_shiftl_add h l n : 0 <= n -> 0 <= l < 2 ^ n -> Z.lor (Z.shiftl h n) l = h * 2 ^ n + l.
Proof.
  intros Hn Hl. rewrite <- (Z.mod_small l (2 ^ n)) by done.
  assert (Z.land (Z.shiftl h n) (l mod 2 ^ n) = 0) as Hd.
  { apply Z.bits_inj'. intros i Hi. rewrite Z.land_spec, Z.bits_0, testbit_shiftl by lia.
    destruct (Z.leb_spec n i); [|done]. by rewrite Z.mod_pow2_bits_high, andb_false_r by lia. }
  by rewrite <- Z.lxor_lor, <- Z.add_nocarry_lxor, Z.shiftl_mul_pow2 by done.
Qed.

Lemma bits_div_mod x lo w : 0 <= lo -> 0 <= w -> bits x lo w = (x / 2 ^ lo) mod 2 ^ w.
Proof. intros. unfold bits. by rewrite Z.land_ones, Z.shiftr_div_pow2. Qed.

Lemma bits_range x lo w : 0 <= lo -> 0 <= w -> 0 <= bits x lo w < 2 ^ w.
Proof. intros. rewrite bits_div_mod by done. apply Z.mod_pos_bound, Z.pow_pos_nonneg; lia. Qed.

Lemma is_u32_land_l x y : is_u32 x -> is_u32 (Z.land x y).
Proof.
  intros Hx. apply u32_by_testbit.
  - apply Z.land_nonneg. left. unfold is_u32 in Hx. lia.
  - intros i Hi. by rewrite Z.land_spec, (testbit_high x).
Qed.

Lemma is_u32_land_r x y : is_u32 y -> is_u32 (Z.land x y).
Proof. rewrite Z.land_comm. apply is_u32_land_l. Qed.

Lemma is_u32_lor x y : is_u32 x -> is_u32 y -> is_u32 (Z.lor x y).
Proof.
  intros Hx Hy. apply u32_by_testbit.
  - apply Z.lor_nonneg. unfold is_u32 in *. lia.
  - intros i Hi. by rewrite Z.lor_spec, !testbit_high.
Qed.

Lemma is_u32_lxor x y : is_u32 x -> is_u32 y -> is_u32 (Z.lxor x y).
Proof.
  intros Hx Hy. apply u32_by_testbit.
  - apply Z.lxor_nonneg. unfold is_u32 in *. lia.
  - intros i Hi. by rewrite Z.lxor_spec, !testbit_high.
Qed.

Lemma is_u32_shiftr x n : is_u32 x -> 0 <= n -> is_u32 (Z.shiftr x n).
Proof.
  intros Hx Hn. apply u32_by_testbit.
  - apply Z.shiftr_nonneg. unfold is_u32 in *. lia.
  - intros i Hi. rewrite Z.shiftr_spec by lia. apply testbit_high; [done|lia].
Qed.

Lemma is_u32_not32 x : is_u32 x -> is_u32 (not32 x).
Proof. intros. apply is_u32_lxor; done. Qed.

Lemma is_u32_bits x lo w : 0 <= lo -> 0 <= w <= 32 -> is_u32 (bits x lo w).
Proof.
  intros Hlo Hw. pose proof (bits_range x lo w Hlo ltac:(lia)).
  pose proof (Z.pow_le_mono_r 2 w 32 ltac:(lia) ltac:(lia)).
  change (2 ^ 32) with W32 in *. unfold is_u32. lia.
Qed.

Lemma set_bits_nonneg x lo w v : 0 <= x -> 0 <= lo -> 0 <= w -> 0 <= set_bits x lo w v.
Proof.
  intros. apply Z.lor_nonneg. split; [apply Z.land_nonneg; auto|].
  apply Z.shiftl_nonneg, Z.land_nonneg. right.
  rewrite Z.ones_equiv. pose proof (Z.pow_pos_nonneg 2 w). lia.
Qed.

Lemma is_u32_set_bits x lo w v :
  is_u32 x -> 0 <= lo -> 0 <= w -> lo + w <= 32 -> is_u32 (set_bits x lo w v).
Proof.
  intros Hx Hlo Hw Hs. apply u32_by_testbit.
  - apply set_bits_nonneg; unfold is_u32 in Hx; lia.
  - intros i Hi. rewrite testbit_set_bits by lia.
    destruct (Z.ltb_spec i (lo + w)); [lia|].
    rewrite andb_false_r. by apply testbit_high.
Qed.

(** Reading a bit field back after a store to the same, or a disjoint, field. *)
Lemma bits_set_bits_eq x lo w v :
  0 <= lo -> 0 <= w -> bits (set_bits x lo w v) lo w = Z.land v (Z.ones w).
Proof.
  intros. apply Z.bits_inj'. intros i Hi.
  rewrite testbit_bits, testbit_set_bits, Z.land_spec, testbit_ones by lia.
  replace (i + lo - lo) with i by lia.
  destruct (Z.ltb_spec i w); [|by rewrite !andb_false_r].
  destruct (Z.leb_spec lo (i + lo)), (Z.ltb_spec (i + lo) (lo + w)); try lia. done.
Qed.

Lemma bits_set_bits_ne x lo w v lo' w' :
  0 <= lo -> 0 <= w -> 0 <= lo' -> 0 <= w' -> lo + w <= lo' \/ lo' + w' <= lo ->
  bits (set_bits x lo w v) lo' w' = bits x lo' w'.
Proof.
  intros ???? Hd. apply Z.bits_inj'. intros i Hi.
  rewrite !testbit_bits, testbit_set_bits by lia.
  destruct (Z.ltb_spec i w'); [|by rewrite !andb_false_r].
  destruct (Z.leb_spec lo (i + lo')), (Z.ltb_spec (i + lo') (lo + w)); try lia; done.
Qed.

#[export] Hint Resolve u32_range b2z_u32 is_u32_land_l is_u32_lor is_u32_lxor
  is_u32_not32 : word.
#[export] Hint Extern 2 (is_u32 (Z.shiftr _ _)) => apply is_u32_shiftr; [|lia] : word.
#[export] Hint Extern 2 (is_u32 (bits _ _ _)) => apply is_u32_bits; lia : word.
#[export] Hint Extern 2 (is_u32 (set_bits _ _ _ _)) => apply is_u32_set_bits; [|lia..] : word.
#[export] Hint Extern 1 (is_u32 ?x) =>
  (match x with Z0 => idtac | Zpos _ => idtac end); unfold is_u32, W32; lia : word.

(** Decides an equality of words bit by bit, for bit fields at constant places. *)
Ltac bitwise :=
  apply Z.bits_inj'; intros ?i ?Hi;
  repeat first
    [ rewrite Z.lor_spec | rewrite Z.land_spec | rewrite Z.lxor_spec
    | rewrite testbit_set_bits by lia | rewrite testbit_bits by lia
    | rewrite testbit_u32 by lia | rewrite testbit_shiftl by lia
    | rewrite Z.shiftr_spec by lia | rewrite testbit_ones by lia ].

(** ** Conditions *)

(** A non-zero word is a true condition. *)
Definition nz (x : Z) : bool := negb (x =? 0).

Lemma nz_testbit x i : 0 <= i -> nz (Z.land x (Z.shiftl 1 i)) = Z.testbit x i.
Proof.
  intros Hi. unfold nz. rewrite Z.shiftl_1_l. destruct (Z.testbit x i) eqn:E.
  - apply negb_true_iff, Z.eqb_neq. intros Hz.
    pose proof (f_equal (fun z => Z.testbit z i) Hz) as Hb. simpl in Hb.
    by rewrite Z.land_spec, E, Z.pow2_bits_true, Z.bits_0 in Hb by done.
  - apply negb_false_iff, Z.eqb_eq. apply Z.bits_inj'. intros j Hj.
    rewrite Z.land_spec, Z.bits_0, Z.pow2_bits_eqb by done.
    destruct (Z.eqb_spec i j) as [->|]; [by rewrite E|apply andb_false_r].
Qed.

Lemma nz_bit x i : 0 <= i -> nz (bits x i 1) = Z.testbit x i.
Proof.
  intros Hi. unfold bits. change (Z.ones 1) with (Z.shiftl 1 0).
  by rewrite nz_testbit, Z.shiftr_spec, Z.add_0_l by lia.
Qed.

Lemma nz_false x i : nz x = false -> Z.testbit x i = false.
Proof. intros H%negb_false_iff%Z.eqb_eq. by rewrite H, Z.bits_0. Qed.

(** ** Arrays *)

(** C arrays are lists; an index outside the array is undefined behaviour in the
    source and a failure here. *)
Definition aget {A} (l : list A) (i : Z) : option A :=
  if 0 <=? i then l !! Z.to_nat i else None.
Definition aset {A} (l : list A) (i : Z) (x : A) : option (list A) :=
  if (0 <=? i) && (i <? Z.of_nat (length l)) then Some (<[Z.to_nat i := x]> l) else None.

Lemma aget_lookup {A} (l : list A) i : 0 <= i -> aget l i = l !! Z.to_nat i.
Proof. intros. unfold aget. destruct (Z.leb_spec 0 i); [done|lia]. Qed.

Lemma aset_insert {A} (l : list A) i x :
  0 <= i < Z.of_nat (length l) -> aset l i x = Some (<[Z.to_nat i := x]> l).
Proof.
  intros. unfold aset.
  destruct (Z.leb_spec 0 i), (Z.ltb_spec i (Z.of_nat (length l))); done || lia.
Qed.

Lemma aset_Some {A} (l l' : list A) i x :
  aset l i x = Some l' -> 0 <= i < Z.of_nat (length l) /\ l' = <[Z.to_nat i := x]> l.
Proof. unfold aset. intros. case_match; simplify_eq; split; [lia|done]. Qed.

Lemma aget_insert {A} (l : list A) i j x :
  0 <= j < Z.of_nat (length l) ->
  aget (<[Z.to_nat j := x]> l) i = if i =? j then Some x else aget l i.
Proof.
  intros Hj. unfold aget. destruct (Z.leb_spec 0 i).
  - destruct (Z.eqb_spec i j) as [->|Hne].
    + apply list_lookup_insert_eq. lia.
    + apply list_lookup_insert_ne. lia.
  - destruct (Z.eqb_spec i j); [lia|done].
Qed.

Lemma aget_is_Some {A} (l : list A) i :
  0 <= i < Z.of_nat (length l) -> exists x, aget l i = Some x.
Proof.
  intros. rewrite aget_lookup by lia. apply lookup_lt_is_Some_2. lia.
Qed.

Lemma aget_Some {A} (l : list A) i x : aget l i = Some x -> 0 <= i < Z.of_nat (length l).
Proof.
  unfold aget. intros H. destruct (Z.leb_spec 0 i); [|done].
  apply lookup_lt_Some in H. lia.
Qed.

(** An operation on one member of an array; out of bounds it fails. *)
Definition at_elem {A B} (i : Z) (m : M A B) : M (list A) B := fun xs =>
  x ← aget xs i; '(b, x') ← m x; xs' ← aset xs i x'; Some (b, xs').

Definition put_elem {A} (i : Z) (x : A) : M (list A) unit := at_elem i (modify (fun _ => x)).

Lemma wp_at_elem {A B} (xs : list A) i x (m : M A B) Q : aget xs i = Some x ->
  wp m (fun b x' => Q b (<[Z.to_nat i := x']> xs)) x -> wp (at_elem i m) Q xs.
Proof.
  intros E H. unfold wp, at_elem in *. rewrite E. cbn. destruct (m x) as [[b x']|]; [|done]. cbn.
  by rewrite (aset_insert xs i x' (aget_Some _ _ _ E)).
Qed.

Lemma wp_put_elem {A} (xs : list A) i x Q : 0 <= i < Z.of_nat (length xs) -> Q tt (<[Z.to_nat i := x]> xs) -> wp (put_elem i x) Q xs.
Proof. intros Hi HQ. destruct (aget_is_Some xs i Hi) as [y Hy]. eapply wp_at_elem; [exact Hy|]. by apply wp_modify. Qed.

(** Number of elements that satisfy [f]. *)
Fixpoint countb {A} (f : A -> bool) (l : list A) : Z :=
  match l with
  | [] => 0
  | x :: l => b2z (f x) + countb f l
  end.

Lemma countb_bounds {A} (f : A -> bool) l : 0 <= countb f l <= Z.of_nat (length l).
Proof. induction l as [|x l IH]; simpl; [lia|]. destruct (f x); simpl; lia. Qed.

Lemma countb_insert {A} (f : A -> bool) l i x y :
  l !! i = Some x -> countb f (<[i := y]> l) = countb f l - b2z (f x) + b2z (f y).
Proof.
  revert i. induction l as [|z l IH]; intros [|i] H; simplify_eq/=; [lia|].
  rewrite (IH i) by done. lia.
Qed.

Lemma countb_all {A} (f : A -> bool) l :
  (forall i x, l !! i = Some x -> f x = true) -> countb f l = Z.of_nat (length l).
Proof.
  induction l as [|x l IH]; intros H; [done|]. simpl.
  rewrite (H 0%nat x), IH by (done || intros i y; apply (H (S i) y)). simpl. lia.
Qed.

Lemma countb_none {A} (f : A -> bool) l :
  (forall i x, l !! i = Some x -> f x = false) -> countb f l = 0.
Proof.
  induction l as [|x l IH]; intros H; [done|]. simpl.
  rewrite (H 0%nat x), IH by (done || intros i y; apply (H (S i) y)). done.
Qed.

Lemma countb_pos {A} (f : A -> bool) l i x : l !! i = Some x -> f x = true -> 0 < countb f l.
Proof.
  revert i. induction l as [|y l IH]; intros [|i] H Hf; simplify_eq/=.
  - rewrite Hf. pose proof (countb_bounds f l). simpl. lia.
  - specialize (IH i H Hf). destruct (f y); simpl; lia.
Qed.

(** ** Simulation of computations *)

(** [sim abs wf m c]: on states satisfying [wf], [m] and [c] fail together, and
    otherwise return the same value in states related by [abs], with [wf] kept. *)
Definition sim {S T A} (abs : S -> T) (wf : S -> Prop) (m : M S A) (c : M T A) : Prop :=
  forall s, wf s ->
    match m s, c (abs s) with
    | Some (a, s'), Some (b, t') => a = b /\ wf s' /\ abs s' = t'
    | None, None => True
    | _, _ => False
    end.

Lemma sim_ret {S T A} (abs : S -> T) wf (a : A) : sim abs wf (mret a) (mret a).
Proof. intros s Hs. done. Qed.

Lemma sim_bind {S T A B} (abs : S -> T) wf (m : M S A) (c : M T A)
    (f : A -> M S B) (g : A -> M T B) :
  sim abs wf m c -> (forall a, sim abs wf (f a) (g a)) -> sim abs wf (m ≫= f) (c ≫= g).
Proof.
  intros Hm Hf s Hs. specialize (Hm s Hs). unfold mbind, M_bind.
  destruct (m s) as [[a s']|], (c (abs s)) as [[b t']|]; try done.
  destruct Hm as (-> & Hs' & <-). apply (Hf b s' Hs').
Qed.

Lemma sim_trans {S T U A} (abs1 : S -> T) (wf1 : S -> Prop) (abs2 : T -> U) (wf2 : T -> Prop)
    (m : M S A) (c : M T A) (e : M U A) :
  sim abs1 wf1 m c -> sim abs2 wf2 c e -> (forall s, wf1 s -> wf2 (abs1 s)) ->
  sim (fun s => abs2 (abs1 s)) wf1 m e.
Proof.
  intros H1 H2 Hw s Hs. specialize (H1 s Hs). specialize (H2 _ (Hw s Hs)).
  destruct (m s) as [[a s']|], (c (abs1 s)) as [[b t']|], (e _) as [[d u']|]; try done.
  destruct H1 as (-> & ? & <-), H2 as (-> & ? & <-). done.
Qed.

(** One step around a ring, without division. *)
Lemma mod_wrap x d : 0 <= x < 2 * d -> x mod d = if x <? d then x else x - d.
Proof.
  intros. destruct (Z.ltb_spec x d); [apply Z.mod_small; lia|].
  symmetry. apply (Z.mod_unique _ _ 1); lia.
Qed.

(** The first element with a property splits a list in one way. *)
Lemma first_split {A} (p : A -> bool) l1 c l2 k1 d k2 : l1 ++ c :: l2 = k1 ++ d :: k2 ->
  Forall (fun x => p x = false) l1 -> p c = true -> Forall (fun x => p x = false) k1 -> p d = true ->
  l1 = k1 /\ c = d /\ l2 = k2.
Proof.
  revert k1. induction l1 as [|x l1 IH]; intros [|y k1] E H1 Hc H2 Hd; simplify_eq/=; [done|..].
  - apply Forall_cons in H2 as [? _]. congruence.
  - apply Forall_cons in H1 as [? _]. congruence.
  - apply Forall_cons in H1 as [_ H1]. apply Forall_cons in H2 as [_ H2]. by destruct (IH k1) as (-> & -> & ->).
Qed.

(** Single bits and complements. *)
Lemma testbit_one n i : 0 <= n -> 0 <= i -> Z.testbit (Z.shiftl 1 n) i = (i =? n).
Proof.
  intros Hn Hi. rewrite Z.shiftl_mul_pow2, Z.mul_1_l by lia. rewrite Z.pow2_bits_eqb by lia. apply Z.eqb_sym.
Qed.

Lemma testbit_not32 x i : 0 <= i < 32 -> Z.testbit (not32 x) i = negb (Z.testbit x i).
Proof.
  intros Hi. unfold not32. change (W32 - 1) with (Z.ones 32). rewrite Z.lxor_spec, testbit_ones by lia.
  rewrite (proj2 (Z.ltb_lt _ _)) by lia. by destruct (Z.testbit x i).
Qed.
