(* ===== verification/Fifo.v ===== *)
(** * FIFO buffers

    [chan] is the specification of a bounded FIFO: a depth and the queued
    elements, oldest first.  The class [FifoImpl] is what a FIFO implementation
    offers the other components, [FifoLaws] what it promises: every operation
    simulates the one of [chan], failed checks included.  [fifo_t] is the ring
    buffer of [base/model/base/fifo.c] and [fifo.h]; its [data] block comes from
    [malloc], so its initial content is arbitrary. *)

From stdpp Require Import base numbers list.
From Stdlib Require Import ZArith Lia.
From S2P Require Import Prelude.
Open Scope Z_scope.

(** ** The specification *)

Record chan (A : Type) := Chan { ch_depth : Z; ch_pkts : list A }.
Arguments Chan {A} _ _.
Arguments ch_depth {A} _.
Arguments ch_pkts {A} _.
#[export] Instance eta_chan A : Eta (chan A) := fun r => Chan (ch_depth r) (ch_pkts r).

Section chan_ops.
  Context {A : Type}.

Definition chan_num (c : chan A) : Z := Z.of_nat (length (ch_pkts c)).
Definition chan_empty (c : chan A) : bool := chan_num c =? 0.
Definition chan_full (c : chan A) : bool := chan_num c =? ch_depth c.

Definition chan_write (x : A) : M (chan A) unit :=
  c ← gets id;
  DBG_CHECK (chan_num c <? ch_depth c);;
  modify (fun c => c <| ch_pkts := ch_pkts c ++ [x] |>).

Definition chan_front : M (chan A) A :=
  c ← gets id;
  of_option (head (ch_pkts c)).

Definition chan_read : M (chan A) A :=
  x ← chan_front;
  modify (fun c => c <| ch_pkts := tail (ch_pkts c) |>);;
  mret x.

Definition chan_clear : M (chan A) unit := modify (fun c => c <| ch_pkts := [] |>).

Lemma chan_empty_spec c : chan_empty c = true <-> ch_pkts c = [].
Proof.
  unfold chan_empty, chan_num. rewrite Z.eqb_eq.
  destruct (ch_pkts c); simpl; split; (done || lia).
Qed.

Lemma chan_empty_false c : chan_empty c = false -> exists x r, ch_pkts c = x :: r.
Proof.
  unfold chan_empty, chan_num. rewrite Z.eqb_neq.
  destruct (ch_pkts c) as [|x r]; simpl; [lia|eauto].
Qed.

Lemma chan_read_cons c x r :
  ch_pkts c = x :: r -> chan_read c = Some (x, c <| ch_pkts := r |>).
Proof. destruct c as [d p]. simpl. by intros ->. Qed.

Lemma chan_read_nil c : ch_pkts c = [] -> chan_read c = None.
Proof. destruct c as [d p]. simpl. by intros ->. Qed.

Lemma chan_write_ok c x :
  chan_num c < ch_depth c -> chan_write x c = Some (tt, c <| ch_pkts := ch_pkts c ++ [x] |>).
Proof.
  intros. unfold chan_write, mbind, M_bind, gets, DBG_CHECK, id.
  by rewrite (proj2 (Z.ltb_lt _ _)).
Qed.

(** The queue after a packet has been sent. *)
Definition chan_snoc c (x : A) : chan A := c <| ch_pkts := ch_pkts c ++ [x] |>.

Lemma chan_write_full c x : ch_depth c <= chan_num c -> chan_write x c = None.
Proof.
  intros. unfold chan_write, mbind, M_bind, gets, DBG_CHECK, id.
  by rewrite (proj2 (Z.ltb_ge _ _)).
Qed.

End chan_ops.

Lemma on_chan_write {S A} (proj : S -> chan A) `{!Setter proj} (x : A) s :
  chan_num (proj s) < ch_depth (proj s) ->
  on proj (chan_write x) s = Some (tt, upd proj (fun _ => chan_snoc (proj s) x) s).
Proof. intros H. unfold on. by rewrite chan_write_ok. Qed.

Lemma wlp_on_write {S A} (proj : S -> chan A) `{!Setter proj} (x : A) Q s :
  Q tt (upd proj (fun _ => chan_snoc (proj s) x) s) -> wlp (on proj (chan_write x)) Q s.
Proof.
  intros H. unfold wlp. destruct (Z.lt_ge_cases (chan_num (proj s)) (ch_depth (proj s))).
  - by rewrite on_chan_write.
  - unfold on. by rewrite chan_write_full.
Qed.

Lemma wlp_on_read {S A} (proj : S -> chan A) `{!Setter proj} Q s :
  (forall x r, ch_pkts (proj s) = x :: r ->
     Q x (upd proj (fun _ => Chan (ch_depth (proj s)) r) s)) ->
  wlp (on proj (@chan_read A)) Q s.
Proof.
  intros H. unfold wlp, on. destruct (ch_pkts (proj s)) as [|x r] eqn:E.
  - by rewrite chan_read_nil.
  - rewrite (chan_read_cons _ _ _ E). destruct (proj s). by apply H.
Qed.

Lemma wlp_on_front {S A} (proj : S -> chan A) `{!Setter proj} Q s :
  upd proj (fun _ => proj s) s = s ->
  (forall x r, ch_pkts (proj s) = x :: r -> Q x s) -> wlp (on proj (@chan_front A)) Q s.
Proof.
  intros Hid H. unfold wlp, on, chan_front. mred.
  destruct (ch_pkts (proj s)) as [|x r] eqn:E; simpl; [done|]. rewrite Hid. by apply (H x r).
Qed.

Lemma wp_on_front {S A} (proj : S -> chan A) `{!Setter proj} x r Q s :
  ch_pkts (proj s) = x :: r -> upd proj (fun _ => proj s) s = s -> Q x s -> wp (on proj chan_front) Q s.
Proof. intros E Hid H. unfold wp, on, chan_front. mred. rewrite E. simpl. by rewrite Hid. Qed.

Lemma on_chan_read {S A} (proj : S -> chan A) `{!Setter proj} (x : A) r s :
  ch_pkts (proj s) = x :: r ->
  on proj chan_read s = Some (x, upd proj (fun _ => Chan (ch_depth (proj s)) r) s).
Proof. intros H. unfold on. by rewrite (chan_read_cons _ _ _ H). Qed.

(** A FIFO never holds more packets than its depth. *)
Definition chan_wf {A} (c : chan A) : Prop := chan_num c <= ch_depth c.

Lemma chan_not_full {A} (c : chan A) : chan_wf c -> chan_full c = false -> chan_num c < ch_depth c.
Proof. unfold chan_wf, chan_full. lia. Qed.

Lemma chan_snoc_pkts {A} (c : chan A) x : ch_pkts (chan_snoc c x) = ch_pkts c ++ [x].
Proof. done. Qed.

Lemma chan_wf_snoc {A} (c : chan A) x : chan_num c < ch_depth c -> chan_wf (chan_snoc c x).
Proof. unfold chan_wf, chan_num, chan_snoc. simpl. rewrite length_app. simpl. lia. Qed.

Lemma chan_wf_tail {A} (c : chan A) x r : chan_wf c -> ch_pkts c = x :: r -> chan_wf (Chan (ch_depth c) r).
Proof. unfold chan_wf, chan_num. intros H E. rewrite E in H. simpl in *. lia. Qed.

Lemma wp_on_write {S A} (proj : S -> chan A) `{!Setter proj} (x : A) Q s :
  chan_wf (proj s) -> chan_full (proj s) = false ->
  (chan_wf (chan_snoc (proj s) x) -> Q tt (upd proj (fun _ => chan_snoc (proj s) x) s)) ->
  wp (on proj (chan_write x)) Q s.
Proof.
  intros Hw Hf H. pose proof (chan_not_full _ Hw Hf). unfold wp.
  rewrite on_chan_write by done. by apply H, chan_wf_snoc.
Qed.

Lemma wp_on_read {S A} (proj : S -> chan A) `{!Setter proj} x r Q s :
  ch_pkts (proj s) = x :: r -> Q x (upd proj (fun _ => Chan (ch_depth (proj s)) r) s) ->
  wp (on proj chan_read) Q s.
Proof. intros E H. unfold wp. by rewrite (on_chan_read _ _ _ _ E). Qed.

Lemma wp_chan_write {A} (c : chan A) x Q : chan_wf c -> chan_full c = false -> (chan_wf (chan_snoc c x) -> Q tt (chan_snoc c x)) -> wp (chan_write x) Q c.
Proof. intros Hw Hf HQ. pose proof (chan_not_full _ Hw Hf). unfold wp. rewrite chan_write_ok by done. by apply HQ, chan_wf_snoc. Qed.

Lemma wp_chan_read {A} (c : chan A) x r Q : ch_pkts c = x :: r -> Q x (Chan (ch_depth c) r) -> wp chan_read Q c.
Proof. intros E HQ. unfold wp. by rewrite (chan_read_cons _ _ _ E). Qed.

Lemma front_cons {A} (c : chan A) x r : ch_pkts c = x :: r -> chan_front c = Some (x, c).
Proof. intros E. unfold chan_front. mred. by rewrite E. Qed.

(** ** The interface *)

Class FifoImpl (F : Type -> Type) := {
  fi_abs : forall {A}, F A -> chan A;
  fi_wf : forall {A}, F A -> Prop;
  fi_empty : forall {A}, F A -> bool;
  fi_full : forall {A}, F A -> bool;
  fi_push : forall {A}, A -> M (F A) unit;
  fi_pop : forall {A}, M (F A) A;
  fi_front : forall {A}, M (F A) A;
  fi_clear : forall {A}, M (F A) unit;
}.

Class FifoLaws (F : Type -> Type) `{!FifoImpl F} := {
  fi_empty_abs : forall A (f : F A), fi_wf f -> fi_empty f = chan_empty (fi_abs f);
  fi_full_abs : forall A (f : F A), fi_wf f -> fi_full f = chan_full (fi_abs f);
  fi_push_sim : forall A (x : A), sim fi_abs fi_wf (fi_push x) (chan_write x);
  fi_pop_sim : forall A, sim fi_abs fi_wf (@fi_pop F _ A) chan_read;
  fi_front_sim : forall A, sim fi_abs fi_wf (@fi_front F _ A) chan_front;
  fi_clear_sim : forall A, sim fi_abs fi_wf (@fi_clear F _ A) chan_clear;
}.

(** The calls a client makes on a FIFO, and what it can observe of them. *)
Inductive fifo_op (A : Type) :=
| OpPush (x : A) | OpPop | OpFront | OpClear | OpEmpty | OpFull.
Arguments OpPush {A} _.
Arguments OpPop {A}.
Arguments OpFront {A}.
Arguments OpClear {A}.
Arguments OpEmpty {A}.
Arguments OpFull {A}.

Inductive fifo_obs (A : Type) :=
| ObsUnit | ObsElem (x : A) | ObsBool (b : bool).
Arguments ObsUnit {A}.
Arguments ObsElem {A} _.
Arguments ObsBool {A} _.

Section client.
  Context {F : Type -> Type} `{!FifoImpl F} {A : Type}.

Definition impl_op (op : fifo_op A) : M (F A) (fifo_obs A) :=
  match op with
  | OpPush x => fi_push x;; mret ObsUnit
  | OpPop => x ← fi_pop; mret (ObsElem x)
  | OpFront => x ← fi_front; mret (ObsElem x)
  | OpClear => fi_clear;; mret ObsUnit
  | OpEmpty => b ← gets fi_empty; mret (ObsBool b)
  | OpFull => b ← gets fi_full; mret (ObsBool b)
  end.

Fixpoint impl_run (ops : list (fifo_op A)) : M (F A) (list (fifo_obs A)) :=
  match ops with
  | [] => mret []
  | op :: ops => o ← impl_op op; os ← impl_run ops; mret (o :: os)
  end.

End client.

Section spec_client.
  Context {A : Type}.

Definition spec_op (op : fifo_op A) : M (chan A) (fifo_obs A) :=
  match op with
  | OpPush x => chan_write x;; mret ObsUnit
  | OpPop => x ← chan_read; mret (ObsElem x)
  | OpFront => x ← chan_front; mret (ObsElem x)
  | OpClear => chan_clear;; mret ObsUnit
  | OpEmpty => b ← gets chan_empty; mret (ObsBool b)
  | OpFull => b ← gets chan_full; mret (ObsBool b)
  end.

Fixpoint spec_run (ops : list (fifo_op A)) : M (chan A) (list (fifo_obs A)) :=
  match ops with
  | [] => mret []
  | op :: ops => o ← spec_op op; os ← spec_run ops; mret (o :: os)
  end.

End spec_client.

Section refinement.
  Context {F : Type -> Type} `{!FifoImpl F, !FifoLaws F} {A : Type}.

Lemma impl_op_sim (op : fifo_op A) : sim fi_abs fi_wf (impl_op op) (spec_op op).
Proof.
  destruct op; simpl.
  - apply sim_bind; [apply fi_push_sim|intros; apply sim_ret].
  - apply sim_bind; [apply fi_pop_sim|intros; apply sim_ret].
  - apply sim_bind; [apply fi_front_sim|intros; apply sim_ret].
  - apply sim_bind; [apply fi_clear_sim|intros; apply sim_ret].
  - apply sim_bind; [|intros; apply sim_ret].
    intros f Hf. simpl. by rewrite fi_empty_abs.
  - apply sim_bind; [|intros; apply sim_ret].
    intros f Hf. simpl. by rewrite fi_full_abs.
Qed.

Lemma impl_run_sim (ops : list (fifo_op A)) : sim fi_abs fi_wf (impl_run ops) (spec_run ops).
Proof.
  induction ops as [|op ops IH]; simpl; [apply sim_ret|].
  apply sim_bind; [apply impl_op_sim|]. intros o.
  apply sim_bind; [apply IH|]. intros os. apply sim_ret.
Qed.

End refinement.

(** ** Ring buffers *)

(** The elements a ring of [d] cells holds, from cell [r] on, [n] of them. *)
Definition ring {A} (data : list A) (d r n : nat) : list A :=
  omap (fun k => data !! ((r + k) `mod` d)%nat) (seq 0 n).

Section ring_facts.
  Context {A : Type}.
  Implicit Types (data : list A) (d r n : nat).

Lemma ring_length data d r n :
  length data = d -> (0 < d)%nat -> length (ring data d r n) = n.
Proof.
  intros Hd Hp. unfold ring. generalize 0%nat.
  induction n as [|n IH]; intros k; [done|]. csimpl.
  destruct (lookup_lt_is_Some_2 data ((r + k) `mod` d)) as [x ->];
    [rewrite Hd; apply Nat.mod_upper_bound; lia|].
  simpl. by rewrite IH.
Qed.

Lemma ring_ext data data' d r n :
  (forall k, (k < n)%nat -> data !! ((r + k) `mod` d)%nat = data' !! ((r + k) `mod` d)%nat) ->
  ring data d r n = ring data' d r n.
Proof.
  intros H. unfold ring. apply list_omap_ext, Forall_Forall2_diag, Forall_forall.
  intros k Hk%elem_of_seq. apply H. lia.
Qed.

Lemma ring_S data d r n x :
  data !! ((r + n) `mod` d)%nat = Some x -> ring data d r (S n) = ring data d r n ++ [x].
Proof.
  intros H. unfold ring. rewrite seq_S, omap_app. simpl. by rewrite H.
Qed.

Lemma ring_cons data d r n x :
  (r < d)%nat -> data !! r = Some x ->
  ring data d r (S n) = x :: ring data d ((r + 1) `mod` d) n.
Proof.
  intros Hr Hx. unfold ring. simpl seq. csimpl.
  rewrite Nat.add_0_r, Nat.mod_small, Hx by lia. simpl. f_equal.
  enough (forall s,
      omap (fun k => data !! ((r + k) `mod` d)%nat) (seq (S s) n) =
      omap (fun k => data !! (((r + 1) `mod` d + k) `mod` d)%nat) (seq s n)) as H by apply H.
  clear. induction n as [|n IH]; intros k; [done|]. csimpl.
  rewrite IH, Nat.Div0.add_mod_idemp_l.
  by replace (r + 1 + k)%nat with (r + S k)%nat by lia.
Qed.

(** Distinct offsets below [d] address distinct cells. *)
Lemma ring_cell_inj d r j k : (j < d)%nat -> (k < d)%nat ->
  ((r + j) `mod` d = (r + k) `mod` d)%nat -> j = k.
Proof.
  intros Hj Hk E.
  pose proof (Nat.div_mod_eq (r + j) d). pose proof (Nat.div_mod_eq (r + k) d).
  set (a := ((r + j) / d)%nat) in *. set (b := ((r + k) / d)%nat) in *.
  destruct (decide (a = b)) as [->|]; [lia|].
  exfalso. destruct (decide (a < b)%nat); nia.
Qed.

(** Writing the cell after the last element appends it. *)
Lemma ring_push data d r n x :
  length data = d -> (r < d)%nat -> (n < d)%nat ->
  ring (<[((r + n) `mod` d)%nat := x]> data) d r (S n) = ring data d r n ++ [x].
Proof.
  intros Hd Hr Hn. rewrite (ring_S _ _ _ _ x).
  - f_equal. apply ring_ext. intros k Hk. apply list_lookup_insert_ne.
    intros E. apply ring_cell_inj in E; lia.
  - apply list_lookup_insert_eq. rewrite Hd. apply Nat.mod_upper_bound. lia.
Qed.

Lemma ring_lookup data d r n k :
  length data = d -> (0 < d)%nat -> (k < n)%nat ->
  ring data d r n !! k = data !! ((r + k) `mod` d)%nat.
Proof.
  intros Hd Hp. induction n as [|n IH]; intros Hk; [lia|].
  destruct (lookup_lt_is_Some_2 data ((r + n) `mod` d)) as [x Hx];
    [rewrite Hd; apply Nat.mod_upper_bound; lia|].
  rewrite (ring_S _ _ _ _ x) by done. destruct (decide (k = n)) as [->|Hne].
  - rewrite lookup_app_r by (rewrite ring_length; lia).
    rewrite ring_length, Nat.sub_diag by done. done.
  - rewrite lookup_app_l by (rewrite ring_length; lia). apply IH. lia.
Qed.

Lemma ring_insert data d r n k x :
  length data = d -> (0 < d)%nat -> (k < n)%nat -> (n <= d)%nat ->
  ring (<[((r + k) `mod` d)%nat := x]> data) d r n = <[k := x]> (ring data d r n).
Proof.
  intros Hd Hp Hk Hn. apply list_eq. intros i.
  destruct (decide (i < n)%nat) as [Hi|Hi].
  - rewrite ring_lookup by (rewrite ?length_insert; lia).
    destruct (decide (i = k)) as [->|Hne].
    + rewrite !list_lookup_insert_eq by
        (rewrite ?ring_length, ?Hd by lia; try apply Nat.mod_upper_bound; lia). done.
    + rewrite !list_lookup_insert_ne, ring_lookup; [done|lia..|].
      intros E. apply Hne. symmetry. apply (ring_cell_inj d r); lia || done.
  - rewrite !lookup_ge_None_2; [done|..];
      rewrite ?length_insert, ring_length; rewrite ?length_insert; lia.
Qed.

(** A store outside the window is not seen in it. *)
Lemma ring_insert_out data d r n j x :
  (forall k, (k < n)%nat -> ((r + k) `mod` d)%nat <> j) ->
  ring (<[j := x]> data) d r n = ring data d r n.
Proof.
  intros H. apply ring_ext. intros k Hk. apply list_lookup_insert_ne. intros ->.
  by apply (H k Hk).
Qed.

End ring_facts.

(** Offset of cell [i] from cell [r] around a ring of [d] cells, and whether it lies
    among the [n] cells from [r] on. *)
Definition ring_idx (d r i : Z) : Z := if i <? r then i - r + d else i - r.
Definition in_window (d r n i : Z) : bool := ring_idx d r i <? n.

Lemma ring_idx_range d r i : 0 <= r < d -> 0 <= i < d -> 0 <= ring_idx d r i < d.
Proof. unfold ring_idx. intros. case_match; lia. Qed.

Lemma ring_idx_cell d r i : 0 <= r < d -> 0 <= i < d ->
  ((Z.to_nat r + Z.to_nat (ring_idx d r i)) `mod` Z.to_nat d)%nat = Z.to_nat i.
Proof.
  intros. pose proof (ring_idx_range d r i).
  rewrite <- Z2Nat.inj_add, <- Z2Nat.inj_mod, mod_wrap by lia. f_equal.
  unfold ring_idx. repeat case_match; lia.
Qed.

(** ** The ring buffer of fifo.c *)

Record fifo_t (A : Type) := Fifo {
  data : list A;
  element_size : Z;
  depth : Z;
  num : Z;
  rptr : Z;
  wptr : Z
}.
Arguments Fifo {A} _ _ _ _ _ _.
Arguments data {A} _.
Arguments element_size {A} _.
Arguments depth {A} _.
Arguments num {A} _.
Arguments rptr {A} _.
Arguments wptr {A} _.
#[export] Instance eta_fifo A : Eta (fifo_t A) := fun f =>
  Fifo (data f) (element_size f) (depth f) (num f) (rptr f) (wptr f).

Section fifo.
  Context {A : Type}.

(** [mem] is the block [malloc] returns, one cell per element. *)
Definition fifo_construct (mem : list A) (element_size depth : Z) : option (fifo_t A) :=
  if (0 <? element_size) && (0 <? depth)
  then Some (Fifo mem element_size depth 0 0 0)
  else None.

Definition fifo_empty (f : fifo_t A) : bool := num f =? 0.
Definition fifo_full (f : fifo_t A) : bool := num f =? depth f.
Definition fifo_count (f : fifo_t A) : Z := num f.

Definition fifo_push (elem : A) : M (fifo_t A) unit :=
  f ← gets id;
  DBG_CHECK (num f <? depth f);;
  d ← of_option (aset (data f) (wptr f) elem);
  modify (fun f => f <| data := d |>);;
  modify (fun f => f <| num := u32 (num f + 1) |>);;
  modify (fun f => f <| wptr := u32 (wptr f + 1) mod depth f |>).

Definition fifo_pop : M (fifo_t A) A :=
  f ← gets id;
  DBG_CHECK (0 <? num f);;
  elem ← of_option (aget (data f) (rptr f));
  modify (fun f => f <| num := u32 (num f - 1) |>);;
  modify (fun f => f <| rptr := u32 (rptr f + 1) mod depth f |>);;
  mret elem.

Definition fifo_get_front : M (fifo_t A) A :=
  f ← gets id;
  DBG_CHECK (0 <? num f);;
  of_option (aget (data f) (rptr f)).

Definition fifo_clear : M (fifo_t A) unit :=
  modify (fun f => f <| num := 0 |>);;
  modify (fun f => f <| rptr := wptr f |>).

Definition fifo_reset : M (fifo_t A) unit :=
  modify (fun f => f <| num := 0 |>);;
  modify (fun f => f <| rptr := 0 |>);;
  modify (fun f => f <| wptr := 0 |>).

(** The ring invariant: the write pointer is [num] cells after the read pointer. *)
Record fifo_wf (f : fifo_t A) : Prop := {
  wf_depth : 0 < depth f < W32;
  wf_data : Z.of_nat (length (data f)) = depth f;
  wf_num : 0 <= num f <= depth f;
  wf_rptr : 0 <= rptr f < depth f;
  wf_wptr : wptr f = (rptr f + num f) mod depth f
}.

Definition fifo_abs (f : fifo_t A) : chan A :=
  Chan (depth f) (ring (data f) (Z.to_nat (depth f)) (Z.to_nat (rptr f)) (Z.to_nat (num f))).

Lemma fifo_reset_ok mem es d f :
  fifo_construct mem es d = Some f -> Z.of_nat (length mem) = d -> d < W32 ->
  fifo_wf f /\ fifo_abs f = Chan d [].
Proof.
  unfold fifo_construct. intros H Hl Hd. case_match; simplify_eq.
  split; [split; simpl; lia || done|done].
Qed.

Lemma fifo_empty_abs f : fifo_wf f -> fifo_empty f = chan_empty (fifo_abs f).
Proof.
  intros []. unfold fifo_empty, chan_empty, chan_num. simpl.
  by rewrite ring_length, Z2Nat.id by lia.
Qed.

Lemma fifo_full_abs f : fifo_wf f -> fifo_full f = chan_full (fifo_abs f).
Proof.
  intros []. unfold fifo_full, chan_full, chan_num. simpl.
  by rewrite ring_length, Z2Nat.id by lia.
Qed.

Lemma chan_num_abs f : fifo_wf f -> chan_num (fifo_abs f) = num f.
Proof. intros []. unfold chan_num. simpl. by rewrite ring_length, Z2Nat.id by lia. Qed.

Lemma fifo_push_sim x : sim fifo_abs fifo_wf (fifo_push x) (chan_write x).
Proof.
  intros f Hf. unfold fifo_push, chan_write. mred.
  rewrite chan_num_abs by done. simpl.
  destruct (Z.ltb_spec (num f) (depth f)); [|done].
  pose proof Hf as [[? ?] Hl [? ?] [? ?] Hw].
  rewrite aset_insert by (rewrite Hl, Hw; apply Z.mod_pos_bound; lia). simpl.
  rewrite !u32_small by (unfold is_u32; rewrite ?Hw;
    pose proof (Z.mod_pos_bound (rptr f + num f) (depth f)); lia).
  split_and!; [done|split; simpl; try lia|].
  - by rewrite length_insert.
  - rewrite Hw, Z.add_mod_idemp_l by lia. f_equal. lia.
  - unfold fifo_abs, upd. simpl. f_equal.
    rewrite Z2Nat.inj_add, Nat.add_1_r by lia.
    replace (Z.to_nat (wptr f)) with
      ((Z.to_nat (rptr f) + Z.to_nat (num f)) `mod` Z.to_nat (depth f))%nat
      by (rewrite Hw, Z2Nat.inj_mod, Z2Nat.inj_add by lia; done).
    apply ring_push; lia.
Qed.

(** The cell under the read pointer is the head of the queue. *)
Lemma fifo_front_abs f : fifo_wf f -> 0 < num f ->
  exists x, aget (data f) (rptr f) = Some x /\
    ch_pkts (fifo_abs f) =
      x :: ring (data f) (Z.to_nat (depth f)) (Z.to_nat ((rptr f + 1) mod depth f))
             (Z.to_nat (num f - 1)).
Proof.
  intros [[? ?] Hl [? ?] [? ?] Hw] Hn. rewrite aget_lookup by lia.
  destruct (lookup_lt_is_Some_2 (data f) (Z.to_nat (rptr f))) as [x Hx]; [lia|].
  exists x. split; [done|]. simpl.
  replace (Z.to_nat (num f)) with (S (Z.to_nat (num f - 1))) by lia.
  rewrite (ring_cons _ _ _ _ x) by (done || lia).
  by rewrite Z2Nat.inj_mod, Z2Nat.inj_add by lia.
Qed.

Lemma fifo_front_sim : sim fifo_abs fifo_wf fifo_get_front chan_front.
Proof.
  intros f Hf. unfold fifo_get_front, chan_front. mred.
  destruct (Z.ltb_spec 0 (num f)).
  - destruct (fifo_front_abs f Hf) as (x & -> & Hp); [done|].
    simpl in Hp. rewrite Hp. done.
  - assert (chan_empty (fifo_abs f) = true) as He%chan_empty_spec.
    { rewrite <- fifo_empty_abs by done. unfold fifo_empty. destruct Hf. lia. }
    simpl in He. by rewrite He.
Qed.

Lemma fifo_pop_sim : sim fifo_abs fifo_wf fifo_pop chan_read.
Proof.
  intros f Hf. pose proof (fifo_front_sim f Hf) as Hs.
  unfold fifo_pop, chan_read, fifo_get_front, chan_front in *. mred. revert Hs. mred.
  destruct (Z.ltb_spec 0 (num f)); [|by destruct (head _)].
  destruct (fifo_front_abs f Hf) as (x & -> & Hp); [done|]. simpl in Hp. rewrite Hp. simpl.
  intros _. pose proof Hf as [[? ?] Hl [? ?] [? ?] Hw].
  rewrite !u32_small by (unfold is_u32; lia).
  split_and!; [done|split; simpl; try lia|].
  - apply Z.mod_pos_bound. lia.
  - rewrite Hw, Z.add_mod_idemp_l by lia. f_equal. lia.
  - unfold fifo_abs, upd. simpl. by rewrite Hp.
Qed.

Lemma fifo_clear_sim : sim fifo_abs fifo_wf fifo_clear chan_clear.
Proof.
  intros f [[? ?] Hl [? ?] [? ?] Hw]. unfold fifo_clear, chan_clear. mred.
  split_and!; [done|split; simpl; try lia|done].
  - rewrite Hw. apply Z.mod_pos_bound. lia.
  - rewrite Hw, Z.add_0_r, Z.mod_mod by lia. done.
Qed.

Lemma fifo_reset_sim : sim fifo_abs fifo_wf fifo_reset chan_clear.
Proof.
  intros f [[? ?] Hl [? ?] [? ?] Hw]. unfold fifo_reset, chan_clear. mred.
  split_and!; [done|split; simpl; done || lia|done].
Qed.

End fifo.

#[export] Instance fifo_impl : FifoImpl fifo_t := {
  fi_abs := @fifo_abs;
  fi_wf := @fifo_wf;
  fi_empty := @fifo_empty;
  fi_full := @fifo_full;
  fi_push := @fifo_push;
  fi_pop := @fifo_pop;
  fi_front := @fifo_get_front;
  fi_clear := @fifo_clear
}.

#[export] Instance fifo_laws : FifoLaws fifo_t.
Proof.
  split.
  - exact @fifo_empty_abs.
  - exact @fifo_full_abs.
  - exact @fifo_push_sim.
  - exact @fifo_pop_sim.
  - exact @fifo_front_sim.
  - exact @fifo_clear_sim.
Qed.

(** ** Theorems *)

(** C19: A FIFO built by [fifo_construct] over a block of [depth] cells behaves, for
    every sequence of calls a client makes on it, as the bounded queue [chan]: the two
    fail the same assertion or return the same results, and the ring that is left
    holds exactly the queue's packets in order. *)
Theorem fifo_refines_chan {A} (mem : list A) es d f (ops : list (fifo_op A)) :
  fifo_construct mem es d = Some f -> Z.of_nat (length mem) = d -> d < W32 ->
  match impl_run ops f, spec_run ops (Chan d []) with
  | Some (obs, f'), Some (obs', c) => obs = obs' /\ fifo_wf f' /\ fifo_abs f' = c
  | None, None => True
  | _, _ => False
  end.
Proof.
  intros Hf Hl Hd. destruct (fifo_reset_ok _ _ _ _ Hf Hl Hd) as [Hw Ha].
  rewrite <- Ha. exact (impl_run_sim ops f Hw).
Qed.

Lemma fifo_refines_chan_witness :
  impl_run [OpPush 7; OpPush 8; OpPop; OpPush 9; OpFull; OpFront] (Fifo [0; 0] 4 2 0 0 0)
    ≫= (fun r => Some r.1) =
  Some [ObsUnit; ObsUnit; ObsElem 7; ObsUnit; ObsBool true; ObsElem 8].
Proof.
  pose proof (fifo_refines_chan [0; 0] 4 2 (Fifo [0; 0] 4 2 0 0 0)
    [OpPush 7; OpPush 8; OpPop; OpPush 9; OpFull; OpFront] eq_refl eq_refl eq_refl) as H.
  destruct (impl_run _ _) as [[obs f']|]; [|by vm_compute in H].
  assert (obs = [ObsUnit; ObsUnit; ObsElem 7; ObsUnit; ObsBool true; ObsElem 8]) as ->
    by exact (proj1 H).
  reflexivity.
Defined.
