(* ===== verification/Itf.v ===== *)
(** * Interfaces between modules, FIFO mode

    [itf_fifo_t] is an [itf_t] of [base/model/base/itf.h] in [ITF_MODE_FIFO]: the
    packet ring that carries requests and responses between two modules, with
    the waveform bookkeeping (pending mask, last packet read and written) that
    is active when [vcd_enable] is set.  Trace files are output only and are left
    out; the lock of [sim_prot] interfaces protects calls that are atomic here.

    The theorems show that every operation of the ring simulates [chan], so that
    the models of the other components may use [chan] for their interfaces, and
    that the pending mask always marks exactly the cells in use. *)

From stdpp Require Import base numbers list.
From Stdlib Require Import ZArith Lia.
From S2P Require Import Prelude Fifo.
Open Scope Z_scope.

Record itf_fifo_t (A : Type) := ItfFifo {
  cycle : Z;
  vcd_enable : bool;
  fifo_depth : Z;
  pkts_data : list A;
  pkt_num : Z;
  itf_rptr : Z;
  itf_wptr : Z;
  pkts_pend_mask : list bool;
  read_vld : bool;
  write_vld : bool;
  write_cycle : Z;
  read_cycle : Z;
  read_pkt : option A;
  write_pkt : option A
}.
Arguments ItfFifo {A} _ _ _ _ _ _ _ _ _ _ _ _ _ _.
Arguments cycle {A} _.
Arguments vcd_enable {A} _.
Arguments fifo_depth {A} _.
Arguments pkts_data {A} _.
Arguments pkt_num {A} _.
Arguments itf_rptr {A} _.
Arguments itf_wptr {A} _.
Arguments pkts_pend_mask {A} _.
Arguments read_vld {A} _.
Arguments write_vld {A} _.
Arguments write_cycle {A} _.
Arguments read_cycle {A} _.
Arguments read_pkt {A} _.
Arguments write_pkt {A} _.
#[export] Instance eta_itf_fifo A : Eta (itf_fifo_t A) := fun r =>
  ItfFifo (cycle r) (vcd_enable r) (fifo_depth r) (pkts_data r) (pkt_num r) (itf_rptr r)
    (itf_wptr r) (pkts_pend_mask r) (read_vld r) (write_vld r) (write_cycle r) (read_cycle r)
    (read_pkt r) (write_pkt r).

Section itf.
  Context {A : Type}.
  Implicit Type itf : itf_fifo_t A.

(** [mem] and [mask] are the blocks [malloc] returns for the packets and the
    pending mask; the mask is cleared by [memset]. *)
Definition fifo_itf_construct (cyc : Z) (vcd : bool) (depth : Z) (mem : list A) : itf_fifo_t A :=
  ItfFifo cyc vcd depth mem 0 0 0
    (if vcd then replicate (Z.to_nat depth) false else []) false false 0 0 None None.

Definition itf_reset : M (itf_fifo_t A) unit :=
  modify (fun itf => itf <| pkt_num := 0 |>);;
  modify (fun itf => itf <| itf_rptr := 0 |>);;
  modify (fun itf => itf <| itf_wptr := 0 |>);;
  vcd ← gets vcd_enable;
  when vcd (modify (fun itf =>
    itf <| pkts_pend_mask := replicate (Z.to_nat (fifo_depth itf)) false |>));;
  modify (fun itf => itf <| read_vld := false |>);;
  modify (fun itf => itf <| write_vld := false |>).

Definition fifo_itf_write (pkt : A) : M (itf_fifo_t A) unit :=
  itf ← gets id;
  DBG_CHECK (pkt_num itf <? fifo_depth itf);;
  when (vcd_enable itf)
    (modify (fun itf => itf <| write_pkt := Some pkt |>);;
     m ← of_option (aset (pkts_pend_mask itf) (itf_wptr itf) true);
     modify (fun itf => itf <| pkts_pend_mask := m |>);;
     modify (fun itf => itf <| write_vld := true |>);;
     modify (fun itf => itf <| write_cycle := cycle itf |>));;
  d ← of_option (aset (pkts_data itf) (itf_wptr itf) pkt);
  modify (fun itf => itf <| pkts_data := d |>);;
  modify (fun itf => itf <| pkt_num := u32 (pkt_num itf + 1) |>);;
  modify (fun itf => itf <| itf_wptr := u32 (itf_wptr itf + 1) mod fifo_depth itf |>).

(** The waveform bookkeeping of a packet leaving the ring. *)
Definition vcd_note_read (pkt : A) : M (itf_fifo_t A) unit :=
  itf ← gets id;
  when (vcd_enable itf)
    (modify (fun itf => itf <| read_pkt := Some pkt |>);;
     m ← of_option (aset (pkts_pend_mask itf) (itf_rptr itf) false);
     modify (fun itf => itf <| pkts_pend_mask := m |>);;
     modify (fun itf => itf <| read_vld := true |>);;
     modify (fun itf => itf <| read_cycle := cycle itf |>)).

Definition fifo_itf_read : M (itf_fifo_t A) A :=
  itf ← gets id;
  DBG_CHECK (0 <? pkt_num itf);;
  pkt ← of_option (aget (pkts_data itf) (itf_rptr itf));
  vcd_note_read pkt;;
  modify (fun itf => itf <| pkt_num := u32 (pkt_num itf - 1) |>);;
  modify (fun itf => itf <| itf_rptr := u32 (itf_rptr itf + 1) mod fifo_depth itf |>);;
  mret pkt.

Definition itf_fifo_get_front : M (itf_fifo_t A) A :=
  itf ← gets id;
  DBG_CHECK (0 <? pkt_num itf);;
  of_option (aget (pkts_data itf) (itf_rptr itf)).

Definition itf_fifo_pop_front : M (itf_fifo_t A) unit :=
  itf ← gets id;
  DBG_CHECK (0 <? pkt_num itf);;
  pkt ← of_option (aget (pkts_data itf) (itf_rptr itf));
  vcd_note_read pkt;;
  modify (fun itf => itf <| pkt_num := u32 (pkt_num itf - 1) |>);;
  modify (fun itf => itf <| itf_rptr := u32 (itf_rptr itf + 1) mod fifo_depth itf |>).

(** The [while] loop of [itf_fifo_pop_all]; running out of fuel is a failure. *)
Fixpoint pop_all_loop (fuel : nat) : M (itf_fifo_t A) unit :=
  itf ← gets id;
  if 0 <? pkt_num itf then
    match fuel with
    | O => abort
    | S fuel => itf_fifo_pop_front;; pop_all_loop fuel
    end
  else mret tt.

Definition itf_fifo_pop_all : M (itf_fifo_t A) unit :=
  itf ← gets id;
  pop_all_loop (Z.to_nat (pkt_num itf)).

Definition itf_fifo_empty itf : bool := pkt_num itf =? 0.
Definition itf_fifo_full itf : bool := pkt_num itf =? fifo_depth itf.

Definition fifo_itf_dbg_clock : M (itf_fifo_t A) unit :=
  itf ← gets id;
  if negb (vcd_enable itf) then mret tt
  else
    (when (read_vld itf && (u64 (cycle itf - read_cycle itf) =? 1))
       (modify (fun itf => itf <| read_vld := false |>));;
     when (write_vld itf && (u64 (cycle itf - write_cycle itf) =? 1))
       (modify (fun itf => itf <| write_vld := false |>))).

(** ** Invariant *)

Definition mask_wf itf : Prop :=
  vcd_enable itf = true ->
  Z.of_nat (length (pkts_pend_mask itf)) = fifo_depth itf /\
  forall i, 0 <= i < fifo_depth itf ->
    pkts_pend_mask itf !! Z.to_nat i =
      Some (in_window (fifo_depth itf) (itf_rptr itf) (pkt_num itf) i).

(** The ring of an interface, seen as a [fifo_t]. *)
Definition ring_of itf : fifo_t A :=
  Fifo (pkts_data itf) 1 (fifo_depth itf) (pkt_num itf) (itf_rptr itf) (itf_wptr itf).

Definition itf_wf itf : Prop := fifo_wf (ring_of itf) /\ mask_wf itf.
Definition itf_abs itf : chan A := fifo_abs (ring_of itf).

Lemma itf_construct_ok cyc vcd d (mem : list A) :
  Z.of_nat (length mem) = d -> 0 < d < W32 ->
  itf_wf (fifo_itf_construct cyc vcd d mem) /\
  itf_abs (fifo_itf_construct cyc vcd d mem) = Chan d [].
Proof.
  intros Hl Hd. split; [split|done].
  - split; simpl; done || lia.
  - intros Hv. simpl in *. subst vcd. rewrite length_replicate. split; [lia|].
    intros i Hi. rewrite lookup_replicate_2 by lia. unfold in_window, ring_idx. f_equal.
    case_match; lia.
Qed.

Lemma mask_wf_step itf itf' m j b :
  itf_wf itf -> (vcd_enable itf = true -> 0 <= j < fifo_depth itf ->
    aset (pkts_pend_mask itf) j b = Some m) ->
  vcd_enable itf' = vcd_enable itf -> fifo_depth itf' = fifo_depth itf ->
  (vcd_enable itf = true -> pkts_pend_mask itf' = m) -> 0 <= j < fifo_depth itf ->
  (forall i, 0 <= i < fifo_depth itf ->
    in_window (fifo_depth itf) (itf_rptr itf') (pkt_num itf') i =
    if i =? j then b else in_window (fifo_depth itf) (itf_rptr itf) (pkt_num itf) i) ->
  mask_wf itf'.
Proof.
  intros [_ Hm] Hs Hv Hd Hp Hj Hw Hv'. rewrite Hv in Hv'.
  destruct (Hm Hv') as [Hl Hi].
  destruct (aset_Some _ _ _ _ (Hs Hv' Hj)) as [_ ->].
  rewrite (Hp Hv'), Hd, length_insert. split; [done|]. intros i Hr.
  rewrite Hw, list_lookup_insert by done.
  destruct (Z.eqb_spec i j) as [->|Hne].
  - rewrite decide_True by lia. done.
  - rewrite decide_False by lia. by apply Hi.
Qed.

Lemma itf_ring_wptr itf : fifo_wf (ring_of itf) ->
  itf_wptr itf = let x := itf_rptr itf + pkt_num itf in
                 if x <? fifo_depth itf then x else x - fifo_depth itf.
Proof. intros [[? ?] ? [? ?] [? ?] Hw]. simpl in *. rewrite Hw. apply mod_wrap. lia. Qed.

(** A mask update at a cell of the ring does not fail. *)
Lemma mask_aset itf j b : mask_wf itf -> vcd_enable itf = true -> 0 <= j < fifo_depth itf ->
  aset (pkts_pend_mask itf) j b = Some (<[Z.to_nat j := b]> (pkts_pend_mask itf)).
Proof. intros Hm Hv Hj. apply aset_insert. destruct (Hm Hv). lia. Qed.

Lemma fifo_itf_write_ring x : sim ring_of itf_wf (fifo_itf_write x) (fifo_push x).
Proof.
  intros itf [Hf Hm]. pose proof (fifo_push_sim x _ Hf) as Hs. revert Hs.
  pose proof Hf as [[? ?] Hl [? ?] [? ?] _]. simpl in *.
  pose proof (itf_ring_wptr _ Hf) as Hw. cbv zeta in Hw.
  unfold fifo_itf_write, fifo_push. mred.
  destruct (Z.ltb_spec (pkt_num itf) (fifo_depth itf)); [|done].
  assert (0 <= itf_wptr itf < fifo_depth itf) by (rewrite Hw; case_match; lia).
  assert (forall i, 0 <= i < fifo_depth itf ->
    in_window (fifo_depth itf) (itf_rptr itf) (u32 (pkt_num itf + 1)) i =
    if i =? itf_wptr itf then true
    else in_window (fifo_depth itf) (itf_rptr itf) (pkt_num itf) i) as Hwin.
  { intros i Hi. rewrite u32_small by (unfold is_u32; lia). unfold in_window, ring_idx.
    rewrite Hw. repeat case_match; lia. }
  rewrite aset_insert by lia. simpl. destruct (chan_write _ _) as [[y c]|]; [|done]. intros (_ & Hf' & _).
  destruct (vcd_enable itf) eqn:Hv; simpl; [rewrite mask_aset by done; simpl|].
  - split_and!; [done| |done]. split; [exact Hf'|].
    eapply (mask_wf_step itf _ _ (itf_wptr itf) true); simpl; done || by apply mask_aset.
  - split_and!; [done| |done]. split; [exact Hf'|]. intros Hv'. simpl in *. congruence.
Qed.

Lemma window_shift itf i : fifo_wf (ring_of itf) -> 0 < pkt_num itf ->
  0 <= i < fifo_depth itf ->
  in_window (fifo_depth itf) (u32 (itf_rptr itf + 1) mod fifo_depth itf)
    (u32 (pkt_num itf - 1)) i =
  if i =? itf_rptr itf then false
  else in_window (fifo_depth itf) (itf_rptr itf) (pkt_num itf) i.
Proof.
  intros [[? ?] Hl [? ?] [? ?] _] Hn Hi. simpl in *.
  rewrite !u32_small, mod_wrap by (unfold is_u32; lia). unfold in_window, ring_idx.
  repeat case_match; lia.
Qed.

Lemma fifo_itf_read_ring : sim ring_of itf_wf fifo_itf_read fifo_pop.
Proof.
  intros itf [Hf Hm]. pose proof (fifo_pop_sim _ Hf) as Hs. revert Hs.
  pose proof Hf as [[? ?] Hl [? ?] [? ?] _]. simpl in *.
  unfold fifo_itf_read, vcd_note_read, fifo_pop. mred.
  destruct (Z.ltb_spec 0 (pkt_num itf)); [|done].
  destruct (fifo_front_abs _ Hf) as (x & Hx & _); [done|]. simpl in Hx. rewrite Hx. simpl.
  destruct (chan_read _) as [[y c]|]; [|done]. intros (_ & Hf' & _).
  destruct (vcd_enable itf) eqn:Hv; simpl; [rewrite mask_aset by done; simpl|].
  - split_and!; [done| |done]. split; [exact Hf'|].
    eapply (mask_wf_step itf _ _ (itf_rptr itf) false); simpl; try done.
    + by apply mask_aset.
    + intros i Hi. by apply window_shift.
  - split_and!; [done| |done]. split; [exact Hf'|]. intros Hv'. simpl in *. congruence.
Qed.

Lemma itf_wf_ring itf : itf_wf itf -> fifo_wf (ring_of itf).
Proof. by intros []. Qed.

Lemma fifo_itf_write_sim x : sim itf_abs itf_wf (fifo_itf_write x) (chan_write x).
Proof.
  exact (sim_trans _ _ _ _ _ _ _ (fifo_itf_write_ring x) (fifo_push_sim x) itf_wf_ring).
Qed.

Lemma fifo_itf_read_sim : sim itf_abs itf_wf fifo_itf_read chan_read.
Proof. exact (sim_trans _ _ _ _ _ _ _ fifo_itf_read_ring fifo_pop_sim itf_wf_ring). Qed.

Lemma itf_fifo_get_front_sim : sim itf_abs itf_wf itf_fifo_get_front chan_front.
Proof.
  intros itf Hf. pose proof (fifo_front_sim _ (itf_wf_ring _ Hf)) as Hs. revert Hs.
  unfold itf_fifo_get_front, fifo_get_front. mred. unfold itf_abs.
  destruct (0 <? pkt_num itf); [|done].
  destruct (aget _ _) as [x|], (chan_front _) as [[y c]|]; try done.
  intros (? & _ & ?). done.
Qed.

(** [itf_fifo_pop_front] is a read whose packet is dropped. *)
Lemma itf_fifo_pop_front_read itf :
  itf_fifo_pop_front itf = (x ← fifo_itf_read itf; Some (tt, snd x)).
Proof.
  unfold itf_fifo_pop_front, fifo_itf_read. unfold mbind at 1, M_bind at 1. mred.
  destruct (0 <? pkt_num itf); [|done]. destruct (aget _ _); [|done].
  destruct (vcd_note_read _ _) as [[[] ?]|]; done.
Qed.

Lemma itf_pop_front_abs itf : itf_wf itf -> 0 < pkt_num itf ->
  exists itf', itf_fifo_pop_front itf = Some (tt, itf') /\ itf_wf itf' /\
    pkt_num itf' = pkt_num itf - 1 /\ fifo_depth itf' = fifo_depth itf.
Proof.
  intros Hf Hn. rewrite itf_fifo_pop_front_read.
  pose proof (fifo_itf_read_ring itf Hf) as Hs.
  destruct (fifo_front_abs _ (itf_wf_ring _ Hf)) as (x & Hx & _); [done|]. simpl in Hx.
  revert Hs. unfold fifo_pop. mred. rewrite (proj2 (Z.ltb_lt 0 (pkt_num itf))), Hx by done.
  destruct (fifo_itf_read itf) as [[y itf']|]; [|done].
  intros (_ & Hf' & Heq). exists itf'. split_and!; [done|done|..].
  - apply (f_equal num) in Heq. simpl in Heq. rewrite Heq. apply u32_small.
    pose proof (itf_wf_ring _ Hf) as [? _ ? _ _]. simpl in *. unfold is_u32. lia.
  - by apply (f_equal depth) in Heq.
Qed.

Lemma pop_all_loop_ok n itf : itf_wf itf -> pkt_num itf = Z.of_nat n ->
  exists itf', pop_all_loop n itf = Some (tt, itf') /\ itf_wf itf' /\
    pkt_num itf' = 0 /\ fifo_depth itf' = fifo_depth itf.
Proof.
  revert itf. induction n as [|n IH]; intros itf Hf Hn; simpl; mred; rewrite Hn.
  - exists itf. done.
  - rewrite (proj2 (Z.ltb_lt 0 _)) by lia.
    destruct (itf_pop_front_abs itf Hf) as (itf1 & -> & Hf1 & Hn1 & Hd1); [lia|].
    destruct (IH itf1 Hf1) as (itf2 & -> & Hf2 & Hn2 & Hd2); [lia|].
    exists itf2. split_and!; [done..|congruence].
Qed.

Lemma itf_fifo_pop_all_sim : sim itf_abs itf_wf itf_fifo_pop_all chan_clear.
Proof.
  intros itf Hf. unfold itf_fifo_pop_all, chan_clear. mred.
  pose proof (itf_wf_ring _ Hf) as [? _ ? _ _]. simpl in *.
  destruct (pop_all_loop_ok (Z.to_nat (pkt_num itf)) itf Hf) as (itf' & -> & Hf' & Hn & Hd);
    [lia|].
  split_and!; [done|done|]. unfold itf_abs, fifo_abs, upd. simpl. by rewrite Hn, Hd.
Qed.

Lemma itf_reset_sim : sim itf_abs itf_wf itf_reset chan_clear.
Proof.
  intros itf [[[? ?] Hl [? ?] [? ?] Hw] Hm]. simpl in *. unfold itf_reset, chan_clear. mred.
  destruct (vcd_enable itf) eqn:Hv; simpl.
  - split_and!; [done|split|done].
    + split; simpl; done || lia.
    + intros _. simpl. rewrite length_replicate. split; [lia|]. intros i Hi.
      rewrite lookup_replicate_2 by lia. unfold in_window, ring_idx. f_equal. case_match; lia.
  - split_and!; [done|split|done].
    + split; simpl; done || lia.
    + intros Hv'. simpl in *. congruence.
Qed.

End itf.

#[export] Instance itf_impl : FifoImpl itf_fifo_t := {
  fi_abs := @itf_abs;
  fi_wf := @itf_wf;
  fi_empty := @itf_fifo_empty;
  fi_full := @itf_fifo_full;
  fi_push := @fifo_itf_write;
  fi_pop := @fifo_itf_read;
  fi_front := @itf_fifo_get_front;
  fi_clear := @itf_fifo_pop_all
}.

#[export] Instance itf_laws : FifoLaws itf_fifo_t.
Proof.
  split.
  - intros A f Hf. exact (fifo_empty_abs _ (itf_wf_ring _ Hf)).
  - intros A f Hf. exact (fifo_full_abs _ (itf_wf_ring _ Hf)).
  - exact @fifo_itf_write_sim.
  - exact @fifo_itf_read_sim.
  - exact @itf_fifo_get_front_sim.
  - exact @itf_fifo_pop_all_sim.
Qed.

(** ** Theorems *)

(** C20: An interface FIFO behaves, for every sequence of calls of its two ends, as the
    bounded queue [chan], whether or not waveforms are recorded; and after any of
    them the pending mask the waveform shows marks exactly the cells that hold an
    unread packet. *)
Theorem itf_fifo_refines_chan {A} cyc vcd d (mem : list A) (ops : list (fifo_op A)) :
  Z.of_nat (length mem) = d -> 0 < d < W32 ->
  match impl_run ops (fifo_itf_construct cyc vcd d mem), spec_run ops (Chan d []) with
  | Some (obs, itf'), Some (obs', c) =>
    obs = obs' /\ itf_abs itf' = c /\ fifo_wf (ring_of itf') /\ mask_wf itf'
  | None, None => True
  | _, _ => False
  end.
Proof.
  intros Hl Hd. destruct (itf_construct_ok cyc vcd d mem Hl Hd) as [Hw Ha].
  pose proof (impl_run_sim ops _ Hw) as H. simpl fi_abs in H. rewrite Ha in H.
  destruct (impl_run _ _) as [[obs f']|], (spec_run _ _) as [[obs' c]|]; try done.
  by destruct H as (-> & [Hf Hm] & <-).
Qed.

Lemma itf_fifo_refines_chan_witness :
  exists itf', impl_run [OpPush 7; OpPush 8; OpPop] (fifo_itf_construct 0 true 3 [0; 0; 0])
    = Some ([ObsUnit; ObsUnit; ObsElem 7], itf') /\
  itf_abs itf' = Chan 3 [8] /\ mask_wf itf'.
Proof.
  pose proof (itf_fifo_refines_chan 0 true 3 [0; 0; 0] [OpPush 7; OpPush 8; OpPop]
    eq_refl ltac:(by split)) as H.
  destruct (impl_run _ _) as [[obs itf']|]; [|by vm_compute in H].
  assert (obs = [ObsUnit; ObsUnit; ObsElem 7]) as -> by exact (proj1 H).
  exists itf'. split; [reflexivity|].
  split; [exact (proj1 (proj2 H))|exact (proj2 (proj2 (proj2 H)))].
Defined.
