(* ===== verification/Ost.v ===== *)
(** * Outstanding-transaction tables

    [base/model/base/ost.c]: the tables in which the bus masters keep the context
    of every request that waits for a response.  [ostq_t] retires in order: a ring
    whose head is freed and whose slot is recycled by the next clock.  [ostk_t] is
    looked up by key and retires in any order; the oldest entry of a key is the one
    found.  Freed slots stay unusable until the clock edge ([free_pending]).

    An entry's context is a block of [ctx_size] bytes, a value of type [A] here;
    [zero] is the block cleared by [memset].  With [ctx_size = 0] there is no block
    and nothing is copied. *)

From stdpp Require Import base numbers list.
From Stdlib Require Import ZArith Lia.
From S2P Require Import Prelude Fifo.
Open Scope Z_scope.

(** The value a zeroed block of memory holds. *)
Class Zero (A : Type) := zero : A.

Section ctx.
  Context {A : Type} `{!Zero A}.

Definition ost_copy_to_slot (entry_ctx : A) (ctx_size : Z) (ctx : A) : A :=
  if ctx_size =? 0 then entry_ctx else ctx.

Definition ost_clear_slot_ctx (entry_ctx : A) (ctx_size : Z) : A :=
  if ctx_size =? 0 then entry_ctx else zero.

End ctx.

(** ** In-order table *)

Record ostq_entry_t (A : Type) := OstqEntry { q_vld : bool; q_free_pending : bool; q_ctx : A }.
Arguments OstqEntry {A} _ _ _.
Arguments q_vld {A} _.
Arguments q_free_pending {A} _.
Arguments q_ctx {A} _.
#[export] Instance eta_ostq_entry A : Eta (ostq_entry_t A) := fun e =>
  OstqEntry (q_vld e) (q_free_pending e) (q_ctx e).

Record ostq_t (A : Type) := Ostq {
  q_entries : list (ostq_entry_t A);
  q_depth : Z;
  q_ctx_size : Z;
  q_count : Z;
  q_free_pending_count : Z;
  q_rptr : Z;
  q_wptr : Z
}.
Arguments Ostq {A} _ _ _ _ _ _ _.
Arguments q_entries {A} _.
Arguments q_depth {A} _.
Arguments q_ctx_size {A} _.
Arguments q_count {A} _.
Arguments q_free_pending_count {A} _.
Arguments q_rptr {A} _.
Arguments q_wptr {A} _.
#[export] Instance eta_ostq A : Eta (ostq_t A) := fun o =>
  Ostq (q_entries o) (q_depth o) (q_ctx_size o) (q_count o) (q_free_pending_count o)
    (q_rptr o) (q_wptr o).

Section ostq.
  Context {A : Type} `{!Zero A}.
  Implicit Types (ost : ostq_t A) (ctx : A).

Definition ostq_full ost : bool := q_count ost =? q_depth ost.
Definition ostq_empty ost : bool := q_count ost =? 0.

(** [ost->entries[i]] read and written back. *)
Definition q_get (i : Z) : M (ostq_t A) (ostq_entry_t A) :=
  ost ← gets id;
  of_option (aget (q_entries ost) i).

Definition q_set (i : Z) (e : ostq_entry_t A) : M (ostq_t A) unit :=
  ost ← gets id;
  l ← of_option (aset (q_entries ost) i e);
  modify (fun ost => ost <| q_entries := l |>).

Definition ostq_reset : M (ostq_t A) unit :=
  modify (fun ost => ost <| q_entries :=
    (fun e => OstqEntry false false (ost_clear_slot_ctx (q_ctx e) (q_ctx_size ost)))
      <$> q_entries ost |>);;
  modify (fun ost => ost <| q_count := 0 |>);;
  modify (fun ost => ost <| q_free_pending_count := 0 |>);;
  modify (fun ost => ost <| q_rptr := 0 |>);;
  modify (fun ost => ost <| q_wptr := 0 |>).

(** The entry contexts are blocks of zeros when [ctx_size] is not 0, [NULL] otherwise. *)
Definition ostq_construct (ctx_size depth : Z) : option (ostq_t A) :=
  if 0 <? depth then
    snd <$> ostq_reset
      (Ostq (replicate (Z.to_nat depth) (OstqEntry false false zero)) depth ctx_size 0 0 0 0)
  else None.

Definition ostq_slot_valid (slot : Z) : M (ostq_t A) bool :=
  ost ← gets id;
  DBG_CHECK (slot <? q_depth ost);;
  e ← q_get slot;
  mret (q_vld e && negb (q_free_pending e)).

(** The loop of [ostq_clock_slow]; each turn recycles the head, so [count] turns are enough. *)
Fixpoint ostq_clock_loop (fuel : nat) : M (ostq_t A) unit :=
  ost ← gets id;
  if 0 <? q_count ost then
    match fuel with
    | O => abort
    | S fuel =>
      entry ← q_get (q_rptr ost);
      DBG_CHECK (q_vld entry);;
      if negb (q_free_pending entry) then mret tt
      else
        q_set (q_rptr ost)
          (OstqEntry false false (ost_clear_slot_ctx (q_ctx entry) (q_ctx_size ost)));;
        modify (fun ost => ost <| q_count := u32 (q_count ost - 1) |>);;
        DBG_CHECK (0 <? q_free_pending_count ost);;
        modify (fun ost => ost <| q_free_pending_count := u32 (q_free_pending_count ost - 1) |>);;
        modify (fun ost => ost <| q_rptr := u32 (q_rptr ost + 1) mod q_depth ost |>);;
        ostq_clock_loop fuel
    end
  else mret tt.

Definition ostq_clock_slow : M (ostq_t A) unit :=
  ost ← gets id;
  if q_free_pending_count ost =? 0 then mret tt
  else ostq_clock_loop (Z.to_nat (q_count ost)).

Definition ostq_clock : M (ostq_t A) unit :=
  ost ← gets id;
  when (negb (q_free_pending_count ost =? 0)) ostq_clock_slow.

(** [None] is the return value [false]; otherwise the slot the context went to. *)
Definition ostq_alloc ctx : M (ostq_t A) (option Z) :=
  ost ← gets id;
  if ostq_full ost then mret None
  else
    let idx := q_wptr ost in
    entry ← q_get idx;
    DBG_CHECK (negb (q_vld entry));;
    q_set idx (OstqEntry true false (ost_copy_to_slot (q_ctx entry) (q_ctx_size ost) ctx));;
    modify (fun ost => ost <| q_count := u32 (q_count ost + 1) |>);;
    modify (fun ost => ost <| q_wptr := u32 (idx + 1) mod q_depth ost |>);;
    mret (Some idx).

(** [None] is the return value [false]; otherwise the head's context and slot. *)
Definition ostq_peek_head : M (ostq_t A) (option (A * Z)) :=
  ost ← gets id;
  if ostq_empty ost then mret None
  else
    entry ← q_get (q_rptr ost);
    DBG_CHECK (q_vld entry);;
    if q_free_pending entry then mret None
    else mret (Some (q_ctx entry, q_rptr ost)).

Definition ostq_free_head : M (ostq_t A) unit :=
  ost ← gets id;
  DBG_CHECK (negb (ostq_empty ost));;
  entry ← q_get (q_rptr ost);
  DBG_CHECK (q_vld entry);;
  DBG_CHECK (negb (q_free_pending entry));;
  q_set (q_rptr ost) (entry <| q_free_pending := true |>);;
  modify (fun ost => ost <| q_free_pending_count := u32 (q_free_pending_count ost + 1) |>).

Definition ostq_read_slot (slot : Z) : M (ostq_t A) A :=
  ok ← ostq_slot_valid slot;
  DBG_CHECK ok;;
  e ← q_get slot;
  mret (q_ctx e).

Definition ostq_write_slot (slot : Z) ctx : M (ostq_t A) unit :=
  ok ← ostq_slot_valid slot;
  DBG_CHECK ok;;
  ost ← gets id;
  e ← q_get slot;
  q_set slot (e <| q_ctx := ost_copy_to_slot (q_ctx e) (q_ctx_size ost) ctx |>).

End ostq.

(** ** Specification of the in-order table

    A queue of contexts, oldest first, that occupy consecutive slots from [oq_base]
    on; [oq_freed] says that the oldest one has been freed and disappears at the
    next clock. *)
Record oq (A : Type) := Oq { oq_depth : Z; oq_base : Z; oq_ctxs : list A; oq_freed : bool }.
Arguments Oq {A} _ _ _ _.
Arguments oq_depth {A} _.
Arguments oq_base {A} _.
Arguments oq_ctxs {A} _.
Arguments oq_freed {A} _.
#[export] Instance eta_oq A : Eta (oq A) := fun o =>
  Oq (oq_depth o) (oq_base o) (oq_ctxs o) (oq_freed o).

Section oq.
  Context {A : Type}.
  Implicit Types (o : oq A) (ctx : A).

Definition oq_len o : Z := Z.of_nat (length (oq_ctxs o)).

Definition oq_alloc ctx : M (oq A) (option Z) :=
  o ← gets id;
  if oq_len o =? oq_depth o then mret None
  else
    modify (fun o => o <| oq_ctxs := oq_ctxs o ++ [ctx] |>);;
    mret (Some ((oq_base o + oq_len o) mod oq_depth o)).

Definition oq_peek_head : M (oq A) (option (A * Z)) :=
  o ← gets id;
  mret (if oq_freed o then None else (fun c => (c, oq_base o)) <$> head (oq_ctxs o)).

Definition oq_free_head : M (oq A) unit :=
  o ← gets id;
  DBG_CHECK (negb (oq_len o =? 0) && negb (oq_freed o));;
  modify (fun o => o <| oq_freed := true |>).

Definition oq_clock : M (oq A) unit :=
  o ← gets id;
  when (oq_freed o)
    (modify (fun o => Oq (oq_depth o) ((oq_base o + 1) mod oq_depth o) (tail (oq_ctxs o)) false)).

Definition oq_slot_ok (slot : Z) o : bool :=
  in_window (oq_depth o) (oq_base o) (oq_len o) slot && negb (oq_freed o && (slot =? oq_base o)).

Definition oq_read_slot (slot : Z) : M (oq A) A :=
  o ← gets id;
  DBG_CHECK ((0 <=? slot) && (slot <? oq_depth o));;
  DBG_CHECK (oq_slot_ok slot o);;
  of_option (oq_ctxs o !! Z.to_nat (ring_idx (oq_depth o) (oq_base o) slot)).

Definition oq_write_slot (slot : Z) ctx : M (oq A) unit :=
  o ← gets id;
  DBG_CHECK ((0 <=? slot) && (slot <? oq_depth o));;
  DBG_CHECK (oq_slot_ok slot o);;
  modify (fun o =>
    o <| oq_ctxs := <[Z.to_nat (ring_idx (oq_depth o) (oq_base o) slot) := ctx]> (oq_ctxs o) |>).

End oq.

Section ostq_facts.
  Context {A : Type} `{!Zero A}.
  Implicit Types (ost : ostq_t A) (ctx : A).

Definition q_freed ost : bool := q_free_pending_count ost =? 1.

Record ostq_wf ost : Prop := {
  qwf_depth : 0 < q_depth ost < W32;
  qwf_ctx_size : q_ctx_size ost <> 0;
  qwf_entries : Z.of_nat (length (q_entries ost)) = q_depth ost;
  qwf_count : 0 <= q_count ost <= q_depth ost;
  qwf_rptr : 0 <= q_rptr ost < q_depth ost;
  qwf_wptr : q_wptr ost = (q_rptr ost + q_count ost) mod q_depth ost;
  qwf_pending : q_free_pending_count ost = 0 \/
                (q_free_pending_count ost = 1 /\ 0 < q_count ost);
  qwf_flags : forall i e, aget (q_entries ost) i = Some e ->
    q_vld e = in_window (q_depth ost) (q_rptr ost) (q_count ost) i /\
    q_free_pending e = q_freed ost && (i =? q_rptr ost)
}.

Definition ostq_abs ost : oq A :=
  Oq (q_depth ost) (q_rptr ost)
    (ring (q_ctx <$> q_entries ost) (Z.to_nat (q_depth ost)) (Z.to_nat (q_rptr ost))
       (Z.to_nat (q_count ost)))
    (q_freed ost).

Lemma oq_len_abs ost : ostq_wf ost -> oq_len (ostq_abs ost) = q_count ost.
Proof.
  intros []. unfold oq_len. simpl. rewrite ring_length; rewrite ?length_fmap; lia.
Qed.

Lemma in_window_self d r n : 0 < n -> in_window d r n r = true.
Proof. intros. unfold in_window, ring_idx. case_match; lia. Qed.

Lemma ostq_wptr_cases ost : ostq_wf ost -> q_count ost < q_depth ost ->
  q_wptr ost = let x := q_rptr ost + q_count ost in
               if x <? q_depth ost then x else x - q_depth ost.
Proof. intros [] ?. rewrite qwf_wptr0. apply mod_wrap. lia. Qed.

Lemma ostq_entry ost i : ostq_wf ost -> 0 <= i < q_depth ost ->
  exists e, aget (q_entries ost) i = Some e /\
    q_vld e = in_window (q_depth ost) (q_rptr ost) (q_count ost) i /\
    q_free_pending e = q_freed ost && (i =? q_rptr ost).
Proof.
  intros Hw Hi. destruct (aget_is_Some (q_entries ost) i) as [e He].
  { by rewrite qwf_entries. }
  exists e. split; [done|]. by apply qwf_flags.
Qed.

Lemma ostq_alloc_sim ctx : sim ostq_abs ostq_wf (ostq_alloc ctx) (oq_alloc ctx).
Proof.
  intros ost Hw. unfold ostq_alloc, oq_alloc, q_get, q_set, ostq_full. mred.
  rewrite oq_len_abs by done. simpl.
  destruct (Z.eqb_spec (q_count ost) (q_depth ost)); [done|].
  pose proof Hw as [[? ?] ? Hl [? ?] [? ?] Hwp Hpd Hfl].
  pose proof (ostq_wptr_cases ost Hw ltac:(lia)) as Hwc. cbv zeta in Hwc.
  assert (0 <= q_wptr ost < q_depth ost) as Hwr by (rewrite Hwc; case_match; lia).
  destruct (ostq_entry ost (q_wptr ost) Hw Hwr) as (e & He & Hv & Hp).
  rewrite He. simpl.
  assert (q_vld e = false) as ->
    by (rewrite Hv; unfold in_window, ring_idx; repeat case_match; lia).
  simpl. rewrite aset_insert by lia. simpl.
  unfold ost_copy_to_slot. rewrite (proj2 (Z.eqb_neq _ _)) by done.
  rewrite !u32_small by (unfold is_u32; lia).
  split_and!; [by rewrite <- Hwp|split; simpl; try done; try lia|].
  - by rewrite length_insert.
  - rewrite Hwp, Z.add_mod_idemp_l by lia. f_equal. lia.
  - intros i e' He'. rewrite aget_insert in He' by lia.
    destruct (Z.eqb_spec i (q_wptr ost)) as [->|Hne].
    + simplify_eq. simpl. split.
      * unfold in_window, ring_idx. repeat case_match; lia.
      * unfold q_freed. simpl. repeat case_match; lia.
    + destruct (Hfl _ _ He') as [-> ->]. split; [|done].
      apply aget_Some in He'. unfold in_window, ring_idx. repeat case_match; lia.
  - unfold ostq_abs, upd, q_freed. simpl. f_equal.
    rewrite list_fmap_insert. simpl.
    rewrite Z2Nat.inj_add, Nat.add_1_r by lia.
    replace (Z.to_nat (q_wptr ost)) with
      ((Z.to_nat (q_rptr ost) + Z.to_nat (q_count ost)) `mod` Z.to_nat (q_depth ost))%nat
      by (rewrite Hwp, Z2Nat.inj_mod, Z2Nat.inj_add by lia; done).
    apply ring_push; rewrite ?length_fmap; lia.
Qed.

(** The entry under the read pointer is the head of the queue. *)
Lemma ostq_head ost : ostq_wf ost -> 0 < q_count ost ->
  exists e, aget (q_entries ost) (q_rptr ost) = Some e /\ q_vld e = true /\
    q_free_pending e = q_freed ost /\ head (oq_ctxs (ostq_abs ost)) = Some (q_ctx e).
Proof.
  intros Hw Hn. pose proof Hw as [[? ?] ? Hl [? ?] [? ?] Hwp Hpd Hfl].
  destruct (ostq_entry ost (q_rptr ost) Hw) as (e & He & Hv & Hp); [lia|].
  exists e. split_and!; [done| |by rewrite Hp, Z.eqb_refl, andb_true_r|].
  - rewrite Hv. by apply in_window_self.
  - simpl. replace (Z.to_nat (q_count ost)) with (S (Z.to_nat (q_count ost - 1))) by lia.
    rewrite (ring_cons _ _ _ _ (q_ctx e)); [done|lia|].
    rewrite aget_lookup in He by lia. by rewrite list_lookup_fmap, He.
Qed.

Lemma ostq_empty_head ost : ostq_wf ost -> q_count ost = 0 -> oq_ctxs (ostq_abs ost) = [].
Proof. intros _ Hn. simpl. by rewrite Hn. Qed.

Lemma ostq_peek_head_sim : sim ostq_abs ostq_wf ostq_peek_head oq_peek_head.
Proof.
  intros ost Hw. unfold ostq_peek_head, oq_peek_head, q_get, ostq_empty. mred.
  destruct (Z.eqb_spec (q_count ost) 0) as [Hn|Hn].
  - pose proof (ostq_empty_head ost Hw Hn) as Hh. simpl in Hh. rewrite Hh.
    split_and!; [by destruct (q_freed ost)|done..].
  - destruct (ostq_head ost Hw) as (e & He & Hv & Hp & Hh); [destruct Hw; lia|].
    simpl in Hh. rewrite He. simpl. rewrite Hv. simpl. rewrite Hp, Hh.
    by destruct (q_freed ost).
Qed.

Lemma ostq_free_head_sim : sim ostq_abs ostq_wf ostq_free_head oq_free_head.
Proof.
  intros ost Hw. unfold ostq_free_head, oq_free_head, q_get, q_set, ostq_empty. mred.
  rewrite oq_len_abs by done.
  destruct (Z.eqb_spec (q_count ost) 0) as [Hn|Hn]; [done|]. simpl.
  pose proof Hw as [[? ?] ? Hl [? ?] [? ?] Hwp Hpd Hfl].
  destruct (ostq_head ost Hw) as (e & He & Hv & Hp & Hh); [lia|].
  rewrite He. simpl. rewrite Hv. simpl. rewrite Hp.
  destruct (q_freed ost) eqn:Hf; [done|]. simpl.
  rewrite aset_insert by lia. simpl.
  assert (q_free_pending_count ost = 0) as Hz by (unfold q_freed in Hf; lia).
  rewrite Hz. change (u32 (0 + 1)) with 1.
  split_and!; [done|split; simpl; try done; try lia|].
  - by rewrite length_insert.
  - intros i e' He'. rewrite aget_insert in He' by lia. unfold q_freed. simpl.
    destruct (Z.eqb_spec i (q_rptr ost)) as [->|Hne].
    + simplify_eq. simpl. split; [|done]. rewrite Hv. symmetry. apply in_window_self. lia.
    + destruct (Hfl _ _ He') as [-> ->]. split; [done|].
      destruct (Z.eqb_spec i (q_rptr ost)); [done|]. by rewrite !andb_false_r.
  - unfold ostq_abs, upd. simpl. f_equal.
    rewrite list_fmap_insert. simpl. f_equal.
    apply list_insert_id. rewrite list_lookup_fmap.
    rewrite aget_lookup in He by lia. by rewrite He.
Qed.

(** The loop stops at once at a head that is not freed. *)
Lemma ostq_clock_loop_stop n ost : ostq_wf ost -> q_freed ost = false ->
  n = Z.to_nat (q_count ost) -> ostq_clock_loop n ost = Some (tt, ost).
Proof.
  intros Hw Hf Hn. destruct n as [|n]; simpl; unfold q_get; mred.
  - destruct (Z.ltb_spec 0 (q_count ost)); [lia|done].
  - destruct (Z.ltb_spec 0 (q_count ost)); [|lia].
    destruct (ostq_head ost Hw) as (e & -> & Hv & Hp & _); [lia|]. simpl.
    by rewrite Hv, Hp, Hf.
Qed.

(** What the clock does to a table whose head has been freed. *)
Definition ostq_retire ost : ostq_t A :=
  Ostq (<[Z.to_nat (q_rptr ost) := OstqEntry false false zero]> (q_entries ost)) (q_depth ost)
    (q_ctx_size ost) (q_count ost - 1) 0 ((q_rptr ost + 1) mod q_depth ost) (q_wptr ost).

Lemma ostq_retire_ok ost : ostq_wf ost -> 0 < q_count ost ->
  ostq_wf (ostq_retire ost) /\
  ostq_abs (ostq_retire ost) =
    Oq (q_depth ost) ((q_rptr ost + 1) mod q_depth ost) (tail (oq_ctxs (ostq_abs ost))) false.
Proof.
  intros Hw Hn. pose proof Hw as [[? ?] ? Hl [? ?] [? ?] Hwp Hpd Hfl].
  destruct (ostq_head ost Hw Hn) as (e & He & _).
  pose proof (mod_wrap (q_rptr ost + 1) (q_depth ost) ltac:(lia)) as Hr.
  split; [split; simpl; try done; try lia|].
  - by rewrite length_insert.
  - rewrite Hr. case_match; lia.
  - rewrite Hwp, Z.add_mod_idemp_l by lia. f_equal. lia.
  - intros i e' He'. rewrite aget_insert in He' by lia. rewrite Hr.
    destruct (Z.eqb_spec i (q_rptr ost)) as [->|Hne].
    + simplify_eq. simpl. split; [|done].
      unfold in_window, ring_idx. repeat case_match; lia.
    + destruct (Hfl _ _ He') as [-> ->]. apply aget_Some in He'. split.
      * unfold in_window, ring_idx. repeat case_match; lia.
      * destruct (Z.eqb_spec i (q_rptr ost)); [done|]. by rewrite andb_false_r.
  - unfold ostq_abs, ostq_retire. simpl. f_equal.
    replace (Z.to_nat (q_count ost)) with (S (Z.to_nat (q_count ost - 1))) by lia.
    rewrite (ring_cons _ _ (Z.to_nat (q_rptr ost)) _ (q_ctx e)); simpl; [|lia|].
    + rewrite list_fmap_insert. simpl. rewrite Z2Nat.inj_mod, Z2Nat.inj_add by lia.
      apply ring_insert_out. intros k Hk. rewrite Nat.Div0.add_mod_idemp_l.
      intros E. rewrite <- Nat.add_assoc in E.
      rewrite <- (Nat.mod_small (Z.to_nat (q_rptr ost)) (Z.to_nat (q_depth ost))) in E at 2 by lia.
      rewrite <- (Nat.add_0_r (Z.to_nat (q_rptr ost))) in E at 2.
      apply ring_cell_inj in E; lia.
    + rewrite aget_lookup in He by lia. by rewrite list_lookup_fmap, He.
Qed.

Lemma ostq_clock_retire ost : ostq_wf ost -> q_freed ost = true ->
  ostq_clock ost = Some (tt, ostq_retire ost).
Proof.
  intros Hw Hf. pose proof Hw as [[? ?] ? Hl [? ?] [? ?] Hwp Hpd Hfl].
  assert (q_free_pending_count ost = 1 /\ 0 < q_count ost) as [Hz Hn]
    by (unfold q_freed in Hf; lia).
  destruct (ostq_head ost Hw Hn) as (e & He & Hv & Hp & _).
  unfold ostq_clock, ostq_clock_slow. mred. rewrite Hz. simpl. rewrite Hz. simpl.
  replace (Z.to_nat (q_count ost)) with (S (Z.to_nat (q_count ost - 1))) by lia.
  simpl. unfold q_get, q_set. mred. rewrite (proj2 (Z.ltb_lt _ _)), He by done. simpl.
  rewrite Hv, Hp, Hf. simpl. rewrite aset_insert, Hz by lia. simpl.
  unfold ost_clear_slot_ctx. rewrite (proj2 (Z.eqb_neq _ _)) by done.
  rewrite !u32_small by (unfold is_u32; lia).
  replace (q_free_pending_count ost - 1) with 0 by lia.
  apply (ostq_clock_loop_stop _ (ostq_retire ost)); [by apply ostq_retire_ok|done|done].
Qed.

Lemma ostq_clock_sim : sim ostq_abs ostq_wf ostq_clock oq_clock.
Proof.
  intros ost Hw. unfold oq_clock. mred. destruct (q_freed ost) eqn:Hf.
  - rewrite (ostq_clock_retire ost Hw Hf).
    split; [done|]. apply ostq_retire_ok; [done|].
    unfold q_freed in Hf. destruct Hw. lia.
  - unfold ostq_clock. mred. unfold q_freed in Hf. destruct (qwf_pending _ Hw) as [->|[? ?]]; [|lia].
    done.
Qed.

(** Slot validity, as [ostq_slot_valid] computes it. *)
Lemma ostq_slot_valid_ok ost slot : ostq_wf ost -> 0 <= slot < q_depth ost ->
  exists e, aget (q_entries ost) slot = Some e /\
    ostq_slot_valid slot ost = Some (oq_slot_ok slot (ostq_abs ost), ost).
Proof.
  intros Hw Hs. destruct (ostq_entry ost slot Hw Hs) as (e & He & Hv & Hp).
  exists e. split; [done|]. unfold ostq_slot_valid, q_get. mred.
  rewrite (proj2 (Z.ltb_lt _ _)), He by lia. simpl.
  unfold oq_slot_ok. rewrite oq_len_abs by done. by rewrite Hv, Hp.
Qed.

Lemma ostq_slot_ctx ost slot e : ostq_wf ost -> aget (q_entries ost) slot = Some e ->
  oq_slot_ok slot (ostq_abs ost) = true ->
  oq_ctxs (ostq_abs ost) !! Z.to_nat (ring_idx (q_depth ost) (q_rptr ost) slot) = Some (q_ctx e).
Proof.
  intros Hw He Hok. pose proof Hw as [[? ?] ? Hl [? ?] [? ?] Hwp Hpd Hfl].
  pose proof (aget_Some _ _ _ He). apply andb_prop in Hok as [Hin _].
  rewrite oq_len_abs in Hin by done. unfold in_window in Hin. simpl in *.
  pose proof (ring_idx_range (q_depth ost) (q_rptr ost) slot).
  rewrite ring_lookup by (rewrite ?length_fmap; lia).
  rewrite ring_idx_cell by lia. rewrite aget_lookup in He by lia.
  by rewrite list_lookup_fmap, He.
Qed.

Lemma ostq_read_slot_sim slot : 0 <= slot ->
  sim ostq_abs ostq_wf (ostq_read_slot slot) (oq_read_slot slot).
Proof.
  intros Hs0 ost Hw. unfold ostq_read_slot, oq_read_slot. mred.
  rewrite (proj2 (Z.leb_le _ _)) by done. simpl.
  destruct (Z.ltb_spec slot (q_depth ost)) as [Hs|Hs].
  - destruct (ostq_slot_valid_ok ost slot Hw) as (e & He & ->); [lia|].
    destruct (oq_slot_ok slot (ostq_abs ost)) eqn:Hok; [|done].
    unfold q_get. mred. rewrite He. simpl.
    pose proof (ostq_slot_ctx ost slot e Hw He Hok) as Hc. simpl in Hc. by rewrite Hc.
  - unfold ostq_slot_valid. mred. by rewrite (proj2 (Z.ltb_ge _ _)).
Qed.

Lemma ostq_write_slot_sim slot ctx : 0 <= slot ->
  sim ostq_abs ostq_wf (ostq_write_slot slot ctx) (oq_write_slot slot ctx).
Proof.
  intros Hs0 ost Hw. unfold ostq_write_slot, oq_write_slot. mred.
  rewrite (proj2 (Z.leb_le _ _)) by done. simpl.
  destruct (Z.ltb_spec slot (q_depth ost)) as [Hs|Hs].
  - destruct (ostq_slot_valid_ok ost slot Hw) as (e & He & ->); [lia|].
    destruct (oq_slot_ok slot (ostq_abs ost)) eqn:Hok; [|done].
    pose proof Hw as [[? ?] ? Hl [? ?] [? ?] Hwp Hpd Hfl].
    unfold q_get, q_set. mred. rewrite He. simpl. rewrite aset_insert by lia. simpl.
    unfold ost_copy_to_slot. rewrite (proj2 (Z.eqb_neq _ _)) by done.
    split_and!; [done|split; simpl; try done|].
    + by rewrite length_insert.
    + intros i e' He'. rewrite aget_insert in He' by lia.
      destruct (Z.eqb_spec i slot) as [->|Hne]; simplify_eq; simpl; by apply Hfl.
    + apply andb_prop in Hok as [Hin _]. rewrite oq_len_abs in Hin by done.
      unfold in_window in Hin. simpl in Hin.
      pose proof (ring_idx_range (q_depth ost) (q_rptr ost) slot).
      unfold ostq_abs, upd. simpl. f_equal. rewrite list_fmap_insert. simpl.
      rewrite <- (ring_idx_cell (q_depth ost) (q_rptr ost) slot) by lia.
      rewrite ring_insert by (rewrite ?length_fmap; lia). done.
  - unfold ostq_slot_valid. mred. by rewrite (proj2 (Z.ltb_ge _ _)).
Qed.

Lemma ostq_reset_ok ost : ostq_wf ost ->
  exists ost', ostq_reset ost = Some (tt, ost') /\ ostq_wf ost' /\
    ostq_abs ost' = Oq (q_depth ost) 0 [] false.
Proof.
  intros [[? ?] ? Hl [? ?] [? ?] Hwp Hpd Hfl].
  unfold ostq_reset. mred. eexists. split; [done|].
  split; [split; simpl; try done; try lia|done].
  - by rewrite length_fmap.
  - intros i e He. unfold aget in He. case_match; [|done].
    rewrite list_lookup_fmap in He. destruct (q_entries ost !! Z.to_nat i); simplify_eq/=.
    split; [|done]. unfold in_window, ring_idx. case_match; lia.
Qed.

Lemma ostq_construct_ok ctx_size depth ost :
  ostq_construct ctx_size depth = Some ost -> depth < W32 -> ctx_size <> 0 ->
  ostq_wf ost /\ ostq_abs ost = Oq depth 0 [] false.
Proof.
  unfold ostq_construct, ostq_reset. mred. intros H Hd Hc. case_match; simplify_eq/=.
  split; [split; simpl; try done; try lia|done].
  - rewrite length_fmap, length_replicate. lia.
  - intros i e He. unfold aget in He. case_match; [|done].
    rewrite list_lookup_fmap in He.
    destruct (replicate _ _ !! Z.to_nat i); simplify_eq/=.
    split; [|done]. unfold in_window, ring_idx. case_match; lia.
Qed.

End ostq_facts.

(** *** Client runs *)

(** The calls of [ostq_t] that a module makes between two clocks, and the clock. *)
Inductive ostq_op (A : Type) :=
| OqAlloc (ctx : A) | OqPeekHead | OqFreeHead | OqClock
| OqReadSlot (slot : nat) | OqWriteSlot (slot : nat) (ctx : A).
Arguments OqAlloc {A} _.
Arguments OqPeekHead {A}.
Arguments OqFreeHead {A}.
Arguments OqClock {A}.
Arguments OqReadSlot {A} _.
Arguments OqWriteSlot {A} _ _.

Inductive ostq_obs (A : Type) :=
| ObUnit | ObSlot (slot : option Z) | ObPeek (r : option (A * Z)) | ObCtx (ctx : A).
Arguments ObUnit {A}.
Arguments ObSlot {A} _.
Arguments ObPeek {A} _.
Arguments ObCtx {A} _.

Section ostq_client.
  Context {A : Type} `{!Zero A}.

Definition ostq_do (op : ostq_op A) : M (ostq_t A) (ostq_obs A) :=
  match op with
  | OqAlloc ctx => r ← ostq_alloc ctx; mret (ObSlot r)
  | OqPeekHead => r ← ostq_peek_head; mret (ObPeek r)
  | OqFreeHead => ostq_free_head;; mret ObUnit
  | OqClock => ostq_clock;; mret ObUnit
  | OqReadSlot slot => r ← ostq_read_slot (Z.of_nat slot); mret (ObCtx r)
  | OqWriteSlot slot ctx => ostq_write_slot (Z.of_nat slot) ctx;; mret ObUnit
  end.

Definition oq_do (op : ostq_op A) : M (oq A) (ostq_obs A) :=
  match op with
  | OqAlloc ctx => r ← oq_alloc ctx; mret (ObSlot r)
  | OqPeekHead => r ← oq_peek_head; mret (ObPeek r)
  | OqFreeHead => oq_free_head;; mret ObUnit
  | OqClock => oq_clock;; mret ObUnit
  | OqReadSlot slot => r ← oq_read_slot (Z.of_nat slot); mret (ObCtx r)
  | OqWriteSlot slot ctx => oq_write_slot (Z.of_nat slot) ctx;; mret ObUnit
  end.

Fixpoint run_ops {S Op Obs} (do_op : Op -> M S Obs) (ops : list Op) : M S (list Obs) :=
  match ops with
  | [] => mret []
  | op :: ops => o ← do_op op; os ← run_ops do_op ops; mret (o :: os)
  end.

Lemma run_ops_sim {S T Op Obs} (abs : S -> T) wf (f : Op -> M S Obs) (g : Op -> M T Obs) ops :
  (forall op, sim abs wf (f op) (g op)) -> sim abs wf (run_ops f ops) (run_ops g ops).
Proof.
  intros H. induction ops as [|op ops IH]; simpl; [apply sim_ret|].
  apply sim_bind; [apply H|]. intros o. apply sim_bind; [apply IH|]. intros os. apply sim_ret.
Qed.

Lemma ostq_do_sim op : sim ostq_abs ostq_wf (ostq_do op) (oq_do op).
Proof.
  destruct op; simpl; (apply sim_bind; [|intros; apply sim_ret]).
  - apply ostq_alloc_sim.
  - apply ostq_peek_head_sim.
  - apply ostq_free_head_sim.
  - apply ostq_clock_sim.
  - apply ostq_read_slot_sim. lia.
  - apply ostq_write_slot_sim. lia.
Qed.

End ostq_client.

(** C21: A queue of outstanding transactions built by [ostq_construct] behaves, for every
    sequence of allocations, head look-ups, frees, slot accesses and clocks, as a queue of
    contexts in which a freed head stays visible to the capacity test until the clock:
    same results, same failed assertions, and the invariant of the ring holds. *)
Theorem ostq_refines_oq {A} `{!Zero A} ctx_size depth (ost : ostq_t A) ops :
  ostq_construct ctx_size depth = Some ost -> depth < W32 -> ctx_size <> 0 ->
  match run_ops ostq_do ops ost, run_ops oq_do ops (Oq depth 0 [] false) with
  | Some (obs, ost'), Some (obs', o) => obs = obs' /\ ostq_wf ost' /\ ostq_abs ost' = o
  | None, None => True
  | _, _ => False
  end.
Proof.
  intros Hc Hd Hs. destruct (ostq_construct_ok _ _ _ Hc Hd Hs) as [Hw Ha].
  rewrite <- Ha. exact (run_ops_sim _ _ _ _ ops ostq_do_sim ost Hw).
Qed.

#[export] Instance zero_Z : Zero Z := 0.

Lemma ostq_refines_oq_witness :
  exists ost ost', ostq_construct (A := Z) 4 2 = Some ost /\
  run_ops ostq_do [OqAlloc 5; OqAlloc 6; OqAlloc 7; OqFreeHead; OqPeekHead; OqClock;
    OqPeekHead; OqAlloc 8; OqReadSlot 0] ost
  = Some ([ObSlot (Some 0); ObSlot (Some 1); ObSlot None; ObUnit; ObPeek None; ObUnit;
           ObPeek (Some (6, 1)); ObSlot (Some 0); ObCtx 8], ost') /\
  oq_ctxs (ostq_abs ost') = [6; 8].
Proof.
  destruct (ostq_construct (A := Z) 4 2) as [ost|] eqn:E; [|vm_compute in E; discriminate E].
  pose proof (ostq_refines_oq 4 2 ost [OqAlloc 5; OqAlloc 6; OqAlloc 7; OqFreeHead; OqPeekHead;
    OqClock; OqPeekHead; OqAlloc 8; OqReadSlot 0] E eq_refl ltac:(lia)) as H.
  exists ost. destruct (run_ops ostq_do _ _) as [[obs ost']|]; [|by vm_compute in H].
  exists ost'. split; [reflexivity|]. split.
  - assert (obs = [ObSlot (Some 0); ObSlot (Some 1); ObSlot None; ObUnit; ObPeek None; ObUnit;
      ObPeek (Some (6, 1)); ObSlot (Some 0); ObCtx 8]) as -> by exact (proj1 H).
    reflexivity.
  - exact (f_equal oq_ctxs (proj2 (proj2 H))).
Defined.

(** ** Table looked up by key *)

Record ostk_entry_t (A : Type) := OstkEntry {
  k_vld : bool; k_free_pending : bool; k_key : Z; k_issue_seq : Z; k_ctx : A }.
Arguments OstkEntry {A} _ _ _ _ _.
Arguments k_vld {A} _.
Arguments k_free_pending {A} _.
Arguments k_key {A} _.
Arguments k_issue_seq {A} _.
Arguments k_ctx {A} _.
#[export] Instance eta_ostk_entry A : Eta (ostk_entry_t A) := fun e =>
  OstkEntry (k_vld e) (k_free_pending e) (k_key e) (k_issue_seq e) (k_ctx e).

Record ostk_t (A : Type) := Ostk {
  k_entries : list (ostk_entry_t A);
  k_depth : Z;
  k_ctx_size : Z;
  k_count : Z;
  k_free_pending_count : Z;
  k_wptr : Z;
  k_rptr : Z;
  k_next_issue_seq : Z
}.
Arguments Ostk {A} _ _ _ _ _ _ _ _.
Arguments k_entries {A} _.
Arguments k_depth {A} _.
Arguments k_ctx_size {A} _.
Arguments k_count {A} _.
Arguments k_free_pending_count {A} _.
Arguments k_wptr {A} _.
Arguments k_rptr {A} _.
Arguments k_next_issue_seq {A} _.
#[export] Instance eta_ostk A : Eta (ostk_t A) := fun o =>
  Ostk (k_entries o) (k_depth o) (k_ctx_size o) (k_count o) (k_free_pending_count o)
    (k_wptr o) (k_rptr o) (k_next_issue_seq o).

Section ostk.
  Context {A : Type} `{!Zero A}.
  Implicit Types (ost : ostk_t A) (ctx : A) (e : ostk_entry_t A).

Definition ostk_full ost : bool := k_count ost =? k_depth ost.
Definition ostk_empty ost : bool := k_count ost =? 0.

Definition k_get (i : Z) : M (ostk_t A) (ostk_entry_t A) :=
  ost ← gets id;
  of_option (aget (k_entries ost) i).

Definition k_set (i : Z) e : M (ostk_t A) unit :=
  ost ← gets id;
  l ← of_option (aset (k_entries ost) i e);
  modify (fun ost => ost <| k_entries := l |>).

(** The scan from [wptr] for a slot not in use: [n] slots are left to look at. *)
Fixpoint find_free_loop ost (n : nat) : option Z :=
  match n with
  | O => None
  | S n =>
    let i := k_depth ost - Z.of_nat (S n) in
    let idx := u32 (k_wptr ost + i) mod k_depth ost in
    match aget (k_entries ost) idx with
    | Some e => if negb (k_vld e) then Some idx else find_free_loop ost n
    | None => None
    end
  end.

(** [Some None] is the return value [false] (table full); the final [DBG_CHECK(false)]
    of the source is the failure. *)
Definition ostk_find_free_slot ost : option (option Z) :=
  if ostk_full ost then Some None
  else match find_free_loop ost (Z.to_nat (k_depth ost)) with
       | Some idx => Some (Some idx)
       | None => None
       end.

(** The scans for the oldest live entry that satisfies [want]: the slot and issue
    number of the best candidate so far, from slot [i] on. *)
Fixpoint find_oldest (want : ostk_entry_t A -> bool) (l : list (ostk_entry_t A)) (i : Z)
    (best : option (Z * Z)) : option (Z * Z) :=
  match l with
  | [] => best
  | e :: l =>
    let best' :=
      if negb (k_vld e) || k_free_pending e || negb (want e) then best
      else match best with
           | None => Some (i, k_issue_seq e)
           | Some (s, q) => if k_issue_seq e <? q then Some (i, k_issue_seq e) else Some (s, q)
           end in
    find_oldest want l (i + 1) best'
  end.

Definition ostk_find_head_slot ost : option Z :=
  fst <$> find_oldest (fun _ => true) (k_entries ost) 0 None.

Definition ostk_update_rptr : M (ostk_t A) unit :=
  modify (fun ost =>
    match ostk_find_head_slot ost with
    | Some slot => ost <| k_rptr := slot |>
    | None => ost <| k_rptr := k_wptr ost |>
    end).

Definition ostk_reset : M (ostk_t A) unit :=
  modify (fun ost => ost <| k_entries :=
    (fun e => OstkEntry false false 0 0 (ost_clear_slot_ctx (k_ctx e) (k_ctx_size ost)))
      <$> k_entries ost |>);;
  modify (fun ost => ost <| k_count := 0 |>);;
  modify (fun ost => ost <| k_free_pending_count := 0 |>);;
  modify (fun ost => ost <| k_wptr := 0 |>);;
  modify (fun ost => ost <| k_rptr := 0 |>);;
  modify (fun ost => ost <| k_next_issue_seq := 0 |>).

Definition ostk_construct (ctx_size depth : Z) : option (ostk_t A) :=
  if 0 <? depth then
    snd <$> ostk_reset
      (Ostk (replicate (Z.to_nat depth) (OstkEntry false false 0 0 zero)) depth ctx_size 0 0 0 0 0)
  else None.

(** The loop of [ostk_clock_slow] over the slots from [i] on, [n] of them; the result says
    whether a slot was recycled. *)
Fixpoint ostk_clock_loop (n : nat) (i : Z) (freed : bool) : M (ostk_t A) bool :=
  match n with
  | O => mret freed
  | S n =>
    entry ← k_get i;
    if negb (k_vld entry) || negb (k_free_pending entry) then ostk_clock_loop n (i + 1) freed
    else
      ost ← gets id;
      k_set i (OstkEntry false false 0 0 (ost_clear_slot_ctx (k_ctx entry) (k_ctx_size ost)));;
      DBG_CHECK (0 <? k_count ost);;
      modify (fun ost => ost <| k_count := u32 (k_count ost - 1) |>);;
      DBG_CHECK (0 <? k_free_pending_count ost);;
      modify (fun ost => ost <| k_free_pending_count := u32 (k_free_pending_count ost - 1) |>);;
      ostk_clock_loop n (i + 1) true
  end.

Definition ostk_clock_slow : M (ostk_t A) unit :=
  ost ← gets id;
  if k_free_pending_count ost =? 0 then mret tt
  else
    freed ← ostk_clock_loop (Z.to_nat (k_depth ost)) 0 false;
    ost ← gets id;
    DBG_CHECK (k_free_pending_count ost =? 0);;
    when freed ostk_update_rptr.

Definition ostk_clock : M (ostk_t A) unit :=
  ost ← gets id;
  when (negb (k_free_pending_count ost =? 0)) ostk_clock_slow.

(** [None] is the return value [false]; otherwise the slot taken. *)
Definition ostk_alloc (key : Z) ctx : M (ostk_t A) (option Z) :=
  ost ← gets id;
  r ← of_option (ostk_find_free_slot ost);
  match r with
  | None => mret None
  | Some alloc_slot =>
    entry ← k_get alloc_slot;
    k_set alloc_slot (OstkEntry true false key (k_next_issue_seq ost)
      (ost_copy_to_slot (k_ctx entry) (k_ctx_size ost) ctx));;
    modify (fun ost => ost <| k_next_issue_seq := u64 (k_next_issue_seq ost + 1) |>);;
    modify (fun ost => ost <| k_count := u32 (k_count ost + 1) |>);;
    modify (fun ost => ost <| k_wptr := u32 (alloc_slot + 1) mod k_depth ost |>);;
    ostk_update_rptr;;
    mret (Some alloc_slot)
  end.

(** [None] is the return value [false]; otherwise the context and the slot. *)
Definition ostk_peek_key (key : Z) : M (ostk_t A) (option (A * Z)) :=
  ost ← gets id;
  match find_oldest (fun e => k_key e =? key) (k_entries ost) 0 None with
  | None => mret None
  | Some (best_slot, _) =>
    e ← k_get best_slot;
    mret (Some (k_ctx e, best_slot))
  end.

Definition ostk_slot_valid (slot : Z) : M (ostk_t A) bool :=
  ost ← gets id;
  DBG_CHECK (slot <? k_depth ost);;
  e ← k_get slot;
  mret (k_vld e && negb (k_free_pending e)).

Definition ostk_free_slot (slot : Z) : M (ostk_t A) unit :=
  ok ← ostk_slot_valid slot;
  DBG_CHECK ok;;
  e ← k_get slot;
  k_set slot (e <| k_free_pending := true |>);;
  modify (fun ost => ost <| k_free_pending_count := u32 (k_free_pending_count ost + 1) |>).

Definition ostk_read_slot (slot : Z) : M (ostk_t A) A :=
  ok ← ostk_slot_valid slot;
  DBG_CHECK ok;;
  e ← k_get slot;
  mret (k_ctx e).

Definition ostk_write_slot (slot : Z) ctx : M (ostk_t A) unit :=
  ok ← ostk_slot_valid slot;
  DBG_CHECK ok;;
  ost ← gets id;
  e ← k_get slot;
  k_set slot (e <| k_ctx := ost_copy_to_slot (k_ctx e) (k_ctx_size ost) ctx |>).

End ostk.

Section ostk_facts.
  Context {A : Type} `{!Zero A}.
  Implicit Types (ost : ostk_t A) (ctx : A) (e : ostk_entry_t A).

Definition k_pending e : bool := k_vld e && k_free_pending e.
Definition k_live e : bool := k_vld e && negb (k_free_pending e).

Record ostk_wf ost : Prop := {
  kwf_depth : 0 < k_depth ost <= 2147483648;
  kwf_ctx_size : k_ctx_size ost <> 0;
  kwf_entries : Z.of_nat (length (k_entries ost)) = k_depth ost;
  kwf_wptr : 0 <= k_wptr ost < k_depth ost;
  kwf_count : k_count ost = countb k_vld (k_entries ost);
  kwf_pending : k_free_pending_count ost = countb k_pending (k_entries ost);
  kwf_next : 0 <= k_next_issue_seq ost;
  kwf_seq : forall i e, k_entries ost !! i = Some e -> k_vld e = true ->
    0 <= k_issue_seq e < k_next_issue_seq ost;
  kwf_inj : forall i j e e', k_entries ost !! i = Some e -> k_entries ost !! j = Some e' ->
    k_vld e = true -> k_vld e' = true -> k_issue_seq e = k_issue_seq e' -> i = j
}.

(** *** The scans *)

Lemma find_free_loop_None ost n : find_free_loop ost n = None ->
  0 < k_depth ost <= 2147483648 -> Z.of_nat (length (k_entries ost)) = k_depth ost ->
  0 <= k_wptr ost < k_depth ost -> Z.of_nat n <= k_depth ost ->
  forall i, k_depth ost - Z.of_nat n <= i < k_depth ost ->
    exists e, aget (k_entries ost) ((k_wptr ost + i) mod k_depth ost) = Some e /\ k_vld e = true.
Proof.
  induction n as [|n IH]; intros H Hd Hl Hw Hn i Hi; [lia|].
  simpl find_free_loop in H. rewrite u32_small in H by (unfold is_u32, W32; lia).
  destruct (aget_is_Some (k_entries ost)
    ((k_wptr ost + (k_depth ost - Z.of_nat (S n))) mod k_depth ost)) as [e He].
  { rewrite Hl. apply Z.mod_pos_bound. lia. }
  rewrite He in H. destruct (k_vld e) eqn:Hv; [|done]. simpl in H.
  destruct (Z.eq_dec i (k_depth ost - Z.of_nat (S n))) as [->|]; [by exists e|].
  apply IH; [done..|lia|lia].
Qed.

Lemma find_free_loop_Some ost n idx : find_free_loop ost n = Some idx ->
  exists e, aget (k_entries ost) idx = Some e /\ k_vld e = false.
Proof.
  induction n as [|n IH]; intros H; [done|]. simpl find_free_loop in H.
  destruct (aget (k_entries ost) (u32 _ mod _)) as [e|] eqn:He; [|done].
  destruct (k_vld e) eqn:Hv; simpl in H; [auto|]. simplify_eq. by exists e.
Qed.

(** A table that is not full has a free slot and the scan finds it: the failing
    [DBG_CHECK(false)] at the end of [ostk_find_free_slot] is unreachable. *)
Lemma find_free_slot_ok ost : ostk_wf ost -> k_count ost < k_depth ost ->
  exists idx e, ostk_find_free_slot ost = Some (Some idx) /\
    aget (k_entries ost) idx = Some e /\ k_vld e = false.
Proof.
  intros [Hd ? Hl Hw Hc Hp ? Hs Hi] Hn. unfold ostk_find_free_slot, ostk_full.
  rewrite (proj2 (Z.eqb_neq _ _)) by lia.
  destruct (find_free_loop ost (Z.to_nat (k_depth ost))) as [idx|] eqn:Hf.
  { destruct (find_free_loop_Some _ _ _ Hf) as (e & He & Hv). by exists idx, e. }
  exfalso. enough (countb k_vld (k_entries ost) = Z.of_nat (length (k_entries ost))) by lia.
  apply countb_all. intros i x Hx. pose proof (lookup_lt_Some _ _ _ Hx).
  pose proof (ring_idx_range (k_depth ost) (k_wptr ost) (Z.of_nat i)).
  destruct (find_free_loop_None _ _ Hf Hd Hl Hw ltac:(lia)
    (ring_idx (k_depth ost) (k_wptr ost) (Z.of_nat i))) as (e & He & Hv); [lia|].
  replace ((k_wptr ost + _) mod k_depth ost) with (Z.of_nat i) in He.
  - rewrite aget_lookup, Nat2Z.id in He by lia. congruence.
  - rewrite mod_wrap by lia. unfold ring_idx. repeat case_match; lia.
Qed.

(** The scan keeps the smallest issue number of the wanted live entries. *)
Definition oldest_of (want : ostk_entry_t A -> bool) (l : list (ostk_entry_t A)) (i : Z)
    (best : option (Z * Z)) (r : option (Z * Z)) : Prop :=
  match r with
  | None => best = None /\ forall k e, l !! k = Some e -> k_live e && want e = false
  | Some (s, q) =>
    (best = Some (s, q) \/
     exists k e, l !! k = Some e /\ k_live e && want e = true /\
       s = i + Z.of_nat k /\ q = k_issue_seq e) /\
    (forall s' q', best = Some (s', q') -> q <= q') /\
    forall k e, l !! k = Some e -> k_live e && want e = true -> q <= k_issue_seq e
  end.

Lemma k_live_skip (want : ostk_entry_t A -> bool) e :
  negb (k_vld e) || k_free_pending e || negb (want e) = negb (k_live e && want e).
Proof. unfold k_live. by destruct (k_vld e), (k_free_pending e), (want e). Qed.

Lemma find_oldest_spec want l : forall i best,
  oldest_of want l i best (find_oldest want l i best).
Proof.
  induction l as [|e l IH]; intros i best.
  { simpl. destruct best as [[s q]|]; [|done]. split_and!; [by left|naive_solver lia|done]. }
  simpl find_oldest. rewrite k_live_skip.
  set (best' := if negb (k_live e && want e) then _ else _).
  specialize (IH (i + 1) best'). revert IH.
  destruct (find_oldest want l (i + 1) best') as [[s q]|].
  - intros (Hor & Hb & Hl). split_and!.
    + destruct Hor as [Hbe|(k & e' & He' & Hlv & -> & ->)].
      * unfold best' in Hbe. destruct (k_live e && want e) eqn:Hlv; simpl in Hbe; [|by left].
        destruct best as [[s0 q0]|]; [destruct (Z.ltb_spec (k_issue_seq e) q0)|];
          simplify_eq; [|by left|].
        -- right. exists 0%nat, e. split_and!; [done..|lia|done].
        -- right. exists 0%nat, e. split_and!; [done..|lia|done].
      * right. exists (S k), e'. split_and!; [done..|lia|done].
    + intros s' q' ->. unfold best' in Hb.
      destruct (k_live e && want e); simpl in Hb; [|by apply (Hb s' q')].
      destruct (Z.ltb_spec (k_issue_seq e) q'); [specialize (Hb _ _ eq_refl); lia|].
      by apply (Hb s' q').
    + intros [|k] e' He' Hlv; simplify_eq/=; [|by apply (Hl k e')].
      unfold best' in Hb. rewrite Hlv in Hb. simpl in Hb.
      destruct best as [[s0 q0]|]; [|by apply (Hb i)].
      destruct (Z.ltb_spec (k_issue_seq e') q0); [by apply (Hb i)|].
      specialize (Hb _ _ eq_refl). lia.
  - intros [Hn Hl]. unfold best' in Hn. destruct (k_live e && want e) eqn:Hlv; simpl in Hn.
    + destruct best as [[s0 q0]|]; [destruct (k_issue_seq e <? q0)|]; done.
    + split; [done|]. intros [|k] e' He'; simplify_eq/=; [done|by apply (Hl k)].
Qed.

(** *** The operations *)

(** [rptr] takes no part in the invariant. *)
Lemma ostk_update_rptr_ok ost : exists r, ostk_update_rptr ost = Some (tt, ost <| k_rptr := r |>).
Proof.
  unfold ostk_update_rptr. mred. destruct (ostk_find_head_slot ost); by eexists.
Qed.

Lemma ostk_wf_rptr ost r : ostk_wf ost -> ostk_wf (ost <| k_rptr := r |>).
Proof. by intros []. Qed.

(** The table after [ostk_alloc] put [(key, ctx)] in slot [idx]. *)
Definition ostk_alloced ost (idx key : Z) ctx (r : Z) : ostk_t A :=
  Ostk (<[Z.to_nat idx := OstkEntry true false key (k_next_issue_seq ost) ctx]> (k_entries ost))
    (k_depth ost) (k_ctx_size ost) (k_count ost + 1) (k_free_pending_count ost)
    ((idx + 1) mod k_depth ost) r (k_next_issue_seq ost + 1).

Lemma ostk_alloc_run ost key ctx : ostk_wf ost -> k_count ost < k_depth ost ->
  k_next_issue_seq ost + 1 < W64 ->
  exists idx e r, ostk_alloc key ctx ost = Some (Some idx, ostk_alloced ost idx key ctx r) /\
    aget (k_entries ost) idx = Some e /\ k_vld e = false.
Proof.
  intros Hw Hn Hs. destruct (find_free_slot_ok ost Hw Hn) as (idx & e & Hf & He & Hv).
  pose proof (aget_Some _ _ _ He) as Hr. pose proof Hw as [Hd ? Hl Hwp Hc Hp ? Hsq Hi].
  destruct (ostk_update_rptr_ok (ostk_alloced ost idx key ctx (k_rptr ost))) as [r Hu].
  exists idx, e, r. split_and!; [|done..].
  unfold ostk_alloc, k_get, k_set. mred. rewrite Hf. simpl. rewrite He. simpl.
  rewrite aset_insert by lia. simpl. unfold ost_copy_to_slot.
  rewrite (proj2 (Z.eqb_neq _ _)) by done.
  pose proof (countb_bounds k_vld (k_entries ost)).
  rewrite !u32_small by (unfold is_u32, W32; lia).
  rewrite (u64_small (_ + 1)) by (unfold is_u64; lia).
  injection Hu as Hu. do 2 f_equal. exact Hu.
Qed.

Lemma ostk_alloced_wf ost idx key ctx r e : ostk_wf ost ->
  aget (k_entries ost) idx = Some e -> k_vld e = false ->
  ostk_wf (ostk_alloced ost idx key ctx r).
Proof.
  intros [Hd ? Hl Hwp Hc Hp ? Hsq Hi] He Hv. pose proof (aget_Some _ _ _ He).
  rewrite aget_lookup in He by lia.
  assert (k_pending e = false) as Hpe by (unfold k_pending; by rewrite Hv).
  split; simpl; try done; try lia.
  - by rewrite length_insert.
  - apply Z.mod_pos_bound. lia.
  - rewrite (countb_insert _ _ _ e), Hv by done. simpl. lia.
  - rewrite (countb_insert _ _ _ e), Hpe by done. simpl. lia.
  - intros i e'. rewrite list_lookup_insert. case_decide; [intros; simplify_eq/=; lia|].
    intros He' Hv'. specialize (Hsq i e' He' Hv'). lia.
  - intros i j e1 e2. rewrite !list_lookup_insert.
    case_decide as Hc1; case_decide as Hc2; intros He1 He2 Hv1 Hv2 Hq; simplify_eq/=;
      [lia|exfalso..|by apply (Hi i j e1 e2)].
    + specialize (Hsq j e2 He2 Hv2). lia.
    + specialize (Hsq i e1 He1 Hv1). lia.
Qed.

Lemma ostk_alloc_full ost key ctx : k_count ost = k_depth ost ->
  ostk_alloc key ctx ost = Some (None, ost).
Proof.
  intros Hn. unfold ostk_alloc, ostk_find_free_slot, ostk_full. mred.
  by rewrite Hn, Z.eqb_refl.
Qed.

Lemma ostk_slot_valid_run ost slot e : aget (k_entries ost) slot = Some e -> ostk_wf ost ->
  ostk_slot_valid slot ost = Some (k_live e, ost).
Proof.
  intros He Hw. pose proof (aget_Some _ _ _ He). unfold ostk_slot_valid, k_get. mred.
  rewrite (proj2 (Z.ltb_lt _ _)), He by (destruct Hw; lia). done.
Qed.

Lemma ostk_free_slot_run ost slot e : ostk_wf ost -> aget (k_entries ost) slot = Some e ->
  k_live e = true ->
  exists ost', ostk_free_slot slot ost = Some (tt, ost') /\ ostk_wf ost' /\
    k_entries ost' = <[Z.to_nat slot := e <| k_free_pending := true |>]> (k_entries ost) /\
    k_count ost' = k_count ost /\ k_next_issue_seq ost' = k_next_issue_seq ost.
Proof.
  intros Hw He Hlv. pose proof (aget_Some _ _ _ He).
  unfold ostk_free_slot. mred. rewrite (ostk_slot_valid_run ost slot e) by done.
  rewrite Hlv. unfold k_get, k_set. mred. rewrite He. simpl.
  rewrite aset_insert by done. simpl. eexists. split; [done|]. split_and!; [|done..].
  pose proof Hw as [Hd ? Hl Hwp Hc Hp ? Hsq Hi]. rewrite aget_lookup in He by lia.
  assert (k_vld e = true /\ k_free_pending e = false) as [Hv Hf]
    by (unfold k_live in Hlv; by destruct (k_vld e), (k_free_pending e)).
  pose proof (countb_insert k_pending _ _ _ (e <| k_free_pending := true |>) He) as Hcp.
  unfold k_pending at 3 4 in Hcp. simpl in Hcp. rewrite Hv, Hf in Hcp. simpl in Hcp.
  pose proof (countb_bounds k_pending
    (<[Z.to_nat slot := e <| k_free_pending := true |>]> (k_entries ost))) as Hb.
  rewrite length_insert in Hb. split; simpl; try done; try lia.
  - by rewrite length_insert.
  - rewrite (countb_insert _ _ _ e) by done. simpl. lia.
  - rewrite u32_small by (unfold is_u32, W32; lia). lia.
  - intros i e'. rewrite list_lookup_insert. case_decide as Hd'; [|apply Hsq].
    intros; simplify_eq/=. by apply (Hsq _ e He).
  - intros i j e1 e2. rewrite !list_lookup_insert.
    case_decide as H1; case_decide as H2; intros He1 He2 Hv1 Hv2 Hq; simplify_eq/=; try lia.
    + destruct H1 as [<- _]. by apply (Hi _ _ e e2).
    + destruct H2 as [<- _]. by apply (Hi _ _ e1 e).
    + by apply (Hi i j e1 e2).
Qed.

(** What the clock makes of one entry. *)
Definition k_recycle e : ostk_entry_t A :=
  if k_pending e then OstkEntry false false 0 0 zero else e.

Lemma ostk_clock_loop_run n i freed ost :
  0 < k_depth ost <= 2147483648 -> k_ctx_size ost <> 0 ->
  Z.of_nat (length (k_entries ost)) = k_depth ost -> 0 <= i -> i + Z.of_nat n = k_depth ost ->
  k_count ost = countb k_vld (k_entries ost) ->
  k_free_pending_count ost = countb k_pending (k_entries ost) ->
  let l := take (Z.to_nat i) (k_entries ost) ++ (k_recycle <$> drop (Z.to_nat i) (k_entries ost)) in
  exists freed', ostk_clock_loop n i freed ost = Some (freed', Ostk l
      (k_depth ost) (k_ctx_size ost) (countb k_vld l) (countb k_pending l)
      (k_wptr ost) (k_rptr ost) (k_next_issue_seq ost)).
Proof.
  cbv zeta.
  revert i freed ost.
  induction n as [|n IH]; intros i freed ost Hd Hcs Hl Hi Hn Hc Hp; simpl.
  - exists freed. rewrite take_ge, drop_ge, app_nil_r, <- Hc, <- Hp by lia. by destruct ost.
  - destruct (aget_is_Some (k_entries ost) i) as [e He]; [lia|].
    unfold k_get, k_set. mred. rewrite He. simpl. rewrite aget_lookup in He by lia.
    assert (drop (Z.to_nat i) (k_entries ost) = e :: drop (Z.to_nat (i + 1)) (k_entries ost))
      as Hdr by (rewrite Z2Nat.inj_add, Nat.add_1_r by lia; by apply drop_S).
    destruct (negb (k_vld e) || negb (k_free_pending e)) eqn:Hs.
    + destruct (IH (i + 1) freed ost) as (f & Hr); [done..|lia|lia|done|done|].
      exists f. rewrite Hr.
      enough (take (Z.to_nat (i + 1)) (k_entries ost) ++
          (k_recycle <$> drop (Z.to_nat (i + 1)) (k_entries ost)) =
        take (Z.to_nat i) (k_entries ost) ++ (k_recycle <$> drop (Z.to_nat i) (k_entries ost)))
        as -> by done.
      rewrite Hdr, Z2Nat.inj_add, Nat.add_1_r, (take_S_r _ _ e) by (lia || done).
      rewrite <- app_assoc. csimpl. do 2 f_equal.
      unfold k_recycle, k_pending. by destruct (k_vld e), (k_free_pending e).
    + assert (k_vld e = true /\ k_free_pending e = true) as [Hv Hf]
        by (by destruct (k_vld e), (k_free_pending e)).
      assert (k_pending e = true) as Hpe by (unfold k_pending; by rewrite Hv, Hf).
      pose proof (countb_pos k_vld _ _ _ He Hv). pose proof (countb_pos k_pending _ _ _ He Hpe).
      pose proof (countb_bounds k_vld (k_entries ost)).
      pose proof (countb_bounds k_pending (k_entries ost)).
      rewrite aset_insert by lia. simpl.
      rewrite !(proj2 (Z.ltb_lt _ _)) by lia. simpl. unfold ost_clear_slot_ctx.
      rewrite (proj2 (Z.eqb_neq _ _)) by done.
      rewrite !u32_small by (unfold is_u32, W32; lia).
      destruct (IH (i + 1) true (ost
        <| k_entries := <[Z.to_nat i := OstkEntry false false 0 0 zero]> (k_entries ost) |>
        <| k_count := k_count ost - 1 |>
        <| k_free_pending_count := k_free_pending_count ost - 1 |>)) as (f & Hr);
        simpl; try done; try lia.
      * by rewrite length_insert.
      * rewrite (countb_insert _ _ _ e), Hv by done. simpl. lia.
      * rewrite (countb_insert _ _ _ e), Hpe by done. simpl. lia.
      * exists f. rewrite Hr. simpl.
        enough (take (Z.to_nat (i + 1)) (<[Z.to_nat i := OstkEntry false false 0 0 zero]>
            (k_entries ost)) ++ (k_recycle <$> drop (Z.to_nat (i + 1))
              (<[Z.to_nat i := OstkEntry false false 0 0 zero]> (k_entries ost))) =
          take (Z.to_nat i) (k_entries ost) ++ (k_recycle <$> drop (Z.to_nat i) (k_entries ost)))
          as -> by done.
        rewrite Hdr, Z2Nat.inj_add, Nat.add_1_r by lia.
        rewrite (take_S_r _ _ (OstkEntry false false 0 0 zero))
          by (apply list_lookup_insert_eq; lia).
        rewrite take_insert_ge, drop_insert_lt by lia. rewrite <- app_assoc. csimpl.
        do 2 f_equal. unfold k_recycle. by rewrite Hpe.
Qed.

Lemma k_recycle_vld e : k_vld (k_recycle e) = k_live e.
Proof. unfold k_recycle, k_pending, k_live. by destruct (k_vld e) eqn:?, (k_free_pending e). Qed.

Lemma k_recycle_live e : k_live e = true -> k_recycle e = e.
Proof. unfold k_recycle, k_pending, k_live. by destruct (k_vld e), (k_free_pending e). Qed.

Lemma k_recycle_pending l : countb k_pending (k_recycle <$> l) = 0.
Proof.
  apply countb_none. intros i x Hx. apply list_lookup_fmap_Some in Hx as (y & -> & _).
  unfold k_recycle. by destruct (k_pending y) eqn:?.
Qed.

Lemma ostk_recycled_wf ost l : ostk_wf ost -> l = k_recycle <$> k_entries ost ->
  ostk_wf (Ostk l (k_depth ost) (k_ctx_size ost) (countb k_vld l) (countb k_pending l)
    (k_wptr ost) (k_rptr ost) (k_next_issue_seq ost)).
Proof.
  intros [Hd ? Hl Hwp Hc Hp ? Hsq Hi] ->. split; simpl; try done.
  - by rewrite length_fmap.
  - intros i e (e0 & -> & He)%list_lookup_fmap_Some Hv.
    rewrite k_recycle_vld in Hv. rewrite k_recycle_live by done.
    apply (Hsq i e0 He). by apply andb_prop in Hv as [].
  - intros i j e e' (e0 & -> & He)%list_lookup_fmap_Some (e1 & -> & He')%list_lookup_fmap_Some.
    rewrite !k_recycle_vld. intros Hv Hv'. rewrite !k_recycle_live by done.
    apply andb_prop in Hv as [], Hv' as []. by apply (Hi i j e0 e1).
Qed.

(** The clock recycles exactly the slots that were freed. *)
Lemma ostk_clock_run ost : ostk_wf ost ->
  exists ost', ostk_clock ost = Some (tt, ost') /\ ostk_wf ost' /\
    k_free_pending_count ost' = 0 /\ k_entries ost' = k_recycle <$> k_entries ost /\
    k_next_issue_seq ost' = k_next_issue_seq ost.
Proof.
  intros Hw. pose proof Hw as [Hd ? Hl Hwp Hc Hp ? Hsq Hi].
  unfold ostk_clock, ostk_clock_slow. mred.
  destruct (Z.eqb_spec (k_free_pending_count ost) 0) as [Hz|Hz]; simpl.
  - exists ost. split_and!; [done..| |done]. symmetry. rewrite <- list_fmap_id.
    apply list_fmap_ext. intros i e He. unfold k_recycle.
    destruct (k_pending e) eqn:Hpe; [|done]. pose proof (countb_pos _ _ _ _ He Hpe). lia.
  - rewrite (proj2 (Z.eqb_neq _ _)) by done.
    destruct (ostk_clock_loop_run (Z.to_nat (k_depth ost)) 0 false ost) as (f & ->);
      [done..|lia|done|done|]. simpl. rewrite drop_0.
    set (l := k_recycle <$> k_entries ost).
    assert (countb k_pending l = 0) as Hpl by apply k_recycle_pending.
    pose proof (ostk_recycled_wf ost l Hw eq_refl) as Hw'. rewrite Hpl in *.
    change (0 =? 0) with true. simpl. destruct f.
    + destruct (ostk_update_rptr_ok (Ostk l (k_depth ost) (k_ctx_size ost) (countb k_vld l) 0
        (k_wptr ost) (k_rptr ost) (k_next_issue_seq ost))) as [r ->].
      eexists. split_and!; [done|by apply ostk_wf_rptr|done..].
    + eexists. by split_and!.
Qed.

(** Storing a new context in a slot. *)
Lemma ostk_wf_ctx ost s e ctx : ostk_wf ost -> k_entries ost !! s = Some e ->
  ostk_wf (ost <| k_entries := <[s := e <| k_ctx := ctx |>]> (k_entries ost) |>).
Proof.
  intros [Hd ? Hl Hwp Hc Hp ? Hsq Hi] He. split; simpl; try done.
  - by rewrite length_insert.
  - rewrite (countb_insert _ _ _ e) by done. simpl. lia.
  - rewrite (countb_insert _ _ _ e) by done. unfold k_pending at 3. simpl.
    unfold k_pending at 2. lia.
  - intros i e'. rewrite list_lookup_insert. case_decide as Hs; [|apply Hsq].
    intros; simplify_eq/=. by apply (Hsq _ e He).
  - intros i j e1 e2. rewrite !list_lookup_insert.
    case_decide as H1; case_decide as H2; intros He1 He2 Hv1 Hv2 Hq; simplify_eq/=; try lia.
    + destruct H1 as [<- _]. by apply (Hi _ _ e e2).
    + destruct H2 as [<- _]. by apply (Hi _ _ e1 e).
    + by apply (Hi i j e1 e2).
Qed.

Lemma ostk_construct_run ctx_size depth ost : ostk_construct ctx_size depth = Some ost ->
  depth <= 2147483648 -> ctx_size <> 0 ->
  ostk_wf ost /\ (forall i e, k_entries ost !! i = Some e -> k_vld e = false) /\
  k_next_issue_seq ost = 0 /\ length (k_entries ost) = Z.to_nat depth.
Proof.
  unfold ostk_construct, ostk_reset. mred. intros H Hd Hc. case_match; simplify_eq/=.
  set (l := _ <$> replicate _ _).
  assert (forall i e, l !! i = Some e -> k_vld e = false) as Hv.
  { intros i e (x & -> & _)%list_lookup_fmap_Some. done. }
  assert (length l = Z.to_nat depth) as Hl by (unfold l; by rewrite length_fmap, length_replicate).
  split_and!; [|exact Hv|done..].
  split; simpl; try done; try lia.
  - symmetry. apply countb_none. exact Hv.
  - symmetry. apply countb_none. intros i e He. unfold k_pending. by rewrite (Hv i e He).
  - intros i e He Hve. rewrite (Hv i e He) in Hve. done.
  - intros i j e e' He He' Hve. rewrite (Hv i e He) in Hve. done.
Qed.

End ostk_facts.
