(* ===== verification/OstSpec.v ===== *)
(** * Keyed outstanding-transaction table: specification and refinement

    The abstract view of the table [ostk_t] of [base/model/base/ost.c]: a list of tickets
    in the order they were issued.  Which free slot an allocation takes is left open, so
    the specification is a relation.  The file proves that every run of the table from
    [ostk_construct] is a run of the specification. *)

From stdpp Require Import base numbers list sorting.
From Stdlib Require Import ZArith Lia.
From S2P Require Import Prelude Fifo Ost.

Record ticket (A : Type) := Ticket {
  t_seq : Z; t_slot : nat; t_key : Z; t_ctx : A; t_freed : bool }.
Arguments Ticket {A} _ _ _ _ _.
Arguments t_seq {A} _.
Arguments t_slot {A} _.
Arguments t_key {A} _.
Arguments t_ctx {A} _.
Arguments t_freed {A} _.
#[export] Instance eta_ticket A : Eta (ticket A) := fun t =>
  Ticket (t_seq t) (t_slot t) (t_key t) (t_ctx t) (t_freed t).

Inductive ostk_op (A : Type) :=
| OkAlloc (key : Z) (ctx : A) | OkPeekKey (key : Z) | OkFreeSlot (slot : nat) | OkClock
| OkReadSlot (slot : nat) | OkWriteSlot (slot : nat) (ctx : A).
Arguments OkAlloc {A} _ _.
Arguments OkPeekKey {A} _.
Arguments OkFreeSlot {A} _.
Arguments OkClock {A}.
Arguments OkReadSlot {A} _.
Arguments OkWriteSlot {A} _ _.

Section ostk_spec.
  Context {A : Type} `{!Zero A}.
  Implicit Types (l : list (ticket A)) (t : ticket A) (ost : ostk_t A).

Definition ostk_do (op : ostk_op A) : M (ostk_t A) (ostq_obs A) :=
  match op with
  | OkAlloc key ctx => r ← ostk_alloc key ctx; mret (ObSlot r)
  | OkPeekKey key => r ← ostk_peek_key key; mret (ObPeek r)
  | OkFreeSlot slot => ostk_free_slot (Z.of_nat slot);; mret ObUnit
  | OkClock => ostk_clock;; mret ObUnit
  | OkReadSlot slot => r ← ostk_read_slot (Z.of_nat slot); mret (ObCtx r)
  | OkWriteSlot slot ctx => ostk_write_slot (Z.of_nat slot) ctx;; mret ObUnit
  end.

(** Tickets live in slot [s] and those that [peek_key] looks for. *)
Definition live_at (s : nat) t : bool := negb (t_freed t) && (t_slot t =? s)%nat.
Definition wanted (key : Z) t : bool := negb (t_freed t) && (t_key t =? key).

(** Changes the ticket that is live in slot [s]. *)
Definition at_slot (s : nat) (f : ticket A -> ticket A) l : list (ticket A) :=
  (fun t => if live_at s t then f t else t) <$> l.

(** One call on a table of [depth] slots that holds the tickets [l]. *)
Inductive tk_step (depth : nat) l : ostk_op A -> ostq_obs A -> list (ticket A) -> Prop :=
| TkFull key ctx :
    (forall s, (s < depth)%nat -> exists t, t ∈ l /\ t_slot t = s) ->
    tk_step depth l (OkAlloc key ctx) (ObSlot None) l
| TkAlloc key ctx q s :
    (s < depth)%nat -> (forall t, t ∈ l -> t_slot t <> s) -> (forall t, t ∈ l -> t_seq t < q) ->
    tk_step depth l (OkAlloc key ctx) (ObSlot (Some (Z.of_nat s)))
      (l ++ [Ticket q s key ctx false])
| TkPeek key :
    tk_step depth l (OkPeekKey key)
      (ObPeek ((fun t => (t_ctx t, Z.of_nat (t_slot t))) <$> head (filter (wanted key) l))) l
| TkFree s t : t ∈ l -> live_at s t ->
    tk_step depth l (OkFreeSlot s) ObUnit (at_slot s (fun t => t <| t_freed := true |>) l)
| TkClock :
    tk_step depth l OkClock ObUnit (filter (fun t => negb (t_freed t)) l)
| TkRead s t : t ∈ l -> live_at s t ->
    tk_step depth l (OkReadSlot s) (ObCtx (t_ctx t)) l
| TkWrite s t ctx : t ∈ l -> live_at s t ->
    tk_step depth l (OkWriteSlot s ctx) ObUnit (at_slot s (fun t => t <| t_ctx := ctx |>) l).

(** The calls that trip an assertion: an access to a slot without a live ticket. *)
Definition tk_stuck l (op : ostk_op A) : Prop :=
  match op with
  | OkFreeSlot s | OkReadSlot s | OkWriteSlot s _ => forall t, t ∈ l -> live_at s t = false
  | _ => False
  end.

Inductive tk_run (depth : nat) : list (ticket A) -> list (ostk_op A) -> list (ostq_obs A) ->
    list (ticket A) -> Prop :=
| TkNil l : tk_run depth l [] [] l
| TkCons l op o l' ops os l'' :
    tk_step depth l op o l' -> tk_run depth l' ops os l'' ->
    tk_run depth l (op :: ops) (o :: os) l''.

(** The tickets of a table are the contents of its valid slots, in order of issue. *)
Definition entry_of t : ostk_entry_t A :=
  OstkEntry true (t_freed t) (t_key t) (t_seq t) (t_ctx t).
Definition older t t' : Prop := t_seq t < t_seq t'.

Record tickets_of ost l : Prop := {
  tk_wf : ostk_wf ost;
  tk_sorted : StronglySorted older l;
  tk_entries : forall t, t ∈ l <-> k_entries ost !! t_slot t = Some (entry_of t)
}.

(** ** Lists of tickets *)

Lemma ticket_eq t t' : t_slot t = t_slot t' -> entry_of t = entry_of t' -> t = t'.
Proof. destruct t, t'. unfold entry_of. simpl. intros. by simplify_eq. Qed.

Lemma slot_unique ost l t t' : tickets_of ost l -> t ∈ l -> t' ∈ l ->
  t_slot t = t_slot t' -> t = t'.
Proof.
  intros [_ _ He] Ht%He Ht'%He Hs. apply ticket_eq; [done|].
  rewrite Hs in Ht. congruence.
Qed.

Lemma live_at_true s t : live_at s t -> t_slot t = s /\ t_freed t = false.
Proof.
  unfold live_at. intros [H1 H2]%andb_prop_elim. apply Is_true_true, Nat.eqb_eq in H2.
  by destruct (t_freed t).
Qed.

Lemma live_at_intro t : t_freed t = false -> live_at (t_slot t) t.
Proof. intros H. unfold live_at. by rewrite H, Nat.eqb_refl. Qed.

Lemma entry_ticket ost l s e : tickets_of ost l -> k_entries ost !! s = Some e ->
  k_vld e = true -> exists t, t ∈ l /\ t_slot t = s /\ entry_of t = e.
Proof.
  intros [_ _ He] Hs Hv. exists (Ticket (k_issue_seq e) s (k_key e) (k_ctx e) (k_free_pending e)).
  destruct e. simpl in Hv. subst. by rewrite He.
Qed.

Lemma sorted_filter (P : ticket A -> Prop) `{!forall t, Decision (P t)} l :
  StronglySorted older l -> StronglySorted older (filter P l).
Proof.
  induction 1 as [|t l Hl IH Ht]; [constructor|]. rewrite filter_cons.
  case_decide; [|done]. constructor; [done|].
  rewrite Forall_forall in *. intros t' [_ Ht']%list_elem_of_filter. by apply Ht.
Qed.

Lemma sorted_snoc l t : StronglySorted older l -> (forall t', t' ∈ l -> older t' t) ->
  StronglySorted older (l ++ [t]).
Proof.
  intros Hl. induction Hl as [|x l Hl IH Hx]; intros Ht; simpl; [repeat constructor|].
  constructor.
  - apply IH. intros t' Ht'. apply Ht. by right.
  - rewrite Forall_app, Forall_singleton. split; [done|]. apply Ht. by left.
Qed.

Lemma sorted_fmap (f : ticket A -> ticket A) l : (forall t, t_seq (f t) = t_seq t) ->
  StronglySorted older l -> StronglySorted older (f <$> l).
Proof.
  intros Hf. induction 1 as [|t l Hl IH Ht]; [constructor|]. csimpl. constructor; [done|].
  rewrite Forall_fmap. apply (Forall_impl _ _ _ Ht). intros t'. unfold older. simpl.
  by rewrite !Hf.
Qed.

(** In a list sorted by issue number the first match is the oldest one. *)
Lemma head_filter_oldest (w : ticket A -> bool) l t : StronglySorted older l -> t ∈ l -> w t ->
  (forall t', t' ∈ l -> w t' -> t_seq t <= t_seq t') -> head (filter w l) = Some t.
Proof.
  induction 1 as [|x l Hl IH Hx]; intros Ht Hw Hmin; [by apply elem_of_nil in Ht|].
  rewrite filter_cons. case_decide as Hwx; simpl.
  - apply elem_of_cons in Ht as [->|Ht]; [done|].
    rewrite Forall_forall in Hx. specialize (Hx t Ht). unfold older in Hx.
    specialize (Hmin x ltac:(by left) Hwx). lia.
  - apply elem_of_cons in Ht as [->|Ht]; [done|].
    apply IH; [done..|]. intros t' Ht'. apply Hmin. by right.
Qed.

Lemma head_filter_none (w : ticket A -> bool) l :
  (forall t, t ∈ l -> w t = false) -> head (filter w l) = None.
Proof.
  induction l as [|x l IH]; intros H; [done|]. rewrite filter_cons.
  rewrite (H x) by (by left). simpl. apply IH. intros t Ht. apply H. by right.
Qed.

(** ** The operations *)

Lemma tickets_update ost ost' l s t (f : ticket A -> ticket A) : tickets_of ost l ->
  t ∈ l -> live_at s t -> ostk_wf ost' ->
  (forall t, t_seq (f t) = t_seq t /\ t_slot (f t) = t_slot t) ->
  k_entries ost' = <[s := entry_of (f t)]> (k_entries ost) ->
  tickets_of ost' (at_slot s f l).
Proof.
  intros HR Ht Hlv Hw Hf Hent. pose proof HR as [_ Hso He].
  pose proof (live_at_true _ _ Hlv) as [Hts _].
  assert (s < length (k_entries ost))%nat as Hlt
    by (apply He in Ht; rewrite Hts in Ht; by apply lookup_lt_Some in Ht).
  assert (forall u, u ∈ l -> t_slot u = s -> u = t) as Hu
    by (intros u Hul Hus; apply (slot_unique ost l); [done..|congruence]).
  split; [done|apply sorted_fmap; [|done]|].
  - intros u. case_match; [apply Hf|done].
  - intros u. unfold at_slot. rewrite list_elem_of_fmap, Hent. split.
    + intros (v & -> & Hv). destruct (live_at s v) eqn:Hlvv.
      * destruct (live_at_true s v) as [Hs _]; [by rewrite Hlvv|].
        rewrite (Hu v Hv Hs). rewrite (proj2 (Hf t)), Hts. by apply list_lookup_insert_eq.
      * rewrite list_lookup_insert_ne; [by apply He|]. intros Hs.
        rewrite (Hu v Hv (eq_sym Hs)) in Hlvv. by rewrite Hlvv in Hlv.
    + intros Hl. destruct (decide (t_slot u = s)) as [Hus|Hus].
      * exists t. split; [|done]. rewrite Hus, list_lookup_insert_eq in Hl by done.
        destruct (live_at s t); [|done].
        apply ticket_eq; [by rewrite (proj2 (Hf t)), Hts|congruence].
      * rewrite list_lookup_insert_ne in Hl by congruence. apply He in Hl. exists u.
        split; [|done]. destruct (live_at s u) eqn:Hlvu; [|done].
        destruct (live_at_true s u); [by rewrite Hlvu|done].
Qed.

(** What a call must do on a table that holds the tickets [l]: a step of the
    specification, or a failed assertion exactly where the specification is stuck. *)
Definition tk_sim ost l (op : ostk_op A) : Prop :=
  match ostk_do op ost with
  | Some (o, ost') => exists l', tk_step (length (k_entries ost)) l op o l' /\
      tickets_of ost' l' /\ length (k_entries ost') = length (k_entries ost) /\
      k_next_issue_seq ost' <= k_next_issue_seq ost + 1
  | None => tk_stuck l op
  end.

Lemma tk_alloc_sim ost l key ctx : tickets_of ost l -> k_next_issue_seq ost + 1 < W64 ->
  tk_sim ost l (OkAlloc key ctx).
Proof.
  intros HR Hn. pose proof HR as [Hw Hso He]. pose proof Hw as [Hd ? Hl Hwp Hc Hp ? Hsq Hi].
  pose proof (countb_bounds k_vld (k_entries ost)) as Hb. unfold tk_sim. simpl. mred.
  destruct (Z.eq_dec (k_count ost) (k_depth ost)) as [Hf|Hf].
  - rewrite ostk_alloc_full by done. exists l. split_and!; [|done..|lia]. constructor.
    intros s Hs. destruct (lookup_lt_is_Some_2 _ _ Hs) as [e Hse].
    destruct (k_vld e) eqn:Hv; [destruct (entry_ticket ost l s e) as (t & ? & ? & _); eauto|].
    pose proof (countb_insert k_vld _ _ _ (OstkEntry true false 0 0 zero) Hse) as Hci.
    pose proof (countb_bounds k_vld (<[s:=OstkEntry true false 0 0 zero]> (k_entries ost))) as Hb'.
    rewrite length_insert in Hb'. rewrite Hv in Hci. simpl in Hci. lia.
  - destruct (ostk_alloc_run ost key ctx Hw ltac:(lia) Hn) as (idx & e & r & -> & Hidx & Hv).
    pose proof (aget_Some _ _ _ Hidx) as Hr. rewrite aget_lookup in Hidx by lia.
    exists (l ++ [Ticket (k_next_issue_seq ost) (Z.to_nat idx) key ctx false]).
    assert (forall t, t ∈ l -> t_slot t <> Z.to_nat idx) as Hfree
      by (intros t Ht%He Hs; rewrite Hs in Ht; by simplify_eq).
    assert (forall t, t ∈ l -> t_seq t < k_next_issue_seq ost) as Hold
      by (intros t Ht%He; by apply (Hsq _ _ Ht)).
    simpl. split_and!; [| |by rewrite length_insert|lia].
    + rewrite <- (Z2Nat.id idx) at 1 by lia. constructor; [lia|done..].
    + split; [by eapply ostk_alloced_wf; [|rewrite aget_lookup by lia|]| |].
      * apply sorted_snoc; [done|]. intros t Ht. by apply Hold.
      * intros t. rewrite elem_of_app, list_elem_of_singleton. simpl.
        rewrite list_lookup_insert. case_decide as Hs; [split|rewrite He; split].
        -- intros [Ht| ->]; [|done]. destruct Hs as [Hs _]. by destruct (Hfree t Ht).
        -- intros Heq. right. destruct t. unfold entry_of in Heq. simplify_eq/=.
           destruct Hs as [-> _]. done.
        -- intros [Ht| ->]; [done|]. simpl in Hs. destruct Hs. lia.
        -- by left.
Qed.

Lemma tk_peek_sim ost l key : tickets_of ost l -> tk_sim ost l (OkPeekKey key).
Proof.
  intros HR. pose proof HR as [Hw Hso He]. unfold tk_sim. simpl. unfold ostk_peek_key, k_get. mred.
  pose proof (find_oldest_spec (fun e => k_key e =? key) (k_entries ost) 0 None) as Ho.
  destruct (find_oldest _ _ _ _) as [[s q]|]; simpl in Ho.
  - destruct Ho as ([?|(k & e & Hk & Hlv & -> & ->)] & _ & Hmin); [done|].
    rewrite aget_lookup, Z.add_0_l, Nat2Z.id, Hk by lia.
    apply andb_prop in Hlv as [Hlv Hkey].
    destruct (entry_ticket ost l k e HR Hk) as (t & Ht & <- & <-);
      [unfold k_live in Hlv; by apply andb_prop in Hlv as []|].
    exists l. split_and!; [|done..|lia].
    assert (head (filter (wanted key) l) = Some t) as Hh.
    { apply head_filter_oldest; [done..| |].
      - unfold wanted. unfold k_live in Hlv. simpl in *. by rewrite Hlv, Hkey.
      - intros t' Ht' Hw'. apply (Hmin (t_slot t') (entry_of t')); [by apply He|].
        unfold k_live. simpl. unfold wanted in Hw'. by apply Is_true_true. }
    pose proof (TkPeek (length (k_entries ost)) l key) as Hst. rewrite Hh in Hst. done.
  - destruct Ho as [_ Hno]. exists l. split_and!; [|done..|lia].
    pose proof (TkPeek (length (k_entries ost)) l key) as Hst.
    rewrite head_filter_none in Hst; [done|]. intros t Ht%He.
    specialize (Hno _ _ Ht). unfold k_live in Hno. done.
Qed.

Lemma tk_clock_sim ost l : tickets_of ost l -> tk_sim ost l OkClock.
Proof.
  intros HR. pose proof HR as [Hw Hso He]. unfold tk_sim. simpl. mred.
  destruct (ostk_clock_run ost Hw) as (ost' & -> & Hw' & _ & Hent & Hseq).
  exists (filter (fun t => negb (t_freed t)) l).
  rewrite Hent, length_fmap. split_and!; [constructor| |done|lia].
  split; [done|by apply sorted_filter|]. intros t.
  rewrite list_elem_of_filter, He, Hent, list_lookup_fmap_Some. split.
  - intros [Hf Ht]. exists (entry_of t). split; [|done]. symmetry. apply k_recycle_live.
    unfold k_live. simpl. by apply Is_true_true.
  - intros (e & Heq & Hs). assert (k_live e = true) as Hlv by (by rewrite <- k_recycle_vld, <- Heq).
    rewrite k_recycle_live in Heq by done. subst e. split; [|done].
    apply Is_true_true. exact Hlv.
Qed.

(** Slot accesses: either a ticket is live there, or the assertion fails. *)
Lemma slot_cases ost l s : tickets_of ost l ->
  (exists t, t ∈ l /\ live_at s t /\ ostk_slot_valid (Z.of_nat s) ost = Some (true, ost) /\
     aget (k_entries ost) (Z.of_nat s) = Some (entry_of t)) \/
  ((forall t, t ∈ l -> live_at s t = false) /\
   (ostk_slot_valid (Z.of_nat s) ≫= (fun ok => DBG_CHECK ok)) ost = None).
Proof.
  intros HR. pose proof HR as [Hw Hso He].
  destruct (k_entries ost !! s) as [e|] eqn:Hs.
  - assert (aget (k_entries ost) (Z.of_nat s) = Some e) as Ha
      by (by rewrite aget_lookup, Nat2Z.id by lia).
    pose proof (ostk_slot_valid_run ost (Z.of_nat s) e Ha Hw) as Hv.
    destruct (k_live e) eqn:Hlv.
    + left. destruct (entry_ticket ost l s e HR Hs) as (t & Ht & <- & <-);
        [unfold k_live in Hlv; by apply andb_prop in Hlv as []|].
      exists t. split_and!; [done|apply live_at_intro|done..].
      unfold k_live in Hlv. simpl in Hlv. by destruct (t_freed t).
    + right. split; [|mred; by rewrite Hv].
      intros t Ht%He. unfold live_at. destruct (Nat.eqb_spec (t_slot t) s) as [<-|];
        [|apply andb_false_r]. rewrite Hs in Ht. simplify_eq. unfold k_live in Hlv.
      simpl in Hlv. by rewrite Hlv.
  - right. split.
    + intros t Ht%He. unfold live_at. destruct (Nat.eqb_spec (t_slot t) s) as [<-|];
        [congruence|apply andb_false_r].
    + apply lookup_ge_None in Hs. destruct Hw. unfold ostk_slot_valid. mred.
      rewrite (proj2 (Z.ltb_ge _ _)) by lia. done.
Qed.

Lemma tk_free_sim ost l s : tickets_of ost l -> tk_sim ost l (OkFreeSlot s).
Proof.
  intros HR. pose proof HR as [Hw Hso He]. unfold tk_sim. simpl.
  destruct (slot_cases ost l s HR) as [(t & Ht & Hlv & _ & Ha)|[Hno Hf]].
  - destruct (live_at_true _ _ Hlv) as [_ Hfr].
    destruct (ostk_free_slot_run ost (Z.of_nat s) (entry_of t) Hw Ha) as (ost' & Hr & Hw' & Hent & _ & Hq);
      [unfold k_live; simpl; by rewrite Hfr|].
    mred. rewrite Hr. eexists. split_and!; [by econstructor| | |lia].
    + eapply (tickets_update ost ost' l s t); [done..| |by rewrite Hent, Nat2Z.id]. done.
    + by rewrite Hent, length_insert.
  - enough (ostk_free_slot (Z.of_nat s) ost = None) as Hn by (mred; by rewrite Hn).
    revert Hf. unfold ostk_free_slot. mred.
    destruct (ostk_slot_valid _ _) as [[[] ?]|]; done.
Qed.

Lemma tk_read_sim ost l s : tickets_of ost l -> tk_sim ost l (OkReadSlot s).
Proof.
  intros HR. unfold tk_sim. simpl. unfold ostk_read_slot, k_get.
  destruct (slot_cases ost l s HR) as [(t & Ht & Hlv & Hv & Ha)|[Hno Hf]]; mred.
  - rewrite Hv, Ha. exists l. split_and!; [by econstructor|done|done|lia].
  - revert Hf. mred. destruct (ostk_slot_valid _ _) as [[[] ?]|]; done.
Qed.

Lemma tk_write_sim ost l s ctx : tickets_of ost l -> tk_sim ost l (OkWriteSlot s ctx).
Proof.
  intros HR. pose proof HR as [Hw Hso He]. unfold tk_sim. simpl. unfold ostk_write_slot, k_get, k_set.
  destruct (slot_cases ost l s HR) as [(t & Ht & Hlv & Hv & Ha)|[Hno Hf]]; mred.
  - pose proof (aget_Some _ _ _ Ha). rewrite Hv, Ha, aset_insert by done. simpl.
    unfold ost_copy_to_slot. rewrite (proj2 (Z.eqb_neq _ _)) by apply Hw.
    eexists. split_and!; [by econstructor| |by rewrite length_insert|lia].
    eapply (tickets_update ost _ l s t); [done..| |done|simpl; by rewrite Nat2Z.id].
    rewrite aget_lookup in Ha by lia. by apply (ostk_wf_ctx ost _ (entry_of t)).
  - revert Hf. mred. destruct (ostk_slot_valid _ _) as [[[] ?]|]; done.
Qed.

Lemma tk_do_sim ost l op : tickets_of ost l -> k_next_issue_seq ost + 1 < W64 -> tk_sim ost l op.
Proof.
  destruct op; auto using tk_alloc_sim, tk_peek_sim, tk_free_sim, tk_clock_sim, tk_read_sim,
    tk_write_sim.
Qed.

Lemma tk_run_sim ops : forall ost l, tickets_of ost l ->
  k_next_issue_seq ost + Z.of_nat (length ops) < W64 ->
  match run_ops ostk_do ops ost with
  | Some (obs, ost') => exists l', tk_run (length (k_entries ost)) l ops obs l' /\ tickets_of ost' l'
  | None => exists pre op post obs l', ops = pre ++ op :: post /\
      tk_run (length (k_entries ost)) l pre obs l' /\ tk_stuck l' op
  end.
Proof.
  induction ops as [|op ops IH]; intros ost l HR Hn; simpl in *.
  { exists l. split; [constructor|done]. }
  pose proof (tk_do_sim ost l op HR ltac:(lia)) as Hst. unfold tk_sim in Hst. mred.
  destruct (ostk_do op ost) as [[o ost1]|]; [|by exists [], op, ops, [], l; repeat constructor].
  destruct Hst as (l1 & Hst & HR1 & Hlen & Hn1). specialize (IH ost1 l1 HR1 ltac:(lia)).
  rewrite Hlen in IH. destruct (run_ops ostk_do ops ost1) as [[obs ost2]|].
  - destruct IH as (l2 & Hrun & HR2). exists l2. split; [by econstructor|done].
  - destruct IH as (pre & op' & post & obs & l2 & -> & Hrun & Hstk).
    exists (op :: pre), op', post, (o :: obs), l2. split_and!; [done|by econstructor|done].
Qed.

Lemma construct_tickets ctx_size depth ost : ostk_construct ctx_size depth = Some ost ->
  depth <= 2147483648 -> ctx_size <> 0 ->
  tickets_of ost [] /\ k_next_issue_seq ost = 0 /\ length (k_entries ost) = Z.to_nat depth.
Proof.
  intros Hc Hd Hs. destruct (ostk_construct_run _ _ _ Hc Hd Hs) as (Hw & Hnone & Hq & Hl).
  split_and!; [|done..]. split; [done|constructor|]. intros t. rewrite elem_of_nil. split; [done|].
  intros Ht. by apply Hnone in Ht.
Qed.

End ostk_spec.

(** ** Theorems *)

(** C22: Every run of a keyed table built by [ostk_construct], of fewer than 2^64 calls, is a
    run of the ticket specification: an allocation takes some slot that no ticket uses and
    fails only when all slots are used, a look-up by key returns the oldest ticket of that
    key that has not been freed, a freed ticket is gone after the next clock and not before,
    and an assertion fails only on an access to a slot without a live ticket. *)
Theorem ostk_refines_tickets {A} `{!Zero A} ctx_size depth (ost : ostk_t A) ops :
  ostk_construct ctx_size depth = Some ost -> depth <= 2147483648 -> ctx_size <> 0 ->
  Z.of_nat (length ops) < W64 ->
  match run_ops ostk_do ops ost with
  | Some (obs, ost') => exists l, tk_run (Z.to_nat depth) [] ops obs l /\ tickets_of ost' l
  | None => exists pre op post obs l, ops = pre ++ op :: post /\
      tk_run (Z.to_nat depth) [] pre obs l /\ tk_stuck l op
  end.
Proof.
  intros Hc Hd Hs Hn. destruct (construct_tickets _ _ _ Hc Hd Hs) as (HR & Hq & Hl).
  rewrite <- Hl. apply tk_run_sim; [done|lia].
Qed.

Lemma ostk_refines_tickets_witness :
  exists ost obs ost' l, ostk_construct (A := Z) 4 2 = Some ost /\
  run_ops ostk_do [OkAlloc 1 5; OkAlloc 1 6; OkAlloc 2 7; OkPeekKey 1; OkFreeSlot 0;
    OkPeekKey 1; OkClock; OkAlloc 1 8; OkPeekKey 1] ost = Some (obs, ost') /\
  obs = [ObSlot (Some 0); ObSlot (Some 1); ObSlot None; ObPeek (Some (5, 0)); ObUnit;
    ObPeek (Some (6, 1)); ObUnit; ObSlot (Some 0); ObPeek (Some (6, 1))] /\
  tickets_of ost' l.
Proof.
  destruct (ostk_construct (A := Z) 4 2) as [ost|] eqn:E; [|vm_compute in E; discriminate E].
  pose proof (ostk_refines_tickets 4 2 ost [OkAlloc 1 5; OkAlloc 1 6; OkAlloc 2 7; OkPeekKey 1;
    OkFreeSlot 0; OkPeekKey 1; OkClock; OkAlloc 1 8; OkPeekKey 1] E ltac:(lia) ltac:(lia)
    eq_refl) as H.
  exists ost. destruct (run_ops ostk_do _ _) as [[obs ost']|] eqn:Er.
  - destruct H as (l & _ & Ht). exists obs, ost', l. split; [reflexivity|].
    split; [reflexivity|]. split; [|exact Ht].
    vm_compute in E. injection E as <-. vm_compute in Er. by injection Er as <- _.
  - exfalso. vm_compute in E. injection E as <-. vm_compute in Er. discriminate Er.
Defined.
