(* ===== verification/Isa.v ===== *)
(** * Instruction formats

    [design/model/spec/core/isa.h]: opcodes, function codes, the bit-field views of
    the union [rv32g_inst_t] (an instruction is its raw 32-bit word here, a member
    of the union is a bit field of it) and the immediate decoders.  The [encode]
    functions are the instruction formats of the RISC-V manual, read in the other
    direction; the decoders are proved to invert them. *)

From stdpp Require Import base numbers list.
From Stdlib Require Import ZArith Lia.
From S2P Require Import Prelude.
Open Scope Z_scope.

(** ** Enumerations *)

Definition RV32G_PRIV_USER := 0.
Definition RV32G_PRIV_SUPERVISOR := 1.
Definition RV32G_PRIV_MACHINE := 3.

Definition OPCODE_LUI := 0x37.
Definition OPCODE_AUIPC := 0x17.
Definition OPCODE_JAL := 0x6f.
Definition OPCODE_JALR := 0x67.
Definition OPCODE_BRANCH := 0x63.
Definition OPCODE_LOAD := 0x03.
Definition OPCODE_STORE := 0x23.
Definition OPCODE_ALUI := 0x13.
Definition OPCODE_ALU := 0x33.
Definition OPCODE_MISC_MEM := 0x0f.
Definition OPCODE_SYSTEM := 0x73.
Definition OPCODE_AMO := 0x2f.

Definition BRANCH_FUNCT3_BEQ := 0.
Definition BRANCH_FUNCT3_BNE := 1.
Definition BRANCH_FUNCT3_BLT := 4.
Definition BRANCH_FUNCT3_BGE := 5.
Definition BRANCH_FUNCT3_BLTU := 6.
Definition BRANCH_FUNCT3_BGEU := 7.

Definition ALUI_FUNCT3_ADDI := 0.
Definition ALUI_FUNCT3_SLI := 1.
Definition ALUI_FUNCT3_SLTI := 2.
Definition ALUI_FUNCT3_SLTIU := 3.
Definition ALUI_FUNCT3_XORI := 4.
Definition ALUI_FUNCT3_SRI := 5.
Definition ALUI_FUNCT3_ORI := 6.
Definition ALUI_FUNCT3_ANDI := 7.

(** [funct3 << 7 | funct7]. *)
Definition ALU_FUNCT37_ADD := 0x000.
Definition ALU_FUNCT37_SUB := 0x020.
Definition ALU_FUNCT37_SL := 0x080.
Definition ALU_FUNCT37_SLT := 0x100.
Definition ALU_FUNCT37_SLTU := 0x180.
Definition ALU_FUNCT37_XOR := 0x200.
Definition ALU_FUNCT37_SRL := 0x280.
Definition ALU_FUNCT37_SRA := 0x2a0.
Definition ALU_FUNCT37_OR := 0x300.
Definition ALU_FUNCT37_AND := 0x380.
Definition ALU_FUNCT37_MUL := 0x001.
Definition ALU_FUNCT37_MULH := 0x081.
Definition ALU_FUNCT37_MULHSU := 0x101.
Definition ALU_FUNCT37_MULHU := 0x181.
Definition ALU_FUNCT37_DIV := 0x201.
Definition ALU_FUNCT37_DIVU := 0x281.
Definition ALU_FUNCT37_REM := 0x301.
Definition ALU_FUNCT37_REMU := 0x381.

Definition LOAD_FUNCT3_LB := 0.
Definition LOAD_FUNCT3_LH := 1.
Definition LOAD_FUNCT3_LW := 2.
Definition LOAD_FUNCT3_LBU := 4.
Definition LOAD_FUNCT3_LHU := 5.

Definition STORE_FUNCT3_SB := 0.
Definition STORE_FUNCT3_SH := 1.
Definition STORE_FUNCT3_SW := 2.

Definition SYSTEM_FUNCT3_PRIV := 0.
Definition SYSTEM_FUNCT3_CSRRW := 1.
Definition SYSTEM_FUNCT3_CSRRS := 2.
Definition SYSTEM_FUNCT3_CSRRC := 3.
Definition SYSTEM_FUNCT3_CSRRWI := 5.
Definition SYSTEM_FUNCT3_CSRRSI := 6.
Definition SYSTEM_FUNCT3_CSRRCI := 7.

Definition MISC_MEM_FUNCT3_FENCE := 0.
Definition MISC_MEM_FUNCT3_FENCE_I := 1.
Definition MISC_MEM_FUNCT3_CBO := 2.

(** [funct3 << 5 | funct7 >> 2]. *)
Definition RV32G_AMO_FUNCT375_LR := 0x42.
Definition RV32G_AMO_FUNCT375_SC := 0x43.
Definition RV32G_AMO_FUNCT375_AMOSWAP := 0x41.
Definition RV32G_AMO_FUNCT375_AMOADD := 0x40.
Definition RV32G_AMO_FUNCT375_AMOXOR := 0x44.
Definition RV32G_AMO_FUNCT375_AMOAND := 0x4c.
Definition RV32G_AMO_FUNCT375_AMOOR := 0x48.
Definition RV32G_AMO_FUNCT375_AMOMIN := 0x50.
Definition RV32G_AMO_FUNCT375_AMOMAX := 0x54.
Definition RV32G_AMO_FUNCT375_AMOMINU := 0x58.
Definition RV32G_AMO_FUNCT375_AMOMAXU := 0x5c.

(** ** Views of the instruction word *)

Definition rv32g_inst_t := Z.

Definition i_opcode (i : rv32g_inst_t) := bits i 0 7.
Definition i_rd (i : rv32g_inst_t) := bits i 7 5.
Definition i_funct3 (i : rv32g_inst_t) := bits i 12 3.
Definition i_rs1 (i : rv32g_inst_t) := bits i 15 5.
Definition i_rs2 (i : rv32g_inst_t) := bits i 20 5.
Definition i_funct7 (i : rv32g_inst_t) := bits i 25 7.
Definition i_imm_11_0 (i : rv32g_inst_t) := bits i 20 12.

(** ** Immediates *)

Definition rv32g_sign_ext (data width : Z) : Z :=
  if negb (Z.land data (Z.shiftl 1 (width - 1)) =? 0)
  then Z.lor data (u32 (Z.shiftl (W32 - 1) width))
  else data.

Definition u_imm_decode (i : rv32g_inst_t) : Z := u32 (Z.shiftl (bits i 12 20) 12).

Definition j_imm_decode (i : rv32g_inst_t) : Z :=
  let src := Z.lor (Z.lor (Z.lor (Z.shiftl (bits i 21 10) 1) (Z.shiftl (bits i 20 1) 11))
                          (Z.shiftl (bits i 12 8) 12))
                   (Z.shiftl (bits i 31 1) 20) in
  rv32g_sign_ext src 21.

Definition i_imm_decode (i : rv32g_inst_t) : Z := rv32g_sign_ext (i_imm_11_0 i) 12.

Definition b_imm_decode (i : rv32g_inst_t) : Z :=
  let src := Z.lor (Z.lor (Z.lor (Z.shiftl (bits i 8 4) 1) (Z.shiftl (bits i 25 6) 5))
                          (Z.shiftl (bits i 7 1) 11))
                   (Z.shiftl (bits i 31 1) 12) in
  rv32g_sign_ext src 13.

Definition s_imm_decode (i : rv32g_inst_t) : Z :=
  let src := Z.lor (bits i 7 5) (Z.shiftl (bits i 25 7) 5) in
  rv32g_sign_ext src 12.

(** ** Encoders: the formats of the manual *)

Definition fld (v lo : Z) : Z := Z.shiftl v lo.

Definition encode_i (opcode rd funct3 rs1 imm : Z) : rv32g_inst_t :=
  Z.lor opcode (Z.lor (fld rd 7) (Z.lor (fld funct3 12) (Z.lor (fld rs1 15) (fld (bits imm 0 12) 20)))).

Definition encode_s (opcode funct3 rs1 rs2 imm : Z) : rv32g_inst_t :=
  Z.lor opcode (Z.lor (fld (bits imm 0 5) 7) (Z.lor (fld funct3 12) (Z.lor (fld rs1 15)
    (Z.lor (fld rs2 20) (fld (bits imm 5 7) 25))))).

Definition encode_b (opcode funct3 rs1 rs2 imm : Z) : rv32g_inst_t :=
  Z.lor opcode (Z.lor (fld (bits imm 11 1) 7) (Z.lor (fld (bits imm 1 4) 8) (Z.lor (fld funct3 12)
    (Z.lor (fld rs1 15) (Z.lor (fld rs2 20) (Z.lor (fld (bits imm 5 6) 25) (fld (bits imm 12 1) 31))))))).

Definition encode_u (opcode rd imm : Z) : rv32g_inst_t :=
  Z.lor opcode (Z.lor (fld rd 7) (fld (bits imm 12 20) 12)).

Definition encode_j (opcode rd imm : Z) : rv32g_inst_t :=
  Z.lor opcode (Z.lor (fld rd 7) (Z.lor (fld (bits imm 12 8) 12) (Z.lor (fld (bits imm 11 1) 20)
    (Z.lor (fld (bits imm 1 10) 21) (fld (bits imm 20 1) 31))))).

(** ** Sign extension *)

Lemma land_bit_zero x n : 0 <= n -> (Z.land x (Z.shiftl 1 n) =? 0) = negb (Z.testbit x n).
Proof.
  intros Hn. destruct (Z.testbit x n) eqn:Hb; simpl.
  - apply Z.eqb_neq. intros E. apply (f_equal (fun z => Z.testbit z n)) in E.
    rewrite Z.land_spec, Hb, testbit_shiftl, Z.bits_0 in E by lia.
    rewrite (proj2 (Z.leb_le n n)), Z.sub_diag in E by lia. done.
  - apply Z.eqb_eq, Z.bits_inj'. intros i Hi.
    rewrite Z.land_spec, testbit_shiftl, Z.bits_0 by lia.
    destruct (Z.leb_spec n i); [|by rewrite andb_false_r].
    destruct (Z.eq_dec i n) as [->|]; [by rewrite Hb|].
    change 1 with (2 ^ 0). rewrite Z.pow2_bits_false by lia. by rewrite !andb_false_r.
Qed.

(** The high bits of a number in the signed range of [w] bits repeat bit [w - 1]. *)
Lemma testbit_sign x w i : 0 < w -> - 2 ^ (w - 1) <= x < 2 ^ (w - 1) -> w - 1 <= i ->
  Z.testbit x i = (x <? 0).
Proof.
  intros Hw Hx Hi. destruct (Z.ltb_spec x 0).
  - destruct (Z.eq_dec x (-1)) as [->|]; [apply Z.bits_m1; lia|].
    apply Z.bits_above_log2_neg; [lia|].
    apply (Z.lt_le_trans _ (w - 1)); [|lia]. apply Z.log2_lt_pow2; lia.
  - destruct (Z.eq_dec x 0) as [->|]; [apply Z.bits_0|].
    apply Z.bits_above_log2; [lia|].
    apply (Z.lt_le_trans _ (w - 1)); [|lia]. apply Z.log2_lt_pow2; lia.
Qed.

(** [rv32g_sign_ext] is two's complement sign extension. *)
Lemma sign_ext_spec data w x : 0 < w <= 32 -> - 2 ^ (w - 1) <= x < 2 ^ (w - 1) ->
  (forall i, 0 <= i < w -> Z.testbit data i = Z.testbit x i) ->
  (forall i, w <= i -> Z.testbit data i = false) ->
  rv32g_sign_ext data w = u32 x.
Proof.
  intros Hw Hx Hlo Hhi. unfold rv32g_sign_ext.
  rewrite land_bit_zero, negb_involutive, Hlo, (testbit_sign x w) by lia.
  apply Z.bits_inj'. intros i Hi. rewrite testbit_u32 by done.
  assert (Z.testbit (u32 (Z.shiftl (W32 - 1) w)) i = (w <=? i) && (i <? 32)) as Hm.
  { rewrite testbit_u32, testbit_shiftl by lia. change (W32 - 1) with (Z.ones 32).
    destruct (Z.leb_spec w i); [|done]. rewrite testbit_ones by lia.
    destruct (Z.ltb_spec i 32), (Z.ltb_spec (i - w) 32); done || lia. }
  destruct (Z.ltb_spec x 0); rewrite ?Z.lor_spec, ?Hm.
  - destruct (Z.leb_spec w i); [|rewrite orb_false_r, Hlo by lia].
    + rewrite Hhi, (testbit_sign x w) by lia. destruct (Z.ltb_spec x 0); [done|lia].
    + destruct (Z.ltb_spec i 32); [by rewrite andb_true_r|lia].
  - destruct (Z.lt_ge_cases i w).
    + rewrite Hlo by lia. destruct (Z.ltb_spec i 32); [by rewrite andb_true_r|lia].
    + rewrite Hhi, (testbit_sign x w) by lia. destruct (Z.ltb_spec x 0); [lia|done].
Qed.

(** ** Fields of an encoded instruction *)

Lemma bits_lor x y lo w : bits (Z.lor x y) lo w = Z.lor (bits x lo w) (bits y lo w).
Proof. unfold bits. by rewrite Z.shiftr_lor, Z.land_lor_distr_l. Qed.

Lemma testbit_small v n i : 0 <= v < 2 ^ n -> 0 <= n <= i -> Z.testbit v i = false.
Proof.
  intros Hv Hi. rewrite <- (Z.mod_small v (2 ^ n)) by done.
  apply Z.mod_pow2_bits_high. lia.
Qed.

Lemma bits_fld_same v lo w : 0 <= lo -> 0 <= w -> 0 <= v < 2 ^ w -> bits (fld v lo) lo w = v.
Proof.
  intros Hlo Hw Hv. unfold fld. rewrite bits_div_mod, Z.shiftl_mul_pow2 by done.
  rewrite Z.div_mul by (apply Z.pow_nonzero; lia). by apply Z.mod_small.
Qed.

Lemma bits_fld_other v lo n lo' w : 0 <= lo -> 0 <= n -> 0 <= lo' -> 0 <= w ->
  0 <= v < 2 ^ n -> lo + n <= lo' \/ lo' + w <= lo -> bits (fld v lo) lo' w = 0.
Proof.
  intros ???? Hv Hd. apply Z.bits_inj'. intros i Hi. unfold fld.
  rewrite testbit_bits, testbit_shiftl, Z.bits_0 by lia.
  destruct (Z.ltb_spec i w); [|apply andb_false_r].
  destruct (Z.leb_spec lo (i + lo')); [|done].
  rewrite (testbit_small v n) by lia. done.
Qed.

(** Evaluates the bit field [lo, w] of an encoded instruction. *)
Ltac fields :=
  rewrite ?bits_lor;
  repeat first
    [ rewrite bits_fld_same by (first [done | lia | apply bits_range; lia])
    | rewrite (bits_fld_other _ _ 7) by (first [lia | apply bits_range; lia])
    | rewrite (bits_fld_other _ _ 12) by (first [lia | apply bits_range; lia])
    | rewrite (bits_fld_other _ _ 20) by (first [lia | apply bits_range; lia])
    | rewrite (bits_fld_other _ _ 8) by (first [lia | apply bits_range; lia])
    | rewrite (bits_fld_other _ _ 10) by (first [lia | apply bits_range; lia])
    | rewrite (bits_fld_other _ _ 6) by (first [lia | apply bits_range; lia])
    | rewrite (bits_fld_other _ _ 5) by (first [lia | apply bits_range; lia])
    | rewrite (bits_fld_other _ _ 4) by (first [lia | apply bits_range; lia])
    | rewrite (bits_fld_other _ _ 3) by (first [lia | apply bits_range; lia])
    | rewrite (bits_fld_other _ _ 1) by (first [lia | apply bits_range; lia]) ];
  rewrite ?Z.lor_0_l, ?Z.lor_0_r.

(** Equality of one bit of two words made of fields. *)
Ltac bit_cases :=
  rewrite ?Z.lor_spec, ?testbit_shiftl by lia;
  repeat match goal with
  | |- context [?a <=? ?b] => destruct (Z.leb_spec a b); try lia
  end; rewrite ?andb_true_l, ?andb_false_l, ?testbit_bits by lia;
  repeat match goal with
  | |- context [?a <? ?b] => destruct (Z.ltb_spec a b); try lia
  end; rewrite ?andb_true_r, ?andb_false_r, ?orb_false_r; simpl; try done;
  f_equal; lia.

Lemma odd_bit x : x mod 2 = 0 -> Z.testbit x 0 = false.
Proof. intros H. rewrite Z.bit0_odd, Zodd_mod. by rewrite H. Qed.

Section roundtrip.
  Context (opcode rd funct3 rs1 rs2 : Z).
  Hypothesis Hop : 0 <= opcode < 2 ^ 7.
  Hypothesis Hrd : 0 <= rd < 2 ^ 5.
  Hypothesis Hf3 : 0 <= funct3 < 2 ^ 3.
  Hypothesis Hrs1 : 0 <= rs1 < 2 ^ 5.
  Hypothesis Hrs2 : 0 <= rs2 < 2 ^ 5.

Lemma opcode_other lo w : 7 <= lo -> 0 <= w -> bits opcode lo w = 0.
Proof.
  intros. rewrite <- (Z.shiftl_0_r opcode). apply (bits_fld_other opcode 0 7); lia.
Qed.

Lemma i_imm_roundtrip imm : - 2 ^ 11 <= imm < 2 ^ 11 ->
  i_imm_decode (encode_i opcode rd funct3 rs1 imm) = u32 imm.
Proof using All.
  intros Hi. unfold i_imm_decode, i_imm_11_0, encode_i. fields.
  rewrite opcode_other, Z.lor_0_l by lia.
  apply sign_ext_spec; [lia|done|intros; bit_cases|intros; bit_cases].
Qed.

Lemma s_imm_roundtrip imm : - 2 ^ 11 <= imm < 2 ^ 11 ->
  s_imm_decode (encode_s opcode funct3 rs1 rs2 imm) = u32 imm.
Proof using All.
  intros Hi. unfold s_imm_decode, encode_s. fields.
  rewrite !opcode_other, !Z.lor_0_l by lia.
  apply sign_ext_spec; [lia|done|intros; bit_cases|intros; bit_cases].
Qed.

Lemma b_imm_roundtrip imm : - 2 ^ 12 <= imm < 2 ^ 12 -> imm mod 2 = 0 ->
  b_imm_decode (encode_b opcode funct3 rs1 rs2 imm) = u32 imm.
Proof using All.
  intros Hi Hev. unfold b_imm_decode, encode_b. fields.
  rewrite !opcode_other, !Z.lor_0_l by lia.
  apply sign_ext_spec; [lia|done| |intros; bit_cases].
  intros i Hr. destruct (Z.eq_dec i 0) as [->|]; [rewrite (odd_bit imm) by done|]; bit_cases.
Qed.

Lemma j_imm_roundtrip imm : - 2 ^ 20 <= imm < 2 ^ 20 -> imm mod 2 = 0 ->
  j_imm_decode (encode_j opcode rd imm) = u32 imm.
Proof using All.
  intros Hi Hev. unfold j_imm_decode, encode_j. fields.
  rewrite !opcode_other, !Z.lor_0_l by lia.
  apply sign_ext_spec; [lia|done| |intros; bit_cases].
  intros i Hr. destruct (Z.eq_dec i 0) as [->|]; [rewrite (odd_bit imm) by done|]; bit_cases.
Qed.

Lemma u_imm_roundtrip imm : is_u32 imm -> imm mod 2 ^ 12 = 0 ->
  u_imm_decode (encode_u opcode rd imm) = imm.
Proof using All.
  intros Hi Hev. unfold u_imm_decode, encode_u. fields.
  rewrite !opcode_other, !Z.lor_0_l by lia.
  rewrite bits_div_mod, Z.shiftl_mul_pow2 by lia. unfold is_u32, u32, W32 in *. zdiv.
Qed.

End roundtrip.

(** ** Theorems *)

(** C23: The immediate decoders of [isa.h] invert the instruction formats of the RISC-V
    manual: for every register and opcode field, decoding the I, S, B, J or U immediate
    of an encoded instruction gives back the immediate, sign-extended to 32 bits. *)
Theorem imm_decode_encode opcode rd funct3 rs1 rs2 imm :
  0 <= opcode < 2 ^ 7 -> 0 <= rd < 2 ^ 5 -> 0 <= funct3 < 2 ^ 3 ->
  0 <= rs1 < 2 ^ 5 -> 0 <= rs2 < 2 ^ 5 ->
  (- 2 ^ 11 <= imm < 2 ^ 11 ->
     i_imm_decode (encode_i opcode rd funct3 rs1 imm) = u32 imm /\
     s_imm_decode (encode_s opcode funct3 rs1 rs2 imm) = u32 imm) /\
  (imm mod 2 = 0 -> - 2 ^ 12 <= imm < 2 ^ 12 ->
     b_imm_decode (encode_b opcode funct3 rs1 rs2 imm) = u32 imm) /\
  (imm mod 2 = 0 -> - 2 ^ 20 <= imm < 2 ^ 20 ->
     j_imm_decode (encode_j opcode rd imm) = u32 imm) /\
  (imm mod 2 ^ 12 = 0 -> is_u32 imm -> u_imm_decode (encode_u opcode rd imm) = imm).
Proof.
  intros. split_and!; intros; [split|..].
  - by apply (i_imm_roundtrip opcode rd funct3 rs1 rs2).
  - by apply (s_imm_roundtrip opcode rd funct3 rs1 rs2).
  - by apply (b_imm_roundtrip opcode rd funct3 rs1 rs2).
  - by apply (j_imm_roundtrip opcode rd funct3 rs1 rs2).
  - by apply (u_imm_roundtrip opcode rd funct3 rs1 rs2).
Qed.

Lemma imm_decode_encode_witness :
  i_imm_decode (encode_i OPCODE_ALUI 1 0 2 (-5)) = 0xfffffffb /\
  b_imm_decode (encode_b OPCODE_BRANCH 0 2 3 (-4)) = 0xfffffffc.
Proof.
  split.
  - refine (proj1 (proj1 (imm_decode_encode OPCODE_ALUI 1 0 2 3 (-5) _ _ _ _ _) _));
      unfold OPCODE_ALUI; lia.
  - refine (proj1 (proj2 (imm_decode_encode OPCODE_BRANCH 1 0 2 3 (-4) _ _ _ _ _)) _ _);
      unfold OPCODE_BRANCH; lia || reflexivity.
Defined.
