(* ===== verification/ExuState.v ===== *)
(** * The execution unit: state and register file

    The packets of the interfaces of the execution unit ([design/model/itf/*.h]), the state
    [exu_t] of [core/hart/exu/exu.h] and the register file accessors of
    [core/hart/exu/utils.h].

    A FIFO interface is a [chan] (Itf.v proves that the ring of [itf.c] implements it).  The
    CSR file is reached through a pair of signal interfaces whose write callbacks run inside
    the CSR module: [CsrPort] is what the execution unit sees of it, and the field
    [exu_csr] holds the state behind the port. *)

From stdpp Require Import base numbers list.
From Stdlib Require Import ZArith Lia.
From S2P Require Import Prelude Fifo Isa.

(** ** Packets *)

Record ex_req_if_t := ExReq {
  rq_inst : rv32g_inst_t; rq_pc : Z; rq_pred_taken : bool; rq_pred_pc : Z;
  rq_is_boot_code : bool }.

Record ex_rsp_if_t := ExRsp {
  rsp_pc : Z; rsp_taken : bool; rsp_pred_true : bool; rsp_target_pc : Z }.
#[export] Instance eta_ex_rsp : Eta ex_rsp_if_t := fun r =>
  ExRsp (rsp_pc r) (rsp_taken r) (rsp_pred_true r) (rsp_target_pc r).

Definition LDST_REQ_CMO_NONE := 0.
Definition LDST_REQ_CMO_INVAL := 1.
Definition LDST_REQ_CMO_CLEAN := 2.
Definition LDST_REQ_CMO_FLUSH := 3.

Definition LDST_REQ_SIZE_B1 := 0.
Definition LDST_REQ_SIZE_B2 := 1.
Definition LDST_REQ_SIZE_B4 := 2.

Record ldst_req_if_t := LdstReq {
  ld_addr : Z; ld_st : bool; ld_cmo : Z; ld_size : Z; ld_data : Z; ld_strobe : Z }.
#[export] Instance eta_ldst_req : Eta ldst_req_if_t := fun r =>
  LdstReq (ld_addr r) (ld_st r) (ld_cmo r) (ld_size r) (ld_data r) (ld_strobe r).

(** [ldst_req_if_t ldst_req = { .cmo = LDST_REQ_CMO_NONE }] *)
Definition ldst_req_init : ldst_req_if_t := LdstReq 0 false LDST_REQ_CMO_NONE LDST_REQ_SIZE_B1 0 0.

Record ldst_rsp_if_t := LdstRsp { lr_data : Z; lr_ok : bool }.

Definition HART_EXPT_TYPE_EXCEPTION := 0.
Definition HART_EXPT_TYPE_MRET := 1.
Definition HART_EXPT_TYPE_SRET := 2.

Definition HART_EXPT_CAUSE_INST_ADDR_MISALIGNED := 0.
Definition HART_EXPT_CAUSE_INST_ACCESS_FAULT := 1.
Definition HART_EXPT_CAUSE_ILLEGAL_INST := 2.
Definition HART_EXPT_CAUSE_BREAKPOINT := 3.
Definition HART_EXPT_CAUSE_LOAD_ADDR_MISALIGNED := 4.
Definition HART_EXPT_CAUSE_LOAD_ACCESS_FAULT := 5.
Definition HART_EXPT_CAUSE_STORE_AMO_ADDR_MISALIGNED := 6.
Definition HART_EXPT_CAUSE_STORE_AMO_ACCESS_FAULT := 7.
Definition HART_EXPT_CAUSE_ECALL := 8.
Definition HART_EXPT_CAUSE_INST_PAGE_FAULT := 12.
Definition HART_EXPT_CAUSE_LOAD_PAGE_FAULT := 13.
Definition HART_EXPT_CAUSE_STORE_AMO_PAGE_FAULT := 15.

Record hart_expt_if_t := HartExpt {
  expt_type : Z; expt_cause : Z; expt_priv : Z; expt_pc : Z; expt_tval : Z }.

Record exu_state_if_t := ExuStateIf {
  st_priv : Z; st_pc : Z; st_irq_epc : Z; st_trap_defer : bool; st_wfi : bool;
  st_wfi_resume_pc : Z }.

Record trap_exu_ctrl_if_t := TrapExuCtrl { tc_priv : Z; tc_irq_epc : Z; tc_wfi : bool }.
#[export] Instance eta_trap_exu_ctrl : Eta trap_exu_ctrl_if_t := fun r =>
  TrapExuCtrl (tc_priv r) (tc_irq_epc r) (tc_wfi r).

(** ** The port to the CSR file *)

(** One exchange over the read (write) request and response signals: the address, the
    privilege level of the access and, for a write, the value; the response is the value
    read and whether the access is allowed. *)
Class CsrPort (C : Type) := {
  port_read : Z -> Z -> M C (Z * bool);
  port_write : Z -> Z -> Z -> M C bool
}.

(** What the execution unit relies on: values are words, requests are always answered. *)
Class CsrPortLaws (C : Type) `{!CsrPort C} := {
  port_ok : C -> Prop;
  port_read_ok : forall a p c, port_ok c ->
    wp (port_read a p) (fun r c' => is_u32 r.1 /\ port_ok c') c;
  port_write_ok : forall a p v c, port_ok c -> is_u32 v ->
    wp (port_write a p v) (fun _ c' => port_ok c') c
}.

(** ** State *)

Definition AMO_STAGE_IDLE := 0.
Definition AMO_STAGE_READ := 1.
Definition AMO_STAGE_WRITE := 2.

Inductive fence_i_stage_t :=
| FENCE_I_STAGE_IDLE | FENCE_I_STAGE_WAIT_D_ACK | FENCE_I_STAGE_SEND_I_FLUSH
| FENCE_I_STAGE_WAIT_I_ACK | FENCE_I_STAGE_DONE.

Definition is_idle (s : fence_i_stage_t) : bool :=
  match s with FENCE_I_STAGE_IDLE => true | _ => false end.

Definition RV32G_GPR_NUM := 32.

Record exu_t (C : Type) := Exu {
  fl_req_slv : chan unit;
  ex_req_slv : chan ex_req_if_t;
  ex_rsp_mst : chan ex_rsp_if_t;
  ldst_req_mst : chan ldst_req_if_t;
  ldst_rsp_slv : chan ldst_rsp_if_t;
  ex_expt_mst : chan hart_expt_if_t;
  tlb_flush_mst : chan unit;
  l1i_flush_mst : chan unit;
  l1d_flush_mst : chan unit;
  l1i_flush_ack_slv : chan unit;
  l1d_flush_ack_slv : chan unit;
  exu_csr : C;
  state_o : exu_state_if_t;
  trap_ctrl_i : trap_exu_ctrl_if_t;
  priv : Z;
  cur_pc : Z;
  irq_epc : Z;
  trap_defer : bool;
  cur_opcode : Z;
  ldst_req_pend : bool;
  ldst_opcode : Z;
  ldst_pc : Z;
  ld_rd : Z;
  ld_funct3 : Z;
  amo_stage : Z;
  amo_rd : Z;
  amo_addr : Z;
  amo_s2 : Z;
  amo_funct375 : Z;
  amo_lr_set : bool;
  amo_rsvd_addr : Z;
  wfi : bool;
  wfi_resume_pc : Z;
  fence_i_stage : fence_i_stage_t;
  gpr : list Z;
  exec_inst : Z;
  exu_heartbeat_cnt : Z
}.
Arguments Exu {C} _ _ _ _ _ _ _ _ _ _ _ _ _ _ _ _ _ _ _ _ _ _ _ _ _ _ _ _ _ _ _ _ _ _ _ _ _.
Arguments fl_req_slv {C} _.
Arguments ex_req_slv {C} _.
Arguments ex_rsp_mst {C} _.
Arguments ldst_req_mst {C} _.
Arguments ldst_rsp_slv {C} _.
Arguments ex_expt_mst {C} _.
Arguments tlb_flush_mst {C} _.
Arguments l1i_flush_mst {C} _.
Arguments l1d_flush_mst {C} _.
Arguments l1i_flush_ack_slv {C} _.
Arguments l1d_flush_ack_slv {C} _.
Arguments exu_csr {C} _.
Arguments state_o {C} _.
Arguments trap_ctrl_i {C} _.
Arguments priv {C} _.
Arguments cur_pc {C} _.
Arguments irq_epc {C} _.
Arguments trap_defer {C} _.
Arguments cur_opcode {C} _.
Arguments ldst_req_pend {C} _.
Arguments ldst_opcode {C} _.
Arguments ldst_pc {C} _.
Arguments ld_rd {C} _.
Arguments ld_funct3 {C} _.
Arguments amo_stage {C} _.
Arguments amo_rd {C} _.
Arguments amo_addr {C} _.
Arguments amo_s2 {C} _.
Arguments amo_funct375 {C} _.
Arguments amo_lr_set {C} _.
Arguments amo_rsvd_addr {C} _.
Arguments wfi {C} _.
Arguments wfi_resume_pc {C} _.
Arguments fence_i_stage {C} _.
Arguments gpr {C} _.
Arguments exec_inst {C} _.
Arguments exu_heartbeat_cnt {C} _.
#[export] Instance eta_exu C : Eta (exu_t C) := fun e =>
  Exu (fl_req_slv e) (ex_req_slv e) (ex_rsp_mst e) (ldst_req_mst e) (ldst_rsp_slv e)
    (ex_expt_mst e) (tlb_flush_mst e) (l1i_flush_mst e) (l1d_flush_mst e)
    (l1i_flush_ack_slv e) (l1d_flush_ack_slv e) (exu_csr e) (state_o e) (trap_ctrl_i e)
    (priv e) (cur_pc e) (irq_epc e) (trap_defer e) (cur_opcode e) (ldst_req_pend e)
    (ldst_opcode e) (ldst_pc e) (ld_rd e) (ld_funct3 e) (amo_stage e) (amo_rd e) (amo_addr
    e) (amo_s2 e) (amo_funct375 e) (amo_lr_set e) (amo_rsvd_addr e) (wfi e) (wfi_resume_pc
    e) (fence_i_stage e) (gpr e) (exec_inst e) (exu_heartbeat_cnt e).

(** ** Register file *)

Section regs.
  Context {C : Type}.
  Implicit Type exu : exu_t C.

Definition get_gpr (i : Z) : M (exu_t C) Z :=
  exu ← gets id;
  of_option (aget (gpr exu) i).

Definition set_gpr (i val : Z) : M (exu_t C) unit :=
  exu ← gets id;
  if 0 <? i then
    g ← of_option (aset (gpr exu) i val);
    modify (fun exu => exu <| gpr := g |>)
  else mret tt.

(** The register file is 32 words, the first of them zero. *)
Record gpr_wf (g : list Z) : Prop := {
  gwf_len : length g = 32%nat;
  gwf_x0 : g !! 0%nat = Some 0;
  gwf_word : Forall is_u32 g
}.

(** Architectural view of a register file. *)
Definition greg (g : list Z) (i : Z) : Z := default 0 (aget g i).
Definition gpr_set (g : list Z) (i val : Z) : list Z :=
  if i =? 0 then g else <[Z.to_nat i := val]> g.

(** The registers of a unit. *)
Definition xreg exu (i : Z) : Z := greg (gpr exu) i.
Definition xset exu (i val : Z) : exu_t C := exu <| gpr := gpr_set (gpr exu) i val |>.

Lemma get_gpr_run exu i : gpr_wf (gpr exu) -> 0 <= i < 32 ->
  get_gpr i exu = Some (xreg exu i, exu).
Proof.
  intros Hg Hi. destruct (aget_is_Some (gpr exu) i) as [x Hx].
  { rewrite (gwf_len _ Hg). lia. }
  unfold get_gpr, xreg, greg. mred. by rewrite Hx.
Qed.

Lemma set_gpr_run exu i val : gpr_wf (gpr exu) -> 0 <= i < 32 ->
  set_gpr i val exu = Some (tt, xset exu i val).
Proof.
  intros Hg Hi. unfold set_gpr, xset, gpr_set. mred.
  destruct (Z.ltb_spec 0 i), (Z.eqb_spec i 0); try lia; [|by destruct exu].
  rewrite aset_insert; [done|]. rewrite (gwf_len _ Hg). lia.
Qed.

Lemma greg_u32 g i : gpr_wf g -> is_u32 (greg g i).
Proof.
  intros Hg. unfold greg, aget. case_match; [|done].
  destruct (g !! Z.to_nat i) eqn:Hx; simpl; [|done].
  by apply (Forall_lookup_1 _ _ _ _ (gwf_word _ Hg) Hx).
Qed.

Lemma xreg_u32 exu i : gpr_wf (gpr exu) -> is_u32 (xreg exu i).
Proof. apply greg_u32. Qed.

Lemma gpr_set_wf g i val : gpr_wf g -> 0 <= i < 32 -> is_u32 val -> gpr_wf (gpr_set g i val).
Proof.
  intros Hg Hi Hv. unfold gpr_set. case_match; [done|]. destruct Hg as [Hl H0 Hw]. split.
  - by rewrite length_insert.
  - rewrite list_lookup_insert_ne by lia. done.
  - by apply Forall_insert.
Qed.

(** Reading a register back: x0 stays zero, every other register holds what was written. *)
Lemma greg_set g i j val : gpr_wf g -> 0 <= i < 32 ->
  greg (gpr_set g i val) j = if (i =? j) && negb (j =? 0) then val else greg g j.
Proof.
  intros Hg Hi. unfold gpr_set, greg.
  destruct (Z.eqb_spec i 0) as [->|Hne].
  { destruct (Z.eqb_spec 0 j) as [<-|]; done. }
  rewrite aget_insert by (rewrite (gwf_len _ Hg); lia). rewrite (Z.eqb_sym i j).
  destruct (Z.eqb_spec j i) as [->|]; [|done]. by rewrite (proj2 (Z.eqb_neq _ _)).
Qed.

Lemma wlp_get_gpr i Q exu : gpr_wf (gpr exu) -> 0 <= i < 32 ->
  (is_u32 (xreg exu i) -> Q (xreg exu i) exu) -> wlp (get_gpr i) Q exu.
Proof. intros Hg Hi H. unfold wlp. rewrite get_gpr_run by done. by apply H, xreg_u32. Qed.

Lemma wlp_set_gpr i val Q exu : gpr_wf (gpr exu) -> 0 <= i < 32 ->
  Q tt (xset exu i val) -> wlp (set_gpr i val) Q exu.
Proof. intros Hg Hi H. unfold wlp. by rewrite set_gpr_run. Qed.

End regs.

(** An idle unit in machine mode with the given registers and empty interfaces of depth 1. *)
Definition exu_idle {C} (c : C) (g : list Z) : exu_t C :=
  let q := fun A => @Chan A 1 [] in
  Exu (q _) (q _) (q _) (q _) (q _) (q _) (q _) (q _) (q _) (q _) (q _) c
    (ExuStateIf 3 0 0 false false 0) (TrapExuCtrl 3 0 false)
    3 0 0 false 0 false 0 0 0 0 AMO_STAGE_IDLE 0 0 0 0 false 0 false 0 FENCE_I_STAGE_IDLE g 0 0.

(** Registers x1 and x2 and zeros. *)
Definition gpr_example (x1 x2 : Z) : list Z := 0 :: x1 :: x2 :: replicate 29 0.

Lemma gpr_example_wf x1 x2 : is_u32 x1 -> is_u32 x2 -> gpr_wf (gpr_example x1 x2).
Proof.
  intros. split; [done..|]. unfold gpr_example.
  apply Forall_cons_2; [done|]. apply Forall_cons_2; [done|]. apply Forall_cons_2; [done|].
  by apply Forall_replicate.
Qed.

Lemma reg_index x lo : 0 <= lo -> 0 <= bits x lo 5 < 32.
Proof. intros. by apply (bits_range x lo 5). Qed.

#[export] Hint Resolve reg_index xreg_u32 gpr_set_wf : word.
#[export] Hint Extern 2 (0 <= i_rd _ < 32) => apply reg_index; lia : word.
#[export] Hint Extern 2 (0 <= i_rs1 _ < 32) => apply reg_index; lia : word.
#[export] Hint Extern 2 (0 <= i_rs2 _ < 32) => apply reg_index; lia : word.

(** Runs a register access at the head of a computation. *)
Ltac reg_run :=
  repeat first
    [ rewrite get_gpr_run by (first [done | auto with word])
    | rewrite set_gpr_run by (first [done | auto with word]) ]; cbv beta iota zeta.
