(* ===== verification/Alu.v ===== *)
(** * Integer computation instructions

    The handlers of [core/hart/exu/alu.c], one definition per handler, the two dispatch
    tables and [alu_ex_req_proc]; and the RV32IM semantics they implement, written on
    mathematical integers. *)

From stdpp Require Import base numbers list.
From Stdlib Require Import ZArith Lia.
From S2P Require Import Prelude Fifo Isa ExuState.

Section alu.
  Context {C : Type}.
  Implicit Types (exu : exu_t C) (req : ex_req_if_t).

Definition addi_ex_req_handler req : M (exu_t C) unit :=
  let inst := rq_inst req in
  let rd := i_rd inst in
  let rs1 := i_rs1 inst in
  let imm := i_imm_decode inst in
  n1 ← get_gpr rs1;
  set_gpr rd (u32 (n1 + imm)).

Definition slti_ex_req_handler req : M (exu_t C) unit :=
  let inst := rq_inst req in
  let rd := i_rd inst in
  let rs1 := i_rs1 inst in
  let imm := i_imm_decode inst in
  n1 ← get_gpr rs1;
  set_gpr rd (if s32 n1 <? s32 imm then 1 else 0).

Definition sltiu_ex_req_handler req : M (exu_t C) unit :=
  let inst := rq_inst req in
  let rd := i_rd inst in
  let rs1 := i_rs1 inst in
  let imm := i_imm_decode inst in
  n1 ← get_gpr rs1;
  set_gpr rd (if n1 <? imm then 1 else 0).

Definition xori_ex_req_handler req : M (exu_t C) unit :=
  let inst := rq_inst req in
  let rd := i_rd inst in
  let rs1 := i_rs1 inst in
  let imm := i_imm_decode inst in
  n1 ← get_gpr rs1;
  set_gpr rd (Z.lxor n1 imm).

Definition ori_ex_req_handler req : M (exu_t C) unit :=
  let inst := rq_inst req in
  let rd := i_rd inst in
  let rs1 := i_rs1 inst in
  let imm := i_imm_decode inst in
  n1 ← get_gpr rs1;
  set_gpr rd (Z.lor n1 imm).

Definition andi_ex_req_handler req : M (exu_t C) unit :=
  let inst := rq_inst req in
  let rd := i_rd inst in
  let rs1 := i_rs1 inst in
  let imm := i_imm_decode inst in
  n1 ← get_gpr rs1;
  set_gpr rd (Z.land n1 imm).

Definition slli_ex_req_handler req : M (exu_t C) unit :=
  let inst := rq_inst req in
  let rd := i_rd inst in
  let rs1 := i_rs1 inst in
  let imm := Z.land (i_imm_decode inst) 0x1f in
  n1 ← get_gpr rs1;
  set_gpr rd (u32 (Z.shiftl n1 imm)).

Definition srli_ex_req_handler req : M (exu_t C) unit :=
  let inst := rq_inst req in
  let rd := i_rd inst in
  let rs1 := i_rs1 inst in
  let imm := Z.land (i_imm_decode inst) 0x1f in
  n1 ← get_gpr rs1;
  set_gpr rd (Z.shiftr n1 imm).

Definition srai_ex_req_handler req : M (exu_t C) unit :=
  let inst := rq_inst req in
  let rd := i_rd inst in
  let rs1 := i_rs1 inst in
  let imm := Z.land (i_imm_decode inst) 0x1f in
  n1 ← get_gpr rs1;
  set_gpr rd (u32 (Z.shiftr (s32 n1) imm)).

Definition sri_ex_req_handler req : M (exu_t C) unit :=
  if negb (Z.land (i_imm_11_0 (rq_inst req)) 0x400 =? 0) then srai_ex_req_handler req
  else srli_ex_req_handler req.

(** The table is indexed by the three bits of [funct3] and has an entry for each. *)
Definition alui_group_ex_req_handler req : M (exu_t C) unit :=
  let funct3 := i_funct3 (rq_inst req) in
  if funct3 =? ALUI_FUNCT3_ADDI then addi_ex_req_handler req
  else if funct3 =? ALUI_FUNCT3_SLTI then slti_ex_req_handler req
  else if funct3 =? ALUI_FUNCT3_SLTIU then sltiu_ex_req_handler req
  else if funct3 =? ALUI_FUNCT3_XORI then xori_ex_req_handler req
  else if funct3 =? ALUI_FUNCT3_ORI then ori_ex_req_handler req
  else if funct3 =? ALUI_FUNCT3_ANDI then andi_ex_req_handler req
  else if funct3 =? ALUI_FUNCT3_SLI then slli_ex_req_handler req
  else if funct3 =? ALUI_FUNCT3_SRI then sri_ex_req_handler req
  else abort.

Definition add_ex_req_handler req : M (exu_t C) unit :=
  let inst := rq_inst req in
  let rd := i_rd inst in
  let rs1 := i_rs1 inst in
  let rs2 := i_rs2 inst in
  s1 ← get_gpr rs1;
  s2 ← get_gpr rs2;
  set_gpr rd (u32 (s1 + s2)).

Definition sub_ex_req_handler req : M (exu_t C) unit :=
  let inst := rq_inst req in
  let rd := i_rd inst in
  let rs1 := i_rs1 inst in
  let rs2 := i_rs2 inst in
  s1 ← get_gpr rs1;
  s2 ← get_gpr rs2;
  set_gpr rd (u32 (s1 - s2)).

Definition sll_ex_req_handler req : M (exu_t C) unit :=
  let inst := rq_inst req in
  let rd := i_rd inst in
  let rs1 := i_rs1 inst in
  let rs2 := i_rs2 inst in
  s1 ← get_gpr rs1;
  s2 ← get_gpr rs2;
  set_gpr rd (u32 (Z.shiftl s1 (Z.land s2 0x1f))).

Definition slt_ex_req_handler req : M (exu_t C) unit :=
  let inst := rq_inst req in
  let rd := i_rd inst in
  let rs1 := i_rs1 inst in
  let rs2 := i_rs2 inst in
  s1 ← get_gpr rs1;
  s2 ← get_gpr rs2;
  set_gpr rd (if s32 s1 <? s32 s2 then 1 else 0).

Definition sltu_ex_req_handler req : M (exu_t C) unit :=
  let inst := rq_inst req in
  let rd := i_rd inst in
  let rs1 := i_rs1 inst in
  let rs2 := i_rs2 inst in
  s1 ← get_gpr rs1;
  s2 ← get_gpr rs2;
  set_gpr rd (if s1 <? s2 then 1 else 0).

Definition xor_ex_req_handler req : M (exu_t C) unit :=
  let inst := rq_inst req in
  let rd := i_rd inst in
  let rs1 := i_rs1 inst in
  let rs2 := i_rs2 inst in
  s1 ← get_gpr rs1;
  s2 ← get_gpr rs2;
  set_gpr rd (Z.lxor s1 s2).

Definition srl_ex_req_handler req : M (exu_t C) unit :=
  let inst := rq_inst req in
  let rd := i_rd inst in
  let rs1 := i_rs1 inst in
  let rs2 := i_rs2 inst in
  s1 ← get_gpr rs1;
  s2 ← get_gpr rs2;
  set_gpr rd (Z.shiftr s1 (Z.land s2 0x1f)).

Definition sra_ex_req_handler req : M (exu_t C) unit :=
  let inst := rq_inst req in
  let rd := i_rd inst in
  let rs1 := i_rs1 inst in
  let rs2 := i_rs2 inst in
  s1 ← get_gpr rs1;
  s2 ← get_gpr rs2;
  set_gpr rd (u32 (Z.shiftr (s32 s1) (Z.land s2 0x1f))).

Definition or_ex_req_handler req : M (exu_t C) unit :=
  let inst := rq_inst req in
  let rd := i_rd inst in
  let rs1 := i_rs1 inst in
  let rs2 := i_rs2 inst in
  s1 ← get_gpr rs1;
  s2 ← get_gpr rs2;
  set_gpr rd (Z.lor s1 s2).

Definition and_ex_req_handler req : M (exu_t C) unit :=
  let inst := rq_inst req in
  let rd := i_rd inst in
  let rs1 := i_rs1 inst in
  let rs2 := i_rs2 inst in
  s1 ← get_gpr rs1;
  s2 ← get_gpr rs2;
  set_gpr rd (Z.land s1 s2).

Definition mul_ex_req_handler req : M (exu_t C) unit :=
  let inst := rq_inst req in
  let rd := i_rd inst in
  let rs1 := i_rs1 inst in
  let rs2 := i_rs2 inst in
  s1 ← get_gpr rs1;
  s2 ← get_gpr rs2;
  let d := u64 (s32 s1 * s32 s2) in
  set_gpr rd (u32 d).

Definition mulh_ex_req_handler req : M (exu_t C) unit :=
  let inst := rq_inst req in
  let rd := i_rd inst in
  let rs1 := i_rs1 inst in
  let rs2 := i_rs2 inst in
  s1 ← get_gpr rs1;
  s2 ← get_gpr rs2;
  let d := u64 (s32 s1 * s32 s2) in
  set_gpr rd (u32 (Z.shiftr d 32)).

Definition mulhsu_ex_req_handler req : M (exu_t C) unit :=
  let inst := rq_inst req in
  let rd := i_rd inst in
  let rs1 := i_rs1 inst in
  let rs2 := i_rs2 inst in
  s1 ← get_gpr rs1;
  s2 ← get_gpr rs2;
  let d := u64 (s32 s1 * s2) in
  set_gpr rd (u32 (Z.shiftr d 32)).

Definition mulhu_ex_req_handler req : M (exu_t C) unit :=
  let inst := rq_inst req in
  let rd := i_rd inst in
  let rs1 := i_rs1 inst in
  let rs2 := i_rs2 inst in
  s1 ← get_gpr rs1;
  s2 ← get_gpr rs2;
  let d := u64 (s1 * s2) in
  set_gpr rd (u32 (Z.shiftr d 32)).

Definition div_ex_req_handler req : M (exu_t C) unit :=
  let inst := rq_inst req in
  let rd := i_rd inst in
  let rs1 := i_rs1 inst in
  let rs2 := i_rs2 inst in
  s1 ← get_gpr rs1;
  s2 ← get_gpr rs2;
  let d := if s2 =? 0 then 0xffffffff
           else if (s1 =? 0x80000000) && (s32 s2 =? -1) then 0x80000000
           else u32 (Z.quot (s32 s1) (s32 s2)) in
  set_gpr rd (d).

Definition divu_ex_req_handler req : M (exu_t C) unit :=
  let inst := rq_inst req in
  let rd := i_rd inst in
  let rs1 := i_rs1 inst in
  let rs2 := i_rs2 inst in
  s1 ← get_gpr rs1;
  s2 ← get_gpr rs2;
  let d := if s2 =? 0 then 0xffffffff else s1 / s2 in
  set_gpr rd (d).

Definition rem_ex_req_handler req : M (exu_t C) unit :=
  let inst := rq_inst req in
  let rd := i_rd inst in
  let rs1 := i_rs1 inst in
  let rs2 := i_rs2 inst in
  s1 ← get_gpr rs1;
  s2 ← get_gpr rs2;
  let d := if s2 =? 0 then s1
           else if (s1 =? 0x80000000) && (s32 s2 =? -1) then 0
           else u32 (Z.rem (s32 s1) (s32 s2)) in
  set_gpr rd (d).

Definition remu_ex_req_handler req : M (exu_t C) unit :=
  let inst := rq_inst req in
  let rd := i_rd inst in
  let rs1 := i_rs1 inst in
  let rs2 := i_rs2 inst in
  s1 ← get_gpr rs1;
  s2 ← get_gpr rs2;
  let d := if s2 =? 0 then s1 else s1 mod s2 in
  set_gpr rd (d).

(** A table entry that is not listed is a null pointer: the failing check. *)
Definition alu_group_ex_req_handler req : M (exu_t C) unit :=
  let funct37 := Z.lor (Z.shiftl (i_funct3 (rq_inst req)) 7) (i_funct7 (rq_inst req)) in
  if funct37 =? ALU_FUNCT37_ADD then add_ex_req_handler req
  else if funct37 =? ALU_FUNCT37_SUB then sub_ex_req_handler req
  else if funct37 =? ALU_FUNCT37_SL then sll_ex_req_handler req
  else if funct37 =? ALU_FUNCT37_SLT then slt_ex_req_handler req
  else if funct37 =? ALU_FUNCT37_SLTU then sltu_ex_req_handler req
  else if funct37 =? ALU_FUNCT37_XOR then xor_ex_req_handler req
  else if funct37 =? ALU_FUNCT37_SRL then srl_ex_req_handler req
  else if funct37 =? ALU_FUNCT37_SRA then sra_ex_req_handler req
  else if funct37 =? ALU_FUNCT37_OR then or_ex_req_handler req
  else if funct37 =? ALU_FUNCT37_AND then and_ex_req_handler req
  else if funct37 =? ALU_FUNCT37_MUL then mul_ex_req_handler req
  else if funct37 =? ALU_FUNCT37_MULH then mulh_ex_req_handler req
  else if funct37 =? ALU_FUNCT37_MULHSU then mulhsu_ex_req_handler req
  else if funct37 =? ALU_FUNCT37_MULHU then mulhu_ex_req_handler req
  else if funct37 =? ALU_FUNCT37_DIV then div_ex_req_handler req
  else if funct37 =? ALU_FUNCT37_DIVU then divu_ex_req_handler req
  else if funct37 =? ALU_FUNCT37_REM then rem_ex_req_handler req
  else if funct37 =? ALU_FUNCT37_REMU then remu_ex_req_handler req
  else abort.

Definition alu_ex_req_proc req : M (exu_t C) unit :=
  let opcode := i_opcode (rq_inst req) in
  if opcode =? OPCODE_ALUI then alui_group_ex_req_handler req
  else if opcode =? OPCODE_ALU then alu_group_ex_req_handler req
  else abort.

End alu.

(** ** Semantics of the instructions *)

Inductive alu_op :=
| ADD | SUB | SLL | SLT | SLTU | XOR | SRL | SRA | OR | AND
| MUL | MULH | MULHSU | MULHU | DIV | DIVU | REM | REMU.

(** The result register as a function of the two operands, on integers: shifts are
    multiplications and divisions by powers of two, the high products are quotients of the
    exact product, division truncates towards zero, a zero divisor gives all ones and the
    dividend, and the one overflowing quotient wraps around. *)
Definition alu_sem (op : alu_op) (a b : Z) : Z :=
  match op with
  | ADD => u32 (a + b)
  | SUB => u32 (a - b)
  | SLL => u32 (a * 2 ^ (b mod 32))
  | SLT => b2z (s32 a <? s32 b)
  | SLTU => b2z (a <? b)
  | XOR => Z.lxor a b
  | SRL => a / 2 ^ (b mod 32)
  | SRA => u32 (s32 a / 2 ^ (b mod 32))
  | OR => Z.lor a b
  | AND => Z.land a b
  | MUL => u32 (a * b)
  | MULH => u32 (s32 a * s32 b / W32)
  | MULHSU => u32 (s32 a * b / W32)
  | MULHU => a * b / W32
  | DIV => if b =? 0 then W32 - 1 else u32 (Z.quot (s32 a) (s32 b))
  | DIVU => if b =? 0 then W32 - 1 else a / b
  | REM => if b =? 0 then a else u32 (Z.rem (s32 a) (s32 b))
  | REMU => if b =? 0 then a else a mod b
  end.

(** The operations of the OP-IMM and OP opcodes of the manual, by [funct3] and [funct7]. *)
Definition alui_decode (funct3 imm_11_0 : Z) : option alu_op :=
  match funct3 with
  | 0 => Some ADD
  | 1 => Some SLL
  | 2 => Some SLT
  | 3 => Some SLTU
  | 4 => Some XOR
  | 5 => Some (if Z.testbit imm_11_0 10 then SRA else SRL)
  | 6 => Some OR
  | 7 => Some AND
  | _ => None
  end.

Definition alu_decode (funct3 funct7 : Z) : option alu_op :=
  if funct7 =? 0 then
    match funct3 with
    | 0 => Some ADD | 1 => Some SLL | 2 => Some SLT | 3 => Some SLTU
    | 4 => Some XOR | 5 => Some SRL | 6 => Some OR | 7 => Some AND
    | _ => None
    end
  else if funct7 =? 32 then
    match funct3 with
    | 0 => Some SUB | 5 => Some SRA
    | _ => None
    end
  else if funct7 =? 1 then
    match funct3 with
    | 0 => Some MUL | 1 => Some MULH | 2 => Some MULHSU | 3 => Some MULHU
    | 4 => Some DIV | 5 => Some DIVU | 6 => Some REM | 7 => Some REMU
    | _ => None
    end
  else None.

(** The operation an instruction asks for and its second operand. *)
Definition alu_inst_op (i : rv32g_inst_t) : option alu_op :=
  if i_opcode i =? OPCODE_ALUI then alui_decode (i_funct3 i) (i_imm_11_0 i)
  else if i_opcode i =? OPCODE_ALU then alu_decode (i_funct3 i) (i_funct7 i)
  else None.

Definition alu_inst_src2 {C} (exu : exu_t C) (i : rv32g_inst_t) : Z :=
  if i_opcode i =? OPCODE_ALUI then i_imm_decode i else xreg exu (i_rs2 i).

(** ** Word arithmetic of the handlers *)

Lemma shamt x : Z.land x 0x1f = x mod 32.
Proof. apply (Z.land_ones x 5). lia. Qed.

Lemma sll_ok a b : u32 (Z.shiftl a (Z.land b 0x1f)) = u32 (a * 2 ^ (b mod 32)).
Proof. rewrite shamt, Z.shiftl_mul_pow2; [done|]. apply Z.mod_pos_bound. lia. Qed.

Lemma srl_ok a b : Z.shiftr a (Z.land b 0x1f) = a / 2 ^ (b mod 32).
Proof. rewrite shamt, Z.shiftr_div_pow2; [done|]. apply Z.mod_pos_bound. lia. Qed.

Lemma u32_u64 x : u32 (u64 x) = u32 x.
Proof. unfold u32, u64, W32, W64. zdiv. Qed.

Lemma u32_congr x y k : x = y + k * W32 -> u32 x = u32 y.
Proof. intros ->. unfold u32. by rewrite Z.mod_add. Qed.

Lemma s32_mod x : exists k, s32 x = x - k * W32 /\ (k = 0 \/ k = 1).
Proof. unfold s32. case_match; [exists 0|exists 1]; lia. Qed.

Lemma mul_ok a b : u32 (u64 (s32 a * s32 b)) = u32 (a * b).
Proof.
  rewrite u32_u64. destruct (s32_mod a) as (j & -> & _), (s32_mod b) as (k & -> & _).
  apply (u32_congr _ _ (- a * k - j * b + j * k * W32)). ring.
Qed.

Lemma mulh_ok p : u32 (Z.shiftr (u64 p) 32) = u32 (p / W32).
Proof.
  rewrite Z.shiftr_div_pow2 by lia. change (2 ^ 32) with W32. unfold u32, u64.
  change W64 with (W32 * W32). rewrite Z.rem_mul_r, Z.mul_comm, Z.div_add by done.
  rewrite Z.div_small by (by apply Z.mod_pos_bound). by apply Z.mod_mod.
Qed.

Lemma mulhu_ok a b : is_u32 a -> is_u32 b -> u32 (Z.shiftr (u64 (a * b)) 32) = a * b / W32.
Proof.
  intros Ha Hb. rewrite mulh_ok. apply u32_small. unfold is_u32 in *. split.
  - apply Z.div_pos; [apply Z.mul_nonneg_nonneg|]; lia.
  - apply Z.div_lt_upper_bound; [lia|]. apply Z.mul_lt_mono_nonneg; lia.
Qed.

Lemma div_ok a b : is_u32 a -> is_u32 b ->
  (if b =? 0 then 0xffffffff
   else if (a =? 0x80000000) && (s32 b =? -1) then 0x80000000
   else u32 (Z.quot (s32 a) (s32 b))) = alu_sem DIV a b.
Proof.
  intros Ha Hb. simpl. case_match; [done|].
  destruct (Z.eqb_spec a 0x80000000) as [->|], (Z.eqb_spec (s32 b) (-1)) as [->|]; done.
Qed.

Lemma rem_ok a b : is_u32 a -> is_u32 b ->
  (if b =? 0 then a
   else if (a =? 0x80000000) && (s32 b =? -1) then 0
   else u32 (Z.rem (s32 a) (s32 b))) = alu_sem REM a b.
Proof.
  intros Ha Hb. simpl. case_match; [done|].
  destruct (Z.eqb_spec a 0x80000000) as [->|], (Z.eqb_spec (s32 b) (-1)) as [->|]; done.
Qed.

Lemma i_imm_u32 i : is_u32 (i_imm_decode i).
Proof.
  unfold i_imm_decode, rv32g_sign_ext, i_imm_11_0. case_match; auto with word.
Qed.

Lemma alu_sem_u32 op a b : is_u32 a -> is_u32 b -> is_u32 (alu_sem op a b).
Proof.
  intros Ha Hb. destruct op; simpl; auto with word.
  - pose proof (Z.pow_pos_nonneg 2 (b mod 32) ltac:(lia) ltac:(apply Z.mod_pos_bound; lia)).
    unfold is_u32 in *. split; [apply Z.div_pos; lia|].
    apply (Z.le_lt_trans _ a); [|lia]. apply Z.div_le_upper_bound; nia.
  - rewrite <- mulhu_ok by done. auto with word.
  - case_match; auto with word. done.
  - destruct (Z.eqb_spec b 0); [done|]. unfold is_u32 in *.
    split; [apply Z.div_pos; lia|]. apply (Z.le_lt_trans _ a); [|lia].
    apply Z.div_le_upper_bound; nia.
  - case_match; auto with word.
  - destruct (Z.eqb_spec b 0); [done|]. unfold is_u32 in *.
    pose proof (Z.mod_pos_bound a b). lia.
Qed.

#[export] Hint Resolve i_imm_u32 alu_sem_u32 : word.

(** ** Dispatch *)

Section alu_facts.
  Context {C : Type}.
  Implicit Types (exu : exu_t C) (req : ex_req_if_t).

Lemma funct3_cases i : i_funct3 i = 0 \/ i_funct3 i = 1 \/ i_funct3 i = 2 \/ i_funct3 i = 3 \/
  i_funct3 i = 4 \/ i_funct3 i = 5 \/ i_funct3 i = 6 \/ i_funct3 i = 7.
Proof. pose proof (bits_range i 12 3 ltac:(lia) ltac:(lia)). unfold i_funct3. lia. Qed.

Lemma funct7_range i : 0 <= i_funct7 i < 128.
Proof. by apply (bits_range i 25 7). Qed.

Lemma funct37_sum f3 f7 : 0 <= f3 -> 0 <= f7 < 128 -> Z.lor (Z.shiftl f3 7) f7 = f3 * 128 + f7.
Proof.
  intros H3 H7. by apply (lor_shiftl_add f3 f7 7).
Qed.

(** Rewrites a comparison of numerals that is false, or true. *)
Ltac skip_neq := repeat rewrite (proj2 (Z.eqb_neq _ _)) by lia.

(** Runs a two-operand handler. *)
Ltac run_handler :=
  cbv zeta; unfold mbind, M_bind; reg_run; cbn [alu_sem]; try reflexivity; do 3 f_equal.

Lemma alui_group_run exu req : gpr_wf (gpr exu) ->
  alui_group_ex_req_handler req exu =
  match alui_decode (i_funct3 (rq_inst req)) (i_imm_11_0 (rq_inst req)) with
  | Some op => Some (tt, xset exu (i_rd (rq_inst req))
      (alu_sem op (xreg exu (i_rs1 (rq_inst req))) (i_imm_decode (rq_inst req))))
  | None => None
  end.
Proof.
  intros Hg. unfold alui_group_ex_req_handler.
  destruct (funct3_cases (rq_inst req)) as [->|[->|[->|[->|[->|[->|[->| ->]]]]]]];
    zconst; cbn [alui_decode].
  - unfold addi_ex_req_handler. run_handler.
  - unfold slli_ex_req_handler. run_handler. apply sll_ok.
  - unfold slti_ex_req_handler. run_handler.
  - unfold sltiu_ex_req_handler. run_handler.
  - unfold xori_ex_req_handler. run_handler.
  - unfold sri_ex_req_handler. change 0x400 with (Z.shiftl 1 10).
    rewrite land_bit_zero, negb_involutive by lia. destruct (Z.testbit _ 10).
    + unfold srai_ex_req_handler. run_handler. f_equal. apply srl_ok.
    + unfold srli_ex_req_handler. run_handler. apply srl_ok.
  - unfold ori_ex_req_handler. run_handler.
  - unfold andi_ex_req_handler. run_handler.
Qed.

(** The handler in the table for each operation. *)
Definition handler_of (op : alu_op) : ex_req_if_t -> M (exu_t C) unit :=
  match op with
  | ADD => add_ex_req_handler | SUB => sub_ex_req_handler | SLL => sll_ex_req_handler
  | SLT => slt_ex_req_handler | SLTU => sltu_ex_req_handler | XOR => xor_ex_req_handler
  | SRL => srl_ex_req_handler | SRA => sra_ex_req_handler | OR => or_ex_req_handler
  | AND => and_ex_req_handler | MUL => mul_ex_req_handler | MULH => mulh_ex_req_handler
  | MULHSU => mulhsu_ex_req_handler | MULHU => mulhu_ex_req_handler | DIV => div_ex_req_handler
  | DIVU => divu_ex_req_handler | REM => rem_ex_req_handler | REMU => remu_ex_req_handler
  end.

Lemma alu_group_table req :
  alu_group_ex_req_handler req =
  match alu_decode (i_funct3 (rq_inst req)) (i_funct7 (rq_inst req)) with
  | Some op => handler_of op req
  | None => abort
  end.
Proof.
  unfold alu_group_ex_req_handler. pose proof (funct7_range (rq_inst req)) as H7.
  rewrite funct37_sum by (done || (unfold i_funct3; apply bits_range; lia)).
  unfold alu_decode.
  destruct (Z.eqb_spec (i_funct7 (rq_inst req)) 0) as [->|];
    [|destruct (Z.eqb_spec (i_funct7 (rq_inst req)) 32) as [->|];
      [|destruct (Z.eqb_spec (i_funct7 (rq_inst req)) 1) as [->|]]];
    destruct (funct3_cases (rq_inst req)) as [->|[->|[->|[->|[->|[->|[->| ->]]]]]]];
    zconst; try reflexivity;
    cbv [ALU_FUNCT37_ADD ALU_FUNCT37_SUB ALU_FUNCT37_SL ALU_FUNCT37_SLT ALU_FUNCT37_SLTU
      ALU_FUNCT37_XOR ALU_FUNCT37_SRL ALU_FUNCT37_SRA ALU_FUNCT37_OR ALU_FUNCT37_AND
      ALU_FUNCT37_MUL ALU_FUNCT37_MULH ALU_FUNCT37_MULHSU ALU_FUNCT37_MULHU ALU_FUNCT37_DIV
      ALU_FUNCT37_DIVU ALU_FUNCT37_REM ALU_FUNCT37_REMU]; skip_neq; reflexivity.
Qed.

Lemma handler_of_run op exu req : gpr_wf (gpr exu) ->
  handler_of op req exu = Some (tt, xset exu (i_rd (rq_inst req))
    (alu_sem op (xreg exu (i_rs1 (rq_inst req))) (xreg exu (i_rs2 (rq_inst req))))).
Proof.
  intros Hg. pose proof (xreg_u32 exu (i_rs1 (rq_inst req)) Hg) as H1.
  pose proof (xreg_u32 exu (i_rs2 (rq_inst req)) Hg) as H2.
  destruct op; cbn [handler_of].
  - unfold add_ex_req_handler. run_handler.
  - unfold sub_ex_req_handler. run_handler.
  - unfold sll_ex_req_handler. run_handler. apply sll_ok.
  - unfold slt_ex_req_handler. run_handler.
  - unfold sltu_ex_req_handler. run_handler.
  - unfold xor_ex_req_handler. run_handler.
  - unfold srl_ex_req_handler. run_handler. apply srl_ok.
  - unfold sra_ex_req_handler. run_handler. f_equal. apply srl_ok.
  - unfold or_ex_req_handler. run_handler.
  - unfold and_ex_req_handler. run_handler.
  - unfold mul_ex_req_handler. run_handler. apply mul_ok.
  - unfold mulh_ex_req_handler. run_handler. apply mulh_ok.
  - unfold mulhsu_ex_req_handler. run_handler. apply mulh_ok.
  - unfold mulhu_ex_req_handler. run_handler. by apply mulhu_ok.
  - unfold div_ex_req_handler. run_handler. by apply div_ok.
  - unfold divu_ex_req_handler. run_handler.
  - unfold rem_ex_req_handler. run_handler. by apply rem_ok.
  - unfold remu_ex_req_handler. run_handler.
Qed.

Lemma alu_proc_run exu req : gpr_wf (gpr exu) ->
  alu_ex_req_proc req exu =
  match alu_inst_op (rq_inst req) with
  | Some op => Some (tt, xset exu (i_rd (rq_inst req))
      (alu_sem op (xreg exu (i_rs1 (rq_inst req))) (alu_inst_src2 exu (rq_inst req))))
  | None => None
  end.
Proof.
  intros Hg. unfold alu_ex_req_proc, alu_inst_op, alu_inst_src2.
  destruct (i_opcode (rq_inst req) =? OPCODE_ALUI); [by apply alui_group_run|].
  destruct (i_opcode (rq_inst req) =? OPCODE_ALU); [|done].
  rewrite alu_group_table. case_match; [by apply handler_of_run|done].
Qed.

End alu_facts.

(** ** Theorems *)

(** C24: Every OP and OP-IMM instruction computes the RV32IM result: [alu_ex_req_proc] writes
    to [rd], and to no other register, the value of the operation that the instruction
    encodes, on integers (exact products, truncating division with the architectural
    results for a zero divisor and for overflow); an encoding that is none of the eighteen
    operations fails the check.  The register file stays 32 words with x0 zero. *)
Theorem alu_ex_req_proc_correct {C} (exu : exu_t C) req : gpr_wf (gpr exu) ->
  match alu_inst_op (rq_inst req) with
  | Some op =>
    let v := alu_sem op (xreg exu (i_rs1 (rq_inst req))) (alu_inst_src2 exu (rq_inst req)) in
    exists exu', alu_ex_req_proc req exu = Some (tt, exu') /\ gpr_wf (gpr exu') /\
      exu' = exu <| gpr := gpr exu' |> /\
      forall r, xreg exu' r = if (i_rd (rq_inst req) =? r) && negb (r =? 0) then v else xreg exu r
  | None => alu_ex_req_proc req exu = None
  end.
Proof.
  intros Hg. rewrite alu_proc_run by done. destruct (alu_inst_op _) as [op|]; [|done].
  pose proof (reg_index (rq_inst req) 7 ltac:(lia)) as Hrd. fold (i_rd (rq_inst req)) in Hrd.
  eexists. split; [done|]. split_and!.
  - apply gpr_set_wf; [done|lia|]. unfold alu_inst_src2. case_match; auto with word.
  - done.
  - intros r. by apply greg_set.
Qed.

(** [div x3, x1, x2] with x1 = -7, x2 = 2. *)
Lemma alu_ex_req_proc_correct_witness :
  exists exu', alu_ex_req_proc (ExReq 0x0220c1b3 0 false 0 false)
      (exu_idle tt (gpr_example 0xfffffff9 2)) = Some (tt, exu') /\
    xreg exu' 3 = 0xfffffffd /\ xreg exu' 1 = 0xfffffff9.
Proof.
  destruct (alu_ex_req_proc_correct (exu_idle tt (gpr_example 0xfffffff9 2))
    (ExReq 0x0220c1b3 0 false 0 false)) as (exu' & Hr & _ & _ & Hx).
  - apply gpr_example_wf; unfold is_u32, W32; lia.
  - exists exu'. split; [exact Hr|]. split; rewrite Hx; reflexivity.
Defined.
