(* ===== verification/Branch.v ===== *)
(** * Jumps and branches

    The handlers of [core/hart/exu/branch.c].  A handler receives the response packet under
    construction and returns it filled in, as the C code does through a pointer. *)

From stdpp Require Import base numbers list.
From Stdlib Require Import ZArith Lia.
From S2P Require Import Prelude Fifo Isa ExuState Alu.

Section branch.
  Context {C : Type}.
  Implicit Types (exu : exu_t C) (req : ex_req_if_t) (rsp : ex_rsp_if_t).

Definition jal_ex_req_handler req rsp : M (exu_t C) ex_rsp_if_t :=
  let inst := rq_inst req in
  let rd := i_rd inst in
  let imm := j_imm_decode inst in
  set_gpr rd (u32 (rq_pc req + 4));;
  let rsp := rsp <| rsp_taken := true |> in
  let rsp := rsp <| rsp_target_pc := u32 (rq_pc req + imm) |> in
  modify (fun exu => exu <| irq_epc := rsp_target_pc rsp |>);;
  mret rsp.

Definition jalr_ex_req_handler req rsp : M (exu_t C) ex_rsp_if_t :=
  let inst := rq_inst req in
  let rd := i_rd inst in
  let rs1 := i_rs1 inst in
  let imm := i_imm_decode inst in
  s1 ← get_gpr rs1;
  let target_pc := Z.land (u32 (s1 + imm)) (not32 1) in
  set_gpr rd (u32 (rq_pc req + 4));;
  let rsp := rsp <| rsp_taken := true |> in
  let rsp := rsp <| rsp_target_pc := target_pc |> in
  modify (fun exu => exu <| irq_epc := rsp_target_pc rsp |>);;
  mret rsp.

Definition beq_ex_req_handler req rsp : M (exu_t C) ex_rsp_if_t :=
  let inst := rq_inst req in
  let rs1 := i_rs1 inst in
  let rs2 := i_rs2 inst in
  let imm := b_imm_decode inst in
  s1 ← get_gpr rs1;
  s2 ← get_gpr rs2;
  let rsp :=
    if s1 =? s2
    then rsp <| rsp_taken := true |> <| rsp_target_pc := u32 (rq_pc req + imm) |>
    else rsp <| rsp_taken := false |> <| rsp_target_pc := u32 (rq_pc req + 4) |> in
  modify (fun exu => exu <| irq_epc := rsp_target_pc rsp |>);;
  mret rsp.

Definition bne_ex_req_handler req rsp : M (exu_t C) ex_rsp_if_t :=
  let inst := rq_inst req in
  let rs1 := i_rs1 inst in
  let rs2 := i_rs2 inst in
  let imm := b_imm_decode inst in
  s1 ← get_gpr rs1;
  s2 ← get_gpr rs2;
  let rsp :=
    if negb (s1 =? s2)
    then rsp <| rsp_taken := true |> <| rsp_target_pc := u32 (rq_pc req + imm) |>
    else rsp <| rsp_taken := false |> <| rsp_target_pc := u32 (rq_pc req + 4) |> in
  modify (fun exu => exu <| irq_epc := rsp_target_pc rsp |>);;
  mret rsp.

Definition blt_ex_req_handler req rsp : M (exu_t C) ex_rsp_if_t :=
  let inst := rq_inst req in
  let rs1 := i_rs1 inst in
  let rs2 := i_rs2 inst in
  let imm := b_imm_decode inst in
  s1 ← get_gpr rs1;
  s2 ← get_gpr rs2;
  let rsp :=
    if s32 s1 <? s32 s2
    then rsp <| rsp_taken := true |> <| rsp_target_pc := u32 (rq_pc req + imm) |>
    else rsp <| rsp_taken := false |> <| rsp_target_pc := u32 (rq_pc req + 4) |> in
  modify (fun exu => exu <| irq_epc := rsp_target_pc rsp |>);;
  mret rsp.

Definition bge_ex_req_handler req rsp : M (exu_t C) ex_rsp_if_t :=
  let inst := rq_inst req in
  let rs1 := i_rs1 inst in
  let rs2 := i_rs2 inst in
  let imm := b_imm_decode inst in
  s1 ← get_gpr rs1;
  s2 ← get_gpr rs2;
  let rsp :=
    if s32 s2 <=? s32 s1
    then rsp <| rsp_taken := true |> <| rsp_target_pc := u32 (rq_pc req + imm) |>
    else rsp <| rsp_taken := false |> <| rsp_target_pc := u32 (rq_pc req + 4) |> in
  modify (fun exu => exu <| irq_epc := rsp_target_pc rsp |>);;
  mret rsp.

Definition bltu_ex_req_handler req rsp : M (exu_t C) ex_rsp_if_t :=
  let inst := rq_inst req in
  let rs1 := i_rs1 inst in
  let rs2 := i_rs2 inst in
  let imm := b_imm_decode inst in
  s1 ← get_gpr rs1;
  s2 ← get_gpr rs2;
  let rsp :=
    if s1 <? s2
    then rsp <| rsp_taken := true |> <| rsp_target_pc := u32 (rq_pc req + imm) |>
    else rsp <| rsp_taken := false |> <| rsp_target_pc := u32 (rq_pc req + 4) |> in
  modify (fun exu => exu <| irq_epc := rsp_target_pc rsp |>);;
  mret rsp.

Definition bgeu_ex_req_handler req rsp : M (exu_t C) ex_rsp_if_t :=
  let inst := rq_inst req in
  let rs1 := i_rs1 inst in
  let rs2 := i_rs2 inst in
  let imm := b_imm_decode inst in
  s1 ← get_gpr rs1;
  s2 ← get_gpr rs2;
  let rsp :=
    if s2 <=? s1
    then rsp <| rsp_taken := true |> <| rsp_target_pc := u32 (rq_pc req + imm) |>
    else rsp <| rsp_taken := false |> <| rsp_target_pc := u32 (rq_pc req + 4) |> in
  modify (fun exu => exu <| irq_epc := rsp_target_pc rsp |>);;
  mret rsp.

Definition branch_group_ex_req_handler req rsp : M (exu_t C) ex_rsp_if_t :=
  let funct3 := i_funct3 (rq_inst req) in
  if funct3 =? BRANCH_FUNCT3_BEQ then beq_ex_req_handler req rsp
  else if funct3 =? BRANCH_FUNCT3_BNE then bne_ex_req_handler req rsp
  else if funct3 =? BRANCH_FUNCT3_BLT then blt_ex_req_handler req rsp
  else if funct3 =? BRANCH_FUNCT3_BGE then bge_ex_req_handler req rsp
  else if funct3 =? BRANCH_FUNCT3_BLTU then bltu_ex_req_handler req rsp
  else if funct3 =? BRANCH_FUNCT3_BGEU then bgeu_ex_req_handler req rsp
  else abort.

(** The members of [ex_rsp] other than [pc] are not initialised in the source; every handler
    assigns [taken] and [target_pc], and [pred_true] is assigned before the packet is sent. *)
Definition branch_ex_req_proc req : M (exu_t C) unit :=
  exu ← gets id;
  if chan_full (ex_rsp_mst exu) then mret tt
  else
    let ex_rsp := ExRsp (rq_pc req) false false 0 in
    let opcode := i_opcode (rq_inst req) in
    ex_rsp ←
      (if opcode =? OPCODE_JAL then jal_ex_req_handler req ex_rsp
       else if opcode =? OPCODE_JALR then jalr_ex_req_handler req ex_rsp
       else if opcode =? OPCODE_BRANCH then branch_group_ex_req_handler req ex_rsp
       else abort);
    let ex_rsp :=
      if rsp_taken ex_rsp then
        ex_rsp <| rsp_pred_true :=
          rq_pred_taken req && (rsp_target_pc ex_rsp =? rq_pred_pc req) |>
      else ex_rsp <| rsp_pred_true := negb (rq_pred_taken req) |> in
    on ex_rsp_mst (chan_write ex_rsp).

End branch.

(** ** Semantics *)

(** The condition of a conditional branch; [None] for the two reserved encodings. *)
Definition branch_cond (funct3 a b : Z) : option bool :=
  match funct3 with
  | 0 => Some (a =? b)
  | 1 => Some (negb (a =? b))
  | 4 => Some (s32 a <? s32 b)
  | 5 => Some (s32 b <=? s32 a)
  | 6 => Some (a <? b)
  | 7 => Some (b <=? a)
  | _ => None
  end.

(** Where control goes after the instruction at [pc]: whether the transfer is taken, the next
    pc, and the link value for the jumps. *)
Definition next_pc {C} (exu : exu_t C) (i : rv32g_inst_t) (pc : Z) : option (bool * Z * option Z) :=
  let link := Some (u32 (pc + 4)) in
  if i_opcode i =? OPCODE_JAL then Some (true, u32 (pc + j_imm_decode i), link)
  else if i_opcode i =? OPCODE_JALR then
    let t := u32 (xreg exu (i_rs1 i) + i_imm_decode i) in Some (true, t - t mod 2, link)
  else if i_opcode i =? OPCODE_BRANCH then
    (fun c : bool => (c, if c then u32 (pc + b_imm_decode i) else u32 (pc + 4), None)) <$>
      branch_cond (i_funct3 i) (xreg exu (i_rs1 i)) (xreg exu (i_rs2 i))
  else None.

Lemma clear_bit0 x : is_u32 x -> Z.land x (not32 1) = x - x mod 2.
Proof.
  intros Hx. unfold not32. change (Z.lxor 1 (W32 - 1)) with (Z.shiftl (Z.ones 31) 1).
  replace (x - x mod 2) with (Z.shiftl (x / 2) 1) by (rewrite Z.shiftl_mul_pow2 by lia; zdiv).
  change 2 with (2 ^ 1) at 1. rewrite <- (Z.shiftr_div_pow2 x 1) by lia.
  apply Z.bits_inj'. intros i Hi. rewrite Z.land_spec, !testbit_shiftl by lia.
  destruct (Z.leb_spec 1 i); [|apply andb_false_r].
  rewrite Z.shiftr_spec, testbit_ones by lia. replace (i - 1 + 1) with i by lia.
  destruct (Z.ltb_spec (i - 1) 31); [by rewrite andb_true_r|].
  by rewrite (testbit_high x) by (done || lia).
Qed.

Section branch_facts.
  Context {C : Type}.
  Implicit Types (exu : exu_t C) (req : ex_req_if_t) (rsp : ex_rsp_if_t).

(** The response packet: the prediction is right when the direction agrees and, if the
    transfer is taken, the target too. *)
Definition branch_rsp req (taken : bool) (target : Z) : ex_rsp_if_t :=
  ExRsp (rq_pc req) taken
    (if taken then rq_pred_taken req && (target =? rq_pred_pc req) else negb (rq_pred_taken req))
    target.

(** The state after the transfer, before the response is sent. *)
Definition branched exu req (target : Z) (link : option Z) : exu_t C :=
  (match link with Some v => xset exu (i_rd (rq_inst req)) v | None => exu end)
    <| irq_epc := target |>.

Ltac run_branch :=
  cbv zeta; unfold mbind, M_bind, modify, mret, M_ret; reg_run; try reflexivity.

Lemma branch_group_run exu req rsp : gpr_wf (gpr exu) ->
  branch_group_ex_req_handler req rsp exu =
  match branch_cond (i_funct3 (rq_inst req)) (xreg exu (i_rs1 (rq_inst req)))
          (xreg exu (i_rs2 (rq_inst req))) with
  | Some c =>
    let t := if c then u32 (rq_pc req + b_imm_decode (rq_inst req)) else u32 (rq_pc req + 4) in
    Some (rsp <| rsp_taken := c |> <| rsp_target_pc := t |>, exu <| irq_epc := t |>)
  | None => None
  end.
Proof.
  intros Hg. unfold branch_group_ex_req_handler.
  destruct (funct3_cases (rq_inst req)) as [->|[->|[->|[->|[->|[->|[->| ->]]]]]]];
    zconst; cbn [branch_cond]; try reflexivity.
  - unfold beq_ex_req_handler. run_branch. by case_match.
  - unfold bne_ex_req_handler. run_branch. by case_match.
  - unfold blt_ex_req_handler. run_branch. by case_match.
  - unfold bge_ex_req_handler. run_branch. by case_match.
  - unfold bltu_ex_req_handler. run_branch. by case_match.
  - unfold bgeu_ex_req_handler. run_branch. by case_match.
Qed.

Lemma branch_handlers_run exu req rsp : gpr_wf (gpr exu) ->
  (let opcode := i_opcode (rq_inst req) in
   if opcode =? OPCODE_JAL then jal_ex_req_handler req rsp
   else if opcode =? OPCODE_JALR then jalr_ex_req_handler req rsp
   else if opcode =? OPCODE_BRANCH then branch_group_ex_req_handler req rsp
   else abort) exu =
  match next_pc exu (rq_inst req) (rq_pc req) with
  | Some (taken, target, link) =>
    Some (rsp <| rsp_taken := taken |> <| rsp_target_pc := target |>, branched exu req target link)
  | None => None
  end.
Proof.
  intros Hg. cbv zeta. unfold next_pc.
  destruct (i_opcode (rq_inst req) =? OPCODE_JAL).
  { unfold jal_ex_req_handler. run_branch. }
  destruct (i_opcode (rq_inst req) =? OPCODE_JALR).
  { unfold jalr_ex_req_handler. run_branch. rewrite clear_bit0 by auto with word. done. }
  destruct (i_opcode (rq_inst req) =? OPCODE_BRANCH); [|done].
  rewrite branch_group_run by done. by destruct (branch_cond _ _ _).
Qed.

Lemma branch_proc_run exu req : gpr_wf (gpr exu) ->
  chan_num (ex_rsp_mst exu) < ch_depth (ex_rsp_mst exu) ->
  branch_ex_req_proc req exu =
  match next_pc exu (rq_inst req) (rq_pc req) with
  | Some (taken, target, link) =>
    Some (tt, branched exu req target link
      <| ex_rsp_mst := chan_snoc (ex_rsp_mst exu) (branch_rsp req taken target) |>)
  | None => None
  end.
Proof.
  intros Hg Hf. unfold branch_ex_req_proc. unfold mbind at 1, M_bind at 1, gets, id.
  unfold chan_full. rewrite (proj2 (Z.eqb_neq _ _)) by lia. cbv beta iota zeta.
  unfold mbind, M_bind. rewrite branch_handlers_run by done.
  destruct (next_pc _ _ _) as [[[taken target] link]|]; [|done].
  assert (ex_rsp_mst (branched exu req target link) = ex_rsp_mst exu) as Hr.
  { by destruct link. }
  rewrite on_chan_write by (by rewrite Hr). rewrite Hr.
  unfold branch_rsp. by destruct taken.
Qed.

Lemma branched_wf exu req target link : gpr_wf (gpr exu) ->
  (forall v, link = Some v -> is_u32 v) -> gpr_wf (gpr (branched exu req target link)).
Proof.
  intros Hg Hl. unfold branched. destruct link as [v|]; [|done].
  apply gpr_set_wf; [done|apply reg_index; lia|by apply Hl].
Qed.

End branch_facts.

(** ** Theorems *)

(** C25: A jump or branch whose response can be sent goes where the manual says: the response
    carries the direction and the target computed by [next_pc] (jalr clears bit 0, a
    branch not taken falls through to pc + 4), [pred_true] says exactly whether fetching on
    the prediction leads to the same next pc, the link register of the jumps receives
    pc + 4, the pc saved for an interrupt is the target, and nothing else changes; a
    reserved encoding fails the check. *)
Theorem branch_ex_req_proc_correct {C} (exu : exu_t C) req : gpr_wf (gpr exu) ->
  chan_num (ex_rsp_mst exu) < ch_depth (ex_rsp_mst exu) ->
  match next_pc exu (rq_inst req) (rq_pc req) with
  | Some (taken, target, link) => exists exu' pred_true,
    branch_ex_req_proc req exu = Some (tt, exu') /\
    ch_pkts (ex_rsp_mst exu') =
      ch_pkts (ex_rsp_mst exu) ++ [ExRsp (rq_pc req) taken pred_true target] /\
    (pred_true = true <->
       rq_pred_taken req = taken /\ (taken = true -> rq_pred_pc req = target)) /\
    irq_epc exu' = target /\ gpr_wf (gpr exu') /\
    (forall r, xreg exu' r =
       match link with
       | Some v => if (i_rd (rq_inst req) =? r) && negb (r =? 0) then v else xreg exu r
       | None => xreg exu r
       end) /\
    exu' = exu <| gpr := gpr exu' |> <| irq_epc := target |> <| ex_rsp_mst := ex_rsp_mst exu' |>
  | None => branch_ex_req_proc req exu = None
  end.
Proof.
  intros Hg Hf. rewrite branch_proc_run by done.
  destruct (next_pc exu (rq_inst req) (rq_pc req)) as [[[taken target] link]|] eqn:Hn; [|done].
  assert (forall v, link = Some v -> is_u32 v) as Hl.
  { intros v ->. unfold next_pc in Hn. destruct (_ =? OPCODE_JAL); [simplify_eq; auto with word|].
    destruct (_ =? OPCODE_JALR); [simplify_eq; auto with word|].
    destruct (_ =? OPCODE_BRANCH); [|done]. by destruct (branch_cond _ _ _). }
  eexists _, _. split; [done|]. split; [done|]. split_and!.
  - destruct taken, (rq_pred_taken req); simpl; rewrite ?Z.eqb_eq; intuition congruence.
  - done.
  - by apply (branched_wf exu req target link).
  - intros r. unfold branched. destruct link as [v|]; [|done].
    pose proof (reg_index (rq_inst req) 7 ltac:(lia)) as Hrd. fold (i_rd (rq_inst req)) in Hrd.
    by apply greg_set.
  - by destruct link.
Qed.

(** [blt x1, x2, -8] at 0x100 with x1 = -1, x2 = 1, predicted not taken. *)
Lemma branch_ex_req_proc_correct_witness :
  exists exu', branch_ex_req_proc (ExReq 0xfe20cce3 0x100 false 0x104 false)
      (exu_idle tt (gpr_example 0xffffffff 1)) = Some (tt, exu') /\
    irq_epc exu' = 0xf8.
Proof.
  destruct (branch_ex_req_proc_correct (exu_idle tt (gpr_example 0xffffffff 1))
    (ExReq 0xfe20cce3 0x100 false 0x104 false)) as (exu' & p & Hr & _ & _ & He & _).
  - apply gpr_example_wf; unfold is_u32, W32; lia.
  - reflexivity.
  - exists exu'. split; [exact Hr|exact He].
Defined.
