(* ===== verification/Ldst.v ===== *)
(** * Loads and stores

    The handlers of [core/hart/exu/ldst.c]: an instruction sends one request to the
    load-store unit and waits; the response of a load writes the destination register. *)

From stdpp Require Import base numbers list.
From Stdlib Require Import ZArith Lia.
From S2P Require Import Prelude Fifo Isa ExuState Alu.

Section ldst.
  Context {C : Type}.
  Implicit Types (exu : exu_t C) (req : ex_req_if_t) (ldst_req : ldst_req_if_t)
    (rsp : ldst_rsp_if_t).

Definition lb_ex_req_handler req ldst_req : M (exu_t C) ldst_req_if_t :=
  let inst := rq_inst req in
  let rs1 := i_rs1 inst in
  let imm := i_imm_decode inst in
  let ldst_req := ldst_req <| ld_st := false |> in
  let ldst_req := ldst_req <| ld_size := LDST_REQ_SIZE_B1 |> in
  s1 ← get_gpr rs1;
  mret (ldst_req <| ld_addr := u32 (s1 + imm) |>).

Definition lh_ex_req_handler req ldst_req : M (exu_t C) ldst_req_if_t :=
  let inst := rq_inst req in
  let rs1 := i_rs1 inst in
  let imm := i_imm_decode inst in
  let ldst_req := ldst_req <| ld_st := false |> in
  let ldst_req := ldst_req <| ld_size := LDST_REQ_SIZE_B2 |> in
  s1 ← get_gpr rs1;
  mret (ldst_req <| ld_addr := u32 (s1 + imm) |>).

Definition lw_ex_req_handler req ldst_req : M (exu_t C) ldst_req_if_t :=
  let inst := rq_inst req in
  let rs1 := i_rs1 inst in
  let imm := i_imm_decode inst in
  let ldst_req := ldst_req <| ld_st := false |> in
  let ldst_req := ldst_req <| ld_size := LDST_REQ_SIZE_B4 |> in
  s1 ← get_gpr rs1;
  mret (ldst_req <| ld_addr := u32 (s1 + imm) |>).

Definition lbu_ex_req_handler req ldst_req : M (exu_t C) ldst_req_if_t :=
  let inst := rq_inst req in
  let rs1 := i_rs1 inst in
  let imm := i_imm_decode inst in
  let ldst_req := ldst_req <| ld_st := false |> in
  let ldst_req := ldst_req <| ld_size := LDST_REQ_SIZE_B1 |> in
  s1 ← get_gpr rs1;
  mret (ldst_req <| ld_addr := u32 (s1 + imm) |>).

Definition lhu_ex_req_handler req ldst_req : M (exu_t C) ldst_req_if_t :=
  let inst := rq_inst req in
  let rs1 := i_rs1 inst in
  let imm := i_imm_decode inst in
  let ldst_req := ldst_req <| ld_st := false |> in
  let ldst_req := ldst_req <| ld_size := LDST_REQ_SIZE_B2 |> in
  s1 ← get_gpr rs1;
  mret (ldst_req <| ld_addr := u32 (s1 + imm) |>).

Definition lb_biu_rsp_handler rsp : M (exu_t C) unit :=
  exu ← gets id;
  set_gpr (ld_rd exu) (rv32g_sign_ext (Z.land (lr_data rsp) 0xff) 8).

Definition lh_biu_rsp_handler rsp : M (exu_t C) unit :=
  exu ← gets id;
  set_gpr (ld_rd exu) (rv32g_sign_ext (Z.land (lr_data rsp) 0xffff) 16).

Definition lw_biu_rsp_handler rsp : M (exu_t C) unit :=
  exu ← gets id;
  set_gpr (ld_rd exu) (lr_data rsp).

Definition lbu_biu_rsp_handler rsp : M (exu_t C) unit :=
  exu ← gets id;
  set_gpr (ld_rd exu) (Z.land (lr_data rsp) 0xff).

Definition lhu_biu_rsp_handler rsp : M (exu_t C) unit :=
  exu ← gets id;
  set_gpr (ld_rd exu) (Z.land (lr_data rsp) 0xffff).

Definition load_group_ex_req_handler req ldst_req : M (exu_t C) ldst_req_if_t :=
  let funct3 := i_funct3 (rq_inst req) in
  if funct3 =? LOAD_FUNCT3_LB then lb_ex_req_handler req ldst_req
  else if funct3 =? LOAD_FUNCT3_LH then lh_ex_req_handler req ldst_req
  else if funct3 =? LOAD_FUNCT3_LW then lw_ex_req_handler req ldst_req
  else if funct3 =? LOAD_FUNCT3_LBU then lbu_ex_req_handler req ldst_req
  else if funct3 =? LOAD_FUNCT3_LHU then lhu_ex_req_handler req ldst_req
  else abort.

Definition load_group_biu_rsp_handler rsp : M (exu_t C) unit :=
  exu ← gets id;
  let funct3 := ld_funct3 exu in
  if funct3 =? LOAD_FUNCT3_LB then lb_biu_rsp_handler rsp
  else if funct3 =? LOAD_FUNCT3_LH then lh_biu_rsp_handler rsp
  else if funct3 =? LOAD_FUNCT3_LW then lw_biu_rsp_handler rsp
  else if funct3 =? LOAD_FUNCT3_LBU then lbu_biu_rsp_handler rsp
  else if funct3 =? LOAD_FUNCT3_LHU then lhu_biu_rsp_handler rsp
  else abort.

Definition sb_ex_req_handler req ldst_req : M (exu_t C) ldst_req_if_t :=
  let inst := rq_inst req in
  let rs1 := i_rs1 inst in
  let rs2 := i_rs2 inst in
  let imm := s_imm_decode inst in
  let ldst_req := ldst_req <| ld_st := true |> in
  let ldst_req := ldst_req <| ld_size := LDST_REQ_SIZE_B1 |> in
  s1 ← get_gpr rs1;
  let ldst_req := ldst_req <| ld_addr := u32 (s1 + imm) |> in
  s2 ← get_gpr rs2;
  let ldst_req := ldst_req <| ld_data := s2 |> in
  mret (ldst_req <| ld_strobe := 1 |>).

Definition sh_ex_req_handler req ldst_req : M (exu_t C) ldst_req_if_t :=
  let inst := rq_inst req in
  let rs1 := i_rs1 inst in
  let rs2 := i_rs2 inst in
  let imm := s_imm_decode inst in
  let ldst_req := ldst_req <| ld_st := true |> in
  let ldst_req := ldst_req <| ld_size := LDST_REQ_SIZE_B2 |> in
  s1 ← get_gpr rs1;
  let ldst_req := ldst_req <| ld_addr := u32 (s1 + imm) |> in
  s2 ← get_gpr rs2;
  let ldst_req := ldst_req <| ld_data := s2 |> in
  mret (ldst_req <| ld_strobe := 3 |>).

Definition sw_ex_req_handler req ldst_req : M (exu_t C) ldst_req_if_t :=
  let inst := rq_inst req in
  let rs1 := i_rs1 inst in
  let rs2 := i_rs2 inst in
  let imm := s_imm_decode inst in
  let ldst_req := ldst_req <| ld_st := true |> in
  let ldst_req := ldst_req <| ld_size := LDST_REQ_SIZE_B4 |> in
  s1 ← get_gpr rs1;
  let ldst_req := ldst_req <| ld_addr := u32 (s1 + imm) |> in
  s2 ← get_gpr rs2;
  let ldst_req := ldst_req <| ld_data := s2 |> in
  mret (ldst_req <| ld_strobe := 15 |>).

Definition store_group_ex_req_handler req ldst_req : M (exu_t C) ldst_req_if_t :=
  let funct3 := i_funct3 (rq_inst req) in
  if funct3 =? STORE_FUNCT3_SB then sb_ex_req_handler req ldst_req
  else if funct3 =? STORE_FUNCT3_SH then sh_ex_req_handler req ldst_req
  else if funct3 =? STORE_FUNCT3_SW then sw_ex_req_handler req ldst_req
  else abort.

Definition ldst_ex_req_proc req : M (exu_t C) unit :=
  exu ← gets id;
  if chan_full (ldst_req_mst exu) then mret tt
  else if ldst_req_pend exu then mret tt
  else
    let opcode := i_opcode (rq_inst req) in
    ldst_req ←
      (if opcode =? OPCODE_LOAD then load_group_ex_req_handler req ldst_req_init
       else if opcode =? OPCODE_STORE then store_group_ex_req_handler req ldst_req_init
       else abort);
    on ldst_req_mst (chan_write ldst_req);;
    modify (fun exu => exu <| cur_opcode := opcode |>);;
    modify (fun exu => exu <| ldst_req_pend := true |>);;
    modify (fun exu => exu <| ldst_opcode := opcode |>);;
    modify (fun exu => exu <| ldst_pc := rq_pc req |>);;
    modify (fun exu => exu <| trap_defer := true |>);;
    if opcode =? OPCODE_LOAD then
      modify (fun exu => exu <| ld_rd := i_rd (rq_inst req) |>);;
      modify (fun exu => exu <| ld_funct3 := i_funct3 (rq_inst req) |>)
    else
      modify (fun exu => exu <| ld_rd := 0 |>);;
      modify (fun exu => exu <| ld_funct3 := 0 |>).

Definition ldst_biu_rsp_proc rsp : M (exu_t C) unit :=
  exu ← gets id;
  when (ldst_opcode exu =? OPCODE_LOAD) (load_group_biu_rsp_handler rsp);;
  modify (fun exu => exu <| ldst_req_pend := false |>);;
  modify (fun exu => exu <| ldst_opcode := 0 |>);;
  modify (fun exu => exu <| ldst_pc := 0 |>);;
  modify (fun exu => exu <| ld_rd := 0 |>);;
  modify (fun exu => exu <| ld_funct3 := 0 |>);;
  modify (fun exu => exu <| trap_defer := false |>).

End ldst.

(** ** Semantics *)

(** The value of a [w]-bit two's complement number. *)
Definition signed (w x : Z) : Z := if x <? 2 ^ (w - 1) then x else x - 2 ^ w.

(** What a load writes to its register when the memory system returns [data]. *)
Definition load_value (funct3 data : Z) : option Z :=
  match funct3 with
  | 0 => Some (u32 (signed 8 (data mod 2 ^ 8)))
  | 1 => Some (u32 (signed 16 (data mod 2 ^ 16)))
  | 2 => Some data
  | 4 => Some (data mod 2 ^ 8)
  | 5 => Some (data mod 2 ^ 16)
  | _ => None
  end.

(** The request of a load or store instruction: address, size and, for a store, data and one
    strobe bit per byte. *)
Definition ldst_request {C} (exu : exu_t C) (i : rv32g_inst_t) : option ldst_req_if_t :=
  let base := xreg exu (i_rs1 i) in
  if i_opcode i =? OPCODE_LOAD then
    (fun size => LdstReq (u32 (base + i_imm_decode i)) false LDST_REQ_CMO_NONE size 0 0) <$>
      match i_funct3 i with
      | 0 | 4 => Some LDST_REQ_SIZE_B1
      | 1 | 5 => Some LDST_REQ_SIZE_B2
      | 2 => Some LDST_REQ_SIZE_B4
      | _ => None
      end
  else if i_opcode i =? OPCODE_STORE then
    (fun '(size, n) => LdstReq (u32 (base + s_imm_decode i)) true LDST_REQ_CMO_NONE size
        (xreg exu (i_rs2 i)) (2 ^ n - 1)) <$>
      match i_funct3 i with
      | 0 => Some (LDST_REQ_SIZE_B1, 1)
      | 1 => Some (LDST_REQ_SIZE_B2, 2)
      | 2 => Some (LDST_REQ_SIZE_B4, 4)
      | _ => None
      end
  else None.

Lemma sign_ext_signed w x : 0 < w <= 32 -> rv32g_sign_ext (x mod 2 ^ w) w = u32 (signed w (x mod 2 ^ w)).
Proof.
  intros Hw. set (y := x mod 2 ^ w).
  assert (0 <= y < 2 ^ w) as Hy by (apply Z.mod_pos_bound, Z.pow_pos_nonneg; lia).
  assert (2 ^ w = 2 * 2 ^ (w - 1)) as Hp by (rewrite <- Z.pow_succ_r by lia; f_equal; lia).
  apply sign_ext_spec; [done| | |].
  - unfold signed. case_match; lia.
  - intros i Hi. unfold signed. case_match; [done|].
    replace (y - 2 ^ w) with (y + (-1) * 2 ^ w) by lia.
    rewrite <- (Z.mod_pow2_bits_low (y + _) w i), Z.mod_add, (Z.mod_small y) by lia. done.
  - intros i Hi. rewrite <- (Z.mod_small y (2 ^ w)) by done. apply Z.mod_pow2_bits_high. lia.
Qed.

Section ldst_facts.
  Context {C : Type}.
  Implicit Types (exu : exu_t C) (req : ex_req_if_t) (rsp : ldst_rsp_if_t).

(** The unit with a load or store outstanding. *)
Definition ldst_issued exu req (r : ldst_req_if_t) : exu_t C :=
  let load := i_opcode (rq_inst req) =? OPCODE_LOAD in
  exu <| ldst_req_mst := chan_snoc (ldst_req_mst exu) r |>
      <| cur_opcode := i_opcode (rq_inst req) |> <| ldst_req_pend := true |>
      <| ldst_opcode := i_opcode (rq_inst req) |> <| ldst_pc := rq_pc req |>
      <| trap_defer := true |>
      <| ld_rd := if load then i_rd (rq_inst req) else 0 |>
      <| ld_funct3 := if load then i_funct3 (rq_inst req) else 0 |>.

(** The unit after the response. *)
Definition ldst_retired exu : exu_t C :=
  exu <| ldst_req_pend := false |> <| ldst_opcode := 0 |> <| ldst_pc := 0 |> <| ld_rd := 0 |>
      <| ld_funct3 := 0 |> <| trap_defer := false |>.

Ltac run_ldst :=
  cbv zeta; unfold mbind, M_bind, modify, mret, M_ret; reg_run; try reflexivity.

Lemma ldst_handlers_run exu req : gpr_wf (gpr exu) ->
  (let opcode := i_opcode (rq_inst req) in
   if opcode =? OPCODE_LOAD then load_group_ex_req_handler req ldst_req_init
   else if opcode =? OPCODE_STORE then store_group_ex_req_handler req ldst_req_init
   else abort) exu = (fun r => (r, exu)) <$> ldst_request exu (rq_inst req).
Proof.
  intros Hg. cbv zeta. unfold ldst_request.
  destruct (i_opcode (rq_inst req) =? OPCODE_LOAD);
    [|destruct (i_opcode (rq_inst req) =? OPCODE_STORE); [|done]].
  - unfold load_group_ex_req_handler.
    destruct (funct3_cases (rq_inst req)) as [->|[->|[->|[->|[->|[->|[->| ->]]]]]]]; zconst;
      try reflexivity.
    + unfold lb_ex_req_handler. run_ldst.
    + unfold lh_ex_req_handler. run_ldst.
    + unfold lw_ex_req_handler. run_ldst.
    + unfold lbu_ex_req_handler. run_ldst.
    + unfold lhu_ex_req_handler. run_ldst.
  - unfold store_group_ex_req_handler.
    destruct (funct3_cases (rq_inst req)) as [->|[->|[->|[->|[->|[->|[->| ->]]]]]]]; zconst;
      try reflexivity.
    + unfold sb_ex_req_handler. run_ldst.
    + unfold sh_ex_req_handler. run_ldst.
    + unfold sw_ex_req_handler. run_ldst.
Qed.

Lemma ldst_ex_req_run exu req : gpr_wf (gpr exu) -> ldst_req_pend exu = false ->
  chan_num (ldst_req_mst exu) < ch_depth (ldst_req_mst exu) ->
  ldst_ex_req_proc req exu =
  (fun r => (tt, ldst_issued exu req r)) <$> ldst_request exu (rq_inst req).
Proof.
  intros Hg Hp Hf. unfold ldst_ex_req_proc. unfold mbind at 1, M_bind at 1, gets, id.
  unfold chan_full. rewrite (proj2 (Z.eqb_neq _ _)), Hp by lia. cbv beta iota zeta.
  unfold mbind at 1, M_bind at 1. rewrite ldst_handlers_run by done.
  destruct (ldst_request _ _) as [r|]; [|done]. simpl option_map.
  unfold mbind, M_bind. cbn [fmap option_fmap option_map]. rewrite on_chan_write by done.
  unfold ldst_issued, modify. by destruct (_ =? OPCODE_LOAD).
Qed.

Lemma load_rsp_run exu rsp v : gpr_wf (gpr exu) -> 0 <= ld_rd exu < 32 ->
  load_value (ld_funct3 exu) (lr_data rsp) = Some v ->
  load_group_biu_rsp_handler rsp exu = Some (tt, xset exu (ld_rd exu) v).
Proof.
  intros Hg Hr Hv. unfold load_group_biu_rsp_handler.
  unfold mbind, M_bind, gets, id. cbv beta iota zeta.
  assert (forall x n, 0 <= n -> Z.land x (2 ^ n - 1) = x mod 2 ^ n) as Hm.
  { intros x n Hn. rewrite Z.sub_1_r, <- Z.ones_equiv. by apply Z.land_ones. }
  unfold load_value in Hv.
  destruct (ld_funct3 exu) as [|f|f] eqn:Hf3; [| |done].
  - zconst. injection Hv as <-. unfold lb_biu_rsp_handler, mbind, M_bind, gets, id.
    reg_run. do 3 f_equal. change 0xff with (2 ^ 8 - 1). rewrite Hm by lia. by apply sign_ext_signed.
  - destruct f as [[?|[?|?|]|]|[?|[?|?|]|]|]; try done; injection Hv as <-; zconst.
    + unfold lhu_biu_rsp_handler, mbind, M_bind, gets, id. reg_run. do 3 f_equal.
      by apply (Hm _ 16).
    + unfold lbu_biu_rsp_handler, mbind, M_bind, gets, id. reg_run. do 3 f_equal.
      by apply (Hm _ 8).
    + unfold lw_biu_rsp_handler, mbind, M_bind, gets, id. reg_run. done.
    + unfold lh_biu_rsp_handler, mbind, M_bind, gets, id. reg_run. do 3 f_equal.
      change 0xffff with (2 ^ 16 - 1). rewrite Hm by lia. by apply sign_ext_signed.
Qed.

Lemma load_value_u32 f d v : is_u32 d -> load_value f d = Some v -> is_u32 v.
Proof.
  intros Hd Hv. assert (forall n, 0 <= n <= 32 -> is_u32 (d mod 2 ^ n)) as Hm.
  { intros n Hn. pose proof (Z.mod_pos_bound d (2 ^ n) ltac:(apply Z.pow_pos_nonneg; lia)).
    pose proof (Z.pow_le_mono_r 2 n 32 ltac:(lia) ltac:(lia)).
    unfold is_u32. change W32 with (2 ^ 32). lia. }
  unfold load_value in Hv. destruct f as [|f|f]; [| |done]; [injection Hv as <-; auto with word|].
  destruct f as [[?|[?|?|]|]|[?|[?|?|]|]|]; try done; injection Hv as <-; auto with word; apply Hm; lia.
Qed.

Lemma ldst_biu_rsp_run exu rsp : gpr_wf (gpr exu) -> 0 <= ld_rd exu < 32 ->
  (ldst_opcode exu = OPCODE_LOAD -> is_Some (load_value (ld_funct3 exu) (lr_data rsp))) ->
  ldst_biu_rsp_proc rsp exu = Some (tt, ldst_retired
    (if ldst_opcode exu =? OPCODE_LOAD
     then xset exu (ld_rd exu) (default 0 (load_value (ld_funct3 exu) (lr_data rsp)))
     else exu)).
Proof.
  intros Hg Hr Hv. unfold ldst_biu_rsp_proc. unfold mbind, M_bind, gets, id, when. cbv beta iota zeta.
  destruct (Z.eqb_spec (ldst_opcode exu) OPCODE_LOAD) as [He|He]; [|done].
  destruct (Hv He) as [v Hvv]. by rewrite (load_rsp_run exu rsp v), Hvv.
Qed.

(** A load that was accepted has a width that the response handler knows. *)
Lemma ldst_request_load exu i d : i_opcode i = OPCODE_LOAD -> is_Some (ldst_request exu i) ->
  is_Some (load_value (i_funct3 i) d).
Proof.
  intros Ho. unfold ldst_request. rewrite Ho, Z.eqb_refl. cbv zeta.
  destruct (funct3_cases i) as [->|[->|[->|[->|[->|[->|[->| ->]]]]]]]; simpl; intros [? ?];
    by eauto.
Qed.

Lemma ldst_issued_rsp exu req r d : gpr_wf (gpr exu) -> ldst_request exu (rq_inst req) = Some r ->
  let load := i_opcode (rq_inst req) =? OPCODE_LOAD in
  ldst_biu_rsp_proc (LdstRsp d true) (ldst_issued exu req r) = Some (tt, ldst_retired
    (if load then xset (ldst_issued exu req r) (i_rd (rq_inst req))
       (default 0 (load_value (i_funct3 (rq_inst req)) d))
     else ldst_issued exu req r)).
Proof.
  intros Hg Hr load. rewrite ldst_biu_rsp_run; [|done| |].
  - unfold ldst_issued. fold load. simpl. fold load. by destruct load.
  - simpl. fold load. destruct load; [apply reg_index|]; lia.
  - simpl. intros Ho. rewrite Ho, Z.eqb_refl.
    apply (ldst_request_load exu); [done|by rewrite Hr].
Qed.

End ldst_facts.

(** ** Theorems *)

(** C26: A load or store is one request and one response.  The request carries the effective
    address rs1 + immediate, the size of the instruction and for a store the data with one
    strobe bit per byte; until the response the unit holds back traps; the response of a
    load writes to [rd], and to no other register, the returned data sign- or zero-extended
    from the access size, that of a store writes nothing; and after it no access is
    outstanding.  A reserved [funct3] fails the check. *)
Theorem ldst_transaction {C} (exu : exu_t C) req d : gpr_wf (gpr exu) ->
  ldst_req_pend exu = false -> chan_num (ldst_req_mst exu) < ch_depth (ldst_req_mst exu) ->
  is_u32 d ->
  match ldst_request exu (rq_inst req) with
  | Some r => exists exu1 exu2,
    ldst_ex_req_proc req exu = Some (tt, exu1) /\
    ch_pkts (ldst_req_mst exu1) = ch_pkts (ldst_req_mst exu) ++ [r] /\
    ldst_req_pend exu1 = true /\ trap_defer exu1 = true /\ gpr exu1 = gpr exu /\
    ldst_biu_rsp_proc (LdstRsp d true) exu1 = Some (tt, exu2) /\
    ldst_req_pend exu2 = false /\ trap_defer exu2 = false /\ gpr_wf (gpr exu2) /\
    forall x, xreg exu2 x =
      if (i_opcode (rq_inst req) =? OPCODE_LOAD) && (i_rd (rq_inst req) =? x) && negb (x =? 0)
      then default 0 (load_value (i_funct3 (rq_inst req)) d) else xreg exu x
  | None => ldst_ex_req_proc req exu = None
  end.
Proof.
  intros Hg Hp Hf Hd. rewrite ldst_ex_req_run by done.
  destruct (ldst_request exu (rq_inst req)) as [r|] eqn:Hr; [|done].
  pose proof (reg_index (rq_inst req) 7 ltac:(lia)) as Hrd. fold (i_rd (rq_inst req)) in Hrd.
  assert (gpr_wf (gpr (ldst_issued exu req r))) as Hg' by done.
  eexists _, _. split; [done|]. split_and!; [done..|by apply ldst_issued_rsp| | | |].
  - by destruct (i_opcode (rq_inst req) =? OPCODE_LOAD).
  - by destruct (i_opcode (rq_inst req) =? OPCODE_LOAD).
  - destruct (Z.eqb_spec (i_opcode (rq_inst req)) OPCODE_LOAD) as [Ho|]; [|done].
    destruct (ldst_request_load exu (rq_inst req) d Ho) as [v Hv]; [by rewrite Hr|].
    rewrite Hv. change (gpr_wf (gpr_set (gpr exu) (i_rd (rq_inst req)) v)).
    apply gpr_set_wf; [done|lia|by eapply load_value_u32].
  - intros x. destruct (i_opcode (rq_inst req) =? OPCODE_LOAD); [|done].
    rewrite andb_true_l. by apply greg_set.
Qed.

(** [lb x3, -1(x1)] returning 0x1280: x3 becomes -128. *)
Lemma ldst_transaction_witness :
  exists exu1 exu2,
    ldst_ex_req_proc (ExReq 0xfff08183 0x100 false 0 false)
      (exu_idle tt (gpr_example 0x1000 0)) = Some (tt, exu1) /\
    ch_pkts (ldst_req_mst exu1) = [LdstReq 0xfff false 0 0 0 0] /\
    ldst_biu_rsp_proc (LdstRsp 0x1280 true) exu1 = Some (tt, exu2) /\
    xreg exu2 3 = 0xffffff80.
Proof.
  destruct (ldst_transaction (exu_idle tt (gpr_example 0x1000 0))
    (ExReq 0xfff08183 0x100 false 0 false) 0x1280)
    as (exu1 & exu2 & H1 & Hq & _ & _ & _ & H2 & _ & _ & _ & Hx).
  - apply gpr_example_wf; unfold is_u32, W32; lia.
  - reflexivity.
  - reflexivity.
  - unfold is_u32, W32. lia.
  - exists exu1, exu2. split; [exact H1|]. split; [exact Hq|]. split; [exact H2|].
    rewrite Hx. reflexivity.
Defined.
