(* ===== verification/Misc.v ===== *)
(** * Upper immediates, fences and cache operations

    The handlers of [core/hart/exu/misc.c], and from [core/hart/exu/exu.c] the start of a
    fence.i ([exu_start_fence_i]) that the fence.i handler calls. *)

From stdpp Require Import base numbers list.
From Stdlib Require Import ZArith Lia.
From S2P Require Import Prelude Fifo Isa ExuState Alu.

Section misc.
  Context {C : Type}.
  Implicit Types (exu : exu_t C) (req : ex_req_if_t).

Definition exu_start_fence_i : M (exu_t C) unit :=
  exu ← gets id;
  DBG_CHECK (is_idle (fence_i_stage exu));;
  DBG_CHECK (negb (chan_full (l1d_flush_mst exu)));;
  on l1d_flush_mst (chan_write tt);;
  modify (fun exu => exu <| fence_i_stage := FENCE_I_STAGE_WAIT_D_ACK |>).

Definition lui_ex_req_handler req : M (exu_t C) unit :=
  let inst := rq_inst req in
  let rd := i_rd inst in
  let imm := u_imm_decode inst in
  set_gpr rd imm.

Definition auipc_ex_req_handler req : M (exu_t C) unit :=
  let inst := rq_inst req in
  let rd := i_rd inst in
  let imm := u_imm_decode inst in
  set_gpr rd (u32 (rq_pc req + imm)).

(** A fence orders nothing here: the unit has at most one access outstanding. *)
Definition fence_ex_req_handler req : M (exu_t C) unit :=
  let fm := Z.shiftr (i_imm_11_0 (rq_inst req)) 8 in
  if fm =? 0 then mret tt
  else if fm =? 8 then mret tt
  else abort.

Definition fence_i_ex_req_handler req : M (exu_t C) unit := exu_start_fence_i.

Definition cbo_ex_req_handler req : M (exu_t C) unit :=
  exu ← gets id;
  DBG_CHECK (negb (chan_full (ldst_req_mst exu)));;
  cmo ← of_option (match i_imm_11_0 (rq_inst req) with
                   | 0 => Some LDST_REQ_CMO_INVAL
                   | 1 => Some LDST_REQ_CMO_CLEAN
                   | 2 => Some LDST_REQ_CMO_FLUSH
                   | _ => None
                   end);
  let rs1 := i_rs1 (rq_inst req) in
  s1 ← get_gpr rs1;
  on ldst_req_mst (chan_write (LdstReq s1 false cmo LDST_REQ_SIZE_B4 0 0));;
  modify (fun exu => exu <| cur_opcode := OPCODE_MISC_MEM |>);;
  modify (fun exu => exu <| ldst_req_pend := true |>);;
  modify (fun exu => exu <| trap_defer := true |>).

Definition misc_ex_req_proc req : M (exu_t C) unit :=
  let opcode := i_opcode (rq_inst req) in
  if opcode =? OPCODE_LUI then lui_ex_req_handler req
  else if opcode =? OPCODE_AUIPC then auipc_ex_req_handler req
  else if opcode =? OPCODE_MISC_MEM then
    let funct3 := i_funct3 (rq_inst req) in
    if funct3 =? MISC_MEM_FUNCT3_FENCE then fence_ex_req_handler req
    else if funct3 =? MISC_MEM_FUNCT3_FENCE_I then fence_i_ex_req_handler req
    else if funct3 =? MISC_MEM_FUNCT3_CBO then cbo_ex_req_handler req
    else abort
  else abort.

End misc.
