(* ===== verification/Amo.v ===== *)
(** * Atomic memory operations

    The handlers of [core/hart/exu/amo.c].  An AMO is a read request whose response triggers
    a write request; [biu_rdy] says whether the request interface has room. *)

From stdpp Require Import base numbers list.
From Stdlib Require Import ZArith Lia.
From S2P Require Import Prelude Fifo Isa ExuState Alu.

Section amo.
  Context {C : Type}.
  Implicit Types (exu : exu_t C) (req : ex_req_if_t) (ldst_req st_req : ldst_req_if_t)
    (rsp : ldst_rsp_if_t) (biu_rdy : bool).

(** Handlers return the request under construction and whether it is to be sent. *)
Definition lr_ex_req_handler req ldst_req biu_rdy : M (exu_t C) (bool * ldst_req_if_t) :=
  if negb biu_rdy then mret (false, ldst_req)
  else
    let rd := i_rd (rq_inst req) in
    let rs1 := i_rs1 (rq_inst req) in
    s1 ← get_gpr rs1;
    let ldst_req := ldst_req <| ld_st := false |> <| ld_size := LDST_REQ_SIZE_B4 |>
                             <| ld_addr := s1 |> <| ld_strobe := 15 |> in
    modify (fun exu => exu <| amo_rd := rd |>);;
    modify (fun exu => exu <| amo_addr := ld_addr ldst_req |>);;
    modify (fun exu => exu <| amo_stage := AMO_STAGE_READ |>);;
    mret (true, ldst_req).

Definition lr_biu_rsp_handler rsp st_req biu_rdy : M (exu_t C) (bool * ldst_req_if_t) :=
  exu ← gets id;
  if amo_stage exu =? AMO_STAGE_READ then
    modify (fun exu => exu <| amo_lr_set := true |>);;
    modify (fun exu => exu <| amo_rsvd_addr := amo_addr exu |>);;
    set_gpr (amo_rd exu) (lr_data rsp);;
    modify (fun exu => exu <| amo_stage := AMO_STAGE_IDLE |>);;
    mret (false, st_req)
  else abort.

Definition sc_ex_req_handler req ldst_req biu_rdy : M (exu_t C) (bool * ldst_req_if_t) :=
  let rd := i_rd (rq_inst req) in
  let rs1 := i_rs1 (rq_inst req) in
  let rs2 := i_rs2 (rq_inst req) in
  store_addr ← get_gpr rs1;
  modify (fun exu => exu <| amo_rd := rd |>);;
  exu ← gets id;
  let success := amo_lr_set exu && (amo_rsvd_addr exu =? store_addr) in
  if success && negb biu_rdy then mret (false, ldst_req)
  else if negb success then
    set_gpr (amo_rd exu) 1;;
    modify (fun exu => exu <| amo_lr_set := false |>);;
    modify (fun exu => exu <| amo_stage := AMO_STAGE_IDLE |>);;
    mret (false, ldst_req)
  else
    s2 ← get_gpr rs2;
    let ldst_req := ldst_req <| ld_st := true |> <| ld_size := LDST_REQ_SIZE_B4 |>
                             <| ld_addr := store_addr |> <| ld_data := s2 |>
                             <| ld_strobe := 15 |> in
    modify (fun exu => exu <| amo_stage := AMO_STAGE_WRITE |>);;
    mret (true, ldst_req).

Definition sc_biu_rsp_handler rsp st_req biu_rdy : M (exu_t C) (bool * ldst_req_if_t) :=
  exu ← gets id;
  if amo_stage exu =? AMO_STAGE_WRITE then
    set_gpr (amo_rd exu) 0;;
    modify (fun exu => exu <| amo_lr_set := false |>);;
    modify (fun exu => exu <| amo_stage := AMO_STAGE_IDLE |>);;
    mret (false, st_req)
  else abort.

(** [AMO_EX_REQ_HANDLER_TEMPLATE] *)
Definition amo_ex_req_template req ldst_req biu_rdy : M (exu_t C) (bool * ldst_req_if_t) :=
  if negb biu_rdy then mret (false, ldst_req)
  else
    let rd := i_rd (rq_inst req) in
    let rs1 := i_rs1 (rq_inst req) in
    let rs2 := i_rs2 (rq_inst req) in
    s1 ← get_gpr rs1;
    let ldst_req := ldst_req <| ld_st := false |> <| ld_size := LDST_REQ_SIZE_B4 |>
                             <| ld_addr := s1 |> <| ld_strobe := 15 |> in
    modify (fun exu => exu <| amo_rd := rd |>);;
    modify (fun exu => exu <| amo_addr := ld_addr ldst_req |>);;
    s2 ← get_gpr rs2;
    modify (fun exu => exu <| amo_s2 := s2 |>);;
    modify (fun exu => exu <| amo_stage := AMO_STAGE_READ |>);;
    mret (true, ldst_req).

(** [AMO_BIU_RSP_HANDLER_TEMPLATE]; [expr] computes the new value from the old one and the
    saved operand. *)
Definition amo_biu_rsp_template (expr : Z -> Z -> Z) rsp st_req biu_rdy
    : M (exu_t C) (bool * ldst_req_if_t) :=
  exu ← gets id;
  if amo_stage exu =? AMO_STAGE_READ then
    if negb biu_rdy then mret (false, st_req)
    else
      let old_val := lr_data rsp in
      set_gpr (amo_rd exu) old_val;;
      let new_val := expr old_val (amo_s2 exu) in
      let st_req := st_req <| ld_st := true |> <| ld_size := LDST_REQ_SIZE_B4 |>
                           <| ld_addr := amo_addr exu |> <| ld_data := new_val |>
                           <| ld_strobe := 15 |> in
      modify (fun exu => exu <| amo_stage := AMO_STAGE_WRITE |>);;
      mret (true, st_req)
  else if amo_stage exu =? AMO_STAGE_WRITE then
    modify (fun exu => exu <| amo_stage := AMO_STAGE_IDLE |>);;
    mret (false, st_req)
  else abort.

(** The source adds the signed members; the sum wraps around, as on the targets the model is
    built for. *)
Definition amoswap_biu_rsp_handler := amo_biu_rsp_template (fun old s2 => s2).
Definition amoadd_biu_rsp_handler := amo_biu_rsp_template (fun old s2 => u32 (s32 old + s32 s2)).
Definition amoxor_biu_rsp_handler := amo_biu_rsp_template (fun old s2 => Z.lxor old s2).
Definition amoand_biu_rsp_handler := amo_biu_rsp_template (fun old s2 => Z.land old s2).
Definition amoor_biu_rsp_handler := amo_biu_rsp_template (fun old s2 => Z.lor old s2).
Definition amomin_biu_rsp_handler := amo_biu_rsp_template (fun old s2 => u32 (if s32 old <? s32 s2 then s32 old else s32 s2)).
Definition amomax_biu_rsp_handler := amo_biu_rsp_template (fun old s2 => u32 (if s32 s2 <? s32 old then s32 old else s32 s2)).
Definition amominu_biu_rsp_handler := amo_biu_rsp_template (fun old s2 => if old <? s2 then old else s2).
Definition amomaxu_biu_rsp_handler := amo_biu_rsp_template (fun old s2 => if s2 <? old then old else s2).

(** The two dispatch tables; the request handlers of the nine AMOs are the same template. *)
Definition amo_ex_req_handlers (funct375 : Z)
    : option (ex_req_if_t -> ldst_req_if_t -> bool -> M (exu_t C) (bool * ldst_req_if_t)) :=
  if funct375 =? RV32G_AMO_FUNCT375_LR then Some lr_ex_req_handler
  else if funct375 =? RV32G_AMO_FUNCT375_SC then Some sc_ex_req_handler
  else if funct375 =? RV32G_AMO_FUNCT375_AMOSWAP then Some amo_ex_req_template
  else if funct375 =? RV32G_AMO_FUNCT375_AMOADD then Some amo_ex_req_template
  else if funct375 =? RV32G_AMO_FUNCT375_AMOXOR then Some amo_ex_req_template
  else if funct375 =? RV32G_AMO_FUNCT375_AMOAND then Some amo_ex_req_template
  else if funct375 =? RV32G_AMO_FUNCT375_AMOOR then Some amo_ex_req_template
  else if funct375 =? RV32G_AMO_FUNCT375_AMOMIN then Some amo_ex_req_template
  else if funct375 =? RV32G_AMO_FUNCT375_AMOMAX then Some amo_ex_req_template
  else if funct375 =? RV32G_AMO_FUNCT375_AMOMINU then Some amo_ex_req_template
  else if funct375 =? RV32G_AMO_FUNCT375_AMOMAXU then Some amo_ex_req_template
  else None.

Definition amo_biu_rsp_handlers (funct375 : Z)
    : option (ldst_rsp_if_t -> ldst_req_if_t -> bool -> M (exu_t C) (bool * ldst_req_if_t)) :=
  if funct375 =? RV32G_AMO_FUNCT375_LR then Some lr_biu_rsp_handler
  else if funct375 =? RV32G_AMO_FUNCT375_SC then Some sc_biu_rsp_handler
  else if funct375 =? RV32G_AMO_FUNCT375_AMOSWAP then Some amoswap_biu_rsp_handler
  else if funct375 =? RV32G_AMO_FUNCT375_AMOADD then Some amoadd_biu_rsp_handler
  else if funct375 =? RV32G_AMO_FUNCT375_AMOXOR then Some amoxor_biu_rsp_handler
  else if funct375 =? RV32G_AMO_FUNCT375_AMOAND then Some amoand_biu_rsp_handler
  else if funct375 =? RV32G_AMO_FUNCT375_AMOOR then Some amoor_biu_rsp_handler
  else if funct375 =? RV32G_AMO_FUNCT375_AMOMIN then Some amomin_biu_rsp_handler
  else if funct375 =? RV32G_AMO_FUNCT375_AMOMAX then Some amomax_biu_rsp_handler
  else if funct375 =? RV32G_AMO_FUNCT375_AMOMINU then Some amominu_biu_rsp_handler
  else if funct375 =? RV32G_AMO_FUNCT375_AMOMAXU then Some amomaxu_biu_rsp_handler
  else None.

Definition amo_ex_req_proc req : M (exu_t C) unit :=
  DBG_CHECK (i_opcode (rq_inst req) =? OPCODE_AMO);;
  let funct375 := Z.lor (Z.shiftl (i_funct3 (rq_inst req)) 5)
                        (Z.shiftr (i_funct7 (rq_inst req)) 2) in
  exu ← gets id;
  let biu_rdy := negb (chan_full (ldst_req_mst exu)) in
  handler ← of_option (amo_ex_req_handlers funct375);
  '(send_ldst_req, ldst_req) ← handler req ldst_req_init biu_rdy;
  when send_ldst_req (on ldst_req_mst (chan_write ldst_req));;
  modify (fun exu => exu <| cur_opcode := OPCODE_AMO |>);;
  modify (fun exu => exu <| amo_funct375 := funct375 |>);;
  modify (fun exu => exu <| trap_defer := negb (amo_stage exu =? AMO_STAGE_IDLE) |>).

Definition amo_biu_rsp_proc rsp : M (exu_t C) unit :=
  exu ← gets id;
  DBG_CHECK (cur_opcode exu =? OPCODE_AMO);;
  handler ← of_option (amo_biu_rsp_handlers (amo_funct375 exu));
  let biu_rdy := negb (chan_full (ldst_req_mst exu)) in
  '(send_st_req, st_req) ← handler rsp ldst_req_init biu_rdy;
  when send_st_req (on ldst_req_mst (chan_write st_req));;
  modify (fun exu => exu <| trap_defer := negb (amo_stage exu =? AMO_STAGE_IDLE) |>);;
  exu ← gets id;
  when (negb (trap_defer exu))
    (modify (fun exu => exu <| irq_epc := u32 (cur_pc exu + 4) |>)).

End amo.

(** ** Semantics *)

(** The value an AMO stores, by [funct5], on integers. *)
Definition amo_value (funct375 old s2 : Z) : option Z :=
  if funct375 =? RV32G_AMO_FUNCT375_AMOSWAP then Some s2
  else if funct375 =? RV32G_AMO_FUNCT375_AMOADD then Some (u32 (old + s2))
  else if funct375 =? RV32G_AMO_FUNCT375_AMOXOR then Some (Z.lxor old s2)
  else if funct375 =? RV32G_AMO_FUNCT375_AMOAND then Some (Z.land old s2)
  else if funct375 =? RV32G_AMO_FUNCT375_AMOOR then Some (Z.lor old s2)
  else if funct375 =? RV32G_AMO_FUNCT375_AMOMIN then Some (u32 (Z.min (s32 old) (s32 s2)))
  else if funct375 =? RV32G_AMO_FUNCT375_AMOMAX then Some (u32 (Z.max (s32 old) (s32 s2)))
  else if funct375 =? RV32G_AMO_FUNCT375_AMOMINU then Some (Z.min old s2)
  else if funct375 =? RV32G_AMO_FUNCT375_AMOMAXU then Some (Z.max old s2)
  else None.

Definition amo_funct375_of (i : rv32g_inst_t) : Z :=
  Z.lor (Z.shiftl (i_funct3 i) 5) (Z.shiftr (i_funct7 i) 2).

(** An aligned word store of [v] to [a]. *)
Definition word_store (a v : Z) : ldst_req_if_t :=
  LdstReq a true LDST_REQ_CMO_NONE LDST_REQ_SIZE_B4 v 15.
Definition word_load (a : Z) : ldst_req_if_t :=
  LdstReq a false LDST_REQ_CMO_NONE LDST_REQ_SIZE_B4 0 15.

Section amo_facts.
  Context {C : Type}.
  Implicit Types (exu : exu_t C) (req : ex_req_if_t) (rsp : ldst_rsp_if_t).

(** The response handler of an AMO is the template at the AMO's operation. *)
Lemma amo_handlers_template f old s2 v : amo_value f old s2 = Some v ->
  exists expr, amo_biu_rsp_handlers (C := C) f = Some (amo_biu_rsp_template expr) /\
    amo_ex_req_handlers (C := C) f = Some amo_ex_req_template /\
    (is_u32 old -> is_u32 s2 -> expr old s2 = v).
Proof.
  unfold amo_value, amo_biu_rsp_handlers, amo_ex_req_handlers. intros Hv.
  destruct (Z.eqb_spec f RV32G_AMO_FUNCT375_LR) as [->|]; [by vm_compute in Hv|].
  destruct (Z.eqb_spec f RV32G_AMO_FUNCT375_SC) as [->|]; [by vm_compute in Hv|].
  repeat (case_match; [injection Hv as <-; eexists; split; [reflexivity|]; split; [reflexivity|]|]);
    [..|done]; intros Ho Hs; try reflexivity; simpl.
  - destruct (s32_mod old) as (j & -> & _), (s32_mod s2) as (k & -> & _).
    apply (u32_congr _ _ (- j - k)). lia.
  - f_equal. destruct (Z.ltb_spec (s32 old) (s32 s2)); lia.
  - f_equal. destruct (Z.ltb_spec (s32 s2) (s32 old)); lia.
  - destruct (Z.ltb_spec old s2); lia.
  - destruct (Z.ltb_spec s2 old); lia.
Qed.

(** An AMO or a load-reserved waiting for its read. *)
Definition amo_issued exu req (s2 : Z) : exu_t C :=
  exu <| amo_rd := i_rd (rq_inst req) |> <| amo_addr := xreg exu (i_rs1 (rq_inst req)) |>
      <| amo_s2 := s2 |> <| amo_stage := AMO_STAGE_READ |>
      <| ldst_req_mst := chan_snoc (ldst_req_mst exu) (word_load (xreg exu (i_rs1 (rq_inst req)))) |>
      <| cur_opcode := OPCODE_AMO |> <| amo_funct375 := amo_funct375_of (rq_inst req) |>
      <| trap_defer := true |>.

Ltac run_amo :=
  unfold mbind, M_bind, gets, id, modify, mret, M_ret, when, DBG_CHECK, of_option; cbv beta iota zeta.

Lemma amo_ex_req_run exu req old v : gpr_wf (gpr exu) ->
  i_opcode (rq_inst req) = OPCODE_AMO ->
  chan_num (ldst_req_mst exu) < ch_depth (ldst_req_mst exu) ->
  amo_value (amo_funct375_of (rq_inst req)) old (xreg exu (i_rs2 (rq_inst req))) = Some v ->
  amo_ex_req_proc req exu = Some (tt, amo_issued exu req (xreg exu (i_rs2 (rq_inst req)))).
Proof.
  intros Hg Ho Hf Hv. destruct (amo_handlers_template _ _ _ _ Hv) as (expr & _ & Hh & _).
  unfold amo_ex_req_proc. fold (amo_funct375_of (rq_inst req)). rewrite Ho, Z.eqb_refl.
  unfold chan_full. run_amo. rewrite (proj2 (Z.eqb_neq _ _)) by lia. rewrite Hh.
  unfold amo_ex_req_template. cbn [negb]. run_amo. rewrite get_gpr_run by auto with word.
  cbv beta iota zeta. rewrite get_gpr_run by (done || auto with word). cbv beta iota zeta.
  rewrite on_chan_write by done. reflexivity.
Qed.

Lemma amo_read_rsp_run exu rsp expr rd : gpr_wf (gpr exu) -> amo_rd exu = rd -> 0 <= rd < 32 ->
  cur_opcode exu = OPCODE_AMO -> amo_stage exu = AMO_STAGE_READ ->
  amo_biu_rsp_handlers (C := C) (amo_funct375 exu) = Some (amo_biu_rsp_template expr) ->
  chan_num (ldst_req_mst exu) < ch_depth (ldst_req_mst exu) ->
  amo_biu_rsp_proc rsp exu = Some (tt,
    xset exu rd (lr_data rsp) <| amo_stage := AMO_STAGE_WRITE |>
      <| ldst_req_mst := chan_snoc (ldst_req_mst exu)
           (word_store (amo_addr exu) (expr (lr_data rsp) (amo_s2 exu))) |>
      <| trap_defer := true |>).
Proof.
  intros Hg <- Hr Ho Hst Hh Hf. unfold amo_biu_rsp_proc. run_amo. rewrite Ho, Z.eqb_refl, Hh.
  unfold chan_full. rewrite (proj2 (Z.eqb_neq _ _)) by lia.
  unfold amo_biu_rsp_template. cbn [negb]. run_amo. rewrite Hst, Z.eqb_refl.
  rewrite set_gpr_run by done. cbv beta iota zeta.
  rewrite on_chan_write by done. reflexivity.
Qed.

Lemma amo_write_rsp_run exu rsp expr : cur_opcode exu = OPCODE_AMO ->
  amo_stage exu = AMO_STAGE_WRITE ->
  amo_biu_rsp_handlers (C := C) (amo_funct375 exu) = Some (amo_biu_rsp_template expr) ->
  amo_biu_rsp_proc rsp exu = Some (tt, exu <| amo_stage := AMO_STAGE_IDLE |>
    <| trap_defer := false |> <| irq_epc := u32 (cur_pc exu + 4) |>).
Proof.
  intros Ho Hst Hh. unfold amo_biu_rsp_proc. run_amo. rewrite Ho, Z.eqb_refl, Hh.
  unfold amo_biu_rsp_template. run_amo. rewrite Hst.
  change (AMO_STAGE_WRITE =? AMO_STAGE_READ) with false. rewrite Z.eqb_refl. reflexivity.
Qed.

End amo_facts.

(** ** Load-reserved and store-conditional *)

Section lr_sc.
  Context {C : Type}.
  Implicit Types (exu : exu_t C) (req : ex_req_if_t) (rsp : ldst_rsp_if_t).

Ltac run_amo :=
  unfold mbind, M_bind, gets, id, modify, mret, M_ret, when, DBG_CHECK, of_option; cbv beta iota zeta.

Lemma lr_ex_req_run exu req : gpr_wf (gpr exu) -> i_opcode (rq_inst req) = OPCODE_AMO ->
  amo_funct375_of (rq_inst req) = RV32G_AMO_FUNCT375_LR ->
  chan_num (ldst_req_mst exu) < ch_depth (ldst_req_mst exu) ->
  amo_ex_req_proc req exu = Some (tt, amo_issued exu req (amo_s2 exu)).
Proof.
  intros Hg Ho Hl Hf. unfold amo_ex_req_proc, amo_issued. fold (amo_funct375_of (rq_inst req)).
  rewrite Ho, Z.eqb_refl, Hl. unfold chan_full. run_amo. rewrite (proj2 (Z.eqb_neq _ _)) by lia.
  change (amo_ex_req_handlers (C := C) RV32G_AMO_FUNCT375_LR) with (Some (lr_ex_req_handler (C := C))).
  unfold lr_ex_req_handler. cbn [negb]. run_amo. rewrite get_gpr_run by auto with word.
  cbv beta iota zeta. rewrite on_chan_write by done. reflexivity.
Qed.

Lemma lr_rsp_run exu rsp rd : gpr_wf (gpr exu) -> amo_rd exu = rd -> 0 <= rd < 32 ->
  cur_opcode exu = OPCODE_AMO -> amo_stage exu = AMO_STAGE_READ ->
  amo_funct375 exu = RV32G_AMO_FUNCT375_LR ->
  amo_biu_rsp_proc rsp exu = Some (tt, xset exu rd (lr_data rsp)
    <| amo_lr_set := true |> <| amo_rsvd_addr := amo_addr exu |>
    <| amo_stage := AMO_STAGE_IDLE |> <| trap_defer := false |>
    <| irq_epc := u32 (cur_pc exu + 4) |>).
Proof.
  intros Hg <- Hr Ho Hst Hl. unfold amo_biu_rsp_proc. run_amo. rewrite Ho, Z.eqb_refl, Hl.
  change (amo_biu_rsp_handlers (C := C) RV32G_AMO_FUNCT375_LR) with (Some (lr_biu_rsp_handler (C := C))).
  unfold lr_biu_rsp_handler. run_amo. rewrite Hst, Z.eqb_refl.
  rewrite set_gpr_run by done. cbv beta iota zeta.
  reflexivity.
Qed.

(** A store-conditional fails when there is no reservation of its address. *)
Lemma sc_fail_run exu req : gpr_wf (gpr exu) -> i_opcode (rq_inst req) = OPCODE_AMO ->
  amo_funct375_of (rq_inst req) = RV32G_AMO_FUNCT375_SC ->
  amo_lr_set exu && (amo_rsvd_addr exu =? xreg exu (i_rs1 (rq_inst req))) = false ->
  amo_ex_req_proc req exu = Some (tt, xset exu (i_rd (rq_inst req)) 1
    <| amo_rd := i_rd (rq_inst req) |> <| amo_lr_set := false |>
    <| amo_stage := AMO_STAGE_IDLE |> <| cur_opcode := OPCODE_AMO |>
    <| amo_funct375 := RV32G_AMO_FUNCT375_SC |> <| trap_defer := false |>).
Proof.
  intros Hg Ho Hl Hs. unfold amo_ex_req_proc. fold (amo_funct375_of (rq_inst req)).
  rewrite Ho, Z.eqb_refl, Hl. run_amo.
  change (amo_ex_req_handlers (C := C) RV32G_AMO_FUNCT375_SC) with (Some (sc_ex_req_handler (C := C))).
  unfold sc_ex_req_handler. run_amo. rewrite get_gpr_run by auto with word. cbv beta iota zeta.
  set (e1 := exu <| amo_rd := i_rd (rq_inst req) |>).
  change (amo_lr_set e1) with (amo_lr_set exu).
  change (amo_rsvd_addr e1) with (amo_rsvd_addr exu).
  rewrite Hs. cbn [andb negb].
  change (amo_rd e1) with (i_rd (rq_inst req)).
  rewrite set_gpr_run by (done || auto with word). cbv beta iota zeta.
  reflexivity.
Qed.

Lemma sc_ok_run exu req : gpr_wf (gpr exu) -> i_opcode (rq_inst req) = OPCODE_AMO ->
  amo_funct375_of (rq_inst req) = RV32G_AMO_FUNCT375_SC ->
  amo_lr_set exu && (amo_rsvd_addr exu =? xreg exu (i_rs1 (rq_inst req))) = true ->
  chan_num (ldst_req_mst exu) < ch_depth (ldst_req_mst exu) ->
  amo_ex_req_proc req exu = Some (tt, exu
    <| amo_rd := i_rd (rq_inst req) |> <| amo_stage := AMO_STAGE_WRITE |>
    <| ldst_req_mst := chan_snoc (ldst_req_mst exu)
         (word_store (xreg exu (i_rs1 (rq_inst req))) (xreg exu (i_rs2 (rq_inst req)))) |>
    <| cur_opcode := OPCODE_AMO |> <| amo_funct375 := RV32G_AMO_FUNCT375_SC |>
    <| trap_defer := true |>).
Proof.
  intros Hg Ho Hl Hs Hf. unfold amo_ex_req_proc. fold (amo_funct375_of (rq_inst req)).
  rewrite Ho, Z.eqb_refl, Hl. unfold chan_full. run_amo. rewrite (proj2 (Z.eqb_neq _ _)) by lia.
  change (amo_ex_req_handlers (C := C) RV32G_AMO_FUNCT375_SC) with (Some (sc_ex_req_handler (C := C))).
  unfold sc_ex_req_handler. run_amo. rewrite get_gpr_run by auto with word. cbv beta iota zeta.
  set (e1 := exu <| amo_rd := i_rd (rq_inst req) |>).
  change (amo_lr_set e1) with (amo_lr_set exu).
  change (amo_rsvd_addr e1) with (amo_rsvd_addr exu).
  rewrite Hs. cbn [andb negb].
  rewrite get_gpr_run by (done || auto with word). cbv beta iota zeta.
  rewrite on_chan_write by done. reflexivity.
Qed.

Lemma sc_rsp_run exu rsp rd : gpr_wf (gpr exu) -> amo_rd exu = rd -> 0 <= rd < 32 ->
  cur_opcode exu = OPCODE_AMO -> amo_stage exu = AMO_STAGE_WRITE ->
  amo_funct375 exu = RV32G_AMO_FUNCT375_SC ->
  amo_biu_rsp_proc rsp exu = Some (tt, xset exu rd 0
    <| amo_lr_set := false |> <| amo_stage := AMO_STAGE_IDLE |> <| trap_defer := false |>
    <| irq_epc := u32 (cur_pc exu + 4) |>).
Proof.
  intros Hg <- Hr Ho Hst Hl. unfold amo_biu_rsp_proc. run_amo. rewrite Ho, Z.eqb_refl, Hl.
  change (amo_biu_rsp_handlers (C := C) RV32G_AMO_FUNCT375_SC) with (Some (sc_biu_rsp_handler (C := C))).
  unfold sc_biu_rsp_handler. run_amo. rewrite Hst, Z.eqb_refl.
  rewrite set_gpr_run by done. cbv beta iota zeta.
  reflexivity.
Qed.

End lr_sc.

(** ** Theorems *)

(** C27: An AMO is an atomic-looking read-modify-write at the address in rs1: it reads the word,
    and the response makes it store the manual's function of the old word and of the value rs2
    had at issue (even when rd is rs1 or rs2) to the same address and put the old word in rd;
    the response of the store ends it.  Traps are held back from issue to completion, and the
    pc saved for an interrupt is then the next instruction.  [q1] and [q2] are the request
    interface after the load-store unit has taken the read and the write. *)
Theorem amo_read_modify_write {C} (exu : exu_t C) req old v rsp q1 q2 : gpr_wf (gpr exu) ->
  i_opcode (rq_inst req) = OPCODE_AMO ->
  amo_value (amo_funct375_of (rq_inst req)) old (xreg exu (i_rs2 (rq_inst req))) = Some v ->
  chan_num (ldst_req_mst exu) < ch_depth (ldst_req_mst exu) -> chan_num q1 < ch_depth q1 ->
  is_u32 old ->
  let a := xreg exu (i_rs1 (rq_inst req)) in
  exists exu1 exu2 exu3,
    amo_ex_req_proc req exu = Some (tt, exu1) /\
    ch_pkts (ldst_req_mst exu1) = ch_pkts (ldst_req_mst exu) ++ [word_load a] /\
    trap_defer exu1 = true /\
    amo_biu_rsp_proc (LdstRsp old true) (exu1 <| ldst_req_mst := q1 |>) = Some (tt, exu2) /\
    ch_pkts (ldst_req_mst exu2) = ch_pkts q1 ++ [word_store a v] /\ trap_defer exu2 = true /\
    amo_biu_rsp_proc rsp (exu2 <| ldst_req_mst := q2 |>) = Some (tt, exu3) /\
    amo_stage exu3 = AMO_STAGE_IDLE /\ trap_defer exu3 = false /\ ldst_req_mst exu3 = q2 /\
    irq_epc exu3 = u32 (cur_pc exu + 4) /\
    forall r, xreg exu3 r =
      if (i_rd (rq_inst req) =? r) && negb (r =? 0) then old else xreg exu r.
Proof.
  intros Hg Ho Hv Hf Hf1 Hold a.
  destruct (amo_handlers_template (C := C) _ _ _ _ Hv) as (expr & Hh & _ & Hexpr).
  rewrite (amo_ex_req_run _ _ _ _ Hg Ho Hf Hv).
  pose proof (reg_index (rq_inst req) 7 ltac:(lia)) as Hrd. fold (i_rd (rq_inst req)) in Hrd.
  set (exu1 := amo_issued exu req (xreg exu (i_rs2 (rq_inst req)))).
  unshelve epose proof (amo_read_rsp_run (exu1 <| ldst_req_mst := q1 |>) (LdstRsp old true) expr
    (i_rd (rq_inst req)) _ _ Hrd _ _ _ _) as H2; [exact Hg|reflexivity..|exact Hh|exact Hf1|].
  eexists exu1, _, _. split; [done|]. split; [done|]. split; [done|]. split; [exact H2|].
  split. { cbn. unfold a. do 3 f_equal. apply Hexpr; [done|by apply xreg_u32]. }
  split; [done|]. split.
  { eapply amo_write_rsp_run; [| |exact Hh]; reflexivity. }
  split_and!; [done..|].
  - intros r. by apply greg_set.
Qed.

(** [amomax.w x1, x2, (x1)] at 0x1000, memory word -5, x2 = 3. *)
Lemma amo_read_modify_write_witness :
  exists exu1 exu2,
    amo_ex_req_proc (ExReq 0xa020a0af 0 false 0 false)
      (exu_idle tt (gpr_example 0x1000 3)) = Some (tt, exu1) /\
    amo_biu_rsp_proc (LdstRsp 0xfffffffb true) (exu1 <| ldst_req_mst := Chan 1 [] |>)
      = Some (tt, exu2) /\
    ch_pkts (ldst_req_mst exu2) = [word_store 0x1000 3].
Proof.
  destruct (amo_read_modify_write (exu_idle tt (gpr_example 0x1000 3))
    (ExReq 0xa020a0af 0 false 0 false) 0xfffffffb 3 (LdstRsp 0 true) (Chan 1 []) (Chan 1 []))
    as (exu1 & exu2 & exu3 & H1 & _ & _ & H2 & Hq & _).
  - apply gpr_example_wf; unfold is_u32, W32; lia.
  - reflexivity.
  - reflexivity.
  - reflexivity.
  - reflexivity.
  - unfold is_u32, W32. lia.
  - exists exu1, exu2. split; [exact H1|]. split; [exact H2|exact Hq].
Defined.
