(* ===== verification/Sys.v ===== *)
(** * System instructions

    The handlers of [core/hart/exu/sys.c]: environment calls, trap returns, wait for
    interrupt, address-translation fences and CSR accesses. *)

From stdpp Require Import base numbers list.
From Stdlib Require Import ZArith Lia.
From S2P Require Import Prelude Fifo Isa ExuState Alu.

Definition CSR_SATP := 0x180.

Section sys.
  Context {C : Type} `{!CsrPort C}.
  Implicit Types (exu : exu_t C) (req : ex_req_if_t).

Definition exu_send_expt (type cause pc tval : Z) : M (exu_t C) unit :=
  exu ← gets id;
  on ex_expt_mst (chan_write (HartExpt type cause (priv exu) pc tval)).

Definition ecall_ex_req_handler req : M (exu_t C) unit :=
  exu_send_expt HART_EXPT_TYPE_EXCEPTION HART_EXPT_CAUSE_ECALL (rq_pc req) 0.

Definition ebreak_ex_req_handler req : M (exu_t C) unit :=
  exu_send_expt HART_EXPT_TYPE_EXCEPTION HART_EXPT_CAUSE_BREAKPOINT (rq_pc req) (rq_pc req).

Definition sret_ex_req_handler req : M (exu_t C) unit :=
  exu_send_expt HART_EXPT_TYPE_SRET 0 (rq_pc req) 0.

Definition mret_ex_req_handler req : M (exu_t C) unit :=
  exu_send_expt HART_EXPT_TYPE_MRET 0 (rq_pc req) 0.

Definition wfi_ex_req_handler req : M (exu_t C) unit :=
  modify (fun exu => exu <| wfi := true |>);;
  modify (fun exu => exu <| wfi_resume_pc := u32 (rq_pc req + 4) |>).

Definition sfence_vma_ex_req_handler req : M (exu_t C) unit :=
  on tlb_flush_mst (chan_write tt).

Definition priv_group_ex_req_handler req : M (exu_t C) unit :=
  let i_imm := i_imm_11_0 (rq_inst req) in
  let r_funct7 := i_funct7 (rq_inst req) in
  let r_rs2 := i_rs2 (rq_inst req) in
  let rs1 := i_rs1 (rq_inst req) in
  let rd := i_rd (rq_inst req) in
  if (i_imm =? 0) && (rs1 =? 0) && (rd =? 0) then ecall_ex_req_handler req
  else if (i_imm =? 1) && (rs1 =? 0) && (rd =? 0) then ebreak_ex_req_handler req
  else if (r_funct7 =? 0x08) && (r_rs2 =? 2) && (rs1 =? 0) && (rd =? 0)
  then sret_ex_req_handler req
  else if (r_funct7 =? 0x18) && (r_rs2 =? 2) && (rs1 =? 0) && (rd =? 0)
  then mret_ex_req_handler req
  else if (r_funct7 =? 0x08) && (r_rs2 =? 5) && (rs1 =? 0) && (rd =? 0)
  then wfi_ex_req_handler req
  else if (r_funct7 =? 0x09) && (rd =? 0) then sfence_vma_ex_req_handler req
  else abort.

(** The exchange over the CSR signals: the callback of the CSR module runs during the
    notification, so the response is there when it returns. *)
Definition csr_read (addr : Z) : M (exu_t C) (Z * bool) :=
  exu ← gets id;
  on exu_csr (port_read addr (priv exu)).

Definition csr_write (addr data : Z) : M (exu_t C) bool :=
  exu ← gets id;
  on exu_csr (port_write addr (priv exu) data).

Definition notify_translation_csr_write (addr : Z) : M (exu_t C) unit :=
  if negb (addr =? CSR_SATP) then mret tt
  else on tlb_flush_mst (chan_write tt).

Definition csr_access_trap req : M (exu_t C) unit :=
  exu_send_expt HART_EXPT_TYPE_EXCEPTION HART_EXPT_CAUSE_ILLEGAL_INST (rq_pc req) (rq_inst req).

Definition csrrw_ex_req_handler req : M (exu_t C) unit :=
  let rd := i_rd (rq_inst req) in
  let rs1 := i_rs1 (rq_inst req) in
  let addr := i_imm_11_0 (rq_inst req) in
  '(old_val, ok) ← (if negb (rd =? 0) then csr_read addr else mret (0, true));
  if negb ok then csr_access_trap req
  else
    new_val ← get_gpr rs1;
    ok ← csr_write addr new_val;
    if negb ok then csr_access_trap req
    else
      notify_translation_csr_write addr;;
      set_gpr rd old_val.

Definition csrrs_ex_req_handler req : M (exu_t C) unit :=
  let rd := i_rd (rq_inst req) in
  let rs1 := i_rs1 (rq_inst req) in
  let addr := i_imm_11_0 (rq_inst req) in
  '(old_val, ok) ← csr_read addr;
  if negb ok then csr_access_trap req
  else
    mask ← get_gpr rs1;
    if negb (mask =? 0) then
      ok ← csr_write addr (Z.lor old_val mask);
      if negb ok then csr_access_trap req
      else
        notify_translation_csr_write addr;;
        set_gpr rd old_val
    else set_gpr rd old_val.

Definition csrrc_ex_req_handler req : M (exu_t C) unit :=
  let rd := i_rd (rq_inst req) in
  let rs1 := i_rs1 (rq_inst req) in
  let addr := i_imm_11_0 (rq_inst req) in
  '(old_val, ok) ← csr_read addr;
  if negb ok then csr_access_trap req
  else
    mask ← get_gpr rs1;
    if negb (mask =? 0) then
      ok ← csr_write addr (Z.land old_val (not32 mask));
      if negb ok then csr_access_trap req
      else
        notify_translation_csr_write addr;;
        set_gpr rd old_val
    else set_gpr rd old_val.

Definition csrrwi_ex_req_handler req : M (exu_t C) unit :=
  let rd := i_rd (rq_inst req) in
  let rs1 := i_rs1 (rq_inst req) in
  let addr := i_imm_11_0 (rq_inst req) in
  '(old_val, ok) ← (if negb (rd =? 0) then csr_read addr else mret (0, true));
  if negb ok then csr_access_trap req
  else
    new_val ← mret rs1;
    ok ← csr_write addr new_val;
    if negb ok then csr_access_trap req
    else
      notify_translation_csr_write addr;;
      set_gpr rd old_val.

Definition csrrsi_ex_req_handler req : M (exu_t C) unit :=
  let rd := i_rd (rq_inst req) in
  let rs1 := i_rs1 (rq_inst req) in
  let addr := i_imm_11_0 (rq_inst req) in
  '(old_val, ok) ← csr_read addr;
  if negb ok then csr_access_trap req
  else
    mask ← mret rs1;
    if negb (mask =? 0) then
      ok ← csr_write addr (Z.lor old_val mask);
      if negb ok then csr_access_trap req
      else
        notify_translation_csr_write addr;;
        set_gpr rd old_val
    else set_gpr rd old_val.

Definition csrrci_ex_req_handler req : M (exu_t C) unit :=
  let rd := i_rd (rq_inst req) in
  let rs1 := i_rs1 (rq_inst req) in
  let addr := i_imm_11_0 (rq_inst req) in
  '(old_val, ok) ← csr_read addr;
  if negb ok then csr_access_trap req
  else
    mask ← mret rs1;
    if negb (mask =? 0) then
      ok ← csr_write addr (Z.land old_val (not32 mask));
      if negb ok then csr_access_trap req
      else
        notify_translation_csr_write addr;;
        set_gpr rd old_val
    else set_gpr rd old_val.

Definition sys_group_ex_req_handler req : M (exu_t C) unit :=
  let funct3 := i_funct3 (rq_inst req) in
  if funct3 =? SYSTEM_FUNCT3_PRIV then priv_group_ex_req_handler req
  else if funct3 =? SYSTEM_FUNCT3_CSRRW then csrrw_ex_req_handler req
  else if funct3 =? SYSTEM_FUNCT3_CSRRS then csrrs_ex_req_handler req
  else if funct3 =? SYSTEM_FUNCT3_CSRRC then csrrc_ex_req_handler req
  else if funct3 =? SYSTEM_FUNCT3_CSRRWI then csrrwi_ex_req_handler req
  else if funct3 =? SYSTEM_FUNCT3_CSRRSI then csrrsi_ex_req_handler req
  else if funct3 =? SYSTEM_FUNCT3_CSRRCI then csrrci_ex_req_handler req
  else abort.

Definition sys_ex_req_proc req : M (exu_t C) unit :=
  if i_opcode (rq_inst req) =? OPCODE_SYSTEM then sys_group_ex_req_handler req
  else abort.

End sys.
