(* ===== verification/Exu.v ===== *)
(** * The execution unit

    [core/hart/exu/exu.c]: publishing the state, the trap control callback, the fence.i state
    machine, issue of an instruction, the load-store response and the clock. *)

From stdpp Require Import base numbers list relations.
From Stdlib Require Import ZArith Lia.
From S2P Require Import Prelude Fifo Isa ExuState Alu Branch Ldst Misc Amo Sys.

Definition EXU_HEARTBEAT_PERIOD := 50000000.

Section exu.
  Context {C : Type} `{!CsrPort C}.
  Implicit Types (exu : exu_t C) (req : ex_req_if_t).

Definition exu_publish_state : M (exu_t C) unit :=
  modify (fun exu => exu <| state_o := ExuStateIf (priv exu) (cur_pc exu) (irq_epc exu)
    (trap_defer exu) (wfi exu) (wfi_resume_pc exu) |>).

Definition exu_trap_ctrl_cb : M (exu_t C) unit :=
  modify (fun exu => exu <| priv := tc_priv (trap_ctrl_i exu) |>);;
  modify (fun exu => exu <| irq_epc := tc_irq_epc (trap_ctrl_i exu) |>);;
  modify (fun exu => exu <| wfi := tc_wfi (trap_ctrl_i exu) |>);;
  exu_publish_state.

(** The counter is a variable of the file, shared by all units; it only paces a log line. *)
Definition exu_heartbeat (pc : Z) : M (exu_t C) unit :=
  if pc <? 0x40000000 then mret tt
  else modify (fun exu => exu <| exu_heartbeat_cnt := u32 (exu_heartbeat_cnt exu + 1) |>).

Definition exu_ldst_issue_blocked exu req : bool :=
  let opcode := i_opcode (rq_inst req) in
  ((opcode =? OPCODE_LOAD) || (opcode =? OPCODE_STORE)) && chan_full (ldst_req_mst exu).

(** The result says whether a fence.i is in progress. *)
Definition exu_proc_fence_i_flush : M (exu_t C) bool :=
  exu ← gets id;
  match fence_i_stage exu with
  | FENCE_I_STAGE_IDLE => mret false
  | FENCE_I_STAGE_WAIT_D_ACK =>
    if chan_empty (l1d_flush_ack_slv exu) then mret true
    else
      on l1d_flush_ack_slv chan_read;;
      modify (fun exu => exu <| fence_i_stage := FENCE_I_STAGE_SEND_I_FLUSH |>);;
      mret true
  | FENCE_I_STAGE_SEND_I_FLUSH =>
    if chan_full (l1i_flush_mst exu) then mret true
    else
      on l1i_flush_mst (chan_write tt);;
      modify (fun exu => exu <| fence_i_stage := FENCE_I_STAGE_WAIT_I_ACK |>);;
      mret true
  | FENCE_I_STAGE_WAIT_I_ACK =>
    if chan_empty (l1i_flush_ack_slv exu) then mret true
    else
      on l1i_flush_ack_slv chan_read;;
      modify (fun exu => exu <| fence_i_stage := FENCE_I_STAGE_DONE |>);;
      mret true
  | FENCE_I_STAGE_DONE =>
    modify (fun exu => exu <| fence_i_stage := FENCE_I_STAGE_IDLE |>);;
    mret true
  end.

(** The table [procs], indexed by the opcode. *)
Definition ex_req_procs (opcode : Z) : option (ex_req_if_t -> M (exu_t C) unit) :=
  if opcode =? OPCODE_LUI then Some misc_ex_req_proc
  else if opcode =? OPCODE_AUIPC then Some misc_ex_req_proc
  else if opcode =? OPCODE_JAL then Some branch_ex_req_proc
  else if opcode =? OPCODE_JALR then Some branch_ex_req_proc
  else if opcode =? OPCODE_BRANCH then Some branch_ex_req_proc
  else if opcode =? OPCODE_LOAD then Some ldst_ex_req_proc
  else if opcode =? OPCODE_STORE then Some ldst_ex_req_proc
  else if opcode =? OPCODE_ALUI then Some alu_ex_req_proc
  else if opcode =? OPCODE_ALU then Some alu_ex_req_proc
  else if opcode =? OPCODE_MISC_MEM then Some misc_ex_req_proc
  else if opcode =? OPCODE_SYSTEM then Some sys_ex_req_proc
  else if opcode =? OPCODE_AMO then Some amo_ex_req_proc
  else None.

Definition exu_proc_ex_req : M (exu_t C) unit :=
  exu ← gets id;
  if negb (chan_empty (fl_req_slv exu)) then
    on fl_req_slv chan_read;;
    when (negb (chan_empty (ex_req_slv exu))) (on ex_req_slv chan_read;; mret tt)
  else if chan_empty (ex_req_slv exu) then mret tt
  else if wfi exu then mret tt
  else
    front ← on ex_req_slv chan_front;
    if ldst_req_pend exu then mret tt
    else if negb (amo_stage exu =? AMO_STAGE_IDLE) then mret tt
    else if exu_ldst_issue_blocked exu front then mret tt
    else
      ex_req ← on ex_req_slv chan_read;
      exu_heartbeat (rq_pc ex_req);;
      exu ← gets id;
      if negb (chan_empty (fl_req_slv exu)) then
        on fl_req_slv chan_read;; mret tt
      else
        proc ← of_option (ex_req_procs (i_opcode (rq_inst ex_req)));
        modify (fun exu => exu <| cur_pc := rq_pc ex_req |>);;
        modify (fun exu => exu <| irq_epc := u32 (rq_pc ex_req + 4) |>);;
        proc ex_req;;
        modify (fun exu => exu <| exec_inst := u64 (exec_inst exu + 1) |>).

Definition exu_proc_biu_rsp : M (exu_t C) unit :=
  exu ← gets id;
  if chan_empty (ldst_rsp_slv exu) then mret tt
  else
    ldst_rsp ← on ldst_rsp_slv chan_read;
    if negb (lr_ok ldst_rsp) then
      if ldst_req_pend exu then
        modify (fun exu => exu <| ldst_req_pend := false |>);;
        modify (fun exu => exu <| ldst_opcode := 0 |>);;
        modify (fun exu => exu <| trap_defer := false |>)
      else
        modify (fun exu => exu <| amo_stage := AMO_STAGE_IDLE |>);;
        modify (fun exu => exu <| trap_defer := false |>)
    else if ldst_req_pend exu then ldst_biu_rsp_proc ldst_rsp
    else if cur_opcode exu =? OPCODE_AMO then amo_biu_rsp_proc ldst_rsp
    else if cur_opcode exu =? OPCODE_MISC_MEM then
      modify (fun exu => exu <| ldst_req_pend := false |>);;
      modify (fun exu => exu <| trap_defer := false |>);;
      modify (fun exu => exu <| irq_epc := u32 (cur_pc exu + 4) |>)
    else abort.

Definition exu_clock : M (exu_t C) unit :=
  fence_i_busy ← exu_proc_fence_i_flush;
  when (negb fence_i_busy) exu_proc_ex_req;;
  exu_proc_biu_rsp;;
  exu_publish_state.

(** [rand] is the list of values the C library's [rand] returns. *)
Definition exu_reset (rand : list Z) : M (exu_t C) unit :=
  modify (fun exu => exu <| gpr := 0 :: take 31 (u32 <$> rand) |>);;
  modify (fun exu => exu <| cur_opcode := 0 |> <| ldst_req_pend := false |>
    <| ldst_opcode := 0 |> <| ldst_pc := 0 |> <| ld_rd := 0 |> <| ld_funct3 := 0 |>);;
  modify (fun exu => exu <| amo_stage := AMO_STAGE_IDLE |> <| amo_rd := 0 |> <| amo_addr := 0 |>
    <| amo_s2 := 0 |> <| amo_funct375 := 0 |> <| amo_lr_set := false |> <| amo_rsvd_addr := 0 |>);;
  modify (fun exu => exu <| wfi := false |> <| wfi_resume_pc := 0 |>
    <| fence_i_stage := FENCE_I_STAGE_IDLE |> <| trap_defer := false |> <| exec_inst := 0 |>);;
  modify (fun exu => exu <| priv := RV32G_PRIV_MACHINE |> <| cur_pc := 0 |> <| irq_epc := 0 |>);;
  exu_publish_state.

End exu.

(** ** Invariant *)

Section exu_inv.
  Context {C : Type} `{!CsrPort C, !CsrPortLaws C}.
  Implicit Types (exu : exu_t C) (req : ex_req_if_t).

(** Everything the unit relies on between two clocks: the register file is 32 words with x0
    zero; the saved operands of the outstanding access are in range; at most one access, of
    the load-store or of the atomic kind, is outstanding, and traps are held back exactly
    while one is; an atomic operation in progress is the current instruction. *)
Record exu_inv exu : Prop := {
  inv_gpr : gpr_wf (gpr exu);
  inv_ld_rd : 0 <= ld_rd exu < 32;
  inv_amo_rd : 0 <= amo_rd exu < 32;
  inv_amo_s2 : is_u32 (amo_s2 exu);
  inv_stage : amo_stage exu = AMO_STAGE_IDLE \/ amo_stage exu = AMO_STAGE_READ \/
              amo_stage exu = AMO_STAGE_WRITE;
  inv_defer : trap_defer exu = ldst_req_pend exu || negb (amo_stage exu =? AMO_STAGE_IDLE);
  inv_excl : ldst_req_pend exu = true -> amo_stage exu = AMO_STAGE_IDLE;
  inv_amo_op : amo_stage exu <> AMO_STAGE_IDLE -> cur_opcode exu = OPCODE_AMO;
  inv_pc : is_u32 (cur_pc exu) /\ is_u32 (irq_epc exu);
  inv_rsp : Forall (fun r => is_u32 (lr_data r)) (ch_pkts (ldst_rsp_slv exu));
  inv_req : Forall (fun r => is_u32 (rq_pc r)) (ch_pkts (ex_req_slv exu));
  inv_csr : port_ok (exu_csr exu)
}.

(** No access outstanding: the condition under which an instruction is issued. *)
Definition exu_ready exu : Prop := ldst_req_pend exu = false /\ amo_stage exu = AMO_STAGE_IDLE.

(** Proves the invariant of an updated unit from that of the unit. *)
Ltac inv_upd :=
  match goal with
  | Hi : exu_inv ?e |- _ =>
    destruct Hi as [? ? ? ? ? ? ? ? [? ?] ? ? ?]; unfold xset; split; upd_proj; try assumption; auto with word;
    try (intros; first [done | congruence | by apply Z.eqb_eq])
  end.

Lemma inv_xset exu i v : exu_inv exu -> 0 <= i < 32 -> is_u32 v -> exu_inv (xset exu i v).
Proof.
  intros Hi Hr Hv. inv_upd.
Qed.

Lemma inv_alu exu req : exu_inv exu -> exu_ready exu ->
  wlp (alu_ex_req_proc req) (fun _ => exu_inv) exu.
Proof.
  intros Hi Hr. unfold wlp. rewrite alu_proc_run by apply Hi.
  destruct (alu_inst_op (rq_inst req)) as [op|]; [|done].
  assert (gpr_wf (gpr exu)) as Hg by apply Hi.
  apply inv_xset; [done|apply reg_index; lia|].
  apply alu_sem_u32; [by apply xreg_u32|]. unfold alu_inst_src2. case_match; auto with word.
Qed.

Lemma next_pc_u32 exu i pc taken target link : gpr_wf (gpr exu) ->
  next_pc exu i pc = Some (taken, target, link) ->
  is_u32 target /\ (forall v, link = Some v -> is_u32 v).
Proof.
  intros Hg. unfold next_pc. destruct (_ =? OPCODE_JAL).
  { intros; simplify_eq. split; [apply u32_range|intros; simplify_eq; apply u32_range]. }
  destruct (_ =? OPCODE_JALR).
  { intros; simplify_eq. split; [|intros; simplify_eq; apply u32_range].
    rewrite <- clear_bit0 by apply u32_range. apply is_u32_land_l, u32_range. }
  destruct (_ =? OPCODE_BRANCH); [|done].
  destruct (branch_cond _ _ _) as [[]|]; simpl; intros; simplify_eq;
    (split; [apply u32_range|by intros ? [=]]).
Qed.

Lemma inv_branch exu req : exu_inv exu -> exu_ready exu ->
  wlp (branch_ex_req_proc req) (fun _ => exu_inv) exu.
Proof.
  intros Hi Hr. assert (gpr_wf (gpr exu)) as Hg by apply Hi.
  destruct (Z.lt_ge_cases (chan_num (ex_rsp_mst exu)) (ch_depth (ex_rsp_mst exu))) as [Hf|Hf].
  - unfold wlp. rewrite branch_proc_run by done.
    destruct (next_pc _ _ _) as [[[taken target] link]|] eqn:Hn; [|done].
    destruct (next_pc_u32 _ _ _ _ _ _ Hg Hn) as [Ht Hl].
    assert (exu_inv (match link with Some v => xset exu (i_rd (rq_inst req)) v | None => exu end))
      as Hi' by (destruct link; [apply inv_xset; [done|apply reg_index; lia|by apply Hl]|done]).
    clear Hi. unfold branched. inv_upd.
  - apply wlp_bind, wlp_gets. unfold id. destruct (chan_full (ex_rsp_mst exu)) eqn:E; [by apply wlp_ret|].
    unfold wlp, mbind, M_bind. rewrite branch_handlers_run by done.
    destruct (next_pc _ _ _) as [[[taken target] link]|]; [|done].
    unfold on. rewrite chan_write_full; [done|]. by destruct link.
Qed.

Lemma inv_ldst exu req : exu_inv exu -> exu_ready exu ->
  wlp (ldst_ex_req_proc req) (fun _ => exu_inv) exu.
Proof.
  intros Hi [Hp Hst]. assert (gpr_wf (gpr exu)) as Hg by apply Hi.
  destruct (Z.lt_ge_cases (chan_num (ldst_req_mst exu)) (ch_depth (ldst_req_mst exu))) as [Hf|Hf].
  - unfold wlp. rewrite ldst_ex_req_run by done.
    destruct (ldst_request _ _) as [r|]; [|done]. simpl. unfold ldst_issued. cbv zeta.
    inv_upd. case_match; [apply reg_index|]; lia.
  - apply wlp_bind, wlp_gets. unfold id. destruct (chan_full (ldst_req_mst exu)); [by apply wlp_ret|].
    rewrite Hp. unfold wlp, mbind, M_bind. rewrite ldst_handlers_run by done.
    destruct (ldst_request _ _); [|done]. simpl. unfold on. by rewrite chan_write_full.
Qed.

(** Symbolic execution of a computation for partial correctness. *)
Ltac wstep :=
  lazymatch goal with
  | |- wlp (mbind _ _) _ _ => apply wlp_bind
  | |- wlp (gets _) _ _ => apply wlp_gets; unfold id
  | |- wlp (modify _) _ _ => apply wlp_modify
  | |- wlp (mret _) _ _ => apply wlp_ret
  | |- wlp abort _ _ => apply wlp_abort
  | |- wlp (DBG_CHECK _) _ _ => apply wlp_check; intros ?
  | |- wlp (when _ _) _ _ => apply wlp_when; intros ?
  | |- wlp (of_option _) _ _ => apply wlp_of_option; intros ? ?
  | |- wlp (on _ (chan_write _)) _ _ => apply wlp_on_write
  | |- wlp (on _ chan_front) _ ?e => apply wlp_on_front; [by destruct e|intros ? ? ?]
  | |- wlp (on _ chan_read) _ _ => apply wlp_on_read; intros ? ? ?
  | |- wlp (get_gpr _) _ _ =>
    apply wlp_get_gpr; [upd_proj; solve [auto]|upd_proj; solve [auto with word]|intros ?]
  | |- wlp (set_gpr _ _) _ _ =>
    apply wlp_set_gpr; [upd_proj; solve [auto]|upd_proj; solve [auto with word]|]
  | |- wlp (if ?b then _ else _) _ _ => destruct b eqn:?
  | |- wlp (let _ := _ in _) _ _ => cbv zeta
  | |- wlp (let '(_, _) := ?x in _) _ _ => destruct x
  end; cbv beta.

Lemma u_imm_u32 i : is_u32 (u_imm_decode i).
Proof. apply u32_range. Qed.

Lemma inv_misc exu req : exu_inv exu -> exu_ready exu ->
  wlp (misc_ex_req_proc req) (fun _ => exu_inv) exu.
Proof.
  intros Hi [Hp Hst]. assert (gpr_wf (gpr exu)) as Hg by apply Hi.
  unfold misc_ex_req_proc. repeat wstep.
  - unfold lui_ex_req_handler. repeat wstep.
    apply inv_xset; [done|apply reg_index; lia|apply u_imm_u32].
  - unfold auipc_ex_req_handler. repeat wstep.
    apply inv_xset; [done|apply reg_index; lia|apply u32_range].
  - unfold fence_ex_req_handler. by repeat wstep.
  - unfold fence_i_ex_req_handler, exu_start_fence_i. repeat wstep. inv_upd.
  - unfold cbo_ex_req_handler. repeat wstep. inv_upd.
Qed.

Lemma amo_handler_cases f h : amo_ex_req_handlers (C := C) f = Some h ->
  h = lr_ex_req_handler \/ h = sc_ex_req_handler \/ h = amo_ex_req_template.
Proof.
  unfold amo_ex_req_handlers. intros H. repeat (case_match; [simplify_eq; auto|]). done.
Qed.

Lemma amo_rsp_handler_cases f h : amo_biu_rsp_handlers (C := C) f = Some h ->
  h = lr_biu_rsp_handler \/ h = sc_biu_rsp_handler \/ exists expr, h = amo_biu_rsp_template expr.
Proof.
  unfold amo_biu_rsp_handlers. intros H.
  repeat (case_match; [simplify_eq; eauto|]). done.
Qed.

(** The invariant without the clause on [trap_defer], which the atomic operations restore
    at their end, and without that on the current opcode. *)
Lemma inv_amo exu req : exu_inv exu -> exu_ready exu ->
  wlp (amo_ex_req_proc req) (fun _ => exu_inv) exu.
Proof.
  intros Hi [Hp Hst]. assert (gpr_wf (gpr exu)) as Hg by apply Hi.
  unfold amo_ex_req_proc. do 7 wstep.
  destruct (amo_handler_cases _ _ H0) as [->|[->| ->]].
  - unfold lr_ex_req_handler. repeat wstep; inv_upd; try (by rewrite Hp); auto.
  - unfold sc_ex_req_handler. repeat wstep; inv_upd; try (by rewrite Hp); auto.
  - unfold amo_ex_req_template. repeat wstep; inv_upd; try (by rewrite Hp); auto.
Qed.

Lemma inv_amo_rsp exu d : exu_inv exu -> is_u32 (lr_data d) -> ldst_req_pend exu = false ->
  wlp (amo_biu_rsp_proc d) (fun _ => exu_inv) exu.
Proof.
  intros Hi Hd Hp. assert (gpr_wf (gpr exu)) as Hg by apply Hi.
  assert (0 <= amo_rd exu < 32) as Hrd by apply Hi.
  unfold amo_biu_rsp_proc. do 7 wstep.
  destruct (amo_rsp_handler_cases _ _ H0) as [->|[->|[expr ->]]].
  - unfold lr_biu_rsp_handler. repeat wstep; inv_upd; try (by rewrite Hp); auto.
  - unfold sc_biu_rsp_handler. repeat wstep; inv_upd; try (by rewrite Hp); auto.
  - unfold amo_biu_rsp_template. repeat wstep; inv_upd; try (by rewrite Hp); auto.
Qed.

Lemma wlp_csr_read a Q exu : port_ok (exu_csr exu) ->
  (forall v ok c, is_u32 v -> port_ok c -> Q (v, ok) (exu <| exu_csr := c |>)) ->
  wlp (csr_read a) Q exu.
Proof.
  intros Hc HQ. unfold csr_read. wstep. wstep. apply wlp_on.
  destruct (wp_elim _ _ _ (port_read_ok a (priv exu) _ Hc)) as ([v ok] & c & E & Hv & Hc').
  unfold wlp. rewrite E. by apply HQ.
Qed.

Lemma wlp_csr_write a d Q exu : port_ok (exu_csr exu) -> is_u32 d ->
  (forall ok c, port_ok c -> Q ok (exu <| exu_csr := c |>)) -> wlp (csr_write a d) Q exu.
Proof.
  intros Hc Hd HQ. unfold csr_write. wstep. wstep. apply wlp_on.
  destruct (wp_elim _ _ _ (port_write_ok a (priv exu) d _ Hc Hd)) as (ok & c & E & Hc').
  unfold wlp. rewrite E. by apply HQ.
Qed.

Lemma inv_expt exu t c p v : exu_inv exu -> wlp (exu_send_expt t c p v) (fun _ => exu_inv) exu.
Proof. intros Hi. unfold exu_send_expt. repeat wstep. inv_upd. Qed.

Lemma inv_notify exu a Q : exu_inv exu -> (forall exu', exu_inv exu' -> Q tt exu') ->
  wlp (notify_translation_csr_write a) Q exu.
Proof.
  intros Hi HQ. unfold notify_translation_csr_write. repeat wstep; apply HQ; [done|inv_upd].
Qed.

Lemma inv_set_csr exu c : exu_inv exu -> port_ok c -> exu_inv (exu <| exu_csr := c |>).
Proof. intros Hi Hc. inv_upd. Qed.

(** The second half of every CSR instruction: the write, the flush and the register. *)
Lemma inv_csr_write exu req a old v : exu_inv exu -> is_u32 old -> is_u32 v ->
  wlp (ok ← csr_write a v;
       if negb ok then csr_access_trap req
       else notify_translation_csr_write a;; set_gpr (i_rd (rq_inst req)) old)
    (fun _ => exu_inv) exu.
Proof.
  intros Hi Ho Hv. apply wlp_bind, wlp_csr_write; [apply Hi|done|]. intros ok c Hc.
  pose proof (inv_set_csr exu c Hi Hc) as Hi'. wstep; [by apply inv_expt|].
  wstep. apply inv_notify; [done|]. intros exu' Hi''. assert (gpr_wf (gpr exu')) by apply Hi''.
  wstep. apply inv_xset; [done|apply reg_index; lia|done].
Qed.

Lemma inv_csrrw exu req (src : M (exu_t C) Z) : exu_inv exu ->
  (forall e Q, exu_inv e -> (forall v, is_u32 v -> Q v e) -> wlp src Q e) ->
  wlp ('(old_val, ok) ← (if negb (i_rd (rq_inst req) =? 0) then csr_read (i_imm_11_0 (rq_inst req))
                        else mret (0, true));
       if negb ok then csr_access_trap req
       else
         new_val ← src;
         ok ← csr_write (i_imm_11_0 (rq_inst req)) new_val;
         if negb ok then csr_access_trap req
         else notify_translation_csr_write (i_imm_11_0 (rq_inst req));;
              set_gpr (i_rd (rq_inst req)) old_val) (fun _ => exu_inv) exu.
Proof.
  intros Hi Hs. wstep. wstep.
  - apply wlp_csr_read; [apply Hi|]. intros v ok c Hv Hc.
    pose proof (inv_set_csr exu c Hi Hc) as Hi'. cbv beta iota. wstep; [by apply inv_expt|].
    apply wlp_bind, Hs; [done|]. intros w Hw. by apply inv_csr_write.
  - wstep. cbv beta iota. cbn [negb]. apply wlp_bind, Hs; [done|]. intros w Hw.
    by apply inv_csr_write.
Qed.

Lemma inv_csrrsc exu req (src : M (exu_t C) Z) (f : Z -> Z -> Z) : exu_inv exu ->
  (forall e Q, exu_inv e -> (forall v, is_u32 v -> Q v e) -> wlp src Q e) ->
  (forall a b, is_u32 a -> is_u32 b -> is_u32 (f a b)) ->
  wlp ('(old_val, ok) ← csr_read (i_imm_11_0 (rq_inst req));
       if negb ok then csr_access_trap req
       else
         mask ← src;
         if negb (mask =? 0) then
           ok ← csr_write (i_imm_11_0 (rq_inst req)) (f old_val mask);
           if negb ok then csr_access_trap req
           else notify_translation_csr_write (i_imm_11_0 (rq_inst req));;
                set_gpr (i_rd (rq_inst req)) old_val
         else set_gpr (i_rd (rq_inst req)) old_val) (fun _ => exu_inv) exu.
Proof.
  intros Hi Hs Hf. wstep. apply wlp_csr_read; [apply Hi|]. intros v ok c Hv Hc.
  pose proof (inv_set_csr exu c Hi Hc) as Hi'. cbv beta iota. wstep; [by apply inv_expt|].
  apply wlp_bind, Hs; [done|]. intros w Hw. wstep.
  - apply inv_csr_write; auto.
  - assert (gpr_wf (gpr (exu <| exu_csr := c |>))) by apply Hi'. wstep.
    apply inv_xset; [done|apply reg_index; lia|done].
Qed.

Lemma src_gpr req e Q : exu_inv e -> (forall v, is_u32 v -> Q v e) ->
  wlp (get_gpr (i_rs1 (rq_inst req))) Q e.
Proof. intros Hi HQ. assert (gpr_wf (gpr e)) by apply Hi. wstep. by apply HQ. Qed.

Lemma src_imm req e (Q : Z -> exu_t C -> Prop) : exu_inv e -> (forall v, is_u32 v -> Q v e) ->
  wlp (mret (i_rs1 (rq_inst req))) Q e.
Proof. intros Hi HQ. wstep. apply HQ. unfold i_rs1. auto with word. Qed.

Lemma is_u32_clear a b : is_u32 a -> is_u32 b -> is_u32 (Z.land a (not32 b)).
Proof. intros Ha Hb. by apply is_u32_land_l. Qed.

Lemma inv_sys exu req : exu_inv exu -> exu_ready exu ->
  wlp (sys_ex_req_proc req) (fun _ => exu_inv) exu.
Proof.
  intros Hi [Hp Hst]. unfold sys_ex_req_proc, sys_group_ex_req_handler. cbv zeta. repeat wstep.
  - unfold priv_group_ex_req_handler. cbv zeta. repeat wstep; try by apply inv_expt.
    + unfold wfi_ex_req_handler. repeat wstep. inv_upd.
    + unfold sfence_vma_ex_req_handler. repeat wstep. inv_upd.
  - apply inv_csrrw; [done|]. intros. by apply src_gpr.
  - apply (inv_csrrsc _ _ _ Z.lor); [done|intros; by apply src_gpr|apply is_u32_lor].
  - apply (inv_csrrsc _ _ _ (fun a b => Z.land a (not32 b)));
      [done|intros; by apply src_gpr|apply is_u32_clear].
  - apply inv_csrrw; [done|]. intros. by apply src_imm.
  - apply (inv_csrrsc _ _ _ Z.lor); [done|intros; by apply src_imm|apply is_u32_lor].
  - apply (inv_csrrsc _ _ _ (fun a b => Z.land a (not32 b)));
      [done|intros; by apply src_imm|apply is_u32_clear].
Qed.

(** ** The clock *)

Lemma inv_issue exu req opcode proc : exu_inv exu -> exu_ready exu ->
  ex_req_procs opcode = Some proc -> wlp (proc req) (fun _ => exu_inv) exu.
Proof.
  intros Hi Hr. unfold ex_req_procs. intros H.
  repeat (destruct (_ =? _); [simplify_eq;
    solve [auto using inv_misc, inv_branch, inv_ldst, inv_alu, inv_sys, inv_amo]|]). done.
Qed.

Lemma inv_fence_i exu : exu_inv exu -> wlp exu_proc_fence_i_flush (fun _ => exu_inv) exu.
Proof.
  intros Hi. unfold exu_proc_fence_i_flush. wstep. wstep.
  destruct (fence_i_stage exu); repeat wstep; try done; inv_upd.
Qed.

Lemma inv_pop_req exu x r : exu_inv exu -> ch_pkts (ex_req_slv exu) = x :: r ->
  exu_inv (exu <| ex_req_slv := Chan (ch_depth (ex_req_slv exu)) r |>) /\ is_u32 (rq_pc x).
Proof.
  intros Hi E. assert (Forall (fun r => is_u32 (rq_pc r)) (x :: r)) as Hf
    by (rewrite <- E; apply Hi).
  apply Forall_cons in Hf as [Hx Hr]. split; [|done]. inv_upd.
Qed.

Lemma inv_fl_req exu c : exu_inv exu -> exu_inv (exu <| fl_req_slv := c |>).
Proof. intros Hi. inv_upd. Qed.

Lemma inv_heartbeat exu pc Q : exu_inv exu -> exu_ready exu ->
  (forall e, exu_inv e -> exu_ready e -> Q tt e) -> wlp (exu_heartbeat pc) Q exu.
Proof.
  intros Hi [Hp Hs] HQ. unfold exu_heartbeat. repeat wstep; apply HQ; [done|done|inv_upd|].
  split; by upd_proj.
Qed.

Lemma inv_set_pc exu pc : exu_inv exu -> exu_ready exu -> is_u32 pc ->
  exu_inv (exu <| cur_pc := pc |> <| irq_epc := u32 (pc + 4) |>) /\
  exu_ready (exu <| cur_pc := pc |> <| irq_epc := u32 (pc + 4) |>).
Proof. intros Hi [Hp Hs] Hpc. split; [inv_upd|]. split; by upd_proj. Qed.

Lemma inv_proc_ex_req exu : exu_inv exu -> wlp exu_proc_ex_req (fun _ => exu_inv) exu.
Proof.
  intros Hi. unfold exu_proc_ex_req. repeat wstep; try done.
  - apply (inv_pop_req _ x0 r0); [by apply inv_fl_req|done].
  - by apply inv_fl_req.
  - destruct (inv_pop_req exu x0 r0) as [Hi1 Hpc]; [done..|].
    apply inv_heartbeat; [done| |].
    { split; upd_proj; [done|]. by apply Z.eqb_eq, negb_false_iff. }
    intros e He Hr. repeat wstep; [by apply inv_fl_req|].
    destruct (inv_set_pc e (rq_pc x0) He Hr Hpc) as [Hi2 Hr2].
    eapply wlp_mono; [by eapply inv_issue|]. intros [] e' He'. wstep. inv_upd.
Qed.

Lemma load_rsp_wlp exu d : exu_inv exu -> is_u32 (lr_data d) ->
  wlp (load_group_biu_rsp_handler d)
    (fun _ e => exu_inv e /\ amo_stage e = amo_stage exu) exu.
Proof.
  intros Hi Hd. assert (gpr_wf (gpr exu)) by apply Hi.
  assert (0 <= ld_rd exu < 32) by apply Hi.
  assert (forall v, is_u32 v -> wlp (e ← gets id; set_gpr (ld_rd e) v)
    (fun _ e => exu_inv e /\ amo_stage e = amo_stage exu) exu) as Hs.
  { intros v Hv. repeat wstep. split; [by apply inv_xset|reflexivity]. }
  unfold load_group_biu_rsp_handler. repeat wstep; apply Hs; auto with word.
  - apply (load_value_u32 0 (lr_data d)); [done|]. unfold load_value.
    by rewrite <- sign_ext_signed, <- (Z.land_ones _ 8).
  - apply (load_value_u32 1 (lr_data d)); [done|]. unfold load_value.
    by rewrite <- sign_ext_signed, <- (Z.land_ones _ 16).
Qed.

Lemma inv_biu_rsp exu : exu_inv exu -> wlp exu_proc_biu_rsp (fun _ => exu_inv) exu.
Proof.
  intros Hi. unfold exu_proc_biu_rsp. wstep. wstep. wstep; [by wstep|]. wstep. wstep.
  assert (Forall (fun r => is_u32 (lr_data r)) (x :: r)) as Hf
    by (rewrite <- H; apply Hi).
  apply Forall_cons in Hf as [Hx Hf].
  assert (exu_inv (exu <| ldst_rsp_slv := Chan (ch_depth (ldst_rsp_slv exu)) r |>)) as Hi1 by inv_upd.
  set (e := exu <| ldst_rsp_slv := _ |>) in *.
  assert (ldst_req_pend e = ldst_req_pend exu) as Hp by reflexivity.
  assert (cur_opcode e = cur_opcode exu) as Ho by reflexivity.
  rewrite <- Hp, <- Ho. clearbody e. clear Hi Hp Ho.
  wstep; [wstep; repeat wstep|wstep; [|wstep; [by apply inv_amo_rsp|repeat wstep]]].
  - assert (amo_stage e = AMO_STAGE_IDLE) as Hst by by apply Hi1.
    inv_upd; by rewrite Hst.
  - inv_upd. by rewrite Heqb1.
  - assert (amo_stage e = AMO_STAGE_IDLE) as Hst by by apply Hi1.
    unfold ldst_biu_rsp_proc. wstep. wstep. wstep.
    apply wlp_mono with (fun _ e' => exu_inv e' /\ amo_stage e' = amo_stage e).
    { wstep; [by apply load_rsp_wlp|done]. }
    intros [] e' [Hi' Hs']. clear Hi1. rewrite Hst in Hs'. repeat wstep.
    inv_upd; by rewrite ?Hs'.
  - apply Z.eqb_eq in Heqb3. assert (amo_stage e = AMO_STAGE_IDLE) as Hst.
    { destruct (Z.eq_dec (amo_stage e) AMO_STAGE_IDLE) as [|Hne]; [done|].
      apply (inv_amo_op e Hi1) in Hne. by rewrite Hne in Heqb3. }
    inv_upd; by rewrite Hst.
Qed.

Lemma inv_clock exu : exu_inv exu ->
  wlp exu_clock (fun _ e => exu_inv e /\
    state_o e = ExuStateIf (priv e) (cur_pc e) (irq_epc e) (trap_defer e) (wfi e) (wfi_resume_pc e)) exu.
Proof.
  intros Hi. unfold exu_clock. wstep. eapply wlp_mono; [by apply inv_fence_i|]. intros busy e1 H1.
  wstep. apply wlp_mono with (fun _ => exu_inv).
  { wstep; [by apply inv_proc_ex_req|done]. }
  intros [] e2 H2. wstep. eapply wlp_mono; [by apply inv_biu_rsp|]. intros [] e3 H3.
  unfold exu_publish_state. wstep. split; [inv_upd|reflexivity].
Qed.

Lemma inv_trap_ctrl exu ctrl : exu_inv exu -> is_u32 (tc_irq_epc ctrl) ->
  wlp exu_trap_ctrl_cb (fun _ => exu_inv) (exu <| trap_ctrl_i := ctrl |>).
Proof.
  intros Hi Hc. unfold exu_trap_ctrl_cb, exu_publish_state. repeat wstep. inv_upd.
Qed.

Lemma inv_reset exu rand : length rand = 31%nat -> port_ok (exu_csr exu) ->
  Forall (fun r => is_u32 (lr_data r)) (ch_pkts (ldst_rsp_slv exu)) ->
  Forall (fun r => is_u32 (rq_pc r)) (ch_pkts (ex_req_slv exu)) ->
  wlp (exu_reset rand) (fun _ => exu_inv) exu.
Proof.
  intros Hl Hc Hr Hq. unfold exu_reset, exu_publish_state. repeat wstep.
  split; upd_proj; try done; auto.
  split; [by rewrite length_cons, take_ge, length_fmap, Hl by (rewrite length_fmap; lia)|done|].
  apply Forall_cons_2; [done|]. apply Forall_take, Forall_fmap, Forall_forall.
  intros x _. apply u32_range.
Qed.

(** ** Runs *)

(** What can happen to the unit: its clock, a control write of the trap unit, and any action of
    the modules at the other ends of its interfaces, which may do anything to the FIFOs as
    long as addresses and data are words, and to the CSR file as long as it stays sound. *)
Inductive exu_step : exu_t C -> exu_t C -> Prop :=
| StepClock exu exu' : exu_clock exu = Some (tt, exu') -> exu_step exu exu'
| StepTrapCtrl exu ctrl exu' : is_u32 (tc_irq_epc ctrl) ->
    exu_trap_ctrl_cb (exu <| trap_ctrl_i := ctrl |>) = Some (tt, exu') -> exu_step exu exu'
| StepFetch exu fl rq rs : Forall (fun r => is_u32 (rq_pc r)) (ch_pkts rq) ->
    exu_step exu (exu <| fl_req_slv := fl |> <| ex_req_slv := rq |> <| ex_rsp_mst := rs |>)
| StepMem exu rq rs : Forall (fun r => is_u32 (lr_data r)) (ch_pkts rs) ->
    exu_step exu (exu <| ldst_req_mst := rq |> <| ldst_rsp_slv := rs |>)
| StepCaches exu t i d ia da :
    exu_step exu (exu <| tlb_flush_mst := t |> <| l1i_flush_mst := i |> <| l1d_flush_mst := d |>
      <| l1i_flush_ack_slv := ia |> <| l1d_flush_ack_slv := da |>)
| StepCsr exu c ex : port_ok c ->
    exu_step exu (exu <| exu_csr := c |> <| ex_expt_mst := ex |>).

Lemma inv_step exu exu' : exu_inv exu -> exu_step exu exu' -> exu_inv exu'.
Proof.
  intros Hi Hs. destruct Hs.
  - exact (proj1 (wlp_elim _ _ _ _ _ (inv_clock _ Hi) H)).
  - exact (wlp_elim _ _ _ _ _ (inv_trap_ctrl _ _ Hi H) H0).
  - inv_upd.
  - inv_upd.
  - inv_upd.
  - inv_upd.
Qed.

End exu_inv.

(** ** Theorems *)

(** C14: In every run of the execution unit from reset, interleaved in any way with the actions of
    the modules around it, between two steps: x0 reads zero and all 32 registers are words; at
    most one memory access is outstanding, of the load-store or of the atomic kind; traps are
    held back exactly while one is; and an atomic operation in progress is the current
    instruction. *)
Theorem exu_run_invariant {C} `{!CsrPort C, !CsrPortLaws C} (exu0 exu1 exu : exu_t C) rand :
  length rand = 31%nat -> port_ok (exu_csr exu0) ->
  ch_pkts (ldst_rsp_slv exu0) = [] -> ch_pkts (ex_req_slv exu0) = [] ->
  exu_reset rand exu0 = Some (tt, exu1) -> rtc exu_step exu1 exu ->
  xreg exu 0 = 0 /\ (forall r, is_u32 (xreg exu r)) /\
  ~ (ldst_req_pend exu = true /\ amo_stage exu <> AMO_STAGE_IDLE) /\
  (trap_defer exu = true <-> ldst_req_pend exu = true \/ amo_stage exu <> AMO_STAGE_IDLE) /\
  (amo_stage exu <> AMO_STAGE_IDLE -> cur_opcode exu = OPCODE_AMO).
Proof.
  intros Hl Hc Hr Hq H0 Hrun.
  assert (exu_inv exu1) as Hi1.
  { refine (wlp_elim _ _ _ _ _ (inv_reset _ rand Hl Hc _ _) H0); [by rewrite Hr|by rewrite Hq]. }
  clear H0. assert (exu_inv exu) as Hi
    by (induction Hrun as [x|x y z Hs Hrun IH]; [done|by eapply IH, inv_step]).
  destruct Hi as [Hg ? ? ? ? Hdef Hex Hop ? ? ? ?]. split_and!.
  - unfold xreg, greg. rewrite aget_lookup by lia. change (Z.to_nat 0) with 0%nat.
    by rewrite (gwf_x0 _ Hg).
  - intros r. by apply xreg_u32.
  - intros [Hp Hs]. auto.
  - rewrite Hdef, orb_true_iff, negb_true_iff, Z.eqb_neq. done.
  - done.
Qed.

(** A CSR file that refuses every access. *)
#[local] Instance no_csr : CsrPort unit := {
  port_read := fun _ _ => mret (0, false);
  port_write := fun _ _ _ => mret false
}.
#[local] Instance no_csr_laws : CsrPortLaws unit.
Proof. by apply (Build_CsrPortLaws unit _ (fun _ => True)). Defined.

(** Reset, then [addi x1, x0, 5] from the fetch unit, then a clock. *)
Definition run_reset : exu_t unit :=
  Eval vm_compute in default (exu_idle tt []) (snd <$> exu_reset (replicate 31 7) (exu_idle tt [])).
Definition run_fetch : exu_t unit :=
  run_reset <| fl_req_slv := Chan 1 [] |>
    <| ex_req_slv := Chan 1 [ExReq 0x00500093 0x80 false 0 false] |> <| ex_rsp_mst := Chan 1 [] |>.
Definition run_clock : exu_t unit :=
  Eval vm_compute in default run_fetch (snd <$> exu_clock run_fetch).

Lemma exu_run_invariant_witness :
  exu_reset (replicate 31 7) (exu_idle tt []) = Some (tt, run_reset) /\
  rtc exu_step run_reset run_clock /\ xreg run_clock 1 = 5 /\ xreg run_clock 0 = 0.
Proof.
  assert (exu_reset (replicate 31 7) (exu_idle tt []) = Some (tt, run_reset)) as E1
    by (vm_compute; reflexivity).
  assert (exu_clock run_fetch = Some (tt, run_clock)) as E2 by (vm_compute; reflexivity).
  assert (rtc exu_step run_reset run_clock) as Hrun.
  { eapply rtc_l; [|apply rtc_once, StepClock, E2].
    apply (StepFetch run_reset). constructor; [split; reflexivity || discriminate|constructor]. }
  split; [exact E1|]. split; [exact Hrun|]. split; [reflexivity|].
  refine (proj1 (exu_run_invariant (exu_idle tt []) run_reset run_clock (replicate 31 7)
    eq_refl I eq_refl eq_refl E1 Hrun)).
Defined.

(** ** Load-reserved and store-conditional *)

Section lr_sc_rsp.
  Context {C : Type}.
  Implicit Types (exu : exu_t C).

(** The response of an atomic access reaches its handler when it is a good one; a refused access
    ends there. *)
Lemma biu_rsp_amo exu k d exu' : ldst_req_pend exu = false -> cur_opcode exu = OPCODE_AMO ->
  amo_biu_rsp_proc (LdstRsp d true) (exu <| ldst_rsp_slv := Chan k [] |>) = Some (tt, exu') ->
  exu_proc_biu_rsp (exu <| ldst_rsp_slv := Chan k [LdstRsp d true] |>) = Some (tt, exu').
Proof.
  intros Hp Ho E. unfold exu_proc_biu_rsp. mred. upd_proj. cbn [chan_empty chan_num ch_pkts length lr_ok negb].
  rewrite Hp, Ho. cbn. exact E.
Qed.

Lemma biu_rsp_refused exu k d : ldst_req_pend exu = false ->
  exu_proc_biu_rsp (exu <| ldst_rsp_slv := Chan k [LdstRsp d false] |>) =
    Some (tt, exu <| ldst_rsp_slv := Chan k [] |> <| amo_stage := AMO_STAGE_IDLE |> <| trap_defer := false |>).
Proof. intros Hp. unfold exu_proc_biu_rsp. mred. upd_proj. cbn. by rewrite Hp. Qed.

(** A load-reserved and its response. *)
Lemma lr_completes exu lr d k q1 : gpr_wf (gpr exu) -> ldst_req_pend exu = false ->
  i_opcode (rq_inst lr) = OPCODE_AMO -> amo_funct375_of (rq_inst lr) = RV32G_AMO_FUNCT375_LR ->
  chan_num (ldst_req_mst exu) < ch_depth (ldst_req_mst exu) -> is_u32 d ->
  let a := xreg exu (i_rs1 (rq_inst lr)) in
  exists exu1 exu2, amo_ex_req_proc lr exu = Some (tt, exu1) /\
    ch_pkts (ldst_req_mst exu1) = ch_pkts (ldst_req_mst exu) ++ [word_load a] /\
    exu_proc_biu_rsp (exu1 <| ldst_req_mst := q1 |> <| ldst_rsp_slv := Chan k [LdstRsp d true] |>) = Some (tt, exu2) /\
    ldst_req_mst exu2 = q1 /\ trap_defer exu2 = false /\
    (forall r, xreg exu2 r = if (i_rd (rq_inst lr) =? r) && negb (r =? 0) then d else xreg exu r) /\
    gpr_wf (gpr exu2) /\ ldst_req_pend exu2 = false /\ amo_lr_set exu2 = true /\ amo_rsvd_addr exu2 = a.
Proof.
  intros Hg Hpend Hol Hl Hf Hd a.
  pose proof (reg_index (rq_inst lr) 7 ltac:(lia)) as Hrl. fold (i_rd (rq_inst lr)) in Hrl.
  exists (amo_issued exu lr (amo_s2 exu)). eexists. split; [by apply lr_ex_req_run|]. split; [reflexivity|].
  split. { apply biu_rsp_amo; [exact Hpend|reflexivity|]. apply (lr_rsp_run _ _ (i_rd (rq_inst lr))); [exact Hg|reflexivity|exact Hrl|reflexivity..|exact Hl]. }
  split; [reflexivity|]. split; [reflexivity|]. split; [intros r; by apply greg_set|].
  split; [apply gpr_set_wf; [exact Hg|lia|exact Hd]|]. split; [exact Hpend|]. by split.
Qed.

(** A store-conditional under the reservation of [a], and the response of its store. *)
Lemma sc_completes exu sc a x (ok : bool) k q2 : gpr_wf (gpr exu) -> ldst_req_pend exu = false ->
  i_opcode (rq_inst sc) = OPCODE_AMO -> amo_funct375_of (rq_inst sc) = RV32G_AMO_FUNCT375_SC ->
  chan_num (ldst_req_mst exu) < ch_depth (ldst_req_mst exu) -> trap_defer exu = false ->
  amo_lr_set exu = true -> amo_rsvd_addr exu = a ->
  let b := xreg exu (i_rs1 (rq_inst sc)) in
  exists exu3, amo_ex_req_proc sc exu = Some (tt, exu3) /\
    if a =? b then
      ch_pkts (ldst_req_mst exu3) = ch_pkts (ldst_req_mst exu) ++ [word_store a (xreg exu (i_rs2 (rq_inst sc)))] /\
      trap_defer exu3 = true /\
      exists exu4, exu_proc_biu_rsp (exu3 <| ldst_req_mst := q2 |> <| ldst_rsp_slv := Chan k [LdstRsp x ok] |>) =
          Some (tt, exu4) /\
        amo_lr_set exu4 = negb ok /\ amo_stage exu4 = AMO_STAGE_IDLE /\ trap_defer exu4 = false /\ ldst_req_mst exu4 = q2 /\
        forall r, xreg exu4 r =
          if ok && (i_rd (rq_inst sc) =? r) && negb (r =? 0) then 0 else xreg exu r
    else
      ldst_req_mst exu3 = ldst_req_mst exu /\ amo_lr_set exu3 = false /\ trap_defer exu3 = false /\
      forall r, xreg exu3 r = if (i_rd (rq_inst sc) =? r) && negb (r =? 0) then 1 else xreg exu r.
Proof.
  intros Hg Hpend Hos Hs Hf Hdef Hset Hrsv b.
  pose proof (reg_index (rq_inst sc) 7 ltac:(lia)) as Hrs. fold (i_rd (rq_inst sc)) in Hrs.
  destruct (Z.eqb_spec a b) as [Hab|Hab].
  - eexists. split. { apply sc_ok_run; [done..| |done]. rewrite Hset, Hrsv. apply Z.eqb_eq. exact Hab. }
    split; [rewrite Hab; reflexivity|]. split; [reflexivity|]. destruct ok.
    + eexists. split; [apply biu_rsp_amo; [exact Hpend|reflexivity|];
        apply (sc_rsp_run _ _ (i_rd (rq_inst sc))); [exact Hg|reflexivity|exact Hrs|reflexivity..]|].
      split; [reflexivity|]. split; [reflexivity|]. split; [reflexivity|]. split; [reflexivity|]. intros r. by apply greg_set.
    + eexists. split; [by apply biu_rsp_refused|].
      split; [exact Hset|]. split; [reflexivity|]. split; [reflexivity|]. split; reflexivity.
  - eexists. split. { apply sc_fail_run; [done..|]. rewrite Hset, Hrsv. apply Z.eqb_neq. exact Hab. }
    split; [reflexivity|]. split; [reflexivity|]. split; [reflexivity|]. intros r. by apply greg_set.
Qed.

End lr_sc_rsp.

(** C28: Store-conditional pairs with load-reserved.  After an lr.w of address [a] has completed,
    with no other access pending and room for the requests, an sc.w succeeds exactly when it is to [a]: then it sends one word store of rs2, and a good
    response of the store writes 0 to rd and clears the reservation, so that a second sc.w fails;
    otherwise it sends nothing, writes 1 to rd at once and clears the reservation.  A store that the
    memory refuses leaves rd alone, and leaves the reservation in place. *)
Theorem lr_sc_pairing {C} (exu : exu_t C) lr sc d x (ok : bool) k q1 q2 : gpr_wf (gpr exu) -> ldst_req_pend exu = false ->
  i_opcode (rq_inst lr) = OPCODE_AMO -> amo_funct375_of (rq_inst lr) = RV32G_AMO_FUNCT375_LR ->
  i_opcode (rq_inst sc) = OPCODE_AMO -> amo_funct375_of (rq_inst sc) = RV32G_AMO_FUNCT375_SC ->
  chan_num (ldst_req_mst exu) < ch_depth (ldst_req_mst exu) -> chan_num q1 < ch_depth q1 ->
  is_u32 d ->
  let a := xreg exu (i_rs1 (rq_inst lr)) in
  exists exu1 exu2,
    amo_ex_req_proc lr exu = Some (tt, exu1) /\
    ch_pkts (ldst_req_mst exu1) = ch_pkts (ldst_req_mst exu) ++ [word_load a] /\
    exu_proc_biu_rsp (exu1 <| ldst_req_mst := q1 |> <| ldst_rsp_slv := Chan k [LdstRsp d true] |>) = Some (tt, exu2) /\
    ldst_req_mst exu2 = q1 /\ trap_defer exu2 = false /\
    (forall r, xreg exu2 r = if (i_rd (rq_inst lr) =? r) && negb (r =? 0) then d else xreg exu r) /\
    let b := xreg exu2 (i_rs1 (rq_inst sc)) in
    exists exu3, amo_ex_req_proc sc exu2 = Some (tt, exu3) /\
    if a =? b then
      ch_pkts (ldst_req_mst exu3) = ch_pkts q1 ++ [word_store a (xreg exu2 (i_rs2 (rq_inst sc)))] /\
      trap_defer exu3 = true /\
      exists exu4, exu_proc_biu_rsp (exu3 <| ldst_req_mst := q2 |> <| ldst_rsp_slv := Chan k [LdstRsp x ok] |>) =
          Some (tt, exu4) /\
        amo_lr_set exu4 = negb ok /\ amo_stage exu4 = AMO_STAGE_IDLE /\ trap_defer exu4 = false /\ ldst_req_mst exu4 = q2 /\
        forall r, xreg exu4 r =
          if ok && (i_rd (rq_inst sc) =? r) && negb (r =? 0) then 0 else xreg exu2 r
    else
      ldst_req_mst exu3 = q1 /\ amo_lr_set exu3 = false /\ trap_defer exu3 = false /\
      forall r, xreg exu3 r = if (i_rd (rq_inst sc) =? r) && negb (r =? 0) then 1 else xreg exu2 r.
Proof.
  intros Hg Hpend Hol Hl Hos Hs Hf Hf1 Hd a.
  destruct (lr_completes exu lr d k q1 Hg Hpend Hol Hl Hf Hd) as (exu1 & exu2 & E1 & Q1 & E2 & Hq & Hdef & Hr & Hg2 & Hp2 & Hset & Hrsv).
  exists exu1, exu2. split_and!; [done..|]. subst q1. by apply sc_completes.
Qed.

(** [lr.w x3, (x1)] then [sc.w x3, x2, (x1)] at 0x1000, whose store is refused: the reservation stays. *)
Lemma lr_sc_pairing_witness :
  exists exu1 exu2 exu3 exu4,
    amo_ex_req_proc (ExReq 0x1000a1af 0 false 0 false)
      (exu_idle tt (gpr_example 0x1000 3)) = Some (tt, exu1) /\
    exu_proc_biu_rsp (exu1 <| ldst_req_mst := Chan 1 [] |> <| ldst_rsp_slv := Chan 1 [LdstRsp 9 true] |>) = Some (tt, exu2) /\
    amo_ex_req_proc (ExReq 0x1820a1af 4 false 0 false) exu2 = Some (tt, exu3) /\
    exu_proc_biu_rsp (exu3 <| ldst_req_mst := Chan 1 [] |> <| ldst_rsp_slv := Chan 1 [LdstRsp 0 false] |>) = Some (tt, exu4) /\
    amo_lr_set exu4 = true.
Proof.
  destruct (lr_sc_pairing (exu_idle tt (gpr_example 0x1000 3)) (ExReq 0x1000a1af 0 false 0 false)
    (ExReq 0x1820a1af 4 false 0 false) 9 0 false 1 (Chan 1 []) (Chan 1 []))
    as (exu1 & exu2 & H1 & _ & H2 & _ & _ & Hr & exu3 & H3 & H4).
  - apply gpr_example_wf; unfold is_u32, W32; lia.
  - reflexivity.
  - reflexivity.
  - reflexivity.
  - reflexivity.
  - reflexivity.
  - reflexivity.
  - reflexivity.
  - unfold is_u32, W32. lia.
  - rewrite Hr in H4. destruct H4 as (_ & _ & exu4 & H4 & Hs & _).
    exists exu1, exu2, exu3, exu4. split; [exact H1|]. split; [exact H2|]. split; [exact H3|]. split; [exact H4|exact Hs].
Defined.
