(* ===== verification/CsrFile.v ===== *)
(** * The CSR file

    [design/model/spec/core/csr.c]: reset, read and write of the 244 control and status
    registers.  The two switches of the source read and write the member of one register per
    case after a privilege check; a register is named here by its address, and the cases are
    the two tables below (each address of the source occurs once, and the member read at an
    address is the member written at it). *)

From stdpp Require Import base numbers list gmap.
From Stdlib Require Import ZArith Lia.
From S2P Require Import Prelude Isa.

Definition A_sstatus := 0x100.
Definition A_sie := 0x104.
Definition A_stvec := 0x105.
Definition A_sepc := 0x141.
Definition A_scause := 0x142.
Definition A_stval := 0x143.
Definition A_sip := 0x144.
Definition A_stimecmp := 0x14d.
Definition A_stimecmph := 0x15d.
Definition A_satp := 0x180.
Definition A_mstatus := 0x300.
Definition A_misa := 0x301.
Definition A_medeleg := 0x302.
Definition A_mideleg := 0x303.
Definition A_mie := 0x304.
Definition A_mtvec := 0x305.
Definition A_mepc := 0x341.
Definition A_mcause := 0x342.
Definition A_mtval := 0x343.
Definition A_mip := 0x344.
Definition A_cycle := 0xc00.
Definition A_time := 0xc01.
Definition A_cycleh := 0xc80.
Definition A_timeh := 0xc81.

(** The registers, by address. *)
Abbreviation rv32g_csr_t := (gmap Z Z).

Definition reg (csr : rv32g_csr_t) (a : Z) : Z := default 0 (csr !! a).

Definition at_priv (p : Z) (l : list Z) : list (Z * Z) := (fun a => (a, p)) <$> l.

(** The cases of [rv32g_csr_read] with the privilege each one checks for. *)
Definition csr_read_cases : list (Z * Z) :=
  at_priv RV32G_PRIV_SUPERVISOR [
    0x100; 0x104; 0x105; 0x106; 0x10a; 0x140; 0x141; 0x142; 0x143; 0x144; 0x14d; 0x15d; 0x180] ++
  at_priv RV32G_PRIV_MACHINE [
    0x300; 0x301; 0x302; 0x303; 0x304; 0x305; 0x306; 0x30a; 0x310; 0x31a; 0x320; 0x321; 0x322;
    0x323; 0x324; 0x325; 0x326; 0x327; 0x328; 0x329; 0x32a; 0x32b; 0x32c; 0x32d; 0x32e; 0x32f;
    0x330; 0x331; 0x332; 0x333; 0x334; 0x335; 0x336; 0x337; 0x338; 0x339; 0x33a; 0x33b; 0x33c;
    0x33d; 0x33e; 0x33f; 0x721; 0x722; 0x723; 0x724; 0x725; 0x726; 0x727; 0x728; 0x729; 0x72a;
    0x72b; 0x72c; 0x72d; 0x72e; 0x72f; 0x730; 0x731; 0x732; 0x733; 0x734; 0x735; 0x736; 0x737;
    0x738; 0x739; 0x73a; 0x73b; 0x73c; 0x73d; 0x73e; 0x73f; 0x340; 0x341; 0x342; 0x343; 0x344;
    0x34a; 0x34b; 0x3a0; 0x3a1; 0x3a2; 0x3a3; 0x3a4; 0x3a5; 0x3a6; 0x3a7; 0x3a8; 0x3a9; 0x3aa;
    0x3ab; 0x3ac; 0x3ad; 0x3ae; 0x3af; 0x3b0; 0x3b1; 0x3b2; 0x3b3; 0x3b4; 0x3b5; 0x3b6; 0x3b7;
    0x3b8; 0x3b9; 0x3ba; 0x3bb; 0x3bc; 0x3bd; 0x3be; 0x3bf; 0x3c0; 0x3c1; 0x3c2; 0x3c3; 0x3c4;
    0x3c5; 0x3c6; 0x3c7; 0x3c8; 0x3c9; 0x3ca; 0x3cb; 0x3cc; 0x3cd; 0x3ce; 0x3cf; 0x3d0; 0x3d1;
    0x3d2; 0x3d3; 0x3d4; 0x3d5; 0x3d6; 0x3d7; 0x3d8; 0x3d9; 0x3da; 0x3db; 0x3dc; 0x3dd; 0x3de;
    0x3df; 0x3e0; 0x3e1; 0x3e2; 0x3e3; 0x3e4; 0x3e5; 0x3e6; 0x3e7; 0x3e8; 0x3e9; 0x3ea; 0x3eb;
    0x3ec; 0x3ed; 0x3ee; 0x3ef; 0x7a0; 0x7a4; 0xb03; 0xb04; 0xb05; 0xb06; 0xb07; 0xb08; 0xb09;
    0xb0a; 0xb0b; 0xb0c; 0xb0d; 0xb0e; 0xb0f; 0xb10; 0xb11; 0xb12; 0xb13; 0xb14; 0xb15; 0xb16;
    0xb17; 0xb18; 0xb19; 0xb1a; 0xb1b; 0xb1c; 0xb1d; 0xb1e; 0xb1f; 0xb83; 0xb84; 0xb85; 0xb86;
    0xb87; 0xb88; 0xb89; 0xb8a; 0xb8b; 0xb8c; 0xb8d; 0xb8e; 0xb8f; 0xb90; 0xb91; 0xb92; 0xb93;
    0xb94; 0xb95; 0xb96; 0xb97; 0xb98; 0xb99; 0xb9a; 0xb9b; 0xb9c; 0xb9d; 0xb9e; 0xb9f] ++
  at_priv RV32G_PRIV_USER [
    0xc00; 0xc01; 0xc02; 0xc80; 0xc81] ++
  at_priv RV32G_PRIV_SUPERVISOR [
    0xda0] ++
  at_priv RV32G_PRIV_MACHINE [
    0xf11; 0xf12; 0xf13; 0xf14; 0xfb0].

(** The cases of [rv32g_csr_write]. *)
Definition csr_write_cases : list (Z * Z) :=
  at_priv RV32G_PRIV_SUPERVISOR [
    0x100; 0x104; 0x105; 0x106; 0x10a; 0x140; 0x141; 0x142; 0x143; 0x144; 0x14d; 0x15d; 0x180] ++
  at_priv RV32G_PRIV_MACHINE [
    0x300; 0x301; 0x302; 0x303; 0x304; 0x305; 0x306; 0x30a; 0x310; 0x31a; 0x320; 0x321; 0x322;
    0x323; 0x324; 0x325; 0x326; 0x327; 0x328; 0x329; 0x32a; 0x32b; 0x32c; 0x32d; 0x32e; 0x32f;
    0x330; 0x331; 0x332; 0x333; 0x334; 0x335; 0x336; 0x337; 0x338; 0x339; 0x33a; 0x33b; 0x33c;
    0x33d; 0x33e; 0x33f; 0x721; 0x722; 0x723; 0x724; 0x725; 0x726; 0x727; 0x728; 0x729; 0x72a;
    0x72b; 0x72c; 0x72d; 0x72e; 0x72f; 0x730; 0x731; 0x732; 0x733; 0x734; 0x735; 0x736; 0x737;
    0x738; 0x739; 0x73a; 0x73b; 0x73c; 0x73d; 0x73e; 0x73f; 0x340; 0x341; 0x342; 0x343; 0x344;
    0x34a; 0x34b; 0x3a0; 0x3a1; 0x3a2; 0x3a3; 0x3a4; 0x3a5; 0x3a6; 0x3a7; 0x3a8; 0x3a9; 0x3aa;
    0x3ab; 0x3ac; 0x3ad; 0x3ae; 0x3af; 0x3b0; 0x3b1; 0x3b2; 0x3b3; 0x3b4; 0x3b5; 0x3b6; 0x3b7;
    0x3b8; 0x3b9; 0x3ba; 0x3bb; 0x3bc; 0x3bd; 0x3be; 0x3bf; 0x3c0; 0x3c1; 0x3c2; 0x3c3; 0x3c4;
    0x3c5; 0x3c6; 0x3c7; 0x3c8; 0x3c9; 0x3ca; 0x3cb; 0x3cc; 0x3cd; 0x3ce; 0x3cf; 0x3d0; 0x3d1;
    0x3d2; 0x3d3; 0x3d4; 0x3d5; 0x3d6; 0x3d7; 0x3d8; 0x3d9; 0x3da; 0x3db; 0x3dc; 0x3dd; 0x3de;
    0x3df; 0x3e0; 0x3e1; 0x3e2; 0x3e3; 0x3e4; 0x3e5; 0x3e6; 0x3e7; 0x3e8; 0x3e9; 0x3ea; 0x3eb;
    0x3ec; 0x3ed; 0x3ee; 0x3ef; 0x7a0; 0x7a4; 0xb03; 0xb04; 0xb05; 0xb06; 0xb07; 0xb08; 0xb09;
    0xb0a; 0xb0b; 0xb0c; 0xb0d; 0xb0e; 0xb0f; 0xb10; 0xb11; 0xb12; 0xb13; 0xb14; 0xb15; 0xb16;
    0xb17; 0xb18; 0xb19; 0xb1a; 0xb1b; 0xb1c; 0xb1d; 0xb1e; 0xb1f; 0xb83; 0xb84; 0xb85; 0xb86;
    0xb87; 0xb88; 0xb89; 0xb8a; 0xb8b; 0xb8c; 0xb8d; 0xb8e; 0xb8f; 0xb90; 0xb91; 0xb92; 0xb93;
    0xb94; 0xb95; 0xb96; 0xb97; 0xb98; 0xb99; 0xb9a; 0xb9b; 0xb9c; 0xb9d; 0xb9e; 0xb9f].

Definition find_case (cases : list (Z * Z)) (addr : Z) : option Z :=
  snd <$> List.find (fun c => c.1 =? addr) cases.

(** [None] is the return value [false]; the value read is then not assigned. *)
Definition rv32g_csr_read (csr : rv32g_csr_t) (priv addr : Z) : option Z :=
  match find_case csr_read_cases addr with
  | Some p => if priv <? p then None else Some (reg csr addr)
  | None => None
  end.

Definition rv32g_csr_write (csr : rv32g_csr_t) (priv addr data : Z) : option rv32g_csr_t :=
  match find_case csr_write_cases addr with
  | Some p => if priv <? p then None else Some (<[addr := data]> csr)
  | None => None
  end.

(** I, M, A, U and S extensions, XLEN 32. *)
Definition misa_reset : Z :=
  Z.lor (Z.shiftl 1 8) (Z.lor (Z.shiftl 1 12) (Z.lor (Z.shiftl 1 0)
    (Z.lor (Z.shiftl 1 20) (Z.lor (Z.shiftl 1 18) (Z.shiftl 1 30))))).

Definition rv32g_csr_reset : rv32g_csr_t :=
  <[A_misa := misa_reset]> (list_to_map ((fun c => (c.1, 0)) <$> csr_read_cases)).

(** ** Access control *)

(** Bits 9:8 of a CSR address are the lowest privilege that may access it, bits 11:10 are
    11 for the read-only registers. *)
Definition addr_priv (a : Z) : Z := bits a 8 2.
Definition addr_read_only (a : Z) : bool := bits a 10 2 =? 3.
Definition implemented (a : Z) : bool := bool_decide (is_Some (find_case csr_read_cases a)).

Lemma find_case_In cases a p : find_case cases a = Some p -> (a, p) ∈ cases.
Proof.
  unfold find_case. destruct (List.find _ cases) as [[a' p']|] eqn:E; [|done].
  apply List.find_some in E as [Hin Heq]. simpl in *. apply Z.eqb_eq in Heq. intros; simplify_eq/=.
  by apply list_elem_of_In.
Qed.

Lemma find_case_None cases a : find_case cases a = None -> forall p, (a, p) ∉ cases.
Proof.
  unfold find_case. destruct (List.find _ cases) as [?|] eqn:E; [done|]. intros _ p Hin.
  apply list_elem_of_In in Hin. apply (List.find_none _ _ E) in Hin. simpl in Hin.
  by rewrite Z.eqb_refl in Hin.
Qed.

(** The tables agree with the address encoding. *)
Lemma read_cases_priv : forallb (fun c => c.2 =? addr_priv c.1) csr_read_cases = true.
Proof. vm_compute. reflexivity. Qed.

Lemma write_cases_read :
  csr_write_cases = List.filter (fun c => negb (addr_read_only c.1)) csr_read_cases.
Proof. vm_compute. reflexivity. Qed.

Lemma read_case a p : find_case csr_read_cases a = Some p -> p = addr_priv a.
Proof.
  intros H%find_case_In%list_elem_of_In.
  pose proof (proj1 (forallb_forall _ _) read_cases_priv _ H) as E. simpl in E. lia.
Qed.

Lemma find_filter (f : Z * Z -> bool) cases a :
  (forall p, f (a, p) = true) -> find_case (List.filter f cases) a = find_case cases a.
Proof.
  intros Hf. unfold find_case. induction cases as [|[b q] l IH]; [done|]. simpl.
  destruct (Z.eqb_spec b a) as [->|Hne].
  - rewrite Hf. simpl. by rewrite Z.eqb_refl.
  - destruct (f (b, q)); [|done]. simpl. by rewrite (proj2 (Z.eqb_neq _ _)).
Qed.

Lemma find_filter_none (f : Z * Z -> bool) cases a :
  (forall p, f (a, p) = false) -> find_case (List.filter f cases) a = None.
Proof.
  intros Hf. unfold find_case. induction cases as [|[b q] l IH]; [done|]. simpl.
  destruct (f (b, q)) eqn:E; [|done]. simpl.
  destruct (Z.eqb_spec b a) as [->|Hne]; [|done]. by rewrite Hf in E.
Qed.

Lemma write_case a : find_case csr_write_cases a =
  if addr_read_only a then None else find_case csr_read_cases a.
Proof.
  rewrite write_cases_read. destruct (addr_read_only a) eqn:E.
  - apply find_filter_none. intros p. simpl. by rewrite E.
  - apply find_filter. intros p. simpl. by rewrite E.
Qed.

Lemma csr_read_spec csr priv a :
  rv32g_csr_read csr priv a =
  if implemented a && (addr_priv a <=? priv) then Some (reg csr a) else None.
Proof.
  unfold rv32g_csr_read, implemented. destruct (find_case csr_read_cases a) as [p|] eqn:E.
  - rewrite bool_decide_true by eauto. simpl. rewrite (read_case _ _ E).
    destruct (Z.ltb_spec priv (addr_priv a)), (Z.leb_spec (addr_priv a) priv); done || lia.
  - rewrite bool_decide_false by (by intros [? ?]). done.
Qed.

Lemma csr_write_spec csr priv a v :
  rv32g_csr_write csr priv a v =
  if implemented a && (addr_priv a <=? priv) && negb (addr_read_only a)
  then Some (<[a := v]> csr) else None.
Proof.
  unfold rv32g_csr_write, implemented. rewrite write_case.
  destruct (addr_read_only a); [by rewrite andb_false_r|]. rewrite andb_true_r.
  destruct (find_case csr_read_cases a) as [p|] eqn:E.
  - rewrite bool_decide_true by eauto. simpl. rewrite (read_case _ _ E).
    destruct (Z.ltb_spec priv (addr_priv a)), (Z.leb_spec (addr_priv a) priv); done || lia.
  - rewrite bool_decide_false by (by intros [? ?]). done.
Qed.

Lemma reg_insert csr a v b : reg (<[a := v]> csr) b = if a =? b then v else reg csr b.
Proof.
  unfold reg. destruct (Z.eqb_spec a b) as [->|Hne].
  - by rewrite lookup_insert_eq.
  - by rewrite lookup_insert_ne.
Qed.

Lemma reg_reset a : reg rv32g_csr_reset a = if a =? A_misa then misa_reset else 0.
Proof.
  unfold rv32g_csr_reset. rewrite reg_insert, (Z.eqb_sym A_misa). case_match; [done|].
  unfold reg. destruct (_ !! a) as [v|] eqn:E; [|done].
  apply elem_of_list_to_map_2, list_elem_of_fmap in E as (? & E & _). by simplify_eq/=.
Qed.

(** ** Theorems *)

(** C29: The CSR file grants exactly the accesses the address encoding of the manual allows: an
    implemented register can be read from the privilege in bits 9:8 of its address up, and
    written if moreover it is not one of the read-only registers (bits 11:10 = 11); a granted
    write changes that register only and is read back, a refused one changes nothing. *)
Theorem csr_access_control csr priv a v :
  (is_Some (rv32g_csr_read csr priv a) <-> implemented a = true /\ addr_priv a <= priv) /\
  (is_Some (rv32g_csr_write csr priv a v) <->
     implemented a = true /\ addr_priv a <= priv /\ addr_read_only a = false) /\
  (forall csr', rv32g_csr_write csr priv a v = Some csr' ->
     rv32g_csr_read csr' priv a = Some v /\ forall b, b <> a -> reg csr' b = reg csr b).
Proof.
  rewrite csr_read_spec, csr_write_spec. split_and!.
  - destruct (implemented a && (addr_priv a <=? priv)) eqn:E.
    + apply andb_prop in E as [? ?%Z.leb_le]. split; [done|by eauto].
    + apply andb_false_iff in E. split; [by intros [? ?]|].
      intros [Hi Hp]. destruct E as [E|E%Z.leb_gt]; [congruence|lia].
  - destruct (implemented a && (addr_priv a <=? priv) && negb (addr_read_only a)) eqn:E.
    + apply andb_prop in E as [[? ?%Z.leb_le]%andb_prop ?%negb_true_iff]. split; [done|by eauto].
    + rewrite !andb_false_iff, negb_false_iff in E. split; [by intros [? ?]|].
      intros (Hi & Hp & Hr). destruct E as [[E|E%Z.leb_gt]|E]; [congruence|lia|congruence].
  - intros csr' H. destruct (implemented a && (addr_priv a <=? priv)) eqn:E; [|done].
    simpl in H. case_match; simplify_eq. split.
    + by rewrite csr_read_spec, E, reg_insert, Z.eqb_refl.
    + intros b Hb. rewrite reg_insert. by rewrite (proj2 (Z.eqb_neq _ _)).
Qed.

Lemma csr_access_control_witness :
  exists csr', rv32g_csr_write rv32g_csr_reset 1 A_satp 5 = Some csr' /\
    rv32g_csr_read csr' 1 A_satp = Some 5.
Proof.
  eexists. split; [reflexivity|].
  exact (proj1 (proj2 (proj2 (csr_access_control rv32g_csr_reset 1 A_satp 5)) _ eq_refl)).
Defined.
