(* ===== verification/Csr.v ===== *)
(** * The CSR module

    [core/hart/csr.c]: the callbacks behind the CSR signals of the execution unit and of the
    trap unit, the supervisor views of mstatus, mie and mip, the interrupt and timer inputs
    and the clock.  The module implements the port of ExuState.v. *)

From stdpp Require Import base numbers list gmap relations.
From Stdlib Require Import ZArith Lia.
From S2P Require Import Prelude Fifo Isa ExuState CsrFile.

(** ** Packets *)

Record csr_mmu_state_if_t := CsrMmuState { cm_satp : Z; cm_mstatus : Z }.
Record csr_trap_state_if_t := CsrTrapState {
  ct_mstatus : Z; ct_mip : Z; ct_mie : Z; ct_mtvec : Z; ct_mepc : Z; ct_medeleg : Z;
  ct_mideleg : Z; ct_sstatus : Z; ct_sip : Z; ct_sie : Z; ct_stvec : Z; ct_sepc : Z }.

(** ** State *)

(** Signal inputs hold the value last driven; [lsu_state_o] is its only member, [satp];
    [csr_cycle] is the cycle counter the module points to. *)
Record csr_t := Csr {
  core_s_irq_slv : chan bool;
  core_timer_in : Z;
  core_m_irq_mtimer : bool;
  core_m_irq_msw : bool;
  ext_irq_in : bool;
  csr_cycle : Z;
  core_swi_pend_out : bool;
  mmu_state_o : csr_mmu_state_if_t;
  lsu_state_o : Z;
  trap_state_o : csr_trap_state_if_t;
  regs : rv32g_csr_t
}.
#[export] Instance eta_csr : Eta csr_t := fun c =>
  Csr (core_s_irq_slv c) (core_timer_in c) (core_m_irq_mtimer c) (core_m_irq_msw c)
    (ext_irq_in c) (csr_cycle c) (core_swi_pend_out c) (mmu_state_o c) (lsu_state_o c)
    (trap_state_o c) (regs c).

(** Supervisor interrupts: SSIP, STIP, SEIP and LCOFIP. *)
Definition CSR_S_IRQ_MASK : Z :=
  Z.lor (Z.shiftl 1 1) (Z.lor (Z.shiftl 1 5) (Z.lor (Z.shiftl 1 9) (Z.shiftl 1 13))).

(** ** Operations *)

Definition csr_publish_state : M csr_t unit :=
  modify (fun c => c <| mmu_state_o := CsrMmuState (reg (regs c) A_satp) (reg (regs c) A_mstatus) |>);;
  modify (fun c => c <| lsu_state_o := reg (regs c) A_satp |>);;
  modify (fun c => c <| trap_state_o := CsrTrapState
    (reg (regs c) A_mstatus) (reg (regs c) A_mip) (reg (regs c) A_mie) (reg (regs c) A_mtvec)
    (reg (regs c) A_mepc) (reg (regs c) A_medeleg) (reg (regs c) A_mideleg)
    (reg (regs c) A_sstatus) (reg (regs c) A_sip) (reg (regs c) A_sie) (reg (regs c) A_stvec)
    (reg (regs c) A_sepc) |>).

(** [dst] with the bit field [(lo, w)] of [src]. *)
Definition copy_field (src : Z) (lo w : Z) (dst : Z) : Z := set_bits dst lo w (bits src lo w).

(** The assignments, in order, that copy the fields sie, spie, ube, spp, vs, fs, xs, sum, mxr,
    spelp and sd; both structures have them at the same places. *)
Definition copy_s_fields (src dst : Z) : Z :=
  let dst := copy_field src 1 1 dst in (* sie *)
  let dst := copy_field src 5 1 dst in (* spie *)
  let dst := copy_field src 6 1 dst in (* ube *)
  let dst := copy_field src 8 1 dst in (* spp *)
  let dst := copy_field src 9 2 dst in (* vs *)
  let dst := copy_field src 13 2 dst in (* fs *)
  let dst := copy_field src 15 2 dst in (* xs *)
  let dst := copy_field src 18 1 dst in (* sum *)
  let dst := copy_field src 19 1 dst in (* mxr *)
  let dst := copy_field src 23 1 dst in (* spelp *)
  let dst := copy_field src 31 1 dst in (* sd *)
  dst.

Definition sync_sstatus_from_mstatus (r : rv32g_csr_t) : rv32g_csr_t :=
  <[A_sstatus := copy_s_fields (reg r A_mstatus) (reg r A_sstatus)]> r.

Definition sync_mstatus_from_sstatus (r : rv32g_csr_t) : rv32g_csr_t :=
  <[A_mstatus := copy_s_fields (reg r A_sstatus) (reg r A_mstatus)]> r.

Definition sync_s_irq_from_m_irq (r : rv32g_csr_t) : rv32g_csr_t :=
  let r := <[A_sie := Z.land (reg r A_mie) CSR_S_IRQ_MASK]> r in
  <[A_sip := Z.lor (Z.land (reg r A_sip) (not32 CSR_S_IRQ_MASK))
                   (Z.land (reg r A_mip) CSR_S_IRQ_MASK)]> r.

Definition sync_m_irq_from_s_irq (r : rv32g_csr_t) : rv32g_csr_t :=
  let r := <[A_mie := Z.lor (Z.land (reg r A_mie) (not32 CSR_S_IRQ_MASK))
                            (Z.land (reg r A_sie) CSR_S_IRQ_MASK)]> r in
  <[A_mip := Z.lor (Z.land (reg r A_mip) (not32 CSR_S_IRQ_MASK))
                   (Z.land (reg r A_sip) CSR_S_IRQ_MASK)]> r.

(** The bit field [(lo, w)] of register [a]. *)
Definition set_field (a lo w v : Z) (r : rv32g_csr_t) : rv32g_csr_t :=
  <[a := set_bits (reg r a) lo w v]> r.

Definition csr_publish_core_swi_pend : M csr_t unit :=
  modify (fun c => c <| core_swi_pend_out := negb (bits (reg (regs c) A_mip) 3 1 =? 0) |>).

Definition csr_update_m_irq (mtimer msw : bool) : M csr_t unit :=
  modify (fun c => c <| regs := set_field A_mip 7 1 (b2z mtimer) (regs c) |>);;
  modify (fun c => c <| regs := set_field A_mip 3 1 (b2z msw) (regs c) |>);;
  modify (fun c => c <| regs := sync_s_irq_from_m_irq (regs c) |>).

Definition csr_update_ext_irq (irq : bool) : M csr_t unit :=
  modify (fun c => c <| regs := set_field A_mip 11 1 (b2z irq) (regs c) |>);;
  modify (fun c => c <| regs := set_field A_mip 9 1 (b2z irq) (regs c) |>);;
  modify (fun c => c <| regs := sync_s_irq_from_m_irq (regs c) |>).

Definition csr_sync_supervisor_aliases (written_addr : Z) (r : rv32g_csr_t) : rv32g_csr_t :=
  if written_addr =? 0x100 then sync_mstatus_from_sstatus r
  else if (written_addr =? 0x104) || (written_addr =? 0x144) then sync_m_irq_from_s_irq r
  else if written_addr =? 0x300 then sync_sstatus_from_mstatus r
  else if (written_addr =? 0x304) || (written_addr =? 0x344) then sync_s_irq_from_m_irq r
  else r.

(** The response value is not initialised in the source when the access is refused. *)
Definition csr_read_cb (addr priv : Z) : M csr_t (Z * bool) :=
  c ← gets id;
  match rv32g_csr_read (regs c) priv addr with
  | Some val => mret (val, true)
  | None => mret (0, false)
  end.

Definition csr_write_cb (addr priv val : Z) : M csr_t bool :=
  c ← gets id;
  ok ← match rv32g_csr_write (regs c) priv addr val with
       | Some r =>
         modify (fun c => c <| regs := r |>);;
         modify (fun c => c <| regs := csr_sync_supervisor_aliases addr (regs c) |>);;
         mret true
       | None => mret false
       end;
  csr_publish_core_swi_pend;;
  csr_publish_state;;
  mret ok.

Definition csr_trap_write_cb (addr val : Z) : M csr_t bool :=
  c ← gets id;
  ok ← match rv32g_csr_write (regs c) RV32G_PRIV_MACHINE addr val with
       | Some r =>
         modify (fun c => c <| regs := r |>);;
         modify (fun c => c <| regs := csr_sync_supervisor_aliases addr (regs c) |>);;
         mret true
       | None => mret false
       end;
  csr_publish_state;;
  mret ok.

Definition csr_reset : M csr_t unit :=
  modify (fun c => c <| regs := rv32g_csr_reset |>);;
  modify (fun c => c <| regs := <[A_stimecmp := 0xffffffff]> (regs c) |>);;
  modify (fun c => c <| regs := <[A_stimecmph := 0xffffffff]> (regs c) |>);;
  modify (fun c => c <| regs := sync_sstatus_from_mstatus (regs c) |>);;
  modify (fun c => c <| regs := sync_s_irq_from_m_irq (regs c) |>);;
  csr_publish_core_swi_pend;;
  csr_publish_state.

Definition csr_update_proc : M csr_t unit :=
  modify (fun c => c <| regs := <[A_time := u32 (core_timer_in c)]> (regs c) |>);;
  modify (fun c => c <| regs := <[A_timeh := u32 (Z.shiftr (core_timer_in c) 32)]> (regs c) |>);;
  c ← gets id;
  csr_update_m_irq (core_m_irq_mtimer c) (core_m_irq_msw c);;
  csr_update_ext_irq (ext_irq_in c);;
  c ← gets id;
  let time := Z.lor (Z.shiftl (reg (regs c) A_timeh) 32) (reg (regs c) A_time) in
  let stimecmp := Z.lor (Z.shiftl (reg (regs c) A_stimecmph) 32) (reg (regs c) A_stimecmp) in
  modify (fun c => c <| regs := set_field A_mip 5 1 (b2z (stimecmp <=? time)) (regs c) |>);;
  modify (fun c => c <| regs := sync_s_irq_from_m_irq (regs c) |>);;
  modify (fun c => c <| regs := <[A_cycle := u32 (csr_cycle c)]> (regs c) |>);;
  modify (fun c => c <| regs := <[A_cycleh := u32 (Z.shiftr (csr_cycle c) 32)]> (regs c) |>).

Definition csr_core_s_irq_proc : M csr_t unit :=
  c ← gets id;
  if chan_empty (core_s_irq_slv c) then mret tt
  else
    ssw ← on core_s_irq_slv chan_read;
    when ssw
      (modify (fun c => c <| regs := set_field A_mip 1 1 1 (regs c) |>);;
       modify (fun c => c <| regs := set_field A_sip 1 1 1 (regs c) |>);;
       modify (fun c => c <| regs := sync_m_irq_from_s_irq (regs c) |>)).

Definition csr_clock : M csr_t unit :=
  csr_update_proc;;
  csr_core_s_irq_proc;;
  csr_publish_state.

(** The module behind the CSR signals of the execution unit. *)
#[export] Instance csr_port : CsrPort csr_t := {
  port_read := csr_read_cb;
  port_write := csr_write_cb
}.

(** ** Bits and masks *)

(** The bits of mstatus that sstatus shows. *)
Definition S_STATUS_MASK : Z := 0x808de762.

(** [b] in the bits of the mask, [a] elsewhere. *)
Definition merge (k a b : Z) : Z := Z.lor (Z.land a (not32 k)) (Z.land b k).

Lemma testbit_not_mask k i : is_u32 k -> 0 <= i -> Z.testbit (not32 k) i = negb (Z.testbit k i) && (i <? 32).
Proof.
  intros Hk Hi. unfold not32. change (W32 - 1) with (Z.ones 32).
  rewrite Z.lxor_spec, testbit_ones by lia.
  destruct (Z.ltb_spec i 32); [by destruct (Z.testbit k i)|].
  by rewrite (testbit_high k) by done.
Qed.

Lemma testbit_merge k a b i : is_u32 k -> is_u32 a -> 0 <= i ->
  Z.testbit (merge k a b) i = if Z.testbit k i then Z.testbit b i else Z.testbit a i.
Proof.
  intros Hk Ha Hi. unfold merge. rewrite Z.lor_spec, !Z.land_spec, testbit_not_mask by done.
  destruct (Z.ltb_spec i 32).
  - destruct (Z.testbit k i), (Z.testbit a i), (Z.testbit b i); done.
  - rewrite !(testbit_high k), (testbit_high a) by done. apply andb_false_r.
Qed.

Lemma merge_masked k a b : is_u32 k -> is_u32 a -> Z.land (merge k a b) k = Z.land b k.
Proof.
  intros Hk Ha. apply Z.bits_inj'. intros i Hi. rewrite !Z.land_spec, testbit_merge by done.
  destruct (Z.testbit k i); [done|]. by rewrite !andb_false_r.
Qed.

Lemma merge_u32 k a b : is_u32 k -> is_u32 a -> is_u32 (merge k a b).
Proof.
  intros Hk Ha. unfold merge. apply is_u32_lor; [by apply is_u32_land_l|by apply is_u32_land_r].
Qed.

Lemma testbit_copy_field src lo w dst i : 0 <= lo -> 0 <= w -> 0 <= i ->
  Z.testbit (copy_field src lo w dst) i =
  if (lo <=? i) && (i <? lo + w) then Z.testbit src i else Z.testbit dst i.
Proof.
  intros. unfold copy_field. rewrite testbit_set_bits by lia.
  destruct (Z.leb_spec lo i), (Z.ltb_spec i (lo + w)); simpl; try done.
  rewrite testbit_bits by lia. replace (i - lo + lo) with i by lia.
  destruct (Z.ltb_spec (i - lo) w); [apply andb_true_r|lia].
Qed.

(** One of the first 32 bit positions. *)
Lemma bit_cases i : 0 <= i < 32 -> i ∈ seqZ 0 32.
Proof. intros. by apply elem_of_seqZ. Qed.

Lemma s_mask_ranges i : 0 <= i ->
  Z.testbit S_STATUS_MASK i =
  existsb (fun '(lo, w) => (lo <=? i) && (i <? lo + w))
    [(1, 1); (5, 1); (6, 1); (8, 1); (9, 2); (13, 2); (15, 2); (18, 1); (19, 1); (23, 1); (31, 1)].
Proof.
  intros Hi. destruct (Z.lt_ge_cases i 32) as [Hlt|Hge].
  - enough (forallb (fun i => Bool.eqb (Z.testbit S_STATUS_MASK i)
      (existsb (fun '(lo, w) => (lo <=? i) && (i <? lo + w))
        [(1, 1); (5, 1); (6, 1); (8, 1); (9, 2); (13, 2); (15, 2); (18, 1); (19, 1); (23, 1); (31, 1)]))
      (seqZ 0 32) = true) as H.
    { apply Bool.eqb_prop. exact (proj1 (forallb_forall _ _) H i
        (proj1 (list_elem_of_In _ _) (bit_cases i ltac:(lia)))). }
    vm_compute. reflexivity.
  - rewrite testbit_high by done. cbn [existsb].
    repeat match goal with
    | |- context [?a <? ?b] => destruct (Z.ltb_spec a b); [lia|]
    end. by rewrite !andb_false_r.
Qed.

Lemma copy_s_fields_merge src dst : is_u32 dst ->
  copy_s_fields src dst = merge S_STATUS_MASK dst src.
Proof.
  intros Hd. apply Z.bits_inj'. intros i Hi. rewrite testbit_merge by done.
  rewrite s_mask_ranges by done. unfold copy_s_fields.
  rewrite !testbit_copy_field by lia. cbn [existsb].
  repeat match goal with
  | |- context [(?a <=? i) && (i <? ?b)] => destruct ((a <=? i) && (i <? b))
  end; done.
Qed.

(** ** Invariant *)

Definition regs_ok (r : rv32g_csr_t) : Prop := forall a, is_u32 (reg r a).

(** sstatus, sie and sip show the supervisor bits of mstatus, mie and mip. *)
Record aliases_ok (r : rv32g_csr_t) : Prop := {
  al_status : Z.land (reg r A_sstatus) S_STATUS_MASK = Z.land (reg r A_mstatus) S_STATUS_MASK;
  al_ie : Z.land (reg r A_sie) CSR_S_IRQ_MASK = Z.land (reg r A_mie) CSR_S_IRQ_MASK;
  al_ip : Z.land (reg r A_sip) CSR_S_IRQ_MASK = Z.land (reg r A_mip) CSR_S_IRQ_MASK
}.

(** The state signals carry the registers. *)
Definition trap_view (r : rv32g_csr_t) : csr_trap_state_if_t :=
  CsrTrapState (reg r A_mstatus) (reg r A_mip) (reg r A_mie) (reg r A_mtvec) (reg r A_mepc)
    (reg r A_medeleg) (reg r A_mideleg) (reg r A_sstatus) (reg r A_sip) (reg r A_sie)
    (reg r A_stvec) (reg r A_sepc).

Record csr_inv (c : csr_t) : Prop := {
  ci_regs : regs_ok (regs c);
  ci_aliases : aliases_ok (regs c);
  ci_mmu : mmu_state_o c = CsrMmuState (reg (regs c) A_satp) (reg (regs c) A_mstatus);
  ci_lsu : lsu_state_o c = reg (regs c) A_satp;
  ci_trap : trap_state_o c = trap_view (regs c)
}.

(** Evaluates a register of an updated file. *)
Ltac reg_simpl := rewrite ?reg_insert; zconst.

Lemma regs_ok_insert r a v : regs_ok r -> is_u32 v -> regs_ok (<[a := v]> r).
Proof. intros Hr Hv b. rewrite reg_insert. by case_match. Qed.

Lemma regs_ok_field r a lo w v : regs_ok r -> 0 <= lo -> 0 <= w -> lo + w <= 32 ->
  regs_ok (set_field a lo w v r).
Proof. intros Hr ???. apply regs_ok_insert; [done|]. by apply is_u32_set_bits. Qed.

Lemma mask_u32 : is_u32 S_STATUS_MASK /\ is_u32 CSR_S_IRQ_MASK.
Proof. by split. Qed.

(** Each synchronisation makes its views agree and leaves the other views alone. *)
Lemma sync_sstatus_ok r : regs_ok r -> regs_ok (sync_sstatus_from_mstatus r) /\
  reg (sync_sstatus_from_mstatus r) A_sstatus =
    merge S_STATUS_MASK (reg r A_sstatus) (reg r A_mstatus).
Proof.
  intros Hr. unfold sync_sstatus_from_mstatus. rewrite copy_s_fields_merge by apply Hr.
  split; [|by rewrite reg_insert]. apply regs_ok_insert; [done|]. by apply merge_u32, Hr.
Qed.

Lemma sync_mstatus_ok r : regs_ok r -> regs_ok (sync_mstatus_from_sstatus r) /\
  reg (sync_mstatus_from_sstatus r) A_mstatus =
    merge S_STATUS_MASK (reg r A_mstatus) (reg r A_sstatus).
Proof.
  intros Hr. unfold sync_mstatus_from_sstatus. rewrite copy_s_fields_merge by apply Hr.
  split; [|by rewrite reg_insert]. apply regs_ok_insert; [done|]. by apply merge_u32, Hr.
Qed.

Lemma sync_s_irq_ok r : regs_ok r -> regs_ok (sync_s_irq_from_m_irq r).
Proof.
  intros Hr. unfold sync_s_irq_from_m_irq. cbv zeta. apply regs_ok_insert.
  - apply regs_ok_insert; [done|]. apply is_u32_land_l, Hr.
  - apply (merge_u32 CSR_S_IRQ_MASK); [done|]. rewrite reg_insert. zconst. apply Hr.
Qed.

Lemma sync_m_irq_ok r : regs_ok r -> regs_ok (sync_m_irq_from_s_irq r).
Proof.
  intros Hr. unfold sync_m_irq_from_s_irq. cbv zeta.
  assert (regs_ok (<[A_mie := merge CSR_S_IRQ_MASK (reg r A_mie) (reg r A_sie)]> r)) as H
    by (apply regs_ok_insert; [done|by apply merge_u32, Hr]).
  apply regs_ok_insert; [done|]. by apply (merge_u32 CSR_S_IRQ_MASK), H.
Qed.

Lemma aliases_sync_s_irq r : regs_ok r ->
  Z.land (reg r A_sstatus) S_STATUS_MASK = Z.land (reg r A_mstatus) S_STATUS_MASK ->
  aliases_ok (sync_s_irq_from_m_irq r).
Proof.
  intros Hr Hs. unfold sync_s_irq_from_m_irq. cbv zeta. split; reg_simpl.
  - done.
  - by rewrite <- Z.land_assoc, Z.land_diag.
  - apply (merge_masked CSR_S_IRQ_MASK); [done|apply Hr].
Qed.

Lemma aliases_sync_m_irq r : regs_ok r ->
  Z.land (reg r A_sstatus) S_STATUS_MASK = Z.land (reg r A_mstatus) S_STATUS_MASK ->
  aliases_ok (sync_m_irq_from_s_irq r).
Proof.
  intros Hr Hs. unfold sync_m_irq_from_s_irq. cbv zeta. split; reg_simpl.
  - done.
  - symmetry. apply (merge_masked CSR_S_IRQ_MASK); [done|apply Hr].
  - symmetry. apply (merge_masked CSR_S_IRQ_MASK); [done|apply Hr].
Qed.

(** Views that a change does not touch stay in agreement. *)
Lemma aliases_insert r a v : aliases_ok r ->
  a ∉ [A_sstatus; A_mstatus; A_sie; A_mie; A_sip; A_mip] -> aliases_ok (<[a := v]> r).
Proof.
  intros [H1 H2 H3] Ha. rewrite !not_elem_of_cons in Ha.
  destruct Ha as (?&?&?&?&?&?&_).
  split; rewrite !reg_insert; rewrite !(proj2 (Z.eqb_neq a _)) by done; done.
Qed.

(** ** The operations *)

Lemma publish_ok c : regs_ok (regs c) -> aliases_ok (regs c) ->
  exists c', csr_publish_state c = Some (tt, c') /\ csr_inv c' /\ regs c' = regs c.
Proof. intros Hr Ha. eexists. split; [reflexivity|]. by split; [split|]. Qed.

(** A granted write with its synchronisation: the register holds the value, the views agree. *)
Lemma alias_write_ok r a v : regs_ok r -> aliases_ok r -> is_u32 v ->
  let r' := csr_sync_supervisor_aliases a (<[a := v]> r) in
  regs_ok r' /\ aliases_ok r' /\ reg r' a = v.
Proof.
  intros Hr Ha Hv r'. pose proof (regs_ok_insert r a v Hr Hv) as Hr1.
  assert (reg (<[a := v]> r) a = v) as Hva by (by rewrite reg_insert, Z.eqb_refl).
  unfold r', csr_sync_supervisor_aliases. clear r'.
  destruct (Z.eqb_spec a 0x100) as [->|?]; [|destruct (Z.eqb_spec a 0x104) as [->|?];
    [|destruct (Z.eqb_spec a 0x144) as [->|?]; [|destruct (Z.eqb_spec a 0x300) as [->|?];
    [|destruct (Z.eqb_spec a 0x304) as [->|?]; [|destruct (Z.eqb_spec a 0x344) as [->|?]]]]]]; simpl.
  - destruct (sync_mstatus_ok _ Hr1) as [Hr2 He].
    split_and!; [done| |unfold sync_mstatus_from_sstatus; by reg_simpl].
    destruct Ha as [_ Hie Hip]. split.
    + rewrite He, merge_masked by (done || apply Hr1). unfold sync_mstatus_from_sstatus. by reg_simpl.
    + unfold sync_mstatus_from_sstatus. by reg_simpl.
    + unfold sync_mstatus_from_sstatus. by reg_simpl.
  - split_and!; [by apply sync_m_irq_ok| |].
    + apply aliases_sync_m_irq; [done|]. reg_simpl. apply Ha.
    + unfold sync_m_irq_from_s_irq. cbv zeta. by reg_simpl.
  - split_and!; [by apply sync_m_irq_ok| |].
    + apply aliases_sync_m_irq; [done|]. reg_simpl. apply Ha.
    + unfold sync_m_irq_from_s_irq. cbv zeta. by reg_simpl.
  - destruct (sync_sstatus_ok _ Hr1) as [Hr2 He].
    split_and!; [done| |unfold sync_sstatus_from_mstatus; by reg_simpl].
    destruct Ha as [_ Hie Hip]. split.
    + rewrite He, merge_masked by (done || apply Hr1). unfold sync_sstatus_from_mstatus. by reg_simpl.
    + unfold sync_sstatus_from_mstatus. by reg_simpl.
    + unfold sync_sstatus_from_mstatus. by reg_simpl.
  - split_and!; [by apply sync_s_irq_ok| |].
    + apply aliases_sync_s_irq; [done|]. reg_simpl. apply Ha.
    + unfold sync_s_irq_from_m_irq. cbv zeta. by reg_simpl.
  - split_and!; [by apply sync_s_irq_ok| |].
    + apply aliases_sync_s_irq; [done|]. reg_simpl. apply Ha.
    + unfold sync_s_irq_from_m_irq. cbv zeta. by reg_simpl.
  - split_and!; [done| |done]. apply aliases_insert; [done|].
    by repeat (apply not_elem_of_cons; split; [done|]); apply not_elem_of_nil.
Qed.

(** The registers after a granted write. *)
Definition written (r : rv32g_csr_t) (a v : Z) : rv32g_csr_t :=
  csr_sync_supervisor_aliases a (<[a := v]> r).

Lemma csr_write_run c a p v : csr_inv c -> is_u32 v ->
  exists c', csr_write_cb a p v c =
      Some (implemented a && (addr_priv a <=? p) && negb (addr_read_only a), c') /\ csr_inv c' /\
    regs c' = if implemented a && (addr_priv a <=? p) && negb (addr_read_only a)
              then written (regs c) a v else regs c.
Proof.
  intros [Hr Ha _ _ _] Hv. unfold csr_write_cb, csr_publish_core_swi_pend. mred.
  rewrite csr_write_spec. destruct (implemented a && _ && _).
  - destruct (alias_write_ok _ a v Hr Ha Hv) as (Hr' & Ha' & _). eexists. split; [reflexivity|].
    by split; [split|].
  - eexists. split; [reflexivity|]. by split; [split|].
Qed.

Lemma csr_trap_write_run c a v : csr_inv c -> is_u32 v ->
  exists c', csr_trap_write_cb a v c =
      Some (implemented a && (addr_priv a <=? 3) && negb (addr_read_only a), c') /\ csr_inv c' /\
    regs c' = if implemented a && (addr_priv a <=? 3) && negb (addr_read_only a)
              then written (regs c) a v else regs c.
Proof.
  intros [Hr Ha _ _ _] Hv. unfold csr_trap_write_cb. mred.
  rewrite csr_write_spec. change RV32G_PRIV_MACHINE with 3. destruct (implemented a && _ && _).
  - destruct (alias_write_ok _ a v Hr Ha Hv) as (Hr' & Ha' & _). eexists. split; [reflexivity|].
    by split; [split|].
  - eexists. split; [reflexivity|]. by split; [split|].
Qed.

Lemma csr_read_run c a p :
  csr_read_cb a p c = Some (if implemented a && (addr_priv a <=? p)
                            then (reg (regs c) a, true) else (0, false), c).
Proof.
  unfold csr_read_cb. mred. rewrite csr_read_spec. by destruct (implemented a && _).
Qed.

(** A double word from its halves. *)
Lemma words_join h l : is_u32 h -> is_u32 l -> Z.lor (Z.shiftl h 32) l = h * W32 + l.
Proof.
  intros Hh Hl. by apply (lor_shiftl_add h l 32).
Qed.

(** The interrupt inputs and timers. *)
Definition mip_after (c : csr_t) (mip : Z) : Z :=
  let time := Z.lor (Z.shiftl (u32 (Z.shiftr (core_timer_in c) 32)) 32) (u32 (core_timer_in c)) in
  let stimecmp := Z.lor (Z.shiftl (reg (regs c) A_stimecmph) 32) (reg (regs c) A_stimecmp) in
  let mip := set_bits mip 7 1 (b2z (core_m_irq_mtimer c)) in
  let mip := set_bits mip 3 1 (b2z (core_m_irq_msw c)) in
  let mip := set_bits mip 11 1 (b2z (ext_irq_in c)) in
  let mip := set_bits mip 9 1 (b2z (ext_irq_in c)) in
  set_bits mip 5 1 (b2z (stimecmp <=? time)).

(** [csr_update_proc] as a function of the registers. *)
Definition regs_after (c : csr_t) : rv32g_csr_t :=
  let r := <[A_time := u32 (core_timer_in c)]> (regs c) in
  let r := <[A_timeh := u32 (Z.shiftr (core_timer_in c) 32)]> r in
  let r := sync_s_irq_from_m_irq (set_field A_mip 3 1 (b2z (core_m_irq_msw c))
             (set_field A_mip 7 1 (b2z (core_m_irq_mtimer c)) r)) in
  let r := sync_s_irq_from_m_irq (set_field A_mip 9 1 (b2z (ext_irq_in c))
             (set_field A_mip 11 1 (b2z (ext_irq_in c)) r)) in
  let time := Z.lor (Z.shiftl (reg r A_timeh) 32) (reg r A_time) in
  let stimecmp := Z.lor (Z.shiftl (reg r A_stimecmph) 32) (reg r A_stimecmp) in
  let r := sync_s_irq_from_m_irq (set_field A_mip 5 1 (b2z (stimecmp <=? time)) r) in
  <[A_cycleh := u32 (Z.shiftr (csr_cycle c) 32)]> (<[A_cycle := u32 (csr_cycle c)]> r).

Lemma csr_update_run c : csr_update_proc c = Some (tt, c <| regs := regs_after c |>).
Proof. by destruct c. Qed.

(** Registers that synchronisation to the supervisor side does not write. *)
Lemma reg_sync_s r a : a <> A_sie -> a <> A_sip -> reg (sync_s_irq_from_m_irq r) a = reg r a.
Proof.
  intros H1 H2. unfold sync_s_irq_from_m_irq. cbv zeta. rewrite !reg_insert.
  by rewrite !(proj2 (Z.eqb_neq _ a)) by congruence.
Qed.

Lemma reg_set_field r a lo w v b :
  reg (set_field a lo w v r) b = if a =? b then set_bits (reg r a) lo w v else reg r b.
Proof. apply reg_insert. Qed.

Ltac regs_simpl :=
  repeat first [ rewrite reg_sync_s by done | rewrite reg_set_field | rewrite reg_insert ]; zconst.

Lemma regs_after_ok c : regs_ok (regs c) -> regs_ok (regs_after c).
Proof.
  intros Hr. unfold regs_after. cbv zeta.
  repeat first [ apply regs_ok_insert; [|apply u32_range] | apply sync_s_irq_ok
               | apply regs_ok_field; [|lia..] ]. done.
Qed.

Lemma regs_after_aliases c : regs_ok (regs c) -> aliases_ok (regs c) -> aliases_ok (regs_after c).
Proof.
  intros Hr Ha. unfold regs_after. cbv zeta.
  apply aliases_insert; [|compute_done]. apply aliases_insert; [|compute_done].
  apply aliases_sync_s_irq.
  - repeat first [ apply regs_ok_insert; [|apply u32_range] | apply sync_s_irq_ok
                 | apply regs_ok_field; [|lia..] ]. done.
  - regs_simpl. apply Ha.
Qed.

Lemma regs_after_mip c : reg (regs_after c) A_mip = mip_after c (reg (regs c) A_mip).
Proof. unfold regs_after, mip_after. cbv zeta. by regs_simpl. Qed.

Lemma csr_s_irq_run c : regs_ok (regs c) -> aliases_ok (regs c) ->
  exists c', csr_core_s_irq_proc c = Some (tt, c') /\ regs_ok (regs c') /\ aliases_ok (regs c') /\
    reg (regs c') A_mip = match ch_pkts (core_s_irq_slv c) with
                          | true :: _ => set_bits (reg (regs c) A_mip) 1 1 1
                          | _ => reg (regs c) A_mip
                          end.
Proof.
  intros Hr Ha. unfold csr_core_s_irq_proc. mred.
  destruct (chan_empty (core_s_irq_slv c)) eqn:E.
  { apply chan_empty_spec in E. rewrite E. by exists c. }
  apply chan_empty_false in E as (b & q & E). rewrite (chan_read_cons _ _ _ E), E. cbv beta iota zeta.
  destruct b; [|by eexists].
  eexists. split; [reflexivity|]. 
  set (r := set_field A_sip 1 1 1 (set_field A_mip 1 1 1 (regs c))).
  assert (regs_ok r) as Hr1 by (repeat (apply regs_ok_field; [|lia..]); done).
  change (regs_ok (sync_m_irq_from_s_irq r) /\ aliases_ok (sync_m_irq_from_s_irq r) /\
    reg (sync_m_irq_from_s_irq r) A_mip = set_bits (reg (regs c) A_mip) 1 1 1).
  split_and!; [by apply sync_m_irq_ok| |].
  - apply aliases_sync_m_irq; [done|]. unfold r. regs_simpl. apply Ha.
  - unfold sync_m_irq_from_s_irq. cbv zeta. rewrite reg_insert. zconst. unfold r. regs_simpl.
    apply Z.bits_inj'. intros i Hi.
    fold (merge CSR_S_IRQ_MASK (set_bits (reg (regs c) A_mip) 1 1 1) (set_bits (reg (regs c) A_sip) 1 1 1)).
    rewrite testbit_merge by (done || (apply is_u32_set_bits; [apply Hr|lia..])).
    destruct (Z.testbit CSR_S_IRQ_MASK i) eqn:Hm; [|done].
    rewrite !testbit_set_bits by lia. case_match; [done|].
    pose proof (f_equal (fun z => Z.testbit z i) (al_ip _ Ha)) as Hip. simpl in Hip.
    by rewrite !Z.land_spec, Hm, !andb_true_r in Hip.
Qed.

Lemma csr_clock_run c : csr_inv c ->
  exists c', csr_clock c = Some (tt, c') /\ csr_inv c' /\
    reg (regs c') A_mip =
      let mip := mip_after c (reg (regs c) A_mip) in
      match ch_pkts (core_s_irq_slv c) with true :: _ => set_bits mip 1 1 1 | _ => mip end.
Proof.
  intros [Hr Ha _ _ _]. unfold csr_clock. unfold mbind, M_bind. rewrite csr_update_run.
  destruct (csr_s_irq_run (c <| regs := regs_after c |>)) as (c1 & -> & Hr1 & Ha1 & Hm);
    [by apply regs_after_ok|by apply regs_after_aliases|].
  destruct (publish_ok c1 Hr1 Ha1) as (c2 & -> & Hi & He). exists c2. split_and!; [done..|].
  rewrite He, Hm. cbn [regs core_s_irq_slv]. upd_proj. by rewrite regs_after_mip.
Qed.

Lemma csr_reset_run c : exists c', csr_reset c = Some (tt, c') /\ csr_inv c'.
Proof.
  set (r := <[A_stimecmph := 0xffffffff]> (<[A_stimecmp := 0xffffffff]> rv32g_csr_reset)).
  assert (regs_ok r) as Hr.
  { do 2 (apply regs_ok_insert; [|done]). intros a. rewrite reg_reset. by case_match. }
  set (r1 := sync_sstatus_from_mstatus r).
  destruct (sync_sstatus_ok r Hr) as [Hr1 He].
  assert (aliases_ok (sync_s_irq_from_m_irq r1)) as Ha.
  { apply aliases_sync_s_irq; [done|]. unfold r1. by rewrite He, (merge_masked _ _ _ (proj1 mask_u32) (Hr _)). }
  pose proof (sync_s_irq_ok r1 Hr1) as Hr2.
  eexists. split; [by destruct c|]. split; [exact Hr2|exact Ha|reflexivity..].
Qed.

#[export] Instance csr_port_laws : CsrPortLaws csr_t.
Proof.
  apply (Build_CsrPortLaws csr_t _ csr_inv).
  - intros a p c Hc. apply (wp_intro _ _ _ _ _ (csr_read_run c a p)). split; [|done].
    destruct (_ && _); [apply Hc|done].
  - intros a p v c Hc Hv. destruct (csr_write_run c a p v Hc Hv) as (c' & E & Hi & _).
    by apply (wp_intro _ _ _ _ _ E).
Defined.

(** ** Runs *)

(** What happens to the module: the callbacks, the clock and changes of its inputs. *)
Inductive csr_step : csr_t -> csr_t -> Prop :=
| CsrStepRead a p r c c' : csr_read_cb a p c = Some (r, c') -> csr_step c c'
| CsrStepWrite a p v ok c c' : is_u32 v -> csr_write_cb a p v c = Some (ok, c') -> csr_step c c'
| CsrStepTrapWrite a v ok c c' : is_u32 v -> csr_trap_write_cb a v c = Some (ok, c') -> csr_step c c'
| CsrStepClock c c' : csr_clock c = Some (tt, c') -> csr_step c c'
| CsrStepInputs q t mt ms e n c :
    csr_step c (c <| core_s_irq_slv := q |> <| core_timer_in := t |> <| core_m_irq_mtimer := mt |>
      <| core_m_irq_msw := ms |> <| ext_irq_in := e |> <| csr_cycle := n |>).

Lemma csr_inv_step c c' : csr_inv c -> csr_step c c' -> csr_inv c'.
Proof.
  intros Hi Hs. destruct Hs as [a p r c c' E|a p v ok c c' Hv E|a v ok c c' Hv E|c c' E|].
  - rewrite csr_read_run in E. by simplify_eq.
  - destruct (csr_write_run c a p v Hi Hv) as (c2 & E2 & Hi2 & _). congruence.
  - destruct (csr_trap_write_run c a v Hi Hv) as (c2 & E2 & Hi2 & _). congruence.
  - destruct (csr_clock_run c Hi) as (c2 & E2 & Hi2 & _). congruence.
  - by destruct Hi, c.
Qed.

(** ** Theorems *)

(** C16: In every run of the CSR module from reset, with any inputs and any accesses of the
    execution and trap units, sstatus, sie and sip show the supervisor fields of mstatus, mie
    and mip, all registers are words, and the state signals to the MMU, the LSU and the trap
    unit carry the current registers. *)
Theorem csr_views_coherent c0 c1 c : csr_reset c0 = Some (tt, c1) -> rtc csr_step c1 c ->
  aliases_ok (regs c) /\ regs_ok (regs c) /\
  trap_state_o c = trap_view (regs c) /\ lsu_state_o c = reg (regs c) A_satp /\
  mmu_state_o c = CsrMmuState (reg (regs c) A_satp) (reg (regs c) A_mstatus).
Proof.
  intros H0 Hrun. destruct (csr_reset_run c0) as (c1' & E & Hi).
  rewrite E in H0. injection H0 as ->. clear E.
  assert (csr_inv c) as []; [|done].
  induction Hrun as [x|x y z Hs Hrun IH]; [done|]. by eapply IH, csr_inv_step.
Qed.


(** After a clock of the CSR module the pending bits follow the inputs: MTIP and MSIP the
    machine timer and software lines, MEIP and SEIP the external line, STIP the comparison of
    the 64-bit time with stimecmp; SSIP is set by a supervisor software interrupt message and
    otherwise kept; and sip shows the same supervisor bits. *)
Theorem csr_clock_pending c : csr_inv c -> is_u64 (core_timer_in c) ->
  exists c', csr_clock c = Some (tt, c') /\
  let mip := reg (regs c') A_mip in
  Z.testbit mip 7 = core_m_irq_mtimer c /\ Z.testbit mip 3 = core_m_irq_msw c /\
  Z.testbit mip 11 = ext_irq_in c /\ Z.testbit mip 9 = ext_irq_in c /\
  Z.testbit mip 5 =
    (reg (regs c) A_stimecmph * W32 + reg (regs c) A_stimecmp <=? core_timer_in c) /\
  Z.testbit mip 1 = (match ch_pkts (core_s_irq_slv c) with true :: _ => true | _ => false end
                     || Z.testbit (reg (regs c) A_mip) 1) /\
  Z.land (reg (regs c') A_sip) CSR_S_IRQ_MASK = Z.land mip CSR_S_IRQ_MASK.
Proof.
  intros Hi Ht. destruct (csr_clock_run c Hi) as (c' & E & Hi' & Hm). exists c'. split; [done|].
  assert (Z.lor (Z.shiftl (u32 (Z.shiftr (core_timer_in c) 32)) 32) (u32 (core_timer_in c)) =
    core_timer_in c) as Htime.
  { rewrite words_join by apply u32_range. rewrite Z.shiftr_div_pow2 by lia.
    change (2 ^ 32) with W32. unfold is_u64 in Ht. rewrite (u32_small (_ / W32)).
    - unfold u32. rewrite Z.mul_comm. symmetry. apply Z.div_mod. done.
    - unfold is_u32, W32, W64 in *. zdiv. }
  assert (forall b, Z.testbit (b2z b) 0 = b) as Hb by (by intros []).
  pose proof (al_ip _ (ci_aliases _ Hi')) as Hal. rewrite Hm in Hal.
  cbv zeta. rewrite Hm. cbv zeta. clear Hm.
  set (mip := mip_after c (reg (regs c) A_mip)).
  assert (forall i, 0 <= i -> i <> 1 ->
    Z.testbit (match ch_pkts (core_s_irq_slv c) with true :: _ => set_bits mip 1 1 1 | _ => mip end) i
    = Z.testbit mip i) as Hne.
  { intros i Hi0 Hi1. destruct (ch_pkts (core_s_irq_slv c)) as [|[] ?]; [done| |done].
    rewrite testbit_set_bits by lia. destruct (Z.leb_spec 1 i), (Z.ltb_spec i (1 + 1)); done || lia. }
  rewrite !Hne by lia. split_and!; [..|exact Hal]; unfold mip, mip_after;
    rewrite Htime, words_join by apply Hi.
  - rewrite !testbit_set_bits by lia. apply Hb.
  - rewrite !testbit_set_bits by lia. apply Hb.
  - rewrite !testbit_set_bits by lia. apply Hb.
  - rewrite !testbit_set_bits by lia. apply Hb.
  - rewrite !testbit_set_bits by lia. apply Hb.
  - destruct (ch_pkts (core_s_irq_slv c)) as [|[] ?]; rewrite !testbit_set_bits by lia; done.
Qed.

(** ** Witnesses *)

(** A module before reset, with inputs that raise the timer, the external line and a software
    interrupt message. *)
Definition csr_boot : csr_t :=
  Csr (Chan 4 [true]) 0x100000005 true false true 9 false (CsrMmuState 0 0) 0
    (CsrTrapState 0 0 0 0 0 0 0 0 0 0 0 0) ∅.

(** The same module after reset, and after a write of stimecmph with a clock. *)
Definition csr_started : csr_t :=
  Eval vm_compute in default csr_boot (snd <$> csr_reset csr_boot).

Lemma csr_started_reset : csr_reset csr_boot = Some (tt, csr_started).
Proof. vm_compute. reflexivity. Qed.

Lemma csr_started_inv : csr_inv csr_started.
Proof.
  destruct (csr_reset_run csr_boot) as (c & E & Hi). rewrite csr_started_reset in E.
  by injection E as ->.
Qed.

Definition csr_ticked : csr_t :=
  Eval vm_compute in default csr_boot (snd <$> csr_clock csr_started).

Lemma csr_views_coherent_witness :
  csr_reset csr_boot = Some (tt, csr_started) /\ rtc csr_step csr_started csr_ticked /\
  aliases_ok (regs csr_ticked) /\ reg (regs csr_ticked) A_sip = 0x202.
Proof.
  assert (rtc csr_step csr_started csr_ticked) as Hrun
    by (apply rtc_once, CsrStepClock; vm_compute; reflexivity).
  split; [exact csr_started_reset|]. split; [exact Hrun|]. split; [|vm_compute; reflexivity].
  exact (proj1 (csr_views_coherent csr_boot csr_started csr_ticked csr_started_reset Hrun)).
Defined.


Lemma csr_clock_pending_witness :
  csr_inv csr_started /\ is_u64 (core_timer_in csr_started) /\
  exists c', csr_clock csr_started = Some (tt, c') /\
    Z.testbit (reg (regs c') A_mip) 7 = true /\ Z.testbit (reg (regs c') A_mip) 5 = false.
Proof.
  assert (is_u64 (core_timer_in csr_started)) as Ht by (split; [discriminate|reflexivity]).
  split; [exact csr_started_inv|]. split; [exact Ht|].
  destruct (csr_clock_pending csr_started csr_started_inv Ht) as (c' & E & H7 & _ & _ & _ & H5 & _).
  exists c'. split; [exact E|]. split; [rewrite H7; reflexivity|rewrite H5; vm_compute; reflexivity].
Defined.
