(* ===== verification/Trap.v ===== *)
(** * The trap unit

    [core/hart/trap.c]: trap entry into machine and supervisor mode, delegation, mret and sret,
    the choice of an interrupt and the clock.  The unit reads the published state of the
    execution unit and of the CSR module and drives both through signals whose callbacks run
    at once; [TrapEnv] is what it sees of them, [exu_trap_env] the units themselves. *)

From stdpp Require Import base numbers list.
From Stdlib Require Import ZArith Lia Sorted.
From S2P Require Import Prelude Fifo Isa ExuState Exu CsrFile Csr.

(** ** The units around *)

Class TrapEnv (E : Type) := {
  env_exu_state : E -> exu_state_if_t;
  env_exu_ctrl : trap_exu_ctrl_if_t -> M E unit;
  env_csr_state : E -> csr_trap_state_if_t;
  env_csr_write : Z -> Z -> M E bool
}.

(** The registers the unit writes. *)
Definition trap_csrs : list Z := [0x300; 0x341; 0x342; 0x343; 0x141; 0x142; 0x143].

(** What the unit relies on, in terms of the registers behind the published state: a control
    write is published at once; a register write is granted and published at once and, but for
    the view of mstatus in sstatus, changes that register only. *)
Class TrapEnvLaws (E : Type) `{!TrapEnv E} := {
  env_ok : E -> Prop;
  env_reg : E -> Z -> Z;
  env_reg_u32 : forall e a, env_ok e -> is_u32 (env_reg e a);
  env_csr_state_view : forall e, env_ok e ->
    env_csr_state e = CsrTrapState (env_reg e A_mstatus) (env_reg e A_mip) (env_reg e A_mie)
      (env_reg e A_mtvec) (env_reg e A_mepc) (env_reg e A_medeleg) (env_reg e A_mideleg)
      (env_reg e A_sstatus) (env_reg e A_sip) (env_reg e A_sie) (env_reg e A_stvec)
      (env_reg e A_sepc);
  env_ctrl_ok : forall c e, env_ok e ->
    wp (env_exu_ctrl c) (fun _ e' => env_ok e' /\
      env_exu_state e' = ExuStateIf (tc_priv c) (st_pc (env_exu_state e)) (tc_irq_epc c)
        (st_trap_defer (env_exu_state e)) (tc_wfi c) (st_wfi_resume_pc (env_exu_state e)) /\
      forall a, env_reg e' a = env_reg e a) e;
  env_write_ok : forall a v e, env_ok e -> a ∈ trap_csrs -> is_u32 v ->
    wp (env_csr_write a v) (fun ok e' => ok = true /\ env_ok e' /\
      env_exu_state e' = env_exu_state e /\ env_reg e' a = v /\
      forall b, b <> a -> b <> A_sstatus -> env_reg e' b = env_reg e b) e
}.

(** ** State *)

Record trap_t (E : Type) := Trap {
  fch_expt_slv : chan hart_expt_if_t;
  ex_expt_slv : chan hart_expt_if_t;
  ldst_expt_slv : chan hart_expt_if_t;
  trap_send_mst : chan Z;
  trap_env : E
}.
Arguments Trap {E} _ _ _ _ _.
Arguments fch_expt_slv {E} _.
Arguments ex_expt_slv {E} _.
Arguments ldst_expt_slv {E} _.
Arguments trap_send_mst {E} _.
Arguments trap_env {E} _.
#[export] Instance eta_trap E : Eta (trap_t E) := fun t =>
  Trap (fch_expt_slv t) (ex_expt_slv t) (ldst_expt_slv t) (trap_send_mst t) (trap_env t).

Definition EPC_ALIGN_MASK : Z := not32 3.

(** ** Operations *)

Section trap.
  Context {E : Type} `{!TrapEnv E}.
  Implicit Types (trap : trap_t E).

Definition csr_state_i trap : csr_trap_state_if_t := env_csr_state (trap_env trap).
Definition exu_state_i trap : exu_state_if_t := env_exu_state (trap_env trap).

Definition trap_mstatus trap : Z := ct_mstatus (csr_state_i trap).

Definition trap_write_csr (addr val : Z) : M (trap_t E) unit :=
  ok ← on trap_env (env_csr_write addr val);
  DBG_CHECK ok.

Definition trap_update_exu (priv irq_epc : Z) (wfi : bool) : M (trap_t E) unit :=
  on trap_env (env_exu_ctrl (TrapExuCtrl priv irq_epc wfi)).

Definition trap_send_redirect (target_pc : Z) : M (trap_t E) unit :=
  on trap_send_mst (chan_write target_pc).

Definition trap_compute_tvec_pc (raw : Z) (is_interrupt : bool) (cause : Z) : Z :=
  let base := u32 (Z.shiftl (bits raw 2 30) 2) in
  if is_interrupt && (bits raw 0 2 =? 1) then u32 (base + u32 (cause * 4)) else base.

Definition trap_compute_stvec_pc (raw : Z) (is_interrupt : bool) (cause : Z) : Z :=
  let base := u32 (Z.shiftl (bits raw 2 30) 2) in
  if is_interrupt && (bits raw 0 2 =? 1) then u32 (base + u32 (cause * 4)) else base.

(** A shift by 32 or more is undefined. *)
Definition trap_is_delegated_to_s (src_priv : Z) (is_interrupt : bool) (cause : Z)
    : M (trap_t E) bool :=
  if src_priv =? RV32G_PRIV_MACHINE then mret false
  else
    trap ← gets id;
    let deleg := if is_interrupt then ct_mideleg (csr_state_i trap)
                 else ct_medeleg (csr_state_i trap) in
    DBG_CHECK (cause <? 32);;
    mret (negb (Z.land (Z.shiftr deleg cause) 1 =? 0)).

Definition trap_enter_m_mode (src_priv cause : Z) (is_interrupt : bool) (epc tval : Z)
    : M (trap_t E) unit :=
  trap ← gets id;
  let mstatus := trap_mstatus trap in
  let mcause := 0 in
  let mstatus := set_bits mstatus 7 1 (bits mstatus 3 1) in
  let mstatus := set_bits mstatus 11 2 src_priv in
  let mstatus := set_bits mstatus 3 1 0 in
  let mcause := set_bits mcause 0 31 cause in
  let mcause := set_bits mcause 31 1 (if is_interrupt then 1 else 0) in
  trap_write_csr 0x300 mstatus;;
  trap_write_csr 0x342 mcause;;
  trap_write_csr 0x341 (Z.land epc EPC_ALIGN_MASK);;
  trap_write_csr 0x343 tval;;
  trap ← gets id;
  let target_pc := trap_compute_tvec_pc (ct_mtvec (csr_state_i trap)) is_interrupt cause in
  trap_update_exu RV32G_PRIV_MACHINE target_pc false;;
  trap_send_redirect target_pc.

Definition trap_enter_s_mode (src_priv cause : Z) (is_interrupt : bool) (epc tval : Z)
    : M (trap_t E) unit :=
  trap ← gets id;
  let mstatus := trap_mstatus trap in
  let scause := 0 in
  let mstatus := set_bits mstatus 5 1 (bits mstatus 1 1) in
  let mstatus := set_bits mstatus 8 1 (if src_priv =? RV32G_PRIV_SUPERVISOR then 1 else 0) in
  let mstatus := set_bits mstatus 1 1 0 in
  let scause := set_bits scause 0 31 cause in
  let scause := set_bits scause 31 1 (if is_interrupt then 1 else 0) in
  trap_write_csr 0x300 mstatus;;
  trap_write_csr 0x142 scause;;
  trap_write_csr 0x141 (Z.land epc EPC_ALIGN_MASK);;
  trap_write_csr 0x143 tval;;
  trap ← gets id;
  let target_pc := trap_compute_stvec_pc (ct_stvec (csr_state_i trap)) is_interrupt cause in
  trap_update_exu RV32G_PRIV_SUPERVISOR target_pc false;;
  trap_send_redirect target_pc.

Definition trap_take (src_priv cause : Z) (is_interrupt : bool) (epc tval : Z)
    : M (trap_t E) unit :=
  deleg ← trap_is_delegated_to_s src_priv is_interrupt cause;
  if deleg : bool then trap_enter_s_mode src_priv cause is_interrupt epc tval
  else trap_enter_m_mode src_priv cause is_interrupt epc tval.

Definition trap_do_mret : M (trap_t E) unit :=
  trap ← gets id;
  let mstatus := trap_mstatus trap in
  let prev_priv := bits mstatus 11 2 in
  let mstatus := set_bits mstatus 3 1 (bits mstatus 7 1) in
  let mstatus := set_bits mstatus 7 1 1 in
  let mstatus := set_bits mstatus 11 2 RV32G_PRIV_USER in
  let mstatus := if negb (prev_priv =? RV32G_PRIV_MACHINE) then set_bits mstatus 17 1 0
                 else mstatus in
  trap_write_csr 0x300 mstatus;;
  trap ← gets id;
  let target_pc := Z.land (ct_mepc (csr_state_i trap)) EPC_ALIGN_MASK in
  trap_update_exu prev_priv target_pc false;;
  trap_send_redirect target_pc.

Definition trap_do_sret : M (trap_t E) unit :=
  trap ← gets id;
  let mstatus := trap_mstatus trap in
  let prev_priv := if negb (bits mstatus 8 1 =? 0) then RV32G_PRIV_SUPERVISOR
                   else RV32G_PRIV_USER in
  let mstatus := set_bits mstatus 1 1 (bits mstatus 5 1) in
  let mstatus := set_bits mstatus 5 1 1 in
  let mstatus := set_bits mstatus 8 1 0 in
  let mstatus := set_bits mstatus 17 1 0 in
  trap_write_csr 0x300 mstatus;;
  trap ← gets id;
  let target_pc := Z.land (ct_sepc (csr_state_i trap)) EPC_ALIGN_MASK in
  trap_update_exu prev_priv target_pc false;;
  trap_send_redirect target_pc.

Definition trap_handle_exception (expt : hart_expt_if_t) : M (trap_t E) unit :=
  if expt_type expt =? HART_EXPT_TYPE_MRET then trap_do_mret
  else if expt_type expt =? HART_EXPT_TYPE_SRET then trap_do_sret
  else if expt_type expt =? HART_EXPT_TYPE_EXCEPTION then
    cause ← (if expt_cause expt =? HART_EXPT_CAUSE_ECALL then
               if expt_priv expt =? RV32G_PRIV_USER then mret 8
               else if expt_priv expt =? RV32G_PRIV_SUPERVISOR then mret 9
               else if expt_priv expt =? RV32G_PRIV_MACHINE then mret 11
               else abort
             else mret (expt_cause expt));
    trap_take (expt_priv expt) cause false (expt_pc expt) (expt_tval expt)
  else abort.

(** The result says whether an exception was handled. *)
Definition trap_proc_exception : M (trap_t E) bool :=
  trap ← gets id;
  if negb (chan_empty (ex_expt_slv trap)) then
    expt ← on ex_expt_slv chan_read;
    trap_handle_exception expt;;
    mret true
  else if negb (chan_empty (ldst_expt_slv trap)) then
    expt ← on ldst_expt_slv chan_read;
    trap_handle_exception expt;;
    mret true
  else if negb (st_trap_defer (exu_state_i trap)) then
    if negb (chan_empty (fch_expt_slv trap)) then
      expt ← on fch_expt_slv chan_read;
      trap_handle_exception expt;;
      mret true
    else mret false
  else mret false.

Definition trap_pending_irq trap : Z :=
  let pending := Z.land (ct_mip (csr_state_i trap)) (ct_mie (csr_state_i trap)) in
  if pending =? 0 then -1
  else
    let mstatus := trap_mstatus trap in
    let priv := st_priv (exu_state_i trap) in
    let m_ie := if priv =? RV32G_PRIV_MACHINE then nz (bits mstatus 3 1) else true in
    let s_ie := if priv =? RV32G_PRIV_SUPERVISOR then nz (bits mstatus 1 1)
                else priv <? RV32G_PRIV_SUPERVISOR in
    let m_enabled := Z.land pending (not32 (ct_mideleg (csr_state_i trap))) in
    let s_enabled := Z.land pending (ct_mideleg (csr_state_i trap)) in
    let s_part :=
      if s_ie && nz s_enabled then
        if nz (Z.land s_enabled (Z.shiftl 1 9)) then 9
        else if nz (Z.land s_enabled (Z.shiftl 1 1)) then 1
        else if nz (Z.land s_enabled (Z.shiftl 1 5)) then 5
        else if nz (Z.land s_enabled (Z.shiftl 1 13)) then 13
        else -1
      else -1 in
    if m_ie && nz m_enabled then
      if nz (Z.land m_enabled (Z.shiftl 1 11)) then 11
      else if nz (Z.land m_enabled (Z.shiftl 1 3)) then 3
      else if nz (Z.land m_enabled (Z.shiftl 1 7)) then 7
      else if nz (Z.land m_enabled (Z.shiftl 1 9)) then 9
      else if nz (Z.land m_enabled (Z.shiftl 1 1)) then 1
      else if nz (Z.land m_enabled (Z.shiftl 1 5)) then 5
      else if nz (Z.land m_enabled (Z.shiftl 1 13)) then 13
      else s_part
    else s_part.

Definition trap_proc_interrupt : M (trap_t E) unit :=
  trap ← gets id;
  if st_trap_defer (exu_state_i trap) then mret tt
  else
    let irq := trap_pending_irq trap in
    let wake := nz (Z.land (ct_mip (csr_state_i trap)) (ct_mie (csr_state_i trap))) in
    if irq <? 0 then
      when (st_wfi (exu_state_i trap) && wake)
        (let epc := st_wfi_resume_pc (exu_state_i trap) in
         trap_update_exu (st_priv (exu_state_i trap)) epc false;;
         trap_send_redirect epc)
    else
      let epc := if st_wfi (exu_state_i trap) then st_wfi_resume_pc (exu_state_i trap)
                 else st_irq_epc (exu_state_i trap) in
      trap_take (st_priv (exu_state_i trap)) irq true epc 0.

Definition trap_clock : M (trap_t E) unit :=
  handled ← trap_proc_exception;
  when (negb handled) trap_proc_interrupt.

End trap.

(** ** The units behind the interface *)

(** The execution unit with its CSR module. *)
#[export] Instance exu_trap_env : TrapEnv (exu_t csr_t) := {
  env_exu_state := state_o;
  env_exu_ctrl c := modify (fun exu => exu <| trap_ctrl_i := c |>);; exu_trap_ctrl_cb;
  env_csr_state exu := trap_state_o (exu_csr exu);
  env_csr_write a v := on exu_csr (csr_trap_write_cb a v)
}.

(** The execution unit has published its state. *)
Definition exu_published {C} (exu : exu_t C) : Prop :=
  state_o exu = ExuStateIf (priv exu) (cur_pc exu) (irq_epc exu) (trap_defer exu) (wfi exu)
    (wfi_resume_pc exu).

Lemma trap_csr_granted a : a ∈ trap_csrs ->
  implemented a && (addr_priv a <=? 3) && negb (addr_read_only a) = true.
Proof.
  intros Ha. by repeat (apply elem_of_cons in Ha as [->|Ha]; [vm_compute; reflexivity|]);
    apply elem_of_nil in Ha.
Qed.

Lemma written_other r a v b : a ∈ trap_csrs -> b <> a -> b <> A_sstatus ->
  reg (written r a v) b = reg r b.
Proof.
  intros Ha Hb Hs. unfold written, csr_sync_supervisor_aliases.
  repeat (apply elem_of_cons in Ha as [->|Ha]; [zconst; cbn [orb];
    unfold sync_sstatus_from_mstatus; rewrite ?reg_insert;
    by rewrite ?(proj2 (Z.eqb_neq A_sstatus b)), ?(proj2 (Z.eqb_neq _ b)) by done|]).
  by apply elem_of_nil in Ha.
Qed.

#[export] Instance exu_trap_env_laws : TrapEnvLaws (exu_t csr_t).
Proof.
  apply (Build_TrapEnvLaws _ _ (fun exu => csr_inv (exu_csr exu) /\ exu_published exu)
    (fun exu => reg (regs (exu_csr exu)))).
  - intros e a [Hc _]. apply Hc.
  - intros e [Hc _]. apply Hc.
  - intros c e [Hc Hp]. unfold wp. cbn [env_exu_ctrl exu_trap_env]. unfold exu_trap_ctrl_cb, exu_publish_state.
    unfold mbind, M_bind, modify. cbv beta iota. unfold exu_published. cbn [env_exu_state exu_trap_env].
    upd_proj. rewrite Hp. done.
  - intros a v e [Hc Hp] Ha Hv. destruct (csr_trap_write_run (exu_csr e) a v Hc Hv) as (c & E & Hi & Hr).
    rewrite (trap_csr_granted a Ha) in E, Hr.
    unfold wp. cbn [env_csr_write exu_trap_env]. unfold on. rewrite E. unfold exu_published.
    cbn [env_exu_state exu_trap_env]. upd_proj. split_and!; [done..| |]; rewrite Hr.
    + by apply alias_write_ok; try apply Hc.
    + intros b Hb Hs. by apply written_other.
Defined.

(** ** Register files up to the sstatus view *)

Definition reg_equiv (f g : Z -> Z) : Prop := forall a, a <> A_sstatus -> f a = g a.
Definition wr (a v : Z) (f : Z -> Z) : Z -> Z := fun b => if b =? a then v else f b.

#[export] Instance reg_equiv_equivalence : Equivalence reg_equiv.
Proof.
  split.
  - by intros f a _.
  - intros f g H a Ha. by rewrite H.
  - intros f g h H1 H2 a Ha. by rewrite H1, H2.
Qed.

#[export] Instance wr_proper a v : Proper (reg_equiv ==> reg_equiv) (wr a v).
Proof. intros f g H b Hb. unfold wr. case_match; [done|]. by apply H. Qed.

(** ** Architectural effects *)

(** The trap vector: aligned base, and in vectored mode (1) the entry of an interrupt. *)
Definition tvec_target (tvec : Z) (int : bool) (cause : Z) : Z :=
  if int && (tvec mod 4 =? 1) then u32 (tvec - tvec mod 4 + 4 * cause) else tvec - tvec mod 4.

Definition cause_word (int : bool) (cause : Z) : Z := (if int then 2147483648 else 0) + cause.

(** mstatus on entry to machine mode from privilege [p], to supervisor mode, and on return. *)
Definition m_entry (s p : Z) : Z := set_bits (set_bits (set_bits s 7 1 (bits s 3 1)) 11 2 p) 3 1 0.
Definition s_entry (s p : Z) : Z :=
  set_bits (set_bits (set_bits s 5 1 (bits s 1 1)) 8 1 (b2z (p =? 1))) 1 1 0.
Definition m_exit (s : Z) : Z :=
  let s' := set_bits (set_bits (set_bits s 3 1 (bits s 7 1)) 7 1 1) 11 2 0 in
  if bits s 11 2 =? 3 then s' else set_bits s' 17 1 0.
Definition s_exit (s : Z) : Z :=
  set_bits (set_bits (set_bits (set_bits s 1 1 (bits s 5 1)) 5 1 1) 8 1 0) 17 1 0.

(** A change of control: the new registers, the new privilege and the new program counter. *)
Record redirect := Redirect { rd_regs : Z -> Z; rd_priv : Z; rd_pc : Z }.

Definition align4 (x : Z) : Z := x - x mod 4.

Definition delegated (f : Z -> Z) (p : Z) (int : bool) (cause : Z) : bool :=
  negb (p =? 3) && Z.testbit (f (if int then A_mideleg else A_medeleg)) cause.

Definition arch_take (f : Z -> Z) (p cause : Z) (int : bool) (epc tval : Z) : redirect :=
  if delegated f p int cause then
    Redirect (wr A_stval tval (wr A_sepc (align4 epc) (wr A_scause (cause_word int cause)
      (wr A_mstatus (s_entry (f A_mstatus) p) f)))) 1 (tvec_target (f A_stvec) int cause)
  else
    Redirect (wr A_mtval tval (wr A_mepc (align4 epc) (wr A_mcause (cause_word int cause)
      (wr A_mstatus (m_entry (f A_mstatus) p) f)))) 3 (tvec_target (f A_mtvec) int cause).

Definition arch_mret (f : Z -> Z) : redirect :=
  Redirect (wr A_mstatus (m_exit (f A_mstatus)) f) (bits (f A_mstatus) 11 2) (align4 (f A_mepc)).

Definition arch_sret (f : Z -> Z) : redirect :=
  Redirect (wr A_mstatus (s_exit (f A_mstatus)) f) (bits (f A_mstatus) 8 1) (align4 (f A_sepc)).

(** ecall has a cause per privilege: 8, 9 and 11. *)
Definition arch_expt (f : Z -> Z) (x : hart_expt_if_t) : redirect :=
  if expt_type x =? HART_EXPT_TYPE_MRET then arch_mret f
  else if expt_type x =? HART_EXPT_TYPE_SRET then arch_sret f
  else arch_take f (expt_priv x)
    (if expt_cause x =? HART_EXPT_CAUSE_ECALL then 8 + expt_priv x else expt_cause x)
    false (expt_pc x) (expt_tval x).

(** Interrupts, the most urgent first; the second list are the ones supervisor mode takes. *)
Definition irq_order : list Z := [11; 3; 7; 9; 1; 5; 13].
Definition s_irq_order : list Z := [9; 1; 5; 13].

(** Interrupt [i] is pending and enabled, and enabled at privilege [p] in the mode that takes it. *)
Definition irq_enabled (f : Z -> Z) (p i : Z) : bool :=
  Z.testbit (f A_mip) i && Z.testbit (f A_mie) i &&
  (if Z.testbit (f A_mideleg) i then (p <? 1) || ((p =? 1) && Z.testbit (f A_mstatus) 1)
   else negb (p =? 3) || Z.testbit (f A_mstatus) 3).

Definition irq_m (f : Z -> Z) (p i : Z) : bool :=
  irq_enabled f p i && negb (Z.testbit (f A_mideleg) i).
Definition irq_s (f : Z -> Z) (p i : Z) : bool :=
  irq_enabled f p i && Z.testbit (f A_mideleg) i.

Definition pick_irq (f : Z -> Z) (p : Z) : option Z :=
  match List.find (irq_m f p) irq_order with
  | Some i => Some i
  | None => List.find (irq_s f p) s_irq_order
  end.

(** Interrupt [i] can be taken now, by the mode that delegation selects. *)
Definition irq_takable (f : Z -> Z) (p i : Z) : Prop :=
  irq_enabled f p i = true /\ i ∈ (if Z.testbit (f A_mideleg) i then s_irq_order else irq_order).

(** The place of an interrupt in the order; delegated ones come after the others. *)
Definition irq_pos (i : Z) : Z :=
  if i =? 11 then 0 else if i =? 3 then 1 else if i =? 7 then 2 else if i =? 9 then 3
  else if i =? 1 then 4 else if i =? 5 then 5 else 6.
Definition irq_rank (f : Z -> Z) (i : Z) : Z :=
  irq_pos i + if Z.testbit (f A_mideleg) i then 7 else 0.

(** ** Words *)

Lemma align4_mask x : is_u32 x -> Z.land x EPC_ALIGN_MASK = align4 x.
Proof.
  intros Hx. assert (Z.land x EPC_ALIGN_MASK = Z.ldiff x (Z.ones 2)) as ->.
  { apply Z.bits_inj'. intros i Hi. unfold EPC_ALIGN_MASK.
    rewrite Z.land_spec, Z.ldiff_spec, testbit_not_mask by done. change 3 with (Z.ones 2).
    destruct (Z.ltb_spec i 32); [by rewrite andb_true_r|]. by rewrite (testbit_high x). }
  rewrite Z.ldiff_ones_r, Z.shiftl_mul_pow2, Z.shiftr_div_pow2 by lia. unfold align4.
  change (2 ^ 2) with 4. zdiv.
Qed.

Lemma tvec_pc raw int cause : is_u32 raw -> 0 <= cause < 32 ->
  trap_compute_tvec_pc raw int cause = tvec_target raw int cause.
Proof.
  intros Hr Hc. unfold trap_compute_tvec_pc, tvec_target. cbv zeta.
  rewrite !bits_div_mod, Z.shiftl_mul_pow2 by lia.
  change (2 ^ 0) with 1. change (2 ^ 2) with 4. change (2 ^ 30) with 1073741824.
  rewrite Z.div_1_r. rewrite (Z.mod_small (raw / 4)) by (unfold is_u32, W32 in Hr; zdiv).
  assert (raw / 4 * 4 = raw - raw mod 4) as -> by zdiv.
  assert (is_u32 (raw - raw mod 4)) by (unfold is_u32, W32 in *; zdiv).
  rewrite (u32_small (raw - raw mod 4)) by done.
  rewrite (u32_small (cause * 4)) by (unfold is_u32, W32; lia).
  case_match; [|done]. f_equal. lia.
Qed.

Lemma cause_set_bits (int : bool) cause : 0 <= cause < 32 ->
  set_bits (set_bits 0 0 31 cause) 31 1 (if int then 1 else 0) = cause_word int cause.
Proof.
  intros Hc. assert (cause ∈ seqZ 0 32) as Hin by (by apply elem_of_seqZ).
  enough (forallb (fun c => (set_bits (set_bits 0 0 31 c) 31 1 (if int then 1 else 0)
    =? cause_word int c)) (seqZ 0 32) = true) as H.
  { apply Z.eqb_eq. by apply (proj1 (forallb_forall _ _) H), list_elem_of_In. }
  destruct int; vm_compute; reflexivity.
Qed.

Lemma find_ext {A} (f g : A -> bool) l : (forall x, x ∈ l -> f x = g x) -> List.find f l = List.find g l.
Proof.
  induction l as [|x l IH]; intros H; [done|]. simpl. rewrite H by left.
  case_match; [done|]. apply IH. intros y Hy. apply H. by right.
Qed.

Lemma find_false {A} (f : A -> bool) l : (forall x, f x = false) -> List.find f l = None.
Proof. intros H. induction l as [|x l IH]; [done|]. simpl. by rewrite H. Qed.

(** The first element that satisfies a test has the least rank. *)
Lemma find_least {A} (f : A -> bool) (rank : A -> Z) l x :
  StronglySorted (fun a b => rank a <= rank b) l -> List.find f l = Some x ->
  f x = true /\ forall y, y ∈ l -> f y = true -> rank x <= rank y.
Proof.
  induction 1 as [|a l Hs IH Ha]; [done|]. simpl. destruct (f a) eqn:Ef.
  - intros [= ->]. split; [done|]. intros y [->|Hy]%elem_of_cons _; [lia|].
    by apply (proj1 (Forall_forall _ _) Ha).
  - intros Hf. destruct (IH Hf) as [? Hmin]. split; [done|].
    intros y [->|Hy]%elem_of_cons Hy2; [congruence|]. by apply Hmin.
Qed.

(** A chain of tests [if (m & bit) return i;] behind a guard. *)
Definition chain (m : Z) (l : list Z) (k : Z) : Z :=
  foldr (fun i r => if nz (Z.land m (Z.shiftl 1 i)) then i else r) k l.

Lemma chain_find (ie : bool) m l k : Forall (fun i => 0 <= i) l ->
  (if ie && nz m then chain m l k else k) =
  match List.find (fun i => ie && Z.testbit m i) l with Some i => i | None => k end.
Proof.
  intros Hl. destruct ie; simpl; [|by rewrite find_false].
  destruct (nz m) eqn:Hm; [|by rewrite find_false by (intros; exact (nz_false _ _ Hm))].
  induction Hl as [|i l Hi Hl IH]; [done|]. simpl. rewrite nz_testbit by done. by destruct (Z.testbit m i).
Qed.

(** mstatus bit by bit. *)
Ltac status_bits :=
  repeat first [ rewrite testbit_set_bits by lia | rewrite testbit_bits by lia ];
  repeat match goal with
  | |- context [?a <=? ?b] => destruct (Z.leb_spec a b); try lia
  | |- context [?a <? ?b] => destruct (Z.ltb_spec a b); try lia
  end; cbn [andb]; rewrite ?andb_true_r, ?andb_false_r; try done; try (f_equal; lia).

Lemma s_entry_bits s p i : 0 <= i ->
  Z.testbit (s_entry s p) i =
  if i =? 1 then false else if i =? 5 then Z.testbit s 1 else if i =? 8 then p =? 1
  else Z.testbit s i.
Proof.
  intros Hi. unfold s_entry.
  destruct (Z.eqb_spec i 1) as [->|]; [status_bits|].
  destruct (Z.eqb_spec i 5) as [->|]; [status_bits|].
  destruct (Z.eqb_spec i 8) as [->|]; [status_bits; by destruct (p =? 1)|]. status_bits.
Qed.

Lemma m_entry_bits s p i : 0 <= i ->
  Z.testbit (m_entry s p) i =
  if i =? 3 then false else if i =? 7 then Z.testbit s 3 else if i =? 11 then Z.testbit p 0
  else if i =? 12 then Z.testbit p 1 else Z.testbit s i.
Proof.
  intros Hi. unfold m_entry.
  destruct (Z.eqb_spec i 3) as [->|]; [status_bits|].
  destruct (Z.eqb_spec i 7) as [->|]; [status_bits|].
  destruct (Z.eqb_spec i 11) as [->|]; [status_bits|].
  destruct (Z.eqb_spec i 12) as [->|]; status_bits.
Qed.

Lemma s_exit_bits s i : 0 <= i ->
  Z.testbit (s_exit s) i =
  if i =? 1 then Z.testbit s 5 else if i =? 5 then true else if i =? 8 then false
  else if i =? 17 then false else Z.testbit s i.
Proof.
  intros Hi. unfold s_exit.
  destruct (Z.eqb_spec i 1) as [->|]; [status_bits|].
  destruct (Z.eqb_spec i 5) as [->|]; [status_bits|].
  destruct (Z.eqb_spec i 8) as [->|]; [status_bits|].
  destruct (Z.eqb_spec i 17) as [->|]; status_bits.
Qed.

Lemma m_exit_bits s i : 0 <= i ->
  Z.testbit (m_exit s) i =
  if i =? 3 then Z.testbit s 7 else if i =? 7 then true else if i =? 11 then false
  else if i =? 12 then false
  else if i =? 17 then (bits s 11 2 =? 3) && Z.testbit s 17 else Z.testbit s i.
Proof.
  intros Hi. unfold m_exit. cbv zeta.
  destruct (Z.eqb_spec i 3) as [->|]; [case_match; status_bits|].
  destruct (Z.eqb_spec i 7) as [->|]; [case_match; status_bits|].
  destruct (Z.eqb_spec i 11) as [->|]; [case_match; status_bits|].
  destruct (Z.eqb_spec i 12) as [->|]; [case_match; status_bits|].
  destruct (Z.eqb_spec i 17) as [->|]; case_match; status_bits.
Qed.

(** The privilege that a return finds after an entry. *)
Lemma m_entry_mpp s p : p = 0 \/ p = 1 \/ p = 3 -> bits (m_entry s p) 11 2 = p.
Proof.
  intros Hp. apply Z.bits_inj'. intros i Hi. rewrite testbit_bits by lia.
  destruct (Z.ltb_spec i 2).
  - assert (i = 0 \/ i = 1) as [->| ->] by lia; rewrite andb_true_r, m_entry_bits by lia; done.
  - rewrite andb_false_r. symmetry. destruct Hp as [->|[->| ->]]; [apply Z.bits_0|..];
      apply Z.bits_above_log2; simpl; lia.
Qed.

Lemma s_entry_spp s p : bits (s_entry s p) 8 1 = b2z (p =? 1).
Proof.
  apply Z.bits_inj'. intros i Hi. rewrite testbit_bits by lia.
  destruct (Z.ltb_spec i 1).
  - assert (i = 0) as -> by lia. rewrite andb_true_r, s_entry_bits by lia. by destruct (p =? 1).
  - rewrite andb_false_r. symmetry. destruct (p =? 1); [|apply Z.bits_0].
    apply Z.bits_above_log2; simpl; lia.
Qed.

Section trap_lemmas.
  Context {E : Type} `{!TrapEnv E, !TrapEnvLaws E}.
  Implicit Types (t : trap_t E) (e : E).

Lemma wp_trap_eta {A} (m : M (trap_t E) A) Q t : wp m Q (t <| trap_env := trap_env t |>) -> wp m Q t.
Proof. by destruct t. Qed.

Definition room t : Prop := chan_num (trap_send_mst t) < ch_depth (trap_send_mst t).

(** [t'] is [t] after the redirection [r]: registers, privilege, the program counter a later
    interrupt returns to, and one packet to the fetch unit; waiting has ended. *)
Record redirected (r : redirect) t t' : Prop := {
  rd_ok : env_ok (trap_env t');
  rd_reg : reg_equiv (env_reg (trap_env t')) (rd_regs r);
  rd_exu : exu_state_i t' = ExuStateIf (rd_priv r) (st_pc (exu_state_i t)) (rd_pc r)
    (st_trap_defer (exu_state_i t)) false (st_wfi_resume_pc (exu_state_i t));
  rd_send : trap_send_mst t' = chan_snoc (trap_send_mst t) (rd_pc r);
  rd_ex : ex_expt_slv t' = ex_expt_slv t;
  rd_ldst : ldst_expt_slv t' = ldst_expt_slv t;
  rd_fch : fch_expt_slv t' = fch_expt_slv t
}.

(** The unit [t] with environment [e], whose registers are [f] and whose execution unit is as
    in [t]: the state between the steps of a change of control. *)
Record midway t (f : Z -> Z) e : Prop := {
  mw_ok : env_ok e;
  mw_reg : reg_equiv (env_reg e) f;
  mw_exu : env_exu_state e = exu_state_i t
}.

Lemma midway_start t : env_ok (trap_env t) -> midway t (env_reg (trap_env t)) (trap_env t).
Proof. by split. Qed.

Lemma midway_view t f e : midway t f e ->
  ct_mtvec (env_csr_state e) = f A_mtvec /\ ct_stvec (env_csr_state e) = f A_stvec /\
  ct_mepc (env_csr_state e) = f A_mepc /\ ct_sepc (env_csr_state e) = f A_sepc.
Proof. intros [Hok Hr _]. rewrite env_csr_state_view by done. by repeat split; apply Hr. Qed.

Lemma wp_trap_write a v f e Q t : midway t f e -> a ∈ trap_csrs -> is_u32 v ->
  (forall e', midway t (wr a v f) e' -> Q tt (t <| trap_env := e' |>)) ->
  wp (trap_write_csr a v) Q (t <| trap_env := e |>).
Proof.
  intros [Hok Hf Hx] Ha Hv HQ. unfold trap_write_csr. apply wp_bind, wp_on.
  eapply wp_mono; [by apply env_write_ok|]. intros ok e' (-> & He & Hx' & Hr & Ho). simpl.
  apply wp_check; [done|]. apply HQ. split; [done| |by rewrite Hx']. intros b Hb. unfold wr.
  destruct (Z.eqb_spec b a) as [->|Hne]; [done|]. rewrite Ho by done. by apply Hf.
Qed.

(** The end of every change of control. *)
Lemma wp_trap_finish p pc f e Q t : midway t f e -> room t ->
  (forall t', redirected (Redirect f p pc) t t' -> Q tt t') ->
  wp (trap_update_exu p pc false;; trap_send_redirect pc) Q (t <| trap_env := e |>).
Proof.
  intros [Hok Hf Hx] Hroom HQ. unfold trap_update_exu, trap_send_redirect. apply wp_bind, wp_on.
  eapply wp_mono; [by apply env_ctrl_ok|]. intros [] e' (He & Hx' & Hr). unfold wp.
  rewrite on_chan_write by done. apply HQ. split; try done.
  - intros a Ha. simpl. rewrite Hr. by apply Hf.
  - unfold exu_state_i at 1. upd_proj. rewrite Hx'. upd_proj. by rewrite Hx.
Qed.

Lemma cause_word_u32 int cause : 0 <= cause < 32 -> is_u32 (cause_word int cause).
Proof. unfold is_u32, W32, cause_word. case_match; lia. Qed.

Lemma align4_u32 x : is_u32 x -> is_u32 (align4 x).
Proof. unfold is_u32, W32, align4. zdiv. Qed.

(** The first step, a register write and the last step in a proof of a change of control. *)
Ltac trap_start :=
  apply wp_bind, wp_gets; cbv zeta;
  unfold trap_mstatus, csr_state_i, id; rewrite env_csr_state_view by done; cbn [ct_mstatus].
Ltac trap_word :=
  solve [ by auto with word | by apply cause_word_u32 | by apply align4_u32
        | repeat case_match; repeat (apply is_u32_set_bits; [|lia..]); by apply env_reg_u32 ].
Ltac trap_write H := apply wp_bind, (wp_trap_write _ _ _ _ _ _ H); [compute_done|trap_word|];
  clear H; let e := fresh "e" in intros e H.
Ltac trap_view H :=
  apply wp_bind, wp_gets; cbv zeta; unfold csr_state_i, id; upd_proj;
  let H1 := fresh in let H2 := fresh in let H3 := fresh in let H4 := fresh in
  destruct (midway_view _ _ _ H) as (H1 & H2 & H3 & H4);
  rewrite ?H1, ?H2, ?H3, ?H4; clear H1 H2 H3 H4.

Lemma wp_enter_m p cause int epc tval Q t : env_ok (trap_env t) -> room t ->
  0 <= cause < 32 -> is_u32 epc -> is_u32 tval ->
  (forall t', redirected (Redirect
    (let f := env_reg (trap_env t) in
     wr A_mtval tval (wr A_mepc (align4 epc) (wr A_mcause (cause_word int cause)
       (wr A_mstatus (m_entry (f A_mstatus) p) f)))) 3
    (tvec_target (env_reg (trap_env t) A_mtvec) int cause)) t t' -> Q tt t') ->
  wp (trap_enter_m_mode p cause int epc tval) Q t.
Proof.
  intros Hok Hroom Hc He Ht HQ. unfold trap_enter_m_mode. trap_start.
  rewrite cause_set_bits, align4_mask by done.
  pose proof (midway_start t Hok) as H. apply wp_trap_eta.
  do 4 trap_write H. trap_view H. rewrite tvec_pc by (done || by apply env_reg_u32).
  by apply (wp_trap_finish _ _ _ _ _ _ H).
Qed.

Lemma wp_enter_s p cause int epc tval Q t : env_ok (trap_env t) -> room t ->
  0 <= cause < 32 -> is_u32 epc -> is_u32 tval ->
  (forall t', redirected (Redirect
    (let f := env_reg (trap_env t) in
     wr A_stval tval (wr A_sepc (align4 epc) (wr A_scause (cause_word int cause)
       (wr A_mstatus (s_entry (f A_mstatus) p) f)))) 1
    (tvec_target (env_reg (trap_env t) A_stvec) int cause)) t t' -> Q tt t') ->
  wp (trap_enter_s_mode p cause int epc tval) Q t.
Proof.
  intros Hok Hroom Hc He Ht HQ. unfold trap_enter_s_mode. trap_start.
  rewrite cause_set_bits, align4_mask by done.
  pose proof (midway_start t Hok) as H. apply wp_trap_eta.
  do 4 trap_write H. trap_view H. change trap_compute_stvec_pc with trap_compute_tvec_pc.
  rewrite tvec_pc by (done || by apply env_reg_u32).
  by apply (wp_trap_finish _ _ _ _ _ _ H).
Qed.

Lemma wp_mret Q t : env_ok (trap_env t) -> room t ->
  (forall t', redirected (arch_mret (env_reg (trap_env t))) t t' -> Q tt t') ->
  wp trap_do_mret Q t.
Proof.
  intros Hok Hroom HQ. unfold trap_do_mret. trap_start.
  pose proof (midway_start t Hok) as H. apply wp_trap_eta. trap_write H. trap_view H.
  rewrite align4_mask by (by apply env_reg_u32). apply (wp_trap_finish _ _ _ _ _ _ H); [done|].
  intros t' Ht'. apply HQ. unfold arch_mret, m_exit. cbv zeta.
  change RV32G_PRIV_MACHINE with 3 in Ht'.
  by destruct (bits _ 11 2 =? 3).
Qed.

Lemma wp_sret Q t : env_ok (trap_env t) -> room t ->
  (forall t', redirected (arch_sret (env_reg (trap_env t))) t t' -> Q tt t') ->
  wp trap_do_sret Q t.
Proof.
  intros Hok Hroom HQ. unfold trap_do_sret. trap_start.
  pose proof (midway_start t Hok) as H. apply wp_trap_eta. trap_write H. trap_view H.
  rewrite align4_mask by (by apply env_reg_u32). apply (wp_trap_finish _ _ _ _ _ _ H); [done|].
  intros t' Ht'. apply HQ. unfold arch_sret, s_exit.
  pose proof (bits_range (env_reg (trap_env t) A_mstatus) 8 1 ltac:(lia) ltac:(lia)).
  destruct (Z.eqb_spec (bits (env_reg (trap_env t) A_mstatus) 8 1) 0) as [Hz|Hz] in Ht'.
  - by rewrite Hz.
  - assert (bits (env_reg (trap_env t) A_mstatus) 8 1 = 1) as -> by lia. exact Ht'.
Qed.

Lemma wp_take p cause int epc tval Q t : env_ok (trap_env t) -> room t ->
  0 <= cause < 32 -> is_u32 epc -> is_u32 tval ->
  (forall t', redirected (arch_take (env_reg (trap_env t)) p cause int epc tval) t t' -> Q tt t') ->
  wp (trap_take p cause int epc tval) Q t.
Proof.
  intros Hok Hroom Hc He Ht HQ. unfold trap_take. apply wp_bind.
  apply (wp_intro _ _ _ (delegated (env_reg (trap_env t)) p int cause) t).
  - unfold trap_is_delegated_to_s, delegated. change RV32G_PRIV_MACHINE with 3.
    destruct (p =? 3); [done|]. unfold mbind, M_bind, gets, DBG_CHECK.
    rewrite (proj2 (Z.ltb_lt cause 32)) by lia. unfold csr_state_i, id.
    rewrite env_csr_state_view by done. cbn [ct_mideleg ct_medeleg negb andb].
    f_equal. f_equal. 
    assert (forall x, negb (Z.land (Z.shiftr x cause) 1 =? 0) = Z.testbit x cause) as Hb.
    { intros x. change 1 with (Z.shiftl 1 0) at 1. fold (nz (Z.land (Z.shiftr x cause) (Z.shiftl 1 0))).
      by rewrite nz_testbit, Z.shiftr_spec, Z.add_0_l by lia. }
    rewrite Hb. by destruct int.
  - unfold arch_take in HQ. destruct (delegated _ _ _ _); [by apply wp_enter_s|by apply wp_enter_m].
Qed.

Lemma pending_irq_pick t : env_ok (trap_env t) ->
  trap_pending_irq t =
  default (-1) (pick_irq (env_reg (trap_env t)) (st_priv (exu_state_i t))).
Proof.
  intros Hok. unfold trap_pending_irq, trap_mstatus, csr_state_i, pick_irq.
  rewrite env_csr_state_view by done. cbn [ct_mip ct_mie ct_mideleg ct_mstatus].
  set (f := env_reg (trap_env t)). set (p := st_priv (exu_state_i t)).
  set (pend := Z.land (f A_mip) (f A_mie)). cbv zeta. rewrite !nz_bit by lia.
  set (m_ie := if p =? RV32G_PRIV_MACHINE then _ else true).
  set (s_ie := if p =? RV32G_PRIV_SUPERVISOR then _ else _).
  set (m := Z.land pend (not32 (f A_mideleg))). set (s := Z.land pend (f A_mideleg)).
  assert (forall i, 0 <= i < 32 -> irq_m f p i = m_ie && Z.testbit m i) as Hm.
  { intros i Hi. unfold irq_m, irq_enabled, m, pend, m_ie.
    rewrite !Z.land_spec, testbit_not_mask by (lia || by apply env_reg_u32).
    rewrite (proj2 (Z.ltb_lt i 32)) by lia. change RV32G_PRIV_MACHINE with 3.
    destruct (p =? 3), (Z.testbit (f A_mideleg) i), (Z.testbit (f A_mstatus) 3),
      (Z.testbit (f A_mip) i), (Z.testbit (f A_mie) i); try done; by rewrite !andb_false_r. }
  assert (forall i, irq_s f p i = s_ie && Z.testbit s i) as Hs.
  { intros i. unfold irq_s, irq_enabled, s, pend, s_ie.
    rewrite !Z.land_spec. change RV32G_PRIV_SUPERVISOR with 1.
    destruct (Z.eqb_spec p 1) as [Hp|Hp]; [rewrite Hp; change (1 <? 1) with false|];
      destruct (Z.testbit (f A_mideleg) i), (Z.testbit (f A_mstatus) 1), (Z.testbit (f A_mip) i),
        (Z.testbit (f A_mie) i); try destruct (p <? 1); try done; by rewrite !andb_false_r. }
  assert (List.find (irq_m f p) irq_order = List.find (fun i => m_ie && Z.testbit m i) irq_order) as ->.
  { apply find_ext. intros i Hi. apply Hm. revert i Hi. apply Forall_forall. compute_done. }
  assert (List.find (irq_s f p) s_irq_order = List.find (fun i => s_ie && Z.testbit s i) s_irq_order) as ->
    by (by apply find_ext).
  transitivity (if m_ie && nz m then chain m irq_order (if s_ie && nz s then chain s s_irq_order (-1) else -1)
                else if s_ie && nz s then chain s s_irq_order (-1) else -1).
  - destruct (Z.eqb_spec pend 0) as [Hz|_]; [|reflexivity].
    assert (nz m = false) as -> by (unfold m; by rewrite Hz).
    assert (nz s = false) as -> by (unfold s; by rewrite Hz).
    by rewrite !andb_false_r.
  - rewrite !chain_find by compute_done. by repeat case_match.
Qed.

(** ** The clock *)

(** Packets the other units send: a return, or an exception with a cause below 32 from one of
    the three privileges. *)
Definition expt_ok (x : hart_expt_if_t) : Prop :=
  expt_type x = HART_EXPT_TYPE_MRET \/ expt_type x = HART_EXPT_TYPE_SRET \/
  (expt_type x = HART_EXPT_TYPE_EXCEPTION /\ 0 <= expt_cause x < 32 /\
   (expt_priv x = 0 \/ expt_priv x = 1 \/ expt_priv x = 3) /\
   is_u32 (expt_pc x) /\ is_u32 (expt_tval x)).

(** What the unit does in a cycle: the change of control and the unit without the packet that
    caused it.  Exceptions of instructions in execution come first, then, unless the
    execution unit holds traps back, those of fetched instructions and interrupts, and the
    end of a wait. *)
Definition trap_spec t : option (redirect * trap_t E) :=
  let f := env_reg (trap_env t) in
  let st := exu_state_i t in
  match ch_pkts (ex_expt_slv t), ch_pkts (ldst_expt_slv t) with
  | x :: q, _ =>
    Some (arch_expt f x, t <| ex_expt_slv := Chan (ch_depth (ex_expt_slv t)) q |>)
  | [], x :: q =>
    Some (arch_expt f x, t <| ldst_expt_slv := Chan (ch_depth (ldst_expt_slv t)) q |>)
  | [], [] =>
    if st_trap_defer st then None
    else match ch_pkts (fch_expt_slv t), pick_irq f (st_priv st) with
    | x :: q, _ =>
      Some (arch_expt f x, t <| fch_expt_slv := Chan (ch_depth (fch_expt_slv t)) q |>)
    | [], Some i =>
      Some (arch_take f (st_priv st) i true
              (if st_wfi st then st_wfi_resume_pc st else st_irq_epc st) 0, t)
    | [], None =>
      if st_wfi st && nz (Z.land (f A_mip) (f A_mie)) then
        Some (Redirect f (st_priv st) (st_wfi_resume_pc st), t)
      else None
    end
  end.

(** The result of a cycle. *)
Definition clocked t t' : Prop :=
  match trap_spec t with
  | Some (r, t0) => redirected r t0 t'
  | None => t' = t
  end.

Lemma wp_handle x Q t : env_ok (trap_env t) -> room t -> expt_ok x ->
  (forall t', redirected (arch_expt (env_reg (trap_env t)) x) t t' -> Q tt t') ->
  wp (trap_handle_exception x) Q t.
Proof.
  intros Hok Hroom Hx HQ. unfold trap_handle_exception, arch_expt in *.
  destruct Hx as [E0|[E0|(E0 & Hc & Hp & Hpc & Ht)]]; rewrite E0 in *; revert HQ; zconst; intros HQ;
    [by apply wp_mret|by apply wp_sret|].
  apply wp_bind.
  destruct (Z.eqb_spec (expt_cause x) HART_EXPT_CAUSE_ECALL) as [E8|].
  - destruct Hp as [Hp|[Hp|Hp]]; rewrite Hp in *; zconst; apply wp_ret;
      by apply wp_take; [done|done|lia|..].
  - apply wp_ret. by apply wp_take.
Qed.

Lemma pick_irq_none f p : pick_irq f p = None -> forall i, ~ irq_takable f p i.
Proof.
  unfold pick_irq. intros H i [He Hin].
  destruct (List.find (irq_m f p) irq_order) eqn:Em; [done|].
  destruct (Z.testbit (f A_mideleg) i) eqn:Ed; apply list_elem_of_In in Hin.
  - apply (List.find_none _ _ H) in Hin. unfold irq_s in Hin. by rewrite He, Ed in Hin.
  - apply (List.find_none _ _ Em) in Hin. unfold irq_m in Hin. by rewrite He, Ed in Hin.
Qed.

Lemma pick_irq_some f p i : pick_irq f p = Some i ->
  irq_takable f p i /\ forall j, irq_takable f p j -> irq_rank f i <= irq_rank f j.
Proof.
  assert (StronglySorted (fun a b => irq_pos a <= irq_pos b) irq_order) as Hm
    by (repeat constructor; vm_compute; discriminate).
  assert (StronglySorted (fun a b => irq_pos a <= irq_pos b) s_irq_order) as Hs
    by (repeat constructor; vm_compute; discriminate).
  assert (forall j, 0 <= irq_pos j <= 6) as Hpos by (intros; unfold irq_pos; repeat case_match; lia).
  unfold pick_irq. destruct (List.find (irq_m f p) irq_order) as [k|] eqn:Em.
  - intros [= ->]. pose proof (proj1 (List.find_some _ _ Em)) as Hin%list_elem_of_In.
    destruct (find_least _ _ _ _ Hm Em) as [[Hen Hd%negb_true_iff]%andb_prop Hmin].
    unfold irq_takable, irq_rank. rewrite Hd. split; [done|]. intros j [Hj Hjin].
    destruct (Z.testbit (f A_mideleg) j) eqn:Ej; [pose proof (Hpos i); pose proof (Hpos j); lia|].
    specialize (Hmin j Hjin). unfold irq_m in Hmin. rewrite Hj, Ej in Hmin. specialize (Hmin eq_refl). lia.
  - intros Es. pose proof (proj1 (List.find_some _ _ Es)) as Hin%list_elem_of_In.
    destruct (find_least _ _ _ _ Hs Es) as [[Hen Hd]%andb_prop Hmin].
    unfold irq_takable, irq_rank. rewrite Hd. split; [done|]. intros j [Hj Hjin].
    destruct (Z.testbit (f A_mideleg) j) eqn:Ej.
    + specialize (Hmin j Hjin). unfold irq_s in Hmin. rewrite Hj, Ej in Hmin. specialize (Hmin eq_refl). lia.
    + apply list_elem_of_In, (List.find_none _ _ Em) in Hjin. unfold irq_m in Hjin.
      by rewrite Hj, Ej in Hjin.
Qed.

(** Handling the first packet of one of the channels. *)
Lemma wp_pop_handle (proj : trap_t E -> chan hart_expt_if_t) `{!Setter proj} x q Q t :
  let t0 := upd proj (fun _ => Chan (ch_depth (proj t)) q) t in
  ch_pkts (proj t) = x :: q -> env_ok (trap_env t) -> room t -> expt_ok x ->
  trap_env t0 = trap_env t -> trap_send_mst t0 = trap_send_mst t ->
  (forall t', redirected (arch_expt (env_reg (trap_env t)) x) t0 t' -> Q true t') ->
  wp (expt ← on proj chan_read; trap_handle_exception expt;; mret true) Q t.
Proof.
  intros t0 Hq Hok Hroom Hx Hte Hsd HQ. apply wp_bind. unfold wp at 1.
  rewrite (on_chan_read _ _ _ _ Hq). apply wp_bind, wp_handle; fold t0.
  - by rewrite Hte.
  - unfold room. by rewrite Hsd.
  - done.
  - intros t' Ht'. rewrite Hte in Ht'. by apply wp_ret, HQ.
Qed.

Lemma pick_irq_range f p i : pick_irq f p = Some i -> 0 <= i < 32.
Proof.
  unfold pick_irq. intros H.
  assert (i ∈ irq_order ++ s_irq_order) as Hin.
  { apply elem_of_app. case_match.
    - left. simplify_eq. by apply list_elem_of_In, (List.find_some _ _ H0).
    - right. by apply list_elem_of_In, (List.find_some _ _ H). }
  clear H. revert i Hin. apply Forall_forall. compute_done.
Qed.

Lemma wp_interrupt Q t : env_ok (trap_env t) -> room t ->
  is_u32 (st_irq_epc (exu_state_i t)) -> is_u32 (st_wfi_resume_pc (exu_state_i t)) ->
  ch_pkts (ex_expt_slv t) = [] -> ch_pkts (ldst_expt_slv t) = [] ->
  (st_trap_defer (exu_state_i t) = false -> ch_pkts (fch_expt_slv t) = []) ->
  (forall t', clocked t t' -> Q tt t') -> wp trap_proc_interrupt Q t.
Proof.
  intros Hok Hroom He Hw Hex Hld Hf HQ. unfold trap_proc_interrupt. apply wp_bind, wp_gets.
  unfold id, clocked, trap_spec in *. rewrite Hex, Hld in HQ. cbv zeta in *.
  destruct (st_trap_defer _); [by apply wp_ret, HQ|]. rewrite (Hf eq_refl) in HQ.
  rewrite pending_irq_pick by done. unfold csr_state_i. rewrite env_csr_state_view by done.
  cbn [ct_mip ct_mie]. destruct (pick_irq _ _) as [i|] eqn:Hi; simpl.
  - pose proof (pick_irq_range _ _ _ Hi). rewrite (proj2 (Z.ltb_ge i 0)) by lia.
    apply wp_take; try done. by case_match.
  - change (-1 <? 0) with true. cbv iota. unfold when.
    destruct (st_wfi _ && _); [|by apply wp_ret, HQ].
    apply wp_trap_eta. by apply (wp_trap_finish _ _ _ _ _ _ (midway_start t Hok)).
Qed.

End trap_lemmas.

(** ** Theorems *)

Section trap_theorems.
  Context {E : Type} `{!TrapEnv E, !TrapEnvLaws E}.
  Implicit Types (t : trap_t E).

(** C15: In every cycle the trap unit does exactly what the specification of the cycle says, and
    no check fails: it handles at most one event, an exception of the execution or load-store
    unit before one of the fetch unit and that before an interrupt, holds the latter two back
    while the execution unit has an access outstanding, takes the exception or interrupt in the
    mode that delegation selects with the architectural register effects, performs mret and
    sret, and ends a wait when an interrupt is pending that is not enabled. *)
Theorem trap_clock_refines t :
  env_ok (trap_env t) -> room t ->
  Forall expt_ok (ch_pkts (ex_expt_slv t) ++ ch_pkts (ldst_expt_slv t) ++ ch_pkts (fch_expt_slv t)) ->
  is_u32 (st_irq_epc (exu_state_i t)) -> is_u32 (st_wfi_resume_pc (exu_state_i t)) ->
  exists t', trap_clock t = Some (tt, t') /\ clocked t t'.
Proof.
  intros Hok Hroom Hx He Hw. rewrite !Forall_app in Hx. destruct Hx as (Hx1 & Hx2 & Hx3).
  enough (wp trap_clock (fun _ => clocked t) t) as H
    by (apply wp_elim in H as ([] & t' & H); eauto).
  unfold trap_clock, trap_proc_exception. apply wp_bind, wp_bind, wp_gets. unfold id.
  destruct (chan_empty (ex_expt_slv t)) eqn:Eex; cbn [negb].
  2:{ apply chan_empty_false in Eex as (x & q & E1). rewrite E1 in Hx1.
      apply (wp_pop_handle ex_expt_slv x q); try done; [by inversion Hx1|].
      intros t' Ht'. apply wp_ret. unfold clocked, trap_spec. by rewrite E1. }
  destruct (chan_empty (ldst_expt_slv t)) eqn:Eld; cbn [negb].
  2:{ apply chan_empty_spec in Eex. apply chan_empty_false in Eld as (x & q & E1). rewrite E1 in Hx2.
      apply (wp_pop_handle ldst_expt_slv x q); try done; [by inversion Hx2|].
      intros t' Ht'. apply wp_ret. unfold clocked, trap_spec. by rewrite Eex, E1. }
  apply chan_empty_spec in Eex, Eld.
  destruct (st_trap_defer (exu_state_i t)) eqn:Ed; cbn [negb].
  { apply wp_ret. apply wp_interrupt; try done. by rewrite Ed. }
  destruct (chan_empty (fch_expt_slv t)) eqn:Ef; cbn [negb].
  { apply chan_empty_spec in Ef. apply wp_ret. by apply wp_interrupt. }
  apply chan_empty_false in Ef as (x & q & E1). rewrite E1 in Hx3.
  apply (wp_pop_handle fch_expt_slv x q); try done; [by inversion Hx3|].
  intros t' Ht'. apply wp_ret. unfold clocked, trap_spec. cbv zeta. by rewrite Eex, Eld, Ed, E1.
Qed.

(** The interrupt the unit selects is one that is pending, enabled in mie and enabled at the
    current privilege in the mode it is delegated to, and of these the most urgent (machine
    before supervisor; external, software, timer, counter overflow); when it selects none,
    there is none. *)
Theorem trap_irq_priority t : env_ok (trap_env t) ->
  let f := env_reg (trap_env t) in
  let p := st_priv (exu_state_i t) in
  (trap_pending_irq t = -1 <-> forall i, ~ irq_takable f p i) /\
  (trap_pending_irq t <> -1 ->
     irq_takable f p (trap_pending_irq t) /\
     forall j, irq_takable f p j -> irq_rank f (trap_pending_irq t) <= irq_rank f j).
Proof.
  intros Hok f p. rewrite pending_irq_pick by done. fold f. fold p.
  destruct (pick_irq f p) as [i|] eqn:Ei; simpl.
  - pose proof (pick_irq_range _ _ _ Ei). destruct (pick_irq_some _ _ _ Ei) as [Hi Hmin].
    split; [split; [lia|intros Hn; by destruct (Hn i)]|done].
  - split; [split; [intros _; by apply pick_irq_none|done]|done].
Qed.


(** C32: Trap entry and the return of the mode that took the trap cancel: sret after entry to
    supervisor mode, mret after entry to machine mode go back to the interrupted privilege and
    address, and mstatus is as before but for the stacked fields, which hold their reset
    values, and MPRV, which only a return to machine mode keeps. *)
Theorem trap_entry_return t p cause int epc tval :
  env_ok (trap_env t) -> chan_num (trap_send_mst t) + 2 <= ch_depth (trap_send_mst t) ->
  p = 0 \/ p = 1 \/ p = 3 -> 0 <= cause < 32 -> is_u32 epc -> is_u32 tval ->
  let f := env_reg (trap_env t) in
  let s_mode := delegated f p int cause in
  exists t1 t2, trap_take p cause int epc tval t = Some (tt, t1) /\
    (if s_mode then trap_do_sret else trap_do_mret) t1 = Some (tt, t2) /\
    st_priv (exu_state_i t2) = p /\
    (exists vec, ch_pkts (trap_send_mst t2) = ch_pkts (trap_send_mst t) ++ [vec; epc - epc mod 4]) /\
    forall i, 0 <= i -> Z.testbit (env_reg (trap_env t2) A_mstatus) i =
      if i =? (if s_mode then 5 else 7) then true
      else if (if s_mode then i =? 8 else (i =? 11) || (i =? 12)) then false
      else if i =? 17 then (p =? 3) && Z.testbit (f A_mstatus) 17
      else Z.testbit (f A_mstatus) i.
Proof.
  intros Hok Hroom Hp Hc He Ht f s_mode.
  assert (wp (trap_take p cause int epc tval)
    (fun _ => redirected (arch_take f p cause int epc tval) t) t) as H
    by (apply wp_take; try done; unfold room; lia).
  apply wp_elim in H as ([] & t1 & E1 & [Hok1 Hr1 Hx1 Hs1 _ _ _]).
  assert (room t1) as Hroom1.
  { unfold room. rewrite Hs1. unfold chan_num, chan_snoc in *. simpl. rewrite length_app. simpl. lia. }
  assert (wp (if s_mode then trap_do_sret else trap_do_mret) (fun _ => redirected
    (if s_mode then arch_sret (env_reg (trap_env t1)) else arch_mret (env_reg (trap_env t1))) t1) t1) as H
    by (destruct s_mode; [by apply wp_sret|by apply wp_mret]).
  apply wp_elim in H as ([] & t2 & E2 & [_ Hr2 Hx2 Hs2 _ _ _]).
  exists t1, t2. split_and!; [exact E1|exact E2|..].
  all: assert (env_reg (trap_env t1) A_mstatus =
      (if s_mode then s_entry (f A_mstatus) p else m_entry (f A_mstatus) p) /\
    env_reg (trap_env t1) (if s_mode then A_sepc else A_mepc) = align4 epc) as [Hst Hpc]
    by (unfold arch_take in Hr1; fold s_mode in Hr1; by destruct s_mode; rewrite !Hr1).
  - rewrite Hx2. unfold arch_sret, arch_mret, s_mode in *. simpl. destruct (delegated _ _ _ _) eqn:Ed; simpl.
    + rewrite Hst, s_entry_spp. unfold delegated in Ed. destruct Hp as [->|[->| ->]]; done.
    + by rewrite Hst, m_entry_mpp.
  - rewrite Hs2, Hs1. unfold chan_snoc. eexists. cbn [ch_pkts]. upd_proj. rewrite <- app_assoc. simpl.
    do 3 f_equal. unfold arch_sret, arch_mret. destruct s_mode; simpl; rewrite Hpc; unfold align4; zdiv.
  - intros i Hi. rewrite Hr2 by done. unfold s_mode, arch_sret, arch_mret in *.
    destruct (delegated f p int cause) eqn:Ed; cbn [rd_regs]; unfold wr; zconst; rewrite Hst.
    + rewrite s_exit_bits, !s_entry_bits by lia. zconst.
      assert ((p =? 3) = false) as -> by (unfold delegated in Ed; by destruct (p =? 3)).
      destruct (Z.eqb_spec i 1) as [->|]; [done|]. destruct (Z.eqb_spec i 5) as [->|]; [done|].
      destruct (Z.eqb_spec i 8) as [->|]; [done|]. by destruct (Z.eqb_spec i 17).
    + rewrite m_exit_bits, !m_entry_bits, m_entry_mpp by (done || lia). zconst.
      destruct (Z.eqb_spec i 3) as [->|]; [done|]. destruct (Z.eqb_spec i 7) as [->|]; [done|].
      destruct (Z.eqb_spec i 11) as [->|]; [done|]. destruct (Z.eqb_spec i 12) as [->|]; [done|].
      by destruct (Z.eqb_spec i 17).
Qed.

End trap_theorems.

(** ** Witnesses *)

(** The CSR module of Csr.v after a cycle with pending interrupts, a vectored trap table and
    all interrupts enabled. *)
Definition csr_armed : csr_t :=
  Eval vm_compute in default csr_boot (snd <$>
    (csr_write_cb A_mtvec 3 0x80000001;; csr_write_cb A_mie 3 0xaaa) csr_ticked).

Lemma csr_armed_inv : csr_inv csr_armed.
Proof.
  assert (csr_inv csr_ticked) as H0
    by (apply (csr_inv_step csr_started _ csr_started_inv), CsrStepClock; vm_compute; reflexivity).
  destruct (csr_write_run csr_ticked A_mtvec 3 0x80000001 H0 ltac:(done)) as (c1 & E1 & H1 & _).
  destruct (csr_write_run c1 A_mie 3 0xaaa H1 ltac:(done)) as (c2 & E2 & H2 & _).
  assert ((csr_write_cb A_mtvec 3 0x80000001;; csr_write_cb A_mie 3 0xaaa) csr_ticked =
    Some (true, c2)) as E.
  { unfold mbind, M_bind. rewrite E1, E2. reflexivity. }
  assert ((csr_write_cb A_mtvec 3 0x80000001;; csr_write_cb A_mie 3 0xaaa) csr_ticked =
    Some (true, csr_armed)) as E' by (vm_compute; reflexivity).
  congruence.
Qed.

(** A unit in user mode at 0x1000 with an ecall to handle. *)
Definition exu_user : exu_t csr_t :=
  exu_idle csr_armed (gpr_example 1 2) <| priv := 0 |> <| irq_epc := 0x1004 |>
    <| state_o := ExuStateIf 0 0 0x1004 false false 0 |>.
Definition trap_ecall : trap_t (exu_t csr_t) :=
  Trap (Chan 1 []) (Chan 1 [HartExpt 0 8 0 0x1000 0]) (Chan 1 []) (Chan 2 []) exu_user.

Lemma trap_ecall_ok : env_ok (trap_env trap_ecall).
Proof. split; [exact csr_armed_inv|reflexivity]. Qed.

Lemma trap_clock_refines_witness :
  env_ok (trap_env trap_ecall) /\
  exists t', trap_clock trap_ecall = Some (tt, t') /\ ch_pkts (trap_send_mst t') = [0x80000000] /\
    ch_pkts (ex_expt_slv t') = [].
Proof.
  split; [exact trap_ecall_ok|].
  assert (expt_ok (HartExpt 0 8 0 0x1000 0)) as Hx.
  { right. right. split; [reflexivity|]. split; [split; [discriminate|reflexivity]|].
    split; [left; reflexivity|]. split; split; discriminate || reflexivity. }
  pose proof (trap_clock_refines trap_ecall trap_ecall_ok ltac:(reflexivity)
    ltac:(constructor; [exact Hx|constructor]) ltac:(split; discriminate || reflexivity)
    ltac:(split; discriminate || reflexivity)) as (t' & E1 & H).
  exists t'. split; [exact E1|]. destruct H as [_ _ _ Hs He _ _]. rewrite Hs, He.
  split; [vm_compute; reflexivity|reflexivity].
Defined.

Lemma trap_irq_priority_witness :
  env_ok (trap_env trap_ecall) /\ trap_pending_irq trap_ecall = 11 /\
  irq_takable (env_reg (trap_env trap_ecall)) 0 11.
Proof.
  assert (trap_pending_irq trap_ecall = 11) as E1 by (vm_compute; reflexivity).
  split; [exact trap_ecall_ok|]. split; [exact E1|].
  destruct (trap_irq_priority trap_ecall trap_ecall_ok) as [_ H]. rewrite E1 in H.
  destruct (H ltac:(discriminate)) as [H' _]. exact H'.
Defined.


Lemma trap_entry_return_witness :
  env_ok (trap_env trap_ecall) /\
  exists t1 t2, trap_take 0 8 false 0x1000 0 trap_ecall = Some (tt, t1) /\
    trap_do_mret t1 = Some (tt, t2) /\ st_priv (exu_state_i t2) = 0.
Proof.
  split; [exact trap_ecall_ok|].
  assert (is_u32 0x1000) as H1 by (split; [discriminate|reflexivity]).
  assert (is_u32 0) as H2 by (split; [discriminate|reflexivity]).
  assert (0 <= 8 < 32) as H3 by (split; [discriminate|reflexivity]).
  destruct (trap_entry_return trap_ecall 0 8 false 0x1000 0 trap_ecall_ok ltac:(discriminate)
    ltac:(left; reflexivity) H3 H1 H2) as (t1 & t2 & E1 & E2 & Hp & _).
  exists t1, t2. split; [exact E1|]. split; [exact E2|exact Hp].
Defined.
