(* ===== verification/Arb.v ===== *)
(** * The round-robin arbiter

    [base/model/base/arb.c]: the request lines are written by the module that owns the
    arbiter, the clock moves the grant to the next requester. *)

From stdpp Require Import base numbers list.
From Stdlib Require Import ZArith Lia.
From S2P Require Import Prelude.

Record arb_t := Arb { req_num : Z; arb_req : list bool; grant_idx : Z }.
#[export] Instance eta_arb : Eta arb_t := fun a => Arb (req_num a) (arb_req a) (grant_idx a).

(** ** Operations *)

(** [mem] is the block that [malloc] returns. *)
Definition arb_construct (mem : list bool) (num : Z) (arb : arb_t) : arb_t :=
  arb <| req_num := num |> <| arb_req := mem |>.

Definition arb_reset : M arb_t unit :=
  modify (fun arb => arb <| arb_req := (fun _ => false) <$> arb_req arb |>);;
  modify (fun arb => arb <| grant_idx := -1 |>).

(** The loop of [arb_clock] with [n] turns left; the index is computed in unsigned arithmetic.
    The result is the index the loop returns with. *)
Fixpoint arb_clock_loop (arb : arb_t) (n : nat) (i : Z) : option (option Z) :=
  match n with
  | O => Some None
  | S n =>
    let nxt := u32 (u32 (grant_idx arb + i) + 1) mod req_num arb in
    r ← aget (arb_req arb) nxt;
    if r : bool then Some (Some nxt) else arb_clock_loop arb n (i + 1)
  end.

Definition arb_clock : M arb_t unit :=
  arb ← gets id;
  r ← of_option (arb_clock_loop arb (Z.to_nat (req_num arb)) 0);
  match r with
  | Some nxt => modify (fun arb => arb <| grant_idx := nxt |>)
  | None => modify (fun arb => arb <| grant_idx := -1 |>)
  end.

(** ** Round robin *)

(** The grant index is a signed word; the number of lines is limited accordingly. *)
Record arb_wf (a : arb_t) : Prop := {
  arb_num : 0 < req_num a <= 2147483648;
  arb_len : Z.of_nat (length (arb_req a)) = req_num a;
  arb_grant : -1 <= grant_idx a < req_num a
}.

(** How many lines the clock looks at before line [k]. *)
Definition arb_dist (a : arb_t) (k : Z) : Z := (k - grant_idx a - 1) mod req_num a.

Definition requests (a : arb_t) (k : Z) : Prop := aget (arb_req a) k = Some true.

Lemma arb_index a i : arb_wf a -> 0 <= i < req_num a ->
  u32 (u32 (grant_idx a + i) + 1) mod req_num a = (grant_idx a + i + 1) mod req_num a.
Proof.
  intros [Hn _ Hg] Hi. f_equal. unfold u32, W32.
  rewrite Zplus_mod_idemp_l. apply Z.mod_small. lia.
Qed.

Lemma arb_dist_index a k : arb_wf a -> 0 <= k < req_num a ->
  (grant_idx a + arb_dist a k + 1) mod req_num a = k.
Proof.
  intros [Hn _ Hg] Hk. unfold arb_dist.
  rewrite <- Zplus_mod_idemp_l, Zplus_mod_idemp_r, Zplus_mod_idemp_l.
  replace (grant_idx a + (k - grant_idx a - 1) + 1) with k by lia. by apply Z.mod_small.
Qed.

(** The loop stops at the requester that comes first. *)
Lemma arb_clock_loop_ok a n i : arb_wf a -> 0 <= i -> i + Z.of_nat n = req_num a ->
  (forall k, requests a k -> i <= arb_dist a k) ->
  exists r, arb_clock_loop a n i = Some r /\
  match r with
  | Some k => requests a k /\ forall j, requests a j -> arb_dist a k <= arb_dist a j
  | None => forall k, ~ requests a k
  end.
Proof.
  intros Hwf. pose proof Hwf as [Hn Hl Hg]. revert i. induction n as [|n IH]; intros i Hi Hin Hmin; simpl.
  { eexists. split; [done|]. intros k Hk. specialize (Hmin k Hk).
    unfold arb_dist in Hmin. pose proof (Z.mod_pos_bound (k - grant_idx a - 1) (req_num a)). lia. }
  rewrite arb_index by (done || lia). set (k := (grant_idx a + i + 1) mod req_num a).
  assert (0 <= k < req_num a) as Hk by (apply Z.mod_pos_bound; lia).
  assert (arb_dist a k = i) as Hd.
  { unfold arb_dist. replace (k - grant_idx a - 1) with (k - (grant_idx a + 1)) by lia.
    unfold k. rewrite Zminus_mod_idemp_l.
    replace (grant_idx a + i + 1 - (grant_idx a + 1)) with i by lia. apply Z.mod_small. lia. }
  destruct (aget_is_Some (arb_req a) k) as [b Hb]; [lia|]. rewrite Hb. simpl. destruct b.
  - eexists. split; [done|]. split; [done|]. intros j Hj. rewrite Hd. by apply Hmin.
  - apply IH; [lia|lia|]. intros j Hj. specialize (Hmin j Hj).
    destruct (Z.eq_dec (arb_dist a j) i) as [Hji|]; [|lia]. exfalso.
    assert (0 <= j < req_num a) by (apply aget_Some in Hj; lia).
    assert (j = k) as -> by (rewrite <- (arb_dist_index a j) by done; by rewrite Hji).
    unfold requests in Hj. congruence.
Qed.

Lemma arb_clock_run a : arb_wf a ->
  exists a', arb_clock a = Some (tt, a') /\ arb_wf a' /\ arb_req a' = arb_req a /\
    req_num a' = req_num a /\
    if grant_idx a' =? -1 then forall k, ~ requests a k
    else requests a (grant_idx a') /\
         forall j, requests a j -> arb_dist a (grant_idx a') <= arb_dist a j.
Proof.
  intros Hwf. pose proof Hwf as [Hn Hl Hg].
  destruct (arb_clock_loop_ok a (Z.to_nat (req_num a)) 0) as (r & Er & Hr); [done|lia|lia|..].
  { intros k _. by apply Z.mod_pos_bound; lia. }
  unfold arb_clock. unfold mbind, M_bind, gets, of_option, id. rewrite Er. destruct r as [k|].
  - destruct Hr as [Hk Hmin]. pose proof (aget_Some _ _ _ Hk).
    eexists. split; [reflexivity|]. upd_proj. split_and!; [by split; upd_proj; lia|done..|].
    by rewrite (proj2 (Z.eqb_neq k (-1))) by lia.
  - eexists. split; [reflexivity|]. upd_proj. by split_and!; [split; upd_proj; lia|..].
Qed.

(** ** Theorems *)

(** The clock of the arbiter grants a line that requests, the first one after the line granted
    before in cyclic order, and grants none only if no line requests. *)
Theorem arb_clock_round_robin a : arb_wf a ->
  exists a', arb_clock a = Some (tt, a') /\ arb_wf a' /\ arb_req a' = arb_req a /\
    (grant_idx a' = -1 <-> forall k, ~ requests a k) /\
    (grant_idx a' <> -1 -> requests a (grant_idx a') /\
       forall j, requests a j -> arb_dist a (grant_idx a') <= arb_dist a j).
Proof.
  intros Hwf. destruct (arb_clock_run a Hwf) as (a' & E & Hwf' & Hr & _ & H).
  exists a'. split_and!; [done..| |]; destruct (Z.eqb_spec (grant_idx a') (-1)) as [Hg|Hg].
  - done.
  - split; [done|]. intros Hno. by destruct (Hno _ (proj1 H)).
  - done.
  - done.
Qed.

(** The owner sets the request lines before each clock; the grants that follow. *)
Fixpoint arb_run (reqs : list (list bool)) : M arb_t (list Z) :=
  match reqs with
  | [] => mret []
  | r :: reqs =>
    modify (fun arb => arb <| arb_req := r |>);;
    arb_clock;;
    g ← gets grant_idx;
    gs ← arb_run reqs;
    mret (g :: gs)
  end.

(** While line [k] waits, the grant comes closer to it. *)
Lemma arb_closer a k a' : arb_wf a -> requests a k -> arb_clock a = Some (tt, a') ->
  grant_idx a' = k \/ arb_dist a' k < arb_dist a k.
Proof.
  intros Hwf Hk E. destruct (arb_clock_run a Hwf) as (a2 & E2 & _ & _ & Hnum & H).
  rewrite E in E2. injection E2 as <-. pose proof Hwf as [Hn Hl Hg].
  destruct (Z.eqb_spec (grant_idx a') (-1)) as [|Hne]; [by destruct (H k)|]. destruct H as [Hg' Hmin].
  specialize (Hmin k Hk). destruct (Z.eq_dec (grant_idx a') k) as [|Hneq]; [by left|right].
  pose proof (aget_Some _ _ _ Hk). pose proof (aget_Some _ _ _ Hg').
  pose proof (arb_dist_index a k Hwf ltac:(lia)) as Ek.
  pose proof (arb_dist_index a (grant_idx a') Hwf ltac:(lia)) as Eg.
  assert (arb_dist a (grant_idx a') <> arb_dist a k) by (intros Hd; rewrite Hd in Eg; congruence).
  assert (arb_dist a' k = arb_dist a k - arb_dist a (grant_idx a') - 1) as ->.
  { unfold arb_dist at 1. rewrite Hnum. symmetry. 
    pose proof (Z.mod_pos_bound (k - grant_idx a - 1) (req_num a) ltac:(lia)).
    pose proof (Z.mod_pos_bound (grant_idx a' - grant_idx a - 1) (req_num a) ltac:(lia)).
    rewrite <- (Z.mod_small (arb_dist a k - arb_dist a (grant_idx a') - 1) (req_num a))
      by (unfold arb_dist in *; lia).
    unfold arb_dist. rewrite <- Zminus_mod_idemp_l, <- Zminus_mod, Zminus_mod_idemp_l.
    f_equal. lia. }
  pose proof (Z.mod_pos_bound (grant_idx a' - grant_idx a - 1) (req_num a) ltac:(lia)).
  unfold arb_dist at 2. lia.
Qed.

Lemma arb_wf_req a r : arb_wf a -> Z.of_nat (length r) = req_num a -> arb_wf (a <| arb_req := r |>).
Proof. intros [? ? ?] Hr. by split. Qed.

(** A run with lines for every requester never fails. *)
Lemma arb_run_total reqs a : arb_wf a ->
  Forall (fun r => Z.of_nat (length r) = req_num a) reqs ->
  exists gs a', arb_run reqs a = Some (gs, a').
Proof.
  revert a. induction reqs as [|r reqs IH]; intros a Hwf Hr; [by eexists _, _|].
  apply Forall_cons in Hr as [Hl Hr].
  destruct (arb_clock_run _ (arb_wf_req a r Hwf Hl)) as (a1 & E1 & Hwf1 & _ & Hn1 & _).
  destruct (IH a1 Hwf1) as (gs & a' & E); [by rewrite Hn1|].
  simpl. unfold mbind, M_bind, modify. rewrite E1. unfold gets. rewrite E. by eexists _, _.
Qed.

Lemma arb_run_grants reqs k a : arb_wf a -> arb_dist a k < Z.of_nat (length reqs) ->
  Forall (fun r => Z.of_nat (length r) = req_num a /\ aget r k = Some true) reqs ->
  exists gs a', arb_run reqs a = Some (gs, a') /\ k ∈ gs.
Proof.
  revert a. induction reqs as [|r reqs IH]; intros a Hwf Hd Hr.
  { pose proof (arb_num _ Hwf). simpl in Hd.
    pose proof (Z.mod_pos_bound (k - grant_idx a - 1) (req_num a) ltac:(lia)). unfold arb_dist in Hd. lia. }
  apply Forall_cons in Hr as [[Hl Hk] Hr]. pose proof (arb_wf_req a r Hwf Hl) as Hwf0.
  destruct (arb_clock_run _ Hwf0) as (a1 & E1 & Hwf1 & _ & Hn1 & _).
  pose proof (arb_closer _ k a1 Hwf0 Hk E1) as Hcl.
  assert (req_num a1 = req_num a) as Hn by (rewrite Hn1; done).
  simpl. unfold mbind, M_bind, modify. rewrite E1. unfold gets.
  destruct Hcl as [Hg|Hlt].
  - destruct (arb_run_total reqs a1 Hwf1) as (gs & a' & E).
    { rewrite Hn. by eapply Forall_impl; [exact Hr|]; intros ? []. }
    rewrite E. eexists _, _. split; [done|]. rewrite Hg. left.
  - change (arb_dist (a <| arb_req := r |>) k) with (arb_dist a k) in Hlt.
    destruct (IH a1 Hwf1) as (gs & a' & E & Hin); [simpl in Hd; lia|by rewrite Hn|].
    rewrite E. eexists _, _. split; [done|]. by right.
Qed.

(** C33: No requester starves: a line that requests in [req_num] consecutive clocks is granted in
    one of them, whatever the other lines do. *)
Theorem arb_no_starvation a k reqs : arb_wf a -> 0 <= k < req_num a ->
  Z.of_nat (length reqs) = req_num a ->
  Forall (fun r => Z.of_nat (length r) = req_num a /\ aget r k = Some true) reqs ->
  exists gs a', arb_run reqs a = Some (gs, a') /\ k ∈ gs.
Proof.
  intros Hwf Hk Hl Hr. apply arb_run_grants; [done| |done].
  rewrite Hl. apply Z.mod_pos_bound. lia.
Qed.

(** ** Witnesses *)

Definition arb_example : arb_t := Arb 3 [true; false; true] 0.

Lemma arb_example_wf : arb_wf arb_example.
Proof. by split. Qed.

Lemma arb_clock_round_robin_witness :
  arb_wf arb_example /\ exists a', arb_clock arb_example = Some (tt, a') /\ requests arb_example (grant_idx a').
Proof.
  split; [exact arb_example_wf|].
  destruct (arb_clock_round_robin arb_example arb_example_wf) as (a' & E & _ & _ & H1 & H2).
  exists a'. split; [exact E|]. apply H2. intros Hg. apply (proj1 H1 Hg 2). reflexivity.
Defined.

Lemma arb_no_starvation_witness :
  arb_wf arb_example /\
  exists gs a', arb_run [[true; true; false]; [true; true; true]; [true; true; false]] arb_example =
    Some (gs, a') /\ 1 ∈ gs.
Proof.
  split; [exact arb_example_wf|].
  apply (arb_no_starvation arb_example 1); [exact arb_example_wf|split; [discriminate|reflexivity]|reflexivity|].
  repeat constructor.
Defined.
