(* ===== verification/OstScan.v ===== *)
(** * Scanning the in-order table

    Several modules look for the oldest entry of an outstanding queue that satisfies a
    condition with the same loop over the slots from the read pointer on.  [ostq_scan] is that
    loop; on the abstract queue of Ost.v it is a search from the oldest entry. *)

From stdpp Require Import base numbers list.
From Stdlib Require Import ZArith Lia.
From S2P Require Import Prelude Fifo Ost.

Section scan.
  Context {A : Type} `{!Zero A}.
  Implicit Types (ost : ostq_t A) (o : oq A) (ctx : A) (want : A -> bool).

(** [n] turns left, at offset [i]. *)
Fixpoint ostq_scan_loop want (n : nat) (i : Z) : M (ostq_t A) (option (A * Z)) :=
  match n with
  | O => mret None
  | S n =>
    ost ← gets id;
    let idx := u32 (q_rptr ost + i) mod q_depth ost in
    ok ← ostq_slot_valid idx;
    if negb ok then ostq_scan_loop want n (i + 1)
    else
      cur ← ostq_read_slot idx;
      if want cur then mret (Some (cur, idx)) else ostq_scan_loop want n (i + 1)
  end.

Definition ostq_scan want : M (ostq_t A) (option (A * Z)) :=
  ost ← gets id;
  ostq_scan_loop want (Z.to_nat (q_depth ost)) 0.

(** ** Specification *)

(** The entry at position [j] from the oldest on; a freed entry is gone. *)
Definition oq_at o (j : nat) : option A :=
  if oq_freed o && (Nat.eqb j 0) then None else oq_ctxs o !! j.

Definition oq_slot o (j : nat) : Z := (oq_base o + Z.of_nat j) mod oq_depth o.

Fixpoint oq_scan_from want o (n j : nat) : option (A * Z) :=
  match n with
  | O => None
  | S n =>
    match oq_at o j with
    | Some c => if want c then Some (c, oq_slot o j) else oq_scan_from want o n (S j)
    | None => oq_scan_from want o n (S j)
    end
  end.

Definition oq_scan want o : option (A * Z) := oq_scan_from want o (Z.to_nat (oq_depth o)) 0.

Lemma oq_slot_idx o (j : nat) : 0 <= oq_base o < oq_depth o -> Z.of_nat j < oq_depth o ->
  0 <= oq_slot o j < oq_depth o /\ ring_idx (oq_depth o) (oq_base o) (oq_slot o j) = Z.of_nat j.
Proof.
  intros Hb Hj. unfold oq_slot. rewrite mod_wrap by lia. unfold ring_idx.
  destruct (Z.ltb_spec (oq_base o + Z.of_nat j) (oq_depth o)); case_match; lia.
Qed.

Lemma oq_slot_ok_at o (j : nat) : 0 <= oq_base o < oq_depth o -> Z.of_nat j < oq_depth o ->
  oq_slot_ok (oq_slot o j) o = bool_decide (is_Some (oq_at o j)).
Proof.
  intros Hb Hj. destruct (oq_slot_idx o j Hb Hj) as [Hs Hi]. unfold oq_slot_ok, in_window, oq_at.
  rewrite Hi. unfold oq_len.
  assert ((oq_slot o j =? oq_base o) = Nat.eqb j 0) as ->.
  { destruct (Z.eqb_spec (oq_slot o j) (oq_base o)) as [He|He], (Nat.eqb_spec j 0) as [Hj0|Hj0]; try done.
    - rewrite He in Hi. unfold ring_idx in Hi. case_match; lia.
    - subst j. unfold oq_slot in He. rewrite Z.mod_small in He by lia. lia. }
  destruct (oq_freed o && Nat.eqb j 0); [by rewrite andb_false_r|]. rewrite andb_true_r. simpl.
  destruct (Z.ltb_spec (Z.of_nat j) (Z.of_nat (length (oq_ctxs o)))); symmetry.
  - apply bool_decide_eq_true, lookup_lt_is_Some. lia.
  - apply bool_decide_eq_false. rewrite lookup_lt_is_Some. lia.
Qed.

(** ** The loop implements the search *)

Lemma oq_read_at o (j : nat) c : 0 <= oq_base o < oq_depth o -> Z.of_nat j < oq_depth o ->
  oq_at o j = Some c -> oq_read_slot (oq_slot o j) o = Some (c, o).
Proof.
  intros Hb Hj Hc. destruct (oq_slot_idx o j Hb Hj) as [Hs Hi].
  unfold oq_read_slot. mred. rewrite (proj2 (Z.leb_le _ _)), (proj2 (Z.ltb_lt _ _)) by lia. simpl.
  rewrite oq_slot_ok_at, Hc by done. rewrite bool_decide_true by eauto.
  unfold oq_at in Hc. destruct (_ && _); [done|]. by rewrite Hi, Nat2Z.id, Hc.
Qed.

Lemma oq_write_at o (j : nat) c c' : 0 <= oq_base o < oq_depth o -> Z.of_nat j < oq_depth o ->
  oq_at o j = Some c ->
  oq_write_slot (oq_slot o j) c' o = Some (tt, o <| oq_ctxs := <[j := c']> (oq_ctxs o) |>).
Proof.
  intros Hb Hj Hc. destruct (oq_slot_idx o j Hb Hj) as [Hs Hi].
  unfold oq_write_slot. mred. rewrite (proj2 (Z.leb_le _ _)), (proj2 (Z.ltb_lt _ _)) by lia. simpl.
  rewrite oq_slot_ok_at, Hc by done. rewrite bool_decide_true by eauto.
  by rewrite Hi, Nat2Z.id.
Qed.

Lemma ostq_read_at ost (j : nat) c : ostq_wf ost -> Z.of_nat j < q_depth ost ->
  oq_at (ostq_abs ost) j = Some c ->
  exists ost', ostq_read_slot (oq_slot (ostq_abs ost) j) ost = Some (c, ost') /\ ost' = ost.
Proof.
  intros Hw Hj Hc. destruct (oq_slot_idx (ostq_abs ost) j) as [Hs Hi]; [apply Hw|done|].
  destruct (ostq_slot_valid_ok ost (oq_slot (ostq_abs ost) j) Hw Hs) as (e & He & Hv).
  rewrite oq_slot_ok_at, Hc, bool_decide_true in Hv by (eauto || apply Hw).
  unfold ostq_read_slot. unfold mbind, M_bind. rewrite Hv. unfold q_get. mred. rewrite He. simpl.
  exists ost. split; [|done]. f_equal. f_equal.
  pose proof (ostq_slot_ctx ost _ e Hw He) as Hctx.
  rewrite oq_slot_ok_at, Hc, bool_decide_true in Hctx by (eauto || apply Hw).
  specialize (Hctx eq_refl). change (q_depth ost) with (oq_depth (ostq_abs ost)) in Hctx.
  change (q_rptr ost) with (oq_base (ostq_abs ost)) in Hctx. rewrite Hi, Nat2Z.id in Hctx.
  unfold oq_at in Hc. destruct (_ && _); [done|]. congruence.
Qed.

Lemma ostq_scan_loop_run want n (j : nat) ost : ostq_wf ost -> q_depth ost <= 2147483648 ->
  Z.of_nat j + Z.of_nat n = q_depth ost ->
  ostq_scan_loop want n (Z.of_nat j) ost = Some (oq_scan_from want (ostq_abs ost) n j, ost).
Proof.
  intros Hw Hd. revert j. induction n as [|n IH]; intros j Hj; [done|].
  cbn [ostq_scan_loop oq_scan_from]. unfold mbind at 1, M_bind at 1, gets, id. cbv zeta.
  pose proof (qwf_rptr _ Hw).
  assert (u32 (q_rptr ost + Z.of_nat j) mod q_depth ost = oq_slot (ostq_abs ost) j) as ->
    by (rewrite u32_small by (unfold is_u32, W32; lia); done).
  destruct (oq_slot_idx (ostq_abs ost) j) as [Hs _]; [apply Hw|simpl; lia|].
  destruct (ostq_slot_valid_ok ost _ Hw Hs) as (e & _ & Hv).
  rewrite oq_slot_ok_at in Hv by (apply Hw || (simpl; lia)).
  unfold mbind at 1, M_bind at 1. rewrite Hv.
  replace (Z.of_nat j + 1) with (Z.of_nat (S j)) by lia.
  destruct (oq_at (ostq_abs ost) j) as [c|] eqn:Hc.
  - rewrite bool_decide_true by eauto. cbn [negb]. unfold mbind, M_bind.
    destruct (ostq_read_at ost j c Hw ltac:(lia) Hc) as (? & -> & ->).
    destruct (want c); [done|]. apply IH. lia.
  - rewrite bool_decide_false by (by intros [? ?]). cbn [negb]. apply IH. lia.
Qed.

Lemma ostq_scan_run want ost : ostq_wf ost -> q_depth ost <= 2147483648 ->
  ostq_scan want ost = Some (oq_scan want (ostq_abs ost), ost).
Proof.
  intros Hw Hd. unfold ostq_scan. unfold mbind, M_bind, gets, id.
  apply (ostq_scan_loop_run want _ 0); [done..|]. pose proof (qwf_depth _ Hw). lia.
Qed.

(** ** What the search finds *)

Lemma oq_scan_from_Some want o n j c s : oq_scan_from want o n j = Some (c, s) ->
  exists k, (j <= k < j + n)%nat /\ oq_at o k = Some c /\ want c = true /\ s = oq_slot o k /\
    forall i c', (j <= i < k)%nat -> oq_at o i = Some c' -> want c' = false.
Proof.
  revert j. induction n as [|n IH]; intros j; [done|]. simpl.
  destruct (oq_at o j) as [c0|] eqn:E; [destruct (want c0) eqn:W|].
  - intros [= -> <-]. exists j. split_and!; [lia|lia|done..|]. lia.
  - intros H%IH. destruct H as (k & ? & ? & ? & ? & Hmin). exists k. split_and!; [lia|lia|done..|].
    intros i c' Hi Hc'. destruct (decide (i = j)) as [->|]; [congruence|]. apply (Hmin i); [lia|done].
  - intros H%IH. destruct H as (k & ? & ? & ? & ? & Hmin). exists k. split_and!; [lia|lia|done..|].
    intros i c' Hi Hc'. destruct (decide (i = j)) as [->|]; [congruence|]. apply (Hmin i); [lia|done].
Qed.

Lemma oq_scan_from_None want o n j : oq_scan_from want o n j = None ->
  forall i c, (j <= i < j + n)%nat -> oq_at o i = Some c -> want c = false.
Proof.
  revert j. induction n as [|n IH]; intros j H i c Hi Hc; [lia|]. simpl in H.
  destruct (decide (i = j)) as [->|].
  - rewrite Hc in H. by destruct (want c).
  - apply (IH (S j)) with i; [|lia|done]. destruct (oq_at o j); [|done]. by destruct (want _).
Qed.

End scan.

(** ** Using the abstract queue in proofs *)

(** A computation on a queue can be reasoned about through the one it simulates. *)
Lemma wp_sim {S T B} (abs : S -> T) (wf : S -> Prop) (m : M S B) (c : M T B) Q s :
  sim abs wf m c -> wf s ->
  wp c (fun b t => forall s', wf s' -> abs s' = t -> Q b s') (abs s) -> wp m Q s.
Proof.
  intros Hsim Hs H. specialize (Hsim s Hs). unfold wp in *.
  destruct (m s) as [[b s']|], (c (abs s)) as [[b' t']|]; try done.
  destruct Hsim as (-> & ? & ?). by apply H.
Qed.

(** ** The live entries *)

(** The entries that are not freed, oldest first.  The rules below describe each operation of
    the table by what it does to this list. *)
Section live.
  Context {A : Type} `{!Zero A}.
  Implicit Types (ost : ostq_t A) (o : oq A) (ctx : A) (want : A -> bool) (l : list A).

Definition oq_skip o : nat := if oq_freed o then 1 else 0.
Definition oq_live o : list A := drop (oq_skip o) (oq_ctxs o).

(** A table in use: well formed, of a depth that the scan can address, and with the live
    entries [l]; [fr] says that an entry is freed and waits for the clock. *)
Record ost_live ost (fr : bool) l : Prop := {
  ol_wf : ostq_wf ost;
  ol_depth : q_depth ost <= 2147483648;
  ol_freed : q_freed ost = fr;
  ol_list : oq_live (ostq_abs ost) = l
}.

(** [slot] is the place of the entry [c] between [l1] and [l2]. *)
Definition slot_at ost (slot : Z) l1 (c : A) l2 : Prop :=
  oq_live (ostq_abs ost) = l1 ++ c :: l2 /\
  slot = oq_slot (ostq_abs ost) (oq_skip (ostq_abs ost) + length l1).

Lemma oq_at_live o j : oq_at o (oq_skip o + j) = oq_live o !! j.
Proof.
  unfold oq_at, oq_live, oq_skip. rewrite lookup_drop. destruct (oq_freed o); [|by destruct j].
  simpl. done.
Qed.

Lemma oq_at_freed o j : (j < oq_skip o)%nat -> oq_at o j = None.
Proof. unfold oq_at, oq_skip. destruct (oq_freed o); [|lia]. intros. by replace j with 0%nat by lia. Qed.

Lemma lookup_split (l : list A) i x : l !! i = Some x ->
  exists l1 l2, l = l1 ++ x :: l2 /\ length l1 = i.
Proof.
  intros H. exists (take i l), (drop (S i) l). split; [by rewrite take_drop_middle|].
  rewrite length_take. pose proof (lookup_lt_Some _ _ _ H). lia.
Qed.

Lemma ost_live_bound ost fr l : ost_live ost fr l ->
  Z.of_nat (length l) + b2z fr = q_count ost /\ q_count ost <= q_depth ost.
Proof.
  intros [Hw _ Hf <-]. split; [|apply Hw].
  pose proof (oq_len_abs ost Hw) as Hl. unfold oq_len in Hl. unfold oq_live. rewrite length_drop.
  set (n := length (oq_ctxs (ostq_abs ost))) in *. clearbody n. unfold oq_skip. change (oq_freed (ostq_abs ost)) with (q_freed ost). rewrite Hf.
  destruct fr; simpl; [|lia]. pose proof (qwf_pending _ Hw) as Hp. unfold q_freed in Hf. lia.
Qed.

Lemma slot_pos ost fr l slot l1 c l2 : ost_live ost fr l -> slot_at ost slot l1 c l2 ->
  Z.of_nat (oq_skip (ostq_abs ost) + length l1) < q_depth ost /\
  oq_at (ostq_abs ost) (oq_skip (ostq_abs ost) + length l1) = Some c.
Proof.
  intros Hl [Hsp _]. pose proof (ost_live_bound _ _ _ Hl) as [Hb Hd]. split.
  - destruct Hl as [Hw _ Hf Hll]. rewrite Hsp in Hll. subst l. rewrite length_app in Hb. simpl in Hb.
    unfold oq_skip. change (oq_freed (ostq_abs ost)) with (q_freed ost). rewrite Hf.
    destruct fr; simpl in *; lia.
  - rewrite oq_at_live, Hsp. by rewrite lookup_app_r, Nat.sub_diag by lia.
Qed.

Lemma abs_freed ost o : ostq_abs ost = o -> q_freed ost = oq_freed o.
Proof. by intros <-. Qed.

Lemma abs_depth ost o : ostq_abs ost = o -> q_depth ost = oq_depth o.
Proof. by intros <-. Qed.

Lemma wp_ostq_clock ost fr l Q : ost_live ost fr l ->
  (forall ost', ost_live ost' false l -> q_depth ost' = q_depth ost -> Q tt ost') ->
  wp ostq_clock Q ost.
Proof.
  intros [Hw Hd Hf Hl] HQ. apply (wp_sim _ _ _ _ _ _ ostq_clock_sim Hw).
  unfold oq_clock, wp. mred. rewrite Hf. destruct fr.
  - intros ost' Hw' Ha. 
    assert (q_depth ost' = q_depth ost) as Hdd by exact (abs_depth _ _ Ha).
    apply HQ; [|done]. split; [done|lia|by rewrite (abs_freed _ _ Ha)|].
    rewrite Ha, <- Hl. unfold oq_live, oq_skip. simpl. rewrite Hf. by destruct (ring _ _ _ _).
  - intros ost' Hw' Ha.
    assert (q_depth ost' = q_depth ost) as Hdd by exact (abs_depth _ _ Ha).
    apply HQ; [|done]. split; [done|lia|by rewrite (abs_freed _ _ Ha)|]. by rewrite Ha.
Qed.

Lemma wp_ostq_scan want ost fr l Q : ost_live ost fr l ->
  (Forall (fun c => want c = false) l -> Q None ost) ->
  (forall slot l1 c l2, l = l1 ++ c :: l2 -> Forall (fun c => want c = false) l1 ->
     want c = true -> slot_at ost slot l1 c l2 -> Q (Some (c, slot)) ost) ->
  wp (ostq_scan want) Q ost.
Proof.
  intros Hol HN HS. pose proof Hol as [Hw Hd Hf Hl]. pose proof (ost_live_bound _ _ _ Hol) as [Hb Hb'].
  unfold wp. rewrite ostq_scan_run by done. set (o := ostq_abs ost) in *.
  assert (Z.of_nat (oq_skip o) = b2z fr) as Hsk.
  { unfold oq_skip, o. change (oq_freed (ostq_abs ost)) with (q_freed ost). rewrite Hf. by destruct fr. }
  destruct (oq_scan want o) as [[c s]|] eqn:E.
  - apply oq_scan_from_Some in E as (k & Hk & Hc & Hwc & -> & Hmin).
    destruct (decide (k < oq_skip o)%nat) as [Hlt|Hge]; [by rewrite oq_at_freed in Hc by done|].
    replace k with (oq_skip o + (k - oq_skip o))%nat in Hc by lia. rewrite oq_at_live, Hl in Hc.
    pose proof (lookup_split _ _ _ Hc) as (l1 & l2 & Hsp & Hlen).
    apply (HS _ l1 c l2); [done| |done|].
    + apply Forall_lookup. intros i x Hi. pose proof (lookup_lt_Some _ _ _ Hi).
      apply (Hmin (oq_skip o + i)%nat x); [lia|]. rewrite oq_at_live, Hl, Hsp. by apply lookup_app_l_Some.
    + split; [by rewrite <- Hsp|]. fold o. f_equal. lia.
  - apply HN, Forall_lookup. intros i x Hi. pose proof (lookup_lt_Some _ _ _ Hi).
    eapply (oq_scan_from_None _ _ _ _ E (oq_skip o + i)); [|by rewrite oq_at_live, Hl].
    change (oq_depth o) with (q_depth ost). lia.
Qed.

Lemma wp_ostq_read ost fr l slot l1 c l2 Q : ost_live ost fr l -> slot_at ost slot l1 c l2 ->
  Q c ost -> wp (ostq_read_slot slot) Q ost.
Proof.
  intros Hl Hs HQ. destruct (slot_pos _ _ _ _ _ _ _ Hl Hs) as [Hk Hc]. destruct Hs as [_ ->].
  destruct (ostq_read_at ost _ c (ol_wf _ _ _ Hl) Hk Hc) as (? & E & ->). unfold wp. by rewrite E.
Qed.

Lemma wp_ostq_write ost fr l slot l1 c l2 c' Q : ost_live ost fr l -> slot_at ost slot l1 c l2 ->
  (forall ost', ost_live ost' fr (l1 ++ c' :: l2) -> slot_at ost' slot l1 c' l2 ->
     q_depth ost' = q_depth ost -> Q tt ost') ->
  wp (ostq_write_slot slot c') Q ost.
Proof.
  intros Hl Hs HQ. destruct (slot_pos _ _ _ _ _ _ _ Hl Hs) as [Hk Hc]. destruct Hs as [Hsp ->].
  destruct Hl as [Hw Hd Hf Hl]. set (o := ostq_abs ost) in *. set (k := (oq_skip o + length l1)%nat) in *.
  destruct (oq_slot_idx o k) as [Hr _]; [apply Hw|done|].
  apply (wp_sim _ _ _ _ _ _ (ostq_write_slot_sim (oq_slot o k) c' ltac:(lia)) Hw). fold o.
  unfold wp. rewrite (oq_write_at o k c c') by (done || apply Hw).
  intros ost' Hw' Ha.
  assert (oq_live (ostq_abs ost') = l1 ++ c' :: l2) as Hl'.
  { rewrite Ha. unfold oq_live, oq_skip. upd_proj. unfold k, oq_skip.
    rewrite drop_insert_ge by (destruct (oq_freed o); simpl; lia).
    unfold oq_live, oq_skip in Hsp. simpl in *. rewrite Hsp.
    replace (_ + length l1 - _)%nat with (length l1 + 0)%nat by (destruct (oq_freed o); lia).
    by rewrite insert_app_r. }
  assert (q_depth ost' = q_depth ost) as Hdd by exact (abs_depth _ _ Ha).
  apply HQ; [split; [done|lia|by rewrite (abs_freed _ _ Ha), <- Hf|done]| |done].
  split; [done|]. by rewrite Ha.
Qed.

Lemma wp_ostq_alloc ost fr l ctx Q : ost_live ost fr l -> ostq_full ost = false ->
  (forall ost' slot, ost_live ost' fr (l ++ [ctx]) -> slot_at ost' slot l ctx [] ->
     q_depth ost' = q_depth ost -> Q (Some slot) ost') ->
  wp (ostq_alloc ctx) Q ost.
Proof.
  intros Hol Hfull HQ. pose proof Hol as [Hw Hd Hf Hl].
  pose proof (ost_live_bound _ _ _ Hol) as [Hb _]. pose proof (oq_len_abs ost Hw) as Hlen.
  apply (wp_sim _ _ _ _ _ _ (ostq_alloc_sim ctx) Hw). unfold oq_alloc, wp. mred.
  rewrite Hlen. simpl. unfold ostq_full in Hfull. rewrite Hfull. intros ost' Hw' Ha.
  set (o := ostq_abs ost) in *.
  assert (oq_skip o <= length (oq_ctxs o))%nat as Hsk.
  { unfold oq_len in Hlen. set (n := length (oq_ctxs o)) in *. clearbody n.
    unfold oq_skip, o. change (oq_freed (ostq_abs ost)) with (q_freed ost). rewrite Hf.
    pose proof (qwf_pending _ Hw) as Hp. unfold q_freed in Hf. destruct fr; lia. }
  assert (oq_live (ostq_abs ost') = l ++ [ctx]) as Hl'.
  { rewrite Ha. unfold oq_live in *. unfold oq_skip in *. simpl in *. fold o.
    rewrite drop_app_le by done. by rewrite Hl. }
  assert (q_depth ost' = q_depth ost) as Hdd by exact (abs_depth _ _ Ha).
  apply HQ; [split; [done|lia|by rewrite (abs_freed _ _ Ha), <- Hf|done]| |done].
  split; [done|]. rewrite Ha. unfold oq_slot. cbn [oq_base oq_depth]. f_equal. f_equal.
  rewrite <- Hlen. unfold oq_len. rewrite <- Hl. unfold oq_live. rewrite length_drop. fold o.
  change (oq_skip (o <| oq_ctxs := oq_ctxs o ++ [ctx] |>)) with (oq_skip o). lia.
Qed.

Lemma wp_ostq_peek ost fr l Q : ost_live ost fr l ->
  (fr = true \/ l = [] -> Q None ost) ->
  (forall c l2 slot, fr = false -> l = c :: l2 -> slot_at ost slot [] c l2 -> Q (Some (c, slot)) ost) ->
  wp ostq_peek_head Q ost.
Proof.
  intros [Hw Hd Hf Hl] HN HS.
  enough (wp ostq_peek_head (fun r ost' => r = (if fr then None else (fun c => (c, q_rptr ost)) <$> head l)
    /\ ost' = ost) ost) as H.
  { eapply wp_mono; [exact H|]. intros r ost' [-> ->]. destruct fr; [auto|].
    destruct l as [|c l2]; [by apply HN; right|]. apply (HS c l2); [done..|]. split; [done|].
    unfold oq_slot, oq_skip. change (oq_freed (ostq_abs ost)) with (q_freed ost). rewrite Hf. simpl.
    pose proof (qwf_rptr _ Hw). rewrite Z.mod_small; lia. }
  pose proof (ostq_peek_head_sim ost Hw) as Hs. unfold oq_peek_head in Hs. unfold wp.
  assert (forall r ost', ostq_peek_head ost = Some (r, ost') -> ost' = ost) as Hpure.
  { intros r ost'. unfold ostq_peek_head, q_get. mred. destruct (ostq_empty ost); [congruence|].
    destruct (aget _ _) as [e|]; [|done]. destruct (q_vld e); [|done]. by destruct (q_free_pending e); intros [= _ ->]. }
  mred. revert Hs. mred. destruct (ostq_peek_head ost) as [[r ost']|] eqn:E; [|done].
  intros (-> & _ & _). split; [|by eapply Hpure]. change (oq_freed (ostq_abs ost)) with (q_freed ost).
  rewrite Hf. destruct fr; [done|]. rewrite <- Hl. unfold oq_live, oq_skip. simpl. by rewrite Hf.
Qed.

Lemma wp_ostq_free ost c l2 Q : ost_live ost false (c :: l2) ->
  (forall ost', ost_live ost' true l2 -> q_depth ost' = q_depth ost -> Q tt ost') ->
  wp ostq_free_head Q ost.
Proof.
  intros [Hw Hd Hf Hl] HQ. apply (wp_sim _ _ _ _ _ _ ostq_free_head_sim Hw).
  unfold oq_free_head, wp. mred.
  assert (oq_ctxs (ostq_abs ost) = c :: l2) as Hc.
  { unfold oq_live, oq_skip in Hl. simpl in Hl. rewrite Hf in Hl. exact Hl. }
  unfold oq_len. simpl in Hc. rewrite Hf. simpl. rewrite Hc. simpl.
  intros ost' Hw' Ha.
  assert (q_depth ost' = q_depth ost) as Hdd by exact (abs_depth _ _ Ha).
  apply HQ; [|done]. split; [done|lia|by rewrite (abs_freed _ _ Ha)|].
  rewrite Ha. unfold oq_live, oq_skip. simpl. by rewrite Hc.
Qed.

End live.
