(* ===== verification/OstSlot.v ===== *)
(** * Slots held over several cycles

    A unit that works on an entry of the outstanding queue for many cycles keeps its slot number.
    The rules of this file say where the entry of a slot is in the list of live entries after each
    operation, and what a loop over all the slots in the order of their numbers sees. *)

From stdpp Require Import base numbers list.
From Stdlib Require Import ZArith Lia.
From S2P Require Import Prelude Fifo Ost OstScan.

Lemma wp_conj {S A} (m : M S A) (P Q : A -> S -> Prop) s :
  wp m P s -> wp m Q s -> wp m (fun a s' => P a s' /\ Q a s') s.
Proof. unfold wp. by destruct (m s) as [[a s']|]. Qed.

Section slots.
  Context {A : Type} `{!Zero A}.
  Implicit Types (ost : ostq_t A) (o : oq A) (ctx c : A) (l : list A).

(** The slot of the live entry number [j]. *)
Definition live_slot ost (j : nat) : Z := oq_slot (ostq_abs ost) (oq_skip (ostq_abs ost) + j).

Lemma slot_at_live ost slot l1 c l2 : slot_at ost slot l1 c l2 -> slot = live_slot ost (length l1).
Proof. by intros [_ ->]. Qed.

Lemma live_slot_at ost fr l j c : ost_live ost fr l -> l !! j = Some c ->
  slot_at ost (live_slot ost j) (take j l) c (drop (S j) l).
Proof.
  intros Hl Hj. split; [by rewrite (ol_list _ _ _ Hl), take_drop_middle|].
  unfold live_slot. rewrite length_take, Nat.min_l; [done|]. apply lookup_lt_Some in Hj. lia.
Qed.

Lemma wp_slot_clock ost fr l Q : ost_live ost fr l ->
  (forall ost', ost_live ost' false l -> q_depth ost' = q_depth ost ->
     (forall j, live_slot ost' j = live_slot ost j) -> Q tt ost') ->
  wp ostq_clock Q ost.
Proof.
  intros Hl HQ. eapply wp_mono; [apply wp_conj|].
  - by apply (wp_ostq_clock ost fr l (fun _ ost' => ost_live ost' false l /\ q_depth ost' = q_depth ost)).
  - apply (wp_sim _ _ _ _ (fun _ ost' => forall j, live_slot ost' j = live_slot ost j) _ ostq_clock_sim (ol_wf _ _ _ Hl)).
    pose proof (qwf_depth _ (ol_wf _ _ _ Hl)). unfold oq_clock, wp. mred.
    change (oq_freed (ostq_abs ost)) with (q_freed ost).
    destruct (q_freed ost) eqn:Ef; intros ost' _ Ha j; unfold live_slot; rewrite Ha; [|done].
    unfold oq_slot, oq_skip. cbn [oq_freed oq_base oq_depth].
    change (oq_freed (ostq_abs ost)) with (q_freed ost). rewrite Ef.
    rewrite Zplus_mod_idemp_l. f_equal. lia.
  - intros [] ost' [[? ?] ?]. by apply HQ.
Qed.

Lemma wp_slot_free ost c l Q : ost_live ost false (c :: l) ->
  (forall ost', ost_live ost' true l -> q_depth ost' = q_depth ost ->
     (forall j, live_slot ost' j = live_slot ost (S j)) -> Q tt ost') ->
  wp ostq_free_head Q ost.
Proof.
  intros Hl HQ. eapply wp_mono; [apply wp_conj|].
  - by apply (wp_ostq_free ost c l (fun _ ost' => ost_live ost' true l /\ q_depth ost' = q_depth ost)).
  - pose proof (wp_ostq_free ost c l (fun _ _ => True) Hl ltac:(done)) as Ht. destruct Hl as [Hw _ Hf _].
    pose proof (ostq_free_head_sim ost Hw) as Hs. unfold wp in *. destruct (ostq_free_head ost) as [[[] ost']|]; [|done].
    instantiate (1 := fun _ ost' => forall j, live_slot ost' j = live_slot ost (S j)).
    cbv beta. intros j. unfold oq_free_head in Hs. revert Hs. mred. destruct (_ && _); [|done]. intros (_ & _ & Ha).
    unfold live_slot. rewrite Ha. unfold oq_slot, oq_skip. upd_proj. change (oq_freed (ostq_abs ost)) with (q_freed ost).
    by rewrite Hf.
  - intros [] ost' [[? ?] ?]. by apply HQ.
Qed.

Lemma wp_slot_alloc ost fr l ctx Q : ost_live ost fr l -> ostq_full ost = false ->
  (forall ost', ost_live ost' fr (l ++ [ctx]) -> q_depth ost' = q_depth ost ->
     (forall j, live_slot ost' j = live_slot ost j) -> Q (Some (live_slot ost' (length l))) ost') ->
  wp (ostq_alloc ctx) Q ost.
Proof.
  intros Hl Hfull HQ. eapply wp_mono; [apply wp_conj|].
  - apply (wp_ostq_alloc ost fr l ctx (fun r ost' => ost_live ost' fr (l ++ [ctx]) /\ q_depth ost' = q_depth ost /\
      r = Some (live_slot ost' (length l))) Hl Hfull).
    intros ost' slot Hl' ->%slot_at_live ?. done.
  - pose proof (wp_ostq_alloc ost fr l ctx (fun r _ => is_Some r) Hl Hfull ltac:(by eexists)) as Ht. destruct Hl as [Hw _ _ _].
    pose proof (ostq_alloc_sim ctx ost Hw) as Hs. unfold wp in *. instantiate (1 := fun _ ost' => forall j, live_slot ost' j = live_slot ost j).
    destruct (ostq_alloc ctx ost) as [[r ost']|]; [|done].
    cbv beta. intros j. unfold oq_alloc in Hs. revert Hs. mred. destruct (_ =? _); [intros (-> & _); by destruct Ht|].
    intros (_ & _ & Ha). unfold live_slot. by rewrite Ha.
  - intros r ost' [(? & ? & ->) ?]. by apply HQ.
Qed.

Lemma wp_slot_write ost fr l j c c' Q : ost_live ost fr l -> l !! j = Some c ->
  (forall ost', ost_live ost' fr (<[j := c']> l) -> q_depth ost' = q_depth ost ->
     (forall i, live_slot ost' i = live_slot ost i) -> Q tt ost') ->
  wp (ostq_write_slot (live_slot ost j) c') Q ost.
Proof.
  intros Hl Hj HQ. pose proof (live_slot_at ost fr l j c Hl Hj) as Hs.
  destruct (slot_pos _ _ _ _ _ _ _ Hl Hs) as [Hk Hc]. pose proof (lookup_lt_Some _ _ _ Hj) as Hlt.
  rewrite length_take, Nat.min_l in Hk, Hc by lia.
  eapply wp_mono; [apply wp_conj|].
  - eapply wp_ostq_write; [done|exact Hs|]. intros ost' H1 _ H3.
    instantiate (1 := fun _ ost' => ost_live ost' fr (<[j := c']> l) /\ q_depth ost' = q_depth ost).
    split; [|done]. by rewrite insert_take_drop by done.
  - assert (0 <= live_slot ost j < q_depth ost) as Hr by (apply (oq_slot_idx (ostq_abs ost)); [apply (ol_wf _ _ _ Hl)|done]).
    apply (wp_sim _ _ _ _ (fun _ ost' => forall i, live_slot ost' i = live_slot ost i) _
      (ostq_write_slot_sim (live_slot ost j) c' ltac:(lia)) (ol_wf _ _ _ Hl)).
    unfold wp, live_slot. rewrite (oq_write_at _ _ c c') by (done || apply (ol_wf _ _ _ Hl)).
    intros ost' _ Ha i. by rewrite Ha.
  - intros [] ost' [[? ?] ?]. by apply HQ.
Qed.

Lemma wp_slot_read ost fr l j c Q : ost_live ost fr l -> l !! j = Some c -> Q c ost ->
  wp (ostq_read_slot (live_slot ost j)) Q ost.
Proof. intros Hl Hj HQ. eapply wp_ostq_read; [done|by eapply live_slot_at|done]. Qed.

(** A valid slot is the slot of a live entry. *)
Lemma wp_slot_valid ost fr l slot Q : ost_live ost fr l -> 0 <= slot < q_depth ost ->
  Q false ost -> (forall j c, l !! j = Some c -> slot = live_slot ost j -> Q true ost) ->
  wp (ostq_slot_valid slot) Q ost.
Proof.
  intros Hl Hr HF HT. pose proof (ol_wf _ _ _ Hl) as Hw. destruct (ostq_slot_valid_ok ost slot Hw Hr) as (e & _ & E).
  unfold wp. rewrite E. set (o := ostq_abs ost) in *.
  set (k := Z.to_nat (ring_idx (oq_depth o) (oq_base o) slot)).
  pose proof (qwf_rptr _ Hw) as Hb. change (0 <= oq_base o < oq_depth o) in Hb. change (0 <= slot < oq_depth o) in Hr.
  pose proof (ring_idx_range (oq_depth o) (oq_base o) slot Hb Hr) as Hi.
  assert (slot = oq_slot o k) as Es.
  { unfold oq_slot, k. rewrite Z2Nat.id by lia. rewrite mod_wrap by lia. unfold ring_idx in *.
    destruct (Z.ltb_spec slot (oq_base o)).
    - destruct (Z.ltb_spec (oq_base o + (slot - oq_base o + oq_depth o)) (oq_depth o)); lia.
    - destruct (Z.ltb_spec (oq_base o + (slot - oq_base o)) (oq_depth o)); lia. }
  assert (Z.of_nat k < oq_depth o) as Hk by lia.
  rewrite Es, oq_slot_ok_at by done. destruct (oq_at o k) as [c|] eqn:Ec; [|by rewrite bool_decide_false by (intros [? ?]; done)].
  rewrite bool_decide_true by done. destruct (decide (k < oq_skip o)%nat) as [Hlt|Hge]; [by rewrite oq_at_freed in Ec|].
  replace k with (oq_skip o + (k - oq_skip o))%nat in Ec by lia. rewrite oq_at_live in Ec.
  apply (HT (k - oq_skip o)%nat c); [by rewrite <- (ol_list _ _ _ Hl)|]. unfold live_slot. fold o. rewrite Es. f_equal. lia.
Qed.

End slots.

(** An empty table after reset. *)
Lemma ost_reset_live {A} `{!Zero A} (o : ostq_t A) Q : ostq_wf o -> q_depth o <= 2147483648 ->
  (forall o', ost_live o' false [] -> Q tt o') -> wp ostq_reset Q o.
Proof.
  intros Hw Hd HQ. destruct (ostq_reset_ok o Hw) as (o' & E & Hw' & Ha). apply (wp_intro _ _ _ _ _ E), HQ.
  split; [done|rewrite (abs_depth _ _ Ha); simpl; lia|by rewrite (abs_freed _ _ Ha)|by rewrite Ha].
Qed.
