(* ===== verification/Lsu.v ===== *)
(** * The load-store unit

    [core/hart/lsu.c]: requests of the execution unit wait in a staging FIFO, get an entry of
    the outstanding queue and go to the bus interface, an access that crosses a page as one
    request per byte when translation is on; responses are collected and returned in order. *)

From stdpp Require Import base numbers list relations.
From Stdlib Require Import ZArith Lia.
From S2P Require Import Prelude Fifo Ost OstScan Isa ExuState.

Definition LSU_PGSHIFT : Z := 12.
Definition LSU_PGSIZE : Z := Z.shiftl 1 LSU_PGSHIFT.
Definition LSU_PGMASK : Z := LSU_PGSIZE - 1.
Definition RV32G_CSR_SATP_MODE_BIT : Z := Z.shiftl 1 31.

Record lsu_ost_ctx_t := LsuOstCtx {
  lc_req : ldst_req_if_t; lc_split : bool; lc_byte_num : Z; lc_req_idx : Z; lc_rsp_idx : Z;
  lc_rsp_data : Z; lc_ready : bool; lc_ok : bool }.
#[export] Instance eta_lsu_ost_ctx : Eta lsu_ost_ctx_t := fun c =>
  LsuOstCtx (lc_req c) (lc_split c) (lc_byte_num c) (lc_req_idx c) (lc_rsp_idx c)
    (lc_rsp_data c) (lc_ready c) (lc_ok c).

(** [ldst_req_if_t] filled with zeros. *)
Definition ldst_req_zero : ldst_req_if_t := LdstReq 0 false LDST_REQ_CMO_NONE LDST_REQ_SIZE_B1 0 0.
#[export] Instance zero_lsu_ost_ctx : Zero lsu_ost_ctx_t :=
  LsuOstCtx ldst_req_zero false 0 0 0 0 false false.

(** [lsu_satp] is the CSR state signal. *)
Record lsu_t := Lsu {
  exu_ldst_req_slv : chan ldst_req_if_t;
  exu_ldst_rsp_mst : chan ldst_rsp_if_t;
  hbi_ldst_req_mst : chan ldst_req_if_t;
  hbi_ldst_rsp_slv : chan ldst_rsp_if_t;
  lsu_satp : Z;
  req_fifo : chan ldst_req_if_t;
  ost : ostq_t lsu_ost_ctx_t;
  l_busy : bool;
  l_split : bool;
  l_req : ldst_req_if_t;
  l_byte_num : Z;
  l_req_byte_idx : Z;
  l_rsp_byte_idx : Z;
  l_rsp_data : Z;
  l_perf_stg_full : Z;
  l_perf_ost_full : Z
}.
#[export] Instance eta_lsu : Eta lsu_t := fun l =>
  Lsu (exu_ldst_req_slv l) (exu_ldst_rsp_mst l) (hbi_ldst_req_mst l) (hbi_ldst_rsp_slv l)
    (lsu_satp l) (req_fifo l) (ost l) (l_busy l) (l_split l) (l_req l) (l_byte_num l)
    (l_req_byte_idx l) (l_rsp_byte_idx l) (l_rsp_data l) (l_perf_stg_full l) (l_perf_ost_full l).

(** ** Operations *)

Definition lsu_req_byte_num (size : Z) : option Z :=
  if size <=? LDST_REQ_SIZE_B4 then Some (u32 (Z.shiftl 1 size)) else None.

Definition lsu_translation_enabled (lsu : lsu_t) : bool :=
  negb (Z.land (lsu_satp lsu) RV32G_CSR_SATP_MODE_BIT =? 0).

Definition lsu_cross_page (req : ldst_req_if_t) : option bool :=
  byte_num ← lsu_req_byte_num (ld_size req);
  Some (LSU_PGSIZE <? u32 (Z.land (ld_addr req) LSU_PGMASK + byte_num)).

Definition lsu_make_byte_req (src : ldst_req_if_t) (byte_idx : Z) : ldst_req_if_t :=
  let byte := Z.land (Z.shiftr (ld_data src) (u32 (byte_idx * 8))) 0xff in
  LdstReq (u32 (ld_addr src + byte_idx)) (ld_st src) LDST_REQ_CMO_NONE LDST_REQ_SIZE_B1 byte
    (if ld_st src && negb (Z.land (ld_strobe src) (Z.shiftl 1 byte_idx) =? 0) then 1 else 0).

Definition lsu_capture_req : M lsu_t unit :=
  lsu ← gets id;
  if chan_full (req_fifo lsu) then
    when (negb (chan_empty (exu_ldst_req_slv lsu)))
      (modify (fun lsu => lsu <| l_perf_stg_full := u64 (l_perf_stg_full lsu + 1) |>))
  else if chan_empty (exu_ldst_req_slv lsu) then mret tt
  else
    req ← on exu_ldst_req_slv chan_read;
    on req_fifo (chan_write req).

Definition lsu_alloc_req : M lsu_t unit :=
  lsu ← gets id;
  if chan_empty (req_fifo lsu) then mret tt
  else if ostq_full (ost lsu) then
    modify (fun lsu => lsu <| l_perf_ost_full := u64 (l_perf_ost_full lsu + 1) |>)
  else
    req ← on req_fifo chan_read;
    split ← (if (ld_cmo req =? LDST_REQ_CMO_NONE) && lsu_translation_enabled lsu
             then of_option (lsu_cross_page req) else mret false);
    byte_num ← (if split : bool then of_option (lsu_req_byte_num (ld_size req)) else mret 1);
    let ctx := LsuOstCtx req split byte_num 0 0 0 false true in
    r ← on ost (ostq_alloc ctx);
    DBG_CHECK (bool_decide (is_Some r)).

Definition lsu_find_issue_slot : M lsu_t (option (lsu_ost_ctx_t * Z)) :=
  on ost (ostq_scan (fun cur => negb (lc_ready cur || (lc_byte_num cur <=? lc_req_idx cur)))).

Definition lsu_find_rsp_slot : M lsu_t (option (lsu_ost_ctx_t * Z)) :=
  on ost (ostq_scan (fun cur => negb (lc_ready cur || (lc_req_idx cur <=? lc_rsp_idx cur)))).

Definition lsu_issue_req : M lsu_t unit :=
  lsu ← gets id;
  if chan_full (hbi_ldst_req_mst lsu) then mret tt
  else
    found ← lsu_find_issue_slot;
    match found with
    | None => mret tt
    | Some (ctx, slot) =>
      let req := if lc_split ctx then lsu_make_byte_req (lc_req ctx) (lc_req_idx ctx)
                 else lc_req ctx in
      on hbi_ldst_req_mst (chan_write req);;
      let ctx := ctx <| lc_req_idx := u32 (lc_req_idx ctx + 1) |> in
      on ost (ostq_write_slot slot ctx)
    end.

Definition lsu_proc_rsp : M lsu_t unit :=
  lsu ← gets id;
  if chan_empty (hbi_ldst_rsp_slv lsu) then mret tt
  else
    found ← lsu_find_rsp_slot;
    match found with
    | None => mret tt
    | Some (ctx, slot) =>
      rsp ← on hbi_ldst_rsp_slv chan_read;
      if negb (lr_ok rsp) then
        let ctx := ctx <| lc_ok := false |> in
        let ctx := ctx <| lc_ready := true |> in
        on ost (ostq_write_slot slot ctx)
      else
        let ctx :=
          if lc_split ctx then
            if negb (ld_st (lc_req ctx)) then
              ctx <| lc_rsp_data := Z.lor (lc_rsp_data ctx)
                (u32 (Z.shiftl (Z.land (lr_data rsp) 0xff) (u32 (lc_rsp_idx ctx * 8)))) |>
            else ctx
          else ctx <| lc_rsp_data := lr_data rsp |> in
        let ctx := ctx <| lc_rsp_idx := u32 (lc_rsp_idx ctx + 1) |> in
        let ctx :=
          if lc_rsp_idx ctx =? lc_byte_num ctx then
            let ctx := ctx <| lc_ready := true |> in
            ctx <| lc_ok := true |>
          else ctx in
        on ost (ostq_write_slot slot ctx)
    end.

Definition lsu_send_ready_rsp : M lsu_t unit :=
  lsu ← gets id;
  if chan_full (exu_ldst_rsp_mst lsu) then mret tt
  else
    found ← on ost ostq_peek_head;
    match found with
    | None => mret tt
    | Some (ctx, _) =>
      if negb (lc_ready ctx) then mret tt
      else
        let rsp := LdstRsp (if lc_ok ctx && negb (ld_st (lc_req ctx)) then lc_rsp_data ctx else 0)
                     (lc_ok ctx) in
        on exu_ldst_rsp_mst (chan_write rsp);;
        on ost ostq_free_head
    end.

Definition lsu_update_dbg_state : M lsu_t unit :=
  modify (fun lsu => lsu <| l_busy := negb (ostq_empty (ost lsu)) || negb (chan_empty (req_fifo lsu)) |>
    <| l_split := false |> <| l_req := ldst_req_zero |> <| l_byte_num := 0 |>
    <| l_req_byte_idx := 0 |> <| l_rsp_byte_idx := 0 |> <| l_rsp_data := 0 |>);;
  found ← on ost ostq_peek_head;
  match found with
  | None => mret tt
  | Some (ctx, _) =>
    modify (fun lsu => lsu <| l_split := lc_split ctx |> <| l_req := lc_req ctx |>
      <| l_byte_num := lc_byte_num ctx |> <| l_req_byte_idx := lc_req_idx ctx |>
      <| l_rsp_byte_idx := lc_rsp_idx ctx |> <| l_rsp_data := lc_rsp_data ctx |>)
  end.

Definition lsu_reset : M lsu_t unit :=
  modify (fun lsu => lsu <| l_busy := false |> <| l_split := false |> <| l_req := ldst_req_zero |>
    <| l_byte_num := 0 |> <| l_req_byte_idx := 0 |> <| l_rsp_byte_idx := 0 |> <| l_rsp_data := 0 |>);;
  on req_fifo chan_clear;;
  on ost ostq_reset;;
  modify (fun lsu => lsu <| l_perf_stg_full := 0 |>);;
  modify (fun lsu => lsu <| l_perf_ost_full := 0 |>).

Definition lsu_clock : M lsu_t unit :=
  on ost ostq_clock;;
  lsu_capture_req;;
  lsu_proc_rsp;;
  lsu_send_ready_rsp;;
  lsu_issue_req;;
  lsu_alloc_req;;
  lsu_issue_req;;
  lsu_update_dbg_state.
