(* ===== verification/LsuSpec.v ===== *)
(** * The load-store unit as a stream transformer

    What the load-store unit promises at its two interfaces: requests reach the bus interface in
    order, each as it is or as its bytes, and each is answered once, in order, from the
    responses to its own requests. *)

From stdpp Require Import base numbers list relations.
From Stdlib Require Import ZArith Lia.
From S2P Require Import Prelude Fifo Ost OstScan Isa ExuState Lsu.

(** ** Specification *)

(** A request of the execution unit and whether it is split into bytes. *)
Definition piece : Type := ldst_req_if_t * bool.

Definition nbytes (req : ldst_req_if_t) : nat := Z.to_nat (Z.shiftl 1 (ld_size req)).

(** The requests to the bus interface. *)
Definition expand (p : piece) : list ldst_req_if_t :=
  if p.2 then (fun i => lsu_make_byte_req p.1 (Z.of_nat i)) <$> seq 0 (nbytes p.1) else [p.1].

(** A word from its bytes, the least significant one first. *)
Fixpoint le_join (l : list Z) : Z :=
  match l with
  | [] => 0
  | b :: l => b mod 256 + 256 * le_join l
  end.

(** The answer to a request from the responses to what it was expanded to. *)
Definition answer (p : piece) (rsps : list ldst_rsp_if_t) : ldst_rsp_if_t :=
  LdstRsp (if ld_st p.1 then 0
           else if p.2 then le_join (lr_data <$> rsps) else default 0 (lr_data <$> head rsps)) true.

(** The answers the response stream gives, in order. *)
Fixpoint serve (ps : list piece) (rsps : list ldst_rsp_if_t) : list ldst_rsp_if_t :=
  match ps with
  | [] => []
  | p :: ps =>
    let n := length (expand p) in
    if decide (n <= length rsps)%nat then answer p (take n rsps) :: serve ps (drop n rsps) else []
  end.

(** Only an access that crosses a page is split, and never a cache operation. *)
Definition piece_ok (p : piece) : Prop :=
  0 <= ld_size p.1 <= 2 /\
  (p.2 = true -> lsu_cross_page p.1 = Some true /\ ld_cmo p.1 = LDST_REQ_CMO_NONE).

Lemma nbytes_cases req : 0 <= ld_size req <= 2 ->
  lsu_req_byte_num (ld_size req) = Some (Z.of_nat (nbytes req)) /\ (1 <= nbytes req <= 4)%nat.
Proof.
  intros H. unfold lsu_req_byte_num, nbytes.
  assert (ld_size req = 0 \/ ld_size req = 1 \/ ld_size req = 2) as [->|[->| ->]] by lia;
    vm_compute; (split; [reflexivity|lia]).
Qed.

Lemma expand_length p : piece_ok p ->
  length (expand p) = (if p.2 then nbytes p.1 else 1%nat) /\ (1 <= length (expand p) <= 4)%nat.
Proof.
  intros [Hs _]. destruct (nbytes_cases _ Hs) as [_ Hn]. unfold expand. destruct p.2; [|simpl; lia].
  rewrite length_fmap, length_seq. lia.
Qed.

Lemma expand_lookup p i : piece_ok p -> (i < length (expand p))%nat ->
  expand p !! i = Some (if p.2 then lsu_make_byte_req p.1 (Z.of_nat i) else p.1).
Proof.
  intros Hp Hi. destruct (expand_length p Hp) as [Hl _]. unfold expand in *. destruct p.2.
  - rewrite list_lookup_fmap, lookup_seq_lt by lia. done.
  - simpl in Hi. by replace i with 0%nat by lia.
Qed.

Lemma le_join_bounds l : 0 <= le_join l < 256 ^ Z.of_nat (length l).
Proof.
  induction l as [|b l IH]; [done|]. simpl le_join. rewrite length_cons, Nat2Z.inj_succ, Z.pow_succ_r by lia.
  pose proof (Z.mod_pos_bound b 256). lia.
Qed.

Lemma le_join_snoc l d : le_join (l ++ [d]) = le_join l + 256 ^ Z.of_nat (length l) * (d mod 256).
Proof.
  induction l as [|b l IH]; simpl le_join; [simpl length; rewrite Z.pow_0_r; lia|].
  rewrite IH, length_cons, Nat2Z.inj_succ, Z.pow_succ_r by lia. lia.
Qed.

(** The accumulation of [lsu_proc_rsp]. *)
Lemma le_join_lor l d : (length l < 4)%nat ->
  Z.lor (le_join l) (u32 (Z.shiftl (Z.land d 0xff) (u32 (Z.of_nat (length l) * 8)))) =
  le_join (l ++ [d]).
Proof.
  intros Hl. rewrite le_join_snoc. change 0xff with (Z.ones 8). rewrite Z.land_ones by lia.
  change (2 ^ 8) with 256. pose proof (le_join_bounds l) as Hb. pose proof (Z.mod_pos_bound d 256).
  rewrite (u32_small (Z.of_nat (length l) * 8)) by (unfold is_u32, W32; lia).
  replace (256 ^ Z.of_nat (length l)) with (2 ^ (Z.of_nat (length l) * 8)) in *
    by (rewrite Z.mul_comm, Z.pow_mul_r by lia; done).
  set (k := Z.of_nat (length l) * 8) in *.
  assert (0 <= k <= 24) by lia.
  assert (2 ^ k <= 2 ^ 24) by (apply Z.pow_le_mono_r; lia). change (2 ^ 24) with 16777216 in *.
  assert (0 < 2 ^ k) by (apply Z.pow_pos_nonneg; lia).
  rewrite u32_small.
  - rewrite Z.lor_comm, lor_shiftl_add by lia. lia.
  - rewrite Z.shiftl_mul_pow2 by lia. unfold is_u32, W32. nia.
Qed.

(** ** Ordered progress *)

(** Counters of the live entries advance in order: an entry starts when the ones before it
    are complete. *)
Fixpoint ordered (idx : lsu_ost_ctx_t -> Z) (l : list lsu_ost_ctx_t) : Prop :=
  match l with
  | [] => True
  | c :: l => ordered idx l /\ (idx c = lc_byte_num c \/ Forall (fun d => idx d = 0) l)
  end.

Section ordered.
  Context (idx : lsu_ost_ctx_t -> Z).
  Implicit Types (c : lsu_ost_ctx_t) (l : list lsu_ost_ctx_t).

Definition full c : Prop := idx c = lc_byte_num c.
Definition fresh c : Prop := idx c = 0.

Lemma ordered_after l1 c l2 : ordered idx (l1 ++ c :: l2) -> ~ full c -> Forall fresh l2.
Proof.
  intros H Hc. induction l1 as [|x l1 IH]; simpl in H; [by destruct H as [_ [H|H]]|].
  apply IH, H.
Qed.

Lemma ordered_before l1 c l2 : ordered idx (l1 ++ c :: l2) -> ~ fresh c -> Forall full l1.
Proof.
  intros H Hc. induction l1 as [|x l1 IH]; [done|]. simpl in H. destruct H as [H1 [H2|H2]].
  - constructor; [done|]. by apply IH.
  - rewrite Forall_app, Forall_cons in H2. by destruct H2 as (_ & H2 & _).
Qed.

Lemma ordered_tail c l : ordered idx (c :: l) -> ordered idx l.
Proof. by intros [H _]. Qed.

Lemma ordered_mid l1 c l2 : Forall full l1 -> ordered idx l2 -> full c \/ Forall fresh l2 ->
  ordered idx (l1 ++ c :: l2).
Proof. intros H1 H2 Hc. induction H1 as [|x l1 Hx H1 IH]; simpl; [done|]. by split; [|left]. Qed.

Lemma ordered_app_r l1 l2 : ordered idx (l1 ++ l2) -> ordered idx l2.
Proof. induction l1 as [|x l1 IH]; [done|]. simpl. intros [H _]. by apply IH. Qed.

Lemma ordered_app_l l1 l2 : ordered idx (l1 ++ l2) -> ordered idx l1.
Proof.
  induction l1 as [|x l1 IH]; [done|]. simpl. intros [H1 H2]. split; [by apply IH|].
  destruct H2 as [H2|H2]; [by left|]. apply Forall_app in H2 as [H2 _]. by right.
Qed.

Lemma ordered_snoc l c : ordered idx l -> fresh c -> ordered idx (l ++ [c]).
Proof.
  intros H Hc. induction l as [|x l IH]; [simpl; auto|]. simpl in *. destruct H as [H1 H2].
  split; [by apply IH|]. destruct H2 as [H2|H2]; [by left|right].
  apply Forall_app. split; [done|by constructor].
Qed.

(** Replacing the entry that makes progress. *)
Lemma ordered_step l1 c c' l2 : ordered idx (l1 ++ c :: l2) -> Forall full l1 -> ~ full c ->
  ordered idx (l1 ++ c' :: l2).
Proof.
  intros H H1 Hc. apply ordered_mid; [done| |].
  - by eapply ordered_tail, ordered_app_r.
  - right. by eapply ordered_after.
Qed.

(** Replacing an entry by one with the same counter. *)
Lemma ordered_same l1 c c' l2 : idx c' = idx c -> lc_byte_num c' = lc_byte_num c ->
  ordered idx (l1 ++ c :: l2) -> ordered idx (l1 ++ c' :: l2).
Proof.
  intros Hi Hb. induction l1 as [|x l1 IH]; simpl; [by rewrite Hi, Hb|].
  intros [H1 H2]. split; [by apply IH|]. destruct H2 as [H2|H2]; [by left|right].
  rewrite !Forall_app, !Forall_cons in *. by rewrite Hi.
Qed.

End ordered.

(** ** The invariant *)

(** What has gone over the interfaces since reset: requests of the execution unit and the
    answers it took, requests the bus interface took and its responses. *)
Record lsu_io := LsuIo {
  io_ins : list ldst_req_if_t; io_outs : list ldst_rsp_if_t;
  io_hreqs : list ldst_req_if_t; io_hrsps : list ldst_rsp_if_t }.
#[export] Instance eta_lsu_io : Eta lsu_io := fun i =>
  LsuIo (io_ins i) (io_outs i) (io_hreqs i) (io_hrsps i).

Definition piece_of (c : lsu_ost_ctx_t) : piece := (lc_req c, lc_split c).

(** The requests an entry has issued. *)
Definition issued (c : lsu_ost_ctx_t) : list ldst_req_if_t :=
  take (Z.to_nat (lc_req_idx c)) (expand (piece_of c)).

(** An entry whose requests have been answered with [ch] so far. *)
Record ctx_ok (c : lsu_ost_ctx_t) (ch : list ldst_rsp_if_t) : Prop := {
  cx_piece : piece_ok (piece_of c);
  cx_num : lc_byte_num c = Z.of_nat (length (expand (piece_of c)));
  cx_rsp : lc_rsp_idx c = Z.of_nat (length ch);
  cx_le : lc_rsp_idx c <= lc_req_idx c <= lc_byte_num c;
  cx_ready : lc_ready c = (lc_rsp_idx c =? lc_byte_num c);
  cx_ok : lc_ok c = true;
  cx_data : ld_st (lc_req c) = false ->
    if lc_split c then lc_rsp_data c = le_join (lr_data <$> ch)
    else ch = [] \/ lc_rsp_data c = default 0 (lr_data <$> head ch)
}.

(** [dn] are the requests whose answer has been sent, [dch] the responses to each; [live] are
    the entries of the queue, [lch] their responses so far. *)
Record lsu_rel (l : lsu_t) (io : lsu_io) (dn : list piece) (dch : list (list ldst_rsp_if_t))
    (fr : bool) (live : list lsu_ost_ctx_t) (lch : list (list ldst_rsp_if_t)) : Prop := {
  r_ost : ost_live (ost l) fr live;
  r_wf_out : chan_wf (exu_ldst_rsp_mst l);
  r_wf_hreq : chan_wf (hbi_ldst_req_mst l);
  r_wf_stg : chan_wf (req_fifo l);
  r_pieces : Forall piece_ok dn;
  r_dn : Forall2 (fun p ch => length ch = length (expand p)) dn dch;
  r_live : Forall2 ctx_ok live lch;
  r_ins : io_ins io = dn.*1 ++ (lc_req <$> live) ++ ch_pkts (req_fifo l) ++ ch_pkts (exu_ldst_req_slv l);
  r_sizes : Forall (fun r => 0 <= ld_size r <= 2) (io_ins io);
  r_hreqs : io_hreqs io ++ ch_pkts (hbi_ldst_req_mst l) =
            concat (expand <$> dn) ++ concat (issued <$> live);
  r_hrsps : io_hrsps io = concat dch ++ concat lch ++ ch_pkts (hbi_ldst_rsp_slv l);
  r_hok : Forall (fun r => lr_ok r = true) (io_hrsps io);
  r_outs : io_outs io ++ ch_pkts (exu_ldst_rsp_mst l) = zip_with answer dn dch;
  r_oreq : ordered lc_req_idx live;
  r_orsp : ordered lc_rsp_idx live
}.

Definition lsu_inv (l : lsu_t) (io : lsu_io) : Prop :=
  exists dn dch fr live lch, lsu_rel l io dn dch fr live lch.

(** ** The operations keep it *)

(** An entry that makes progress, between the ones before and after it. *)
Lemma Forall2_mid {A B} (P : A -> B -> Prop) (l1 : list A) c (l2 : list A) k : Forall2 P (l1 ++ c :: l2) k ->
  exists k1 d k2, k = k1 ++ d :: k2 /\ Forall2 P l1 k1 /\ P c d /\ Forall2 P l2 k2.
Proof.
  intros H. apply Forall2_app_inv_l in H as (k1 & k' & H1 & H2 & ->).
  apply Forall2_cons_inv_l in H2 as (d & k2 & Hd & H2 & ->). by exists k1, d, k2.
Qed.


Section steps.
  Context (io : lsu_io).
  Implicit Types (l : lsu_t).

Lemma inv_ost_clock l : lsu_inv l io -> wp (on ost ostq_clock) (fun _ l' => lsu_inv l' io) l.
Proof.
  intros (dn & dch & fr & live & lch & []). apply wp_on. eapply wp_ostq_clock; [done|].
  intros o' Ho' _. exists dn, dch, false, live, lch. by split.
Qed.

Lemma inv_capture l : lsu_inv l io -> wp lsu_capture_req (fun _ l' => lsu_inv l' io) l.
Proof.
  intros Hi. unfold lsu_capture_req. apply wp_bind, wp_gets. unfold id, when.
  destruct (chan_full (req_fifo l)) eqn:Ef.
  { case_match; [apply wp_modify|by apply wp_ret]. destruct Hi as (dn & dch & fr & live & lch & []).
    exists dn, dch, fr, live, lch. by split. }
  destruct (chan_empty (exu_ldst_req_slv l)) eqn:Ee; [by apply wp_ret|].
  apply chan_empty_false in Ee as (x & r & Ee). destruct Hi as (dn & dch & fr & live & lch & []).
  apply wp_bind. eapply wp_on_read; [done|]. apply wp_on_write; [done|done|]. intros Hw.
  exists dn, dch, fr, live, lch. split; try done.
  rewrite r_ins0, Ee. unfold chan_snoc. upd_proj. cbn [ch_pkts]. by rewrite <- !app_assoc.
Qed.

Lemma inv_alloc l : lsu_inv l io -> wp lsu_alloc_req (fun _ l' => lsu_inv l' io) l.
Proof.
  intros Hi. unfold lsu_alloc_req. apply wp_bind, wp_gets. unfold id.
  destruct (chan_empty (req_fifo l)) eqn:Ee; [by apply wp_ret|].
  destruct (ostq_full (ost l)) eqn:Ef.
  { apply wp_modify. destruct Hi as (dn & dch & fr & live & lch & []).
    exists dn, dch, fr, live, lch. by split. }
  apply chan_empty_false in Ee as (x & r & Ee). destruct Hi as (dn & dch & fr & live & lch & []).
  assert (0 <= ld_size x <= 2) as Hsz.
  { rewrite r_ins0, Ee, !Forall_app, Forall_cons in r_sizes0. tauto. }
  destruct (nbytes_cases x Hsz) as [Hnb _].
  apply wp_bind. eapply wp_on_read; [done|]. apply wp_bind.
  assert (exists sp, (if (ld_cmo x =? LDST_REQ_CMO_NONE) && lsu_translation_enabled l
      then of_option (lsu_cross_page x) else mret false) =
      (mret sp : M lsu_t bool) /\ piece_ok (x, sp)) as (sp & -> & Hp).
  { destruct (_ && _) eqn:Et.
    - unfold lsu_cross_page. rewrite Hnb. simpl. eexists. split; [reflexivity|].
      split; [done|]. simpl. intros Hsp. apply andb_prop in Et as [?%Z.eqb_eq _]. split; [|done].
      unfold lsu_cross_page. rewrite Hnb. simpl. by rewrite Hsp.
    - exists false. by split; [|split]. }
  apply wp_ret. apply wp_bind.
  assert ((if sp then of_option (lsu_req_byte_num (ld_size x)) else mret 1) =
    (mret (Z.of_nat (length (expand (x, sp)))) : M lsu_t Z)) as ->.
  { destruct (expand_length _ Hp) as [-> _]. destruct sp; simpl; [|done]. by rewrite Hnb. }
  apply wp_ret. cbv zeta. apply wp_bind, wp_on. eapply wp_ostq_alloc; [done|done|].
  intros o' slot Ho' _ _. apply wp_check; [by apply bool_decide_eq_true; eauto|].
  exists dn, dch, fr, (live ++ [LsuOstCtx x sp (Z.of_nat (length (expand (x, sp)))) 0 0 0 false true]), (lch ++ [[]]).
  split; try done; upd_proj.
  - by eapply chan_wf_tail.
  - apply Forall2_app; [done|]. constructor; [|constructor]. split; try done; simpl.
    + lia.
    + destruct (expand_length _ Hp) as [_ ?]. symmetry. apply Z.eqb_neq. lia.
    + intros _. destruct sp; [done|by left].
  - rewrite r_ins0, Ee, fmap_app. simpl. by rewrite <- !app_assoc.
  - rewrite r_hreqs0, fmap_app, concat_app. simpl. unfold issued at 2. simpl. by rewrite !app_nil_r.
  - rewrite r_hrsps0, concat_app. simpl. by rewrite !app_nil_r.
  - by apply ordered_snoc.
  - by apply ordered_snoc.
Qed.

Lemma issued_fresh (l2 : list lsu_ost_ctx_t) : Forall (fresh lc_req_idx) l2 -> concat (issued <$> l2) = [].
Proof.
  induction 1 as [|c l2 Hc _ IH]; [done|]. rewrite fmap_cons, concat_cons, IH.
  unfold issued. by rewrite Hc.
Qed.

Lemma answered_fresh (l2 : list lsu_ost_ctx_t) k2 : Forall2 ctx_ok l2 k2 ->
  Forall (fresh lc_rsp_idx) l2 -> concat k2 = [].
Proof.
  induction 1 as [|c ch l2 k2 Hc _ IH]; [done|]. intros [Hf H2]%Forall_cons. simpl. rewrite IH by done.
  pose proof (cx_rsp _ _ Hc) as Hr. unfold fresh in Hf. destruct ch; [done|]. simpl in Hr. lia.
Qed.

Lemma lsu_inv_issue l : lsu_inv l io -> wp lsu_issue_req (fun _ l' => lsu_inv l' io) l.
Proof.
  intros Hi. unfold lsu_issue_req. apply wp_bind, wp_gets. unfold id.
  destruct (chan_full (hbi_ldst_req_mst l)) eqn:Ef; [by apply wp_ret|].
  destruct Hi as (dn & dch & fr & live & lch & []). apply wp_bind. unfold lsu_find_issue_slot.
  apply wp_on. eapply wp_ostq_scan; [done|..].
  { intros _. apply wp_ret. exists dn, dch, fr, live, lch. by split. }
  intros slot l1 c l2 -> Hl1 Hc Hslot.
  destruct (Forall2_mid _ _ _ _ _ r_live0) as (k1 & ch & k2 & -> & Hk1 & Hcx & Hk2).
  pose proof Hcx as [Hp Hn Hr Hle Hrd Hok Hd].
  apply negb_true_iff, orb_false_iff in Hc as [Hnr Hc%Z.leb_gt].
  assert (Forall (full lc_req_idx) l1) as Hfull.
  { apply Forall_lookup. intros i x Hx. pose proof (Forall2_lookup_l _ _ _ _ _ Hk1 Hx) as (d & _ & Hd').
    pose proof (Forall_lookup_1 _ _ _ _ Hl1 Hx) as Hw. destruct Hd' as [_ _ _ Hle' Hrd' _ _].
    apply negb_false_iff, orb_true_iff in Hw. unfold full. rewrite Hrd' in Hw. lia. }
  assert (~ full lc_req_idx c) as Hnf by (unfold full; lia).
  pose proof (ordered_after _ _ _ _ r_oreq0 Hnf) as Hfresh.
  apply wp_bind, wp_on_write; [done..|]. intros Hw. cbv zeta. apply wp_on. upd_proj.
  eapply wp_ostq_write; [done..|]. intros o' Ho' _ _.
  set (c' := c <| lc_req_idx := u32 (lc_req_idx c + 1) |>) in *.
  destruct (expand_length _ Hp) as [_ Hlen].
  assert (lc_req_idx c' = lc_req_idx c + 1) as Hc' by (apply u32_small; unfold is_u32, W32; lia).
  assert (issued c' = issued c ++ [if lc_split c then lsu_make_byte_req (lc_req c) (lc_req_idx c)
    else lc_req c]) as Hiss.
  { unfold issued. rewrite Hc'. change (piece_of c') with (piece_of c).
    replace (Z.to_nat (lc_req_idx c + 1)) with (S (Z.to_nat (lc_req_idx c))) by lia.
    apply take_S_r. rewrite expand_lookup by (done || lia). simpl.
    by rewrite Z2Nat.id by lia. }
  exists dn, dch, fr, (l1 ++ c' :: l2), (k1 ++ ch :: k2). split; try done; upd_proj.
  - apply Forall2_app; [done|]. constructor; [|done]. split; try done. rewrite Hc'. simpl. lia.
  - rewrite r_ins0, !fmap_app. done.
  - rewrite fmap_app, fmap_cons, concat_app, concat_cons, (issued_fresh l2), app_nil_r in r_hreqs0 |- * by done.
    unfold chan_snoc. upd_proj. rewrite Hiss, app_assoc, r_hreqs0. by rewrite <- !app_assoc.
  - by eapply ordered_step.
  - by apply (ordered_same _ l1 c).
Qed.

(** The entry after an answered request. *)
Definition answered (c : lsu_ost_ctx_t) (rsp : ldst_rsp_if_t) : lsu_ost_ctx_t :=
  let c1 := if lc_split c then
              if negb (ld_st (lc_req c)) then
                c <| lc_rsp_data := Z.lor (lc_rsp_data c)
                  (u32 (Z.shiftl (Z.land (lr_data rsp) 0xff) (u32 (lc_rsp_idx c * 8)))) |>
              else c
            else c <| lc_rsp_data := lr_data rsp |> in
  let c2 := c1 <| lc_rsp_idx := u32 (lc_rsp_idx c1 + 1) |> in
  if lc_rsp_idx c2 =? lc_byte_num c2 then c2 <| lc_ready := true |> <| lc_ok := true |> else c2.

Lemma answered_fields c rsp :
  lc_req (answered c rsp) = lc_req c /\ lc_split (answered c rsp) = lc_split c /\
  lc_byte_num (answered c rsp) = lc_byte_num c /\ lc_req_idx (answered c rsp) = lc_req_idx c /\
  lc_rsp_idx (answered c rsp) = u32 (lc_rsp_idx c + 1) /\
  lc_ready (answered c rsp) = (u32 (lc_rsp_idx c + 1) =? lc_byte_num c) || lc_ready c /\
  (lc_ok c = true -> lc_ok (answered c rsp) = true) /\
  lc_rsp_data (answered c rsp) =
    if lc_split c then
      if ld_st (lc_req c) then lc_rsp_data c
      else Z.lor (lc_rsp_data c) (u32 (Z.shiftl (Z.land (lr_data rsp) 0xff) (u32 (lc_rsp_idx c * 8))))
    else lr_data rsp.
Proof.
  unfold answered. destruct c as [r sp n qi ri d rd ok]. simpl.
  destruct sp, (ld_st r); simpl; destruct (u32 (ri + 1) =? n); simpl; done.
Qed.

Lemma answered_ok c ch rsp : ctx_ok c ch -> lc_rsp_idx c < lc_req_idx c ->
  ctx_ok (answered c rsp) (ch ++ [rsp]).
Proof.
  intros [Hp Hn Hr Hle Hrd Hok Hd] Hlt.
  destruct (answered_fields c rsp) as (Eq & Es & En & Ei & Er & Ey & Eo & Ed).
  destruct (expand_length _ Hp) as [Hexp Hlen].
  assert (u32 (lc_rsp_idx c + 1) = lc_rsp_idx c + 1) as Eu by (apply u32_small; unfold is_u32, W32; lia).
  assert (piece_of (answered c rsp) = piece_of c) as Epc by (unfold piece_of; congruence).
  split.
  - by rewrite Epc.
  - by rewrite En, Epc.
  - rewrite Er, Eu, length_app. simpl. lia.
  - rewrite Er, Ei, En, Eu. lia.
  - rewrite Ey, Er, En, Eu. rewrite Hrd. destruct (Z.eqb_spec (lc_rsp_idx c) (lc_byte_num c)); lia || apply orb_false_r.
  - by apply Eo.
  - rewrite Eq, Es, Ed. intros Hst. specialize (Hd Hst). destruct (lc_split c) eqn:Esp.
    + rewrite Hst, Hd, fmap_app, Hr. simpl. rewrite <- (length_fmap lr_data).
      apply le_join_lor. rewrite length_fmap. lia.
    + right. simpl in Hexp. rewrite Esp in Hexp. destruct ch; [done|]. simpl in Hr. lia.
Qed.

Lemma inv_proc_rsp l : lsu_inv l io -> wp lsu_proc_rsp (fun _ l' => lsu_inv l' io) l.
Proof.
  intros Hi. unfold lsu_proc_rsp. apply wp_bind, wp_gets. unfold id.
  destruct (chan_empty (hbi_ldst_rsp_slv l)) eqn:Ee; [by apply wp_ret|].
  apply chan_empty_false in Ee as (rsp & r & Ee).
  destruct Hi as (dn & dch & fr & live & lch & []). apply wp_bind. unfold lsu_find_rsp_slot.
  apply wp_on. eapply wp_ostq_scan; [done|..].
  { intros _. apply wp_ret. exists dn, dch, fr, live, lch. by split. }
  intros slot l1 c l2 -> Hl1 Hc Hslot.
  destruct (Forall2_mid _ _ _ _ _ r_live0) as (k1 & ch & k2 & -> & Hk1 & Hcx & Hk2).
  apply negb_true_iff, orb_false_iff in Hc as [Hnr Hc%Z.leb_gt].
  assert (~ fresh lc_req_idx c) as Hnq by (unfold fresh; destruct Hcx; lia).
  assert (Forall (full lc_rsp_idx) l1) as Hfull.
  { pose proof (ordered_before _ _ _ _ r_oreq0 Hnq) as Hq. apply Forall_lookup. intros i x Hx.
    pose proof (Forall2_lookup_l _ _ _ _ _ Hk1 Hx) as (d & _ & [_ _ _ Hle' Hrd' _ _]).
    pose proof (Forall_lookup_1 _ _ _ _ Hl1 Hx) as Hw. pose proof (Forall_lookup_1 _ _ _ _ Hq Hx) as Hq'.
    apply negb_false_iff, orb_true_iff in Hw. unfold full in *. rewrite Hrd' in Hw. lia. }
  assert (~ full lc_rsp_idx c) as Hnf by (unfold full; destruct Hcx; lia).
  pose proof (ordered_after _ _ _ _ r_orsp0 Hnf) as Hfresh.
  assert (lr_ok rsp = true) as Hrok.
  { rewrite r_hrsps0, Ee, !Forall_app, Forall_cons in r_hok0. tauto. }
  apply wp_bind. eapply wp_on_read; [done|]. rewrite Hrok. cbn [negb].
  apply wp_on. upd_proj. fold (answered c rsp).
  eapply wp_ostq_write; [done..|]. intros o' Ho' _ _.
  destruct (answered_fields c rsp) as (Eq & Es & En & Ei & _).
  exists dn, dch, fr, (l1 ++ answered c rsp :: l2), (k1 ++ (ch ++ [rsp]) :: k2).
  split; try done; upd_proj.
  - apply Forall2_app; [done|]. constructor; [|done]. by apply answered_ok.
  - rewrite r_ins0, !fmap_app, !fmap_cons. by rewrite Eq.
  - rewrite r_hreqs0, !fmap_app, !fmap_cons. unfold issued at 2 5, piece_of. by rewrite Eq, Es, Ei.
  - rewrite r_hrsps0, Ee, !concat_app, !concat_cons, (answered_fresh l2 k2), !app_nil_r by done.
    simpl. by rewrite <- !app_assoc.
  - by apply (ordered_same _ l1 c).
  - by eapply ordered_step.
Qed.

Lemma ctx_answer c ch : ctx_ok c ch -> lc_ready c = true ->
  LdstRsp (if lc_ok c && negb (ld_st (lc_req c)) then lc_rsp_data c else 0) (lc_ok c) =
  answer (piece_of c) ch /\ length ch = length (expand (piece_of c)).
Proof.
  intros [Hp Hn Hr Hle Hrd Hok Hd] Hready. rewrite Hrd in Hready. apply Z.eqb_eq in Hready.
  assert (length ch = length (expand (piece_of c))) as Hlen by lia. split; [|done].
  unfold answer. rewrite Hok. simpl. destruct (ld_st (lc_req c)); [done|]. simpl.
  specialize (Hd eq_refl). f_equal. destruct (expand_length _ Hp) as [_ ?]. simpl in *.
  destruct (lc_split c); [done|]. destruct Hd as [->|Hd]; [simpl in *; lia|done].
Qed.

Lemma inv_send_ready l : lsu_inv l io -> wp lsu_send_ready_rsp (fun _ l' => lsu_inv l' io) l.
Proof.
  intros Hi. unfold lsu_send_ready_rsp. apply wp_bind, wp_gets. unfold id.
  destruct (chan_full (exu_ldst_rsp_mst l)) eqn:Ef; [by apply wp_ret|].
  destruct Hi as (dn & dch & fr & live & lch & []). apply wp_bind, wp_on.
  eapply wp_ostq_peek; [done|..].
  { intros _. apply wp_ret. exists dn, dch, fr, live, lch. by split. }
  intros c l2 slot -> -> _. destruct (lc_ready c) eqn:Erd; cbn [negb].
  2:{ apply wp_ret. exists dn, dch, false, (c :: l2), lch. by split. }
  apply Forall2_cons_inv_l in r_live0 as (ch & k2 & Hcx & Hk2 & ->).
  destruct (ctx_answer c ch Hcx Erd) as [-> Hlen].
  apply wp_bind, wp_on_write; [done..|]. intros Hw. apply wp_on. upd_proj.
  eapply wp_ostq_free; [done|]. intros o' Ho' _.
  exists (dn ++ [piece_of c]), (dch ++ [ch]), true, l2, k2. split; try done; upd_proj.
  - apply Forall_app. split; [done|]. constructor; [|done]. apply Hcx.
  - apply Forall2_app; [done|]. by repeat constructor.
  - rewrite r_ins0, fmap_app, <- !app_assoc. done.
  - rewrite r_hreqs0, fmap_app, concat_app, fmap_cons, concat_cons. simpl. rewrite app_nil_r.
    assert (issued c = expand (piece_of c)) as ->.
    { unfold issued. apply take_ge. destruct Hcx as [_ Hn Hr Hle _ _ _]. lia. }
    by rewrite <- !app_assoc.
  - rewrite r_hrsps0, concat_app, concat_cons. simpl. by rewrite app_nil_r, <- !app_assoc.
  - rewrite zip_with_app by (by eapply Forall2_length). unfold chan_snoc. upd_proj.
    by rewrite app_assoc, r_outs0.
  - by eapply ordered_tail.
  - by eapply ordered_tail.
Qed.

Lemma inv_update_dbg l : lsu_inv l io -> wp lsu_update_dbg_state (fun _ l' => lsu_inv l' io) l.
Proof.
  intros (dn & dch & fr & live & lch & []). unfold lsu_update_dbg_state.
  apply wp_bind, wp_modify, wp_bind, wp_on. upd_proj. eapply wp_ostq_peek; [done|..].
  - intros _. apply wp_ret. exists dn, dch, fr, live, lch. by split.
  - intros c l2 slot -> -> _. apply wp_modify. exists dn, dch, false, (c :: l2), lch. by split.
Qed.

Lemma inv_lsu_clock l : lsu_inv l io -> wp lsu_clock (fun _ l' => lsu_inv l' io) l.
Proof.
  intros Hi. unfold lsu_clock.
  apply wp_bind. eapply wp_mono; [by apply inv_ost_clock|]. intros [] l1 H1.
  apply wp_bind. eapply wp_mono; [by apply inv_capture|]. intros [] l2 H2.
  apply wp_bind. eapply wp_mono; [by apply inv_proc_rsp|]. intros [] l3 H3.
  apply wp_bind. eapply wp_mono; [by apply inv_send_ready|]. intros [] l4 H4.
  apply wp_bind. eapply wp_mono; [by apply lsu_inv_issue|]. intros [] l5 H5.
  apply wp_bind. eapply wp_mono; [by apply inv_alloc|]. intros [] l6 H6.
  apply wp_bind. eapply wp_mono; [by apply lsu_inv_issue|]. intros [] l7 H7.
  by apply inv_update_dbg.
Qed.

End steps.

(** ** Runs *)

(** The unit with the record of its interfaces.  The units at the other ends act between its
    clocks; every response is a success. *)
Inductive lsu_step : lsu_t * lsu_io -> lsu_t * lsu_io -> Prop :=
| LsuClock l l' io : lsu_clock l = Some (tt, l') -> lsu_step (l, io) (l', io)
| LsuReq l r io : 0 <= ld_size r <= 2 ->
    lsu_step (l, io) (l <| exu_ldst_req_slv := chan_snoc (exu_ldst_req_slv l) r |>,
                      io <| io_ins := io_ins io ++ [r] |>)
| LsuAnswer l x q io : ch_pkts (exu_ldst_rsp_mst l) = x :: q ->
    lsu_step (l, io) (l <| exu_ldst_rsp_mst := Chan (ch_depth (exu_ldst_rsp_mst l)) q |>,
                      io <| io_outs := io_outs io ++ [x] |>)
| LsuBusReq l x q io : ch_pkts (hbi_ldst_req_mst l) = x :: q ->
    lsu_step (l, io) (l <| hbi_ldst_req_mst := Chan (ch_depth (hbi_ldst_req_mst l)) q |>,
                      io <| io_hreqs := io_hreqs io ++ [x] |>)
| LsuBusRsp l x io : lr_ok x = true ->
    lsu_step (l, io) (l <| hbi_ldst_rsp_slv := chan_snoc (hbi_ldst_rsp_slv l) x |>,
                      io <| io_hrsps := io_hrsps io ++ [x] |>)
| LsuSatp l v io : lsu_step (l, io) (l <| lsu_satp := v |>, io).

Lemma inv_lsu_step s s' : lsu_inv s.1 s.2 -> lsu_step s s' -> lsu_inv s'.1 s'.2.
Proof.
  intros Hi Hs. destruct Hs as [l l' io E|l r io Hr|l x q io E|l x q io E|l x io Hx|l v io]; simpl in *.
  { pose proof (inv_lsu_clock io l Hi) as H. unfold wp in H. by rewrite E in H. }
  all: destruct Hi as (dn & dch & fr & live & lch & []); exists dn, dch, fr, live, lch;
    split; try done; upd_proj; unfold chan_snoc; upd_proj; cbn [ch_pkts].
  - by rewrite r_ins0, <- !app_assoc.
  - apply Forall_app. by split; [|apply Forall_singleton].
  - by eapply chan_wf_tail.
  - rewrite <- app_assoc. simpl. by rewrite <- E.
  - by eapply chan_wf_tail.
  - rewrite <- app_assoc. simpl. by rewrite <- E.
  - by rewrite r_hrsps0, <- !app_assoc.
  - apply Forall_app. by split; [|apply Forall_singleton].
Qed.

(** A unit before reset: tables and FIFOs constructed, nothing on the interfaces. *)
Record lsu_built (l : lsu_t) : Prop := {
  lb_ost : ostq_wf (ost l);
  lb_depth : q_depth (ost l) <= 2147483648;
  lb_stg : 0 <= ch_depth (req_fifo l);
  lb_chans : ch_pkts (exu_ldst_req_slv l) = [] /\ ch_pkts (exu_ldst_rsp_mst l) = [] /\
             ch_pkts (hbi_ldst_req_mst l) = [] /\ ch_pkts (hbi_ldst_rsp_slv l) = [];
  lb_depths : 0 <= ch_depth (exu_ldst_rsp_mst l) /\ 0 <= ch_depth (hbi_ldst_req_mst l)
}.

Definition io_start : lsu_io := LsuIo [] [] [] [].

Lemma lsu_reset_inv l l0 : lsu_built l -> lsu_reset l = Some (tt, l0) -> lsu_inv l0 io_start.
Proof.
  intros [Hw Hd Hs (E1 & E2 & E3 & E4) (D1 & D2)] Hr.
  destruct (ostq_reset_ok (ost l) Hw) as (o & Eo & Hwo & Ha).
  enough (wp lsu_reset (fun _ l' => lsu_inv l' io_start) l) as H by (unfold wp in H; by rewrite Hr in H).
  unfold lsu_reset. apply wp_bind, wp_modify, wp_bind, wp_on, wp_modify. upd_proj.
  apply wp_bind, wp_on. upd_proj. apply (wp_intro _ _ _ _ _ Eo).
  apply wp_bind, wp_modify, wp_modify.
  exists [], [], false, [], []. split; try done; upd_proj.
  - split; [done| |by rewrite (abs_freed _ _ Ha)|by rewrite Ha].
    rewrite (abs_depth _ _ Ha). simpl. lia.
  - unfold chan_wf, chan_num. rewrite E2. simpl. lia.
  - unfold chan_wf, chan_num. rewrite E3. simpl. lia.
Qed.

Lemma serve_app ps chs qs rest :
  Forall2 (fun p ch => length ch = length (expand p)) ps chs ->
  serve (ps ++ qs) (concat chs ++ rest) = zip_with answer ps chs ++ serve qs rest.
Proof.
  induction 1 as [|p ch ps chs Hl _ IH]; [done|]. simpl. rewrite length_app, decide_True by (rewrite length_app; lia).
  rewrite <- app_assoc. rewrite <- Hl, take_app_length, drop_app_length. by rewrite IH.
Qed.

Lemma issued_prefix (live : list lsu_ost_ctx_t) : ordered lc_req_idx live ->
  (forall c, c ∈ live -> lc_byte_num c = Z.of_nat (length (expand (piece_of c)))) ->
  concat (issued <$> live) `prefix_of` concat (expand <$> (piece_of <$> live)).
Proof.
  induction live as [|c live IH]; intros Ho Hn; [done|]. destruct Ho as [Ho Hc].
  rewrite !fmap_cons, !concat_cons. destruct Hc as [Hc|Hc].
  - assert (issued c = expand (piece_of c)) as ->.
    { unfold issued. apply take_ge. rewrite Hc, Hn by left. lia. }
    apply prefix_app, IH; [done|]. intros d Hd. apply Hn. by right.
  - rewrite issued_fresh, app_nil_r by done. apply prefix_app_r. unfold issued. apply prefix_take.
Qed.

(** ** Theorems *)

(** C6: In every run of the load-store unit from reset in which every response of the bus interface is
    a success, for every schedule of the clocks and of the two sides: no check fails, the requests
    the bus interface sees are those of the execution unit in order, each as it is or, when it
    crosses a page, as its bytes, and the answers are, in order and one per request, the
    response to the request or the word put together from the responses to its bytes. *)
Theorem lsu_in_order l l0 l1 io :
  lsu_built l -> lsu_reset l = Some (tt, l0) -> rtc lsu_step (l0, io_start) (l1, io) ->
  (exists l2, lsu_clock l1 = Some (tt, l2)) /\
  exists ps : list piece, Forall piece_ok ps /\ ps.*1 `prefix_of` io_ins io /\
    io_hreqs io `prefix_of` concat (expand <$> ps) /\
    io_outs io `prefix_of` serve ps (io_hrsps io).
Proof.
  intros Hb Hr Hrun. pose proof (lsu_reset_inv l l0 Hb Hr) as Hi.
  assert (lsu_inv l1 io) as Hinv.
  { change (lsu_inv (l1, io).1 (l1, io).2). change (lsu_inv (l0, io_start).1 (l0, io_start).2) in Hi.
    induction Hrun as [s|s1 s2 s3 Hs _ IH]; [done|]. by apply IH, (inv_lsu_step s1). }
  split.
  { pose proof (inv_lsu_clock io l1 Hinv) as H. apply wp_elim in H as ([] & l2 & E & _). by exists l2. }
  destruct Hinv as (dn & dch & fr & live & lch & []).
  exists (dn ++ (piece_of <$> live)). split_and!.
  - apply Forall_app. split; [done|]. apply Forall_fmap, Forall_lookup. intros i c Hc.
    pose proof (Forall2_lookup_l _ _ _ _ _ r_live0 Hc) as (ch & _ & Hcx). apply Hcx.
  - rewrite r_ins0, fmap_app. apply prefix_app. rewrite <- list_fmap_compose. by apply prefix_app_r.
  - rewrite fmap_app, concat_app. trans (concat (expand <$> dn) ++ concat (issued <$> live)).
    + rewrite <- r_hreqs0. by apply prefix_app_r.
    + apply prefix_app, issued_prefix; [done|]. intros c [i Hc]%list_elem_of_lookup.
      pose proof (Forall2_lookup_l _ _ _ _ _ r_live0 Hc) as (ch & _ & Hcx). apply Hcx.
  - rewrite r_hrsps0, serve_app by done. rewrite <- r_outs0. apply prefix_app_r. by apply prefix_app_r.
Qed.

(** ** Splitting and memory *)

(** A memory of bytes that answers one access at once: a store writes the bytes its strobe
    selects, a load reads as many bytes as its size says. *)
Definition mem_read (mem : Z -> Z) (a : Z) (n : nat) : Z :=
  le_join ((fun i => mem (u32 (a + Z.of_nat i))) <$> seq 0 n).

Definition mem_write (mem : Z -> Z) (req : ldst_req_if_t) : Z -> Z := fun x =>
  let i := u32 (x - ld_addr req) in
  if (i <? Z.of_nat (nbytes req)) && Z.testbit (ld_strobe req) i
  then bits (ld_data req) (8 * i) 8 else mem x.

Definition mem_access (req : ldst_req_if_t) (mem : Z -> Z) : ldst_rsp_if_t * (Z -> Z) :=
  if ld_st req then (LdstRsp 0 true, mem_write mem req)
  else (LdstRsp (mem_read mem (ld_addr req) (nbytes req)) true, mem).

Fixpoint mem_accesses (reqs : list ldst_req_if_t) (mem : Z -> Z) : list ldst_rsp_if_t * (Z -> Z) :=
  match reqs with
  | [] => ([], mem)
  | req :: reqs =>
    let '(rsp, mem) := mem_access req mem in
    let '(rsps, mem) := mem_accesses reqs mem in
    (rsp :: rsps, mem)
  end.

(** Memories that hold the same bytes. *)
Definition mem_eq (m1 m2 : Z -> Z) : Prop := forall x, is_u32 x -> m1 x = m2 x.

#[export] Instance mem_eq_equivalence : Equivalence mem_eq.
Proof.
  split.
  - by intros m x _.
  - intros m1 m2 H x Hx. by rewrite H.
  - intros m1 m2 m3 H1 H2 x Hx. by rewrite H1, H2.
Qed.

Lemma mem_access_ext req m1 m2 : mem_eq m1 m2 ->
  (mem_access req m1).1 = (mem_access req m2).1 /\ mem_eq (mem_access req m1).2 (mem_access req m2).2.
Proof.
  intros H. unfold mem_access. destruct (ld_st req); simpl.
  - split; [done|]. intros x Hx. unfold mem_write. cbv zeta. case_match; [done|]. by apply H.
  - split; [|done]. unfold mem_read. do 2 f_equal. apply list_fmap_ext. intros i j _.
    apply H, u32_range.
Qed.

Lemma mem_accesses_cons req reqs mem :
  mem_accesses (req :: reqs) mem =
  ((mem_access req mem).1 :: (mem_accesses reqs (mem_access req mem).2).1,
   (mem_accesses reqs (mem_access req mem).2).2).
Proof. simpl. destruct (mem_access req mem) as [r m]. simpl. by destruct (mem_accesses reqs m). Qed.

Lemma mem_accesses_ext reqs m1 m2 : mem_eq m1 m2 ->
  (mem_accesses reqs m1).1 = (mem_accesses reqs m2).1 /\
  mem_eq (mem_accesses reqs m1).2 (mem_accesses reqs m2).2.
Proof.
  revert m1 m2. induction reqs as [|req reqs IH]; intros m1 m2 H; [done|]. rewrite !mem_accesses_cons.
  destruct (mem_access_ext req m1 m2 H) as [-> H']. destruct (IH _ _ H') as [-> H'']. done.
Qed.

Lemma mem_accesses_app r1 r2 mem :
  mem_accesses (r1 ++ r2) mem =
  ((mem_accesses r1 mem).1 ++ (mem_accesses r2 (mem_accesses r1 mem).2).1,
   (mem_accesses r2 (mem_accesses r1 mem).2).2).
Proof.
  revert mem. induction r1 as [|r r1 IH]; intros mem; [simpl; by destruct (mem_accesses r2 mem)|].
  rewrite <- app_comm_cons, !mem_accesses_cons, IH. done.
Qed.

Lemma mem_accesses_length reqs mem : length (mem_accesses reqs mem).1 = length reqs.
Proof.
  revert mem. induction reqs as [|r reqs IH]; intros mem; [done|]. rewrite mem_accesses_cons. simpl. by rewrite IH.
Qed.

(** The byte request [i] of a store, as a write. *)
Lemma byte_write mem req (i : nat) x : is_u32 x -> (i < 4)%nat -> ld_st req = true ->
  mem_write mem (lsu_make_byte_req req (Z.of_nat i)) x =
  if (u32 (x - ld_addr req) =? Z.of_nat i) && Z.testbit (ld_strobe req) (Z.of_nat i)
  then bits (ld_data req) (8 * Z.of_nat i) 8 else mem x.
Proof.
  intros Hx Hi Hst. unfold mem_write, lsu_make_byte_req, nbytes. cbn [ld_addr ld_strobe ld_data ld_size].
  rewrite Hst. change (Z.of_nat (Z.to_nat (Z.shiftl 1 LDST_REQ_SIZE_B1))) with 1.
  fold (nz (Z.land (ld_strobe req) (Z.shiftl 1 (Z.of_nat i)))). rewrite nz_testbit by lia. cbn [andb].
  destruct (Z.eqb_spec (u32 (x - ld_addr req)) (Z.of_nat i)) as [E|E].
  - assert (u32 (x - u32 (ld_addr req + Z.of_nat i)) = 0) as -> by (unfold is_u32, u32, W32 in *; zdiv).
    change (0 <? 1) with true. cbn [andb].
    destruct (Z.testbit (ld_strobe req) (Z.of_nat i)); [|done]. change (Z.testbit 1 0) with true. cbv iota.
    rewrite u32_small by (unfold is_u32, W32; lia). unfold bits. rewrite Z.shiftr_0_r, (Z.mul_comm 8).
    change 0xff with (Z.ones 8). by rewrite <- Z.land_assoc, Z.land_diag.
  - rewrite (proj2 (Z.ltb_ge _ _)); [done|]. unfold is_u32, u32, W32 in *. zdiv.
Qed.

Definition byte_reqs (req : ldst_req_if_t) (j n : nat) : list ldst_req_if_t :=
  (fun i => lsu_make_byte_req req (Z.of_nat i)) <$> seq j n.

Lemma byte_stores req n : forall (j : nat) mem x, is_u32 x -> (j + n <= 4)%nat -> ld_st req = true ->
  (mem_accesses (byte_reqs req j n) mem).2 x =
  let i := u32 (x - ld_addr req) in
  if (Z.of_nat j <=? i) && (i <? Z.of_nat (j + n)) && Z.testbit (ld_strobe req) i
  then bits (ld_data req) (8 * i) 8 else mem x.
Proof.
  induction n as [|n IH]; intros j mem x Hx Hj Hst; cbv zeta.
  { destruct (Z.leb_spec (Z.of_nat j) (u32 (x - ld_addr req))), (Z.ltb_spec (u32 (x - ld_addr req)) (Z.of_nat (j + 0)));
      done || lia. }
  unfold byte_reqs. cbn [seq]. rewrite fmap_cons, mem_accesses_cons. cbn [snd].
  change (list_fmap _ _ _ (seq (S j) n)) with (byte_reqs req (S j) n).
  fold (byte_reqs req (S j) n). rewrite IH by (done || lia). cbv zeta.
  unfold mem_access. cbn [ld_st lsu_make_byte_req]. rewrite Hst. cbn [snd].
  rewrite byte_write by (done || lia).
  set (i := u32 (x - ld_addr req)) in *.
  destruct (Z.eqb_spec i (Z.of_nat j)) as [->|Hne].
  - rewrite (proj2 (Z.leb_gt _ _)) by lia. rewrite Z.leb_refl, (proj2 (Z.ltb_lt _ (Z.of_nat (j + S n)))) by lia.
    cbn [andb]. by destruct (Z.testbit _ _).
  - destruct (Z.leb_spec (Z.of_nat (S j)) i), (Z.leb_spec (Z.of_nat j) i); try lia; cbn [andb]; [|done].
    replace (j + S n)%nat with (S j + n)%nat by lia. done.
Qed.

Lemma byte_store_rsps req n : forall (j : nat) mem, ld_st req = true ->
  (mem_accesses (byte_reqs req j n) mem).1 = replicate n (LdstRsp 0 true).
Proof.
  induction n as [|n IH]; intros j mem Hst; [done|]. unfold byte_reqs. cbn [seq].
  rewrite fmap_cons, mem_accesses_cons. cbn [fst]. fold (byte_reqs req (S j) n). rewrite IH by done.
  unfold mem_access. cbn [ld_st lsu_make_byte_req]. by rewrite Hst.
Qed.

Lemma byte_loads req n : forall (j : nat) mem, ld_st req = false ->
  mem_accesses (byte_reqs req j n) mem =
  ((fun i => LdstRsp (mem (u32 (ld_addr req + Z.of_nat i)) mod 256) true) <$> seq j n, mem).
Proof.
  induction n as [|n IH]; intros j mem Hst; [done|]. unfold byte_reqs. cbn [seq].
  rewrite !fmap_cons, mem_accesses_cons. fold (byte_reqs req (S j) n).
  unfold mem_access. cbn [ld_st lsu_make_byte_req]. rewrite Hst. cbn [fst snd]. rewrite IH by done. cbn [fst snd].
  assert (mem_read mem (ld_addr (lsu_make_byte_req req (Z.of_nat j))) (nbytes (lsu_make_byte_req req (Z.of_nat j)))
    = mem (u32 (ld_addr req + Z.of_nat j)) mod 256) as ->; [|done].
  change (mem (u32 (u32 (ld_addr req + Z.of_nat j) + 0)) mod 256 + 0 = mem (u32 (ld_addr req + Z.of_nat j)) mod 256).
  by rewrite !Z.add_0_r, u32_idemp.
Qed.

Lemma le_join_mod {A} (f : A -> Z) l : le_join ((fun i => f i mod 256) <$> l) = le_join (f <$> l).
Proof.
  induction l as [|x l IH]; [done|]. rewrite !fmap_cons. simpl le_join. rewrite IH.
  by rewrite Z.mod_mod by lia.
Qed.

(** One request, split or not, leaves the memory and gives the answer of the access itself. *)
Lemma expand_memory p mem : piece_ok p ->
  answer p (mem_accesses (expand p) mem).1 = (mem_access p.1 mem).1 /\
  mem_eq (mem_accesses (expand p) mem).2 (mem_access p.1 mem).2.
Proof.
  intros [Hs _]. destruct p as [req sp]. cbn [fst snd] in *. destruct (nbytes_cases req Hs) as [_ Hn].
  unfold expand, answer. cbn [fst snd]. destruct sp.
  - fold (byte_reqs req 0 (nbytes req)). unfold mem_access. destruct (ld_st req) eqn:Hst; simpl.
    + split; [done|]. intros x Hx. rewrite byte_stores by (done || lia). cbv zeta. unfold mem_write.
      cbv zeta. rewrite (proj2 (Z.leb_le 0 _)) by apply u32_range. done.
    + rewrite byte_loads by done. cbn [fst snd]. split; [|done]. f_equal. unfold mem_read.
      rewrite <- list_fmap_compose.
      change (lr_data ∘ _) with (fun i => mem (u32 (ld_addr req + Z.of_nat i)) mod 256).
      apply (le_join_mod (fun i => mem (u32 (ld_addr req + Z.of_nat i)))).
  - rewrite mem_accesses_cons. cbn [fst snd mem_accesses head fmap option_fmap option_map]. split; [|done].
    unfold mem_access. destruct (ld_st req); [done|]. done.
Qed.

(** C7: Splitting is invisible to memory: on a memory of bytes that carries out the requests of
    the bus interface in order, the answers and the final memory are those of the original
    accesses carried out in order, whichever of the page-crossing ones are split. *)
Theorem lsu_split_transparent (ps : list piece) (mem : Z -> Z) : Forall piece_ok ps ->
  serve ps (mem_accesses (concat (expand <$> ps)) mem).1 = (mem_accesses ps.*1 mem).1 /\
  mem_eq (mem_accesses (concat (expand <$> ps)) mem).2 (mem_accesses ps.*1 mem).2.
Proof.
  intros Hps. revert mem. induction Hps as [|p ps Hp Hps IH]; intros mem; [done|].
  rewrite !fmap_cons, concat_cons, mem_accesses_app, mem_accesses_cons. cbn [fst snd serve].
  destruct (expand_memory p mem Hp) as [Ha Hm].
  pose proof (mem_accesses_length (expand p) mem) as Hl.
  rewrite decide_True by (rewrite length_app, Hl; lia).
  rewrite <- Hl, take_app_length, drop_app_length, Ha.
  destruct (IH (mem_accesses (expand p) mem).2) as [IH1 IH2]. rewrite IH1.
  destruct (mem_accesses_ext ps.*1 _ _ Hm) as [E1 E2]. rewrite E1. split; [done|]. by rewrite IH2.
Qed.

(** ** A failing byte *)

(** The bus interface takes a request and answers it. *)
Definition bus_answer (rsp : ldst_rsp_if_t) : M lsu_t ldst_req_if_t :=
  req ← on hbi_ldst_req_mst chan_read;
  on hbi_ldst_rsp_slv (chan_write rsp);;
  mret req.

Definition exu_request (req : ldst_req_if_t) : M lsu_t unit := on exu_ldst_req_slv (chan_write req).
Definition exu_take : M lsu_t ldst_rsp_if_t := on exu_ldst_rsp_mst chan_read.

Definition lsu_clocks (n : nat) : M lsu_t unit := Nat.iter n (fun m => lsu_clock;; m) (mret tt).

(** A unit with translation on and tables of the depths of the hart, and a word load. *)
Definition lsu_example : lsu_t :=
  Lsu (Chan 4 []) (Chan 4 []) (Chan 4 []) (Chan 4 []) 0x80000000 (Chan 2 [])
    (default (Ostq [] 0 0 0 0 0 0) (ostq_construct 1 2)) false false ldst_req_zero 0 0 0 0 0 0.
Definition lw_req (a : Z) : ldst_req_if_t := LdstReq a false LDST_REQ_CMO_NONE LDST_REQ_SIZE_B4 0 0.

(** Why the ordering theorem asks for successful responses, on one run: when the first byte of a split
    access fails, the access is answered at once although its other bytes are still
    outstanding, and the response to the second byte then answers the next access, whose own
    request the bus interface has not even taken. *)
Example lsu_fault_misroutes_response :
  exists l, (lsu_reset;;
    exu_request (lw_req 0xffe);; lsu_clocks 2;;
    byte0 ← bus_answer (LdstRsp 0 false);
    byte1 ← bus_answer (LdstRsp 0 false);
    lsu_clocks 2;;
    rsp0 ← exu_take;
    exu_request (lw_req 0x2000);; lsu_clocks 3;;
    byte2 ← bus_answer (LdstRsp 0x77 true);
    rsp1 ← exu_take;
    mret (ld_addr byte0, ld_addr byte1, ld_addr byte2, rsp0, rsp1)) lsu_example =
  Some ((0xffe, 0xfff, 0x1000, LdstRsp 0 false, LdstRsp 0 false), l) /\
  lw_req 0x2000 ∈ ch_pkts (hbi_ldst_req_mst l).
Proof. eexists. split; [vm_compute; reflexivity|]. vm_compute. left. Qed.

(** ** Witnesses *)

Lemma lsu_example_built : lsu_built lsu_example.
Proof.
  destruct (ostq_construct 1 2) as [o|] eqn:E; [|done].
  destruct (ostq_construct_ok (A := lsu_ost_ctx_t) 1 2 o E ltac:(done) ltac:(done)) as [Hw Ha].
  assert (ost lsu_example = o) as Eo by (unfold lsu_example; cbn [ost]; by rewrite E).
  split; rewrite ?Eo; try done. rewrite (abs_depth _ _ Ha). done.
Qed.

Definition lsu_w0 : lsu_t := Eval vm_compute in default lsu_example (snd <$> lsu_reset lsu_example).
Definition lsu_w1 : lsu_t := lsu_w0 <| exu_ldst_req_slv := Chan 4 [lw_req 0xffe] |>.
Definition lsu_w2 : lsu_t := Eval vm_compute in default lsu_example (snd <$> lsu_clocks 1 lsu_w1).

Lemma lsu_in_order_witness :
  lsu_built lsu_example /\ lsu_reset lsu_example = Some (tt, lsu_w0) /\
  rtc lsu_step (lsu_w0, io_start) (lsu_w2, io_start <| io_ins := [lw_req 0xffe] |>) /\
  exists l2, lsu_clock lsu_w2 = Some (tt, l2).
Proof.
  assert (lsu_reset lsu_example = Some (tt, lsu_w0)) as E0 by (vm_compute; reflexivity).
  assert (rtc lsu_step (lsu_w0, io_start) (lsu_w2, io_start <| io_ins := [lw_req 0xffe] |>)) as Hrun.
  { eapply rtc_l; [apply (LsuReq lsu_w0 (lw_req 0xffe)); split; discriminate|].
    apply rtc_once, LsuClock. vm_compute. reflexivity. }
  split; [exact lsu_example_built|]. split; [exact E0|]. split; [exact Hrun|].
  exact (proj1 (lsu_in_order lsu_example lsu_w0 lsu_w2 _ lsu_example_built E0 Hrun)).
Defined.

Lemma lsu_split_transparent_witness :
  Forall piece_ok [(lw_req 0xffe, true)] /\
  serve [(lw_req 0xffe, true)] (mem_accesses (concat (expand <$> [(lw_req 0xffe, true)])) (fun x => x mod 256)).1 =
  [LdstRsp 0x0100fffe true].
Proof.
  assert (Forall piece_ok [(lw_req 0xffe, true)]) as Hp.
  { constructor; [|constructor]. split; [split; discriminate|]. intros _. split; reflexivity. }
  split; [exact Hp|].
  rewrite (proj1 (lsu_split_transparent [(lw_req 0xffe, true)] (fun x => x mod 256) Hp)).
  vm_compute. reflexivity.
Defined.
