(* ===== verification/Bti.v ===== *)
(** * The bus transaction interface

    The packets of [design/model/itf/bti_req_if.h] and [bti_rsp_if.h], which the units of the
    hart and the buses exchange. *)

From stdpp Require Import base numbers list.
From Stdlib Require Import ZArith Lia.
From S2P Require Import Prelude.

Definition BTI_REQ_CMD_READ := 0.
Definition BTI_REQ_CMD_WRITE := 1.
Definition BTI_REQ_CMD_CBO_INVAL := 2.
Definition BTI_REQ_CMD_CBO_CLEAN := 3.
Definition BTI_REQ_CMD_CBO_FLUSH := 4.

Definition BTI_REQ_SIZE_B1 := 0.
Definition BTI_REQ_SIZE_B2 := 1.
Definition BTI_REQ_SIZE_B4 := 2.

Record bti_req_if_t := BtiReq {
  bq_trans_id : Z; bq_cmd : Z; bq_addr : Z; bq_size : Z; bq_data : Z; bq_strobe : Z }.
#[export] Instance eta_bti_req : Eta bti_req_if_t := fun r =>
  BtiReq (bq_trans_id r) (bq_cmd r) (bq_addr r) (bq_size r) (bq_data r) (bq_strobe r).

Record bti_rsp_if_t := BtiRsp { bp_trans_id : Z; bp_data : Z; bp_ok : bool }.
#[export] Instance eta_bti_rsp : Eta bti_rsp_if_t := fun r =>
  BtiRsp (bp_trans_id r) (bp_data r) (bp_ok r).

(** Packets filled with zeros. *)
Definition bti_req_zero : bti_req_if_t := BtiReq 0 BTI_REQ_CMD_READ 0 BTI_REQ_SIZE_B1 0 0.
Definition bti_rsp_zero : bti_rsp_if_t := BtiRsp 0 0 false.
