(* ===== verification/Mmu.v ===== *)
(** * The memory management unit

    [core/hart/mmu.c]: requests with virtual addresses from the fetch and the load-store side
    are translated with a TLB per side and a page table walker for Sv32 that they share, and go
    on with physical addresses; faults become exceptions; responses return in order per side. *)

From stdpp Require Import base numbers list.
From Stdlib Require Import ZArith Lia.
From S2P Require Import Prelude Fifo Ost OstScan Isa ExuState CsrFile Csr Bti.

Definition MMU_PGSHIFT : Z := 12.
Definition MMU_PGSIZE : Z := Z.shiftl 1 MMU_PGSHIFT.
Definition MMU_PGMASK : Z := MMU_PGSIZE - 1.
Definition MMU_PTE_SIZE : Z := 4.
Definition MMU_PTE_TRANS_ID : Z := 0xfffe.
Definition MMU_SATP_MODE_SV32 : Z := 1.
Definition MMU_ITLB_SIZE : Z := 64.
Definition MMU_DTLB_SIZE : Z := 32.

Definition PTE_V : Z := Z.shiftl 1 0.
Definition PTE_R : Z := Z.shiftl 1 1.
Definition PTE_W : Z := Z.shiftl 1 2.
Definition PTE_X : Z := Z.shiftl 1 3.
Definition PTE_U : Z := Z.shiftl 1 4.
Definition PTE_A : Z := Z.shiftl 1 6.
Definition PTE_D : Z := Z.shiftl 1 7.

(** ** Data *)

Inductive mmu_access_t := MMU_ACCESS_INST | MMU_ACCESS_LOAD | MMU_ACCESS_STORE.
#[export] Instance mmu_access_eq_dec : EqDecision mmu_access_t.
Proof. solve_decision. Defined.

Record mmu_tlb_entry_t := TlbEntry {
  te_vld : bool; te_tag : Z; te_satp_ppn : Z; te_satp_asid : Z; te_priv : Z; te_sum : bool;
  te_mxr : bool; te_level : Z; te_pte : Z; te_pa_base : Z }.
#[export] Instance eta_tlb_entry : Eta mmu_tlb_entry_t := fun e =>
  TlbEntry (te_vld e) (te_tag e) (te_satp_ppn e) (te_satp_asid e) (te_priv e) (te_sum e)
    (te_mxr e) (te_level e) (te_pte e) (te_pa_base e).

Record mmu_ost_ctx_t := MmuOstCtx {
  mc_is_inst : bool; mc_req : bti_req_if_t; mc_pa_issued : bool; mc_ready : bool;
  mc_expt_vld : bool; mc_expt : hart_expt_if_t; mc_rsp : bti_rsp_if_t }.
#[export] Instance eta_mmu_ost_ctx : Eta mmu_ost_ctx_t := fun c =>
  MmuOstCtx (mc_is_inst c) (mc_req c) (mc_pa_issued c) (mc_ready c) (mc_expt_vld c)
    (mc_expt c) (mc_rsp c).
Definition hart_expt_zero : hart_expt_if_t := HartExpt 0 0 0 0 0.
#[export] Instance zero_mmu_ost_ctx : Zero mmu_ost_ctx_t :=
  MmuOstCtx false bti_req_zero false false false hart_expt_zero bti_rsp_zero.

Record mmu_req_ctx_t := MmuReqCtx {
  rc_req : bti_req_if_t; rc_priv : Z; rc_sum : bool; rc_mxr : bool; rc_fault_pc : Z }.

(** Event counters. *)
Record mmu_perf_t := MmuPerf {
  perf_itlb_hit : Z; perf_itlb_miss : Z; perf_dtlb_hit : Z; perf_dtlb_miss : Z;
  perf_i_stg_full : Z; perf_d_stg_full : Z; perf_i_ost_full : Z; perf_d_ost_full : Z }.
#[export] Instance eta_mmu_perf : Eta mmu_perf_t := fun p =>
  MmuPerf (perf_itlb_hit p) (perf_itlb_miss p) (perf_dtlb_hit p) (perf_dtlb_miss p)
    (perf_i_stg_full p) (perf_d_stg_full p) (perf_i_ost_full p) (perf_d_ost_full p).

Record mmu_t := Mmu {
  va_i_bti_req_slv : chan bti_req_if_t;
  va_i_bti_rsp_mst : chan bti_rsp_if_t;
  va_d_bti_req_slv : chan bti_req_if_t;
  va_d_bti_rsp_mst : chan bti_rsp_if_t;
  mmu_fch_expt_mst : chan hart_expt_if_t;
  ldst_expt_mst : chan hart_expt_if_t;
  pa_i_bti_req_mst : chan bti_req_if_t;
  pa_i_bti_rsp_slv : chan bti_rsp_if_t;
  pa_d_bti_req_mst : chan bti_req_if_t;
  pa_d_bti_rsp_slv : chan bti_rsp_if_t;
  ptw_bti_req_mst : chan bti_req_if_t;
  ptw_bti_rsp_slv : chan bti_rsp_if_t;
  tlb_flush_slv : chan unit;
  m_exu_state_i : exu_state_if_t;
  m_csr_state_i : csr_mmu_state_if_t;
  va_i_req_fifo : chan mmu_req_ctx_t;
  va_d_req_fifo : chan mmu_req_ctx_t;
  i_ost : ostq_t mmu_ost_ctx_t;
  d_ost : ostq_t mmu_ost_ctx_t;
  walk_slot_vld : bool;
  walk_is_inst : bool;
  walk_slot : Z;
  m_busy : bool;
  m_is_inst : bool;
  m_req : bti_req_if_t;
  req_priv : Z;
  req_sum : bool;
  req_mxr : bool;
  fault_pc : Z;
  root_base : Z;
  m_va : Z;
  m_pte : Z;
  leaf_pa_base : Z;
  m_level : Z;
  pte_req_pending : bool;
  final_req_pending : bool;
  final_rsp_pending : bool;
  drop_ptw_rsp : bool;
  drop_i_rsp : bool;
  bare_i_rsp_pending : bool;
  itlb_replace_idx : Z;
  dtlb_replace_idx : Z;
  itlb : list mmu_tlb_entry_t;
  dtlb : list mmu_tlb_entry_t;
  m_perf : mmu_perf_t
}.
#[export] Instance eta_mmu : Eta mmu_t := fun m =>
  Mmu (va_i_bti_req_slv m) (va_i_bti_rsp_mst m) (va_d_bti_req_slv m) (va_d_bti_rsp_mst m)
    (mmu_fch_expt_mst m) (ldst_expt_mst m) (pa_i_bti_req_mst m) (pa_i_bti_rsp_slv m)
    (pa_d_bti_req_mst m) (pa_d_bti_rsp_slv m) (ptw_bti_req_mst m) (ptw_bti_rsp_slv m)
    (tlb_flush_slv m) (m_exu_state_i m) (m_csr_state_i m) (va_i_req_fifo m) (va_d_req_fifo m)
    (i_ost m) (d_ost m) (walk_slot_vld m) (walk_is_inst m) (walk_slot m) (m_busy m)
    (m_is_inst m) (m_req m) (req_priv m) (req_sum m) (req_mxr m) (fault_pc m) (root_base m)
    (m_va m) (m_pte m) (leaf_pa_base m) (m_level m) (pte_req_pending m) (final_req_pending m)
    (final_rsp_pending m) (drop_ptw_rsp m) (drop_i_rsp m) (bare_i_rsp_pending m)
    (itlb_replace_idx m) (dtlb_replace_idx m) (itlb m) (dtlb m) (m_perf m).

Implicit Types (mmu : mmu_t).

(** ** Page table entries and permissions *)

Definition mmu_data_access_from_cmd (cmd : Z) : option mmu_access_t :=
  if (cmd =? BTI_REQ_CMD_READ) || (cmd =? BTI_REQ_CMD_CBO_INVAL) || (cmd =? BTI_REQ_CMD_CBO_CLEAN)
     || (cmd =? BTI_REQ_CMD_CBO_FLUSH) then Some MMU_ACCESS_LOAD
  else if cmd =? BTI_REQ_CMD_WRITE then Some MMU_ACCESS_STORE
  else None.

Definition mmu_mstatus mmu : Z := cm_mstatus (m_csr_state_i mmu).
Definition mmu_satp mmu : Z := cm_satp (m_csr_state_i mmu).

(** Fields of satp: ppn, asid and mode. *)
Definition satp_ppn (satp : Z) : Z := bits satp 0 22.
Definition satp_asid (satp : Z) : Z := bits satp 22 9.
Definition satp_mode (satp : Z) : Z := bits satp 31 1.

Definition mmu_pte_ppn (pte : Z) : Z := Z.shiftr pte 10.
Definition mmu_pte_ppn0 (pte : Z) : Z := Z.land (Z.shiftr pte 10) 0x3ff.
Definition mmu_pte_ppn1 (pte : Z) : Z := Z.land (Z.shiftr pte 20) 0xfff.

Definition mmu_page_table_index (va level : Z) : Z :=
  if level =? 1 then Z.land (Z.shiftr va 22) 0x3ff else Z.land (Z.shiftr va 12) 0x3ff.

Definition mmu_pte_addr mmu : Z :=
  u32 (root_base mmu + u32 (mmu_page_table_index (m_va mmu) (m_level mmu) * MMU_PTE_SIZE)).

Definition mmu_pte_is_leaf (pte : Z) : bool := nz (Z.land pte (Z.lor PTE_R (Z.lor PTE_W PTE_X))).

Definition mmu_pte_valid (pte : Z) : bool :=
  if Z.land pte PTE_V =? 0 then false
  else if nz (Z.land pte PTE_W) && negb (nz (Z.land pte PTE_R)) then false
  else true.

Definition mmu_pte_permits mmu (pte : Z) : option bool :=
  let priv := req_priv mmu in
  let user_page := nz (Z.land pte PTE_U) in
  if (priv =? RV32G_PRIV_USER) && negb user_page then Some false
  else if (priv =? RV32G_PRIV_SUPERVISOR) && user_page && (m_is_inst mmu || negb (req_sum mmu))
  then Some false
  else if m_is_inst mmu then Some (nz (Z.land pte PTE_X))
  else
    access ← mmu_data_access_from_cmd (bq_cmd (m_req mmu));
    if decide (access = MMU_ACCESS_STORE) then Some (nz (Z.land pte PTE_W))
    else Some (nz (Z.land pte PTE_R) || (req_mxr mmu && nz (Z.land pte PTE_X))).

Definition mmu_pte_ad_ok mmu (pte : Z) : option bool :=
  if Z.land pte PTE_A =? 0 then Some false
  else if m_is_inst mmu then Some true
  else
    access ← mmu_data_access_from_cmd (bq_cmd (m_req mmu));
    Some (negb (bool_decide (access = MMU_ACCESS_STORE) && (Z.land pte PTE_D =? 0))).

(** [None] is the return value [false]. *)
Definition mmu_leaf_to_pa mmu (pte : Z) : option Z :=
  let vpn0 := Z.land (Z.shiftr (m_va mmu) 12) 0x3ff in
  let page_off := Z.land (m_va mmu) MMU_PGMASK in
  if m_level mmu =? 1 then
    if negb (mmu_pte_ppn0 pte =? 0) then None
    else Some (Z.lor (Z.lor (u32 (Z.shiftl (mmu_pte_ppn1 pte) 22)) (Z.shiftl vpn0 12)) page_off)
  else Some (Z.lor (u32 (Z.shiftl (mmu_pte_ppn pte) 12)) page_off).

(** ** Requests *)

Definition mmu_count_ost_full (is_inst : bool) : M mmu_t unit :=
  if is_inst then modify (fun mmu => mmu <| m_perf := m_perf mmu
    <| perf_i_ost_full := u64 (perf_i_ost_full (m_perf mmu) + 1) |> |>)
  else modify (fun mmu => mmu <| m_perf := m_perf mmu
    <| perf_d_ost_full := u64 (perf_d_ost_full (m_perf mmu) + 1) |> |>).

Definition mmu_effective_priv mmu (access : mmu_access_t) : Z :=
  let mstatus := mmu_mstatus mmu in
  let priv := st_priv (m_exu_state_i mmu) in
  if negb (bool_decide (access = MMU_ACCESS_INST)) && (priv =? RV32G_PRIV_MACHINE) &&
     nz (bits mstatus 17 1) then bits mstatus 11 2
  else priv.

Definition mmu_req_ctx_translation_enabled mmu (ctx : mmu_req_ctx_t) : bool :=
  negb (rc_priv ctx =? RV32G_PRIV_MACHINE) && (satp_mode (mmu_satp mmu) =? MMU_SATP_MODE_SV32).

Definition mmu_make_req_ctx mmu (is_inst : bool) (req : bti_req_if_t) : option mmu_req_ctx_t :=
  access ← (if is_inst then Some MMU_ACCESS_INST else mmu_data_access_from_cmd (bq_cmd req));
  let mstatus := mmu_mstatus mmu in
  Some (MmuReqCtx req (mmu_effective_priv mmu access) (nz (bits mstatus 18 1))
          (nz (bits mstatus 19 1))
          (if is_inst then bq_addr req else st_pc (m_exu_state_i mmu))).

(** An operation on the outstanding queue of a side. *)
Definition on_ost {A} (is_inst : bool) (m : M (ostq_t mmu_ost_ctx_t) A) : M mmu_t A :=
  if is_inst then on i_ost m else on d_ost m.
Definition mmu_ost mmu (is_inst : bool) : ostq_t mmu_ost_ctx_t :=
  if is_inst then i_ost mmu else d_ost mmu.

Definition mmu_complete_normal (is_inst : bool) (slot : Z) (rsp : bti_rsp_if_t) : M mmu_t unit :=
  ctx ← on_ost is_inst (ostq_read_slot slot);
  let ctx := ctx <| mc_rsp := rsp |> in
  let ctx := ctx <| mc_ready := true |> in
  let ctx := ctx <| mc_expt_vld := false |> in
  on_ost is_inst (ostq_write_slot slot ctx).

Definition mmu_complete_fault (is_inst : bool) (slot cause priv pc tval : Z) : M mmu_t unit :=
  ctx ← on_ost is_inst (ostq_read_slot slot);
  let ctx := ctx <| mc_expt := HartExpt HART_EXPT_TYPE_EXCEPTION cause priv pc tval |> in
  let ctx := ctx <| mc_expt_vld := true |> in
  let ctx := ctx <| mc_rsp := BtiRsp (bq_trans_id (mc_req ctx)) 0 false |> in
  let ctx := ctx <| mc_ready := true |> in
  on_ost is_inst (ostq_write_slot slot ctx).

Definition mmu_complete_current_fault (cause : Z) : M mmu_t unit :=
  mmu ← gets id;
  DBG_CHECK (walk_slot_vld mmu);;
  mmu_complete_fault (m_is_inst mmu) (walk_slot mmu) cause (req_priv mmu) (fault_pc mmu) (m_va mmu).

(** The page fault of an access of the side. *)
Definition fault_cause (is_inst : bool) (cmd : Z) : option Z :=
  if is_inst then Some HART_EXPT_CAUSE_INST_PAGE_FAULT
  else
    access ← mmu_data_access_from_cmd cmd;
    Some (if decide (access = MMU_ACCESS_STORE) then HART_EXPT_CAUSE_STORE_AMO_PAGE_FAULT
          else HART_EXPT_CAUSE_LOAD_PAGE_FAULT).

Definition mmu_raise_fault : M mmu_t unit :=
  mmu ← gets id;
  cause ← of_option (fault_cause (m_is_inst mmu) (bq_cmd (m_req mmu)));
  mmu_complete_current_fault cause;;
  modify (fun mmu => mmu <| m_busy := false |> <| walk_slot_vld := false |>
    <| pte_req_pending := false |> <| final_req_pending := false |>
    <| final_rsp_pending := false |>).

Definition mmu_find_pa_rsp_slot (is_inst : bool) : M mmu_t (option (mmu_ost_ctx_t * Z)) :=
  on_ost is_inst (ostq_scan (fun cur => negb (negb (mc_pa_issued cur) || mc_ready cur))).

(** The interfaces of a side. *)
Definition pa_req_mst mmu (is_inst : bool) : chan bti_req_if_t :=
  if is_inst then pa_i_bti_req_mst mmu else pa_d_bti_req_mst mmu.
Definition on_pa_req {A} (is_inst : bool) (m : M (chan bti_req_if_t) A) : M mmu_t A :=
  if is_inst then on pa_i_bti_req_mst m else on pa_d_bti_req_mst m.

Definition mmu_send_pa_req (is_inst : bool) (req : bti_req_if_t) : M mmu_t unit :=
  mmu ← gets id;
  DBG_CHECK (negb (chan_full (pa_req_mst mmu is_inst)));;
  on_pa_req is_inst (chan_write req).

Definition mmu_set_active_req (is_inst : bool) (ctx : mmu_req_ctx_t) : M mmu_t unit :=
  modify (fun mmu => mmu <| m_is_inst := is_inst |> <| m_req := rc_req ctx |>
    <| req_priv := rc_priv ctx |> <| req_sum := rc_sum ctx |> <| req_mxr := rc_mxr ctx |>
    <| fault_pc := rc_fault_pc ctx |> <| m_va := bq_addr (rc_req ctx) |>
    <| root_base := u32 (Z.shiftl (satp_ppn (mmu_satp mmu)) MMU_PGSHIFT) |>).

Definition mmu_start_req_ctx (is_inst : bool) (ctx : mmu_req_ctx_t) (slot : Z) : M mmu_t unit :=
  modify (fun mmu => mmu <| m_busy := true |>);;
  mmu_set_active_req is_inst ctx;;
  modify (fun mmu => mmu <| m_level := 1 |> <| pte_req_pending := false |>
    <| final_req_pending := false |> <| walk_slot_vld := true |> <| walk_is_inst := is_inst |>
    <| walk_slot := slot |>).

(** ** TLB *)

Definition mmu_invalidate_tlb : M mmu_t unit :=
  modify (fun mmu => mmu <| itlb := (fun e => e <| te_vld := false |>) <$> itlb mmu |>
    <| dtlb := (fun e => e <| te_vld := false |>) <$> dtlb mmu |>).

Definition mmu_recv_tlb_flush : M mmu_t unit :=
  mmu ← gets id;
  if chan_empty (tlb_flush_slv mmu) then mret tt
  else
    on tlb_flush_slv chan_read;;
    mmu_invalidate_tlb.

Definition mmu_tlb_tag (va level : Z) : Z := if level =? 1 then Z.shiftr va 22 else Z.shiftr va 12.
Definition mmu_tlb_page_mask (level : Z) : Z :=
  if level =? 1 then Z.shiftl 1 22 - 1 else MMU_PGMASK.

Definition tlb_num (is_inst : bool) : Z := if is_inst then MMU_ITLB_SIZE else MMU_DTLB_SIZE.
Definition mmu_tlb_entries mmu (is_inst : bool) : list mmu_tlb_entry_t :=
  if is_inst then itlb mmu else dtlb mmu.

(** The entry [mmu_tlb_fill] writes. *)
Definition tlb_new_entry mmu : mmu_tlb_entry_t :=
  let satp := mmu_satp mmu in
  TlbEntry true (mmu_tlb_tag (m_va mmu) (m_level mmu)) (satp_ppn satp) (satp_asid satp)
    (req_priv mmu) (req_sum mmu) (req_mxr mmu) (m_level mmu) (m_pte mmu)
    (Z.land (leaf_pa_base mmu) (not32 (mmu_tlb_page_mask (m_level mmu)))).

Definition mmu_tlb_fill : M mmu_t unit :=
  mmu ← gets id;
  let entry := tlb_new_entry mmu in
  if m_is_inst mmu then
    l ← of_option (aset (itlb mmu) (itlb_replace_idx mmu) entry);
    modify (fun mmu => mmu <| itlb := l |>
      <| itlb_replace_idx := u32 (itlb_replace_idx mmu + 1) mod tlb_num true |>)
  else
    l ← of_option (aset (dtlb mmu) (dtlb_replace_idx mmu) entry);
    modify (fun mmu => mmu <| dtlb := l |>
      <| dtlb_replace_idx := u32 (dtlb_replace_idx mmu + 1) mod tlb_num false |>).

(** An entry that matches a request. *)
Definition tlb_match mmu (ctx : mmu_req_ctx_t) (entry : mmu_tlb_entry_t) : bool :=
  let satp := mmu_satp mmu in
  te_vld entry && negb
    (negb (te_satp_ppn entry =? satp_ppn satp) || negb (te_satp_asid entry =? satp_asid satp) ||
     negb (te_priv entry =? rc_priv ctx) || negb (Bool.eqb (te_sum entry) (rc_sum ctx)) ||
     negb (Bool.eqb (te_mxr entry) (rc_mxr ctx)) ||
     negb (te_tag entry =? mmu_tlb_tag (bq_addr (rc_req ctx)) (te_level entry))).

Definition mmu_lookup_tlb_entry mmu (is_inst : bool) (ctx : mmu_req_ctx_t) : option mmu_tlb_entry_t :=
  List.find (tlb_match mmu ctx) (mmu_tlb_entries mmu is_inst).

(** ** Accepting requests *)

Definition mmu_drop_canceled_rsp : M mmu_t unit :=
  mmu ← gets id;
  when (drop_ptw_rsp mmu && negb (chan_empty (ptw_bti_rsp_slv mmu)))
    (rsp ← on ptw_bti_rsp_slv chan_read;
     DBG_CHECK (bp_trans_id rsp =? MMU_PTE_TRANS_ID);;
     modify (fun mmu => mmu <| drop_ptw_rsp := false |>));;
  mmu ← gets id;
  when (drop_i_rsp mmu && negb (chan_empty (pa_i_bti_rsp_slv mmu)))
    (on pa_i_bti_rsp_slv chan_read;;
     modify (fun mmu => mmu <| drop_i_rsp := false |>)).

Definition mmu_capture_req : M mmu_t unit :=
  mmu ← gets id;
  (if chan_full (va_i_req_fifo mmu) then
     when (negb (chan_empty (va_i_bti_req_slv mmu)))
       (modify (fun mmu => mmu <| m_perf := m_perf mmu
          <| perf_i_stg_full := u64 (perf_i_stg_full (m_perf mmu) + 1) |> |>))
   else when (negb (chan_empty (va_i_bti_req_slv mmu)))
     (req ← on va_i_bti_req_slv chan_read;
      mmu ← gets id;
      ctx ← of_option (mmu_make_req_ctx mmu true req);
      on va_i_req_fifo (chan_write ctx)));;
  mmu ← gets id;
  if chan_full (va_d_req_fifo mmu) then
    when (negb (chan_empty (va_d_bti_req_slv mmu)))
      (modify (fun mmu => mmu <| m_perf := m_perf mmu
         <| perf_d_stg_full := u64 (perf_d_stg_full (m_perf mmu) + 1) |> |>))
  else when (negb (chan_empty (va_d_bti_req_slv mmu)))
    (req ← on va_d_bti_req_slv chan_read;
     mmu ← gets id;
     ctx ← of_option (mmu_make_req_ctx mmu false req);
     on va_d_req_fifo (chan_write ctx)).

(** [None] is the return value [false]; the slot otherwise. *)
Definition mmu_alloc_ost_req (is_inst : bool) (req : bti_req_if_t) : M mmu_t (option Z) :=
  mmu ← gets id;
  if ostq_full (mmu_ost mmu is_inst) then
    mmu_count_ost_full is_inst;;
    mret None
  else
    let ctx := MmuOstCtx is_inst req false false false hart_expt_zero bti_rsp_zero in
    on_ost is_inst (ostq_alloc ctx).

Definition mmu_accept_tlb_hit (is_inst : bool) (ctx : mmu_req_ctx_t) (slot : Z)
    (entry : mmu_tlb_entry_t) : M mmu_t unit :=
  modify (fun mmu => mmu <| m_busy := true |>);;
  mmu_set_active_req is_inst ctx;;
  modify (fun mmu => mmu <| m_pte := te_pte entry |>);;
  mmu ← gets id;
  permits ← of_option (mmu_pte_permits mmu (te_pte entry));
  ok ← (if permits : bool then of_option (mmu_pte_ad_ok mmu (te_pte entry)) else mret false);
  if negb ok then
    cause ← of_option (fault_cause is_inst (bq_cmd (rc_req ctx)));
    mmu_complete_fault is_inst slot cause (rc_priv ctx) (rc_fault_pc ctx) (bq_addr (rc_req ctx));;
    modify (fun mmu => mmu <| m_busy := false |>)
  else
    let pa_req := rc_req ctx <| bq_addr := Z.lor (te_pa_base entry)
      (Z.land (bq_addr (rc_req ctx)) (mmu_tlb_page_mask (te_level entry))) |> in
    ost_ctx ← on_ost is_inst (ostq_read_slot slot);
    let ost_ctx := ost_ctx <| mc_pa_issued := true |> in
    on_ost is_inst (ostq_write_slot slot ost_ctx);;
    mmu_send_pa_req is_inst pa_req;;
    (if is_inst then modify (fun mmu => mmu <| m_perf := m_perf mmu
       <| perf_itlb_hit := u64 (perf_itlb_hit (m_perf mmu) + 1) |> |>)
     else modify (fun mmu => mmu <| m_perf := m_perf mmu
       <| perf_dtlb_hit := u64 (perf_dtlb_hit (m_perf mmu) + 1) |> |>));;
    modify (fun mmu => mmu <| m_busy := false |>).

Definition va_req_fifo mmu (is_inst : bool) : chan mmu_req_ctx_t :=
  if is_inst then va_i_req_fifo mmu else va_d_req_fifo mmu.
Definition on_va_req_fifo {A} (is_inst : bool) (m : M (chan mmu_req_ctx_t) A) : M mmu_t A :=
  if is_inst then on va_i_req_fifo m else on va_d_req_fifo m.

(** [true] when a request was accepted. *)
Definition mmu_accept_one_req (is_inst : bool) : M mmu_t bool :=
  mmu ← gets id;
  if chan_empty (va_req_fifo mmu is_inst) then mret false
  else if drop_ptw_rsp mmu || drop_i_rsp mmu then mret false
  else if m_busy mmu then mret false
  else
    req_ctx ← on_va_req_fifo is_inst chan_front;
    if negb (mmu_req_ctx_translation_enabled mmu req_ctx) then
      if chan_full (pa_req_mst mmu is_inst) || ostq_full (mmu_ost mmu is_inst) then
        when (ostq_full (mmu_ost mmu is_inst)) (mmu_count_ost_full is_inst);;
        mret false
      else
        r ← mmu_alloc_ost_req is_inst (rc_req req_ctx);
        slot ← of_option r;
        ctx ← on_ost is_inst (ostq_read_slot slot);
        let ctx := ctx <| mc_pa_issued := true |> in
        on_ost is_inst (ostq_write_slot slot ctx);;
        req_ctx ← on_va_req_fifo is_inst chan_read;
        mmu_send_pa_req is_inst (rc_req req_ctx);;
        mret true
    else match mmu_lookup_tlb_entry mmu is_inst req_ctx with
    | Some entry =>
      if chan_full (pa_req_mst mmu is_inst) || ostq_full (mmu_ost mmu is_inst) then
        when (ostq_full (mmu_ost mmu is_inst)) (mmu_count_ost_full is_inst);;
        mret false
      else
        r ← mmu_alloc_ost_req is_inst (rc_req req_ctx);
        slot ← of_option r;
        req_ctx ← on_va_req_fifo is_inst chan_read;
        mmu_accept_tlb_hit is_inst req_ctx slot entry;;
        mret true
    | None =>
      if m_busy mmu || negb (ostq_empty (i_ost mmu)) || negb (ostq_empty (d_ost mmu)) then mret false
      else if ostq_full (mmu_ost mmu is_inst) then
        mmu_count_ost_full is_inst;;
        mret false
      else
        r ← mmu_alloc_ost_req is_inst (rc_req req_ctx);
        slot ← of_option r;
        req_ctx ← on_va_req_fifo is_inst chan_read;
        (if is_inst then modify (fun mmu => mmu <| m_perf := m_perf mmu
           <| perf_itlb_miss := u64 (perf_itlb_miss (m_perf mmu) + 1) |> |>)
         else modify (fun mmu => mmu <| m_perf := m_perf mmu
           <| perf_dtlb_miss := u64 (perf_dtlb_miss (m_perf mmu) + 1) |> |>));;
        mmu_start_req_ctx is_inst req_ctx slot;;
        mret true
    end.

Definition mmu_accept_new_req : M mmu_t unit :=
  r ← mmu_accept_one_req false;
  if r : bool then mret tt
  else mmu_accept_one_req true;; mret tt.

(** ** The walk *)

Definition mmu_finish_translate : M mmu_t unit :=
  mmu ← gets id;
  if negb (mmu_pte_valid (m_pte mmu)) then mmu_raise_fault
  else if negb (mmu_pte_is_leaf (m_pte mmu)) then
    if nz (Z.land (m_pte mmu) (Z.lor PTE_U (Z.lor PTE_A PTE_D))) || (m_level mmu =? 0)
    then mmu_raise_fault
    else
      modify (fun mmu => mmu <| root_base := u32 (Z.shiftl (mmu_pte_ppn (m_pte mmu)) MMU_PGSHIFT) |>
        <| m_level := m_level mmu - 1 |>)
  else
    permits ← of_option (mmu_pte_permits mmu (m_pte mmu));
    ok ← (if permits : bool then of_option (mmu_pte_ad_ok mmu (m_pte mmu)) else mret false);
    if negb ok then mmu_raise_fault
    else match mmu_leaf_to_pa mmu (m_pte mmu) with
    | None => mmu_raise_fault
    | Some pa =>
      modify (fun mmu => mmu <| leaf_pa_base := pa |>);;
      mmu_tlb_fill;;
      modify (fun mmu => mmu <| m_req := m_req mmu <| bq_addr := pa |> |>
        <| final_req_pending := true |>)
    end.

Definition mmu_send_pte_req : M mmu_t unit :=
  mmu ← gets id;
  if pte_req_pending mmu || chan_full (ptw_bti_req_mst mmu) then mret tt
  else
    let req := BtiReq MMU_PTE_TRANS_ID BTI_REQ_CMD_READ (mmu_pte_addr mmu) BTI_REQ_SIZE_B4 0 0xf in
    on ptw_bti_req_mst (chan_write req);;
    modify (fun mmu => mmu <| pte_req_pending := true |>).

Definition mmu_recv_pte_rsp : M mmu_t unit :=
  mmu ← gets id;
  if negb (pte_req_pending mmu) || chan_empty (ptw_bti_rsp_slv mmu) then mret tt
  else
    rsp ← on ptw_bti_rsp_slv chan_read;
    DBG_CHECK (bp_trans_id rsp =? MMU_PTE_TRANS_ID);;
    modify (fun mmu => mmu <| pte_req_pending := false |>);;
    if negb (bp_ok rsp) then mmu_raise_fault
    else
      modify (fun mmu => mmu <| m_pte := bp_data rsp |>);;
      mmu_finish_translate.

Definition mmu_send_final_req : M mmu_t unit :=
  mmu ← gets id;
  if negb (final_req_pending mmu) then mret tt
  else if chan_full (pa_req_mst mmu (m_is_inst mmu)) then mret tt
  else
    on_pa_req (m_is_inst mmu) (chan_write (m_req mmu));;
    modify (fun mmu => mmu <| final_req_pending := false |> <| final_rsp_pending := true |>).

Definition pa_rsp_slv mmu (is_inst : bool) : chan bti_rsp_if_t :=
  if is_inst then pa_i_bti_rsp_slv mmu else pa_d_bti_rsp_slv mmu.
Definition on_pa_rsp {A} (is_inst : bool) (m : M (chan bti_rsp_if_t) A) : M mmu_t A :=
  if is_inst then on pa_i_bti_rsp_slv m else on pa_d_bti_rsp_slv m.

Definition mmu_recv_final_rsp : M mmu_t unit :=
  mmu ← gets id;
  if negb (final_rsp_pending mmu) then mret tt
  else if chan_empty (pa_rsp_slv mmu (m_is_inst mmu)) then mret tt
  else
    rsp ← on_pa_rsp (m_is_inst mmu) chan_read;
    DBG_CHECK (walk_slot_vld mmu);;
    mmu_complete_normal (m_is_inst mmu) (walk_slot mmu) rsp;;
    modify (fun mmu => mmu <| final_rsp_pending := false |> <| m_busy := false |>
      <| walk_slot_vld := false |>).

Definition mmu_proc_walk : M mmu_t unit :=
  mmu ← gets id;
  if negb (m_busy mmu) then mret tt
  else if final_req_pending mmu then mmu_send_final_req
  else if final_rsp_pending mmu then mmu_recv_final_rsp
  else
    mmu_recv_pte_rsp;;
    mmu ← gets id;
    when (m_busy mmu && negb (final_req_pending mmu)) mmu_send_pte_req.

(** ** Responses and clock *)

Definition mmu_proc_pa_rsp (is_inst : bool) : M mmu_t unit :=
  mmu ← gets id;
  if chan_empty (pa_rsp_slv mmu is_inst) then mret tt
  else
    found ← mmu_find_pa_rsp_slot is_inst;
    match found with
    | None => mret tt
    | Some (_, slot) =>
      rsp ← on_pa_rsp is_inst chan_read;
      mmu_complete_normal is_inst slot rsp
    end.

Definition va_rsp_mst mmu (is_inst : bool) : chan bti_rsp_if_t :=
  if is_inst then va_i_bti_rsp_mst mmu else va_d_bti_rsp_mst mmu.
Definition on_va_rsp {A} (is_inst : bool) (m : M (chan bti_rsp_if_t) A) : M mmu_t A :=
  if is_inst then on va_i_bti_rsp_mst m else on va_d_bti_rsp_mst m.
Definition expt_mst mmu (is_inst : bool) : chan hart_expt_if_t :=
  if is_inst then mmu_fch_expt_mst mmu else ldst_expt_mst mmu.
Definition on_expt {A} (is_inst : bool) (m : M (chan hart_expt_if_t) A) : M mmu_t A :=
  if is_inst then on mmu_fch_expt_mst m else on ldst_expt_mst m.

Definition mmu_send_ready_rsp (is_inst : bool) : M mmu_t unit :=
  found ← on_ost is_inst ostq_peek_head;
  match found with
  | None => mret tt
  | Some (ctx, _) =>
    if negb (mc_ready ctx) then mret tt
    else
      mmu ← gets id;
      if mc_expt_vld ctx then
        if chan_full (expt_mst mmu is_inst) then mret tt
        else if negb is_inst && chan_full (va_rsp_mst mmu is_inst) then mret tt
        else
          on_expt is_inst (chan_write (mc_expt ctx));;
          when (negb is_inst) (on_va_rsp is_inst (chan_write (mc_rsp ctx)));;
          on_ost is_inst ostq_free_head
      else if chan_full (va_rsp_mst mmu is_inst) then mret tt
      else
        on_va_rsp is_inst (chan_write (mc_rsp ctx));;
        on_ost is_inst ostq_free_head
  end.

Definition mmu_reset : M mmu_t unit :=
  modify (fun mmu => mmu <| m_busy := false |> <| pte_req_pending := false |>
    <| final_req_pending := false |> <| final_rsp_pending := false |> <| drop_ptw_rsp := false |>
    <| drop_i_rsp := false |> <| bare_i_rsp_pending := false |> <| walk_slot_vld := false |>);;
  on va_i_req_fifo chan_clear;;
  on va_d_req_fifo chan_clear;;
  on i_ost ostq_reset;;
  on d_ost ostq_reset;;
  modify (fun mmu => mmu <| itlb_replace_idx := 0 |> <| dtlb_replace_idx := 0 |>);;
  mmu_invalidate_tlb;;
  modify (fun mmu => mmu <| m_perf := MmuPerf 0 0 0 0 0 0 0 0 |>).

Definition mmu_clock : M mmu_t unit :=
  on i_ost ostq_clock;;
  on d_ost ostq_clock;;
  mmu_recv_tlb_flush;;
  mmu_drop_canceled_rsp;;
  mmu_capture_req;;
  mmu_proc_walk;;
  mmu_proc_pa_rsp true;;
  mmu_proc_pa_rsp false;;
  mmu_send_ready_rsp true;;
  mmu_send_ready_rsp false;;
  mmu_accept_new_req;;
  mmu_accept_new_req.
