(* ===== verification/MmuSpec.v ===== *)
(** * Address translation

    The Sv32 translation of the manual as a function of the page tables, and the proof that the
    walker and the TLB of Mmu.v compute it. *)

From stdpp Require Import base numbers list relations.
From Stdlib Require Import ZArith Lia.
From S2P Require Import Prelude Fifo Ost OstScan Isa ExuState CsrFile Csr Bti Mmu.

(** ** Sv32 *)

(** Who accesses: privilege, the SUM and MXR bits of mstatus, and the kind of access. *)
Record xctx := Xctx { x_priv : Z; x_sum : bool; x_mxr : bool; x_acc : mmu_access_t }.

(** The access is allowed by a leaf entry. *)
Definition leaf_allows (x : xctx) (pte : Z) : bool :=
  let r := Z.testbit pte 1 in
  let w := Z.testbit pte 2 in
  let ex := Z.testbit pte 3 in
  let u := Z.testbit pte 4 in
  let a := Z.testbit pte 6 in
  let d := Z.testbit pte 7 in
  (if x_priv x =? 0 then u
   else if x_priv x =? 1 then negb u || (x_sum x && negb (bool_decide (x_acc x = MMU_ACCESS_INST)))
   else true) &&
  match x_acc x with
  | MMU_ACCESS_INST => ex && a
  | MMU_ACCESS_LOAD => (r || (x_mxr x && ex)) && a
  | MMU_ACCESS_STORE => w && a && d
  end.

(** Size of the page a leaf of a level maps. *)
Definition page_size (level : Z) : Z := if level =? 1 then 4194304 else 4096.

(** The physical address in a leaf; a superpage has to be aligned.  Physical addresses are 34 bits
    in Sv32 and 32 bits on this bus: the upper two bits are dropped. *)
Definition leaf_pa (level pte va : Z) : option Z :=
  if (level =? 1) && negb ((pte / 1024) mod 1024 =? 0) then None
  else Some (u32 (pte / 1024 * 4096) / page_size level * page_size level + va mod page_size level).

(** Translation by a leaf: [None] is a page fault. *)
Definition leaf_translate (x : xctx) (level pte va : Z) : option Z :=
  if leaf_allows x pte then leaf_pa level pte va else None.

Definition pte_ok (pte : Z) : bool := Z.testbit pte 0 && (Z.testbit pte 1 || negb (Z.testbit pte 2)).
Definition pte_leaf (pte : Z) : bool := Z.testbit pte 1 || Z.testbit pte 2 || Z.testbit pte 3.
(** Bits that have to be clear in a pointer to a table. *)
Definition pte_pointer_ok (pte : Z) : bool :=
  negb (Z.testbit pte 4 || Z.testbit pte 6 || Z.testbit pte 7).

Definition vpn (level va : Z) : Z := (if level =? 1 then va / 4194304 else va / 4096) mod 1024.
Definition pte_addr (root level va : Z) : Z := u32 (root + 4 * vpn level va).

(** The leaf for an address, from the table at [root]; [read] reads a word of the tables, [None]
    is an access error.  The result is the level and the entry. *)
Definition sv32_leaf (read : Z -> option Z) (root va : Z) : option (Z * Z) :=
  pte1 ← read (pte_addr root 1 va);
  if negb (pte_ok pte1) then None
  else if pte_leaf pte1 then Some (1, pte1)
  else if negb (pte_pointer_ok pte1) then None
  else
    pte0 ← read (pte_addr (u32 (pte1 / 1024 * 4096)) 0 va);
    if negb (pte_ok pte0) then None
    else if pte_leaf pte0 then Some (0, pte0) else None.

Definition sv32 (read : Z -> option Z) (root : Z) (x : xctx) (va : Z) : option Z :=
  '(level, pte) ← sv32_leaf read root va;
  leaf_translate x level pte va.

(** ** The tests of the unit *)

(** The access the unit is working on. *)
Definition mmu_xctx (m : mmu_t) (acc : mmu_access_t) : xctx :=
  Xctx (req_priv m) (req_sum m) (req_mxr m) acc.

Definition mmu_acc (is_inst : bool) (cmd : Z) : option mmu_access_t :=
  if is_inst then Some MMU_ACCESS_INST else mmu_data_access_from_cmd cmd.

Lemma data_access_not_inst cmd acc : mmu_data_access_from_cmd cmd = Some acc -> acc <> MMU_ACCESS_INST.
Proof. unfold mmu_data_access_from_cmd. repeat case_match; by intros [= <-]. Qed.

Lemma pte_valid_spec pte : mmu_pte_valid pte = pte_ok pte.
Proof.
  unfold mmu_pte_valid, pte_ok. change (Z.land pte PTE_V =? 0) with (Z.land pte (Z.shiftl 1 0) =? 0).
  rewrite <- (negb_involutive (_ =? 0)). fold (nz (Z.land pte (Z.shiftl 1 0))).
  unfold PTE_W, PTE_R. rewrite !nz_testbit by lia.
  by destruct (Z.testbit pte 0), (Z.testbit pte 1), (Z.testbit pte 2).
Qed.

(** A mask test of several bits. *)
Lemma nz_lor x a b : nz (Z.land x (Z.lor a b)) = nz (Z.land x a) || nz (Z.land x b).
Proof.
  unfold nz. rewrite Z.land_lor_distr_r.
  destruct (Z.eqb_spec (Z.land x a) 0) as [->|Ha]; [by rewrite Z.lor_0_l|].
  destruct (Z.eqb_spec (Z.lor (Z.land x a) (Z.land x b)) 0) as [[E _]%Z.lor_eq_0_iff|]; done.
Qed.

Lemma pte_is_leaf_spec pte : mmu_pte_is_leaf pte = pte_leaf pte.
Proof.
  unfold mmu_pte_is_leaf, pte_leaf. rewrite !nz_lor. unfold PTE_R, PTE_W, PTE_X.
  rewrite !nz_testbit by lia. by destruct (Z.testbit pte 1), (Z.testbit pte 2).
Qed.

Lemma pte_pointer_spec pte : nz (Z.land pte (Z.lor PTE_U (Z.lor PTE_A PTE_D))) = negb (pte_pointer_ok pte).
Proof.
  unfold pte_pointer_ok. rewrite !nz_lor. unfold PTE_U, PTE_A, PTE_D. rewrite !nz_testbit by lia.
  rewrite negb_involutive. by rewrite orb_assoc.
Qed.

(** The two permission tests, as the unit combines them. *)
Lemma leaf_check m pte acc : mmu_acc (m_is_inst m) (bq_cmd (m_req m)) = Some acc ->
  exists p, mmu_pte_permits m pte = Some p /\
    (if p then mmu_pte_ad_ok m pte else Some false) = Some (leaf_allows (mmu_xctx m acc) pte).
Proof.
  intros Hacc. unfold mmu_pte_permits, mmu_pte_ad_ok, leaf_allows, mmu_acc in *. cbn [x_priv x_sum x_mxr x_acc mmu_xctx].
  assert (forall k, (Z.land pte (Z.shiftl 1 k) =? 0) = negb (nz (Z.land pte (Z.shiftl 1 k)))) as Hneg
    by (intros; unfold nz; by rewrite negb_involutive).
  unfold PTE_U, PTE_X, PTE_W, PTE_R, PTE_A, PTE_D. rewrite !Hneg, !nz_testbit by lia.
  unfold RV32G_PRIV_USER, RV32G_PRIV_SUPERVISOR.
  destruct (m_is_inst m).
  - injection Hacc as <-. rewrite orb_true_l, andb_true_r.
    destruct (Z.eqb_spec (req_priv m) 0) as [->|]; [|destruct (Z.eqb_spec (req_priv m) 1)];
      destruct (Z.testbit pte 4), (Z.testbit pte 3), (Z.testbit pte 6), (req_sum m);
      eexists; (split; [reflexivity|done]).
  - rewrite Hacc. pose proof (data_access_not_inst _ _ Hacc) as Hni. simpl.
    destruct acc; [done| |];
    (destruct (Z.eqb_spec (req_priv m) 0) as [->|]; [|destruct (Z.eqb_spec (req_priv m) 1)];
      destruct (Z.testbit pte 4), (Z.testbit pte 3), (Z.testbit pte 6), (req_sum m), (Z.testbit pte 1),
        (Z.testbit pte 2), (Z.testbit pte 7), (req_mxr m);
      eexists; (split; [reflexivity|done])).
Qed.

(** The same, where it decides how to go on. *)
Lemma wp_leaf_check {A} m pte acc (k : bool -> M mmu_t A) Q :
  mmu_acc (m_is_inst m) (bq_cmd (m_req m)) = Some acc ->
  wp (k (leaf_allows (mmu_xctx m acc) pte)) Q m ->
  wp (permits ← of_option (mmu_pte_permits m pte);
      ok ← (if permits : bool then of_option (mmu_pte_ad_ok m pte) else mret false); k ok) Q m.
Proof.
  intros (p & Hp & Hok)%(leaf_check m pte) Hk. rewrite Hp. apply wp_bind. eapply wp_intro; [reflexivity|].
  apply wp_bind. destruct p.
  - rewrite Hok. by eapply wp_intro.
  - injection Hok as Hok. rewrite <- Hok in Hk. by apply wp_ret.
Qed.

(** ** Addresses *)

Lemma land_mask x k : 0 <= k -> Z.land x (Z.shiftl 1 k - 1) = x mod 2 ^ k.
Proof. intros. rewrite Z.shiftl_1_l, <- Z.land_ones, Z.ones_equiv by done. by rewrite Z.sub_1_r. Qed.

(** Clearing the offset of a page. *)
Lemma land_not_mask x k : is_u32 x -> 0 <= k <= 32 ->
  Z.land x (not32 (Z.shiftl 1 k - 1)) = x / 2 ^ k * 2 ^ k.
Proof.
  intros Hx Hk. rewrite <- Z.shiftr_div_pow2, <- Z.shiftl_mul_pow2 by lia.
  replace (Z.shiftl 1 k - 1) with (Z.ones k) by (rewrite Z.shiftl_1_l, Z.ones_equiv; lia).
  unfold not32. change (W32 - 1) with (Z.ones 32). bitwise.
  destruct (Z.leb_spec k i); cbn [andb].
  - rewrite Z.shiftr_spec by lia. replace (i - k + k) with i by lia.
    rewrite (proj2 (Z.ltb_ge _ _)) by lia. cbn [xorb]. destruct (Z.ltb_spec i 32); [apply andb_true_r|].
    by rewrite testbit_high.
  - rewrite (proj2 (Z.ltb_lt _ _)), (proj2 (Z.ltb_lt i 32)) by lia. apply andb_false_r.
Qed.

(** A page number and an offset. *)
Lemma lor_page n off k : 0 <= k -> 0 <= off < 2 ^ k -> Z.lor (n * 2 ^ k) off = n * 2 ^ k + off.
Proof. intros. rewrite <- (Z.shiftl_mul_pow2 n k), lor_shiftl_add, Z.shiftl_mul_pow2 by done. done. Qed.

Lemma leaf_to_pa_spec m pte : m_level m = 0 \/ m_level m = 1 ->
  mmu_leaf_to_pa m pte = leaf_pa (m_level m) pte (m_va m).
Proof.
  intros Hl. unfold mmu_leaf_to_pa, leaf_pa, page_size, mmu_pte_ppn0, mmu_pte_ppn1, mmu_pte_ppn,
    MMU_PGMASK, MMU_PGSIZE, MMU_PGSHIFT.
  change 0x3ff with (Z.ones 10). change 0xfff with (Z.ones 12).
  rewrite land_mask, !Z.land_ones, !Z.shiftr_div_pow2, !Z.shiftl_mul_pow2 by lia.
  change (2 ^ 10) with 1024. change (2 ^ 12) with 4096. change (2 ^ 20) with 1048576. change (2 ^ 22) with 4194304.
  destruct Hl as [-> | ->]; zconst; cbn [andb].
  - f_equal. set (n := pte / 1024).
    replace (u32 (n * 4096)) with ((n mod 1048576) * 2 ^ 12) by (unfold u32, W32; change (2 ^ 12) with 4096; zdiv).
    rewrite lor_page by (change (2 ^ 12) with 4096; zdiv). change (2 ^ 12) with 4096. zdiv.
  - destruct (_ =? 0) eqn:E; [|done]. cbn [negb]. f_equal.
    replace (u32 ((pte / 1048576) mod 4096 * 4194304)) with ((pte / 1048576) mod 1024 * 2 ^ 22)
      by (set (q := pte / 1048576); unfold u32, W32; change (2 ^ 22) with 4194304; zdiv).
    rewrite <- Z.lor_assoc. set (n := (m_va m / 4096) mod 1024). set (off := m_va m mod 4096).
    assert (0 <= n < 1024 /\ 0 <= off < 4096) by (unfold n, off; zdiv).
    change (Z.lor (n * 4096) off) with (Z.lor (n * 2 ^ 12) off).
    rewrite (lor_page n off 12) by (change (2 ^ 12) with 4096; lia).
    rewrite lor_page by (change (2 ^ 12) with 4096; change (2 ^ 22) with 4194304; lia). unfold n, off.
    change (2 ^ 12) with 4096; change (2 ^ 22) with 4194304. unfold is_u32, u32, W32 in *. zdiv.
Qed.

Lemma pte_addr_spec m : m_level m = 0 \/ m_level m = 1 ->
  mmu_pte_addr m = pte_addr (root_base m) (m_level m) (m_va m).
Proof.
  intros Hl. unfold mmu_pte_addr, pte_addr, mmu_page_table_index, vpn, MMU_PTE_SIZE.
  change 0x3ff with (Z.ones 10). rewrite !Z.land_ones, !Z.shiftr_div_pow2 by lia.
  change (2 ^ 10) with 1024. change (2 ^ 12) with 4096. change (2 ^ 22) with 4194304.
  destruct Hl as [-> | ->]; zconst; unfold is_u32, u32, W32 in *; zdiv.
Qed.

Lemma next_table pte : u32 (Z.shiftl (mmu_pte_ppn pte) MMU_PGSHIFT) = u32 (pte / 1024 * 4096).
Proof. unfold mmu_pte_ppn, MMU_PGSHIFT. by rewrite Z.shiftl_mul_pow2, Z.shiftr_div_pow2. Qed.

Lemma tlb_mask_spec level x : Z.land x (mmu_tlb_page_mask level) = x mod page_size level.
Proof.
  unfold mmu_tlb_page_mask, page_size, MMU_PGMASK, MMU_PGSIZE, MMU_PGSHIFT.
  destruct (level =? 1); by rewrite land_mask.
Qed.

Lemma tlb_tag_spec va level : mmu_tlb_tag va level = va / page_size level.
Proof. unfold mmu_tlb_tag, page_size. destruct (level =? 1); by rewrite Z.shiftr_div_pow2. Qed.

Lemma page_size_pow level : exists k, 0 <= k <= 32 /\ page_size level = 2 ^ k /\ mmu_tlb_page_mask level = Z.shiftl 1 k - 1.
Proof.
  unfold page_size, mmu_tlb_page_mask, MMU_PGMASK, MMU_PGSIZE, MMU_PGSHIFT.
  destruct (level =? 1); [exists 22|exists 12]; done.
Qed.

Lemma leaf_pa_u32 level pte va pa : leaf_pa level pte va = Some pa -> is_u32 pa.
Proof.
  unfold leaf_pa. case_match; [done|]. intros [= <-]. unfold page_size. pose proof (u32_range (pte / 1024 * 4096)).
  unfold is_u32, W32 in *. destruct (level =? 1); zdiv.
Qed.

(** What a TLB entry keeps of an address is enough for every address of the page. *)
Lemma tlb_pa_base level pte va va' pa : leaf_pa level pte va = Some pa ->
  va / page_size level = va' / page_size level ->
  Some (Z.lor (Z.land pa (not32 (mmu_tlb_page_mask level))) (va' mod page_size level)) = leaf_pa level pte va'.
Proof.
  intros Hpa Hva. pose proof (leaf_pa_u32 _ _ _ _ Hpa) as Hu. destruct (page_size_pow level) as (k & Hk & Hps & ->).
  rewrite land_not_mask by done. unfold leaf_pa in *. case_match; [done|]. injection Hpa as <-. f_equal.
  rewrite Hps in *. assert (0 < 2 ^ k) by (apply Z.pow_pos_nonneg; lia).
  rewrite lor_page by (lia || (apply Z.mod_pos_bound; lia)). f_equal. f_equal.
  rewrite Z.div_add_l, (Z.div_small (va mod _)) by (lia || (apply Z.mod_pos_bound; lia)). lia.
Qed.

(** ** The walk *)

(** The memory answers a request of the walker, [read] giving the words of the tables. *)
Definition ptw_answer (read : Z -> option Z) : M mmu_t unit :=
  mmu ← gets id;
  when (negb (chan_empty (ptw_bti_req_mst mmu)))
    (req ← on ptw_bti_req_mst chan_read;
     let w := read (bq_addr req) in
     on ptw_bti_rsp_slv (chan_write (BtiRsp (bq_trans_id req) (default 0 w) (bool_decide (is_Some w))))).

(** Cycles of the walker and the memory, until the walk is over. *)
Fixpoint mmu_walk (read : Z -> option Z) (n : nat) : M mmu_t unit :=
  match n with
  | O => mret tt
  | S n =>
    mmu ← gets id;
    when (m_busy mmu && negb (final_req_pending mmu))
      (mmu_proc_walk;; ptw_answer read;; mmu_walk read n)
  end.

(** The entry of a request that faults. *)
Definition faulted (c : mmu_ost_ctx_t) (cause priv pc tval : Z) : mmu_ost_ctx_t :=
  MmuOstCtx (mc_is_inst c) (mc_req c) (mc_pa_issued c) true true
    (HartExpt HART_EXPT_TYPE_EXCEPTION cause priv pc tval) (BtiRsp (bq_trans_id (mc_req c)) 0 false).

Definition acc_cause (acc : mmu_access_t) : Z :=
  match acc with
  | MMU_ACCESS_INST => HART_EXPT_CAUSE_INST_PAGE_FAULT
  | MMU_ACCESS_LOAD => HART_EXPT_CAUSE_LOAD_PAGE_FAULT
  | MMU_ACCESS_STORE => HART_EXPT_CAUSE_STORE_AMO_PAGE_FAULT
  end.

Lemma fault_cause_spec is_inst cmd acc : mmu_acc is_inst cmd = Some acc ->
  fault_cause is_inst cmd = Some (acc_cause acc).
Proof.
  unfold mmu_acc, fault_cause. destruct is_inst; [by intros [= <-]|]. intros H. rewrite H. simpl.
  pose proof (data_access_not_inst _ _ H). by destruct acc.
Qed.

(** A walk that begins for the entry [c], which lies between [l1] and [l2] in the table of its
    side. *)
Record walk_ready (m : mmu_t) (acc : mmu_access_t) (fr : bool) (l1 : list mmu_ost_ctx_t)
    (c : mmu_ost_ctx_t) (l2 : list mmu_ost_ctx_t) : Prop := {
  w_busy : m_busy m = true;
  w_pte : pte_req_pending m = false;
  w_freq : final_req_pending m = false;
  w_frsp : final_rsp_pending m = false;
  w_slot_vld : walk_slot_vld m = true;
  w_level : m_level m = 1;
  w_acc : mmu_acc (m_is_inst m) (bq_cmd (m_req m)) = Some acc;
  w_req : ch_pkts (ptw_bti_req_mst m) = [] /\ 0 < ch_depth (ptw_bti_req_mst m);
  w_rsp : ch_pkts (ptw_bti_rsp_slv m) = [] /\ 0 < ch_depth (ptw_bti_rsp_slv m);
  w_itlb : 0 <= itlb_replace_idx m < Z.of_nat (length (itlb m));
  w_dtlb : 0 <= dtlb_replace_idx m < Z.of_nat (length (dtlb m));
  w_ost : ost_live (mmu_ost m (m_is_inst m)) fr (l1 ++ c :: l2);
  w_slot : slot_at (mmu_ost m (m_is_inst m)) (walk_slot m) l1 c l2
}.

(** The TLB entry of a translation. *)
Definition tlb_entry_of (m : mmu_t) (level pte pa : Z) : mmu_tlb_entry_t :=
  TlbEntry true (mmu_tlb_tag (m_va m) level) (satp_ppn (mmu_satp m)) (satp_asid (mmu_satp m))
    (req_priv m) (req_sum m) (req_mxr m) level pte (Z.land pa (not32 (mmu_tlb_page_mask level))).

(** The replacement counter of the side. *)
Definition tlb_replace_idx (m : mmu_t) (is_inst : bool) : Z :=
  if is_inst then itlb_replace_idx m else dtlb_replace_idx m.

(** The walk from [m] has ended in [m'] with the leaf and address [r]; [None] is a fault. *)
Definition walk_result (m m' : mmu_t) (acc : mmu_access_t) (fr : bool) (l1 : list mmu_ost_ctx_t)
    (c : mmu_ost_ctx_t) (l2 : list mmu_ost_ctx_t) (r : option (Z * Z * Z)) : Prop :=
  let side := m_is_inst m in
  m_csr_state_i m' = m_csr_state_i m /\
  mmu_tlb_entries m' (negb side) = mmu_tlb_entries m (negb side) /\
  mmu_ost m' (negb side) = mmu_ost m (negb side) /\
  ch_pkts (ptw_bti_req_mst m') = [] /\
  match r with
  | Some (level, pte, pa) =>
    m_busy m' = true /\ final_req_pending m' = true /\ m_is_inst m' = side /\
    walk_slot m' = walk_slot m /\
    m_req m' = m_req m <| bq_addr := pa |> /\
    mmu_tlb_entries m' side =
      <[Z.to_nat (tlb_replace_idx m side) := tlb_entry_of m level pte pa]> (mmu_tlb_entries m side) /\
    mmu_ost m' side = mmu_ost m side
  | None =>
    m_busy m' = false /\
    mmu_tlb_entries m' side = mmu_tlb_entries m side /\
    ost_live (mmu_ost m' side) fr
      (l1 ++ faulted c (acc_cause acc) (req_priv m) (fault_pc m) (m_va m) :: l2)
  end.

(** The state of a walk in progress. *)
Definition walking (m : mmu_t) (root level pte : Z) (pend : bool) (reqs : list bti_req_if_t)
    (rsps : list bti_rsp_if_t) : mmu_t :=
  m <| root_base := root |> <| m_level := level |> <| m_pte := pte |> <| pte_req_pending := pend |>
    <| ptw_bti_req_mst := Chan (ch_depth (ptw_bti_req_mst m)) reqs |>
    <| ptw_bti_rsp_slv := Chan (ch_depth (ptw_bti_rsp_slv m)) rsps |>.

Lemma walking_start m : m_level m = 1 -> pte_req_pending m = false -> ch_pkts (ptw_bti_req_mst m) = [] ->
  ch_pkts (ptw_bti_rsp_slv m) = [] -> walking m (root_base m) 1 (m_pte m) false [] [] = m.
Proof.
  intros H1 H2 H3 H4. unfold walking.
  assert (forall A (ch : chan A), ch_pkts ch = [] -> Chan (ch_depth ch) [] = ch) as Hch
    by (intros A [d l]; simpl; by intros ->).
  rewrite !Hch, <- H2, <- H1 by done.
  repeat match goal with
  | |- context [@upd ?R ?T ?q ?i (fun _ => ?q0 m) ?r] =>
    let E := fresh in
    assert (@upd R T q i (fun _ => q0 m) m = m) as E by (clear; destruct m; reflexivity); rewrite E; clear E
  end. done.
Qed.

Lemma walking_next m root level pte pend reqs rsps root' level' :
  (walking m root level pte pend reqs rsps) <| root_base := root' |> <| m_level := level' |> =
  walking m root' level' pte pend reqs rsps.
Proof. vm_compute. reflexivity. Qed.

Lemma walking_io m root level pte pend reqs rsps reqs' rsps' :
  (walking m root level pte pend reqs rsps)
    <| ptw_bti_req_mst := Chan (ch_depth (ptw_bti_req_mst m)) reqs' |>
    <| ptw_bti_rsp_slv := Chan (ch_depth (ptw_bti_rsp_slv m)) rsps' |> =
  walking m root level pte pend reqs' rsps'.
Proof. vm_compute. reflexivity. Qed.

Lemma walking_recv m root level pte pend reqs rsps rsps' pend' :
  (walking m root level pte pend reqs rsps)
    <| ptw_bti_rsp_slv := Chan (ch_depth (ptw_bti_rsp_slv m)) rsps' |> <| pte_req_pending := pend' |> =
  walking m root level pte pend' reqs rsps'.
Proof. vm_compute. reflexivity. Qed.

Lemma walking_pte m root level pte pend reqs rsps pte' :
  (walking m root level pte pend reqs rsps) <| m_pte := pte' |> = walking m root level pte' pend reqs rsps.
Proof. vm_compute. reflexivity. Qed.

(** What the walker does with an entry it has read: a fault, a translation, or the next table. *)
Definition walk_next (x : xctx) (level pte va : Z) : option (Z * Z * Z) + (Z * Z) :=
  if negb (pte_ok pte) then inl None
  else if pte_leaf pte then inl (pa ← leaf_translate x level pte va; Some (level, pte, pa))
  else if negb (pte_pointer_ok pte) || (level =? 0) then inl None
  else inr (u32 (pte / 1024 * 4096), level - 1).

Lemma walk_next_leaf x level pte va level' pte' pa :
  walk_next x level pte va = inl (Some (level', pte', pa)) -> level' = level /\ pte' = pte.
Proof. unfold walk_next. repeat case_match; try done. destruct (leaf_translate _ _ _ _); by intros [= -> -> _]. Qed.

Lemma walk_next_level x level pte va root' level' : level = 0 \/ level = 1 ->
  walk_next x level pte va = inr (root', level') -> level = 1 /\ level' = 0.
Proof. unfold walk_next. intros Hl H. repeat case_match; simplify_eq. destruct Hl as [-> | ->]; [|done]. by rewrite orb_true_r in *. Qed.

Lemma wp_finish_translate s acc Q : m_level s = 0 \/ m_level s = 1 -> mmu_acc (m_is_inst s) (bq_cmd (m_req s)) = Some acc ->
  match walk_next (mmu_xctx s acc) (m_level s) (m_pte s) (m_va s) with
  | inl None => wp mmu_raise_fault Q s
  | inl (Some (_, _, pa)) =>
    wp (modify (fun mmu => mmu <| leaf_pa_base := pa |>);;
        mmu_tlb_fill;;
        modify (fun mmu => mmu <| m_req := m_req mmu <| bq_addr := pa |> |> <| final_req_pending := true |>)) Q s
  | inr (root, level) => Q tt (s <| root_base := root |> <| m_level := level |>)
  end -> wp mmu_finish_translate Q s.
Proof.
  intros Hl Hacc H. unfold mmu_finish_translate. apply wp_bind, wp_gets. unfold id.
  unfold walk_next in H. rewrite <- pte_valid_spec, <- pte_is_leaf_spec, <- pte_pointer_spec in H.
  destruct (mmu_pte_valid (m_pte s)); cbn [negb] in *; [|done].
  destruct (mmu_pte_is_leaf (m_pte s)); cbn [negb] in *.
  - apply (wp_leaf_check _ _ acc); [done|]. unfold leaf_translate in H.
    destruct (leaf_allows _ _); cbn [negb]; [|done].
    rewrite leaf_to_pa_spec by done. by destruct (leaf_pa _ _ _).
  - destruct (_ || _); [done|]. apply wp_modify. by rewrite next_table.
Qed.

Section walk.
  Context (m : mmu_t) (acc : mmu_access_t) (fr : bool) (l1 : list mmu_ost_ctx_t)
    (c : mmu_ost_ctx_t) (l2 : list mmu_ost_ctx_t) (Hm : walk_ready m acc fr l1 c l2).

Definition pte_req (root level : Z) : bti_req_if_t :=
  BtiReq MMU_PTE_TRANS_ID BTI_REQ_CMD_READ (pte_addr root level (m_va m)) BTI_REQ_SIZE_B4 0 0xf.

Lemma walk_raise_fault root level pte rsps :
  wp mmu_raise_fault (fun _ m' => walk_result m m' acc fr l1 c l2 None)
    (walking m root level pte false [] rsps).
Proof.
  destruct Hm. unfold mmu_raise_fault. apply wp_bind, wp_gets. unfold id, walking at 1 2. upd_proj.
  rewrite (fault_cause_spec _ _ _ w_acc0). apply wp_bind. change (of_option _) with (mret (acc_cause acc) : M mmu_t Z).
  apply wp_ret, wp_bind. unfold mmu_complete_current_fault. apply wp_bind, wp_gets. unfold id.
  apply wp_bind, wp_check; [done|]. unfold walking. upd_proj.
  unfold mmu_complete_fault, walk_result, mmu_ost, on_ost, mmu_tlb_entries in *.
  destruct (m_is_inst m); apply wp_bind, wp_on; upd_proj; (eapply wp_ostq_read; [done..|]);
    cbv zeta; apply wp_on; upd_proj; (eapply wp_ostq_write; [done..|]); intros o' Ho' _ _;
    apply wp_modify; upd_proj; destruct c; done.
Qed.

Lemma walk_send root level pte rsps : level = 0 \/ level = 1 ->
  mmu_send_pte_req (walking m root level pte false [] rsps) =
  Some (tt, walking m root level pte true [pte_req root level] rsps).
Proof.
  intros Hl. destruct Hm. unfold mmu_send_pte_req, mbind, M_bind, gets, id.
  assert (chan_full (ptw_bti_req_mst (walking m root level pte false [] rsps)) = false) as Hf.
  { apply Z.eqb_neq. unfold walking. upd_proj. unfold chan_num. simpl. lia. }
  rewrite Hf. change (pte_req_pending (walking m root level pte false [] rsps)) with false. cbn [orb].
  rewrite pte_addr_spec by done. rewrite on_chan_write by (unfold walking, chan_num; upd_proj; simpl; lia).
  done.
Qed.

Lemma walk_fill root level pte pa rsps : level = 0 \/ level = 1 ->
  wp (modify (fun mmu => mmu <| leaf_pa_base := pa |>);;
      mmu_tlb_fill;;
      modify (fun mmu => mmu <| m_req := m_req mmu <| bq_addr := pa |> |> <| final_req_pending := true |>))
    (fun _ m' => walk_result m m' acc fr l1 c l2 (Some (level, pte, pa)))
    (walking m root level pte false [] rsps).
Proof.
  intros Hl. destruct Hm. apply wp_bind, wp_modify, wp_bind. unfold mmu_tlb_fill. apply wp_bind, wp_gets.
  unfold id, tlb_new_entry, mmu_satp, walking. upd_proj.
  unfold walk_result, mmu_ost, mmu_tlb_entries, tlb_replace_idx.
  destruct (m_is_inst m) eqn:Ei; rewrite aset_insert by done; apply wp_bind;
    (eapply wp_intro; [reflexivity|]); apply wp_modify, wp_modify; upd_proj; rewrite ?Ei; done.
Qed.

Lemma walk_finish root level pte rsps : level = 0 \/ level = 1 ->
  wp mmu_finish_translate (fun _ m' =>
    match walk_next (mmu_xctx m acc) level pte (m_va m) with
    | inl r => walk_result m m' acc fr l1 c l2 r
    | inr (root', level') => m' = walking m root' level' pte false [] rsps
    end) (walking m root level pte false [] rsps).
Proof.
  intros Hl. apply (wp_finish_translate _ acc).
  - done.
  - apply (w_acc _ _ _ _ _ _ Hm).
  - set (s := walking m root level pte false [] rsps).
    assert (m_level s = level /\ m_pte s = pte /\ m_va s = m_va m /\ mmu_xctx s acc = mmu_xctx m acc)
      as (-> & -> & -> & ->) by done. unfold s. clear s.
    destruct (walk_next _ _ _ _) as [[[[lv p] pa]|]|[root' level']] eqn:E.
    + apply walk_next_leaf in E as [-> ->]. by apply walk_fill.
    + apply walk_raise_fault.
    + apply walking_next.
Qed.

Lemma walk_over m' r : walk_result m m' acc fr l1 c l2 r -> m_busy m' && negb (final_req_pending m') = false.
Proof. intros (_ & _ & _ & _ & H). destruct r as [[[level pte] pa]|]; [|by destruct H as [-> _]]. destruct H as (_ & -> & _). apply andb_false_r. Qed.

(** The answer to the request for an entry. *)
Definition pte_rsp (read : Z -> option Z) (root level : Z) : bti_rsp_if_t :=
  let w := read (pte_addr root level (m_va m)) in
  BtiRsp MMU_PTE_TRANS_ID (default 0 w) (bool_decide (is_Some w)).

Lemma walk_answer read root level pte :
  ptw_answer read (walking m root level pte true [pte_req root level] []) =
  Some (tt, walking m root level pte true [] [pte_rsp read root level]).
Proof.
  destruct Hm. unfold ptw_answer, mbind, M_bind, gets, id.
  change (chan_empty (ptw_bti_req_mst _)) with false. cbn [negb when].
  erewrite on_chan_read by reflexivity. rewrite on_chan_write by (unfold walking, chan_num; upd_proj; simpl; lia).
  match goal with |- Some (tt, upd ptw_bti_rsp_slv (fun _ => ?c) _) = _ =>
    change c with (Chan (ch_depth (ptw_bti_rsp_slv m)) [pte_rsp read root level]) end.
  change (ch_depth (ptw_bti_req_mst (walking _ _ _ _ _ _ _))) with (ch_depth (ptw_bti_req_mst m)).
  by rewrite walking_io.
Qed.

(** What the answer for an entry of the table at [root] leads to. *)
Definition walk_step (read : Z -> option Z) (root level : Z) : option (Z * Z * Z) + (Z * Z) :=
  match read (pte_addr root level (m_va m)) with
  | Some w => walk_next (mmu_xctx m acc) level w (m_va m)
  | None => inl None
  end.

Lemma walk_recv read root level pte :
  level = 0 \/ level = 1 ->
  wp mmu_recv_pte_rsp (fun _ m' =>
    match walk_step read root level with
    | inl r => walk_result m m' acc fr l1 c l2 r
    | inr (root', level') => exists pte', m' = walking m root' level' pte' false [] []
    end) (walking m root level pte true [] [pte_rsp read root level]).
Proof.
  intros Hl. unfold mmu_recv_pte_rsp. apply wp_bind, wp_gets. unfold id.
  change (negb _ || _) with false. cbv iota. apply wp_bind. eapply wp_on_read; [reflexivity|].
  apply wp_bind, wp_check; [done|]. apply wp_bind, wp_modify.
  change (ch_depth (ptw_bti_rsp_slv (walking _ _ _ _ _ _ _))) with (ch_depth (ptw_bti_rsp_slv m)).
  rewrite walking_recv. unfold pte_rsp, walk_step. cbn [bp_ok bp_data].
  destruct (read _) as [w|] eqn:E; simpl; [|by apply walk_raise_fault].
  apply wp_bind, wp_modify. rewrite walking_pte.
  eapply wp_mono; [by apply walk_finish|]. intros ? m' H. simpl in H.
  destruct (walk_next _ _ _ _) as [|[root' level']]; [done|]. by eauto.
Qed.

(** A cycle of the walker, once a request is answered. *)
Lemma walk_cycle read root level pte :
  level = 0 \/ level = 1 ->
  wp (mmu_proc_walk;; ptw_answer read) (fun _ m' =>
    match walk_step read root level with
    | inl r => walk_result m m' acc fr l1 c l2 r
    | inr (root', level') =>
      exists pte', m' = walking m root' level' pte' true [] [pte_rsp read root' level']
    end) (walking m root level pte true [] [pte_rsp read root level]).
Proof.
  intros Hl. pose proof Hm as [Hb _ Hq Hp _ _ _ _ _ _ _ _ _].
  apply wp_bind. unfold mmu_proc_walk. apply wp_bind, wp_gets. unfold id.
  change (m_busy (walking _ _ _ _ _ _ _)) with (m_busy m).
  change (final_req_pending (walking _ _ _ _ _ _ _)) with (final_req_pending m).
  change (final_rsp_pending (walking _ _ _ _ _ _ _)) with (final_rsp_pending m).
  rewrite Hb, Hq, Hp. cbn [negb]. apply wp_bind. eapply wp_mono; [by apply walk_recv|]. intros ? m' Hm'.
  simpl in Hm'. apply wp_bind, wp_gets. unfold id.
  destruct (walk_step read root level) as [r|[root' level']] eqn:E.
  - rewrite (walk_over _ _ Hm'). apply wp_ret. unfold ptw_answer. apply wp_bind, wp_gets. unfold id.
    pose proof Hm' as (_ & _ & _ & He & _). apply chan_empty_spec in He. rewrite He. by apply wp_ret.
  - destruct Hm' as [pte' ->]. change (m_busy (walking _ _ _ _ _ _ _)) with (m_busy m).
    change (final_req_pending (walking _ _ _ _ _ _ _)) with (final_req_pending m). rewrite Hb, Hq.
    unfold when. cbn [negb andb]. eapply wp_intro; [apply walk_send|].
    { unfold walk_step in E. destruct (read _); [|done]. apply walk_next_level in E as [_ ->]; auto. }
    eapply wp_intro; [apply walk_answer|]. by eauto.
Qed.

Lemma walk_first read :
  (mmu_proc_walk;; ptw_answer read) m =
  Some (tt, walking m (root_base m) 1 (m_pte m) true [] [pte_rsp read (root_base m) 1]).
Proof.
  pose proof Hm as [Hb Hpr Hq Hp _ Hl _ [Hrq _] [Hrs _] _ _ _ _].
  rewrite <- (walking_start m) at 1 by done. unfold mbind, M_bind at 1. unfold mmu_proc_walk.
  set (s := walking m (root_base m) 1 (m_pte m) false [] []).
  assert (m_busy s = true /\ final_req_pending s = false /\ final_rsp_pending s = false /\ pte_req_pending s = false)
    as (E1 & E2 & E3 & E4) by done.
  assert (mmu_recv_pte_rsp s = Some (tt, s)) as E5.
  { unfold mmu_recv_pte_rsp, mbind, M_bind, gets, id. by rewrite E4. }
  unfold mbind, M_bind, gets, id. rewrite E1, E2, E3. cbn [negb]. rewrite E5, E1, E2. cbn [negb andb when].
  unfold s. rewrite walk_send by auto. apply walk_answer.
Qed.

End walk.

(** The leaf, the address and the permission check of an access. *)
Definition sv32_walk (read : Z -> option Z) (root : Z) (x : xctx) (va : Z) : option (Z * Z * Z) :=
  '(level, pte) ← sv32_leaf read root va;
  pa ← leaf_translate x level pte va;
  Some (level, pte, pa).

(** The search for the leaf from a level on. *)
Definition leaf_from (read : Z -> option Z) (root level va : Z) : option (Z * Z) :=
  if level =? 1 then sv32_leaf read root va
  else
    pte ← read (pte_addr root 0 va);
    if negb (pte_ok pte) then None else if pte_leaf pte then Some (0, pte) else None.

(** One step of the walker is one step of the search. *)
Lemma leaf_from_step read root level va x : level = 0 \/ level = 1 ->
  leaf_from read root level va =
  match read (pte_addr root level va) with
  | None => None
  | Some w =>
    match walk_next x level w va with
    | inr (root', level') => leaf_from read root' level' va
    | inl _ => if pte_ok w && pte_leaf w then Some (level, w) else None
    end
  end.
Proof.
  unfold leaf_from, sv32_leaf, walk_next. intros [-> | ->]; zconst; destruct (read _) as [w|]; try done; simpl;
    destruct (pte_ok w), (pte_leaf w); try done; simpl.
  - by rewrite orb_true_r.
  - by destruct (pte_pointer_ok w).
Qed.

Lemma walk_next_inl x level pte va r : level = 0 \/ level = 1 -> walk_next x level pte va = inl r ->
  r = if pte_ok pte && pte_leaf pte then (pa ← leaf_translate x level pte va; Some (level, pte, pa)) else None.
Proof. unfold walk_next. intros _. destruct (pte_ok pte), (pte_leaf pte); simpl; try (by intros [= <-]). by case_match; intros [= <-]. Qed.

Lemma walk_step_spec m acc read root level r : level = 0 \/ level = 1 ->
  walk_step m acc read root level = inl r ->
  r = ('(level, pte) ← leaf_from read root level (m_va m);
       pa ← leaf_translate (mmu_xctx m acc) level pte (m_va m); Some (level, pte, pa)).
Proof.
  intros Hl. rewrite (leaf_from_step _ _ _ _ (mmu_xctx m acc)) by done. unfold walk_step.
  destruct (read _) as [w|]; [|by intros [= <-]]. intros H. rewrite H. apply walk_next_inl in H; [|done].
  rewrite H. by destruct (pte_ok w && pte_leaf w).
Qed.

Lemma walk_step_next m acc read root level root' level' : level = 0 \/ level = 1 ->
  walk_step m acc read root level = inr (root', level') ->
  level = 1 /\ level' = 0 /\ leaf_from read root level (m_va m) = leaf_from read root' level' (m_va m).
Proof.
  intros Hl. rewrite (leaf_from_step read root _ _ (mmu_xctx m acc)) by done. unfold walk_step.
  destruct (read _) as [w|]; [|done]. intros H. rewrite H. by apply walk_next_level in H as [-> ->].
Qed.

Lemma mmu_walk_done m m' acc fr l1 c l2 r read n : walk_result m m' acc fr l1 c l2 r ->
  wp (mmu_walk read n) (fun _ m'' => walk_result m m'' acc fr l1 c l2 r) m'.
Proof.
  intros H. destruct n; [by apply wp_ret|]. simpl. apply wp_bind, wp_gets. unfold id.
  rewrite (walk_over m acc fr l1 c l2 m' r H). by apply wp_ret.
Qed.

Lemma walk_unfold read n m Q : m_busy m && negb (final_req_pending m) = true ->
  wp (mmu_proc_walk;; ptw_answer read) (fun _ m' => wp (mmu_walk read n) Q m') m ->
  wp (mmu_walk read (S n)) Q m.
Proof.
  intros H Hw. simpl. apply wp_bind, wp_gets. unfold id. rewrite H. unfold when.
  unfold wp, mbind, M_bind in *. destruct (mmu_proc_walk m) as [[[] s]|]; [|done].
  by destruct (ptw_answer read s) as [[[] s']|].
Qed.

(** C12: A walk computes Sv32 translation.  From the moment the walker takes a request that missed
    the TLB, with the tables in a memory [read] that answers each request for an entry, it ends
    within three cycles, without failed checks, in the result of the specification: if the
    access translates, the request is ready to go out with the physical address, and the TLB of
    the side has the leaf in the place to replace; if not (an invalid or misaligned entry, a
    missing permission, accessed or dirty bits that are clear, or an error of the memory), the
    entry of the request has the page fault of the access with the address and privilege of
    the request, and the TLB is as before. *)
Theorem mmu_walk_correct read m acc fr l1 c l2 : walk_ready m acc fr l1 c l2 ->
  wp (mmu_walk read 3) (fun _ m' =>
    walk_result m m' acc fr l1 c l2 (sv32_walk read (root_base m) (mmu_xctx m acc) (m_va m))) m.
Proof.
  intros Hm. pose proof Hm as [Hb _ Hq _ _ _ _ _ _ _ _ _ _].
  apply walk_unfold; [by rewrite Hb, Hq|]. eapply wp_intro; [by apply (walk_first m acc fr l1 c l2 Hm)|].
  apply walk_unfold; [by unfold walking; upd_proj; rewrite Hb, Hq|].
  eapply wp_mono; [apply (walk_cycle m acc fr l1 c l2 Hm); auto|]. intros ? m1 H1. simpl in H1.
  change (sv32_walk read (root_base m) (mmu_xctx m acc) (m_va m)) with
    ('(level, pte) ← leaf_from read (root_base m) 1 (m_va m);
     pa ← leaf_translate (mmu_xctx m acc) level pte (m_va m); Some (level, pte, pa)).
  destruct (walk_step m acc read (root_base m) 1) as [r|[root' level']] eqn:E1.
  - rewrite <- (walk_step_spec _ _ _ _ _ _ (or_intror eq_refl) E1). by apply mmu_walk_done.
  - destruct (walk_step_next _ _ _ _ _ _ _ (or_intror eq_refl) E1) as (_ & -> & ->).
    destruct H1 as [pte' ->]. apply walk_unfold; [by unfold walking; upd_proj; rewrite Hb, Hq|].
    eapply wp_mono; [apply (walk_cycle m acc fr l1 c l2 Hm); auto|]. intros ? m2 H2. simpl in H2.
    destruct (walk_step m acc read root' 0) as [r|[root'' level'']] eqn:E2.
    + rewrite <- (walk_step_spec _ _ _ _ _ _ (or_introl eq_refl) E2). by apply wp_ret.
    + by destruct (walk_step_next _ _ _ _ _ _ _ (or_introl eq_refl) E2) as (? & _).
Qed.

(** ** An example *)

(** A unit in supervisor mode, with tables at page 1. *)
Definition mmu_example : mmu_t :=
  let ost := default (Ostq [] 0 0 0 0 0 0) (ostq_construct 1 2) in
  let tlb_entry := TlbEntry false 0 0 0 0 false false 0 0 0 in
  Mmu (Chan 4 []) (Chan 4 []) (Chan 4 []) (Chan 4 []) (Chan 4 []) (Chan 4 []) (Chan 4 []) (Chan 4 [])
    (Chan 4 []) (Chan 4 []) (Chan 4 []) (Chan 4 []) (Chan 4 []) (ExuStateIf 1 0 0 false false 0)
    (CsrMmuState 0x80000001 0) (Chan 2 []) (Chan 2 []) ost ost false false 0 false false bti_req_zero
    0 false false 0 0 0 0 0 0 false false false false false false 0 0 (replicate 64 tlb_entry)
    (replicate 32 tlb_entry) (MmuPerf 0 0 0 0 0 0 0 0).

(** Tables with one superpage at address 0, readable and executable, at [ppn1] of the physical
    addresses. *)
Definition one_superpage (ppn1 : Z) : Z -> option Z := fun a =>
  if a =? 0x1000 then Some (Z.lor (Z.shiftl ppn1 20) 0x4b) else Some 0.

Definition fetch_req (va : Z) : bti_req_if_t := BtiReq 1 BTI_REQ_CMD_READ va BTI_REQ_SIZE_B4 0 0.
Definition fetch_ctx (va : Z) : mmu_req_ctx_t := MmuReqCtx (fetch_req va) 1 false false va.


Lemma mmu_example_ost : exists o : ostq_t mmu_ost_ctx_t, ostq_construct 1 2 = Some o /\ ost_live o false [].
Proof.
  destruct (ostq_construct 1 2) as [o|] eqn:E; [|done]. exists o. split; [done|].
  destruct (ostq_construct_ok (A := mmu_ost_ctx_t) 1 2 o E ltac:(done) ltac:(done)) as [Hw Ha].
  split; [done|by rewrite (abs_depth _ _ Ha)|by rewrite (abs_freed _ _ Ha)|by rewrite Ha].
Qed.

(** The walk of a fetch. *)
Definition fetch_entry : mmu_ost_ctx_t :=
  MmuOstCtx true (fetch_req 0x40) false false false hart_expt_zero bti_rsp_zero.
Definition walk_example : mmu_t :=
  default mmu_example (snd <$> (on i_ost (ostq_alloc fetch_entry);;
    mmu_start_req_ctx true (fetch_ctx 0x40) 0) mmu_example).

Lemma walk_example_ready : walk_ready walk_example MMU_ACCESS_INST false [] fetch_entry [].
Proof.
  destruct mmu_example_ost as (o & Eo & Ho).
  assert (wp (ostq_alloc fetch_entry) (fun r o' => r = Some 0 /\ i_ost walk_example = o' /\
    ost_live o' false [fetch_entry] /\ slot_at o' 0 [] fetch_entry []) o) as Hw.
  { assert (ostq_full o = false) as Hf by (injection Eo as <-; reflexivity).
    pose proof (wp_ostq_alloc o false [] fetch_entry (fun r o' => exists slot, r = Some slot /\
      ost_live o' false [fetch_entry] /\ slot_at o' slot [] fetch_entry []) Ho Hf) as H.
    injection Eo as <-. unfold wp in *. vm_compute ostq_alloc in *.
    destruct H as (slot & [= <-] & Hl & Hs); [eauto|]. split_and!; [done|vm_compute; reflexivity|done..]. }
  destruct (wp_elim _ _ _ Hw) as (_ & o' & _ & _ & Eo' & Hl & Hs).
  assert (mmu_ost walk_example (m_is_inst walk_example) = o') as E by (rewrite <- Eo'; vm_compute; reflexivity).
  split; try (vm_compute; done).
  - rewrite E. exact Hl.
Qed.

Lemma mmu_walk_correct_witness :
  walk_ready walk_example MMU_ACCESS_INST false [] fetch_entry [] /\
  wp (mmu_walk (one_superpage 0x100) 3) (fun _ m' => bq_addr (m_req m') = 0x40000040 /\ final_req_pending m' = true)
    walk_example.
Proof.
  split; [exact walk_example_ready|].
  eapply wp_mono; [exact (mmu_walk_correct (one_superpage 0x100) _ _ _ _ _ _ walk_example_ready)|].
  intros [] m' (_ & _ & _ & _ & H).
  assert (sv32_walk (one_superpage 0x100) (root_base walk_example) (mmu_xctx walk_example MMU_ACCESS_INST)
    (m_va walk_example) = Some (1, 0x1000004b, 0x40000040)) as E by (vm_compute; reflexivity).
  rewrite E in H. destruct H as (_ & Hf & _ & _ & Hr & _). rewrite Hr. split; [reflexivity|exact Hf].
Defined.
