(* ===== verification/MmuTlb.v ===== *)
(** * The TLB and the page tables

    What the TLBs of Mmu.v hold agrees with the page tables, whatever the other units send and
    whenever they answer, and a request that hits is translated as the tables say. *)

From stdpp Require Import base numbers list relations.
From Stdlib Require Import ZArith Lia.
From S2P Require Import Prelude Fifo Ost OstScan Isa ExuState CsrFile Csr Bti Mmu MmuSpec.

(** ** Coherence *)

Definition root_of (ppn : Z) : Z := u32 (Z.shiftl ppn MMU_PGSHIFT).

(** The entry gives the leaf and the address of each address of its page, in the tables it was
    filled from. *)
Definition entry_ok (read : Z -> option Z) (e : mmu_tlb_entry_t) : Prop :=
  te_vld e = true -> forall va, mmu_tlb_tag va (te_level e) = te_tag e ->
    sv32_leaf read (root_of (te_satp_ppn e)) va = Some (te_level e, te_pte e) /\
    leaf_pa (te_level e) (te_pte e) va =
      Some (Z.lor (te_pa_base e) (Z.land va (mmu_tlb_page_mask (te_level e)))).

(** A walk is in progress. *)
Definition walks (m : mmu_t) : bool := m_busy m && negb (final_req_pending m || final_rsp_pending m).

(** The TLBs agree with the tables, and so does what the walker has found so far. *)
Record tlb_inv (read : Z -> option Z) (m : mmu_t) : Prop := {
  ti_itlb : Forall (entry_ok read) (itlb m);
  ti_dtlb : Forall (entry_ok read) (dtlb m);
  ti_pend : pte_req_pending m = true -> walks m = true;
  ti_idle : pte_req_pending m = false -> ch_pkts (ptw_bti_req_mst m) = [] /\ ch_pkts (ptw_bti_rsp_slv m) = [];
  ti_one : (length (ch_pkts (ptw_bti_req_mst m)) + length (ch_pkts (ptw_bti_rsp_slv m)) <= 1)%nat;
  ti_req : Forall (fun q => bq_addr q = mmu_pte_addr m) (ch_pkts (ptw_bti_req_mst m));
  ti_rsp : Forall (fun r => bp_ok r = true -> read (mmu_pte_addr m) = Some (bp_data r))
             (ch_pkts (ptw_bti_rsp_slv m));
  ti_walk : walks m = true -> (m_level m = 0 \/ m_level m = 1) /\
    sv32_leaf read (root_of (satp_ppn (mmu_satp m))) (m_va m) =
    leaf_from read (root_base m) (m_level m) (m_va m)
}.

(** ** Operations that leave the walk and the TLBs alone *)

Lemma wlp_on_frame {S T A} (proj : S -> T) `{!Setter proj} (m : M T A) (Q : A -> S -> Prop) s :
  (forall a t, Q a (upd proj (fun _ => t) s)) -> wlp (on proj m) Q s.
Proof. intros H. apply wlp_on. unfold wlp. destruct (m (proj s)) as [[a t]|]; auto. Qed.

(** Takes the computation apart, and evaluates the fields of the invariant at its end. *)
Ltac frame_step :=
  lazymatch goal with
  | |- wlp (mbind _ _) _ _ => apply wlp_bind
  | |- wlp (gets _) _ _ => apply wlp_gets; unfold id
  | |- wlp (modify _) _ _ => apply wlp_modify
  | |- wlp (mret _) _ _ => apply wlp_ret
  | |- wlp (DBG_CHECK _) _ _ => apply wlp_check; intros _
  | |- wlp (of_option _) _ _ => apply wlp_of_option; intros ? _
  | |- wlp (when _ _) _ _ => apply wlp_when; intros _
  | |- wlp (on _ _) _ _ => apply wlp_on_frame; intros ? ?
  | |- wlp (if ?b then _ else _) _ _ => destruct b
  | |- wlp (match ?o with _ => _ end) _ _ => first [destruct o as [[? ?]|] | destruct o]
  end.
Ltac frame := repeat frame_step.

Section frame.
  Context (read : Z -> option Z).
  Implicit Types (m : mmu_t).

(** The invariant depends on these fields only. *)
Definition tlb_view m := (itlb m, dtlb m, m_csr_state_i m, m_busy m, pte_req_pending m, final_req_pending m,
  final_rsp_pending m, ptw_bti_req_mst m, ptw_bti_rsp_slv m, root_base m, m_level m, m_va m).

Lemma tlb_inv_view m m' : tlb_view m' = tlb_view m -> tlb_inv read m -> tlb_inv read m'.
Proof.
  unfold tlb_view. intros E [H1 H2 H3 H4 H5 H6 H7 H8]. injection E as E1 E2 E3 E4 E5 E6 E7 E8 E9 E10 E11 E12.
  unfold walks, mmu_pte_addr, mmu_satp in *.
  split; unfold walks, mmu_pte_addr, mmu_satp; rewrite ?E1, ?E2, ?E3, ?E4, ?E5, ?E6, ?E7, ?E8, ?E9, ?E10, ?E11, ?E12;
    assumption.
Qed.

(** The operation leaves the view alone. *)
Definition frames {A} (op : M mmu_t A) : Prop := forall m, wlp op (fun _ m' => tlb_view m' = tlb_view m) m.

Lemma frames_inv {A} (op : M mmu_t A) m : frames op -> tlb_inv read m -> wlp op (fun _ m' => tlb_inv read m') m.
Proof. intros Hf Hi. eapply wlp_mono; [apply Hf|]. intros a m' E. by apply (tlb_inv_view m). Qed.

Lemma frames_bind {A B} (op : M mmu_t A) (f : A -> M mmu_t B) :
  frames op -> (forall a, frames (f a)) -> frames (op ≫= f).
Proof.
  intros H1 H2 m. apply wlp_bind. eapply wlp_mono; [apply H1|]. intros a m' E. rewrite <- E. apply H2.
Qed.

Lemma frames_ost b {A} (op : M (ostq_t mmu_ost_ctx_t) A) : frames (on_ost b op).
Proof. intros m. unfold on_ost. destruct b; frame; unfold tlb_view; upd_proj; reflexivity. Qed.
Lemma frames_pa_req b {A} (op : M (chan bti_req_if_t) A) : frames (on_pa_req b op).
Proof. intros m. unfold on_pa_req. destruct b; frame; unfold tlb_view; upd_proj; reflexivity. Qed.
Lemma frames_pa_rsp b {A} (op : M (chan bti_rsp_if_t) A) : frames (on_pa_rsp b op).
Proof. intros m. unfold on_pa_rsp. destruct b; frame; unfold tlb_view; upd_proj; reflexivity. Qed.
Lemma frames_va_rsp b {A} (op : M (chan bti_rsp_if_t) A) : frames (on_va_rsp b op).
Proof. intros m. unfold on_va_rsp. destruct b; frame; unfold tlb_view; upd_proj; reflexivity. Qed.
Lemma frames_va_fifo b {A} (op : M (chan mmu_req_ctx_t) A) : frames (on_va_req_fifo b op).
Proof. intros m. unfold on_va_req_fifo. destruct b; frame; unfold tlb_view; upd_proj; reflexivity. Qed.
Lemma frames_expt b {A} (op : M (chan hart_expt_if_t) A) : frames (on_expt b op).
Proof. intros m. unfold on_expt. destruct b; frame; unfold tlb_view; upd_proj; reflexivity. Qed.
Lemma frames_ret {A} (a : A) : frames (mret a).
Proof. intros m. by apply wlp_ret. Qed.
Lemma frames_gets {A} (f : mmu_t -> A) : frames (gets f).
Proof. intros m. by apply wlp_gets. Qed.
Lemma frames_check b : frames (DBG_CHECK b).
Proof. intros m. by apply wlp_check. Qed.
Lemma frames_of_option {A} (o : option A) : frames (of_option o).
Proof. intros m. by apply wlp_of_option. Qed.
Lemma frames_perf f : frames (modify (fun m => m <| m_perf := f m |>)).
Proof. intros m. by apply wlp_modify. Qed.

End frame.

Create HintDb frames.
#[export] Hint Resolve frames_ost frames_pa_req frames_pa_rsp frames_va_rsp frames_va_fifo frames_expt frames_ret
  frames_gets frames_check frames_of_option frames_perf : frames.
#[export] Hint Extern 1 (frames (mbind _ _)) => (apply frames_bind; [|intros ?]) : frames.
#[export] Hint Extern 1 (frames (when ?b _)) => (unfold when; destruct b) : frames.
#[export] Hint Extern 1 (frames (if ?b then _ else _)) => destruct b : frames.
#[export] Hint Extern 1 (frames (match ?o with Some _ => _ | None => _ end)) => destruct o as [[? ?]|] : frames.

(** Splits a computation into the operations of the database. *)
Ltac frames_auto := cbv zeta; auto 40 with frames nocore.

Lemma frames_complete_normal b slot rsp : frames (mmu_complete_normal b slot rsp).
Proof. unfold mmu_complete_normal. frames_auto. Qed.
Lemma frames_complete_fault b slot cause priv pc tval : frames (mmu_complete_fault b slot cause priv pc tval).
Proof. unfold mmu_complete_fault. frames_auto. Qed.
#[export] Hint Resolve frames_complete_normal frames_complete_fault : frames.

Lemma frames_send_pa_req b req : frames (mmu_send_pa_req b req).
Proof. unfold mmu_send_pa_req. frames_auto. Qed.
Lemma frames_count_ost_full b : frames (mmu_count_ost_full b).
Proof. unfold mmu_count_ost_full. frames_auto. Qed.
#[export] Hint Resolve frames_send_pa_req frames_count_ost_full : frames.

Lemma frames_alloc b req : frames (mmu_alloc_ost_req b req).
Proof. unfold mmu_alloc_ost_req. frames_auto. Qed.
Lemma frames_proc_pa_rsp b : frames (mmu_proc_pa_rsp b).
Proof. unfold mmu_proc_pa_rsp, mmu_find_pa_rsp_slot. frames_auto. Qed.
Lemma frames_send_ready_rsp b : frames (mmu_send_ready_rsp b).
Proof. unfold mmu_send_ready_rsp. frames_auto. Qed.
#[export] Hint Resolve frames_alloc frames_proc_pa_rsp frames_send_ready_rsp : frames.

Lemma frames_capture : frames mmu_capture_req.
Proof. intros m. unfold mmu_capture_req. frame; unfold tlb_view; upd_proj; reflexivity. Qed.
Lemma frames_complete_current_fault cause : frames (mmu_complete_current_fault cause).
Proof. unfold mmu_complete_current_fault. frames_auto. Qed.
#[export] Hint Resolve frames_capture frames_complete_current_fault : frames.

(** ** Filling *)

(** Addresses of one page have the same leaf. *)
Lemma sv32_leaf_page read root va va' level pte : sv32_leaf read root va = Some (level, pte) ->
  va / page_size level = va' / page_size level -> sv32_leaf read root va' = Some (level, pte).
Proof.
  unfold sv32_leaf. intros H Hva.
  assert (pte_addr root 1 va' = pte_addr root 1 va) as ->.
  { unfold pte_addr, vpn. zconst. do 3 f_equal. unfold page_size in Hva.
    destruct (level =? 1); [congruence|]. change 4194304 with (4096 * 1024). rewrite <- !Z.div_div by lia. congruence. }
  destruct (read _) as [pte1|]; [|done]. simpl in *.
  destruct (pte_ok pte1); [|done]. simpl in *. destruct (pte_leaf pte1); [done|]. simpl in *.
  destruct (pte_pointer_ok pte1); [|done]. simpl in *.
  destruct (Z.eqb_spec level 1) as [->|Hl].
  { destruct (read _) as [pte0|]; [|done]. simpl in H. by repeat case_match. }
  unfold page_size in Hva. rewrite (proj2 (Z.eqb_neq level 1)) in Hva by done.
  unfold pte_addr, vpn in *. revert H. zconst. by rewrite Hva.
Qed.

Lemma new_entry_ok read m level pte pa :
  sv32_leaf read (root_of (satp_ppn (mmu_satp m))) (m_va m) = Some (level, pte) ->
  leaf_pa level pte (m_va m) = Some pa -> entry_ok read (tlb_entry_of m level pte pa).
Proof.
  intros Hl Hp _ va Htag. unfold tlb_entry_of in *. cbn [te_level te_tag te_satp_ppn te_pte te_pa_base] in *.
  rewrite !tlb_tag_spec in Htag. rewrite tlb_mask_spec. split.
  - by apply (sv32_leaf_page _ _ (m_va m)).
  - symmetry. by apply tlb_pa_base with (m_va m).
Qed.

Section walk_inv.
  Context (read : Z -> option Z).
  Implicit Types (m : mmu_t).

(** After the answer to the last request: nothing is in flight. *)
Record quiet m : Prop := {
  qt_itlb : Forall (entry_ok read) (itlb m);
  qt_dtlb : Forall (entry_ok read) (dtlb m);
  qt_pend : pte_req_pending m = false;
  qt_req : ch_pkts (ptw_bti_req_mst m) = [];
  qt_rsp : ch_pkts (ptw_bti_rsp_slv m) = []
}.

(** With nothing in flight, only the state of the walk matters. *)
Lemma quiet_inv m : quiet m -> (walks m = true -> (m_level m = 0 \/ m_level m = 1) /\
    sv32_leaf read (root_of (satp_ppn (mmu_satp m))) (m_va m) =
    leaf_from read (root_base m) (m_level m) (m_va m)) -> tlb_inv read m.
Proof.
  intros [H1 H2 H3 H4 H5] Hw. split; try done.
  - by rewrite H3.
  - rewrite H4, H5. simpl. lia.
  - by rewrite H4.
  - by rewrite H5.
Qed.

Lemma quiet_view m m' : tlb_view m' = tlb_view m -> quiet m -> quiet m'.
Proof.
  unfold tlb_view. intros E [H1 H2 H3 H4 H5]. injection E as E1 E2 _ _ E5 _ _ E8 E9 _ _ _.
  split; rewrite ?E1, ?E2, ?E5, ?E8, ?E9; assumption.
Qed.

Lemma frames_quiet {A} (op : M mmu_t A) m : frames op -> quiet m ->
  wlp op (fun _ m' => quiet m' /\ tlb_view m' = tlb_view m) m.
Proof. intros Hf Hi. eapply wlp_mono; [apply Hf|]. intros a m' E. split; [|done]. by apply (quiet_view m). Qed.

Lemma inv_raise_fault m : quiet m -> wlp mmu_raise_fault (fun _ m' => tlb_inv read m') m.
Proof.
  intros Hq. unfold mmu_raise_fault. apply wlp_bind, wlp_gets, wlp_bind. unfold id. apply wlp_of_option. intros cause _.
  apply wlp_bind. eapply wlp_mono; [apply frames_quiet; [auto with frames|done]|]. intros [] m' [[] _].
  apply wlp_modify. apply quiet_inv; [|by unfold walks; upd_proj].
  split; upd_proj; done.
Qed.

Lemma inv_tlb_fill m : quiet m -> entry_ok read (tlb_new_entry m) ->
  wlp mmu_tlb_fill (fun _ m' => quiet m') m.
Proof.
  intros [] He. unfold mmu_tlb_fill. apply wlp_bind, wlp_gets. unfold id. cbv zeta.
  destruct (m_is_inst m); apply wlp_bind, wlp_of_option; intros l [_ ->]%aset_Some; apply wlp_modify;
    split; upd_proj; try done; by apply Forall_insert.
Qed.

Lemma inv_finish_translate m : quiet m -> m_level m = 0 \/ m_level m = 1 ->
  read (mmu_pte_addr m) = Some (m_pte m) -> walks m = true ->
  sv32_leaf read (root_of (satp_ppn (mmu_satp m))) (m_va m) = leaf_from read (root_base m) (m_level m) (m_va m) ->
  wlp mmu_finish_translate (fun _ m' => tlb_inv read m') m.
Proof.
  intros Hq Hl Hr Hwalk Hleaf. rewrite pte_addr_spec in Hr by done.
  rewrite (leaf_from_step _ _ _ _ (Xctx 0 false false MMU_ACCESS_INST)), Hr in Hleaf by done.
  unfold walk_next in Hleaf. rewrite <- pte_valid_spec, <- pte_is_leaf_spec, <- pte_pointer_spec in Hleaf.
  unfold mmu_finish_translate. apply wlp_bind, wlp_gets. unfold id.
  destruct (mmu_pte_valid (m_pte m)); cbn [negb andb] in *; [|by apply inv_raise_fault].
  destruct (mmu_pte_is_leaf (m_pte m)); cbn [negb] in *.
  - apply wlp_bind, wlp_of_option. intros p _. apply wlp_bind.
    apply (wlp_mono _ (fun _ m' => m' = m)); [destruct p; by frame|]. intros ok ? ->.
    destruct ok; [cbn [negb]|by apply inv_raise_fault].
    rewrite leaf_to_pa_spec by done. destruct (leaf_pa _ _ _) as [pa|] eqn:Hpa; [|by apply inv_raise_fault].
    apply wlp_bind, wlp_modify, wlp_bind. eapply wlp_mono; [apply inv_tlb_fill|].
    + destruct Hq. split; by upd_proj.
    + exact (new_entry_ok read m _ _ _ Hleaf Hpa).
    + intros [] m' []. apply wlp_modify. apply quiet_inv; [split; by upd_proj|].
      unfold walks. upd_proj. by rewrite andb_false_r.
  - destruct (_ || _) eqn:Ep; [by apply inv_raise_fault|]. apply wlp_modify. destruct Hq.
    apply quiet_inv; [split; by upd_proj|]. intros _. unfold mmu_satp in *. upd_proj. rewrite next_table.
    apply orb_false_iff in Ep as [_ Ep%Z.eqb_neq]. destruct Hl as [Hl|Hl]; [done|]. rewrite Hl in *. by split; [left|].
Qed.

Lemma inv_recv_pte_rsp m : tlb_inv read m -> walks m = true ->
  wlp mmu_recv_pte_rsp (fun _ m' => tlb_inv read m') m.
Proof.
  intros Hi Hwk. unfold mmu_recv_pte_rsp. apply wlp_bind, wlp_gets. unfold id.
  destruct (negb _ || _) eqn:E; [by apply wlp_ret|]. apply orb_false_iff in E as [Ep _].
  apply wlp_bind, wlp_on_read. intros rsp r Er. apply wlp_bind, wlp_check. intros _. apply wlp_bind, wlp_modify.
  destruct Hi as [H1 H2 H3 H4 H5 H6 H7 H8]. destruct (H8 Hwk) as [Hl Hleaf].
  rewrite Er in H5, H7. apply Forall_cons in H7 as [Hrsp _].
  assert (ch_pkts (ptw_bti_req_mst m) = [] /\ r = []) as [Hreq ->].
  { destruct (ch_pkts (ptw_bti_req_mst m)), r; simpl in H5; try lia. done. }
  assert (quiet (m <| ptw_bti_rsp_slv := Chan (ch_depth (ptw_bti_rsp_slv m)) [] |> <| pte_req_pending := false |>))
    as Hq by (split; by upd_proj).
  destruct (bp_ok rsp) eqn:Eok; cbn [negb]; [|by apply inv_raise_fault].
  apply wlp_bind, wlp_modify. apply inv_finish_translate; upd_proj; try done.
  unfold mmu_pte_addr in *. upd_proj. auto.
Qed.

Lemma recv_pte_no_final m : final_rsp_pending m = false ->
  wlp mmu_recv_pte_rsp (fun _ m' => final_rsp_pending m' = false) m.
Proof.
  intros H. assert (forall m', final_rsp_pending m' = false ->
    wlp mmu_raise_fault (fun _ m'' => final_rsp_pending m'' = false) m') as Hf.
  { intros m' H'. unfold mmu_raise_fault. frame. eapply wlp_mono; [apply frames_complete_current_fault|].
    intros ? ? _. frame. by upd_proj. }
  unfold mmu_recv_pte_rsp, mmu_finish_translate, mmu_tlb_fill.
  repeat first [frame_step | apply Hf]; upd_proj; done.
Qed.

Lemma inv_send_pte_req m : tlb_inv read m -> walks m = true ->
  wlp mmu_send_pte_req (fun _ m' => tlb_inv read m') m.
Proof.
  intros Hi Hwk. unfold mmu_send_pte_req. apply wlp_bind, wlp_gets. unfold id.
  destruct (_ || _) eqn:E; [by apply wlp_ret|]. apply orb_false_iff in E as [Ep _]. cbv zeta.
  apply wlp_bind, wlp_on_write, wlp_modify. destruct Hi as [H1 H2 H3 H4 H5 H6 H7 H8].
  destruct (H4 Ep) as [Hreq Hrsp]. split; unfold walks, mmu_pte_addr, chan_snoc in *; upd_proj; try done.
  - rewrite Hreq, Hrsp. simpl. lia.
  - rewrite Hreq. by constructor.
Qed.

Lemma inv_send_final_req m : tlb_inv read m -> final_req_pending m = true ->
  wlp mmu_send_final_req (fun _ m' => tlb_inv read m') m.
Proof.
  intros Hi Hf. assert (walks m = false) as Hnw by (unfold walks; rewrite Hf; apply andb_false_r).
  assert (quiet m) as Hq.
  { destruct Hi as [H1 H2 H3 H4 _ _ _ _]. destruct (pte_req_pending m) eqn:E; [by rewrite Hnw in H3; discriminate H3|].
    destruct (H4 eq_refl). by split. }
  unfold mmu_send_final_req. apply wlp_bind, wlp_gets. unfold id. rewrite Hf. cbn [negb].
  destruct (chan_full _); [by apply wlp_ret|]. apply wlp_bind.
  eapply wlp_mono; [apply frames_quiet; [auto with frames|done]|]. intros [] m' [[] _]. apply wlp_modify.
  apply quiet_inv; [split; by upd_proj|]. unfold walks. upd_proj. by rewrite andb_false_r.
Qed.

Lemma inv_recv_final_rsp m : tlb_inv read m -> final_rsp_pending m = true ->
  wlp mmu_recv_final_rsp (fun _ m' => tlb_inv read m') m.
Proof.
  intros Hi Hf. assert (walks m = false) as Hnw by (unfold walks; rewrite Hf, orb_true_r; apply andb_false_r).
  assert (quiet m) as Hq.
  { destruct Hi as [H1 H2 H3 H4 _ _ _ _]. destruct (pte_req_pending m) eqn:E; [by rewrite Hnw in H3; discriminate H3|].
    destruct (H4 eq_refl). by split. }
  unfold mmu_recv_final_rsp. apply wlp_bind, wlp_gets. unfold id. rewrite Hf. cbn [negb].
  destruct (chan_empty _); [by apply wlp_ret|]. apply wlp_bind.
  eapply wlp_mono; [apply frames_quiet; [auto with frames|done]|]. intros rsp m1 [Hq1 _]. apply wlp_bind, wlp_check.
  intros _. apply wlp_bind. eapply wlp_mono; [apply frames_quiet; [auto with frames|done]|]. intros [] m' [[] _].
  apply wlp_modify. apply quiet_inv; [split; by upd_proj|]. unfold walks. by upd_proj.
Qed.

Lemma inv_proc_walk m : tlb_inv read m -> wlp mmu_proc_walk (fun _ m' => tlb_inv read m') m.
Proof.
  intros Hi. unfold mmu_proc_walk. apply wlp_bind, wlp_gets. unfold id.
  destruct (m_busy m) eqn:Eb; cbn [negb]; [|by apply wlp_ret].
  destruct (final_req_pending m) eqn:Eq; [by apply inv_send_final_req|].
  destruct (final_rsp_pending m) eqn:Es; [by apply inv_recv_final_rsp|].
  assert (walks m = true) as Hw by (unfold walks; by rewrite Eb, Eq, Es).
  apply wlp_bind. eapply wlp_mono; [apply wlp_and; [by apply inv_recv_pte_rsp|by apply recv_pte_no_final]|].
  intros [] m' [Hi' Hs']. apply wlp_bind, wlp_gets, wlp_when; [|done]. unfold id. intros [Eb' Eq'%negb_true_iff]%andb_prop.
  apply inv_send_pte_req; [done|]. unfold walks. by rewrite Eb', Eq', Hs'.
Qed.

Lemma idle_quiet m : tlb_inv read m -> m_busy m = false -> quiet m.
Proof.
  intros [H1 H2 H3 H4 _ _ _ _] Hb. destruct (pte_req_pending m) eqn:E.
  - specialize (H3 eq_refl). unfold walks in H3. by rewrite Hb in H3.
  - destruct (H4 eq_refl). by split.
Qed.

Lemma idle_inv m : quiet m -> m_busy m = false -> tlb_inv read m.
Proof. intros Hq Hb. apply quiet_inv; [done|]. unfold walks. by rewrite Hb. Qed.

Lemma quiet_set_active b ctx m : quiet m -> wlp (mmu_set_active_req b ctx) (fun _ m' => quiet m' /\
  m_busy m' = m_busy m /\ m_va m' = bq_addr (rc_req ctx) /\ m_csr_state_i m' = m_csr_state_i m /\
  root_base m' = root_of (satp_ppn (mmu_satp m))) m.
Proof. intros []. apply wlp_modify. upd_proj. split; [split; by upd_proj|done]. Qed.

Lemma inv_accept_tlb_hit b ctx slot e m : quiet m -> wlp (mmu_accept_tlb_hit b ctx slot e) (fun _ m' => tlb_inv read m') m.
Proof.
  intros Hq. unfold mmu_accept_tlb_hit. apply wlp_bind, wlp_modify, wlp_bind.
  eapply wlp_mono; [apply quiet_set_active; destruct Hq; split; by upd_proj|]. intros [] m1 (Hq1 & _).
  apply wlp_bind, wlp_modify. apply wlp_bind, wlp_gets. unfold id. apply wlp_bind, wlp_of_option. intros p _.
  apply wlp_bind. set (m2 := m1 <| m_pte := te_pte e |>).
  assert (quiet m2) as Hq2 by (destruct Hq1; split; unfold m2; by upd_proj). clearbody m2.
  apply (wlp_mono _ (fun _ m' => m' = m2)); [destruct p; by frame|]. intros ok ? ->.
  assert (forall m, quiet m -> wlp (modify (fun m => m <| m_busy := false |>)) (fun _ m' => tlb_inv read m') m) as Hend.
  { intros m3 []. apply wlp_modify. apply idle_inv; [split; by upd_proj|done]. }
  destruct ok; cbn [negb]; cbv zeta.
  - apply wlp_bind. eapply wlp_mono; [apply frames_quiet; [auto with frames|done]|]. intros octx m3 [Hq3 _].
    apply wlp_bind. eapply wlp_mono; [apply frames_quiet; [auto with frames|done]|]. intros [] m4 [Hq4 _].
    apply wlp_bind. eapply wlp_mono; [apply frames_quiet; [auto with frames|done]|]. intros [] m5 [Hq5 _].
    apply wlp_bind. eapply wlp_mono; [apply frames_quiet; [auto with frames|done]|]. intros [] m6 [Hq6 _].
    by apply Hend.
  - apply wlp_bind, wlp_of_option. intros cause _.
    apply wlp_bind. eapply wlp_mono; [apply frames_quiet; [auto with frames|done]|]. intros [] m3 [Hq3 _]. by apply Hend.
Qed.

Lemma inv_start_req_ctx b ctx slot m : quiet m -> wlp (mmu_start_req_ctx b ctx slot) (fun _ m' => tlb_inv read m') m.
Proof.
  intros Hq. unfold mmu_start_req_ctx. apply wlp_bind, wlp_modify, wlp_bind.
  eapply wlp_mono; [apply quiet_set_active; destruct Hq; split; by upd_proj|]. intros [] m1 ([] & _ & Hva & Hcsr & Hroot).
  apply wlp_modify. apply quiet_inv; [split; by upd_proj|]. intros _. unfold mmu_satp in *. upd_proj. split; [by right|].
  rewrite Hroot, Hcsr. done.
Qed.

(** Runs the rest of the computation after operations that leave the view alone. *)
Ltac next_quiet :=
  apply wlp_bind; eapply wlp_mono; [apply frames_quiet; [auto with frames|eassumption]|].

Lemma inv_accept_one_req b m : tlb_inv read m -> wlp (mmu_accept_one_req b) (fun _ m' => tlb_inv read m') m.
Proof.
  intros Hi. unfold mmu_accept_one_req. apply wlp_bind, wlp_gets. unfold id.
  destruct (chan_empty _); [by apply wlp_ret|]. destruct (drop_ptw_rsp m || _); [by apply wlp_ret|].
  destruct (m_busy m) eqn:Eb; [by apply wlp_ret|]. pose proof (idle_quiet m Hi Eb) as Hq.
  apply wlp_bind. eapply wlp_mono; [apply frames_va_fifo|]. intros ctx m1 E1.
  assert (tlb_inv read m1) as Hi1 by (by apply (tlb_inv_view read m)).
  assert (quiet m1) as Hq1 by (by apply (quiet_view m)). clear E1.
  assert (forall r, wlp (when (ostq_full (mmu_ost m b)) (mmu_count_ost_full b);; mret r)
    (fun (_ : bool) m' => tlb_inv read m') m1) as Hcount
    by (intros r; apply frames_inv; [frames_auto|done]).
  destruct (negb (mmu_req_ctx_translation_enabled m ctx)).
  { destruct (_ || _); [done|]. apply frames_inv; [frames_auto|done]. }
  destruct (mmu_lookup_tlb_entry m b ctx) as [e|].
  - destruct (_ || _); [done|]. next_quiet. intros r m2 [Hq2 _]. next_quiet. intros slot m3 [Hq3 _].
    next_quiet. intros ctx' m4 [Hq4 _]. apply wlp_bind.
    eapply wlp_mono; [by apply inv_accept_tlb_hit|]. intros [] m5 H5. by apply wlp_ret.
  - destruct (_ || _); [by apply wlp_ret|]. destruct (ostq_full _).
    { apply frames_inv; [frames_auto|done]. }
    next_quiet. intros r m2 [Hq2 _]. next_quiet. intros slot m3 [Hq3 _].
    next_quiet. intros ctx' m4 [Hq4 _]. next_quiet. intros [] m5 [Hq5 _]. apply wlp_bind.
    eapply wlp_mono; [by apply inv_start_req_ctx|]. intros [] m6 H6. by apply wlp_ret.
Qed.

Lemma inv_accept_new_req m : tlb_inv read m -> wlp mmu_accept_new_req (fun _ m' => tlb_inv read m') m.
Proof.
  intros Hi. unfold mmu_accept_new_req. apply wlp_bind. eapply wlp_mono; [by apply inv_accept_one_req|].
  intros [] m1 H1; [by apply wlp_ret|]. apply wlp_bind. eapply wlp_mono; [by apply inv_accept_one_req|].
  intros b m2 H2. by apply wlp_ret.
Qed.

Lemma entries_invalid (l : list mmu_tlb_entry_t) : Forall (entry_ok read) ((fun e => e <| te_vld := false |>) <$> l).
Proof. induction l as [|e l IH]; [constructor|]. constructor; [by intros ?|done]. Qed.

Lemma inv_recv_tlb_flush m : tlb_inv read m -> wlp mmu_recv_tlb_flush (fun _ m' => tlb_inv read m') m.
Proof.
  intros []. unfold mmu_recv_tlb_flush, mmu_invalidate_tlb. frame; [by split|].
  split; unfold walks, mmu_pte_addr, mmu_satp in *; upd_proj; try done; apply entries_invalid.
Qed.

Lemma inv_drop_canceled m : tlb_inv read m -> wlp mmu_drop_canceled_rsp (fun _ m' => tlb_inv read m') m.
Proof.
  intros Hi. unfold mmu_drop_canceled_rsp. apply wlp_bind, wlp_gets, wlp_bind. unfold id.
  apply wlp_mono with (fun (_ : unit) m' => tlb_inv read m').
  - apply wlp_when; [intros _|done]. apply wlp_bind, wlp_on_read. intros rsp r Er. apply wlp_bind, wlp_check.
    intros _. apply wlp_modify. destruct Hi as [H1 H2 H3 H4 H5 H6 H7 H8]. rewrite Er in H5, H7. apply Forall_cons in H7 as [_ H7].
    split; unfold walks, mmu_pte_addr, mmu_satp in *; upd_proj; try done.
    + intros Hp. destruct (H4 Hp) as [_ Hn]. by rewrite Er in Hn.
    + simpl in *. lia.
  - intros [] m1 H1. frame; [|done]. by apply (tlb_inv_view read m1).
Qed.

Lemma tlb_inv_clock m : tlb_inv read m -> wlp mmu_clock (fun _ m' => tlb_inv read m') m.
Proof.
  intros Hi. unfold mmu_clock.
  apply wlp_bind; eapply wlp_mono; [apply (frames_inv read); [apply (frames_ost true)|exact Hi]|]; intros [] m1 H1.
  apply wlp_bind; eapply wlp_mono; [apply (frames_inv read); [apply (frames_ost false)|exact H1]|]; intros [] m2 H2.
  apply wlp_bind; eapply wlp_mono; [by apply inv_recv_tlb_flush|]; intros [] m3 H3.
  apply wlp_bind; eapply wlp_mono; [by apply inv_drop_canceled|]; intros [] m4 H4.
  apply wlp_bind; eapply wlp_mono; [apply (frames_inv read); [apply frames_capture|exact H4]|]; intros [] m5 H5.
  apply wlp_bind; eapply wlp_mono; [by apply inv_proc_walk|]; intros [] m6 H6.
  do 4 (apply wlp_bind; eapply wlp_mono; [apply (frames_inv read); [auto with frames|eassumption]|]; intros [] ? ?).
  apply wlp_bind; eapply wlp_mono; [by apply inv_accept_new_req|]; intros [] ? ?. by apply inv_accept_new_req.
Qed.

End walk_inv.

(** ** Runs *)

(** A state of a run: the page tables and the unit.  The clock; the memory answering a request of
    the walker; anything that happens at the other interfaces; a write of satp or mstatus while
    the walker is idle, or one that keeps the page number; and, after a flush and while the
    walker is idle, a change of the tables. *)
Inductive mmu_step : (Z -> option Z) * mmu_t -> (Z -> option Z) * mmu_t -> Prop :=
  | MmuClock read m m' : mmu_clock m = Some (tt, m') -> mmu_step (read, m) (read, m')
  | MmuAnswer read m m' : ptw_answer read m = Some (tt, m') -> mmu_step (read, m) (read, m')
  | MmuOthers read m m' : tlb_view m' = tlb_view m -> mmu_step (read, m) (read, m')
  | MmuCsr read m csr :
      m_busy m = false \/ satp_ppn (cm_satp csr) = satp_ppn (mmu_satp m) ->
      mmu_step (read, m) (read, m <| m_csr_state_i := csr |>)
  | MmuTables read read' m :
      m_busy m = false -> Forall (fun e => te_vld e = false) (itlb m ++ dtlb m) ->
      mmu_step (read, m) (read', m).

Lemma inv_ptw_answer read m : tlb_inv read m -> wlp (ptw_answer read) (fun _ m' => tlb_inv read m') m.
Proof.
  intros Hi. unfold ptw_answer. apply wlp_bind, wlp_gets, wlp_when; [intros _|done].
  apply wlp_bind, wlp_on_read. intros req r Er. cbv zeta. apply wlp_on_write.
  destruct Hi as [H1 H2 H3 H4 H5 H6 H7 H8]. rewrite Er in H4, H5, H6. apply Forall_cons in H6 as [Ha H6].
  split; unfold walks, mmu_pte_addr, mmu_satp, chan_snoc in *; upd_proj; try done.
  - intros Hp. by destruct (H4 Hp).
  - cbn [ch_pkts]. rewrite length_app. simpl in *. lia.
  - cbn [ch_pkts]. apply Forall_app. split; [done|]. constructor; [|done]. cbn [bp_ok bp_data]. rewrite Ha.
    by destruct (read _).
Qed.

Lemma tlb_inv_step read m read' m' : mmu_step (read, m) (read', m') -> tlb_inv read m -> tlb_inv read' m'.
Proof.
  intros Hs Hi. inversion Hs as [? ? ? E|? ? ? E|? ? ? E|? ? csr Hc|? ? ? Hb Hn]; subst.
  - exact (wlp_elim _ _ _ _ _ (tlb_inv_clock _ _ Hi) E).
  - exact (wlp_elim _ _ _ _ _ (inv_ptw_answer _ _ Hi) E).
  - by apply (tlb_inv_view _ m).
  - destruct Hc as [Hb|Hp].
    + pose proof (idle_quiet _ _ Hi Hb) as []. apply idle_inv; [|by upd_proj]. split; by upd_proj.
    + destruct Hi. split; unfold walks, mmu_pte_addr, mmu_satp in *; upd_proj; try done. by rewrite Hp.
  - pose proof (idle_quiet _ _ Hi Hb) as [_ _ H5 H6 H7]. apply Forall_app in Hn as [Hn1 Hn2].
    assert (forall l, Forall (fun e => te_vld e = false) l -> Forall (entry_ok read') l) as Hinv.
    { intros l Hl. eapply Forall_impl; [exact Hl|]. intros e Hv Hv'. by rewrite Hv in Hv'. }
    apply idle_inv; [|done]. split; auto.
Qed.

Lemma tlb_inv_reset read m : ch_pkts (ptw_bti_req_mst m) = [] -> ch_pkts (ptw_bti_rsp_slv m) = [] ->
  wlp mmu_reset (fun _ m' => tlb_inv read m') m.
Proof.
  intros H1 H2. unfold mmu_reset, mmu_invalidate_tlb. frame. apply idle_inv; [|by upd_proj].
  split; upd_proj; try done; apply entries_invalid.
Qed.

(** An entry that matches gives the translation of the specification. *)
Lemma lookup_translates read m b ctx e acc : tlb_inv read m -> mmu_lookup_tlb_entry m b ctx = Some e ->
  let va := bq_addr (rc_req ctx) in
  let x := Xctx (rc_priv ctx) (rc_sum ctx) (rc_mxr ctx) acc in
  sv32 read (root_of (satp_ppn (mmu_satp m))) x va =
  if leaf_allows x (te_pte e)
  then Some (Z.lor (te_pa_base e) (Z.land va (mmu_tlb_page_mask (te_level e)))) else None.
Proof.
  intros Hi He va x. unfold mmu_lookup_tlb_entry in He. apply List.find_some in He as [Hin Hmatch].
  apply list_elem_of_In in Hin.
  assert (entry_ok read e) as Hok.
  { unfold mmu_tlb_entries in Hin. destruct b; eapply Forall_forall; [apply (ti_itlb _ _ Hi)|done|apply (ti_dtlb _ _ Hi)|done]. }
  unfold tlb_match in Hmatch. apply andb_prop in Hmatch as [Hv Hmatch%negb_true_iff].
  rewrite !orb_false_iff, !negb_false_iff, !Z.eqb_eq in Hmatch. destruct Hmatch as (((((Hppn & _) & _) & _) & _) & Htag).
  destruct (Hok Hv va) as [Hl Hpa]; [done|]. unfold sv32. rewrite <- Hppn, Hl. simpl. unfold leaf_translate.
  by rewrite Hpa.
Qed.

(** C4: The TLBs never lie.  After reset, in every state that the unit reaches with any traffic at
    its interfaces and any timing of the memory, a request that finds an entry in the TLB of its
    side gets the leaf, and the physical address, of the page tables that satp points to:
    translating with the entry gives the address of the specification, and denies what it
    denies.  In these runs satp moves to other tables only while the walker is idle, and the
    contents of the tables change only while the walker is idle and after every entry of both TLBs
    has been invalidated. *)
Theorem mmu_tlb_coherent read0 read m0 m1 m b ctx e acc :
  ch_pkts (ptw_bti_req_mst m0) = [] -> ch_pkts (ptw_bti_rsp_slv m0) = [] ->
  mmu_reset m0 = Some (tt, m1) -> rtc mmu_step (read0, m1) (read, m) ->
  mmu_lookup_tlb_entry m b ctx = Some e ->
  let va := bq_addr (rc_req ctx) in
  let x := Xctx (rc_priv ctx) (rc_sum ctx) (rc_mxr ctx) acc in
  sv32 read (root_of (satp_ppn (mmu_satp m))) x va =
  if leaf_allows x (te_pte e)
  then Some (Z.lor (te_pa_base e) (Z.land va (mmu_tlb_page_mask (te_level e)))) else None.
Proof.
  intros Hq Hr Hreset Hrun He va x.
  pose proof (wlp_elim _ _ _ _ _ (tlb_inv_reset read0 m0 Hq Hr) Hreset) as Hi.
  assert (tlb_inv read m) as Hi'.
  { change (tlb_inv (read0, m1).1 (read0, m1).2) in Hi. change (tlb_inv (read, m).1 (read, m).2).
    induction Hrun as [[]|[] [] [] Hs _ IH]; [done|]. apply IH. by eapply tlb_inv_step. }
  exact (lookup_translates read m b ctx e acc Hi' He).
Qed.

(** ** Hits *)

(** The entry of a request that the unit takes. *)
Definition mmu_entry (b : bool) (req : bti_req_if_t) (issued : bool) : mmu_ost_ctx_t :=
  MmuOstCtx b req issued false false hart_expt_zero bti_rsp_zero.

(** The unit can take the request [ctx] of side [b], which hits the entry [e]. *)
Record hit_ready (m : mmu_t) (b : bool) (ctx : mmu_req_ctx_t) (rest : list mmu_req_ctx_t)
    (e : mmu_tlb_entry_t) (fr : bool) (l : list mmu_ost_ctx_t) : Prop := {
  h_front : ch_pkts (va_req_fifo m b) = ctx :: rest;
  h_busy : m_busy m = false;
  h_drop : drop_ptw_rsp m || drop_i_rsp m = false;
  h_trans : mmu_req_ctx_translation_enabled m ctx = true;
  h_hit : mmu_lookup_tlb_entry m b ctx = Some e;
  h_pa : chan_wf (pa_req_mst m b) /\ chan_full (pa_req_mst m b) = false;
  h_ost : ost_live (mmu_ost m b) fr l /\ ostq_full (mmu_ost m b) = false
}.

Lemma hit_accept m b ctx rest e acc fr l : hit_ready m b ctx rest e fr l ->
  mmu_acc b (bq_cmd (rc_req ctx)) = Some acc ->
  wp (mmu_accept_one_req b) (fun ok m' => ok = true /\ m_busy m' = false /\ ch_pkts (va_req_fifo m' b) = rest /\
    if leaf_allows (Xctx (rc_priv ctx) (rc_sum ctx) (rc_mxr ctx) acc) (te_pte e) then
      ch_pkts (pa_req_mst m' b) = ch_pkts (pa_req_mst m b) ++ [rc_req ctx <| bq_addr :=
        Z.lor (te_pa_base e) (Z.land (bq_addr (rc_req ctx)) (mmu_tlb_page_mask (te_level e))) |>] /\
      ost_live (mmu_ost m' b) fr (l ++ [mmu_entry b (rc_req ctx) true])
    else
      ch_pkts (pa_req_mst m' b) = ch_pkts (pa_req_mst m b) /\
      ost_live (mmu_ost m' b) fr (l ++ [faulted (mmu_entry b (rc_req ctx) false) (acc_cause acc)
        (rc_priv ctx) (rc_fault_pc ctx) (bq_addr (rc_req ctx))])) m.
Proof.
  intros [Hfr Hb Hd Ht Hh [Hpw Hpf] [Ho Hof]] Hacc. unfold mmu_accept_one_req. apply wp_bind, wp_gets. unfold id.
  assert (chan_empty (va_req_fifo m b) = false) as ->
    by (destruct (chan_empty _) eqn:E; [apply chan_empty_spec in E; congruence|done]).
  rewrite Hd, Hb. apply wp_bind.
  unfold va_req_fifo, pa_req_mst, mmu_ost, on_va_req_fifo, mmu_alloc_ost_req, mmu_accept_tlb_hit, mmu_send_pa_req,
    mmu_complete_fault, on_pa_req, on_ost, mmu_set_active_req in *.
  destruct b;
  (eapply wp_on_front; [exact Hfr|clear; by destruct m|]; rewrite Ht; cbn [negb]; rewrite Hh, Hpf, Hof; cbn [orb];
   apply wp_bind, wp_bind, wp_gets; unfold id, mmu_ost; rewrite Hof; cbv zeta;
   apply wp_on; eapply wp_ostq_alloc; [exact Ho|exact Hof|]; intros o1 slot Ho1 Hs1 _;
   apply wp_bind; eapply wp_intro; [reflexivity|];
   apply wp_bind; eapply wp_on_read; [by upd_proj|];
   apply wp_bind, wp_bind, wp_modify, wp_bind, wp_modify, wp_bind, wp_modify, wp_bind, wp_gets; unfold id;
   apply (wp_leaf_check _ _ acc); [by upd_proj|]; unfold mmu_xctx; upd_proj;
   destruct (leaf_allows _ _); cbn [negb]; cbv zeta;
   [apply wp_bind, wp_on; upd_proj; eapply wp_ostq_read; [exact Ho1|exact Hs1|];
    apply wp_bind, wp_on; upd_proj; eapply wp_ostq_write; [exact Ho1|exact Hs1|]; intros o2 Ho2 _ _;
    apply wp_bind, wp_bind, wp_gets; cbn [id]; unfold pa_req_mst; upd_proj; apply wp_bind, wp_check; [by rewrite Hpf|];
    apply wp_on_write; upd_proj; [exact Hpw|exact Hpf|]; intros _;
    apply wp_bind, wp_modify, wp_modify, wp_ret; upd_proj; split_and!; done
   |rewrite (fault_cause_spec _ _ _ Hacc); apply wp_bind; eapply wp_intro; [reflexivity|];
    apply wp_bind, wp_bind, wp_on; upd_proj; eapply wp_ostq_read; [exact Ho1|exact Hs1|];
    apply wp_on; upd_proj; eapply wp_ostq_write; [exact Ho1|exact Hs1|]; intros o2 Ho2 _ _;
    apply wp_modify, wp_ret; upd_proj; split_and!; done]).
Qed.

(** C13: A hit is a translation.  When the TLBs are coherent with the page tables (the invariant that
    the runs above keep), the request at the head of a side's queue finds an entry, and the request
    channel and the table of outstanding requests have room, it is taken in that cycle: it goes out with the physical address that the page tables give, or, if
    they deny the access, its entry gets the page fault, and nothing goes out; the unit is idle
    again afterwards. *)
Theorem mmu_hit_correct read m b ctx rest e acc fr l : tlb_inv read m -> hit_ready m b ctx rest e fr l ->
  mmu_acc b (bq_cmd (rc_req ctx)) = Some acc ->
  let va := bq_addr (rc_req ctx) in
  wp (mmu_accept_one_req b) (fun ok m' =>
    ok = true /\ m_busy m' = false /\ ch_pkts (va_req_fifo m' b) = rest /\
    match sv32 read (root_of (satp_ppn (mmu_satp m))) (Xctx (rc_priv ctx) (rc_sum ctx) (rc_mxr ctx) acc) va with
    | Some pa =>
      ch_pkts (pa_req_mst m' b) = ch_pkts (pa_req_mst m b) ++ [rc_req ctx <| bq_addr := pa |>] /\
      ost_live (mmu_ost m' b) fr (l ++ [mmu_entry b (rc_req ctx) true])
    | None =>
      ch_pkts (pa_req_mst m' b) = ch_pkts (pa_req_mst m b) /\
      ost_live (mmu_ost m' b) fr
        (l ++ [faulted (mmu_entry b (rc_req ctx) false) (acc_cause acc) (rc_priv ctx) (rc_fault_pc ctx) va])
    end) m.
Proof.
  intros Hi Hh Hacc va. pose proof (lookup_translates read m b ctx e acc Hi (h_hit _ _ _ _ _ _ _ Hh)) as Ht.
  fold va in Ht. cbv zeta in Ht. eapply wp_mono; [by eapply hit_accept|]. intros ok m'. rewrite Ht.
  by destruct (leaf_allows _ _).
Qed.

(** ** A flush during a walk *)

(** A fetch misses and the walker reads its entry; then the tables are rewritten and the TLB is
    flushed; then the fetch goes on. *)
Definition flush_during_walk : M mmu_t unit :=
  mmu_reset;;
  on va_i_bti_req_slv (chan_write (fetch_req 0x40));;
  mmu_clock;; mmu_clock;;
  ptw_answer (one_superpage 0x100);;
  on tlb_flush_slv (chan_write tt);;
  mmu_clock;; mmu_clock.

(** Why the walker has to be idle when the tables change, on one run: a flush invalidates the entries of the
    TLBs and leaves a walk in progress alone.  An entry that the walker had read before the flush
    is in the TLB after it, and translates fetches to the page of the old tables. *)
Example mmu_flush_keeps_stale_walk : exists m e, flush_during_walk mmu_example = Some (tt, m) /\
  chan_empty (tlb_flush_slv m) = true /\
  mmu_lookup_tlb_entry m true (fetch_ctx 0x80) = Some e /\
  te_pa_base e = 0x40000000 /\
  sv32 (one_superpage 0x200) (root_of (satp_ppn (mmu_satp m))) (Xctx 1 false false MMU_ACCESS_INST) 0x80 =
    Some 0x80000080.
Proof.
  set (m := default mmu_example (snd <$> flush_during_walk mmu_example)).
  set (e := default (TlbEntry false 0 0 0 0 false false 0 0 0) (mmu_lookup_tlb_entry m true (fetch_ctx 0x80))).
  exists m, e. split_and!; vm_compute; reflexivity.
Qed.

(** ** Witnesses *)

Definition tlb_w1 : mmu_t := Eval vm_compute in default mmu_example (snd <$> mmu_reset mmu_example).
Definition tlb_w2 : mmu_t := tlb_w1 <| va_i_bti_req_slv := Chan 4 [fetch_req 0x40] |>.
Definition tlb_w3 : mmu_t := Eval vm_compute in default mmu_example (snd <$> mmu_clock tlb_w2).
Definition tlb_w4 : mmu_t := Eval vm_compute in default mmu_example (snd <$> mmu_clock tlb_w3).
Definition tlb_w5 : mmu_t :=
  Eval vm_compute in default mmu_example (snd <$> ptw_answer (one_superpage 0x100) tlb_w4).
Definition tlb_w6 : mmu_t := Eval vm_compute in default mmu_example (snd <$> mmu_clock tlb_w5).
Definition tlb_example_entry : mmu_tlb_entry_t := tlb_entry_of walk_example 1 0x1000004b 0x40000040.

Lemma mmu_tlb_coherent_witness :
  mmu_reset mmu_example = Some (tt, tlb_w1) /\
  rtc mmu_step (one_superpage 0x100, tlb_w1) (one_superpage 0x100, tlb_w6) /\
  mmu_lookup_tlb_entry tlb_w6 true (fetch_ctx 0x80) = Some tlb_example_entry /\
  sv32 (one_superpage 0x100) (root_of (satp_ppn (mmu_satp tlb_w6))) (Xctx 1 false false MMU_ACCESS_INST) 0x80 =
    Some 0x40000080.
Proof.
  assert (mmu_reset mmu_example = Some (tt, tlb_w1)) as E0 by (vm_compute; reflexivity).
  assert (rtc mmu_step (one_superpage 0x100, tlb_w1) (one_superpage 0x100, tlb_w6)) as Hrun.
  { eapply rtc_l; [apply (MmuOthers _ tlb_w1 tlb_w2); vm_compute; reflexivity|].
    eapply rtc_l; [apply (MmuClock _ tlb_w2 tlb_w3); vm_compute; reflexivity|].
    eapply rtc_l; [apply (MmuClock _ tlb_w3 tlb_w4); vm_compute; reflexivity|].
    eapply rtc_l; [apply (MmuAnswer _ tlb_w4 tlb_w5); vm_compute; reflexivity|].
    apply rtc_once, (MmuClock _ tlb_w5 tlb_w6). vm_compute. reflexivity. }
  assert (mmu_lookup_tlb_entry tlb_w6 true (fetch_ctx 0x80) = Some tlb_example_entry) as He
    by (vm_compute; reflexivity).
  split; [exact E0|]. split; [exact Hrun|]. split; [exact He|].
  pose proof (mmu_tlb_coherent (one_superpage 0x100) (one_superpage 0x100) mmu_example tlb_w1 tlb_w6 true
    (fetch_ctx 0x80) tlb_example_entry MMU_ACCESS_INST eq_refl eq_refl E0 Hrun He) as H.
  cbv zeta in H. refine (eq_trans H _). vm_compute. reflexivity.
Defined.

Definition hit_example : mmu_t :=
  mmu_example <| itlb := tlb_example_entry :: replicate 63 (TlbEntry false 0 0 0 0 false false 0 0 0) |>
    <| va_i_req_fifo := Chan 2 [fetch_ctx 0x80] |>.

Lemma hit_example_inv : tlb_inv (one_superpage 0x100) hit_example.
Proof.
  apply idle_inv; [|done]. split; try done.
  - apply Forall_cons. split; [|by apply Forall_replicate].
    apply (new_entry_ok (one_superpage 0x100) walk_example); vm_compute; reflexivity.
  - by apply Forall_replicate.
Qed.

Lemma hit_example_ready :
  hit_ready hit_example true (fetch_ctx 0x80) [] tlb_example_entry false [].
Proof.
  destruct mmu_example_ost as (o & Eo & Ho).
  assert (mmu_ost hit_example true = o) as E by (injection Eo as <-; vm_compute; reflexivity).
  split; try (vm_compute; done). rewrite E. split; [exact Ho|]. injection Eo as <-. reflexivity.
Qed.

Lemma mmu_hit_correct_witness :
  tlb_inv (one_superpage 0x100) hit_example /\
  hit_ready hit_example true (fetch_ctx 0x80) [] tlb_example_entry false [] /\
  wp (mmu_accept_one_req true) (fun ok m' =>
    ch_pkts (pa_i_bti_req_mst m') = [fetch_req 0x80 <| bq_addr := 0x40000080 |>]) hit_example.
Proof.
  split; [exact hit_example_inv|]. split; [exact hit_example_ready|].
  pose proof (mmu_hit_correct (one_superpage 0x100) hit_example true (fetch_ctx 0x80) [] tlb_example_entry
    MMU_ACCESS_INST false [] hit_example_inv hit_example_ready eq_refl) as H.
  cbv zeta in H. eapply wp_mono; [exact H|]. intros ok m' (_ & _ & _ & Hm).
  assert (sv32 (one_superpage 0x100) (root_of (satp_ppn (mmu_satp hit_example)))
    (Xctx (rc_priv (fetch_ctx 0x80)) (rc_sum (fetch_ctx 0x80)) (rc_mxr (fetch_ctx 0x80)) MMU_ACCESS_INST)
    (bq_addr (rc_req (fetch_ctx 0x80))) = Some 0x40000080) as E by (vm_compute; reflexivity).
  rewrite E in Hm. exact (proj1 Hm).
Defined.
