(* ===== verification/Bpu.v ===== *)
(** * The branch prediction unit

    [core/hart/bpu.c]: a table of two-bit counters for conditional branches, a branch target
    buffer with least-recently-used replacement for indirect jumps, and a return address stack.
    A prediction is computed in the cycle of the request, from the tables and the update that is
    on its way into them. *)

From stdpp Require Import base numbers list.
From Stdlib Require Import ZArith Lia.
From S2P Require Import Prelude Fifo Isa.

Definition BPU_COND_BHT_SIZE : Z := 512.
Definition BPU_JALR_BTB_SIZE : Z := 64.
Definition BPU_RAS_SIZE : Z := 16.
Definition BPU_RAS_LINK_RA : Z := 1.
Definition BPU_RAS_LINK_T0 : Z := 5.

(** ** Data *)

Record bpu_pred_req_if_t := BpuPredReq { pq_vld : bool; pq_pc : Z; pq_ir : Z }.

Record bpu_pred_rsp_if_t := BpuPredRsp {
  pr_vld : bool; pr_is_ctrl : bool; pr_pred_taken : bool; pr_pred_pc : Z; pr_cond_bht_hit : bool;
  pr_jalr_ras_hit : bool; pr_jalr_btb_hit : bool; pr_jalr_btb_miss : bool }.
#[export] Instance eta_bpu_pred_rsp : Eta bpu_pred_rsp_if_t := fun r =>
  BpuPredRsp (pr_vld r) (pr_is_ctrl r) (pr_pred_taken r) (pr_pred_pc r) (pr_cond_bht_hit r)
    (pr_jalr_ras_hit r) (pr_jalr_btb_hit r) (pr_jalr_btb_miss r).

Record bpu_update_if_t := BpuUpdate {
  up_vld : bool; up_pc : Z; up_ir : Z; up_taken : bool; up_target_pc : Z; up_pred_taken : bool;
  up_pred_pc : Z; up_pred_true : bool; up_is_boot_code : bool; up_pred_cond_bht_hit : bool;
  up_pred_jalr_ras_hit : bool; up_pred_jalr_btb_hit : bool; up_pred_jalr_btb_miss : bool }.

Record bpu_bht_entry_t := BhtEntry { bh_vld : bool; bh_counter : Z }.

Record bpu_btb_entry_t := BtbEntry {
  jb_vld : bool; jb_pc : Z; jb_target_pc : Z; jb_last_used : Z }.
#[export] Instance eta_bpu_btb_entry : Eta bpu_btb_entry_t := fun e =>
  BtbEntry (jb_vld e) (jb_pc e) (jb_target_pc e) (jb_last_used e).

Record bpu_ras_t := BpuRas { ras_entry : list Z; ras_sp : Z; ras_count : Z }.
#[export] Instance eta_bpu_ras : Eta bpu_ras_t := fun r =>
  BpuRas (ras_entry r) (ras_sp r) (ras_count r).

(** Event counters. *)
Record bpu_perf_t := BpuPerf {
  pf_branch : Z; pf_pred_true : Z; pf_cond_branch : Z; pf_cond_branch_pred_true : Z; pf_jal : Z;
  pf_jal_pred_true : Z; pf_jalr : Z; pf_jalr_pred_true : Z; pf_cond_bht_hit : Z; pf_ras_pred : Z;
  pf_jalr_ras_hit : Z; pf_jalr_btb_hit : Z; pf_jalr_btb_miss : Z }.
#[export] Instance eta_bpu_perf : Eta bpu_perf_t := fun p =>
  BpuPerf (pf_branch p) (pf_pred_true p) (pf_cond_branch p) (pf_cond_branch_pred_true p) (pf_jal p)
    (pf_jal_pred_true p) (pf_jalr p) (pf_jalr_pred_true p) (pf_cond_bht_hit p) (pf_ras_pred p)
    (pf_jalr_ras_hit p) (pf_jalr_btb_hit p) (pf_jalr_btb_miss p).

(** The three interfaces are signals: the fields hold their values. *)
Record bpu_t := Bpu {
  pred_req_i : bpu_pred_req_if_t;
  pred_rsp_mst : bpu_pred_rsp_if_t;
  update_slv : bpu_update_if_t;
  access_seq : Z;
  cond_bht : list bpu_bht_entry_t;
  jalr_btb : list bpu_btb_entry_t;
  ras : bpu_ras_t;
  bpu_perf : bpu_perf_t
}.
#[export] Instance eta_bpu : Eta bpu_t := fun b =>
  Bpu (pred_req_i b) (pred_rsp_mst b) (update_slv b) (access_seq b) (cond_bht b) (jalr_btb b)
    (ras b) (bpu_perf b).

(** ** Counters and the return address stack *)

(** The counter stays in [[0, 3]], so that the increment of the byte does not wrap. *)
Definition sat_counter_update (cnt : Z) (taken : bool) : Z :=
  if taken then if cnt <? 3 then cnt + 1 else cnt
  else if 0 <? cnt then cnt - 1 else cnt.

Definition bpu_is_link_reg (reg : Z) : bool := (reg =? BPU_RAS_LINK_RA) || (reg =? BPU_RAS_LINK_T0).

Definition bpu_jalr_reads_ras (inst : rv32g_inst_t) : bool :=
  let rd_link := bpu_is_link_reg (i_rd inst) in
  let rs1_link := bpu_is_link_reg (i_rs1 inst) in
  rs1_link && (negb rd_link || negb (i_rd inst =? i_rs1 inst)).

Definition bpu_cond_bht_idx (pc : Z) : Z := Z.land (Z.shiftr pc 2) (BPU_COND_BHT_SIZE - 1).

(** The test for a stack of size zero is decided by the constant. *)
Definition bpu_ras_push (pc : Z) : M bpu_ras_t unit :=
  ras ← gets id;
  l ← of_option (aset (ras_entry ras) (ras_sp ras) pc);
  modify (fun ras => ras <| ras_entry := l |>);;
  modify (fun ras => ras <| ras_sp := u32 (ras_sp ras + 1) mod BPU_RAS_SIZE |>);;
  when (ras_count ras <? BPU_RAS_SIZE) (modify (fun ras => ras <| ras_count := u32 (ras_count ras + 1) |>)).

(** [None] of the outer option is a read outside the array; of the inner one, the return value
    [false]. *)
Definition bpu_ras_peek (ras : bpu_ras_t) : option (option Z) :=
  if ras_count ras =? 0 then Some None
  else
    let idx := u32 (u32 (ras_sp ras + BPU_RAS_SIZE) - 1) mod BPU_RAS_SIZE in
    pc ← aget (ras_entry ras) idx;
    Some (Some pc).

Definition bpu_ras_pop : M bpu_ras_t unit :=
  ras ← gets id;
  if ras_count ras =? 0 then mret tt
  else modify (fun ras => ras <| ras_sp := u32 (u32 (ras_sp ras + BPU_RAS_SIZE) - 1) mod BPU_RAS_SIZE |>
         <| ras_count := ras_count ras - 1 |>).

(** ** Branch target buffer *)

(** The loops look for the first entry with a property. *)
Fixpoint first_idx {A} (p : A -> bool) (l : list A) : option nat :=
  match l with
  | [] => None
  | x :: l => if p x then Some O else S <$> first_idx p l
  end.

Definition btb_hit (pc : Z) (e : bpu_btb_entry_t) : bool := jb_vld e && (jb_pc e =? pc).

Definition bpu_jalr_btb_lookup (btb : list bpu_btb_entry_t) (pc : Z) : option Z :=
  i ← first_idx (btb_hit pc) btb;
  e ← btb !! i;
  Some (jb_target_pc e).

Definition bpu_jalr_btb_touch (pc : Z) : M bpu_t unit :=
  modify (fun bpu => bpu <| access_seq := u32 (access_seq bpu + 1) |>);;
  bpu ← gets id;
  match first_idx (btb_hit pc) (jalr_btb bpu) with
  | Some i => modify (fun bpu => bpu <| jalr_btb :=
      alter (fun e => e <| jb_last_used := access_seq bpu |>) i (jalr_btb bpu) |>)
  | None => mret tt
  end.

(** The entry with the smallest [last_used], the first one of several. *)
Fixpoint lru_loop (l : list bpu_btb_entry_t) (i lru_idx : nat) (lru_min : Z) : nat :=
  match l with
  | [] => lru_idx
  | e :: l =>
    if jb_last_used e <? lru_min then lru_loop l (S i) i (jb_last_used e)
    else lru_loop l (S i) lru_idx lru_min
  end.

Definition lru_idx (btb : list bpu_btb_entry_t) : nat :=
  match btb with
  | [] => O
  | e :: l => lru_loop l 1 0 (jb_last_used e)
  end.

Definition bpu_update_jalr_btb (pc target_pc : Z) : M bpu_t unit :=
  modify (fun bpu => bpu <| access_seq := u32 (access_seq bpu + 1) |>);;
  bpu ← gets id;
  match first_idx (btb_hit pc) (jalr_btb bpu) with
  | Some i => modify (fun bpu => bpu <| jalr_btb :=
      alter (fun e => e <| jb_target_pc := target_pc |> <| jb_last_used := access_seq bpu |>) i
        (jalr_btb bpu) |>)
  | None =>
    let e := BtbEntry true pc target_pc (access_seq bpu) in
    match first_idx (fun e => negb (jb_vld e)) (jalr_btb bpu) with
    | Some i => modify (fun bpu => bpu <| jalr_btb := <[i := e]> (jalr_btb bpu) |>)
    | None => modify (fun bpu => bpu <| jalr_btb := <[lru_idx (jalr_btb bpu) := e]> (jalr_btb bpu) |>)
    end
  end.

(** ** Updates *)

Definition bpu_update_ras_state (update : bpu_update_if_t) : M bpu_ras_t unit :=
  let inst := up_ir update in
  if i_opcode inst =? OPCODE_JAL then
    when (bpu_is_link_reg (i_rd inst)) (bpu_ras_push (u32 (up_pc update + 4)))
  else if negb (i_opcode inst =? OPCODE_JALR) then mret tt
  else
    let rd_link := bpu_is_link_reg (i_rd inst) in
    let rs1_link := bpu_is_link_reg (i_rs1 inst) in
    if negb rd_link && rs1_link then bpu_ras_pop
    else if rd_link && negb rs1_link then bpu_ras_push (u32 (up_pc update + 4))
    else when (rd_link && rs1_link)
      (when (negb (i_rd inst =? i_rs1 inst)) bpu_ras_pop;;
       bpu_ras_push (u32 (up_pc update + 4))).

Definition bpu_update_ras (update : bpu_update_if_t) : M bpu_t unit := on ras (bpu_update_ras_state update).

(** The entry of the table of counters after a branch. *)
Definition bht_next (e : bpu_bht_entry_t) (taken : bool) : bpu_bht_entry_t :=
  if negb (bh_vld e) then BhtEntry true (if taken then 2 else 1)
  else BhtEntry (bh_vld e) (sat_counter_update (bh_counter e) taken).

Definition bpu_update_tables (update : bpu_update_if_t) : M bpu_t unit :=
  let inst := up_ir update in
  if i_opcode inst =? OPCODE_BRANCH then
    let idx := bpu_cond_bht_idx (up_pc update) in
    bpu ← gets id;
    e ← of_option (aget (cond_bht bpu) idx);
    l ← of_option (aset (cond_bht bpu) idx (bht_next e (up_taken update)));
    modify (fun bpu => bpu <| cond_bht := l |>)
  else when (i_opcode inst =? OPCODE_JALR) (bpu_update_jalr_btb (up_pc update) (up_target_pc update)).

Definition bpu_update_pred_meta (update : bpu_update_if_t) : M bpu_t unit :=
  when (up_pred_cond_bht_hit update) (modify (fun bpu => bpu <| bpu_perf := bpu_perf bpu
    <| pf_cond_bht_hit := u64 (pf_cond_bht_hit (bpu_perf bpu) + 1) |> |>));;
  when (up_pred_jalr_ras_hit update) (modify (fun bpu => bpu <| bpu_perf := bpu_perf bpu
    <| pf_ras_pred := u64 (pf_ras_pred (bpu_perf bpu) + 1) |>
    <| pf_jalr_ras_hit := u64 (pf_jalr_ras_hit (bpu_perf bpu) + 1) |> |>));;
  when (up_pred_jalr_btb_hit update)
    (modify (fun bpu => bpu <| bpu_perf := bpu_perf bpu
       <| pf_jalr_btb_hit := u64 (pf_jalr_btb_hit (bpu_perf bpu) + 1) |> |>);;
     bpu_jalr_btb_touch (up_pc update));;
  when (up_pred_jalr_btb_miss update) (modify (fun bpu => bpu <| bpu_perf := bpu_perf bpu
    <| pf_jalr_btb_miss := u64 (pf_jalr_btb_miss (bpu_perf bpu) + 1) |> |>)).

Definition bpu_update_is_opcode (update : bpu_update_if_t) (opcode : Z) : bool :=
  if negb (up_vld update) then false else i_opcode (up_ir update) =? opcode.

(** ** Prediction *)

(** The counter for an address, with the update that is on its way; [None] of the outer option is
    an index outside the table, which the mask excludes. *)
Definition bpu_cond_bht_lookup_effective (bpu : bpu_t) (update : bpu_update_if_t) (pc : Z) : option (option Z) :=
  let idx := bpu_cond_bht_idx pc in
  e ← aget (cond_bht bpu) idx;
  let e' := if bpu_update_is_opcode update OPCODE_BRANCH && (bpu_cond_bht_idx (up_pc update) =? idx)
            then bht_next e (up_taken update) else e in
  Some (if negb (bh_vld e') then None else Some (bh_counter e')).

Definition bpu_jalr_btb_lookup_effective (bpu : bpu_t) (update : bpu_update_if_t) (pc : Z) : option Z :=
  if bpu_update_is_opcode update OPCODE_JALR && (up_pc update =? pc) then Some (up_target_pc update)
  else bpu_jalr_btb_lookup (jalr_btb bpu) pc.

Definition bpu_ras_apply_effective_update (update : bpu_update_if_t) : M bpu_ras_t unit :=
  if negb (up_vld update) then mret tt else bpu_update_ras_state update.

(** [itf_write(bpu->pred_rsp_mst, &rsp)] *)
Definition write_pred_rsp (rsp : bpu_pred_rsp_if_t) : M bpu_t unit :=
  modify (fun bpu => bpu <| pred_rsp_mst := rsp |>).

Definition bpu_eval_pred_req : M bpu_t unit :=
  bpu ← gets id;
  let req := pred_req_i bpu in
  let update := update_slv bpu in
  let rsp := BpuPredRsp (pq_vld req) false false (u32 (pq_pc req + 4)) false false false false in
  if negb (pq_vld req) then write_pred_rsp rsp
  else
    let inst := pq_ir req in
    let rsp := rsp <| pr_is_ctrl := (i_opcode inst =? OPCODE_JAL) || (i_opcode inst =? OPCODE_JALR) ||
                                    (i_opcode inst =? OPCODE_BRANCH) |> in
    if negb (pr_is_ctrl rsp) then write_pred_rsp rsp
    else if i_opcode inst =? OPCODE_JAL then
      write_pred_rsp (rsp <| pr_pred_taken := true |> <| pr_pred_pc := u32 (pq_pc req + j_imm_decode inst) |>)
    else if i_opcode inst =? OPCODE_BRANCH then
      let offset := b_imm_decode inst in
      found ← of_option (bpu_cond_bht_lookup_effective bpu update (pq_pc req));
      match found with
      | Some counter =>
        let rsp := rsp <| pr_cond_bht_hit := true |> in
        let rsp := rsp <| pr_pred_taken := 2 <=? counter |> in
        write_pred_rsp (if pr_pred_taken rsp then rsp <| pr_pred_pc := u32 (pq_pc req + offset) |> else rsp)
      | None =>
        write_pred_rsp (if s32 offset <? 0
          then rsp <| pr_pred_taken := true |> <| pr_pred_pc := u32 (pq_pc req + offset) |> else rsp)
      end
    else
      top ← (if (i_opcode inst =? OPCODE_JALR) && bpu_jalr_reads_ras inst then
               copy ← of_option (snd <$> bpu_ras_apply_effective_update update (ras bpu));
               of_option (bpu_ras_peek copy)
             else mret None);
      match top with
      | Some target_pc =>
        write_pred_rsp (rsp <| pr_pred_taken := true |> <| pr_pred_pc := target_pc |> <| pr_jalr_ras_hit := true |>)
      | None =>
        write_pred_rsp
          (if i_opcode inst =? OPCODE_JALR then
             match bpu_jalr_btb_lookup_effective bpu update (pq_pc req) with
             | Some target_pc =>
               rsp <| pr_pred_taken := true |> <| pr_pred_pc := target_pc |> <| pr_jalr_btb_hit := true |>
             | None => rsp <| pr_jalr_btb_miss := true |>
             end
           else rsp)
      end.

(** ** Reset and clock *)

Definition bpu_reset : M bpu_t unit :=
  modify (fun bpu => bpu <| access_seq := 0 |>
    <| cond_bht := replicate (Z.to_nat BPU_COND_BHT_SIZE) (BhtEntry false 0) |>
    <| jalr_btb := replicate (Z.to_nat BPU_JALR_BTB_SIZE) (BtbEntry false 0 0 0) |>
    <| ras := BpuRas (replicate (Z.to_nat BPU_RAS_SIZE) 0) 0 0 |>
    <| bpu_perf := BpuPerf 0 0 0 0 0 0 0 0 0 0 0 0 0 |>).

(** Counts an update per kind of instruction. *)
Definition count_kind (inst : rv32g_inst_t) (total cond jal jalr : bpu_perf_t -> bpu_perf_t) (p : bpu_perf_t) :
    bpu_perf_t :=
  let p := total p in
  if i_opcode inst =? OPCODE_BRANCH then cond p
  else if i_opcode inst =? OPCODE_JAL then jal p
  else if i_opcode inst =? OPCODE_JALR then jalr p
  else p.

Definition bpu_clock : M bpu_t unit :=
  bpu ← gets id;
  let update := update_slv bpu in
  if negb (up_vld update) then mret tt
  else
    let inst := up_ir update in
    when (negb (up_is_boot_code update))
      (modify (fun bpu => bpu <| bpu_perf := count_kind inst
         (fun p => p <| pf_branch := u64 (pf_branch p + 1) |>)
         (fun p => p <| pf_cond_branch := u64 (pf_cond_branch p + 1) |>)
         (fun p => p <| pf_jal := u64 (pf_jal p + 1) |>)
         (fun p => p <| pf_jalr := u64 (pf_jalr p + 1) |>) (bpu_perf bpu) |>));;
    bpu_update_pred_meta update;;
    bpu_update_tables update;;
    bpu_update_ras update;;
    if negb (up_pred_true update) then mret tt
    else when (negb (up_is_boot_code update))
      (modify (fun bpu => bpu <| bpu_perf := count_kind inst
         (fun p => p <| pf_pred_true := u64 (pf_pred_true p + 1) |>)
         (fun p => p <| pf_cond_branch_pred_true := u64 (pf_cond_branch_pred_true p + 1) |>)
         (fun p => p <| pf_jal_pred_true := u64 (pf_jal_pred_true p + 1) |>)
         (fun p => p <| pf_jalr_pred_true := u64 (pf_jalr_pred_true p + 1) |>) (bpu_perf bpu) |>)).
