(* ===== verification/BpuSpec.v ===== *)
(** * What the branch prediction unit promises

    The return address stack is a bounded stack, and matched calls and returns are predicted;
    the target buffer is a map that forgets; a prediction made while an update is on its way is
    the one that the updated tables would give. *)

From stdpp Require Import base numbers list relations.
From Stdlib Require Import ZArith Lia.
From S2P Require Import Prelude Fifo Isa Bpu.

(** ** The return address stack *)

Record ras_wf (r : bpu_ras_t) : Prop := {
  rw_len : length (ras_entry r) = 16%nat;
  rw_sp : 0 <= ras_sp r < 16;
  rw_count : 0 <= ras_count r <= 16
}.

(** The entry [i] below the top. *)
Definition ras_at (r : bpu_ras_t) (i : nat) : Z :=
  default 0 (ras_entry r !! Z.to_nat ((ras_sp r - 1 - Z.of_nat i) mod 16)).

(** The stack, its top first. *)
Definition ras_abs (r : bpu_ras_t) : list Z := ras_at r <$> seq 0 (Z.to_nat (ras_count r)).

Lemma ras_dec x : 0 <= x < 16 -> u32 (u32 (x + BPU_RAS_SIZE) - 1) mod BPU_RAS_SIZE = (x - 1) mod 16.
Proof.
  intros. unfold BPU_RAS_SIZE. rewrite (u32_small (x + 16)), u32_small by (unfold is_u32, W32; lia).
  replace (x + 16 - 1) with (x - 1 + 1 * 16) by lia. by rewrite Z_mod_plus_full.
Qed.

Lemma ras_below sp i : ((sp + 1) mod 16 - 1 - (i + 1)) mod 16 = (sp - 1 - i) mod 16.
Proof. zdiv. Qed.

Lemma ras_push_run r pc : ras_wf r -> wp (bpu_ras_push pc) (fun _ r' =>
  ras_wf r' /\ ras_abs r' = take 16 (pc :: ras_abs r)) r.
Proof.
  intros [Hl Hs Hc]. unfold bpu_ras_push. apply wp_bind, wp_gets. unfold id. apply wp_bind.
  rewrite aset_insert by lia. eapply wp_intro; [reflexivity|]. apply wp_bind, wp_modify, wp_bind, wp_modify.
  set (r1 := BpuRas (<[Z.to_nat (ras_sp r) := pc]> (ras_entry r)) ((ras_sp r + 1) mod 16)
    (if ras_count r <? 16 then ras_count r + 1 else ras_count r)).
  enough (ras_wf r1 /\ ras_abs r1 = take 16 (pc :: ras_abs r)) as H.
  { unfold when, BPU_RAS_SIZE. subst r1. destruct r as [en sp cnt]. simpl in *.
    rewrite (u32_small (sp + 1)) by (unfold is_u32, W32; lia).
    destruct (Z.ltb_spec cnt 16); [apply wp_modify|apply wp_ret]; unfold upd; simpl; [|done].
    by rewrite u32_small by (unfold is_u32, W32; lia). }
  split.
  - split; simpl; [by rewrite length_insert|zdiv|]. destruct (Z.ltb_spec (ras_count r) 16); lia.
  - apply list_eq. intros i. unfold ras_abs. simpl ras_count.
    set (n := Z.to_nat (ras_count r)).
    assert (Z.to_nat (if ras_count r <? 16 then ras_count r + 1 else ras_count r) = Nat.min 16 (S n)) as ->
      by (destruct (Z.ltb_spec (ras_count r) 16); lia).
    destruct (decide (i < Nat.min 16 (S n))%nat) as [Hi|Hi].
    + rewrite list_lookup_fmap, lookup_seq_lt, lookup_take_lt by lia. simpl. unfold ras_at at 1, r1. simpl.
      destruct i as [|i]; simpl.
      * replace (((ras_sp r + 1) mod 16 - 1 - Z.of_nat 0) mod 16) with (ras_sp r) by zdiv.
        rewrite list_lookup_insert_eq by lia. done.
      * rewrite list_lookup_fmap, lookup_seq_lt by lia. simpl. f_equal. unfold ras_at.
        replace (Z.of_nat (S i)) with (Z.of_nat i + 1) by lia. rewrite ras_below.
        rewrite list_lookup_insert_ne; [done|]. pose proof (Z.mod_pos_bound (ras_sp r - 1 - Z.of_nat i) 16 ltac:(lia)).
        intros E%Z2Nat.inj; [|lia..]. revert E. clear -Hs Hi. zdiv.
    + rewrite (lookup_ge_None_2 _ i) by (rewrite length_fmap, length_seq; lia).
      rewrite (lookup_ge_None_2 _ i); [done|]. rewrite length_take, length_cons, length_fmap, length_seq. lia.
Qed.

Lemma ras_pop_run r : ras_wf r -> wp bpu_ras_pop (fun _ r' => ras_wf r' /\ ras_abs r' = tail (ras_abs r)) r.
Proof.
  intros [Hl Hs Hc]. unfold bpu_ras_pop. apply wp_bind, wp_gets. unfold id.
  destruct (Z.eqb_spec (ras_count r) 0) as [E|E].
  - apply wp_ret. split; [by split|]. unfold ras_abs. by rewrite E.
  - apply wp_modify. rewrite ras_dec by done. upd_proj. split; [split; upd_proj; [done|zdiv|lia]|].
    unfold ras_abs. upd_proj. replace (Z.to_nat (ras_count r)) with (S (Z.to_nat (ras_count r - 1))) by lia.
    simpl. rewrite <- fmap_S_seq, <- list_fmap_compose. apply list_fmap_ext. intros i j _. simpl.
    unfold ras_at. upd_proj. do 3 f_equal. zdiv.
Qed.

Lemma ras_peek_run r : ras_wf r -> bpu_ras_peek r = Some (head (ras_abs r)).
Proof.
  intros [Hl Hs Hc]. unfold bpu_ras_peek. destruct (Z.eqb_spec (ras_count r) 0) as [E|E].
  - unfold ras_abs. by rewrite E.
  - cbv zeta. rewrite ras_dec by done. rewrite aget_lookup by zdiv.
    destruct (lookup_lt_is_Some_2 (ras_entry r) (Z.to_nat ((ras_sp r - 1) mod 16))) as [x Hx]; [zdiv|].
    rewrite Hx. simpl. unfold ras_abs. replace (Z.to_nat (ras_count r)) with (S (Z.to_nat (ras_count r - 1))) by lia.
    simpl. unfold ras_at. replace (ras_sp r - 1 - Z.of_nat 0) with (ras_sp r - 1) by lia. by rewrite Hx.
Qed.

(** The stack after an instruction, by the hints of the manual: a jump that links pushes its
    return address, a jump through a link register pops first unless it links to the same. *)
Definition pushes (i : rv32g_inst_t) : bool :=
  ((i_opcode i =? OPCODE_JAL) || (i_opcode i =? OPCODE_JALR)) && bpu_is_link_reg (i_rd i).
Definition pops (i : rv32g_inst_t) : bool := (i_opcode i =? OPCODE_JALR) && bpu_jalr_reads_ras i.

Definition ras_spec (u : bpu_update_if_t) (l : list Z) : list Z :=
  let l1 := if pops (up_ir u) then tail l else l in
  if pushes (up_ir u) then take 16 (u32 (up_pc u + 4) :: l1) else l1.

Lemma update_ras_run u r : ras_wf r -> wp (bpu_update_ras_state u) (fun _ r' =>
  ras_wf r' /\ ras_abs r' = ras_spec u (ras_abs r)) r.
Proof.
  intros Hr. unfold bpu_update_ras_state, ras_spec, pushes, pops, bpu_jalr_reads_ras. cbv zeta.
  destruct (Z.eqb_spec (i_opcode (up_ir u)) OPCODE_JAL) as [E|E].
  - rewrite E. zconst. cbn [orb andb]. unfold when. destruct (bpu_is_link_reg (i_rd _)); [by apply ras_push_run|by apply wp_ret].
  - destruct (i_opcode (up_ir u) =? OPCODE_JALR); cbn [negb orb andb]; [|by apply wp_ret].
    destruct (bpu_is_link_reg (i_rd _)), (bpu_is_link_reg (i_rs1 _)); cbn [negb orb andb when].
    + destruct (i_rd _ =? i_rs1 _); cbn [negb when].
      * apply wp_bind, wp_ret. by apply ras_push_run.
      * apply wp_bind. eapply wp_mono; [by apply ras_pop_run|]. intros [] r1 [Hr1 <-]. by apply ras_push_run.
    + by apply ras_push_run.
    + by apply ras_pop_run.
    + by apply wp_ret.
Qed.

(** Calls and returns that match, nested at most [d] deep. *)
Inductive nested : nat -> list bpu_update_if_t -> Prop :=
  | nested_nil d : nested d []
  | nested_plain d u us :
      pushes (up_ir u) = false -> pops (up_ir u) = false -> nested d us -> nested d (u :: us)
  | nested_call d u us v us' :
      pushes (up_ir u) = true -> pops (up_ir u) = false -> nested d us ->
      pushes (up_ir v) = false -> pops (up_ir v) = true -> nested (S d) us' ->
      nested (S d) (u :: us ++ v :: us').

Definition ras_run (us : list bpu_update_if_t) (l : list Z) : list Z := foldl (fun l u => ras_spec u l) l us.

Lemma take_tail {A} n (l : list A) : take n (tail l) = tail (take (S n) l).
Proof. destruct l; simpl; [by rewrite take_nil|done]. Qed.

Lemma ras_run_nested d us l : nested d us -> (d <= 16)%nat ->
  take (16 - d) (ras_run us l) = take (16 - d) l.
Proof.
  intros H. revert l. induction H as [|d u us Hp Hq _ IH|d u us v us' Hp Hq _ IH Hvp Hvq _ IH']; intros l Hd; [done|..].
  - simpl. rewrite IH by done. unfold ras_spec. by rewrite Hp, Hq.
  - simpl. unfold ras_run in *. rewrite foldl_app. simpl. rewrite IH' by done.
    unfold ras_spec at 1. rewrite Hvp, Hvq. cbv zeta. rewrite take_tail.
    replace (S (16 - S d)) with (16 - d)%nat by lia. rewrite IH by lia.
    unfold ras_spec. rewrite Hp, Hq. cbv zeta. rewrite take_take.
    replace ((16 - d) `min` 16)%nat with (S (16 - S d)) by lia. done.
Qed.

(** The entry of a call is on top again when all that it called has returned. *)
Lemma ras_after_call d u us l : nested d us -> (d <= 15)%nat -> pushes (up_ir u) = true ->
  head (ras_run us (ras_spec u l)) = Some (u32 (up_pc u + 4)).
Proof.
  intros Hn Hd Hp. pose proof (ras_run_nested d us (ras_spec u l) Hn ltac:(lia)) as H.
  replace (16 - d)%nat with (S (15 - d)) in H by lia.
  unfold ras_spec in *. rewrite Hp in *. cbv zeta in *. set (x := ras_run us _) in *.
  destruct x as [|y x]; [done|]. by injection H as ->.
Qed.

(** ** The target buffer *)

Section btb.
  Implicit Types (l : list bpu_btb_entry_t) (e : bpu_btb_entry_t) (pc : Z).

(** The target of the first valid entry for an address. *)
Fixpoint btb_find l pc : option Z :=
  match l with
  | [] => None
  | e :: l => if btb_hit pc e then Some (jb_target_pc e) else btb_find l pc
  end.

Lemma btb_lookup_find l pc : bpu_jalr_btb_lookup l pc = btb_find l pc.
Proof.
  unfold bpu_jalr_btb_lookup. induction l as [|e l IH]; [done|]. simpl.
  destruct (btb_hit pc e); [done|]. rewrite <- IH. by destruct (first_idx _ l).
Qed.

Lemma first_idx_Some {A} (p : A -> bool) (l : list A) i : first_idx p l = Some i ->
  exists x, l !! i = Some x /\ p x = true /\ forall j y, (j < i)%nat -> l !! j = Some y -> p y = false.
Proof.
  revert i. induction l as [|x l IH]; intros i; [done|]. simpl. destruct (p x) eqn:E.
  - intros [= <-]. exists x. split_and!; [done..|]. lia.
  - intros (k & Hk & ->)%fmap_Some. destruct (IH k Hk) as (y & Hy & Hp & Hb). exists y. split_and!; [done..|].
    intros [|j] z Hj Hz; simplify_eq/=; [done|]. apply (Hb j); [lia|done].
Qed.

Lemma first_idx_None {A} (p : A -> bool) (l : list A) : first_idx p l = None -> forall x, x ∈ l -> p x = false.
Proof.
  induction l as [|y l IH]; simpl; [by intros _ x ?%elem_of_nil|]. destruct (p y) eqn:E; [done|].
  intros H%fmap_None x [->|Hx]%elem_of_cons; [done|]. by apply IH.
Qed.

(** No two valid entries for the same address. *)
Definition btb_unique l : Prop := forall i j x y, l !! i = Some x -> l !! j = Some y ->
  jb_vld x = true -> jb_vld y = true -> jb_pc x = jb_pc y -> i = j.

Lemma btb_hit_spec pc e : btb_hit pc e = true <-> jb_vld e = true /\ jb_pc e = pc.
Proof. unfold btb_hit. by rewrite andb_true_iff, Z.eqb_eq. Qed.

Lemma btb_find_none l pc : (forall e, e ∈ l -> btb_hit pc e = false) -> btb_find l pc = None.
Proof.
  induction l as [|e l IH]; [done|]. intros H. simpl. rewrite (H e) by left. apply IH. intros. apply H. by right.
Qed.

(** Replacing an entry: addresses of neither the old nor the new one are as before. *)
Lemma btb_find_insert_ne l i e e' pc : l !! i = Some e -> btb_hit pc e = false -> btb_hit pc e' = false ->
  btb_find (<[i := e']> l) pc = btb_find l pc.
Proof.
  revert i. induction l as [|x l IH]; intros [|i] H He He'; simplify_eq/=; [by rewrite He, He'|].
  destruct (btb_hit pc x); [done|]. by apply IH.
Qed.

Lemma btb_find_insert_eq l i e' pc : (i < length l)%nat -> btb_hit pc e' = true ->
  (forall j y, (j < i)%nat -> l !! j = Some y -> btb_hit pc y = false) ->
  btb_find (<[i := e']> l) pc = Some (jb_target_pc e').
Proof.
  revert i. induction l as [|x l IH]; intros [|i] Hi He Hb; simpl in *; [lia|lia|by rewrite He|].
  rewrite (Hb 0%nat x) by (done || lia). apply IH; [lia|done|]. intros j y Hj Hy. apply (Hb (S j)); [lia|done].
Qed.

Lemma btb_find_evict l i e e' pc : btb_unique l -> l !! i = Some e -> btb_hit pc e = true ->
  btb_hit pc e' = false -> btb_find (<[i := e']> l) pc = None.
Proof.
  intros Hu Hi He He'. apply btb_find_none. intros x (j & Hj)%list_elem_of_lookup.
  destruct (decide (j = i)) as [->|Hne].
  - rewrite list_lookup_insert_eq in Hj by (by eapply lookup_lt_Some). by simplify_eq.
  - rewrite list_lookup_insert_ne in Hj by done. destruct (btb_hit pc x) eqn:Hx; [|done].
    apply btb_hit_spec in He as [??], Hx as [??]. destruct Hne. eapply Hu; try done. congruence.
Qed.

(** Replacing an entry by one for an address that no other entry has. *)
Lemma btb_unique_insert l i e' : btb_unique l ->
  (forall j y, j <> i -> l !! j = Some y -> jb_vld y = true -> jb_pc y <> jb_pc e') ->
  btb_unique (<[i := e']> l).
Proof.
  intros Hu Hn j k x y Hj Hk Hx Hy Hpc.
  destruct (decide (j = i)) as [->|Hji], (decide (k = i)) as [->|Hki]; [done|..].
  - rewrite list_lookup_insert_ne in Hk by done.
    rewrite list_lookup_insert_eq in Hj by (apply lookup_lt_Some in Hj; by rewrite length_insert in Hj).
    simplify_eq. by destruct (Hn k y Hki Hk Hy).
  - rewrite list_lookup_insert_ne in Hj by done.
    rewrite list_lookup_insert_eq in Hk by (apply lookup_lt_Some in Hk; by rewrite length_insert in Hk).
    simplify_eq. by destruct (Hn j x Hji Hj Hx).
  - rewrite list_lookup_insert_ne in Hj, Hk by done. by eapply Hu.
Qed.

Lemma lru_loop_bound l i k m : (k < i)%nat -> (lru_loop l i k m < i + length l)%nat.
Proof.
  revert i k m. induction l as [|e l IH]; intros i k m Hk; simpl; [lia|].
  case_match; (eapply Nat.lt_le_trans; [apply IH; lia|lia]).
Qed.

Lemma lru_idx_bound l : l <> [] -> (lru_idx l < length l)%nat.
Proof. destruct l as [|e l]; [done|]. intros _. simpl. apply (lru_loop_bound l 1 0). lia. Qed.

End btb.

(** ** The unit *)

Record bpu_wf (b : bpu_t) : Prop := {
  bw_ras : ras_wf (ras b);
  bw_bht : length (cond_bht b) = 512%nat;
  bw_btb : jalr_btb b <> [];
  bw_unique : btb_unique (jalr_btb b)
}.

(** The parts that the target buffer does not touch. *)
Definition but_btb (b : bpu_t) := (cond_bht b, ras b, update_slv b, pred_req_i b).

Lemma alter_insert_Some {A} (f : A -> A) (l : list A) i x : l !! i = Some x -> alter f i l = <[i := f x]> l.
Proof. revert i. induction l as [|y l IH]; intros [|i] H; simplify_eq/=; [done|]. f_equal. by apply IH. Qed.

Lemma insert_not_nil {A} (l : list A) i x : l <> [] -> <[i := x]> l <> [].
Proof. by destruct l, i. Qed.

Lemma btb_touch_run pc b : bpu_wf b -> wp (bpu_jalr_btb_touch pc) (fun _ b' =>
  bpu_wf b' /\ but_btb b' = but_btb b /\ forall pc', btb_find (jalr_btb b') pc' = btb_find (jalr_btb b) pc') b.
Proof.
  intros [H1 H2 H3 H4]. unfold bpu_jalr_btb_touch. apply wp_bind, wp_modify, wp_bind, wp_gets. unfold id. upd_proj.
  destruct (first_idx _ _) as [i|] eqn:Ei; [|apply wp_ret; by split].
  apply first_idx_Some in Ei as (e & He & Hh & Hb). apply wp_modify. unfold but_btb. upd_proj.
  erewrite (alter_insert_Some _ _ i e) by done. set (e' := e <| jb_last_used := _ |>).
  assert (forall pc', btb_hit pc' e' = btb_hit pc' e) as Hsame by done.
  split_and!; [split; upd_proj; try done|done|].
  - by apply insert_not_nil.
  - apply btb_unique_insert; [done|]. intros j y Hj Hy Hv Hpc. destruct Hj. apply btb_hit_spec in Hh as [? _]. by eapply H4.
  - intros pc'. destruct (btb_hit pc' e) eqn:Hp; [|by eapply btb_find_insert_ne].
    assert (pc' = pc) as -> by (apply btb_hit_spec in Hp as [_ <-], Hh as [_ <-]; done).
    rewrite btb_find_insert_eq by (try done; by eapply lookup_lt_Some).
    rewrite <- (list_insert_id (jalr_btb b) i e) at 1 by done.
    rewrite btb_find_insert_eq by (try done; by eapply lookup_lt_Some). done.
Qed.

(** What an update of the buffer for [pc] leaves: its target, and the other targets unless one is
    forgotten. *)
Definition btb_updated (b b' : bpu_t) (pc t : Z) : Prop :=
  bpu_wf b' /\ but_btb b' = but_btb b /\ btb_find (jalr_btb b') pc = Some t /\
  forall pc', pc' <> pc ->
    btb_find (jalr_btb b') pc' = btb_find (jalr_btb b) pc' \/ btb_find (jalr_btb b') pc' = None.

Lemma btb_replace b b' i e e' pc t : bpu_wf b -> jalr_btb b !! i = Some e ->
  jb_vld e' = true -> jb_pc e' = pc -> jb_target_pc e' = t ->
  (forall j y, j <> i -> jalr_btb b !! j = Some y -> jb_vld y = true -> jb_pc y <> pc) ->
  but_btb b' = but_btb b -> jalr_btb b' = <[i := e']> (jalr_btb b) -> btb_updated b b' pc t.
Proof.
  intros [H1 H2 H3 H4] Hi Hv' Hp' Ht' Hu Hbut Hbtb. pose proof Hbut as Hbut'. unfold but_btb in Hbut'.
  injection Hbut' as E1 E2 _ _. split; [|split; [done|split]].
  - split; rewrite ?E1, ?E2, ?Hbtb; try done; [by apply insert_not_nil|].
    apply btb_unique_insert; [done|]. intros. rewrite Hp'. by eapply Hu.
  - rewrite Hbtb, <- Ht'. apply btb_find_insert_eq; [by eapply lookup_lt_Some|by apply btb_hit_spec|].
    intros j y Hj Hy. apply not_true_is_false. intros [Hv Hp]%btb_hit_spec. apply (Hu j y); [lia|done..].
  - intros pc' Hpc'. rewrite Hbtb.
    assert (btb_hit pc' e' = false) as Hm by (apply not_true_is_false; intros [_ Hp]%btb_hit_spec; congruence).
    destruct (btb_hit pc' e) eqn:Hh; [right; by eapply btb_find_evict|left; by eapply btb_find_insert_ne].
Qed.

Lemma update_btb_run pc t b : bpu_wf b ->
  wp (bpu_update_jalr_btb pc t) (fun _ b' => btb_updated b b' pc t) b.
Proof.
  intros Hb. pose proof Hb as [H1 H2 H3 H4]. unfold bpu_update_jalr_btb.
  apply wp_bind, wp_modify, wp_bind, wp_gets. unfold id. upd_proj.
  destruct (first_idx _ _) as [i|] eqn:Ei.
  - apply first_idx_Some in Ei as (e & He & [Hv Hp]%btb_hit_spec & _). apply wp_modify.
    eapply (btb_replace _ _ i e); [done|done|..|reflexivity|upd_proj; by erewrite (alter_insert_Some _ _ i e) by done];
      try done.
    intros j y Hj Hy Hv' Hpc. destruct Hj. eapply H4; try done. congruence.
  - assert (forall j y, jalr_btb b !! j = Some y -> jb_vld y = true -> jb_pc y <> pc) as Hno.
    { intros j y Hy Hv Hp. assert (btb_hit pc y = true) as Hh by (by apply btb_hit_spec).
      by rewrite (first_idx_None _ _ Ei y) in Hh by (by eapply list_elem_of_lookup_2). }
    destruct (first_idx (fun e => negb (jb_vld e)) _) as [i|] eqn:Ej.
    + apply first_idx_Some in Ej as (e & He & _ & _). apply wp_modify.
      eapply (btb_replace _ _ i e); [done|done|..|reflexivity|upd_proj; reflexivity]; try done. intros j y _. apply Hno.
    + apply wp_modify. upd_proj. destruct (lookup_lt_is_Some_2 _ _ (lru_idx_bound _ H3)) as [e He].
      eapply (btb_replace _ _ _ e); [done|done|..|reflexivity|upd_proj; reflexivity]; try done. intros j y _. apply Hno.
Qed.

(** What a clock leaves. *)
Record clocked (b b' : bpu_t) : Prop := {
  ck_wf : bpu_wf b';
  ck_io : update_slv b' = update_slv b /\ pred_req_i b' = pred_req_i b;
  ck_ras : ras_abs (ras b') =
    if up_vld (update_slv b) then ras_spec (update_slv b) (ras_abs (ras b)) else ras_abs (ras b);
  ck_bht : cond_bht b' =
    if bpu_update_is_opcode (update_slv b) OPCODE_BRANCH
    then alter (fun e => bht_next e (up_taken (update_slv b))) (Z.to_nat (bpu_cond_bht_idx (up_pc (update_slv b))))
           (cond_bht b)
    else cond_bht b;
  ck_btb : forall pc,
    btb_find (jalr_btb b') pc =
      (if bpu_update_is_opcode (update_slv b) OPCODE_JALR && (up_pc (update_slv b) =? pc)
       then Some (up_target_pc (update_slv b)) else btb_find (jalr_btb b) pc) \/
    (bpu_update_is_opcode (update_slv b) OPCODE_JALR = true /\ up_pc (update_slv b) <> pc /\
     btb_find (jalr_btb b') pc = None)
}.

(** The counters of the unit are no part of its behaviour. *)
Definition but_perf (b : bpu_t) := (but_btb b, jalr_btb b).

Lemma wf_but_perf b b' : but_perf b' = but_perf b -> bpu_wf b -> bpu_wf b'.
Proof. unfold but_perf, but_btb. intros E [H1 H2 H3 H4]. injection E as E1 E2 _ _ E5. split; rewrite ?E1, ?E2, ?E5; done. Qed.

Lemma wp_perf c f s (Q : unit -> bpu_t -> Prop) : (forall s', but_perf s' = but_perf s -> Q tt s') ->
  wp (when c (modify (fun bpu => bpu <| bpu_perf := f bpu |>))) Q s.
Proof. intros HQ. destruct c; [apply wp_modify|apply wp_ret]; by apply HQ. Qed.

Lemma pred_meta_run u b : bpu_wf b -> wp (bpu_update_pred_meta u) (fun _ b' =>
  bpu_wf b' /\ but_btb b' = but_btb b /\ forall pc', btb_find (jalr_btb b') pc' = btb_find (jalr_btb b) pc') b.
Proof.
  intros Hb. unfold bpu_update_pred_meta.
  apply wp_bind, wp_perf. intros s1 E1. apply wp_bind, wp_perf. intros s2 E2. rewrite E1 in E2. apply wp_bind.
  assert (wp (when (up_pred_jalr_btb_hit u)
    (modify (fun bpu => bpu <| bpu_perf := bpu_perf bpu
       <| pf_jalr_btb_hit := u64 (pf_jalr_btb_hit (bpu_perf bpu) + 1) |> |>);; bpu_jalr_btb_touch (up_pc u)))
    (fun _ b' => bpu_wf b' /\ but_btb b' = but_btb s2 /\
       forall pc', btb_find (jalr_btb b') pc' = btb_find (jalr_btb s2) pc') s2) as Ht.
  { pose proof (wf_but_perf _ _ E2 Hb) as Hw2. destruct (up_pred_jalr_btb_hit u); [|by apply wp_ret].
    apply wp_bind, wp_modify. eapply wp_mono; [apply btb_touch_run; by apply (wf_but_perf s2)|]. done. }
  eapply wp_mono; [exact Ht|]. intros [] s3 (Hw3 & E3 & Hf3). apply wp_perf. intros s4 E4.
  pose proof (f_equal fst E2) as F2. pose proof (f_equal snd E2) as F2'. pose proof (f_equal fst E4) as F4.
  pose proof (f_equal snd E4) as F4'. cbn [fst snd but_perf] in *.
  split; [by apply (wf_but_perf s3)|]. split; [congruence|]. intros pc'. by rewrite F4', Hf3, F2'.
Qed.

Lemma bht_idx_range pc : 0 <= bpu_cond_bht_idx pc < 512.
Proof.
  unfold bpu_cond_bht_idx, BPU_COND_BHT_SIZE. change (512 - 1) with (Z.ones 9). rewrite Z.land_ones by lia.
  change (2 ^ 9) with 512. apply Z.mod_pos_bound. lia.
Qed.

(** The tables after an update. *)
Lemma tables_run u b : bpu_wf b -> wp (bpu_update_tables u) (fun _ b' =>
  bpu_wf b' /\ ras b' = ras b /\ update_slv b' = update_slv b /\ pred_req_i b' = pred_req_i b /\
  cond_bht b' = (if i_opcode (up_ir u) =? OPCODE_BRANCH
    then alter (fun e => bht_next e (up_taken u)) (Z.to_nat (bpu_cond_bht_idx (up_pc u))) (cond_bht b) else cond_bht b) /\
  forall pc,
    btb_find (jalr_btb b') pc =
      (if (i_opcode (up_ir u) =? OPCODE_JALR) && (up_pc u =? pc) then Some (up_target_pc u)
       else btb_find (jalr_btb b) pc) \/
    ((i_opcode (up_ir u) =? OPCODE_JALR) = true /\ up_pc u <> pc /\ btb_find (jalr_btb b') pc = None)) b.
Proof.
  intros Hb. pose proof Hb as [H1 H2 H3 H4]. unfold bpu_update_tables. cbv zeta.
  destruct (Z.eqb_spec (i_opcode (up_ir u)) OPCODE_BRANCH) as [E|E].
  - pose proof (bht_idx_range (up_pc u)) as Hi. apply wp_bind, wp_gets, wp_bind. unfold id.
    destruct (aget_is_Some (cond_bht b) (bpu_cond_bht_idx (up_pc u))) as [e He]; [lia|]. rewrite He.
    eapply wp_intro; [reflexivity|]. apply wp_bind. rewrite aset_insert by lia. eapply wp_intro; [reflexivity|].
    apply wp_modify. rewrite aget_lookup in He by lia. rewrite (alter_insert_Some _ _ _ e) by done.
    rewrite E. upd_proj. zconst. split_and!; try done; [|by left].
    split; upd_proj; try done. by rewrite length_insert.
  - unfold when. destruct (i_opcode (up_ir u) =? OPCODE_JALR); [|apply wp_ret; split_and!; try done; by left].
    eapply wp_mono; [by apply update_btb_run|]. intros [] b' (Hw & Hbut & Hf & Ho).
    unfold but_btb in Hbut. injection Hbut as E1 E2 E3 E4. split_and!; try done. intros pc.
    destruct (Z.eqb_spec (up_pc u) pc) as [<-|Hne]; [by left|].
    destruct (Ho pc ltac:(done)) as [Ho'|Ho']; [by left|by right].
Qed.

Lemma clock_run b : bpu_wf b -> wp bpu_clock (fun _ b' => clocked b b') b.
Proof.
  intros Hb. unfold bpu_clock. apply wp_bind, wp_gets. unfold id. set (u := update_slv b).
  destruct (up_vld u) eqn:Ev; cbn [negb].
  2:{ apply wp_ret. assert (forall op, bpu_update_is_opcode u op = false) as Ho
        by (intros op; unfold bpu_update_is_opcode; by rewrite Ev).
      split; fold u; rewrite ?Ev, ?Ho; try done. intros pc. by left. }
  assert (forall op, bpu_update_is_opcode u op = (i_opcode (up_ir u) =? op)) as Ho
    by (intros op; unfold bpu_update_is_opcode; by rewrite Ev).
  apply wp_bind, wp_perf. intros s1 E1. pose proof (wf_but_perf _ _ E1 Hb) as Hw1.
  apply wp_bind. eapply wp_mono; [by apply pred_meta_run|]. intros [] s2 (Hw2 & E2 & Hf2).
  apply wp_bind. eapply wp_mono; [by apply tables_run|]. intros [] s3 (Hw3 & E3 & E4 & E5 & E6 & Hf3).
  apply wp_bind. unfold bpu_update_ras. apply wp_on. eapply wp_mono; [apply update_ras_run, Hw3|].
  intros [] r' [Hr' Ha']. set (s4 := s3 <| ras := r' |>).
  unfold but_perf, but_btb in E1, E2. injection E1 as F1 F2 F3 F4 F5. injection E2 as G1 G2 G3 G4.
  assert (clocked b s4) as Hc.
  { destruct Hw3 as [K1 K2 K3 K4].
    split; unfold s4; upd_proj; fold u; rewrite ?Ho, ?Ev; try done.
    - rewrite E4, E5, G3, G4, F3, F4. done.
    - rewrite Ha', E3, G2, F2. done.
    - rewrite E6, G1, F1. done.
    - intros pc. specialize (Hf3 pc). rewrite Hf2, F5 in Hf3. exact Hf3. }
  assert (forall s', but_perf s' = but_perf s4 -> clocked b s') as Hend.
  { intros s' E. pose proof (wf_but_perf _ _ E (ck_wf _ _ Hc)) as Hw. unfold but_perf, but_btb in E.
    injection E as I1 I2 I3 I4 I5. destruct Hc. split; rewrite ?I1, ?I2, ?I3, ?I4, ?I5; done. }
  destruct (negb (up_pred_true u)); [apply wp_ret; by apply Hend|]. by apply wp_perf.
Qed.

(** ** Predictions *)

(** The prediction for a request, from the counter of its address, the top of the stack and the
    target that is known for its address. *)
Definition predict (req : bpu_pred_req_if_t) (ctr top target : option Z) : bpu_pred_rsp_if_t :=
  let pc := pq_pc req in
  let inst := pq_ir req in
  let next := u32 (pc + 4) in
  if negb (pq_vld req) then BpuPredRsp false false false next false false false false
  else if i_opcode inst =? OPCODE_JAL then
    BpuPredRsp true true true (u32 (pc + j_imm_decode inst)) false false false false
  else if i_opcode inst =? OPCODE_BRANCH then
    let taken := match ctr with Some c => 2 <=? c | None => s32 (b_imm_decode inst) <? 0 end in
    BpuPredRsp true true taken (if taken then u32 (pc + b_imm_decode inst) else next)
      (bool_decide (is_Some ctr)) false false false
  else if i_opcode inst =? OPCODE_JALR then
    match (if bpu_jalr_reads_ras inst then top else None), target with
    | Some t, _ => BpuPredRsp true true true t false true false false
    | None, Some t => BpuPredRsp true true true t false false true false
    | None, None => BpuPredRsp true true false next false false false true
    end
  else BpuPredRsp true false false next false false false false.

Definition bht_counter (bht : list bpu_bht_entry_t) (pc : Z) : option Z :=
  e ← bht !! Z.to_nat (bpu_cond_bht_idx pc);
  if bh_vld e then Some (bh_counter e) else None.

(** The prediction of the tables. *)
Definition table_prediction (b : bpu_t) : bpu_pred_rsp_if_t :=
  let req := pred_req_i b in
  predict req (bht_counter (cond_bht b) (pq_pc req)) (head (ras_abs (ras b))) (btb_find (jalr_btb b) (pq_pc req)).

Lemma bht_lookup_run b pc : bpu_wf b -> bpu_cond_bht_lookup_effective b (update_slv b) pc =
  Some (bht_counter (if bpu_update_is_opcode (update_slv b) OPCODE_BRANCH
    then alter (fun e => bht_next e (up_taken (update_slv b))) (Z.to_nat (bpu_cond_bht_idx (up_pc (update_slv b))))
           (cond_bht b)
    else cond_bht b) pc).
Proof.
  intros [_ Hl _ _]. unfold bpu_cond_bht_lookup_effective, bht_counter. cbv zeta.
  pose proof (bht_idx_range pc) as Hi. pose proof (bht_idx_range (up_pc (update_slv b))) as Hj.
  destruct (aget_is_Some (cond_bht b) (bpu_cond_bht_idx pc)) as [e He]; [lia|]. rewrite He. simpl.
  rewrite aget_lookup in He by lia. f_equal.
  destruct (bpu_update_is_opcode _ _); cbn [andb]; [|rewrite He; simpl; by destruct (bh_vld e)].
  destruct (Z.eqb_spec (bpu_cond_bht_idx (up_pc (update_slv b))) (bpu_cond_bht_idx pc)) as [->|Hne].
  - rewrite (alter_insert_Some _ _ _ e), list_lookup_insert_eq by (done || lia). simpl. by destruct (bh_vld (bht_next _ _)).
  - rewrite list_lookup_alter_ne by lia. rewrite He. simpl. by destruct (bh_vld e).
Qed.

(** The response: the tables with the update that is on its way. *)
Lemma eval_run b : bpu_wf b -> wp bpu_eval_pred_req (fun _ b' =>
  let req := pred_req_i b in
  let u := update_slv b in
  b' = b <| pred_rsp_mst := predict req
    (bht_counter (if bpu_update_is_opcode u OPCODE_BRANCH
       then alter (fun e => bht_next e (up_taken u)) (Z.to_nat (bpu_cond_bht_idx (up_pc u))) (cond_bht b)
       else cond_bht b) (pq_pc req))
    (head (if up_vld u then ras_spec u (ras_abs (ras b)) else ras_abs (ras b)))
    (if bpu_update_is_opcode u OPCODE_JALR && (up_pc u =? pq_pc req) then Some (up_target_pc u)
     else btb_find (jalr_btb b) (pq_pc req)) |>) b.
Proof.
  intros Hb. unfold bpu_eval_pred_req. apply wp_bind, wp_gets. unfold id. cbv zeta.
  set (req := pred_req_i b). set (u := update_slv b). unfold predict. set (inst := pq_ir req).
  destruct (pq_vld req); cbn [negb]; [|by apply wp_modify]. upd_proj. cbv beta.
  destruct (Z.eqb_spec (i_opcode inst) OPCODE_JAL) as [E|E]; [rewrite E; zconst; by apply wp_modify|]. cbn [orb].
  destruct (Z.eqb_spec (i_opcode inst) OPCODE_BRANCH) as [E2|E2].
  { rewrite E2. zconst. cbn [orb negb]. apply wp_bind. unfold u. rewrite bht_lookup_run by done.
    eapply wp_intro; [reflexivity|]. fold u. destruct (bht_counter _ _) as [ctr|].
    - apply wp_modify. upd_proj. by destruct (2 <=? ctr).
    - apply wp_modify. by destruct (s32 _ <? 0). }
  rewrite orb_false_r. destruct (i_opcode inst =? OPCODE_JALR); cbn [negb andb]; [|by apply wp_modify].
  assert (wp (bpu_ras_apply_effective_update u) (fun _ r => ras_wf r /\
    ras_abs r = if up_vld u then ras_spec u (ras_abs (ras b)) else ras_abs (ras b)) (ras b)) as Hras.
  { unfold bpu_ras_apply_effective_update. destruct (up_vld u); cbn [negb].
    - apply update_ras_run, Hb.
    - apply wp_ret. split; [apply Hb|done]. }
  apply wp_elim in Hras as ([] & r & Er & Hr & Ha).
  apply wp_bind. destruct (bpu_jalr_reads_ras inst).
  - apply wp_bind. rewrite Er. eapply wp_intro; [reflexivity|]. rewrite ras_peek_run by done.
    apply (wp_intro _ _ _ (head (ras_abs r)) b); [reflexivity|]. rewrite Ha. destruct (head _) as [t|]; [by apply wp_modify|].
    unfold bpu_jalr_btb_lookup_effective. rewrite btb_lookup_find. fold u. by case_match; apply wp_modify.
  - apply wp_ret. unfold bpu_jalr_btb_lookup_effective. rewrite btb_lookup_find. fold u. by case_match; apply wp_modify.
Qed.

(** ** Runs *)

(** The unit evaluates requests and is clocked; the fetch unit drives its two inputs. *)
Inductive bpu_step : bpu_t -> bpu_t -> Prop :=
  | BpuEval b b' : bpu_eval_pred_req b = Some (tt, b') -> bpu_step b b'
  | BpuClock b b' : bpu_clock b = Some (tt, b') -> bpu_step b b'
  | BpuRequest b req : bpu_step b (b <| pred_req_i := req |>)
  | BpuUpdates b u : bpu_step b (b <| update_slv := u |>).

Definition bpu_reachable (b : bpu_t) : Prop :=
  exists b0 b1, bpu_reset b0 = Some (tt, b1) /\ rtc bpu_step b1 b.

Lemma reset_wf b0 b1 : bpu_reset b0 = Some (tt, b1) -> bpu_wf b1.
Proof.
  intros H. refine (wlp_elim bpu_reset (fun _ b' => bpu_wf b') b0 tt b1 _ H). apply wlp_modify. split; upd_proj.
  - by split.
  - by rewrite length_replicate.
  - done.
  - intros i j x y [-> _]%lookup_replicate. done.
Qed.

Lemma wf_io b b' : but_perf b' = but_perf (b <| update_slv := update_slv b' |> <| pred_req_i := pred_req_i b' |>) ->
  bpu_wf b -> bpu_wf b'.
Proof.
  unfold but_perf, but_btb. upd_proj. intros E [H1 H2 H3 H4]. injection E as E1 E2 E3.
  split; rewrite ?E1, ?E2, ?E3; done.
Qed.

Lemma reachable_wf b : bpu_reachable b -> bpu_wf b.
Proof.
  intros (b0 & b1 & Hr & Hrun). apply reset_wf in Hr. induction Hrun as [|b1 b2 b Hs _ IH]; [done|]. apply IH. clear IH.
  destruct Hs as [s s' E|s s' E|s req|s u].
  - pose proof (eval_run s Hr) as H. unfold wp in H. rewrite E in H. simpl in H. subst s'. by apply (wf_io s).
  - pose proof (clock_run s Hr) as H. unfold wp in H. rewrite E in H. apply H.
  - by apply (wf_io s).
  - by apply (wf_io s).
Qed.

(** A prediction changes with the known target only when it comes from that target. *)
Lemma predict_target req ctr top t :
  predict req ctr top (Some t) = predict req ctr top None \/
  (pq_vld req = true /\ i_opcode (pq_ir req) = OPCODE_JALR /\
   predict req ctr top (Some t) = BpuPredRsp true true true t false false true false /\
   predict req ctr top None = BpuPredRsp true true false (u32 (pq_pc req + 4)) false false false true).
Proof.
  unfold predict. destruct (pq_vld req); cbn [negb]; [|by left].
  destruct (i_opcode (pq_ir req) =? OPCODE_JAL); [by left|]. destruct (i_opcode (pq_ir req) =? OPCODE_BRANCH); [by left|].
  destruct (Z.eqb_spec (i_opcode (pq_ir req)) OPCODE_JALR); [|by left].
  destruct (if bpu_jalr_reads_ras (pq_ir req) then top else None); [by left|]. by right.
Qed.

(** C34: The bypass is exact.  In every reachable state, the prediction that the unit gives in a
    cycle, looking at the tables and the update that is on its way into them, is the one that
    the tables give once the clock has put the update in, with one exception: the request is for
    an indirect jump that is predicted from the target buffer, and the update, of an indirect jump
    at another address, replaces the very entry that gave the target; the unit then still predicts
    that target, where the tables after the clock have none and predict the next instruction. *)
Theorem bpu_bypass_exact b : bpu_reachable b -> exists b1 b2,
  bpu_eval_pred_req b = Some (tt, b1) /\ bpu_clock b = Some (tt, b2) /\
  let u := update_slv b in
  let req := pred_req_i b in
  (pred_rsp_mst b1 = table_prediction b2 \/
   (up_vld u = true /\ i_opcode (up_ir u) = OPCODE_JALR /\ up_pc u <> pq_pc req /\
    pq_vld req = true /\ i_opcode (pq_ir req) = OPCODE_JALR /\
    exists t, bpu_jalr_btb_lookup (jalr_btb b) (pq_pc req) = Some t /\
      bpu_jalr_btb_lookup (jalr_btb b2) (pq_pc req) = None /\
      pred_rsp_mst b1 = BpuPredRsp true true true t false false true false /\
      table_prediction b2 = BpuPredRsp true true false (u32 (pq_pc req + 4)) false false false true)).
Proof.
  intros Hb%reachable_wf. destruct (wp_elim _ _ _ (eval_run b Hb)) as ([] & b1 & E1 & H1).
  destruct (wp_elim _ _ _ (clock_run b Hb)) as ([] & b2 & E2 & [Hw [Hu Hq] Hras Hbht Hbtb]).
  exists b1, b2. split; [done|]. split; [done|]. simpl in H1. rewrite H1. upd_proj. cbv zeta.
  unfold table_prediction. rewrite Hq, Hras, Hbht, !btb_lookup_find.
  destruct (Hbtb (pq_pc (pred_req_i b))) as [Hf|(Ho & Hne & Hf)]; [left; by rewrite Hf|].
  rewrite Hf, (proj2 (Z.eqb_neq _ _) Hne), andb_false_r.
  destruct (btb_find (jalr_btb b) (pq_pc (pred_req_i b))) as [t|]; [|by left].
  match goal with |- predict _ ?c ?s _ = _ \/ _ => destruct (predict_target (pred_req_i b) c s t) as [H|(H2 & H3 & H4 & H5)] end;
    [by left|]. right. unfold bpu_update_is_opcode in Ho. destruct (up_vld (update_slv b)); [|done]. apply Z.eqb_eq in Ho.
  split_and!; [done..|]. by exists t.
Qed.

(** Updates reach the unit one per cycle. *)
Fixpoint bpu_feed (us : list bpu_update_if_t) : M bpu_t unit :=
  match us with
  | [] => mret tt
  | u :: us => modify (fun b => b <| update_slv := u |>);; bpu_clock;; bpu_feed us
  end.

Definition no_update : bpu_update_if_t :=
  BpuUpdate false 0 0 false 0 false 0 false false false false false false.

Lemma feed_run us b : bpu_wf b -> Forall (fun u => up_vld u = true) us ->
  wp (bpu_feed us) (fun _ b' => bpu_wf b' /\ ras_abs (ras b') = ras_run us (ras_abs (ras b))) b.
Proof.
  intros Hb Hus. revert b Hb. induction Hus as [|u us Hu _ IH]; intros b Hb; [by apply wp_ret|]. simpl.
  apply wp_bind, wp_modify, wp_bind. set (b1 := b <| update_slv := u |>).
  assert (bpu_wf b1) as Hb1 by (by apply (wf_io b)).
  eapply wp_mono; [by apply clock_run|]. intros [] b2 [Hw _ Hras _ _].
  eapply wp_mono; [by apply IH|]. intros [] b3 [Hw3 Hr3]. split; [done|]. rewrite Hr3, Hras.
  change (update_slv b1) with u. rewrite Hu. done.
Qed.

(** C35: Matched returns are predicted.  From every reachable state: after a call, and any sequence of
    calls and returns that match each other and are nested at most 15 deep, with any other
    instructions in between, a return through a link register is predicted taken, to the
    instruction after the call, by the return address stack. *)
Theorem bpu_return_prediction b d call us req : bpu_reachable b ->
  Forall (fun u => up_vld u = true) (call :: us) -> pushes (up_ir call) = true -> nested d us -> (d <= 15)%nat ->
  pq_vld req = true -> pops (pq_ir req) = true ->
  wp (bpu_feed (call :: us);;
      modify (fun b => b <| update_slv := no_update |> <| pred_req_i := req |>);; bpu_eval_pred_req)
    (fun _ b' => pred_rsp_mst b' = BpuPredRsp true true true (u32 (up_pc call + 4)) false true false false) b.
Proof.
  intros Hb%reachable_wf Hv Hp Hn Hd Hvld Hpop. apply wp_bind. eapply wp_mono; [by apply feed_run|].
  intros [] b1 [Hw1 Hr1]. apply wp_bind, wp_modify.
  eapply wp_mono; [by apply eval_run, (wf_io b1)|]. intros [] b2 H2. cbv zeta in H2. rewrite H2. upd_proj.
  change (ras_run (call :: us) (ras_abs (ras b))) with (ras_run us (ras_spec call (ras_abs (ras b)))) in Hr1.
  change (up_vld no_update) with false. cbv iota.
  rewrite Hr1, (ras_after_call d call us _ Hn Hd Hp). unfold predict. rewrite Hvld.
  unfold pops in Hpop. apply andb_prop in Hpop as [E%Z.eqb_eq Hras]. rewrite E, Hras. done.
Qed.

(** ** Witnesses *)

Definition bpu_example : bpu_t :=
  default (Bpu (BpuPredReq false 0 0) (BpuPredRsp false false false 0 false false false false) no_update 0 [] []
    (BpuRas [] 0 0) (BpuPerf 0 0 0 0 0 0 0 0 0 0 0 0 0))
  (snd <$> bpu_reset (Bpu (BpuPredReq false 0 0) (BpuPredRsp false false false 0 false false false false) no_update
    0 [] [] (BpuRas [] 0 0) (BpuPerf 0 0 0 0 0 0 0 0 0 0 0 0 0))).

Lemma bpu_example_reachable : bpu_reachable bpu_example.
Proof. do 2 eexists. split; [reflexivity|apply rtc_refl]. Qed.

(** [jal ra, 16] and [ret]. *)
Definition call_update (pc : Z) : bpu_update_if_t :=
  BpuUpdate true pc (encode_j OPCODE_JAL 1 16) true (pc + 16) true (pc + 16) true false false false false false.
Definition ret_inst : rv32g_inst_t := encode_i OPCODE_JALR 0 0 1 0.

Lemma bpu_bypass_exact_witness :
  bpu_reachable (bpu_example <| update_slv := call_update 0x100 |> <| pred_req_i := BpuPredReq true 0x200 ret_inst |>) /\
  exists b1, bpu_eval_pred_req
    (bpu_example <| update_slv := call_update 0x100 |> <| pred_req_i := BpuPredReq true 0x200 ret_inst |>) =
      Some (tt, b1) /\ pr_pred_pc (pred_rsp_mst b1) = 0x104.
Proof.
  set (b := bpu_example <| update_slv := call_update 0x100 |> <| pred_req_i := BpuPredReq true 0x200 ret_inst |>).
  assert (bpu_reachable b) as Hb.
  { do 2 eexists. split; [reflexivity|]. eapply rtc_l; [apply BpuUpdates|]. eapply rtc_l; [apply BpuRequest|].
    apply rtc_refl. }
  split; [exact Hb|]. destruct (bpu_bypass_exact b Hb) as (b1 & b2 & E1 & _). exists b1. split; [exact E1|].
  assert (bpu_eval_pred_req b = Some (tt, b <| pred_rsp_mst :=
    BpuPredRsp true true true 0x104 false true false false |>)) as E by (vm_compute; reflexivity).
  rewrite E in E1. injection E1 as <-. reflexivity.
Defined.

Lemma bpu_return_prediction_witness :
  nested 0 [] /\
  wp (bpu_feed [call_update 0x100];;
      modify (fun b => b <| update_slv := no_update |> <| pred_req_i := BpuPredReq true 0x200 ret_inst |>);;
      bpu_eval_pred_req)
    (fun _ b' => pred_rsp_mst b' = BpuPredRsp true true true 0x104 false true false false) bpu_example.
Proof.
  split; [constructor|].
  exact (bpu_return_prediction bpu_example 0 (call_update 0x100) [] (BpuPredReq true 0x200 ret_inst)
    bpu_example_reachable ltac:(by repeat constructor) eq_refl (nested_nil 0) ltac:(lia) eq_refl eq_refl).
Defined.
