(* ===== verification/Ifu.v ===== *)
(** * The instruction fetch unit

    [core/hart/ifu.c]: fetches run ahead of execution; responses of fetches on a path that was
    left are discarded; an instruction waits in the issue stage for its prediction and goes to
    the execution unit with it; mispredictions, traps and flushes redirect the fetch.  The
    prediction unit is reached through signals whose write callback runs inside it: [BpuPort]
    is what the fetch unit sees of it. *)

From stdpp Require Import base numbers list.
From Stdlib Require Import ZArith Lia.
From S2P Require Import Prelude Fifo Ost OstScan Isa ExuState Bpu BpuSpec.

(** ** Data *)

Record fch_rsp_if_t := FchRsp {
  fr_ir : Z; fr_ok : bool; fr_expt : bool; fr_cause : Z; fr_priv : Z; fr_tval : Z }.

Record ifu_ctrlq_entry_t := CtrlqEntry {
  cq_vld : bool; cq_pc : Z; cq_ir : Z; cq_pred_taken : bool; cq_pred_pc : Z; cq_cond_bht_hit : bool;
  cq_jalr_ras_hit : bool; cq_jalr_btb_hit : bool; cq_jalr_btb_miss : bool }.

(** The context of a fetch is its address. *)
Record ifu_fch_ost_ctx_t := FchOstCtx { fo_pc : Z }.
#[export] Instance zero_ifu_fch_ost_ctx : Zero ifu_fch_ost_ctx_t := FchOstCtx 0.

Record ifu_fch_rspq_entry_t := FchRspq {
  rp_pc : Z; rp_ir : Z; rp_ok : bool; rp_expt : bool; rp_cause : Z; rp_priv : Z; rp_tval : Z }.

Inductive ifu_fch_state_t :=
| IFU_FCH_STATE_REQ | IFU_FCH_STATE_PEND | IFU_FCH_STATE_RSP | IFU_FCH_STATE_FAULT.
Inductive ifu_redirect_state_t :=
| IFU_REDIRECT_STATE_IDLE | IFU_REDIRECT_STATE_BRANCH | IFU_REDIRECT_STATE_TRAP
| IFU_REDIRECT_STATE_REDIRECT.
#[export] Instance ifu_fch_state_eq_dec : EqDecision ifu_fch_state_t.
Proof. solve_decision. Defined.
#[export] Instance ifu_redirect_state_eq_dec : EqDecision ifu_redirect_state_t.
Proof. solve_decision. Defined.

Record ifu_fch_t := IfuFch {
  f_state : ifu_fch_state_t; f_pc : Z; f_ir : Z; f_req_ptr : Z; f_rsp_ptr : Z;
  f_discard_end_ptr : Z; f_discard_vld : bool }.
#[export] Instance eta_ifu_fch : Eta ifu_fch_t := fun f =>
  IfuFch (f_state f) (f_pc f) (f_ir f) (f_req_ptr f) (f_rsp_ptr f) (f_discard_end_ptr f)
    (f_discard_vld f).

Record ifu_issue_t := IfuIssue {
  is_vld : bool; is_pc : Z; is_ir : Z; is_pred_target_pc : Z; is_pred_taken : bool;
  is_pred_vld : bool; is_pred_redirected : bool; is_is_ctrl : bool; is_cond_bht_hit : bool;
  is_jalr_ras_hit : bool; is_jalr_btb_hit : bool; is_jalr_btb_miss : bool }.
#[export] Instance eta_ifu_issue : Eta ifu_issue_t := fun i =>
  IfuIssue (is_vld i) (is_pc i) (is_ir i) (is_pred_target_pc i) (is_pred_taken i) (is_pred_vld i)
    (is_pred_redirected i) (is_is_ctrl i) (is_cond_bht_hit i) (is_jalr_ras_hit i)
    (is_jalr_btb_hit i) (is_jalr_btb_miss i).

(** ** The port to the prediction unit *)

(** Writing the request signal runs the callback of the unit, writing the update signal does not;
    the response signal can be read at any time. *)
Class BpuPort (B : Type) := {
  port_pred_req : bpu_pred_req_if_t -> M B unit;
  port_update : bpu_update_if_t -> M B unit;
  port_pred_rsp : B -> bpu_pred_rsp_if_t
}.

#[export] Instance bpu_port : BpuPort bpu_t := {
  port_pred_req req := modify (fun b => b <| pred_req_i := req |>);; bpu_eval_pred_req;
  port_update u := modify (fun b => b <| update_slv := u |>);
  port_pred_rsp := pred_rsp_mst
}.

(** What the fetch unit relies on: a request is answered at once, and what is not predicted
    taken goes on with the next instruction. *)
Class BpuPortLaws (B : Type) `{!BpuPort B} := {
  bport_ok : B -> Prop;
  port_pred_req_ok : forall req b, bport_ok b -> wp (port_pred_req req) (fun _ b' => bport_ok b' /\
    (pq_vld req = true -> pr_vld (port_pred_rsp b') = true /\
      (pr_is_ctrl (port_pred_rsp b') && pr_pred_taken (port_pred_rsp b') = false ->
       pr_pred_pc (port_pred_rsp b') = u32 (pq_pc req + 4)))) b;
  port_update_ok : forall u b, bport_ok b -> wp (port_update u) (fun _ b' => bport_ok b') b
}.

Lemma predict_laws req ctr top target : pq_vld req = true ->
  pr_vld (predict req ctr top target) = true /\
  (pr_is_ctrl (predict req ctr top target) && pr_pred_taken (predict req ctr top target) = false ->
   pr_pred_pc (predict req ctr top target) = u32 (pq_pc req + 4)).
Proof.
  intros Hv. unfold predict. rewrite Hv. cbn [negb]. destruct (_ =? OPCODE_JAL); [done|].
  destruct (_ =? OPCODE_BRANCH); [by destruct ctr as [c|]; simpl; case_match|].
  destruct (_ =? OPCODE_JALR); [|done]. by destruct (if bpu_jalr_reads_ras _ then top else None), target.
Qed.

#[export] Program Instance bpu_port_laws : BpuPortLaws bpu_t := { bport_ok := bpu_wf }.
Next Obligation.
  intros req b Hb. simpl. apply wp_bind, wp_modify. eapply wp_mono; [apply eval_run; by apply (wf_io b)|].
  intros [] b' Hb'. cbv zeta in Hb'. rewrite Hb'. upd_proj. split; [by apply (wf_io b)|]. apply predict_laws.
Qed.
Next Obligation. intros u b Hb. simpl. apply wp_modify. by apply (wf_io b). Qed.

(** ** State *)

Record ifu_t (B : Type) := Ifu {
  fch_req_mst : chan Z;
  fch_rsp_slv : chan fch_rsp_if_t;
  ex_req_mst : chan ex_req_if_t;
  ex_rsp_slv : chan ex_rsp_if_t;
  fl_req_mst : chan unit;
  ifu_bpu : B;
  fch_expt_mst : chan hart_expt_if_t;
  trap_send_slv : chan Z;
  tlb_flush_slv : option (chan unit);
  l1i_flush_slv : option (chan unit);
  exu_state_i : option exu_state_if_t;
  reset_pc : Z;
  fch_ost_depth : Z;
  fch : ifu_fch_t;
  back_blocked : bool;
  fch_ost : ostq_t ifu_fch_ost_ctx_t;
  fch_rspq : chan ifu_fch_rspq_entry_t;
  issue : ifu_issue_t;
  redirect_state : ifu_redirect_state_t;
  redirect_pc : Z;
  ctrlq : chan ifu_ctrlq_entry_t;
  boot_rom_base : Z;
  boot_rom_size : Z;
  perf_fch_rsp_inst : Z;
  perf_fch_ost_full : Z
}.
Arguments Ifu {B}.
Arguments fch_req_mst {B}. Arguments fch_rsp_slv {B}. Arguments ex_req_mst {B}. Arguments ex_rsp_slv {B}.
Arguments fl_req_mst {B}. Arguments ifu_bpu {B}. Arguments fch_expt_mst {B}. Arguments trap_send_slv {B}.
Arguments tlb_flush_slv {B}. Arguments l1i_flush_slv {B}. Arguments exu_state_i {B}. Arguments reset_pc {B}.
Arguments fch_ost_depth {B}. Arguments fch {B}. Arguments back_blocked {B}. Arguments fch_ost {B}.
Arguments fch_rspq {B}. Arguments issue {B}. Arguments redirect_state {B}. Arguments redirect_pc {B}.
Arguments ctrlq {B}. Arguments boot_rom_base {B}. Arguments boot_rom_size {B}.
Arguments perf_fch_rsp_inst {B}. Arguments perf_fch_ost_full {B}.
#[export] Instance eta_ifu B : Eta (ifu_t B) := fun i =>
  Ifu (fch_req_mst i) (fch_rsp_slv i) (ex_req_mst i) (ex_rsp_slv i) (fl_req_mst i) (ifu_bpu i)
    (fch_expt_mst i) (trap_send_slv i) (tlb_flush_slv i) (l1i_flush_slv i) (exu_state_i i) (reset_pc i)
    (fch_ost_depth i) (fch i) (back_blocked i) (fch_ost i) (fch_rspq i) (issue i) (redirect_state i)
    (redirect_pc i) (ctrlq i) (boot_rom_base i) (boot_rom_size i) (perf_fch_rsp_inst i)
    (perf_fch_ost_full i).

(** [ADDR_IN] of [base/def.h]. *)
Definition ADDR_IN (addr base size : Z) : bool := (base <=? addr) && (addr <? u32 (base + size)).

Section ifu.
  Context {B : Type} `{!BpuPort B}.
  Implicit Types (ifu : ifu_t B).

(** ** Signals *)

Definition bpu_pred_req_zero : bpu_pred_req_if_t := BpuPredReq false 0 0.

Definition ifu_clear_bpu_pred_req : M (ifu_t B) unit := on ifu_bpu (port_pred_req bpu_pred_req_zero).
Definition ifu_clear_bpu_update : M (ifu_t B) unit := on ifu_bpu (port_update no_update).
Definition ifu_send_bpu_pred_req (pc ir : Z) : M (ifu_t B) unit :=
  on ifu_bpu (port_pred_req (BpuPredReq true pc ir)).

(** ** Fetch bookkeeping *)

Definition set_fch (f : ifu_fch_t -> ifu_fch_t) : M (ifu_t B) unit :=
  modify (fun ifu => ifu <| fch := f (fch ifu) |>).
Definition set_issue (f : ifu_issue_t -> ifu_issue_t) : M (ifu_t B) unit :=
  modify (fun ifu => ifu <| issue := f (issue ifu) |>).

Definition ifu_update_fch_state : M (ifu_t B) unit :=
  ifu ← gets id;
  if bool_decide (f_state (fch ifu) = IFU_FCH_STATE_FAULT) then mret tt
  else if negb (chan_empty (fch_rspq ifu)) then set_fch (fun f => f <| f_state := IFU_FCH_STATE_RSP |>)
  else if negb (ostq_empty (fch_ost ifu)) then set_fch (fun f => f <| f_state := IFU_FCH_STATE_PEND |>)
  else set_fch (fun f => f <| f_state := IFU_FCH_STATE_REQ |>).

Definition ifu_fch_ptr_next (ptr : Z) : M (ifu_t B) Z :=
  ifu ← gets id;
  let ptr_num := u32 (fch_ost_depth ifu * 2) in
  DBG_CHECK (ptr <? ptr_num);;
  mret (if u32 (ptr + 1) =? ptr_num then 0 else u32 (ptr + 1)).

Definition ifu_fch_ptr_distance (ptr_begin ptr_end : Z) : M (ifu_t B) Z :=
  ifu ← gets id;
  let ptr_num := u32 (fch_ost_depth ifu * 2) in
  DBG_CHECK (ptr_begin <? ptr_num);;
  DBG_CHECK (ptr_end <? ptr_num);;
  mret (if ptr_begin <=? ptr_end then ptr_end - ptr_begin else u32 (ptr_num - ptr_begin + ptr_end)).

Definition ifu_check_fch_ost : M (ifu_t B) unit :=
  ifu ← gets id;
  DBG_CHECK (q_free_pending_count (fch_ost ifu) <=? q_count (fch_ost ifu));;
  let active_num := q_count (fch_ost ifu) - q_free_pending_count (fch_ost ifu) in
  ptr_active_num ← ifu_fch_ptr_distance (f_rsp_ptr (fch ifu)) (f_req_ptr (fch ifu));
  DBG_CHECK (ptr_active_num =? active_num);;
  DBG_CHECK (active_num <=? fch_ost_depth ifu);;
  if negb (f_discard_vld (fch ifu)) then mret tt
  else
    discard_num ← ifu_fch_ptr_distance (f_rsp_ptr (fch ifu)) (f_discard_end_ptr (fch ifu));
    DBG_CHECK (0 <? discard_num);;
    DBG_CHECK (discard_num <=? active_num).

Definition ifu_set_fch_discard_boundary : M (ifu_t B) unit :=
  set_fch (fun f => f <| f_discard_end_ptr := f_req_ptr f |>
    <| f_discard_vld := negb (f_rsp_ptr f =? f_req_ptr f) |>).

Definition ifu_flush_fetch_path (pc : Z) : M (ifu_t B) unit :=
  ifu_set_fch_discard_boundary;;
  set_fch (fun f => f <| f_pc := pc |> <| f_ir := 0 |> <| f_state := IFU_FCH_STATE_REQ |>);;
  on fch_rspq chan_clear.

Definition ifu_fault_fetch_path (pc : Z) : M (ifu_t B) unit :=
  ifu_set_fch_discard_boundary;;
  set_fch (fun f => f <| f_pc := pc |> <| f_ir := 0 |> <| f_state := IFU_FCH_STATE_FAULT |>);;
  on fch_rspq chan_clear.

Definition ifu_fch_ost_full ifu : bool :=
  fch_ost_depth ifu <=? u32 (q_count (fch_ost ifu) + chan_num (fch_rspq ifu)).

Definition ifu_request_redirect (pc : Z) (state : ifu_redirect_state_t) : M (ifu_t B) unit :=
  DBG_CHECK (bool_decide (state = IFU_REDIRECT_STATE_BRANCH) || bool_decide (state = IFU_REDIRECT_STATE_TRAP));;
  modify (fun ifu => ifu <| redirect_pc := pc |> <| redirect_state := state |>).

(** ** Control flow queue *)

Definition ifu_ctrlq_push (entry : ifu_ctrlq_entry_t) : M (ifu_t B) unit := on ctrlq (chan_write entry).

(** [None] is the return value [false]. *)
Definition ifu_ctrlq_pop_valid (pc : Z) : M (ifu_t B) (option ifu_ctrlq_entry_t) :=
  ifu ← gets id;
  if chan_empty (ctrlq ifu) then mret None
  else
    entry ← on ctrlq chan_front;
    if negb (cq_vld entry) then
      on ctrlq chan_read;;
      mret None
    else if negb (cq_pc entry =? pc) then mret None
    else
      entry ← on ctrlq chan_read;
      mret (Some entry).

Definition ifu_ctrlq_flush : M (ifu_t B) unit := on ctrlq chan_clear.

(** ** Redirects and flushes *)

Definition ifu_proc_redirect : M (ifu_t B) bool :=
  ifu ← gets id;
  if bool_decide (redirect_state ifu = IFU_REDIRECT_STATE_IDLE) then mret false
  else
    set_issue (fun i => i <| is_vld := false |> <| is_is_ctrl := false |> <| is_pred_vld := false |>
      <| is_pred_redirected := false |>);;
    set_fch (fun f => f <| f_ir := 0 |>);;
    ifu_flush_fetch_path (redirect_pc ifu);;
    modify (fun ifu => ifu <| redirect_state := IFU_REDIRECT_STATE_IDLE |>);;
    mret true.

(** A pointer that may be null. *)
Definition flush_pending (c : option (chan unit)) : bool :=
  match c with Some c => negb (chan_empty c) | None => false end.

Definition ifu_flush_event_pending ifu : bool :=
  flush_pending (tlb_flush_slv ifu) || flush_pending (l1i_flush_slv ifu).

Definition ifu_proc_frontend_flush : M (ifu_t B) bool :=
  ifu ← gets id;
  if negb (ifu_flush_event_pending ifu) then mret false
  else match exu_state_i ifu with
  | None => mret false
  | Some exu_state =>
    set_issue (fun i => i <| is_vld := false |> <| is_is_ctrl := false |> <| is_pred_vld := false |>
      <| is_pred_redirected := false |>);;
    ifu_ctrlq_flush;;
    ifu_flush_fetch_path (st_irq_epc exu_state);;
    mret true
  end.

(** ** Fetching *)

Definition ifu_send_fch : M (ifu_t B) unit :=
  ifu ← gets id;
  let i := issue ifu in
  if bool_decide (f_state (fch ifu) = IFU_FCH_STATE_FAULT) then mret tt
  else if negb (bool_decide (redirect_state ifu = IFU_REDIRECT_STATE_IDLE)) then mret tt
  else if is_vld i && negb (is_pred_vld i) then mret tt
  else if is_vld i && is_pred_vld i && is_is_ctrl i && is_pred_taken i && negb (is_pred_redirected i) then mret tt
  else if ifu_fch_ost_full ifu then
    modify (fun ifu => ifu <| perf_fch_ost_full := u64 (perf_fch_ost_full ifu + 1) |>)
  else if ostq_full (fch_ost ifu) then
    modify (fun ifu => ifu <| perf_fch_ost_full := u64 (perf_fch_ost_full ifu + 1) |>)
  else if chan_full (fch_req_mst ifu) then mret tt
  else
    let fch_req := f_pc (fch ifu) in
    alloc ← on fch_ost (ostq_alloc (FchOstCtx (f_pc (fch ifu))));
    DBG_CHECK (bool_decide (is_Some alloc));;
    ptr ← ifu_fch_ptr_next (f_req_ptr (fch ifu));
    set_fch (fun f => f <| f_req_ptr := ptr |>);;
    on fch_req_mst (chan_write fch_req);;
    set_fch (fun f => f <| f_pc := u32 (f_pc f + 4) |> <| f_state := IFU_FCH_STATE_PEND |>).

Definition ifu_proc_fch_rsp : M (ifu_t B) unit :=
  ifu ← gets id;
  if chan_empty (fch_rsp_slv ifu) then mret tt
  else
    found ← on fch_ost ostq_peek_head;
    match found with
    | None => mret tt
    | Some (ctx, _) =>
      fch_rsp ← on fch_rsp_slv chan_front;
      let discard := f_discard_vld (fch ifu) in
      if negb discard && chan_full (fch_rspq ifu) then mret tt
      else
        on fch_rsp_slv chan_read;;
        modify (fun ifu => ifu <| perf_fch_rsp_inst := u64 (perf_fch_rsp_inst ifu + 1) |>);;
        on fch_ost ostq_free_head;;
        ptr ← ifu_fch_ptr_next (f_rsp_ptr (fch ifu));
        set_fch (fun f => f <| f_rsp_ptr := ptr |>);;
        ifu ← gets id;
        when (discard && (f_rsp_ptr (fch ifu) =? f_discard_end_ptr (fch ifu)))
          (set_fch (fun f => f <| f_discard_vld := false |>));;
        if discard then mret tt
        else
          on fch_rspq (chan_write (FchRspq (fo_pc ctx) (fr_ir fch_rsp) (fr_ok fch_rsp) (fr_expt fch_rsp)
            (fr_cause fch_rsp) (fr_priv fch_rsp) (fr_tval fch_rsp)));;
          set_fch (fun f => f <| f_ir := fr_ir fch_rsp |> <| f_state := IFU_FCH_STATE_RSP |>)
    end.

(** ** Issue *)

Definition ifu_apply_bpu_pred_rsp : M (ifu_t B) unit :=
  ifu ← gets id;
  if negb (is_vld (issue ifu)) || is_pred_vld (issue ifu) then mret tt
  else
    let rsp := port_pred_rsp (ifu_bpu ifu) in
    DBG_CHECK (pr_vld rsp);;
    set_issue (fun i => i <| is_is_ctrl := pr_is_ctrl rsp |> <| is_pred_taken := pr_pred_taken rsp |>
      <| is_pred_target_pc := pr_pred_pc rsp |> <| is_cond_bht_hit := pr_cond_bht_hit rsp |>
      <| is_jalr_ras_hit := pr_jalr_ras_hit rsp |> <| is_jalr_btb_hit := pr_jalr_btb_hit rsp |>
      <| is_jalr_btb_miss := pr_jalr_btb_miss rsp |> <| is_pred_vld := true |>);;
    ifu ← gets id;
    when (is_is_ctrl (issue ifu) && is_pred_taken (issue ifu))
      (ifu_flush_fetch_path (is_pred_target_pc (issue ifu));;
       set_issue (fun i => i <| is_pred_redirected := true |>)).

Definition ifu_prepare_issue : M (ifu_t B) unit :=
  ifu ← gets id;
  if negb (bool_decide (redirect_state ifu = IFU_REDIRECT_STATE_IDLE)) then mret tt
  else if chan_empty (fch_rspq ifu) then mret tt
  else if is_vld (issue ifu) then mret tt
  else
    fch ← on fch_rspq chan_front;
    if rp_expt fch then
      if is_vld (issue ifu) then mret tt
      else if negb (chan_empty (ctrlq ifu)) then mret tt
      else if chan_full (fch_expt_mst ifu) then mret tt
      else
        fch ← on fch_rspq chan_read;
        on fch_expt_mst (chan_write
          (HartExpt HART_EXPT_TYPE_EXCEPTION (rp_cause fch) (rp_priv fch) (rp_pc fch) (rp_tval fch)));;
        ifu_fault_fetch_path (rp_pc fch)
    else if negb (rp_ok fch) then
      fch ← on fch_rspq chan_read;
      ifu_flush_fetch_path (rp_pc fch)
    else
      fch ← on fch_rspq chan_read;
      set_issue (fun i => i <| is_vld := true |> <| is_pc := rp_pc fch |> <| is_ir := rp_ir fch |>
        <| is_pred_taken := false |> <| is_pred_target_pc := u32 (rp_pc fch + 4) |> <| is_pred_vld := false |>
        <| is_pred_redirected := false |> <| is_is_ctrl := false |> <| is_cond_bht_hit := false |>
        <| is_jalr_ras_hit := false |> <| is_jalr_btb_hit := false |> <| is_jalr_btb_miss := false |>);;
      ifu ← gets id;
      ifu_send_bpu_pred_req (is_pc (issue ifu)) (is_ir (issue ifu));;
      ifu_update_fch_state.

Definition ifu_send_ex_req : M (ifu_t B) unit :=
  ifu ← gets id;
  let i := issue ifu in
  if negb (is_vld i) then mret tt
  else if negb (is_pred_vld i) then mret tt
  else if negb (bool_decide (redirect_state ifu = IFU_REDIRECT_STATE_IDLE)) then mret tt
  else if chan_full (ex_req_mst ifu) then mret tt
  else if is_is_ctrl i && chan_full (ctrlq ifu) then mret tt
  else
    on ex_req_mst (chan_write (ExReq (is_ir i) (is_pc i) (is_pred_taken i) (is_pred_target_pc i)
      (ADDR_IN (is_pc i) (boot_rom_base ifu) (boot_rom_size ifu))));;
    when (is_is_ctrl i)
      (ifu_ctrlq_push (CtrlqEntry true (is_pc i) (is_ir i) (is_pred_taken i) (is_pred_target_pc i)
         (is_cond_bht_hit i) (is_jalr_ras_hit i) (is_jalr_btb_hit i) (is_jalr_btb_miss i)));;
    set_issue (fun i => i <| is_vld := false |> <| is_is_ctrl := false |> <| is_pred_vld := false |>
      <| is_pred_redirected := false |> <| is_cond_bht_hit := false |> <| is_jalr_ras_hit := false |>
      <| is_jalr_btb_hit := false |> <| is_jalr_btb_miss := false |>).

(** ** Responses of the execution unit and traps *)

Definition ifu_proc_ex_rsp : M (ifu_t B) unit :=
  ifu ← gets id;
  if negb (bool_decide (redirect_state ifu = IFU_REDIRECT_STATE_IDLE)) then mret tt
  else if chan_empty (ex_rsp_slv ifu) then mret tt
  else
    ex_rsp ← on ex_rsp_slv chan_read;
    popped ← ifu_ctrlq_pop_valid (rsp_pc ex_rsp);
    match popped with
    | None => mret tt
    | Some ctrl =>
      let is_boot := ADDR_IN (rsp_pc ex_rsp) (boot_rom_base ifu) (boot_rom_size ifu) in
      on ifu_bpu (port_update (BpuUpdate true (cq_pc ctrl) (cq_ir ctrl) (rsp_taken ex_rsp) (rsp_target_pc ex_rsp)
        (cq_pred_taken ctrl) (cq_pred_pc ctrl) (rsp_pred_true ex_rsp) is_boot (cq_cond_bht_hit ctrl)
        (cq_jalr_ras_hit ctrl) (cq_jalr_btb_hit ctrl) (cq_jalr_btb_miss ctrl)));;
      if rsp_pred_true ex_rsp then mret tt
      else
        ifu ← gets id;
        DBG_CHECK (chan_empty (fl_req_mst ifu));;
        on fl_req_mst (chan_write tt);;
        ifu_ctrlq_flush;;
        ifu_request_redirect (rsp_target_pc ex_rsp) IFU_REDIRECT_STATE_BRANCH
    end.

Definition ifu_proc_trap_send : M (ifu_t B) unit :=
  ifu ← gets id;
  if negb (bool_decide (redirect_state ifu = IFU_REDIRECT_STATE_IDLE)) then mret tt
  else if negb (chan_empty (ex_rsp_slv ifu)) then mret tt
  else if negb (chan_empty (ctrlq ifu)) then mret tt
  else if chan_empty (trap_send_slv ifu) then mret tt
  else
    target_pc ← on trap_send_slv chan_read;
    ifu ← gets id;
    DBG_CHECK (chan_empty (fl_req_mst ifu));;
    on fl_req_mst (chan_write tt);;
    ifu_ctrlq_flush;;
    ifu_request_redirect target_pc IFU_REDIRECT_STATE_TRAP.

(** ** Clock and reset *)

Definition ifu_front_proc : M (ifu_t B) unit :=
  on fch_ost ostq_clock;;
  modify (fun ifu => ifu <| back_blocked := false |>);;
  ifu_clear_bpu_pred_req;;
  ifu_clear_bpu_update;;
  ifu_proc_ex_rsp;;
  ifu_proc_trap_send;;
  ifu ← gets id;
  if bool_decide (redirect_state ifu = IFU_REDIRECT_STATE_BRANCH) ||
     bool_decide (redirect_state ifu = IFU_REDIRECT_STATE_TRAP) then
    ifu_proc_redirect;;
    ifu_update_fch_state;;
    modify (fun ifu => ifu <| back_blocked := true |>)
  else
    flushed ← ifu_proc_frontend_flush;
    if flushed : bool then
      ifu_update_fch_state;;
      modify (fun ifu => ifu <| back_blocked := true |>)
    else
      ifu_proc_fch_rsp;;
      ifu_prepare_issue.

Definition ifu_back_proc : M (ifu_t B) unit :=
  ifu ← gets id;
  if back_blocked ifu then mret tt
  else
    ifu_apply_bpu_pred_rsp;;
    ifu_send_ex_req;;
    ifu_send_fch;;
    ifu_update_fch_state.

Definition ifu_clock : M (ifu_t B) unit :=
  ifu_front_proc;;
  ifu_back_proc;;
  ifu_check_fch_ost.

Definition ifu_reset : M (ifu_t B) unit :=
  modify (fun ifu => ifu <| fch := IfuFch IFU_FCH_STATE_REQ (reset_pc ifu) 0 0 0 0 false |>
    <| back_blocked := false |>);;
  on fch_ost ostq_reset;;
  on fch_rspq chan_clear;;
  modify (fun ifu => ifu <| issue := IfuIssue false (reset_pc ifu) 0 (u32 (reset_pc ifu + 4)) false false
    false false false false false false |>
    <| redirect_state := IFU_REDIRECT_STATE_IDLE |> <| redirect_pc := reset_pc ifu |>);;
  on ctrlq chan_clear;;
  modify (fun ifu => ifu <| perf_fch_rsp_inst := 0 |> <| perf_fch_ost_full := 0 |>);;
  on ifu_bpu (port_pred_req bpu_pred_req_zero);;
  on ifu_bpu (port_update no_update).

End ifu.
