(* ===== verification/IfuSpec.v ===== *)
(** * The instruction stream

    What the fetch unit promises to the execution unit: the instructions it sends are the words
    of the instruction memory along one path, which starts at the reset address, goes from each
    instruction to its predicted successor, and moves only where a misprediction, a trap or a
    flush redirects it, no matter how many fetches of abandoned paths are still on their way. *)

From stdpp Require Import base numbers list relations.
From Stdlib Require Import ZArith Lia.
From S2P Require Import Prelude Fifo Ost OstScan Isa ExuState Bpu BpuSpec Ifu.

(** ** Sequences of addresses *)

(** The addresses are [p], [p + 4], ... *)
Fixpoint chain_from (p : Z) (l : list Z) : Prop :=
  match l with
  | [] => True
  | x :: l => x = p /\ chain_from (u32 (x + 4)) l
  end.

Lemma chain_snoc p l x : chain_from p (l ++ [x]) -> chain_from p ((l ++ [x]) ++ [u32 (x + 4)]).
Proof.
  revert p. induction l as [|y l IH]; intros p; simpl; [by intros [-> _]|].
  intros [-> H]. split; [done|]. by apply IH.
Qed.

Section spec.
  Context {B : Type} `{!BpuPort B, !BpuPortLaws B} (imem : Z -> Z).
  Implicit Types (s : ifu_t B) (n : Z) (mem : list Z) (live : list ifu_fch_ost_ctx_t).

(** ** Where the path is redirected *)

(** The redirection that the inputs of a cycle ask for: a response that matches the oldest
    control flow instruction in flight and says that it was mispredicted; else a trap, once no
    response and no control flow instruction is left; else a flush of the TLB or the cache. *)
Definition ex_rsp_of s : list ex_rsp_if_t * list ifu_ctrlq_entry_t * option Z :=
  match ch_pkts (ex_rsp_slv s) with
  | [] => ([], ch_pkts (ctrlq s), None)
  | r :: rsps =>
    match ch_pkts (ctrlq s) with
    | c :: ctrls =>
      if cq_pc c =? rsp_pc r then (rsps, ctrls, if rsp_pred_true r then None else Some (rsp_target_pc r))
      else (rsps, c :: ctrls, None)
    | [] => (rsps, [], None)
    end
  end.

Definition ask_of s : option Z :=
  let '(rsps, ctrls, mispredicted) := ex_rsp_of s in
  match mispredicted, rsps, ctrls, ch_pkts (trap_send_slv s) with
  | Some t, _, _, _ => Some t
  | None, [], [], t :: _ => Some t
  | None, _, _, _ => None
  end.

Definition redirect_of s : option Z :=
  match ask_of s with
  | Some t => Some t
  | None => if ifu_flush_event_pending s then st_irq_epc <$> exu_state_i s else None
  end.

(** ** The invariant *)

(** A response to the fetch of an address. *)
Definition answers (pc : Z) (r : fch_rsp_if_t) : Prop := fr_ok r = true -> fr_expt r = false -> fr_ir r = imem pc.

Definition ptr_num s : Z := 2 * fch_ost_depth s.

(** The number of fetches in flight that are discarded. *)
Definition discards s : nat :=
  if f_discard_vld (fch s) then Z.to_nat ((f_discard_end_ptr (fch s) - f_rsp_ptr (fch s)) mod ptr_num s) else 0%nat.

(** The fetches in flight: their addresses are those of the entries [live], the responses that
    have arrived answer the oldest ones, the memory works on [mem], and the rest waits to be
    taken. *)
Record fetch_inv s mem (fr : bool) live : Prop := {
  fi_depth : 0 < fch_ost_depth s < 2147483648;
  fi_qdepth : q_depth (fch_ost s) = fch_ost_depth s;
  fi_ost : ost_live (fch_ost s) fr live;
  fi_req_ptr : 0 <= f_req_ptr (fch s) < ptr_num s;
  fi_rsp_ptr : 0 <= f_rsp_ptr (fch s) < ptr_num s;
  fi_end_ptr : 0 <= f_discard_end_ptr (fch s) < ptr_num s;
  fi_active : (f_req_ptr (fch s) - f_rsp_ptr (fch s)) mod ptr_num s = Z.of_nat (length live);
  fi_discard : f_discard_vld (fch s) = true -> (0 < discards s <= length live)%nat;
  fi_mem : exists answered, fo_pc <$> live = answered ++ mem ++ ch_pkts (fch_req_mst s) /\
    Forall2 answers answered (ch_pkts (fch_rsp_slv s));
  fi_req_wf : chan_wf (fch_req_mst s);
  fi_rspq_wf : chan_wf (fch_rspq s);
  fi_rspq : Forall (fun e => rp_ok e = true -> rp_expt e = false -> rp_ir e = imem (rp_pc e)) (ch_pkts (fch_rspq s))
}.

(** The addresses that are fetched and wanted, oldest first, and the next one to fetch. *)
Definition wanted s live : list Z :=
  (rp_pc <$> ch_pkts (fch_rspq s)) ++ drop (discards s) (fo_pc <$> live) ++ [f_pc (fch s)].

(** The address that follows what is in the issue stage; [n] is the next instruction of the path. *)
Definition follows s n : Z :=
  if is_vld (issue s) then
    if is_pred_vld (issue s) then is_pred_target_pc (issue s) else u32 (is_pc (issue s) + 4)
  else n.

(** The instruction in the issue stage is the next one of the path. *)
Definition issue_ok s n : Prop := is_vld (issue s) = true ->
  is_pc (issue s) = n /\ is_ir (issue s) = imem n /\
  (is_pred_vld (issue s) = false ->
   let rsp := port_pred_rsp (ifu_bpu s) in
   pr_vld rsp = true /\ (pr_is_ctrl rsp && pr_pred_taken rsp = false -> pr_pred_pc rsp = u32 (is_pc (issue s) + 4))).

Record ifu_inv s n mem (fr : bool) live : Prop := {
  ii_fetch : fetch_inv s mem fr live;
  ii_chain : chain_from (follows s n) (wanted s live);
  ii_issue : issue_ok s n;
  ii_bpu : bport_ok (ifu_bpu s);
  ii_ctrlq : chan_wf (ctrlq s) /\ Forall (fun c => cq_vld c = true) (ch_pkts (ctrlq s));
  ii_ex : chan_wf (ex_req_mst s);
  ii_expt : chan_wf (fch_expt_mst s);
  ii_fl : 0 < ch_depth (fl_req_mst s)
}.

(** What holds between cycles. *)
Definition settled s : Prop :=
  redirect_state s = IFU_REDIRECT_STATE_IDLE /\ (is_vld (issue s) = true -> is_pred_vld (issue s) = true).

(** ** Flushing the fetch path *)

Definition flushed s (pc : Z) (st : ifu_fch_state_t) : ifu_t B :=
  s <| fch := IfuFch st pc 0 (f_req_ptr (fch s)) (f_rsp_ptr (fch s)) (f_req_ptr (fch s))
         (negb (f_rsp_ptr (fch s) =? f_req_ptr (fch s))) |>
    <| fch_rspq := Chan (ch_depth (fch_rspq s)) [] |>.

Lemma flush_run pc s : ifu_flush_fetch_path pc s = Some (tt, flushed s pc IFU_FCH_STATE_REQ).
Proof. by destruct s as [? ? ? ? ? ? ? ? ? ? ? ? ? [] ? ? [] ? ? ? ? ? ? ? ?]. Qed.

Lemma fault_run pc s : ifu_fault_fetch_path pc s = Some (tt, flushed s pc IFU_FCH_STATE_FAULT).
Proof. by destruct s as [? ? ? ? ? ? ? ? ? ? ? ? ? [] ? ? [] ? ? ? ? ? ? ? ?]. Qed.

Lemma flushed_discards s pc st mem fr live : fetch_inv s mem fr live ->
  discards (flushed s pc st) = length live.
Proof.
  intros []. unfold discards, flushed, ptr_num in *. upd_proj. cbn [f_discard_vld f_discard_end_ptr f_rsp_ptr].
  destruct (Z.eqb_spec (f_rsp_ptr (fch s)) (f_req_ptr (fch s))) as [E|E]; cbn [negb]; [|rewrite fi_active0; lia].
  rewrite E, Z.sub_diag, Z.mod_0_l in fi_active0 by lia. lia.
Qed.

(** Everything in flight is discarded, and the fetch goes on at the new address. *)
Lemma flushed_fetch s pc st mem fr live : fetch_inv s mem fr live ->
  fetch_inv (flushed s pc st) mem fr live /\ wanted (flushed s pc st) live = [pc].
Proof.
  intros Hi. pose proof (flushed_discards s pc st mem fr live Hi) as Hd. split.
  - destruct Hi. split; rewrite ?Hd; unfold flushed, ptr_num in *; upd_proj; try done.
    + cbn [f_discard_vld]. intros Hv%negb_true_iff%Z.eqb_neq. split; [|lia].
      destruct live; [|simpl; lia]. simpl in fi_active0.
      apply Z.mod_divide in fi_active0 as [k Hk]; [|lia]. exfalso. assert (k = 0) by nia. subst k. lia.
    + unfold chan_wf, chan_num in *. simpl. lia.
  - unfold wanted. rewrite Hd. unfold flushed. upd_proj. cbn [ch_pkts f_pc fmap list_fmap].
    rewrite drop_ge by (by rewrite length_fmap). done.
Qed.

(** ** Frames *)

(** What the fetches in flight depend on. *)
Definition fetch_view s := (fch_ost_depth s, fch_ost s, f_req_ptr (fch s), f_rsp_ptr (fch s),
  f_discard_end_ptr (fch s), f_discard_vld (fch s), f_pc (fch s), fch_req_mst s, fch_rsp_slv s, fch_rspq s).

Lemma fetch_frame s s' mem fr live : fetch_view s' = fetch_view s -> fetch_inv s mem fr live ->
  fetch_inv s' mem fr live /\ wanted s' live = wanted s live.
Proof.
  unfold fetch_view. intros E []. injection E as E1 E2 E3 E4 E5 E6 E7 E8 E9 E10. split.
  - split; unfold discards, ptr_num in *; rewrite ?E1, ?E2, ?E3, ?E4, ?E5, ?E6, ?E7, ?E8, ?E9, ?E10; assumption.
  - unfold wanted, discards, ptr_num. by rewrite E1, E4, E5, E6, E7, E10.
Qed.

(** The rest of the invariant. *)
Definition rest_view s := (issue s, ifu_bpu s, ctrlq s, ex_req_mst s, fch_expt_mst s, fl_req_mst s).

Lemma inv_frame s s' n mem fr live : fetch_view s' = fetch_view s -> rest_view s' = rest_view s ->
  ifu_inv s n mem fr live -> ifu_inv s' n mem fr live.
Proof.
  intros Ev Er [Hf Hc Hi Hb Hq Hx He Hl]. destruct (fetch_frame _ _ _ _ _ Ev Hf) as [Hf' Hw].
  unfold rest_view in Er. injection Er as E1 E2 E3 E4 E5 E6.
  split; unfold follows, issue_ok in *; rewrite ?Hw, ?E1, ?E2, ?E3, ?E4, ?E5, ?E6; done.
Qed.

Lemma wp_update_fch_state Q s : (forall s', fetch_view s' = fetch_view s -> rest_view s' = rest_view s ->
  redirect_state s' = redirect_state s -> back_blocked s' = back_blocked s -> Q tt s') -> wp ifu_update_fch_state Q s.
Proof.
  intros HQ. unfold ifu_update_fch_state, set_fch. apply wp_bind, wp_gets. unfold id.
  destruct (bool_decide _); [by apply wp_ret, HQ|]. destruct (negb _); [apply wp_modify|destruct (negb _); apply wp_modify];
    (apply HQ; [unfold fetch_view; upd_proj; done|done..]).
Qed.

(** ** Fetching *)

Lemma u32_ptr_num s : 0 < fch_ost_depth s < 2147483648 -> u32 (fch_ost_depth s * 2) = ptr_num s.
Proof. intros. unfold ptr_num. rewrite u32_small by (unfold is_u32, W32; lia). lia. Qed.

Lemma wp_ptr_next p s Q : 0 < fch_ost_depth s < 2147483648 -> 0 <= p < ptr_num s ->
  Q ((p + 1) mod ptr_num s) s -> wp (ifu_fch_ptr_next p) Q s.
Proof.
  intros Hd Hp HQ. unfold ifu_fch_ptr_next. apply wp_bind, wp_gets. unfold id. rewrite u32_ptr_num by done.
  apply wp_bind, wp_check; [lia|]. apply wp_ret. unfold ptr_num in *.
  rewrite u32_small by (unfold is_u32, W32; lia).
  destruct (Z.eqb_spec (p + 1) (2 * fch_ost_depth s)) as [E|E].
  - by rewrite E, Z.mod_same in HQ by lia.
  - by rewrite Z.mod_small in HQ by lia.
Qed.

Lemma mod_succ_l a b m k : 0 < m -> (a - b) mod m = k -> k + 1 < m -> ((a + 1) mod m - b) mod m = k + 1.
Proof.
  intros Hm Hk Hlt. rewrite Zminus_mod_idemp_l. replace (a + 1 - b) with (a - b + 1) by lia.
  rewrite <- Zplus_mod_idemp_l, Hk. apply Z.mod_small. pose proof (Z.mod_pos_bound (a - b) m Hm). lia.
Qed.

Lemma mod_succ_r a b m k : 0 < m -> (a - b) mod m = k -> 0 < k -> (a - (b + 1) mod m) mod m = k - 1.
Proof.
  intros Hm Hk Hlt. rewrite Zminus_mod_idemp_r. replace (a - (b + 1)) with (a - b - 1) by lia.
  rewrite <- Zminus_mod_idemp_l, Hk. apply Z.mod_small. pose proof (Z.mod_pos_bound (a - b) m Hm). lia.
Qed.

(** The fetches in flight after one more is sent. *)
Lemma fetch_sent s s' mem fr live o' : fetch_inv s mem fr live -> Z.of_nat (length live) < fch_ost_depth s ->
  ost_live o' fr (live ++ [FchOstCtx (f_pc (fch s))]) -> q_depth o' = q_depth (fch_ost s) ->
  chan_wf (chan_snoc (fch_req_mst s) (f_pc (fch s))) ->
  fetch_view s' = (fch_ost_depth s, o', (f_req_ptr (fch s) + 1) mod ptr_num s, f_rsp_ptr (fch s),
    f_discard_end_ptr (fch s), f_discard_vld (fch s), u32 (f_pc (fch s) + 4),
    chan_snoc (fch_req_mst s) (f_pc (fch s)), fch_rsp_slv s, fch_rspq s) ->
  fetch_inv s' mem fr (live ++ [FchOstCtx (f_pc (fch s))]) /\
  wanted s' (live ++ [FchOstCtx (f_pc (fch s))]) = wanted s live ++ [u32 (f_pc (fch s) + 4)].
Proof.
  intros [] Hroom Ho' Hdep Hwf E. unfold fetch_view in E. injection E as E1 E2 E3 E4 E5 E6 E7 E8 E9 E10.
  assert (ptr_num s' = ptr_num s) as Ep by (unfold ptr_num; congruence).
  assert (discards s' = discards s) as Ed by (unfold discards; by rewrite E4, E5, E6, Ep).
  assert (0 < ptr_num s) as Hp by (unfold ptr_num; lia).
  split.
  - split; rewrite ?Ed, ?Ep, ?E1, ?E2, ?E3, ?E4, ?E5, ?E6, ?E7, ?E8, ?E9, ?E10; try done.
    + congruence.
    + by apply Z.mod_pos_bound.
    + rewrite length_app. simpl. rewrite (mod_succ_l _ _ _ (Z.of_nat (length live))); [lia|done..|unfold ptr_num; lia].
    + intros Hv. rewrite length_app. specialize (fi_discard0 Hv). lia.
    + destruct fi_mem0 as (a & Ha & Hans). exists a. split; [|done]. rewrite fmap_app, Ha. unfold chan_snoc. upd_proj.
      by rewrite <- !app_assoc.
  - unfold wanted. rewrite Ed, E7, E10, fmap_app. rewrite drop_app_le; [by rewrite <- !app_assoc|].
    rewrite length_fmap. unfold discards. destruct (f_discard_vld (fch s)) eqn:Ev; [|lia].
    specialize (fi_discard0 eq_refl). unfold discards in fi_discard0. rewrite Ev in fi_discard0. lia.
Qed.

(** The state after sending a fetch. *)
Lemma inv_send_fch s n mem fr live : ifu_inv s n mem fr live -> redirect_state s = IFU_REDIRECT_STATE_IDLE ->
  wp ifu_send_fch (fun _ s' => rest_view s' = rest_view s /\ redirect_state s' = IFU_REDIRECT_STATE_IDLE /\
    exists live', ifu_inv s' n mem fr live') s.
Proof.
  intros Hi Hred. unfold ifu_send_fch. apply wp_bind, wp_gets. unfold id. cbv zeta.
  assert (rest_view s = rest_view s /\ redirect_state s = IFU_REDIRECT_STATE_IDLE /\
    exists live', ifu_inv s n mem fr live') as Hsame by eauto.
  destruct (bool_decide _); [by apply wp_ret|]. rewrite Hred, bool_decide_true by done. cbn [negb].
  destruct (is_vld _ && negb _); [by apply wp_ret|]. destruct (_ && negb (is_pred_redirected _)); [by apply wp_ret|].
  destruct (ifu_fch_ost_full s) eqn:Efull.
  { apply wp_modify. split_and!; [done..|]. exists live. by apply (inv_frame s). }
  destruct (ostq_full (fch_ost s)) eqn:Eqf.
  { apply wp_modify. split_and!; [done..|]. exists live. by apply (inv_frame s). }
  destruct (chan_full (fch_req_mst s)) eqn:Ecf; [by apply wp_ret|].
  pose proof Hi as [Hf Hc Hiss Hb Hq Hx He Hl]. pose proof Hf as []. clear Hsame.
  destruct (ost_live_bound _ _ _ fi_ost0) as [Hcnt Hcd]. rewrite fi_qdepth0 in Hcd.
  assert (0 <= q_count (fch_ost s)) as Hc0 by (destruct fr; simpl in *; lia).
  assert (Z.of_nat (length live) < fch_ost_depth s) as Hroom.
  { apply Z.leb_gt in Efull. unfold chan_wf in fi_rspq_wf0.
    assert (0 <= chan_num (fch_rspq s)) by (unfold chan_num; lia). destruct fr; simpl in *; [lia|].
    unfold ostq_full in Eqf. lia. }
  apply wp_bind, wp_on. eapply wp_ostq_alloc; [done..|]. intros o' slot Ho' _ Hdep.
  apply wp_bind, wp_check; [by apply bool_decide_eq_true; eauto|].
  apply wp_bind. apply wp_ptr_next; [by upd_proj|by unfold ptr_num in *; upd_proj|].
  apply wp_bind, wp_modify, wp_bind. apply wp_on_write; upd_proj; [done..|]. intros Hwf. apply wp_modify. upd_proj.
  split_and!; [done..|]. exists (live ++ [FchOstCtx (f_pc (fch s))]).
  match goal with |- ifu_inv ?s' _ _ _ _ => set (s1 := s') end.
  destruct (fetch_sent s s1 mem fr live o' Hf Hroom Ho' Hdep Hwf) as [Hf' Hw']; [unfold s1, fetch_view; by upd_proj|].
  split; try done. unfold follows. rewrite Hw'. change (issue s1) with (issue s).
  change (chain_from (follows s n) (wanted s live ++ [u32 (f_pc (fch s) + 4)])). unfold wanted in *.
  rewrite app_assoc in Hc |- *. by apply chain_snoc.
Qed.

(** The number of discarded fetches after a response: one less, unless the boundary is reached. *)
Lemma discards_next s mem fr c live : fetch_inv s mem fr (c :: live) ->
  f_discard_vld (fch s) = true ->
  let rsp' := (f_rsp_ptr (fch s) + 1) mod ptr_num s in
  (if rsp' =? f_discard_end_ptr (fch s) then 0%nat
   else Z.to_nat ((f_discard_end_ptr (fch s) - rsp') mod ptr_num s)) = (discards s - 1)%nat /\
  (rsp' <> f_discard_end_ptr (fch s) -> (0 < discards s - 1)%nat).
Proof.
  intros [] Hv. specialize (fi_discard0 Hv). unfold discards in *. rewrite Hv in *. cbv zeta.
  assert (0 < ptr_num s) as Hp by (unfold ptr_num; lia).
  set (k := (f_discard_end_ptr (fch s) - f_rsp_ptr (fch s)) mod ptr_num s) in *.
  assert (0 <= k < ptr_num s) as Hk by (by apply Z.mod_pos_bound).
  pose proof (mod_succ_r _ _ (ptr_num s) k Hp eq_refl ltac:(lia)) as Hm.
  pose proof (Z.mod_pos_bound (f_rsp_ptr (fch s) + 1) (ptr_num s) Hp) as Hr.
  destruct (Z.eqb_spec ((f_rsp_ptr (fch s) + 1) mod ptr_num s) (f_discard_end_ptr (fch s))) as [E|E].
  - rewrite E, Z.sub_diag, Z.mod_0_l in Hm by lia. split; [lia|done].
  - rewrite Hm. split; [lia|]. intros _. enough (k <> 1) by lia. intros E1. rewrite E1 in Hm.
    apply Z.mod_divide in Hm as [j Hj]; [|lia]. assert (j = 0) by nia. subst j. lia.
Qed.

(** The fetches in flight after the response to the oldest one, kept or discarded. *)
Lemma fetch_answered s s' mem c live o' r rest (keep : list ifu_fch_rspq_entry_t) :
  fetch_inv s mem false (c :: live) -> ost_live o' true live -> q_depth o' = q_depth (fch_ost s) ->
  ch_pkts (fch_rsp_slv s) = r :: rest ->
  keep = (if f_discard_vld (fch s) then [] else
    [FchRspq (fo_pc c) (fr_ir r) (fr_ok r) (fr_expt r) (fr_cause r) (fr_priv r) (fr_tval r)]) ->
  chan_wf (Chan (ch_depth (fch_rspq s)) (ch_pkts (fch_rspq s) ++ keep)) ->
  let rsp' := (f_rsp_ptr (fch s) + 1) mod ptr_num s in
  fetch_view s' = (fch_ost_depth s, o', f_req_ptr (fch s), rsp', f_discard_end_ptr (fch s),
    f_discard_vld (fch s) && negb (rsp' =? f_discard_end_ptr (fch s)), f_pc (fch s), fch_req_mst s,
    Chan (ch_depth (fch_rsp_slv s)) rest, Chan (ch_depth (fch_rspq s)) (ch_pkts (fch_rspq s) ++ keep)) ->
  fetch_inv s' mem true live /\ wanted s' live = wanted s (c :: live).
Proof.
  intros Hf Ho' Hdep Er Hkeep Hwf rsp' E. pose proof Hf as [].
  unfold fetch_view in E. injection E as E1 E2 E3 E4 E5 E6 E7 E8 E9 E10.
  assert (ptr_num s' = ptr_num s) as Ep by (unfold ptr_num; congruence).
  assert (0 < ptr_num s) as Hp by (unfold ptr_num; lia).
  assert (discards s' = (discards s - 1)%nat /\ (f_discard_vld (fch s') = true -> (0 < discards s - 1)%nat)) as [Ed Hd].
  { unfold discards at 1. rewrite E4, E5, E6, Ep. destruct (f_discard_vld (fch s)) eqn:Ev; cbn [andb].
    - destruct (discards_next s mem false c live Hf Ev) as [Hn1 Hn2]. fold rsp' in Hn1, Hn2. rewrite <- Hn1.
      destruct (Z.eqb_spec rsp' (f_discard_end_ptr (fch s))); [done|]. split; [done|]. rewrite Hn1. auto.
    - unfold discards. rewrite Ev. by split. }
  destruct fi_mem0 as (a & Ha & Hans). rewrite Er in Hans.
  apply Forall2_cons_inv_r in Hans as (pc & a' & Hr & Hans & ->). injection Ha as Hpc Ha. rewrite <- Hpc in Hr.
  split.
  - split; rewrite ?Ed, ?Ep, ?E1, ?E2, ?E3, ?E4, ?E5, ?E7, ?E8, ?E9, ?E10; try done.
    + congruence.
    + by apply Z.mod_pos_bound.
    + unfold rsp'. rewrite (mod_succ_r _ _ _ (Z.of_nat (S (length live)))); [lia|done..|lia].
    + intros Hv. specialize (Hd Hv). split; [done|]. rewrite E6 in Hv. apply andb_prop in Hv as [Hv _].
      specialize (fi_discard0 Hv). simpl in fi_discard0. lia.
    + exists a'. by split.
    + cbn [ch_pkts]. apply Forall_app. split; [done|]. rewrite Hkeep. destruct (f_discard_vld (fch s)); [done|].
      constructor; [|done]. exact Hr.
  - unfold wanted. rewrite Ed, E7, E10. cbn [ch_pkts]. rewrite fmap_app, Hkeep, fmap_cons.
    destruct (f_discard_vld (fch s)) eqn:Ev.
    + specialize (fi_discard0 eq_refl). destruct (discards s) as [|k]; [lia|]. simpl.
      by rewrite Nat.sub_0_r, app_nil_r.
    + unfold discards. rewrite Ev. simpl. by rewrite <- app_assoc.
Qed.

Lemma inv_proc_fch_rsp s n mem live : ifu_inv s n mem false live ->
  wp ifu_proc_fch_rsp (fun _ s' => rest_view s' = rest_view s /\ redirect_state s' = redirect_state s /\
    back_blocked s' = back_blocked s /\ exists fr live', ifu_inv s' n mem fr live') s.
Proof.
  intros Hi. unfold ifu_proc_fch_rsp. apply wp_bind, wp_gets. unfold id.
  assert (rest_view s = rest_view s /\ redirect_state s = redirect_state s /\ back_blocked s = back_blocked s /\
    exists fr live', ifu_inv s n mem fr live') as Hsame by (split_and!; [done..|]; by exists false, live).
  destruct (chan_empty (fch_rsp_slv s)) eqn:Ee; [by apply wp_ret|].
  apply chan_empty_false in Ee as (r & rest & Er).
  pose proof Hi as [Hf Hc Hiss Hb Hq Hx He Hl]. pose proof Hf as [].
  apply wp_bind, wp_on. eapply wp_ostq_peek; [done|..].
  { intros _. assert (s <| fch_ost := fch_ost s |> = s) as -> by (clear; by destruct s). by apply wp_ret. }
  intros c l2 slot _ -> _. assert (s <| fch_ost := fch_ost s |> = s) as -> by (clear; by destruct s).
  apply wp_bind. eapply wp_on_front; [done|clear; by destruct s|]. cbv zeta.
  destruct (negb (f_discard_vld (fch s)) && chan_full (fch_rspq s)) eqn:Efull; [by apply wp_ret|].
  apply wp_bind. eapply wp_on_read; [done|]. apply wp_bind, wp_modify, wp_bind, wp_on. upd_proj.
  eapply wp_ostq_free; [done|]. intros o' Ho' Hdep. apply wp_bind, wp_ptr_next; upd_proj; [done|done|].
  apply wp_bind, wp_modify, wp_bind, wp_gets. unfold id. upd_proj. apply wp_bind.
  set (rsp' := (f_rsp_ptr (fch s) + 1) mod ptr_num _).
  assert (forall s' keep, keep = (if f_discard_vld (fch s) then [] else
      [FchRspq (fo_pc c) (fr_ir r) (fr_ok r) (fr_expt r) (fr_cause r) (fr_priv r) (fr_tval r)]) ->
    chan_wf (Chan (ch_depth (fch_rspq s)) (ch_pkts (fch_rspq s) ++ keep)) ->
    fetch_view s' = (fch_ost_depth s, o', f_req_ptr (fch s), rsp', f_discard_end_ptr (fch s),
      f_discard_vld (fch s) && negb (rsp' =? f_discard_end_ptr (fch s)), f_pc (fch s), fch_req_mst s,
      Chan (ch_depth (fch_rsp_slv s)) rest, Chan (ch_depth (fch_rspq s)) (ch_pkts (fch_rspq s) ++ keep)) ->
    rest_view s' = rest_view s -> exists fr live', ifu_inv s' n mem fr live') as Hend.
  { intros s' keep Hk Hwf Ev Erest.
    destruct (fetch_answered s s' mem c l2 o' r rest keep Hf Ho' Hdep Er Hk Hwf Ev) as [Hf' Hw'].
    exists true, l2. unfold rest_view in Erest. injection Erest as R1 R2 R3 R4 R5 R6.
    split; unfold follows, issue_ok in *; rewrite ?Hw', ?R1, ?R2, ?R3, ?R4, ?R5, ?R6; done. }
  clear Hsame. destruct (f_discard_vld (fch s)) eqn:Ev; cbn [andb negb when] in *.
  - assert (chan_wf (Chan (ch_depth (fch_rspq s)) (ch_pkts (fch_rspq s) ++ []))) as Hwf
      by (rewrite app_nil_r; by destruct (fch_rspq s)).
    destruct (rsp' =? f_discard_end_ptr (fch s)); cbn [when negb andb] in *.
    + apply wp_modify, wp_ret. split_and!; [done..|]. apply (Hend _ []); [done|done| |done].
      unfold fetch_view. upd_proj. rewrite app_nil_r. by destruct (fch_rspq s).
    + apply wp_ret, wp_ret. split_and!; [done..|]. apply (Hend _ []); [done|done| |done].
      unfold fetch_view. upd_proj. rewrite app_nil_r, Ev. by destruct (fch_rspq s).
  - apply wp_ret, wp_bind, wp_on_write; upd_proj; [done..|]. intros Hwf. apply wp_modify. split_and!; [done..|].
    eapply Hend; [reflexivity|exact Hwf| |done]. unfold fetch_view. upd_proj. by rewrite Ev.
Qed.

(** ** Issue *)

(** Taking the oldest response: what is wanted begins after it. *)
Lemma fetch_taken s s' mem fr live e es : fetch_inv s mem fr live -> ch_pkts (fch_rspq s) = e :: es ->
  fetch_view s' = fetch_view (s <| fch_rspq := Chan (ch_depth (fch_rspq s)) es |>) ->
  fetch_inv s' mem fr live /\ wanted s live = rp_pc e :: wanted s' live /\
  (rp_ok e = true -> rp_expt e = false -> rp_ir e = imem (rp_pc e)).
Proof.
  intros Hf Ee Ev. set (s1 := s <| fch_rspq := Chan (ch_depth (fch_rspq s)) es |>) in *.
  assert (fetch_inv s1 mem fr live /\ (rp_ok e = true -> rp_expt e = false -> rp_ir e = imem (rp_pc e))) as [Hf1 He].
  { destruct Hf. rewrite Ee in fi_rspq0. apply Forall_cons in fi_rspq0 as [He Hes]. split; [|done].
    split; unfold s1; upd_proj; try done. by eapply chan_wf_tail. }
  destruct (fetch_frame s1 s' mem fr live Ev Hf1) as [Hf' Hw']. split; [done|]. split; [|done].
  rewrite Hw'. unfold wanted. rewrite Ee. done.
Qed.

(** The interfaces and the queue of control flow instructions are in order. *)
Record ports_ok s : Prop := {
  po_bpu : bport_ok (ifu_bpu s);
  po_ctrlq : chan_wf (ctrlq s) /\ Forall (fun c => cq_vld c = true) (ch_pkts (ctrlq s));
  po_ex : chan_wf (ex_req_mst s);
  po_expt : chan_wf (fch_expt_mst s);
  po_fl : 0 < ch_depth (fl_req_mst s)
}.

Lemma inv_ports s n mem fr live : ifu_inv s n mem fr live -> ports_ok s.
Proof. intros []. by split. Qed.

(** The fetch path flushed to the next instruction, with nothing in the issue stage. *)
Lemma inv_flushed s t mem fr live st : fetch_inv s mem fr live -> is_vld (issue s) = false -> ports_ok s ->
  ifu_inv (flushed s t st) t mem fr live.
Proof.
  intros Hf Hv []. destruct (flushed_fetch s t st mem fr live Hf) as [Hf' Hw'].
  assert (issue (flushed s t st) = issue s) as Ei by done.
  split; try done; unfold follows, issue_ok; rewrite Ei, Hv; [|done]. rewrite Hw'. done.
Qed.

(** What preparing an instruction for issue leaves. *)
Record prepared s n mem (fr : bool) s' : Prop := {
  pp_red : redirect_state s' = IFU_REDIRECT_STATE_IDLE;
  pp_back : back_blocked s' = back_blocked s;
  pp_ex : ex_req_mst s' = ex_req_mst s;
  pp_inv : exists live', ifu_inv s' n mem fr live';
  pp_faults : exists faults, ch_pkts (fch_expt_mst s') = ch_pkts (fch_expt_mst s) ++ faults /\
    Forall (fun e => expt_pc e = n) faults /\ (length faults <= 1)%nat /\
    (faults <> [] -> is_vld (issue s') = false)
}.

Lemma prepared_quiet s n mem fr s' live : redirect_state s' = IFU_REDIRECT_STATE_IDLE ->
  back_blocked s' = back_blocked s -> ex_req_mst s' = ex_req_mst s -> fch_expt_mst s' = fch_expt_mst s ->
  ifu_inv s' n mem fr live -> prepared s n mem fr s'.
Proof.
  intros H1 H2 H3 H4 H5. split; [done..|by exists live|]. exists []. rewrite H4, app_nil_r.
  split_and!; [done..|simpl; lia|done].
Qed.

(** The issue stage with an instruction that waits for its prediction. *)
Lemma inv_issued s s' n mem fr live : fetch_inv s' mem fr live ->
  chain_from (u32 (n + 4)) (wanted s' live) -> is_vld (issue s') = true -> is_pc (issue s') = n ->
  is_ir (issue s') = imem n -> is_pred_vld (issue s') = false ->
  (let rsp := port_pred_rsp (ifu_bpu s') in
   pr_vld rsp = true /\ (pr_is_ctrl rsp && pr_pred_taken rsp = false -> pr_pred_pc rsp = u32 (n + 4))) ->
  ports_ok s' -> ifu_inv s' n mem fr live.
Proof.
  intros Hf Hc Hv Hpc Hir Hp Hlaw []. split; try done.
  - unfold follows. by rewrite Hv, Hp, Hpc.
  - intros _. split_and!; [done..|]. intros _. by rewrite Hpc.
Qed.

Lemma inv_prepare_issue s n mem fr live : ifu_inv s n mem fr live -> settled s ->
  wp ifu_prepare_issue (fun _ s' => prepared s n mem fr s') s.
Proof.
  intros Hi [Hred _]. pose proof (inv_ports _ _ _ _ _ Hi) as Hp. pose proof Hp as [Hb [Hqw Hqv] Hx He Hl].
  unfold ifu_prepare_issue. apply wp_bind, wp_gets. unfold id. rewrite Hred, bool_decide_true by done. cbn [negb].
  assert (prepared s n mem fr s) as Hsame by (by eapply prepared_quiet).
  destruct (chan_empty (fch_rspq s)) eqn:Ee; [by apply wp_ret|].
  destruct (is_vld (issue s)) eqn:Ev; [by apply wp_ret|].
  apply chan_empty_false in Ee as (e & es & Ee). apply wp_bind. eapply wp_on_front; [done|clear; by destruct s|].
  pose proof Hi as [Hf Hc _ _ _ _ _ _].
  set (s1 := s <| fch_rspq := Chan (ch_depth (fch_rspq s)) es |>).
  destruct (fetch_taken s s1 mem fr live e es Hf Ee eq_refl) as (Hf1 & Hw & Hir).
  rewrite Hw in Hc. unfold follows in Hc. rewrite Ev in Hc. destruct Hc as [Hpc Hc].
  destruct (rp_expt e) eqn:Ex.
  { destruct (negb (chan_empty (ctrlq s))); [by apply wp_ret|].
    destruct (chan_full (fch_expt_mst s)) eqn:Ef; [by apply wp_ret|].
    apply wp_bind. eapply wp_on_read; [done|]. fold s1. apply wp_bind, wp_on_write; [done..|]. intros Hwf.
    eapply wp_intro; [apply fault_run|]. rewrite Hpc in Hwf |- *. split; [done..| |].
    - exists live. apply inv_flushed; [by apply (fetch_frame s1)|done|]. split; by upd_proj.
    - eexists [_]. split_and!; [reflexivity|by constructor|simpl; lia|done]. }
  destruct (negb (rp_ok e)) eqn:Eok.
  { apply wp_bind. eapply wp_on_read; [done|]. fold s1. eapply wp_intro; [apply flush_run|]. rewrite Hpc.
    eapply (prepared_quiet _ _ _ _ _ live); [done..|]. by apply inv_flushed. }
  apply negb_false_iff in Eok.
  apply wp_bind. eapply wp_on_read; [done|]. fold s1. apply wp_bind, wp_modify, wp_bind, wp_gets. unfold id. upd_proj.
  apply wp_bind. unfold ifu_send_bpu_pred_req. apply wp_on. upd_proj.
  eapply wp_mono; [by apply port_pred_req_ok|]. intros [] b' [Hb' Hlaw]. specialize (Hlaw eq_refl).
  apply wp_update_fch_state. intros s' Es Er Hr Hbk. unfold rest_view in Er. revert Er Hr Hbk. upd_proj. intros Er Hr Hbk.
  injection Er as R1 R2 R3 R4 R5 R6. destruct (fetch_frame s1 s' mem fr live Es Hf1) as [Hf' Hw'].
  eapply (prepared_quiet _ _ _ _ _ live); [by rewrite Hr|by rewrite Hbk|done..|].
  apply (inv_issued s); rewrite ?R1, ?Hw'; try done.
  - by rewrite <- Hpc.
  - simpl. rewrite <- Hpc. by apply Hir.
  - rewrite R2, <- Hpc. exact Hlaw.
  - split; by rewrite ?R2, ?R3, ?R4, ?R5, ?R6.
Qed.

Lemma inv_apply_pred s n mem fr live : ifu_inv s n mem fr live -> redirect_state s = IFU_REDIRECT_STATE_IDLE ->
  wp ifu_apply_bpu_pred_rsp (fun _ s' => settled s' /\ ex_req_mst s' = ex_req_mst s /\
    fch_expt_mst s' = fch_expt_mst s /\ is_vld (issue s') = is_vld (issue s) /\ ifu_inv s' n mem fr live) s.
Proof.
  intros Hi Hred. unfold ifu_apply_bpu_pred_rsp. apply wp_bind, wp_gets. unfold id.
  destruct (negb _ || _) eqn:E.
  { apply wp_ret. split_and!; try done. split; [done|]. intros Hv. rewrite Hv in E. exact E. }
  apply orb_false_iff in E as [Ev%negb_false_iff Ep].
  pose proof (inv_ports _ _ _ _ _ Hi) as Hpo. pose proof Hi as [Hf Hc Hiss _ _ _ _ _].
  destruct (Hiss Ev) as (Hpc & Hir & Hlaw). destruct (Hlaw Ep) as [Hvld Hpred].
  set (rsp := port_pred_rsp (ifu_bpu s)) in *. cbv zeta. apply wp_bind, wp_check; [done|].
  apply wp_bind, wp_modify, wp_bind, wp_gets. unfold id. upd_proj.
  match goal with |- wp _ _ ?x => set (s1 := x) end.
  destruct (fetch_frame s s1 mem fr live eq_refl Hf) as [Hf1 Hw1].
  assert (is_vld (issue s1) = true /\ is_pc (issue s1) = n /\ is_ir (issue s1) = imem n /\
    is_pred_vld (issue s1) = true /\ is_pred_target_pc (issue s1) = pr_pred_pc rsp) as (I1 & I2 & I3 & I4 & I5)
    by (unfold s1; by upd_proj).
  assert (forall s', settled s' -> ex_req_mst s' = ex_req_mst s -> fch_expt_mst s' = fch_expt_mst s ->
    is_vld (issue s') = true -> is_pc (issue s') = n -> is_ir (issue s') = imem n -> is_pred_vld (issue s') = true ->
    fetch_inv s' mem fr live -> chain_from (is_pred_target_pc (issue s')) (wanted s' live) -> ports_ok s' ->
    settled s' /\ ex_req_mst s' = ex_req_mst s /\ fch_expt_mst s' = fch_expt_mst s /\
    is_vld (issue s') = is_vld (issue s) /\ ifu_inv s' n mem fr live) as Hend.
  { intros s' Hs' X1 X2 V1 V2 V3 V4 F' C' []. split_and!; [done..|congruence|]. split; try done.
    - unfold follows. by rewrite V1, V4.
    - intros _. split_and!; [done..|]. by rewrite V4. }
  destruct (pr_is_ctrl rsp && pr_pred_taken rsp) eqn:Ect; cbn [when].
  - apply wp_bind. eapply wp_intro; [apply flush_run|]. apply wp_modify.
    match goal with |- context [upd issue _ ?x] => set (s2 := x) end.
    destruct (flushed_fetch s1 (pr_pred_pc rsp) IFU_FCH_STATE_REQ mem fr live Hf1) as [Hf2 Hw2].
    match goal with |- context [settled ?x] => set (s3 := x) end.
    destruct (fetch_frame s2 s3 mem fr live eq_refl Hf2) as [Hf3 Hw3].
    assert (issue s3 = issue s1 <| is_pred_redirected := true |>) as E3 by (unfold s3, s2, flushed; upd_proj; reflexivity).
    assert (ports_ok s3) as Hpo3 by (destruct Hpo; unfold s3, s2, s1, flushed; split; upd_proj; assumption).
    assert (redirect_state s3 = IFU_REDIRECT_STATE_IDLE) as Hr3 by (unfold s3, s2, s1, flushed; upd_proj; exact Hred).
    assert (ex_req_mst s3 = ex_req_mst s /\ fch_expt_mst s3 = fch_expt_mst s) as [Hx3 He3]
      by (unfold s3, s2, s1, flushed; upd_proj; done).
    unfold s2 in Hw3. rewrite Hw2 in Hw3. clearbody s3 s1. clear s2.
    apply Hend; try assumption; try (rewrite E3; upd_proj; assumption).
    + split; [done|]. intros _. rewrite E3. by upd_proj.
    + rewrite Hw3, E3. upd_proj. by rewrite I5.
  - apply wp_ret. apply Hend; try done; [|by destruct Hpo; split]. rewrite Hw1, I5, Hpred by done. unfold follows in Hc.
    by rewrite Ev, Ep in Hc.
Qed.

Lemma inv_send_ex_req s n mem fr live : ifu_inv s n mem fr live -> settled s ->
  wp ifu_send_ex_req (fun _ s' => settled s' /\ fch_expt_mst s' = fch_expt_mst s /\
    exists issues, ch_pkts (ex_req_mst s') = ch_pkts (ex_req_mst s) ++ issues /\
      Forall (fun r => rq_pc r = n /\ rq_inst r = imem n) issues /\ (length issues <= 1)%nat /\
      (issues <> [] -> is_vld (issue s) = true) /\
      ifu_inv s' (match issues with r :: _ => rq_pred_pc r | [] => n end) mem fr live) s.
Proof.
  intros Hi [Hred Hset]. unfold ifu_send_ex_req. apply wp_bind, wp_gets. unfold id. cbv zeta.
  assert (settled s /\ fch_expt_mst s = fch_expt_mst s /\
    exists issues, ch_pkts (ex_req_mst s) = ch_pkts (ex_req_mst s) ++ issues /\
      Forall (fun r => rq_pc r = n /\ rq_inst r = imem n) issues /\ (length issues <= 1)%nat /\
      (issues <> [] -> is_vld (issue s) = true) /\
      ifu_inv s (match issues with r :: _ => rq_pred_pc r | [] => n end) mem fr live) as Hsame.
  { split; [by split|]. split; [done|]. exists []. rewrite app_nil_r. split_and!; [done..|simpl; lia|done|done]. }
  destruct (is_vld (issue s)) eqn:Ev; cbn [negb]; [|by apply wp_ret]. rewrite (Hset eq_refl). cbn [negb].
  rewrite Hred, bool_decide_true by done. cbn [negb].
  destruct (chan_full (ex_req_mst s)) eqn:Ef; [by apply wp_ret|].
  destruct (is_is_ctrl (issue s) && chan_full (ctrlq s)) eqn:Eq; [by apply wp_ret|]. clear Hsame.
  pose proof Hi as [Hf Hc Hiss Hb [Hqw Hqv] Hx He Hl]. destruct (Hiss Ev) as (Hpc & Hir & _).
  unfold follows in Hc. rewrite Ev, (Hset eq_refl) in Hc.
  set (r := ExReq _ _ _ _ _).
  apply wp_bind, wp_on_write; [done..|]. intros Hwf. apply wp_bind.
  assert (forall s', fetch_view s' = fetch_view s -> rest_view s' =
      (issue s, ifu_bpu s, ctrlq s', chan_snoc (ex_req_mst s) r, fch_expt_mst s, fl_req_mst s) ->
    redirect_state s' = IFU_REDIRECT_STATE_IDLE ->
    chan_wf (ctrlq s') -> Forall (fun c => cq_vld c = true) (ch_pkts (ctrlq s')) ->
    wp (set_issue (fun i => i <| is_vld := false |> <| is_is_ctrl := false |> <| is_pred_vld := false |>
      <| is_pred_redirected := false |> <| is_cond_bht_hit := false |> <| is_jalr_ras_hit := false |>
      <| is_jalr_btb_hit := false |> <| is_jalr_btb_miss := false |>))
    (fun _ s' => settled s' /\ fch_expt_mst s' = fch_expt_mst s /\
    exists issues, ch_pkts (ex_req_mst s') = ch_pkts (ex_req_mst s) ++ issues /\
      Forall (fun r => rq_pc r = n /\ rq_inst r = imem n) issues /\ (length issues <= 1)%nat /\
      (issues <> [] -> true = true) /\
      ifu_inv s' (match issues with r :: _ => rq_pred_pc r | [] => n end) mem fr live) s') as Hend.
  { intros s' Es Er Hr' Hq1 Hq2. unfold rest_view in Er. injection Er as R1 R2 R3 R4 R5. apply wp_modify.
    match goal with |- settled ?x /\ _ => set (s2 := x) end.
    destruct (fetch_frame s s2 mem fr live ltac:(exact Es) Hf) as [Hf2 Hw2].
    assert (is_vld (issue s2) = false) as Hv2 by (unfold s2; by upd_proj).
    split; [split; [done|by rewrite Hv2]|]. split; [done|]. exists [r].
    split; [unfold s2; upd_proj; by rewrite R3|]. split; [by constructor|]. split; [simpl; lia|]. split; [done|].
    split; try done; unfold follows, issue_ok; rewrite ?Hv2, ?Hw2; try done; unfold s2; upd_proj; rewrite ?R2, ?R3, ?R4, ?R5; done. }
  destruct (is_is_ctrl (issue s)); cbn [andb when] in *.
  - unfold ifu_ctrlq_push. apply wp_on_write; upd_proj; [done..|]. intros Hwq. apply Hend; try done.
    unfold chan_snoc. upd_proj. apply Forall_app. split; [done|by constructor].
  - apply wp_ret. by apply Hend.
Qed.

(** The checks at the end of a cycle. *)
Lemma wp_ptr_distance a b s Q : 0 < fch_ost_depth s < 2147483648 -> 0 <= a < ptr_num s -> 0 <= b < ptr_num s ->
  Q ((b - a) mod ptr_num s) s -> wp (ifu_fch_ptr_distance a b) Q s.
Proof.
  intros Hd Ha Hb HQ. unfold ifu_fch_ptr_distance. apply wp_bind, wp_gets. unfold id. rewrite u32_ptr_num by done.
  apply wp_bind, wp_check; [lia|]. apply wp_bind, wp_check; [lia|]. apply wp_ret. unfold ptr_num in *.
  destruct (Z.leb_spec a b).
  - by rewrite Z.mod_small in HQ by lia.
  - rewrite u32_small by (unfold is_u32, W32; lia).
    replace (b - a) with (2 * fch_ost_depth s - a + b + (-1) * (2 * fch_ost_depth s)) in HQ by lia.
    by rewrite Z_mod_plus_full, Z.mod_small in HQ by lia.
Qed.

Lemma check_ok s mem fr live Q : fetch_inv s mem fr live -> Q tt s -> wp ifu_check_fch_ost Q s.
Proof.
  intros [] HQ. destruct (ost_live_bound _ _ _ fi_ost0) as [Hb Hd]. pose proof (ol_wf _ _ _ fi_ost0) as Hw.
  pose proof (qwf_pending _ Hw) as Hp. pose proof (ol_freed _ _ _ fi_ost0) as Hfr. unfold q_freed in Hfr.
  assert (q_free_pending_count (fch_ost s) = b2z fr) as Epend by (destruct fr; simpl; lia).
  unfold ifu_check_fch_ost. apply wp_bind, wp_gets. unfold id. apply wp_bind, wp_check; [lia|].
  apply wp_bind, wp_ptr_distance; [done..|]. rewrite fi_active0.
  apply wp_bind, wp_check; [lia|]. apply wp_bind, wp_check; [lia|].
  destruct (f_discard_vld (fch s)) eqn:Ev; cbn [negb]; [|by apply wp_ret].
  specialize (fi_discard0 eq_refl). unfold discards in fi_discard0. rewrite Ev in fi_discard0.
  apply wp_bind, wp_ptr_distance; [done..|]. apply wp_bind, wp_check; [lia|]. apply wp_check; [lia|done].
Qed.

(** ** Redirections *)

(** What the first half of a cycle leaves alone until it decides on a redirection. *)
Definition front_view s := (fetch_view s, issue s, ex_req_mst s, fch_expt_mst s, tlb_flush_slv s, l1i_flush_slv s,
  exu_state_i s, back_blocked s).

Lemma front_inv s s' n mem fr live : front_view s' = front_view s -> ports_ok s' -> settled s ->
  ifu_inv s n mem fr live -> ifu_inv s' n mem fr live.
Proof.
  intros E [] [_ Hset] [Hf Hc Hiss _ _ _ _ _]. unfold front_view in E.
  pose proof (f_equal (fun x => fst (fst (fst (fst (fst (fst (fst x))))))) E) as Ev. cbn [fst] in Ev.
  pose proof (f_equal (fun x => snd (fst (fst (fst (fst (fst (fst x))))))) E) as Ei. cbn [fst snd] in Ei.
  destruct (fetch_frame _ _ _ _ _ Ev Hf) as [Hf' Hw]. split; try done; unfold follows, issue_ok in *; rewrite ?Hw, ?Ei; try done.
  intros Hv. destruct (Hiss Hv) as (H1 & H2 & _). split_and!; [done..|]. by rewrite (Hset Hv).
Qed.

Lemma front_issue s s' : front_view s' = front_view s -> issue s' = issue s.
Proof. intros E. unfold front_view in E. exact (f_equal (fun x => snd (fst (fst (fst (fst (fst (fst x))))))) E). Qed.

(** A run that may fail a check only where [F] holds. *)
Definition wpf {X A} (F : Prop) (m : M X A) (Q : A -> X -> Prop) (x : X) : Prop :=
  match m x with
  | Some (a, x') => Q a x'
  | None => F
  end.

Lemma wpf_bind {X A C} F (m : M X A) (f : A -> M X C) Q (x : X) :
  wpf F m (fun a x' => wpf F (f a) Q x') x -> wpf F (m ≫= f) Q x.
Proof. unfold wpf, mbind, M_bind. by destruct (m x) as [[a x']|]. Qed.

Lemma wpf_mono {X A} F (m : M X A) (Q Q' : A -> X -> Prop) (x : X) :
  wpf F m Q x -> (forall a x', Q a x' -> Q' a x') -> wpf F m Q' x.
Proof. unfold wpf. destruct (m x) as [[a x']|]; auto. Qed.

Lemma wpf_wp {X A} F (m : M X A) (Q : A -> X -> Prop) (x : X) : wp m Q x -> wpf F m Q x.
Proof. unfold wp, wpf. by destruct (m x) as [[a x']|]. Qed.

Lemma wpf_bind_wp {X A C} F (m : M X A) (f : A -> M X C) Q (x : X) :
  wp m (fun a x' => wpf F (f a) Q x') x -> wpf F (m ≫= f) Q x.
Proof. intros H. by apply wpf_bind, wpf_wp. Qed.

(** The state of a redirection that is asked for, or none. *)
Definition asked s (red : ifu_redirect_state_t) (t : option Z) s' : Prop :=
  match t with
  | Some pc => redirect_state s' = red /\ redirect_pc s' = pc
  | None => redirect_state s' = IFU_REDIRECT_STATE_IDLE /\ fl_req_mst s' = fl_req_mst s
  end.

Lemma wp_request_redirect s pc red F Q : red = IFU_REDIRECT_STATE_BRANCH \/ red = IFU_REDIRECT_STATE_TRAP ->
  (chan_empty (fl_req_mst s) = false -> F) -> ports_ok s ->
  (forall s', front_view s' = front_view s -> ports_ok s' -> redirect_state s' = red -> redirect_pc s' = pc ->
    ex_rsp_slv s' = ex_rsp_slv s -> trap_send_slv s' = trap_send_slv s -> Q tt s') ->
  wpf F (DBG_CHECK (chan_empty (fl_req_mst s));; on fl_req_mst (chan_write tt);; ifu_ctrlq_flush;;
      ifu_request_redirect pc red) Q s.
Proof.
  intros Hred HF [] HQ. destruct (chan_empty (fl_req_mst s)) eqn:Hfl; [clear HF|by apply HF].
  apply wpf_wp, wp_bind, wp_check; [done|]. apply wp_bind.
  apply chan_empty_spec in Hfl. apply wp_on_write.
  { unfold chan_wf, chan_num. rewrite Hfl. simpl. lia. }
  { apply Z.eqb_neq. unfold chan_num. rewrite Hfl. simpl. lia. }
  intros _. apply wp_bind. unfold ifu_ctrlq_flush. apply wp_on, wp_modify. upd_proj.
  unfold ifu_request_redirect. apply wp_bind, wp_check; [by destruct Hred as [-> | ->]|]. apply wp_modify. apply HQ.
  - done.
  - split; upd_proj; try done. unfold chan_wf, chan_num in *. simpl. split; [lia|constructor].
  - by upd_proj.
  - by upd_proj.
  - by upd_proj.
  - by upd_proj.
Qed.

Lemma inv_proc_ex_rsp s F : redirect_state s = IFU_REDIRECT_STATE_IDLE ->
  (chan_empty (fl_req_mst s) = false -> is_Some (snd (ex_rsp_of s)) -> F) -> ports_ok s ->
  wpf F ifu_proc_ex_rsp (fun _ s' => front_view s' = front_view s /\ ports_ok s' /\ trap_send_slv s' = trap_send_slv s /\
    let '(rsps, ctrls, t) := ex_rsp_of s in
    asked s IFU_REDIRECT_STATE_BRANCH t s' /\ ch_pkts (ex_rsp_slv s') = rsps /\ (t = None -> ch_pkts (ctrlq s') = ctrls)) s.
Proof.
  intros Hred HF Hp. unfold ifu_proc_ex_rsp. apply wpf_bind_wp, wp_gets. unfold id.
  rewrite Hred, bool_decide_true by done. cbn [negb]. unfold ex_rsp_of in *.
  destruct (chan_empty (ex_rsp_slv s)) eqn:Ee.
  { apply wpf_wp, wp_ret. apply chan_empty_spec in Ee. rewrite Ee. by split_and!. }
  apply chan_empty_false in Ee as (r & rsps & Ee). rewrite Ee in *. apply wpf_bind_wp. eapply wp_on_read; [done|].
  set (s1 := s <| ex_rsp_slv := _ |>). assert (ports_ok s1) as Hp1 by (destruct Hp; by split).
  apply wpf_bind_wp. unfold ifu_ctrlq_pop_valid. apply wp_bind, wp_gets. unfold id. change (ctrlq s1) with (ctrlq s).
  destruct (chan_empty (ctrlq s)) eqn:Eq.
  { apply wp_ret, wpf_wp, wp_ret. apply chan_empty_spec in Eq. rewrite Eq. by split_and!. }
  apply chan_empty_false in Eq as (c & ctrls & Eq). rewrite Eq in *.
  apply wp_bind. eapply wp_on_front; [exact Eq|clear; by destruct s|].
  pose proof (po_ctrlq _ Hp) as [Hqw Hqv]. rewrite Eq in Hqv. apply Forall_cons in Hqv as [Hcv Hqv]. rewrite Hcv. cbn [negb].
  destruct (cq_pc c =? rsp_pc r); cbn [negb]; [|apply wp_ret, wpf_wp, wp_ret; by split_and!].
  apply wp_bind. eapply wp_on_read; [exact Eq|]. apply wp_ret. cbv zeta.
  apply wpf_bind_wp, wp_on. upd_proj. eapply wp_mono; [apply port_update_ok, Hp|]. intros [] b' Hb'.
  match goal with |- wpf _ _ _ ?x => set (s2 := x) end.
  assert (ports_ok s2) as Hp2.
  { destruct Hp. split; unfold s2; upd_proj; try done. split; [|done]. by eapply chan_wf_tail. }
  destruct (rsp_pred_true r); [apply wpf_wp, wp_ret; by split_and!|].
  apply wpf_bind_wp, wp_gets. apply wp_request_redirect; [by left| |done|].
  { intros Hne. apply HF; [exact Hne|by eexists]. }
  intros s' Hv Hp' Ha1 Ha2 Er Et.
  split_and!; [by rewrite Hv|done|by rewrite Et|done|by rewrite Er|done].
Qed.

Lemma inv_proc_trap_send s F : ports_ok s ->
  (redirect_state s = IFU_REDIRECT_STATE_IDLE -> ch_pkts (ex_rsp_slv s) = [] -> ch_pkts (ctrlq s) = [] ->
   ch_pkts (trap_send_slv s) <> [] -> chan_empty (fl_req_mst s) = false -> F) ->
  wpf F ifu_proc_trap_send (fun _ s' => front_view s' = front_view s /\ ports_ok s' /\
    match decide (redirect_state s = IFU_REDIRECT_STATE_IDLE), ch_pkts (ex_rsp_slv s), ch_pkts (ctrlq s),
      ch_pkts (trap_send_slv s) with
    | left _, [], [], t :: _ => redirect_state s' = IFU_REDIRECT_STATE_TRAP /\ redirect_pc s' = t
    | _, _, _, _ => redirect_state s' = redirect_state s /\ redirect_pc s' = redirect_pc s
    end) s.
Proof.
  intros Hp HF. unfold ifu_proc_trap_send. apply wpf_bind_wp, wp_gets. unfold id.
  destruct (decide _) as [Hi|Hni].
  2:{ rewrite bool_decide_false by done. by apply wpf_wp, wp_ret. }
  rewrite bool_decide_true by done. cbn [negb].
  destruct (ch_pkts (ex_rsp_slv s)) as [|r rs] eqn:E1.
  2:{ assert (chan_empty (ex_rsp_slv s) = false) as -> by (apply not_true_is_false; rewrite chan_empty_spec; congruence).
      by apply wpf_wp, wp_ret. }
  rewrite (proj2 (chan_empty_spec _) E1). cbn [negb].
  destruct (ch_pkts (ctrlq s)) as [|c cs] eqn:E2.
  2:{ assert (chan_empty (ctrlq s) = false) as -> by (apply not_true_is_false; rewrite chan_empty_spec; congruence).
      by apply wpf_wp, wp_ret. }
  rewrite (proj2 (chan_empty_spec _) E2). cbn [negb].
  destruct (ch_pkts (trap_send_slv s)) as [|t ts] eqn:E3.
  { rewrite (proj2 (chan_empty_spec _) E3). by apply wpf_wp, wp_ret. }
  assert (chan_empty (trap_send_slv s) = false) as -> by (apply not_true_is_false; rewrite chan_empty_spec; congruence).
  apply wpf_bind_wp. eapply wp_on_read; [done|]. apply wpf_bind_wp, wp_gets. unfold id.
  apply wp_request_redirect; [by right| |destruct Hp; by split|].
  - intros Hne. by apply HF.
  - intros s' Hv Hp' Ha1 Ha2 _ _. split_and!; [by rewrite Hv|done..].
Qed.

Lemma front_asks s F (k : M (ifu_t B) unit) Q : redirect_state s = IFU_REDIRECT_STATE_IDLE ->
  (chan_empty (fl_req_mst s) = false -> is_Some (ask_of s) -> F) -> ports_ok s ->
  (forall s', front_view s' = front_view s -> ports_ok s' ->
     match ask_of s with
     | Some t => (redirect_state s' = IFU_REDIRECT_STATE_BRANCH \/ redirect_state s' = IFU_REDIRECT_STATE_TRAP) /\
                 redirect_pc s' = t
     | None => redirect_state s' = IFU_REDIRECT_STATE_IDLE
     end -> wpf F k Q s') ->
  wpf F (ifu_proc_ex_rsp;; ifu_proc_trap_send;; k) Q s.
Proof.
  intros Hred HF Hp HQ. unfold ask_of in *. apply wpf_bind. eapply wpf_mono; [apply inv_proc_ex_rsp; [done| |done]|].
  { intros Hne [t Ht]. apply HF; [done|]. destruct (ex_rsp_of s) as [[rsps ctrls] mis]. simpl in Ht. by rewrite Ht. }
  intros [] s1 (Hv1 & Hp1 & Ht1 & H1).
  destruct (ex_rsp_of s) as [[rsps ctrls] mis]. destruct H1 as (Ha1 & Hr1 & Hc1).
  apply wpf_bind. eapply wpf_mono; [apply inv_proc_trap_send; [done|]|].
  { intros Hi E1 E2 E3 Hne. destruct mis as [t|]; [destruct Ha1; congruence|]. destruct Ha1 as [_ Hfl].
    rewrite Hr1 in E1. rewrite (Hc1 eq_refl) in E2. rewrite Ht1 in E3. rewrite Hfl in Hne. apply HF; [done|].
    rewrite E1, E2. by destruct (ch_pkts (trap_send_slv s)). }
  intros [] s2 (Hv2 & Hp2 & H2). apply HQ; [by rewrite Hv2|done|]. rewrite Ht1 in H2.
  destruct mis as [t|].
  - destruct Ha1 as [Hb Hpc]. rewrite decide_False in H2 by (by rewrite Hb). destruct H2 as [-> ->]. auto.
  - destruct Ha1 as [Hidle _]. rewrite decide_True, Hr1, Hc1 in H2 by done.
    destruct rsps, ctrls, (ch_pkts (trap_send_slv s)); try (destruct H2 as [-> _]; done).
    destruct H2 as [H2 ->]. auto.
Qed.

(** The issue stage emptied and the fetch path flushed. *)
Lemma inv_cleared s t mem fr live : fetch_inv s mem fr live -> ports_ok s ->
  ifu_inv (flushed (s <| issue := issue s <| is_vld := false |> <| is_is_ctrl := false |> <| is_pred_vld := false |>
    <| is_pred_redirected := false |> |>) t IFU_FCH_STATE_REQ) t mem fr live.
Proof.
  intros Hf Hp. apply inv_flushed; [by apply (fetch_frame s)|done|]. destruct Hp. by split.
Qed.

(** What a redirection to [t] leaves. *)
Definition redirected s t mem (fr : bool) s' : Prop :=
  back_blocked s' = true /\ settled s' /\ ex_req_mst s' = ex_req_mst s /\
  fch_expt_mst s' = fch_expt_mst s /\ exists live', ifu_inv s' t mem fr live'.

Lemma inv_blocked s s1 t mem fr live : ifu_inv s1 t mem fr live -> redirect_state s1 = IFU_REDIRECT_STATE_IDLE ->
  is_vld (issue s1) = false -> ex_req_mst s1 = ex_req_mst s -> fch_expt_mst s1 = fch_expt_mst s ->
  wp (ifu_update_fch_state;; modify (fun ifu => ifu <| back_blocked := true |>)) (fun _ s' => redirected s t mem fr s') s1.
Proof.
  intros Hi Hr Hv Hx He. apply wp_bind, wp_update_fch_state. intros s2 Ev Er Hr2 _. apply wp_modify.
  pose proof Er as Er'. unfold rest_view in Er'. injection Er' as R1 R2 R3 R4 R5 R6.
  unfold redirected, settled. upd_proj. rewrite R1, R4, R5, Hr2, Hv. split_and!; [done..|].
  exists live. by apply (inv_frame s1).
Qed.

Lemma inv_redirect s n mem fr live : ifu_inv s n mem fr live -> redirect_state s <> IFU_REDIRECT_STATE_IDLE ->
  wp (ifu_proc_redirect;; ifu_update_fch_state;; modify (fun ifu => ifu <| back_blocked := true |>))
    (fun _ s' => redirected s (redirect_pc s) mem fr s') s.
Proof.
  intros Hi Hr. apply wp_bind. unfold ifu_proc_redirect. apply wp_bind, wp_gets. unfold id.
  rewrite bool_decide_false by done. apply wp_bind, wp_modify, wp_bind, wp_modify, wp_bind.
  eapply wp_intro; [apply flush_run|]. apply wp_bind, wp_modify, wp_ret.
  match goal with |- wp _ _ ?x => set (s1 := x) end.
  apply (inv_blocked _ _ _ _ _ live); [|by unfold s1, flushed; upd_proj..].
  eapply inv_frame; [| |exact (inv_cleared s (redirect_pc s) mem fr live (ii_fetch _ _ _ _ _ Hi) (inv_ports _ _ _ _ _ Hi))].
  - unfold s1, flushed, fetch_view. upd_proj. done.
  - unfold s1, flushed, rest_view. upd_proj. done.
Qed.

Lemma inv_frontend_flush s mem fr live n : ifu_inv s n mem fr live ->
  redirect_state s = IFU_REDIRECT_STATE_IDLE ->
  wp ifu_proc_frontend_flush (fun (b : bool) s' =>
    match (if ifu_flush_event_pending s then st_irq_epc <$> exu_state_i s else None) with
    | Some t => b = true /\ redirect_state s' = IFU_REDIRECT_STATE_IDLE /\ is_vld (issue s') = false /\
        ex_req_mst s' = ex_req_mst s /\ fch_expt_mst s' = fch_expt_mst s /\ ifu_inv s' t mem fr live
    | None => b = false /\ s' = s
    end) s.
Proof.
  intros Hi Hr. unfold ifu_proc_frontend_flush. apply wp_bind, wp_gets. unfold id.
  destruct (ifu_flush_event_pending s); cbn [negb]; [|by apply wp_ret].
  destruct (exu_state_i s) as [e|]; [|by apply wp_ret]. simpl.
  apply wp_bind, wp_modify, wp_bind. unfold ifu_ctrlq_flush. apply wp_on, wp_modify, wp_bind.
  eapply wp_intro; [apply flush_run|]. apply wp_ret.
  match goal with |- _ /\ redirect_state ?x = _ /\ _ => set (s1 := x) end.
  split_and!; [done|by unfold s1, flushed; upd_proj..|].
  destruct (inv_ports _ _ _ _ _ Hi) as [P1 [P2 _] P3 P4 P5]. unfold s1.
  apply inv_flushed; [by apply (fetch_frame s), (ii_fetch _ _ _ _ _ Hi)|by upd_proj|].
  split; upd_proj; [done| |done..]. split; [|constructor]. unfold chan_wf, chan_num in *. simpl. lia.
Qed.

(** A redirection is asked for although the last flush request has not been taken. *)
Definition flush_overrun s : Prop := chan_empty (fl_req_mst s) = false /\ is_Some (ask_of s).

Lemma inv_front s n mem fr live : ifu_inv s n mem fr live -> settled s ->
  wpf (flush_overrun s) ifu_front_proc (fun _ s' =>
    match redirect_of s with
    | Some t => exists fr', redirected s t mem fr' s'
    | None => exists fr', back_blocked s' = false /\ prepared (s <| back_blocked := false |>) n mem fr' s'
    end) s.
Proof.
  intros Hi Hset. unfold ifu_front_proc.
  pose proof Hi as [Hf _ _ Hb _ _ _ _]. pose proof Hf as [].
  apply wpf_bind_wp, wp_on. eapply wp_ostq_clock; [done|]. intros o' Ho' Hdep.
  apply wpf_bind_wp, wp_modify, wpf_bind_wp. unfold ifu_clear_bpu_pred_req. apply wp_on. upd_proj.
  eapply wp_mono; [by apply port_pred_req_ok|]. intros [] b1 [Hb1 _].
  apply wpf_bind_wp. unfold ifu_clear_bpu_update. apply wp_on. upd_proj.
  eapply wp_mono; [by apply port_update_ok|]. intros [] b2 Hb2.
  match goal with |- wpf _ _ _ ?x => set (s1 := x) end.
  assert (fetch_inv s1 mem false live /\ wanted s1 live = wanted s live) as [Hf1 Hw1].
  { split; [|done]. destruct Hf. split; unfold s1, discards, ptr_num in *; upd_proj; try done. congruence. }
  assert (ports_ok s1) as Hp1 by (destruct (inv_ports _ _ _ _ _ Hi); split; unfold s1; by upd_proj).
  assert (ifu_inv s1 n mem false live) as Hi1.
  { destruct Hp1, Hi. split; [done| |  |done..].
    - change (follows s1 n) with (follows s n). by rewrite Hw1.
    - intros Hv. destruct (ii_issue0 Hv) as (? & ? & _). split_and!; [done..|].
      change (issue s1) with (issue s). by rewrite (proj2 Hset Hv). }
  assert (settled s1 /\ redirect_of s1 = redirect_of s /\ ask_of s1 = ask_of s) as (Hset1 & Hro & Hao) by done.
  assert (ex_req_mst s1 = ex_req_mst s /\ fch_expt_mst s1 = fch_expt_mst s /\ back_blocked s1 = false) as (X1 & X2 & X3) by done.
  assert (chan_empty (fl_req_mst s1) = false -> is_Some (ask_of s1) -> flush_overrun s) as Hfl1 by (rewrite Hao; by split).
  rewrite <- Hro. unfold redirect_of. clear Hro Hao.
  clearbody s1. apply (front_asks s1 _ _ _ (proj1 Hset1) Hfl1 Hp1). intros s2 Hv2 Hp2 Hask.
  pose proof (front_inv _ _ _ _ _ _ Hv2 Hp2 Hset1 Hi1) as Hi2.
  assert (ex_req_mst s2 = ex_req_mst s1 /\ fch_expt_mst s2 = fch_expt_mst s1 /\ back_blocked s2 = back_blocked s1 /\
    ifu_flush_event_pending s2 = ifu_flush_event_pending s1 /\ exu_state_i s2 = exu_state_i s1) as (Y1 & Y2 & Y3 & Y4 & Y5).
  { unfold ifu_flush_event_pending. unfold front_view in Hv2. injection Hv2. intros. split_and!; congruence. }
  apply wpf_wp, wp_bind, wp_gets. unfold id. clear Hf Hf1 Hw1.
  destruct (ask_of s1) as [t|].
  - destruct Hask as [Hrs <-]. rewrite (proj2 (orb_true_iff _ _)) by (rewrite !bool_decide_eq_true; done).
    eapply wp_mono; [apply (inv_redirect s2 _ _ _ _ Hi2)|]; [by destruct Hrs as [-> | ->]|].
    intros [] s' (G1 & G2 & G3 & G4 & G5). exists false. split_and!; [done|done|congruence|congruence|done].
  - rewrite Hask. cbn [bool_decide orb]. apply wp_bind.
    eapply wp_mono; [by apply (inv_frontend_flush s2 _ _ _ _ Hi2)|]. intros b s3. rewrite Y4, Y5.
    destruct (if ifu_flush_event_pending s1 then _ else _) as [t|].
    + intros (-> & R3 & V3 & Z1 & Z2 & Hi3).
      eapply wp_mono; [apply (inv_blocked s s3 t mem false live); [done..|congruence|congruence]|].
      intros [] s' Hs'. by exists false.
    + intros [-> ->]. apply wp_bind. eapply wp_mono; [by apply (inv_proc_fch_rsp s2 n mem live)|].
      intros [] s3 (E3 & R3 & B3 & fr3 & live3 & Hi3). eapply wp_mono; [apply (inv_prepare_issue s3 n mem fr3 live3 Hi3)|].
      { split; [congruence|]. unfold rest_view in E3. injection E3 as E3 _ _ _ _ _.
        rewrite E3, (front_issue _ _ Hv2). apply Hset1. }
      intros [] s4 [P1 P2 P3 P4 P5]. exists fr3. unfold rest_view in E3. injection E3 as _ _ _ E3 E4 _.
      split; [congruence|]. split; upd_proj; [done|congruence|congruence|done|]. rewrite E4, Y2, X2 in P5. done.
Qed.

(** ** A cycle *)

(** The next instruction of the path after a cycle that sent [issues]. *)
Definition path_next s n (issues : list ex_req_if_t) : Z :=
  match redirect_of s, issues with
  | Some t, _ => t
  | None, r :: _ => rq_pred_pc r
  | None, [] => n
  end.

(** What a cycle sends: nothing when it redirects the path, else at most the next instruction of
    the path, with the word of the memory at its address, or a fault at its address. *)
Definition cycle_sends s n s' (issues : list ex_req_if_t) : Prop :=
  ch_pkts (ex_req_mst s') = ch_pkts (ex_req_mst s) ++ issues /\
  exists faults, ch_pkts (fch_expt_mst s') = ch_pkts (fch_expt_mst s) ++ faults /\
    Forall (fun r => rq_pc r = n /\ rq_inst r = imem n) issues /\ Forall (fun e => expt_pc e = n) faults /\
    (length issues + length faults <= 1)%nat /\ (is_Some (redirect_of s) -> issues = [] /\ faults = []).

Lemma inv_back s0 n mem fr s : prepared s0 n mem fr s -> back_blocked s = false ->
  wp ifu_back_proc (fun _ s' => settled s' /\ exists issues faults,
    ch_pkts (ex_req_mst s') = ch_pkts (ex_req_mst s0) ++ issues /\
    ch_pkts (fch_expt_mst s') = ch_pkts (fch_expt_mst s0) ++ faults /\
    Forall (fun r => rq_pc r = n /\ rq_inst r = imem n) issues /\ Forall (fun e => expt_pc e = n) faults /\
    (length issues + length faults <= 1)%nat /\
    exists live, ifu_inv s' (match issues with r :: _ => rq_pred_pc r | [] => n end) mem fr live) s.
Proof.
  intros [Hr _ Hx (live & Hi) (faults & Ef & Hf & Hlf & Hvf)] Hb. unfold ifu_back_proc.
  apply wp_bind, wp_gets. unfold id. rewrite Hb. apply wp_bind.
  eapply wp_mono; [by apply (inv_apply_pred s n mem fr live)|]. intros [] s1 (Hset1 & X1 & F1 & V1 & Hi1).
  apply wp_bind. eapply wp_mono; [by apply (inv_send_ex_req s1 n mem fr live)|].
  intros [] s2 (Hset2 & F2 & issues & X2 & His & Hli & Hvi & Hi2).
  apply wp_bind. eapply wp_mono; [apply (inv_send_fch s2 _ mem fr live Hi2), Hset2|].
  intros [] s3 (E3 & R3 & live3 & Hi3). apply wp_update_fch_state. intros s4 Ev4 Er4 R4 _.
  pose proof (eq_trans Er4 E3) as E4. unfold rest_view in E4. injection E4 as I4 _ _ X4 F4 _.
  split; [split; [congruence|by rewrite I4; apply Hset2]|]. exists issues, faults.
  split_and!; [by rewrite X4, X2, X1, Hx|by rewrite F4, F2, F1, Ef|done|done| |exists live3; by apply (inv_frame s3)].
  destruct issues as [|r issues]; [simpl; lia|]. destruct faults as [|e faults]; [simpl in *; lia|].
  rewrite V1 in Hvi. rewrite Hvf in Hvi by done. by specialize (Hvi ltac:(done)).
Qed.

(** The state between cycles, on the path at [n], with the fetches [mem] at the memory. *)
Definition on_path s n mem : Prop := settled s /\ exists fr live, ifu_inv s n mem fr live.

Lemma ifu_clock_ok s n mem : on_path s n mem ->
  wpf (flush_overrun s) ifu_clock (fun _ s' => exists issues, cycle_sends s n s' issues /\ on_path s' (path_next s n issues) mem) s.
Proof.
  intros (Hset & fr & live & Hi). unfold ifu_clock. apply wpf_bind.
  eapply wpf_mono; [by apply (inv_front s n mem fr live)|]. intros [] s1 H1. unfold cycle_sends, path_next.
  apply wpf_wp. destruct (redirect_of s) as [t|].
  - destruct H1 as (fr1 & Hb1 & Hset1 & Hx1 & He1 & live1 & Hi1). apply wp_bind. unfold ifu_back_proc.
    apply wp_bind, wp_gets. unfold id. rewrite Hb1. apply wp_ret.
    eapply check_ok; [apply (ii_fetch _ _ _ _ _ Hi1)|]. exists []. rewrite Hx1, He1, app_nil_r. split.
    + split; [done|]. exists []. rewrite app_nil_r. split_and!; [done|constructor|constructor|simpl; lia|done].
    + split; [done|]. by exists fr1, live1.
  - destruct H1 as (fr1 & Hb1 & Hp1). apply wp_bind. eapply wp_mono; [by apply (inv_back _ n mem fr1 s1 Hp1)|].
    intros [] s2 (Hset2 & issues & faults & X2 & F2 & His & Hfs & Hlen & live2 & Hi2).
    eapply check_ok; [apply (ii_fetch _ _ _ _ _ Hi2)|]. exists issues. split.
    + split; [done|]. exists faults. split_and!; [done..|]. by intros [].
    + split; [done|]. exists fr1, live2. by destruct issues.
Qed.

(** ** Runs *)

(** The unit, the next instruction of the path and the fetches at the memory: a cycle that fails no
    check; the memory takes the fetches in order and answers them in order; everything else at the
    interfaces changes at will, the flush requests too, which the execution unit takes when it
    likes. *)
Inductive ifu_step : ifu_t B * Z * list Z -> ifu_t B * Z * list Z -> Prop :=
| IfuClock s n mem s' issues : ifu_clock s = Some (tt, s') ->
    ch_pkts (ex_req_mst s') = ch_pkts (ex_req_mst s) ++ issues ->
    ifu_step (s, n, mem) (s', path_next s n issues, mem)
| FetchTake s n mem pc rest : ch_pkts (fch_req_mst s) = pc :: rest ->
    ifu_step (s, n, mem) (s <| fch_req_mst := Chan (ch_depth (fch_req_mst s)) rest |>, n, mem ++ [pc])
| FetchAnswer s n mem pc r : answers pc r ->
    ifu_step (s, n, pc :: mem) (s <| fch_rsp_slv := chan_snoc (fch_rsp_slv s) r |>, n, mem)
| IfuOthers s n mem s' : fetch_view s' = fetch_view s -> issue s' = issue s -> ctrlq s' = ctrlq s ->
    redirect_state s' = redirect_state s -> bport_ok (ifu_bpu s') -> chan_wf (ex_req_mst s') ->
    chan_wf (fch_expt_mst s') -> 0 < ch_depth (fl_req_mst s') ->
    ifu_step (s, n, mem) (s', n, mem).

Lemma step_on_path x y : ifu_step x y -> on_path x.1.1 x.1.2 x.2 -> on_path y.1.1 y.1.2 y.2.
Proof.
  intros Hs. destruct Hs as [s n mem s' issues Hc Hx|s n mem pc rest E|s n mem pc r Hr|s n mem s' Ev Ei Eq Er Hb Hx He Hl];
    cbn [fst snd]; intros Hp.
  - pose proof (ifu_clock_ok s n mem Hp) as H. unfold wpf in H. rewrite Hc in H.
    destruct H as (issues' & [Hx' _] & Hp'). rewrite Hx in Hx'. apply app_inv_head in Hx' as ->. done.
  - destruct Hp as (Hset & fr & live & Hi). split; [done|]. exists fr, live. destruct Hi as [Hf ? ? ? ? ? ? ?].
    split; try done. destruct Hf. split; try done; upd_proj.
    + destruct fi_mem0 as (a & Ha & Hans). exists a. split; [|done]. rewrite Ha, E. cbn [ch_pkts].
      by rewrite <- !app_assoc.
    + by eapply chan_wf_tail.
  - destruct Hp as (Hset & fr & live & Hi). split; [done|]. exists fr, live. destruct Hi as [Hf ? ? ? ? ? ? ?].
    split; try done. destruct Hf. split; try done; upd_proj.
    destruct fi_mem0 as (a & Ha & Hans). exists (a ++ [pc]). split; [by rewrite Ha, <- !app_assoc|].
    unfold chan_snoc. upd_proj. apply Forall2_app; [done|by constructor].
  - destruct Hp as (Hset & fr & live & Hi). split.
    { unfold settled. rewrite Er, Ei. done. }
    exists fr, live. destruct Hi as [Hf Hc Hiss _ Hq _ _ _].
    destruct (fetch_frame _ _ _ _ _ Ev Hf) as [Hf' Hw]. split; try done; unfold follows; rewrite ?Hw, ?Ei, ?Eq; try done.
    intros Hv. rewrite Ei in Hv |- *. destruct (Hiss Hv) as (? & ? & _). split_and!; [done..|].
    by rewrite (proj2 Hset Hv).
Qed.

Lemma run_on_path x y : rtc ifu_step x y -> on_path x.1.1 x.1.2 x.2 -> on_path y.1.1 y.1.2 y.2.
Proof. induction 1 as [x|x y z Hxy _ IH]; [done|]. intros Hx. by apply IH, (step_on_path x y). Qed.

(** ** Reset *)

(** A unit before reset: the tables and queues are there, nothing is in flight. *)
Record ifu_built s : Prop := {
  ib_depth : 0 < fch_ost_depth s < 2147483648;
  ib_ost : ostq_wf (fch_ost s);
  ib_qdepth : q_depth (fch_ost s) = fch_ost_depth s;
  ib_fetch : ch_pkts (fch_req_mst s) = [] /\ ch_pkts (fch_rsp_slv s) = [];
  ib_queues : 0 <= ch_depth (fch_req_mst s) /\ 0 <= ch_depth (fch_rspq s) /\ 0 <= ch_depth (ctrlq s);
  ib_out : chan_wf (ex_req_mst s) /\ chan_wf (fch_expt_mst s) /\ 0 < ch_depth (fl_req_mst s);
  ib_bpu : bport_ok (ifu_bpu s)
}.

Lemma ifu_reset_ok s : ifu_built s -> wp ifu_reset (fun _ s' => on_path s' (reset_pc s) []) s.
Proof.
  intros [Hd Hw Hq [E1 E2] (D1 & D2 & D3) (O1 & O2 & O3) Hb].
  destruct (ostq_reset_ok (fch_ost s) Hw) as (o & Eo & Hwo & Ha). unfold ifu_reset.
  apply wp_bind, wp_modify, wp_bind, wp_on. upd_proj. apply (wp_intro _ _ _ _ _ Eo).
  apply wp_bind, wp_on, wp_modify, wp_bind, wp_modify, wp_bind, wp_on, wp_modify, wp_bind, wp_modify.
  apply wp_bind, wp_on. upd_proj. eapply wp_mono; [by apply port_pred_req_ok|]. intros [] b1 [Hb1 _].
  apply wp_on. upd_proj. eapply wp_mono; [by apply port_update_ok|]. intros [] b2 Hb2.
  match goal with |- on_path ?x _ _ => set (s1 := x) end.
  assert (fetch_view s1 = (fch_ost_depth s, o, 0, 0, 0, false, reset_pc s, fch_req_mst s, fch_rsp_slv s,
    fch_rspq s <| ch_pkts := [] |>)) as Ev by (unfold s1, fetch_view; by upd_proj).
  assert (issue s1 = IfuIssue false (reset_pc s) 0 (u32 (reset_pc s + 4)) false false false false false false false false /\
    redirect_state s1 = IFU_REDIRECT_STATE_IDLE) as [Ei Er] by (unfold s1; by upd_proj).
  assert (ports_ok s1) as [P1 P2 P3 P4 P5].
  { by split; unfold s1; upd_proj. }
  clearbody s1. unfold fetch_view in Ev. injection Ev as V1 V2 V3 V4 V5 V6 V7 V8 V9 V10.
  split; [split; [done|by rewrite Ei]|]. exists false, []. split; try done.
  - split; unfold discards, ptr_num; rewrite ?V1, ?V2, ?V3, ?V4, ?V5, ?V6, ?V7, ?V8, ?V9, ?V10; try done; try lia.
    + rewrite (abs_depth _ _ Ha). simpl. done.
    + split; [done|rewrite (abs_depth _ _ Ha); simpl; lia|by rewrite (abs_freed _ _ Ha)|by rewrite Ha].
    + exists []. rewrite E1, E2. by split.
    + unfold chan_wf, chan_num. rewrite E1. simpl. lia.
  - unfold follows, wanted, discards. rewrite Ei, V6, V7, V10. done.
  - unfold issue_ok. by rewrite Ei.
Qed.

(** C3: The instructions that the fetch unit sends lie on one path.  In every run from reset, with any
    prediction unit that keeps the contract of its port, any timing of the memory, of the
    execution unit and of the traps, and any number of fetches on abandoned paths still in
    flight: a cycle that is not redirected sends at most one thing, which is the next instruction
    of the path, with the word that the memory holds at its address, or a fault at that address;
    the path starts at the reset address, goes on from an instruction to its predicted successor,
    and moves to the target of the oldest misprediction, the trap or the flush that redirects the
    cycle, which itself sends nothing.  A check fails only when the cycle asks for a redirection
    while the flush request of an earlier one still waits for the execution unit. *)
Theorem ifu_fetch_stream s0 s1 s n mem :
  ifu_built s0 -> ifu_reset s0 = Some (tt, s1) -> rtc ifu_step (s1, reset_pc s0, []) (s, n, mem) ->
  match ifu_clock s with
  | Some (_, s') => exists issues, cycle_sends s n s' issues
  | None => chan_empty (fl_req_mst s) = false /\ is_Some (ask_of s)
  end.
Proof.
  intros Hb Hr Hrun. pose proof (ifu_reset_ok s0 Hb) as Hp. unfold wp in Hp. rewrite Hr in Hp.
  pose proof (ifu_clock_ok s n mem (run_on_path _ _ Hrun Hp)) as Hc. unfold wpf in Hc.
  destruct (ifu_clock s) as [[[] s']|]; [|exact Hc]. destruct Hc as (issues & Hc & _). by exists issues.
Qed.

End spec.

(** ** Witness *)

Definition ifu_example0 : ifu_t bpu_t :=
  Ifu (Chan 1 []) (Chan 1 []) (Chan 1 []) (Chan 1 []) (Chan 1 []) bpu_example (Chan 1 []) (Chan 1 []) None None None
    0x1000 2 (IfuFch IFU_FCH_STATE_REQ 0 0 0 0 0 false) false
    (default (Ostq [] 0 0 0 0 0 0) (ostq_construct 1 2)) (Chan 2 [])
    (IfuIssue false 0 0 0 false false false false false false false false) IFU_REDIRECT_STATE_IDLE 0 (Chan 2 []) 0 0 0 0.

Definition run_or {S} (m : M S unit) (s : S) : S := default s (snd <$> m s).
Definition ifu_w1 : ifu_t bpu_t := run_or ifu_reset ifu_example0.
Definition ifu_w2 : ifu_t bpu_t := run_or ifu_clock ifu_w1.
Definition ifu_w3 : ifu_t bpu_t := ifu_w2 <| fch_req_mst := Chan 1 [] |>.
Definition ifu_w4 : ifu_t bpu_t := ifu_w3 <| fch_rsp_slv := chan_snoc (fch_rsp_slv ifu_w3) (FchRsp 0x13 true false 0 0 0) |>.

Lemma ifu_example_built : ifu_built ifu_example0.
Proof.
  destruct (ostq_construct (A := ifu_fch_ost_ctx_t) 1 2) as [o|] eqn:E; [|done].
  destruct (ostq_construct_ok (A := ifu_fch_ost_ctx_t) 1 2 o E ltac:(done) ltac:(done)) as [Hw Ha].
  split; unfold ifu_example0; cbn [fch_ost_depth fch_ost]; rewrite ?E; try done.
  - simpl. by rewrite (abs_depth _ _ Ha).
  - apply reachable_wf, bpu_example_reachable.
Qed.

Lemma ifu_fetch_stream_witness :
  rtc (ifu_step (fun _ => 0x13)) (ifu_w1, 0x1000, []) (ifu_w4, 0x1000, []) /\
  exists s' issues, ifu_clock ifu_w4 = Some (tt, s') /\ cycle_sends (fun _ => 0x13) ifu_w4 0x1000 s' issues /\
    (fun r => (rq_pc r, rq_inst r)) <$> ch_pkts (ex_req_mst s') = [(0x1000, 0x13)].
Proof.
  assert (rtc (ifu_step (fun _ => 0x13)) (ifu_w1, 0x1000, []) (ifu_w4, 0x1000, [])) as Hrun.
  { eapply rtc_l; [apply (IfuClock (fun _ => 0x13) ifu_w1 0x1000 [] ifu_w2 []); vm_compute; reflexivity|].
    eapply rtc_l; [apply (FetchTake (fun _ => 0x13) ifu_w2 0x1000 [] 0x1000 []); vm_compute; reflexivity|].
    apply rtc_once, (FetchAnswer (fun _ => 0x13) ifu_w3 0x1000 [] 0x1000). done. }
  split; [exact Hrun|].
  pose proof (ifu_fetch_stream (fun _ => 0x13) ifu_example0 ifu_w1 ifu_w4 0x1000 [] ifu_example_built
    ltac:(vm_compute; reflexivity) Hrun) as Hs.
  assert (exists w, ifu_clock ifu_w4 = Some (tt, w) /\
    (fun r => (rq_pc r, rq_inst r)) <$> ch_pkts (ex_req_mst w) = [(0x1000, 0x13)]) as (w & Ew & Hw)
    by (eexists; split; vm_compute; reflexivity).
  rewrite Ew in Hs. destruct Hs as (issues & Hs). exists w, issues. by split_and!.
Defined.
