(* ===== verification/Hbi.v ===== *)
(** * The bus interface of the hart

    [core/hart/hbi.c]: turns fetches and memory accesses into bus transactions, keeps one
    outstanding queue for each of the two, and returns the responses in the order of the
    requests; a fetch is answered by the bus or by an exception of the MMU. *)

From stdpp Require Import base numbers list.
From Stdlib Require Import ZArith Lia.
From S2P Require Import Prelude Fifo Ost OstScan Isa ExuState Bti Ifu.

Definition FCH_TRANS_ID : Z := 0.
Definition LDST_TRANS_ID : Z := 1.

Definition fch_rsp_zero : fch_rsp_if_t := FchRsp 0 false false 0 0 0.
Definition ldst_rsp_zero : ldst_rsp_if_t := LdstRsp 0 false.

Record hbi_i_ost_ctx_t := HbiICtx { hi_pc : Z; hi_rsp_vld : bool; hi_rsp : fch_rsp_if_t }.
Record hbi_d_ost_ctx_t := HbiDCtx { hd_rsp_vld : bool; hd_rsp : ldst_rsp_if_t }.
#[export] Instance zero_hbi_i_ost_ctx : Zero hbi_i_ost_ctx_t := HbiICtx 0 false fch_rsp_zero.
#[export] Instance zero_hbi_d_ost_ctx : Zero hbi_d_ost_ctx_t := HbiDCtx false ldst_rsp_zero.

(** A fetch request is its address. *)
Record hbi_t := Hbi {
  h_i_bti_req_mst : chan bti_req_if_t;
  h_i_bti_rsp_slv : chan bti_rsp_if_t;
  h_d_bti_req_mst : chan bti_req_if_t;
  h_d_bti_rsp_slv : chan bti_rsp_if_t;
  h_fch_req_slv : chan Z;
  h_fch_rsp_mst : chan fch_rsp_if_t;
  h_mmu_fch_expt_slv : chan hart_expt_if_t;
  h_ldst_req_slv : chan ldst_req_if_t;
  h_ldst_rsp_mst : chan ldst_rsp_if_t;
  h_fch_req_fifo : chan Z;
  h_ldst_req_fifo : chan ldst_req_if_t;
  h_i_ost : ostq_t hbi_i_ost_ctx_t;
  h_d_ost : ostq_t hbi_d_ost_ctx_t;
  h_perf_i_stg_full : Z;
  h_perf_d_stg_full : Z;
  h_perf_i_ost_full : Z;
  h_perf_d_ost_full : Z
}.
#[export] Instance eta_hbi : Eta hbi_t := fun h =>
  Hbi (h_i_bti_req_mst h) (h_i_bti_rsp_slv h) (h_d_bti_req_mst h) (h_d_bti_rsp_slv h) (h_fch_req_slv h)
    (h_fch_rsp_mst h) (h_mmu_fch_expt_slv h) (h_ldst_req_slv h) (h_ldst_rsp_mst h) (h_fch_req_fifo h)
    (h_ldst_req_fifo h) (h_i_ost h) (h_d_ost h) (h_perf_i_stg_full h) (h_perf_d_stg_full h)
    (h_perf_i_ost_full h) (h_perf_d_ost_full h).

Definition hbi_reset : M hbi_t unit :=
  on h_fch_req_fifo chan_clear;;
  on h_ldst_req_fifo chan_clear;;
  on h_i_ost ostq_reset;;
  on h_d_ost ostq_reset;;
  modify (fun h => h <| h_perf_i_stg_full := 0 |> <| h_perf_d_stg_full := 0 |>
    <| h_perf_i_ost_full := 0 |> <| h_perf_d_ost_full := 0 |>).

(** ** Requests *)

Definition hbi_capture_i_req : M hbi_t unit :=
  hbi ← gets id;
  if chan_full (h_fch_req_fifo hbi) then
    when (negb (chan_empty (h_fch_req_slv hbi)))
      (modify (fun h => h <| h_perf_i_stg_full := u64 (h_perf_i_stg_full h + 1) |>))
  else if chan_empty (h_fch_req_slv hbi) then mret tt
  else
    fch_req ← on h_fch_req_slv chan_read;
    on h_fch_req_fifo (chan_write fch_req).

Definition hbi_capture_d_req : M hbi_t unit :=
  hbi ← gets id;
  if chan_full (h_ldst_req_fifo hbi) then
    when (negb (chan_empty (h_ldst_req_slv hbi)))
      (modify (fun h => h <| h_perf_d_stg_full := u64 (h_perf_d_stg_full h + 1) |>))
  else if chan_empty (h_ldst_req_slv hbi) then mret tt
  else
    ldst_req ← on h_ldst_req_slv chan_read;
    on h_ldst_req_fifo (chan_write ldst_req).

Definition hbi_proc_i_req : M hbi_t unit :=
  hbi ← gets id;
  if chan_empty (h_fch_req_fifo hbi) then mret tt
  else if ostq_full (h_i_ost hbi) then
    modify (fun h => h <| h_perf_i_ost_full := u64 (h_perf_i_ost_full h + 1) |>)
  else if chan_full (h_i_bti_req_mst hbi) then mret tt
  else
    fch_req ← on h_fch_req_fifo chan_read;
    let bti_req := bti_req_zero <| bq_trans_id := FCH_TRANS_ID |> <| bq_cmd := BTI_REQ_CMD_READ |>
      <| bq_addr := fch_req |> <| bq_size := BTI_REQ_SIZE_B4 |> in
    on h_i_bti_req_mst (chan_write bti_req);;
    let ctx := HbiICtx fch_req false fch_rsp_zero in
    alloc_ok ← on h_i_ost (ostq_alloc ctx);
    DBG_CHECK (bool_decide (is_Some alloc_ok)).

(** The command of the switch of [hbi_proc_d_req]; [None] is the default branch. *)
Definition hbi_d_cmd (ldst_req : ldst_req_if_t) : option Z :=
  if ld_cmo ldst_req =? LDST_REQ_CMO_NONE then
    Some (if ld_st ldst_req then BTI_REQ_CMD_WRITE else BTI_REQ_CMD_READ)
  else if ld_cmo ldst_req =? LDST_REQ_CMO_INVAL then Some BTI_REQ_CMD_CBO_INVAL
  else if ld_cmo ldst_req =? LDST_REQ_CMO_CLEAN then Some BTI_REQ_CMD_CBO_CLEAN
  else if ld_cmo ldst_req =? LDST_REQ_CMO_FLUSH then Some BTI_REQ_CMD_CBO_FLUSH
  else None.

Definition hbi_proc_d_req : M hbi_t unit :=
  hbi ← gets id;
  if chan_empty (h_ldst_req_fifo hbi) then mret tt
  else if ostq_full (h_d_ost hbi) then
    modify (fun h => h <| h_perf_d_ost_full := u64 (h_perf_d_ost_full h + 1) |>)
  else if chan_full (h_d_bti_req_mst hbi) then mret tt
  else
    ldst_req ← on h_ldst_req_fifo chan_read;
    let bti_req := bti_req_zero <| bq_trans_id := LDST_TRANS_ID |> in
    cmd ← of_option (hbi_d_cmd ldst_req);
    let bti_req := bti_req <| bq_cmd := cmd |> <| bq_addr := ld_addr ldst_req |>
      <| bq_size := ld_size ldst_req |> <| bq_data := ld_data ldst_req |>
      <| bq_strobe := ld_strobe ldst_req |> in
    on h_d_bti_req_mst (chan_write bti_req);;
    let ctx := HbiDCtx false ldst_rsp_zero in
    alloc_ok ← on h_d_ost (ostq_alloc ctx);
    DBG_CHECK (bool_decide (is_Some alloc_ok)).

(** ** Responses *)

Definition hbi_find_i_slot_by_pc (pc : Z) : M hbi_t (option (hbi_i_ost_ctx_t * Z)) :=
  on h_i_ost (ostq_scan (fun cur => hi_pc cur =? pc)).

Definition hbi_find_oldest_i_wait_slot : M hbi_t (option (hbi_i_ost_ctx_t * Z)) :=
  on h_i_ost (ostq_scan (fun cur => negb (hi_rsp_vld cur))).

Definition hbi_find_oldest_d_wait_slot : M hbi_t (option (hbi_d_ost_ctx_t * Z)) :=
  on h_d_ost (ostq_scan (fun cur => negb (hd_rsp_vld cur))).

(** [found] is asserted, which gives the slot and its context. *)
Definition hbi_proc_i_rsp : M hbi_t unit :=
  hbi ← gets id;
  if chan_empty (h_i_bti_rsp_slv hbi) then mret tt
  else
    bti_rsp ← on h_i_bti_rsp_slv chan_read;
    DBG_CHECK (bp_trans_id bti_rsp =? FCH_TRANS_ID);;
    found ← hbi_find_oldest_i_wait_slot;
    '(ctx, slot) ← of_option found;
    DBG_CHECK (negb (hi_rsp_vld ctx));;
    let ctx := HbiICtx (hi_pc ctx) true (FchRsp (bp_data bti_rsp) (bp_ok bti_rsp) false 0 0 0) in
    on h_i_ost (ostq_write_slot slot ctx).

Definition hbi_proc_i_expt : M hbi_t unit :=
  hbi ← gets id;
  if chan_empty (h_mmu_fch_expt_slv hbi) then mret tt
  else
    expt ← on h_mmu_fch_expt_slv chan_front;
    DBG_CHECK (expt_type expt =? HART_EXPT_TYPE_EXCEPTION);;
    found ← hbi_find_i_slot_by_pc (expt_pc expt);
    '(ctx, slot) ← of_option found;
    DBG_CHECK (negb (hi_rsp_vld ctx));;
    on h_mmu_fch_expt_slv chan_read;;
    let ctx := HbiICtx (hi_pc ctx) true
      (FchRsp 0 false true (u32 (expt_cause expt)) (expt_priv expt) (expt_tval expt)) in
    on h_i_ost (ostq_write_slot slot ctx).

Definition hbi_send_i_rsp : M hbi_t unit :=
  hbi ← gets id;
  if chan_full (h_fch_rsp_mst hbi) then mret tt
  else
    found ← on h_i_ost ostq_peek_head;
    match found with
    | None => mret tt
    | Some (ctx, _) =>
      if negb (hi_rsp_vld ctx) then mret tt
      else
        on h_fch_rsp_mst (chan_write (hi_rsp ctx));;
        on h_i_ost ostq_free_head
    end.

Definition hbi_proc_d_rsp : M hbi_t unit :=
  hbi ← gets id;
  if chan_empty (h_d_bti_rsp_slv hbi) then mret tt
  else
    found ← hbi_find_oldest_d_wait_slot;
    '(ctx, slot) ← of_option found;
    DBG_CHECK (negb (hd_rsp_vld ctx));;
    bti_rsp ← on h_d_bti_rsp_slv chan_read;
    DBG_CHECK (bp_trans_id bti_rsp =? LDST_TRANS_ID);;
    let ctx := HbiDCtx true (LdstRsp (bp_data bti_rsp) (bp_ok bti_rsp)) in
    on h_d_ost (ostq_write_slot slot ctx).

Definition hbi_send_d_rsp : M hbi_t unit :=
  hbi ← gets id;
  if chan_full (h_ldst_rsp_mst hbi) then mret tt
  else
    found ← on h_d_ost ostq_peek_head;
    match found with
    | None => mret tt
    | Some (ctx, _) =>
      if negb (hd_rsp_vld ctx) then mret tt
      else
        on h_ldst_rsp_mst (chan_write (hd_rsp ctx));;
        on h_d_ost ostq_free_head
    end.

Definition hbi_clock : M hbi_t unit :=
  on h_i_ost ostq_clock;;
  on h_d_ost ostq_clock;;
  hbi_capture_i_req;;
  hbi_capture_d_req;;
  hbi_proc_i_expt;;
  hbi_proc_i_rsp;;
  hbi_send_i_rsp;;
  hbi_proc_d_rsp;;
  hbi_send_d_rsp;;
  hbi_proc_i_req;;
  hbi_proc_d_req.
