(* ===== verification/HbiSpec.v ===== *)
(** * The bus interface as two in-order lanes

    What the bus interface promises on each of its two lanes, fetches and memory accesses: the
    requests go to the bus in order, each as the transaction it stands for, and each is answered
    in the order of the requests with its own outcome, as soon as that outcome is there and there
    is room, in whatever order the outcomes arrive. *)

From stdpp Require Import base numbers list relations.
From Stdlib Require Import ZArith Lia.
From S2P Require Import Prelude Fifo Ost OstScan OstSlot Isa ExuState Bti Ifu Hbi.

(** ** Outcomes *)

(** The requests in order with their outcomes, as far as they are known: [fill1 r t] gives [r] to
    the first request without an outcome, if there is one. *)
Fixpoint fill1 {R} (r : R) (t : list (option R)) : option (list (option R)) :=
  match t with
  | [] => None
  | None :: t => Some (Some r :: t)
  | Some x :: t => cons (Some x) <$> fill1 r t
  end.

Fixpoint fills {R} (rs : list R) (t : list (option R)) : option (list (option R)) :=
  match rs with
  | [] => Some t
  | r :: rs => fill1 r t ≫= fills rs
  end.

Section fill.
  Context {R : Type}.
  Implicit Types (r x : R) (rs : list R) (t u : list (option R)).

Lemma fill1_first r t u : fill1 r t = Some u <->
  exists (t1 : list R) (t2 : list (option R)), t = (Some <$> t1) ++ None :: t2 /\ u = (Some <$> t1) ++ Some r :: t2.
Proof.
  revert u. induction t as [|[x|] t IH]; intros u; simpl.
  - split; [done|]. intros (t1 & t2 & E & _). by destruct t1.
  - rewrite fmap_Some. split.
    + intros (v & Hv & ->). apply IH in Hv as (t1 & t2 & -> & ->). by exists (x :: t1), t2.
    + intros ([|x' t1] & t2 & [=] & ->). subst. eexists. split; [apply IH; by exists t1, t2|done].
  - split; [intros [= <-]; by exists [], t|]. intros ([|x' t1] & t2 & [=] & ->). by subst.
Qed.

Lemma fill1_app r t u v : fill1 r t = Some u -> fill1 r (t ++ v) = Some (u ++ v).
Proof.
  rewrite !fill1_first. intros (t1 & t2 & -> & ->). exists t1, (t2 ++ v). by rewrite <- !app_assoc.
Qed.

Lemma fill1_skip (a : list R) r t u : fill1 r ((Some <$> a) ++ t) = Some u ->
  exists u', u = (Some <$> a) ++ u' /\ fill1 r t = Some u'.
Proof.
  revert u. induction a as [|x a IH]; intros u; simpl; [by exists u|]. rewrite fmap_Some.
  intros (v & Hv & ->). destruct (IH _ Hv) as (u' & -> & Hu). by exists u'.
Qed.

Lemma fill1_insert r t u k x : fill1 r t = Some u -> u !! k = Some None ->
  t !! k = Some None /\ fill1 r (<[k := Some x]> t) = Some (<[k := Some x]> u).
Proof.
  revert u k. induction t as [|[y|] t IH]; intros u k; simpl; [done|..].
  - rewrite fmap_Some. intros (v & Hv & ->). destruct k as [|k]; simpl; [done|]. intros Hk.
    destruct (IH _ _ Hv Hk) as [-> ->]. done.
  - intros [= <-]. by destruct k.
Qed.

Lemma fill1_length r t u : fill1 r t = Some u -> length u = length t.
Proof. rewrite fill1_first. intros (t1 & t2 & -> & ->). by rewrite !length_app. Qed.

Lemma fills_snoc rs r t u v : fills rs t = Some u -> fill1 r u = Some v -> fills (rs ++ [r]) t = Some v.
Proof.
  revert t. induction rs as [|q rs IH]; intros t; simpl; [by intros [= <-] ->|].
  destruct (fill1 q t); simpl; [apply IH|done].
Qed.

Lemma fills_app rs t u v : fills rs t = Some u -> fills rs (t ++ v) = Some (u ++ v).
Proof.
  revert t. induction rs as [|r rs IH]; intros t; simpl; [by intros [= <-]|].
  destruct (fill1 r t) as [t'|] eqn:E; simpl; [|done]. rewrite (fill1_app _ _ _ _ E). apply IH.
Qed.

Lemma fills_insert rs t u k x : fills rs t = Some u -> u !! k = Some None ->
  t !! k = Some None /\ fills rs (<[k := Some x]> t) = Some (<[k := Some x]> u).
Proof.
  revert t. induction rs as [|r rs IH]; intros t; simpl; [by intros [= <-]|].
  destruct (fill1 r t) as [t'|] eqn:E; simpl; [|done]. intros Hf Hu. destruct (IH _ Hf Hu) as [Hk Hi].
  destruct (fill1_insert _ _ _ _ x E Hk) as [Hk' ->]. done.
Qed.

Lemma fills_length rs t u : fills rs t = Some u -> length u = length t.
Proof.
  revert t. induction rs as [|r rs IH]; intros t; simpl; [by intros [= <-]|].
  destruct (fill1 r t) as [t'|] eqn:E; simpl; [|done]. intros H. by rewrite (IH _ H), (fill1_length _ _ _ E).
Qed.

Lemma fills_head rs x t u : fills rs (Some x :: t) = Some u -> exists u', u = Some x :: u' /\ fills rs t = Some u'.
Proof.
  revert t. induction rs as [|r rs IH]; intros t; simpl; [intros [= <-]; by exists t|].
  destruct (fill1 r t) as [t'|]; simpl; [apply IH|done].
Qed.

(** What is known of a longer list is known of a shorter one. *)
Lemma known_prefix (a : list R) t n u : t ++ replicate n None = (Some <$> a) ++ u -> (Some <$> a) `prefix_of` t.
Proof.
  revert t. induction a as [|x a IH]; intros t; simpl; [intros _; apply prefix_nil|].
  destruct t as [|y t]; simpl; [by destruct n|]. intros [= -> E]. by apply prefix_cons, (IH t).
Qed.

End fill.

Lemma insert_mid {A} (l1 l2 : list A) x y : (<[length l1 := y]> (l1 ++ x :: l2)) = l1 ++ y :: l2.
Proof. by rewrite insert_app_r_alt, Nat.sub_diag by done. Qed.

(** ** An in-order lane *)

(** The state of one lane: the table, the staged requests and those not yet taken in, the
    transactions and the answers on their way out. *)
Record lane (Req Ctx Out : Type) := Lane {
  la_ost : ostq_t Ctx; la_fifo : chan Req; la_reqs : chan Req; la_breqs : chan bti_req_if_t; la_out : chan Out }.
Arguments Lane {Req Ctx Out}. Arguments la_ost {Req Ctx Out}. Arguments la_fifo {Req Ctx Out}.
Arguments la_reqs {Req Ctx Out}. Arguments la_breqs {Req Ctx Out}. Arguments la_out {Req Ctx Out}.

(** What has gone over the interfaces of a lane since reset: the requests, the transactions taken
    with the outcome that each has had, if any, in the order of the requests, and the answers
    taken. *)
Record lane_io (Req Res Out : Type) := LaneIo {
  io_reqs : list Req; io_bus : list bti_req_if_t; io_res : list (option Res); io_rsps : list Out }.
Arguments LaneIo {Req Res Out}. Arguments io_reqs {Req Res Out}. Arguments io_bus {Req Res Out}.
Arguments io_res {Req Res Out}. Arguments io_rsps {Req Res Out}.
#[export] Instance eta_lane_io Req Res Out : Eta (lane_io Req Res Out) := fun i =>
  LaneIo (io_reqs i) (io_bus i) (io_res i) (io_rsps i).

Definition lane_start {Req Res Out} : lane_io Req Res Out := LaneIo [] [] [] [].

Section lane.
  Context {Req Ctx Res Out : Type} `{!Zero Ctx} (bus_of : Req -> bti_req_if_t) (holds : Req -> Ctx -> Prop)
    (vld : Ctx -> bool) (out : Ctx -> Out) (out_of : Res -> Out).
  Implicit Types (L : lane Req Ctx Out) (io : lane_io Req Res Out) (fr : bool)
    (dres : list Res) (dqs qs : list Req) (ctxs : list Ctx) (tbl full : list (option Res)).

(** An entry of the table, with the outcome that it holds. *)
Definition entry_ok (c : Ctx) (t : option Res) : Prop :=
  match t with Some r => vld c = true /\ out c = out_of r | None => vld c = false end.

(** [dqs] and [dres] are the requests that have been answered and their outcomes, [qs] those in
    the table, with entries [ctxs] that hold the outcomes [tbl]; [full] are the outcomes that they
    will hold when those at the interface have been taken in. *)
Record lane_rel L io fr dqs dres qs ctxs tbl full : Prop := {
  ln_ost : ost_live (la_ost L) fr ctxs;
  ln_holds : Forall2 holds qs ctxs;
  ln_tbl : Forall2 entry_ok ctxs tbl;
  ln_done : length dqs = length dres;
  ln_reqs : io_reqs io = dqs ++ qs ++ ch_pkts (la_fifo L) ++ ch_pkts (la_reqs L);
  ln_bus : io_bus io ++ ch_pkts (la_breqs L) = bus_of <$> dqs ++ qs;
  ln_taken : length (io_res io) = length (io_bus io);
  ln_full : io_res io ++ replicate (length (ch_pkts (la_breqs L))) None = (Some <$> dres) ++ full;
  ln_rsps : io_rsps io ++ ch_pkts (la_out L) = out_of <$> dres;
  ln_wf : chan_wf (la_fifo L) /\ chan_wf (la_breqs L) /\ chan_wf (la_out L)
}.

(** The operations of a lane. *)

Lemma lane_clock L io fr o' dqs dres qs ctxs tbl full :
  lane_rel L io fr dqs dres qs ctxs tbl full -> ost_live o' false ctxs ->
  lane_rel (Lane o' (la_fifo L) (la_reqs L) (la_breqs L) (la_out L)) io false dqs dres qs ctxs tbl full.
Proof. intros [] Ho. by split. Qed.

Lemma lane_capture L io fr q reqs dqs dres qs ctxs tbl full :
  lane_rel L io fr dqs dres qs ctxs tbl full -> ch_pkts (la_reqs L) = q :: reqs ->
  chan_wf (chan_snoc (la_fifo L) q) ->
  lane_rel (Lane (la_ost L) (chan_snoc (la_fifo L) q) (Chan (ch_depth (la_reqs L)) reqs) (la_breqs L) (la_out L))
    io fr dqs dres qs ctxs tbl full.
Proof.
  intros [] E Hw. destruct ln_wf0 as (_ & H2 & H3). split; try done. rewrite ln_reqs0, E. unfold chan_snoc. simpl.
  by rewrite <- !app_assoc.
Qed.

Lemma lane_issue L io fr q fifo o' c dqs dres qs ctxs tbl full :
  lane_rel L io fr dqs dres qs ctxs tbl full -> ch_pkts (la_fifo L) = q :: fifo ->
  ost_live o' fr (ctxs ++ [c]) -> holds q c -> vld c = false -> chan_wf (chan_snoc (la_breqs L) (bus_of q)) ->
  lane_rel (Lane o' (Chan (ch_depth (la_fifo L)) fifo) (la_reqs L) (chan_snoc (la_breqs L) (bus_of q)) (la_out L))
    io fr dqs dres (qs ++ [q]) (ctxs ++ [c]) (tbl ++ [None]) (full ++ [None]).
Proof.
  intros [] E Ho Hh Hv Hw. destruct ln_wf0 as (H1 & _ & H3). split; try done; cbn [la_ost la_fifo la_reqs la_breqs la_out ch_pkts].
  - apply Forall2_app; [done|by constructor].
  - apply Forall2_app; [done|by constructor].
  - rewrite ln_reqs0, E. by rewrite <- !app_assoc.
  - unfold chan_snoc. upd_proj. rewrite app_assoc, ln_bus0, !fmap_app, <- !app_assoc. done.
  - unfold chan_snoc. upd_proj. rewrite length_app. cbn [length]. rewrite replicate_add. cbn [replicate].
    by rewrite !app_assoc, ln_full0.
  - split_and!; [by eapply chan_wf_tail|done..].
Qed.

(** The outcome [r] goes to an entry that has none. *)
Lemma lane_write L io fr r o' l1 c c' l2 dqs dres qs tbl full :
  lane_rel L io fr dqs dres qs (l1 ++ c :: l2) tbl full ->
  ost_live o' fr (l1 ++ c' :: l2) -> (forall q, holds q c -> holds q c') -> vld c' = true -> out c' = out_of r ->
  lane_rel (Lane o' (la_fifo L) (la_reqs L) (la_breqs L) (la_out L)) io fr dqs dres qs (l1 ++ c' :: l2)
    (<[length l1 := Some r]> tbl) full.
Proof.
  intros [] Ho Hh Hv Hr. split; try done; cbn [la_ost la_fifo la_reqs la_breqs la_out].
  - apply Forall2_app_inv_r in ln_holds0 as (q1 & q2 & H1 & H2 & ->). apply Forall2_cons_inv_r in H2 as (q & q2' & Hq & H2 & ->).
    apply Forall2_app; [done|]. constructor; [by apply Hh|done].
  - apply Forall2_app_inv_l in ln_tbl0 as (t1 & t2 & H1 & H2 & ->). apply Forall2_cons_inv_l in H2 as (t & t2' & _ & H2 & ->).
    rewrite (Forall2_length _ _ _ H1), insert_mid. apply Forall2_app; [done|]. by constructor.
Qed.

(** The oldest request is answered. *)
Lemma lane_send L io o' c r dqs dres qs ctxs tbl full :
  lane_rel L io false dqs dres qs (c :: ctxs) (Some r :: tbl) (Some r :: full) -> ost_live o' true ctxs ->
  chan_wf (chan_snoc (la_out L) (out c)) ->
  out c = out_of r /\ exists q qs', qs = q :: qs' /\
  lane_rel (Lane o' (la_fifo L) (la_reqs L) (la_breqs L) (chan_snoc (la_out L) (out c))) io true
    (dqs ++ [q]) (dres ++ [r]) qs' ctxs tbl full.
Proof.
  intros [] Ho Hw. apply Forall2_cons_inv_r in ln_holds0 as (q & qs' & Hq & Hqs & ->).
  apply Forall2_cons in ln_tbl0 as [[Hv Hr] Ht]. destruct ln_wf0 as (H1 & H2 & H3). split; [done|].
  exists q, qs'. split; [done|]. split; try done; cbn [la_ost la_fifo la_reqs la_breqs la_out].
  - rewrite !length_app. simpl. lia.
  - rewrite ln_reqs0, <- !app_assoc. done.
  - rewrite ln_bus0, <- !app_assoc. done.
  - rewrite ln_full0, fmap_app, <- app_assoc. done.
  - unfold chan_snoc. upd_proj. by rewrite app_assoc, ln_rsps0, fmap_app, Hr.
Qed.

(** What the relation says at the interfaces: the answer number [i] is that of the outcome of the
    request number [i]. *)
Definition lane_in_order L io : Prop :=
  io_bus io ++ ch_pkts (la_breqs L) `prefix_of` bus_of <$> io_reqs io /\
  (Some <$> io_rsps io ++ ch_pkts (la_out L)) `prefix_of` (option_map out_of <$> io_res io).

Lemma lane_in_order_ok L io fr dqs dres qs ctxs tbl full :
  lane_rel L io fr dqs dres qs ctxs tbl full -> lane_in_order L io.
Proof.
  intros []. split.
  - rewrite ln_bus0, ln_reqs0. eexists. by rewrite (app_assoc dqs), fmap_app.
  - rewrite ln_rsps0. destruct (known_prefix _ _ _ _ ln_full0) as [k ->]. eexists.
    rewrite fmap_app. f_equal. by rewrite <- !list_fmap_compose.
Qed.

(** The answer that is due next: that of the oldest request not answered, if it has an outcome. *)
Definition next_answer io (sent : chan Out) : option Out :=
  match io_res io !! length (io_rsps io ++ ch_pkts sent) with
  | Some (Some r) => Some (out_of r)
  | _ => None
  end.

Lemma next_head L io fr dqs dres qs ctxs tbl full x : lane_rel L io fr dqs dres qs ctxs tbl full ->
  next_answer io (la_out L) = Some x -> exists r full', full = Some r :: full' /\ x = out_of r.
Proof.
  intros []. unfold next_answer. rewrite ln_rsps0, length_fmap.
  destruct (io_res io !! length dres) as [[r|]|] eqn:E; [|done..]. intros [= <-].
  apply (lookup_app_l_Some _ (replicate (length (ch_pkts (la_breqs L))) None)) in E.
  rewrite ln_full0, lookup_app_r, length_fmap, Nat.sub_diag in E by (by rewrite length_fmap).
  destruct full as [|f full]; [done|]. injection E as ->. by exists r, full.
Qed.

(** The steps of the units around a lane. *)

Lemma lane_req L io fr q dqs dres qs ctxs tbl full : lane_rel L io fr dqs dres qs ctxs tbl full ->
  lane_rel (Lane (la_ost L) (la_fifo L) (chan_snoc (la_reqs L) q) (la_breqs L) (la_out L))
    (io <| io_reqs := io_reqs io ++ [q] |>) fr dqs dres qs ctxs tbl full.
Proof.
  intros []. split; try done. upd_proj. rewrite ln_reqs0. unfold chan_snoc. cbn [la_reqs la_fifo]. upd_proj.
  by rewrite <- !app_assoc.
Qed.

Lemma lane_take_rsp L io fr x rest dqs dres qs ctxs tbl full :
  lane_rel L io fr dqs dres qs ctxs tbl full -> ch_pkts (la_out L) = x :: rest ->
  lane_rel (Lane (la_ost L) (la_fifo L) (la_reqs L) (la_breqs L) (Chan (ch_depth (la_out L)) rest))
    (io <| io_rsps := io_rsps io ++ [x] |>) fr dqs dres qs ctxs tbl full.
Proof.
  intros [] E. destruct ln_wf0 as (H1 & H2 & H3). split; try done.
  - upd_proj. cbn [la_out ch_pkts]. rewrite <- app_assoc. simpl. by rewrite <- E.
  - split_and!; [done..|by eapply chan_wf_tail].
Qed.

Lemma lane_take_bus L io fr x rest dqs dres qs ctxs tbl full :
  lane_rel L io fr dqs dres qs ctxs tbl full -> ch_pkts (la_breqs L) = x :: rest ->
  lane_rel (Lane (la_ost L) (la_fifo L) (la_reqs L) (Chan (ch_depth (la_breqs L)) rest) (la_out L))
    (io <| io_bus := io_bus io ++ [x] |> <| io_res := io_res io ++ [None] |>) fr dqs dres qs ctxs tbl full.
Proof.
  intros [] E. destruct ln_wf0 as (H1 & H2 & H3). split; try done.
  - upd_proj. cbn [la_breqs ch_pkts]. rewrite <- app_assoc. simpl. by rewrite <- E.
  - upd_proj. rewrite !length_app. simpl. lia.
  - upd_proj. cbn [la_breqs ch_pkts]. rewrite <- app_assoc, <- ln_full0, E. done.
  - split_and!; [done| by eapply chan_wf_tail|done].
Qed.

(** An outcome for the oldest transaction without one, and one for the transaction number [i]. *)
Lemma lane_outcome L io fr r res dqs dres qs ctxs tbl full :
  lane_rel L io fr dqs dres qs ctxs tbl full -> fill1 r (io_res io) = Some res ->
  exists full', fill1 r full = Some full' /\ lane_rel L (io <| io_res := res |>) fr dqs dres qs ctxs tbl full'.
Proof.
  intros [] E. pose proof (fill1_app _ _ _ (replicate (length (ch_pkts (la_breqs L))) None) E) as E'.
  rewrite ln_full0 in E'. destruct (fill1_skip _ _ _ _ E') as (full' & Ef & Hf). exists full'. split; [done|].
  split; try done. upd_proj. by rewrite (fill1_length _ _ _ E).
Qed.

Lemma lane_outcome_at L io fr r i q dqs dres qs ctxs tbl full :
  lane_rel L io fr dqs dres qs ctxs tbl full -> io_res io !! i = Some None -> io_reqs io !! i = Some q ->
  exists k, (i = length dqs + k)%nat /\ full !! k = Some None /\ qs !! k = Some q /\
    lane_rel L (io <| io_res := <[i := Some r]> (io_res io) |>) fr dqs dres qs ctxs tbl (<[k := Some r]> full).
Proof.
  intros [] E Eq. pose proof (lookup_lt_Some _ _ _ E) as Hlt.
  pose proof (lookup_app_l_Some _ (replicate (length (ch_pkts (la_breqs L))) None) _ _ E) as E'.
  rewrite ln_full0 in E'. destruct (decide (i < length dres)%nat) as [Hi|Hi].
  { rewrite lookup_app_l, list_lookup_fmap in E' by (by rewrite length_fmap).
    destruct (dres !! i) eqn:Ed; [done|]. apply lookup_ge_None in Ed. lia. }
  rewrite lookup_app_r, length_fmap in E' by (rewrite length_fmap; lia).
  assert (i < length (dqs ++ qs))%nat as Hlq.
  { apply (f_equal length) in ln_bus0. rewrite length_app, length_fmap in ln_bus0. lia. }
  rewrite length_app in Hlq. exists (i - length dres)%nat.
  split_and!; [lia|done| |].
  - rewrite ln_reqs0, lookup_app_r in Eq by lia. rewrite lookup_app_l in Eq by lia. by rewrite <- ln_done0.
  - split; try done; upd_proj; [by rewrite length_insert|].
    rewrite <- insert_app_l, ln_full0 by done. rewrite insert_app_r_alt by (rewrite length_fmap; lia).
    by rewrite length_fmap.
Qed.

End lane.

(** ** The two lanes of the bus interface *)

Definition fetch_bus (pc : Z) : bti_req_if_t := BtiReq FCH_TRANS_ID BTI_REQ_CMD_READ pc BTI_REQ_SIZE_B4 0 0.

(** A fetch ends in a bus response or in an exception of the MMU. *)
Definition fetch_out (o : bti_rsp_if_t + hart_expt_if_t) : fch_rsp_if_t :=
  match o with
  | inl r => FchRsp (bp_data r) (bp_ok r) false 0 0 0
  | inr e => FchRsp 0 false true (u32 (expt_cause e)) (expt_priv e) (expt_tval e)
  end.

Definition ldst_bus (r : ldst_req_if_t) : bti_req_if_t :=
  BtiReq LDST_TRANS_ID (default 0 (hbi_d_cmd r)) (ld_addr r) (ld_size r) (ld_data r) (ld_strobe r).
Definition ldst_out (r : bti_rsp_if_t) : ldst_rsp_if_t := LdstRsp (bp_data r) (bp_ok r).

Definition i_lane (h : hbi_t) : lane Z hbi_i_ost_ctx_t fch_rsp_if_t :=
  Lane (h_i_ost h) (h_fch_req_fifo h) (h_fch_req_slv h) (h_i_bti_req_mst h) (h_fch_rsp_mst h).
Definition d_lane (h : hbi_t) : lane ldst_req_if_t hbi_d_ost_ctx_t ldst_rsp_if_t :=
  Lane (h_d_ost h) (h_ldst_req_fifo h) (h_ldst_req_slv h) (h_d_bti_req_mst h) (h_ldst_rsp_mst h).

Definition i_io : Type := lane_io Z (bti_rsp_if_t + hart_expt_if_t) fch_rsp_if_t.
Definition d_io : Type := lane_io ldst_req_if_t bti_rsp_if_t ldst_rsp_if_t.

Definition i_view (h : hbi_t) := (i_lane h, h_i_bti_rsp_slv h, h_mmu_fch_expt_slv h).
Definition d_view (h : hbi_t) := (d_lane h, h_d_bti_rsp_slv h).

Definition i_lane_rel := lane_rel fetch_bus (fun q c => hi_pc c = q) hi_rsp_vld hi_rsp fetch_out.
Definition d_lane_rel := lane_rel ldst_bus (fun (_ : ldst_req_if_t) (_ : hbi_d_ost_ctx_t) => True) hd_rsp_vld hd_rsp ldst_out.

(** The exception at the interface, if any, belongs to the oldest fetch at its address, which has
    no outcome: [t'] are the outcomes of the table with it. *)
Definition expt_at (es : list hart_expt_if_t) (qs : list Z) (tbl t' : list (option (bti_rsp_if_t + hart_expt_if_t))) : Prop :=
  match es with
  | [] => t' = tbl
  | [e] => expt_type e = HART_EXPT_TYPE_EXCEPTION /\ exists k, tbl !! k = Some None /\ qs !! k = Some (expt_pc e) /\
      (expt_pc e ∉ take k qs) /\ t' = <[k := Some (inr e)]> tbl
  | _ => False
  end.

(** The responses at the interface belong to the oldest fetches that then have no outcome. *)
Definition i_pend_ok (h : hbi_t) (qs : list Z) (tbl full : list (option (bti_rsp_if_t + hart_expt_if_t))) : Prop :=
  Forall (fun r => bp_trans_id r = FCH_TRANS_ID) (ch_pkts (h_i_bti_rsp_slv h)) /\
  exists t', expt_at (ch_pkts (h_mmu_fch_expt_slv h)) qs tbl t' /\ fills (inl <$> ch_pkts (h_i_bti_rsp_slv h)) t' = Some full.

(** The outcome of the oldest request, if it has one, is in the table. *)
Definition caught_up {R} (up : bool) (tbl full : list (option R)) : Prop :=
  up = true -> forall r full', full = Some r :: full' -> exists tbl', tbl = Some r :: tbl'.

Definition i_inv (h : hbi_t) (io : i_io) (fr up : bool) : Prop :=
  exists dqs dres qs ctxs tbl full, i_lane_rel (i_lane h) io fr dqs dres qs ctxs tbl full /\
    i_pend_ok h qs tbl full /\ caught_up up tbl full.

Definition d_inv (h : hbi_t) (io : d_io) (fr up : bool) : Prop :=
  exists dqs dres qs ctxs tbl full, d_lane_rel (d_lane h) io fr dqs dres qs ctxs tbl full /\
    fills (ch_pkts (h_d_bti_rsp_slv h)) tbl = Some full /\
    Forall (fun r => bp_trans_id r = LDST_TRANS_ID) (ch_pkts (h_d_bti_rsp_slv h)) /\
    Forall (fun r => is_Some (hbi_d_cmd r)) (io_reqs io) /\ caught_up up tbl full.

Lemma i_inv_view h h' io fr up : i_view h' = i_view h -> i_inv h io fr up -> i_inv h' io fr up.
Proof.
  unfold i_view. intros E. injection E as E1 E2 E3 E4 E5 E6 E7. unfold i_inv, i_pend_ok, i_lane.
  by rewrite E1, E2, E3, E4, E5, E6, E7.
Qed.

Lemma d_inv_view h h' io fr up : d_view h' = d_view h -> d_inv h io fr up -> d_inv h' io fr up.
Proof.
  unfold d_view. intros E. injection E as E1 E2 E3 E4 E5 E6. unfold d_inv, d_lane.
  by rewrite E1, E2, E3, E4, E5, E6.
Qed.

Lemma i_view_out h h' : i_view h = i_view h' -> h_fch_rsp_mst h = h_fch_rsp_mst h' /\ h_mmu_fch_expt_slv h = h_mmu_fch_expt_slv h'.
Proof. unfold i_view. intros E. by injection E. Qed.

Lemma d_view_out h h' : d_view h = d_view h' -> h_ldst_rsp_mst h = h_ldst_rsp_mst h'.
Proof. unfold d_view. intros E. by injection E. Qed.

Lemma caught_up_later {R} up (tbl full : list (option R)) : caught_up up tbl full -> caught_up false tbl full.
Proof. by intros _ [=]. Qed.

Lemma caught_up_snoc {R} up rs (tbl full : list (option R)) : fills rs tbl = Some full -> caught_up up tbl full ->
  caught_up up (tbl ++ [None]) (full ++ [None]).
Proof.
  intros Hf Hc Hup r full'. destruct full as [|f full]; [done|]. intros [= -> _].
  destruct (Hc Hup r full eq_refl) as (tbl' & ->). by eexists.
Qed.

(** Taking in one response of the interface catches up with the oldest request. *)
Lemma caught_up_fill {R} r rs (tbl tbl' full : list (option R)) : fill1 r tbl = Some tbl' -> fills rs tbl' = Some full ->
  caught_up true tbl' full.
Proof.
  intros H1 H2 _ x full' ->. destruct tbl' as [|[y|] tbl'].
  - apply fills_length in H2. done.
  - apply fills_head in H2 as (? & [= -> ->] & _). by eexists.
  - destruct tbl as [|[z|] tbl]; [done|..|done]. simpl in H1. apply fmap_Some in H1 as (? & _ & [=]).
Qed.

Lemma caught_up_nil {R} up (tbl : list (option R)) : caught_up up tbl tbl.
Proof. intros _ r full' ->. by eexists. Qed.

Lemma expt_at_snoc es qs tbl t' q : length qs = length tbl -> expt_at es qs tbl t' ->
  expt_at es (qs ++ [q]) (tbl ++ [None]) (t' ++ [None]).
Proof.
  intros Hlen. destruct es as [|e [|e' es]]; simpl; [by intros ->| |done].
  intros (Ht & k & Hk & Hq & Hn & ->). split; [done|]. exists k. pose proof (lookup_lt_Some _ _ _ Hk).
  split_and!; [by apply lookup_app_l_Some|by apply lookup_app_l_Some| |by rewrite insert_app_l].
  by rewrite take_app_le by lia.
Qed.

Section fill_table.
  Context {Ctx Res Out : Type} (vld : Ctx -> bool) (out : Ctx -> Out) (out_of : Res -> Out).
  Implicit Types (l : list Ctx) (tbl : list (option Res)).

(** The first entry that is not valid has no outcome, those before it have one. *)
Lemma first_waits (l1 l2 : list Ctx) c tbl r : Forall2 (entry_ok vld out out_of) (l1 ++ c :: l2) tbl ->
  Forall (fun c => negb (vld c) = false) l1 -> vld c = false ->
  fill1 r tbl = Some (<[length l1 := Some r]> tbl).
Proof.
  intros Ht Hl Hv. apply Forall2_app_inv_l in Ht as (t1 & t2 & H1 & H2 & ->).
  apply Forall2_cons_inv_l in H2 as (t & t2' & H & H2 & ->).
  assert (t = None) as -> by (destruct t; [destruct H; congruence|done]).
  assert (exists a, t1 = Some <$> a) as (a & ->).
  { clear -H1 Hl. induction H1 as [|x t l1 t1 Hx H1 IH]; [by exists []|]. apply Forall_cons in Hl as [Hv Hl].
    destruct (IH Hl) as (a & ->). destruct t as [y|]; [by exists (y :: a)|]. simpl in Hx. by rewrite Hx in Hv. }
  rewrite (Forall2_length _ _ _ H1), insert_mid. apply fill1_first. by exists a, t2'.
Qed.

(** If every entry is valid no outcome is missing. *)
Lemma none_waits l tbl (r : Res) : Forall2 (entry_ok vld out out_of) l tbl ->
  Forall (fun c => negb (vld c) = false) l -> fill1 r tbl = None.
Proof.
  induction 1 as [|x t l tbl Hx H IH]; [done|]. intros [Hv Hl]%Forall_cons. simpl.
  destruct t as [y|]; [by rewrite (IH Hl)|]. simpl in Hx. by rewrite Hx in Hv.
Qed.

End fill_table.

(** ** The operations *)

Section ops.
  Context (io : i_io) (dio : d_io).
  Implicit Types (h : hbi_t).

Lemma inv_capture_i h fr up : i_inv h io fr up -> wp hbi_capture_i_req (fun _ h' =>
  i_inv h' io fr up /\ d_view h' = d_view h /\ h_fch_rsp_mst h' = h_fch_rsp_mst h) h.
Proof.
  intros Hi. unfold hbi_capture_i_req. apply wp_bind, wp_gets. unfold id, when.
  destruct (chan_full _) eqn:Ef; [case_match; [apply wp_modify|apply wp_ret]; by split_and!|].
  destruct (chan_empty _) eqn:Ee; [apply wp_ret; by split_and!|].
  apply chan_empty_false in Ee as (q & reqs & Ee). destruct Hi as (dqs & dres & qs & ctxs & tbl & full & Hr & Hp).
  apply wp_bind. eapply wp_on_read; [done|]. apply wp_on_write; [apply Hr|done|]. intros Hw. split_and!; [|done..].
  exists dqs, dres, qs, ctxs, tbl, full. split; [|done]. by apply (lane_capture _ _ _ _ _ (i_lane h)).
Qed.

Lemma inv_capture_d h fr up : d_inv h dio fr up -> wp hbi_capture_d_req (fun _ h' =>
  d_inv h' dio fr up /\ i_view h' = i_view h /\ h_ldst_rsp_mst h' = h_ldst_rsp_mst h) h.
Proof.
  intros Hi. unfold hbi_capture_d_req. apply wp_bind, wp_gets. unfold id, when.
  destruct (chan_full _) eqn:Ef; [case_match; [apply wp_modify|apply wp_ret]; by split_and!|].
  destruct (chan_empty _) eqn:Ee; [apply wp_ret; by split_and!|].
  apply chan_empty_false in Ee as (q & reqs & Ee). destruct Hi as (dqs & dres & qs & ctxs & tbl & full & Hr & Hp).
  apply wp_bind. eapply wp_on_read; [done|]. apply wp_on_write; [apply Hr|done|]. intros Hw. split_and!; [|done..].
  exists dqs, dres, qs, ctxs, tbl, full. split; [|done]. by apply (lane_capture _ _ _ _ _ (d_lane h)).
Qed.

Lemma inv_proc_i_req h fr up : i_inv h io fr up -> wp hbi_proc_i_req (fun _ h' =>
  i_inv h' io fr up /\ d_view h' = d_view h /\ h_fch_rsp_mst h' = h_fch_rsp_mst h) h.
Proof.
  intros Hi. unfold hbi_proc_i_req. apply wp_bind, wp_gets. unfold id.
  destruct (chan_empty _) eqn:Ee; [apply wp_ret; by split_and!|].
  destruct (ostq_full _) eqn:Ef; [apply wp_modify; by split_and!|].
  destruct (chan_full _) eqn:Eb; [apply wp_ret; by split_and!|].
  apply chan_empty_false in Ee as (q & fifo & Ee).
  destruct Hi as (dqs & dres & qs & ctxs & tbl & full & Hr & (Ht & t' & He & Hf) & Hc).
  apply wp_bind. eapply wp_on_read; [done|]. apply wp_bind, wp_on_write; [apply Hr|done|]. intros Hw.
  apply wp_bind, wp_on. upd_proj. eapply wp_ostq_alloc; [apply Hr|done|]. intros o' slot Ho' _ _.
  apply wp_check; [by apply bool_decide_eq_true; eauto|]. split_and!; [|done..].
  exists dqs, dres, (qs ++ [q]), (ctxs ++ [HbiICtx q false fch_rsp_zero]), (tbl ++ [None]), (full ++ [None]). split_and!.
  - exact (lane_issue _ _ _ _ _ _ _ _ _ _ _ _ _ _ _ _ _ _ Hr Ee Ho' eq_refl eq_refl Hw).
  - split; [done|]. exists (t' ++ [None]). split; [|by apply fills_app].
    apply expt_at_snoc; [|done]. destruct Hr. apply Forall2_length in ln_holds0, ln_tbl0. congruence.
  - intros Hup r full'. destruct full as [|f full]; [done|]. intros [= -> _].
    destruct (Hc Hup r full eq_refl) as (tbl' & ->). by eexists.
Qed.

Lemma inv_proc_d_req h fr up : d_inv h dio fr up -> wp hbi_proc_d_req (fun _ h' =>
  d_inv h' dio fr up /\ i_view h' = i_view h /\ h_ldst_rsp_mst h' = h_ldst_rsp_mst h) h.
Proof.
  intros Hi. unfold hbi_proc_d_req. apply wp_bind, wp_gets. unfold id.
  destruct (chan_empty _) eqn:Ee; [apply wp_ret; by split_and!|].
  destruct (ostq_full _) eqn:Ef; [apply wp_modify; by split_and!|].
  destruct (chan_full _) eqn:Eb; [apply wp_ret; by split_and!|].
  apply chan_empty_false in Ee as (q & fifo & Ee).
  destruct Hi as (dqs & dres & qs & ctxs & tbl & full & Hr & Hf & Ht & Hc & Hup).
  apply wp_bind. eapply wp_on_read; [done|]. cbv zeta.
  assert (exists cmd, hbi_d_cmd q = Some cmd) as (cmd & Ecmd).
  { pose proof (ln_reqs _ _ _ _ _ _ _ _ _ _ _ _ _ _ Hr) as E. rewrite E in Hc. cbn [d_lane la_fifo] in Hc.
    rewrite Ee, !Forall_app, Forall_cons in Hc. destruct Hc as (_ & _ & [[cmd ?] _] & _). by exists cmd. }
  apply wp_bind. rewrite Ecmd. apply wp_ret. apply wp_bind, wp_on_write; [apply Hr|done|].
  match goal with |- (chan_wf (chan_snoc _ ?x)) -> _ => assert (x = ldst_bus q) as -> by (unfold ldst_bus; by rewrite Ecmd) end.
  intros Hw. apply wp_bind, wp_on. upd_proj. eapply wp_ostq_alloc; [apply Hr|done|]. intros o' slot Ho' _ _.
  apply wp_check; [by apply bool_decide_eq_true; eauto|]. split_and!; [|done..].
  exists dqs, dres, (qs ++ [q]), (ctxs ++ [HbiDCtx false ldst_rsp_zero]), (tbl ++ [None]), (full ++ [None]).
  split_and!; [exact (lane_issue _ _ _ _ _ _ _ _ _ _ _ _ _ _ _ _ _ _ Hr Ee Ho' I eq_refl Hw)|by apply fills_app|done|done|].
  by eapply caught_up_snoc.
Qed.

(** The search by address finds the fetch of the exception. *)
Lemma proc_i_expt_ok h fr : i_inv h io fr false -> wp hbi_proc_i_expt (fun _ h' =>
  i_inv h' io fr false /\ ch_pkts (h_mmu_fch_expt_slv h') = [] /\ d_view h' = d_view h /\
  h_fch_rsp_mst h' = h_fch_rsp_mst h) h.
Proof.
  intros Hi. unfold hbi_proc_i_expt. apply wp_bind, wp_gets. unfold id.
  destruct (chan_empty (h_mmu_fch_expt_slv h)) eqn:Ee.
  { apply wp_ret. apply chan_empty_spec in Ee. by split_and!. }
  apply chan_empty_false in Ee as (e & es & Ee).
  destruct Hi as (dqs & dres & qs & ctxs & tbl & full & Hr & (Ht & t' & He & Hf) & Hc).
  rewrite Ee in He. destruct es as [|e' es]; [|done]. destruct He as (Hty & k & Hk & Hq & Hn & ->).
  apply wp_bind. eapply wp_on_front; [done|clear; by destruct h|]. apply wp_bind, wp_check; [by rewrite Hty|].
  apply wp_bind. unfold hbi_find_i_slot_by_pc. apply wp_on. eapply wp_ostq_scan; [apply Hr|..].
  { intros Hno. exfalso. destruct (Forall2_lookup_l _ _ _ _ _ (ln_holds _ _ _ _ _ _ _ _ _ _ _ _ _ _ Hr) Hq) as (c & Hck & Hpc).
    apply (Forall_lookup_1 _ _ _ _ Hno) in Hck. lia. }
  intros slot l1 c l2 Hsp Hl1 Hc1 Hslot. subst ctxs.
  assert (length l1 = k) as El.
  { pose proof (ln_holds _ _ _ _ _ _ _ _ _ _ _ _ _ _ Hr) as Hh.
    apply Forall2_app_inv_r in Hh as (q1 & q2 & Hq1 & Hq2 & Eqs). apply Forall2_cons_inv_r in Hq2 as (q & q2' & Hqc & _ & ->).
    subst qs. rewrite <- (Forall2_length _ _ _ Hq1). destruct (lt_eq_lt_dec (length q1) k) as [[Hlt|?]|Hgt]; [|done|].
    - exfalso. apply Hn. apply list_elem_of_lookup. exists (length q1). rewrite lookup_take_lt by done.
      rewrite list_lookup_middle by done. f_equal. lia.
    - exfalso. rewrite lookup_app_l in Hq by done. destruct (Forall2_lookup_l _ _ _ _ _ Hq1 Hq) as (c' & Hc' & Hpc).
      apply (Forall_lookup_1 _ _ _ _ Hl1) in Hc'. lia. }
  assert (hi_rsp_vld c = false) as Hv.
  { destruct (Forall2_lookup_r _ _ _ _ _ (ln_tbl _ _ _ _ _ _ _ _ _ _ _ _ _ _ Hr) Hk) as (c' & Hc' & Hv').
    rewrite <- El, list_lookup_middle in Hc' by done. by injection Hc' as ->. }
  apply wp_bind, wp_ret. rewrite Hv. apply wp_bind, wp_check; [done|]. apply wp_bind. eapply wp_on_read; [done|].
  cbv zeta. apply wp_on. upd_proj. eapply wp_ostq_write; [apply Hr|exact Hslot|]. intros o' Ho' _ _.
  split_and!; [|done..]. exists dqs, dres, qs. do 3 eexists. split_and!; [|split; [exact Ht|]|by intros [=]].
  - exact (lane_write _ _ _ _ _ _ _ _ (inr e) _ _ _ _ _ _ _ _ _ _ Hr Ho' (fun q Hq => Hq) eq_refl eq_refl).
  - rewrite El. eexists. split; [reflexivity|done].
Qed.

Lemma proc_i_rsp_ok h fr : i_inv h io fr false -> ch_pkts (h_mmu_fch_expt_slv h) = [] ->
  wp hbi_proc_i_rsp (fun _ h' => i_inv h' io fr true /\ h_mmu_fch_expt_slv h' = h_mmu_fch_expt_slv h /\
    d_view h' = d_view h /\ h_fch_rsp_mst h' = h_fch_rsp_mst h) h.
Proof.
  intros (dqs & dres & qs & ctxs & tbl & full & Hr & (Ht & t' & He & Hf) & Hc) Ee.
  rewrite Ee in He. simpl in He. subst t'. unfold hbi_proc_i_rsp. apply wp_bind, wp_gets. unfold id.
  destruct (chan_empty (h_i_bti_rsp_slv h)) eqn:Er.
  { apply wp_ret. apply chan_empty_spec in Er. split_and!; [|done..]. rewrite Er in Hf. injection Hf as <-.
    exists dqs, dres, qs, ctxs, tbl, tbl. split_and!; [done| |apply caught_up_nil]. split; [done|]. exists tbl.
    by rewrite Ee, Er. }
  apply chan_empty_false in Er as (r & rs & Er). rewrite Er in Ht, Hf. apply Forall_cons in Ht as [Ht Hts].
  simpl in Hf. apply bind_Some in Hf as (tbl' & Hf1 & Hf).
  apply wp_bind. eapply wp_on_read; [done|]. apply wp_bind, wp_check; [by rewrite Ht|].
  apply wp_bind. unfold hbi_find_oldest_i_wait_slot. apply wp_on. upd_proj. eapply wp_ostq_scan; [apply Hr|..].
  { intros Hno. exfalso. rewrite (none_waits _ _ _ _ _ _ (ln_tbl _ _ _ _ _ _ _ _ _ _ _ _ _ _ Hr) Hno) in Hf1. done. }
  intros slot l1 c l2 Hsp Hl1 Hc1 Hslot. subst ctxs. apply negb_true_iff in Hc1.
  rewrite (first_waits _ _ _ _ _ _ _ _ (ln_tbl _ _ _ _ _ _ _ _ _ _ _ _ _ _ Hr) Hl1 Hc1) in Hf1. injection Hf1 as <-.
  apply wp_bind, wp_ret. rewrite Hc1. apply wp_bind, wp_check; [done|].
  cbv zeta. apply wp_on. upd_proj. eapply wp_ostq_write; [apply Hr|exact Hslot|]. intros o' Ho' _ _.
  split_and!; [|done..]. exists dqs, dres, qs. do 3 eexists. split_and!; [|split|].
  - exact (lane_write _ _ _ _ _ _ _ _ (inl r) _ _ _ _ _ _ _ _ _ _ Hr Ho' (fun q Hq => Hq) eq_refl eq_refl).
  - exact Hts.
  - eexists. split; [upd_proj; by rewrite Ee|exact Hf].
  - eapply caught_up_fill; [|exact Hf].
    exact (first_waits _ _ _ _ _ _ _ _ (ln_tbl _ _ _ _ _ _ _ _ _ _ _ _ _ _ Hr) Hl1 Hc1).
Qed.

Lemma proc_d_rsp_ok h fr : d_inv h dio fr false -> wp hbi_proc_d_rsp (fun _ h' =>
  d_inv h' dio fr true /\ i_view h' = i_view h /\ h_ldst_rsp_mst h' = h_ldst_rsp_mst h) h.
Proof.
  intros (dqs & dres & qs & ctxs & tbl & full & Hr & Hf & Ht & Hcm & Hc). unfold hbi_proc_d_rsp. apply wp_bind, wp_gets. unfold id.
  destruct (chan_empty (h_d_bti_rsp_slv h)) eqn:Er.
  { apply wp_ret. apply chan_empty_spec in Er. split_and!; [|done..]. pose proof Hf as Hf'. rewrite Er in Hf'. injection Hf' as <-.
    exists dqs, dres, qs, ctxs, tbl, tbl. split_and!; [done..|apply caught_up_nil]. }
  apply chan_empty_false in Er as (r & rs & Er). rewrite Er in Ht, Hf. apply Forall_cons in Ht as [Ht Hts].
  simpl in Hf. apply bind_Some in Hf as (tbl' & Hf1 & Hf).
  apply wp_bind. unfold hbi_find_oldest_d_wait_slot. apply wp_on. eapply wp_ostq_scan; [apply Hr|..].
  { intros Hno. exfalso. rewrite (none_waits _ _ _ _ _ _ (ln_tbl _ _ _ _ _ _ _ _ _ _ _ _ _ _ Hr) Hno) in Hf1. done. }
  intros slot l1 c l2 Hsp Hl1 Hc1 Hslot. subst ctxs. apply negb_true_iff in Hc1.
  rewrite (first_waits _ _ _ _ _ _ _ _ (ln_tbl _ _ _ _ _ _ _ _ _ _ _ _ _ _ Hr) Hl1 Hc1) in Hf1. injection Hf1 as <-.
  apply wp_bind, wp_ret. rewrite Hc1. apply wp_bind, wp_check; [done|]. apply wp_bind. eapply wp_on_read; [done|].
  apply wp_bind, wp_check; [by rewrite Ht|].
  cbv zeta. apply wp_on. upd_proj. eapply wp_ostq_write; [apply Hr|exact Hslot|]. intros o' Ho' _ _.
  split_and!; [|done..]. exists dqs, dres, qs. do 3 eexists. split_and!; [|exact Hf|exact Hts|exact Hcm|].
  - exact (lane_write _ _ _ _ _ _ _ _ r _ _ _ _ _ _ _ _ _ _ Hr Ho' (fun q Hq => Hq) eq_refl eq_refl).
  - eapply caught_up_fill; [|exact Hf].
    exact (first_waits _ _ _ _ _ _ _ _ (ln_tbl _ _ _ _ _ _ _ _ _ _ _ _ _ _ Hr) Hl1 Hc1).
Qed.

(** What a cycle does on the way out of a lane: the answer that is due is sent if there is room. *)
Definition sends {Out} (due : option Out) (c c' : chan Out) : Prop :=
  forall x, chan_full c = false -> due = Some x -> c' = chan_snoc c x.

Lemma send_i_ok h : i_inv h io false true -> ch_pkts (h_mmu_fch_expt_slv h) = [] -> wp hbi_send_i_rsp (fun _ h' =>
  (exists fr', i_inv h' io fr' false) /\ d_view h' = d_view h /\
  sends (next_answer fetch_out io (h_fch_rsp_mst h)) (h_fch_rsp_mst h) (h_fch_rsp_mst h')) h.
Proof.
  intros (dqs & dres & qs & ctxs & tbl & full & Hr & (Ht & t' & He & Hf) & Hc) Ee. rewrite Ee in He. simpl in He. subst t'.
  assert (i_inv h io false false) as Hi.
  { exists dqs, dres, qs, ctxs, tbl, full. split_and!; [done| |by intros [=]]. split; [done|]. exists tbl. by rewrite Ee. }
  assert (forall x, next_answer fetch_out io (h_fch_rsp_mst h) = Some x -> exists c ctxs', ctxs = c :: ctxs' /\ hi_rsp_vld c = true /\ hi_rsp c = x) as Hnext.
  { intros x Hx. destruct (next_head _ _ _ _ _ _ _ _ _ _ _ _ _ _ _ Hr Hx) as (r & full' & -> & ->).
    destruct (Hc eq_refl _ _ eq_refl) as (tbl' & ->). pose proof (ln_tbl _ _ _ _ _ _ _ _ _ _ _ _ _ _ Hr) as Htb.
    apply Forall2_cons_inv_r in Htb as (c & ctxs' & [? ?] & _ & ->). by exists c, ctxs'. }
  unfold hbi_send_i_rsp. apply wp_bind, wp_gets. unfold id, sends.
  destruct (chan_full (h_fch_rsp_mst h)) eqn:Ef; [apply wp_ret; split_and!; eauto; done|].
  apply wp_bind, wp_on. eapply wp_ostq_peek; [apply Hr|..].
  { intros [|E]; [done|]. assert (h <| h_i_ost := h_i_ost h |> = h) as -> by (clear; by destruct h).
    apply wp_ret. split_and!; eauto. intros x _ Hx. destruct (Hnext x Hx) as (c & ctxs' & -> & _). done. }
  intros c ctxs' slot _ -> _. assert (h <| h_i_ost := h_i_ost h |> = h) as -> by (clear; by destruct h).
  destruct (hi_rsp_vld c) eqn:Hv; cbn [negb].
  2:{ apply wp_ret. split_and!; eauto. intros x _ Hx. destruct (Hnext x Hx) as (? & ? & [= <- _] & ? & _). congruence. }
  apply wp_bind, wp_on_write; [apply Hr|done|]. intros Hw. apply wp_on. upd_proj.
  eapply wp_ostq_free; [apply Hr|]. intros o' Ho' _.
  assert (exists r tbl', tbl = Some r :: tbl') as (r & tbl' & ->).
  { pose proof (ln_tbl _ _ _ _ _ _ _ _ _ _ _ _ _ _ Hr) as Htb. apply Forall2_cons_inv_l in Htb as ([r|] & tbl' & Hc' & _ & ->).
    - by exists r, tbl'. - simpl in Hc'. congruence. }
  apply fills_head in Hf as (full' & -> & Hf).
  destruct (lane_send _ _ _ _ _ _ _ _ _ _ _ _ _ _ _ _ Hr Ho' Hw) as (_ & q & qs' & -> & Hr').
  split_and!; [|done|]. 2:{ intros x _ Hx. destruct (Hnext x Hx) as (? & ? & [= <- _] & _ & <-). done. }
  exists true, (dqs ++ [q]), (dres ++ [r]), qs', ctxs', tbl', full'. split_and!; [exact Hr'| |by intros [=]].
  split; [done|]. exists tbl'. split; [|done]. upd_proj. by rewrite Ee.
Qed.

Lemma send_d_ok h : d_inv h dio false true -> wp hbi_send_d_rsp (fun _ h' =>
  (exists fr', d_inv h' dio fr' false) /\ i_view h' = i_view h /\
  sends (next_answer ldst_out dio (h_ldst_rsp_mst h)) (h_ldst_rsp_mst h) (h_ldst_rsp_mst h')) h.
Proof.
  intros (dqs & dres & qs & ctxs & tbl & full & Hr & Hf & Ht & Hcm & Hc).
  assert (d_inv h dio false false) as Hi.
  { exists dqs, dres, qs, ctxs, tbl, full. split_and!; [done..|by intros [=]]. }
  assert (forall x, next_answer ldst_out dio (h_ldst_rsp_mst h) = Some x -> exists c ctxs', ctxs = c :: ctxs' /\ hd_rsp_vld c = true /\ hd_rsp c = x) as Hnext.
  { intros x Hx. destruct (next_head _ _ _ _ _ _ _ _ _ _ _ _ _ _ _ Hr Hx) as (r & full' & -> & ->).
    destruct (Hc eq_refl _ _ eq_refl) as (tbl' & ->). pose proof (ln_tbl _ _ _ _ _ _ _ _ _ _ _ _ _ _ Hr) as Htb.
    apply Forall2_cons_inv_r in Htb as (c & ctxs' & [? ?] & _ & ->). by exists c, ctxs'. }
  unfold hbi_send_d_rsp. apply wp_bind, wp_gets. unfold id, sends.
  destruct (chan_full (h_ldst_rsp_mst h)) eqn:Ef; [apply wp_ret; split_and!; eauto; done|].
  apply wp_bind, wp_on. eapply wp_ostq_peek; [apply Hr|..].
  { intros [|E]; [done|]. assert (h <| h_d_ost := h_d_ost h |> = h) as -> by (clear; by destruct h).
    apply wp_ret. split_and!; eauto. intros x _ Hx. destruct (Hnext x Hx) as (c & ctxs' & -> & _). done. }
  intros c ctxs' slot _ -> _. assert (h <| h_d_ost := h_d_ost h |> = h) as -> by (clear; by destruct h).
  destruct (hd_rsp_vld c) eqn:Hv; cbn [negb].
  2:{ apply wp_ret. split_and!; eauto. intros x _ Hx. destruct (Hnext x Hx) as (? & ? & [= <- _] & ? & _). congruence. }
  apply wp_bind, wp_on_write; [apply Hr|done|]. intros Hw. apply wp_on. upd_proj.
  eapply wp_ostq_free; [apply Hr|]. intros o' Ho' _.
  assert (exists r tbl', tbl = Some r :: tbl') as (r & tbl' & ->).
  { pose proof (ln_tbl _ _ _ _ _ _ _ _ _ _ _ _ _ _ Hr) as Htb. apply Forall2_cons_inv_l in Htb as ([r|] & tbl' & Hc' & _ & ->).
    - by exists r, tbl'. - simpl in Hc'. congruence. }
  apply fills_head in Hf as (full' & -> & Hf).
  destruct (lane_send _ _ _ _ _ _ _ _ _ _ _ _ _ _ _ _ Hr Ho' Hw) as (_ & q & qs' & -> & Hr').
  split_and!; [|done|]. 2:{ intros x _ Hx. destruct (Hnext x Hx) as (? & ? & [= <- _] & _ & <-). done. }
  exists true, (dqs ++ [q]), (dres ++ [r]), qs', ctxs', tbl', full'. split_and!; [exact Hr'|done..|by intros [=]].
Qed.

Definition hbi_inv h : Prop := (exists fr, i_inv h io fr false) /\ (exists fr, d_inv h dio fr false).

Lemma hbi_clock_ok h : hbi_inv h -> wp hbi_clock (fun _ h' => hbi_inv h' /\
  sends (next_answer fetch_out io (h_fch_rsp_mst h)) (h_fch_rsp_mst h) (h_fch_rsp_mst h') /\
  sends (next_answer ldst_out dio (h_ldst_rsp_mst h)) (h_ldst_rsp_mst h) (h_ldst_rsp_mst h')) h.
Proof.
  intros [(fr & Hi) (dfr & Hd)]. unfold hbi_clock.
  apply wp_bind, wp_on. pose proof Hi as (dqs & dres & qs & ctxs & tbl & full & Hr & Hp).
  eapply wp_ostq_clock; [apply Hr|]. intros o' Ho' _.
  apply wp_bind, wp_on. upd_proj. pose proof Hd as (ddqs & ddres & dqs' & dctxs & dtbl & dfull & Hdr & Hdp).
  eapply wp_ostq_clock; [apply Hdr|]. intros do' Hdo' _.
  set (h1 := h <| h_i_ost := o' |> <| h_d_ost := do' |>).
  assert (i_inv h1 io false false) as Hi1.
  { do 6 eexists. split; [|exact Hp]. by eapply (lane_clock _ _ _ _ _ (i_lane h)). }
  assert (d_inv h1 dio false false) as Hd1.
  { do 6 eexists. split; [|exact Hdp]. by eapply (lane_clock _ _ _ _ _ (d_lane h)). }
  change (h_fch_rsp_mst h) with (h_fch_rsp_mst h1). change (h_ldst_rsp_mst h) with (h_ldst_rsp_mst h1).
  clearbody h1. clear dependent h o' do'.
  apply wp_bind. eapply wp_mono; [by apply inv_capture_i|]. intros [] h2 (Hi2 & V2 & <-).
  apply wp_bind. eapply wp_mono; [by apply (inv_capture_d h2 false false), (d_inv_view h1)|]. intros [] h3 (Hd3 & V3 & E3).
  pose proof (d_view_out _ _ V2) as E2. pose proof (proj1 (i_view_out _ _ V3)) as F3.
  rewrite <- E2, <- E3, <- F3. clear E2 E3 F3.
  apply wp_bind. eapply wp_mono; [by apply (proc_i_expt_ok h3 false), (i_inv_view h2)|]. intros [] h4 (Hi4 & P4 & V4 & <-).
  apply wp_bind. eapply wp_mono; [by apply (proc_i_rsp_ok h4 _ Hi4)|]. intros [] h5 (Hi5 & P5 & V5 & <-).
  apply wp_bind. eapply wp_mono; [apply (send_i_ok h5 Hi5); by rewrite P5|]. intros [] h6 ((fr6 & Hi6) & V6 & S6).
  assert (d_view h6 = d_view h3) as V36 by congruence.
  rewrite <- (d_view_out _ _ V36).
  apply wp_bind. eapply wp_mono; [by apply (proc_d_rsp_ok h6 false), (d_inv_view h3)|].
  intros [] h7 (Hd7 & V7 & <-).
  apply wp_bind. eapply wp_mono; [apply (send_d_ok h7 Hd7)|]. intros [] h8 ((fr8 & Hd8) & V8 & S8).
  assert (i_view h8 = i_view h6) as V68 by congruence.
  apply wp_bind. eapply wp_mono; [by apply (inv_proc_i_req h8 fr6 false), (i_inv_view h6)|].
  intros [] h9 (Hi9 & V9 & F9).
  eapply wp_mono; [by apply (inv_proc_d_req h9 fr8 false), (d_inv_view h8)|]. intros [] h10 (Hd10 & V10 & F10).
  split_and!.
  - split; [|by exists fr8]. exists fr6. by apply (i_inv_view h9).
  - rewrite (proj1 (i_view_out h10 h9 V10)), F9, (proj1 (i_view_out h8 h6 V68)). exact S6.
  - rewrite F10, (d_view_out h9 h8 V9). exact S8.
Qed.

End ops.

(** ** Runs *)

(** The unit with the record of its two lanes.  The fetch unit and the load-store unit put
    requests and take answers; the other side takes transactions and answers each one that it took
    with at most one outcome: a response goes to the oldest transaction of the lane that has no
    outcome, and an exception of the MMU, early or late, to any fetch that has none, the oldest
    one in the table at its address; the exceptions come one at a time. *)
Inductive hbi_step : hbi_t * i_io * d_io -> hbi_t * i_io * d_io -> Prop :=
| HbiClock h h' io dio : hbi_clock h = Some (tt, h') -> hbi_step (h, io, dio) (h', io, dio)
| HbiFetch h pc io dio :
    hbi_step (h, io, dio) (h <| h_fch_req_slv := chan_snoc (h_fch_req_slv h) pc |>,
      io <| io_reqs := io_reqs io ++ [pc] |>, dio)
| HbiFetchAnswer h x q io dio : ch_pkts (h_fch_rsp_mst h) = x :: q ->
    hbi_step (h, io, dio) (h <| h_fch_rsp_mst := Chan (ch_depth (h_fch_rsp_mst h)) q |>,
      io <| io_rsps := io_rsps io ++ [x] |>, dio)
| HbiFetchBus h x q io dio : ch_pkts (h_i_bti_req_mst h) = x :: q ->
    hbi_step (h, io, dio) (h <| h_i_bti_req_mst := Chan (ch_depth (h_i_bti_req_mst h)) q |>,
      io <| io_bus := io_bus io ++ [x] |> <| io_res := io_res io ++ [None] |>, dio)
| HbiFetchRsp h r res io dio : fill1 (inl r) (io_res io) = Some res -> bp_trans_id r = FCH_TRANS_ID ->
    hbi_step (h, io, dio) (h <| h_i_bti_rsp_slv := chan_snoc (h_i_bti_rsp_slv h) r |>,
      io <| io_res := res |>, dio)
| HbiFetchExpt h e i io dio : ch_pkts (h_mmu_fch_expt_slv h) = [] -> expt_type e = HART_EXPT_TYPE_EXCEPTION ->
    io_res io !! i = Some None -> io_reqs io !! i = Some (expt_pc e) ->
    (forall j, (length (io_rsps io ++ ch_pkts (h_fch_rsp_mst h)) <= j < i)%nat -> io_reqs io !! j <> Some (expt_pc e)) ->
    hbi_step (h, io, dio) (h <| h_mmu_fch_expt_slv := chan_snoc (h_mmu_fch_expt_slv h) e |>,
      io <| io_res := <[i := Some (inr e)]> (io_res io) |>, dio)
| HbiLdst h r io dio : is_Some (hbi_d_cmd r) ->
    hbi_step (h, io, dio) (h <| h_ldst_req_slv := chan_snoc (h_ldst_req_slv h) r |>, io,
      dio <| io_reqs := io_reqs dio ++ [r] |>)
| HbiLdstAnswer h x q io dio : ch_pkts (h_ldst_rsp_mst h) = x :: q ->
    hbi_step (h, io, dio) (h <| h_ldst_rsp_mst := Chan (ch_depth (h_ldst_rsp_mst h)) q |>, io,
      dio <| io_rsps := io_rsps dio ++ [x] |>)
| HbiLdstBus h x q io dio : ch_pkts (h_d_bti_req_mst h) = x :: q ->
    hbi_step (h, io, dio) (h <| h_d_bti_req_mst := Chan (ch_depth (h_d_bti_req_mst h)) q |>, io,
      dio <| io_bus := io_bus dio ++ [x] |> <| io_res := io_res dio ++ [None] |>)
| HbiLdstRsp h r res io dio : fill1 r (io_res dio) = Some res -> bp_trans_id r = LDST_TRANS_ID ->
    hbi_step (h, io, dio) (h <| h_d_bti_rsp_slv := chan_snoc (h_d_bti_rsp_slv h) r |>, io,
      dio <| io_res := res |>).

(** A response at the interface of the fetches. *)
Lemma step_fetch_rsp h r res io fr : i_inv h io fr false -> fill1 (inl r) (io_res io) = Some res ->
  bp_trans_id r = FCH_TRANS_ID ->
  i_inv (h <| h_i_bti_rsp_slv := chan_snoc (h_i_bti_rsp_slv h) r |>) (io <| io_res := res |>) fr false.
Proof.
  intros (dqs & dres & qs & ctxs & tbl & full & Hr & (Hts & t' & He & Hf) & _) E Ht.
  destruct (lane_outcome _ _ _ _ _ _ _ _ _ _ _ _ _ _ _ _ Hr E) as (full' & Hf1 & Hr').
  exists dqs, dres, qs, ctxs, tbl, full'. split_and!; [exact Hr'| |by intros [=]]. unfold i_pend_ok, chan_snoc. upd_proj. split.
  - apply Forall_app. split; [done|by constructor].
  - exists t'. split; [done|]. rewrite fmap_app. by eapply fills_snoc.
Qed.

(** An exception at the interface of the fetches, in whatever order. *)
Lemma step_fetch_expt h e i io fr : i_inv h io fr false -> ch_pkts (h_mmu_fch_expt_slv h) = [] ->
  expt_type e = HART_EXPT_TYPE_EXCEPTION -> io_res io !! i = Some None -> io_reqs io !! i = Some (expt_pc e) ->
  (forall j, (length (io_rsps io ++ ch_pkts (h_fch_rsp_mst h)) <= j < i)%nat -> io_reqs io !! j <> Some (expt_pc e)) ->
  i_inv (h <| h_mmu_fch_expt_slv := chan_snoc (h_mmu_fch_expt_slv h) e |>) (io <| io_res := <[i := Some (inr e)]> (io_res io) |>)
    fr false.
Proof.
  intros (dqs & dres & qs & ctxs & tbl & full & Hr & (Hts & t' & He & Hf) & _) Ee Ht En Eq Hno.
  rewrite Ee in He. simpl in He. subst t'.
  destruct (lane_outcome_at _ _ _ _ _ _ _ _ (inr e) _ _ _ _ _ _ _ _ Hr En Eq) as (k & -> & Hk & Hq & Hr').
  destruct (fills_insert _ _ _ _ (inr e) Hf Hk) as [Htk Hf'].
  exists dqs, dres, qs, ctxs, tbl, (<[k := Some (inr e)]> full). split_and!; [exact Hr'| |by intros [=]].
  unfold i_pend_ok, chan_snoc. upd_proj. rewrite Ee. split; [done|]. eexists. split; [|exact Hf']. split; [done|].
  exists k. split_and!; [done..| |done]. intros (j & Hj)%list_elem_of_lookup.
  apply lookup_take_Some in Hj as [Hj Hlt]. destruct Hr. apply (Hno (length dqs + j)%nat).
  - change (h_fch_rsp_mst h) with (la_out (i_lane h)). rewrite ln_rsps0, length_fmap. lia.
  - rewrite ln_reqs0, lookup_app_r by lia. replace (length dqs + j - length dqs)%nat with j by lia.
    by apply lookup_app_l_Some.
Qed.

Lemma step_ldst_rsp h r res io fr : d_inv h io fr false -> fill1 r (io_res io) = Some res -> bp_trans_id r = LDST_TRANS_ID ->
  d_inv (h <| h_d_bti_rsp_slv := chan_snoc (h_d_bti_rsp_slv h) r |>) (io <| io_res := res |>) fr false.
Proof.
  intros (dqs & dres & qs & ctxs & tbl & full & Hr & Hf & Hts & Hcm & _) E Ht.
  destruct (lane_outcome _ _ _ _ _ _ _ _ _ _ _ _ _ _ _ _ Hr E) as (full' & Hf1 & Hr').
  exists dqs, dres, qs, ctxs, tbl, full'. unfold chan_snoc. upd_proj. split_and!; [exact Hr'| | |done|by intros [=]].
  - by eapply fills_snoc.
  - apply Forall_app. split; [done|by constructor].
Qed.

Lemma hbi_step_inv x y : hbi_step x y -> hbi_inv x.1.2 x.2 x.1.1 -> hbi_inv y.1.2 y.2 y.1.1.
Proof.
  intros Hs. destruct Hs as [h h' io dio E|h pc io dio|h a q io dio E|h a q io dio E|h r res io dio E Ht
    |h e i io dio Ee Ht En Eq Hno|h r io dio Hc|h a q io dio E|h a q io dio E|h r res io dio E Ht]; cbn [fst snd]; intros Hi.
  { pose proof (hbi_clock_ok io dio h Hi) as H. unfold wp in H. rewrite E in H. apply H. }
  all: destruct Hi as [[fr Hi] [dfr Hd]]; split; try (by exists fr); try (by exists dfr).
  - exists fr. destruct Hi as (dqs & dres & qs & ctxs & tbl & full & Hr & Hp). exists dqs, dres, qs, ctxs, tbl, full.
    split; [|done]. by apply (lane_req _ _ _ _ _ (i_lane h)).
  - exists fr. destruct Hi as (dqs & dres & qs & ctxs & tbl & full & Hr & Hp). exists dqs, dres, qs, ctxs, tbl, full.
    split; [|done]. by apply (lane_take_rsp _ _ _ _ _ (i_lane h)).
  - exists fr. destruct Hi as (dqs & dres & qs & ctxs & tbl & full & Hr & Hp). exists dqs, dres, qs, ctxs, tbl, full.
    split; [|done]. by apply (lane_take_bus _ _ _ _ _ (i_lane h)).
  - exists fr. by apply step_fetch_rsp.
  - exists fr. by apply step_fetch_expt.
  - exists dfr. destruct Hd as (dqs & dres & qs & ctxs & tbl & full & Hr & Hf & Ht & Hcm & Hp).
    exists dqs, dres, qs, ctxs, tbl, full. split_and!; [|done..| |done].
    + by apply (lane_req _ _ _ _ _ (d_lane h)).
    + upd_proj. apply Forall_app. split; [done|by constructor].
  - exists dfr. destruct Hd as (dqs & dres & qs & ctxs & tbl & full & Hr & Hp). exists dqs, dres, qs, ctxs, tbl, full.
    split; [|done]. by apply (lane_take_rsp _ _ _ _ _ (d_lane h)).
  - exists dfr. destruct Hd as (dqs & dres & qs & ctxs & tbl & full & Hr & Hp). exists dqs, dres, qs, ctxs, tbl, full.
    split; [|done]. by apply (lane_take_bus _ _ _ _ _ (d_lane h)).
  - exists dfr. by apply step_ldst_rsp.
Qed.

(** ** Reset *)

(** A unit before reset: tables and FIFOs constructed, nothing on the interfaces. *)
Record hbi_built (h : hbi_t) : Prop := {
  hb_ost : ostq_wf (h_i_ost h) /\ ostq_wf (h_d_ost h);
  hb_depth : q_depth (h_i_ost h) <= 2147483648 /\ q_depth (h_d_ost h) <= 2147483648;
  hb_fifos : 0 <= ch_depth (h_fch_req_fifo h) /\ 0 <= ch_depth (h_ldst_req_fifo h);
  hb_fetch : ch_pkts (h_fch_req_slv h) = [] /\ h_fch_rsp_mst h = Chan (ch_depth (h_fch_rsp_mst h)) [] /\
    h_i_bti_req_mst h = Chan (ch_depth (h_i_bti_req_mst h)) [] /\ ch_pkts (h_i_bti_rsp_slv h) = [] /\ ch_pkts (h_mmu_fch_expt_slv h) = [];
  hb_ldst : ch_pkts (h_ldst_req_slv h) = [] /\ h_ldst_rsp_mst h = Chan (ch_depth (h_ldst_rsp_mst h)) [] /\
    h_d_bti_req_mst h = Chan (ch_depth (h_d_bti_req_mst h)) [] /\ ch_pkts (h_d_bti_rsp_slv h) = [];
  hb_depths : 0 <= ch_depth (h_fch_rsp_mst h) /\ 0 <= ch_depth (h_i_bti_req_mst h) /\
    0 <= ch_depth (h_ldst_rsp_mst h) /\ 0 <= ch_depth (h_d_bti_req_mst h)
}.

Lemma lane_empty {Req Ctx Res Out : Type} `{!Zero Ctx} (bus_of : Req -> bti_req_if_t) holds vld out (out_of : Res -> Out)
    (o : ostq_t Ctx) d1 reqs d2 d3 : ost_live o false [] -> ch_pkts reqs = [] -> 0 <= d1 -> 0 <= d2 -> 0 <= d3 ->
  lane_rel bus_of holds vld out out_of (Lane o (Chan d1 []) reqs (Chan d2 []) (Chan d3 [])) lane_start false
    [] [] [] [] [] [].
Proof. intros Ho E H1 H2 H3. split; try done; cbn [la_reqs la_fifo la_breqs la_out lane_start io_reqs ch_pkts]; by rewrite ?E. Qed.

Lemma hbi_reset_ok h : hbi_built h -> wp hbi_reset (fun _ h' => hbi_inv lane_start lane_start h') h.
Proof.
  intros [[W1 W2] [D1 D2] [F1 F2] (I1 & I2 & I3 & I4 & I5) (J1 & J2 & J3 & J4) (P1 & P2 & P3 & P4)]. unfold hbi_reset.
  apply wp_bind, wp_on, wp_modify, wp_bind, wp_on, wp_modify, wp_bind, wp_on. upd_proj.
  apply ost_reset_live; [done..|]. intros o1 H1. apply wp_bind, wp_on. upd_proj.
  apply ost_reset_live; [done..|]. intros o2 H2. apply wp_modify. split.
  - exists false. do 6 eexists. unfold i_lane_rel, i_lane, i_pend_ok. upd_proj. rewrite I4, I5.
    split; [rewrite I2, I3; by apply lane_empty|]. split; [|by intros [=]]. split; [done|]. by exists [].
  - exists false. do 6 eexists. unfold d_lane_rel, d_lane. upd_proj. rewrite J4.
    split; [rewrite J2, J3; by apply lane_empty|]. split; [done|]. split; [done|]. split; [done|by intros [=]].
Qed.

Lemma hbi_run_inv x y : rtc hbi_step x y -> hbi_inv x.1.2 x.2 x.1.1 -> hbi_inv y.1.2 y.2 y.1.1.
Proof. induction 1 as [x|x y z Hxy _ IH]; [done|]. intros Hx. by apply IH, (hbi_step_inv x y). Qed.

(** ** Theorem *)

(** C8: In every run of the bus interface from reset, on the lane of the fetches and on that of the
    memory accesses: the bus transactions are those of the requests, in order; the answers come in
    the order of the requests, each from the outcome of its own request, whether an exception of
    the MMU arrives before the responses of older fetches or after them; no check fails; and a
    cycle sends the answer of the oldest request whenever it has an outcome and there is room.  The
    environment: a response belongs to the oldest transaction of its lane that has no outcome, an
    exception to a fetch whose address no older fetch in the table shares, exceptions come one at a
    time, and the cache operations of memory accesses are among those of the interface. *)
Theorem hbi_in_order h h0 h1 io dio :
  hbi_built h -> hbi_reset h = Some (tt, h0) -> rtc hbi_step (h0, lane_start, lane_start) (h1, io, dio) ->
  lane_in_order fetch_bus fetch_out (i_lane h1) io /\ lane_in_order ldst_bus ldst_out (d_lane h1) dio /\
  exists h2, hbi_clock h1 = Some (tt, h2) /\
    sends (next_answer fetch_out io (h_fch_rsp_mst h1)) (h_fch_rsp_mst h1) (h_fch_rsp_mst h2) /\
    sends (next_answer ldst_out dio (h_ldst_rsp_mst h1)) (h_ldst_rsp_mst h1) (h_ldst_rsp_mst h2).
Proof.
  intros Hb Hr Hrun. pose proof (hbi_reset_ok h Hb) as Hi. unfold wp in Hi. rewrite Hr in Hi.
  pose proof (hbi_run_inv _ _ Hrun Hi) as Hinv. cbn [fst snd] in Hinv.
  destruct (wp_elim _ _ _ (hbi_clock_ok io dio h1 Hinv)) as ([] & h2 & E & _ & S1 & S2).
  destruct Hinv as [(fr & dqs & dres & qs & ctxs & tbl & full & Hi1 & _) (dfr & ddqs & ddres & dqs' & dctxs & dtbl & dfull & Hd1 & _)].
  split_and!; [by eapply lane_in_order_ok..|]. by exists h2.
Qed.

(** ** Witness *)

Definition hbi_example0 : hbi_t :=
  Hbi (Chan 1 []) (Chan 1 []) (Chan 1 []) (Chan 1 []) (Chan 1 []) (Chan 1 []) (Chan 1 []) (Chan 1 []) (Chan 1 [])
    (Chan 2 []) (Chan 2 []) (default (Ostq [] 0 0 0 0 0 0) (ostq_construct 1 2))
    (default (Ostq [] 0 0 0 0 0 0) (ostq_construct 1 2)) 0 0 0 0.

Lemma ost_example_wf {A} `{!Zero A} : ostq_wf (A := A) (default (Ostq [] 0 0 0 0 0 0) (ostq_construct 1 2)).
Proof.
  destruct (ostq_construct (A := A) 1 2) as [o|] eqn:E; [|done].
  by destruct (ostq_construct_ok (A := A) 1 2 o E ltac:(done) ltac:(done)).
Qed.

Lemma hbi_example_built : hbi_built hbi_example0.
Proof. split; try done. split; apply ost_example_wf. Qed.

Definition hbi_cycle (h : hbi_t) : hbi_t := default h (snd <$> hbi_clock h).
Definition hbi_fetch (pc : Z) (h : hbi_t) : hbi_t := h <| h_fch_req_slv := chan_snoc (h_fch_req_slv h) pc |>.
Definition hbi_taken (h : hbi_t) : hbi_t := h <| h_i_bti_req_mst := Chan (ch_depth (h_i_bti_req_mst h)) [] |>.

(** Two fetches at the bus; then the exception of the second one, and a cycle; then the response of
    the first one, and a cycle. *)
Definition hbi_w0 : hbi_t := default hbi_example0 (snd <$> hbi_reset hbi_example0).
Definition hbi_w1 : hbi_t := hbi_taken (hbi_cycle (hbi_fetch 0x100 hbi_w0)).
Definition hbi_w2 : hbi_t := hbi_taken (hbi_cycle (hbi_fetch 0x104 hbi_w1)).
Definition hbi_expt_w : hart_expt_if_t := HartExpt HART_EXPT_TYPE_EXCEPTION 12 1 0x104 0x104.
Definition hbi_w3 : hbi_t := hbi_cycle (hbi_w2 <| h_mmu_fch_expt_slv := chan_snoc (h_mmu_fch_expt_slv hbi_w2) hbi_expt_w |>).
Definition hbi_rsp_w : bti_rsp_if_t := BtiRsp FCH_TRANS_ID 0x13 true.
Definition hbi_w4 : hbi_t := hbi_cycle (hbi_w3 <| h_i_bti_rsp_slv := chan_snoc (h_i_bti_rsp_slv hbi_w3) hbi_rsp_w |>).
Definition hbi_io_w : i_io :=
  LaneIo [0x100; 0x104] [fetch_bus 0x100; fetch_bus 0x104] [Some (inl hbi_rsp_w); Some (inr hbi_expt_w)] [].

(** A fetch and its successor, whose later exception arrives before the response of the first: no
    answer goes out until that response is there, which is answered first. *)
Lemma hbi_in_order_witness :
  ch_pkts (h_fch_rsp_mst hbi_w3) = [] /\ ch_pkts (h_fch_rsp_mst hbi_w4) = [fetch_out (inl hbi_rsp_w)] /\
  lane_in_order fetch_bus fetch_out (i_lane hbi_w4) hbi_io_w.
Proof.
  split_and!; [vm_compute; reflexivity..|].
  assert (rtc hbi_step (hbi_w0, lane_start, lane_start) (hbi_w4, hbi_io_w, lane_start)) as Hrun.
  { eapply rtc_l; [apply (HbiFetch hbi_w0 0x100)|].
    eapply rtc_l; [apply (HbiClock _ (hbi_cycle (hbi_fetch 0x100 hbi_w0))); vm_compute; reflexivity|].
    eapply rtc_l; [apply (HbiFetchBus _ (fetch_bus 0x100) []); vm_compute; reflexivity|].
    eapply rtc_l; [apply (HbiFetch hbi_w1 0x104)|].
    eapply rtc_l; [apply (HbiClock _ (hbi_cycle (hbi_fetch 0x104 hbi_w1))); vm_compute; reflexivity|].
    eapply rtc_l; [apply (HbiFetchBus _ (fetch_bus 0x104) []); vm_compute; reflexivity|].
    eapply rtc_l; [apply (HbiFetchExpt hbi_w2 hbi_expt_w 1); [vm_compute; reflexivity..|]|].
    { intros j Hj. destruct j; [done|]. lia. }
    eapply rtc_l; [apply (HbiClock _ hbi_w3); vm_compute; reflexivity|].
    eapply rtc_l; [apply (HbiFetchRsp hbi_w3 hbi_rsp_w [Some (inl hbi_rsp_w); Some (inr hbi_expt_w)]); vm_compute; reflexivity|].
    apply rtc_once, (HbiClock _ hbi_w4). vm_compute. reflexivity. }
  exact (proj1 (hbi_in_order hbi_example0 hbi_w0 hbi_w4 _ _ hbi_example_built ltac:(vm_compute; reflexivity) Hrun)).
Defined.
