(* ===== verification/Apb.v ===== *)
(** * The configuration bus interface

    The packets of [design/model/itf/apb_req_if.h] and [apb_rsp_if.h], which the register files of
    the interrupt controllers and of the peripherals exchange with the bus. *)

From stdpp Require Import base numbers list.
From Stdlib Require Import ZArith Lia.
From S2P Require Import Prelude.

Record apb_req_if_t := ApbReq { paddr : Z; pwrite : bool; pwdata : Z; pstrb : Z }.
Record apb_rsp_if_t := ApbRsp { prdata : Z; pslverr : bool }.
#[export] Instance eta_apb_rsp : Eta apb_rsp_if_t := fun r => ApbRsp (prdata r) (pslverr r).
