(* ===== verification/Plic.v ===== *)
(** * The platform interrupt controller

    [core/plic.c]: one bit per source and per array for pending, claimed and enabled interrupts, a
    priority per source and a threshold; the hart claims the most urgent interrupt and completes
    it through registers on the configuration bus. *)

From stdpp Require Import base numbers list.
From Stdlib Require Import ZArith Lia.
From S2P Require Import Prelude Fifo Apb.

Definition PLIC_BASE : Z := 0x31100000.
Definition PLIC_MAX_IRQ_NUM : Z := 32.
Definition PLIC_SOURCE_NUM : Z := PLIC_MAX_IRQ_NUM + 1.
Definition PLIC_BITFIELD_WORDS : Z := (PLIC_SOURCE_NUM + 31) / 32.

Definition PLIC_PRIORITY_BASE : Z := 0x000000.
Definition PLIC_PRIORITY_SIZE : Z := PLIC_SOURCE_NUM * 4.
Definition PLIC_PENDING_BASE : Z := 0x001000.
Definition PLIC_PENDING_SIZE : Z := PLIC_BITFIELD_WORDS * 4.
Definition PLIC_ENABLE_BASE : Z := 0x002000.
Definition PLIC_ENABLE_SIZE : Z := PLIC_BITFIELD_WORDS * 4.
Definition PLIC_CONTEXT_BASE : Z := 0x200000.
Definition PLIC_CONTEXT_SIZE : Z := 0x1000.
Definition PLIC_CONTEXT_THRESHOLD : Z := 0x000.
Definition PLIC_CONTEXT_CLAIM : Z := 0x004.
Definition PLIC_MAX_PRIORITY : Z := 7.

(** [div_ext_irq_ins] are signals, [None] where the pointer is null; [conv_ext_irq_out] is the
    signal to the hart. *)
Record plic_t := Plic {
  plic_req_slv : chan apb_req_if_t;
  plic_rsp_mst : chan apb_rsp_if_t;
  div_ext_irq_ins : list (option bool);
  conv_ext_irq_out : bool;
  priority : list Z;
  pending : list Z;
  claimed : list Z;
  enable : list Z;
  threshold : Z
}.
#[export] Instance eta_plic : Eta plic_t := fun p =>
  Plic (plic_req_slv p) (plic_rsp_mst p) (div_ext_irq_ins p) (conv_ext_irq_out p) (priority p)
    (pending p) (claimed p) (enable p) (threshold p).

(** ** Bit arrays *)

Definition plic_addr_in (offset base size : Z) : bool := (base <=? offset) && (u32 (offset - base) <? size).

Definition plic_word_mask (word : Z) : Z :=
  if u32 (word + 1) <? PLIC_BITFIELD_WORDS then 0xffffffff
  else
    let valid_bits := u32 (PLIC_SOURCE_NUM - u32 (word * 32)) in
    if 32 <=? valid_bits then 0xffffffff
    else u32 (u32 (Z.shiftl 1 valid_bits) - 1).

Definition plic_source_bit (source : Z) : Z := u32 (Z.shiftl 1 (Z.land source 31)).

(** [None] is an access outside the array. *)
Definition plic_set_bit (bits : list Z) (source : Z) (val : bool) : option (list Z) :=
  let word := Z.shiftr source 5 in
  let mask := plic_source_bit source in
  w ← aget bits word;
  aset bits word (if val then Z.lor w mask else Z.land w (not32 mask)).

Definition plic_get_bit (bits : list Z) (source : Z) : option bool :=
  w ← aget bits (Z.shiftr source 5);
  Some (negb (Z.land w (plic_source_bit source) =? 0)).

(** ** Selection *)

(** [n] sources left, from [source] on. *)
Fixpoint find_best_loop (plic : plic_t) (n : nat) (source best_source best_priority : Z) : option Z :=
  match n with
  | O => Some best_source
  | S n =>
    let continue := find_best_loop plic n (source + 1) in
    pend ← plic_get_bit (pending plic) source;
    if negb pend then continue best_source best_priority
    else
      clm ← plic_get_bit (claimed plic) source;
      if clm : bool then continue best_source best_priority
      else
        en ← plic_get_bit (enable plic) source;
        if negb en then continue best_source best_priority
        else
          prio ← aget (priority plic) source;
          if best_priority <? prio then continue source prio else continue best_source best_priority
  end.

Definition plic_find_best_irq (plic : plic_t) : option Z :=
  find_best_loop plic (Z.to_nat (PLIC_SOURCE_NUM - 1)) 1 0 (threshold plic).

Definition plic_update_irq : M plic_t unit :=
  plic ← gets id;
  best ← of_option (plic_find_best_irq plic);
  let irq := negb (best =? 0) in
  when (negb (eqb irq (conv_ext_irq_out plic))) (modify (fun p => p <| conv_ext_irq_out := irq |>)).

Definition plic_claim : M plic_t Z :=
  plic ← gets id;
  source ← of_option (plic_find_best_irq plic);
  when (negb (source =? 0))
    (pend ← of_option (plic_set_bit (pending plic) source false);
     modify (fun p => p <| pending := pend |>);;
     clm ← of_option (plic_set_bit (claimed plic) source true);
     modify (fun p => p <| claimed := clm |>));;
  mret source.

Definition plic_complete (source : Z) : M plic_t unit :=
  if (source =? 0) || (PLIC_SOURCE_NUM <=? source) then mret tt
  else
    plic ← gets id;
    clm ← of_option (plic_set_bit (claimed plic) source false);
    modify (fun p => p <| claimed := clm |>).

(** ** Registers *)

(** The value and [*ok]. *)
Definition plic_read (offset : Z) : M plic_t (Z * bool) :=
  plic ← gets id;
  if plic_addr_in offset PLIC_PRIORITY_BASE PLIC_PRIORITY_SIZE then
    let source := Z.shiftr (u32 (offset - PLIC_PRIORITY_BASE)) 2 in
    v ← of_option (aget (priority plic) source);
    mret (v, true)
  else if plic_addr_in offset PLIC_PENDING_BASE PLIC_PENDING_SIZE then
    let word := Z.shiftr (u32 (offset - PLIC_PENDING_BASE)) 2 in
    v ← of_option (aget (pending plic) word);
    mret (Z.land (Z.land v (plic_word_mask word)) (not32 1), true)
  else if plic_addr_in offset PLIC_ENABLE_BASE PLIC_ENABLE_SIZE then
    let word := Z.shiftr (u32 (offset - PLIC_ENABLE_BASE)) 2 in
    v ← of_option (aget (enable plic) word);
    mret (Z.land (Z.land v (plic_word_mask word)) (not32 1), true)
  else if plic_addr_in offset PLIC_CONTEXT_BASE PLIC_CONTEXT_SIZE then
    let context_offset := u32 (offset - PLIC_CONTEXT_BASE) in
    if context_offset =? PLIC_CONTEXT_THRESHOLD then mret (threshold plic, true)
    else if context_offset =? PLIC_CONTEXT_CLAIM then
      source ← plic_claim;
      plic_update_irq;;
      mret (source, true)
    else mret (0, false)
  else mret (0, false).

(** [*ok]. *)
Definition plic_write (offset val : Z) : M plic_t bool :=
  plic ← gets id;
  if plic_addr_in offset PLIC_PRIORITY_BASE PLIC_PRIORITY_SIZE then
    let source := Z.shiftr (u32 (offset - PLIC_PRIORITY_BASE)) 2 in
    when (negb (source =? 0))
      (l ← of_option (aset (priority plic) source (Z.land val PLIC_MAX_PRIORITY));
       modify (fun p => p <| priority := l |>));;
    plic_update_irq;;
    mret true
  else if plic_addr_in offset PLIC_PENDING_BASE PLIC_PENDING_SIZE then mret true
  else if plic_addr_in offset PLIC_ENABLE_BASE PLIC_ENABLE_SIZE then
    let word := Z.shiftr (u32 (offset - PLIC_ENABLE_BASE)) 2 in
    l ← of_option (aset (enable plic) word (Z.land (Z.land val (plic_word_mask word)) (not32 1)));
    modify (fun p => p <| enable := l |>);;
    plic_update_irq;;
    mret true
  else if plic_addr_in offset PLIC_CONTEXT_BASE PLIC_CONTEXT_SIZE then
    let context_offset := u32 (offset - PLIC_CONTEXT_BASE) in
    if context_offset =? PLIC_CONTEXT_THRESHOLD then
      modify (fun p => p <| threshold := Z.land val PLIC_MAX_PRIORITY |>);;
      plic_update_irq;;
      mret true
    else if context_offset =? PLIC_CONTEXT_CLAIM then
      plic_complete val;;
      plic_update_irq;;
      mret true
    else mret false
  else mret false.

Definition plic_apb_proc : M plic_t unit :=
  plic ← gets id;
  if chan_empty (plic_req_slv plic) then mret tt
  else
    req ← on plic_req_slv chan_read;
    let offset := u32 (paddr req - PLIC_BASE) in
    if pwrite req then
      ok ← plic_write offset (pwdata req);
      on plic_rsp_mst (chan_write (ApbRsp 0 (negb ok)))
    else
      '(v, ok) ← plic_read offset;
      on plic_rsp_mst (chan_write (ApbRsp v (negb ok))).

(** ** Clock and reset *)

(** [ins] are the inputs from [i] on. *)
Fixpoint sample_loop (ins : list (option bool)) (i : Z) : M plic_t unit :=
  match ins with
  | [] => mret tt
  | src :: ins =>
    match src with
    | None => mret tt
    | Some irq =>
      plic ← gets id;
      let source := i + 1 in
      clm ← (if irq : bool then of_option (plic_get_bit (claimed plic) source) else mret true);
      when (irq && negb clm)
        (pend ← of_option (plic_set_bit (pending plic) source true);
         modify (fun p => p <| pending := pend |>))
    end;;
    sample_loop ins (i + 1)
  end.

Definition plic_sample_inputs : M plic_t unit :=
  plic ← gets id;
  sample_loop (div_ext_irq_ins plic) 0.

Definition plic_reset : M plic_t unit :=
  modify (fun p => p <| priority := replicate (Z.to_nat PLIC_SOURCE_NUM) 0 |>
    <| pending := replicate (Z.to_nat PLIC_BITFIELD_WORDS) 0 |>
    <| claimed := replicate (Z.to_nat PLIC_BITFIELD_WORDS) 0 |>
    <| enable := replicate (Z.to_nat PLIC_BITFIELD_WORDS) 0 |> <| threshold := 0 |>
    <| conv_ext_irq_out := false |>).

Definition plic_clock : M plic_t unit :=
  plic_apb_proc;;
  plic_sample_inputs;;
  plic_update_irq.
