(* ===== verification/PlicSpec.v ===== *)
(** * The platform interrupt controller as sets of sources

    The abstract controller keeps the pending, claimed and enabled interrupts as sets; a claim
    takes the most urgent one.  Every cycle of the code is a step of it, and in every run a claimed
    interrupt is not pending again before it is completed. *)

From stdpp Require Import base numbers list gmap sets relations.
From Stdlib Require Import ZArith Lia.
From S2P Require Import Prelude Fifo Apb Plic.

(** ** Specification *)

Record irqc := Irqc {
  ic_prio : Z -> Z; ic_pending : gset Z; ic_claimed : gset Z; ic_enabled : gset Z; ic_threshold : Z }.
#[export] Instance eta_irqc : Eta irqc := fun a =>
  Irqc (ic_prio a) (ic_pending a) (ic_claimed a) (ic_enabled a) (ic_threshold a).

Definition irqc_start : irqc := Irqc (fun _ => 0) ∅ ∅ ∅ 0.

(** An interrupt that can be taken, and the one that is: the most urgent, the first among equals;
    0 stands for none. *)
Definition ready (a : irqc) (s : Z) : Prop :=
  s ∈ ic_pending a /\ (s ∉ ic_claimed a) /\ s ∈ ic_enabled a /\ ic_threshold a < ic_prio a s.

Definition best (a : irqc) (s : Z) : Prop :=
  (s = 0 /\ forall s', ~ ready a s') \/
  (ready a s /\ forall s', ready a s' -> ic_prio a s' < ic_prio a s \/ ic_prio a s' = ic_prio a s /\ s <= s').

Definition claim (s : Z) (a : irqc) : irqc :=
  if s =? 0 then a
  else a <| ic_pending := (ic_pending a ∖ {[s]}) |> <| ic_claimed := (ic_claimed a ∪ {[s]}) |>.

(** The sources whose bit in a word of [v] can be set: the code clears bit 0 of every word. *)
Definition word_sources (w v : Z) : gset Z :=
  list_to_set (filter (fun s => s / 32 = w /\ Z.testbit v (s mod 32) = true /\ s mod 32 <> 0) (seqZ 1 32)).

(** The word of a set as the registers show it. *)
Definition shows (x : gset Z) (w v : Z) : Prop :=
  is_u32 v /\ forall i, 0 <= i < 32 -> Z.testbit v i = bool_decide (32 * w + i ∈ x /\ i <> 0).

Inductive plic_reg := RegPriority (s : Z) | RegPending (w : Z) | RegEnable (w : Z) | RegThreshold | RegClaim.

Definition reg_of (offset : Z) : option plic_reg :=
  if offset <? 132 then Some (RegPriority (offset / 4))
  else if (0x1000 <=? offset) && (offset <? 0x1008) then Some (RegPending ((offset - 0x1000) / 4))
  else if (0x2000 <=? offset) && (offset <? 0x2008) then Some (RegEnable ((offset - 0x2000) / 4))
  else if offset =? 0x200000 then Some RegThreshold
  else if offset =? 0x200004 then Some RegClaim
  else None.

(** The effect of an access to a register, [v] the value written. *)
Definition irqc_reg_access (a : irqc) (r : option plic_reg) (write : bool) (v : Z) (rsp : apb_rsp_if_t) (a' : irqc) : Prop :=
  match r, write with
  | Some (RegPriority s), false => rsp = ApbRsp (ic_prio a s) false /\ a' = a
  | Some (RegPriority s), true => rsp = ApbRsp 0 false /\
      a' = if s =? 0 then a else a <| ic_prio := fun x => if x =? s then v mod 8 else ic_prio a x |>
  | Some (RegPending w), false => pslverr rsp = false /\ shows (ic_pending a) w (prdata rsp) /\ a' = a
  | Some (RegPending w), true => rsp = ApbRsp 0 false /\ a' = a
  | Some (RegEnable w), false => pslverr rsp = false /\ shows (ic_enabled a) w (prdata rsp) /\ a' = a
  | Some (RegEnable w), true => rsp = ApbRsp 0 false /\
      a' = a <| ic_enabled := (filter (fun s => s / 32 <> w) (ic_enabled a) ∪ word_sources w v) |>
  | Some RegThreshold, false => rsp = ApbRsp (ic_threshold a) false /\ a' = a
  | Some RegThreshold, true => rsp = ApbRsp 0 false /\ a' = a <| ic_threshold := v mod 8 |>
  | Some RegClaim, false => exists s, best a s /\ rsp = ApbRsp s false /\ a' = claim s a
  | Some RegClaim, true => rsp = ApbRsp 0 false /\ a' = a <| ic_claimed := (ic_claimed a ∖ {[v]}) |>
  | None, _ => rsp = ApbRsp 0 true /\ a' = a
  end.

Definition irqc_access (a : irqc) (req : apb_req_if_t) : apb_rsp_if_t -> irqc -> Prop :=
  irqc_reg_access a (reg_of (u32 (paddr req - PLIC_BASE))) (pwrite req) (pwdata req).

(** The sources whose input is high; those that are not claimed become pending. *)
Definition raised (ins : list (option bool)) : gset Z :=
  list_to_set (filter (fun s => ins !! Z.to_nat (s - 1) = Some (Some true)) (seqZ 1 32)).

Definition sample (ins : list (option bool)) (a : irqc) : irqc :=
  a <| ic_pending := (ic_pending a ∪ (raised ins ∖ ic_claimed a)) |>.

(** ** Bit arrays *)

Definition words_ok (l : list Z) : Prop := length l = 2%nat /\ Forall is_u32 l.

Definition bit_at (l : list Z) (s : Z) : bool :=
  match l !! Z.to_nat (s / 32) with Some w => Z.testbit w (s mod 32) | None => false end.

Definition holds_set (l : list Z) (x : gset Z) : Prop :=
  words_ok l /\ (forall s, 0 <= s < 64 -> bit_at l s = bool_decide (s ∈ x)) /\ forall s, s ∈ x -> 1 <= s <= 32.

Lemma source_word s : 0 <= s < 64 ->
  Z.shiftr s 5 = s / 32 /\ (Z.to_nat (s / 32) < 2)%nat /\ 0 <= s / 32 < 2 /\ 0 <= s mod 32 < 32 /\
  plic_source_bit s = Z.shiftl 1 (s mod 32).
Proof.
  intros Hs. assert (0 <= s mod 32 < 32) as Hm by (by apply Z.mod_pos_bound). assert (0 <= s / 32 < 2) by zdiv.
  split_and!; try lia; [by rewrite Z.shiftr_div_pow2|].
  unfold plic_source_bit. change 31 with (Z.ones 5). rewrite Z.land_ones by lia. change (2 ^ 5) with 32.
  apply u32_small. rewrite Z.shiftl_mul_pow2, Z.mul_1_l by lia. unfold is_u32. split; [lia|].
  apply (Z.lt_le_trans _ (2 ^ 32)); [apply Z.pow_lt_mono_r; lia|done].
Qed.

Lemma word_at l s : words_ok l -> 0 <= s < 64 -> exists w, l !! Z.to_nat (s / 32) = Some w /\
  aget l (Z.shiftr s 5) = Some w /\ is_u32 w.
Proof.
  intros [Hl Hu] Hs. destruct (source_word s Hs) as (E & Hn & Hr & _). rewrite E.
  destruct (lookup_lt_is_Some_2 l (Z.to_nat (s / 32))) as [w Hw]; [lia|].
  exists w. split_and!; [done|by rewrite aget_lookup by lia|by eapply Forall_lookup_1].
Qed.

Lemma get_bit_at l s : words_ok l -> 0 <= s < 64 -> plic_get_bit l s = Some (bit_at l s).
Proof.
  intros Hl Hs. destruct (word_at l s Hl Hs) as (w & E1 & E2 & Hw). destruct (source_word s Hs) as (_ & _ & _ & Hm & E).
  unfold plic_get_bit, bit_at. rewrite E1, E2. simpl. rewrite E. f_equal. apply nz_testbit. lia.
Qed.

Lemma set_bit_at l s b : words_ok l -> 0 <= s < 64 -> exists l', plic_set_bit l s b = Some l' /\ words_ok l' /\
  forall s', 0 <= s' < 64 -> bit_at l' s' = if s' =? s then b else bit_at l s'.
Proof.
  intros Hl Hs. destruct (word_at l s Hl Hs) as (w & E1 & E2 & Hw).
  destruct (source_word s Hs) as (Esh & Hn & Hr & Hm & E). destruct Hl as [Hlen Hu].
  unfold plic_set_bit. rewrite E2. simpl. set (w' := if b then _ else _). eexists. split.
  { rewrite Esh. apply aset_insert. lia. }
  assert (is_u32 (Z.shiftl 1 (s mod 32))) as Hbu by (rewrite <- E; apply u32_range).
  assert (is_u32 w') as Hw' by (unfold w'; rewrite E; destruct b; [by apply is_u32_lor|by apply is_u32_land_l]).
  assert (forall i, 0 <= i < 32 -> Z.testbit w' i = if i =? s mod 32 then b else Z.testbit w i) as Hb.
  { intros i Hi. unfold w'. rewrite E. destruct b.
    - rewrite Z.lor_spec, testbit_one by lia. destruct (i =? s mod 32); [apply orb_true_r|apply orb_false_r].
    - rewrite Z.land_spec, testbit_not32, testbit_one by lia.
      destruct (i =? s mod 32); [apply andb_false_r|apply andb_true_r]. }
  split; [split; [by rewrite length_insert|by apply Forall_insert]|].
  intros s' Hs'. unfold bit_at. destruct (source_word s' Hs') as (_ & Hn' & Hr' & Hm' & _).
  destruct (decide (s' / 32 = s / 32)) as [Ew|Ew].
  - rewrite Ew, list_lookup_insert_eq, E1, Hb by lia.
    destruct (Z.eqb_spec s' s) as [->|Hne]; [by rewrite Z.eqb_refl|]. rewrite (proj2 (Z.eqb_neq _ _)); [done|].
    intros Hmm. apply Hne. rewrite (Z.div_mod s' 32), (Z.div_mod s 32), Ew, Hmm by lia. done.
  - rewrite list_lookup_insert_ne by lia. by rewrite (proj2 (Z.eqb_neq _ _)) by congruence.
Qed.

(** ** The relation *)

Record plic_rel (p : plic_t) (a : irqc) : Prop := {
  pl_num : length (priority p) = 33%nat;
  pl_prio : forall s, 0 <= s <= 32 -> aget (priority p) s = Some (ic_prio a s);
  pl_pending : holds_set (pending p) (ic_pending a);
  pl_claimed : holds_set (claimed p) (ic_claimed a);
  pl_enabled : holds_set (enable p) (ic_enabled a);
  pl_usable : forall s, s ∈ ic_enabled a -> s mod 32 <> 0;
  pl_threshold : threshold p = ic_threshold a;
  pl_ins : length (div_ext_irq_ins p) = 32%nat
}.

Lemma holds_get l x s : holds_set l x -> 0 <= s < 64 -> plic_get_bit l s = Some (bool_decide (s ∈ x)).
Proof. intros (Hw & Hb & _) Hs. by rewrite get_bit_at, Hb by done. Qed.

Lemma holds_set_bit l x s (b : bool) : holds_set l x -> 1 <= s <= 32 -> exists l', plic_set_bit l s b = Some l' /\
  holds_set l' (if b then x ∪ {[s]} else x ∖ {[s]}).
Proof.
  intros (Hw & Hb & Hx) Hs. destruct (set_bit_at l s b Hw ltac:(lia)) as (l' & E & Hw' & Hb'). exists l'. split; [done|].
  split; [done|]. split.
  - intros s' Hs'. rewrite Hb' by done. destruct (Z.eqb_spec s' s) as [->|Hne].
    + destruct b; symmetry; [apply bool_decide_eq_true|apply bool_decide_eq_false]; clear; set_solver.
    + rewrite Hb by done. apply bool_decide_ext. clear -Hne. destruct b; set_solver.
  - intros s' Hs'. destruct b.
    + apply elem_of_union in Hs' as [?|?%elem_of_singleton]; [by apply Hx|lia].
    + apply elem_of_difference in Hs' as [? _]. by apply Hx.
Qed.

(** ** Selection *)

(** The best among the sources below [k], with the priority to beat. *)
Definition best_below (a : irqc) (k bs bp : Z) : Prop :=
  (bs = 0 /\ bp = ic_threshold a /\ forall s', s' < k -> ~ ready a s') \/
  (ready a bs /\ bp = ic_prio a bs /\ bs < k /\
   forall s', s' < k -> ready a s' -> ic_prio a s' < ic_prio a bs \/ ic_prio a s' = ic_prio a bs /\ bs <= s').

Lemma best_skip a k bs bp : best_below a k bs bp -> (ready a k -> ic_prio a k <= bp) -> best_below a (k + 1) bs bp.
Proof.
  intros [(-> & -> & Hn)|(Hr & -> & Hk & Hb)] Hle.
  - left. split_and!; [done..|]. intros s' Hs' Hr. destruct (decide (s' = k)) as [->|]; [|apply (Hn s'); [lia|done]].
    specialize (Hle Hr). destruct Hr as (_ & _ & _ & ?). lia.
  - right. split_and!; [done..|lia|]. intros s' Hs' Hr'. destruct (decide (s' = k)) as [->|]; [|apply Hb; [lia|done]].
    specialize (Hle Hr'). lia.
Qed.

Lemma best_take a k bs bp : best_below a k bs bp -> ready a k -> bp < ic_prio a k -> best_below a (k + 1) k (ic_prio a k).
Proof.
  intros Hb Hr Hlt. right. split_and!; [done..|lia|]. intros s' Hs' Hr'.
  destruct (decide (s' = k)) as [->|]; [right; lia|]. left.
  destruct Hb as [(-> & -> & Hn)|(Hbs & -> & Hk & Hb)]; [by destruct (Hn s'); [lia|]|].
  destruct (Hb s' ltac:(lia) Hr'); lia.
Qed.

Lemma find_best_loop_ok p a n : plic_rel p a -> forall k bs bp, 1 <= k -> k + Z.of_nat n = 33 -> best_below a k bs bp ->
  ic_threshold a <= bp -> exists s bp', find_best_loop p n k bs bp = Some s /\ best_below a 33 s bp'.
Proof.
  intros Hp. induction n as [|n IH]; intros k bs bp Hk Hn Hb Ht.
  { exists bs, bp. split; [done|]. by replace 33 with k by lia. }
  assert (forall bs' bp', best_below a (k + 1) bs' bp' -> ic_threshold a <= bp' ->
    exists s bp'', find_best_loop p n (k + 1) bs' bp' = Some s /\ best_below a 33 s bp'') as IH' by (intros; apply IH; lia || done).
  simpl. rewrite (holds_get _ _ _ (pl_pending _ _ Hp)) by lia. simpl.
  destruct (bool_decide_reflect (k ∈ ic_pending a)) as [H1|H1]; simpl.
  2:{ apply IH'; [|done]. apply best_skip; [done|]. by intros (? & _). }
  rewrite (holds_get _ _ _ (pl_claimed _ _ Hp)) by lia. simpl.
  destruct (bool_decide_reflect (k ∈ ic_claimed a)) as [H2|H2]; simpl.
  { apply IH'; [|done]. apply best_skip; [done|]. by intros (_ & ? & _). }
  rewrite (holds_get _ _ _ (pl_enabled _ _ Hp)) by lia. simpl.
  destruct (bool_decide_reflect (k ∈ ic_enabled a)) as [H3|H3]; simpl.
  2:{ apply IH'; [|done]. apply best_skip; [done|]. by intros (_ & _ & ? & _). }
  rewrite (pl_prio _ _ Hp) by lia. simpl. destruct (Z.ltb_spec bp (ic_prio a k)).
  - apply IH'; [|lia]. eapply best_take; [done| |done]. split_and!; [done..|lia].
  - apply IH'; [|done]. by apply best_skip.
Qed.

Lemma find_best_ok p a : plic_rel p a -> exists s, plic_find_best_irq p = Some s /\ best a s.
Proof.
  intros Hp. unfold plic_find_best_irq. destruct (find_best_loop_ok p a 32 Hp 1 0 (threshold p)) as (s & bp & E & Hb).
  - lia.
  - done.
  - left. split_and!; [done|apply Hp|]. intros s' Hs' (H1 & _). apply (pl_pending _ _ Hp) in H1. lia.
  - rewrite (pl_threshold _ _ Hp). lia.
  - exists s. split; [done|]. destruct Hb as [(-> & _ & Hn)|(Hr & _ & _ & Hb)].
    + left. split; [done|]. intros s' Hr. apply (Hn s'); [|done]. destruct Hr as (H1 & _).
      apply (pl_pending _ _ Hp) in H1. lia.
    + right. split; [done|]. intros s' Hr'. apply Hb; [|done]. destruct Hr' as (H1 & _).
      apply (pl_pending _ _ Hp) in H1. lia.
Qed.

Lemma best_source p a s : plic_rel p a -> best a s -> s = 0 \/ 1 <= s <= 32.
Proof. intros Hp [[-> _]|[(H1 & _) _]]; [by left|right]. by apply (pl_pending _ _ Hp) in H1. Qed.

(** ** The operations *)

(** The interfaces, which only the bus access changes, and the line to the hart. *)
Definition io_view (p : plic_t) := (plic_req_slv p, plic_rsp_mst p, div_ext_irq_ins p).
Definition line_ok (p : plic_t) (a : irqc) : Prop := conv_ext_irq_out p = true <-> exists s, ready a s.

Lemma update_irq_ok p a : plic_rel p a ->
  wp plic_update_irq (fun _ p' => plic_rel p' a /\ io_view p' = io_view p /\ line_ok p' a) p.
Proof.
  intros Hp. destruct (find_best_ok p a Hp) as (s & E & Hb). unfold plic_update_irq.
  apply wp_bind, wp_gets. unfold id. rewrite E. apply wp_bind, wp_ret. cbv zeta.
  assert (negb (s =? 0) = true <-> exists s, ready a s) as Hl.
  { rewrite negb_true_iff, Z.eqb_neq. destruct Hb as [[-> Hn]|[Hr _]].
    - split; [done|]. intros [s' Hr]. by destruct (Hn s').
    - split; [by exists s|]. intros _ ->. destruct Hr as (H1 & _). apply (pl_pending _ _ Hp) in H1. lia. }
  destruct (eqb (negb (s =? 0)) (conv_ext_irq_out p)) eqn:Eq; cbn [negb when].
  - apply wp_ret. apply eqb_prop in Eq. unfold line_ok. by rewrite <- Eq.
  - apply wp_modify. split_and!; [by destruct Hp; split|done..].
Qed.

Lemma claim_ok p a : plic_rel p a ->
  wp plic_claim (fun s p' => best a s /\ plic_rel p' (claim s a) /\ io_view p' = io_view p) p.
Proof.
  intros Hp. destruct (find_best_ok p a Hp) as (s & E & Hb). unfold plic_claim.
  apply wp_bind, wp_gets. unfold id. rewrite E. apply wp_bind, wp_ret. apply wp_bind. unfold claim.
  destruct (best_source p a s Hp Hb) as [->|Hs].
  { change (0 =? 0) with true. cbn [negb when]. apply wp_ret, wp_ret. by split_and!. }
  rewrite (proj2 (Z.eqb_neq s 0)) by lia. cbn [negb when].
  destruct (holds_set_bit _ _ s false (pl_pending _ _ Hp) Hs) as (l1 & E1 & H1).
  destruct (holds_set_bit _ _ s true (pl_claimed _ _ Hp) Hs) as (l2 & E2 & H2).
  apply wp_bind. rewrite E1. apply wp_ret. apply wp_bind, wp_modify. apply wp_bind. rewrite E2. apply wp_ret.
  apply wp_modify, wp_ret. split_and!; [done| |done]. rewrite (proj2 (Z.eqb_neq s 0)) by lia. destruct Hp. split; upd_proj; done.
Qed.

Lemma complete_ok p a v : plic_rel p a -> 0 <= v ->
  wp (plic_complete v) (fun _ p' => plic_rel p' (a <| ic_claimed := (ic_claimed a ∖ {[v]}) |>) /\ io_view p' = io_view p) p.
Proof.
  intros Hp Hv. unfold plic_complete. destruct (_ || _) eqn:E.
  - apply wp_ret. split; [|done]. assert (ic_claimed a ∖ {[v]} = ic_claimed a) as Eq.
    { apply leibniz_equiv, set_equiv. intros x. rewrite elem_of_difference, elem_of_singleton. split; [by intros []|].
      intros Hx. split; [done|]. intros ->. apply (pl_claimed _ _ Hp) in Hx. unfold PLIC_SOURCE_NUM, PLIC_MAX_IRQ_NUM in E. lia. }
    destruct Hp. split; upd_proj; by rewrite ?Eq.
  - apply orb_false_iff in E as [E1%Z.eqb_neq E2%Z.leb_gt]. unfold PLIC_SOURCE_NUM, PLIC_MAX_IRQ_NUM in E2.
    apply wp_bind, wp_gets. unfold id.
    destruct (holds_set_bit _ _ v false (pl_claimed _ _ Hp) ltac:(lia)) as (l2 & E & H2).
    apply wp_bind. rewrite E. apply wp_ret, wp_modify. split; [|done]. destruct Hp. split; upd_proj; done.
Qed.

(** ** Registers *)

Lemma addr_in_eq off base size : is_u32 off -> 0 <= base ->
  plic_addr_in off base size = (base <=? off) && (off <? base + size).
Proof.
  intros Ho Hb. unfold plic_addr_in. destruct (Z.leb_spec base off); [|done]. cbn [andb].
  rewrite u32_small by (unfold is_u32 in *; lia). destruct (Z.ltb_spec off (base + size)), (Z.ltb_spec (off - base) size); lia.
Qed.

Lemma word_mask_cases w : 0 <= w < 2 -> plic_word_mask w = if w =? 0 then 0xffffffff else 1.
Proof. intros. assert (w = 0 \/ w = 1) as [-> | ->] by lia; vm_compute; reflexivity. Qed.

Lemma masked_bit v w i : 0 <= w < 2 -> 0 <= i < 32 ->
  Z.testbit (Z.land (Z.land v (plic_word_mask w)) (not32 1)) i = Z.testbit v i && (w =? 0) && negb (i =? 0).
Proof.
  intros Hw Hi. rewrite !Z.land_spec, testbit_not32, word_mask_cases by lia.
  change 1 with (Z.shiftl 1 0) at 2. rewrite testbit_one by lia.
  destruct (Z.eqb_spec w 0) as [->|].
  - change 0xffffffff with (Z.ones 32). rewrite testbit_ones by lia. by rewrite (proj2 (Z.ltb_lt _ _)) by lia.
  - change 1 with (Z.shiftl 1 0). rewrite testbit_one by lia. rewrite <- andb_assoc, andb_negb_r, !andb_false_r. done.
Qed.

Lemma shows_word l x w v : holds_set l x -> 0 <= w < 2 -> aget l w = Some v ->
  shows x w (Z.land (Z.land v (plic_word_mask w)) (not32 1)).
Proof.
  intros ((Hlen & Hu) & Hb & Hx) Hw Hv. rewrite aget_lookup in Hv by lia. pose proof (Forall_lookup_1 _ _ _ _ Hu Hv) as Hvu.
  split; [by apply is_u32_land_l, is_u32_land_l|]. intros i Hi. rewrite masked_bit by done.
  specialize (Hb (32 * w + i) ltac:(lia)). unfold bit_at in Hb.
  replace ((32 * w + i) / 32) with w in Hb by zdiv. replace ((32 * w + i) mod 32) with i in Hb by zdiv. rewrite Hv in Hb.
  rewrite Hb, bool_decide_and, bool_decide_not.
  assert (bool_decide (i = 0) = (i =? 0)) as -> by (destruct (Z.eqb_spec i 0); [by apply bool_decide_true|by apply bool_decide_false]).
  destruct (Z.eqb_spec w 0) as [->|Hne]; [by rewrite andb_true_r|]. rewrite andb_false_r. cbn [andb].
  destruct (bool_decide_reflect (32 * w + i ∈ x)) as [Hin|]; [|done]. apply Hx in Hin. by replace i with 0 by lia.
Qed.

Lemma shift_word off : 0 <= off < W32 -> Z.shiftr (u32 off) 2 = off / 4.
Proof. intros. rewrite u32_small by done. by rewrite Z.shiftr_div_pow2. Qed.

(** The register an offset selects, by the tests of the code. *)
Lemma decode_offset off : is_u32 off ->
  plic_addr_in off PLIC_PRIORITY_BASE PLIC_PRIORITY_SIZE = (off <? 132) /\
  plic_addr_in off PLIC_PENDING_BASE PLIC_PENDING_SIZE = (0x1000 <=? off) && (off <? 0x1008) /\
  plic_addr_in off PLIC_ENABLE_BASE PLIC_ENABLE_SIZE = (0x2000 <=? off) && (off <? 0x2008) /\
  plic_addr_in off PLIC_CONTEXT_BASE PLIC_CONTEXT_SIZE = (0x200000 <=? off) && (off <? 0x201000).
Proof.
  intros Ho. rewrite !addr_in_eq by done. split_and!; try reflexivity.
  change (PLIC_PRIORITY_BASE <=? off) with (0 <=? off). rewrite (proj2 (Z.leb_le _ _)) by apply Ho. done.
Qed.

Lemma read_ok p a off w : plic_rel p a -> is_u32 off ->
  wp (plic_read off) (fun '(v, ok) p' => exists a', irqc_reg_access a (reg_of off) false w (ApbRsp v (negb ok)) a' /\
    plic_rel p' a' /\ io_view p' = io_view p) p.
Proof.
  intros Hp Ho. destruct (decode_offset off Ho) as (D1 & D2 & D3 & D4). unfold plic_read.
  apply wp_bind, wp_gets. unfold id. rewrite D1, D2, D3, D4. unfold reg_of. clear D1 D2 D3 D4.
  unfold is_u32 in Ho. destruct (Z.ltb_spec off 132).
  { change (off - PLIC_PRIORITY_BASE) with (off - 0). rewrite Z.sub_0_r, shift_word by done.
    apply wp_bind. rewrite (pl_prio _ _ Hp) by zdiv. apply wp_ret, wp_ret. exists a. by split_and!. }
  destruct (_ && _) eqn:E1.
  { change (off - PLIC_PENDING_BASE) with (off - 0x1000). rewrite shift_word by lia.
    assert (0 <= (off - 0x1000) / 4 < 2) as Hw by zdiv. pose proof (pl_pending _ _ Hp) as Hh.
    assert (is_Some (aget (pending p) ((off - 0x1000) / 4))) as [v Hv] by (apply aget_is_Some; destruct Hh as [[-> _] _]; lia).
    apply wp_bind. rewrite Hv. apply wp_ret, wp_ret. exists a. split; [|done]. split; [done|]. split; [by eapply shows_word|done]. }
  destruct ((0x2000 <=? off) && _) eqn:E2.
  { change (off - PLIC_ENABLE_BASE) with (off - 0x2000). rewrite shift_word by lia.
    assert (0 <= (off - 0x2000) / 4 < 2) as Hw by zdiv. pose proof (pl_enabled _ _ Hp) as Hh.
    assert (is_Some (aget (enable p) ((off - 0x2000) / 4))) as [v Hv] by (apply aget_is_Some; destruct Hh as [[-> _] _]; lia).
    apply wp_bind. rewrite Hv. apply wp_ret, wp_ret. exists a. split; [|done]. split; [done|]. split; [by eapply shows_word|done]. }
  destruct ((0x200000 <=? off) && _) eqn:E3.
  - change (off - PLIC_CONTEXT_BASE) with (off - 0x200000). rewrite (u32_small (off - 0x200000)) by (unfold is_u32; lia).
    unfold PLIC_CONTEXT_THRESHOLD, PLIC_CONTEXT_CLAIM.
    destruct (Z.eqb_spec (off - 0x200000) 0), (Z.eqb_spec off 0x200000); try lia.
    { apply wp_ret. exists a. split_and!; try done. simpl. by rewrite (pl_threshold _ _ Hp). }
    destruct (Z.eqb_spec (off - 0x200000) 4), (Z.eqb_spec off 0x200004); try lia.
    { apply wp_bind. eapply wp_mono; [by apply claim_ok|]. intros s p1 (Hb & Hp1 & V1).
      apply wp_bind. eapply wp_mono; [by apply update_irq_ok|]. intros [] p2 (Hp2 & V2 & _). apply wp_ret.
      exists (claim s a). split_and!; [by exists s|done|congruence]. }
    apply wp_ret. exists a. by split_and!.
  - destruct (Z.eqb_spec off 0x200000), (Z.eqb_spec off 0x200004); try lia. apply wp_ret. exists a. by split_and!.
Qed.

Lemma holds_insert l x w v : holds_set l x -> 0 <= w < 2 ->
  holds_set (<[Z.to_nat w := Z.land (Z.land v (plic_word_mask w)) (not32 1)]> l)
    (filter (fun s => s / 32 <> w) x ∪ word_sources w v).
Proof.
  intros ((Hlen & Hu) & Hb & Hx) Hw.
  assert (forall s, s ∈ word_sources w v <-> (s / 32 = w /\ Z.testbit v (s mod 32) = true /\ s mod 32 <> 0) /\ 1 <= s <= 32) as Hws.
  { intros s. unfold word_sources. rewrite elem_of_list_to_set, list_elem_of_filter, elem_of_seqZ. intuition lia. }
  split; [split; [by rewrite length_insert|]|split].
  - apply Forall_insert; [done|]. apply is_u32_land_r. vm_compute. done.
  - intros s Hs. destruct (source_word s Hs) as (_ & Hn & Hr & Hm & _). 
    apply eq_true_iff_eq. rewrite bool_decide_eq_true, elem_of_union, elem_of_filter, Hws.
    destruct (decide (s / 32 = w)) as [E|E].
    + unfold bit_at. rewrite E, list_lookup_insert_eq, masked_bit by lia.
      rewrite !andb_true_iff, negb_true_iff, Z.eqb_eq, Z.eqb_neq. split.
      * intros [[Ht Ew] Hi]. right. split_and!; [done..|zdiv|zdiv].
      * intros [[? _]|((_ & Ht & Hi) & Hs')]; [done|]. split_and!; [done|zdiv|done].
    + unfold bit_at. rewrite list_lookup_insert_ne by lia. fold (bit_at l s). rewrite Hb, bool_decide_eq_true by done.
      split; [by left|]. intros [[_ ?]|[[? _] _]]; done.
  - intros s. rewrite elem_of_union, elem_of_filter, Hws. intros [[_ ?]|[_ ?]]; [by apply Hx|done].
Qed.

Lemma write_ok p a off v : plic_rel p a -> is_u32 off -> is_u32 v ->
  wp (plic_write off v) (fun ok p' => exists a', irqc_reg_access a (reg_of off) true v (ApbRsp 0 (negb ok)) a' /\
    plic_rel p' a' /\ io_view p' = io_view p) p.
Proof.
  intros Hp Ho Hv. destruct (decode_offset off Ho) as (D1 & D2 & D3 & D4). unfold plic_write.
  apply wp_bind, wp_gets. unfold id. rewrite D1, D2, D3, D4. unfold reg_of. clear D1 D2 D3 D4.
  assert (Z.land v PLIC_MAX_PRIORITY = v mod 8) as E7 by (change PLIC_MAX_PRIORITY with (Z.ones 3); by rewrite Z.land_ones).
  assert (forall p1 a', plic_rel p1 a' -> io_view p1 = io_view p -> irqc_reg_access a (reg_of off) true v (ApbRsp 0 false) a' ->
    wp (plic_update_irq;; mret true) (fun ok p' => exists a', irqc_reg_access a (reg_of off) true v (ApbRsp 0 (negb ok)) a' /\
    plic_rel p' a' /\ io_view p' = io_view p) p1) as Hend.
  { intros p1 a' Hp1 V1 Hacc. apply wp_bind. eapply wp_mono; [by apply update_irq_ok|]. intros [] p2 (Hp2 & V2 & _).
    apply wp_ret. exists a'. split_and!; [done|done|congruence]. }
  unfold reg_of in Hend. unfold is_u32 in Ho. destruct (Z.ltb_spec off 132).
  { change (off - PLIC_PRIORITY_BASE) with (off - 0). rewrite Z.sub_0_r, shift_word by done. apply wp_bind.
    assert (0 <= off / 4 <= 32) as Hs by zdiv.
    destruct (Z.eqb_spec (off / 4) 0) as [E|E]; cbn [negb when].
    - apply wp_ret. apply (Hend p a); [done..|]. simpl. by rewrite E.
    - apply wp_bind. rewrite aset_insert by (rewrite (pl_num _ _ Hp); lia). apply wp_ret, wp_modify.
      eapply Hend; [|done|simpl; rewrite (proj2 (Z.eqb_neq _ _)) by done; by split].
      destruct Hp. split; upd_proj; try done; [by rewrite length_insert|].
      intros s Hs'. rewrite aget_insert, E7 by lia. destruct (s =? off / 4); [done|by apply pl_prio0]. }
  destruct ((0x1000 <=? off) && _) eqn:E1; [apply wp_ret; exists a; by split_and!|].
  destruct ((0x2000 <=? off) && _) eqn:E2.
  { change (off - PLIC_ENABLE_BASE) with (off - 0x2000). rewrite shift_word by lia.
    assert (0 <= (off - 0x2000) / 4 < 2) as Hw by zdiv. pose proof (pl_enabled _ _ Hp) as Hh.
    apply wp_bind. rewrite aset_insert by (destruct Hh as [[-> _] _]; lia). apply wp_ret, wp_bind, wp_modify.
    eapply Hend; [|done|by split]. pose proof (holds_insert _ _ _ v Hh Hw) as Hh'. destruct Hp. split; upd_proj; try done.
    intros s. rewrite elem_of_union, elem_of_filter. intros [[_ ?]|Hs]; [by apply pl_usable0|].
    unfold word_sources in Hs. rewrite elem_of_list_to_set, list_elem_of_filter in Hs. tauto. }
  destruct ((0x200000 <=? off) && _) eqn:E3.
  - change (off - PLIC_CONTEXT_BASE) with (off - 0x200000). rewrite (u32_small (off - 0x200000)) by (unfold is_u32; lia).
    unfold PLIC_CONTEXT_THRESHOLD, PLIC_CONTEXT_CLAIM.
    destruct (Z.eqb_spec (off - 0x200000) 0), (Z.eqb_spec off 0x200000); try lia.
    { apply wp_bind, wp_modify. eapply Hend; [|done|by split]. rewrite E7. destruct Hp. split; upd_proj; done. }
    destruct (Z.eqb_spec (off - 0x200000) 4), (Z.eqb_spec off 0x200004); try lia.
    { apply wp_bind. eapply wp_mono; [apply complete_ok; [done|apply Hv]|]. intros [] p1 (Hp1 & V1).
      eapply Hend; [done..|by split]. }
    apply wp_ret. exists a. by split_and!.
  - destruct (Z.eqb_spec off 0x200000), (Z.eqb_spec off 0x200004); try lia. apply wp_ret. exists a. by split_and!.
Qed.


(** ** A cycle *)

Lemma rel_pending p a l x : plic_rel p a -> holds_set l x -> plic_rel (p <| pending := l |>) (a <| ic_pending := x |>).
Proof. intros [] H. split; upd_proj; done. Qed.

Lemma sample_loop_ok a ins : forall i p (x : gset Z), plic_rel p (a <| ic_pending := x |>) -> 0 <= i -> i + Z.of_nat (length ins) = 32 ->
  wp (sample_loop ins i) (fun _ p' => io_view p' = io_view p /\ exists x', plic_rel p' (a <| ic_pending := x' |>) /\
    forall s, s ∈ x' <-> s ∈ x \/ (s ∉ ic_claimed a) /\ i < s /\ ins !! Z.to_nat (s - 1 - i) = Some (Some true)) p.
Proof.
  induction ins as [|src ins IH]; intros i p x Hp Hi Hn.
  { apply wp_ret. split; [done|]. exists x. split; [done|]. intros s. split; [by left|]. by intros [?|(_ & _ & ?)]. }
  assert (forall p1 x1, plic_rel p1 (a <| ic_pending := x1 |>) -> io_view p1 = io_view p ->
    (forall s, s ∈ x1 <-> s ∈ x \/ (s ∉ ic_claimed a) /\ s = i + 1 /\ src = Some true) ->
    wp (sample_loop ins (i + 1)) (fun _ p' => io_view p' = io_view p /\ exists x', plic_rel p' (a <| ic_pending := x' |>) /\
      forall s, s ∈ x' <-> s ∈ x \/ (s ∉ ic_claimed a) /\ i < s /\ (src :: ins) !! Z.to_nat (s - 1 - i) = Some (Some true)) p1) as Hnext.
  { intros p1 x1 Hp1 V1 Hx1. simpl in Hn. eapply wp_mono; [apply (IH (i + 1) p1 x1 Hp1); lia|].
    intros [] p2 (V2 & x2 & Hp2 & Hx2). split; [congruence|]. exists x2. split; [done|]. intros s. rewrite Hx2, Hx1.
    destruct (decide (s = i + 1)) as [->|Hne].
    - replace (i + 1 - 1 - i) with 0 by lia. simpl. split; [intros [[?|(? & _ & ->)]|(_ & ? & _)]; [by left|right; split_and!; [done|lia|done]|lia]|].
      intros [?|(? & _ & [= ->])]; left; [by left|by right].
    - split.
      + intros [[?|(_ & ? & _)]|(? & ? & E)]; [by left|done|right]. split_and!; [done|lia|].
        replace (Z.to_nat (s - 1 - i)) with (S (Z.to_nat (s - 1 - (i + 1)))) by lia. done.
      + intros [?|(? & ? & E)]; [by left; left|right]. split_and!; [done|lia|].
        replace (Z.to_nat (s - 1 - i)) with (S (Z.to_nat (s - 1 - (i + 1)))) in E by lia. done. }
  simpl in Hn. cbn [sample_loop]. apply wp_bind. destruct src as [irq|].
  2:{ apply wp_ret. apply (Hnext p x); [done..|]. intros s. split; [by left|]. by intros [?|(_ & _ & ?)]. }
  apply wp_bind, wp_gets. unfold id. cbv zeta. destruct irq; cbn [andb].
  2:{ apply wp_bind, wp_ret, wp_ret. apply (Hnext p x); [done..|]. intros s. split; [by left|]. by intros [?|(_ & _ & ?)]. }
  apply wp_bind. rewrite (holds_get _ _ _ (pl_claimed _ _ Hp)) by lia. apply wp_ret. upd_proj.
  destruct (bool_decide_reflect (i + 1 ∈ ic_claimed a)) as [Hc|Hc]; cbn [negb when].
  - apply wp_ret. apply (Hnext p x); [done..|]. intros s. split; [by left|]. by intros [?|(? & -> & _)].
  - destruct (holds_set_bit _ _ (i + 1) true (pl_pending _ _ Hp) ltac:(lia)) as (l & E & Hl).
    apply wp_bind. rewrite E. apply wp_ret, wp_modify. eapply Hnext; [exact (rel_pending _ _ _ _ Hp Hl)|done|].
    intros s. rewrite elem_of_union, elem_of_singleton. upd_proj. split; [intros [?| ->]; [by left|by right]|].
    intros [?|(_ & -> & _)]; [by left|by right].
Qed.

Lemma sample_ok p a : plic_rel p a ->
  wp plic_sample_inputs (fun _ p' => io_view p' = io_view p /\ plic_rel p' (sample (div_ext_irq_ins p) a)) p.
Proof.
  intros Hp. unfold plic_sample_inputs. apply wp_bind, wp_gets. unfold id.
  assert (a <| ic_pending := ic_pending a |> = a) as Ea by (by destruct a).
  eapply wp_mono; [apply (sample_loop_ok a (div_ext_irq_ins p) 0 p (ic_pending a)); [by rewrite Ea|lia|rewrite (pl_ins _ _ Hp); done]|].
  intros [] p' (V & x & Hp' & Hx). split; [done|]. unfold sample. replace (ic_pending a ∪ _) with x; [done|].
  apply leibniz_equiv, set_equiv. intros s. rewrite Hx, elem_of_union, elem_of_difference. unfold raised.
  rewrite elem_of_list_to_set, list_elem_of_filter, elem_of_seqZ, Z.sub_0_r. split.
  - intros [?|(? & ? & E)]; [by left|right]. split_and!; [done|lia| |done].
    apply lookup_lt_Some in E. rewrite (pl_ins _ _ Hp) in E. lia.
  - intros [?|[[E ?] ?]]; [by left|right]. split_and!; [done|lia|done].
Qed.

(** What a cycle does: it serves the request at the bus, if any, and samples the inputs. *)
Definition irqc_cycle (p : plic_t) (a : irqc) (p' : plic_t) (a' : irqc) : Prop :=
  match ch_pkts (plic_req_slv p) with
  | [] => plic_rsp_mst p' = plic_rsp_mst p /\ a' = sample (div_ext_irq_ins p) a
  | req :: _ => exists rsp a1, irqc_access a req rsp a1 /\ plic_rsp_mst p' = chan_snoc (plic_rsp_mst p) rsp /\
      a' = sample (div_ext_irq_ins p) a1
  end.

(** A request that has a value of 32 bits, and room for its response. *)
Definition can_serve (p : plic_t) : Prop :=
  Forall (fun r => is_u32 (pwdata r)) (ch_pkts (plic_req_slv p)) /\
  (ch_pkts (plic_req_slv p) <> [] -> chan_wf (plic_rsp_mst p) /\ chan_full (plic_rsp_mst p) = false).

Lemma clock_ok p a : plic_rel p a -> can_serve p ->
  wp plic_clock (fun _ p' => exists a', irqc_cycle p a p' a' /\ plic_rel p' a' /\ line_ok p' a' /\
    ch_pkts (plic_req_slv p') = tail (ch_pkts (plic_req_slv p)) /\ div_ext_irq_ins p' = div_ext_irq_ins p) p.
Proof.
  intros Hp [Hv Hroom]. unfold plic_clock, irqc_cycle.
  assert (forall p1 a1, plic_rel p1 a1 -> div_ext_irq_ins p1 = div_ext_irq_ins p ->
    wp (plic_sample_inputs;; plic_update_irq) (fun _ p' => plic_rsp_mst p' = plic_rsp_mst p1 /\ plic_req_slv p' = plic_req_slv p1 /\
      div_ext_irq_ins p' = div_ext_irq_ins p /\ plic_rel p' (sample (div_ext_irq_ins p) a1) /\
      line_ok p' (sample (div_ext_irq_ins p) a1)) p1) as Hend.
  { intros p1 a1 Hp1 E1. apply wp_bind. eapply wp_mono; [by apply sample_ok|]. intros [] p2 [V2 Hp2]. rewrite E1 in Hp2.
    eapply wp_mono; [by apply update_irq_ok|]. intros [] p3 (Hp3 & V3 & L3). rewrite V2 in V3. unfold io_view in V3.
    injection V3 as V1 V4 V5. split_and!; [done..|congruence|done|done]. }
  apply wp_bind. unfold plic_apb_proc. apply wp_bind, wp_gets. unfold id.
  destruct (chan_empty (plic_req_slv p)) eqn:Ee.
  { apply chan_empty_spec in Ee. apply wp_ret. eapply wp_mono; [by apply (Hend p a)|].
    intros [] p' (R & Q & I & Hp' & L). exists (sample (div_ext_irq_ins p) a). rewrite Ee, Q, Ee. by split_and!. }
  apply chan_empty_false in Ee as (req & rest & Ee). rewrite Ee in Hv, Hroom |- *. apply Forall_cons in Hv as [Hv _].
  destruct (Hroom ltac:(done)) as [Hw Hf]. apply wp_bind. eapply wp_on_read; [done|]. cbv zeta.
  set (p1 := p <| plic_req_slv := _ |>). assert (plic_rel p1 a) as Hp1 by (destruct Hp; by split).
  assert (forall p2 rsp a1, plic_rel p2 a1 -> io_view p2 = io_view p1 -> irqc_access a req rsp a1 ->
    wp (on plic_rsp_mst (chan_write rsp)) (fun _ p' => wp (plic_sample_inputs;; plic_update_irq) (fun _ p' => exists a',
      (exists rsp a1, irqc_access a req rsp a1 /\ plic_rsp_mst p' = chan_snoc (plic_rsp_mst p) rsp /\
        a' = sample (div_ext_irq_ins p) a1) /\ plic_rel p' a' /\ line_ok p' a' /\ ch_pkts (plic_req_slv p') = rest /\
      div_ext_irq_ins p' = div_ext_irq_ins p) p') p2) as Hsend.
  { intros p2 rsp a1 Hp2 V2 Hacc. unfold io_view in V2. injection V2 as Q2 R2 I2.
    apply wp_on_write; [by rewrite R2|by rewrite R2|]. intros _.
    eapply wp_mono; [apply (Hend _ a1); [by destruct Hp2; split|done]|].
    intros [] p' (R & Q & I & Hp' & L). exists (sample (div_ext_irq_ins p) a1). split_and!; try done.
    - exists rsp, a1. split_and!; [done| |done]. rewrite R. upd_proj. by rewrite R2.
    - rewrite Q. upd_proj. by rewrite Q2. }
  destruct (pwrite req) eqn:Ewr.
  - apply wp_bind. eapply wp_mono; [apply (write_ok p1 a); [done|apply u32_range|done]|].
    intros ok p2 (a1 & Hacc & Hp2 & V2). eapply Hsend; [done..|]. unfold irqc_access. by rewrite Ewr.
  - apply wp_bind. eapply wp_mono; [apply (read_ok p1 a _ (pwdata req)); [done|apply u32_range]|].
    intros [v ok] p2 (a1 & Hacc & Hp2 & V2). eapply Hsend; [done..|]. unfold irqc_access. by rewrite Ewr.
Qed.

(** ** Runs *)

Definition inner_view (p : plic_t) := (priority p, pending p, claimed p, enable p, threshold p, conv_ext_irq_out p).

(** The clock runs when it can answer the request it finds; requests, responses and the inputs
    change at will in between. *)
Inductive plic_step : plic_t -> plic_t -> Prop :=
| PlicClock p p' : can_serve p -> plic_clock p = Some (tt, p') -> plic_step p p'
| PlicOthers p p' : inner_view p' = inner_view p -> length (div_ext_irq_ins p') = 32%nat -> plic_step p p'.

Definition plic_reachable (p : plic_t) : Prop := exists p0 p1,
  length (div_ext_irq_ins p0) = 32%nat /\ plic_reset p0 = Some (tt, p1) /\ rtc plic_step p1 p.

(** What holds in every run: the line to the hart is up exactly when an interrupt can be taken,
    and what is claimed is not pending. *)
Definition irqc_ok (p : plic_t) (a : irqc) : Prop := plic_rel p a /\ line_ok p a /\ ic_pending a ## ic_claimed a.

Lemma sample_disjoint ins a : ic_pending a ## ic_claimed a -> ic_pending (sample ins a) ## ic_claimed (sample ins a).
Proof. unfold sample. upd_proj. generalize (raised ins). clear. set_solver. Qed.

Lemma access_disjoint a req rsp a' : irqc_access a req rsp a' -> ic_pending a ## ic_claimed a -> ic_pending a' ## ic_claimed a'.
Proof.
  unfold irqc_access, irqc_reg_access. intros Ha Hd.
  destruct (reg_of _) as [[]|], (pwrite req); try (destruct Ha as [_ ->]; done); try (destruct Ha as (_ & _ & ->); done).
  - destruct Ha as [_ ->]. by destruct (_ =? 0).
  - destruct Ha as [_ ->]. upd_proj. clear -Hd. set_solver.
  - destruct Ha as (s & _ & _ & ->). unfold claim. destruct (s =? 0); [done|]. upd_proj. clear -Hd. set_solver.
Qed.

Lemma cycle_disjoint p a p' a' : irqc_cycle p a p' a' -> ic_pending a ## ic_claimed a -> ic_pending a' ## ic_claimed a'.
Proof.
  unfold irqc_cycle. destruct (ch_pkts (plic_req_slv p)).
  - intros [_ ->]. apply sample_disjoint.
  - intros (rsp & a1 & Ha & _ & ->) Hd. by eapply sample_disjoint, access_disjoint.
Qed.

Lemma step_irqc_ok p p' : plic_step p p' -> (exists a, irqc_ok p a) -> exists a, irqc_ok p' a.
Proof.
  intros Hs (a & Hp & Hl & Hd). destruct Hs as [p p' Hc E|p p' Ev Hn].
  - pose proof (clock_ok p a Hp Hc) as H. unfold wp in H. rewrite E in H. destruct H as (a' & Hcy & Hp' & Hl' & _).
    exists a'. split_and!; [done..|by eapply cycle_disjoint].
  - exists a. unfold inner_view in Ev. injection Ev as E1 E2 E3 E4 E5 E6.
    split_and!; [|by unfold line_ok; rewrite E6|done]. destruct Hp. split; by rewrite ?E1, ?E2, ?E3, ?E4, ?E5.
Qed.

Lemma zero_words_hold : holds_set [0; 0] ∅.
Proof.
  split; [|split]; [split; [done|by repeat constructor]| |by intros s ?%elem_of_empty].
  intros s Hs. rewrite bool_decide_false by (intros ?%elem_of_empty; done). unfold bit_at.
  destruct (source_word s Hs) as (_ & Hn & _). destruct (Z.to_nat (s / 32)) as [|[|]]; [cbn; apply Z.testbit_0_l..|lia].
Qed.

Lemma reachable_irqc_ok p : plic_reachable p -> exists a, irqc_ok p a.
Proof.
  intros (p0 & p1 & Hn & Hr & Hrun).
  assert (exists a, irqc_ok p1 a) as H1.
  { exists irqc_start. injection Hr as <-. split_and!.
    - split; upd_proj; try done; [|apply zero_words_hold..].
      intros s Hs. rewrite aget_lookup by lia.
      change (replicate 33 0 !! Z.to_nat s = Some 0). apply lookup_replicate_2. lia.
    - split; [done|]. intros [s (H1 & _)]. by apply (not_elem_of_empty (C := gset Z) s) in H1.
    - apply disjoint_empty_l. }
  clear Hn Hr. induction Hrun as [p|p p2 p3 Hs _ IH]; [done|]. by apply IH, (step_irqc_ok p).
Qed.

(** ** Theorems *)

(** C17: In every run of the interrupt controller from reset its registers hold an abstract controller
    whose line to the hart is up exactly when some pending, enabled and unclaimed interrupt lies
    above the threshold and in which no claimed interrupt is pending; and every cycle is a cycle of
    it: the request on the bus is served, a claim returns the most urgent interrupt, the first among
    equals, which then is claimed and not pending, a completion releases it, and afterwards every
    high input that is not claimed is pending. *)
Theorem plic_clock_refines p : plic_reachable p -> can_serve p ->
  exists a, irqc_ok p a /\ exists p' a', plic_clock p = Some (tt, p') /\ irqc_cycle p a p' a' /\ irqc_ok p' a'.
Proof.
  intros (a & Hp & Hl & Hd)%reachable_irqc_ok Hc. exists a. split; [done|].
  destruct (wp_elim _ _ _ (clock_ok p a Hp Hc)) as ([] & p' & E & a' & Hcy & Hp' & Hl' & _).
  exists p', a'. split; [done|]. split; [done|]. split_and!; [done..|by eapply cycle_disjoint].
Qed.

(** C38: The last interrupt source is never served: the code clears bit 0 of every word of the enable
    registers, which is the reserved source 0 in the first word and source 32 in the second.  In
    every run, whatever software writes and whatever the input of source 32 does, its enable bit
    is clear, and a read of the claim register returns another number. *)
Theorem plic_source_32_never_served p : plic_reachable p ->
  (exists w0 w1, enable p = [w0; w1] /\ Z.testbit w1 0 = false) /\
  forall req rest, can_serve p ->
    ch_pkts (plic_req_slv p) = req :: rest -> pwrite req = false -> u32 (paddr req - PLIC_BASE) = 0x200004 ->
    exists p' s, plic_clock p = Some (tt, p') /\ plic_rsp_mst p' = chan_snoc (plic_rsp_mst p) (ApbRsp s false) /\ s <> 32.
Proof.
  intros (a & Hp & Hl & Hd)%reachable_irqc_ok. split.
  - destruct (pl_enabled _ _ Hp) as ([Hlen _] & Hb & _). specialize (Hb 32 ltac:(lia)).
    rewrite bool_decide_false in Hb by (intros He; by apply (pl_usable _ _ Hp) in He).
    destruct (enable p) as [|w0 [|w1 [|]]]; [done..| |done]. by exists w0, w1.
  - intros req rest Hc Er Ew Ea. destruct (wp_elim _ _ _ (clock_ok p a Hp Hc)) as ([] & p' & E & a' & Hcy & _).
    unfold irqc_cycle in Hcy. rewrite Er in Hcy. destruct Hcy as (rsp & a1 & Hacc & R & _).
    unfold irqc_access, irqc_reg_access in Hacc. rewrite Ea, Ew in Hacc. destruct Hacc as (s & Hb & -> & _).
    exists p', s. split_and!; [done..|]. intros ->. destruct Hb as [[? _]|[(_ & _ & He & _) _]]; [done|].
    by apply (pl_usable _ _ Hp) in He.
Qed.

(** ** Witnesses *)

(** Input 4 is high, and the hart asks for the interrupt after enabling it. *)
Definition plic_example0 : plic_t :=
  Plic (Chan 1 []) (Chan 1 []) (replicate 4 (Some false) ++ [Some true] ++ replicate 27 None) false [] [] [] [] 0.

Definition plic_request (req : apb_req_if_t) (p : plic_t) : plic_t :=
  p <| plic_req_slv := Chan 1 [req] |> <| plic_rsp_mst := Chan 1 [] |>.
Definition plic_do (m : M plic_t unit) (p : plic_t) : plic_t := default p (snd <$> m p).

Definition plic_w1 : plic_t := plic_do plic_reset plic_example0.
Definition plic_w2 : plic_t := plic_request (ApbReq (PLIC_BASE + 0x14) true 3 15) plic_w1.
Definition plic_w3 : plic_t := plic_do plic_clock plic_w2.
Definition plic_w4 : plic_t := plic_request (ApbReq (PLIC_BASE + 0x2000) true 0x20 15) plic_w3.
Definition plic_w5 : plic_t := plic_do plic_clock plic_w4.
Definition plic_w6 : plic_t := plic_request (ApbReq (PLIC_BASE + 0x200004) false 0 15) plic_w5.

Lemma plic_requests_serve req p : is_u32 (pwdata req) -> can_serve (plic_request req p).
Proof. intros H. split; [by constructor|]. intros _. by split. Qed.

Lemma plic_w6_reachable : plic_reachable plic_w6.
Proof.
  exists plic_example0, plic_w1. split; [done|]. split; [vm_compute; reflexivity|].
  eapply rtc_l; [apply (PlicOthers _ plic_w2); vm_compute; reflexivity|].
  eapply rtc_l; [apply (PlicClock _ plic_w3); [by apply plic_requests_serve|vm_compute; reflexivity]|].
  eapply rtc_l; [apply (PlicOthers _ plic_w4); vm_compute; reflexivity|].
  eapply rtc_l; [apply (PlicClock _ plic_w5); [by apply plic_requests_serve|vm_compute; reflexivity]|].
  apply rtc_once. apply (PlicOthers _ plic_w6); vm_compute; reflexivity.
Qed.

Lemma plic_clock_refines_witness :
  plic_reachable plic_w6 /\ conv_ext_irq_out plic_w6 = true /\
  exists p' a', plic_clock plic_w6 = Some (tt, p') /\ irqc_ok p' a' /\
    ch_pkts (plic_rsp_mst p') = [ApbRsp 5 false] /\ conv_ext_irq_out p' = false.
Proof.
  split; [apply plic_w6_reachable|]. split; [vm_compute; reflexivity|].
  destruct (plic_clock_refines plic_w6 plic_w6_reachable ltac:(by apply plic_requests_serve))
    as (a & _ & p' & a' & E & _ & Ha').
  exists p', a'. split; [exact E|]. split; [exact Ha'|].
  assert (exists w, plic_clock plic_w6 = Some (tt, w) /\ ch_pkts (plic_rsp_mst w) = [ApbRsp 5 false] /\
    conv_ext_irq_out w = false) as (w & Ew & Hw) by (eexists; split_and!; vm_compute; reflexivity).
  rewrite Ew in E. injection E as <-. exact Hw.
Defined.

(** Software has written ones to the whole second word of the enable bits. *)
Definition plic_w7 : plic_t := plic_request (ApbReq (PLIC_BASE + 0x2004) true 0xffffffff 15) plic_w5.
Definition plic_w8 : plic_t := plic_do plic_clock plic_w7.
Definition plic_w9 : plic_t := plic_request (ApbReq (PLIC_BASE + 0x200004) false 0 15) plic_w8.

Lemma plic_w9_reachable : plic_reachable plic_w9.
Proof.
  exists plic_example0, plic_w1. split; [done|]. split; [vm_compute; reflexivity|].
  eapply rtc_l; [apply (PlicOthers _ plic_w2); vm_compute; reflexivity|].
  eapply rtc_l; [apply (PlicClock _ plic_w3); [by apply plic_requests_serve|vm_compute; reflexivity]|].
  eapply rtc_l; [apply (PlicOthers _ plic_w4); vm_compute; reflexivity|].
  eapply rtc_l; [apply (PlicClock _ plic_w5); [by apply plic_requests_serve|vm_compute; reflexivity]|].
  eapply rtc_l; [apply (PlicOthers _ plic_w7); vm_compute; reflexivity|].
  eapply rtc_l; [apply (PlicClock _ plic_w8); [by apply plic_requests_serve|vm_compute; reflexivity]|].
  apply rtc_once. apply (PlicOthers _ plic_w9); vm_compute; reflexivity.
Qed.

Lemma plic_source_32_never_served_witness :
  plic_reachable plic_w9 /\ (exists w0 w1, enable plic_w9 = [w0; w1] /\ Z.testbit w1 0 = false) /\
  exists p' s, plic_clock plic_w9 = Some (tt, p') /\
    plic_rsp_mst p' = chan_snoc (plic_rsp_mst plic_w9) (ApbRsp s false) /\ s <> 32.
Proof.
  split; [apply plic_w9_reachable|].
  destruct (plic_source_32_never_served plic_w9 plic_w9_reachable) as [He Hc]. split; [exact He|].
  exact (Hc (ApbReq (PLIC_BASE + 0x200004) false 0 15) [] ltac:(by apply plic_requests_serve) eq_refl eq_refl eq_refl).
Defined.
