(* ===== verification/Aclint.v ===== *)
(** * The core-local interruptor

    [core/aclint.c]: the machine timer with one comparator per hart, and the software interrupt
    registers, on the configuration bus. *)

From stdpp Require Import base numbers list.
From Stdlib Require Import ZArith Lia.
From S2P Require Import Prelude Fifo Apb Ifu.

Definition HART_NUM : Z := 1.

Definition MTIME : Z := 0.
Definition MTIMEH : Z := 4.
Definition MTIMECMP (hart_id : Z) : Z := u32 (hart_id * 8 + 0).
Definition MTIMECMPH (hart_id : Z) : Z := u32 (hart_id * 8 + 4).
Definition MSIP (hart_id : Z) : Z := u32 (hart_id * 4).
Definition SETSSIP (hart_id : Z) : Z := u32 (hart_id * 4).

Record core_m_irq_if_t := CoreMIrq { mi_mtimer : bool; mi_msw : bool }.
#[export] Instance eta_core_m_irq : Eta core_m_irq_if_t := fun i => CoreMIrq (mi_mtimer i) (mi_msw i).

Record aclint_conf_t := AclintConf {
  mtimer_base : Z; mtimer_size : Z; mtimecmp_base : Z; mtimecmp_size : Z; mswi_base : Z; mswi_size : Z;
  sswi_base : Z; sswi_size : Z; mtimer_tick_cycles : Z }.

(** The 64-bit registers are their [raw] value; [core_timer_out], [core_m_irq_outs] and
    [core_swi_pend_ins] are signals. *)
Record aclint_t := Aclint {
  ac_req_slv : chan apb_req_if_t;
  ac_rsp_mst : chan apb_rsp_if_t;
  core_timer_out : Z;
  core_m_irq_outs : list core_m_irq_if_t;
  core_s_irq_msts : list (chan bool);
  core_swi_pend_ins : list bool;
  ac_conf : aclint_conf_t;
  mtime_cycle_cnt : Z;
  mtime : Z;
  mtimecmp : list Z;
  mtime_exceed_old : list bool
}.
#[export] Instance eta_aclint : Eta aclint_t := fun a =>
  Aclint (ac_req_slv a) (ac_rsp_mst a) (core_timer_out a) (core_m_irq_outs a) (core_s_irq_msts a)
    (core_swi_pend_ins a) (ac_conf a) (mtime_cycle_cnt a) (mtime a) (mtimecmp a) (mtime_exceed_old a).

(** The halves of [aclint_reg64_t]. *)
Definition reg64_lo (raw : Z) : Z := raw mod W32.
Definition reg64_hi (raw : Z) : Z := raw / W32.
Definition reg64 (lo hi : Z) : Z := hi * W32 + lo.

(** ** Signals *)

Definition aclint_write_core_timer (time : Z) : M aclint_t unit :=
  modify (fun a => a <| core_timer_out := time |>).

Definition aclint_read_core_m_irq (hart_id : Z) : M aclint_t core_m_irq_if_t :=
  DBG_CHECK (hart_id <? HART_NUM);;
  a ← gets id;
  of_option (aget (core_m_irq_outs a) hart_id).

Definition aclint_write_core_m_irq (hart_id : Z) (irq : core_m_irq_if_t) : M aclint_t unit :=
  DBG_CHECK (hart_id <? HART_NUM);;
  a ← gets id;
  l ← of_option (aset (core_m_irq_outs a) hart_id irq);
  modify (fun a => a <| core_m_irq_outs := l |>).

Definition aclint_read_core_swi_pend (hart_id : Z) : M aclint_t bool :=
  DBG_CHECK (hart_id <? HART_NUM);;
  a ← gets id;
  of_option (aget (core_swi_pend_ins a) hart_id).

(** ** Reset and timer *)

(** [n] harts left, from [i] on. *)
Fixpoint reset_loop (n : nat) (i : Z) : M aclint_t unit :=
  match n with
  | O => mret tt
  | S n =>
    a ← gets id;
    l ← of_option (aset (mtimecmp a) i 0xffffffffffffffff);
    modify (fun a => a <| mtimecmp := l |>);;
    l ← of_option (aset (mtime_exceed_old a) i false);
    modify (fun a => a <| mtime_exceed_old := l |>);;
    aclint_write_core_m_irq i (CoreMIrq false false);;
    reset_loop n (i + 1)
  end.

Definition aclint_reset : M aclint_t unit :=
  modify (fun a => a <| mtime := 0 |> <| mtime_cycle_cnt := 0 |>);;
  aclint_write_core_timer 0;;
  reset_loop (Z.to_nat HART_NUM) 0.

Definition timer_proc : M aclint_t unit :=
  modify (fun a => a <| mtime_cycle_cnt := u32 (mtime_cycle_cnt a + 1) |>);;
  a ← gets id;
  when (mtime_cycle_cnt a =? mtimer_tick_cycles (ac_conf a))
    (modify (fun a => a <| mtime_cycle_cnt := 0 |> <| mtime := u64 (mtime a + 1) |>);;
     a ← gets id;
     aclint_write_core_timer (mtime a)).

(** ** Registers *)

Fixpoint write_mask_loop (n : nat) (i mask strb : Z) : Z :=
  match n with
  | O => mask
  | S n => write_mask_loop n (i + 1)
      (if negb (Z.land strb (u32 (Z.shiftl 1 i)) =? 0) then Z.lor mask (u32 (Z.shiftl 0xff (i * 8))) else mask) strb
  end.

Definition gen_write_mask (strb : Z) : Z := write_mask_loop 4 0 0 strb.

(** The register and the value afterwards. *)
Definition reg32_rw (reg val : Z) (write : bool) (strb : Z) : Z * Z :=
  if write then
    let mask := gen_write_mask strb in
    (Z.lor (Z.land reg (not32 mask)) (Z.land val mask), val)
  else (reg, reg).

(** The functions below return the success and the value afterwards. *)

Definition mtime_reg_rw (addr val : Z) (write : bool) (strb : Z) : M aclint_t (bool * Z) :=
  a ← gets id;
  if addr =? MTIME then
    let '(lo, val) := reg32_rw (reg64_lo (mtime a)) val write strb in
    modify (fun a => a <| mtime := reg64 lo (reg64_hi (mtime a)) |>);;
    mret (true, val)
  else if addr =? MTIMEH then
    let '(hi, val) := reg32_rw (reg64_hi (mtime a)) val write strb in
    modify (fun a => a <| mtime := reg64 (reg64_lo (mtime a)) hi |>);;
    mret (true, val)
  else mret (false, val).

Fixpoint mtimecmp_loop (n : nat) (i addr val : Z) (write : bool) (strb : Z) : M aclint_t (bool * Z) :=
  match n with
  | O => mret (false, val)
  | S n =>
    a ← gets id;
    if addr =? MTIMECMP i then
      cmp ← of_option (aget (mtimecmp a) i);
      let '(lo, val) := reg32_rw (reg64_lo cmp) val write strb in
      l ← of_option (aset (mtimecmp a) i (reg64 lo (reg64_hi cmp)));
      modify (fun a => a <| mtimecmp := l |>);;
      mret (true, val)
    else if addr =? MTIMECMPH i then
      cmp ← of_option (aget (mtimecmp a) i);
      let '(hi, val) := reg32_rw (reg64_hi cmp) val write strb in
      l ← of_option (aset (mtimecmp a) i (reg64 (reg64_lo cmp) hi));
      modify (fun a => a <| mtimecmp := l |>);;
      mret (true, val)
    else mtimecmp_loop n (i + 1) addr val write strb
  end.

Definition mtimecmp_reg_rw : Z -> Z -> bool -> Z -> M aclint_t (bool * Z) :=
  mtimecmp_loop (Z.to_nat HART_NUM) 0.

Fixpoint mswi_loop (n : nat) (i addr val : Z) (write : bool) (strb : Z) : M aclint_t (bool * Z) :=
  match n with
  | O => mret (false, val)
  | S n =>
    if negb (addr =? MSIP i) then mswi_loop n (i + 1) addr val write strb
    else if write && negb (Z.land strb 1 =? 0) then
      irq ← aclint_read_core_m_irq i;
      aclint_write_core_m_irq i (irq <| mi_msw := negb (Z.land val 1 =? 0) |>);;
      mret (true, val)
    else if negb write then
      pend ← aclint_read_core_swi_pend i;
      mret (true, if pend : bool then 1 else 0)
    else mswi_loop n (i + 1) addr val write strb
  end.

Definition mswi_reg_rw : Z -> Z -> bool -> Z -> M aclint_t (bool * Z) := mswi_loop (Z.to_nat HART_NUM) 0.

Fixpoint sswi_loop (n : nat) (i addr val : Z) (write : bool) (strb : Z) : M aclint_t (bool * Z) :=
  match n with
  | O => mret (false, val)
  | S n =>
    if (addr =? SETSSIP i) && write && negb (Z.land strb 1 =? 0) && negb (Z.land val 1 =? 0) then
      a ← gets id;
      c ← of_option (aget (core_s_irq_msts a) i);
      DBG_CHECK (negb (chan_full c));;
      '(_, c) ← of_option (chan_write true c);
      l ← of_option (aset (core_s_irq_msts a) i c);
      modify (fun a => a <| core_s_irq_msts := l |>);;
      mret (true, val)
    else sswi_loop n (i + 1) addr val write strb
  end.

Definition sswi_reg_rw : Z -> Z -> bool -> Z -> M aclint_t (bool * Z) := sswi_loop (Z.to_nat HART_NUM) 0.

Definition aclint_reg_rw (addr val : Z) (write : bool) (strb : Z) : M aclint_t (bool * Z) :=
  a ← gets id;
  let c := ac_conf a in
  if ADDR_IN addr (mtimer_base c) (mtimer_size c) then mtime_reg_rw (u32 (addr - mtimer_base c)) val write strb
  else if ADDR_IN addr (mtimecmp_base c) (mtimecmp_size c) then mtimecmp_reg_rw (u32 (addr - mtimecmp_base c)) val write strb
  else if ADDR_IN addr (mswi_base c) (mswi_size c) then mswi_reg_rw (u32 (addr - mswi_base c)) val write strb
  else if ADDR_IN addr (sswi_base c) (sswi_size c) then sswi_reg_rw (u32 (addr - sswi_base c)) val write strb
  else mret (false, val).

(** [junk] is the content of [rsp.prdata], which is not initialised. *)
Definition apb_cfg_proc (junk : Z) : M aclint_t unit :=
  a ← gets id;
  if chan_empty (ac_req_slv a) then mret tt
  else if chan_full (ac_rsp_mst a) then mret tt
  else
    req ← on ac_req_slv chan_read;
    '(ok, val) ← aclint_reg_rw (paddr req) (if pwrite req then pwdata req else junk) (pwrite req) (pstrb req);
    on ac_rsp_mst (chan_write (ApbRsp (if pwrite req then junk else val) (negb ok))).

(** ** Interrupts and clock *)

Definition raise_or_clear_mtimer_irq (hart_id : Z) : M aclint_t unit :=
  DBG_CHECK (hart_id <? HART_NUM);;
  a ← gets id;
  cmp ← of_option (aget (mtimecmp a) hart_id);
  old ← of_option (aget (mtime_exceed_old a) hart_id);
  let m_exceed := cmp <=? mtime a in
  when (negb (eqb m_exceed old))
    (irq ← aclint_read_core_m_irq hart_id;
     aclint_write_core_m_irq hart_id (irq <| mi_mtimer := m_exceed |>);;
     l ← of_option (aset (mtime_exceed_old a) hart_id m_exceed);
     modify (fun a => a <| mtime_exceed_old := l |>)).

Fixpoint core_irq_loop (n : nat) (i : Z) : M aclint_t unit :=
  match n with
  | O => mret tt
  | S n => raise_or_clear_mtimer_irq i;; core_irq_loop n (i + 1)
  end.

Definition core_irq_proc : M aclint_t unit := core_irq_loop (Z.to_nat HART_NUM) 0.

Definition aclint_clock (junk : Z) : M aclint_t unit :=
  timer_proc;;
  apb_cfg_proc junk;;
  core_irq_proc.
