(* ===== verification/AclintSpec.v ===== *)
(** * The core-local interruptor in use

    What a cycle of the interruptor does to the time, the comparator, the software interrupts and
    the lines to the hart, and when the timer interrupt fires. *)

From stdpp Require Import base numbers list relations.
From Stdlib Require Import ZArith Lia.
From S2P Require Import Prelude Fifo Apb Ifu Aclint.

(** ** Specification *)

(** The bytes of [v] that [strb] selects over those of [old]. *)
Definition byte_of (x i : Z) : Z := bits x (8 * i) 8.
Definition merge (old v strb : Z) : Z :=
  let pick i := byte_of (if Z.testbit strb i then v else old) i in
  pick 0 + 256 * (pick 1 + 256 * (pick 2 + 256 * pick 3)).

Inductive aclint_reg := RegTime (high : bool) | RegCmp (high : bool) | RegMsip | RegSetssip.

Definition half_of (off : Z) : option bool := if off =? 0 then Some false else if off =? 4 then Some true else None.
Definition within (addr base size : Z) : bool := (base <=? addr) && (addr <? base + size).

Definition aclint_reg_of (c : aclint_conf_t) (addr : Z) : option aclint_reg :=
  if within addr (mtimer_base c) (mtimer_size c) then RegTime <$> half_of (addr - mtimer_base c)
  else if within addr (mtimecmp_base c) (mtimecmp_size c) then RegCmp <$> half_of (addr - mtimecmp_base c)
  else if within addr (mswi_base c) (mswi_size c) then if addr =? mswi_base c then Some RegMsip else None
  else if within addr (sswi_base c) (sswi_size c) then if addr =? sswi_base c then Some RegSetssip else None
  else None.

(** What software sees and sets: the time, the comparator, the software interrupt line, and
    whether a supervisor software interrupt is sent in this cycle. *)
Record clint := Clint { cl_time : Z; cl_cmp : Z; cl_msw : bool; cl_ssw : bool }.
#[export] Instance eta_clint : Eta clint := fun c => Clint (cl_time c) (cl_cmp c) (cl_msw c) (cl_ssw c).

Definition read_half (x : Z) (high : bool) : Z := if high then x / W32 else x mod W32.
Definition write_half (x : Z) (high : bool) (v strb : Z) : Z :=
  if high then merge (x / W32) v strb * W32 + x mod W32 else x / W32 * W32 + merge (x mod W32) v strb.

(** The access to a register: the state afterwards and, on success, what a read returns; [msip]
    is the pending bit of the hart. *)
Definition clint_access (msip : bool) (c : clint) (reg : option aclint_reg) (write : bool) (v strb : Z) : clint * option Z :=
  match reg with
  | Some (RegTime h) => if write then (c <| cl_time := write_half (cl_time c) h v strb |>, Some 0)
                        else (c, Some (read_half (cl_time c) h))
  | Some (RegCmp h) => if write then (c <| cl_cmp := write_half (cl_cmp c) h v strb |>, Some 0)
                       else (c, Some (read_half (cl_cmp c) h))
  | Some RegMsip => if write
                    then if Z.testbit strb 0 then (c <| cl_msw := Z.testbit v 0 |>, Some 0) else (c, None)
                    else (c, Some (b2z msip))
  | Some RegSetssip => if write && Z.testbit strb 0 && Z.testbit v 0
                       then (c <| cl_ssw := true |>, Some 0) else (c, None)
  | None => (c, None)
  end.

(** ** Words *)

Lemma clint_merge_u32 old v strb : is_u32 (merge old v strb).
Proof.
  unfold merge, byte_of. cbv zeta. unfold is_u32, W32.
  pose proof (fun x i => bits_range x (8 * i) 8). assert (forall x i, 0 <= i -> 0 <= bits x (8 * i) 8 < 256) as Hb by (intros; apply H; lia).
  pose proof (Hb (if Z.testbit strb 0 then v else old) 0 ltac:(lia)). pose proof (Hb (if Z.testbit strb 1 then v else old) 1 ltac:(lia)).
  pose proof (Hb (if Z.testbit strb 2 then v else old) 2 ltac:(lia)). pose proof (Hb (if Z.testbit strb 3 then v else old) 3 ltac:(lia)).
  lia.
Qed.

(** The bytes of a merged word. *)
Lemma merge_byte old v strb i : 0 <= i < 4 -> byte_of (merge old v strb) i = byte_of (if Z.testbit strb i then v else old) i.
Proof.
  intros Hi. unfold merge, byte_of. cbv zeta.
  assert (forall x j, 0 <= j -> 0 <= bits x (8 * j) 8 < 256) as Hb by (intros; apply (bits_range _ _ 8); lia).
  set (p := fun j => bits (if Z.testbit strb j then v else old) (8 * j) 8).
  change (bits (p 0 + 256 * (p 1 + 256 * (p 2 + 256 * p 3))) (8 * i) 8 = p i).
  pose proof (Hb (if Z.testbit strb 0 then v else old) 0 ltac:(lia)). pose proof (Hb (if Z.testbit strb 1 then v else old) 1 ltac:(lia)).
  pose proof (Hb (if Z.testbit strb 2 then v else old) 2 ltac:(lia)). pose proof (Hb (if Z.testbit strb 3 then v else old) 3 ltac:(lia)).
  fold (p 0) in H. fold (p 1) in H0. fold (p 2) in H1. fold (p 3) in H2. clearbody p.
  rewrite bits_div_mod by lia. assert (i = 0 \/ i = 1 \/ i = 2 \/ i = 3) as [->|[->|[->| ->]]] by lia.
  - change (2 ^ (8 * 0)) with 1. change (2 ^ 8) with 256. zdiv.
  - change (2 ^ (8 * 1)) with 256. change (2 ^ 8) with 256. zdiv.
  - change (2 ^ (8 * 2)) with 65536. change (2 ^ 8) with 256. zdiv.
  - change (2 ^ (8 * 3)) with 16777216. change (2 ^ 8) with 256. zdiv.
Qed.

Lemma testbit_by_byte x i : 0 <= i -> Z.testbit x i = Z.testbit (byte_of x (i / 8)) (i mod 8).
Proof.
  intros Hi. unfold byte_of. pose proof (Z.mod_pos_bound i 8 ltac:(lia)). assert (0 <= i / 8) by zdiv.
  rewrite testbit_bits by lia. rewrite (proj2 (Z.ltb_lt (i mod 8) 8)), andb_true_r by lia.
  f_equal. rewrite (Z.div_mod i 8) at 1 by lia. lia.
Qed.

(** The mask of the code selects the bytes of the strobe. *)
Lemma write_mask_step strb mask k i : 0 <= k < 4 -> 0 <= i < 32 ->
  Z.testbit (if negb (Z.land strb (u32 (Z.shiftl 1 k)) =? 0) then Z.lor mask (u32 (Z.shiftl 0xff (k * 8))) else mask) i =
  Z.testbit mask i || (i / 8 =? k) && Z.testbit strb k.
Proof.
  intros Hk Hi. assert (k = 0 \/ k = 1 \/ k = 2 \/ k = 3) as Hcases by lia.
  assert (u32 (Z.shiftl 1 k) = Z.shiftl 1 k) as -> by (destruct Hcases as [->|[->|[->| ->]]]; reflexivity).
  fold (nz (Z.land strb (Z.shiftl 1 k))). rewrite nz_testbit by lia.
  destruct (Z.testbit strb k); [|by rewrite andb_false_r, orb_false_r]. rewrite Z.lor_spec, andb_true_r. f_equal.
  rewrite testbit_u32, testbit_shiftl by lia. rewrite (proj2 (Z.ltb_lt i 32)), andb_true_r by lia.
  change 0xff with (Z.ones 8). destruct (Z.leb_spec (k * 8) i).
  - rewrite testbit_ones by lia. cbn [andb]. destruct (Z.ltb_spec (i - k * 8) 8), (Z.eqb_spec (i / 8) k); try done; zdiv.
  - symmetry. apply Z.eqb_neq. zdiv.
Qed.

Lemma write_mask_bit strb i : 0 <= i < 32 -> Z.testbit (gen_write_mask strb) i = Z.testbit strb (i / 8).
Proof.
  intros Hi. unfold gen_write_mask. cbn [write_mask_loop].
  change (0 + 1 + 1 + 1) with 3. change (0 + 1 + 1) with 2. change (0 + 1) with 1.
  rewrite !write_mask_step by lia. rewrite Z.testbit_0_l. cbn [orb].
  assert (i / 8 = 0 \/ i / 8 = 1 \/ i / 8 = 2 \/ i / 8 = 3) as [->|[->|[->| ->]]] by zdiv; simpl;
    by rewrite ?orb_false_r.
Qed.

Lemma reg32_merge old v strb : is_u32 old -> is_u32 v -> reg32_rw old v true strb = (merge old v strb, v).
Proof.
  intros Ho Hv. unfold reg32_rw. f_equal. apply Z.bits_inj'. intros i Hi.
  destruct (decide (i < 32)) as [Hlt|Hge].
  - rewrite (testbit_by_byte (merge _ _ _)), merge_byte by zdiv.
    rewrite Z.lor_spec, !Z.land_spec, testbit_not32, write_mask_bit by lia.
    destruct (Z.testbit strb (i / 8)); rewrite <- testbit_by_byte by lia; simpl.
    + by rewrite andb_false_r, andb_true_r.
    + by rewrite andb_true_r, andb_false_r, orb_false_r.
  - rewrite !testbit_high; [done| |lia| |lia]; [apply clint_merge_u32|].
    apply is_u32_lor; [by apply is_u32_land_l|by apply is_u32_land_l].
Qed.

(** ** The relation *)

Definition region_ok (base size : Z) : Prop := 0 <= base /\ 0 <= size /\ base + size < W32.

Definition conf_ok (c : aclint_conf_t) : Prop :=
  region_ok (mtimer_base c) (mtimer_size c) /\ region_ok (mtimecmp_base c) (mtimecmp_size c) /\
  region_ok (mswi_base c) (mswi_size c) /\ region_ok (sswi_base c) (sswi_size c).

(** [old] is the state of the timer line, [sq] the queue of supervisor software interrupts. *)
Record aclint_rel (a : aclint_t) (c : clint) (old msip : bool) (sq : chan bool) : Prop := {
  ar_irq : core_m_irq_outs a = [CoreMIrq old (cl_msw c)];
  ar_old : mtime_exceed_old a = [old];
  ar_cmp : mtimecmp a = [cl_cmp c];
  ar_time : mtime a = cl_time c;
  ar_range : is_u64 (cl_time c) /\ is_u64 (cl_cmp c);
  ar_sq : core_s_irq_msts a = [sq];
  ar_wf : chan_wf sq /\ chan_wf (ac_rsp_mst a);
  ar_pend : core_swi_pend_ins a = [msip];
  ar_conf : conf_ok (ac_conf a)
}.

(** What the clock leaves alone but the registers. *)
Definition bus_view (a : aclint_t) := (ac_req_slv a, ac_rsp_mst a, ac_conf a, mtime_cycle_cnt a, core_timer_out a).

Lemma half_range x : is_u64 x -> is_u32 (x mod W32) /\ is_u32 (x / W32).
Proof. unfold is_u64, is_u32, W64, W32. intros. split; zdiv. Qed.

Lemma reg64_range lo hi : is_u32 lo -> is_u32 hi -> is_u64 (hi * W32 + lo).
Proof. unfold is_u64, is_u32, W64, W32. intros. lia. Qed.

(** Access to a 64-bit register through one of its halves. *)
Lemma half_access x (h : bool) v strb (write : bool) : is_u64 x -> is_u32 v ->
  let '(r, v') := reg32_rw (if h then reg64_hi x else reg64_lo x) v write strb in
  (if h : bool then reg64 (reg64_lo x) r else reg64 r (reg64_hi x)) = (if write then write_half x h v strb else x) /\
  (write = false -> v' = read_half x h) /\ is_u64 (if write then write_half x h v strb else x).
Proof.
  intros Hx Hv. destruct (half_range x Hx) as [Hl Hh]. unfold reg64_hi, reg64_lo, reg64, write_half, read_half.
  assert (x / W32 * W32 + x mod W32 = x) as Ex by (unfold W32; zdiv).
  destruct write.
  - destruct h; rewrite reg32_merge by done; split_and!; try done; apply reg64_range; try done; apply clint_merge_u32.
  - unfold reg32_rw. by destruct h.
Qed.

(** The result of an access as the specification describes it. *)
Definition access_result (write : bool) (r : option Z) (ok : bool) (v : Z) : Prop :=
  ok = bool_decide (is_Some r) /\ (write = false -> forall x, r = Some x -> v = x).

Definition rel_after (a a' : aclint_t) (c' : clint) (old msip : bool) (sq : chan bool) : Prop :=
  aclint_rel a' c' old msip (if cl_ssw c' then chan_snoc sq true else sq) /\ bus_view a' = bus_view a.

Lemma addr_in_within addr base size : region_ok base size -> ADDR_IN addr base size = within addr base size.
Proof. intros (H1 & H2 & H3). unfold ADDR_IN, within. by rewrite u32_small by (unfold is_u32; lia). Qed.

Lemma within_off addr base size : region_ok base size -> is_u32 addr -> within addr base size = true -> u32 (addr - base) = addr - base.
Proof. unfold within, region_ok, is_u32. intros ? ? ?. apply u32_small. unfold is_u32. lia. Qed.

(** The outcome of an access to [reg]. *)
Definition accessed (a : aclint_t) (c : clint) (old msip : bool) (sq : chan bool) (reg : option aclint_reg)
    (write : bool) (v strb : Z) (res : bool * Z) (a' : aclint_t) : Prop :=
  let '(c', r) := clint_access msip c reg write v strb in
  rel_after a a' c' old msip sq /\ access_result write r res.1 res.2.

Lemma accessed_none a c old msip sq write v strb v' : aclint_rel a c old msip sq -> cl_ssw c = false ->
  accessed a c old msip sq None write v strb (false, v') a.
Proof. intros Hr Hs. split; [split; [by rewrite Hs|done]|]. split; [done|]. by intros. Qed.

Section access.
  Context (a : aclint_t) (c : clint) (old msip : bool) (sq : chan bool) (v strb : Z) (write : bool).
  Hypothesis Hr : aclint_rel a c old msip sq.
  Hypothesis Hs : cl_ssw c = false.
  Hypothesis Hv : is_u32 v.
  Hypothesis Hsq : chan_full sq = false.
  Abbreviation goal reg m := (wp m (fun res a' => accessed a c old msip sq reg write v strb res a') a).

Lemma time_accessed h v' : (write = false -> v' = read_half (cl_time c) h) ->
  is_u64 (if write then write_half (cl_time c) h v strb else cl_time c) ->
  accessed a c old msip sq (Some (RegTime h)) write v strb (true, v')
    (a <| mtime := if write then write_half (cl_time c) h v strb else cl_time c |>).
Proof.
  intros Hrd Hu. set (x := if write then _ else _) in *. unfold accessed.
  assert (clint_access msip c (Some (RegTime h)) write v strb =
    (c <| cl_time := x |>, Some (if write then 0 else read_half (cl_time c) h))) as ->
    by (unfold x; simpl; clear; destruct c; by destruct write).
  split; [split; [|done]|split; [done|]].
  - upd_proj. rewrite Hs. destruct Hr, ar_range0. split; upd_proj; done.
  - intros -> y [= <-]. by apply Hrd.
Qed.

Lemma cmp_accessed h v' : (write = false -> v' = read_half (cl_cmp c) h) ->
  is_u64 (if write then write_half (cl_cmp c) h v strb else cl_cmp c) ->
  accessed a c old msip sq (Some (RegCmp h)) write v strb (true, v')
    (a <| mtimecmp := [if write then write_half (cl_cmp c) h v strb else cl_cmp c] |>).
Proof.
  intros Hrd Hu. set (x := if write then _ else _) in *. unfold accessed.
  assert (clint_access msip c (Some (RegCmp h)) write v strb =
    (c <| cl_cmp := x |>, Some (if write then 0 else read_half (cl_cmp c) h))) as ->
    by (unfold x; simpl; clear; destruct c; by destruct write).
  split; [split; [|done]|split; [done|]].
  - upd_proj. rewrite Hs. destruct Hr, ar_range0. split; upd_proj; done.
  - intros -> y [= <-]. by apply Hrd.
Qed.

Lemma mtime_rw_ok off : goal (RegTime <$> half_of off) (mtime_reg_rw off v write strb).
Proof.
  unfold mtime_reg_rw, half_of. apply wp_bind, wp_gets. unfold id. pose proof (ar_time _ _ _ _ _ Hr) as Et. rewrite Et.
  change MTIME with 0. change MTIMEH with 4.
  assert (forall h, let '(r, v') := reg32_rw (if h : bool then reg64_hi (cl_time c) else reg64_lo (cl_time c)) v write strb in
    goal (Some (RegTime h)) (modify (fun a => a <| mtime := if h then reg64 (reg64_lo (mtime a)) r else reg64 r (reg64_hi (mtime a)) |>);;
      mret (true, v'))) as Hgo.
  { intros h. pose proof (half_access (cl_time c) h v strb write (proj1 (ar_range _ _ _ _ _ Hr)) Hv) as H.
    destruct (reg32_rw _ _ _ _) as [r v']. destruct H as (E & Hrd & Hu). apply wp_bind, wp_modify, wp_ret.
    rewrite Et. rewrite E. by apply time_accessed. }
  destruct (off =? 0); [|destruct (off =? 4); [|by apply wp_ret, accessed_none]].
  - specialize (Hgo false). cbv beta iota in Hgo. by destruct (reg32_rw _ _ _ _).
  - specialize (Hgo true). cbv beta iota in Hgo. by destruct (reg32_rw _ _ _ _).
Qed.

Lemma mtimecmp_rw_ok off : goal (RegCmp <$> half_of off) (mtimecmp_reg_rw off v write strb).
Proof.
  unfold mtimecmp_reg_rw, half_of. change (Z.to_nat HART_NUM) with 1%nat. cbn [mtimecmp_loop].
  change (MTIMECMP 0) with 0. change (MTIMECMPH 0) with 4. apply wp_bind, wp_gets. unfold id.
  rewrite (ar_cmp _ _ _ _ _ Hr).
  assert (forall h, goal (Some (RegCmp h)) (let '(r, v') := reg32_rw (if h : bool then reg64_hi (cl_cmp c) else reg64_lo (cl_cmp c)) v write strb in
      l ← of_option (aset [cl_cmp c] 0 (if h then reg64 (reg64_lo (cl_cmp c)) r else reg64 r (reg64_hi (cl_cmp c))));
      modify (fun a => a <| mtimecmp := l |>);; mret (true, v'))) as Hgo.
  { intros h. pose proof (half_access (cl_cmp c) h v strb write (proj2 (ar_range _ _ _ _ _ Hr)) Hv) as H.
    destruct (reg32_rw _ _ _ _) as [r v']. destruct H as (E & Hrd & Hu). rewrite E. apply wp_bind, wp_ret.
    apply wp_bind, wp_modify, wp_ret. by apply cmp_accessed. }
  destruct (off =? 0); [|destruct (off =? 4); [|by apply wp_ret, accessed_none]]; apply wp_bind, wp_ret.
  - exact (Hgo false).
  - exact (Hgo true).
Qed.

Lemma land_one_bit x : negb (Z.land x 1 =? 0) = Z.testbit x 0.
Proof. change (nz (Z.land x (Z.shiftl 1 0)) = Z.testbit x 0). by apply nz_testbit. Qed.

Lemma mswi_rw_ok off : goal (if off =? 0 then Some RegMsip else None) (mswi_reg_rw off v write strb).
Proof.
  unfold mswi_reg_rw. change (Z.to_nat HART_NUM) with 1%nat. cbn [mswi_loop]. change (MSIP 0) with 0.
  destruct (off =? 0); cbn [negb]; [|by apply wp_ret, accessed_none]. rewrite !land_one_bit.
  unfold aclint_read_core_m_irq, aclint_write_core_m_irq, aclint_read_core_swi_pend, accessed, clint_access.
  destruct write; cbn [andb negb].
  - destruct (Z.testbit strb 0); [|apply wp_ret; by apply (accessed_none a c)].
    apply wp_bind, wp_bind, wp_check; [done|]. apply wp_bind, wp_gets. unfold id. rewrite (ar_irq _ _ _ _ _ Hr). apply wp_ret.
    apply wp_bind, wp_bind, wp_check; [done|]. apply wp_bind, wp_gets. unfold id. rewrite (ar_irq _ _ _ _ _ Hr).
    apply wp_bind, wp_ret, wp_modify, wp_ret. destruct Hr. split; [split; [|done]|].
    + upd_proj. rewrite Hs. split; upd_proj; done.
    + split; [done|]. by intros.
  - apply wp_bind, wp_bind, wp_check; [done|]. apply wp_bind, wp_gets. unfold id. rewrite (ar_pend _ _ _ _ _ Hr).
    apply wp_ret, wp_ret. split; [split; [by rewrite Hs|done]|]. split; [done|]. intros _ x [= <-]. by destruct msip.
Qed.

Lemma sswi_rw_ok off : goal (if off =? 0 then Some RegSetssip else None) (sswi_reg_rw off v write strb).
Proof.
  unfold sswi_reg_rw. change (Z.to_nat HART_NUM) with 1%nat. cbn [sswi_loop]. change (SETSSIP 0) with 0.
  destruct (off =? 0); cbn [andb]; [|by apply wp_ret, accessed_none]. rewrite !land_one_bit.
  unfold accessed, clint_access. destruct (write && _ && _) eqn:Ew; [|apply wp_ret; by apply (accessed_none a c)].
  apply wp_bind, wp_gets. unfold id. rewrite (ar_sq _ _ _ _ _ Hr). apply wp_bind, wp_ret.
  apply wp_bind, wp_check; [by rewrite Hsq|]. pose proof (ar_wf _ _ _ _ _ Hr) as [Hw Hw'].
  apply wp_bind. rewrite chan_write_ok by (by apply chan_not_full). apply wp_ret. apply wp_bind, wp_ret, wp_bind, wp_modify, wp_ret.
  destruct Hr. split; [split; [|done]|].
  - upd_proj. split; upd_proj; try done. split; [|done]. by apply chan_wf_snoc, chan_not_full.
  - split; [done|]. by intros ->.
Qed.

Lemma reg_rw_ok addr : is_u32 addr -> goal (aclint_reg_of (ac_conf a) addr) (aclint_reg_rw addr v write strb).
Proof.
  intros Ha. pose proof (ar_conf _ _ _ _ _ Hr) as (C1 & C2 & C3 & C4). unfold aclint_reg_rw, aclint_reg_of.
  apply wp_bind, wp_gets. unfold id. cbv zeta. rewrite !addr_in_within by done.
  destruct (within _ (mtimer_base _) _) eqn:W1; [rewrite (within_off _ _ _ C1 Ha W1); apply mtime_rw_ok|].
  destruct (within _ (mtimecmp_base _) _) eqn:W2; [rewrite (within_off _ _ _ C2 Ha W2); apply mtimecmp_rw_ok|].
  destruct (within _ (mswi_base _) _) eqn:W3.
  { rewrite (within_off _ _ _ C3 Ha W3). pose proof (mswi_rw_ok (addr - mswi_base (ac_conf a))) as H.
    destruct (Z.eqb_spec (addr - mswi_base (ac_conf a)) 0), (Z.eqb_spec addr (mswi_base (ac_conf a))); done || lia. }
  destruct (within _ (sswi_base _) _) eqn:W4; [|by apply wp_ret, accessed_none].
  rewrite (within_off _ _ _ C4 Ha W4). pose proof (sswi_rw_ok (addr - sswi_base (ac_conf a))) as H.
  destruct (Z.eqb_spec (addr - sswi_base (ac_conf a)) 0), (Z.eqb_spec addr (sswi_base (ac_conf a))); done || lia.
Qed.

End access.

(** ** A cycle *)

(** The time after the tick, if it is due. *)
Definition ticked (a : aclint_t) : Z :=
  if u32 (mtime_cycle_cnt a + 1) =? mtimer_tick_cycles (ac_conf a) then u64 (mtime a + 1) else mtime a.

Lemma timer_proc_ok a c old msip sq : aclint_rel a c old msip sq ->
  wp timer_proc (fun _ a' => aclint_rel a' (c <| cl_time := ticked a |>) old msip sq /\
    ac_req_slv a' = ac_req_slv a /\ ac_rsp_mst a' = ac_rsp_mst a /\ ac_conf a' = ac_conf a /\
    mtime_cycle_cnt a' = (if u32 (mtime_cycle_cnt a + 1) =? mtimer_tick_cycles (ac_conf a) then 0 else u32 (mtime_cycle_cnt a + 1)) /\
    core_timer_out a' = (if u32 (mtime_cycle_cnt a + 1) =? mtimer_tick_cycles (ac_conf a) then ticked a else core_timer_out a)) a.
Proof.
  intros Hr. unfold timer_proc, ticked. apply wp_bind, wp_modify, wp_bind, wp_gets. unfold id. upd_proj.
  pose proof Hr as [R1 R2 R3 R4 [R5 R6] R7 R8 R9 R10]. destruct (_ =? _); cbn [when].
  - apply wp_bind, wp_modify, wp_bind, wp_gets. unfold id. upd_proj. apply wp_modify. upd_proj.
    split_and!; try done. split; upd_proj; try done. split; [|done]. unfold is_u64, u64, W64. apply Z.mod_pos_bound. lia.
  - apply wp_ret. split_and!; try done. split; upd_proj; try done. by rewrite R4.
Qed.

Lemma core_irq_ok a c old msip sq : aclint_rel a c old msip sq ->
  wp core_irq_proc (fun _ a' => aclint_rel a' c (cl_cmp c <=? cl_time c) msip sq /\ bus_view a' = bus_view a) a.
Proof.
  intros Hr. pose proof Hr as [R1 R2 R3 R4 R5 R6 R7 R8 R9]. unfold core_irq_proc.
  change (Z.to_nat HART_NUM) with 1%nat. cbn [core_irq_loop]. apply wp_bind. unfold raise_or_clear_mtimer_irq.
  apply wp_bind, wp_check; [done|]. apply wp_bind, wp_gets. unfold id. rewrite R2, R3, R4.
  apply wp_bind, wp_ret, wp_bind, wp_ret. cbv zeta. destruct (cl_cmp c <=? cl_time c) eqn:Ec, old eqn:Eo; cbn [eqb negb when].
  1,4: apply wp_ret, wp_ret; done.
  all: unfold aclint_read_core_m_irq, aclint_write_core_m_irq; apply wp_bind, wp_bind, wp_check; [done|];
    apply wp_bind, wp_gets; unfold id; rewrite R1; apply wp_ret; apply wp_bind, wp_bind, wp_check; [done|];
    apply wp_bind, wp_gets; unfold id; rewrite R1; apply wp_bind, wp_ret, wp_modify, wp_bind, wp_ret, wp_modify, wp_ret;
    split; [split; upd_proj; done|done].
Qed.

(** What a cycle does: the tick, one access if there is a request and room for its response, and
    the timer line up exactly when the comparator is reached. *)
Definition clint_cycle (a : aclint_t) (c : clint) (msip : bool) (a' : aclint_t) (c' : clint) : Prop :=
  let c1 := c <| cl_time := ticked a |> in
  match ch_pkts (ac_req_slv a), chan_full (ac_rsp_mst a) with
  | req :: rest, false =>
    let '(c2, r) := clint_access msip c1 (aclint_reg_of (ac_conf a) (paddr req)) (pwrite req) (pwdata req) (pstrb req) in
    c' = c2 /\ ch_pkts (ac_req_slv a') = rest /\
    exists rsp, ac_rsp_mst a' = chan_snoc (ac_rsp_mst a) rsp /\ pslverr rsp = bool_decide (r = None) /\
      (pwrite req = false -> forall x, r = Some x -> prdata rsp = x)
  | _, _ => c' = c1 /\ ac_req_slv a' = ac_req_slv a /\ ac_rsp_mst a' = ac_rsp_mst a
  end.

Definition reqs_ok (a : aclint_t) : Prop := Forall (fun r => is_u32 (paddr r) /\ is_u32 (pwdata r)) (ch_pkts (ac_req_slv a)).

Lemma clint_clock_ok a c old msip sq junk : aclint_rel a c old msip sq -> cl_ssw c = false -> reqs_ok a ->
  is_u32 junk -> chan_full sq = false ->
  wp (aclint_clock junk) (fun _ a' => exists c', clint_cycle a c msip a' c' /\
    aclint_rel a' c' (cl_cmp c' <=? cl_time c') msip (if cl_ssw c' then chan_snoc sq true else sq) /\
    ac_conf a' = ac_conf a /\
    mtime_cycle_cnt a' = (if u32 (mtime_cycle_cnt a + 1) =? mtimer_tick_cycles (ac_conf a) then 0 else u32 (mtime_cycle_cnt a + 1))) a.
Proof.
  intros Hr Hs Hq Hj Hsq. unfold aclint_clock. apply wp_bind. eapply wp_mono; [by apply timer_proc_ok|].
  intros [] a1 (Hr1 & Q1 & P1 & F1 & N1 & _). unfold clint_cycle. cbv zeta. set (c1 := c <| cl_time := ticked a |>) in *.
  apply wp_bind. unfold apb_cfg_proc. apply wp_bind, wp_gets. unfold id. rewrite Q1, P1, <- F1.
  assert (wp core_irq_proc (fun _ a' => exists c', (c' = c1 /\ ac_req_slv a' = ac_req_slv a /\ ac_rsp_mst a' = ac_rsp_mst a) /\
    aclint_rel a' c' (cl_cmp c' <=? cl_time c') msip (if cl_ssw c' then chan_snoc sq true else sq) /\
    ac_conf a' = ac_conf a1 /\ mtime_cycle_cnt a' = mtime_cycle_cnt a1) a1) as Hidle.
  { eapply wp_mono; [by apply (core_irq_ok a1 c1 old msip sq)|]. intros [] a2 [Hr2 V2]. unfold bus_view in V2. injection V2 as V1 V3 V4 V5 V6.
    exists c1. split_and!; try congruence. change (cl_ssw c1) with (cl_ssw c). by rewrite Hs. }
  rewrite F1, <- N1. rewrite F1 in Hidle.
  destruct (chan_empty (ac_req_slv a)) eqn:Ee; [apply chan_empty_spec in Ee; rewrite Ee; by apply wp_ret|].
  apply chan_empty_false in Ee as (req & rest & Ee). rewrite Ee.
  destruct (chan_full (ac_rsp_mst a)) eqn:Ef; [by apply wp_ret|]. clear Hidle.
  unfold reqs_ok in Hq. rewrite Ee in Hq. apply Forall_cons in Hq as [[Hqa Hqd] _].
  apply wp_bind. eapply wp_on_read; [by rewrite Q1|]. rewrite Q1. set (a2 := a1 <| ac_req_slv := _ |>).
  assert (aclint_rel a2 c1 old msip sq) as Hr2 by (destruct Hr1; by split).
  set (v := if pwrite req then pwdata req else junk). assert (is_u32 v) as Hv by (unfold v; by destruct (pwrite req)).
  apply wp_bind. eapply wp_mono; [by apply (reg_rw_ok a2 c1 old msip sq v (pstrb req) (pwrite req) Hr2 Hs Hv Hsq)|].
  intros [ok v'] a3 H3. unfold accessed in H3. change (ac_conf a2) with (ac_conf a1) in H3. rewrite F1 in H3.
  assert (clint_access msip c1 (aclint_reg_of (ac_conf a) (paddr req)) (pwrite req) v (pstrb req) =
    clint_access msip c1 (aclint_reg_of (ac_conf a) (paddr req)) (pwrite req) (pwdata req) (pstrb req)) as Ev.
  { unfold v. by destruct (pwrite req), (aclint_reg_of _ _) as [[]|]. }
  rewrite Ev in H3. destruct (clint_access _ _ _ _ _ _) as [c2 r].
  destruct H3 as [[Hr3 V3] [Hok Hrd]]. cbn [fst snd] in Hok, Hrd. unfold bus_view in V3. injection V3 as V3 V4 V5 V6 V7.
  apply wp_on_write; [apply Hr3|rewrite V4; change (ac_rsp_mst a2) with (ac_rsp_mst a1); by rewrite P1|]. intros Hw.
  set (a4 := a3 <| ac_rsp_mst := _ |>).
  assert (aclint_rel a4 c2 old msip (if cl_ssw c2 then chan_snoc sq true else sq)) as Hr4.
  { destruct Hr3, ar_wf0. split; unfold a4; upd_proj; done. }
  eapply wp_mono; [by apply (core_irq_ok a4 c2 old msip _ Hr4)|]. intros [] a5 [Hr5 V8]. unfold bus_view in V8. injection V8 as V8 V9 V10 V11 V12.
  exists c2. split_and!; try done.
  - rewrite V8. change (ac_req_slv a4) with (ac_req_slv a3). by rewrite V3.
  - eexists. rewrite V9. split; [unfold a4; upd_proj; rewrite V4; change (ac_rsp_mst a2) with (ac_rsp_mst a1); by rewrite P1|].
    cbn [pslverr prdata]. split.
    + rewrite Hok. by destruct r.
    + intros Ew x Hx. rewrite Ew. by apply (Hrd Ew).
  - rewrite V10. change (ac_conf a4) with (ac_conf a3). by rewrite V5.
  - rewrite V11. change (mtime_cycle_cnt a4) with (mtime_cycle_cnt a3). by rewrite V6.
Qed.

(** ** Runs *)

(** The clock runs when the queue of supervisor software interrupts has room; requests, responses,
    the pending bit and that queue change at will in between. *)
Definition can_clock (a : aclint_t) : Prop := reqs_ok a /\ Forall (fun q => chan_full q = false) (core_s_irq_msts a).

Definition inner_view (a : aclint_t) :=
  (core_m_irq_outs a, mtime_exceed_old a, mtimecmp a, mtime a, ac_conf a, mtime_cycle_cnt a).

Definition ports_ok (a : aclint_t) : Prop := chan_wf (ac_rsp_mst a) /\
  (exists sq, core_s_irq_msts a = [sq] /\ chan_wf sq) /\ exists msip, core_swi_pend_ins a = [msip].

Inductive aclint_step : aclint_t -> aclint_t -> Prop :=
| AclintClock a a' junk : can_clock a -> is_u32 junk -> aclint_clock junk a = Some (tt, a') -> aclint_step a a'
| AclintOthers a a' : inner_view a' = inner_view a -> ports_ok a' -> aclint_step a a'.

Definition tick_ok (a : aclint_t) : Prop :=
  0 <= mtime_cycle_cnt a < mtimer_tick_cycles (ac_conf a) /\ mtimer_tick_cycles (ac_conf a) < W32.

Definition aclint_inv (a : aclint_t) : Prop :=
  tick_ok a /\ exists c old msip sq, aclint_rel a c old msip sq /\ cl_ssw c = false.

(** An interruptor before reset, for one hart. *)
Record aclint_built (a : aclint_t) : Prop := {
  ab_conf : conf_ok (ac_conf a) /\ 0 < mtimer_tick_cycles (ac_conf a) < W32;
  ab_arrays : length (core_m_irq_outs a) = 1%nat /\ length (mtimecmp a) = 1%nat /\ length (mtime_exceed_old a) = 1%nat;
  ab_ports : ports_ok a
}.

Definition aclint_reachable (a : aclint_t) : Prop :=
  exists a0 a1, aclint_built a0 /\ aclint_reset a0 = Some (tt, a1) /\ rtc aclint_step a1 a.

Lemma aclint_reset_ok a : aclint_built a -> wp aclint_reset (fun _ a' => aclint_inv a') a.
Proof.
  intros [[Hc Ht] (L1 & L2 & L3) (Hw & (sq & Esq & Hsq) & (msip & Em))]. unfold aclint_reset.
  destruct (core_m_irq_outs a) as [|i [|]] eqn:E1; [done| |done]. destruct (mtimecmp a) as [|cmp [|]] eqn:E2; [done| |done].
  destruct (mtime_exceed_old a) as [|o [|]] eqn:E3; [done| |done].
  apply wp_bind, wp_modify, wp_bind, wp_modify. change (Z.to_nat HART_NUM) with 1%nat. cbn [reset_loop].
  apply wp_bind, wp_gets. unfold id. upd_proj. rewrite E2, E3. apply wp_bind, wp_ret, wp_bind, wp_modify, wp_bind, wp_ret.
  apply wp_bind, wp_modify, wp_bind. unfold aclint_write_core_m_irq. apply wp_bind, wp_check; [done|].
  apply wp_bind, wp_gets. unfold id. upd_proj. rewrite E1. apply wp_bind, wp_ret, wp_modify, wp_ret. split.
  - unfold tick_ok. upd_proj. lia.
  - exists (Clint 0 0xffffffffffffffff false false), false, msip, sq. split; [|done]. split; upd_proj; done.
Qed.

Lemma aclint_clock_inv a junk : aclint_inv a -> can_clock a -> is_u32 junk ->
  wp (aclint_clock junk) (fun _ a' => aclint_inv a' /\ exists c msip sq c', clint_cycle a c msip a' c' /\
    (exists old, aclint_rel a c old msip sq) /\ cl_ssw c = false /\
    core_m_irq_outs a' = [CoreMIrq (cl_cmp c' <=? cl_time c') (cl_msw c')] /\
    mtimecmp a' = [cl_cmp c'] /\ mtime a' = cl_time c' /\
    core_s_irq_msts a' = [if cl_ssw c' then chan_snoc sq true else sq] /\ ac_conf a' = ac_conf a /\
    mtime_cycle_cnt a' = (if mtime_cycle_cnt a + 1 =? mtimer_tick_cycles (ac_conf a) then 0 else mtime_cycle_cnt a + 1)) a.
Proof.
  intros ([Hn Ht] & c & old & msip & sq & Hr & Hs) [Hq Hsq] Hj.
  assert (chan_full sq = false) as Hf by (rewrite (ar_sq _ _ _ _ _ Hr) in Hsq; by apply Forall_cons in Hsq as [? _]).
  eapply wp_mono; [by apply (clint_clock_ok a c old msip sq junk)|]. intros [] a' (c' & Hc & Hr' & F & N).
  rewrite (u32_small (mtime_cycle_cnt a + 1)) in N by (unfold is_u32; lia). split.
  - split.
    + unfold tick_ok. rewrite N, F. destruct (Z.eqb_spec (mtime_cycle_cnt a + 1) (mtimer_tick_cycles (ac_conf a))); lia.
    + exists (c' <| cl_ssw := false |>). do 3 eexists. split; [|done]. destruct Hr'. split; upd_proj; done.
  - exists c, msip, sq, c'. destruct Hr'. split_and!; try done. by exists old.
Qed.

Lemma step_inv a a' : aclint_step a a' -> aclint_inv a -> aclint_inv a'.
Proof.
  intros Hs Hi. destruct Hs as [a a' junk Hc Hj E|a a' Ev (Hw & (sq & Esq & Hsq) & (msip & Em))].
  - pose proof (aclint_clock_inv a junk Hi Hc Hj) as H. unfold wp in H. rewrite E in H. apply H.
  - destruct Hi as (Ht & c & old & m & q & Hr & Hs). unfold inner_view in Ev. injection Ev as E1 E2 E3 E4 E5 E6.
    split; [unfold tick_ok; by rewrite E5, E6|]. exists c, old, msip, sq. split; [|done]. destruct Hr.
    split; rewrite ?E1, ?E2, ?E3, ?E4, ?E5; done.
Qed.

Lemma reachable_inv a : aclint_reachable a -> aclint_inv a.
Proof.
  intros (a0 & a1 & Hb & Hr & Hrun). pose proof (aclint_reset_ok a0 Hb) as Hi. unfold wp in Hi. rewrite Hr in Hi.
  clear Hb Hr. induction Hrun as [a|a a2 a3 Hs _ IH]; [done|]. by apply IH, (step_inv a).
Qed.

(** ** Theorems *)

(** C18: In every run of the interruptor from reset no check fails and a cycle does what the registers
    mean: the time advances when a tick is due; the request on the bus reads or writes, byte by
    byte as its strobe says, one half of the time or of the comparator, the software interrupt line
    or the supervisor software interrupt, or is answered with an error; and afterwards the timer
    line of the hart is up exactly when the time has reached the comparator. *)
Theorem aclint_clock_correct a junk : aclint_reachable a -> can_clock a -> is_u32 junk ->
  exists a' c old msip sq c', aclint_clock junk a = Some (tt, a') /\ aclint_rel a c old msip sq /\ cl_ssw c = false /\
    clint_cycle a c msip a' c' /\
    core_m_irq_outs a' = [CoreMIrq (cl_cmp c' <=? cl_time c') (cl_msw c')] /\
    core_s_irq_msts a' = [if cl_ssw c' then chan_snoc sq true else sq].
Proof.
  intros Hi%reachable_inv Hc Hj.
  destruct (wp_elim _ _ _ (aclint_clock_inv a junk Hi Hc Hj)) as ([] & a' & E & _ & c & msip & sq & c' & Hcy & (old & Hr) & Hs & Ho & _ & _ & Hq & _).
  exists a', c, old, msip, sq, c'. by split_and!.
Qed.

(** [n] cycles without a request. *)
Fixpoint aclint_idle (junk : Z) (n : nat) : M aclint_t unit :=
  match n with
  | O => mret tt
  | S n => aclint_clock junk;; aclint_idle junk n
  end.

(** The time [n] cycles later. *)
Definition time_after (a : aclint_t) (n : Z) : Z :=
  let tick := mtimer_tick_cycles (ac_conf a) in (mtime a * tick + mtime_cycle_cnt a + n) / tick.

Lemma time_after_step a a' n : tick_ok a -> 0 <= n -> mtime a + 1 < W64 -> ac_conf a' = ac_conf a ->
  mtime a' = (if mtime_cycle_cnt a + 1 =? mtimer_tick_cycles (ac_conf a) then u64 (mtime a + 1) else mtime a) ->
  0 <= mtime a ->
  mtime_cycle_cnt a' = (if mtime_cycle_cnt a + 1 =? mtimer_tick_cycles (ac_conf a) then 0 else mtime_cycle_cnt a + 1) ->
  time_after a' n = time_after a (n + 1).
Proof.
  intros [Ht _] Hn Hb F E Hm N. unfold time_after. cbv zeta. rewrite F, E, N.
  destruct (Z.eqb_spec (mtime_cycle_cnt a + 1) (mtimer_tick_cycles (ac_conf a))) as [Eq|Eq].
  - rewrite u64_small by (unfold is_u64; lia). f_equal. lia.
  - f_equal. lia.
Qed.

Lemma idle_cycle a junk : aclint_inv a -> ch_pkts (ac_req_slv a) = [] -> Forall (fun q => chan_full q = false) (core_s_irq_msts a) ->
  is_u32 junk -> wp (aclint_clock junk) (fun _ a' => aclint_inv a' /\ ch_pkts (ac_req_slv a') = [] /\
    core_s_irq_msts a' = core_s_irq_msts a /\ ac_conf a' = ac_conf a /\ mtimecmp a' = mtimecmp a /\
    mi_msw <$> core_m_irq_outs a' = mi_msw <$> core_m_irq_outs a /\
    mi_mtimer <$> core_m_irq_outs a' = (fun cmp => cmp <=? mtime a') <$> mtimecmp a' /\
    mtime a' = (if mtime_cycle_cnt a + 1 =? mtimer_tick_cycles (ac_conf a) then u64 (mtime a + 1) else mtime a) /\
    mtime_cycle_cnt a' = (if mtime_cycle_cnt a + 1 =? mtimer_tick_cycles (ac_conf a) then 0 else mtime_cycle_cnt a + 1)) a.
Proof.
  intros Hi Hq Hsq Hj. assert (can_clock a) as Hc by (split; [unfold reqs_ok; by rewrite Hq|done]).
  eapply wp_mono; [by apply aclint_clock_inv|].
  intros [] a' (Hi' & c & msip & sq & c' & Hcy & (old & Hr) & Hs & O & C & T & S & F & N). destruct Hi as [[Hn Ht] _].
  unfold clint_cycle in Hcy. rewrite Hq in Hcy. destruct Hcy as (-> & Q & _). revert O C T S. upd_proj. intros O C T S.
  rewrite Hs in S. destruct Hr. split_and!; try congruence.
  - by rewrite O, ar_irq0.
  - by rewrite O, C, T.
  - rewrite T. unfold ticked. by rewrite (u32_small (mtime_cycle_cnt a + 1)) by (unfold is_u32; lia).
Qed.

Lemma time_after_bound a n : tick_ok a -> 0 <= n -> mtime a <= time_after a n /\ time_after a 0 = mtime a.
Proof.
  intros [Ht _] Hn. unfold time_after. cbv zeta. set (t := mtimer_tick_cycles _) in *. split.
  - apply Z.div_le_lower_bound; [lia|]. lia.
  - rewrite Z.add_0_r, Z.add_comm, Z.div_add by lia. rewrite Z.div_small by lia. lia.
Qed.

Lemma inv_time a : aclint_inv a -> 0 <= mtime a.
Proof. intros (_ & c & old & msip & sq & [] & _). rewrite ar_time0. apply ar_range0. Qed.

Lemma idle_run junk n a : is_u32 junk -> aclint_inv a -> ch_pkts (ac_req_slv a) = [] ->
  Forall (fun q => chan_full q = false) (core_s_irq_msts a) -> time_after a (Z.of_nat (S n)) < W64 - 1 ->
  wp (aclint_idle junk (S n)) (fun _ a' => mtime a' = time_after a (Z.of_nat (S n)) /\
    mi_mtimer <$> core_m_irq_outs a' = (fun cmp => cmp <=? time_after a (Z.of_nat (S n))) <$> mtimecmp a) a.
Proof.
  intros Hj. revert a. induction n as [|n IH]; intros a Hi Hq Hsq Hb.
  - destruct (time_after_bound a 1 (proj1 Hi) ltac:(lia)) as [Hm _]. change (Z.of_nat 1) with 1 in *. cbn [aclint_idle].
    apply wp_bind. eapply wp_mono; [by apply idle_cycle|]. intros [] a' (Hi' & _ & _ & F & C & _ & L & T & N). apply wp_ret.
    assert (mtime a' = time_after a 1) as E.
    { rewrite <- (proj2 (time_after_bound a' 0 (proj1 Hi') ltac:(lia))).
      apply (time_after_step a a' 0); [apply Hi|lia|lia|done|done|by apply inv_time|done]. }
    by rewrite L, C, E.
  - destruct (time_after_bound a (Z.of_nat (S (S n))) (proj1 Hi) ltac:(lia)) as [Hm _].
    change (wp (aclint_clock junk;; aclint_idle junk (S n)) (fun _ a' => mtime a' = time_after a (Z.of_nat (S (S n))) /\
      mi_mtimer <$> core_m_irq_outs a' = (fun cmp => cmp <=? time_after a (Z.of_nat (S (S n)))) <$> mtimecmp a) a).
    apply wp_bind. eapply wp_mono; [by apply idle_cycle|]. intros [] a' (Hi' & Q & S & F & C & _ & L & T & N).
    assert (time_after a' (Z.of_nat (Datatypes.S n)) = time_after a (Z.of_nat (Datatypes.S (Datatypes.S n)))) as E.
    { rewrite (time_after_step a a' (Z.of_nat (Datatypes.S n))); [f_equal; lia|apply Hi|lia|lia|done|done|by apply inv_time|done]. }
    rewrite <- E, <- C. apply IH; [done..|by rewrite S|by rewrite E].
Qed.

(** C36: The timer interrupt fires on time.  From every reachable state, while software leaves the
    registers alone and the 64-bit time does not wrap around, the time grows by one per tick period,
    whatever the phase of the tick counter, and after every number of cycles the timer line is up if
    and only if the time has reached the comparator; so it is up once enough cycles have passed. *)
Theorem aclint_timer_fires a junk n : aclint_reachable a -> ch_pkts (ac_req_slv a) = [] ->
  Forall (fun q => chan_full q = false) (core_s_irq_msts a) -> is_u32 junk -> time_after a (Z.of_nat (S n)) < W64 - 1 ->
  wp (aclint_idle junk (S n)) (fun _ a' => mtime a' = time_after a (Z.of_nat (S n)) /\
    mi_mtimer <$> core_m_irq_outs a' = (fun cmp => cmp <=? time_after a (Z.of_nat (S n))) <$> mtimecmp a) a.
Proof.
  intros Hi%reachable_inv Hq Hsq Hj Hb. by apply idle_run.
Qed.

(** ** Witnesses *)

(** The configuration of [spec/core/core.h], with a short tick. *)
Definition aclint_example_conf : aclint_conf_t :=
  AclintConf 0x31000000 0x8 0x31010000 0x7ff8 0x31020000 0x4000 0x31030000 0x4000 3.
Definition aclint_example0 : aclint_t :=
  Aclint (Chan 1 []) (Chan 1 []) 0 [CoreMIrq true true] [Chan 1 []] [false] aclint_example_conf 7 7 [7] [true].

Lemma aclint_example_built : aclint_built aclint_example0.
Proof. split; [done..|]. split; [done|]. split; [by eexists|by eexists]. Qed.

(** After reset, software sets the comparator to 2. *)
Definition aclint_do (m : M aclint_t unit) (a : aclint_t) : aclint_t := default a (snd <$> m a).
Definition aclint_w1 : aclint_t := aclint_do aclint_reset aclint_example0.
Definition aclint_w2 : aclint_t := aclint_w1 <| ac_req_slv := Chan 1 [ApbReq 0x31010004 true 0 15] |>.
Definition aclint_w3 : aclint_t := aclint_do (aclint_clock 0) aclint_w2.
Definition aclint_w4 : aclint_t := aclint_w3 <| ac_req_slv := Chan 1 [ApbReq 0x31010000 true 2 15] |> <| ac_rsp_mst := Chan 1 [] |>.
Definition aclint_w5 : aclint_t := aclint_do (aclint_clock 0) aclint_w4.

Lemma aclint_w1_eq : aclint_reset aclint_example0 = Some (tt, aclint_w1).
Proof. vm_compute. reflexivity. Qed.
Lemma aclint_w3_eq : aclint_clock 0 aclint_w2 = Some (tt, aclint_w3).
Proof. vm_compute. reflexivity. Qed.
Lemma aclint_w5_eq : aclint_clock 0 aclint_w4 = Some (tt, aclint_w5).
Proof. vm_compute. reflexivity. Qed.

(** A write of software between two cycles. *)
Lemma aclint_post a a' : ac_rsp_mst a' = Chan 1 [] -> core_s_irq_msts a' = [Chan 1 []] -> core_swi_pend_ins a' = [false] ->
  inner_view a' = inner_view a -> aclint_step a a'.
Proof. intros E1 E2 E3 E. apply AclintOthers; [done|]. split; [by rewrite E1|]. split; [by eexists|by eexists]. Qed.

Lemma aclint_w2_ok : aclint_reachable aclint_w2 /\ can_clock aclint_w2.
Proof.
  split; [|split; [apply Forall_singleton; split; [done|by split]|by apply Forall_singleton]].
  exists aclint_example0, aclint_w1. split; [apply aclint_example_built|]. split; [exact aclint_w1_eq|].
  apply rtc_once, aclint_post; vm_compute; reflexivity.
Qed.

Lemma aclint_reachable_step a a' : aclint_reachable a -> aclint_step a a' -> aclint_reachable a'.
Proof. intros (a0 & a1 & Hb & Hr & Hrun) Hs. exists a0, a1. split_and!; [done..|]. by eapply rtc_r. Qed.

Lemma aclint_w4_ok : aclint_reachable aclint_w4 /\ can_clock aclint_w4.
Proof.
  split; [|split; [apply Forall_singleton; split; [done|by split]|by apply Forall_singleton]].
  apply (aclint_reachable_step aclint_w3); [|apply aclint_post; vm_compute; reflexivity].
  apply (aclint_reachable_step aclint_w2); [apply aclint_w2_ok|].
  apply (AclintClock _ _ 0); [apply aclint_w2_ok|done|exact aclint_w3_eq].
Qed.

Lemma aclint_clock_correct_witness :
  aclint_reachable aclint_w4 /\ can_clock aclint_w4 /\
  exists a' c', aclint_clock 0 aclint_w4 = Some (tt, a') /\ mtimecmp a' = [2] /\
    core_m_irq_outs a' = [CoreMIrq (cl_cmp c' <=? cl_time c') (cl_msw c')].
Proof.
  destruct aclint_w4_ok as [Hr Hc]. split; [exact Hr|]. split; [exact Hc|].
  destruct (aclint_clock_correct aclint_w4 0 Hr Hc ltac:(done)) as (a' & c & old & msip & sq & c' & E & _ & _ & _ & O & _).
  exists a', c'. split; [exact E|]. split; [|exact O].
  assert (a' = aclint_w5) as -> by (pose proof (eq_trans (eq_sym aclint_w5_eq) E) as Q; congruence).
  vm_compute. reflexivity.
Defined.

Lemma aclint_w5_reachable : aclint_reachable aclint_w5.
Proof.
  destruct aclint_w4_ok as [Hr Hc]. apply (aclint_reachable_step _ _ Hr), (AclintClock _ _ 0 Hc); [done|exact aclint_w5_eq].
Qed.

(** Two cycles have passed since reset: the fourth tick cycle later the time is 2 and the line is up. *)
Lemma aclint_timer_fires_witness :
  aclint_reachable aclint_w5 /\
  wp (aclint_idle 0 4) (fun _ a' => mtime a' = 2 /\ mi_mtimer <$> core_m_irq_outs a' = [true]) aclint_w5.
Proof.
  split; [exact aclint_w5_reachable|].
  assert (is_u32 0) as H0 by done.
  assert (ch_pkts (ac_req_slv aclint_w5) = []) as H1 by (vm_compute; reflexivity).
  assert (Forall (fun q => chan_full q = false) (core_s_irq_msts aclint_w5)) as H2 by (vm_compute; by repeat constructor).
  assert (time_after aclint_w5 (Z.of_nat (S 3)) < W64 - 1) as H3 by (vm_compute; reflexivity).
  pose proof (aclint_timer_fires aclint_w5 0 3 aclint_w5_reachable H1 H2 H0 H3) as H.
  eapply wp_mono; [exact H|]. intros [] a' [T L]. split.
  - rewrite T. vm_compute. reflexivity.
  - rewrite L. vm_compute. reflexivity.
Defined.
