(* ===== verification/Axi.v ===== *)
(** * The AXI4 interface

    The packets of the five channels, [design/model/itf/axi4_{aw,w,b,ar,r}_if.h], and the cache
    maintenance operations that travel in the user field, [design/model/spec/core/cache.h]. *)

From stdpp Require Import base numbers list.
From Stdlib Require Import ZArith Lia.
From S2P Require Import Prelude.

(** The cast [(u8)]. *)
Definition u8 (x : Z) : Z := x mod 256.

Definition AXI4_BURST_FIXED := 0.
Definition AXI4_BURST_INCR := 1.
Definition AXI4_BURST_WRAP := 2.
Definition AXI4_SIZE_B4 := 2.
Definition AXI4_RESP_OKAY := 0.
Definition AXI4_RESP_EXOKAY := 1.
Definition AXI4_RESP_SLVERR := 2.
Definition AXI4_RESP_DECERR := 3.

Record axi4_aw_if_t := AxiAw {
  aw_id : Z; aw_addr : Z; aw_len : Z; aw_size : Z; aw_burst : Z; aw_lock : bool; aw_cache : Z;
  aw_prot : Z; aw_qos : Z; aw_user : Z }.
#[export] Instance eta_axi4_aw : Eta axi4_aw_if_t := fun a =>
  AxiAw (aw_id a) (aw_addr a) (aw_len a) (aw_size a) (aw_burst a) (aw_lock a) (aw_cache a)
    (aw_prot a) (aw_qos a) (aw_user a).

Record axi4_w_if_t := AxiW { w_data : Z; w_strb : Z; w_last : bool }.
#[export] Instance eta_axi4_w : Eta axi4_w_if_t := fun w => AxiW (w_data w) (w_strb w) (w_last w).

Record axi4_b_if_t := AxiB { b_id : Z; b_resp : Z }.
#[export] Instance eta_axi4_b : Eta axi4_b_if_t := fun b => AxiB (b_id b) (b_resp b).

Record axi4_ar_if_t := AxiAr {
  ar_id : Z; ar_addr : Z; ar_len : Z; ar_size : Z; ar_burst : Z; ar_lock : bool; ar_cache : Z;
  ar_prot : Z; ar_qos : Z; ar_user : Z }.
#[export] Instance eta_axi4_ar : Eta axi4_ar_if_t := fun a =>
  AxiAr (ar_id a) (ar_addr a) (ar_len a) (ar_size a) (ar_burst a) (ar_lock a) (ar_cache a)
    (ar_prot a) (ar_qos a) (ar_user a).

Record axi4_r_if_t := AxiR { r_id : Z; r_data : Z; r_resp : Z; r_last : bool }.
#[export] Instance eta_axi4_r : Eta axi4_r_if_t := fun r =>
  AxiR (r_id r) (r_data r) (r_resp r) (r_last r).

(** ** Cache maintenance operations in the user field *)

Definition AXI4_USER_CMO_OP_NONE := 0.
Definition AXI4_USER_CMO_OP_INVAL := 1.
Definition AXI4_USER_CMO_OP_CLEAN := 2.
Definition AXI4_USER_CMO_OP_FLUSH := 3.
Definition AXI4_USER_CMO_TAG := 0x30.

(** The packed bit fields: [op] in bits 0 to 1, [tag] in bits 2 to 7, [rsvd] above. *)
Definition axi4_user_make_cmo (op : Z) : Z := Z.lor (Z.land op 3) (Z.shiftl AXI4_USER_CMO_TAG 2).

Definition AXI4_USER_CMO_INVAL := axi4_user_make_cmo AXI4_USER_CMO_OP_INVAL.
Definition AXI4_USER_CMO_CLEAN := axi4_user_make_cmo AXI4_USER_CMO_OP_CLEAN.
Definition AXI4_USER_CMO_FLUSH := axi4_user_make_cmo AXI4_USER_CMO_OP_FLUSH.

Definition axi4_user_cmo_op (raw : Z) : Z := bits raw 0 2.

Definition axi4_user_is_cmo (user : Z) : bool :=
  (bits user 2 6 =? AXI4_USER_CMO_TAG) && (bits user 8 24 =? 0).

Definition axi4_user_cmo_invalidates (user : Z) : bool :=
  let op := axi4_user_cmo_op user in (op =? AXI4_USER_CMO_OP_INVAL) || (op =? AXI4_USER_CMO_OP_FLUSH).

Definition axi4_user_cmo_cleans (user : Z) : bool :=
  let op := axi4_user_cmo_op user in (op =? AXI4_USER_CMO_OP_CLEAN) || (op =? AXI4_USER_CMO_OP_FLUSH).
