(* ===== verification/L1.v ===== *)
(** * The level 1 cache

    [core/hart/l1.c]: a set-associative write-back cache in front of an AXI4 port.  Requests pass a
    staging FIFO and two pipeline registers; a hit is served one cycle later, also while a miss is in
    progress; a miss writes the victim back, refills its line word by word and is served from it;
    accesses to bypass ranges go to the port as one or two words; cache block operations and the
    flush of FENCE.I write lines back.  Responses leave in the order of the requests. *)

From stdpp Require Import base numbers list.
From Stdlib Require Import ZArith Lia.
From S2P Require Import Prelude Fifo Ost OstScan Bti Axi Ifu.

Definition L1_BYPASS_RANGE_NUM : Z := 8.
Definition L1_LINE_SIZE : Z := 64.
Definition L1_WORD_SIZE : Z := 4.
Definition L1_WORD_NUM : Z := L1_LINE_SIZE / L1_WORD_SIZE.

Record l1_conf_t := L1Conf {
  lf_full_bypass : bool; lf_ro : bool; lf_size : Z; lf_way_num : Z; lf_latency : Z;
  lf_stg_fifo_depth : Z; lf_ost_depth : Z; lf_bypass_bases : list Z; lf_bypass_sizes : list Z }.

Inductive l1_state_t :=
| L1_STATE_IDLE | L1_STATE_WB_AW | L1_STATE_WB_W | L1_STATE_WB_B | L1_STATE_REFILL_AR
| L1_STATE_REFILL_R | L1_STATE_SERVE_MISS | L1_STATE_CMO_L1_WB_AW | L1_STATE_CMO_L1_WB_W
| L1_STATE_CMO_L1_WB_B | L1_STATE_CMO_L2_AR | L1_STATE_CMO_L2_R | L1_STATE_FLUSH_CHECK
| L1_STATE_FLUSH_WB_AW | L1_STATE_FLUSH_WB_W | L1_STATE_FLUSH_WB_B | L1_STATE_FLUSH_ACK.
#[export] Instance l1_state_eq_dec : EqDecision l1_state_t.
Proof. solve_decision. Defined.

Inductive l1_ost_kind_t := L1_OST_CACHED | L1_OST_BYPASS_RD | L1_OST_BYPASS_WR.
#[export] Instance l1_ost_kind_eq_dec : EqDecision l1_ost_kind_t.
Proof. solve_decision. Defined.

Record l1_ost_ctx_t := L1OstCtx {
  lx_trans_id : Z; lx_kind : l1_ost_kind_t; lx_req : bti_req_if_t; lx_bypass_split : bool;
  lx_bypass_req_idx : Z; lx_bypass_rsp_idx : Z; lx_rsp_vld : bool; lx_rsp_delay_pend : bool;
  lx_ok : bool; lx_data : Z; lx_delay : Z }.
#[export] Instance eta_l1_ost_ctx : Eta l1_ost_ctx_t := fun c =>
  L1OstCtx (lx_trans_id c) (lx_kind c) (lx_req c) (lx_bypass_split c) (lx_bypass_req_idx c)
    (lx_bypass_rsp_idx c) (lx_rsp_vld c) (lx_rsp_delay_pend c) (lx_ok c) (lx_data c) (lx_delay c).
#[export] Instance zero_l1_ost_ctx : Zero l1_ost_ctx_t :=
  L1OstCtx 0 L1_OST_CACHED bti_req_zero false 0 0 false false false 0 0.

Record l1_lookup_pipe_t := L1LookupPipe {
  lp_req : bti_req_if_t; lp_bypass : bool; lp_hit : bool; lp_way : Z; lp_line_idx : Z }.
#[export] Instance eta_l1_lookup_pipe : Eta l1_lookup_pipe_t := fun p =>
  L1LookupPipe (lp_req p) (lp_bypass p) (lp_hit p) (lp_way p) (lp_line_idx p).

Record l1_hit_pipe_t := L1HitPipe { hp_req : bti_req_if_t; hp_slot : Z; hp_way : Z; hp_line_idx : Z }.
#[export] Instance eta_l1_hit_pipe : Eta l1_hit_pipe_t := fun p =>
  L1HitPipe (hp_req p) (hp_slot p) (hp_way p) (hp_line_idx p).

(** The flush interfaces may be left unconnected, a null pointer.  Their packets carry nothing. *)
Record l1_t := L1 {
  c_bti_req_slv : chan bti_req_if_t;
  c_bti_rsp_mst : chan bti_rsp_if_t;
  c_axi4_aw_mst : chan axi4_aw_if_t;
  c_axi4_w_mst : chan axi4_w_if_t;
  c_axi4_b_slv : chan axi4_b_if_t;
  c_axi4_ar_mst : chan axi4_ar_if_t;
  c_axi4_r_slv : chan axi4_r_if_t;
  c_flush_slv : option (chan unit);
  c_flush_ack_mst : option (chan unit);
  c_conf : l1_conf_t;
  c_set_num : Z;
  c_line_num : Z;
  c_tags : list Z;
  c_data : list Z;
  c_replace_ways : list Z;
  c_valids : list bool;
  c_dirtys : list bool;
  c_req_fifo : chan bti_req_if_t;
  c_ost : ostq_t l1_ost_ctx_t;
  c_req_pipe_vld : bool;
  c_req_pipe : bti_req_if_t;
  c_lookup_pipe_vld : bool;
  c_lookup_pipe : l1_lookup_pipe_t;
  c_hit_pipe_vld : bool;
  c_hit_pipe : l1_hit_pipe_t;
  c_state : l1_state_t;
  c_active_slot : Z;
  c_req : bti_req_if_t;
  c_req_set : Z;
  c_req_way : Z;
  c_req_line_idx : Z;
  c_req_tag : Z;
  c_req_line_addr : Z;
  c_req_byte_idx : Z;
  c_req_data : Z;
  c_wb_line_addr : Z;
  c_beat_idx : Z;
  c_flush_line_idx : Z;
  c_op_ok : bool;
  c_perf_hit : Z;
  c_perf_miss : Z;
  c_perf_bypass : Z;
  c_perf_writeback : Z;
  c_perf_stg_full : Z;
  c_perf_ost_full : Z;
  c_perf_miss_busy : Z
}.
#[export] Instance eta_l1 : Eta l1_t := fun l =>
  L1 (c_bti_req_slv l) (c_bti_rsp_mst l) (c_axi4_aw_mst l) (c_axi4_w_mst l) (c_axi4_b_slv l)
    (c_axi4_ar_mst l) (c_axi4_r_slv l) (c_flush_slv l) (c_flush_ack_mst l) (c_conf l) (c_set_num l)
    (c_line_num l) (c_tags l) (c_data l) (c_replace_ways l) (c_valids l) (c_dirtys l) (c_req_fifo l)
    (c_ost l) (c_req_pipe_vld l) (c_req_pipe l) (c_lookup_pipe_vld l) (c_lookup_pipe l)
    (c_hit_pipe_vld l) (c_hit_pipe l) (c_state l) (c_active_slot l) (c_req l) (c_req_set l)
    (c_req_way l) (c_req_line_idx l) (c_req_tag l) (c_req_line_addr l) (c_req_byte_idx l)
    (c_req_data l) (c_wb_line_addr l) (c_beat_idx l) (c_flush_line_idx l) (c_op_ok l) (c_perf_hit l)
    (c_perf_miss l) (c_perf_bypass l) (c_perf_writeback l) (c_perf_stg_full l) (c_perf_ost_full l)
    (c_perf_miss_busy l).

(** ** Addresses *)

Definition l1_line_idx (l1 : l1_t) (set way : Z) : Z := u32 (set * lf_way_num (c_conf l1) + way).

Definition l1_line_addr (l1 : l1_t) (tag set : Z) : Z :=
  u32 (u32 (u32 (tag * c_set_num l1) + set) * L1_LINE_SIZE).

Definition l1_req_line_addr (addr : Z) : Z := Z.land addr (not32 (L1_LINE_SIZE - 1)).

Definition l1_req_is_cbo (cmd : Z) : bool :=
  (cmd =? BTI_REQ_CMD_CBO_INVAL) || (cmd =? BTI_REQ_CMD_CBO_CLEAN) || (cmd =? BTI_REQ_CMD_CBO_FLUSH).

Definition l1_cbo_cleans (cmd : Z) : bool :=
  (cmd =? BTI_REQ_CMD_CBO_CLEAN) || (cmd =? BTI_REQ_CMD_CBO_FLUSH).

Definition l1_cbo_invalidates (cmd : Z) : bool :=
  (cmd =? BTI_REQ_CMD_CBO_INVAL) || (cmd =? BTI_REQ_CMD_CBO_FLUSH).

Definition l1_cbo_axi_user (cmd : Z) : option Z :=
  if cmd =? BTI_REQ_CMD_CBO_INVAL then Some AXI4_USER_CMO_INVAL
  else if cmd =? BTI_REQ_CMD_CBO_CLEAN then Some AXI4_USER_CMO_CLEAN
  else if cmd =? BTI_REQ_CMD_CBO_FLUSH then Some AXI4_USER_CMO_FLUSH
  else None.

Definition l1_req_set (l1 : l1_t) (addr : Z) : Z := (l1_req_line_addr addr / L1_LINE_SIZE) mod c_set_num l1.

Definition l1_req_tag (l1 : l1_t) (addr : Z) : Z := (l1_req_line_addr addr / L1_LINE_SIZE) / c_set_num l1.

(** The loop over the ranges: bases and sizes side by side. *)
Fixpoint bypass_loop (ranges : list (Z * Z)) (addr : Z) : bool :=
  match ranges with
  | [] => false
  | (base, size) :: ranges =>
    if size =? 0 then bypass_loop ranges addr
    else if ADDR_IN addr base size then true
    else bypass_loop ranges addr
  end.

Definition l1_bypass (l1 : l1_t) (addr : Z) : bool :=
  if lf_full_bypass (c_conf l1) then true
  else bypass_loop (zip (lf_bypass_bases (c_conf l1)) (lf_bypass_sizes (c_conf l1))) addr.

(** The assignment in the loops over all lines; [None] is an access out of bounds. *)
Definition l1_invalidate : M l1_t unit :=
  l1 ← gets id;
  let n := Z.to_nat (c_line_num l1) in
  DBG_CHECK (bool_decide (n <= length (c_valids l1))%nat && bool_decide (n <= length (c_dirtys l1))%nat);;
  modify (fun l1 => l1 <| c_valids := replicate n false ++ drop n (c_valids l1) |>
    <| c_dirtys := replicate n false ++ drop n (c_dirtys l1) |>).

(** ** Words and bytes of a request *)

Definition l1_req_size_from (req : bti_req_if_t) : option Z :=
  if bq_size req <=? BTI_REQ_SIZE_B4 then Some (u32 (Z.shiftl 1 (bq_size req))) else None.

Definition l1_req_word_offset (req : bti_req_if_t) : Z := Z.land (bq_addr req) (L1_WORD_SIZE - 1).

Definition l1_req_aligned_word_addr (req : bti_req_if_t) : Z :=
  Z.land (bq_addr req) (not32 (L1_WORD_SIZE - 1)).

Definition l1_req_cross_word (req : bti_req_if_t) : option bool :=
  size ← l1_req_size_from req;
  Some (L1_WORD_SIZE <? l1_req_word_offset req + size).

Definition l1_bypass_beat_addr (ctx : l1_ost_ctx_t) : Z :=
  u32 (l1_req_aligned_word_addr (lx_req ctx) + lx_bypass_req_idx ctx * L1_WORD_SIZE).

Definition l1_bypass_first_read_data (data offset : Z) : Z := Z.shiftr data (offset * 8).

Definition l1_bypass_second_read_data (data offset : Z) : Z :=
  u32 (Z.shiftl data ((L1_WORD_SIZE - offset) * 8)).

Definition l1_bypass_write_data (ctx : l1_ost_ctx_t) : Z :=
  let offset := l1_req_word_offset (lx_req ctx) in
  if lx_bypass_req_idx ctx =? 0 then u32 (Z.shiftl (bq_data (lx_req ctx)) (offset * 8))
  else Z.shiftr (bq_data (lx_req ctx)) ((L1_WORD_SIZE - offset) * 8).

Definition l1_bypass_write_strobe (ctx : l1_ost_ctx_t) : Z :=
  let offset := l1_req_word_offset (lx_req ctx) in
  if lx_bypass_req_idx ctx =? 0 then Z.land (Z.shiftl (bq_strobe (lx_req ctx)) offset) 0xf
  else Z.land (Z.shiftr (bq_strobe (lx_req ctx)) (L1_WORD_SIZE - offset)) 0xf.

Definition l1_bypass_beat_num (ctx : l1_ost_ctx_t) : Z := if lx_bypass_split ctx then 2 else 1.

Definition l1_bypass_slot_can_issue (ctx : l1_ost_ctx_t) : bool :=
  negb (lx_rsp_vld ctx) && (lx_bypass_req_idx ctx <? l1_bypass_beat_num ctx) &&
  (lx_bypass_req_idx ctx =? lx_bypass_rsp_idx ctx).

Definition l1_bypass_slot_wait_rsp (ctx : l1_ost_ctx_t) : bool :=
  negb (lx_rsp_vld ctx) && (lx_bypass_rsp_idx ctx <? lx_bypass_req_idx ctx).

Definition l1_req_size (l1 : l1_t) : option Z := l1_req_size_from (c_req l1).

Definition l1_read_byte (l1 : l1_t) (line_idx line_offset : Z) : option Z :=
  word ← aget (c_data l1) (u32 (line_idx * L1_WORD_NUM + line_offset / L1_WORD_SIZE));
  Some (u8 (Z.shiftr word ((line_offset mod L1_WORD_SIZE) * 8))).

Definition l1_write_byte (line_idx line_offset data : Z) : M l1_t unit :=
  l1 ← gets id;
  let i := u32 (line_idx * L1_WORD_NUM + line_offset / L1_WORD_SIZE) in
  word ← of_option (aget (c_data l1) i);
  let shift := (line_offset mod L1_WORD_SIZE) * 8 in
  let word := Z.lor (Z.land word (not32 (u32 (Z.shiftl 0xff shift)))) (u32 (Z.shiftl data shift)) in
  d ← of_option (aset (c_data l1) i word);
  modify (fun l1 => l1 <| c_data := d |>).

Definition l1_set_valid (i : Z) (v : bool) : M l1_t unit :=
  l1 ← gets id;
  vs ← of_option (aset (c_valids l1) i v);
  modify (fun l1 => l1 <| c_valids := vs |>).

Definition l1_set_dirty (i : Z) (v : bool) : M l1_t unit :=
  l1 ← gets id;
  ds ← of_option (aset (c_dirtys l1) i v);
  modify (fun l1 => l1 <| c_dirtys := ds |>).

Definition l1_send_rsp_by_id (trans_id : Z) (ok : bool) (data : Z) : M l1_t unit :=
  on c_bti_rsp_mst (chan_write (BtiRsp (trans_id mod 65536) data ok)).

(** ** Construction and reset *)

(** The blocks of the arrays are arguments, since [malloc] leaves them uninitialised; [None] is a failed
    check or a division by zero. *)
Definition l1_construct (conf : l1_conf_t) (ctx_size : Z) (tags data replace_ways : list Z) (valids dirtys : list bool)
    (l1 : l1_t) : option l1_t :=
  let set_size := u32 (lf_way_num conf * L1_LINE_SIZE) in
  if (0 <? lf_way_num conf) && (L1_LINE_SIZE <=? lf_size conf) && negb (set_size =? 0) &&
     (lf_size conf mod set_size =? 0) && (0 <? lf_stg_fifo_depth conf) && (0 <? lf_ost_depth conf)
  then
    ost ← ostq_construct ctx_size (lf_ost_depth conf);
    let set_num := lf_size conf / set_size in
    Some (l1 <| c_conf := conf |> <| c_set_num := set_num |> <| c_line_num := u32 (set_num * lf_way_num conf) |>
      <| c_tags := tags |> <| c_data := data |> <| c_replace_ways := replace_ways |> <| c_valids := valids |>
      <| c_dirtys := dirtys |> <| c_req_fifo := Chan (lf_stg_fifo_depth conf) [] |> <| c_ost := ost |>)
  else None.

Definition l1_reset : M l1_t unit :=
  modify (fun l1 => l1 <| c_state := L1_STATE_IDLE |> <| c_active_slot := 0 |> <| c_beat_idx := 0 |>
    <| c_op_ok := true |> <| c_req_byte_idx := 0 |> <| c_req_data := 0 |> <| c_flush_line_idx := 0 |>
    <| c_req_pipe_vld := false |> <| c_lookup_pipe_vld := false |> <| c_hit_pipe_vld := false |>);;
  on c_req_fifo chan_clear;;
  on c_ost ostq_reset;;
  modify (fun l1 => l1 <| c_perf_hit := 0 |> <| c_perf_miss := 0 |> <| c_perf_bypass := 0 |>
    <| c_perf_writeback := 0 |> <| c_perf_stg_full := 0 |> <| c_perf_ost_full := 0 |>
    <| c_perf_miss_busy := 0 |>);;
  l1_invalidate;;
  l1 ← gets id;
  let n := Z.to_nat (c_line_num l1) in
  let m := Z.to_nat (u32 (c_line_num l1 * L1_WORD_NUM)) in
  let s := Z.to_nat (c_set_num l1) in
  DBG_CHECK (bool_decide (n <= length (c_tags l1))%nat && bool_decide (m <= length (c_data l1))%nat &&
    bool_decide (s <= length (c_replace_ways l1))%nat);;
  modify (fun l1 => l1 <| c_tags := replicate n 0 ++ drop n (c_tags l1) |>
    <| c_data := replicate m 0 ++ drop m (c_data l1) |>
    <| c_replace_ways := replicate s 0 ++ drop s (c_replace_ways l1) |>).

(** ** Lookup and replacement *)

(** The loop of both lookups, from way [i] on with [n] turns left. *)
Fixpoint lookup_loop (l1 : l1_t) (set tag : Z) (n : nat) (i : Z) : option (option (Z * Z)) :=
  match n with
  | O => Some None
  | S n =>
    let idx := l1_line_idx l1 set i in
    v ← aget (c_valids l1) idx;
    t ← aget (c_tags l1) idx;
    if v && (t =? tag) then Some (Some (i, idx)) else lookup_loop l1 set tag n (i + 1)
  end.

Definition l1_lookup (l1 : l1_t) : option (option (Z * Z)) :=
  lookup_loop l1 (c_req_set l1) (c_req_tag l1) (Z.to_nat (lf_way_num (c_conf l1))) 0.

Definition l1_lookup_addr (l1 : l1_t) (addr : Z) : option (option (Z * Z)) :=
  lookup_loop l1 (l1_req_set l1 addr) (l1_req_tag l1 addr) (Z.to_nat (lf_way_num (c_conf l1))) 0.

Fixpoint free_way_loop (l1 : l1_t) (n : nat) (i : Z) : option (option (Z * Z)) :=
  match n with
  | O => Some None
  | S n =>
    let idx := l1_line_idx l1 (c_req_set l1) i in
    v ← aget (c_valids l1) idx;
    if negb v : bool then Some (Some (i, idx)) else free_way_loop l1 n (i + 1)
  end.

Definition l1_select_victim : M l1_t unit :=
  l1 ← gets id;
  free ← of_option (free_way_loop l1 (Z.to_nat (lf_way_num (c_conf l1))) 0);
  match free with
  | Some (i, idx) => modify (fun l1 => l1 <| c_req_way := i |> <| c_req_line_idx := idx |>)
  | None =>
    way ← of_option (aget (c_replace_ways l1) (c_req_set l1));
    ways ← of_option (aset (c_replace_ways l1) (c_req_set l1) (u32 (way + 1) mod lf_way_num (c_conf l1)));
    modify (fun l1 => l1 <| c_req_way := way |> <| c_req_line_idx := l1_line_idx l1 (c_req_set l1) way |>
      <| c_replace_ways := ways |>)
  end.

Definition l1_setup_fragment : M l1_t unit :=
  modify (fun l1 =>
    let addr := u32 (bq_addr (c_req l1) + c_req_byte_idx l1) in
    l1 <| c_req_line_addr := l1_req_line_addr addr |> <| c_req_set := l1_req_set l1 addr |>
      <| c_req_tag := l1_req_tag l1 addr |>).

Definition l1_start_cached_fragment : M l1_t unit :=
  l1_setup_fragment;;
  l1 ← gets id;
  found ← of_option (l1_lookup l1);
  match found with
  | Some (way, line_idx) =>
    modify (fun l1 => l1 <| c_perf_hit := u64 (c_perf_hit l1 + 1) |> <| c_req_way := way |>
      <| c_req_line_idx := line_idx |> <| c_state := L1_STATE_SERVE_MISS |>)
  | None =>
    modify (fun l1 => l1 <| c_perf_miss := u64 (c_perf_miss l1 + 1) |>);;
    l1_select_victim;;
    l1 ← gets id;
    v ← of_option (aget (c_valids l1) (c_req_line_idx l1));
    d ← (if v : bool then of_option (aget (c_dirtys l1) (c_req_line_idx l1)) else mret false);
    if (v && d) : bool then
      tag ← of_option (aget (c_tags l1) (c_req_line_idx l1));
      modify (fun l1 => l1 <| c_perf_writeback := u64 (c_perf_writeback l1 + 1) |>
        <| c_wb_line_addr := l1_line_addr l1 tag (c_req_set l1) |> <| c_beat_idx := 0 |>
        <| c_state := L1_STATE_WB_AW |>)
    else modify (fun l1 => l1 <| c_beat_idx := 0 |> <| c_state := L1_STATE_REFILL_AR |>)
  end.

Definition l1_start_cbo : M l1_t unit :=
  l1 ← gets id;
  DBG_CHECK (l1_req_is_cbo (bq_cmd (c_req l1)));;
  l1_setup_fragment;;
  l1 ← gets id;
  found ← of_option (l1_lookup l1);
  match found with
  | Some (way, line_idx) =>
    modify (fun l1 => l1 <| c_req_way := way |> <| c_req_line_idx := line_idx |>);;
    d ← (if l1_cbo_cleans (bq_cmd (c_req l1)) then of_option (aget (c_dirtys l1) line_idx) else mret false);
    if d : bool then
      modify (fun l1 => l1 <| c_beat_idx := 0 |> <| c_wb_line_addr := c_req_line_addr l1 |>
        <| c_state := L1_STATE_CMO_L1_WB_AW |>)
    else
      when (l1_cbo_invalidates (bq_cmd (c_req l1)))
        (l1_set_valid line_idx false;; l1_set_dirty line_idx false);;
      modify (fun l1 => l1 <| c_state := L1_STATE_CMO_L2_AR |>)
  | None => modify (fun l1 => l1 <| c_state := L1_STATE_CMO_L2_AR |>)
  end.

(** ** The outstanding queue *)

Definition l1_alloc_ost (req : bti_req_if_t) (kind : l1_ost_kind_t) : M l1_t (option Z) :=
  l1 ← gets id;
  if ostq_full (c_ost l1) then
    modify (fun l1 => l1 <| c_perf_ost_full := u64 (c_perf_ost_full l1 + 1) |>);;
    mret None
  else
    split ← (if bool_decide (kind = L1_OST_BYPASS_RD) || bool_decide (kind = L1_OST_BYPASS_WR)
             then of_option (l1_req_cross_word req) else mret false);
    on c_ost (ostq_alloc (L1OstCtx (bq_trans_id req) kind req split 0 0 false false false 0 0)).

Definition l1_complete_slot (slot : Z) (ok : bool) (data : Z) : M l1_t unit :=
  l1 ← gets id;
  ctx ← on c_ost (ostq_read_slot slot);
  on c_ost (ostq_write_slot slot (ctx <| lx_ok := ok |> <| lx_data := data |>
    <| lx_rsp_vld := lf_latency (c_conf l1) =? 0 |>
    <| lx_rsp_delay_pend := negb (lf_latency (c_conf l1) =? 0) |> <| lx_delay := 0 |>)).

(** The body of the loop for a context. *)
Definition tick_ctx (latency : Z) (ctx : l1_ost_ctx_t) : l1_ost_ctx_t :=
  let ctx := ctx <| lx_delay := u32 (lx_delay ctx + 1) |> in
  if latency <=? lx_delay ctx then ctx <| lx_rsp_delay_pend := false |> <| lx_rsp_vld := true |>
  else ctx.

Fixpoint tick_loop (latency : Z) (n : nat) (i : Z) : M (ostq_t l1_ost_ctx_t) unit :=
  match n with
  | O => mret tt
  | S n =>
    ok ← ostq_slot_valid i;
    when ok
      (ctx ← ostq_read_slot i;
       when (lx_rsp_delay_pend ctx) (ostq_write_slot i (tick_ctx latency ctx)));;
    tick_loop latency n (i + 1)
  end.

Definition l1_tick_rsp_delay : M l1_t unit :=
  l1 ← gets id;
  if lf_latency (c_conf l1) =? 0 then mret tt
  else on c_ost (tick_loop (lf_latency (c_conf l1)) (Z.to_nat (q_depth (c_ost l1))) 0).

Fixpoint has_bypass_loop (n : nat) (i : Z) : M (ostq_t l1_ost_ctx_t) bool :=
  match n with
  | O => mret false
  | S n =>
    ok ← ostq_slot_valid i;
    if negb ok then has_bypass_loop n (i + 1)
    else
      ctx ← ostq_read_slot i;
      if bool_decide (lx_kind ctx = L1_OST_BYPASS_RD) || bool_decide (lx_kind ctx = L1_OST_BYPASS_WR)
      then mret true else has_bypass_loop n (i + 1)
  end.

Definition l1_has_bypass_ost : M l1_t bool :=
  l1 ← gets id;
  on c_ost (has_bypass_loop (Z.to_nat (q_depth (c_ost l1))) 0).

Definition l1_state_is_flush (state : l1_state_t) : bool :=
  match state with
  | L1_STATE_FLUSH_CHECK | L1_STATE_FLUSH_WB_AW | L1_STATE_FLUSH_WB_W | L1_STATE_FLUSH_WB_B
  | L1_STATE_FLUSH_ACK => true
  | _ => false
  end.

(** ** Hits *)

Definition l1_active_line_conflict (l1 : l1_t) (line_idx : Z) : bool :=
  bool_decide (c_state l1 <> L1_STATE_IDLE) && (line_idx =? c_req_line_idx l1).

(** The result and the way and line that were written through the pointers, if any. *)
Definition l1_lookup_fast_hit (l1 : l1_t) (req : bti_req_if_t) : option (bool * option (Z * Z)) :=
  size ← l1_req_size_from req;
  let end_addr := u32 (bq_addr req + size - 1) in
  if negb (l1_req_line_addr (bq_addr req) =? l1_req_line_addr end_addr) then Some (false, None)
  else
    found ← l1_lookup_addr l1 (bq_addr req);
    Some (match found with
      | Some (way, line_idx) => (negb (l1_active_line_conflict l1 line_idx), Some (way, line_idx))
      | None => (false, None)
      end).

Definition l1_lookup_pipe_hit_valid (l1 : l1_t) : option bool :=
  if negb (lp_hit (c_lookup_pipe l1)) then Some false
  else
    let req := lp_req (c_lookup_pipe l1) in
    let line_idx := lp_line_idx (c_lookup_pipe l1) in
    v ← aget (c_valids l1) line_idx;
    t ← aget (c_tags l1) line_idx;
    Some (v && (t =? l1_req_tag l1 (bq_addr req)) && negb (l1_active_line_conflict l1 line_idx)).

(** Byte [i] of the access in the hit pipe and the bytes after it, [n] in all. *)
Fixpoint hit_loop (req : bti_req_if_t) (line_idx line_offset : Z) (n : nat) (i data : Z) : M l1_t Z :=
  match n with
  | O => mret data
  | S n =>
    data ← (if bq_cmd req =? BTI_REQ_CMD_WRITE then
        when (nz (Z.land (bq_strobe req) (Z.shiftl 1 i)))
          (l1_write_byte line_idx (line_offset + i) (u8 (Z.shiftr (bq_data req) (i * 8)));;
           l1_set_dirty line_idx true);;
        mret data
      else
        l1 ← gets id;
        b ← of_option (l1_read_byte l1 line_idx (line_offset + i));
        mret (Z.lor data (u32 (Z.shiftl b (i * 8)))));
    hit_loop req line_idx line_offset n (i + 1) data
  end.

Definition l1_proc_hit_pipe : M l1_t unit :=
  l1 ← gets id;
  if negb (c_hit_pipe_vld l1) then mret tt
  else
    let req := hp_req (c_hit_pipe l1) in
    req_size ← of_option (l1_req_size_from req);
    let line_offset := Z.land (bq_addr req) (L1_LINE_SIZE - 1) in
    data ← hit_loop req (hp_line_idx (c_hit_pipe l1)) line_offset (Z.to_nat req_size) 0 0;
    l1_complete_slot (hp_slot (c_hit_pipe l1)) true
      (if bq_cmd req =? BTI_REQ_CMD_READ then data else 0);;
    modify (fun l1 => l1 <| c_hit_pipe_vld := false |>).

(** ** Bypass *)

Definition l1_issue_bypass_read (slot : Z) (ctx : l1_ost_ctx_t) : M l1_t unit :=
  DBG_CHECK (slot <=? 0xff);;
  on c_axi4_ar_mst (chan_write (AxiAr (u8 slot) (l1_bypass_beat_addr ctx) 0 AXI4_SIZE_B4
    AXI4_BURST_INCR false 0 0 0 0));;
  on c_ost (ostq_write_slot slot (ctx <| lx_bypass_req_idx := u32 (lx_bypass_req_idx ctx + 1) |>)).

Definition l1_issue_bypass_write (slot : Z) (ctx : l1_ost_ctx_t) : M l1_t unit :=
  DBG_CHECK (slot <=? 0xff);;
  on c_axi4_aw_mst (chan_write (AxiAw (u8 slot) (l1_bypass_beat_addr ctx) 0 AXI4_SIZE_B4
    AXI4_BURST_INCR false 0 0 0 0));;
  on c_axi4_w_mst (chan_write (AxiW (l1_bypass_write_data ctx) (l1_bypass_write_strobe ctx) true));;
  on c_ost (ostq_write_slot slot (ctx <| lx_bypass_req_idx := u32 (lx_bypass_req_idx ctx + 1) |>)).

Definition l1_try_bypass_req (req : bti_req_if_t) : M l1_t bool :=
  l1 ← gets id;
  if bool_decide (c_state l1 <> L1_STATE_IDLE) then mret false
  else if bq_cmd req =? BTI_REQ_CMD_READ then
    if chan_full (c_axi4_ar_mst l1) then mret false
    else
      slot ← l1_alloc_ost req L1_OST_BYPASS_RD;
      match slot with
      | None => mret false
      | Some slot =>
        ctx ← on c_ost (ostq_read_slot slot);
        l1_issue_bypass_read slot ctx;;
        mret true
      end
  else if lf_ro (c_conf l1) then
    slot ← l1_alloc_ost req L1_OST_CACHED;
    match slot with
    | None => mret false
    | Some slot => l1_complete_slot slot false 0;; mret true
    end
  else if chan_full (c_axi4_aw_mst l1) || chan_full (c_axi4_w_mst l1) then mret false
  else
    slot ← l1_alloc_ost req L1_OST_BYPASS_WR;
    match slot with
    | None => mret false
    | Some slot =>
      ctx ← on c_ost (ostq_read_slot slot);
      l1_issue_bypass_write slot ctx;;
      mret true
    end.

(** ** The request pipeline *)

Definition l1_capture_req : M l1_t unit :=
  l1 ← gets id;
  if chan_full (c_req_fifo l1) then
    when (negb (chan_empty (c_bti_req_slv l1)))
      (modify (fun l1 => l1 <| c_perf_stg_full := u64 (c_perf_stg_full l1 + 1) |>))
  else if chan_empty (c_bti_req_slv l1) then mret tt
  else
    req ← on c_bti_req_slv chan_read;
    on c_req_fifo (chan_write req).

Definition l1_fill_req_pipe : M l1_t unit :=
  l1 ← gets id;
  if c_req_pipe_vld l1 || l1_state_is_flush (c_state l1) || chan_empty (c_req_fifo l1) then mret tt
  else
    req ← on c_req_fifo chan_read;
    modify (fun l1 => l1 <| c_req_pipe := req |> <| c_req_pipe_vld := true |>).

Definition l1_fill_lookup_pipe : M l1_t unit :=
  l1 ← gets id;
  if c_lookup_pipe_vld l1 || negb (c_req_pipe_vld l1) || l1_state_is_flush (c_state l1) then mret tt
  else
    let req := c_req_pipe l1 in
    let bypass := l1_bypass l1 (bq_addr req) in
    modify (fun l1 => l1 <| c_req_pipe_vld := false |>
      <| c_lookup_pipe := L1LookupPipe req bypass false 0 0 |>);;
    when (negb (l1_req_is_cbo (bq_cmd req)) &&
          ((bq_cmd req =? BTI_REQ_CMD_READ) || (bq_cmd req =? BTI_REQ_CMD_WRITE)) &&
          negb bypass && negb (lf_ro (c_conf l1) && (bq_cmd req =? BTI_REQ_CMD_WRITE)))
      ('(hit, found) ← of_option (l1_lookup_fast_hit l1 req);
       let '(way, line_idx) := default (0, 0) found in
       modify (fun l1 => l1 <| c_lookup_pipe := L1LookupPipe req bypass hit way line_idx |>));;
    modify (fun l1 => l1 <| c_lookup_pipe_vld := true |>).

(** A request that starts the state machine. *)
Definition l1_take_active (slot : Z) (req : bti_req_if_t) : M l1_t unit :=
  modify (fun l1 => l1 <| c_lookup_pipe_vld := false |> <| c_active_slot := slot |> <| c_req := req |>
    <| c_op_ok := true |> <| c_req_byte_idx := 0 |> <| c_req_data := 0 |>).

(** A request that is answered with an error. *)
Definition l1_refuse (req : bti_req_if_t) : M l1_t unit :=
  slot ← l1_alloc_ost req L1_OST_CACHED;
  match slot with
  | None => mret tt
  | Some slot =>
    modify (fun l1 => l1 <| c_lookup_pipe_vld := false |>);;
    l1_complete_slot slot false 0
  end.

Definition l1_proc_lookup_pipe : M l1_t unit :=
  l1 ← gets id;
  if negb (c_lookup_pipe_vld l1) || l1_state_is_flush (c_state l1) then mret tt
  else if ostq_full (c_ost l1) then
    modify (fun l1 => l1 <| c_perf_ost_full := u64 (c_perf_ost_full l1 + 1) |>)
  else
    let req := lp_req (c_lookup_pipe l1) in
    if l1_req_is_cbo (bq_cmd req) then
      if bool_decide (c_state l1 <> L1_STATE_IDLE) || negb (ostq_empty (c_ost l1)) then mret tt
      else
        slot ← l1_alloc_ost req L1_OST_CACHED;
        match slot with
        | None => mret tt
        | Some slot => l1_take_active slot req;; l1_start_cbo
        end
    else if negb (bq_cmd req =? BTI_REQ_CMD_READ) && negb (bq_cmd req =? BTI_REQ_CMD_WRITE) then
      l1_refuse req
    else if lp_bypass (c_lookup_pipe l1) then
      modify (fun l1 => l1 <| c_perf_bypass := u64 (c_perf_bypass l1 + 1) |>);;
      done ← l1_try_bypass_req req;
      when done (modify (fun l1 => l1 <| c_lookup_pipe_vld := false |>))
    else if lf_ro (c_conf l1) && (bq_cmd req =? BTI_REQ_CMD_WRITE) then l1_refuse req
    else
      hit ← of_option (l1_lookup_pipe_hit_valid l1);
      if hit : bool then
        modify (fun l1 => l1 <| c_perf_hit := u64 (c_perf_hit l1 + 1) |>);;
        slot ← l1_alloc_ost req L1_OST_CACHED;
        match slot with
        | None => mret tt
        | Some slot =>
          modify (fun l1 => l1 <| c_lookup_pipe_vld := false |> <| c_hit_pipe_vld := true |>
            <| c_hit_pipe := L1HitPipe req slot (lp_way (c_lookup_pipe l1)) (lp_line_idx (c_lookup_pipe l1)) |>)
        end
      else
        busy ← (if bool_decide (c_state l1 <> L1_STATE_IDLE) then mret true else l1_has_bypass_ost);
        if busy : bool then
          modify (fun l1 => l1 <| c_perf_miss_busy := u64 (c_perf_miss_busy l1 + 1) |>)
        else
          slot ← l1_alloc_ost req L1_OST_CACHED;
          match slot with
          | None => mret tt
          | Some slot => l1_take_active slot req;; l1_start_cached_fragment
          end.

(** ** Cache block operations *)

(** The burst that writes a line. *)
Definition l1_wb_aw (addr : Z) : axi4_aw_if_t :=
  AxiAw 0 addr (L1_WORD_NUM - 1) AXI4_SIZE_B4 AXI4_BURST_INCR false 0xf 0 0 0.

Definition l1_proc_cmo_l1_wb_aw : M l1_t unit :=
  l1 ← gets id;
  if bool_decide (c_state l1 <> L1_STATE_CMO_L1_WB_AW) || chan_full (c_axi4_aw_mst l1) then mret tt
  else
    on c_axi4_aw_mst (chan_write (l1_wb_aw (c_wb_line_addr l1)));;
    modify (fun l1 => l1 <| c_beat_idx := 0 |> <| c_state := L1_STATE_CMO_L1_WB_W |>).

(** One word of the line [line_idx]; the result says that it was the last. *)
Definition l1_write_beat (line_idx : Z) : M l1_t bool :=
  l1 ← gets id;
  word ← of_option (aget (c_data l1) (u32 (line_idx * L1_WORD_NUM + c_beat_idx l1)));
  let last := c_beat_idx l1 =? L1_WORD_NUM - 1 in
  on c_axi4_w_mst (chan_write (AxiW word 0xf last));;
  mret last.

Definition l1_proc_cmo_l1_wb_w : M l1_t unit :=
  l1 ← gets id;
  if bool_decide (c_state l1 <> L1_STATE_CMO_L1_WB_W) || chan_full (c_axi4_w_mst l1) then mret tt
  else
    last ← l1_write_beat (c_req_line_idx l1);
    if last : bool then modify (fun l1 => l1 <| c_state := L1_STATE_CMO_L1_WB_B |>)
    else modify (fun l1 => l1 <| c_beat_idx := u32 (c_beat_idx l1 + 1) |>).

Definition l1_proc_cmo_l1_wb_b : M l1_t unit :=
  l1 ← gets id;
  if bool_decide (c_state l1 <> L1_STATE_CMO_L1_WB_B) || chan_empty (c_axi4_b_slv l1) then mret tt
  else
    b ← on c_axi4_b_slv chan_read;
    if negb (b_resp b =? AXI4_RESP_OKAY) then
      l1_complete_slot (c_active_slot l1) false 0;;
      modify (fun l1 => l1 <| c_state := L1_STATE_IDLE |>)
    else
      l1_set_dirty (c_req_line_idx l1) false;;
      when (l1_cbo_invalidates (bq_cmd (c_req l1))) (l1_set_valid (c_req_line_idx l1) false);;
      modify (fun l1 => l1 <| c_state := L1_STATE_CMO_L2_AR |>).

Definition l1_proc_cmo_l2_ar : M l1_t unit :=
  l1 ← gets id;
  if bool_decide (c_state l1 <> L1_STATE_CMO_L2_AR) || chan_full (c_axi4_ar_mst l1) then mret tt
  else
    user ← of_option (l1_cbo_axi_user (bq_cmd (c_req l1)));
    on c_axi4_ar_mst (chan_write (AxiAr 0 (c_req_line_addr l1) 0 AXI4_SIZE_B4 AXI4_BURST_FIXED false 0xf 0 0 user));;
    modify (fun l1 => l1 <| c_state := L1_STATE_CMO_L2_R |>).

Definition l1_proc_cmo_l2_r : M l1_t unit :=
  l1 ← gets id;
  if bool_decide (c_state l1 <> L1_STATE_CMO_L2_R) || chan_empty (c_axi4_r_slv l1) then mret tt
  else
    r ← on c_axi4_r_slv chan_read;
    DBG_CHECK (r_last r);;
    l1_complete_slot (c_active_slot l1) (r_resp r =? AXI4_RESP_OKAY) 0;;
    modify (fun l1 => l1 <| c_state := L1_STATE_IDLE |>).

(** ** Flush *)

Definition l1_proc_flush : M l1_t unit :=
  l1 ← gets id;
  match c_flush_slv l1 with
  | None => mret tt
  | Some slv =>
    if chan_empty slv then mret tt
    else
      busy ← (if negb (ostq_empty (c_ost l1)) then mret true else l1_has_bypass_ost);
      if busy : bool then mret tt
      else if lf_ro (c_conf l1) && match c_flush_ack_mst l1 with Some ack => chan_full ack | None => false end
      then mret tt
      else
        '(_, slv) ← of_option (chan_read slv);
        modify (fun l1 => l1 <| c_flush_slv := Some slv |>);;
        if lf_ro (c_conf l1) then
          l1_invalidate;;
          match c_flush_ack_mst l1 with
          | None => mret tt
          | Some ack =>
            '(_, ack) ← of_option (chan_write tt ack);
            modify (fun l1 => l1 <| c_flush_ack_mst := Some ack |>)
          end
        else
          modify (fun l1 => l1 <| c_flush_line_idx := 0 |> <| c_beat_idx := 0 |> <| c_op_ok := true |>
            <| c_state := L1_STATE_FLUSH_CHECK |>)
  end.

Definition l1_flush_finish : M l1_t unit :=
  modify (fun l1 => l1 <| c_state :=
    match c_flush_ack_mst l1 with Some _ => L1_STATE_FLUSH_ACK | None => L1_STATE_IDLE end |>).

Definition l1_flush_advance : M l1_t unit :=
  l1 ← gets id;
  if c_line_num l1 <=? u32 (c_flush_line_idx l1 + 1) then l1_flush_finish
  else modify (fun l1 => l1 <| c_flush_line_idx := u32 (c_flush_line_idx l1 + 1) |>
    <| c_state := L1_STATE_FLUSH_CHECK |>).

Definition l1_proc_flush_check : M l1_t unit :=
  l1 ← gets id;
  if bool_decide (c_state l1 <> L1_STATE_FLUSH_CHECK) then mret tt
  else
    let idx := c_flush_line_idx l1 in
    v ← of_option (aget (c_valids l1) idx);
    d ← (if v : bool then of_option (aget (c_dirtys l1) idx) else mret false);
    if (v && d) : bool then
      tag ← of_option (aget (c_tags l1) idx);
      modify (fun l1 => l1 <| c_perf_writeback := u64 (c_perf_writeback l1 + 1) |>
        <| c_wb_line_addr := l1_line_addr l1 tag (idx / lf_way_num (c_conf l1)) |> <| c_beat_idx := 0 |>
        <| c_op_ok := true |> <| c_state := L1_STATE_FLUSH_WB_AW |>)
    else
      l1_set_valid idx false;;
      l1_set_dirty idx false;;
      l1_flush_advance.

Definition l1_proc_flush_ack : M l1_t unit :=
  l1 ← gets id;
  if bool_decide (c_state l1 <> L1_STATE_FLUSH_ACK) then mret tt
  else
    ack ← of_option (c_flush_ack_mst l1);
    if chan_full ack then mret tt
    else
      '(_, ack) ← of_option (chan_write tt ack);
      modify (fun l1 => l1 <| c_flush_ack_mst := Some ack |> <| c_state := L1_STATE_IDLE |>).

(** ** Bypass responses *)

Definition l1_find_bypass_issue_slot (kind : l1_ost_kind_t) : M l1_t (option (l1_ost_ctx_t * Z)) :=
  on c_ost (ostq_scan (fun cur => bool_decide (lx_kind cur = kind) && l1_bypass_slot_can_issue cur)).

Definition l1_mark_bypass_rsp (slot : Z) (ctx : l1_ost_ctx_t) : M l1_t unit :=
  l1 ← gets id;
  on c_ost (ostq_write_slot slot (
    if lx_bypass_rsp_idx ctx =? l1_bypass_beat_num ctx then
      ctx <| lx_rsp_vld := lf_latency (c_conf l1) =? 0 |>
        <| lx_rsp_delay_pend := negb (lf_latency (c_conf l1) =? 0) |> <| lx_delay := 0 |>
    else ctx)).

Definition l1_proc_bypass_rd_wait : M l1_t unit :=
  l1 ← gets id;
  if chan_empty (c_axi4_r_slv l1) then mret tt
  else
    r ← on c_axi4_r_slv chan_front;
    let slot := r_id r in
    valid ← (if q_depth (c_ost l1) <=? slot then mret false else on c_ost (ostq_slot_valid slot));
    if negb valid then mret tt
    else
      ctx ← on c_ost (ostq_read_slot slot);
      if bool_decide (lx_kind ctx <> L1_OST_BYPASS_RD) || negb (l1_bypass_slot_wait_rsp ctx) then mret tt
      else
        on c_axi4_r_slv chan_read;;
        DBG_CHECK (r_last r);;
        let resp_ok := r_resp r =? AXI4_RESP_OKAY in
        let first := lx_bypass_rsp_idx ctx =? 0 in
        let offset := l1_req_word_offset (lx_req ctx) in
        let ctx := ctx <| lx_ok := if first then resp_ok else lx_ok ctx && resp_ok |> in
        let ctx := ctx <| lx_data := if first then l1_bypass_first_read_data (r_data r) offset
          else Z.lor (lx_data ctx) (l1_bypass_second_read_data (r_data r) offset) |> in
        l1_mark_bypass_rsp slot (ctx <| lx_bypass_rsp_idx := u32 (lx_bypass_rsp_idx ctx + 1) |>).

Definition l1_proc_bypass_wr_wait : M l1_t unit :=
  l1 ← gets id;
  if chan_empty (c_axi4_b_slv l1) then mret tt
  else
    b ← on c_axi4_b_slv chan_front;
    let slot := b_id b in
    valid ← (if q_depth (c_ost l1) <=? slot then mret false else on c_ost (ostq_slot_valid slot));
    if negb valid then mret tt
    else
      ctx ← on c_ost (ostq_read_slot slot);
      if bool_decide (lx_kind ctx <> L1_OST_BYPASS_WR) || negb (l1_bypass_slot_wait_rsp ctx) then mret tt
      else
        on c_axi4_b_slv chan_read;;
        let resp_ok := b_resp b =? AXI4_RESP_OKAY in
        let ctx := ctx <| lx_ok := if lx_bypass_rsp_idx ctx =? 0 then resp_ok else lx_ok ctx && resp_ok |> in
        l1_mark_bypass_rsp slot (ctx <| lx_data := 0 |>
          <| lx_bypass_rsp_idx := u32 (lx_bypass_rsp_idx ctx + 1) |>).

Definition l1_proc_bypass_rd_issue : M l1_t unit :=
  l1 ← gets id;
  if chan_full (c_axi4_ar_mst l1) then mret tt
  else
    found ← l1_find_bypass_issue_slot L1_OST_BYPASS_RD;
    match found with
    | None => mret tt
    | Some (ctx, slot) => l1_issue_bypass_read slot ctx
    end.

Definition l1_proc_bypass_wr_issue : M l1_t unit :=
  l1 ← gets id;
  if chan_full (c_axi4_aw_mst l1) || chan_full (c_axi4_w_mst l1) then mret tt
  else
    found ← l1_find_bypass_issue_slot L1_OST_BYPASS_WR;
    match found with
    | None => mret tt
    | Some (ctx, slot) => l1_issue_bypass_write slot ctx
    end.

Definition l1_send_ost_rsp : M l1_t unit :=
  l1 ← gets id;
  if chan_full (c_bti_rsp_mst l1) then mret tt
  else
    found ← on c_ost ostq_peek_head;
    match found with
    | None => mret tt
    | Some (ctx, _) =>
      if negb (lx_rsp_vld ctx) then mret tt
      else
        l1_send_rsp_by_id (lx_trans_id ctx) (lx_ok ctx) (lx_data ctx);;
        on c_ost ostq_free_head
    end.

(** ** Write back, refill and service of a miss *)

Definition l1_proc_wb_aw : M l1_t unit :=
  l1 ← gets id;
  let flush := bool_decide (c_state l1 = L1_STATE_FLUSH_WB_AW) in
  if (bool_decide (c_state l1 <> L1_STATE_WB_AW) && negb flush) || chan_full (c_axi4_aw_mst l1) then mret tt
  else
    on c_axi4_aw_mst (chan_write (l1_wb_aw (c_wb_line_addr l1)));;
    modify (fun l1 => l1 <| c_beat_idx := 0 |>
      <| c_state := if flush then L1_STATE_FLUSH_WB_W else L1_STATE_WB_W |>).

Definition l1_proc_wb_w : M l1_t unit :=
  l1 ← gets id;
  let flush := bool_decide (c_state l1 = L1_STATE_FLUSH_WB_W) in
  if (bool_decide (c_state l1 <> L1_STATE_WB_W) && negb flush) || chan_full (c_axi4_w_mst l1) then mret tt
  else
    last ← l1_write_beat (if flush then c_flush_line_idx l1 else c_req_line_idx l1);
    if last : bool then
      modify (fun l1 => l1 <| c_state := if flush then L1_STATE_FLUSH_WB_B else L1_STATE_WB_B |>)
    else modify (fun l1 => l1 <| c_beat_idx := u32 (c_beat_idx l1 + 1) |>).

Definition l1_proc_wb_b : M l1_t unit :=
  l1 ← gets id;
  let flush := bool_decide (c_state l1 = L1_STATE_FLUSH_WB_B) in
  if (bool_decide (c_state l1 <> L1_STATE_WB_B) && negb flush) || chan_empty (c_axi4_b_slv l1) then mret tt
  else
    b ← on c_axi4_b_slv chan_read;
    let op_ok := b_resp b =? AXI4_RESP_OKAY in
    modify (fun l1 => l1 <| c_op_ok := op_ok |>);;
    if flush then
      l1_set_valid (c_flush_line_idx l1) false;;
      l1_set_dirty (c_flush_line_idx l1) false;;
      modify (fun l1 => l1 <| c_beat_idx := 0 |>);;
      l1_flush_advance
    else
      l1_set_dirty (c_req_line_idx l1) false;;
      modify (fun l1 => l1 <| c_beat_idx := 0 |>
        <| c_state := if op_ok then L1_STATE_REFILL_AR else L1_STATE_SERVE_MISS |>).

Definition l1_proc_refill_ar : M l1_t unit :=
  l1 ← gets id;
  if bool_decide (c_state l1 <> L1_STATE_REFILL_AR) || chan_full (c_axi4_ar_mst l1) then mret tt
  else
    on c_axi4_ar_mst (chan_write (AxiAr 0 (c_req_line_addr l1) (L1_WORD_NUM - 1) AXI4_SIZE_B4
      AXI4_BURST_INCR false 0xf 0 0 0));;
    modify (fun l1 => l1 <| c_beat_idx := 0 |> <| c_op_ok := true |> <| c_state := L1_STATE_REFILL_R |>).

Definition l1_proc_refill_r : M l1_t unit :=
  l1 ← gets id;
  if bool_decide (c_state l1 <> L1_STATE_REFILL_R) || chan_empty (c_axi4_r_slv l1) then mret tt
  else
    r ← on c_axi4_r_slv chan_read;
    when (negb (r_resp r =? AXI4_RESP_OKAY)) (modify (fun l1 => l1 <| c_op_ok := false |>));;
    d ← of_option (aset (c_data l1) (u32 (c_req_line_idx l1 * L1_WORD_NUM + c_beat_idx l1)) (r_data r));
    modify (fun l1 => l1 <| c_data := d |>);;
    if r_last r || (c_beat_idx l1 =? L1_WORD_NUM - 1) then
      l1 ← gets id;
      l1_set_valid (c_req_line_idx l1) (c_op_ok l1);;
      l1_set_dirty (c_req_line_idx l1) false;;
      t ← of_option (aset (c_tags l1) (c_req_line_idx l1) (c_req_tag l1));
      modify (fun l1 => l1 <| c_tags := t |> <| c_state := L1_STATE_SERVE_MISS |>)
    else modify (fun l1 => l1 <| c_beat_idx := u32 (c_beat_idx l1 + 1) |>).

(** The bytes of the access in this line, [n] left from byte [i] on. *)
Fixpoint serve_loop (line_offset : Z) (n : nat) (i : Z) : M l1_t unit :=
  match n with
  | O => mret tt
  | S n =>
    l1 ← gets id;
    let req_byte := u32 (c_req_byte_idx l1 + i) in
    if bq_cmd (c_req l1) =? BTI_REQ_CMD_WRITE then
      when (nz (Z.land (bq_strobe (c_req l1)) (Z.shiftl 1 req_byte)))
        (l1_write_byte (c_req_line_idx l1) (line_offset + i) (u8 (Z.shiftr (bq_data (c_req l1)) (req_byte * 8)));;
         l1_set_dirty (c_req_line_idx l1) true);;
      serve_loop line_offset n (i + 1)
    else if bq_cmd (c_req l1) =? BTI_REQ_CMD_READ then
      b ← of_option (l1_read_byte l1 (c_req_line_idx l1) (line_offset + i));
      modify (fun l1 => l1 <| c_req_data := Z.lor (c_req_data l1) (u32 (Z.shiftl b (req_byte * 8))) |>);;
      serve_loop line_offset n (i + 1)
    else modify (fun l1 => l1 <| c_op_ok := false |>)
  end.

Definition l1_proc_serve_miss : M l1_t unit :=
  l1 ← gets id;
  if bool_decide (c_state l1 <> L1_STATE_SERVE_MISS) then mret tt
  else if negb (c_op_ok l1) then
    l1_set_valid (c_req_line_idx l1) false;;
    l1_complete_slot (c_active_slot l1) false 0;;
    modify (fun l1 => l1 <| c_state := L1_STATE_IDLE |>)
  else
    req_size ← of_option (l1_req_size l1);
    let addr := u32 (bq_addr (c_req l1) + c_req_byte_idx l1) in
    let line_offset := Z.land addr (L1_LINE_SIZE - 1) in
    let byte_num := Z.min (u32 (req_size - c_req_byte_idx l1)) (L1_LINE_SIZE - line_offset) in
    serve_loop line_offset (Z.to_nat byte_num) 0;;
    modify (fun l1 => l1 <| c_req_byte_idx := u32 (c_req_byte_idx l1 + byte_num) |>);;
    l1 ← gets id;
    if c_req_byte_idx l1 <? req_size then l1_start_cached_fragment
    else
      l1_complete_slot (c_active_slot l1) (c_op_ok l1)
        (if bq_cmd (c_req l1) =? BTI_REQ_CMD_READ then c_req_data l1 else 0);;
      modify (fun l1 => l1 <| c_state := L1_STATE_IDLE |>).

(** ** The clock *)

Definition l1_clock : M l1_t unit :=
  on c_ost ostq_clock;;
  l1_tick_rsp_delay;;
  l1 ← gets id;
  when (bool_decide (c_state l1 = L1_STATE_IDLE)) l1_proc_flush;;
  l1_proc_flush_check;;
  l1_proc_flush_ack;;
  l1_proc_bypass_rd_wait;;
  l1_proc_bypass_wr_wait;;
  l1_proc_bypass_rd_issue;;
  l1_proc_bypass_wr_issue;;
  l1_proc_cmo_l2_r;;
  l1_proc_wb_b;;
  l1_proc_refill_r;;
  l1_proc_serve_miss;;
  l1_proc_cmo_l1_wb_b;;
  l1_proc_cmo_l1_wb_w;;
  l1_proc_cmo_l1_wb_aw;;
  l1_proc_cmo_l2_ar;;
  l1_send_ost_rsp;;
  l1_proc_hit_pipe;;
  l1_proc_wb_w;;
  l1_proc_wb_aw;;
  l1_proc_refill_ar;;
  l1_proc_lookup_pipe;;
  l1_fill_lookup_pipe;;
  l1_fill_req_pipe;;
  l1_capture_req.
