(* ===== verification/L1Cache.v ===== *)
(** * The contents of the level 1 cache

    What the arrays of [core/hart/l1.c] hold: the cached bytes and the memory behind the cache
    together represent one flat memory.  This file relates the arrays, the memory and the flat
    memory, and gives the rules of lookup, victim choice and byte accesses. *)

From stdpp Require Import base numbers list.
From Stdlib Require Import ZArith Lia.
From S2P Require Import Prelude Fifo Isa Bti Axi Ifu L1.

(** ** Bytes *)

(** Byte [k] of a word. *)
Definition word_byte (w k : Z) : Z := (w / 2 ^ (8 * k)) mod 256.

Lemma word_byte_bits w k : 0 <= k -> word_byte w k = bits w (8 * k) 8.
Proof. intros. unfold word_byte. by rewrite bits_div_mod by lia. Qed.

Lemma word_byte_u8 w k : 0 <= k -> u8 (Z.shiftr w (k * 8)) = word_byte w k.
Proof. intros. unfold u8, word_byte. rewrite Z.shiftr_div_pow2 by lia. by rewrite Z.mul_comm. Qed.

Lemma word_byte_range w k : 0 <= word_byte w k < 256.
Proof. unfold word_byte. apply Z.mod_pos_bound. lia. Qed.

(** A word with byte [k] replaced, as the code masks it. *)
Lemma word_byte_set w k d j : 0 <= k < 4 -> 0 <= j < 4 -> 0 <= d < 256 ->
  word_byte (Z.lor (Z.land w (not32 (u32 (Z.shiftl 0xff (k * 8))))) (u32 (Z.shiftl d (k * 8)))) j =
  if j =? k then d else word_byte w j.
Proof.
  intros Hk Hj Hd. apply Z.bits_inj'. intros n Hn. rewrite word_byte_bits, testbit_bits by lia.
  destruct (Z.ltb_spec n 8) as [Hn8|Hn8].
  - rewrite Z.lor_spec, Z.land_spec, testbit_not32, !testbit_u32, !testbit_shiftl by lia.
    change 0xff with (Z.ones 8). rewrite (proj2 (Z.ltb_lt (n + 8 * j) 32)), !andb_true_r by lia.
    destruct (Z.eqb_spec j k) as [->|Hne].
    + rewrite testbit_ones by lia. rewrite (proj2 (Z.leb_le (k * 8) (n + 8 * k))) by lia.
      rewrite (proj2 (Z.ltb_lt (n + 8 * k - k * 8) 8)) by lia.
      replace (n + 8 * k - k * 8) with n by lia. by rewrite andb_false_r.
    + rewrite word_byte_bits, testbit_bits by lia. rewrite (proj2 (Z.ltb_lt n 8)) by lia.
      destruct (Z.leb_spec (k * 8) (n + 8 * j)).
      * rewrite testbit_ones by lia. rewrite (proj2 (Z.ltb_ge (n + 8 * j - k * 8) 8)) by lia.
        rewrite (testbit_small d 8) by lia. simpl. by rewrite orb_false_r.
      * simpl. by rewrite orb_false_r.
  - rewrite andb_false_r. destruct (Z.eqb_spec j k) as [->|Hne].
    + symmetry. apply (testbit_small d 8); lia.
    + rewrite word_byte_bits, testbit_bits by lia. by rewrite (proj2 (Z.ltb_ge n 8)), andb_false_r by lia.
Qed.

(** ** Lines *)

Abbreviation ways l := (lf_way_num (c_conf l)).
Abbreviation sets l := (c_set_num l).
Abbreviation lines l := (c_line_num l).

(** The arrays have the sizes of the constructor. *)
Record geom (l : l1_t) : Prop := {
  gm_ways : 0 < ways l;
  gm_sets : 0 < sets l;
  gm_lines : lines l = sets l * ways l;
  gm_words : lines l * 16 < W32;
  gm_tags : Z.of_nat (length (c_tags l)) = lines l;
  gm_valids : Z.of_nat (length (c_valids l)) = lines l;
  gm_dirtys : Z.of_nat (length (c_dirtys l)) = lines l;
  gm_data : Z.of_nat (length (c_data l)) = lines l * 16;
  gm_replace : Z.of_nat (length (c_replace_ways l)) = sets l;
  gm_victims : Forall (fun w => 0 <= w < ways l) (c_replace_ways l)
}.

Definition valid (l : l1_t) (i : Z) : Prop := aget (c_valids l) i = Some true.
Definition dirty (l : l1_t) (i : Z) : Prop := aget (c_dirtys l) i = Some true.
Definition cword (l : l1_t) (i k : Z) : Z := default 0 (aget (c_data l) (i * 16 + k)).
Definition cbyte (l : l1_t) (i off : Z) : Z := word_byte (cword l i (off / 4)) (off mod 4).

(** The number of the line that [i] holds: its address divided by the line size. *)
Definition lnum (l : l1_t) (i : Z) : Z := default 0 (aget (c_tags l) i) * sets l + i / ways l.

(** The line of an address. *)
Definition line_of (a : Z) : Z := a / 64.

Lemma req_line_addr_eq a : is_u32 a -> l1_req_line_addr a = 64 * line_of a.
Proof.
  intros Ha. unfold l1_req_line_addr, line_of. change (L1_LINE_SIZE - 1) with (Z.ones 6).
  assert (Z.land a (not32 (Z.ones 6)) = Z.ldiff a (Z.ones 6)) as ->.
  { apply Z.bits_inj'. intros n Hn. rewrite Z.land_spec, Z.ldiff_spec. destruct (Z.ltb_spec n 32).
    - by rewrite testbit_not32 by lia.
    - by rewrite (testbit_high a) by (done || lia). }
  rewrite Z.ldiff_ones_r, Z.shiftl_mul_pow2, Z.shiftr_div_pow2 by lia. change (2 ^ 6) with 64. lia.
Qed.

Lemma line_offset_eq a : Z.land a (L1_LINE_SIZE - 1) = a mod 64.
Proof. change (L1_LINE_SIZE - 1) with (Z.ones 6). by rewrite Z.land_ones by lia. Qed.

Lemma req_set_eq l a : is_u32 a -> l1_req_set l a = line_of a mod sets l.
Proof. intros Ha. unfold l1_req_set. rewrite req_line_addr_eq by done. f_equal. unfold line_of, L1_LINE_SIZE. zdiv. Qed.

Lemma req_tag_eq l a : is_u32 a -> l1_req_tag l a = line_of a / sets l.
Proof. intros Ha. unfold l1_req_tag. rewrite req_line_addr_eq by done. f_equal. unfold line_of, L1_LINE_SIZE. zdiv. Qed.

Lemma line_of_range a : is_u32 a -> 0 <= line_of a < 67108864.
Proof. unfold is_u32, W32, line_of. intros. zdiv. Qed.

Section geometry.
  Context (l : l1_t) (G : geom l).

Lemma ways_bound : ways l <= lines l /\ sets l <= lines l.
Proof. rewrite (gm_lines l G). pose proof (gm_ways l G). pose proof (gm_sets l G). nia. Qed.

Lemma line_idx_eq set way : 0 <= set < sets l -> 0 <= way < ways l ->
  l1_line_idx l set way = set * ways l + way /\ 0 <= set * ways l + way < lines l /\
  (set * ways l + way) / ways l = set.
Proof.
  intros Hs Hw. pose proof (gm_lines l G). pose proof (gm_words l G).
  assert (0 <= set * ways l + way < lines l) as Hr by nia.
  split_and!; try lia.
  - unfold l1_line_idx. apply u32_small. unfold is_u32. lia.
  - rewrite Z.div_add_l by lia. rewrite Z.div_small by lia. lia.
Qed.

Lemma set_of_line i : 0 <= i < lines l -> 0 <= i / ways l < sets l /\
  exists way, 0 <= way < ways l /\ i = i / ways l * ways l + way.
Proof.
  intros Hi. pose proof (gm_ways l G). rewrite (gm_lines l G) in Hi. split.
  - split; [apply Z.div_pos; lia|]. apply Z.div_lt_upper_bound; lia.
  - exists (i mod ways l). split; [by apply Z.mod_pos_bound|]. rewrite Z.mul_comm. by apply Z_div_mod_eq_full.
Qed.

Lemma valid_range i : valid l i -> 0 <= i < lines l.
Proof. intros H. apply aget_Some in H. pose proof (gm_valids l G). lia. Qed.

Lemma tag_at i : 0 <= i < lines l -> exists t, aget (c_tags l) i = Some t.
Proof. intros. apply aget_is_Some. rewrite (gm_tags l G). lia. Qed.

Lemma flag_at (f : list bool) i : Z.of_nat (length f) = lines l -> 0 <= i < lines l -> exists v, aget f i = Some v.
Proof. intros. apply aget_is_Some. lia. Qed.

Lemma word_idx i k : 0 <= i < lines l -> 0 <= k < 16 ->
  u32 (i * L1_WORD_NUM + k) = i * 16 + k /\ 0 <= i * 16 + k < Z.of_nat (length (c_data l)).
Proof.
  intros Hi Hk. rewrite (gm_data l G). pose proof (gm_words l G). change L1_WORD_NUM with 16. split; [|lia].
  apply u32_small. unfold is_u32. lia.
Qed.

Lemma lnum_split i n t : 0 <= i < lines l -> aget (c_tags l) i = Some t -> 0 <= n ->
  lnum l i = n <-> t = n / sets l /\ i / ways l = n mod sets l.
Proof.
  intros Hi Ht Hn. destruct (set_of_line i Hi) as [Hs _]. unfold lnum. rewrite Ht. simpl. split.
  - intros <-. rewrite Z.div_add_l by lia. rewrite Z.div_small by done.
    rewrite (Z.add_comm (t * sets l)), Z.mod_add by lia. rewrite Z.mod_small by done. lia.
  - intros [-> ->]. rewrite Z.mul_comm. symmetry. apply Z_div_mod_eq_full.
Qed.

(** ** Lookup *)

Lemma lookup_loop_ok set tag n i : 0 <= set < sets l -> 0 <= i -> i + Z.of_nat n = ways l ->
  exists r, lookup_loop l set tag n i = Some r /\
    match r with
    | Some (way, idx) => i <= way < ways l /\ idx = set * ways l + way /\ valid l idx /\ aget (c_tags l) idx = Some tag
    | None => forall way, i <= way < ways l -> valid l (set * ways l + way) ->
        aget (c_tags l) (set * ways l + way) <> Some tag
    end.
Proof.
  intros Hs. revert i. induction n as [|n IH]; intros i Hi Hn; cbn [lookup_loop].
  { exists None. split; [done|]. intros. lia. }
  destruct (line_idx_eq set i Hs ltac:(lia)) as (-> & Hr & _).
  destruct (flag_at (c_valids l) _ (gm_valids l G) Hr) as [v Hv]. destruct (tag_at _ Hr) as [t Ht].
  rewrite Hv, Ht. cbn. destruct (v && (t =? tag)) eqn:E.
  - apply andb_true_iff in E as [-> Et%Z.eqb_eq]. eexists. split; [done|]. cbn. subst t. split_and!; try done; lia.
  - destruct (IH (i + 1) ltac:(lia) ltac:(lia)) as (r & -> & H). exists r. split; [done|]. destruct r as [[way idx]|].
    + destruct H as (? & ? & ? & ?). split_and!; try done; lia.
    + intros way Hw Hval. destruct (decide (way = i)) as [->|]; [|apply H; [lia|done]].
      intros Ht'. unfold valid in Hval. assert (v = true) as -> by congruence. assert (t = tag) as -> by congruence.
      by rewrite Z.eqb_refl in E.
Qed.

(** The lookup of line [n] finds the valid line that holds it, if any. *)
Lemma lookup_ok n r : 0 <= n ->
  lookup_loop l (n mod sets l) (n / sets l) (Z.to_nat (ways l)) 0 = Some r ->
  match r with
  | Some (way, idx) => valid l idx /\ lnum l idx = n
  | None => forall i, valid l i -> lnum l i <> n
  end.
Proof.
  intros Hn E. pose proof (gm_sets l G). pose proof (gm_ways l G).
  destruct (lookup_loop_ok (n mod sets l) (n / sets l) (Z.to_nat (ways l)) 0) as (r' & E' & H');
    [by apply Z.mod_pos_bound|lia|lia|]. rewrite E in E'. injection E' as <-. destruct r as [[way idx]|].
  - destruct H' as (Hw & -> & Hv & Ht). split; [done|]. eapply lnum_split; [by apply valid_range|done|done|].
    split; [done|]. apply line_idx_eq; [by apply Z.mod_pos_bound|lia].
  - intros i Hv En. pose proof (valid_range i Hv) as Hi. destruct (tag_at i Hi) as [t Ht].
    apply (lnum_split i n t) in En as [Et Es]; [|done..].
    destruct (set_of_line i Hi) as [_ (way & Hw & Ei)]. rewrite Es in Ei. apply (H' way); [lia|by rewrite <- Ei|].
    rewrite <- Ei, Ht. by rewrite Et.
Qed.

Lemma lookup_total n : 0 <= n ->
  exists r, lookup_loop l (n mod sets l) (n / sets l) (Z.to_nat (ways l)) 0 = Some r.
Proof.
  intros. pose proof (gm_ways l G). destruct (lookup_loop_ok (n mod sets l) (n / sets l) (Z.to_nat (ways l)) 0) as (r & E & _);
    [apply Z.mod_pos_bound, G|lia|lia|by exists r].
Qed.

Lemma free_way_loop_ok n i : 0 <= c_req_set l < sets l -> 0 <= i -> i + Z.of_nat n = ways l ->
  exists r, free_way_loop l n i = Some r /\
    match r with
    | Some (way, idx) => i <= way < ways l /\ idx = c_req_set l * ways l + way /\ ~ valid l idx
    | None => True
    end.
Proof.
  intros Hs. revert i. induction n as [|n IH]; intros i Hi Hn; cbn [free_way_loop]; [by eexists|].
  destruct (line_idx_eq (c_req_set l) i Hs ltac:(lia)) as (-> & Hr & _).
  destruct (flag_at (c_valids l) _ (gm_valids l G) Hr) as [v Hv]. rewrite Hv. cbn. destruct v; cbn.
  - destruct (IH (i + 1) ltac:(lia) ltac:(lia)) as (r & -> & H). exists r. split; [done|]. destruct r as [[way idx]|]; [|done].
    destruct H as (? & ? & ?). split_and!; try done; lia.
  - eexists. split; [done|]. cbn. split_and!; try lia. unfold valid. congruence.
Qed.

End geometry.

(** ** The flat memory *)

(** Memories are compared on the 32-bit addresses. *)
Definition same_mem (m1 m2 : Z -> Z) : Prop := forall a, is_u32 a -> m1 a = m2 a.

#[export] Instance same_mem_equivalence : Equivalence same_mem.
Proof.
  split.
  - by intros m a _.
  - intros m1 m2 H a Ha. symmetry. by apply H.
  - intros m1 m2 m3 H1 H2 a Ha. by rewrite H1, H2.
Qed.

(** The arrays of [l] and the memory [m] behind them represent the flat memory [V]: every valid
    line holds the bytes of [V], and memory holds those that no dirty line covers.  The data of the
    line [x] may be anything: it is being refilled. *)
Record cache_ok (l : l1_t) (V m : Z -> Z) (x : option Z) : Prop := {
  co_geom : geom l;
  co_range : forall i, valid l i -> 0 <= lnum l i < 67108864;
  co_unique : forall i j, valid l i -> valid l j -> lnum l i = lnum l j -> i = j;
  co_data : forall i off, valid l i -> x <> Some i -> 0 <= off < 64 -> cbyte l i off = V (64 * lnum l i + off);
  co_clean : forall a, is_u32 a -> (forall i, valid l i -> dirty l i -> lnum l i <> line_of a) -> m a = V a;
  co_busy : forall i, x = Some i -> valid l i -> ~ dirty l i;
  co_ro : lf_ro (c_conf l) = true -> forall i, valid l i -> ~ dirty l i
}.

(** The part of the state the relation is about. *)
Definition arrays (l : l1_t) :=
  (c_conf l, c_set_num l, c_line_num l, c_tags l, c_data l, c_replace_ways l, c_valids l, c_dirtys l).

Lemma cache_ok_arrays l l' V m x : arrays l' = arrays l -> cache_ok l V m x -> cache_ok l' V m x.
Proof.
  unfold arrays. intros E. injection E as E1 E2 E3 E4 E5 E6 E7 E8. intros [[] ? ? ? ? ? ?].
  split; unfold valid, dirty, cbyte, cword, lnum in *; rewrite ?E1, ?E2, ?E3, ?E4, ?E5, ?E6, ?E7, ?E8; try done.
  by split; rewrite ?E1, ?E2, ?E3, ?E4, ?E5, ?E6, ?E7, ?E8.
Qed.

#[export] Instance cache_ok_proper l : Proper (same_mem ==> same_mem ==> eq ==> iff) (cache_ok l).
Proof.
  assert (forall V V' m m' x, same_mem V V' -> same_mem m m' -> cache_ok l V m x -> cache_ok l V' m' x) as H.
  { intros V V' m m' x HV Hm []. split; try done.
    - intros i off Hv Hx Ho. rewrite co_data0 by done. apply HV. specialize (co_range0 i Hv). unfold is_u32, W32. lia.
    - intros a Ha Hd. rewrite <- Hm, <- HV by done. auto. }
  intros V V' HV m m' Hm x x' <-. split; apply H; done.
Qed.

(** A line of memory, byte by byte. *)
Lemma line_addr_of n off : 0 <= off < 64 -> line_of (64 * n + off) = n.
Proof. intros. unfold line_of. zdiv. Qed.

Lemma line_addr_split a : a = 64 * line_of a + a mod 64.
Proof. unfold line_of. zdiv. Qed.

Lemma u32_line_addr n off : 0 <= n < 67108864 -> 0 <= off < 64 -> is_u32 (64 * n + off).
Proof. unfold is_u32, W32. lia. Qed.

(** ** Bytes of a line *)

Definition mset (V : Z -> Z) (a b : Z) : Z -> Z := fun a' => if a' =? a then b else V a'.

Lemma read_byte_ok l V m x i off : cache_ok l V m x -> valid l i -> x <> Some i -> 0 <= off < 64 ->
  l1_read_byte l i off = Some (V (64 * lnum l i + off)).
Proof.
  intros H Hv Hx Ho. rewrite <- (co_data _ _ _ _ H) by done. destruct H. unfold l1_read_byte.
  assert (0 <= off / 4 < 16) as Hk by zdiv. pose proof (valid_range l co_geom0 i Hv) as Hi.
  destruct (word_idx l co_geom0 i (off / 4) Hi Hk) as [Eu Hr]. change (off / L1_WORD_SIZE) with (off / 4). rewrite Eu.
  destruct (aget_is_Some (c_data l) (i * 16 + off / 4) Hr) as [w Ew]. rewrite Ew. cbn. f_equal.
  unfold cbyte, cword. rewrite Ew. change L1_WORD_SIZE with 4. apply word_byte_u8. zdiv.
Qed.

Lemma cbyte_word l l' i off : cword l' i (off / 4) = cword l i (off / 4) -> cbyte l' i off = cbyte l i off.
Proof. intros E. unfold cbyte. by rewrite E. Qed.

(** What a write to line [i] leaves alone. *)
Definition line_frame (l l' : l1_t) (i : Z) : Prop :=
  (forall j k, 0 <= j -> j <> i -> 0 <= k < 16 -> cword l' j k = cword l j k) /\
  (forall j, j <> i -> dirty l' j <-> dirty l j).

Lemma line_frame_refl l i : line_frame l l i.
Proof. by split. Qed.

Lemma line_frame_trans l1 l2 l3 i : line_frame l1 l2 i -> line_frame l2 l3 i -> line_frame l1 l3 i.
Proof.
  intros [A1 B1] [A2 B2]. split.
  - intros j k Hj Hne Hk. by rewrite A2, A1.
  - intros j Hne. by rewrite B2, B1.
Qed.

Lemma dirty_insert l i j v : geom l -> 0 <= i < lines l ->
  dirty (l <| c_dirtys := <[Z.to_nat i := v]> (c_dirtys l) |>) j <-> if j =? i then v = true else dirty l j.
Proof.
  intros G Hi. unfold dirty. upd_proj. rewrite aget_insert by (rewrite (gm_dirtys l G); lia).
  destruct (j =? i); [|done]. split; congruence.
Qed.

Lemma valid_insert l i j v : geom l -> 0 <= i < lines l ->
  valid (l <| c_valids := <[Z.to_nat i := v]> (c_valids l) |>) j <-> if j =? i then v = true else valid l j.
Proof.
  intros G Hi. unfold valid. upd_proj. rewrite aget_insert by (rewrite (gm_valids l G); lia).
  destruct (j =? i); [|done]. split; congruence.
Qed.

Lemma cword_insert l i k w j k' : geom l -> 0 <= i < lines l -> 0 <= k < 16 -> 0 <= k' < 16 ->
  cword (l <| c_data := <[Z.to_nat (i * 16 + k) := w]> (c_data l) |>) j k' =
  if (j =? i) && (k' =? k) then w else cword l j k'.
Proof.
  intros G Hi Hk Hk'. unfold cword. upd_proj. rewrite aget_insert by (rewrite (gm_data l G); lia).
  destruct (Z.eqb_spec (j * 16 + k') (i * 16 + k)), (Z.eqb_spec j i), (Z.eqb_spec k' k); try done; lia.
Qed.

(** Word [k] of line [i] after a byte write. *)
Definition set_byte (w k b : Z) : Z :=
  Z.lor (Z.land w (not32 (u32 (Z.shiftl 0xff (k * 8))))) (u32 (Z.shiftl b (k * 8))).

Definition data_written (l : l1_t) (i off b : Z) : l1_t :=
  l <| c_data := <[Z.to_nat (i * 16 + off / 4) := set_byte (cword l i (off / 4)) (off mod 4) b]> (c_data l) |>.

Definition byte_written (l : l1_t) (i off b : Z) : l1_t :=
  data_written l i off b <| c_dirtys := <[Z.to_nat i := true]> (c_dirtys (data_written l i off b)) |>.

Lemma write_byte_run l i off b : geom l -> 0 <= i < lines l -> 0 <= off < 64 ->
  (l1_write_byte i off b;; l1_set_dirty i true) l = Some (tt, byte_written l i off b).
Proof.
  intros G Hi Ho. assert (0 <= off / 4 < 16) as Hk by zdiv.
  destruct (word_idx l G i (off / 4) Hi Hk) as [Eu Hr].
  unfold l1_write_byte, l1_set_dirty. mred. change (off / L1_WORD_SIZE) with (off / 4). rewrite Eu.
  destruct (aget_is_Some (c_data l) (i * 16 + off / 4) Hr) as [w Ew]. rewrite Ew. cbv beta iota zeta.
  rewrite aset_insert by done. cbv beta iota. upd_proj.
  rewrite aset_insert by (rewrite (gm_dirtys l G); lia). unfold byte_written, data_written, cword. by rewrite Ew.
Qed.

Lemma geom_insert_dirty l i v : geom l -> geom (l <| c_dirtys := <[i := v]> (c_dirtys l) |>).
Proof. intros []. split; upd_proj; rewrite ?length_insert; done. Qed.

Lemma geom_insert_valid l i v : geom l -> geom (l <| c_valids := <[i := v]> (c_valids l) |>).
Proof. intros []. split; upd_proj; rewrite ?length_insert; done. Qed.

Lemma geom_insert_data l i v : geom l -> geom (l <| c_data := <[i := v]> (c_data l) |>).
Proof. intros []. split; upd_proj; rewrite ?length_insert; done. Qed.

Lemma geom_insert_tag l i v : geom l -> geom (l <| c_tags := <[i := v]> (c_tags l) |>).
Proof. intros []. split; upd_proj; rewrite ?length_insert; done. Qed.

Section byte_write.
  Context (l : l1_t) (i off b : Z) (G : geom l) (Hi : 0 <= i < lines l) (Ho : 0 <= off < 64) (Hb : 0 <= b < 256).

Lemma off_word : 0 <= off / 4 < 16.
Proof. zdiv. Qed.

Lemma written_geom : geom (byte_written l i off b).
Proof. apply geom_insert_dirty, geom_insert_data, G. Qed.

Lemma written_dirty j : dirty (byte_written l i off b) j <-> j = i \/ dirty l j.
Proof.
  unfold byte_written. rewrite dirty_insert by (apply geom_insert_data, G || done).
  destruct (Z.eqb_spec j i) as [->|]; [intuition|]. change (dirty (data_written l i off b) j) with (dirty l j). intuition.
Qed.

Lemma written_word j k : 0 <= k < 16 -> cword (byte_written l i off b) j k =
  if (j =? i) && (k =? off / 4) then set_byte (cword l i (off / 4)) (off mod 4) b else cword l j k.
Proof. intros Hk. pose proof off_word. by apply (cword_insert l i (off / 4)). Qed.

Lemma written_byte j off' : 0 <= off' < 64 -> cbyte (byte_written l i off b) j off' =
  if (j =? i) && (off' =? off) then b else cbyte l j off'.
Proof.
  intros Ho'. unfold cbyte. rewrite written_word by zdiv. destruct (Z.eqb_spec j i) as [->|]; [|done]. simpl.
  destruct (Z.eqb_spec (off' / 4) (off / 4)) as [Eq|Nq].
  - unfold set_byte. rewrite word_byte_set by zdiv. rewrite Eq.
    destruct (Z.eqb_spec (off' mod 4) (off mod 4)), (Z.eqb_spec off' off); try done; zdiv.
  - destruct (Z.eqb_spec off' off) as [->|]; [lia|done].
Qed.

Lemma written_frame : line_frame l (byte_written l i off b) i.
Proof.
  split.
  - intros j k Hj Hne Hk. rewrite written_word by done. by rewrite (proj2 (Z.eqb_neq j i)).
  - intros j Hne. rewrite written_dirty. intuition.
Qed.

Lemma written_ok V m x : cache_ok l V m x -> valid l i -> x <> Some i -> lf_ro (c_conf l) = false ->
  cache_ok (byte_written l i off b) (mset V (64 * lnum l i + off) b) m x.
Proof.
  intros H Hv Hx Hro. destruct H.
  assert (forall j, lnum (byte_written l i off b) j = lnum l j) as En by done.
  split; [apply written_geom|done|done| | | |].
  - intros j off' Hvj Hxj Ho'. change (valid l j) in Hvj. rewrite written_byte, En, co_data0 by done. unfold mset.
    destruct (Z.eqb_spec j i) as [->|Hne]; simpl.
    + destruct (Z.eqb_spec off' off), (Z.eqb_spec (64 * lnum l i + off') (64 * lnum l i + off)); try done; lia.
    + destruct (Z.eqb_spec (64 * lnum l j + off') (64 * lnum l i + off)); [|done].
      destruct Hne. apply co_unique0; [done..|lia].
  - intros a Ha Hd. assert (line_of a <> lnum l i) as Hl.
    { intros E. apply (Hd i Hv); [apply written_dirty; by left|done]. }
    unfold mset. destruct (Z.eqb_spec a (64 * lnum l i + off)) as [E|].
    + destruct Hl. rewrite E. by apply line_addr_of.
    + apply co_clean0; [done|]. intros j Hvj Hdj. apply Hd; [done|]. apply written_dirty. by right.
  - intros j Ej Hvj Hd. apply written_dirty in Hd as [->|Hd]; [done|]. by apply (co_busy0 j).
  - intros E. change (lf_ro (c_conf l) = true) in E. congruence.
Qed.

End byte_write.

(** ** Flags and refill *)

(** A line whose bytes are in memory becomes clean. *)
Lemma clean_ok l V m x i : cache_ok l V m x -> 0 <= i < lines l ->
  (valid l i -> forall off, 0 <= off < 64 -> m (64 * lnum l i + off) = V (64 * lnum l i + off)) ->
  cache_ok (l <| c_dirtys := <[Z.to_nat i := false]> (c_dirtys l) |>) V m x.
Proof.
  intros H Hi Hm. destruct H. set (l' := l <| c_dirtys := _ |>).
  assert (forall j, dirty l' j <-> j <> i /\ dirty l j) as Hd.
  { intros j. unfold l'. rewrite dirty_insert by done. destruct (Z.eqb_spec j i); intuition congruence. }
  split; [by apply geom_insert_dirty|done..| | |].
  - intros a Ha Hno. destruct (decide (aget (c_valids l) i = Some true /\ lnum l i = line_of a)) as [[Hv En]|Hn].
    + rewrite (line_addr_split a), <- En. apply Hm; [done|]. apply Z.mod_pos_bound. lia.
    + apply co_clean0; [done|]. intros j Hvj Hdj En. destruct (decide (j = i)) as [->|Hne]; [by destruct Hn|].
      apply (Hno j Hvj); [by apply Hd|done].
  - intros j Ej Hvj [_ Hdj]%Hd. by apply (co_busy0 j).
  - intros Hro j Hvj [_ Hdj]%Hd. by apply (co_ro0 Hro j).
Qed.

(** A line that is not dirty can be dropped. *)
Lemma drop_ok l V m x i : cache_ok l V m x -> 0 <= i < lines l -> (valid l i -> ~ dirty l i) ->
  cache_ok (l <| c_valids := <[Z.to_nat i := false]> (c_valids l) |>) V m x.
Proof.
  intros H Hi Hc. destruct H. set (l' := l <| c_valids := _ |>).
  assert (forall j, valid l' j <-> j <> i /\ valid l j) as Hv.
  { intros j. unfold l'. rewrite valid_insert by done. destruct (Z.eqb_spec j i); intuition congruence. }
  split; [by apply geom_insert_valid|..].
  - intros j [_ ?]%Hv. by apply co_range0.
  - intros j k [_ ?]%Hv [_ ?]%Hv. by apply co_unique0.
  - intros j off [_ ?]%Hv. by apply co_data0.
  - intros a Ha Hno. apply co_clean0; [done|]. intros j Hvj Hdj. apply Hno; [|done]. apply Hv. split; [|done].
    intros ->. by apply Hc.
  - intros j Ej [_ ?]%Hv. by apply (co_busy0 j).
  - intros Hro j [_ ?]%Hv. by apply co_ro0.
Qed.

(** Nothing else can be dirty when every line is dropped. *)
Lemma all_invalid_mem l V m x : cache_ok l V m x -> (forall i, ~ valid l i) -> same_mem m V.
Proof. intros H Hn a Ha. apply (co_clean _ _ _ _ H a Ha). intros i Hv. by destruct (Hn i). Qed.

(** The line that is refilled must not be dirty; its data may change. *)
Lemma busy_start l V m i : cache_ok l V m None -> (valid l i -> ~ dirty l i) -> cache_ok l V m (Some i).
Proof. intros [] Hd. split; try done. - intros j off Hv _. by apply co_data0. - intros j [= ->]. done. Qed.

Lemma busy_data l V m i k w : cache_ok l V m (Some i) -> 0 <= i < lines l -> 0 <= k < 16 ->
  cache_ok (l <| c_data := <[Z.to_nat (i * 16 + k) := w]> (c_data l) |>) V m (Some i).
Proof.
  intros H Hi Hk. destruct H. split; [by apply geom_insert_data|done..| | | |]; try done.
  intros j off Hv Hx Ho. transitivity (cbyte l j off); [|by apply co_data0]. apply cbyte_word. rewrite cword_insert by (done || zdiv).
  destruct (Z.eqb_spec j i); [congruence|done].
Qed.

(** The refilled line, with the tag [t] of the line [n]. *)
Definition installed (l : l1_t) (i t : Z) : l1_t :=
  let l1 := l <| c_valids := <[Z.to_nat i := true]> (c_valids l) |> in
  let l2 := l1 <| c_dirtys := <[Z.to_nat i := false]> (c_dirtys l1) |> in
  l2 <| c_tags := <[Z.to_nat i := t]> (c_tags l2) |>.

Lemma install_ok l V m i n : cache_ok l V m (Some i) -> 0 <= i < lines l -> 0 <= n < 67108864 ->
  i / ways l = n mod sets l -> (forall j, valid l j -> lnum l j <> n) ->
  (forall off, 0 <= off < 64 -> cbyte l i off = m (64 * n + off)) ->
  cache_ok (installed l i (n / sets l)) V m None /\ valid (installed l i (n / sets l)) i /\
  lnum (installed l i (n / sets l)) i = n.
Proof.
  intros H Hi Hn Hs Hno Hdata. pose proof H as Hcache. destruct H. set (l' := installed _ _ _).
  assert (forall j, valid l' j <-> j = i \/ valid l j) as Hv.
  { intros j. unfold l', installed. cbv zeta. unfold valid. upd_proj. rewrite aget_insert by (rewrite (gm_valids l co_geom0); lia).
    destruct (Z.eqb_spec j i); intuition congruence. }
  assert (forall j, dirty l' j <-> j <> i /\ dirty l j) as Hd.
  { intros j. unfold l', installed. cbv zeta. unfold dirty. upd_proj. rewrite aget_insert by (rewrite (gm_dirtys l co_geom0); lia).
    destruct (Z.eqb_spec j i); intuition congruence. }
  assert (forall j, lnum l' j = if j =? i then n else lnum l j) as En.
  { intros j. unfold l', installed, lnum. cbv zeta. upd_proj. rewrite aget_insert by (rewrite (gm_tags l co_geom0); lia).
    destruct (Z.eqb_spec j i) as [->|]; [|done]. simpl. rewrite Hs, Z.mul_comm. symmetry. apply Z_div_mod_eq_full. }
  assert (valid l' i /\ lnum l' i = n) as [Hvi Eni] by (split; [apply Hv; by left|by rewrite En, Z.eqb_refl]).
  split; [|done]. split.
  - by apply geom_insert_tag, geom_insert_dirty, geom_insert_valid.
  - intros j Hvj. rewrite En. destruct (Z.eqb_spec j i); [done|]. apply Hv in Hvj as [->|Hvj]; [done|]. by apply co_range0.
  - intros j k Hvj Hvk. rewrite !En. apply Hv in Hvj, Hvk.
    destruct (Z.eqb_spec j i) as [->|], (Z.eqb_spec k i) as [->|]; try done.
    + destruct Hvk as [|Hvk]; [done|]. intros E. by destruct (Hno k).
    + destruct Hvj as [|Hvj]; [done|]. intros E. by destruct (Hno j).
    + destruct Hvj as [|Hvj], Hvk as [|Hvk]; try done. by apply co_unique0.
  - intros j off Hvj _ Ho. change (cbyte l j off = V (64 * lnum l' j + off)). rewrite En.
    destruct (Z.eqb_spec j i) as [->|Hne].
    + rewrite Hdata by done. apply co_clean0; [by apply u32_line_addr|]. intros j Hvj' _. rewrite line_addr_of by done. by apply Hno.
    + apply Hv in Hvj as [->|Hvj]; [done|]. apply co_data0; [done|congruence|done].
  - intros a Ha Hnd. apply co_clean0; [done|]. intros j Hvj Hdj El.
    destruct (decide (j = i)) as [->|Hne]; [by apply (co_busy0 i)|]. apply (Hnd j); [apply Hv; by right|by apply Hd|].
    rewrite En. by rewrite (proj2 (Z.eqb_neq j i)).
  - done.
  - intros Hro j Hvj [Hne Hdj]%Hd. apply Hv in Hvj as [->|Hvj]; [done|]. by apply (co_ro0 Hro j).
Qed.

(** ** Accesses to the flat memory *)

Definition req_bytes (req : bti_req_if_t) : Z := 2 ^ bq_size req.

(** The bytes [lo] to [hi - 1] of a store, those the strobe selects. *)
Definition stored (V : Z -> Z) (req : bti_req_if_t) (lo hi : Z) : Z -> Z := fun a =>
  let k := a - bq_addr req in
  if (lo <=? k) && (k <? hi) && Z.testbit (bq_strobe req) k then word_byte (bq_data req) k else V a.

(** [n] bytes from [a] on as a little-endian number. *)
Fixpoint load (V : Z -> Z) (a : Z) (n : nat) : Z :=
  match n with
  | O => 0
  | S n => load V a n + V (a + Z.of_nat n) * 256 ^ Z.of_nat n
  end.

Lemma load_ext V V' a n : (forall k, 0 <= k < Z.of_nat n -> V (a + k) = V' (a + k)) -> load V a n = load V' a n.
Proof. intros H. induction n as [|n IH]; [done|]. simpl load. rewrite IH, H; [done|lia|]. intros. apply H. lia. Qed.

Lemma load_range V a n : (forall k, 0 <= k < Z.of_nat n -> 0 <= V (a + k) < 256) -> 0 <= load V a n < 256 ^ Z.of_nat n.
Proof.
  intros H. induction n as [|n IH]; [done|]. cbn [load]. rewrite Nat2Z.inj_succ, Z.pow_succ_r by lia.
  specialize (IH ltac:(intros; apply H; lia)). specialize (H (Z.of_nat n) ltac:(lia)).
  set (p := 256 ^ Z.of_nat n) in *. nia.
Qed.

Lemma load_lor V a n : (n < 4)%nat -> (forall k, 0 <= k <= Z.of_nat n -> 0 <= V (a + k) < 256) ->
  Z.lor (load V a n) (u32 (Z.shiftl (V (a + Z.of_nat n)) (Z.of_nat n * 8))) = load V a (S n).
Proof.
  intros Hn H. cbn [load]. pose proof (load_range V a n ltac:(intros; apply H; lia)) as Hl.
  specialize (H (Z.of_nat n) ltac:(lia)). set (b := V _) in *.
  assert (256 ^ Z.of_nat n = 2 ^ (Z.of_nat n * 8)) as E by (rewrite Z.mul_comm, Z.pow_mul_r by lia; done).
  rewrite E in *. rewrite u32_small.
  - rewrite Z.lor_comm, lor_shiftl_add by lia. lia.
  - rewrite Z.shiftl_mul_pow2 by lia. assert (2 ^ (Z.of_nat n * 8) <= 2 ^ 24) by (apply Z.pow_le_mono_r; lia).
    change (2 ^ 24) with 16777216 in *. unfold is_u32, W32. nia.
Qed.

Lemma stored_one V req k : same_mem (if Z.testbit (bq_strobe req) k then mset V (bq_addr req + k) (word_byte (bq_data req) k) else V)
  (stored V req k (k + 1)).
Proof.
  intros a _. unfold stored, mset. cbv zeta. destruct (Z.testbit _ _) eqn:E.
  - destruct (Z.eqb_spec a (bq_addr req + k)) as [->|].
    + replace (bq_addr req + k - bq_addr req) with k by lia. rewrite E, Z.leb_refl, (proj2 (Z.ltb_lt k (k + 1))) by lia. done.
    + destruct (Z.leb_spec k (a - bq_addr req)), (Z.ltb_spec (a - bq_addr req) (k + 1)); try done. lia.
  - destruct (Z.leb_spec k (a - bq_addr req)), (Z.ltb_spec (a - bq_addr req) (k + 1)); try done.
    replace (a - bq_addr req) with k by lia. by rewrite E.
Qed.

Lemma stored_app V req lo mid hi : lo <= mid <= hi ->
  same_mem (stored (stored V req lo mid) req mid hi) (stored V req lo hi).
Proof.
  intros H a _. unfold stored. cbv zeta. set (k := a - bq_addr req).
  destruct (Z.leb_spec mid k), (Z.ltb_spec k hi), (Z.leb_spec lo k), (Z.ltb_spec k mid), (Z.testbit (bq_strobe req) k); try done; lia.
Qed.

Lemma stored_nil V req k : same_mem (stored V req k k) V.
Proof.
  intros a _. unfold stored. cbv zeta.
  destruct (Z.leb_spec k (a - bq_addr req)), (Z.ltb_spec (a - bq_addr req) k); try done; lia.
Qed.

#[export] Instance stored_proper : Proper (same_mem ==> eq ==> eq ==> eq ==> same_mem) stored.
Proof. intros V V' H r ? <- lo ? <- hi ? <- a Ha. unfold stored. cbv zeta. by rewrite H. Qed.

(** Only the data and the dirty flags change, and only of the line [i]. *)
Definition served (l l' : l1_t) (i : Z) : Prop :=
  (exists d ds, l' = l <| c_data := d |> <| c_dirtys := ds |>) /\ line_frame l l' i.

Lemma served_trans l1 l2 l3 i : served l1 l2 i -> served l2 l3 i -> served l1 l3 i.
Proof.
  intros [(d & ds & ->) F1] [(d' & ds' & ->) F2]. split; [by exists d', ds'|by eapply line_frame_trans].
Qed.

Section serve.
  Context (req : bti_req_if_t) (i m_off : Z) (m : Z -> Z) (x : option Z).
  Context (Hoff : m_off = bq_addr req mod 64) (Hx : x <> Some i).

(** The access lies in line [i] of [l]. *)
Definition in_line (l : l1_t) : Prop := valid l i /\ lnum l i = line_of (bq_addr req).

Lemma in_line_served l l' : served l l' i -> in_line l -> in_line l'.
Proof. intros [(d & ds & ->) _] H. exact H. Qed.

Lemma in_line_addr l k : in_line l -> 64 * lnum l i + (m_off + k) = bq_addr req + k.
Proof. intros [_ ->]. rewrite Hoff. unfold line_of. zdiv. Qed.

Lemma strobe_step l V k : cache_ok l V m x -> in_line l -> lf_ro (c_conf l) = false ->
  0 <= k -> m_off + k < 64 ->
  wp (when (nz (Z.land (bq_strobe req) (Z.shiftl 1 k)))
       (l1_write_byte i (m_off + k) (u8 (Z.shiftr (bq_data req) (k * 8)));; l1_set_dirty i true))
    (fun _ l' => cache_ok l' (stored V req k (k + 1)) m x /\ served l l' i) l.
Proof.
  intros Hc Hl Hro Hk Hb. pose proof (co_geom _ _ _ _ Hc) as G. pose proof (valid_range l G i (proj1 Hl)) as Hi.
  assert (0 <= m_off) by (rewrite Hoff; apply Z.mod_pos_bound; lia).
  rewrite nz_testbit by lia. pose proof (stored_one V req k) as Ho. destruct (Z.testbit (bq_strobe req) k); cbn [when].
  - rewrite word_byte_u8 by lia. unfold wp. rewrite write_byte_run by (done || lia). split.
    + rewrite <- Ho, <- (in_line_addr l k Hl). apply written_ok; try done; [lia|apply word_byte_range|apply Hl].
    + split; [by do 2 eexists|]. apply written_frame; (done || lia || apply word_byte_range).
  - apply wp_ret. split; [by rewrite <- Ho|]. split; [exists (c_data l), (c_dirtys l); by destruct l|apply line_frame_refl].
Qed.

Lemma read_step l V k : cache_ok l V m x -> in_line l -> 0 <= k -> m_off + k < 64 ->
  l1_read_byte l i (m_off + k) = Some (V (bq_addr req + k)) /\ 0 <= V (bq_addr req + k) < 256.
Proof.
  intros Hc Hl Hk Hb. assert (0 <= m_off) by (rewrite Hoff; apply Z.mod_pos_bound; lia). split.
  - rewrite <- (in_line_addr l k Hl). eapply read_byte_ok; [done|apply Hl|done|lia].
  - rewrite <- (in_line_addr l k Hl), <- (co_data _ _ _ _ Hc) by (apply Hl || done || lia). apply word_byte_range.
Qed.

Lemma hit_loop_store l V n k d : bq_cmd req = BTI_REQ_CMD_WRITE -> cache_ok l V m x -> in_line l ->
  lf_ro (c_conf l) = false -> 0 <= k -> m_off + k + Z.of_nat n <= 64 ->
  wp (hit_loop req i m_off n k d) (fun d' l' => d' = d /\ cache_ok l' (stored V req k (k + Z.of_nat n)) m x /\ served l l' i) l.
Proof.
  intros Ec. revert l V k. induction n as [|n IH]; intros l V k Hc Hl Hro Hk Hb; cbn [hit_loop].
  { apply wp_ret. split; [done|]. split; [|split; [exists (c_data l), (c_dirtys l); by destruct l|apply line_frame_refl]].
    by rewrite Z.add_0_r, stored_nil. }
  rewrite Ec. cbn [Z.eqb BTI_REQ_CMD_WRITE]. rewrite Z.eqb_refl. apply wp_bind, wp_bind.
  eapply wp_mono; [apply (strobe_step l V k); [done..|lia]|]. intros [] l1 [Hc1 Hs1]. apply wp_ret.
  eapply wp_mono; [apply (IH l1 _ (k + 1) Hc1); [by eapply in_line_served| |lia|lia]|].
  { destruct Hs1 as [(? & ? & ->) _]. exact Hro. }
  intros d' l2 (-> & Hc2 & Hs2). split; [done|]. split; [|by eapply served_trans].
  rewrite stored_app in Hc2 by lia. by replace (k + Z.of_nat (S n)) with (k + 1 + Z.of_nat n) by lia.
Qed.

Lemma hit_loop_load l V n k : bq_cmd req <> BTI_REQ_CMD_WRITE -> cache_ok l V m x -> in_line l ->
  (k + n <= 4)%nat -> m_off + Z.of_nat k + Z.of_nat n <= 64 ->
  wp (hit_loop req i m_off n (Z.of_nat k) (load V (bq_addr req) k))
    (fun d l' => d = load V (bq_addr req) (k + n) /\ l' = l) l.
Proof.
  intros Ec Hc Hl. revert k. induction n as [|n IH]; intros k Hk Hb; cbn [hit_loop].
  { apply wp_ret. by rewrite Nat.add_0_r. }
  rewrite (proj2 (Z.eqb_neq _ _) Ec). apply wp_bind, wp_bind, wp_gets. unfold id.
  destruct (read_step l V (Z.of_nat k) Hc Hl ltac:(lia) ltac:(lia)) as [-> _]. apply wp_bind, wp_ret, wp_ret.
  rewrite load_lor; [|lia|intros j Hj; eapply read_step; [done|done|lia|lia]].
  replace (Z.of_nat k + 1) with (Z.of_nat (S k)) by lia. replace (k + S n)%nat with (S k + n)%nat by lia. apply IH; lia.
Qed.

(** The loop that serves a miss does the same, from the request of the state machine. *)
Lemma serve_loop_store l V n k : c_req l = req -> c_req_byte_idx l = 0 -> c_req_line_idx l = i ->
  bq_cmd req = BTI_REQ_CMD_WRITE -> cache_ok l V m x -> in_line l ->
  lf_ro (c_conf l) = false -> 0 <= k -> m_off + k + Z.of_nat n <= 64 ->
  wp (serve_loop m_off n k) (fun _ l' => cache_ok l' (stored V req k (k + Z.of_nat n)) m x /\ served l l' i) l.
Proof.
  intros Er Eb Ei Ec. revert l V k Er Eb Ei. induction n as [|n IH]; intros l V k Er Eb Ei Hc Hl Hro Hk Hb; cbn [serve_loop].
  { apply wp_ret. split; [|split; [exists (c_data l), (c_dirtys l); by destruct l|apply line_frame_refl]].
    by rewrite Z.add_0_r, stored_nil. }
  apply wp_bind, wp_gets. unfold id. cbv zeta. rewrite Er, Eb, Ei, Ec, Z.eqb_refl, Z.add_0_l.
  assert (0 <= m_off) by (rewrite Hoff; apply Z.mod_pos_bound; lia).
  rewrite (u32_small k) by (unfold is_u32, W32; lia). apply wp_bind.
  eapply wp_mono; [apply (strobe_step l V k); [done..|lia]|]. intros [] l1 [Hc1 Hs1].
  assert (lf_ro (c_conf l1) = false /\ c_req l1 = req /\ c_req_byte_idx l1 = 0 /\ c_req_line_idx l1 = i) as (Hro1 & Er1 & Eb1 & Ei1)
    by (destruct Hs1 as [(? & ? & ->) _]; done).
  eapply wp_mono; [apply (IH l1 _ (k + 1) Er1 Eb1 Ei1 Hc1); [by eapply in_line_served|done|lia|lia]|].
  intros [] l2 (Hc2 & Hs2). split; [|by eapply served_trans].
  rewrite stored_app in Hc2 by lia. by replace (k + Z.of_nat (S n)) with (k + 1 + Z.of_nat n) by lia.
Qed.

Lemma serve_loop_load l V n k : c_req l = req -> c_req_byte_idx l = 0 -> c_req_line_idx l = i ->
  bq_cmd req = BTI_REQ_CMD_READ -> cache_ok l V m x -> in_line l ->
  c_req_data l = load V (bq_addr req) k -> (k + n <= 4)%nat -> m_off + Z.of_nat k + Z.of_nat n <= 64 ->
  wp (serve_loop m_off n (Z.of_nat k))
    (fun _ l' => l' = l <| c_req_data := load V (bq_addr req) (k + n) |>) l.
Proof.
  intros Er Eb Ei Ec. revert l k Er Eb Ei. induction n as [|n IH]; intros l k Er Eb Ei Hc Hl Ed Hk Hb; cbn [serve_loop].
  { apply wp_ret. rewrite Nat.add_0_r, <- Ed. by destruct l. }
  apply wp_bind, wp_gets. unfold id. cbv zeta. rewrite Er, Eb, Ei, Ec. cbn [Z.eqb BTI_REQ_CMD_READ BTI_REQ_CMD_WRITE].
  rewrite Z.add_0_l, (u32_small (Z.of_nat k)) by (unfold is_u32, W32; lia).
  destruct (read_step l V (Z.of_nat k) Hc Hl ltac:(lia) ltac:(lia)) as [-> _]. apply wp_bind, wp_ret, wp_bind, wp_modify.
  rewrite Ed, load_lor; [|lia|intros j Hj; eapply read_step; [done|done|lia|lia]].
  replace (Z.of_nat k + 1) with (Z.of_nat (S k)) by lia. replace (k + S n)%nat with (S k + n)%nat by lia.
  set (l1 := l <| c_req_data := load V (bq_addr req) (S k) |>). eapply wp_mono; [apply (IH l1 (S k)); try done; [by apply (cache_ok_arrays l)|lia..]|].
  intros [] l' ->. done.
Qed.

End serve.
