(* ===== verification/AxiMem.v ===== *)
(** * A memory behind an AXI4 port

    The slave the caches are verified against: it takes write bursts beat by beat and answers when
    the last beat is in, takes read bursts and returns their beats one at a time, and acknowledges
    cache maintenance operations.  Each channel moves at its own pace. *)

From stdpp Require Import base numbers list.
From Stdlib Require Import ZArith Lia.
From S2P Require Import Prelude Fifo Axi L1 L1Cache.

(** [am_mem] is the memory, byte by byte; [am_rd] are the beats of the read burst in progress,
    [am_aw] and [am_wr] the write burst in progress. *)
Record axi_mem := AxiMem {
  am_mem : Z -> Z; am_rd : list axi4_r_if_t; am_aw : option axi4_aw_if_t; am_wr : list axi4_w_if_t }.
#[export] Instance eta_axi_mem : Eta axi_mem := fun e => AxiMem (am_mem e) (am_rd e) (am_aw e) (am_wr e).

Definition read_beat (m : Z -> Z) (ar : axi4_ar_if_t) (k : nat) : axi4_r_if_t :=
  AxiR (ar_id ar) (load m (ar_addr ar + 4 * Z.of_nat k) 4) AXI4_RESP_OKAY (Z.of_nat k =? ar_len ar).

Definition read_beats (m : Z -> Z) (ar : axi4_ar_if_t) : list axi4_r_if_t :=
  if axi4_user_is_cmo (ar_user ar) then [AxiR (ar_id ar) 0 AXI4_RESP_OKAY true]
  else read_beat m ar <$> seq 0 (Z.to_nat (ar_len ar + 1)).

Definition write_burst (m : Z -> Z) (aw : axi4_aw_if_t) (ws : list axi4_w_if_t) : Z -> Z := fun a =>
  let o := a - aw_addr aw in
  match aget ws (o / 4) with
  | Some w => if Z.testbit (w_strb w) (o mod 4) then word_byte (w_data w) (o mod 4) else m a
  | None => m a
  end.

(** One step of the memory, with the channels of the port before and after. *)
Inductive axi_mem_step :
    axi_mem -> chan axi4_aw_if_t * chan axi4_w_if_t * chan axi4_b_if_t * chan axi4_ar_if_t * chan axi4_r_if_t ->
    axi_mem -> chan axi4_aw_if_t * chan axi4_w_if_t * chan axi4_b_if_t * chan axi4_ar_if_t * chan axi4_r_if_t -> Prop :=
| MemAw e aw aws w b ar r d : am_aw e = None ->
    axi_mem_step e (Chan d (aw :: aws), w, b, ar, r) (e <| am_aw := Some aw |>) (Chan d aws, w, b, ar, r)
| MemW e x aw w ws b ar r d : am_aw e = Some x ->
    axi_mem_step e (aw, Chan d (w :: ws), b, ar, r) (e <| am_wr := am_wr e ++ [w] |>) (aw, Chan d ws, b, ar, r)
| MemB e x ws w aw wc b ar r : am_aw e = Some x -> am_wr e = ws ++ [w] -> w_last w = true -> chan_full b = false ->
    axi_mem_step e (aw, wc, b, ar, r)
      (e <| am_mem := write_burst (am_mem e) x (am_wr e) |> <| am_aw := None |> <| am_wr := [] |>)
      (aw, wc, chan_snoc b (AxiB (aw_id x) AXI4_RESP_OKAY), ar, r)
| MemAr e x aw w b ars r d : am_rd e = [] ->
    axi_mem_step e (aw, w, b, Chan d (x :: ars), r) (e <| am_rd := read_beats (am_mem e) x |>) (aw, w, b, Chan d ars, r)
| MemR e x rs aw w b ar r : am_rd e = x :: rs -> chan_full r = false ->
    axi_mem_step e (aw, w, b, ar, r) (e <| am_rd := rs |>) (aw, w, b, ar, chan_snoc r x).

(** ** Words *)

Lemma load_byte m a k : 0 <= k < 4 -> (forall j, 0 <= j < 4 -> 0 <= m (a + j) < 256) ->
  word_byte (load m a 4) k = m (a + k).
Proof.
  intros Hk Hm. unfold word_byte. cbn [load].
  change (256 ^ Z.of_nat 0) with 1. change (256 ^ Z.of_nat 1) with 256. change (256 ^ Z.of_nat 2) with 65536.
  change (256 ^ Z.of_nat 3) with 16777216. change (Z.of_nat 0) with 0. change (Z.of_nat 1) with 1.
  change (Z.of_nat 2) with 2. change (Z.of_nat 3) with 3.
  pose proof (Hm 0 ltac:(lia)). pose proof (Hm 1 ltac:(lia)). pose proof (Hm 2 ltac:(lia)). pose proof (Hm 3 ltac:(lia)).
  assert (k = 0 \/ k = 1 \/ k = 2 \/ k = 3) as [->|[->|[->| ->]]] by lia.
  - change (2 ^ (8 * 0)) with 1. zdiv.
  - change (2 ^ (8 * 1)) with 256. zdiv.
  - change (2 ^ (8 * 2)) with 65536. zdiv.
  - change (2 ^ (8 * 3)) with 16777216. zdiv.
Qed.

Lemma write_burst_range m aw ws a : (forall a, 0 <= m a < 256) -> 0 <= write_burst m aw ws a < 256.
Proof. intros Hm. unfold write_burst. cbv zeta. destruct (aget _ _); [|done]. destruct (Z.testbit _ _); [apply word_byte_range|done]. Qed.
