(* ===== verification/L1Inv.v ===== *)
(** * The invariant of the level 1 cache

    The state of [core/hart/l1.c], attached to a memory, between two of its cycles and between the
    stages of one: which flat memory the cache represents, what every state of the miss machine has
    on its way to and from the memory, and which answer every outstanding request is going to get. *)

From stdpp Require Import base numbers list.
From Stdlib Require Import ZArith Lia.
From S2P Require Import Prelude Fifo Ost OstScan OstSlot Bti Axi Ifu L1 L1Cache AxiMem.

(** ** Specification *)

(** What a flat memory answers to a request; a read-only cache refuses stores. *)
Definition flat_rsp (ro : bool) (V : Z -> Z) (req : bti_req_if_t) : bti_rsp_if_t :=
  if bq_cmd req =? BTI_REQ_CMD_READ then
    BtiRsp (bq_trans_id req) (load V (bq_addr req) (Z.to_nat (req_bytes req))) true
  else if bq_cmd req =? BTI_REQ_CMD_WRITE then BtiRsp (bq_trans_id req) 0 (negb ro)
  else BtiRsp (bq_trans_id req) 0 (l1_req_is_cbo (bq_cmd req)).

Definition flat_mem (ro : bool) (V : Z -> Z) (req : bti_req_if_t) : Z -> Z :=
  if (bq_cmd req =? BTI_REQ_CMD_WRITE) && negb ro then stored V req 0 (req_bytes req) else V.

Fixpoint flat_run (ro : bool) (V : Z -> Z) (reqs : list bti_req_if_t) : list bti_rsp_if_t * (Z -> Z) :=
  match reqs with
  | [] => ([], V)
  | req :: reqs =>
    let '(rsps, V') := flat_run ro (flat_mem ro V req) reqs in
    (flat_rsp ro V req :: rsps, V')
  end.

Lemma flat_run_snoc ro V reqs req :
  flat_run ro V (reqs ++ [req]) =
  ((flat_run ro V reqs).1 ++ [flat_rsp ro (flat_run ro V reqs).2 req], flat_mem ro (flat_run ro V reqs).2 req).
Proof.
  revert V. induction reqs as [|r reqs IH]; intros V; [done|]. simpl. rewrite IH. by destruct (flat_run ro _ reqs).
Qed.

Lemma flat_run_app ro V r1 r2 :
  flat_run ro V (r1 ++ r2) =
  ((flat_run ro V r1).1 ++ (flat_run ro (flat_run ro V r1).2 r2).1, (flat_run ro (flat_run ro V r1).2 r2).2).
Proof.
  revert V. induction r1 as [|r r1 IH]; intros V; [apply surjective_pairing|]. simpl. rewrite IH.
  by destruct (flat_run ro (flat_mem ro V r) r1).
Qed.

(** Requests the theorem is about: a load or a store within one line and outside the bypass ranges, or
    a cache block operation that keeps the data.  Other commands are refused. *)
Record req_ok (bypass : Z -> bool) (req : bti_req_if_t) : Prop := {
  rk_id : 0 <= bq_trans_id req < 65536;
  rk_addr : is_u32 (bq_addr req);
  rk_size : 0 <= bq_size req <= 2;
  rk_line : bq_addr req mod 64 + req_bytes req <= 64;
  rk_cmd : bq_cmd req <> BTI_REQ_CMD_CBO_INVAL;
  rk_bypass : bypass (bq_addr req) = false
}.

(** ** The flat memory and single lines *)

Lemma req_bytes_cases req : 0 <= bq_size req <= 2 -> req_bytes req = 1 \/ req_bytes req = 2 \/ req_bytes req = 4.
Proof.
  unfold req_bytes. intros. assert (bq_size req = 0 \/ bq_size req = 1 \/ bq_size req = 2) as [->|[->| ->]] by lia; auto.
Qed.

Lemma req_size_eq req : 0 <= bq_size req <= 2 -> l1_req_size_from req = Some (req_bytes req).
Proof.
  intros H. unfold l1_req_size_from, req_bytes. destruct (Z.leb_spec (bq_size req) BTI_REQ_SIZE_B4); [|unfold BTI_REQ_SIZE_B4 in *; lia].
  rewrite Z.shiftl_1_l, u32_small; [done|]. pose proof (req_bytes_cases req H) as Hc. unfold req_bytes in Hc. unfold is_u32, W32. lia.
Qed.

(** Addresses a request touches are in its line. *)
Lemma req_byte_line l req k : req_ok l req -> 0 <= k < req_bytes req -> line_of (bq_addr req + k) = line_of (bq_addr req).
Proof. intros [] Hk. unfold line_of. Z.div_mod_to_equations; lia. Qed.

Lemma flat_mem_other l ro V req a : req_ok l req -> line_of a <> line_of (bq_addr req) -> flat_mem ro V req a = V a.
Proof.
  intros Hk Hl. unfold flat_mem. destruct (_ && _); [|done]. unfold stored. cbv zeta.
  destruct (Z.leb_spec 0 (a - bq_addr req)), (Z.ltb_spec (a - bq_addr req) (req_bytes req)); try done.
  destruct Hl. rewrite <- (req_byte_line l req (a - bq_addr req)) by (done || lia). f_equal. lia.
Qed.

Lemma flat_rsp_other l l' ro V r1 r2 : req_ok l r1 -> req_ok l' r2 -> line_of (bq_addr r1) <> line_of (bq_addr r2) ->
  flat_rsp ro (flat_mem ro V r1) r2 = flat_rsp ro V r2.
Proof.
  intros H1 H2 Hl. unfold flat_rsp. destruct (_ =? _); [|done]. f_equal. apply load_ext. intros k Hk.
  apply (flat_mem_other l); [done|]. destruct (req_bytes_cases r2 (rk_size _ _ H2)) as [Eq|[Eq|Eq]];
    rewrite (req_byte_line l' r2) by (done || lia); congruence.
Qed.

Lemma flat_mem_comm l l' ro V r1 r2 : req_ok l r1 -> req_ok l' r2 -> line_of (bq_addr r1) <> line_of (bq_addr r2) ->
  same_mem (flat_mem ro (flat_mem ro V r1) r2) (flat_mem ro (flat_mem ro V r2) r1).
Proof.
  intros H1 H2 Hl a _. destruct (decide (line_of a = line_of (bq_addr r1))) as [E1|N1].
  - rewrite (flat_mem_other l') by (done || congruence).
    unfold flat_mem at 1 2. destruct ((bq_cmd r1 =? _) && _); [|by rewrite (flat_mem_other l') by (done || congruence)].
    unfold stored. cbv zeta. by rewrite (flat_mem_other l') by (done || congruence).
  - rewrite (flat_mem_other l _ _ r1) by done. unfold flat_mem at 1 3. destruct (_ && _).
    + unfold stored. cbv zeta. by rewrite (flat_mem_other l) by done.
    + by rewrite (flat_mem_other l) by done.
Qed.

#[export] Instance flat_mem_proper : Proper (eq ==> same_mem ==> eq ==> same_mem) flat_mem.
Proof. intros ro ? <- V V' H r ? <-. unfold flat_mem. destruct (_ && _); [by rewrite H|done]. Qed.

Lemma flat_rsp_same l ro V V' req : req_ok l req -> same_mem V V' -> flat_rsp ro V req = flat_rsp ro V' req.
Proof.
  intros Hk H. unfold flat_rsp. destruct (_ =? _); [|done]. f_equal. apply load_ext. intros k Hr.
  apply H. pose proof (rk_addr _ _ Hk). pose proof (req_byte_line l req k Hk).
  destruct (req_bytes_cases req (rk_size _ _ Hk)) as [E|[E|E]]; rewrite E in *; specialize (H1 ltac:(lia));
  unfold is_u32, W32, line_of in *; Z.div_mod_to_equations; lia.
Qed.

(** ** The bus *)

Definition bus (l : l1_t) := (c_axi4_aw_mst l, c_axi4_w_mst l, c_axi4_b_slv l, c_axi4_ar_mst l, c_axi4_r_slv l).

Definition no_write (l : l1_t) (e : axi_mem) : Prop :=
  ch_pkts (c_axi4_aw_mst l) = [] /\ ch_pkts (c_axi4_w_mst l) = [] /\ ch_pkts (c_axi4_b_slv l) = [] /\
  am_aw e = None /\ am_wr e = [].

Definition no_read (l : l1_t) (e : axi_mem) : Prop :=
  ch_pkts (c_axi4_ar_mst l) = [] /\ ch_pkts (c_axi4_r_slv l) = [] /\ am_rd e = [].

(** The words of line [i] as beats. *)
Definition line_beat (l : l1_t) (i : Z) (k : nat) : axi4_w_if_t :=
  AxiW (cword l i (Z.of_nat k)) 0xf (Z.of_nat k =? 15).

Definition line_beats (l : l1_t) (i : Z) (n : nat) : list axi4_w_if_t := line_beat l i <$> seq 0 n.

(** A line is being written: the first [n] beats are on their way. *)
Definition writing (l : l1_t) (e : axi_mem) (i addr : Z) (n : nat) : Prop :=
  ch_pkts (c_axi4_b_slv l) = [] /\
  ((ch_pkts (c_axi4_aw_mst l) = [l1_wb_aw addr] /\ am_aw e = None /\ am_wr e = [] /\
    ch_pkts (c_axi4_w_mst l) = line_beats l i n) \/
   (ch_pkts (c_axi4_aw_mst l) = [] /\ am_aw e = Some (l1_wb_aw addr) /\
    am_wr e ++ ch_pkts (c_axi4_w_mst l) = line_beats l i n)).

(** The write response of line [i] is in: memory holds the line. *)
Definition line_in_memory (l : l1_t) (e : axi_mem) (i addr : Z) : Prop :=
  ch_pkts (c_axi4_aw_mst l) = [] /\ ch_pkts (c_axi4_w_mst l) = [] /\
  ch_pkts (c_axi4_b_slv l) = [AxiB 0 AXI4_RESP_OKAY] /\ am_aw e = None /\ am_wr e = [] /\
  forall off, 0 <= off < 64 -> am_mem e (addr + off) = cbyte l i off.

(** A burst is being read; [k] beats have been taken. *)
Definition reading (l : l1_t) (e : axi_mem) (ar : axi4_ar_if_t) (k : nat) : Prop :=
  (ch_pkts (c_axi4_ar_mst l) = [ar] /\ ch_pkts (c_axi4_r_slv l) = [] /\ am_rd e = [] /\ k = 0%nat) \/
  (ch_pkts (c_axi4_ar_mst l) = [] /\ ch_pkts (c_axi4_r_slv l) ++ am_rd e = drop k (read_beats (am_mem e) ar)).

Definition refill_ar (n : Z) : axi4_ar_if_t :=
  AxiAr 0 (64 * n) (L1_WORD_NUM - 1) AXI4_SIZE_B4 AXI4_BURST_INCR false 0xf 0 0 0.

(** ** The states of the miss machine *)

(** The line [i] is dirty and its address is the one of the write back. *)
Definition wb_line (l : l1_t) (i : Z) : Prop := valid l i /\ dirty l i /\ c_wb_line_addr l = 64 * lnum l i.

(** The registers of a miss. *)
Definition miss_ok (l : l1_t) : Prop :=
  let n := line_of (bq_addr (c_req l)) in
  0 <= c_req_line_idx l < lines l /\ c_req_line_idx l / ways l = n mod sets l /\
  c_req_tag l = n / sets l /\ c_req_line_addr l = 64 * n /\ forall j, valid l j -> lnum l j <> n.

Definition wb_phase (l : l1_t) (e : axi_mem) (i : Z) : l1_state_t -> Prop := fun s =>
  match s with
  | L1_STATE_WB_AW | L1_STATE_CMO_L1_WB_AW | L1_STATE_FLUSH_WB_AW => no_write l e
  | L1_STATE_WB_W | L1_STATE_CMO_L1_WB_W | L1_STATE_FLUSH_WB_W =>
    exists k : nat, c_beat_idx l = Z.of_nat k /\ (k < 16)%nat /\ writing l e i (c_wb_line_addr l) k
  | _ => writing l e i (c_wb_line_addr l) 16 \/ line_in_memory l e i (c_wb_line_addr l)
  end /\ wb_line l i /\ no_read l e.

Definition flush_ok (l : l1_t) : Prop :=
  0 <= c_flush_line_idx l < lines l /\ forall j, j < c_flush_line_idx l -> ~ valid l j.

Definition phase (l : l1_t) (e : axi_mem) : Prop :=
  match c_state l with
  | L1_STATE_IDLE => no_write l e /\ no_read l e
  | L1_STATE_WB_AW | L1_STATE_WB_W | L1_STATE_WB_B =>
    wb_phase l e (c_req_line_idx l) (c_state l) /\ miss_ok l
  | L1_STATE_REFILL_AR =>
    no_write l e /\ no_read l e /\ miss_ok l /\ (valid l (c_req_line_idx l) -> ~ dirty l (c_req_line_idx l))
  | L1_STATE_REFILL_R =>
    let n := line_of (bq_addr (c_req l)) in
    no_write l e /\ miss_ok l /\
    exists k : nat, c_beat_idx l = Z.of_nat k /\ (k < 16)%nat /\ reading l e (refill_ar n) k /\
      forall j, (j < k)%nat -> cword l (c_req_line_idx l) (Z.of_nat j) = load (am_mem e) (64 * n + 4 * Z.of_nat j) 4
  | L1_STATE_SERVE_MISS => no_write l e /\ no_read l e /\ in_line (c_req l) (c_req_line_idx l) l
  | L1_STATE_CMO_L1_WB_AW | L1_STATE_CMO_L1_WB_W | L1_STATE_CMO_L1_WB_B =>
    wb_phase l e (c_req_line_idx l) (c_state l)
  | L1_STATE_CMO_L2_AR => no_write l e /\ no_read l e
  | L1_STATE_CMO_L2_R => no_write l e /\
      (ch_pkts (c_axi4_ar_mst l) = [] /\ ch_pkts (c_axi4_r_slv l) ++ am_rd e = [AxiR 0 0 AXI4_RESP_OKAY true] \/
       exists ar, ch_pkts (c_axi4_ar_mst l) = [ar] /\ ar_id ar = 0 /\ axi4_user_is_cmo (ar_user ar) = true /\
         ch_pkts (c_axi4_r_slv l) = [] /\ am_rd e = [])
  | L1_STATE_FLUSH_CHECK => no_write l e /\ no_read l e /\ flush_ok l
  | L1_STATE_FLUSH_WB_AW | L1_STATE_FLUSH_WB_W | L1_STATE_FLUSH_WB_B =>
    wb_phase l e (c_flush_line_idx l) (c_state l) /\ flush_ok l
  | L1_STATE_FLUSH_ACK => no_write l e /\ no_read l e /\ (forall j, ~ valid l j) /\ is_Some (c_flush_ack_mst l)
  end.

(** A load or store is with the miss machine; a cache block operation is. *)
Definition missing (s : l1_state_t) : bool :=
  match s with
  | L1_STATE_WB_AW | L1_STATE_WB_W | L1_STATE_WB_B | L1_STATE_REFILL_AR | L1_STATE_REFILL_R
  | L1_STATE_SERVE_MISS => true
  | _ => false
  end.

Definition cleaning (s : l1_state_t) : bool :=
  match s with
  | L1_STATE_CMO_L1_WB_AW | L1_STATE_CMO_L1_WB_W | L1_STATE_CMO_L1_WB_B | L1_STATE_CMO_L2_AR
  | L1_STATE_CMO_L2_R => true
  | _ => false
  end.

(** The line whose data is not yet the one of its tag. *)
Definition refilling (l : l1_t) : option Z :=
  match c_state l with L1_STATE_REFILL_R => Some (c_req_line_idx l) | _ => None end.

(** ** Outstanding requests *)

(** Who completes an entry: it is complete, or the miss machine or the hit pipe is going to do it. *)
Inductive owner := Done | ByMiss | ByHit.

(** An entry and the answer it is going to give. *)
Definition entry_ok (c : l1_ost_ctx_t) (p : bti_rsp_if_t * owner) : Prop :=
  lx_kind c = L1_OST_CACHED /\ lx_trans_id c = bp_trans_id p.1 /\ 0 <= bp_trans_id p.1 < 65536 /\
  match p.2 with
  | Done => (lx_rsp_vld c = true \/ lx_rsp_delay_pend c = true) /\ lx_ok c = bp_ok p.1 /\ lx_data c = bp_data p.1
  | _ => lx_rsp_vld c = false /\ lx_rsp_delay_pend c = false
  end.

(** The entry of [slot] is going to give the answer [rsp] when [who] completes it. *)
Definition expects (ost : ostq_t l1_ost_ctx_t) (ex : list (bti_rsp_if_t * owner)) (slot : Z) (who : owner) (rsp : bti_rsp_if_t) : Prop :=
  exists j, ex !! j = Some (rsp, who) /\ slot = live_slot ost j.

(** A load, or a store to a cache that is not read-only. *)
Definition plain (ro : bool) (req : bti_req_if_t) : Prop :=
  bq_cmd req = BTI_REQ_CMD_READ \/ bq_cmd req = BTI_REQ_CMD_WRITE /\ ro = false.

Definition opt_list {A} (b : bool) (x : A) : list A := if b then [x] else [].

(** The requests that have no entry yet, oldest first. *)
Definition waiting (l : l1_t) : list bti_req_if_t :=
  opt_list (c_lookup_pipe_vld l) (lp_req (c_lookup_pipe l)) ++ opt_list (c_req_pipe_vld l) (c_req_pipe l) ++
  ch_pkts (c_req_fifo l) ++ ch_pkts (c_bti_req_slv l).

(** The effect of the requests that have an entry but did not touch the arrays yet. *)
Definition pending_mem (l : l1_t) (V : Z -> Z) : Z -> Z :=
  let ro := lf_ro (c_conf l) in
  let V1 := if missing (c_state l) then flat_mem ro V (c_req l) else V in
  if c_hit_pipe_vld l then flat_mem ro V1 (hp_req (c_hit_pipe l)) else V1.

(** [V] is the flat memory the arrays represent and [Vend] the one after all the requests that have
    an entry; [live] are the entries and [ex] the answers they are going to give. *)
Record l1_inv (l : l1_t) (e : axi_mem) (V Vend : Z -> Z) (live : list l1_ost_ctx_t)
    (ex : list (bti_rsp_if_t * owner))
    (fr : bool) : Prop := {
  iv_cache : cache_ok l V (am_mem e) (refilling l);
  iv_bytes : forall a, 0 <= am_mem e a < 256;
  iv_chans : chan_wf (c_bti_rsp_mst l) /\ chan_wf (c_axi4_aw_mst l) /\ chan_wf (c_axi4_w_mst l) /\
    chan_wf (c_axi4_ar_mst l) /\ chan_wf (c_req_fifo l) /\ from_option chan_wf True (c_flush_ack_mst l);
  iv_ost : ost_live (c_ost l) fr live;
  iv_entries : Forall2 entry_ok live ex;
  iv_phase : phase l e;
  iv_miss : missing (c_state l) = true ->
    plain (lf_ro (c_conf l)) (c_req l) /\ req_ok (l1_bypass l) (c_req l) /\ c_req_byte_idx l = 0 /\ c_req_data l = 0 /\
    c_op_ok l = true /\ expects (c_ost l) ex (c_active_slot l) ByMiss (flat_rsp (lf_ro (c_conf l)) V (c_req l));
  iv_clean : cleaning (c_state l) = true ->
    l1_cbo_cleans (bq_cmd (c_req l)) = true /\
    exists id, expects (c_ost l) ex (c_active_slot l) ByMiss (BtiRsp id 0 true);
  iv_flush : l1_state_is_flush (c_state l) = true ->
    live = [] /\ c_hit_pipe_vld l = false /\ lf_ro (c_conf l) = false;
  iv_hit : c_hit_pipe_vld l = true ->
    plain (lf_ro (c_conf l)) (hp_req (c_hit_pipe l)) /\ req_ok (l1_bypass l) (hp_req (c_hit_pipe l)) /\
    in_line (hp_req (c_hit_pipe l)) (hp_line_idx (c_hit_pipe l)) l /\
    (c_state l <> L1_STATE_IDLE -> hp_line_idx (c_hit_pipe l) <> c_req_line_idx l) /\
    expects (c_ost l) ex (hp_slot (c_hit_pipe l)) ByHit (flat_rsp (lf_ro (c_conf l)) V (hp_req (c_hit_pipe l)));
  iv_lookup : c_lookup_pipe_vld l = true ->
    lp_bypass (c_lookup_pipe l) = false /\
    (lp_hit (c_lookup_pipe l) = true ->
      0 <= lp_line_idx (c_lookup_pipe l) < lines l /\
      lp_line_idx (c_lookup_pipe l) / ways l = line_of (bq_addr (lp_req (c_lookup_pipe l))) mod sets l);
  iv_waiting : Forall (req_ok (l1_bypass l)) (waiting l);
  iv_end : same_mem Vend (pending_mem l V)
}.

(** ** Parts of the state *)

Lemma expects_slots ost ost' ex slot who rsp : (forall j, live_slot ost' j = live_slot ost j) ->
  expects ost ex slot who rsp -> expects ost' ex slot who rsp.
Proof. intros H (j & Hj & ->). exists j. by rewrite H. Qed.

Lemma expects_snoc ost ost' ex slot who rsp p : (forall j, live_slot ost' j = live_slot ost j) ->
  expects ost ex slot who rsp -> expects ost' (ex ++ [p]) slot who rsp.
Proof. intros H (j & Hj & ->). exists j. rewrite H. split; [by apply lookup_app_l_Some|done]. Qed.

(** An entry that [who] completes with the answer it is expected to give. *)
Definition completes ost fr ex who ost' live' ex' : Prop :=
  ost_live ost' fr live' /\ Forall2 entry_ok live' ex' /\ ex'.*1 = ex.*1 /\
  forall slot who' rsp, who' <> who -> expects ost ex slot who' rsp -> expects ost' ex' slot who' rsp.

Lemma slot_complete_ok ost fr live ex slot who rsp lat c' : ost_live ost fr live -> Forall2 entry_ok live ex ->
  expects ost ex slot who rsp ->
  (forall c, c' c = c <| lx_ok := bp_ok rsp |> <| lx_data := bp_data rsp |> <| lx_rsp_vld := lat =? 0 |>
     <| lx_rsp_delay_pend := negb (lat =? 0) |> <| lx_delay := 0 |>) ->
  wp (ctx ← ostq_read_slot slot; ostq_write_slot slot (c' ctx)) (fun _ ost' => exists live' ex',
    completes ost fr ex who ost' live' ex') ost.
Proof.
  intros Ho He (j & Hj & ->) Hc'. destruct (Forall2_lookup_r _ _ _ _ _ He Hj) as (c & Hc & Hok).
  apply wp_bind. eapply wp_slot_read; [done..|]. eapply wp_slot_write; [done..|]. intros ost' Ho' _ Hs.
  exists (<[j := c' c]> live), (<[j := (rsp, Done)]> ex). split_and!; try done.
  - apply Forall2_insert; [done|]. rewrite Hc'. destruct Hok as (? & ? & ? & _). split; [done|]. split; [done|]. split; [done|].
    split; [|done]. cbn. destruct (lat =? 0); auto.
  - rewrite list_fmap_insert. apply list_insert_id. by rewrite list_lookup_fmap, Hj.
  - intros slot' who' rsp' Hne (k & Hk & ->). exists k. rewrite Hs. split; [|done]. rewrite list_lookup_insert_ne; [done|].
    intros ->. congruence.
Qed.

Lemma wp_complete_slot l fr live ex slot who rsp Q : ost_live (c_ost l) fr live -> Forall2 entry_ok live ex ->
  expects (c_ost l) ex slot who rsp ->
  (forall ost' live' ex', completes (c_ost l) fr ex who ost' live' ex' -> Q tt (l <| c_ost := ost' |>)) ->
  wp (l1_complete_slot slot (bp_ok rsp) (bp_data rsp)) Q l.
Proof.
  intros Ho He Hx HQ. unfold l1_complete_slot. apply wp_bind, wp_gets. unfold id.
  assert (wp (on c_ost (ctx ← ostq_read_slot slot; ostq_write_slot slot (ctx <| lx_ok := bp_ok rsp |>
    <| lx_data := bp_data rsp |> <| lx_rsp_vld := lf_latency (c_conf l) =? 0 |>
    <| lx_rsp_delay_pend := negb (lf_latency (c_conf l) =? 0) |> <| lx_delay := 0 |>))) Q l) as H.
  { apply wp_on. eapply wp_mono; [by eapply (slot_complete_ok _ _ _ _ _ who rsp (lf_latency (c_conf l)))|].
    intros [] ost' (live' & ex' & ?). by apply (HQ ost' live' ex'). }
  revert H. unfold wp, on, mbind, M_bind. destruct (ostq_read_slot slot (c_ost l)) as [[c o]|]; [|done].
  upd_proj. by destruct (ostq_write_slot slot _ o) as [[[] o']|].
Qed.

(** The entries keep their kind, so that no entry is a bypass. *)
Lemma live_cached live ex j c : Forall2 entry_ok live ex -> live !! j = Some c -> lx_kind c = L1_OST_CACHED.
Proof. intros He Hj. destruct (Forall2_lookup_l _ _ _ _ _ He Hj) as (r & _ & Hk & _). done. Qed.

Lemma tick_entry lat c rsp : entry_ok c rsp -> lx_rsp_delay_pend c = true -> entry_ok (tick_ctx lat c) rsp.
Proof.
  intros (Hk & Hi & Hr & Hd) Hp. destruct rsp as [rsp []]; cbn in Hd; destruct_and?; try congruence.
  unfold tick_ctx. cbv zeta. destruct (_ <=? _); (split; [done|]); (split; [done|]); (split; [done|]); cbn; auto.
Qed.

Lemma tick_loop_ok lat n i ost fr live ex : ost_live ost fr live -> Forall2 entry_ok live ex ->
  0 <= i -> i + Z.of_nat n <= q_depth ost ->
  wp (tick_loop lat n i) (fun _ ost' => exists live', ost_live ost' fr live' /\ Forall2 entry_ok live' ex /\
    forall j, live_slot ost' j = live_slot ost j) ost.
Proof.
  revert i ost live. induction n as [|n IH]; intros i ost live Ho He Hi Hn; cbn [tick_loop]; [apply wp_ret; by exists live|].
  apply wp_bind. eapply wp_slot_valid; [done|lia| |].
  { cbn [when]. apply wp_bind, wp_ret. apply (IH _ _ live); [done..|lia|lia]. }
  intros j c Hj ->. cbn [when]. apply wp_bind, wp_bind. eapply wp_slot_read; [done..|].
  destruct (Forall2_lookup_l _ _ _ _ _ He Hj) as (r & Hr & Hok).
  destruct (lx_rsp_delay_pend c) eqn:Ep; cbn [when]; [|apply wp_ret; apply (IH _ _ live); [done..|lia|lia]].
  eapply wp_slot_write; [done..|]. intros ost' Ho' Hd Hs.
  eapply wp_mono; [apply (IH _ ost' (<[j := tick_ctx lat c]> live)); [done| |lia|lia]|].
  - rewrite <- (list_insert_id ex j r Hr). apply Forall2_insert; [done|by apply tick_entry].
  - intros [] ost2 (live2 & ? & ? & Hs2). exists live2. split_and!; try done. intros k. by rewrite Hs2, Hs.
Qed.

Lemma has_bypass_ok n i ost fr live ex : ost_live ost fr live -> Forall2 entry_ok live ex ->
  0 <= i -> i + Z.of_nat n <= q_depth ost -> wp (has_bypass_loop n i) (fun b ost' => b = false /\ ost' = ost) ost.
Proof.
  intros Ho He. revert i. induction n as [|n IH]; intros i Hi Hn; cbn [has_bypass_loop]; [by apply wp_ret|].
  apply wp_bind. eapply wp_slot_valid; [done|lia| |].
  { cbn [negb]. apply IH; lia. }
  intros j c Hj ->. cbn [negb]. apply wp_bind. eapply wp_slot_read; [done..|].
  rewrite (live_cached _ _ _ _ He Hj). apply IH; lia.
Qed.
