(* ===== verification/L1Stages.v ===== *)
(** * The stages of the level 1 cache

    Every stage of [l1_clock] keeps the invariant of L1Inv.v. *)

From stdpp Require Import base numbers list.
From Stdlib Require Import ZArith Lia.
From S2P Require Import Prelude Fifo Ost OstScan OstSlot Bti Axi Ifu L1 L1Cache AxiMem L1Inv.

(** What the stages of the miss machine leave alone: the answers sent, the requests that wait for an
    entry and the configuration. *)
Definition io (l : l1_t) := (c_bti_rsp_mst l, waiting l, c_conf l).

Definition stage_ok (m : M l1_t unit) : Prop := forall l e V Vend live ex fr, l1_inv l e V Vend live ex fr ->
  wp m (fun _ l' => exists V' live' ex', l1_inv l' e V' Vend live' ex' fr /\ ex'.*1 = ex.*1 /\ io l' = io l /\
    c_hit_pipe_vld l' = c_hit_pipe_vld l) l.

Ltac stage := intros l e V Vend live ex fr H; apply wp_bind, wp_gets; unfold id; cbv zeta.
Ltac skip := apply wp_ret; do 3 eexists; by split_and!.

(** ** Flags *)

Lemma wp_set_valid l i v Q : geom l -> 0 <= i < lines l ->
  Q tt (l <| c_valids := <[Z.to_nat i := v]> (c_valids l) |>) -> wp (l1_set_valid i v) Q l.
Proof.
  intros G Hi HQ. unfold l1_set_valid. apply wp_bind, wp_gets. unfold id.
  rewrite aset_insert by (rewrite (gm_valids l G); lia). apply wp_bind, wp_ret, wp_modify, HQ.
Qed.

Lemma wp_set_dirty l i v Q : geom l -> 0 <= i < lines l ->
  Q tt (l <| c_dirtys := <[Z.to_nat i := v]> (c_dirtys l) |>) -> wp (l1_set_dirty i v) Q l.
Proof.
  intros G Hi HQ. unfold l1_set_dirty. apply wp_bind, wp_gets. unfold id.
  rewrite aset_insert by (rewrite (gm_dirtys l G); lia). apply wp_bind, wp_ret, wp_modify, HQ.
Qed.

(** ** The outstanding queue *)

(** Only the refill of a line and a cache block operation have beats to receive. *)
Lemma beats_id m ar k r : r ∈ drop k (read_beats m ar) -> r_id r = ar_id ar.
Proof.
  intros Hr. assert (r ∈ read_beats m ar) as Hin by (rewrite <- (take_drop k (read_beats m ar)); apply elem_of_app; by right).
  clear Hr. unfold read_beats in Hin. destruct (axi4_user_is_cmo _).
  - by apply list_elem_of_singleton in Hin as ->.
  - apply list_elem_of_fmap in Hin as (j & -> & _). done.
Qed.

Lemma phase_r_id l e r rs : phase l e -> ch_pkts (c_axi4_r_slv l) = r :: rs -> r_id r = 0.
Proof.
  unfold phase, wb_phase, no_read, reading. intros H E. destruct (c_state l); rewrite E in H;
    try (by destruct_and?); try (by destruct H as (_ & _ & _ & _ & _ & _ & ?)).
  - destruct H as (_ & _ & k & _ & _ & [(_ & ? & _)|(_ & Hd)] & _); [done|].
    rewrite (beats_id (am_mem e) (refill_ar (line_of (bq_addr (c_req l)))) k); [done|]. rewrite <- Hd. by left.
  - destruct H as (_ & [(_ & [= -> _])|(ar & _ & _ & _ & ? & _)]); done.
Qed.

Lemma phase_b_id l e b bs : phase l e -> ch_pkts (c_axi4_b_slv l) = b :: bs -> b_id b = 0.
Proof.
  unfold phase, wb_phase, no_write, writing, line_in_memory. intros H E. destruct (c_state l); rewrite E in H;
    repeat match goal with
    | H : _ /\ _ |- _ => destruct H
    | H : _ \/ _ |- _ => destruct H
    | H : exists _, _ |- _ => destruct H
    | H : _ :: _ = [_] |- _ => by injection H as -> _
    | H : _ :: _ = [] |- _ => discriminate H
    end.
Qed.

Lemma upd_ost_id l : l <| c_ost := c_ost l |> = l.
Proof. by destruct l. Qed.

Lemma slot_check l fr live slot Q : ost_live (c_ost l) fr live -> 0 <= slot ->
  Q false l -> (forall j c, live !! j = Some c -> slot = live_slot (c_ost l) j -> Q true l) ->
  wp (if q_depth (c_ost l) <=? slot then mret false else on c_ost (ostq_slot_valid slot)) Q l.
Proof.
  intros Ho Hs HF HT. destruct (Z.leb_spec (q_depth (c_ost l)) slot); [by apply wp_ret|].
  apply wp_on. eapply wp_slot_valid; [done|lia|by rewrite upd_ost_id|]. intros j c Hj Ej. rewrite upd_ost_id. by eapply HT.
Qed.

(** No entry is a bypass: these stages find nothing to do. *)
Lemma rd_wait_stage : stage_ok l1_proc_bypass_rd_wait.
Proof.
  stage. destruct (chan_empty _) eqn:E; [skip|]. destruct (chan_empty_false _ E) as (r & rs & Er).
  apply wp_bind. eapply wp_on_front; [done|by destruct l|]. rewrite (phase_r_id _ _ _ _ (iv_phase _ _ _ _ _ _ _ H) Er).
  apply wp_bind. eapply slot_check; [apply H|lia|skip|]. intros j c Hj Ej. cbn [negb]. apply wp_bind, wp_on. rewrite Ej.
  eapply wp_slot_read; [apply H|done|]. rewrite upd_ost_id, (live_cached _ _ _ _ (iv_entries _ _ _ _ _ _ _ H) Hj). skip.
Qed.

Lemma wr_wait_stage : stage_ok l1_proc_bypass_wr_wait.
Proof.
  stage. destruct (chan_empty _) eqn:E; [skip|]. destruct (chan_empty_false _ E) as (b & bs & Eb).
  apply wp_bind. eapply wp_on_front; [done|by destruct l|]. rewrite (phase_b_id _ _ _ _ (iv_phase _ _ _ _ _ _ _ H) Eb).
  apply wp_bind. eapply slot_check; [apply H|lia|skip|]. intros j c Hj Ej. cbn [negb]. apply wp_bind, wp_on. rewrite Ej.
  eapply wp_slot_read; [apply H|done|]. rewrite upd_ost_id, (live_cached _ _ _ _ (iv_entries _ _ _ _ _ _ _ H) Hj). skip.
Qed.

Lemma find_issue_none l fr live ex kind Q : ost_live (c_ost l) fr live -> Forall2 entry_ok live ex ->
  kind <> L1_OST_CACHED -> Q None l -> wp (l1_find_bypass_issue_slot kind) Q l.
Proof.
  intros Ho He Hk HQ. unfold l1_find_bypass_issue_slot. apply wp_on. eapply wp_ostq_scan; [done|by rewrite upd_ost_id|].
  intros slot l1 c l2 -> _ Hc _. apply andb_true_iff in Hc as [Hc%bool_decide_eq_true _].
  rewrite (live_cached _ _ (length l1) c He) in Hc; [done|]. by rewrite lookup_app_r, Nat.sub_diag by lia.
Qed.

Lemma rd_issue_stage : stage_ok l1_proc_bypass_rd_issue.
Proof. stage. destruct (chan_full _); [skip|]. apply wp_bind. eapply find_issue_none; [apply H|apply H|done|skip]. Qed.

Lemma wr_issue_stage : stage_ok l1_proc_bypass_wr_issue.
Proof. stage. destruct (_ || _); [skip|]. apply wp_bind. eapply find_issue_none; [apply H|apply H|done|skip]. Qed.

(** ** Steps of the miss machine *)

(** The fields such a step keeps. *)
Definition kept (l : l1_t) :=
  (c_bti_rsp_mst l, c_req_fifo l, c_bti_req_slv l, (c_req_pipe_vld l, c_req_pipe l),
   (c_lookup_pipe_vld l, c_lookup_pipe l), (c_hit_pipe_vld l, c_hit_pipe l), c_active_slot l, c_req l,
   (c_req_line_idx l, c_req_byte_idx l, c_req_data l), (c_conf l, c_set_num l, c_line_num l)).

(** The hit that waits for its cycle stays one. *)
Definition hit_kept (l l' : l1_t) : Prop := c_hit_pipe_vld l = true ->
  in_line (hp_req (c_hit_pipe l)) (hp_line_idx (c_hit_pipe l)) l ->
  (c_state l <> L1_STATE_IDLE -> hp_line_idx (c_hit_pipe l) <> c_req_line_idx l) ->
  in_line (hp_req (c_hit_pipe l)) (hp_line_idx (c_hit_pipe l)) l'.

Lemma inv_move_ost l l' e V Vend live ex fr fr' live' ex' : l1_inv l e V Vend live ex fr -> kept l' = kept l ->
  ost_live (c_ost l') fr' live' -> Forall2 entry_ok live' ex' -> ex'.*1 = ex.*1 ->
  (forall slot who rsp, who = ByHit \/ c_state l' <> L1_STATE_IDLE ->
     expects (c_ost l) ex slot who rsp -> expects (c_ost l') ex' slot who rsp) ->
  missing (c_state l') = missing (c_state l) -> (cleaning (c_state l') = true -> cleaning (c_state l) = true) ->
  (l1_state_is_flush (c_state l') = true -> l1_state_is_flush (c_state l) = true) ->
  (c_state l' <> L1_STATE_IDLE -> c_state l <> L1_STATE_IDLE) ->
  cache_ok l' V (am_mem e) (refilling l') -> phase l' e ->
  (missing (c_state l') = true -> c_op_ok l' = true) ->
  chan_wf (c_axi4_aw_mst l') /\ chan_wf (c_axi4_w_mst l') /\ chan_wf (c_axi4_ar_mst l') /\
    from_option chan_wf True (c_flush_ack_mst l') -> hit_kept l l' ->
  l1_inv l' e V Vend live' ex' fr' /\ ex'.*1 = ex.*1 /\ io l' = io l /\ c_hit_pipe_vld l' = c_hit_pipe_vld l.
Proof.
  intros [] Ek Ho He Hans Hex Em Ec Ef Hidle Hcache Hphase Hop (W1 & W2 & W3 & W4) Hhit. unfold kept in Ek.
  injection Ek as E1 E2 E3 E5 E6 E7 E8 E9 E10 E11 E12 E13 E14 E15 E16 E17 E18.
  assert (waiting l' = waiting l) as Ew by (unfold waiting; by rewrite E2, E3, E5, E6, E7, E8).
  assert (l1_bypass l' = l1_bypass l) as Eb by (unfold l1_bypass; by rewrite E16).
  split; [|split; [done|split; [unfold io; by rewrite E1, Ew, E16|done]]].
  split; rewrite ?Em, ?E1, ?E2, ?E7, ?E8, ?E9, ?E10, ?E11, ?E12, ?E13, ?E14, ?E15, ?E16, ?E17, ?E18, ?Ew, ?Eb; try done.
  - split_and!; try done; apply iv_chans.
  - intros Hm. destruct (iv_miss Hm) as (? & ? & ? & ? & ? & ?). split_and!; try done; [apply Hop; congruence|].
    apply Hex; [|done]. right. intros E. rewrite E in Em. rewrite <- Em in Hm. done.
  - intros Hm. destruct (iv_clean (Ec Hm)) as (? & id & ?). split; [done|]. exists id.
    apply Hex; [|done]. right. intros E. by rewrite E in Hm.
  - intros Hm. destruct (iv_flush (Ef Hm)) as (-> & ? & ?). split_and!; try done. apply Forall2_nil_inv_l in iv_entries as ->.
    apply fmap_nil_inv in Hans as ->. by apply Forall2_nil_inv_r in He.
  - intros Hv. destruct (iv_hit Hv) as (? & ? & ? & ? & ?). split_and!; try done; [by apply Hhit|by intros Hn; auto|].
    apply Hex; [by left|done].
  - unfold pending_mem. rewrite Em, E9, E10, E12, E16. exact iv_end.
Qed.

Lemma inv_move l l' e V Vend live ex fr : l1_inv l e V Vend live ex fr -> kept l' = kept l -> c_ost l' = c_ost l ->
  missing (c_state l') = missing (c_state l) -> (cleaning (c_state l') = true -> cleaning (c_state l) = true) ->
  (l1_state_is_flush (c_state l') = true -> l1_state_is_flush (c_state l) = true) ->
  (c_state l' <> L1_STATE_IDLE -> c_state l <> L1_STATE_IDLE) ->
  cache_ok l' V (am_mem e) (refilling l') -> phase l' e ->
  (missing (c_state l') = true -> c_op_ok l' = true) ->
  chan_wf (c_axi4_aw_mst l') /\ chan_wf (c_axi4_w_mst l') /\ chan_wf (c_axi4_ar_mst l') /\
    from_option chan_wf True (c_flush_ack_mst l') -> hit_kept l l' ->
  l1_inv l' e V Vend live ex fr /\ ex.*1 = ex.*1 /\ io l' = io l /\ c_hit_pipe_vld l' = c_hit_pipe_vld l.
Proof.
  intros H Ek Eo. intros. eapply (inv_move_ost l); try done; [rewrite Eo; apply H|apply H|]. intros ? ? ? _. by rewrite Eo.
Qed.

(** Only the outstanding queue changes. *)
Lemma inv_ost l e V Vend live ex fr o' live' fr' : l1_inv l e V Vend live ex fr ->
  ost_live o' fr' live' -> Forall2 entry_ok live' ex -> (forall j, live_slot o' j = live_slot (c_ost l) j) ->
  l1_inv (l <| c_ost := o' |>) e V Vend live' ex fr'.
Proof.
  intros H Ho He Hs. eapply (inv_move_ost l _ _ _ _ _ _ _ _ _ _ H); try done.
  - intros ? ? ? _. by apply expects_slots.
  - apply (cache_ok_arrays l); [done|]. apply H.
  - apply H.
  - intros Hm. by apply H.
  - split_and!; apply H.
  - by intros _ ? _.
Qed.

Lemma tick_stage : stage_ok l1_tick_rsp_delay.
Proof.
  stage. destruct (_ =? _); [skip|]. apply wp_on.
  eapply wp_mono; [apply (tick_loop_ok _ _ _ _ fr live ex); [apply H|apply H|lia|]|].
  - pose proof (qwf_depth _ (ol_wf _ _ _ (iv_ost _ _ _ _ _ _ _ H))). lia.
  - intros [] o (live' & Ho & He & Hs). exists V, live', ex. split; [by apply (inv_ost _ _ _ _ live _ fr)|done].
Qed.

Lemma hit_kept_arrays l l' : arrays l' = arrays l -> hit_kept l l'.
Proof.
  unfold arrays, hit_kept, in_line, valid, lnum. intros E. injection E as E1 E2 E3 E4 E5 E6 E7 E8.
  by rewrite E1, E2, E4, E7.
Qed.

(** A line other than the one of the hit changes. *)
Lemma hit_kept_line l l' i : (forall j, 0 <= j -> j <> i -> valid l j -> valid l' j /\ lnum l' j = lnum l j) ->
  geom l -> c_state l <> L1_STATE_IDLE -> i = c_req_line_idx l -> hit_kept l l'.
Proof.
  intros H G Hs -> Hv [Hl En] Hne. specialize (Hne Hs). pose proof (valid_range l G _ Hl).
  destruct (H (hp_line_idx (c_hit_pipe l))) as [? E2]; [lia|done|done|]. split; [done|]. by rewrite E2.
Qed.

Lemma hit_none l l' e V Vend live ex fr : l1_inv l e V Vend live ex fr -> l1_state_is_flush (c_state l) = true -> hit_kept l l'.
Proof. intros [] Hf Hv. destruct (iv_flush Hf) as (_ & ? & _). congruence. Qed.

(** Decides the guard of a stage in a known state [Es]. *)
Ltac stguard Es := rewrite ?Es;
  repeat first [rewrite bool_decide_eq_true_2 by (done || congruence) | rewrite bool_decide_eq_false_2 by (intuition congruence)];
  cbn [andb orb negb].

(** The step keeps the arrays. *)
Ltac same_arrays H Es := match type of H with l1_inv ?l _ _ _ _ _ _ => apply (cache_ok_arrays l) end; [done|];
  let Hc := fresh in pose proof (iv_cache _ _ _ _ _ _ _ H) as Hc;
  first [exact Hc | unfold refilling in Hc; rewrite Es in Hc; exact Hc].

(** A step of the machine from state [Es]: what it keeps is kept. *)
Ltac step H Es := do 3 eexists; apply (inv_move _ _ _ _ _ _ _ _ H); upd_proj; rewrite ?Es; try done;
  first [by apply hit_kept_arrays | by intros _ ? _ | by (split_and!; try done; apply (iv_chans _ _ _ _ _ _ _ H)) | by (intros _; apply H; rewrite Es) | by same_arrays H Es | unfold phase; upd_proj; rewrite ?Es | idtac].

(** The facts of the state [Es]. *)
Ltac facts H Es := let Hp := fresh "Hp" in let Hc := fresh "Hch" in
  pose proof (iv_phase _ _ _ _ _ _ _ H) as Hp; pose proof (iv_chans _ _ _ _ _ _ _ H) as Hc;
  unfold phase in Hp; rewrite Es in Hp.

Lemma wb_aw_stage : stage_ok l1_proc_wb_aw.
Proof.
  stage. destruct (decide (c_state l = L1_STATE_WB_AW)) as [Es|N1]; [|destruct (decide (c_state l = L1_STATE_FLUSH_WB_AW)) as [Es|N2]].
  3: { stguard N1. skip. }
  all: facts H Es; stguard Es; destruct (chan_full _) eqn:Ef; [skip|];
    apply wp_bind, wp_on_write; [apply Hch|done|]; intros Hw; apply wp_modify; step H Es;
    destruct Hp as [[(P1 & P2 & P3 & P4 & P5) [Hwb Hnr]] Hm]; split; [|exact Hm]; split; [|by split];
    exists 0%nat; split; [done|]; split; [lia|]; split; [done|]; left; upd_proj; rewrite chan_snoc_pkts, P1; by split_and!.
Qed.

Lemma line_beats_S l i k : line_beats l i (S k) = line_beats l i k ++ [line_beat l i k].
Proof. unfold line_beats. by rewrite seq_S, fmap_app. Qed.

Lemma wp_write_beat l i k Q : geom l -> 0 <= i < lines l -> c_beat_idx l = Z.of_nat k -> (k < 16)%nat ->
  chan_wf (c_axi4_w_mst l) -> chan_full (c_axi4_w_mst l) = false ->
  (chan_wf (chan_snoc (c_axi4_w_mst l) (line_beat l i k)) ->
   Q (Z.of_nat k =? 15) (l <| c_axi4_w_mst := chan_snoc (c_axi4_w_mst l) (line_beat l i k) |>)) ->
  wp (l1_write_beat i) Q l.
Proof.
  intros G Hi Hb Hk Hw Hf HQ. unfold l1_write_beat. apply wp_bind, wp_gets. unfold id. rewrite Hb.
  destruct (word_idx l G i (Z.of_nat k) Hi ltac:(lia)) as [-> Hr].
  destruct (aget_is_Some (c_data l) _ Hr) as [w Ew]. rewrite Ew. apply wp_bind, wp_ret. cbv zeta.
  change (L1_WORD_NUM - 1) with 15.
  assert (AxiW w 0xf (Z.of_nat k =? 15) = line_beat l i k) as -> by (unfold line_beat, cword; by rewrite Ew).
  apply wp_bind, wp_on_write; [done..|]. intros Hw'. apply wp_ret. by apply HQ.
Qed.

Lemma writing_beat l e i addr k : writing l e i addr k ->
  writing (l <| c_axi4_w_mst := chan_snoc (c_axi4_w_mst l) (line_beat l i k) |>) e i addr (S k).
Proof.
  intros [Hb Hw]. split; [done|]. destruct Hw as [(A & B & C & D)|(A & B & C)]; [left|right]; upd_proj; rewrite chan_snoc_pkts;
    split_and!; try done; (etrans; [|symmetry; apply (line_beats_S l i k)]); [by rewrite D|by rewrite app_assoc, C].
Qed.

Lemma valid_line l e V Vend live ex fr i : l1_inv l e V Vend live ex fr -> valid l i -> 0 <= i < lines l.
Proof. intros H Hv. eapply valid_range; [|done]. apply (iv_cache _ _ _ _ _ _ _ H). Qed.

Lemma wb_w_stage : stage_ok l1_proc_wb_w.
Proof.
  stage. destruct (decide (c_state l = L1_STATE_WB_W)) as [Es|N1]; [|destruct (decide (c_state l = L1_STATE_FLUSH_WB_W)) as [Es|N2]].
  3: { stguard N1. skip. }
  all: facts H Es; stguard Es; destruct (chan_full _) eqn:Ef; [skip|];
    destruct Hp as [[(k & Hk & Hk' & Hw) [Hwb Hnr]] Hm]; apply wp_bind;
    (eapply wp_write_beat; [apply (iv_cache _ _ _ _ _ _ _ H)|by eapply valid_line, Hwb|exact Hk|done|apply Hch|done|]);
    intros Hwf; destruct (Z.eqb_spec (Z.of_nat k) 15) as [Ek|Nk]; apply wp_modify; step H Es.
  all: split; [|exact Hm]; split; [|by split].
  - left. replace 16%nat with (S k) by lia. by apply writing_beat.
  - exists (S k). split; [|split; [lia|by apply writing_beat]]. upd_proj. rewrite Hk, u32_small by (unfold is_u32, W32; lia). lia.
  - left. replace 16%nat with (S k) by lia. by apply writing_beat.
  - exists (S k). split; [|split; [lia|by apply writing_beat]]. upd_proj. rewrite Hk, u32_small by (unfold is_u32, W32; lia). lia.
Qed.

(** The flags of a line in the order of the flush: valid first. *)
Lemma retire_ok l V m i : cache_ok l V m None -> 0 <= i < lines l ->
  (valid l i -> dirty l i -> forall off, 0 <= off < 64 -> m (64 * lnum l i + off) = V (64 * lnum l i + off)) ->
  let l' := l <| c_valids := <[Z.to_nat i := false]> (c_valids l) |> in
  cache_ok (l' <| c_dirtys := <[Z.to_nat i := false]> (c_dirtys l') |>) V m None.
Proof.
  intros H Hi Hm l'. pose proof (co_geom _ _ _ _ H) as G.
  apply (cache_ok_arrays ((l <| c_dirtys := <[Z.to_nat i := false]> (c_dirtys l) |>) <| c_valids := <[Z.to_nat i := false]>
    (c_valids (l <| c_dirtys := <[Z.to_nat i := false]> (c_dirtys l) |>)) |>)); [done|].
  apply drop_ok; [|done|].
  - apply clean_ok; [done..|]. intros Hv off Ho. destruct (flag_at l (c_dirtys l) i (gm_dirtys l G) Hi) as [[] Hd]; [by apply Hm|].
    apply (co_clean _ _ _ _ H); [apply u32_line_addr; [by apply (co_range _ _ _ _ H)|done]|].
    intros j Hvj Hdj. rewrite line_addr_of by done. intros E. rewrite (co_unique _ _ _ _ H j i Hvj Hv E) in Hdj.
    unfold dirty in Hdj. congruence.
  - intros _ Hd. apply dirty_insert in Hd; [|done..]. by rewrite Z.eqb_refl in Hd.
Qed.

(** The line [f] of the flush is done. *)
Lemma flush_advance_ok l0 l e V Vend live ex fr : l1_inv l0 e V Vend live ex fr ->
  l1_state_is_flush (c_state l0) = true -> kept l = kept l0 -> c_ost l = c_ost l0 -> cache_ok l V (am_mem e) None ->
  no_write l e -> no_read l e -> 0 <= c_flush_line_idx l < lines l ->
  (forall j, j <= c_flush_line_idx l -> ~ valid l j) ->
  chan_wf (c_axi4_aw_mst l) /\ chan_wf (c_axi4_w_mst l) /\ chan_wf (c_axi4_ar_mst l) /\
    from_option chan_wf True (c_flush_ack_mst l) ->
  wp l1_flush_advance (fun _ l' => exists V' live' ex', l1_inv l' e V' Vend live' ex' fr /\ ex'.*1 = ex.*1 /\ io l' = io l0 /\
    c_hit_pipe_vld l' = c_hit_pipe_vld l0) l.
Proof.
  intros H Hf Ek Eo Hc Hw Hr Hi Hn Hch. pose proof (co_geom _ _ _ _ Hc) as G. pose proof (gm_words l G).
  assert (missing (c_state l0) = false) as Hm by (by destruct (c_state l0)).
  assert (c_state l0 <> L1_STATE_IDLE) as Hne by (by intros E; rewrite E in Hf).
  assert (forall l', hit_kept l0 l') as Hh by (intros l'; by eapply hit_none).
  unfold l1_flush_advance. apply wp_bind, wp_gets. unfold id. rewrite u32_small by (unfold is_u32; lia).
  destruct (Z.leb_spec (lines l) (c_flush_line_idx l + 1)).
  - assert (forall j, ~ valid l j) as Hall by (intros j Hv; pose proof (valid_range l G j Hv); apply (Hn j); [lia|done]).
    unfold l1_flush_finish. apply wp_modify. do 3 eexists. destruct (c_flush_ack_mst l) eqn:Ea.
    + apply (inv_move l0 _ _ _ _ _ _ _ H); upd_proj; rewrite ?Ea; try done; try by apply (cache_ok_arrays l).
    + apply (inv_move l0 _ _ _ _ _ _ _ H); upd_proj; rewrite ?Ea; try done; try by apply (cache_ok_arrays l).
  - apply wp_modify. do 3 eexists. apply (inv_move l0 _ _ _ _ _ _ _ H); upd_proj; try done; try by apply (cache_ok_arrays l).
    unfold phase, flush_ok. upd_proj. rewrite u32_small by (unfold is_u32; lia). split_and!; try done; try lia.
    intros j Hj. apply Hn. lia.
Qed.

(** With a response in, the write of the line is complete. *)
Lemma wb_response l e i b bs : wb_phase l e i L1_STATE_WB_B -> ch_pkts (c_axi4_b_slv l) = b :: bs ->
  b = AxiB 0 AXI4_RESP_OKAY /\ bs = [] /\ line_in_memory l e i (c_wb_line_addr l) /\ wb_line l i /\ no_read l e.
Proof.
  intros [[[Hw _]|Hw] [Hl Hr]] E; [by rewrite Hw in E|]. destruct (Hw) as (_ & _ & Hb & _). rewrite Hb in E. by injection E as <- <-.
Qed.

Lemma in_memory_V l e V m x i : cache_ok l V m x -> x <> Some i -> wb_line l i -> line_in_memory l e i (c_wb_line_addr l) ->
  forall off, 0 <= off < 64 -> am_mem e (64 * lnum l i + off) = V (64 * lnum l i + off).
Proof.
  intros Hc Hx (Hv & _ & Ea) (_ & _ & _ & _ & _ & Hm) off Ho. rewrite <- (co_data _ _ _ _ Hc) by done.
  rewrite <- Ea. by apply Hm.
Qed.

Lemma wb_b_stage : stage_ok l1_proc_wb_b.
Proof.
  stage. destruct (decide (c_state l = L1_STATE_WB_B)) as [Es|N1]; [|destruct (decide (c_state l = L1_STATE_FLUSH_WB_B)) as [Es|N2]].
  3: { stguard N1. skip. }
  all: facts H Es; stguard Es; destruct (chan_empty _) eqn:Ee; [skip|]; destruct (chan_empty_false _ Ee) as (b & bs & Eb);
    destruct Hp as [Hp Hm]; destruct (wb_response _ _ _ _ _ Hp Eb) as (-> & -> & Hl & Hwb & Hnr);
    apply wp_bind; (eapply wp_on_read; [done|]); cbv zeta; change (b_resp (AxiB 0 AXI4_RESP_OKAY) =? AXI4_RESP_OKAY) with true;
    apply wp_bind, wp_modify; set (l1 := l <| c_axi4_b_slv := _ |> <| c_op_ok := _ |>);
    (assert (cache_ok l V (am_mem e) None) as Hc0 by same_arrays H Es);
    (assert (cache_ok l1 V (am_mem e) None) as Hc1 by same_arrays H Es);
    pose proof (valid_line _ _ _ _ _ _ _ _ H (proj1 Hwb)) as Hi;
    pose proof (in_memory_V l e _ _ _ _ Hc0 ltac:(done) Hwb Hl) as HV; pose proof (co_geom _ _ _ _ Hc1) as G.
  - apply wp_bind, wp_set_dirty; [done..|]. apply wp_modify. step H Es.
    + apply (cache_ok_arrays (l1 <| c_dirtys := <[Z.to_nat (c_req_line_idx l) := false]> (c_dirtys l1) |>)); [done|]. by apply clean_ok.
    + destruct Hl as (L1 & L2 & L3 & L4 & L5 & _). split; [by split_and!|]. split; [done|]. split; [exact Hm|]. intros _ Hd.
      apply (dirty_insert l1) in Hd; [|done..]. by rewrite Z.eqb_refl in Hd.
  - apply wp_bind, wp_set_valid; [done..|]. set (l2 := l1 <| c_valids := _ |>).
    apply wp_bind, wp_set_dirty; [by apply geom_insert_valid|done|]. apply wp_bind, wp_modify.
    destruct Hl as (L1 & L2 & L3 & L4 & L5 & _). apply (flush_advance_ok l _ e V Vend live ex fr H); try done.
    + by rewrite Es.
    + apply (cache_ok_arrays (l2 <| c_dirtys := <[Z.to_nat (c_flush_line_idx l) := false]> (c_dirtys l2) |>)); [done|].
      by apply retire_ok.
    + intros j Hj Hv. apply (valid_insert l1) in Hv; [|done..]. destruct (Z.eqb_spec j (c_flush_line_idx l)); [done|].
      destruct Hm as [_ Hm]. apply (Hm j); [|done]. revert Hj. upd_proj. change (c_flush_line_idx l2) with (c_flush_line_idx l). lia.
    + split_and!; apply Hch.
Qed.

(** ** Flush *)

Lemma line_addr_eq l i t : geom l -> 0 <= i < lines l -> aget (c_tags l) i = Some t -> 0 <= lnum l i < 67108864 ->
  l1_line_addr l t (i / ways l) = 64 * lnum l i.
Proof.
  intros G Hi Ht Hn. destruct (set_of_line l G i Hi) as [Hs _]. unfold lnum in *. rewrite Ht in *. simpl in *.
  unfold l1_line_addr. change L1_LINE_SIZE with 64. pose proof (gm_sets l G).
  assert (0 <= t * sets l).
  { destruct (Z.le_gt_cases 0 t); [apply Z.mul_nonneg_nonneg; lia|]. assert (t * sets l <= -1 * sets l) by (apply Z.mul_le_mono_nonneg_r; lia). lia. }
  rewrite (u32_small (t * sets l)), (u32_small (t * sets l + _)), u32_small by (unfold is_u32, W32; lia). lia.
Qed.

Lemma flush_check_stage : stage_ok l1_proc_flush_check.
Proof.
  stage. destruct (decide (c_state l = L1_STATE_FLUSH_CHECK)) as [Es|N1]; [|stguard N1; skip].
  facts H Es. stguard Es. destruct Hp as (Hw & Hr & [Hi Hn]).
  assert (cache_ok l V (am_mem e) None) as Hc by same_arrays H Es. pose proof (co_geom _ _ _ _ Hc) as G.
  destruct (flag_at l (c_valids l) _ (gm_valids l G) Hi) as [v Hv]. destruct (flag_at l (c_dirtys l) _ (gm_dirtys l G) Hi) as [d Hd].
  destruct (tag_at l G _ Hi) as [t Ht]. rewrite Hv, Hd. apply wp_bind, wp_ret, wp_bind.
  assert (wp (if v then of_option (Some d) else mret false) (fun d' l' => d' = v && d /\ l' = l) l) as Hvd by (by destruct v; apply wp_ret).
  eapply wp_mono; [exact Hvd|]. intros d' l' [-> ->]. rewrite andb_assoc, andb_diag. destruct (v && d) eqn:Evd.
  - apply andb_true_iff in Evd as [-> ->]. rewrite Ht. apply wp_bind, wp_ret, wp_modify.
    assert (wb_line (l <| c_wb_line_addr := l1_line_addr l t (c_flush_line_idx l / ways l) |>) (c_flush_line_idx l)) as Hwb.
    { split; [done|]. split; [done|]. upd_proj. apply line_addr_eq; [done..|]. by apply (co_range _ _ _ _ Hc). }
    step H Es.
  - apply wp_bind, wp_set_valid; [done..|]. set (l1 := l <| c_valids := _ |>).
    apply wp_bind, wp_set_dirty; [by apply geom_insert_valid|done|].
    apply (flush_advance_ok l _ e V Vend live ex fr H); try done.
    + by rewrite Es.
    + apply retire_ok; [done..|]. intros Hv' Hd'. unfold valid, dirty in *. destruct v, d; done || congruence.
    + intros j Hj Hvj. apply (valid_insert l) in Hvj; [|done..]. destruct (Z.eqb_spec j (c_flush_line_idx l)); [done|].
      apply (Hn j); [|done]. revert Hj. upd_proj. change (c_flush_line_idx l1) with (c_flush_line_idx l). lia.
    + split_and!; apply Hch.
Qed.

Lemma flush_ack_stage : stage_ok l1_proc_flush_ack.
Proof.
  stage. destruct (decide (c_state l = L1_STATE_FLUSH_ACK)) as [Es|N1]; [|stguard N1; skip].
  facts H Es. stguard Es. destruct Hp as (Hw & Hr & Hn & [ack Ea]). rewrite Ea. apply wp_bind, wp_ret.
  destruct (chan_full ack) eqn:Ef; [skip|]. destruct Hch as (? & ? & ? & ? & ? & Hwf). rewrite Ea in Hwf.
  rewrite chan_write_ok by (by apply chan_not_full). apply wp_bind, wp_ret, wp_modify.
  step H Es. split_and!; try done; [apply (iv_chans _ _ _ _ _ _ _ H)..|]. apply chan_wf_snoc. by apply chan_not_full.
Qed.

(** An empty outstanding queue. *)
Lemma ost_empty_live {A} `{!Zero A} (o : ostq_t A) fr live : ost_live o fr live -> ostq_empty o = true -> live = [].
Proof.
  intros Ho E. pose proof (ost_live_bound _ _ _ Ho) as [Hb _]. unfold ostq_empty in E. apply Z.eqb_eq in E.
  destruct live; [done|]. simpl in Hb. destruct fr; simpl in Hb; lia.
Qed.

Lemma no_hit l e V Vend ex fr : l1_inv l e V Vend [] ex fr -> c_hit_pipe_vld l = false.
Proof.
  intros []. apply Forall2_nil_inv_l in iv_entries as ->. destruct (c_hit_pipe_vld l); [|done].
  by destruct (iv_hit eq_refl) as (_ & _ & _ & _ & j & Hj & _).
Qed.

Lemma wp_has_bypass l e V Vend live ex fr Q : l1_inv l e V Vend live ex fr -> Q false l -> wp l1_has_bypass_ost Q l.
Proof.
  intros H HQ. unfold l1_has_bypass_ost. apply wp_bind, wp_gets, wp_on. unfold id.
  eapply wp_mono; [eapply has_bypass_ok; [apply H|apply H|lia|]|].
  - pose proof (qwf_depth _ (ol_wf _ _ _ (iv_ost _ _ _ _ _ _ _ H))). lia.
  - intros b o [-> ->]. by rewrite upd_ost_id.
Qed.

(** All lines of a read-only cache dropped at once. *)
Lemma invalidate_ok l V m Q : cache_ok l V m None -> (forall i, valid l i -> ~ dirty l i) ->
  (forall vs ds, cache_ok (l <| c_valids := vs |> <| c_dirtys := ds |>) V m None ->
     Q tt (l <| c_valids := vs |> <| c_dirtys := ds |>)) -> wp l1_invalidate Q l.
Proof.
  intros H Hnd HQ. pose proof H as Hok. destruct H. pose proof (gm_valids l co_geom) as Lv. pose proof (gm_dirtys l co_geom) as Ld.
  unfold l1_invalidate. apply wp_bind, wp_gets. unfold id. cbv zeta.
  rewrite !bool_decide_eq_true_2 by lia. apply wp_bind, wp_check; [done|]. apply wp_modify, HQ.
  rewrite !drop_ge, !app_nil_r by lia. set (n := Z.to_nat (c_line_num l)). set (l' := l <| c_valids := _ |> <| c_dirtys := _ |>).
  assert (forall i, ~ valid l' i) as Hv.
  { intros i. unfold valid, l', aget. upd_proj. destruct (0 <=? i); [|done]. intros [? _]%lookup_replicate. done. }
  split.
  - destruct co_geom. split; unfold l'; upd_proj; rewrite ?length_replicate; try done; unfold n; lia.
  - intros i Hi. by destruct (Hv i).
  - intros i j Hi. by destruct (Hv i).
  - intros i off Hi. by destruct (Hv i).
  - intros a Ha _. apply co_clean; [done|]. intros i Hvi Hdi. by destruct (Hnd i).
  - done.
  - intros _ i Hi. by destruct (Hv i).
Qed.

Lemma flush_stage l e V Vend live ex fr : l1_inv l e V Vend live ex fr -> c_state l = L1_STATE_IDLE ->
  wp l1_proc_flush (fun _ l' => exists V' live' ex', l1_inv l' e V' Vend live' ex' fr /\ ex'.*1 = ex.*1 /\ io l' = io l /\
    c_hit_pipe_vld l' = c_hit_pipe_vld l) l.
Proof.
  intros H Es. apply wp_bind, wp_gets. unfold id. facts H Es. destruct Hp as [Hw Hr].
  destruct (c_flush_slv l) as [slv|]; [|skip]. destruct (chan_empty slv) eqn:Ee; [skip|].
  destruct (ostq_empty (c_ost l)) eqn:Eo; cbn [negb]; [|apply wp_bind, wp_ret; skip].
  pose proof (ost_empty_live _ _ _ (iv_ost _ _ _ _ _ _ _ H) Eo) as ->. pose proof (no_hit _ _ _ _ _ _ H) as Hh.
  apply wp_bind. eapply wp_has_bypass; [done|]. destruct (_ && _) eqn:Eack; [skip|].
  destruct (chan_empty_false _ Ee) as ([] & r & Er). rewrite (chan_read_cons _ _ _ Er). apply wp_bind, wp_ret, wp_bind, wp_modify.
  set (l1 := l <| c_flush_slv := _ |>). change (lf_ro (c_conf l1)) with (lf_ro (c_conf l)).
  assert (cache_ok l1 V (am_mem e) None) as Hc by same_arrays H Es.
  destruct (lf_ro (c_conf l)) eqn:Ero.
  - apply wp_bind. eapply invalidate_ok; [exact Hc|by apply (co_ro _ _ _ _ Hc)|]. intros vs ds Hc'.
    destruct (c_flush_ack_mst l) as [ack|] eqn:Ea.
    + destruct Hch as (? & ? & ? & ? & ? & Hwf). cbn [andb] in Eack.
      rewrite chan_write_ok by (by apply chan_not_full). apply wp_bind, wp_ret, wp_modify.
      do 3 eexists. apply (inv_move l _ _ _ _ _ _ _ H); upd_proj; try done.
      * unfold refilling. upd_proj. change (c_state l1) with (c_state l). rewrite Es. by apply (cache_ok_arrays (l1 <| c_valids := vs |> <| c_dirtys := ds |>)).
      * unfold phase. upd_proj. change (c_state l1) with (c_state l). rewrite Es. by split.
      * change (c_state l1) with (c_state l). by rewrite Es.
      * split_and!; try done. apply chan_wf_snoc. by apply chan_not_full.
      * intros Hv. congruence.
    + apply wp_ret. do 3 eexists. apply (inv_move l _ _ _ _ _ _ _ H); upd_proj; try done.
      * unfold refilling. upd_proj. change (c_state l1) with (c_state l). by rewrite Es.
      * unfold phase. upd_proj. change (c_state l1) with (c_state l). rewrite Es. by split.
      * change (c_state l1) with (c_state l). by rewrite Es.
      * change (c_flush_ack_mst l1) with (c_flush_ack_mst l). rewrite Ea. split_and!; try done; apply Hch.
      * intros Hv. congruence.
  - apply wp_modify. exists V, [], ex. split; [|done]. destruct H. split; upd_proj; try done.
    + by apply (cache_ok_arrays l1).
    + unfold phase, flush_ok. upd_proj. split_and!; try done; [|intros j Hj Hv].
      * change (0 < lines l). rewrite (gm_lines l (co_geom _ _ _ _ iv_cache)). pose proof (gm_ways l (co_geom _ _ _ _ iv_cache)).
        pose proof (gm_sets l (co_geom _ _ _ _ iv_cache)). nia.
      * apply (valid_range l (co_geom _ _ _ _ iv_cache)) in Hv. lia.
    + intros Hv. change (c_hit_pipe_vld l = true) in Hv. congruence.
    + unfold pending_mem in *. upd_proj. rewrite Es in iv_end. exact iv_end.
Qed.

(** ** Refill *)

Lemma refill_ar_stage : stage_ok l1_proc_refill_ar.
Proof.
  stage. destruct (decide (c_state l = L1_STATE_REFILL_AR)) as [Es|N1]; [|stguard N1; skip].
  facts H Es. stguard Es. destruct (chan_full _) eqn:Ef; [skip|]. destruct Hp as (Hw & (R1 & R2 & R3) & Hm & Hd).
  apply wp_bind, wp_on_write; [apply Hch|done|]. intros Hwf. apply wp_modify. step H Es.
  - apply (cache_ok_arrays l); [done|]. apply busy_start; [same_arrays H Es|done].
  - split; [done|]. split; [done|]. exists 0%nat. split; [done|]. split; [lia|]. split; [|intros; lia].
    left. upd_proj. rewrite chan_snoc_pkts, R1. destruct Hm as (_ & _ & _ & -> & _). by split_and!.
Qed.

(** The beats of a line. *)
Lemma refill_beats m n k : (k < 16)%nat ->
  drop k (read_beats m (refill_ar n)) = read_beat m (refill_ar n) k :: drop (S k) (read_beats m (refill_ar n)).
Proof.
  intros Hk. assert (axi4_user_is_cmo (ar_user (refill_ar n)) = false) as E by done.
  unfold read_beats. rewrite E. change (Z.to_nat (ar_len (refill_ar n) + 1)) with 16%nat. apply drop_S.
  rewrite list_lookup_fmap, lookup_seq_lt by lia. done.
Qed.

Lemma refill_next l e n k r rs : reading l e (refill_ar n) k -> (k < 16)%nat -> ch_pkts (c_axi4_r_slv l) = r :: rs ->
  r = read_beat (am_mem e) (refill_ar n) k /\ ch_pkts (c_axi4_ar_mst l) = [] /\
  rs ++ am_rd e = drop (S k) (read_beats (am_mem e) (refill_ar n)).
Proof.
  intros [(_ & ? & _)|(Ha & Hd)] Hk E; [congruence|]. rewrite E, refill_beats in Hd by done. simpl in Hd. by injection Hd as -> ->.
Qed.

Lemma refill_over m n : drop 16 (read_beats m (refill_ar n)) = [].
Proof. apply drop_ge. by unfold read_beats. Qed.

Lemma word_at_byte l i n (m : Z -> Z) off : (forall a, 0 <= m a < 256) -> 0 <= off < 64 ->
  cword l i (off / 4) = load m (64 * n + 4 * (off / 4)) 4 -> cbyte l i off = m (64 * n + off).
Proof.
  intros Hm Ho E. unfold cbyte. rewrite E, load_byte by (done || zdiv). f_equal. zdiv.
Qed.

Lemma refill_r_stage : stage_ok l1_proc_refill_r.
Proof.
  stage. destruct (decide (c_state l = L1_STATE_REFILL_R)) as [Es|N1]; [|stguard N1; skip].
  facts H Es. stguard Es. destruct (chan_empty _) eqn:Ee; [skip|]. destruct (chan_empty_false _ Ee) as (r & rs & Er).
  destruct Hp as (Hw & Hm & k & Hk & Hk' & Hrd & Hwords). destruct (refill_next _ _ _ _ _ _ Hrd Hk' Er) as (-> & Har & Hrest).
  set (n := line_of (bq_addr (c_req l))) in *. set (i := c_req_line_idx l) in *.
  apply wp_bind. eapply wp_on_read; [done|]. change (r_resp _ =? AXI4_RESP_OKAY) with true. cbn [negb when]. apply wp_bind, wp_ret.
  assert (cache_ok l V (am_mem e) (Some i)) as Hc by same_arrays H Es. pose proof (co_geom _ _ _ _ Hc) as G.
  pose proof Hm as (Hi & Hset & Htag & _ & Hno). rewrite Hk. destruct (word_idx l G i (Z.of_nat k) Hi ltac:(lia)) as [-> Hr].
  rewrite aset_insert by done. apply wp_bind, wp_ret, wp_bind, wp_modify.
  change (r_data (read_beat (am_mem e) (refill_ar n) k)) with (load (am_mem e) (64 * n + 4 * Z.of_nat k) 4).
  set (w := load (am_mem e) (64 * n + 4 * Z.of_nat k) 4).
  set (l0 := l <| c_axi4_r_slv := _ |>). set (l2 := l0 <| c_data := _ |>).
  assert (cache_ok l2 V (am_mem e) (Some i)) as Hc2.
  { apply (busy_data l0); [by apply (cache_ok_arrays l)|done|lia]. }
  assert (forall j, (j < S k)%nat -> cword l2 i (Z.of_nat j) = load (am_mem e) (64 * n + 4 * Z.of_nat j) 4) as Hwords2.
  { intros j Hj. etrans; [apply (cword_insert l i (Z.of_nat k) w i (Z.of_nat j) G Hi ltac:(lia) ltac:(lia))|].
    rewrite Z.eqb_refl. destruct (Z.eqb_spec (Z.of_nat j) (Z.of_nat k)) as [->|]; [done|]. apply Hwords. lia. }
  change (r_last (read_beat (am_mem e) (refill_ar n) k)) with (Z.of_nat k =? 15). change (L1_WORD_NUM - 1) with 15. rewrite orb_diag.
  destruct (iv_miss _ _ _ _ _ _ _ H ltac:(by rewrite Es)) as (_ & Hreq & _ & _ & Hop & _).
  destruct (Z.eqb_spec (Z.of_nat k) 15) as [Ek|Nk].
  - apply wp_bind, wp_gets. unfold id. change (c_op_ok l2) with (c_op_ok l). rewrite Hop. change (c_req_line_idx l2) with i.
    pose proof (co_geom _ _ _ _ Hc2) as G2. apply wp_bind, wp_set_valid; [done|done|].
    apply wp_bind, wp_set_dirty; [by apply geom_insert_valid|done|].
    rewrite aset_insert by (change (0 <= i < Z.of_nat (length (c_tags l2))); rewrite (gm_tags l2 G2); exact Hi). apply wp_bind, wp_ret, wp_modify.
    change (c_req_tag l2) with (c_req_tag l). rewrite Htag.
    destruct (install_ok l2 V (am_mem e) i n Hc2 Hi) as (Hc3 & Hv3 & Hn3); [by apply line_of_range, Hreq|done|done| |].
    { intros off Ho. apply word_at_byte; [apply H|done|]. replace (off / 4) with (Z.of_nat (Z.to_nat (off / 4))) at 1 by zdiv.
      rewrite Hwords2 by zdiv. rewrite Z2Nat.id by zdiv. done. }
    step H Es.
    + by apply (cache_ok_arrays (installed l2 i (n / sets l2))).
    + split; [done|]. split; [|by split]. split; [done|].
      assert (S k = 16%nat) as ES by lia. rewrite ES, refill_over in Hrest. by apply app_eq_nil in Hrest.
    + eapply (hit_kept_line l _ i); [|done|by rewrite Es|done]. intros j Hj Hne Hv. split.
      * unfold valid. upd_proj. rewrite aget_insert by (rewrite (gm_valids l2 G2); done). by rewrite (proj2 (Z.eqb_neq j i)).
      * unfold lnum. upd_proj. rewrite aget_insert by (rewrite (gm_tags l2 G2); done). by rewrite (proj2 (Z.eqb_neq j i)).
  - apply wp_modify. assert (c_state l2 = L1_STATE_REFILL_R) as Es2 by done. do 3 eexists.
    apply (inv_move l _ _ _ _ _ _ _ H); upd_proj; rewrite ?Es2, ?Es; try done.
    + unfold refilling. upd_proj. rewrite Es2. by apply (cache_ok_arrays l2).
    + unfold phase. upd_proj. rewrite Es2. split; [done|]. split; [exact Hm|]. exists (S k).
      split; [|split; [lia|split; [by right|done]]].
      change (c_beat_idx l2) with (c_beat_idx l). rewrite Hk, u32_small by (unfold is_u32, W32; lia). lia.
    + split_and!; apply Hch.
    + by intros _ ? _.
Qed.

(** ** Cache block operations *)

Lemma cmo_wb_aw_stage : stage_ok l1_proc_cmo_l1_wb_aw.
Proof.
  stage. destruct (decide (c_state l = L1_STATE_CMO_L1_WB_AW)) as [Es|N1]; [|stguard N1; skip].
  facts H Es. stguard Es. destruct (chan_full _) eqn:Ef; [skip|].
  apply wp_bind, wp_on_write; [apply Hch|done|]. intros Hw. apply wp_modify. step H Es.
  destruct Hp as [(P1 & P2 & P3 & P4 & P5) [Hwb Hnr]]. split; [|by split].
  exists 0%nat. split; [done|]. split; [lia|]. split; [done|]. left. upd_proj. rewrite chan_snoc_pkts, P1. by split_and!.
Qed.

Lemma cmo_wb_w_stage : stage_ok l1_proc_cmo_l1_wb_w.
Proof.
  stage. destruct (decide (c_state l = L1_STATE_CMO_L1_WB_W)) as [Es|N1]; [|stguard N1; skip].
  facts H Es. stguard Es. destruct (chan_full _) eqn:Ef; [skip|]. destruct Hp as [(k & Hk & Hk' & Hw) [Hwb Hnr]].
  apply wp_bind. eapply wp_write_beat; [apply (iv_cache _ _ _ _ _ _ _ H)|by eapply valid_line, Hwb|exact Hk|done|apply Hch|done|].
  intros Hwf. destruct (Z.eqb_spec (Z.of_nat k) 15) as [Ek|Nk]; apply wp_modify; step H Es; (split; [|by split]).
  - left. replace 16%nat with (S k) by lia. by apply writing_beat.
  - exists (S k). split; [|split; [lia|by apply writing_beat]]. upd_proj. rewrite Hk, u32_small by (unfold is_u32, W32; lia). lia.
Qed.

Lemma cmo_wb_b_stage : stage_ok l1_proc_cmo_l1_wb_b.
Proof.
  stage. destruct (decide (c_state l = L1_STATE_CMO_L1_WB_B)) as [Es|N1]; [|stguard N1; skip].
  facts H Es. stguard Es. destruct (chan_empty _) eqn:Ee; [skip|]. destruct (chan_empty_false _ Ee) as (b & bs & Eb).
  destruct (wb_response _ _ _ _ _ Hp Eb) as (-> & -> & Hl & Hwb & Hnr).
  apply wp_bind. eapply wp_on_read; [done|]. change (b_resp (AxiB 0 AXI4_RESP_OKAY) =? AXI4_RESP_OKAY) with true. cbn [negb].
  set (l1 := l <| c_axi4_b_slv := _ |>). set (i := c_req_line_idx l) in *.
  assert (cache_ok l V (am_mem e) None) as Hc0 by same_arrays H Es.
  assert (cache_ok l1 V (am_mem e) None) as Hc1 by same_arrays H Es. pose proof (co_geom _ _ _ _ Hc1) as G.
  pose proof (valid_line _ _ _ _ _ _ _ _ H (proj1 Hwb)) as Hi.
  pose proof (in_memory_V l e _ _ _ _ Hc0 ltac:(done) Hwb Hl) as HV.
  apply wp_bind, wp_set_dirty; [done..|]. set (l2 := l1 <| c_dirtys := _ |>).
  assert (cache_ok l2 V (am_mem e) None) as Hc2 by (by apply clean_ok).
  assert (~ dirty l2 i) as Hd2 by (intros Hd; apply (dirty_insert l1) in Hd; [by rewrite Z.eqb_refl in Hd|done..]).
  destruct Hl as (L1 & L2 & L3 & L4 & L5 & _).
  destruct (l1_cbo_invalidates _); cbn [when]; apply wp_bind.
  - apply wp_set_valid; [apply Hc2|done|]. apply wp_modify. step H Es.
    + apply (cache_ok_arrays (l2 <| c_valids := <[Z.to_nat i := false]> (c_valids l2) |>)); [done|]. by apply drop_ok.
    + eapply (hit_kept_line l _ i); [|apply Hc0|by rewrite Es|done]. intros j Hj Hne Hv. split; [|done].
      apply (valid_insert l2 i j false); [apply Hc2|done|]. by rewrite (proj2 (Z.eqb_neq j i)).
  - apply wp_ret, wp_modify. step H Es. by apply (cache_ok_arrays l2).
Qed.

Lemma cmo_ar_stage : stage_ok l1_proc_cmo_l2_ar.
Proof.
  stage. destruct (decide (c_state l = L1_STATE_CMO_L2_AR)) as [Es|N1]; [|stguard N1; skip].
  facts H Es. stguard Es. destruct (chan_full _) eqn:Ef; [skip|]. destruct Hp as (Hw & (R1 & R2 & R3)).
  destruct (iv_clean _ _ _ _ _ _ _ H ltac:(by rewrite Es)) as [Hcl _].
  assert (exists u, l1_cbo_axi_user (bq_cmd (c_req l)) = Some u /\ axi4_user_is_cmo u = true) as (u & Eu & Hu).
  { unfold l1_cbo_cleans in Hcl. apply orb_true_iff in Hcl as [->%Z.eqb_eq| ->%Z.eqb_eq]; by eexists. }
  rewrite Eu. apply wp_bind, wp_ret, wp_bind, wp_on_write; [apply Hch|done|]. intros Hwf. apply wp_modify. step H Es.
  split; [done|]. right. eexists. upd_proj. rewrite chan_snoc_pkts, R1. by split_and!.
Qed.

Lemma cmo_r_stage : stage_ok l1_proc_cmo_l2_r.
Proof.
  stage. destruct (decide (c_state l = L1_STATE_CMO_L2_R)) as [Es|N1]; [|stguard N1; skip].
  facts H Es. stguard Es. destruct (chan_empty _) eqn:Ee; [skip|]. destruct (chan_empty_false _ Ee) as (r & rs & Er).
  destruct Hp as (Hw & [(Ha & Hr)|(ar & _ & _ & _ & ? & _)]); [|congruence]. rewrite Er in Hr. injection Hr as -> Hr.
  apply app_eq_nil in Hr as [-> Hrd].
  destruct (iv_clean _ _ _ _ _ _ _ H ltac:(by rewrite Es)) as [_ (id & Hx)].
  apply wp_bind. eapply wp_on_read; [done|]. apply wp_bind, wp_check; [done|].
  apply wp_bind. apply (wp_complete_slot _ fr live ex _ ByMiss (BtiRsp id 0 true)); [apply H|apply H|exact Hx|].
  intros o' live' ex' (Ho' & He' & Ha' & Hx'). apply wp_modify. exists V, live', ex'.
  apply (inv_move_ost _ _ _ _ _ _ _ _ _ _ _ H); upd_proj; rewrite ?Es; try done.
  - intros slot who rsp [-> | Hne]; [by apply Hx'|done].
  - same_arrays H Es.
  - split_and!; apply Hch.
  - by intros _ ? _.
Qed.

(** ** Service of a miss *)

Lemma line_differs l V m x r1 i1 r2 i2 : cache_ok l V m x -> in_line r1 i1 l -> in_line r2 i2 l -> i1 <> i2 ->
  line_of (bq_addr r1) <> line_of (bq_addr r2).
Proof. intros H [V1 E1] [V2 E2] Hne E. apply Hne, (co_unique _ _ _ _ H); [done..|congruence]. Qed.

(** The access is done: its effect is in the arrays and its entry is complete. *)
Lemma inv_served l e V Vend live ex fr d ds x y o' live' ex' :
  l1_inv l e V Vend live ex fr -> c_state l = L1_STATE_SERVE_MISS ->
  completes (c_ost l) fr ex ByMiss o' live' ex' ->
  cache_ok (l <| c_data := d |> <| c_dirtys := ds |>) (flat_mem (lf_ro (c_conf l)) V (c_req l)) (am_mem e) None ->
  let l' := l <| c_data := d |> <| c_dirtys := ds |> <| c_req_data := x |> <| c_req_byte_idx := y |> <| c_ost := o' |>
    <| c_state := L1_STATE_IDLE |> in
  l1_inv l' e (flat_mem (lf_ro (c_conf l)) V (c_req l)) Vend live' ex' fr.
Proof.
  intros H Es (Ho & He & Ha & Hx) Hc l'. pose proof H as H0. destruct H0. unfold phase in iv_phase. rewrite Es in *.
  destruct iv_phase as (Hw & Hr & Hl). destruct (iv_miss eq_refl) as (_ & Hreq & _).
  assert (cache_ok l V (am_mem e) None) as Hc0 by same_arrays H Es.
  split; try done.
  - by apply (cache_ok_arrays (l <| c_data := d |> <| c_dirtys := ds |>)).
  - intros Hv. destruct (iv_hit Hv) as (A & B & C & D & X). split; [done|]. split; [done|]. split; [exact C|]. split; [done|].
    assert (line_of (bq_addr (c_req l)) <> line_of (bq_addr (hp_req (c_hit_pipe l)))) as Hne.
    { eapply (line_differs l); [exact Hc0|exact Hl|exact C|]. symmetry. by apply D. }
    change (expects o' ex' (hp_slot (c_hit_pipe l)) ByHit (flat_rsp (lf_ro (c_conf l)) (flat_mem (lf_ro (c_conf l)) V (c_req l)) (hp_req (c_hit_pipe l)))).
    rewrite (flat_rsp_other (l1_bypass l) (l1_bypass l)) by done. by apply Hx.
  - unfold pending_mem in *. rewrite Es in iv_end. exact iv_end.
Qed.

Lemma req_offset_bytes bp req : req_ok bp req ->
  Z.min (u32 (req_bytes req - 0)) (L1_LINE_SIZE - Z.land (u32 (bq_addr req + 0)) (L1_LINE_SIZE - 1)) = req_bytes req /\
  Z.land (u32 (bq_addr req + 0)) (L1_LINE_SIZE - 1) = bq_addr req mod 64.
Proof.
  intros []. rewrite Z.add_0_r, Z.sub_0_r, (u32_small (bq_addr req)), line_offset_eq by done. change L1_LINE_SIZE with 64. split; [|done].
  destruct (req_bytes_cases req rk_size) as [E|[E|E]]; rewrite E in *; (rewrite u32_small by (by unfold is_u32, W32; lia)); lia.
Qed.

Lemma serve_stage : stage_ok l1_proc_serve_miss.
Proof.
  stage. destruct (decide (c_state l = L1_STATE_SERVE_MISS)) as [Es|N1]; [|stguard N1; skip].
  facts H Es. stguard Es. destruct Hp as (Hw & Hr & Hl).
  destruct (iv_miss _ _ _ _ _ _ _ H ltac:(by rewrite Es)) as (Hpl & Hreq & Hb & Hd & Hop & Hx).
  assert (cache_ok l V (am_mem e) None) as Hc by same_arrays H Es.
  rewrite Hop, Hb. cbn [negb]. unfold l1_req_size. rewrite req_size_eq by apply Hreq. apply wp_bind, wp_ret.
  destruct (req_offset_bytes _ _ Hreq) as [-> Eo]. rewrite Eo.
  assert (0 <= bq_addr (c_req l) mod 64) by (apply Z.mod_pos_bound; lia).
  pose proof (req_bytes_cases _ (rk_size _ _ Hreq)) as Hsz. pose proof (rk_line _ _ Hreq) as Hln.
  assert (u32 (0 + req_bytes (c_req l)) = req_bytes (c_req l)) as Eu by (apply u32_small; unfold is_u32, W32; lia).
  apply wp_bind. destruct Hpl as [Ec|[Ec Ero]].
  - eapply wp_mono; [apply (serve_loop_load (c_req l) (c_req_line_idx l) (bq_addr (c_req l) mod 64) (am_mem e) None eq_refl ltac:(done)
      l V _ 0%nat); try done; lia|]. intros [] l1 ->. simpl Nat.add.
    apply wp_bind, wp_modify, wp_bind, wp_gets. unfold id. upd_proj. rewrite Hb, Eu, Z.ltb_irrefl, Ec, Hop.
    change (BTI_REQ_CMD_READ =? BTI_REQ_CMD_READ) with true. cbv iota.
    assert (flat_rsp (lf_ro (c_conf l)) V (c_req l) = BtiRsp (bq_trans_id (c_req l)) (load V (bq_addr (c_req l)) (Z.to_nat (req_bytes (c_req l)))) true) as Ef
      by (unfold flat_rsp; by rewrite Ec).
    rewrite Ef in Hx. apply wp_bind.
    apply (wp_complete_slot _ fr live ex _ ByMiss (BtiRsp (bq_trans_id (c_req l)) (load V (bq_addr (c_req l)) (Z.to_nat (req_bytes (c_req l)))) true));
      [apply H|apply H|exact Hx|]. intros o' live' ex' Hcp. apply wp_modify. exists V, live', ex'. split; [|split; [apply Hcp|done]].
    assert (flat_mem (lf_ro (c_conf l)) V (c_req l) = V) as Em by (unfold flat_mem; by rewrite Ec).
    pose proof (inv_served l e V Vend live ex fr (c_data l) (c_dirtys l) (load V (bq_addr (c_req l)) (Z.to_nat (req_bytes (c_req l))))
      (req_bytes (c_req l)) o' live' ex' H Es Hcp) as Hi. rewrite Em in Hi.
    specialize (Hi ltac:(by apply (cache_ok_arrays l))). cbv zeta in Hi.
    assert (l <| c_data := c_data l |> <| c_dirtys := c_dirtys l |> = l) as El by (by destruct l). rewrite El in Hi. exact Hi.
  - eapply wp_mono; [apply (serve_loop_store (c_req l) (c_req_line_idx l) (bq_addr (c_req l) mod 64) (am_mem e) None eq_refl ltac:(done)
      l V _ 0); try done; lia|]. intros [] l1 [Hc1 [(d & ds & ->) _]].
    apply wp_bind, wp_modify, wp_bind, wp_gets. unfold id. upd_proj. rewrite Hb, Eu, Z.ltb_irrefl, Ec, Hop.
    change (BTI_REQ_CMD_WRITE =? BTI_REQ_CMD_READ) with false. cbv iota.
    assert (flat_rsp (lf_ro (c_conf l)) V (c_req l) = BtiRsp (bq_trans_id (c_req l)) 0 true) as Ef
      by (unfold flat_rsp; by rewrite Ec, Ero).
    rewrite Ef in Hx. apply wp_bind.
    apply (wp_complete_slot _ fr live ex _ ByMiss (BtiRsp (bq_trans_id (c_req l)) 0 true)); [apply H|apply H|exact Hx|].
    intros o' live' ex' Hcp. apply wp_modify. do 3 eexists. split; [|split; [apply Hcp|done]].
    pose proof (inv_served l e V Vend live ex fr d ds (c_req_data l) (req_bytes (c_req l)) o' live' ex' H Es Hcp) as Hi.
    assert (flat_mem (lf_ro (c_conf l)) V (c_req l) = stored V (c_req l) 0 (0 + Z.of_nat (Z.to_nat (req_bytes (c_req l))))) as Em
      by (unfold flat_mem; rewrite Ec, Ero, Z2Nat.id by lia; done).
    rewrite Em in Hi. specialize (Hi Hc1). cbv zeta in Hi. 
    assert (l <| c_data := d |> <| c_dirtys := ds |> <| c_req_data := c_req_data l |> = l <| c_data := d |> <| c_dirtys := ds |>) as El
      by (by destruct l). rewrite El in Hi. exact Hi.
Qed.
