(* ===== verification/L1Pipe.v ===== *)
(** * The request pipeline of the level 1 cache

    The stages of [l1_clock] between the request interface and the miss machine: hits, lookup and
    allocation, and the answers. *)

From stdpp Require Import base numbers list.
From Stdlib Require Import ZArith Lia.
From S2P Require Import Prelude Fifo Ost OstScan OstSlot Bti Axi Ifu L1 L1Cache AxiMem L1Inv L1Stages.

(** ** Hits *)

Lemma line_beats_frame l l' i h n : (n <= 16)%nat -> 0 <= i -> i <> h -> line_frame l l' h ->
  line_beats l' i n = line_beats l i n.
Proof.
  intros Hn Hi Hne [Hf _]. unfold line_beats. apply list_fmap_ext. intros j k Hk%lookup_seq. unfold line_beat.
  rewrite Hf; [done|done|done|lia].
Qed.

Lemma wb_phase_frame l l' e i h s : served l l' h -> geom l -> i <> h -> wb_phase l e i s -> wb_phase l' e i s.
Proof.
  intros [(d & ds & ->) Hf] G Hne [Hs [(Hv & Hd & Ha) Hr]]. pose proof (valid_range l G i Hv) as Hi.
  set (l' := l <| c_data := d |> <| c_dirtys := ds |>) in *.
  assert (forall n addr, (n <= 16)%nat -> writing l e i addr n -> writing l' e i addr n) as Hwr.
  { intros n addr Hn [Hb Hw]. split; [done|]. rewrite (line_beats_frame l l' i h) by (done || lia). exact Hw. }
  split; [|split; [split; [done|split; [by apply (proj2 Hf)|done]]|done]].
  assert (writing l e i (c_wb_line_addr l) 16 \/ line_in_memory l e i (c_wb_line_addr l) ->
    writing l' e i (c_wb_line_addr l) 16 \/ line_in_memory l' e i (c_wb_line_addr l)) as Hwb.
  { intros [Hw|(A & B & C & D & E & F)]; [left; by apply Hwr|right]. split_and!; try done. intros off Ho. rewrite F by done.
    symmetry. apply cbyte_word, (proj1 Hf); [lia|done|zdiv]. }
  destruct s; try exact Hs; try exact (Hwb Hs); destruct Hs as (k & ? & ? & ?); exists k; (split; [done|]); (split; [done|]);
    apply Hwr; (done || lia).
Qed.

Lemma phase_served l l' e h : served l l' h -> geom l -> (c_state l <> L1_STATE_IDLE -> h <> c_req_line_idx l) ->
  l1_state_is_flush (c_state l) = false -> phase l e -> phase l' e.
Proof.
  intros Hs G Hne Hfl Hp. pose proof Hs as [(d & ds & ->) Hf]. set (l' := l <| c_data := d |> <| c_dirtys := ds |>) in *.
  unfold phase in *. change (c_state l') with (c_state l).
  destruct (c_state l) eqn:Es; try done; specialize (Hne ltac:(done));
    try (destruct Hp as [Hp Hm]; split; [by apply (wb_phase_frame l l' e _ h)|exact Hm]);
    try (by apply (wb_phase_frame l l' e _ h)).
  - destruct Hp as (A & B & C & D). split; [done|]. split; [done|]. split; [exact C|]. intros Hv Hd. apply D; [exact Hv|].
    apply (proj2 Hf); [by apply not_eq_sym|exact Hd].
  - destruct Hp as (A & B & k & Hk & Hk' & Hrd & Hw). split; [done|]. split; [exact B|]. exists k. split; [done|]. split; [done|].
    split; [exact Hrd|]. intros j Hj. etrans; [|exact (Hw j Hj)]. apply (proj1 Hf); [apply B|by apply not_eq_sym|lia].
Qed.

(** The line of the hit is not the one of the miss. *)
Lemma hit_other_line l e V Vend live ex fr : l1_inv l e V Vend live ex fr -> c_hit_pipe_vld l = true ->
  missing (c_state l) = true -> line_of (bq_addr (hp_req (c_hit_pipe l))) <> line_of (bq_addr (c_req l)).
Proof.
  intros H Hv Hm. pose proof H as H0. destruct H0. destruct (iv_hit Hv) as (_ & _ & [Hl El] & Hne & _). unfold phase in iv_phase.
  assert (miss_ok l \/ in_line (c_req l) (c_req_line_idx l) l) as [(_ & _ & _ & _ & Hno)|Hin]
    by (destruct (c_state l) eqn:Es; try done; destruct_and?; auto).
  - rewrite <- El. by apply Hno.
  - rewrite <- El. destruct Hin as [Hv2 <-]. intros E. destruct Hne; [by intros E'; rewrite E' in Hm|].
    by apply (co_unique _ _ _ _ iv_cache).
Qed.

Lemma inv_hit_done l l1 e V Vend live ex fr o' live' ex' : l1_inv l e V Vend live ex fr -> c_hit_pipe_vld l = true ->
  served l l1 (hp_line_idx (c_hit_pipe l)) ->
  cache_ok l1 (flat_mem (lf_ro (c_conf l)) V (hp_req (c_hit_pipe l))) (am_mem e) (refilling l) ->
  completes (c_ost l) fr ex ByHit o' live' ex' ->
  l1_inv (l1 <| c_ost := o' |> <| c_hit_pipe_vld := false |>) e
    (flat_mem (lf_ro (c_conf l)) V (hp_req (c_hit_pipe l))) Vend live' ex' fr.
Proof.
  intros H Hv Hsv Hc (Ho & He & Ha & Hx). pose proof (hit_other_line _ _ _ _ _ _ _ H Hv) as Hother.
  pose proof H as H0. destruct H0. destruct (iv_hit Hv) as (Hpl & Hreq & Hl & Hne & _).
  assert (l1_state_is_flush (c_state l) = false) as Hfl
    by (destruct (l1_state_is_flush (c_state l)) eqn:E; [|done]; destruct (iv_flush eq_refl) as (_ & ? & _); congruence).
  pose proof (phase_served l l1 e _ Hsv (co_geom _ _ _ _ iv_cache) Hne Hfl iv_phase) as Hp.
  destruct Hsv as [(d & ds & ->) Hf]. set (l1 := l <| c_data := d |> <| c_dirtys := ds |>) in *.
  split; try done.
  - by apply (cache_ok_arrays l1).
  - intros Hm. change (missing (c_state l) = true) in Hm. destruct (iv_miss Hm) as (A & B & C & D & F & X).
    split; [done|]. split; [done|]. split; [done|]. split; [done|]. split; [done|].
    change (expects o' ex' (c_active_slot l) ByMiss (flat_rsp (lf_ro (c_conf l)) (flat_mem (lf_ro (c_conf l)) V (hp_req (c_hit_pipe l))) (c_req l))).
    rewrite (flat_rsp_other (l1_bypass l) (l1_bypass l)) by (done || by apply Hother). by apply Hx.
  - intros Hm. destruct (iv_clean Hm) as (? & id & ?). split; [done|]. exists id. by apply Hx.
  - intros Hm. change (l1_state_is_flush (c_state l) = true) in Hm. congruence.
  - etrans; [exact iv_end|]. unfold pending_mem. upd_proj. rewrite Hv. change (c_state l1) with (c_state l).
    change (lf_ro (c_conf l1)) with (lf_ro (c_conf l)). change (c_req l1) with (c_req l).
    destruct (missing (c_state l)) eqn:Em; [|done].
    apply (flat_mem_comm (l1_bypass l) (l1_bypass l)); [by apply iv_miss|done|]. symmetry. by apply Hother.
Qed.

Lemma hit_stage l e V Vend live ex fr : l1_inv l e V Vend live ex fr ->
  wp l1_proc_hit_pipe (fun _ l' => exists V' live' ex', l1_inv l' e V' Vend live' ex' fr /\ ex'.*1 = ex.*1 /\ io l' = io l /\
    c_hit_pipe_vld l' = false) l.
Proof.
  intros H. apply wp_bind, wp_gets. unfold id. destruct (c_hit_pipe_vld l) eqn:Hv; cbn [negb]; [|apply wp_ret; by exists V, live, ex].
  destruct (iv_hit _ _ _ _ _ _ _ H Hv) as (Hpl & Hreq & Hl & Hne & Hx). cbv zeta. rewrite req_size_eq by apply Hreq.
  apply wp_bind, wp_ret. rewrite line_offset_eq. set (req := hp_req (c_hit_pipe l)) in *. set (h := hp_line_idx (c_hit_pipe l)) in *.
  pose proof (iv_cache _ _ _ _ _ _ _ H) as Hc.
  assert (refilling l <> Some h) as Hr.
  { unfold refilling. destruct (c_state l) eqn:Es; try done. intros [= E]. by apply Hne. }
  pose proof (req_bytes_cases _ (rk_size _ _ Hreq)) as Hsz. pose proof (rk_line _ _ Hreq) as Hln.
  assert (0 <= bq_addr req mod 64) by (apply Z.mod_pos_bound; lia). apply wp_bind.
  destruct Hpl as [Ec|[Ec Ero]].
  - eapply wp_mono; [apply (hit_loop_load req h (bq_addr req mod 64) (am_mem e) (refilling l) eq_refl Hr l V _ 0%nat); try done;
      [by rewrite Ec|lia|lia]|]. intros d l1 [-> ->]. simpl Nat.add. rewrite Ec.
    change (BTI_REQ_CMD_READ =? BTI_REQ_CMD_READ) with true. cbv iota.
    assert (flat_rsp (lf_ro (c_conf l)) V req = BtiRsp (bq_trans_id req) (load V (bq_addr req) (Z.to_nat (req_bytes req))) true) as Ef
      by (unfold flat_rsp; by rewrite Ec).
    rewrite Ef in Hx. apply wp_bind.
    apply (wp_complete_slot _ fr live ex _ ByHit (BtiRsp (bq_trans_id req) (load V (bq_addr req) (Z.to_nat (req_bytes req))) true));
      [apply H|apply H|exact Hx|]. intros o' live' ex' Hcp. apply wp_modify. do 3 eexists. split; [|by split; [apply Hcp|split]].
    eapply (inv_hit_done l l _ V); [done|done| | |done].
    + split; [exists (c_data l), (c_dirtys l); by destruct l|apply line_frame_refl].
    + fold req. unfold flat_mem. rewrite Ec. exact Hc.
  - eapply wp_mono; [apply (hit_loop_store req h (bq_addr req mod 64) (am_mem e) (refilling l) eq_refl Hr l V _ 0); try done; lia|].
    intros d l1 (-> & Hc1 & Hsv). pose proof Hsv as [(dd & ds & E1) _]. rewrite Ec.
    change (BTI_REQ_CMD_WRITE =? BTI_REQ_CMD_READ) with false. cbv iota.
    assert (flat_rsp (lf_ro (c_conf l)) V req = BtiRsp (bq_trans_id req) 0 true) as Ef by (unfold flat_rsp; by rewrite Ec, Ero).
    rewrite Ef in Hx. apply wp_bind.
    assert (c_ost l1 = c_ost l) as Eo by (by rewrite E1).
    apply (wp_complete_slot _ fr live ex _ ByHit (BtiRsp (bq_trans_id req) 0 true)); [rewrite Eo; apply H|apply H|by rewrite Eo|].
    intros o' live' ex' Hcp. rewrite Eo in Hcp. apply wp_modify. do 3 eexists. split; [|split; [apply Hcp|split; [by rewrite E1|done]]].
    eapply (inv_hit_done l l1 _ V); [done|done|done| |done].
    fold req. unfold flat_mem. rewrite Ec, Ero. rewrite Z2Nat.id in Hc1 by lia. exact Hc1.
Qed.

(** ** Answers *)

(** The state of the cache after the requests [R] of a client that has taken the answers [T], when the
    memory was [V0] at the start: the answers sent and those of the entries are the answers of the flat
    memory to the oldest requests, and the others are waiting. *)
Definition l1_good (V0 : Z -> Z) (l : l1_t) (e : axi_mem) (T : list bti_rsp_if_t) (R : list bti_req_if_t) : Prop :=
  exists V Vend live ex fr al, l1_inv l e V Vend live ex fr /\ R = al ++ waiting l /\
    (T ++ ch_pkts (c_bti_rsp_mst l)) ++ ex.*1 = (flat_run (lf_ro (c_conf l)) V0 al).1 /\
    same_mem Vend (flat_run (lf_ro (c_conf l)) V0 al).2.

Lemma stage_good m V0 l e T R : stage_ok m -> l1_good V0 l e T R ->
  wp m (fun _ l' => l1_good V0 l' e T R /\ c_hit_pipe_vld l' = c_hit_pipe_vld l) l.
Proof.
  intros Hm (V & Vend & live & ex & fr & al & Hi & HR & HT & HV). eapply wp_mono; [by apply (Hm l e V Vend live ex fr)|].
  intros [] l' (V' & live' & ex' & Hi' & Ha & Hio & Hh). split; [|done]. unfold io in Hio. injection Hio as E1 E2 E3.
  exists V', Vend, live', ex', fr, al. by rewrite E1, E2, E3, Ha.
Qed.

Lemma expects_tail ost ost' p ex slot who rsp : (forall j, live_slot ost' j = live_slot ost (S j)) -> p.2 = Done -> who <> Done ->
  expects ost (p :: ex) slot who rsp -> expects ost' ex slot who rsp.
Proof. intros Hs Hp Hw ([|j] & Hj & ->); [|exists j; by rewrite Hs]. simpl in Hj. by injection Hj as ->. Qed.

Lemma inv_sent l e V Vend c live p ex o' : l1_inv l e V Vend (c :: live) (p :: ex) false -> lx_rsp_vld c = true ->
  chan_wf (chan_snoc (c_bti_rsp_mst l) p.1) -> ost_live o' true live -> (forall j, live_slot o' j = live_slot (c_ost l) (S j)) ->
  l1_inv (l <| c_bti_rsp_mst := chan_snoc (c_bti_rsp_mst l) p.1 |> <| c_ost := o' |>) e V Vend live ex true.
Proof.
  intros [] Hv Hw Ho Hs. apply Forall2_cons in iv_entries as [Hc He].
  assert (p.2 = Done) as Hd by (destruct Hc as (_ & _ & _ & Hc); destruct p as [? []]; [done|..]; cbn in Hc; destruct Hc; congruence).
  split; try done.
  - by apply (cache_ok_arrays l).
  - split_and!; try done; apply iv_chans.
  - intros Hm. destruct (iv_miss Hm) as (? & ? & ? & ? & ? & ?). split_and!; try done. by eapply expects_tail.
  - intros Hm. destruct (iv_clean Hm) as (? & id & ?). split; [done|]. exists id. by eapply expects_tail.
  - intros Hm. by destruct (iv_flush Hm) as (? & _).
  - intros Hm. destruct (iv_hit Hm) as (? & ? & ? & ? & ?). split_and!; try done. by eapply expects_tail.
Qed.

Lemma send_stage V0 l e T R : l1_good V0 l e T R ->
  wp l1_send_ost_rsp (fun _ l' => l1_good V0 l' e T R) l.
Proof.
  intros Hg. pose proof Hg as (V & Vend & live & ex & fr & al & Hi & HR & HT & HV).
  apply wp_bind, wp_gets. unfold id. destruct (chan_full _) eqn:Ef; [by apply wp_ret|].
  apply wp_bind, wp_on. eapply wp_ostq_peek; [apply Hi|by intros _; rewrite upd_ost_id; apply wp_ret|].
  intros c live' slot -> -> _. rewrite upd_ost_id. destruct (lx_rsp_vld c) eqn:Ev; cbn [negb]; [|by apply wp_ret].
  pose proof (iv_entries _ _ _ _ _ _ _ Hi) as He. apply Forall2_cons_inv_l in He as (p & ex' & Hc & _ & ->).
  assert (BtiRsp (lx_trans_id c mod 65536) (lx_data c) (lx_ok c) = p.1) as Ep.
  { destruct Hc as (_ & E1 & Hr & Hm). rewrite E1, Z.mod_small by done. destruct p as [[pi pd po] []]; cbn in *.
    - by destruct Hm as (_ & -> & ->).
    - destruct Hm. congruence.
    - destruct Hm. congruence. }
  unfold l1_send_rsp_by_id. rewrite Ep. apply wp_bind, wp_on_write; [apply Hi|done|]. intros Hw. apply wp_on. upd_proj.
  eapply wp_slot_free; [apply Hi|]. intros o' Ho' _ Hs'.
  exists V, Vend, live', ex', true, al. split; [by apply (inv_sent l e V Vend c)|]. split; [done|]. split; [|done].
  upd_proj. rewrite chan_snoc_pkts, app_assoc, <- app_assoc. exact HT.
Qed.

(** ** Allocation *)

Lemma wp_alloc l fr live ex req rsp who Q : ost_live (c_ost l) fr live -> Forall2 entry_ok live ex -> ostq_full (c_ost l) = false ->
  bp_trans_id rsp = bq_trans_id req -> 0 <= bq_trans_id req < 65536 -> who <> Done ->
  (forall o' live' slot, ost_live o' fr live' -> Forall2 entry_ok live' (ex ++ [(rsp, who)]) ->
     expects o' (ex ++ [(rsp, who)]) slot who rsp ->
     (forall slot' who' rsp', expects (c_ost l) ex slot' who' rsp' -> expects o' (ex ++ [(rsp, who)]) slot' who' rsp') ->
     Q (Some slot) (l <| c_ost := o' |>)) ->
  wp (l1_alloc_ost req L1_OST_CACHED) Q l.
Proof.
  intros Ho He Hf Hid Hr Hw HQ. unfold l1_alloc_ost. apply wp_bind, wp_gets. unfold id. rewrite Hf. cbn [bool_decide decide orb].
  apply wp_bind. change (bool_decide (L1_OST_CACHED = L1_OST_BYPASS_RD) || bool_decide (L1_OST_CACHED = L1_OST_BYPASS_WR)) with false.
  apply wp_ret, wp_on. eapply wp_slot_alloc; [done..|]. intros o' Ho' _ Hs'. eapply HQ; [done| | |].
  - apply Forall2_app; [done|]. constructor; [|done]. split; [done|]. split; [by symmetry|]. split; [by rewrite <- Hid in Hr|]. by destruct who.
  - exists (length live). split; [|done]. by rewrite (Forall2_length _ _ _ He), lookup_app_r, Nat.sub_diag by lia.
  - intros slot' who' rsp'. by apply expects_snoc.
Qed.

(** The oldest waiting request leaves the lookup register. *)
Lemma inv_taken l e V Vend live ex fr o' live' ex' : l1_inv l e V Vend live ex fr -> c_hit_pipe_vld l = false ->
  l1_state_is_flush (c_state l) = false -> c_lookup_pipe_vld l = true ->
  ost_live o' fr live' -> Forall2 entry_ok live' ex' ->
  (forall slot rsp, expects (c_ost l) ex slot ByMiss rsp -> expects o' ex' slot ByMiss rsp) ->
  l1_inv (l <| c_ost := o' |> <| c_lookup_pipe_vld := false |>) e V Vend live' ex' fr.
Proof.
  intros [] Hh Hf Hl Ho He Hx. split; try done.
  - by apply (cache_ok_arrays l).
  - intros Hm. destruct (iv_miss Hm) as (? & ? & ? & ? & ? & ?). split_and!; try done. by apply Hx.
  - intros Hm. destruct (iv_clean Hm) as (? & id & ?). split; [done|]. exists id. by apply Hx.
  - intros Hm. change (l1_state_is_flush (c_state l) = true) in Hm. congruence.
  - intros Hv. change (c_hit_pipe_vld l = true) in Hv. congruence.
  - unfold waiting in *. upd_proj. rewrite Hl in iv_waiting. by apply Forall_cons in iv_waiting as [_ ?].
Qed.

(** A request gets an entry: its answer and its effect are the next of the flat memory. *)
Lemma good_next V0 l l' e T al V Vend live ex fr V' Vend' live' ex' fr' req :
  l1_inv l e V Vend live ex fr -> waiting l = req :: waiting l' ->
  c_bti_rsp_mst l' = c_bti_rsp_mst l -> c_conf l' = c_conf l ->
  (T ++ ch_pkts (c_bti_rsp_mst l)) ++ ex.*1 = (flat_run (lf_ro (c_conf l)) V0 al).1 ->
  same_mem Vend (flat_run (lf_ro (c_conf l)) V0 al).2 ->
  l1_inv l' e V' Vend' live' ex' fr' -> ex'.*1 = ex.*1 ++ [flat_rsp (lf_ro (c_conf l)) Vend req] ->
  same_mem Vend' (flat_mem (lf_ro (c_conf l)) Vend req) -> l1_good V0 l' e T (al ++ waiting l).
Proof.
  intros Hi Hw E1 E2 HT HV Hi' Hx Hv. exists V', Vend', live', ex', fr', (al ++ [req]). split; [done|].
  split; [by rewrite Hw, <- app_assoc|]. rewrite E1, E2, flat_run_snoc. cbn [fst snd]. split.
  - rewrite Hx, app_assoc, HT. f_equal. f_equal. eapply flat_rsp_same; [|exact HV].
    pose proof (iv_waiting _ _ _ _ _ _ _ Hi) as Hok. rewrite Hw in Hok. by apply Forall_cons in Hok as [? _].
  - by rewrite Hv, HV.
Qed.

(** ** Lookup *)

(** A counter changes. *)
Ltac counter H := let H0 := fresh in pose proof H as H0; destruct H0; split; try done;
  match type of H with l1_inv ?l _ _ _ _ _ _ => by apply (cache_ok_arrays l) end.

Lemma waiting_lookup l l' : c_lookup_pipe_vld l = true -> c_lookup_pipe_vld l' = false ->
  (c_req_pipe_vld l', c_req_pipe l', c_req_fifo l', c_bti_req_slv l') = (c_req_pipe_vld l, c_req_pipe l, c_req_fifo l, c_bti_req_slv l) ->
  waiting l = lp_req (c_lookup_pipe l) :: waiting l'.
Proof. intros H1 H2 E. injection E as E1 E2 E3 E4. unfold waiting. by rewrite H1, H2, E1, E2, E3, E4. Qed.

Section lookup.
  Context (V0 : Z -> Z) (l : l1_t) (e : axi_mem) (T : list bti_rsp_if_t) (al : list bti_req_if_t).
  Context (V Vend : Z -> Z) (live : list l1_ost_ctx_t) (ex : list (bti_rsp_if_t * owner)) (fr : bool).
  Context (Hi : l1_inv l e V Vend live ex fr) (Hh : c_hit_pipe_vld l = false).
  Context (HT : (T ++ ch_pkts (c_bti_rsp_mst l)) ++ ex.*1 = (flat_run (lf_ro (c_conf l)) V0 al).1).
  Context (HV : same_mem Vend (flat_run (lf_ro (c_conf l)) V0 al).2).
  Context (Hl : c_lookup_pipe_vld l = true) (Hf : l1_state_is_flush (c_state l) = false) (Hfull : ostq_full (c_ost l) = false).

Abbreviation req := (lp_req (c_lookup_pipe l)).
Abbreviation ro := (lf_ro (c_conf l)).

Lemma lookup_req : req_ok (l1_bypass l) req.
Proof.
  pose proof (iv_waiting _ _ _ _ _ _ _ Hi) as H. unfold waiting in H. rewrite Hl in H. by apply Forall_cons in H as [? _].
Qed.

(** The request is answered with an error. *)
Lemma refuse_ok : (forall W, flat_rsp ro W req = BtiRsp (bq_trans_id req) 0 false) -> (forall W, flat_mem ro W req = W) ->
  wp (l1_refuse req) (fun _ l' => l1_good V0 l' e T (al ++ waiting l)) l.
Proof.
  intros Hr Hm. unfold l1_refuse. apply wp_bind.
  apply (wp_alloc l fr live ex req (BtiRsp (bq_trans_id req) 0 false) ByHit); [apply Hi|apply Hi|done|done|apply lookup_req|done|].
  intros o' live' slot Ho He Hx Hold. apply wp_bind, wp_modify.
  apply (wp_complete_slot _ fr live' (ex ++ [(BtiRsp (bq_trans_id req) 0 false, ByHit)]) _ ByHit (BtiRsp (bq_trans_id req) 0 false)); [done..|].
  intros o2 live2 ex2 (Ho2 & He2 & Ha2 & Hx2).
  eapply (good_next V0 l _ e T al V Vend live ex fr); [done|by apply waiting_lookup|done|done|done|done| | |].
  - apply (inv_taken l e V Vend live ex fr o2 live2 ex2); try done. intros slot' rsp' Hs. apply Hx2; [done|]. by apply Hold.
  - by rewrite Ha2, fmap_app, Hr.
  - by rewrite Hm.
Qed.

(** The line of a hit. *)
Lemma lookup_hit hit : l1_lookup_pipe_hit_valid l = Some hit -> hit = true ->
  in_line req (lp_line_idx (c_lookup_pipe l)) l /\ (c_state l <> L1_STATE_IDLE -> lp_line_idx (c_lookup_pipe l) <> c_req_line_idx l).
Proof.
  intros E ->. unfold l1_lookup_pipe_hit_valid in E. destruct (lp_hit (c_lookup_pipe l)) eqn:Ehit; cbn [negb] in E; [|done].
  pose proof (iv_cache _ _ _ _ _ _ _ Hi) as Hc. pose proof (co_geom _ _ _ _ Hc) as G.
  destruct (iv_lookup _ _ _ _ _ _ _ Hi Hl) as [_ Hx]. destruct (Hx Ehit) as [Hr Hs].
  destruct (aget (c_valids l) _) as [v|] eqn:Ev; [|done]. destruct (aget (c_tags l) _) as [t|] eqn:Et; [|done]. cbn in E.
  injection E as E. apply andb_true_iff in E as [[-> Ht%Z.eqb_eq]%andb_true_iff Hn%negb_true_iff].
  pose proof lookup_req as Hk. split.
  - split; [exact Ev|]. apply (lnum_split l G _ _ t); [done|done|apply line_of_range, Hk|]. split; [|done].
    rewrite Ht. apply req_tag_eq, Hk.
  - intros Hne Eq. unfold l1_active_line_conflict in Hn. rewrite bool_decide_eq_true_2, Eq, Z.eqb_refl in Hn by done. done.
Qed.

Lemma hit_valid_total : exists hit, l1_lookup_pipe_hit_valid l = Some hit.
Proof.
  unfold l1_lookup_pipe_hit_valid. destruct (lp_hit (c_lookup_pipe l)) eqn:Ehit; cbn [negb]; [|by eexists].
  pose proof (co_geom _ _ _ _ (iv_cache _ _ _ _ _ _ _ Hi)) as G. destruct (iv_lookup _ _ _ _ _ _ _ Hi Hl) as [_ Hx].
  destruct (Hx Ehit) as [Hr _]. destruct (flag_at l (c_valids l) _ (gm_valids l G) Hr) as [v ->].
  destruct (tag_at l G _ Hr) as [t ->]. by eexists.
Qed.

(** A hit is answered with the bytes of the arrays: the miss in progress is in another line. *)
Lemma hit_alloc : plain ro req -> l1_lookup_pipe_hit_valid l = Some true ->
  wp (modify (fun l1 => l1 <| c_perf_hit := u64 (c_perf_hit l1 + 1) |>);;
      slot ← l1_alloc_ost req L1_OST_CACHED;
      match slot with
      | None => mret tt
      | Some slot =>
        modify (fun l1 => l1 <| c_lookup_pipe_vld := false |> <| c_hit_pipe_vld := true |>
          <| c_hit_pipe := L1HitPipe req slot (lp_way (c_lookup_pipe l1)) (lp_line_idx (c_lookup_pipe l1)) |>)
      end) (fun _ l' => l1_good V0 l' e T (al ++ waiting l)) l.
Proof.
  intros Hp Hhit. destruct (lookup_hit true Hhit eq_refl) as [Hin Hne]. pose proof lookup_req as Hk.
  assert (missing (c_state l) = true -> line_of (bq_addr req) <> line_of (bq_addr (c_req l))) as Hother.
  { intros Hm E. pose proof (iv_phase _ _ _ _ _ _ _ Hi) as Hph. unfold phase in Hph. destruct Hin as [Hv En].
    assert (c_state l <> L1_STATE_IDLE) as Hs by (intros Es; by rewrite Es in Hm).
    assert (miss_ok l \/ in_line (c_req l) (c_req_line_idx l) l) as [(_ & _ & _ & _ & Hno)|[Hv2 En2]]
      by (destruct (c_state l) eqn:Es; try done; destruct_and?; auto).
    - apply (Hno _ Hv). by rewrite En.
    - apply (Hne Hs). apply (co_unique _ _ _ _ (iv_cache _ _ _ _ _ _ _ Hi)); [done..|congruence]. }
  assert (flat_rsp ro Vend req = flat_rsp ro V req) as Er.
  { rewrite (flat_rsp_same _ ro Vend _ req Hk (iv_end _ _ _ _ _ _ _ Hi)). unfold pending_mem. rewrite Hh.
    destruct (missing (c_state l)) eqn:Em; [|done]. apply (flat_rsp_other (l1_bypass l) (l1_bypass l)); [by apply Hi|done|].
    symmetry. by apply Hother. }
  apply wp_bind, wp_modify, wp_bind. set (l1 := l <| c_perf_hit := _ |>).
  apply (wp_alloc l1 fr live ex req (flat_rsp ro V req) ByHit); [apply Hi|apply Hi|done| |apply Hk|done|].
  { unfold flat_rsp. by repeat case_match. }
  intros o' live' slot Ho He Hx Hold. apply wp_modify.
  assert (l1_inv (l1 <| c_ost := o' |> <| c_lookup_pipe_vld := false |>) e V Vend live' (ex ++ [(flat_rsp ro V req, ByHit)]) fr) as H2.
  { apply (inv_taken l1 e V Vend live ex fr); try done; [counter Hi|]. intros slot' rsp'. apply Hold. }
  eapply (good_next V0 l _ e T al V Vend live ex fr V (flat_mem ro Vend req)); [done|by apply waiting_lookup|done|done|done|done| | |done].
  - destruct H2. split; try done.
    + by apply (cache_ok_arrays (l1 <| c_ost := o' |> <| c_lookup_pipe_vld := false |>)).
    + intros Hm. change (l1_state_is_flush (c_state l) = true) in Hm. congruence.
    + pose proof (iv_end : same_mem Vend _) as He2. unfold pending_mem in *. revert He2. upd_proj. change (c_hit_pipe_vld l1) with (c_hit_pipe_vld l). rewrite Hh.
      intros ->. done.
  - by rewrite fmap_app, Er.
Qed.

End lookup.

(** ** Start of a miss *)

Lemma geom_replace l rw : geom l -> Z.of_nat (length rw) = sets l -> Forall (fun w => 0 <= w < ways l) rw ->
  geom (l <| c_replace_ways := rw |>).
Proof. intros [] Hn Hw. by split. Qed.

Lemma cache_ok_replace l V m x rw : cache_ok l V m x -> geom (l <| c_replace_ways := rw |>) ->
  cache_ok (l <| c_replace_ways := rw |>) V m x.
Proof. intros [] G. by split. Qed.

(** The victim is a line of the set of the request. *)
Lemma wp_select_victim l Q : geom l -> 0 <= c_req_set l < sets l ->
  (forall way idx rw, 0 <= idx < lines l -> idx / ways l = c_req_set l -> geom (l <| c_replace_ways := rw |>) ->
     Q tt (l <| c_replace_ways := rw |> <| c_req_way := way |> <| c_req_line_idx := idx |>)) ->
  wp l1_select_victim Q l.
Proof.
  intros G Hs HQ. pose proof (gm_ways l G). unfold l1_select_victim. apply wp_bind, wp_gets. unfold id.
  destruct (free_way_loop_ok l G (Z.to_nat (ways l)) 0 Hs) as (r & -> & Hr); [lia|lia|]. apply wp_bind, wp_ret.
  destruct r as [[way idx]|].
  - destruct Hr as (Hw & -> & _). destruct (line_idx_eq l G (c_req_set l) way Hs ltac:(lia)) as (_ & Hi & Hd).
    apply wp_modify. assert (l <| c_replace_ways := c_replace_ways l |> = l) as E by (by destruct l).
    rewrite <- E at 1. apply HQ; [done|done|by rewrite E].
  - destruct (aget_is_Some (c_replace_ways l) (c_req_set l)) as [way Hw]; [rewrite (gm_replace l G); lia|]. rewrite Hw.
    assert (0 <= way < ways l) as Hway.
    { rewrite aget_lookup in Hw by lia. by apply (Forall_lookup_1 _ _ _ _ (gm_victims l G) Hw). }
    apply wp_bind, wp_ret. rewrite aset_insert by (rewrite (gm_replace l G); lia). apply wp_bind, wp_ret, wp_modify.
    destruct (line_idx_eq l G (c_req_set l) way Hs Hway) as (Ei & Hi & Hd).
    change (l1_line_idx (l <| c_req_way := way |>) (c_req_set (l <| c_req_way := way |>)) way) with (l1_line_idx l (c_req_set l) way).
    change (Q tt (l <| c_replace_ways := <[Z.to_nat (c_req_set l) := u32 (way + 1) mod ways l]> (c_replace_ways l) |>
      <| c_req_way := way |> <| c_req_line_idx := l1_line_idx l (c_req_set l) way |>)). rewrite Ei.
    apply HQ; [done|done|]. apply geom_replace; [done|by rewrite length_insert; apply G|].
    apply Forall_insert; [apply G|]. by apply Z.mod_pos_bound.
Qed.

(** What starting the miss machine keeps. *)
Definition started (l l' : l1_t) : Prop :=
  (c_bti_rsp_mst l', c_req_fifo l', c_bti_req_slv l', c_ost l', (c_req_pipe_vld l', c_req_pipe l'),
   (c_lookup_pipe_vld l', c_lookup_pipe l'), c_hit_pipe_vld l', c_active_slot l', c_req l', (c_req_byte_idx l', c_req_data l', c_op_ok l'),
   (c_conf l', c_set_num l', c_line_num l'), bus l', c_flush_ack_mst l') =
  (c_bti_rsp_mst l, c_req_fifo l, c_bti_req_slv l, c_ost l, (c_req_pipe_vld l, c_req_pipe l),
   (c_lookup_pipe_vld l, c_lookup_pipe l), c_hit_pipe_vld l, c_active_slot l, c_req l, (c_req_byte_idx l, c_req_data l, c_op_ok l),
   (c_conf l, c_set_num l, c_line_num l), bus l, c_flush_ack_mst l).

(** The access starts in the state its line asks for. *)
Lemma start_fragment_ok l e V Q : cache_ok l V (am_mem e) None -> no_write l e -> no_read l e -> c_req_byte_idx l = 0 ->
  is_u32 (bq_addr (c_req l)) ->
  (forall l', started l l' -> missing (c_state l') = true -> cache_ok l' V (am_mem e) (refilling l') -> phase l' e -> Q tt l') ->
  wp l1_start_cached_fragment Q l.
Proof.
  intros Hc Hw Hr Hb Ha HQ. unfold l1_start_cached_fragment, l1_setup_fragment. apply wp_bind, wp_modify. cbv zeta.
  rewrite Hb, Z.add_0_r, (u32_small (bq_addr (c_req l))), req_line_addr_eq, req_set_eq, req_tag_eq by done.
  set (n := line_of (bq_addr (c_req l))). set (l1 := l <| c_req_line_addr := _ |> <| c_req_set := _ |> <| c_req_tag := _ |>).
  assert (cache_ok l1 V (am_mem e) None) as Hc1 by (by apply (cache_ok_arrays l)). pose proof (co_geom _ _ _ _ Hc1) as G.
  pose proof (line_of_range _ Ha) as Hn. fold n in Hn.
  apply wp_bind, wp_gets. unfold id. destruct (lookup_total l1 G n ltac:(lia)) as [r Er].
  change (l1_lookup l1) with (lookup_loop l1 (n mod sets l1) (n / sets l1) (Z.to_nat (ways l1)) 0). rewrite Er.
  pose proof (lookup_ok l1 G n r ltac:(lia) Er) as Hlk. apply wp_bind, wp_ret. destruct r as [[way idx]|].
  { apply wp_modify, HQ; try done. by apply (cache_ok_arrays l). }
  apply wp_bind, wp_modify, wp_bind. set (l2 := l1 <| c_perf_miss := _ |>).
  assert (0 <= n mod sets l1 < sets l1) as Hset by (apply Z.mod_pos_bound, G).
  apply wp_select_victim; [destruct G; by split|done|]. intros w idx rw Hidx Hd Grw.
  set (l3 := l2 <| c_replace_ways := rw |> <| c_req_way := w |> <| c_req_line_idx := idx |>).
  assert (cache_ok l3 V (am_mem e) None) as Hc3.
  { apply (cache_ok_arrays (l2 <| c_replace_ways := rw |>)); [done|]. apply cache_ok_replace; [by apply (cache_ok_arrays l1)|done]. }
  pose proof (co_geom _ _ _ _ Hc3) as G3.
  assert (miss_ok l3) as Hm by (split; [done|]; split; [done|]; split; [done|]; split; [done|exact Hlk]).
  apply wp_bind, wp_gets. unfold id. change (c_req_line_idx l3) with idx.
  destruct (flag_at l3 (c_valids l3) idx (gm_valids l3 G3) Hidx) as [v Hv]. destruct (flag_at l3 (c_dirtys l3) idx (gm_dirtys l3 G3) Hidx) as [d Hdt].
  destruct (tag_at l3 G3 idx Hidx) as [t Ht]. rewrite Hv, Hdt. apply wp_bind, wp_ret, wp_bind.
  assert (wp (if v then of_option (Some d) else mret false) (fun d' l' => d' = v && d /\ l' = l3) l3) as Hvd by (by destruct v; apply wp_ret).
  eapply wp_mono; [exact Hvd|]. intros d' l' [-> ->]. rewrite andb_assoc, andb_diag. destruct (v && d) eqn:Evd.
  - apply andb_true_iff in Evd as [-> ->]. rewrite Ht. apply wp_bind, wp_ret, wp_modify. apply HQ; try done; [by apply (cache_ok_arrays l3)|].
    unfold phase. upd_proj. split; [|exact Hm]. split; [done|]. split; [|done]. split; [exact Hv|]. split; [exact Hdt|]. upd_proj.
    change (l1_line_addr l3 t (c_req_set l3) = 64 * lnum l3 idx). rewrite <- (line_addr_eq l3 idx t G3 Hidx Ht); [f_equal; symmetry; exact Hd|].
    by apply (co_range _ _ _ _ Hc3).
  - apply wp_modify. apply HQ; try done; [by apply (cache_ok_arrays l3)|].
    unfold phase. upd_proj. split; [done|]. split; [done|]. split; [exact Hm|]. intros Hv' Hd'.
    change (aget (c_valids l3) idx = Some true) in Hv'. change (aget (c_dirtys l3) idx = Some true) in Hd'. destruct v, d; done || congruence.
Qed.

(** A cache block operation starts with the write back of its line, if that is dirty. *)
Lemma start_cbo_ok l e V Q : cache_ok l V (am_mem e) None -> no_write l e -> no_read l e -> c_req_byte_idx l = 0 ->
  is_u32 (bq_addr (c_req l)) -> l1_cbo_cleans (bq_cmd (c_req l)) = true ->
  (forall l', started l l' -> cleaning (c_state l') = true -> cache_ok l' V (am_mem e) (refilling l') -> phase l' e -> Q tt l') ->
  wp l1_start_cbo Q l.
Proof.
  intros Hc Hw Hr Hb Ha Hcl HQ. unfold l1_start_cbo, l1_setup_fragment. apply wp_bind, wp_gets. unfold id.
  apply wp_bind, wp_check.
  { unfold l1_cbo_cleans in Hcl. apply orb_true_iff in Hcl as [->%Z.eqb_eq| ->%Z.eqb_eq]; done. }
  apply wp_bind, wp_modify. cbv zeta. rewrite Hb, Z.add_0_r, (u32_small (bq_addr (c_req l))), req_line_addr_eq, req_set_eq, req_tag_eq by done.
  set (n := line_of (bq_addr (c_req l))). set (l1 := l <| c_req_line_addr := _ |> <| c_req_set := _ |> <| c_req_tag := _ |>).
  assert (cache_ok l1 V (am_mem e) None) as Hc1 by (by apply (cache_ok_arrays l)). pose proof (co_geom _ _ _ _ Hc1) as G.
  pose proof (line_of_range _ Ha) as Hn. fold n in Hn.
  apply wp_bind, wp_gets. unfold id. destruct (lookup_total l1 G n ltac:(lia)) as [r Er].
  change (l1_lookup l1) with (lookup_loop l1 (n mod sets l1) (n / sets l1) (Z.to_nat (ways l1)) 0). rewrite Er.
  pose proof (lookup_ok l1 G n r ltac:(lia) Er) as Hlk. apply wp_bind, wp_ret. destruct r as [[way idx]|].
  2: { apply wp_modify, HQ; try done. by apply (cache_ok_arrays l). }
  destruct Hlk as [Hv En]. pose proof (valid_range l1 G idx Hv) as Hi.
  destruct (flag_at l1 (c_dirtys l1) idx (gm_dirtys l1 G) Hi) as [d Hd].
  apply wp_bind, wp_modify. set (l2 := l1 <| c_req_way := way |> <| c_req_line_idx := idx |>).
  change (bq_cmd (c_req l1)) with (bq_cmd (c_req l)). rewrite Hcl, Hd. apply wp_bind, wp_ret. destruct d.
  - apply wp_modify, HQ; try done; [by apply (cache_ok_arrays l)|]. unfold phase. upd_proj. split; [done|]. split; [|done].
    split; [done|]. split; [done|]. upd_proj. change (64 * n = 64 * lnum l1 idx). by rewrite En.
  - assert (cache_ok l2 V (am_mem e) None) as Hc2 by (by apply (cache_ok_arrays l1)).
    destruct (l1_cbo_invalidates _); cbn [when]; apply wp_bind; [|apply wp_ret, wp_modify, HQ; try done; by apply (cache_ok_arrays l)].
    apply wp_bind, wp_set_valid; [apply Hc2|done|]. apply wp_set_dirty; [apply geom_insert_valid, Hc2|done|].
    apply wp_modify, HQ; try done.
    apply (cache_ok_arrays (l2 <| c_valids := <[Z.to_nat idx := false]> (c_valids l2) |>
      <| c_dirtys := <[Z.to_nat idx := false]> (c_dirtys (l2 <| c_valids := <[Z.to_nat idx := false]> (c_valids l2) |>)) |>)); [done|].
    apply retire_ok; [done|done|]. intros _ Hd'. change (aget (c_dirtys l1) idx = Some true) in Hd'. congruence.
Qed.

(** The registers of a request that starts the machine, as [l1_take_active] sets them. *)
Definition taken (l : l1_t) (slot : Z) (req : bti_req_if_t) : l1_t :=
  l <| c_lookup_pipe_vld := false |> <| c_active_slot := slot |> <| c_req := req |> <| c_op_ok := true |>
    <| c_req_byte_idx := 0 |> <| c_req_data := 0 |>.

Lemma inv_start l l' slot req e V Vend Vend' live ex fr : l1_inv (l <| c_lookup_pipe_vld := false |>) e V Vend live ex fr ->
  c_state l = L1_STATE_IDLE -> c_hit_pipe_vld l = false -> started (taken l slot req) l' ->
  l1_state_is_flush (c_state l') = false -> cache_ok l' V (am_mem e) (refilling l') -> phase l' e ->
  (missing (c_state l') = true -> plain (lf_ro (c_conf l)) req /\ req_ok (l1_bypass l) req /\
     expects (c_ost l) ex slot ByMiss (flat_rsp (lf_ro (c_conf l)) V req)) ->
  (cleaning (c_state l') = true -> l1_cbo_cleans (bq_cmd req) = true /\
     exists id, expects (c_ost l) ex slot ByMiss (BtiRsp id 0 true)) ->
  same_mem Vend' (if missing (c_state l') then flat_mem (lf_ro (c_conf l)) V req else V) ->
  l1_inv l' e V Vend' live ex fr.
Proof.
  intros [] Es Hh Hst Hf Hc Hp Hm Hcl Hend. unfold started, bus in Hst.
  injection Hst as E1 E2 E3 E4 E5 E6 E7 E8 E9 E10 E11 E12 E13 E14 E15 E16 E17 E18 E19 E20 E21 E22 E23.
  assert (l1_bypass l' = l1_bypass l) as Eb by (unfold l1_bypass; by rewrite E15).
  assert (c_lookup_pipe_vld l' = false /\ c_hit_pipe_vld l' = c_hit_pipe_vld l) as [El Eh] by done.
  split; rewrite ?E1, ?E2, ?E4, ?El, ?Eh, ?Hh, ?E8, ?E10, ?E11, ?E12, ?E13, ?E14, ?E15, ?E16, ?E17, ?E18, ?E19, ?E20, ?E21, ?E22, ?E23, ?Eb; try done.
  - intros Hmm. destruct (Hm Hmm) as (? & ? & ?). by split_and!.
  - congruence.
  - unfold waiting in *. by rewrite El, E2, E3, E5, E6.
  - unfold pending_mem. rewrite Eh, Hh, E11, E15. exact Hend.
Qed.
