(* ===== verification/L1Spec.v ===== *)
(** * The level 1 cache is transparent

    Whole cycles of [core/hart/l1.c] in front of a memory: what a client reads through the cache is
    what it would read from a flat memory that serves its requests one after the other. *)

From stdpp Require Import base numbers list.
From Stdlib Require Import ZArith Lia.
From S2P Require Import Prelude Fifo Ost OstScan OstSlot Bti Axi Ifu L1 L1Cache AxiMem L1Inv L1Stages L1Pipe.

(** ** The lookup stage *)

Section start.
  Context (V0 : Z -> Z) (l : l1_t) (e : axi_mem) (T : list bti_rsp_if_t) (al : list bti_req_if_t).
  Context (V Vend : Z -> Z) (live : list l1_ost_ctx_t) (ex : list (bti_rsp_if_t * owner)) (fr : bool).
  Context (Hi : l1_inv l e V Vend live ex fr) (Hh : c_hit_pipe_vld l = false).
  Context (HT : (T ++ ch_pkts (c_bti_rsp_mst l)) ++ ex.*1 = (flat_run (lf_ro (c_conf l)) V0 al).1).
  Context (HV : same_mem Vend (flat_run (lf_ro (c_conf l)) V0 al).2).
  Context (Hl : c_lookup_pipe_vld l = true) (Hs : c_state l = L1_STATE_IDLE) (Hfull : ostq_full (c_ost l) = false).

Abbreviation req := (lp_req (c_lookup_pipe l)).
Abbreviation ro := (lf_ro (c_conf l)).

Lemma idle_facts : cache_ok l V (am_mem e) None /\ no_write l e /\ no_read l e /\ same_mem Vend V.
Proof.
  destruct Hi. unfold phase, refilling, pending_mem in *. rewrite Hs in *. rewrite Hh in *. by destruct iv_phase.
Qed.

Lemma start_ready o' live' rsp : ost_live o' fr live' -> Forall2 entry_ok live' (ex ++ [(rsp, ByMiss)]) ->
  (forall slot' who' rsp', expects (c_ost l) ex slot' who' rsp' -> expects o' (ex ++ [(rsp, ByMiss)]) slot' who' rsp') ->
  l1_inv (l <| c_ost := o' |> <| c_lookup_pipe_vld := false |>) e V Vend live' (ex ++ [(rsp, ByMiss)]) fr.
Proof.
  intros Ho He Hold. apply (inv_taken l e V Vend live ex fr); try done; [by rewrite Hs|]. intros slot' rsp'. apply Hold.
Qed.

Lemma start_miss : plain ro req ->
  wp (slot ← l1_alloc_ost req L1_OST_CACHED;
      match slot with
      | None => mret tt
      | Some slot => l1_take_active slot req;; l1_start_cached_fragment
      end) (fun _ l' => l1_good V0 l' e T (al ++ waiting l)) l.
Proof.
  intros Hp. pose proof (lookup_req l e V Vend live ex fr Hi Hl) as Hk. destruct idle_facts as (Hc & Hw & Hr & HE).
  apply wp_bind, (wp_alloc l fr live ex req (flat_rsp ro V req) ByMiss); [apply Hi|apply Hi|done| |apply Hk|done|].
  { unfold flat_rsp. by repeat case_match. }
  intros o' live' slot Ho He Hx Hold. pose proof (start_ready _ _ _ Ho He Hold) as H2.
  apply wp_bind, wp_modify. change (wp l1_start_cached_fragment (fun _ l' => l1_good V0 l' e T (al ++ waiting l)) (taken (l <| c_ost := o' |>) slot req)).
  apply (start_fragment_ok _ e V); [by apply (cache_ok_arrays l)|done|done|done|apply Hk|].
  intros l' Hst Hm Hc' Hp'.
  assert (l1_inv l' e V (flat_mem ro Vend req) live' (ex ++ [(flat_rsp ro V req, ByMiss)]) fr) as H3.
  { eapply (inv_start (l <| c_ost := o' |>)); [exact H2|done|done|done| |done|done|done| |].
    - by destruct (c_state l').
    - intros Hcl. by destruct (c_state l').
    - rewrite Hm. by rewrite HE. }
  unfold started, bus in Hst. injection Hst as E1 E2 E3 E4 E5 E6 E7 E8 E9 E10 E11 E12 E13 E14 E15 E16 E17 E18 E19 E20 E21 E22 E23.
  eapply (good_next V0 l l' e T al V Vend live ex fr); [done|apply waiting_lookup; [done|done|by rewrite E2, E3, E5, E6]|done|done|done|done|exact H3| |done].
  rewrite fmap_app. simpl. by rewrite (flat_rsp_same _ ro Vend V req Hk HE).
Qed.

Lemma start_block : l1_req_is_cbo (bq_cmd req) = true ->
  wp (slot ← l1_alloc_ost req L1_OST_CACHED;
      match slot with
      | None => mret tt
      | Some slot => l1_take_active slot req;; l1_start_cbo
      end) (fun _ l' => l1_good V0 l' e T (al ++ waiting l)) l.
Proof.
  intros Hp. pose proof (lookup_req l e V Vend live ex fr Hi Hl) as Hk. destruct idle_facts as (Hc & Hw & Hr & HE).
  assert (l1_cbo_cleans (bq_cmd req) = true) as Hcl.
  { pose proof (rk_cmd _ _ Hk). unfold l1_req_is_cbo, l1_cbo_cleans in *. destruct (Z.eqb_spec (bq_cmd req) BTI_REQ_CMD_CBO_INVAL); [done|]. done. }
  assert (bq_cmd req = BTI_REQ_CMD_CBO_CLEAN \/ bq_cmd req = BTI_REQ_CMD_CBO_FLUSH) as Hcmd
    by (unfold l1_cbo_cleans in Hcl; apply orb_true_iff in Hcl as [?%Z.eqb_eq|?%Z.eqb_eq]; auto).
  apply wp_bind, (wp_alloc l fr live ex req (BtiRsp (bq_trans_id req) 0 true) ByMiss); [apply Hi|apply Hi|done|done|apply Hk|done|].
  intros o' live' slot Ho He Hx Hold. pose proof (start_ready _ _ _ Ho He Hold) as H2.
  apply wp_bind, wp_modify. change (wp l1_start_cbo (fun _ l' => l1_good V0 l' e T (al ++ waiting l)) (taken (l <| c_ost := o' |>) slot req)).
  apply (start_cbo_ok _ e V); [by apply (cache_ok_arrays l)|done|done|done|apply Hk|done|].
  intros l' Hst Hm Hc' Hp'.
  assert (l1_inv l' e V Vend live' (ex ++ [(BtiRsp (bq_trans_id req) 0 true, ByMiss)]) fr) as H3.
  { eapply (inv_start (l <| c_ost := o' |>)); [exact H2|done|done|done| |done|done| | |].
    - by destruct (c_state l').
    - intros ?. by destruct (c_state l').
    - intros _. split; [done|]. by eexists.
    - destruct (missing (c_state l')) eqn:Em; [by destruct (c_state l')|exact HE]. }
  unfold started, bus in Hst. injection Hst as E1 E2 E3 E4 E5 E6 E7 E8 E9 E10 E11 E12 E13 E14 E15 E16 E17 E18 E19 E20 E21 E22 E23.
  eapply (good_next V0 l l' e T al V Vend live ex fr); [done|apply waiting_lookup; [done|done|by rewrite E2, E3, E5, E6]|done|done|done|done|exact H3| |].
  - rewrite fmap_app. unfold flat_rsp. by destruct Hcmd as [-> | ->].
  - unfold flat_mem. by destruct Hcmd as [-> | ->].
Qed.

End start.

Lemma good_intro V0 l e T R al V Vend live ex fr : l1_inv l e V Vend live ex fr -> R = al ++ waiting l ->
  (T ++ ch_pkts (c_bti_rsp_mst l)) ++ ex.*1 = (flat_run (lf_ro (c_conf l)) V0 al).1 ->
  same_mem Vend (flat_run (lf_ro (c_conf l)) V0 al).2 -> l1_good V0 l e T R.
Proof. intros. by exists V, Vend, live, ex, fr, al. Qed.

(** A load or store: it hits, waits for the miss in progress, or starts one. *)
Lemma access_ok V0 l e T al V Vend live ex fr : l1_inv l e V Vend live ex fr -> c_hit_pipe_vld l = false ->
  (T ++ ch_pkts (c_bti_rsp_mst l)) ++ ex.*1 = (flat_run (lf_ro (c_conf l)) V0 al).1 ->
  same_mem Vend (flat_run (lf_ro (c_conf l)) V0 al).2 -> c_lookup_pipe_vld l = true ->
  l1_state_is_flush (c_state l) = false -> ostq_full (c_ost l) = false ->
  plain (lf_ro (c_conf l)) (lp_req (c_lookup_pipe l)) ->
  wp (hit ← of_option (l1_lookup_pipe_hit_valid l);
      if hit : bool then
        modify (fun l1 => l1 <| c_perf_hit := u64 (c_perf_hit l1 + 1) |>);;
        slot ← l1_alloc_ost (lp_req (c_lookup_pipe l)) L1_OST_CACHED;
        match slot with
        | None => mret tt
        | Some slot =>
          modify (fun l1 => l1 <| c_lookup_pipe_vld := false |> <| c_hit_pipe_vld := true |>
            <| c_hit_pipe := L1HitPipe (lp_req (c_lookup_pipe l)) slot (lp_way (c_lookup_pipe l1)) (lp_line_idx (c_lookup_pipe l1)) |>)
        end
      else
        busy ← (if bool_decide (c_state l <> L1_STATE_IDLE) then mret true else l1_has_bypass_ost);
        if busy : bool then modify (fun l1 => l1 <| c_perf_miss_busy := u64 (c_perf_miss_busy l1 + 1) |>)
        else
          slot ← l1_alloc_ost (lp_req (c_lookup_pipe l)) L1_OST_CACHED;
          match slot with
          | None => mret tt
          | Some slot => l1_take_active slot (lp_req (c_lookup_pipe l));; l1_start_cached_fragment
          end) (fun _ l' => l1_good V0 l' e T (al ++ waiting l)) l.
Proof.
  intros Hi Hh HT HV Hl Hf Ho Hp. destruct (hit_valid_total l e V Vend live ex fr Hi Hl) as [hit Ehit].
  rewrite Ehit. apply wp_bind, wp_ret. destruct hit.
  { by eapply hit_alloc. }
  apply wp_bind.
  destruct (bool_decide_reflect (c_state l <> L1_STATE_IDLE)) as [|Hs%dec_stable].
  - apply wp_ret, wp_modify. set (l' := l <| c_perf_miss_busy := _ |>).
    apply (good_intro V0 l' e T _ al V Vend live ex fr); [counter Hi|done|done|done].
  - eapply wp_has_bypass; [done|]. by eapply start_miss.
Qed.

Lemma lookup_stage V0 l e T R : l1_good V0 l e T R -> c_hit_pipe_vld l = false ->
  wp l1_proc_lookup_pipe (fun _ l' => l1_good V0 l' e T R) l.
Proof.
  intros (V & Vend & live & ex & fr & al & Hi & -> & HT & HV) Hh. apply wp_bind, wp_gets. unfold id.
  assert (l1_good V0 l e T (al ++ waiting l)) as Hg by by eapply good_intro.
  destruct (c_lookup_pipe_vld l) eqn:Hl; cbn [negb orb]; [|by apply wp_ret].
  destruct (l1_state_is_flush (c_state l)) eqn:Hf; [by apply wp_ret|].
  destruct (ostq_full (c_ost l)) eqn:Ho.
  { apply wp_modify. set (l' := l <| c_perf_ost_full := _ |>). apply (good_intro V0 l' e T _ al V Vend live ex fr); [counter Hi|done|done|done]. }
  pose proof (lookup_req l e V Vend live ex fr Hi Hl) as Hk. cbv zeta.
  destruct (l1_req_is_cbo _) eqn:Ecbo.
  { destruct (bool_decide_reflect (c_state l <> L1_STATE_IDLE)) as [|Hs%dec_stable]; [by apply wp_ret|].
    destruct (ostq_empty (c_ost l)); [|by apply wp_ret]. by eapply start_block. }
  pose proof Ecbo as Ecbo'. unfold l1_req_is_cbo in Ecbo.
  apply orb_false_iff in Ecbo as [[Ec1%Z.eqb_neq Ec2%Z.eqb_neq]%orb_false_iff Ec3%Z.eqb_neq].
  destruct (Z.eqb_spec (bq_cmd (lp_req (c_lookup_pipe l))) BTI_REQ_CMD_READ) as [Er|Nr]; cbn [negb andb].
  2: destruct (Z.eqb_spec (bq_cmd (lp_req (c_lookup_pipe l))) BTI_REQ_CMD_WRITE) as [Ew|Nw]; cbn [negb andb].
  3: { apply Z.eqb_neq in Nr, Nw. eapply refuse_ok; [done..| |]; intros W.
    - unfold flat_rsp. by rewrite Nr, Nw, Ecbo'.
    - unfold flat_mem. by rewrite Nw. }
  all: destruct (iv_lookup _ _ _ _ _ _ _ Hi Hl) as [-> _].
  - rewrite Er. change (BTI_REQ_CMD_READ =? BTI_REQ_CMD_WRITE) with false. rewrite andb_false_r.
    eapply access_ok; try done. by left.
  - rewrite andb_true_r. destruct (lf_ro (c_conf l)) eqn:Ero; [|eapply access_ok; rewrite ?Ero; try done; by right].
    eapply refuse_ok; try done; rewrite ?Ero; try done; intros W.
    + unfold flat_rsp. by rewrite Ew.
    + unfold flat_mem. by rewrite Ew.
Qed.

(** ** Filling the pipeline *)

Definition lookup_reg_ok (l : l1_t) (vld : bool) (p : l1_lookup_pipe_t) : Prop := vld = true ->
  lp_bypass p = false /\
  (lp_hit p = true -> 0 <= lp_line_idx p < lines l /\ lp_line_idx p / ways l = line_of (bq_addr (lp_req p)) mod sets l).

(** The requests move on, or new ones arrive: the registers in front of the lookup, the staging FIFO and
    the request channel. *)
Definition moved (l : l1_t) (slv fifo : chan bti_req_if_t) (rv : bool) (r : bti_req_if_t) (pv : bool)
    (p : l1_lookup_pipe_t) : l1_t :=
  l <| c_bti_req_slv := slv |> <| c_req_fifo := fifo |> <| c_req_pipe_vld := rv |> <| c_req_pipe := r |>
    <| c_lookup_pipe_vld := pv |> <| c_lookup_pipe := p |>.

Lemma inv_moved l e V Vend live ex fr slv fifo rv r pv p : l1_inv l e V Vend live ex fr ->
  chan_wf fifo -> lookup_reg_ok l pv p ->
  Forall (req_ok (l1_bypass l)) (opt_list pv (lp_req p) ++ opt_list rv r ++ ch_pkts fifo ++ ch_pkts slv) ->
  l1_inv (moved l slv fifo rv r pv p) e V Vend live ex fr.
Proof.
  intros [] Hw Hl Hq. split; try done.
  - by apply (cache_ok_arrays l).
  - split_and!; try done; apply iv_chans.
Qed.

Lemma good_moved V0 l e T R R' slv fifo rv r pv p : l1_good V0 l e T R -> chan_wf fifo -> lookup_reg_ok l pv p ->
  (forall al, R = al ++ waiting l -> Forall (req_ok (l1_bypass l)) (waiting l) ->
     R' = al ++ opt_list pv (lp_req p) ++ opt_list rv r ++ ch_pkts fifo ++ ch_pkts slv /\
     Forall (req_ok (l1_bypass l)) (opt_list pv (lp_req p) ++ opt_list rv r ++ ch_pkts fifo ++ ch_pkts slv)) ->
  l1_good V0 (moved l slv fifo rv r pv p) e T R'.
Proof.
  intros (V & Vend & live & ex & fr & al & Hi & HR & HT & HV) Hw Hl H.
  destruct (H al HR (iv_waiting _ _ _ _ _ _ _ Hi)) as [HR' Hq].
  apply (good_intro V0 _ e T R' al V Vend live ex fr); [by apply inv_moved|done|done|done].
Qed.

Lemma good_cache V0 l e T R : l1_good V0 l e T R -> geom l /\ Forall (req_ok (l1_bypass l)) (waiting l) /\ chan_wf (c_req_fifo l).
Proof. intros (V & Vend & live & ex & fr & al & [] & _). split; [apply iv_cache|]. split; [done|]. apply iv_chans. Qed.

(** The line that the lookup finds is in the set of the address. *)
Lemma fast_hit_ok l req : geom l -> req_ok (l1_bypass l) req -> exists hit found, l1_lookup_fast_hit l req = Some (hit, found) /\
  (hit = true -> exists way idx, found = Some (way, idx) /\ 0 <= idx < lines l /\ idx / ways l = line_of (bq_addr req) mod sets l).
Proof.
  intros G Hk. unfold l1_lookup_fast_hit. rewrite req_size_eq by apply Hk. cbn [mbind option_bind].
  destruct (negb _); [by exists false, None|]. unfold l1_lookup_addr. rewrite req_set_eq, req_tag_eq by apply Hk.
  pose proof (line_of_range _ (rk_addr _ _ Hk)) as Hn.
  destruct (lookup_total l G (line_of (bq_addr req)) ltac:(lia)) as [r Er]. rewrite Er. cbn [mbind option_bind].
  pose proof (lookup_ok l G (line_of (bq_addr req)) r ltac:(lia) Er) as Hr. destruct r as [[way idx]|]; [|by exists false, None].
  do 2 eexists. split; [done|]. intros _. exists way, idx. split; [done|]. destruct Hr as [Hv En].
  pose proof (valid_range l G idx Hv) as Hi. split; [done|]. destruct (tag_at l G idx Hi) as [t Ht].
  by apply (lnum_split l G idx (line_of (bq_addr req)) t) in En as [_ ?]; [|done..|lia].
Qed.

Lemma fill_lookup_stage V0 l e T R : l1_good V0 l e T R -> wp l1_fill_lookup_pipe (fun _ l' => l1_good V0 l' e T R) l.
Proof.
  intros Hg. destruct (good_cache _ _ _ _ _ Hg) as (G & Hq & Hw). apply wp_bind, wp_gets. unfold id.
  destruct (c_lookup_pipe_vld l) eqn:El; [by apply wp_ret|]. destruct (c_req_pipe_vld l) eqn:Er; [|by apply wp_ret].
  destruct (l1_state_is_flush _); [by apply wp_ret|]. cbn [orb negb]. cbv zeta. unfold waiting in Hq. rewrite El, Er in Hq.
  apply Forall_cons in Hq as [Hk Hq]. rewrite (rk_bypass _ _ Hk). apply wp_bind, wp_modify, wp_bind.
  assert (forall hit way idx, lookup_reg_ok l true (L1LookupPipe (c_req_pipe l) false hit way idx) ->
    l1_good V0 (moved l (c_bti_req_slv l) (c_req_fifo l) false (c_req_pipe l) true (L1LookupPipe (c_req_pipe l) false hit way idx)) e T R) as Hm.
  { intros hit way idx Hr. apply (good_moved _ _ _ _ R); [done..|]. intros al -> Hf. unfold waiting in *. rewrite El, Er in *. done. }
  destruct (negb _ && _ && _ && _); cbn [when].
  - destruct (fast_hit_ok l (c_req_pipe l) G Hk) as (hit & found & -> & Hh). apply wp_bind, wp_ret.
    destruct found as [[way idx]|]; apply wp_modify, wp_modify; [apply (Hm hit way idx)|apply (Hm hit 0 0)];
      (split; [done|]); cbn; intros ->; destruct (Hh eq_refl) as (w & i & E & Hr & Hs); [by injection E as -> ->|done].
  - apply wp_ret, wp_modify. by apply (Hm false 0 0).
Qed.

Lemma fill_req_stage V0 l e T R : l1_good V0 l e T R -> wp l1_fill_req_pipe (fun _ l' => l1_good V0 l' e T R) l.
Proof.
  intros Hg. pose proof (good_cache _ _ _ _ _ Hg) as (_ & _ & Hw). apply wp_bind, wp_gets. unfold id.
  destruct (c_req_pipe_vld l) eqn:Er; [by apply wp_ret|]. destruct (l1_state_is_flush _); [by apply wp_ret|]. cbn [orb].
  destruct (chan_empty _) eqn:Ee; [by apply wp_ret|]. destruct (chan_empty_false _ Ee) as (r & rs & Ef).
  apply wp_bind. eapply wp_on_read; [exact Ef|]. apply wp_modify.
  change (l1_good V0 (moved l (c_bti_req_slv l) (Chan (ch_depth (c_req_fifo l)) rs) true r (c_lookup_pipe_vld l) (c_lookup_pipe l)) e T R).
  apply (good_moved _ _ _ _ R); [done|by eapply chan_wf_tail|by destruct Hg as (? & ? & ? & ? & ? & ? & [] & _)|].
  intros al -> Hq. unfold waiting in *. rewrite Er, Ef in *. done.
Qed.

Lemma capture_stage V0 l e T R : l1_good V0 l e T R -> wp l1_capture_req (fun _ l' => l1_good V0 l' e T R) l.
Proof.
  intros Hg. pose proof (good_cache _ _ _ _ _ Hg) as (_ & _ & Hw). apply wp_bind, wp_gets. unfold id.
  destruct (chan_full _) eqn:Ef.
  { destruct (chan_empty _); cbn [negb when]; [by apply wp_ret|]. apply wp_modify.
    destruct Hg as (V & Vend & live & ex & fr & al & Hi & HR & HT & HV). set (l' := l <| c_perf_stg_full := _ |>).
    apply (good_intro V0 l' e T _ al V Vend live ex fr); [counter Hi|done|done|done]. }
  destruct (chan_empty _) eqn:Ee; [by apply wp_ret|]. destruct (chan_empty_false _ Ee) as (r & rs & Er).
  apply wp_bind. eapply wp_on_read; [exact Er|]. apply wp_on_write; [done|done|]. intros Hw'.
  change (l1_good V0 (moved l (Chan (ch_depth (c_bti_req_slv l)) rs) (chan_snoc (c_req_fifo l) r) (c_req_pipe_vld l) (c_req_pipe l)
    (c_lookup_pipe_vld l) (c_lookup_pipe l)) e T R).
  apply (good_moved _ _ _ _ R); [done|done|by destruct Hg as (? & ? & ? & ? & ? & ? & [] & _)|].
  intros al -> Hq. unfold waiting in *. rewrite Er in *. rewrite chan_snoc_pkts, <- (app_assoc (ch_pkts _)). done.
Qed.

(** ** A cycle *)

Lemma ost_clock_stage V0 l e T R : l1_good V0 l e T R -> wp (on c_ost ostq_clock) (fun _ l' => l1_good V0 l' e T R) l.
Proof.
  intros (V & Vend & live & ex & fr & al & Hi & HR & HT & HV). apply wp_on. eapply wp_slot_clock; [apply Hi|].
  intros o Ho _ Hs. apply (good_intro V0 _ e T R al V Vend live ex false); [|done..].
  apply (inv_ost l e V Vend live ex fr o live false Hi Ho (iv_entries _ _ _ _ _ _ _ Hi) Hs).
Qed.

Lemma flush_start_stage V0 l e T R : l1_good V0 l e T R ->
  wp (when (bool_decide (c_state l = L1_STATE_IDLE)) l1_proc_flush) (fun _ l' => l1_good V0 l' e T R) l.
Proof.
  intros Hg. destruct (bool_decide_reflect (c_state l = L1_STATE_IDLE)) as [Es|]; cbn [when]; [|by apply wp_ret].
  destruct Hg as (V & Vend & live & ex & fr & al & Hi & HR & HT & HV). eapply wp_mono; [by apply (flush_stage l e V Vend live ex fr)|].
  intros [] l' (V' & live' & ex' & Hi' & Ha & Hio & Hh). unfold io in Hio. injection Hio as E1 E2 E3.
  apply (good_intro V0 l' e T R al V' Vend live' ex' fr); [done|by rewrite E2|by rewrite Ha, E1, E3|by rewrite E3].
Qed.

Lemma hit_good V0 l e T R : l1_good V0 l e T R ->
  wp l1_proc_hit_pipe (fun _ l' => l1_good V0 l' e T R /\ c_hit_pipe_vld l' = false) l.
Proof.
  intros (V & Vend & live & ex & fr & al & Hi & HR & HT & HV). eapply wp_mono; [by apply (hit_stage l e V Vend live ex fr)|].
  intros [] l' (V' & live' & ex' & Hi' & Ha & Hio & Hh). unfold io in Hio. injection Hio as E1 E2 E3. split; [|done].
  apply (good_intro V0 l' e T R al V' Vend live' ex' fr); [done|by rewrite E2|by rewrite Ha, E1, E3|by rewrite E3].
Qed.

Create HintDb stages.

(** A stage of the machine, then the rest of the cycle. *)
Lemma stage_then m (k : M l1_t unit) V0 e T R (P : l1_t -> Prop) (Q : unit -> l1_t -> Prop) :
  (forall l l', c_hit_pipe_vld l' = c_hit_pipe_vld l -> P l -> P l') -> stage_ok m ->
  (forall l, l1_good V0 l e T R -> P l -> wp k Q l) -> forall l, l1_good V0 l e T R -> P l -> wp (m;; k) Q l.
Proof.
  intros HP Hm Hk l Hg Hl. apply wp_bind. eapply wp_mono; [by apply stage_good|]. intros [] l' [Hg' E]. apply Hk; [done|]. by eapply HP.
Qed.

#[local] Hint Resolve tick_stage flush_check_stage flush_ack_stage rd_wait_stage wr_wait_stage rd_issue_stage wr_issue_stage
  cmo_r_stage wb_b_stage refill_r_stage serve_stage cmo_wb_b_stage cmo_wb_w_stage cmo_wb_aw_stage cmo_ar_stage wb_w_stage
  wb_aw_stage refill_ar_stage : stages.

(** The next stage of the machine keeps the invariant. *)
Ltac machine Hg := match type of Hg with l1_good ?V0 ?l ?e ?T ?R =>
  apply (stage_then _ _ V0 e T R (fun _ => True)); [done|solve [auto with stages nocore]| |done|done]; clear l Hg; intros l Hg _ end.

Lemma clock_good V0 l e T R : l1_good V0 l e T R -> wp l1_clock (fun _ l' => l1_good V0 l' e T R) l.
Proof.
  intros Hg. apply wp_bind. eapply wp_mono; [by apply ost_clock_stage|]. clear l Hg. intros [] l Hg. machine Hg.
  apply wp_bind, wp_gets. unfold id. apply wp_bind. eapply wp_mono; [by apply flush_start_stage|]. clear l Hg. intros [] l Hg.
  do 14 machine Hg.
  apply wp_bind. eapply wp_mono; [by apply send_stage|]. clear l Hg. intros [] l Hg.
  apply wp_bind. eapply wp_mono; [by apply hit_good|]. clear l Hg. intros [] l [Hg Hh]. revert l Hg Hh.
  do 3 (apply (stage_then _ _ V0 e T R (fun l => c_hit_pipe_vld l = false)); [congruence|solve [auto with stages nocore]|]).
  intros l Hg Hh. apply wp_bind. eapply wp_mono; [by apply lookup_stage|]. clear l Hg Hh. intros [] l Hg.
  apply wp_bind. eapply wp_mono; [by apply fill_lookup_stage|]. clear l Hg. intros [] l Hg.
  apply wp_bind. eapply wp_mono; [by apply fill_req_stage|]. clear l Hg. intros [] l Hg. by apply capture_stage.
Qed.
