(* ===== verification/L1Run.v ===== *)
(** * Runs of the level 1 cache

    The cache, a memory behind its AXI4 port and a client in front of it, each moving at its own
    pace: the invariant of L1Inv.v holds all along. *)

From stdpp Require Import base numbers list relations.
From Stdlib Require Import ZArith Lia.
From S2P Require Import Prelude Fifo Ost OstScan OstSlot Bti Axi Ifu L1 L1Cache AxiMem L1Inv L1Stages L1Pipe L1Spec.

(** ** The memory takes a step *)

Definition bus_t : Type :=
  chan axi4_aw_if_t * chan axi4_w_if_t * chan axi4_b_if_t * chan axi4_ar_if_t * chan axi4_r_if_t.

Definition set_bus (l : l1_t) (b : bus_t) : l1_t :=
  let '(aw, w, b, ar, r) := b in
  l <| c_axi4_aw_mst := aw |> <| c_axi4_w_mst := w |> <| c_axi4_b_slv := b |> <| c_axi4_ar_mst := ar |>
    <| c_axi4_r_slv := r |>.

Definition write_state (s : l1_state_t) : bool :=
  match s with
  | L1_STATE_WB_AW | L1_STATE_WB_W | L1_STATE_WB_B | L1_STATE_CMO_L1_WB_AW | L1_STATE_CMO_L1_WB_W
  | L1_STATE_CMO_L1_WB_B | L1_STATE_FLUSH_WB_AW | L1_STATE_FLUSH_WB_W | L1_STATE_FLUSH_WB_B => true
  | _ => false
  end.

(** The line of a write back. *)
Definition wb_idx (l : l1_t) : Z :=
  match c_state l with
  | L1_STATE_FLUSH_WB_AW | L1_STATE_FLUSH_WB_W | L1_STATE_FLUSH_WB_B => c_flush_line_idx l
  | _ => c_req_line_idx l
  end.

(** While no line is written, the write channels are empty. *)
Lemma quiet_write l e : phase l e -> write_state (c_state l) = false -> no_write l e.
Proof. unfold phase. destruct (c_state l); try done; intros H _; by destruct_and?. Qed.

Lemma busy_write l e : phase l e -> write_state (c_state l) = true -> wb_phase l e (wb_idx l) (c_state l).
Proof. unfold phase, wb_idx. destruct (c_state l); try done; intros H _; by destruct_and?. Qed.

(** The burst of a write back goes on: the other facts of the state stay. *)
Lemma phase_write l e e' b' : phase l e -> write_state (c_state l) = true ->
  wb_phase (set_bus l b') e' (wb_idx l) (c_state l) -> phase (set_bus l b') e'.
Proof.
  intros Hp Hs Hw.
  assert (c_state (set_bus l b') = c_state l /\ c_req_line_idx (set_bus l b') = c_req_line_idx l /\
    c_flush_line_idx (set_bus l b') = c_flush_line_idx l) as (E1 & E2 & E3) by (by destruct b' as [[[[aw w] b] ar] r]).
  assert (miss_ok l -> miss_ok (set_bus l b')) as Hm by (by destruct b' as [[[[aw w] b] ar] r]).
  assert (flush_ok l -> flush_ok (set_bus l b')) as Hf by (by destruct b' as [[[[aw w] b] ar] r]).
  set (l' := set_bus l b') in *. clearbody l'. unfold phase, wb_idx in *. rewrite E1, E2, E3.
  destruct (c_state l); try discriminate Hs; try exact Hw; destruct Hp as [_ Hp]; (split; [exact Hw|auto]).
Qed.

Lemma wb_line_bus l b' i : wb_line l i -> wb_line (set_bus l b') i /\ c_wb_line_addr (set_bus l b') = c_wb_line_addr l /\
  c_beat_idx (set_bus l b') = c_beat_idx l.
Proof. by destruct b' as [[[[aw w] b] ar] r]. Qed.

(** The memory takes a part of the burst. *)
Lemma burst_phase l e e' b' : phase l e -> ~ no_write l e -> (forall i addr, ~ line_in_memory l e i addr) ->
  (no_read l e -> no_read (set_bus l b') e') -> (forall i addr n, writing l e i addr n -> writing (set_bus l b') e' i addr n) ->
  phase (set_bus l b') e'.
Proof.
  intros Hp Hn Hm Hr Hw. destruct (write_state (c_state l)) eqn:Ew; [|by destruct Hn; apply quiet_write].
  apply (phase_write l e); [done..|]. destruct (busy_write l e Hp Ew) as [Hs [Hl Hnr]].
  destruct (wb_line_bus l b' _ Hl) as (Hl' & E1 & E2). split; [|split; [done|auto]].
  destruct (c_state l); try done; rewrite E1, ?E2;
    try (destruct Hs as [Hs|Hs]; [left; exact (Hw _ _ _ Hs)|by destruct (Hm _ _ Hs)]);
    destruct Hs as (k & ? & ? & Hs); exists k; split_and!; try done; exact (Hw _ _ _ Hs).
Qed.

Lemma mem_aw_phase l e aw aws d : phase l e -> am_aw e = None -> c_axi4_aw_mst l = Chan d (aw :: aws) ->
  phase (set_bus l (Chan d aws, c_axi4_w_mst l, c_axi4_b_slv l, c_axi4_ar_mst l, c_axi4_r_slv l)) (e <| am_aw := Some aw |>).
Proof.
  intros Hp Ha Ec. apply (burst_phase l e); [done| | |done|].
  - intros (E & _). by rewrite Ec in E.
  - intros i addr (E & _). by rewrite Ec in E.
  - intros i addr n [Hb [(E & _ & Er & Hc)|(E & _)]]; [|by rewrite Ec in E]. split; [done|]. right. rewrite Ec in E. injection E as -> ->.
    split; [done|]. split; [done|]. change (am_wr e ++ ch_pkts (c_axi4_w_mst l) = line_beats l i n). by rewrite Er.
Qed.

Lemma mem_w_phase l e x w ws d : phase l e -> am_aw e = Some x -> c_axi4_w_mst l = Chan d (w :: ws) ->
  phase (set_bus l (c_axi4_aw_mst l, Chan d ws, c_axi4_b_slv l, c_axi4_ar_mst l, c_axi4_r_slv l)) (e <| am_wr := am_wr e ++ [w] |>).
Proof.
  intros Hp Ha Ec. apply (burst_phase l e); [done| | |done|].
  - intros (_ & E & _). by rewrite Ec in E.
  - intros i addr (_ & E & _). by rewrite Ec in E.
  - intros i addr n [Hb [(_ & E & _)|(E & E2 & Hc)]]; [congruence|]. split; [done|]. right. split; [done|]. split; [done|].
    change ((am_wr e ++ [w]) ++ ws = line_beats l i n). rewrite <- app_assoc. rewrite Ec in Hc. exact Hc.
Qed.

(** The last beat of a line is in. *)
Lemma writing_last l e i addr n x ws w : writing l e i addr n -> (n <= 16)%nat -> am_aw e = Some x -> am_wr e = ws ++ [w] -> w_last w = true ->
  n = 16%nat /\ x = l1_wb_aw addr /\ am_wr e = line_beats l i 16 /\ ch_pkts (c_axi4_b_slv l) = [] /\
  ch_pkts (c_axi4_aw_mst l) = [] /\ ch_pkts (c_axi4_w_mst l) = [].
Proof.
  intros [Hb [(_ & E & _)|(Ea & E & Hc)]] Hn Hx Hws Hl; [congruence|]. rewrite Hx in E. injection E as ->.
  assert (line_beats l i n !! length ws = Some w) as Hk.
  { rewrite <- Hc, Hws, <- app_assoc, lookup_app_r, Nat.sub_diag by lia. done. }
  unfold line_beats in Hk. rewrite list_lookup_fmap in Hk. destruct (seq 0 n !! length ws) as [k|] eqn:Es; [|done].
  apply lookup_seq in Es as [-> Hlt]. simpl in Hk. injection Hk as <-. cbn in Hl. apply Z.eqb_eq in Hl.
  assert (n = 16%nat) as -> by lia. split; [done|]. split; [done|].
  assert (length (am_wr e ++ ch_pkts (c_axi4_w_mst l)) = 16%nat) as Hlen by (rewrite Hc; unfold line_beats; by rewrite length_fmap, length_seq).
  rewrite Hws, !length_app in Hlen. simpl in Hlen. assert (ch_pkts (c_axi4_w_mst l) = []) as E0 by (apply length_zero_iff_nil; lia).
  rewrite E0, app_nil_r in Hc. done.
Qed.

Lemma write_burst_line m l i addr off : 0 <= off < 64 -> write_burst m (l1_wb_aw addr) (line_beats l i 16) (addr + off) = cbyte l i off.
Proof.
  intros Ho. unfold write_burst. cbv zeta. change (aw_addr (l1_wb_aw addr)) with addr. replace (addr + off - addr) with off by lia.
  assert (0 <= off / 4 < 16) by zdiv. rewrite aget_lookup by lia. unfold line_beats. rewrite list_lookup_fmap, lookup_seq_lt by lia.
  simpl. rewrite Z2Nat.id by lia. assert (off mod 4 = 0 \/ off mod 4 = 1 \/ off mod 4 = 2 \/ off mod 4 = 3) as Hm by zdiv.
  unfold cbyte. by destruct Hm as [->|[->|[->| ->]]].
Qed.

Lemma write_burst_other m l i n a : line_of a <> n -> write_burst m (l1_wb_aw (64 * n)) (line_beats l i 16) a = m a.
Proof.
  intros Hl. unfold write_burst. cbv zeta. change (aw_addr (l1_wb_aw (64 * n))) with (64 * n).
  destruct (aget _ _) as [w|] eqn:E; [|done]. exfalso. apply aget_Some in E. unfold line_beats in E.
  rewrite length_fmap, length_seq in E. apply Hl. unfold line_of. zdiv.
Qed.

(** The memory writes the line and answers: it then holds what the cache holds. *)
Lemma mem_b_ok l e V x ws w : phase l e -> cache_ok l V (am_mem e) (refilling l) ->
  am_aw e = Some x -> am_wr e = ws ++ [w] -> w_last w = true ->
  let e' := e <| am_mem := write_burst (am_mem e) x (am_wr e) |> <| am_aw := None |> <| am_wr := [] |> in
  let l' := set_bus l (c_axi4_aw_mst l, c_axi4_w_mst l, chan_snoc (c_axi4_b_slv l) (AxiB (aw_id x) AXI4_RESP_OKAY),
    c_axi4_ar_mst l, c_axi4_r_slv l) in
  phase l' e' /\ cache_ok l' V (am_mem e') (refilling l').
Proof.
  intros Hp Hc Ha Hws Hl e' l'.
  destruct (write_state (c_state l)) eqn:Ew; [|destruct (quiet_write l e Hp Ew) as (_ & _ & _ & E & _); congruence].
  destruct (busy_write l e Hp Ew) as [Hs [Hwl Hnr]].
  assert (write_state (c_state l) = true -> refilling l = None) as Hre by (unfold refilling; by destruct (c_state l)).
  specialize (Hre Ew). rewrite Hre in Hc.
  assert (writing l e (wb_idx l) (c_wb_line_addr l) 16 /\ (c_state l = L1_STATE_WB_B \/ c_state l = L1_STATE_CMO_L1_WB_B \/ c_state l = L1_STATE_FLUSH_WB_B))
    as [Hw Hst].
  { destruct (c_state l); try done;
      try (by destruct Hs as (_ & _ & _ & E & _); congruence);
      try (destruct Hs as (k & _ & Hk & Hs); by destruct (writing_last _ _ _ _ _ _ _ _ Hs ltac:(lia) Ha Hws Hl) as (E & _); lia);
      (destruct Hs as [Hs|(_ & _ & _ & E & _)]; [|congruence]); auto. }
  destruct (writing_last _ _ _ _ _ _ _ _ Hw ltac:(lia) Ha Hws Hl) as (_ & -> & Ebeats & Eb & Eaw & Ewc).
  assert (forall off, 0 <= off < 64 -> am_mem e' (c_wb_line_addr l + off) = cbyte l (wb_idx l) off) as Hline.
  { intros off Ho. change (am_mem e') with (write_burst (am_mem e) (l1_wb_aw (c_wb_line_addr l)) (am_wr e)). rewrite Ebeats. by apply write_burst_line. }
  split.
  - apply (phase_write l e); [done..|]. split; [|split; [exact Hwl|exact Hnr]].
    assert (line_in_memory l' e' (wb_idx l) (c_wb_line_addr l)) as Hlm.
    { split_and!; try done. unfold l', set_bus. upd_proj. by rewrite chan_snoc_pkts, Eb. }
    destruct Hst as [E|[E|E]]; rewrite E; right; exact Hlm.
  - change (refilling l') with (refilling l). rewrite Hre. apply (cache_ok_arrays l); [done|].
    destruct Hwl as (Hv & Hd & Eadr). split; [apply Hc..| |done|by apply Hc]. intros a Hau Hcl.
    destruct (decide (line_of a = lnum l (wb_idx l))) as [El|Nl]; [by destruct (Hcl _ Hv Hd)|].
    change (am_mem e') with (write_burst (am_mem e) (l1_wb_aw (c_wb_line_addr l)) (am_wr e)). rewrite Ebeats, Eadr, write_burst_other by done.
    by apply (co_clean _ _ _ _ Hc).
Qed.

(** The read channels. *)
Definition read_state (s : l1_state_t) : bool :=
  match s with L1_STATE_REFILL_R | L1_STATE_CMO_L2_R => true | _ => false end.

Lemma quiet_read l e : phase l e -> read_state (c_state l) = false -> no_read l e.
Proof. unfold phase, wb_phase. destruct (c_state l); try done; intros H _; by destruct_and?. Qed.

Lemma mem_ar_phase l e x ars d : phase l e -> am_rd e = [] -> c_axi4_ar_mst l = Chan d (x :: ars) ->
  phase (set_bus l (c_axi4_aw_mst l, c_axi4_w_mst l, c_axi4_b_slv l, Chan d ars, c_axi4_r_slv l)) (e <| am_rd := read_beats (am_mem e) x |>).
Proof.
  intros Hp Ha Ec. destruct (read_state (c_state l)) eqn:Er; [|by destruct (quiet_read l e Hp Er) as (E & _); rewrite Ec in E].
  set (l' := set_bus l _). unfold phase in *. change (c_state l') with (c_state l).
  destruct (c_state l); try discriminate Er.
  - destruct Hp as (A & B & k & Hk & Hk' & Hrd & Hw). split; [exact A|]. split; [exact B|]. exists k. split; [exact Hk|]. split; [exact Hk'|].
    split; [|exact Hw]. destruct Hrd as [(E1 & E2 & E3 & ->)|(E1 & _)]; [|by rewrite Ec in E1].
    rewrite Ec in E1. injection E1 as -> ->. right. split; [done|]. change (ch_pkts (c_axi4_r_slv l) ++ read_beats (am_mem e) (refill_ar (line_of (bq_addr (c_req l)))) = drop 0 (read_beats (am_mem e) (refill_ar (line_of (bq_addr (c_req l)))))).
    by rewrite E2.
  - destruct Hp as (A & [(E & _)|(ar & E1 & E2 & E3 & E4 & E5)]); [by rewrite Ec in E|]. split; [exact A|]. left.
    rewrite Ec in E1. injection E1 as -> ->. split; [done|]. change (ch_pkts (c_axi4_r_slv l) ++ read_beats (am_mem e) ar = [AxiR 0 0 AXI4_RESP_OKAY true]).
    rewrite E4. unfold read_beats. by rewrite E3, E2.
Qed.

Lemma mem_r_phase l e x rs : phase l e -> am_rd e = x :: rs ->
  phase (set_bus l (c_axi4_aw_mst l, c_axi4_w_mst l, c_axi4_b_slv l, c_axi4_ar_mst l, chan_snoc (c_axi4_r_slv l) x)) (e <| am_rd := rs |>).
Proof.
  intros Hp Ha. destruct (read_state (c_state l)) eqn:Er; [|destruct (quiet_read l e Hp Er) as (_ & _ & E); by rewrite Ha in E].
  set (l' := set_bus l _). unfold phase in *. change (c_state l') with (c_state l).
  destruct (c_state l); try discriminate Er.
  - destruct Hp as (A & B & k & Hk & Hk' & Hrd & Hw). split; [exact A|]. split; [exact B|]. exists k. split; [exact Hk|]. split; [exact Hk'|].
    split; [|exact Hw]. destruct Hrd as [(E1 & E2 & E3 & _)|(E1 & E2)]; [by rewrite Ha in E3|]. right. split; [exact E1|].
    change ((ch_pkts (c_axi4_r_slv l) ++ [x]) ++ rs = drop k (read_beats (am_mem e) (refill_ar (line_of (bq_addr (c_req l)))))).
    rewrite <- app_assoc. rewrite Ha in E2. exact E2.
  - destruct Hp as (A & [(E1 & E2)|(ar & _ & _ & _ & _ & E)]); [|by rewrite Ha in E]. split; [exact A|]. left. split; [exact E1|].
    change ((ch_pkts (c_axi4_r_slv l) ++ [x]) ++ rs = [AxiR 0 0 AXI4_RESP_OKAY true]). rewrite <- app_assoc. rewrite Ha in E2. exact E2.
Qed.

Lemma inv_bus l e V Vend live ex fr b' e' : l1_inv l e V Vend live ex fr -> phase (set_bus l b') e' ->
  cache_ok (set_bus l b') V (am_mem e') (refilling l) -> (forall a, 0 <= am_mem e' a < 256) ->
  chan_wf (c_axi4_aw_mst (set_bus l b')) /\ chan_wf (c_axi4_w_mst (set_bus l b')) /\ chan_wf (c_axi4_ar_mst (set_bus l b')) ->
  l1_inv (set_bus l b') e' V Vend live ex fr.
Proof.
  intros [] Hp Hc Hb (W1 & W2 & W3). destruct b' as [[[[aw w] b] ar] r]. split; try done.
  split_and!; try done; apply iv_chans.
Qed.

Lemma cache_bus l V m x b' : cache_ok l V m x -> cache_ok (set_bus l b') V m x.
Proof. destruct b' as [[[[aw w] b] ar] r]. by apply cache_ok_arrays. Qed.

Lemma mem_step_good V0 l e T R e' b' : l1_good V0 l e T R -> axi_mem_step e (bus l) e' b' -> l1_good V0 (set_bus l b') e' T R.
Proof.
  intros (V & Vend & live & ex & fr & al & Hi & HR & HT & HV) Hs.
  assert (l1_inv (set_bus l b') e' V Vend live ex fr) as Hi'.
  2: { destruct b' as [[[[aw w] b] ar] r]. by apply (good_intro V0 _ e' T R al V Vend live ex fr). }
  pose proof (iv_phase _ _ _ _ _ _ _ Hi) as Hp. pose proof (iv_cache _ _ _ _ _ _ _ Hi) as Hc. pose proof (iv_bytes _ _ _ _ _ _ _ Hi) as Hb.
  pose proof (iv_chans _ _ _ _ _ _ _ Hi) as (_ & W1 & W2 & W3 & _).
  remember (bus l) as b0 eqn:E0. destruct Hs; unfold bus in E0; injection E0 as E1 E2 E3 E4 E5; subst.
  - apply (inv_bus l e); [done|by eapply mem_aw_phase|by apply cache_bus|done|]. rewrite <- E1 in W1. split_and!; try done.
    by apply (chan_wf_tail (Chan d (aw :: aws)) aw).
  - apply (inv_bus l e); [done|by eapply mem_w_phase|by apply cache_bus|done|]. rewrite <- E2 in W2. split_and!; try done.
    by apply (chan_wf_tail (Chan d (w :: ws)) w).
  - destruct (mem_b_ok l e V x ws w) as [Hp' Hc']; [done..|]. apply (inv_bus l e); [done|done|done| |done].
    intros a. by apply write_burst_range.
  - apply (inv_bus l e); [done|by eapply mem_ar_phase|by apply cache_bus|done|]. rewrite <- E4 in W3. split_and!; try done.
    by apply (chan_wf_tail (Chan d (x :: ars)) x).
  - apply (inv_bus l e); [done|by apply mem_r_phase|by apply cache_bus|done|done].
Qed.

(** ** The client takes a step *)

Lemma good_req V0 l e T R req : l1_good V0 l e T R -> req_ok (l1_bypass l) req ->
  l1_good V0 (l <| c_bti_req_slv := chan_snoc (c_bti_req_slv l) req |>) e T (R ++ [req]).
Proof.
  intros Hg Hk. pose proof (good_cache _ _ _ _ _ Hg) as (_ & _ & Hw).
  change (l1_good V0 (moved l (chan_snoc (c_bti_req_slv l) req) (c_req_fifo l) (c_req_pipe_vld l) (c_req_pipe l)
    (c_lookup_pipe_vld l) (c_lookup_pipe l)) e T (R ++ [req])).
  apply (good_moved _ _ _ _ R); [done|done|by destruct Hg as (? & ? & ? & ? & ? & ? & [] & _)|].
  intros al -> Hq. rewrite chan_snoc_pkts. fold (waiting l). rewrite !app_assoc. split; [|].
  - f_equal. unfold waiting. by rewrite !app_assoc.
  - apply Forall_app. split; [|by constructor]. unfold waiting in Hq. by rewrite !app_assoc in Hq.
Qed.

Lemma good_rsp V0 l e T R d r rs : l1_good V0 l e T R -> c_bti_rsp_mst l = Chan d (r :: rs) ->
  l1_good V0 (l <| c_bti_rsp_mst := Chan d rs |>) e (T ++ [r]) R.
Proof.
  intros (V & Vend & live & ex & fr & al & Hi & HR & HT & HV) E.
  apply (good_intro V0 _ e _ R al V Vend live ex fr); [|done| |done].
  - destruct Hi. split; try done; [by apply (cache_ok_arrays l)|]. destruct iv_chans as [Hw ?]. split; [|done].
    rewrite E in Hw. by apply (chan_wf_tail (Chan d (r :: rs)) r).
  - upd_proj. rewrite E in HT. simpl in HT.
    rewrite <- HT. by rewrite <- (app_assoc T [r]).
Qed.

Lemma good_flush V0 l e T R slv : l1_good V0 l e T R -> l1_good V0 (l <| c_flush_slv := slv |>) e T R.
Proof.
  intros (V & Vend & live & ex & fr & al & Hi & HR & HT & HV).
  apply (good_intro V0 _ e _ R al V Vend live ex fr); [|done..]. destruct Hi. split; try done. by apply (cache_ok_arrays l).
Qed.

Lemma good_ack V0 l e T R d r rs : l1_good V0 l e T R -> c_flush_ack_mst l = Some (Chan d (r :: rs)) ->
  l1_good V0 (l <| c_flush_ack_mst := Some (Chan d rs) |>) e T R.
Proof.
  intros (V & Vend & live & ex & fr & al & Hi & HR & HT & HV) E.
  apply (good_intro V0 _ e _ R al V Vend live ex fr); [|done..]. destruct Hi. split; try done.
  - by apply (cache_ok_arrays l).
  - destruct iv_chans as (? & ? & ? & ? & ? & Hw). split_and!; try done. rewrite E in Hw. by apply (chan_wf_tail (Chan d (r :: rs)) r).
  - unfold phase in *. upd_proj. destruct (c_state l); try exact iv_phase. destruct iv_phase as (A & B & C & D).
    split; [exact A|]. split; [exact B|]. split; [exact C|]. by eexists.
Qed.

(** ** Runs *)

(** A state of the system: the cache, the memory, the answers the client has taken and the requests it
    has made. *)
Definition l1_world : Type := l1_t * axi_mem * list bti_rsp_if_t * list bti_req_if_t.

Inductive l1_step : l1_world -> l1_world -> Prop :=
| L1Clock l l' e T R : l1_clock l = Some (tt, l') -> l1_step (l, e, T, R) (l', e, T, R)
| L1Mem l e e' b' T R : axi_mem_step e (bus l) e' b' -> l1_step (l, e, T, R) (set_bus l b', e', T, R)
| L1Req l e T R req : req_ok (l1_bypass l) req -> chan_full (c_bti_req_slv l) = false ->
    l1_step (l, e, T, R) (l <| c_bti_req_slv := chan_snoc (c_bti_req_slv l) req |>, e, T, R ++ [req])
| L1Rsp l e T R d r rs : c_bti_rsp_mst l = Chan d (r :: rs) ->
    l1_step (l, e, T, R) (l <| c_bti_rsp_mst := Chan d rs |>, e, T ++ [r], R)
| L1Flush l e T R slv : c_flush_slv l = Some slv -> chan_full slv = false ->
    l1_step (l, e, T, R) (l <| c_flush_slv := Some (chan_snoc slv tt) |>, e, T, R)
| L1Ack l e T R d r rs : c_flush_ack_mst l = Some (Chan d (r :: rs)) ->
    l1_step (l, e, T, R) (l <| c_flush_ack_mst := Some (Chan d rs) |>, e, T, R).

Definition world_good (V0 : Z -> Z) (w : l1_world) : Prop := l1_good V0 w.1.1.1 w.1.1.2 w.1.2 w.2.

Lemma l1_step_good V0 w w' : l1_step w w' -> world_good V0 w -> world_good V0 w'.
Proof.
  unfold world_good. intros []; cbn [fst snd]; intros Hg.
  - pose proof (clock_good _ _ _ _ _ Hg) as Hc. unfold wp in Hc. by rewrite H in Hc.
  - by eapply mem_step_good.
  - by apply good_req.
  - by apply good_rsp.
  - by apply good_flush.
  - by eapply good_ack.
Qed.

Lemma l1_run_good V0 w w' : rtc l1_step w w' -> world_good V0 w -> world_good V0 w'.
Proof. induction 1 as [|w1 w2 w3 Hs _ IH]; [done|]. intros Hg. apply IH. by eapply l1_step_good. Qed.

(** ** Construction and reset *)

(** The interfaces before the first cycle: nothing is on its way. *)
Record l1_wired (l : l1_t) : Prop := {
  lw_req : ch_pkts (c_bti_req_slv l) = [];
  lw_rsp : ch_pkts (c_bti_rsp_mst l) = [];
  lw_axi : ch_pkts (c_axi4_aw_mst l) = [] /\ ch_pkts (c_axi4_w_mst l) = [] /\ ch_pkts (c_axi4_b_slv l) = [] /\
    ch_pkts (c_axi4_ar_mst l) = [] /\ ch_pkts (c_axi4_r_slv l) = [];
  lw_depths : chan_wf (c_bti_rsp_mst l) /\ chan_wf (c_axi4_aw_mst l) /\ chan_wf (c_axi4_w_mst l) /\
    chan_wf (c_axi4_ar_mst l) /\ from_option chan_wf True (c_flush_ack_mst l)
}.

(** A configuration whose sizes fit their words. *)
Definition l1_conf_fits (conf : l1_conf_t) : Prop :=
  lf_way_num conf < 67108864 /\ lf_size conf < W32 /\ lf_ost_depth conf <= 2147483648 /\
  Z.of_nat (length (lf_bypass_bases conf)) = L1_BYPASS_RANGE_NUM /\
  Z.of_nat (length (lf_bypass_sizes conf)) = L1_BYPASS_RANGE_NUM.

(** The blocks of the arrays have the sizes they are allocated with. *)
Definition l1_blocks (l : l1_t) : Prop :=
  Z.of_nat (length (c_tags l)) = c_line_num l /\ Z.of_nat (length (c_data l)) = c_line_num l * 16 /\
  Z.of_nat (length (c_replace_ways l)) = c_set_num l /\ Z.of_nat (length (c_valids l)) = c_line_num l /\
  Z.of_nat (length (c_dirtys l)) = c_line_num l.

Lemma construct_ok conf cs tags data rw vs ds l0 l : l1_conf_fits conf -> cs <> 0 ->
  l1_construct conf cs tags data rw vs ds l0 = Some l ->
  (0 < ways l /\ 0 < sets l /\ lines l = sets l * ways l /\ lines l * 16 < W32) /\ ostq_wf (c_ost l) /\
  q_depth (c_ost l) <= 2147483648 /\ c_req_fifo l = Chan (lf_stg_fifo_depth conf) [] /\ 0 < lf_stg_fifo_depth conf /\
  c_conf l = conf /\ (l1_wired l0 -> l1_wired l).
Proof.
  intros (Hw & Hz & Ho & _) Hcs. unfold l1_construct. cbv zeta. destruct (_ && _) eqn:E; [|done].
  repeat (apply andb_true_iff in E as [E ?]). unfold L1_LINE_SIZE in *. rewrite (u32_small (_ * 64)) in * by (unfold is_u32, W32; lia).
  destruct (ostq_construct cs (lf_ost_depth conf)) as [ost|] eqn:Eo; cbn [mbind option_bind]; [|done]. intros [= <-].
  destruct (ostq_construct_ok _ _ _ Eo ltac:(unfold W32; lia) Hcs) as [Hwf Ha]. upd_proj.
  assert (lf_size conf = lf_size conf / (lf_way_num conf * 64) * (lf_way_num conf * 64)) as Es by zdiv.
  set (n := lf_size conf / (lf_way_num conf * 64)) in *. unfold W32 in *.
  assert (0 < n) by nia. assert (n * lf_way_num conf * 64 < 4294967296) by nia.
  assert (u32 (n * lf_way_num conf) = n * lf_way_num conf) as El by (apply u32_small; unfold is_u32, W32; nia).
  split; [rewrite El; split_and!; nia|]. split; [done|]. split; [rewrite (abs_depth _ _ Ha); simpl; lia|].
  split; [done|]. split; [lia|]. split; [done|]. by intros [].
Qed.

Lemma aget_false n i : aget (replicate n false) i <> Some true.
Proof. unfold aget. case_match; [|done]. intros E. by apply lookup_replicate in E as [? _]. Qed.

(** An empty cache at rest: the memory alone represents the flat memory. *)
Lemma fresh_good l V0 : geom l -> (forall i, ~ valid l i) -> l1_wired l -> chan_wf (c_req_fifo l) -> ch_pkts (c_req_fifo l) = [] ->
  ost_live (c_ost l) false [] -> c_state l = L1_STATE_IDLE ->
  c_hit_pipe_vld l = false /\ c_lookup_pipe_vld l = false /\ c_req_pipe_vld l = false ->
  (forall a, 0 <= V0 a < 256) -> l1_good V0 l (AxiMem V0 [] None []) [] [].
Proof.
  intros G Hn [] Hf Hfe Ho Hs (Hh & Hl & Hp) HV.
  assert (waiting l = []) as Hw by (unfold waiting; by rewrite Hl, Hp, Hfe, lw_req0).
  assert (pending_mem l V0 = V0) as Hm by (unfold pending_mem; by rewrite Hs, Hh).
  assert (cache_ok l V0 V0 None) as Hc by (split; try done; intros; by match goal with H : valid _ ?i |- _ => destruct (Hn i) end).
  apply (good_intro V0 l _ [] [] [] V0 V0 [] [] false); [|by rewrite Hw|by rewrite lw_rsp0|done].
  split; rewrite ?Hs, ?Hh, ?Hl, ?Hw, ?Hm; try done.
  - unfold refilling. by rewrite Hs.
  - destruct_and?. by split_and!.
  - unfold phase. rewrite Hs. destruct_and?. split; by split_and!.
Qed.

Definition at_rest (l : l1_t) : Prop := c_state l = L1_STATE_IDLE /\
  c_hit_pipe_vld l = false /\ c_lookup_pipe_vld l = false /\ c_req_pipe_vld l = false /\
  l1_wired l /\ chan_wf (c_req_fifo l) /\ ch_pkts (c_req_fifo l) = [] /\ ost_live (c_ost l) false [].

(** The second half of reset: the arrays are cleared. *)
Lemma reset_arrays l V0 : (0 < ways l /\ 0 < sets l /\ lines l = sets l * ways l /\ lines l * 16 < W32) -> l1_blocks l -> at_rest l ->
  (forall a, 0 <= V0 a < 256) ->
  wp (l1_invalidate;;
    l1 ← gets id;
    let n := Z.to_nat (c_line_num l1) in
    let m := Z.to_nat (u32 (c_line_num l1 * L1_WORD_NUM)) in
    let s := Z.to_nat (c_set_num l1) in
    DBG_CHECK (bool_decide (n <= length (c_tags l1))%nat && bool_decide (m <= length (c_data l1))%nat &&
      bool_decide (s <= length (c_replace_ways l1))%nat);;
    modify (fun l1 => l1 <| c_tags := replicate n 0 ++ drop n (c_tags l1) |>
      <| c_data := replicate m 0 ++ drop m (c_data l1) |>
      <| c_replace_ways := replicate s 0 ++ drop s (c_replace_ways l1) |>))
    (fun _ l' => l1_good V0 l' (AxiMem V0 [] None []) [] [] /\ c_conf l' = c_conf l) l.
Proof.
  intros (Hw & Hs & Hl & H16) (B1 & B2 & B3 & B4 & B5) (R1 & R2 & R3 & R4 & R5 & R6 & R7 & R8) HV.
  assert (u32 (lines l * L1_WORD_NUM) = lines l * 16) as E16 by (apply u32_small; unfold is_u32; change L1_WORD_NUM with 16; nia).
  apply wp_bind, wp_bind, wp_gets. unfold id. apply wp_bind, wp_check; [rewrite !bool_decide_eq_true_2 by lia; done|].
  apply wp_modify, wp_bind, wp_gets. unfold id. cbv zeta.
  set (l1 := l <| c_valids := _ |> <| c_dirtys := _ |>). change (lines l1) with (lines l). change (sets l1) with (sets l).
  change (c_tags l1) with (c_tags l). change (c_data l1) with (c_data l). change (c_replace_ways l1) with (c_replace_ways l).
  rewrite E16. apply wp_bind, wp_check; [rewrite !bool_decide_eq_true_2 by lia; done|].
  apply wp_modify. split; [|done].
  assert (Z.of_nat (length (c_valids l1)) = lines l /\ Z.of_nat (length (c_dirtys l1)) = lines l) as [L1 L2]
    by (unfold l1; upd_proj; rewrite !length_app, !length_drop, !length_replicate; lia).
  assert (forall i, ~ valid l1 i) as Hn by (intros i; unfold valid, l1; upd_proj; rewrite drop_ge, app_nil_r by lia; apply aget_false).
  assert (arrays l1 = (c_conf l, sets l, lines l, c_tags l, c_data l, c_replace_ways l, c_valids l1, c_dirtys l1)) as Ea by done.
  assert (at_rest l1) as (Q1 & Q2 & Q3 & Q4 & [] & Q6 & Q7 & Q8) by (destruct R5; by split_and!).
  clearbody l1. unfold arrays in Ea. injection Ea as E1 E2 E3 E4 E5 E6. rewrite E4, E5, E6.
  apply fresh_good; [|exact Hn|by split|done..].
  split; upd_proj; rewrite ?E1, ?E2, ?E3, ?length_app, ?length_drop, ?length_replicate; try done; try lia.
  rewrite drop_ge, app_nil_r by lia. apply Forall_replicate. lia.
Qed.

Lemma reset_good l V0 : (0 < ways l /\ 0 < sets l /\ lines l = sets l * ways l /\ lines l * 16 < W32) ->
  ostq_wf (c_ost l) -> q_depth (c_ost l) <= 2147483648 -> 0 <= ch_depth (c_req_fifo l) -> l1_blocks l -> l1_wired l ->
  (forall a, 0 <= V0 a < 256) ->
  wp l1_reset (fun _ l' => l1_good V0 l' (AxiMem V0 [] None []) [] [] /\ c_conf l' = c_conf l) l.
Proof.
  intros Hg Ho Hd Hf Hb [] HV. apply wp_bind, wp_modify, wp_bind, wp_on, wp_modify, wp_bind, wp_on.
  apply ost_reset_live; [done..|]. intros o Hlive. apply wp_bind, wp_modify.
  match goal with |- wp _ _ ?s => set (l2 := s) end.
  assert (at_rest l2) as H2 by (split_and!; done).
  assert (arrays l2 = arrays l) as H3 by done. clearbody l2. unfold arrays in H3. injection H3 as E1 E2 E3 E4 E5 E6 E7 E8.
  rewrite <- E1. apply reset_arrays; [by rewrite E1, E2, E3|unfold l1_blocks; by rewrite E2, E3, E4, E5, E6, E7, E8|done|done].
Qed.

(** ** The configuration *)

(** A part of the state that an operation never changes. *)
Section keeps.
  Context {X : Type} (f : l1_t -> X).

Definition keeps {A} (m : M l1_t A) : Prop := forall s a s', m s = Some (a, s') -> f s' = f s.

Lemma keeps_ret {A} (a : A) : keeps (mret a).
Proof. intros s b s' E. by injection E as _ <-. Qed.
Lemma keeps_bind {A B} (m : M l1_t A) (k : A -> M l1_t B) : keeps m -> (forall a, keeps (k a)) -> keeps (m ≫= k).
Proof.
  intros Hm Hk s b s' E. unfold mbind, M_bind in E. destruct (m s) as [[a s1]|] eqn:E1; [|done].
  etrans; [by eapply Hk|by eapply Hm].
Qed.
Lemma keeps_gets {A} (g : l1_t -> A) : keeps (gets g).
Proof. intros s b s' E. by injection E as _ <-. Qed.
Lemma keeps_modify g : (forall s, f (g s) = f s) -> keeps (modify g).
Proof. intros Hf s b s' E. injection E as _ <-. apply Hf. Qed.
Lemma keeps_of_option {A} (o : option A) : keeps (of_option o).
Proof. intros s b s' E. destruct o; [by injection E as _ <-|done]. Qed.
Lemma keeps_check b : keeps (DBG_CHECK b).
Proof. intros s a s' E. unfold DBG_CHECK in E. destruct b; [by injection E as _ <-|done]. Qed.
Lemma keeps_when b m : keeps m -> keeps (when b m).
Proof. destruct b; [done|]. intros _. apply keeps_ret. Qed.
Lemma keeps_on {Y A} (proj : l1_t -> Y) `{!Setter proj} (m : M Y A) : (forall x s, f (upd proj x s) = f s) -> keeps (on proj m).
Proof. intros Hp s a s' E. unfold on in E. destruct (m (proj s)) as [[b x]|]; [|done]. injection E as _ <-. apply Hp. Qed.

End keeps.

Ltac head_of t := match t with ?f _ => head_of f | _ => t end.
Ltac keep0 tac := repeat first
  [ apply keeps_ret | apply keeps_gets | apply keeps_of_option | apply keeps_check | apply keeps_when
  | apply keeps_modify; by intros | apply keeps_on; by intros | apply keeps_bind; [|intros ?]
  | progress cbv zeta | tac
  | match goal with
    | |- keeps _ (match ?x with _ => _ end) => destruct x
    | |- keeps _ ?m => let h := head_of m in unfold h
    end ].

Section keeps_loops.
  Context {X : Type} (f : l1_t -> X).
  Context (Hdata : forall x s, f (upd c_data x s) = f s) (Hdirty : forall x s, f (upd c_dirtys x s) = f s).

Lemma keeps_write_byte i off b : keeps f (l1_write_byte i off b).
Proof. keep0 fail. Qed.
Lemma keeps_set_dirty i v : keeps f (l1_set_dirty i v).
Proof. keep0 fail. Qed.
Lemma keeps_hit_loop req i off n k d : keeps f (hit_loop req i off n k d).
Proof.
  revert k d. induction n as [|n IH]; intros k d; cbn [hit_loop];
    keep0 ltac:(first [apply keeps_write_byte|apply keeps_set_dirty|apply IH]).
Qed.
Lemma keeps_serve_loop off n k : (forall x s, f (upd c_req_data x s) = f s) -> (forall x s, f (upd c_op_ok x s) = f s) ->
  keeps f (serve_loop off n k).
Proof.
  intros Hd Ho. revert k. induction n as [|n IH]; intros k; cbn [serve_loop];
    keep0 ltac:(first [apply keeps_write_byte|apply keeps_set_dirty|apply IH|apply keeps_modify; intros; (apply Hd || apply Ho)]).
Qed.

End keeps_loops.

Ltac keep := keep0 ltac:(first [apply keeps_hit_loop; by intros|apply keeps_serve_loop; by intros]).

(** The configuration never changes. *)
Lemma keeps_clock : keeps c_conf l1_clock.
Proof. keep. Qed.

Lemma conf_step w w' : l1_step w w' -> c_conf w'.1.1.1 = c_conf w.1.1.1.
Proof. intros []; try done; [by eapply keeps_clock|]. by destruct b' as [[[[aw w1] b] ar] r]. Qed.

Lemma conf_run w w' : rtc l1_step w w' -> c_conf w'.1.1.1 = c_conf w.1.1.1.
Proof. induction 1 as [|w1 w2 w3 Hs _ IH]; [done|]. by rewrite IH, (conf_step _ _ Hs). Qed.
