(* ===== verification/L1Thm.v ===== *)
(** * Theorems on the level 1 cache

    Runs of [core/hart/l1.c] in front of a memory, from reset. *)

From stdpp Require Import base numbers list relations.
From Stdlib Require Import ZArith Lia.
From S2P Require Import Prelude Fifo Ost OstScan OstSlot Bti Axi Ifu L1 L1Cache AxiMem L1Inv L1Stages L1Pipe L1Spec L1Run.

(** ** Schedules *)

(** Moves of the memory and of the client, to run the system on concrete inputs.  A move that is not
    possible is skipped. *)
Inductive l1_move := MvClock | MvAw | MvW | MvB | MvAr | MvR | MvReq (req : bti_req_if_t) | MvRsp | MvFlush | MvAck.

Definition mem_move (v : l1_move) (e : axi_mem) (b : bus_t) : option (axi_mem * bus_t) :=
  let '(aw, w, b, ar, r) := b in
  match v with
  | MvAw => match aw, am_aw e with
    | Chan d (x :: aws), None => Some (e <| am_aw := Some x |>, (Chan d aws, w, b, ar, r))
    | _, _ => None
    end
  | MvW => match w, am_aw e with
    | Chan d (x :: ws), Some _ => Some (e <| am_wr := am_wr e ++ [x] |>, (aw, Chan d ws, b, ar, r))
    | _, _ => None
    end
  | MvB => match am_aw e, last (am_wr e) with
    | Some x, Some z => if w_last z && negb (chan_full b) then
        Some (e <| am_mem := write_burst (am_mem e) x (am_wr e) |> <| am_aw := None |> <| am_wr := [] |>,
          (aw, w, chan_snoc b (AxiB (aw_id x) AXI4_RESP_OKAY), ar, r))
        else None
    | _, _ => None
    end
  | MvAr => match ar, am_rd e with
    | Chan d (x :: ars), [] => Some (e <| am_rd := read_beats (am_mem e) x |>, (aw, w, b, Chan d ars, r))
    | _, _ => None
    end
  | MvR => match am_rd e with
    | x :: rs => if chan_full r then None else Some (e <| am_rd := rs |>, (aw, w, b, ar, chan_snoc r x))
    | [] => None
    end
  | _ => None
  end.

Definition req_okb (bypass : Z -> bool) (req : bti_req_if_t) : bool :=
  (0 <=? bq_trans_id req) && (bq_trans_id req <? 65536) && (0 <=? bq_addr req) && (bq_addr req <? W32) &&
  (0 <=? bq_size req) && (bq_size req <=? 2) && (bq_addr req mod 64 + req_bytes req <=? 64) &&
  negb (bq_cmd req =? BTI_REQ_CMD_CBO_INVAL) && negb (bypass (bq_addr req)).

Definition l1_do (w : l1_world) (v : l1_move) : l1_world :=
  let '(l, e, T, R) := w in
  match v with
  | MvClock => match l1_clock l with Some (_, l') => (l', e, T, R) | None => w end
  | MvReq req => if req_okb (l1_bypass l) req && negb (chan_full (c_bti_req_slv l)) then
      (l <| c_bti_req_slv := chan_snoc (c_bti_req_slv l) req |>, e, T, R ++ [req]) else w
  | MvRsp => match c_bti_rsp_mst l with
    | Chan d (r :: rs) => (l <| c_bti_rsp_mst := Chan d rs |>, e, T ++ [r], R)
    | _ => w
    end
  | MvFlush => match c_flush_slv l with
    | Some slv => if chan_full slv then w else (l <| c_flush_slv := Some (chan_snoc slv tt) |>, e, T, R)
    | None => w
    end
  | MvAck => match c_flush_ack_mst l with
    | Some (Chan d (r :: rs)) => (l <| c_flush_ack_mst := Some (Chan d rs) |>, e, T, R)
    | _ => w
    end
  | _ => match mem_move v e (bus l) with Some (e', b') => (set_bus l b', e', T, R) | None => w end
  end.

Lemma mem_move_sound v e b e' b' : mem_move v e b = Some (e', b') -> axi_mem_step e b e' b'.
Proof.
  destruct b as [[[[aw w] b] ar] r]. destruct v; cbn [mem_move]; try done.
  - destruct aw as [d [|x aws]]; [done|]. destruct (am_aw e) eqn:E; [done|]. intros [= <- <-]. by constructor.
  - destruct w as [d [|x ws]]; [done|]. destruct (am_aw e) eqn:E; [|done]. intros [= <- <-]. by econstructor.
  - destruct (am_aw e) as [x|] eqn:E; [|done]. destruct (last (am_wr e)) as [z|] eqn:El; [|done].
    apply last_Some in El as [ws El]. destruct (w_last z) eqn:Ez; [|done]. destruct (chan_full b) eqn:Eb; [done|]. intros [= <- <-]. by econstructor.
  - destruct ar as [d [|x ars]]; [done|]. destruct (am_rd e) eqn:E; [|done]. intros [= <- <-]. by constructor.
  - destruct (am_rd e) as [|x rs] eqn:E; [done|]. destruct (chan_full r) eqn:Er; [done|]. intros [= <- <-]. by econstructor.
Qed.

Lemma req_okb_ok bp req : req_okb bp req = true -> req_ok bp req.
Proof.
  unfold req_okb. intros H. repeat (apply andb_true_iff in H as [H ?]). split; unfold is_u32; try lia.
  by apply negb_true_iff.
Qed.

Lemma l1_do_sound w v : rtc l1_step w (l1_do w v).
Proof.
  destruct w as [[[l e] T] R].
  assert (forall v, rtc l1_step (l, e, T, R) (match mem_move v e (bus l) with Some (e', b') => (set_bus l b', e', T, R) | None => (l, e, T, R) end)) as Hm.
  { intros u. destruct (mem_move u e (bus l)) as [[e' b']|] eqn:E; [|done]. apply rtc_once, L1Mem. by eapply mem_move_sound. }
  destruct v as [| | | | | |req| | |]; cbn [l1_do]; try apply Hm.
  - destruct (l1_clock l) as [[[] l']|] eqn:E; [|done]. by apply rtc_once, L1Clock.
  - destruct (req_okb _ _) eqn:E; [|done]. destruct (chan_full _) eqn:Ef; [done|]. apply rtc_once, L1Req; [by apply req_okb_ok|done].
  - destruct (c_bti_rsp_mst l) as [d [|r rs]] eqn:E; [done|]. by apply rtc_once, L1Rsp.
  - destruct (c_flush_slv l) as [slv|] eqn:E; [|done]. destruct (chan_full slv) eqn:Ef; [done|]. by apply rtc_once, L1Flush.
  - destruct (c_flush_ack_mst l) as [[d [|r rs]]|] eqn:E; [done| |done]. by eapply rtc_once, L1Ack.
Qed.

Lemma l1_script_sound vs w : rtc l1_step w (foldl l1_do w vs).
Proof. revert w. induction vs as [|v vs IH]; intros w; [done|]. simpl. etrans; [apply l1_do_sound|apply IH]. Qed.

(** ** Flush *)

Lemma bind_Some_M {S A B} (m : M S A) (k : A -> M S B) s b s' : (m ≫= k) s = Some (b, s') ->
  exists a s1, m s = Some (a, s1) /\ k a s1 = Some (b, s').
Proof. unfold mbind, M_bind. destruct (m s) as [[a s1]|]; [|done]. intros E. by exists a, s1. Qed.

Lemma wp_Some {S A} (m : M S A) Q s a s' : wp m Q s -> m s = Some (a, s') -> Q a s'.
Proof. unfold wp. intros H E. by rewrite E in H. Qed.

(** The memory holds what the requests [al], all of them answered, have stored. *)
Definition flushed (V0 : Z -> Z) (l : l1_t) (e : axi_mem) (T : list bti_rsp_if_t) (R : list bti_req_if_t) : Prop :=
  exists al, R = al ++ waiting l /\ T ++ ch_pkts (c_bti_rsp_mst l) = (flat_run (lf_ro (c_conf l)) V0 al).1 /\
    same_mem (am_mem e) (flat_run (lf_ro (c_conf l)) V0 al).2.

Lemma ack_flushed V0 l e T R : l1_good V0 l e T R -> c_state l = L1_STATE_FLUSH_ACK -> flushed V0 l e T R.
Proof.
  intros (V & Vend & live & ex & fr & al & [] & HR & HT & HV) Hs. exists al. split; [done|].
  destruct iv_flush as (-> & Hh & _); [by rewrite Hs|]. apply Forall2_nil_inv_l in iv_entries as ->.
  split; [by rewrite <- HT, app_nil_r|]. unfold phase in iv_phase. rewrite Hs in iv_phase. destruct iv_phase as (_ & _ & Hn & _).
  rewrite <- HV, iv_end. unfold pending_mem. rewrite Hs, Hh. by eapply all_invalid_mem.
Qed.

(** A read-only cache has nothing to write back. *)
Lemma ro_flushed V0 l e T R : l1_good V0 l e T R -> c_state l = L1_STATE_IDLE -> ostq_empty (c_ost l) = true ->
  lf_ro (c_conf l) = true -> flushed V0 l e T R.
Proof.
  intros (V & Vend & live & ex & fr & al & Hi & HR & HT & HV) Hs He Hro. exists al. split; [done|].
  pose proof (ost_empty_live _ _ _ (iv_ost _ _ _ _ _ _ _ Hi) He) as ->. pose proof (no_hit _ _ _ _ _ _ Hi) as Hh.
  destruct Hi. apply Forall2_nil_inv_l in iv_entries as ->. split; [by rewrite <- HT, app_nil_r|].
  rewrite <- HV, iv_end. unfold pending_mem. rewrite Hs, Hh. intros a Ha. apply (co_clean _ _ _ _ iv_cache a Ha).
  intros i Hv Hd. by destruct (co_ro _ _ _ _ iv_cache Hro i Hv).
Qed.

(** Only a read-only cache acknowledges a flush when it starts. *)
Lemma flush_ack_kept l l' : l1_proc_flush l = Some (tt, l') -> lf_ro (c_conf l) = false \/ ostq_empty (c_ost l) = false ->
  c_flush_ack_mst l' = c_flush_ack_mst l.
Proof.
  intros E Hc. apply bind_Some_M in E as (l0 & s1 & E1 & E). injection E1 as <- <-. unfold id in E.
  destruct (c_flush_slv l) as [slv|]; [|by injection E as <-]. destruct (chan_empty slv); [by injection E as <-|].
  destruct Hc as [Hc|Hc]; rewrite Hc in E; cbn [andb negb] in E; [|by injection E as <-].
  match type of E with ?m l = _ => assert (keeps c_flush_ack_mst m) as Hk by keep; exact (Hk _ _ _ E) end.
Qed.

Lemma flushed_io V0 l l' e T R : io l' = io l -> flushed V0 l' e T R -> flushed V0 l e T R.
Proof. unfold io, flushed. intros E. injection E as E1 E2 E3. by rewrite E1, E2, E3. Qed.

Lemma flush_start_ack V0 l e T R l' : l1_good V0 l e T R ->
  when (bool_decide (c_state l = L1_STATE_IDLE)) l1_proc_flush l = Some (tt, l') ->
  io l' = io l /\ (c_flush_ack_mst l' = c_flush_ack_mst l \/ flushed V0 l e T R).
Proof.
  intros Hg E. destruct (bool_decide_reflect (c_state l = L1_STATE_IDLE)) as [Hs|]; cbn [when] in E; [|injection E as <-; auto].
  split; [assert (keeps io l1_proc_flush) as K by keep; by apply K in E|].
  destruct (lf_ro (c_conf l)) eqn:Er; [|left; apply (flush_ack_kept _ _ E); auto].
  destruct (ostq_empty (c_ost l)) eqn:Eo; [|left; apply (flush_ack_kept _ _ E); auto]. right. by apply ro_flushed.
Qed.

Lemma ack_stage_kept l l' : l1_proc_flush_ack l = Some (tt, l') -> c_state l <> L1_STATE_FLUSH_ACK -> l' = l.
Proof.
  intros E Hs. apply bind_Some_M in E as (l0 & s0 & E0 & E). injection E0 as <- <-. unfold id in E.
  rewrite bool_decide_eq_true_2 in E by done. by injection E as <-.
Qed.

(** What the part of a cycle in front of the acknowledgment leaves alone. *)
Definition asked (l : l1_t) := (io l, c_flush_ack_mst l).

(** A cycle that acknowledges a flush finds the memory up to date. *)
Lemma clock_ack V0 l e T R l' : l1_good V0 l e T R -> l1_clock l = Some (tt, l') ->
  c_flush_ack_mst l' = c_flush_ack_mst l \/ flushed V0 l e T R.
Proof.
  intros Hg E. unfold l1_clock in E.
  apply bind_Some_M in E as ([] & l1 & E1 & E). pose proof (wp_Some _ _ _ _ _ (ost_clock_stage _ _ _ _ _ Hg) E1) as G1.
  assert (keeps asked (on c_ost ostq_clock)) as K1 by keep. apply K1 in E1.
  apply bind_Some_M in E as ([] & l2 & E2 & E). destruct (wp_Some _ _ _ _ _ (stage_good _ _ _ _ _ _ tick_stage G1) E2) as [G2 _].
  assert (keeps asked l1_tick_rsp_delay) as K2 by keep. apply K2 in E2.
  apply bind_Some_M in E as (l2' & l2'' & E0 & E). injection E0 as <- <-. unfold id in E.
  apply bind_Some_M in E as ([] & l3 & E3 & E). pose proof (wp_Some _ _ _ _ _ (flush_start_stage _ _ _ _ _ G2) E3) as G3.
  destruct (flush_start_ack _ _ _ _ _ _ G2 E3) as [I3 J3]. clear E3.
  apply bind_Some_M in E as ([] & l4 & E4 & E). destruct (wp_Some _ _ _ _ _ (stage_good _ _ _ _ _ _ flush_check_stage G3) E4) as [G4 _].
  assert (keeps asked l1_proc_flush_check) as K4 by keep. apply K4 in E4. clear K1 K2 K4.
  pose proof (f_equal fst E1 : io l1 = io l) as I1. pose proof (f_equal fst E2 : io l2 = io l1) as I2.
  pose proof (f_equal fst E4 : io l4 = io l3) as I4. apply (f_equal snd) in E1, E2, E4. cbn [asked snd] in E1, E2, E4.
  destruct J3 as [J3|Hf]; [|right; apply (flushed_io V0 l l2); [congruence|done]].
  apply bind_Some_M in E as ([] & l5 & E5 & E). destruct (decide (c_state l4 = L1_STATE_FLUSH_ACK)) as [Hs|Hs].
  { right. apply (flushed_io V0 l l4); [congruence|]. by apply ack_flushed. }
  left. apply ack_stage_kept in E5 as ->; [|done]. transitivity (c_flush_ack_mst l4); [|congruence].
  match type of E with ?m l4 = _ => assert (keeps c_flush_ack_mst m) as K by keep; exact (K _ _ _ E) end.
Qed.

(** ** Theorems *)

(** A run of a cache built for [conf] over a memory with the bytes [V0], from reset. *)
Definition l1_runs (conf : l1_conf_t) (V0 : Z -> Z) (w : l1_world) : Prop :=
  exists cs tags data rw vs ds l0 l l1, l1_conf_fits conf /\ cs <> 0 /\ l1_wired l0 /\
    l1_construct conf cs tags data rw vs ds l0 = Some l /\ l1_blocks l /\ (forall a, 0 <= V0 a < 256) /\
    l1_reset l = Some (tt, l1) /\ rtc l1_step (l1, AxiMem V0 [] None [], [], []) w.

Lemma runs_good conf V0 w : l1_runs conf V0 w -> world_good V0 w /\ c_conf w.1.1.1 = conf.
Proof.
  intros (cs & tags & data & rw & vs & ds & l0 & l & l1 & Hf & Hcs & Hw & Hc & Hb & HV & Hr & Hrun).
  destruct (construct_ok _ _ _ _ _ _ _ _ _ Hf Hcs Hc) as (Hg & Ho & Hd & Ef & Hd2 & Ec & Hw2).
  pose proof (reset_good l V0 Hg Ho Hd ltac:(rewrite Ef; simpl; lia) Hb (Hw2 Hw) HV) as Hi.
  destruct (wp_elim _ _ _ Hi) as ([] & l' & E & Hg0 & Ec1). rewrite Hr in E. injection E as <-. clear Hr Hi.
  pose proof (l1_run_good V0 _ _ Hrun Hg0) as Hgood. pose proof (conf_run _ _ Hrun) as Hconf.
  cbn [fst] in Hconf. split; [exact Hgood|]. by rewrite Hconf, Ec1.
Qed.

(** C1: In every run of the cache from reset in front of a memory that moves at its own pace and answers
    without errors, for loads, stores, cbo.clean and cbo.flush that stay within one line and outside
    the bypass ranges (no access that crosses a line, no bypass access, no cbo.inval), and with
    flushes at any time: no check of the cache fails, every index into its arrays is in bounds, and
    the answers are those of a flat memory that serves the requests one after the other, in order;
    when nothing waits and nothing is outstanding, all of them have been given. *)
Theorem l1_transparent conf V0 l e T R : l1_runs conf V0 (l, e, T, R) ->
  (exists l', l1_clock l = Some (tt, l')) /\
  T ++ ch_pkts (c_bti_rsp_mst l) `prefix_of` (flat_run (lf_ro conf) V0 R).1 /\
  (waiting l = [] -> ostq_empty (c_ost l) = true -> T ++ ch_pkts (c_bti_rsp_mst l) = (flat_run (lf_ro conf) V0 R).1).
Proof.
  intros Hr. apply runs_good in Hr as [Hg Ec]. unfold world_good in Hg. cbn [fst snd] in *. split.
  { destruct (wp_elim _ _ _ (clock_good _ _ _ _ _ Hg)) as ([] & l' & E & _). by exists l'. }
  destruct Hg as (V & Vend & live & ex & fr & al & Hi & -> & HT & HV). rewrite Ec in *. split.
  - rewrite flat_run_app. cbn [fst]. rewrite <- HT. by apply prefix_app_r, prefix_app_r.
  - intros Hw He. pose proof (ost_empty_live _ _ _ (iv_ost _ _ _ _ _ _ _ Hi) He) as ->.
    pose proof (iv_entries _ _ _ _ _ _ _ Hi) as Hx. apply Forall2_nil_inv_l in Hx as ->. by rewrite Hw, app_nil_r, <- HT, app_nil_r.
Qed.

(** C5: In a run from reset of loads, stores, cbo.clean and cbo.flush that stay within one line and
    outside the bypass ranges, without cbo.inval and in front of a memory that answers without errors:
    a cycle that acknowledges a flush does so when every request that entered the cache has been
    answered and the memory behind the cache holds all of their stores: it is the flat memory. *)
Theorem l1_flush_writes_back conf V0 l e T R l' : l1_runs conf V0 (l, e, T, R) -> l1_clock l = Some (tt, l') ->
  c_flush_ack_mst l' <> c_flush_ack_mst l ->
  exists al, R = al ++ waiting l /\ T ++ ch_pkts (c_bti_rsp_mst l) = (flat_run (lf_ro conf) V0 al).1 /\
    forall a, is_u32 a -> am_mem e a = (flat_run (lf_ro conf) V0 al).2 a.
Proof.
  intros Hr Hc Hne. apply runs_good in Hr as [Hg Ec]. unfold world_good in Hg. cbn [fst snd] in *.
  destruct (clock_ack V0 l e T R l' Hg Hc) as [?|Hf]; [done|]. unfold flushed in Hf. by rewrite Ec in Hf.
Qed.

(** ** Concrete runs *)

(** A cache of two lines in two sets, its arrays allocated but not initialised. *)
Definition l1_example_conf : l1_conf_t := L1Conf false false 128 1 1 2 2 (replicate 8 0) (replicate 8 0).

Definition l1_example_wires : l1_t :=
  L1 (Chan 2 []) (Chan 2 []) (Chan 2 []) (Chan 2 []) (Chan 2 []) (Chan 2 []) (Chan 2 []) (Some (Chan 2 []))
    (Some (Chan 2 [])) l1_example_conf 0 0 [] [] [] [] [] (Chan 0 []) (Ostq [] 0 0 0 0 0 0) false bti_req_zero false
    (L1LookupPipe bti_req_zero false false 0 0) false (L1HitPipe bti_req_zero 0 0 0) L1_STATE_IDLE 0 bti_req_zero
    0 0 0 0 0 0 0 0 0 0 false 0 0 0 0 0 0 0.

Definition l1_example_built : l1_t :=
  default l1_example_wires (l1_construct l1_example_conf 48 (replicate 2 7) (replicate 32 7) (replicate 2 7)
    (replicate 2 true) (replicate 2 true) l1_example_wires).

Definition l1_example_mem : Z -> Z := fun a => a mod 256.

Definition l1_example_start : l1_world :=
  (snd (default (tt, l1_example_built) (l1_reset l1_example_built)), AxiMem l1_example_mem [] None [], [], []).

Lemma l1_example_runs w : rtc l1_step l1_example_start w -> l1_runs l1_example_conf l1_example_mem w.
Proof.
  intros Hr. exists 48, (replicate 2 7), (replicate 32 7), (replicate 2 7), (replicate 2 true), (replicate 2 true), l1_example_wires.
  exists l1_example_built. eexists. split; [done|]. split; [done|]. split; [by split|]. split; [by vm_compute|].
  split; [by vm_compute|]. split; [intros a; unfold l1_example_mem; zdiv|]. split; [|exact Hr]. vm_compute. reflexivity.
Qed.

(** The memory and the client move once between two cycles. *)
Definition cycles (n : nat) : list l1_move := concat (replicate n [MvAw; MvW; MvB; MvAr; MvR; MvClock; MvRsp]).
Definition l1_store (id addr data : Z) : bti_req_if_t := BtiReq id BTI_REQ_CMD_WRITE addr BTI_REQ_SIZE_B4 data 0xf.
Definition l1_load (id addr : Z) : bti_req_if_t := BtiReq id BTI_REQ_CMD_READ addr BTI_REQ_SIZE_B4 0 0xf.

(** A store, a load of another line of its set, which evicts it, and a load of what was stored. *)
Definition l1_example_script : list l1_move :=
  [MvReq (l1_store 1 4 0x44332211); MvReq (l1_load 2 132)] ++ cycles 10 ++ [MvReq (l1_load 3 4)] ++ cycles 140.

Lemma l1_transparent_witness : exists l e T R, l1_runs l1_example_conf l1_example_mem (l, e, T, R) /\
  T = [BtiRsp 1 0 true; BtiRsp 2 0x87868584 true; BtiRsp 3 0x44332211 true] /\
  R = [l1_store 1 4 0x44332211; l1_load 2 132; l1_load 3 4] /\
  T ++ ch_pkts (c_bti_rsp_mst l) `prefix_of` (flat_run false l1_example_mem R).1.
Proof.
  assert ((foldl l1_do l1_example_start l1_example_script).1.2 =
    [BtiRsp 1 0 true; BtiRsp 2 0x87868584 true; BtiRsp 3 0x44332211 true]) as HT by (vm_compute; reflexivity).
  assert ((foldl l1_do l1_example_start l1_example_script).2 = [l1_store 1 4 0x44332211; l1_load 2 132; l1_load 3 4]) as HR
    by (vm_compute; reflexivity).
  pose proof (l1_example_runs _ (l1_script_sound l1_example_script l1_example_start)) as Hr.
  destruct (foldl l1_do l1_example_start l1_example_script) as [[[l e] T] R]. cbn [fst snd] in HT, HR.
  exists l, e, T, R. split; [exact Hr|]. split; [exact HT|]. split; [exact HR|].
  apply (l1_transparent l1_example_conf l1_example_mem l e T R Hr).
Defined.

(** A store and a flush, up to the cycle that acknowledges it. *)
Definition l1_flush_script : list l1_move := MvReq (l1_store 1 4 0x44332211) :: cycles 60 ++ [MvFlush] ++ cycles 18.

Lemma l1_flush_writes_back_witness : exists l e T R l', l1_runs l1_example_conf l1_example_mem (l, e, T, R) /\
  l1_clock l = Some (tt, l') /\ c_flush_ack_mst l' <> c_flush_ack_mst l /\ am_mem e 4 = 0x11 /\
  exists al, R = al ++ waiting l /\ forall a, is_u32 a -> am_mem e a = (flat_run false l1_example_mem al).2 a.
Proof.
  assert (am_mem (foldl l1_do l1_example_start l1_flush_script).1.1.2 4 = 0x11) as Hm by (vm_compute; reflexivity).
  assert (match l1_clock (foldl l1_do l1_example_start l1_flush_script).1.1.1 with
    | Some (_, l') => c_flush_ack_mst l' = Some (Chan 2 [tt]) | None => False end) as Hk by (vm_compute; reflexivity).
  assert (c_flush_ack_mst (foldl l1_do l1_example_start l1_flush_script).1.1.1 = Some (Chan 2 [])) as Ha by (vm_compute; reflexivity).
  pose proof (l1_example_runs _ (l1_script_sound l1_flush_script l1_example_start)) as Hr.
  destruct (foldl l1_do l1_example_start l1_flush_script) as [[[l e] T] R]. cbn [fst snd] in Hm, Hk, Ha.
  destruct (l1_clock l) as [[[] l']|] eqn:E; [|destruct Hk].
  assert (c_flush_ack_mst l' <> c_flush_ack_mst l) as Hne by (rewrite Hk, Ha; discriminate).
  exists l, e, T, R, l'. split; [exact Hr|]. split; [exact E|]. split; [exact Hne|]. split; [exact Hm|].
  destruct (l1_flush_writes_back l1_example_conf l1_example_mem l e T R l' Hr E Hne) as (al & H1 & _ & H3). exists al. split; [exact H1|exact H3].
Defined.

(** ** Accesses that cross a line *)

(** A request that the theorems above leave out is put into the channel. *)
Definition l1_push (w : l1_world) (req : bti_req_if_t) : l1_world :=
  let '(l, e, T, R) := w in (l <| c_bti_req_slv := chan_snoc (c_bti_req_slv l) req |>, e, T, R ++ [req]).

(** The line at 64 is in the cache; a store to 62..65 and a load from 64 follow. *)
Definition l1_crossing_run : l1_world :=
  let w := foldl l1_do (l1_do l1_example_start (MvReq (l1_load 1 64))) (cycles 60) in
  let w := l1_push (l1_push w (l1_store 2 62 0x44332211)) (l1_load 3 64) in
  foldl l1_do w (cycles 120).

(** Why the theorems leave out accesses that cross a line, on one run: a store that crosses the end
    of a line is overtaken; while its first line is refilled, the following load hits in its second
    line and is answered with the bytes from before the store. *)
Example l1_crossing_store_overtaken :
  l1_crossing_run.2 = [l1_load 1 64; l1_store 2 62 0x44332211; l1_load 3 64] /\
  l1_crossing_run.1.2 = [BtiRsp 1 0x43424140 true; BtiRsp 2 0 true; BtiRsp 3 0x43424140 true] /\
  (flat_run false l1_example_mem l1_crossing_run.2).1 = [BtiRsp 1 0x43424140 true; BtiRsp 2 0 true; BtiRsp 3 0x43424433 true].
Proof. vm_compute. by split_and!. Qed.
