(* ===== verification/OstKey.v ===== *)
(** * Clients of the keyed table

    The live entries of an [ostk_t] as a list of keys and contexts in the order of their allocation,
    and the rules of the operations on it.  [ok_seq] bounds the issue numbers used so far. *)

From stdpp Require Import base numbers list sorting.
From Stdlib Require Import ZArith Lia.
From S2P Require Import Prelude Fifo Ost OstSpec.

Lemma filter_bool {A} (f : A -> bool) x l : filter f (x :: l) = if f x then x :: filter f l else filter f l.
Proof. rewrite filter_cons. destruct (f x); [by rewrite decide_True|by rewrite decide_False by (intros [])]. Qed.

Section keyed.
  Context {A : Type} `{!Zero A}.
  Implicit Types (ost : ostk_t A) (l : list (Z * A)) (t : ticket A).

Definition live_tickets (tl : list (ticket A)) : list (ticket A) := filter (fun t => negb (t_freed t)) tl.
Definition pair_of t : Z * A := (t_key t, t_ctx t).

Record key_live ost (n : Z) l : Prop := {
  ok_tickets : exists tl, tickets_of ost tl /\ pair_of <$> live_tickets tl = l;
  ok_seq : k_next_issue_seq ost <= n
}.

(** [slot] holds the entry [p] between [l1] and [l2]. *)
Definition key_slot ost (slot : Z) l1 (p : Z * A) l2 : Prop := exists tl t tl1 tl2, tickets_of ost tl /\
  live_tickets tl = tl1 ++ t :: tl2 /\ pair_of <$> tl1 = l1 /\ pair_of t = p /\ pair_of <$> tl2 = l2 /\ slot = Z.of_nat (t_slot t).

Lemma wp_key_clock ost n l Q : key_live ost n l -> (forall ost', key_live ost' n l -> Q tt ost') -> wp ostk_clock Q ost.
Proof.
  intros [(tl & Ht & Hl) Hs] HQ. pose proof (tk_clock_sim ost tl Ht) as H. unfold tk_sim in H. cbn [ostk_do] in H.
  destruct (ostk_clock_run ost (tk_wf _ _ Ht)) as (ost' & E & _ & _ & _ & Hn). revert H. mred. rewrite E.
  intros (tl' & Hst & Ht' & _ & _). apply (wp_intro _ _ _ _ _ E), HQ. inversion Hst; subst. split; [|lia].
  exists (filter (fun t => negb (t_freed t)) tl). split; [done|]. unfold live_tickets. f_equal.
  clear. induction tl as [|t tl IH]; [done|]. rewrite !filter_bool. destruct (t_freed t) eqn:E; cbn [negb]; [done|].
  rewrite filter_bool, E. cbn [negb]. by rewrite IH.
Qed.

Lemma wp_key_alloc ost n l key ctx Q : key_live ost n l -> ostk_full ost = false -> n + 1 < W64 ->
  (forall slot ost', key_live ost' (n + 1) (l ++ [(key, ctx)]) -> Q (Some slot) ost') -> wp (ostk_alloc key ctx) Q ost.
Proof.
  intros [(tl & Ht & Hl) Hs] Hf Hn HQ. pose proof (tk_alloc_sim ost tl key ctx Ht ltac:(lia)) as H. unfold tk_sim in H. cbn [ostk_do] in H.
  pose proof (kwf_count _ (tk_wf _ _ Ht)). pose proof (countb_bounds k_vld (k_entries ost)). pose proof (kwf_entries _ (tk_wf _ _ Ht)).
  destruct (ostk_alloc_run ost key ctx (tk_wf _ _ Ht)) as (idx & e & r & E & _); [unfold ostk_full in Hf; lia|lia|].
  revert H. mred. rewrite E. intros (tl' & Hst & Ht' & _ & Hn'). apply (wp_intro _ _ _ _ _ E), HQ. inversion Hst; subst.
  split; [|lia]. eexists. split; [exact Ht'|]. unfold live_tickets. by rewrite filter_app, fmap_app.
Qed.

(** The oldest entry of a key. *)
Lemma first_wanted key tl : head (filter (wanted key) tl) = None /\ (forall p, p ∈ pair_of <$> live_tickets tl -> p.1 <> key) \/
  exists t tl1 tl2, head (filter (wanted key) tl) = Some t /\ t ∈ tl /\ live_tickets tl = tl1 ++ t :: tl2 /\
    t_key t = key /\ t_freed t = false /\ forall p, p ∈ pair_of <$> tl1 -> p.1 <> key.
Proof.
  induction tl as [|t tl IH]; [left; split; [done|]; intros p Hp; by apply elem_of_nil in Hp|].
  unfold live_tickets in *. rewrite !filter_bool. change (wanted key t) with (negb (t_freed t) && (t_key t =? key)). destruct (t_freed t) eqn:Ef; cbn [negb andb].
  - destruct IH as [H|(u & tl1 & tl2 & E1 & E2 & E3 & E4 & E5 & E6)]; [by left|right]. exists u, tl1, tl2. split_and!; try done. by right.
  - destruct (Z.eqb_spec (t_key t) key) as [Ek|Nk].
    + right. exists t, [], (filter (fun t => negb (t_freed t)) tl). split_and!; try done; [by left|].
      intros p Hp. by apply elem_of_nil in Hp.
    + destruct IH as [[E H]|(u & tl1 & tl2 & E1 & E2 & E3 & E4 & E5 & E6)].
      * left. split; [done|]. rewrite fmap_cons. intros p [->|Hp]%elem_of_cons; [done|by apply H].
      * right. exists u, (t :: tl1), tl2. split_and!; try done; [by right|by rewrite E3|].
        rewrite fmap_cons. intros p [->|Hp]%elem_of_cons; [done|by apply E6].
Qed.

Lemma wp_key_peek ost n l key Q : key_live ost n l ->
  ((forall p, p ∈ l -> p.1 <> key) -> Q None ost) ->
  (forall l1 ctx l2 slot, l = l1 ++ (key, ctx) :: l2 -> (forall p, p ∈ l1 -> p.1 <> key) ->
     key_slot ost slot l1 (key, ctx) l2 -> Q (Some (ctx, slot)) ost) ->
  wp (ostk_peek_key key) Q ost.
Proof.
  intros [(tl & Ht & <-) Hs] HN HS. pose proof (tk_peek_sim ost tl key Ht) as H. unfold tk_sim in H. cbn [ostk_do] in H.
  assert (forall r ost', ostk_peek_key key ost = Some (r, ost') -> ost' = ost) as Hsame.
  { intros r ost'. unfold ostk_peek_key, k_get. mred. destruct (find_oldest _ _ _ _) as [[s q]|]; [|by intros [= _ <-]].
    destruct (aget _ _); [|done]. by intros [= _ <-]. }
  unfold wp. revert H. mred. destruct (ostk_peek_key key ost) as [[r ost']|] eqn:E; [|done].
  intros (tl' & Hst & _). rewrite (Hsame r ost' eq_refl). inversion Hst as [| | k E1 E2 E3| | | |]; subst.
  destruct (first_wanted key tl') as [[-> H]|(t & tl1 & tl2 & -> & E1 & E3 & E4 & E5 & E6)]; [by apply HN|].
  apply (HS (pair_of <$> tl1) (t_ctx t) (pair_of <$> tl2)); [|done|].
  - rewrite E3, fmap_app. simpl. unfold pair_of at 2. by rewrite E4.
  - exists tl', t, tl1, tl2. split_and!; try done. unfold pair_of. by rewrite E4.
Qed.

Lemma live_freed ost tl t tl1 tl2 : tickets_of ost tl -> live_tickets tl = tl1 ++ t :: tl2 ->
  live_tickets (at_slot (t_slot t) (fun t => t <| t_freed := true |>) tl) = tl1 ++ tl2.
Proof.
  intros Ht. assert (forall u, u ∈ tl -> t_slot u = t_slot t -> t ∈ tl -> u = t) as Hu
    by (intros u Hu Hs Hin; by apply (slot_unique ost tl)).
  assert (NoDup tl) as Hnd.
  { pose proof (tk_sorted _ _ Ht) as Hs. clear -Hs. induction Hs as [|t l Hs IH Hf]; constructor; [|done].
    intros Hin. rewrite Forall_forall in Hf. specialize (Hf t Hin). unfold older in Hf. lia. }
  clear Ht. intros Hl. assert (t ∈ tl) as Hin.
  { assert (t ∈ live_tickets tl) as H by (rewrite Hl; apply elem_of_app; right; by left). unfold live_tickets in H. by apply list_elem_of_filter in H as [_ ?]. }
  assert (t_freed t = false) as Hft.
  { assert (t ∈ live_tickets tl) as H by (rewrite Hl; apply elem_of_app; right; by left). unfold live_tickets in H.
    apply list_elem_of_filter in H as [H _]. by destruct (t_freed t). }
  assert (forall u, u ∈ tl -> t_slot u = t_slot t -> u = t) as Hu' by auto. clear Hu Hin.
  revert tl1 Hl. induction tl as [|u tl IH]; intros tl1 Hl; [by destruct tl1|].
  apply NoDup_cons in Hnd as [Hnu Hnd]. unfold live_tickets, at_slot in *. csimpl. rewrite filter_bool in Hl |- *.
  assert (forall v, v ∈ tl -> t_slot v = t_slot t -> v = t) as Hv by (intros v Hv; apply Hu'; by right).
  destruct (t_freed u) eqn:Efu; cbn [negb] in Hl.
  - change (live_at (t_slot t) u) with (negb (t_freed u) && (t_slot u =? t_slot t)%nat). rewrite Efu. cbn [negb andb]. rewrite Efu. cbn [negb]. by apply IH.
  - change (live_at (t_slot t) u) with (negb (t_freed u) && (t_slot u =? t_slot t)%nat). rewrite Efu. cbn [negb andb].
    destruct (Nat.eqb_spec (t_slot u) (t_slot t)) as [Es|Ns].
    + assert (u = t) as -> by (apply Hu'; [by left|done]). destruct tl1 as [|x tl1].
      * injection Hl as Hl. cbn. rewrite <- Hl. simpl app.
        rewrite <- (list_fmap_id tl) at 2. f_equal. apply list_fmap_ext. intros i v Hi%list_elem_of_lookup_2.
        unfold live_at. destruct (Nat.eqb_spec (t_slot v) (t_slot t)) as [Ev|]; [|by rewrite andb_false_r].
        by rewrite (Hv v Hi Ev) in Hi.
      * exfalso. injection Hl as -> Hl. apply Hnu.
        assert (x ∈ filter (fun t => negb (t_freed t)) tl) as H by (rewrite Hl; apply elem_of_app; right; by left).
        by apply list_elem_of_filter in H as [_ ?].
    + rewrite Efu. cbn [negb]. destruct tl1 as [|x tl1]; [by injection Hl as ->|].
      injection Hl as -> Hl. simpl. f_equal. by apply IH.
Qed.

Lemma wp_key_free ost n l slot l1 p l2 Q : key_live ost n l -> key_slot ost slot l1 p l2 ->
  (forall ost', key_live ost' n (l1 ++ l2) -> Q tt ost') -> wp (ostk_free_slot slot) Q ost.
Proof.
  intros [_ Hs] (tl & t & tl1 & tl2 & Ht & Hl & <- & _ & <- & ->) HQ.
  pose proof (tk_free_sim ost tl (t_slot t) Ht) as H. unfold tk_sim in H. cbn [ostk_do] in H.
  assert (t ∈ tl /\ live_at (t_slot t) t) as [Hin Hlv].
  { assert (t ∈ live_tickets tl) as Hi by (rewrite Hl; apply elem_of_app; right; by left). unfold live_tickets in Hi.
    apply list_elem_of_filter in Hi as [Hf Hi]. split; [done|]. apply live_at_intro. by destruct (t_freed t). }
  unfold wp. revert H. mred. destruct (ostk_free_slot _ ost) as [[[] ost']|] eqn:E.
  - intros (tl' & Hst & Ht' & _ & _). apply HQ. inversion Hst; subst.
    split; [eexists; split; [exact Ht'|]|].
    + by rewrite (live_freed ost tl t tl1 tl2), fmap_app.
    + destruct (slot_cases ost tl (t_slot t) Ht) as [(u & Hu & Hlu & _ & Ha)|[Hno _]]; [|by rewrite (Hno t Hin) in Hlv].
      destruct (ostk_free_slot_run ost (Z.of_nat (t_slot t)) (entry_of u) (tk_wf _ _ Ht) Ha) as (o2 & E2 & _ & _ & _ & Hq).
      { apply live_at_true in Hlu as [_ Hf]. unfold k_live, entry_of. cbn. by rewrite Hf. }
      rewrite E in E2. injection E2 as <-. lia.
  - intros Hno. by rewrite (Hno t Hin) in Hlv.
Qed.

Lemma wp_key_reset ost Q : ostk_wf ost -> (forall ost', key_live ost' 0 [] -> Q tt ost') -> wp ostk_reset Q ost.
Proof.
  intros Hw HQ. pose proof Hw as [Hd Hcs Hl _ _ _ _ _ _]. unfold ostk_reset, wp. mred. apply HQ.
  set (es := _ <$> k_entries ost).
  assert (forall i e, es !! i = Some e -> k_vld e = false) as Hv by (intros i e (x & -> & _)%list_lookup_fmap_Some; done).
  split; [|done]. exists []. split; [|done]. split; [|constructor|].
  - split; cbn; try done; try lia.
    + unfold es. by rewrite length_fmap.
    + symmetry. by apply countb_none.
    + symmetry. apply countb_none. intros i e He. unfold k_pending. by rewrite (Hv i e He).
    + intros i e He Hve. by rewrite (Hv i e He) in Hve.
    + intros i j e e' He He' Hve. by rewrite (Hv i e He) in Hve.
  - intros t. rewrite elem_of_nil. split; [done|]. intros Ht. by apply Hv in Ht.
Qed.

End keyed.

(** ** Requests that are answered in the order of each key *)

Section by_key.
  Context {X : Type} (key : X -> Z).
  Implicit Types (x y : X) (l o u : list X).

(** The two lists hold the same requests, and those of a key in the same order. *)
Definition same_by_key o u : Prop := forall k, filter (fun x => key x = k) o = filter (fun x => key x = k) u.

Lemma filter_key_none k l : (forall y, y ∈ l -> key y <> k) -> filter (fun x => key x = k) l = [].
Proof. intros H. induction l as [|y l IH]; [done|]. rewrite filter_cons_False by (apply H; by left). apply IH. intros z Hz. apply H. by right. Qed.

(** A new request comes last. *)
Lemma by_key_snoc o u x : same_by_key o u -> same_by_key (o ++ [x]) (u ++ [x]).
Proof. intros H k. by rewrite !filter_app, H. Qed.

(** A request overtakes those of other keys. *)
Lemma by_key_overtake a l b x u : (forall y, y ∈ l -> key y <> key x) -> same_by_key (a ++ l ++ x :: b) u ->
  same_by_key ((a ++ [x]) ++ l ++ b) u.
Proof.
  intros Hl H k. rewrite <- H, !filter_app, filter_cons. rewrite <- !app_assoc. f_equal.
  destruct (decide (key x = k)) as [<-|Hk].
  - rewrite (filter_key_none (key x) l) by done. by rewrite filter_cons_True.
  - by rewrite filter_cons_False.
Qed.

(** The oldest request of a key is the next one of it. *)
Lemma by_key_pop x o u1 y u2 : same_by_key (x :: o) (u1 ++ y :: u2) -> key y = key x -> (forall z, z ∈ u1 -> key z <> key x) ->
  y = x /\ same_by_key o (u1 ++ u2).
Proof.
  intros H Hy Hu. assert (y = x) as ->.
  { specialize (H (key x)). rewrite filter_cons_True, filter_app, (filter_key_none (key x) u1), filter_cons_True in H by done. by injection H. }
  split; [done|]. intros k. specialize (H k). rewrite filter_app in H |- *. rewrite !filter_cons in H.
  destruct (decide (key x = k)) as [<-|]; [|done]. rewrite (filter_key_none (key x) u1) in H |- * by done. by injection H.
Qed.

Lemma by_key_elem o u x : same_by_key o u -> x ∈ o <-> x ∈ u.
Proof.
  intros H. assert (forall l, x ∈ l <-> x ∈ filter (fun y => key y = key x) l) as E by (intros l; rewrite list_elem_of_filter; tauto).
  by rewrite (E o), (E u), H.
Qed.

End by_key.
