(* ===== verification/BtiBus.v ===== *)
(** * The BTI and APB interconnect

    [bus/mux/bti_mux.c], [bus/demux/bti_demux.c], [bus/bridge/bti2apb.c] and [bus/demux/apb_demux.c]: hosts
    that share a guest, guests behind the address decoder of a host, and the bridge to the
    configuration bus.  Unconnected interfaces of an array, null pointers, are [None]. *)

From stdpp Require Import base numbers list.
From Stdlib Require Import ZArith Lia.
From S2P Require Import Prelude Fifo Ost Bti Ifu Apb.

(** An update through one member of an array of interfaces; an access out of bounds or through a null
    pointer fails. *)
Definition at_itf {A B} (i : Z) (m : M (chan A) B) : M (list (option (chan A))) B := fun cs =>
  o ← aget cs i; c ← o; '(b, c') ← m c; cs' ← aset cs i (Some c'); Some (b, cs').

(** ** The multiplexer *)

Definition BTI_MUX_HOST_NUM_MAX : Z := 16.

Record bti_mux_ost_ctx_t := BtiMuxOstCtx { mx_host_idx : Z }.
#[export] Instance zero_bti_mux_ost_ctx : Zero bti_mux_ost_ctx_t := BtiMuxOstCtx 0.

Record bti_mux_t := BtiMux {
  bm_host_req_slvs : list (option (chan bti_req_if_t));
  bm_host_rsp_msts : list (option (chan bti_rsp_if_t));
  bm_gst_req_mst : chan bti_req_if_t;
  bm_gst_rsp_slv : chan bti_rsp_if_t;
  bm_host_num : Z;
  bm_req_rr_idx : Z;
  bm_host_req_fifos : list (chan bti_req_if_t);
  bm_ost : ostk_t bti_mux_ost_ctx_t;
  bm_perf_stg_full : Z
}.
#[export] Instance eta_bti_mux : Eta bti_mux_t := fun m =>
  BtiMux (bm_host_req_slvs m) (bm_host_rsp_msts m) (bm_gst_req_mst m) (bm_gst_rsp_slv m) (bm_host_num m)
    (bm_req_rr_idx m) (bm_host_req_fifos m) (bm_ost m) (bm_perf_stg_full m).

(** The loops over the hosts, from host [i] on with [n] left. *)
Fixpoint mux_reset_loop (n : nat) (i : Z) : M bti_mux_t unit :=
  match n with
  | O => mret tt
  | S n => on bm_host_req_fifos (at_elem i chan_clear);; mux_reset_loop n (i + 1)
  end.

Definition bti_mux_reset : M bti_mux_t unit :=
  modify (fun m => m <| bm_req_rr_idx := 0 |>);;
  m ← gets id;
  mux_reset_loop (Z.to_nat (bm_host_num m)) 0;;
  on bm_ost ostk_reset;;
  modify (fun m => m <| bm_perf_stg_full := 0 |>).

Fixpoint mux_capture_loop (n : nat) (i : Z) : M bti_mux_t unit :=
  match n with
  | O => mret tt
  | S n =>
    m ← gets id;
    o ← of_option (aget (bm_host_req_slvs m) i);
    host_req ← of_option o;
    fifo ← of_option (aget (bm_host_req_fifos m) i);
    (if chan_full fifo then
       when (negb (chan_empty host_req)) (modify (fun m => m <| bm_perf_stg_full := u64 (bm_perf_stg_full m + 1) |>))
     else if chan_empty host_req then mret tt
     else
       req ← on bm_host_req_slvs (at_itf i chan_read);
       on bm_host_req_fifos (at_elem i (chan_write req)));;
    mux_capture_loop n (i + 1)
  end.

Definition bti_mux_capture_req : M bti_mux_t unit :=
  m ← gets id;
  mux_capture_loop (Z.to_nat (bm_host_num m)) 0.

(** Turn [i] of the search for a host with a request, [n] turns left. *)
Fixpoint mux_req_loop (n : nat) (i : Z) : M bti_mux_t unit :=
  match n with
  | O => mret tt
  | S n =>
    m ← gets id;
    let host_idx := u32 (bm_req_rr_idx m + i) mod bm_host_num m in
    fifo ← of_option (aget (bm_host_req_fifos m) host_idx);
    if chan_empty fifo then mux_req_loop n (i + 1)
    else
      req ← on bm_host_req_fifos (at_elem host_idx chan_read);
      slot ← on bm_ost (ostk_alloc (bq_trans_id req) (BtiMuxOstCtx host_idx));
      DBG_CHECK (bool_decide (is_Some slot));;
      on bm_gst_req_mst (chan_write req);;
      modify (fun m => m <| bm_req_rr_idx := u32 (host_idx + 1) mod bm_host_num m |>)
  end.

Definition bti_mux_proc_req : M bti_mux_t unit :=
  m ← gets id;
  if ostk_full (bm_ost m) then mret tt
  else if chan_full (bm_gst_req_mst m) then mret tt
  else mux_req_loop (Z.to_nat (bm_host_num m)) 0.

Definition bti_mux_proc_rsp : M bti_mux_t unit :=
  m ← gets id;
  if chan_empty (bm_gst_rsp_slv m) then mret tt
  else
    rsp ← on bm_gst_rsp_slv chan_front;
    found ← on bm_ost (ostk_peek_key (bp_trans_id rsp));
    '(ctx, slot) ← of_option found;
    DBG_CHECK (mx_host_idx ctx <? bm_host_num m);;
    o ← of_option (aget (bm_host_rsp_msts m) (mx_host_idx ctx));
    host_rsp ← of_option o;
    if chan_full host_rsp then mret tt
    else
      rsp ← on bm_gst_rsp_slv chan_read;
      on bm_host_rsp_msts (at_itf (mx_host_idx ctx) (chan_write rsp));;
      on bm_ost (ostk_free_slot slot).

Definition bti_mux_clock : M bti_mux_t unit :=
  on bm_ost ostk_clock;;
  bti_mux_capture_req;;
  bti_mux_proc_rsp;;
  bti_mux_proc_req.

(** ** The demultiplexer *)

Definition BTI_DEMUX_GST_NUM_MAX : Z := 16.

Record bti_demux_ost_ctx_t := BtiDemuxOstCtx { dx_gst_idx : Z }.
#[export] Instance zero_bti_demux_ost_ctx : Zero bti_demux_ost_ctx_t := BtiDemuxOstCtx 0.

Record bti_demux_t := BtiDemux {
  bd_host_req_slv : chan bti_req_if_t;
  bd_host_rsp_mst : chan bti_rsp_if_t;
  bd_gst_req_msts : list (option (chan bti_req_if_t));
  bd_gst_rsp_slvs : list (option (chan bti_rsp_if_t));
  bd_gst_num : Z;
  bd_gst_bases : list Z;
  bd_gst_sizes : list Z;
  bd_req_fifo : chan bti_req_if_t;
  bd_ost : ostk_t bti_demux_ost_ctx_t;
  bd_perf_stg_full : Z
}.
#[export] Instance eta_bti_demux : Eta bti_demux_t := fun d =>
  BtiDemux (bd_host_req_slv d) (bd_host_rsp_mst d) (bd_gst_req_msts d) (bd_gst_rsp_slvs d) (bd_gst_num d)
    (bd_gst_bases d) (bd_gst_sizes d) (bd_req_fifo d) (bd_ost d) (bd_perf_stg_full d).

Definition bti_demux_ost_key (gst_idx trans_id : Z) : Z := Z.lor (u32 (Z.shiftl gst_idx 16)) trans_id.

Definition bti_demux_reset : M bti_demux_t unit :=
  on bd_req_fifo chan_clear;;
  on bd_ost ostk_reset;;
  modify (fun d => d <| bd_perf_stg_full := 0 |>).

Definition bti_demux_capture_req : M bti_demux_t unit :=
  d ← gets id;
  if chan_full (bd_req_fifo d) then
    when (negb (chan_empty (bd_host_req_slv d))) (modify (fun d => d <| bd_perf_stg_full := u64 (bd_perf_stg_full d + 1) |>))
  else if chan_empty (bd_host_req_slv d) then mret tt
  else
    bti_req ← on bd_host_req_slv chan_read;
    on bd_req_fifo (chan_write bti_req).

(** The index at which the loop over the address ranges stops, from [i] on with [n] ranges left. *)
Fixpoint decode_loop (bases sizes : list Z) (addr : Z) (n : nat) (i : Z) : option Z :=
  match n with
  | O => Some i
  | S n =>
    base ← aget bases i;
    size ← aget sizes i;
    if ADDR_IN addr base size then Some i else decode_loop bases sizes addr n (i + 1)
  end.

Definition bti_demux_proc_req : M bti_demux_t unit :=
  d ← gets id;
  if ostk_full (bd_ost d) then mret tt
  else if chan_empty (bd_req_fifo d) then mret tt
  else
    bti_req ← on bd_req_fifo chan_front;
    gst_idx ← of_option (decode_loop (bd_gst_bases d) (bd_gst_sizes d) (bq_addr bti_req) (Z.to_nat (bd_gst_num d)) 0);
    DBG_CHECK (gst_idx <? bd_gst_num d);;
    o ← of_option (aget (bd_gst_req_msts d) gst_idx);
    gst_req_mst ← of_option o;
    if chan_full gst_req_mst then mret tt
    else
      bti_req ← on bd_req_fifo chan_read;
      slot ← on bd_ost (ostk_alloc (bti_demux_ost_key gst_idx (bq_trans_id bti_req)) (BtiDemuxOstCtx gst_idx));
      DBG_CHECK (bool_decide (is_Some slot));;
      on bd_gst_req_msts (at_itf gst_idx (chan_write bti_req)).

(** The loop over the guests, from guest [i] on with [n] left. *)
Fixpoint demux_rsp_loop (n : nat) (i : Z) : M bti_demux_t unit :=
  match n with
  | O => mret tt
  | S n =>
    d ← gets id;
    o ← of_option (aget (bd_gst_rsp_slvs d) i);
    match o with
    | None => demux_rsp_loop n (i + 1)
    | Some gst_rsp_slv =>
      if chan_empty gst_rsp_slv then demux_rsp_loop n (i + 1)
      else
        '(bti_rsp, _) ← of_option (chan_front gst_rsp_slv);
        found ← on bd_ost (ostk_peek_key (bti_demux_ost_key i (bp_trans_id bti_rsp)));
        '(ctx, slot) ← of_option found;
        DBG_CHECK (dx_gst_idx ctx =? i);;
        bti_rsp ← on bd_gst_rsp_slvs (at_itf i chan_read);
        on bd_host_rsp_mst (chan_write bti_rsp);;
        on bd_ost (ostk_free_slot slot);;
        d ← gets id;
        if chan_full (bd_host_rsp_mst d) then mret tt else demux_rsp_loop n (i + 1)
    end
  end.

Definition bti_demux_proc_rsp : M bti_demux_t unit :=
  d ← gets id;
  if chan_full (bd_host_rsp_mst d) then mret tt
  else demux_rsp_loop (Z.to_nat (bd_gst_num d)) 0.

Definition bti_demux_clock : M bti_demux_t unit :=
  on bd_ost ostk_clock;;
  bti_demux_capture_req;;
  bti_demux_proc_req;;
  bti_demux_proc_rsp.

(** ** The bridge to the configuration bus *)

Record bti2apb_t := Bti2apb {
  ba_req_slv : chan bti_req_if_t;
  ba_rsp_mst : chan bti_rsp_if_t;
  ba_apb_req_mst : chan apb_req_if_t;
  ba_apb_rsp_slv : chan apb_rsp_if_t;
  ba_bti_trans_id : Z
}.
#[export] Instance eta_bti2apb : Eta bti2apb_t := fun b =>
  Bti2apb (ba_req_slv b) (ba_rsp_mst b) (ba_apb_req_mst b) (ba_apb_rsp_slv b) (ba_bti_trans_id b).

Definition bti2apb_reset : M bti2apb_t unit := modify (fun br => br <| ba_bti_trans_id := 0 |>).

Definition bti2apb_proc_req : M bti2apb_t unit :=
  br ← gets id;
  if chan_empty (ba_req_slv br) then mret tt
  else
    bti_req ← on ba_req_slv chan_front;
    if negb (bq_cmd bti_req =? BTI_REQ_CMD_READ) && negb (bq_cmd bti_req =? BTI_REQ_CMD_WRITE) then
      if chan_full (ba_rsp_mst br) then mret tt
      else
        on ba_req_slv chan_read;;
        on ba_rsp_mst (chan_write (BtiRsp (bq_trans_id bti_req) 0 false))
    else if chan_full (ba_apb_req_mst br) then mret tt
    else
      on ba_req_slv chan_read;;
      on ba_apb_req_mst (chan_write (ApbReq (bq_addr bti_req) (bq_cmd bti_req =? BTI_REQ_CMD_WRITE) (bq_data bti_req)
        (bq_strobe bti_req)));;
      modify (fun br => br <| ba_bti_trans_id := bq_trans_id bti_req |>).

Definition bti2apb_proc_rsp : M bti2apb_t unit :=
  br ← gets id;
  if chan_empty (ba_apb_rsp_slv br) then mret tt
  else if chan_full (ba_rsp_mst br) then mret tt
  else
    apb_rsp ← on ba_apb_rsp_slv chan_read;
    on ba_rsp_mst (chan_write (BtiRsp (ba_bti_trans_id br mod 65536) (prdata apb_rsp) (negb (pslverr apb_rsp)))).

Definition bti2apb_clock : M bti2apb_t unit :=
  bti2apb_proc_req;;
  bti2apb_proc_rsp.

(** ** The demultiplexer of the configuration bus *)

Definition APB_DEMUX_GST_NUM_MAX : Z := 16.

Record apb_demux_t := ApbDemux {
  ad_host_req_slv : chan apb_req_if_t;
  ad_host_rsp_mst : chan apb_rsp_if_t;
  ad_gst_req_msts : list (option (chan apb_req_if_t));
  ad_gst_rsp_slvs : list (option (chan apb_rsp_if_t));
  ad_gst_num : Z;
  ad_gst_bases : list Z;
  ad_gst_sizes : list Z
}.
#[export] Instance eta_apb_demux : Eta apb_demux_t := fun d =>
  ApbDemux (ad_host_req_slv d) (ad_host_rsp_mst d) (ad_gst_req_msts d) (ad_gst_rsp_slvs d) (ad_gst_num d)
    (ad_gst_bases d) (ad_gst_sizes d).

Definition apb_demux_reset : M apb_demux_t unit := mret tt.

Definition apb_demux_proc_req : M apb_demux_t unit :=
  d ← gets id;
  if chan_empty (ad_host_req_slv d) then mret tt
  else
    apb_req ← on ad_host_req_slv chan_front;
    gst_idx ← of_option (decode_loop (ad_gst_bases d) (ad_gst_sizes d) (paddr apb_req) (Z.to_nat (ad_gst_num d)) 0);
    DBG_CHECK (gst_idx <? ad_gst_num d);;
    o ← of_option (aget (ad_gst_req_msts d) gst_idx);
    gst_req_mst ← of_option o;
    if chan_full gst_req_mst then mret tt
    else
      on ad_host_req_slv chan_read;;
      on ad_gst_req_msts (at_itf gst_idx (chan_write apb_req)).

Fixpoint apb_rsp_loop (n : nat) (i : Z) : M apb_demux_t unit :=
  match n with
  | O => mret tt
  | S n =>
    d ← gets id;
    o ← of_option (aget (ad_gst_rsp_slvs d) i);
    match o with
    | None => mret tt
    | Some gst_rsp_slv =>
      if chan_full (ad_host_rsp_mst d) then mret tt
      else if chan_empty gst_rsp_slv then mret tt
      else
        apb_rsp ← on ad_gst_rsp_slvs (at_itf i chan_read);
        on ad_host_rsp_mst (chan_write apb_rsp)
    end;;
    apb_rsp_loop n (i + 1)
  end.

Definition apb_demux_proc_rsp : M apb_demux_t unit :=
  d ← gets id;
  apb_rsp_loop (Z.to_nat (ad_gst_num d)) 0.

Definition apb_demux_clock : M apb_demux_t unit :=
  apb_demux_proc_req;;
  apb_demux_proc_rsp.
