(* ===== verification/BtiMuxSpec.v ===== *)
(** * The BTI multiplexer returns every answer to the host that asked

    Runs of [bus/mux/bti_mux.c] with any number of hosts and a guest that answers the requests of one
    transaction number in their order. *)

From stdpp Require Import base numbers list relations.
From Stdlib Require Import ZArith Lia.
From S2P Require Import Prelude Fifo Ost OstSpec OstKey Bti Ifu Apb BtiBus.

(** ** Arrays of FIFOs *)

Lemma wp_at_itf {A B} (cs : list (option (chan A))) i c (m : M (chan A) B) Q : aget cs i = Some (Some c) ->
  wp m (fun b c' => Q b (<[Z.to_nat i := Some c']> cs)) c -> wp (at_itf i m) Q cs.
Proof.
  intros E H. unfold wp, at_itf in *. rewrite E. cbn. destruct (m c) as [[b c']|]; [|done]. cbn.
  by rewrite (aset_insert cs i (Some c') (aget_Some _ _ _ E)).
Qed.

(** ** The invariant *)

Definition req_key (p : Z * bti_req_if_t) : Z := bq_trans_id p.2.
Definition of_host (h : Z) {X} (host : X -> Z) (l : list X) : list X := filter (fun x => host x = h) l.

(** What waits in front of the guest for host [h], and what waits for the host to take it. *)
Definition mux_waiting (m : bti_mux_t) (h : Z) : list bti_req_if_t :=
  match aget (bm_host_req_fifos m) h, aget (bm_host_req_slvs m) h with
  | Some f, Some (Some s) => ch_pkts f ++ ch_pkts s
  | _, _ => []
  end.
Definition mux_answers (m : bti_mux_t) (h : Z) : list bti_rsp_if_t :=
  match aget (bm_host_rsp_msts m) h with Some (Some r) => ch_pkts r | _ => [] end.

(** The interfaces of every host are connected. *)
Definition mux_wired (m : bti_mux_t) : Prop := 0 <= bm_host_num m <= BTI_MUX_HOST_NUM_MAX /\
  (forall h, 0 <= h < bm_host_num m -> exists f s r, aget (bm_host_req_fifos m) h = Some f /\
    aget (bm_host_req_slvs m) h = Some (Some s) /\ aget (bm_host_rsp_msts m) h = Some (Some r) /\ chan_wf f /\ chan_wf r) /\
  chan_wf (bm_gst_req_mst m).

(** The hosts have sent [R] and taken the answers [T]; the guest has taken the requests [G], holds those
    of [inside] and has given the answers [P], each with its request.  [log] are the requests that
    were passed on, [done] those answered, and [rt] the answers on their way through. *)
Record mux_inv (m : bti_mux_t) (R : Z -> list bti_req_if_t) (T : Z -> list bti_rsp_if_t) (G inside : list bti_req_if_t)
    (P : list (bti_req_if_t * bti_rsp_if_t)) (log : list (Z * bti_req_if_t)) (done rt : list (Z * bti_req_if_t * bti_rsp_if_t))
    (open ins ch : list (Z * bti_req_if_t)) : Prop := {
  mi_wired : mux_wired m;
  mi_rr : 0 <= bm_req_rr_idx m < Z.max 1 (bm_host_num m);
  mi_table : key_live (bm_ost m) (Z.of_nat (length log)) ((fun p => (req_key p, BtiMuxOstCtx p.1)) <$> open);
  mi_match : same_by_key req_key (rt.*1 ++ ins ++ ch) open;
  mi_hosts : Forall (fun p => 0 <= p.1 < bm_host_num m) log;
  mi_log : log ≡ₚ done.*1 ++ open;
  mi_guest : log.*2 = G ++ ch_pkts (bm_gst_req_mst m) /\ ch.*2 = ch_pkts (bm_gst_req_mst m) /\ ins.*2 = inside;
  mi_given : (fun x => (x.1.2, x.2)) <$> (done ++ rt) = P /\ rt.*2 = ch_pkts (bm_gst_rsp_slv m) /\
    Forall (fun x => bp_trans_id x.2 = req_key x.1) rt;
  mi_sent : forall h, 0 <= h < bm_host_num m -> R h = (of_host h fst log).*2 ++ mux_waiting m h;
  mi_got : forall h, 0 <= h < bm_host_num m -> T h ++ mux_answers m h = (of_host h (fun x => x.1.1) done).*2
}.

(** ** The stages *)

(** A turn of the capture moves a request of one host. *)
Definition captured (m m' : bti_mux_t) : Prop :=
  (bm_host_rsp_msts m', bm_gst_req_mst m', bm_gst_rsp_slv m', bm_host_num m', bm_req_rr_idx m', bm_ost m') =
  (bm_host_rsp_msts m, bm_gst_req_mst m, bm_gst_rsp_slv m, bm_host_num m, bm_req_rr_idx m, bm_ost m) /\
  mux_wired m' /\ forall h, mux_waiting m' h = mux_waiting m h.

Lemma captured_trans m1 m2 m3 : captured m1 m2 -> captured m2 m3 -> captured m1 m3.
Proof. intros (E1 & _ & H1) (E2 & W & H2). split; [congruence|]. split; [done|]. intros h. by rewrite H2. Qed.

Lemma captured_inv m m' R T G inside P log done rt open ins ch : captured m m' ->
  mux_inv m R T G inside P log done rt open ins ch -> mux_inv m' R T G inside P log done rt open ins ch.
Proof.
  intros (E & Hw & Hq) []. injection E as E1 E2 E3 E4 E5 E6. split; rewrite ?E1, ?E2, ?E3, ?E4, ?E5, ?E6; try done.
  - intros h Hh. rewrite Hq. by apply mi_sent0.
  - intros h Hh. unfold mux_answers. rewrite E1. by apply mi_got0.
Qed.

Lemma mux_capture_ok n i m : mux_wired m -> 0 <= i -> i + Z.of_nat n <= bm_host_num m ->
  wp (mux_capture_loop n i) (fun _ m' => captured m m') m.
Proof.
  revert i m. induction n as [|n IH]; intros i m Hw Hi Hn; cbn [mux_capture_loop]; [by apply wp_ret|].
  apply wp_bind, wp_gets. unfold id. pose proof Hw as (Hnum & Hwire & Hg).
  destruct (Hwire i ltac:(lia)) as (f & s & r & Ef & Es & Er & Wf & Wr). rewrite Ef, Es. do 3 apply wp_bind, wp_ret. apply wp_bind.
  assert (forall m', captured m m' -> wp (mux_capture_loop n (i + 1)) (fun _ m'' => captured m m'') m') as Hnext.
  { intros m' Hc. pose proof Hc as (E & Hw' & _). injection E as _ _ _ E4 _ _.
    eapply wp_mono; [apply IH; [done|lia|rewrite E4; lia]|]. intros [] m'' H. by eapply captured_trans. }
  destruct (chan_full f) eqn:Eff.
  { destruct (chan_empty s); cbn [negb when]; [by apply wp_ret, Hnext|]. by apply wp_modify, Hnext. }
  destruct (chan_empty s) eqn:Ee; [by apply wp_ret, Hnext|]. destruct (chan_empty_false _ Ee) as (x & xs & Ex).
  apply wp_bind, wp_on. eapply wp_at_itf; [done|]. eapply wp_chan_read; [done|]. apply wp_on. upd_proj.
  eapply wp_at_elem; [done|]. apply wp_chan_write; [done|done|]. intros Wf'. apply Hnext.
  pose proof (aget_Some _ _ _ Ef) as L1. pose proof (aget_Some _ _ _ Es) as L2.
  split; [done|]. split.
  - split; [done|]. split; [|done]. intros h Hh. upd_proj. rewrite !aget_insert by done. change (0 <= h < bm_host_num m) in Hh.
    destruct (Hwire h Hh) as (f' & s' & r' & Ef' & Es' & Er' & Wf2 & Wr2). destruct (Z.eqb_spec h i) as [->|].
    + exists (chan_snoc f x), (Chan (ch_depth s) xs), r. by split_and!.
    + exists f', s', r'. by split_and!.
  - intros h. unfold mux_waiting. upd_proj. rewrite !aget_insert by done. destruct (Z.eqb_spec h i) as [->|]; [|done].
    rewrite Ef, Es, Ex. cbn. by rewrite <- app_assoc.
Qed.

(** Some choice of the bookkeeping of [mux_inv]. *)
Definition mux_good (m : bti_mux_t) R T G inside P : Prop := exists log done rt open ins ch,
  mux_inv m R T G inside P log done rt open ins ch.

Lemma mux_len m R T G inside P log done rt open ins ch : mux_inv m R T G inside P log done rt open ins ch ->
  Z.of_nat (length log) <= Z.of_nat (length G) + ch_depth (bm_gst_req_mst m).
Proof.
  intros []. destruct mi_wired0 as (_ & _ & Hw). destruct mi_guest0 as (E & _). apply (f_equal length) in E.
  rewrite length_fmap, length_app in E. unfold chan_wf, chan_num in Hw. lia.
Qed.

Lemma host_filter_snoc {X} (host : X -> Z) h l x : of_host h host (l ++ [x]) = of_host h host l ++ (if host x =? h then [x] else []).
Proof.
  unfold of_host. rewrite filter_app. f_equal. rewrite filter_cons, filter_nil. destruct (Z.eqb_spec (host x) h); [by rewrite decide_True|by rewrite decide_False].
Qed.

Lemma mux_rsp_ok m R T G inside P : mux_good m R T G inside P ->
  wp bti_mux_proc_rsp (fun _ m' => mux_good m' R T G inside P /\ ch_depth (bm_gst_req_mst m') = ch_depth (bm_gst_req_mst m)) m.
Proof.
  intros Hg. pose proof Hg as (log & dn & rt & open & ins & ch & Hi). pose proof Hi as H0. destruct H0.
  apply wp_bind, wp_gets. unfold id. destruct (chan_empty _) eqn:Ee; [by apply wp_ret|].
  destruct (chan_empty_false _ Ee) as (rsp & rs & Er). destruct mi_given0 as (HP & Hrt & Hids).
  rewrite Er in Hrt. destruct rt as [|[p rsp'] rt]; [done|]. injection Hrt as -> Hrt. apply Forall_cons in Hids as [Hid Hids]. cbn in Hid.
  apply wp_bind. eapply wp_on_front; [done|by destruct m|]. apply wp_bind, wp_on.
  assert (p ∈ open) as Hp by (apply (by_key_elem req_key _ _ p mi_match0); by left).
  eapply wp_key_peek; [exact mi_table0| |].
  { intros Hno. exfalso. apply (Hno (req_key p, BtiMuxOstCtx p.1)); [|done]. apply list_elem_of_fmap. by exists p. }
  intros l1 ctx l2 slot El Hnone Hslot.
  apply fmap_app_inv in El as (u1 & u2' & E1 & E2 & ->). symmetry in E2. apply fmap_cons_inv in E2 as (y & u2 & Ey & E2 & ->).
  injection Ey as Hy ->. rewrite Hid in Hy.
  destruct (by_key_pop req_key p _ u1 y u2 mi_match0 (eq_sym Hy)) as [-> Hmatch].
  { intros z Hz E. apply (Hnone (req_key z, BtiMuxOstCtx z.1)); [|by rewrite Hid]. rewrite E1. apply list_elem_of_fmap. by exists z. }
  assert (p ∈ log) as Hpl by (rewrite mi_log0; apply elem_of_app; by right).
  pose proof (proj1 (Forall_forall _ _) mi_hosts0 p Hpl) as Hh. cbv beta in Hh.
  destruct mi_wired0 as (Hnum & Hwire & Hgw). destruct (Hwire p.1 Hh) as (f & s & r & Ef & Es & Err & Wf & Wr).
  assert (m <| bm_ost := bm_ost m |> = m) as Em by (by destruct m). rewrite Em. cbn [of_option mx_host_idx].
  apply wp_bind, wp_ret, wp_bind, wp_check; [apply Z.ltb_lt; cbn; lia|]. cbn [mx_host_idx]. rewrite Err. do 2 apply wp_bind, wp_ret.
  destruct (chan_full r) eqn:Ef2; [by apply wp_ret|]. apply wp_bind. eapply wp_on_read; [exact Er|].
  apply wp_bind, wp_on. upd_proj. eapply wp_at_itf; [done|]. apply wp_chan_write; [done|done|]. intros Wr'. apply wp_on. upd_proj.
  eapply wp_key_free; [exact mi_table0|exact Hslot|]. intros ost' Ht'. split; [|done]. pose proof (aget_Some _ _ _ Err) as L1.
  exists log, (dn ++ [(p, rsp)]), rt, (u1 ++ u2), ins, ch. split; upd_proj; try done.
  - split; [done|]. split; [|done]. intros h Hh'. upd_proj. rewrite aget_insert by done. destruct (Hwire h Hh') as (f' & s' & r' & Ef' & Es' & Er' & Wf2 & Wr2).
    destruct (Z.eqb_spec h p.1) as [->|].
    + exists f', s', (chan_snoc r rsp). by split_and!.
    + exists f', s', r'. by split_and!.
  - rewrite fmap_app, <- E1, <- E2. exact Ht'.
  - rewrite mi_log0, fmap_app. cbn. rewrite <- app_assoc. apply Permutation_app_head. by rewrite <- Permutation_middle.
  - split; [|by split]. rewrite <- HP, <- app_assoc. done.
  - intros h Hh'. rewrite host_filter_snoc, fmap_app, <- mi_got0 by done. unfold mux_answers. upd_proj. rewrite aget_insert by done.
    cbn [fst]. destruct (Z.eqb_spec h p.1) as [->|]; [rewrite Z.eqb_refl, Err; change (ch_pkts (chan_snoc r rsp)) with (ch_pkts r ++ [rsp]); by rewrite app_assoc|].
    destruct (Z.eqb_spec p.1 h); [lia|]. by rewrite app_nil_r.
Qed.

Lemma mux_req_loop_ok n i m R T G inside P log dn rt open ins ch : mux_inv m R T G inside P log dn rt open ins ch ->
  ostk_full (bm_ost m) = false -> chan_full (bm_gst_req_mst m) = false -> Z.of_nat (length log) + 1 < W64 ->
  0 <= i -> i + Z.of_nat n <= bm_host_num m ->
  wp (mux_req_loop n i) (fun _ m' => mux_good m' R T G inside P /\ ch_depth (bm_gst_req_mst m') = ch_depth (bm_gst_req_mst m)) m.
Proof.
  intros Hi Hf1 Hf2 Hb. revert i. induction n as [|n IH]; intros i H0 Hn; cbn [mux_req_loop].
  { apply wp_ret. split; [|done]. by exists log, dn, rt, open, ins, ch. }
  pose proof Hi as H1. destruct H1. destruct mi_wired0 as (Hnum & Hwire & Hgw). unfold BTI_MUX_HOST_NUM_MAX in Hnum.
  apply wp_bind, wp_gets. unfold id. rewrite (u32_small (bm_req_rr_idx m + i)) by (unfold is_u32, W32; lia).
  set (h := (bm_req_rr_idx m + i) mod bm_host_num m). assert (0 <= h < bm_host_num m) as Hh by (apply Z.mod_pos_bound; lia).
  destruct (Hwire h Hh) as (f & s & r & Ef & Es & Er & Wf & Wr). cbv zeta. rewrite Ef. apply wp_bind, wp_ret.
  destruct (chan_empty f) eqn:Ee; [apply IH; lia|]. destruct (chan_empty_false _ Ee) as (q & qs & Eq).
  apply wp_bind, wp_on. eapply wp_at_elem; [done|]. eapply wp_chan_read; [done|]. apply wp_bind, wp_on. upd_proj.
  eapply wp_key_alloc; [exact mi_table0|done|done|]. intros slot ost' Ht'. apply wp_bind, wp_check; [by rewrite bool_decide_eq_true_2 by eauto|].
  apply wp_bind, wp_on_write; [done|done|]. intros Hgw'. apply wp_modify. upd_proj. split; [|done].
  pose proof (aget_Some _ _ _ Ef) as L1. destruct mi_guest0 as (Hlog & Hch & Hins).
  exists (log ++ [(h, q)]), dn, rt, (open ++ [(h, q)]), ins, (ch ++ [(h, q)]). split; upd_proj; try done.
  - split; [done|]. split; [|done]. intros k Hk. upd_proj. rewrite aget_insert by done.
    destruct (Hwire k Hk) as (f' & s' & r' & Ef' & Es' & Er' & Wf2 & Wr2). destruct (Z.eqb_spec k h) as [->|].
    + exists (Chan (ch_depth f) qs), s', r'. split_and!; try done. rewrite Ef in Ef'. injection Ef' as <-. by eapply chan_wf_tail.
    + exists f', s', r'. by split_and!.
  - rewrite (u32_small (h + 1)) by (unfold is_u32, W32; lia). pose proof (Z.mod_pos_bound (h + 1) (bm_host_num m) ltac:(lia)). lia.
  - rewrite length_app, fmap_app. cbn. replace (Z.of_nat (length log + 1)) with (Z.of_nat (length log) + 1) by lia. exact Ht'.
  - rewrite app_assoc, app_assoc, <- (app_assoc rt.*1). by apply by_key_snoc.
  - apply Forall_app. split; [done|]. by constructor.
  - by rewrite mi_log0, app_assoc.
  - rewrite !fmap_app, Hlog, Hch. by rewrite <- app_assoc.
  - intros k Hk. rewrite mi_sent0, host_filter_snoc, fmap_app by done. unfold mux_waiting. upd_proj. rewrite aget_insert by done. cbn [fst].
    destruct (Z.eqb_spec k h) as [->|]; [rewrite Z.eqb_refl, Ef, Es, Eq; cbn; by rewrite <- app_assoc|].
    destruct (Z.eqb_spec h k); [lia|]. by rewrite app_nil_r.
Qed.

Lemma mux_clock_ok m R T G inside P : mux_good m R T G inside P ->
  Z.of_nat (length G) + ch_depth (bm_gst_req_mst m) + 1 < W64 ->
  wp bti_mux_clock (fun _ m' => mux_good m' R T G inside P /\ ch_depth (bm_gst_req_mst m') = ch_depth (bm_gst_req_mst m)) m.
Proof.
  intros (log & dn & rt & open & ins & ch & Hi) Hb. apply wp_bind, wp_on. eapply wp_key_clock; [apply Hi|]. intros ost' Ht.
  assert (mux_inv (m <| bm_ost := ost' |>) R T G inside P log dn rt open ins ch) as Hi1 by (destruct Hi; by split).
  change (ch_depth (bm_gst_req_mst m)) with (ch_depth (bm_gst_req_mst (m <| bm_ost := ost' |>))) in Hb |- *.
  set (m1 := m <| bm_ost := ost' |>) in *. clearbody m1. clear Hi. apply wp_bind, wp_bind, wp_gets. unfold id.
  pose proof (mi_wired _ _ _ _ _ _ _ _ _ _ _ _ Hi1) as Hw. eapply wp_mono; [apply mux_capture_ok; [done|lia|destruct Hw; lia]|].
  intros [] m2 Hc. pose proof (captured_inv _ _ _ _ _ _ _ _ _ _ _ _ _ Hc Hi1) as Hi2. destruct Hc as (E & _). injection E as _ E2 _ _ _ _.
  rewrite <- E2 in Hb |- *. apply wp_bind. eapply wp_mono; [apply (mux_rsp_ok m2 R T G inside P); by exists log, dn, rt, open, ins, ch|].
  intros [] m3 [Hg Ed]. rewrite <- Ed in Hb |- *. pose proof Hg as (log3 & dn3 & rt3 & open3 & ins3 & ch3 & Hi3).
  apply wp_bind, wp_gets. unfold id. destruct (ostk_full _) eqn:Ef1; [by apply wp_ret|]. destruct (chan_full _) eqn:Ef2; [by apply wp_ret|].
  pose proof (mux_len _ _ _ _ _ _ _ _ _ _ _ _ Hi3). pose proof (mi_wired _ _ _ _ _ _ _ _ _ _ _ _ Hi3) as [Hn _].
  eapply wp_mono; [eapply mux_req_loop_ok; [exact Hi3|done|done|lia|lia|lia]|]. by intros [] m4 [? ?].
Qed.

(** ** Runs *)

Record mux_world := MuxWorld {
  mw_mux : bti_mux_t;
  mw_sent : Z -> list bti_req_if_t;
  mw_got : Z -> list bti_rsp_if_t;
  mw_taken : list bti_req_if_t;
  mw_inside : list bti_req_if_t;
  mw_given : list (bti_req_if_t * bti_rsp_if_t)
}.
#[export] Instance eta_mux_world : Eta mux_world := fun w =>
  MuxWorld (mw_mux w) (mw_sent w) (mw_got w) (mw_taken w) (mw_inside w) (mw_given w).

Definition fn_snoc {X} (f : Z -> list X) (h : Z) (x : X) : Z -> list X := fun k => if k =? h then f k ++ [x] else f k.

(** The guest may answer any request it holds, but those of one number in their order. *)
Inductive mux_step : mux_world -> mux_world -> Prop :=
| MuxClock w m' : bti_mux_clock (mw_mux w) = Some (tt, m') -> mux_step w (w <| mw_mux := m' |>)
| MuxSend w h q s : 0 <= h < bm_host_num (mw_mux w) -> aget (bm_host_req_slvs (mw_mux w)) h = Some (Some s) -> chan_full s = false ->
    mux_step w (w <| mw_mux := mw_mux w <| bm_host_req_slvs := <[Z.to_nat h := Some (chan_snoc s q)]> (bm_host_req_slvs (mw_mux w)) |> |>
      <| mw_sent := fn_snoc (mw_sent w) h q |>)
| MuxTake w h d r rs : 0 <= h < bm_host_num (mw_mux w) -> aget (bm_host_rsp_msts (mw_mux w)) h = Some (Some (Chan d (r :: rs))) ->
    mux_step w (w <| mw_mux := mw_mux w <| bm_host_rsp_msts := <[Z.to_nat h := Some (Chan d rs)]> (bm_host_rsp_msts (mw_mux w)) |> |>
      <| mw_got := fn_snoc (mw_got w) h r |>)
| MuxGuestTake w d q qs : bm_gst_req_mst (mw_mux w) = Chan d (q :: qs) ->
    mux_step w (w <| mw_mux := mw_mux w <| bm_gst_req_mst := Chan d qs |> |> <| mw_taken := mw_taken w ++ [q] |>
      <| mw_inside := mw_inside w ++ [q] |>)
| MuxGuestGive w i1 q i2 r : mw_inside w = i1 ++ q :: i2 -> (forall q', q' ∈ i1 -> bq_trans_id q' <> bq_trans_id q) ->
    bp_trans_id r = bq_trans_id q -> chan_full (bm_gst_rsp_slv (mw_mux w)) = false ->
    mux_step w (w <| mw_mux := mw_mux w <| bm_gst_rsp_slv := chan_snoc (bm_gst_rsp_slv (mw_mux w)) r |> |>
      <| mw_inside := i1 ++ i2 |> <| mw_given := mw_given w ++ [(q, r)] |>).

Definition world_ok (D : Z) (w : mux_world) : Prop :=
  mux_good (mw_mux w) (mw_sent w) (mw_got w) (mw_taken w) (mw_inside w) (mw_given w) /\ ch_depth (bm_gst_req_mst (mw_mux w)) = D.

(** Issue numbers are 64 bits wide. *)
Definition mux_bound (D : Z) (w : mux_world) : Prop := Z.of_nat (length (mw_taken w)) + D + 1 < W64.

Lemma mux_step_ok D w w' : mux_step w w' -> mux_bound D w -> world_ok D w -> world_ok D w'.
Proof.
  unfold world_ok. intros [w0 m' E|w0 h q s Hh Es Ef|w0 h d r rs Hh Er|w0 d q qs Eq|w0 i1 q i2 r Ei Hi1 Hid Ef] Hb [Hg HD]; upd_proj;
    (split; [|first [done|by rewrite Eq in HD|idtac]]).
  1,2: unfold mux_bound in Hb; rewrite <- HD in Hb; pose proof (mux_clock_ok _ _ _ _ _ _ Hg Hb) as Hc; unfold wp in Hc; rewrite E in Hc;
    destruct Hc as [? Hd]; first [done|by rewrite Hd].
  - destruct Hg as (log & dn & rt & open & ins & ch & []). exists log, dn, rt, open, ins, ch. pose proof (aget_Some _ _ _ Es) as L.
    split; upd_proj; try done.
    + destruct mi_wired0 as (Hn & Hwire & Hgw). split; [done|]. split; [|done]. intros k Hk. upd_proj. rewrite aget_insert by done.
      destruct (Hwire k Hk) as (f' & s' & r' & Ef' & Es' & Er' & Wf2 & Wr2). destruct (Z.eqb_spec k h) as [->|].
      * exists f', (chan_snoc s q), r'. by split_and!.
      * exists f', s', r'. by split_and!.
    + intros k Hk. unfold fn_snoc, mux_waiting. upd_proj. rewrite aget_insert by done. rewrite mi_sent0 by done. unfold mux_waiting.
      destruct (Z.eqb_spec k h) as [->|]; [|done]. rewrite Es. destruct mi_wired0 as (_ & Hwire & _).
      destruct (Hwire h Hh) as (f' & s' & r' & -> & _). cbn. by rewrite <- !app_assoc.
  - destruct Hg as (log & dn & rt & open & ins & ch & []). exists log, dn, rt, open, ins, ch. pose proof (aget_Some _ _ _ Er) as L.
    split; upd_proj; try done.
    + destruct mi_wired0 as (Hn & Hwire & Hgw). split; [done|]. split; [|done]. intros k Hk. upd_proj. rewrite aget_insert by done.
      destruct (Hwire k Hk) as (f' & s' & r' & Ef' & Es' & Er' & Wf2 & Wr2). destruct (Z.eqb_spec k h) as [->|].
      * exists f', s', (Chan d rs). split_and!; try done. rewrite Er in Er'. injection Er' as <-. by apply (chan_wf_tail (Chan d (r :: rs)) r).
      * exists f', s', r'. by split_and!.
    + intros k Hk. rewrite <- mi_got0 by done. unfold fn_snoc, mux_answers. upd_proj. rewrite aget_insert by done.
      destruct (Z.eqb_spec k h) as [->|]; [|done]. rewrite Er. cbn. by rewrite <- app_assoc.
  - destruct Hg as (log & dn & rt & open & ins & ch & []). destruct mi_guest0 as (Hlog & Hch & Hins). rewrite Eq in Hlog, Hch. cbn in Hlog, Hch.
    destruct ch as [|p ch]; [done|]. injection Hch as <- Hch. exists log, dn, rt, open, (ins ++ [p]), ch. split; upd_proj; try done.
    + destruct mi_wired0 as (Hn & Hwire & Hgw). split; [done|]. split; [done|]. upd_proj. rewrite Eq in Hgw. by apply (chan_wf_tail (Chan d (p.2 :: qs)) p.2).
    + by rewrite <- (app_assoc ins).
    + rewrite Hlog, fmap_app, Hins. by rewrite <- app_assoc.
  - destruct Hg as (log & dn & rt & open & ins & ch & []). destruct mi_guest0 as (Hlog & Hch & Hins). destruct mi_given0 as (HP & Hrt & Hids).
    rewrite Ei in Hins. apply fmap_app_inv in Hins as (j1 & j2' & E1 & E2 & ->). symmetry in E2. apply fmap_cons_inv in E2 as (p & j2 & -> & E2 & ->).
    exists log, dn, (rt ++ [(p, r)]), open, (j1 ++ j2), ch. split; upd_proj; try done.
    + rewrite fmap_app, <- (app_assoc j1). apply (by_key_overtake req_key rt.*1 j1 (j2 ++ ch) p); [|by rewrite <- (app_assoc j1) in mi_match0].
      intros y Hy. apply (Hi1 y.2). rewrite E1. apply list_elem_of_fmap. by exists y.
    + split; [done|]. split; [done|]. by rewrite fmap_app, <- E1, E2.
    + split; [by rewrite app_assoc, fmap_app, HP|]. split; [by rewrite fmap_app, Hrt|]. apply Forall_app. split; [done|]. by constructor.
Qed.

Lemma mux_bound_back D w w' : mux_step w w' -> mux_bound D w' -> mux_bound D w.
Proof. unfold mux_bound. intros []; upd_proj; try done. rewrite length_app. cbn. lia. Qed.

Lemma mux_bound_run D w w' : rtc mux_step w w' -> mux_bound D w' -> mux_bound D w.
Proof. induction 1 as [|w1 w2 w3 Hs _ IH]; [done|]. intros Hb. eapply mux_bound_back; eauto. Qed.

Lemma mux_run_ok D w w' : rtc mux_step w w' -> mux_bound D w' -> world_ok D w -> world_ok D w'.
Proof.
  induction 1 as [|w1 w2 w3 Hs Hr IH]; [done|]. intros Hb Hw. apply IH; [done|].
  eapply mux_step_ok; [done| |done]. by eapply mux_bound_run; [eapply rtc_l|].
Qed.

(** ** Reset *)

(** A multiplexer before its first cycle: nothing is on its way. *)
Record mux_built (m : bti_mux_t) : Prop := {
  mb_wired : mux_wired m;
  mb_ost : ostk_wf (bm_ost m);
  mb_empty : forall h, 0 <= h < bm_host_num m -> (exists s, aget (bm_host_req_slvs m) h = Some (Some s) /\ ch_pkts s = []) /\ mux_answers m h = [];
  mb_guest : ch_pkts (bm_gst_req_mst m) = [] /\ ch_pkts (bm_gst_rsp_slv m) = []
}.

Definition mux_start (m : bti_mux_t) : mux_world := MuxWorld m (fun _ => []) (fun _ => []) [] [] [].

(** The loop clears the FIFOs from [i] on and leaves those before. *)
Lemma mux_reset_loop_ok n i m : mux_wired m -> 0 <= i -> i + Z.of_nat n <= bm_host_num m ->
  wp (mux_reset_loop n i) (fun _ m' => (exists fs, m' = m <| bm_host_req_fifos := fs |>) /\ mux_wired m' /\
    (forall h, 0 <= h < i -> aget (bm_host_req_fifos m') h = aget (bm_host_req_fifos m) h) /\
    forall h f, aget (bm_host_req_fifos m') h = Some f -> i <= h < i + Z.of_nat n -> ch_pkts f = []) m.
Proof.
  revert i m. induction n as [|n IH]; intros i m Hw Hi Hn; cbn [mux_reset_loop].
  { apply wp_ret. split; [exists (bm_host_req_fifos m); by destruct m|]. split; [done|]. split; [done|]. lia. }
  pose proof Hw as (Hnum & Hwire & Hg). destruct (Hwire i ltac:(lia)) as (f & s & r & Ef & Es & Er & Wf & Wr).
  apply wp_bind, wp_on. eapply wp_at_elem; [done|]. apply wp_modify. pose proof (aget_Some _ _ _ Ef) as L.
  set (fs := <[Z.to_nat i := f <| ch_pkts := [] |>]> (bm_host_req_fifos m)).
  assert (mux_wired (m <| bm_host_req_fifos := fs |>)) as Hw1.
  { split; [done|]. split; [|done]. intros k Hk. upd_proj. unfold fs. rewrite aget_insert by done.
    destruct (Hwire k Hk) as (f' & s' & r' & Ef' & Es' & Er' & Wf2 & Wr2). destruct (Z.eqb_spec k i) as [->|].
    - exists (f <| ch_pkts := [] |>), s', r'. split_and!; try done. unfold chan_wf, chan_num in *. cbn. lia.
    - exists f', s', r'. by split_and!. }
  eapply wp_mono; [apply IH; [exact Hw1|lia|upd_proj; lia]|]. intros [] m' ((fs' & ->) & Hw' & Hlow & Hc). revert Hlow Hc. upd_proj.
  intros Hlow Hc. split; [by exists fs'|]. split; [done|]. split.
  - intros h Hh. rewrite Hlow by lia. unfold fs. rewrite aget_insert by done. destruct (Z.eqb_spec h i); [lia|done].
  - intros h f' E Hh. destruct (Z.eqb_spec h i) as [->|]; [|apply (Hc h); [done|lia]].
    rewrite Hlow in E by lia. unfold fs in E. rewrite aget_insert, Z.eqb_refl in E by done. by injection E as <-.
Qed.

Lemma mux_reset_ok m : mux_built m ->
  wp bti_mux_reset (fun _ m' => world_ok (ch_depth (bm_gst_req_mst m)) (mux_start m')) m.
Proof.
  intros [Hw Ho He [Hq Hr]]. apply wp_bind, wp_modify, wp_bind, wp_gets. unfold id. upd_proj.
  set (m0 := m <| bm_req_rr_idx := 0 |>). assert (mux_wired m0) as Hw0 by exact Hw.
  apply wp_bind. eapply wp_mono; [apply mux_reset_loop_ok; [done|lia|]|].
  { change (bm_host_num m0) with (bm_host_num m). destruct Hw as [? _]. lia. }
  intros [] m' ((fs & ->) & Hw' & _ & Hc). apply wp_bind, wp_on. upd_proj. apply wp_key_reset; [done|]. intros ost' Ht.
  apply wp_modify. unfold world_ok, mux_start. upd_proj. split; [|done]. exists [], [], [], [], [], [].
  assert (forall h, 0 <= h < bm_host_num m -> mux_waiting (m0 <| bm_host_req_fifos := fs |>) h = []) as Hno.
  { intros h Hh. destruct (He h Hh) as [(s & Es & Hs) _]. destruct Hw' as (_ & Hwire & _).
    destruct (Hwire h Hh) as (f & s' & r & Ef & Es' & _). unfold mux_waiting. rewrite Ef, Es'. rewrite (Hc h f Ef) by (upd_proj; lia).
    change (aget (bm_host_req_slvs m) h = Some (Some s')) in Es'. rewrite Es in Es'. by injection Es' as <-. }
  split; upd_proj; try done.
  - destruct Hw. cbn. lia.
  - intros h Hh. symmetry. by apply Hno.
  - intros h Hh. by apply He.
Qed.

(** ** What the hosts see *)

(** The requests a host has passed to the guest, and the answers it has got, are those of [log] and
    [done]: requests with their host, answers with the request they belong to. *)
Record mux_served (w : mux_world) (log : list (Z * bti_req_if_t)) (done : list (Z * bti_req_if_t * bti_rsp_if_t)) : Prop := {
  ms_guest : log.*2 = mw_taken w ++ ch_pkts (bm_gst_req_mst (mw_mux w));
  ms_sent : forall h, 0 <= h < bm_host_num (mw_mux w) -> mw_sent w h = (of_host h fst log).*2 ++ mux_waiting (mw_mux w) h;
  ms_got : forall h, 0 <= h < bm_host_num (mw_mux w) ->
    mw_got w h ++ mux_answers (mw_mux w) h = (of_host h (fun x => x.1.1) done).*2;
  ms_pairs : ((fun x => (x.1.2, x.2)) <$> done) `prefix_of` mw_given w;
  ms_once : done.*1 ⊆+ log;
  ms_all : mw_inside w = [] -> ch_pkts (bm_gst_req_mst (mw_mux w)) = [] -> ch_pkts (bm_gst_rsp_slv (mw_mux w)) = [] -> done.*1 ≡ₚ log
}.

(** C9: In every run of the multiplexer from reset no check fails; the guest gets the requests of each host
    in the order the host sent them, all of them but those still waiting; each host gets the answers
    the guest gave to its own requests and only those, even when hosts use the same transaction
    numbers; no request is answered twice, and all are answered once nothing is left with the guest. *)
Theorem bti_mux_routes (m m0 : bti_mux_t) (w : mux_world) : mux_built m -> bti_mux_reset m = Some (tt, m0) ->
  rtc mux_step (mux_start m0) w -> mux_bound (ch_depth (bm_gst_req_mst m)) w ->
  (exists m', bti_mux_clock (mw_mux w) = Some (tt, m')) /\ exists log done, mux_served w log done.
Proof.
  intros Hb E Hr Hn. pose proof (mux_reset_ok m Hb) as H0. unfold wp in H0. rewrite E in H0.
  destruct (mux_run_ok _ _ _ Hr Hn H0) as [Hg HD]. split.
  - unfold mux_bound in Hn. rewrite <- HD in Hn. pose proof (mux_clock_ok _ _ _ _ _ _ Hg Hn) as Hc. unfold wp in Hc.
    destruct (bti_mux_clock _) as [[[] m']|]; [by exists m'|done].
  - destruct Hg as (log & dn & rt & open & ins & ch & []). exists log, dn.
    destruct mi_guest0 as (Hlog & Hch & Hins), mi_given0 as (HP & Hrt & _). split; try done.
    + rewrite <- HP, fmap_app. by apply prefix_app_r.
    + rewrite mi_log0. by apply submseteq_inserts_r.
    + intros H1 H2 H3. rewrite H1 in Hins. rewrite H2 in Hch. rewrite H3 in Hrt. apply fmap_nil_inv in Hins, Hch, Hrt. subst.
      assert (open = []) as ->; [|by rewrite mi_log0, app_nil_r].
      destruct open as [|p o]; [done|]. assert (p ∈ ([] : list (Z * bti_req_if_t))) as Hp by (apply (by_key_elem req_key _ _ p mi_match0); by left).
      by apply elem_of_nil in Hp.
Qed.

(** ** Witness *)

Inductive mux_move := MxClock | MxSend (h : Z) (q : bti_req_if_t) | MxTake (h : Z) | MxGuestTake | MxGuestGive (r : bti_rsp_if_t).

Definition mux_do (w : mux_world) (v : mux_move) : mux_world :=
  let m := mw_mux w in
  match v with
  | MxClock => match bti_mux_clock m with Some (_, m') => w <| mw_mux := m' |> | None => w end
  | MxSend h q => match (if (0 <=? h) && (h <? bm_host_num m) then aget (bm_host_req_slvs m) h else None) with
    | Some (Some s) => if chan_full s then w else
        w <| mw_mux := m <| bm_host_req_slvs := <[Z.to_nat h := Some (chan_snoc s q)]> (bm_host_req_slvs m) |> |>
          <| mw_sent := fn_snoc (mw_sent w) h q |>
    | _ => w
    end
  | MxTake h => match (if (0 <=? h) && (h <? bm_host_num m) then aget (bm_host_rsp_msts m) h else None) with
    | Some (Some (Chan d (r :: rs))) =>
        w <| mw_mux := m <| bm_host_rsp_msts := <[Z.to_nat h := Some (Chan d rs)]> (bm_host_rsp_msts m) |> |>
          <| mw_got := fn_snoc (mw_got w) h r |>
    | _ => w
    end
  | MxGuestTake => match bm_gst_req_mst m with
    | Chan d (q :: qs) => w <| mw_mux := m <| bm_gst_req_mst := Chan d qs |> |> <| mw_taken := mw_taken w ++ [q] |>
        <| mw_inside := mw_inside w ++ [q] |>
    | _ => w
    end
  | MxGuestGive r => match mw_inside w with
    | q :: i2 => if (bp_trans_id r =? bq_trans_id q) && negb (chan_full (bm_gst_rsp_slv m)) then
        w <| mw_mux := m <| bm_gst_rsp_slv := chan_snoc (bm_gst_rsp_slv m) r |> |> <| mw_inside := i2 |>
          <| mw_given := mw_given w ++ [(q, r)] |> else w
    | [] => w
    end
  end.

Lemma mux_do_sound w v : rtc mux_step w (mux_do w v).
Proof.
  destruct v as [|h q|h| |r]; cbn [mux_do].
  - destruct (bti_mux_clock _) as [[[] m']|] eqn:E; [|done]. by apply rtc_once, MuxClock.
  - destruct ((0 <=? h) && _) eqn:Eh; [|done]. apply andb_true_iff in Eh as [? ?]. destruct (aget _ _) as [[s|]|] eqn:E; [|done..].
    destruct (chan_full s) eqn:Ef; [done|]. apply rtc_once, MuxSend; [lia|done..].
  - destruct ((0 <=? h) && _) eqn:Eh; [|done]. apply andb_true_iff in Eh as [? ?].
    destruct (aget _ _) as [[[d [|r rs]]|]|] eqn:E; [done| |done..]. apply rtc_once. eapply MuxTake; [lia|done].
  - destruct (bm_gst_req_mst _) as [d [|q qs]] eqn:E; [done|]. by apply rtc_once, MuxGuestTake.
  - destruct (mw_inside w) as [|q i2] eqn:E; [done|]. destruct (_ =? _) eqn:Eq; [|done]. destruct (chan_full _) eqn:Ef; [done|]. cbn [andb negb].
    apply rtc_once, (MuxGuestGive w [] q i2 r); [done| |lia|done]. intros q' Hq. by apply elem_of_nil in Hq.
Qed.

Lemma mux_script_sound vs w : rtc mux_step w (foldl mux_do w vs).
Proof. revert w. induction vs as [|v vs IH]; intros w; [done|]. simpl. etrans; [apply mux_do_sound|apply IH]. Qed.

Definition mux_example0 : bti_mux_t :=
  BtiMux [Some (Chan 2 []); Some (Chan 2 [])] [Some (Chan 2 []); Some (Chan 2 [])] (Chan 2 []) (Chan 2 []) 2 0 [Chan 2 []; Chan 2 []]
    (Ostk [OstkEntry false false 0 0 (BtiMuxOstCtx 0); OstkEntry false false 0 0 (BtiMuxOstCtx 0)] 2 4 0 0 0 0 0) 0.
Definition mux_example1 : bti_mux_t := default mux_example0 (snd <$> bti_mux_reset mux_example0).

Lemma mux_example_built : mux_built mux_example0.
Proof.
  assert (forall h, 0 <= h < 2 -> h = 0 \/ h = 1) as Hc by lia.
  split; [| | |done].
  - split; [done|]. split; [|done]. intros h [-> | ->]%Hc; do 3 eexists; by split_and!.
  - assert (ostk_construct (A := bti_mux_ost_ctx_t) 4 2 = Some (bm_ost mux_example0)) as E by (vm_compute; reflexivity).
    by destruct (ostk_construct_run _ _ _ E ltac:(done) ltac:(done)).
  - intros h [-> | ->]%Hc; (split; [by eexists|done]).
Qed.

(** Both hosts ask with the number 7; the guest answers 10 and then 11. *)
Definition mux_example_run : list mux_move :=
  [MxSend 0 (BtiReq 7 BTI_REQ_CMD_READ 0x100 BTI_REQ_SIZE_B4 0 0); MxSend 1 (BtiReq 7 BTI_REQ_CMD_READ 0x200 BTI_REQ_SIZE_B4 0 0);
   MxClock; MxClock; MxGuestTake; MxGuestTake; MxGuestGive (BtiRsp 7 10 true); MxClock; MxGuestGive (BtiRsp 7 11 true); MxClock;
   MxTake 0; MxTake 1].
Definition mux_example_end : mux_world := foldl mux_do (mux_start mux_example1) mux_example_run.

Lemma bti_mux_routes_witness :
  (mw_got mux_example_end 0 = [BtiRsp 7 10 true] /\ mw_got mux_example_end 1 = [BtiRsp 7 11 true]) /\
  exists log done, mux_served mux_example_end log done.
Proof.
  split; [split; vm_compute; reflexivity|].
  exact (proj2 (bti_mux_routes mux_example0 mux_example1 mux_example_end mux_example_built ltac:(vm_compute; reflexivity)
    (mux_script_sound mux_example_run _) ltac:(vm_compute; reflexivity))).
Defined.
