(* ===== verification/AxiLog.v ===== *)
(** * Histories of a memory port

    The specification that the level 2 cache and the memory are verified against: a log of the beats that
    were performed, in one order for all ports, determines the memory and every answer.  A port is
    correct when such a log explains all that its master sees. *)

From stdpp Require Import base numbers list.
From Stdlib Require Import ZArith Lia.
From S2P Require Import Prelude Fifo Axi L1 L1Cache AxiMem.

(** ** Bursts *)

(** The beats of a burst; a maintenance operation has one. *)
Definition rd_beats (ar : axi4_ar_if_t) : list (axi4_ar_if_t * nat) :=
  if axi4_user_is_cmo (ar_user ar) then [(ar, 0%nat)] else pair ar <$> seq 0 (Z.to_nat (ar_len ar + 1)).
Definition wr_beats (aw : axi4_aw_if_t) : list (axi4_aw_if_t * nat) := pair aw <$> seq 0 (Z.to_nat (aw_len aw + 1)).

(** ** The log *)

Inductive axi_event :=
| EvRead (p : Z) (ar : axi4_ar_if_t) (k : nat)
| EvWrite (p : Z) (aw : axi4_aw_if_t) (k : nat) (w : axi4_w_if_t).

(** The bytes of the word at [a] that the strobe selects. *)
Definition put_word (V : Z -> Z) (a : Z) (w : axi4_w_if_t) : Z -> Z := fun x =>
  let o := x - a in if (0 <=? o) && (o <? 4) && Z.testbit (w_strb w) o then word_byte (w_data w) o else V x.

Definition ev_mem (V : Z -> Z) (ev : axi_event) : Z -> Z :=
  match ev with EvRead _ _ _ => V | EvWrite _ aw k w => put_word V (aw_addr aw + 4 * Z.of_nat k) w end.

Definition ev_rsp (V : Z -> Z) (ar : axi4_ar_if_t) (k : nat) : axi4_r_if_t :=
  if axi4_user_is_cmo (ar_user ar) then AxiR (ar_id ar) 0 AXI4_RESP_OKAY true else read_beat V ar k.

(** The flat memory after the log, and what a flat memory answers to the port [p] on the way. *)
Definition run_mem (V : Z -> Z) (log : list axi_event) : Z -> Z := foldl ev_mem V log.

Fixpoint answers (p : Z) (V : Z -> Z) (log : list axi_event) : list axi4_r_if_t :=
  match log with
  | [] => []
  | ev :: log => match ev with EvRead q ar k => if q =? p then [ev_rsp V ar k] else [] | _ => [] end ++ answers p (ev_mem V ev) log
  end.

Definition reads_of (p : Z) (log : list axi_event) : list (axi4_ar_if_t * nat) :=
  log ≫= fun ev => match ev with EvRead q ar k => if q =? p then [(ar, k)] else [] | _ => [] end.
Definition writes_of (p : Z) (log : list axi_event) : list (axi4_aw_if_t * nat * axi4_w_if_t) :=
  log ≫= fun ev => match ev with EvWrite q aw k w => if q =? p then [(aw, k, w)] else [] | _ => [] end.

(** The acknowledgements of the bursts whose last beat is in. *)
Definition acks (l : list (axi4_aw_if_t * nat * axi4_w_if_t)) : list axi4_b_if_t :=
  l ≫= fun '(aw, k, _) => if Z.of_nat k =? aw_len aw then [AxiB (aw_id aw) AXI4_RESP_OKAY] else [].

Lemma run_mem_snoc V log ev : run_mem V (log ++ [ev]) = ev_mem (run_mem V log) ev.
Proof. unfold run_mem. by rewrite foldl_app. Qed.

Lemma answers_snoc p V log ev : answers p V (log ++ [ev]) = answers p V log ++
  match ev with EvRead q ar k => if q =? p then [ev_rsp (run_mem V log) ar k] else [] | _ => [] end.
Proof.
  revert V. induction log as [|ev' log IH]; intros V.
  - simpl. by rewrite app_nil_r.
  - simpl. by rewrite IH, app_assoc.
Qed.

Lemma reads_snoc p log ev : reads_of p (log ++ [ev]) = reads_of p log ++
  match ev with EvRead q ar k => if q =? p then [(ar, k)] else [] | _ => [] end.
Proof. unfold reads_of. rewrite bind_app. simpl. by rewrite app_nil_r. Qed.

Lemma writes_snoc p log ev : writes_of p (log ++ [ev]) = writes_of p log ++
  match ev with EvWrite q aw k w => if q =? p then [(aw, k, w)] else [] | _ => [] end.
Proof. unfold writes_of. rewrite bind_app. simpl. by rewrite app_nil_r. Qed.

(** ** What a master knows *)

(** What the master of a port has sent and taken. *)
Record port_hist := PortHist {
  hs_ar : list axi4_ar_if_t; hs_aw : list axi4_aw_if_t; hs_w : list axi4_w_if_t; hs_r : list axi4_r_if_t; hs_b : list axi4_b_if_t }.
#[export] Instance eta_port_hist : Eta port_hist := fun h => PortHist (hs_ar h) (hs_aw h) (hs_w h) (hs_r h) (hs_b h).

(** The beats of data fit the bursts they belong to. *)
Definition lasts_ok (h : port_hist) : Prop :=
  (length (hs_w h) <= length (hs_aw h ≫= wr_beats))%nat /\
  forall i x w, (hs_aw h ≫= wr_beats) !! i = Some x -> hs_w h !! i = Some w -> w_last w = (Z.of_nat x.2 =? aw_len x.1).

(** The next beat of data belongs to a burst that was sent, and says whether it is the last. *)
Definition w_fits (h : port_hist) (w : axi4_w_if_t) : Prop :=
  exists x, (hs_aw h ≫= wr_beats) !! length (hs_w h) = Some x /\ w_last w = (Z.of_nat x.2 =? aw_len x.1).

Lemma lasts_aw h aw : lasts_ok h -> lasts_ok (h <| hs_aw := hs_aw h ++ [aw] |>).
Proof.
  intros [Hl Hx]. split; upd_proj; rewrite bind_app; [rewrite length_app; lia|].
  intros i x w Hi Hw. apply (Hx i); [|done]. rewrite lookup_app_l in Hi; [done|]. apply lookup_lt_Some in Hw. lia.
Qed.

Lemma lasts_w h w : lasts_ok h -> w_fits h w -> lasts_ok (h <| hs_w := hs_w h ++ [w] |>).
Proof.
  intros [Hle Hy] (x & Hx & Hl). split; upd_proj; [rewrite length_app; simpl; apply lookup_lt_Some in Hx; lia|].
  intros i y w' Hi Hw. destruct (decide (i < length (hs_w h))%nat); [rewrite lookup_app_l in Hw by done; by apply (Hy i)|].
  assert (i = length (hs_w h)) as -> by (apply lookup_lt_Some in Hw; rewrite length_app in Hw; simpl in Hw; lia).
  rewrite lookup_app_r, Nat.sub_diag in Hw by lia. injection Hw as <-. congruence.
Qed.

(** ** Beats that are left *)

Lemma drop_pairs {A} (x : A) n k : (k < n)%nat -> drop k (pair x <$> seq 0 n) = (x, k) :: drop (S k) (pair x <$> seq 0 n).
Proof. intros Hk. apply drop_S. by rewrite list_lookup_fmap, lookup_seq_lt. Qed.

Lemma drop_pairs_end {A} (x : A) n k : (n <= k)%nat -> drop k (pair x <$> seq 0 n) = [].
Proof. intros Hk. apply drop_ge. by rewrite length_fmap, length_seq. Qed.

(** Nothing was sent or taken. *)
Definition no_hist : port_hist := PortHist [] [] [] [] [].

Definition w_fitsb (h : port_hist) (w : axi4_w_if_t) : bool :=
  match (hs_aw h ≫= wr_beats) !! length (hs_w h) with Some x => Bool.eqb (w_last w) (Z.of_nat x.2 =? aw_len x.1) | None => false end.

Lemma w_fitsb_ok h w : w_fitsb h w = true -> w_fits h w.
Proof. unfold w_fitsb, w_fits. destruct (_ !! _) as [x|]; [|done]. intros E%eqb_prop. eauto. Qed.
