(* ===== verification/L2.v ===== *)
(** * The level 2 cache

    [core/l2.c]: a set-associative write-back cache with a port for the instruction cache and one for the
    data cache, in front of the memory port.  Each port serves one burst at a time, beat by beat; a
    beat that misses takes the memory machine, which writes the victim back and refills its line.
    Accesses that are not cacheable pass through, and cache maintenance operations clean lines. *)

From stdpp Require Import base numbers list.
From Stdlib Require Import ZArith Lia.
From S2P Require Import Prelude Fifo Ost Axi.

Definition L2_LINE_SIZE : Z := 64.
Definition L2_PORT_NUM : Z := 2.
Definition L2_I_PORT : Z := 0.
Definition L2_D_PORT : Z := 1.
Definition L2_WORD_SIZE : Z := 4.
Definition L2_WORD_NUM : Z := L2_LINE_SIZE / L2_WORD_SIZE.

Record l2_conf_t := L2Conf { l2f_size : Z; l2f_way_num : Z; l2f_latency : Z; l2f_stg_fifo_depth : Z; l2f_bypass_ost_depth : Z }.

Inductive l2_port_state_t :=
| L2_PORT_STATE_IDLE | L2_PORT_STATE_READ | L2_PORT_STATE_WRITE | L2_PORT_STATE_MISS_WAIT | L2_PORT_STATE_CMO_WAIT
| L2_PORT_STATE_CMO_RSP.
#[export] Instance l2_port_state_eq_dec : EqDecision l2_port_state_t.
Proof. solve_decision. Defined.

Record l2_port_t := L2Port {
  po_state : l2_port_state_t; po_miss_return_state : l2_port_state_t; po_ar : axi4_ar_if_t; po_aw : axi4_aw_if_t;
  po_addr : Z; po_beat_idx : Z; po_miss_resolved : bool; po_latency_active : bool; po_delay : Z }.
#[export] Instance eta_l2_port : Eta l2_port_t := fun p =>
  L2Port (po_state p) (po_miss_return_state p) (po_ar p) (po_aw p) (po_addr p) (po_beat_idx p) (po_miss_resolved p)
    (po_latency_active p) (po_delay p).

Record l2_bypass_rd_ctx_t := L2BypassRd { br_port : Z }.
#[export] Instance zero_l2_bypass_rd : Zero l2_bypass_rd_ctx_t := L2BypassRd 0.

Record l2_bypass_wr_ctx_t := L2BypassWr { bw_port : Z; bw_beat_idx : Z; bw_beat_num : Z; bw_w_done : bool }.
#[export] Instance eta_l2_bypass_wr : Eta l2_bypass_wr_ctx_t := fun c =>
  L2BypassWr (bw_port c) (bw_beat_idx c) (bw_beat_num c) (bw_w_done c).
#[export] Instance zero_l2_bypass_wr : Zero l2_bypass_wr_ctx_t := L2BypassWr 0 0 0 false.

Inductive l2_mem_state_t :=
| L2_MEM_STATE_IDLE | L2_MEM_STATE_WB_AW | L2_MEM_STATE_WB_W | L2_MEM_STATE_WB_B | L2_MEM_STATE_REFILL_AR
| L2_MEM_STATE_REFILL_R | L2_MEM_STATE_CMO_WB_AW | L2_MEM_STATE_CMO_WB_W | L2_MEM_STATE_CMO_WB_B.
#[export] Instance l2_mem_state_eq_dec : EqDecision l2_mem_state_t.
Proof. solve_decision. Defined.

Record l2_t := L2 {
  l2_i_axi4_aw_slv : chan axi4_aw_if_t;
  l2_i_axi4_w_slv : chan axi4_w_if_t;
  l2_i_axi4_b_mst : chan axi4_b_if_t;
  l2_i_axi4_ar_slv : chan axi4_ar_if_t;
  l2_i_axi4_r_mst : chan axi4_r_if_t;
  l2_d_axi4_aw_slv : chan axi4_aw_if_t;
  l2_d_axi4_w_slv : chan axi4_w_if_t;
  l2_d_axi4_b_mst : chan axi4_b_if_t;
  l2_d_axi4_ar_slv : chan axi4_ar_if_t;
  l2_d_axi4_r_mst : chan axi4_r_if_t;
  l2_mem_axi4_aw_mst : chan axi4_aw_if_t;
  l2_mem_axi4_w_mst : chan axi4_w_if_t;
  l2_mem_axi4_b_slv : chan axi4_b_if_t;
  l2_mem_axi4_ar_mst : chan axi4_ar_if_t;
  l2_mem_axi4_r_slv : chan axi4_r_if_t;
  l2_conf : l2_conf_t;
  l2_set_num : Z;
  l2_line_num : Z;
  l2_tags : list Z;
  l2_data : list Z;
  l2_replace_ways : list Z;
  l2_valids : list bool;
  l2_dirtys : list bool;
  l2_ar_fifos : list (chan axi4_ar_if_t);
  l2_aw_fifos : list (chan axi4_aw_if_t);
  l2_w_fifos : list (chan axi4_w_if_t);
  l2_bypass_rd_ost : ostq_t l2_bypass_rd_ctx_t;
  l2_bypass_wr_ost : ostq_t l2_bypass_wr_ctx_t;
  l2_ports : list l2_port_t;
  l2_mem_state : l2_mem_state_t;
  l2_mem_owner : Z;
  l2_miss_line_addr : Z;
  l2_miss_set : Z;
  l2_miss_tag : Z;
  l2_miss_line_idx : Z;
  l2_wb_line_addr : Z;
  l2_mem_beat_idx : Z;
  l2_cmo_user : Z;
  l2_cmo_line_idx : Z;
  l2_cmo_hit : bool;
  l2_data_write_used : bool;
  l2_perf_hit : Z;
  l2_perf_miss : Z;
  l2_perf_bypass : Z;
  l2_perf_writeback : Z;
  l2_perf_bypass_rd_ost_full : Z;
  l2_perf_bypass_wr_ost_full : Z;
  l2_perf_miss_busy : Z;
  l2_perf_stg_ar_full : list Z;
  l2_perf_stg_aw_full : list Z;
  l2_perf_stg_w_full : list Z
}.
#[export] Instance eta_l2 : Eta l2_t := fun l =>
  L2 (l2_i_axi4_aw_slv l) (l2_i_axi4_w_slv l) (l2_i_axi4_b_mst l) (l2_i_axi4_ar_slv l) (l2_i_axi4_r_mst l)
    (l2_d_axi4_aw_slv l) (l2_d_axi4_w_slv l) (l2_d_axi4_b_mst l) (l2_d_axi4_ar_slv l) (l2_d_axi4_r_mst l)
    (l2_mem_axi4_aw_mst l) (l2_mem_axi4_w_mst l) (l2_mem_axi4_b_slv l) (l2_mem_axi4_ar_mst l) (l2_mem_axi4_r_slv l)
    (l2_conf l) (l2_set_num l) (l2_line_num l) (l2_tags l) (l2_data l) (l2_replace_ways l) (l2_valids l)
    (l2_dirtys l) (l2_ar_fifos l) (l2_aw_fifos l) (l2_w_fifos l) (l2_bypass_rd_ost l) (l2_bypass_wr_ost l)
    (l2_ports l) (l2_mem_state l) (l2_mem_owner l) (l2_miss_line_addr l) (l2_miss_set l) (l2_miss_tag l)
    (l2_miss_line_idx l) (l2_wb_line_addr l) (l2_mem_beat_idx l) (l2_cmo_user l) (l2_cmo_line_idx l) (l2_cmo_hit l)
    (l2_data_write_used l) (l2_perf_hit l) (l2_perf_miss l) (l2_perf_bypass l) (l2_perf_writeback l)
    (l2_perf_bypass_rd_ost_full l) (l2_perf_bypass_wr_ost_full l) (l2_perf_miss_busy l) (l2_perf_stg_ar_full l)
    (l2_perf_stg_aw_full l) (l2_perf_stg_w_full l).

(** ** The interfaces of a port *)

Definition l2_port_aw_slv (l2 : l2_t) (port : Z) := if port =? L2_I_PORT then l2_i_axi4_aw_slv l2 else l2_d_axi4_aw_slv l2.
Definition l2_port_w_slv (l2 : l2_t) (port : Z) := if port =? L2_I_PORT then l2_i_axi4_w_slv l2 else l2_d_axi4_w_slv l2.
Definition l2_port_b_mst (l2 : l2_t) (port : Z) := if port =? L2_I_PORT then l2_i_axi4_b_mst l2 else l2_d_axi4_b_mst l2.
Definition l2_port_ar_slv (l2 : l2_t) (port : Z) := if port =? L2_I_PORT then l2_i_axi4_ar_slv l2 else l2_d_axi4_ar_slv l2.
Definition l2_port_r_mst (l2 : l2_t) (port : Z) := if port =? L2_I_PORT then l2_i_axi4_r_mst l2 else l2_d_axi4_r_mst l2.

(** Operations through these pointers. *)
Definition on_aw_slv {B} (port : Z) (m : M (chan axi4_aw_if_t) B) : M l2_t B :=
  if port =? L2_I_PORT then on l2_i_axi4_aw_slv m else on l2_d_axi4_aw_slv m.
Definition on_w_slv {B} (port : Z) (m : M (chan axi4_w_if_t) B) : M l2_t B :=
  if port =? L2_I_PORT then on l2_i_axi4_w_slv m else on l2_d_axi4_w_slv m.
Definition on_b_mst {B} (port : Z) (m : M (chan axi4_b_if_t) B) : M l2_t B :=
  if port =? L2_I_PORT then on l2_i_axi4_b_mst m else on l2_d_axi4_b_mst m.
Definition on_ar_slv {B} (port : Z) (m : M (chan axi4_ar_if_t) B) : M l2_t B :=
  if port =? L2_I_PORT then on l2_i_axi4_ar_slv m else on l2_d_axi4_ar_slv m.
Definition on_r_mst {B} (port : Z) (m : M (chan axi4_r_if_t) B) : M l2_t B :=
  if port =? L2_I_PORT then on l2_i_axi4_r_mst m else on l2_d_axi4_r_mst m.

(** [l2->ports[port]] read, and assigned to. *)
Definition port_get (port : Z) : M l2_t l2_port_t := l2 ← gets id; of_option (aget (l2_ports l2) port).
Definition port_upd (port : Z) (f : l2_port_t -> l2_port_t) : M l2_t unit := on l2_ports (at_elem port (modify f)).

(** ** Addresses, lookup and replacement *)

Definition l2_line_idx (l2 : l2_t) (set way : Z) : Z := u32 (set * l2f_way_num (l2_conf l2) + way).

Definition l2_line_addr (l2 : l2_t) (tag set : Z) : Z := u32 (u32 (u32 (tag * l2_set_num l2) + set) * L2_LINE_SIZE).

Definition l2_req_set (l2 : l2_t) (addr : Z) : Z := (addr / L2_LINE_SIZE) mod l2_set_num l2.

Definition l2_req_tag (l2 : l2_t) (addr : Z) : Z := (addr / L2_LINE_SIZE) / l2_set_num l2.

(** The loop over the ways, from way [i] on with [n] left; the inner [None] is a miss. *)
Fixpoint l2_lookup_loop (l2 : l2_t) (set tag : Z) (n : nat) (i : Z) : option (option Z) :=
  match n with
  | O => Some None
  | S n =>
    let idx := l2_line_idx l2 set i in
    v ← aget (l2_valids l2) idx;
    t ← aget (l2_tags l2) idx;
    if v && (t =? tag) then Some (Some idx) else l2_lookup_loop l2 set tag n (i + 1)
  end.

Definition l2_lookup (l2 : l2_t) (addr : Z) : option (option Z) :=
  l2_lookup_loop l2 (l2_req_set l2 addr) (l2_req_tag l2 addr) (Z.to_nat (l2f_way_num (l2_conf l2))) 0.

Fixpoint l2_free_way_loop (l2 : l2_t) (set : Z) (n : nat) (i : Z) : option (option Z) :=
  match n with
  | O => Some None
  | S n =>
    let idx := l2_line_idx l2 set i in
    v ← aget (l2_valids l2) idx;
    if negb v : bool then Some (Some idx) else l2_free_way_loop l2 set n (i + 1)
  end.

Definition l2_select_victim (set : Z) : M l2_t Z :=
  l2 ← gets id;
  free ← of_option (l2_free_way_loop l2 set (Z.to_nat (l2f_way_num (l2_conf l2))) 0);
  match free with
  | Some idx => mret idx
  | None =>
    way ← of_option (aget (l2_replace_ways l2) set);
    on l2_replace_ways (put_elem set (u32 (way + 1) mod l2f_way_num (l2_conf l2)));;
    mret (l2_line_idx l2 set way)
  end.

Definition l2_next_addr (addr size burst : Z) : option Z :=
  if burst =? AXI4_BURST_WRAP then None
  else Some (if burst =? AXI4_BURST_FIXED then addr else u32 (addr + u32 (Z.shiftl 1 size))).

Definition l2_read_word (l2 : l2_t) (line_idx addr : Z) : option Z :=
  let word := Z.land addr (L2_LINE_SIZE - 1) / L2_WORD_SIZE in
  aget (l2_data l2) (u32 (line_idx * L2_WORD_NUM + word)).

(** The loop over the bytes of a word, from [byte] on with [n] left. *)
Fixpoint write_word_loop (data strobe : Z) (n : nat) (byte dst : Z) : Z :=
  match n with
  | O => dst
  | S n =>
    let shift := byte * 8 in
    let mask := u32 (Z.shiftl 0xff shift) in
    write_word_loop data strobe n (byte + 1)
      (if nz (Z.land strobe (Z.shiftl 1 byte)) then Z.lor (Z.land dst (not32 mask)) (Z.land data mask) else dst)
  end.

Definition l2_write_word (line_idx addr data strobe : Z) : M l2_t unit :=
  let word := Z.land addr (L2_LINE_SIZE - 1) / L2_WORD_SIZE in
  on l2_data (at_elem (u32 (line_idx * L2_WORD_NUM + word)) (modify (write_word_loop data strobe (Z.to_nat L2_WORD_SIZE) 0))).

Definition l2_port_next_read (port : Z) : M l2_t unit :=
  port_upd port (fun p => p <| po_beat_idx := u32 (po_beat_idx p + 1) |>);;
  p ← port_get port;
  addr ← of_option (l2_next_addr (po_addr p) (ar_size (po_ar p)) (ar_burst (po_ar p)));
  port_upd port (fun p => p <| po_addr := addr |>).

Definition l2_port_next_write (port : Z) : M l2_t unit :=
  port_upd port (fun p => p <| po_beat_idx := u32 (po_beat_idx p + 1) |>);;
  p ← port_get port;
  addr ← of_option (l2_next_addr (po_addr p) (aw_size (po_aw p)) (aw_burst (po_aw p)));
  port_upd port (fun p => p <| po_addr := addr |>).

(** ** Misses *)

Definition l2_start_miss (owner : Z) (return_state : l2_port_state_t) : M l2_t bool :=
  l2 ← gets id;
  if bool_decide (l2_mem_state l2 <> L2_MEM_STATE_IDLE) || negb (ostq_empty (l2_bypass_rd_ost l2)) ||
     negb (ostq_empty (l2_bypass_wr_ost l2)) then
    modify (fun l2 => l2 <| l2_perf_miss_busy := u64 (l2_perf_miss_busy l2 + 1) |>);;
    mret false
  else
    port ← port_get owner;
    modify (fun l2 => l2 <| l2_mem_owner := owner |>
      <| l2_miss_line_addr := Z.land (po_addr port) (not32 (L2_LINE_SIZE - 1)) |>
      <| l2_miss_set := l2_req_set l2 (po_addr port) |> <| l2_miss_tag := l2_req_tag l2 (po_addr port) |>);;
    victim ← l2_select_victim (l2_req_set l2 (po_addr port));
    modify (fun l2 => l2 <| l2_miss_line_idx := victim |>);;
    l2 ← gets id;
    tag ← of_option (aget (l2_tags l2) victim);
    modify (fun l2 => l2 <| l2_wb_line_addr := l2_line_addr l2 tag (l2_miss_set l2) |> <| l2_mem_beat_idx := 0 |>);;
    port_upd owner (fun p => p <| po_miss_return_state := return_state |> <| po_state := L2_PORT_STATE_MISS_WAIT |>);;
    modify (fun l2 => l2 <| l2_perf_miss := u64 (l2_perf_miss l2 + 1) |>);;
    v ← of_option (aget (l2_valids l2) victim);
    d ← (if v : bool then of_option (aget (l2_dirtys l2) victim) else mret false);
    on l2_valids (put_elem victim false);;
    (if (v && d) : bool then
       modify (fun l2 => l2 <| l2_perf_writeback := u64 (l2_perf_writeback l2 + 1) |> <| l2_mem_state := L2_MEM_STATE_WB_AW |>)
     else modify (fun l2 => l2 <| l2_mem_state := L2_MEM_STATE_REFILL_AR |>));;
    mret true.

Definition l2_port_latency_ready (port : Z) : M l2_t bool :=
  l2 ← gets id;
  p ← port_get port;
  if po_miss_resolved p || (l2f_latency (l2_conf l2) =? 0) then
    port_upd port (fun p => p <| po_latency_active := false |> <| po_delay := 0 |>);;
    mret true
  else
    when (negb (po_latency_active p)) (port_upd port (fun p => p <| po_latency_active := true |> <| po_delay := 0 |>));;
    port_upd port (fun p => p <| po_delay := u32 (po_delay p + 1) |>);;
    p ← port_get port;
    if po_delay p <? l2f_latency (l2_conf l2) then mret false
    else
      port_upd port (fun p => p <| po_latency_active := false |> <| po_delay := 0 |>);;
      mret true.

(** ** The memory machine *)

(** The address packet of a write back; the fields that are not named are zero. *)
Definition l2_wb_aw (addr : Z) : axi4_aw_if_t :=
  AxiAw 0 addr (L2_WORD_NUM - 1) AXI4_SIZE_B4 AXI4_BURST_INCR false 0xf 0 0 0.

Definition l2_proc_mem_wb_aw : M l2_t unit :=
  l2 ← gets id;
  if bool_decide (l2_mem_state l2 <> L2_MEM_STATE_WB_AW) || chan_full (l2_mem_axi4_aw_mst l2) then mret tt
  else
    on l2_mem_axi4_aw_mst (chan_write (l2_wb_aw (l2_wb_line_addr l2)));;
    modify (fun l2 => l2 <| l2_mem_beat_idx := 0 |> <| l2_mem_state := L2_MEM_STATE_WB_W |>).

(** A beat of the line [line_idx]; the result says that it was the last. *)
Definition l2_write_beat (line_idx : Z) : M l2_t bool :=
  l2 ← gets id;
  word ← of_option (aget (l2_data l2) (u32 (line_idx * L2_WORD_NUM + l2_mem_beat_idx l2)));
  let last := l2_mem_beat_idx l2 =? L2_WORD_NUM - 1 in
  on l2_mem_axi4_w_mst (chan_write (AxiW word 0xf last));;
  mret last.

Definition l2_proc_mem_wb_w : M l2_t unit :=
  l2 ← gets id;
  if bool_decide (l2_mem_state l2 <> L2_MEM_STATE_WB_W) || chan_full (l2_mem_axi4_w_mst l2) then mret tt
  else
    last ← l2_write_beat (l2_miss_line_idx l2);
    if last : bool then modify (fun l2 => l2 <| l2_mem_state := L2_MEM_STATE_WB_B |>)
    else modify (fun l2 => l2 <| l2_mem_beat_idx := u32 (l2_mem_beat_idx l2 + 1) |>).

Definition l2_proc_mem_wb_b : M l2_t unit :=
  l2 ← gets id;
  if bool_decide (l2_mem_state l2 <> L2_MEM_STATE_WB_B) || chan_empty (l2_mem_axi4_b_slv l2) then mret tt
  else
    b ← on l2_mem_axi4_b_slv chan_read;
    DBG_CHECK (b_resp b =? AXI4_RESP_OKAY);;
    on l2_dirtys (put_elem (l2_miss_line_idx l2) false);;
    modify (fun l2 => l2 <| l2_mem_beat_idx := 0 |> <| l2_mem_state := L2_MEM_STATE_REFILL_AR |>).

Definition l2_proc_mem_refill_ar : M l2_t unit :=
  l2 ← gets id;
  if bool_decide (l2_mem_state l2 <> L2_MEM_STATE_REFILL_AR) || chan_full (l2_mem_axi4_ar_mst l2) then mret tt
  else
    on l2_mem_axi4_ar_mst (chan_write
      (AxiAr 0 (l2_miss_line_addr l2) (L2_WORD_NUM - 1) AXI4_SIZE_B4 AXI4_BURST_INCR false 0xf 0 0 0));;
    modify (fun l2 => l2 <| l2_mem_beat_idx := 0 |> <| l2_mem_state := L2_MEM_STATE_REFILL_R |>).

Definition l2_proc_mem_refill_r : M l2_t unit :=
  l2 ← gets id;
  if bool_decide (l2_mem_state l2 <> L2_MEM_STATE_REFILL_R) || chan_empty (l2_mem_axi4_r_slv l2) then mret tt
  else
    r ← on l2_mem_axi4_r_slv chan_read;
    DBG_CHECK (r_resp r =? AXI4_RESP_OKAY);;
    on l2_data (put_elem (u32 (l2_miss_line_idx l2 * L2_WORD_NUM + l2_mem_beat_idx l2)) (r_data r));;
    modify (fun l2 => l2 <| l2_data_write_used := true |>);;
    if r_last r || (l2_mem_beat_idx l2 =? L2_WORD_NUM - 1) then
      on l2_tags (put_elem (l2_miss_line_idx l2) (l2_miss_tag l2));;
      on l2_valids (put_elem (l2_miss_line_idx l2) true);;
      on l2_dirtys (put_elem (l2_miss_line_idx l2) false);;
      port_upd (l2_mem_owner l2) (fun p => p <| po_miss_resolved := true |> <| po_state := po_miss_return_state p |>);;
      modify (fun l2 => l2 <| l2_mem_state := L2_MEM_STATE_IDLE |>)
    else modify (fun l2 => l2 <| l2_mem_beat_idx := u32 (l2_mem_beat_idx l2 + 1) |>).

Definition l2_proc_mem_bypass_r : M l2_t unit :=
  l2 ← gets id;
  if chan_empty (l2_mem_axi4_r_slv l2) then mret tt
  else
    found ← on l2_bypass_rd_ost ostq_peek_head;
    match found with
    | None => mret tt
    | Some (ctx, _) =>
      if chan_full (l2_port_r_mst l2 (br_port ctx)) then mret tt
      else
        r ← on l2_mem_axi4_r_slv chan_read;
        on_r_mst (br_port ctx) (chan_write r);;
        when (r_last r) (on l2_bypass_rd_ost ostq_free_head)
    end.

Definition l2_proc_mem_bypass_w : M l2_t unit :=
  l2 ← gets id;
  if chan_full (l2_mem_axi4_w_mst l2) then mret tt
  else
    found ← on l2_bypass_wr_ost ostq_peek_head;
    match found with
    | None => mret tt
    | Some (ctx, slot) =>
      if bw_w_done ctx then mret tt
      else
        w_fifo ← of_option (aget (l2_w_fifos l2) (bw_port ctx));
        if chan_empty w_fifo then mret tt
        else
          w ← on l2_w_fifos (at_elem (bw_port ctx) chan_read);
          on l2_mem_axi4_w_mst (chan_write w);;
          let ctx := ctx <| bw_beat_idx := u32 (bw_beat_idx ctx + 1) |> in
          let ctx := if w_last w || (bw_beat_num ctx <=? bw_beat_idx ctx) then ctx <| bw_w_done := true |> else ctx in
          on l2_bypass_wr_ost (ostq_write_slot slot ctx)
    end.

Definition l2_proc_mem_bypass_b : M l2_t unit :=
  l2 ← gets id;
  if chan_empty (l2_mem_axi4_b_slv l2) then mret tt
  else
    found ← on l2_bypass_wr_ost ostq_peek_head;
    match found with
    | None => mret tt
    | Some (ctx, _) =>
      if negb (bw_w_done ctx) then mret tt
      else if chan_full (l2_port_b_mst l2 (bw_port ctx)) then mret tt
      else
        b ← on l2_mem_axi4_b_slv chan_read;
        on_b_mst (bw_port ctx) (chan_write b);;
        on l2_bypass_wr_ost ostq_free_head
    end.

Definition l2_cmo_cleans (user : Z) : bool := axi4_user_cmo_cleans user.

Definition l2_cmo_invalidates (user : Z) : bool := axi4_user_cmo_invalidates user.

Definition l2_finish_cmo (ok : bool) : M l2_t unit :=
  l2 ← gets id;
  when (ok && l2_cmo_hit l2)
    (on l2_dirtys (put_elem (l2_cmo_line_idx l2) false);;
     when (l2_cmo_invalidates (l2_cmo_user l2)) (on l2_valids (put_elem (l2_cmo_line_idx l2) false)));;
  port_upd (l2_mem_owner l2) (fun p => p <| po_state := L2_PORT_STATE_CMO_RSP |>);;
  modify (fun l2 => l2 <| l2_mem_state := L2_MEM_STATE_IDLE |>).

Definition l2_proc_mem_cmo_wb_aw : M l2_t unit :=
  l2 ← gets id;
  if bool_decide (l2_mem_state l2 <> L2_MEM_STATE_CMO_WB_AW) || chan_full (l2_mem_axi4_aw_mst l2) then mret tt
  else
    on l2_mem_axi4_aw_mst (chan_write (l2_wb_aw (l2_wb_line_addr l2)));;
    modify (fun l2 => l2 <| l2_mem_beat_idx := 0 |> <| l2_mem_state := L2_MEM_STATE_CMO_WB_W |>).

Definition l2_proc_mem_cmo_wb_w : M l2_t unit :=
  l2 ← gets id;
  if bool_decide (l2_mem_state l2 <> L2_MEM_STATE_CMO_WB_W) || chan_full (l2_mem_axi4_w_mst l2) then mret tt
  else
    last ← l2_write_beat (l2_cmo_line_idx l2);
    if last : bool then modify (fun l2 => l2 <| l2_mem_state := L2_MEM_STATE_CMO_WB_B |>)
    else modify (fun l2 => l2 <| l2_mem_beat_idx := u32 (l2_mem_beat_idx l2 + 1) |>).

Definition l2_proc_mem_cmo_wb_b : M l2_t unit :=
  l2 ← gets id;
  if bool_decide (l2_mem_state l2 <> L2_MEM_STATE_CMO_WB_B) || chan_empty (l2_mem_axi4_b_slv l2) then mret tt
  else
    b ← on l2_mem_axi4_b_slv chan_read;
    DBG_CHECK (b_resp b =? AXI4_RESP_OKAY);;
    l2_finish_cmo true.

Definition l2_proc_mem : M l2_t unit :=
  l2_proc_mem_bypass_r;;
  l2_proc_mem_bypass_w;;
  l2_proc_mem_bypass_b;;
  l2_proc_mem_cmo_wb_b;;
  l2_proc_mem_cmo_wb_w;;
  l2_proc_mem_cmo_wb_aw;;
  l2_proc_mem_wb_b;;
  l2_proc_mem_refill_r;;
  l2_proc_mem_wb_w;;
  l2_proc_mem_wb_aw;;
  l2_proc_mem_refill_ar.

(** ** New requests *)

Definition l2_start_bypass_read (port_idx : Z) (ar : axi4_ar_if_t) : M l2_t bool :=
  l2 ← gets id;
  if bool_decide (l2_mem_state l2 <> L2_MEM_STATE_IDLE) || ostq_full (l2_bypass_rd_ost l2) ||
     chan_full (l2_mem_axi4_ar_mst l2) then
    when (ostq_full (l2_bypass_rd_ost l2))
      (modify (fun l2 => l2 <| l2_perf_bypass_rd_ost_full := u64 (l2_perf_bypass_rd_ost_full l2 + 1) |>));;
    mret false
  else
    slot ← on l2_bypass_rd_ost (ostq_alloc (L2BypassRd port_idx));
    DBG_CHECK (bool_decide (is_Some slot));;
    on l2_mem_axi4_ar_mst (chan_write ar);;
    modify (fun l2 => l2 <| l2_perf_bypass := u64 (l2_perf_bypass l2 + 1) |>);;
    mret true.

Definition l2_start_bypass_write (port_idx : Z) (aw : axi4_aw_if_t) : M l2_t bool :=
  l2 ← gets id;
  if bool_decide (l2_mem_state l2 <> L2_MEM_STATE_IDLE) || ostq_full (l2_bypass_wr_ost l2) ||
     chan_full (l2_mem_axi4_aw_mst l2) then
    when (ostq_full (l2_bypass_wr_ost l2))
      (modify (fun l2 => l2 <| l2_perf_bypass_wr_ost_full := u64 (l2_perf_bypass_wr_ost_full l2 + 1) |>));;
    mret false
  else
    slot ← on l2_bypass_wr_ost (ostq_alloc (L2BypassWr port_idx 0 (u32 (aw_len aw + 1)) false));
    DBG_CHECK (bool_decide (is_Some slot));;
    on l2_mem_axi4_aw_mst (chan_write aw);;
    modify (fun l2 => l2 <| l2_perf_bypass := u64 (l2_perf_bypass l2 + 1) |>);;
    mret true.

Definition l2_start_cmo (port_idx : Z) (ar : axi4_ar_if_t) : M l2_t bool :=
  l2 ← gets id;
  if bool_decide (l2_mem_state l2 <> L2_MEM_STATE_IDLE) || negb (ostq_empty (l2_bypass_rd_ost l2)) ||
     negb (ostq_empty (l2_bypass_wr_ost l2)) then mret false
  else
    DBG_CHECK (ar_len ar =? 0);;
    DBG_CHECK (ar_size ar =? AXI4_SIZE_B4);;
    let addr := Z.land (ar_addr ar) (not32 (L2_LINE_SIZE - 1)) in
    port_upd port_idx (fun p => p <| po_ar := ar |> <| po_addr := addr |> <| po_beat_idx := 0 |>);;
    modify (fun l2 => l2 <| l2_mem_owner := port_idx |> <| l2_cmo_user := ar_user ar |>);;
    found ← of_option (l2_lookup l2 addr);
    modify (fun l2 => l2 <| l2_cmo_hit := bool_decide (is_Some found) |>);;
    match found with
    | None =>
      port_upd port_idx (fun p => p <| po_state := L2_PORT_STATE_CMO_RSP |>);;
      mret true
    | Some line_idx =>
      modify (fun l2 => l2 <| l2_cmo_line_idx := line_idx |>);;
      d ← (if l2_cmo_cleans (ar_user ar) then of_option (aget (l2_dirtys l2) line_idx) else mret false);
      if d : bool then
        tag ← of_option (aget (l2_tags l2) line_idx);
        modify (fun l2 => l2 <| l2_wb_line_addr := l2_line_addr l2 tag (l2_req_set l2 addr) |> <| l2_mem_beat_idx := 0 |>);;
        port_upd port_idx (fun p => p <| po_state := L2_PORT_STATE_CMO_WAIT |>);;
        modify (fun l2 => l2 <| l2_mem_state := L2_MEM_STATE_CMO_WB_AW |>
          <| l2_perf_writeback := u64 (l2_perf_writeback l2 + 1) |>);;
        mret true
      else
        on l2_dirtys (put_elem line_idx false);;
        when (l2_cmo_invalidates (ar_user ar)) (on l2_valids (put_elem line_idx false));;
        port_upd port_idx (fun p => p <| po_state := L2_PORT_STATE_CMO_RSP |>);;
        mret true
    end.

Definition count_up (port_idx : Z) : M (list Z) unit := at_elem port_idx (modify (fun n => u64 (n + 1))).

(** The three parts of the handler: one per channel of the port. *)
Definition capture_ar (port_idx : Z) : M l2_t unit :=
  l2 ← gets id;
  fifo ← of_option (aget (l2_ar_fifos l2) port_idx);
  if chan_full fifo then
    when (negb (chan_empty (l2_port_ar_slv l2 port_idx))) (on l2_perf_stg_ar_full (count_up port_idx))
  else if chan_empty (l2_port_ar_slv l2 port_idx) then mret tt
  else
    ar ← on_ar_slv port_idx chan_read;
    on l2_ar_fifos (at_elem port_idx (chan_write ar)).

Definition capture_aw (port_idx : Z) : M l2_t unit :=
  l2 ← gets id;
  fifo ← of_option (aget (l2_aw_fifos l2) port_idx);
  if chan_full fifo then
    when (negb (chan_empty (l2_port_aw_slv l2 port_idx))) (on l2_perf_stg_aw_full (count_up port_idx))
  else if chan_empty (l2_port_aw_slv l2 port_idx) then mret tt
  else
    aw ← on_aw_slv port_idx chan_read;
    on l2_aw_fifos (at_elem port_idx (chan_write aw)).

Definition capture_w (port_idx : Z) : M l2_t unit :=
  l2 ← gets id;
  fifo ← of_option (aget (l2_w_fifos l2) port_idx);
  if chan_full fifo then
    when (negb (chan_empty (l2_port_w_slv l2 port_idx))) (on l2_perf_stg_w_full (count_up port_idx))
  else if chan_empty (l2_port_w_slv l2 port_idx) then mret tt
  else
    w ← on_w_slv port_idx chan_read;
    on l2_w_fifos (at_elem port_idx (chan_write w)).

Definition l2_capture_port (port_idx : Z) : M l2_t unit :=
  capture_ar port_idx;;
  capture_aw port_idx;;
  capture_w port_idx.

(** The loop over the slots of a queue, from slot [i] on with [n] left. *)
Fixpoint pending_loop {A} `{!Zero A} (port_of : A -> Z) (port_idx : Z) (n : nat) (i : Z) : M (ostq_t A) bool :=
  match n with
  | O => mret false
  | S n =>
    ok ← ostq_slot_valid i;
    if negb ok then pending_loop port_of port_idx n (i + 1)
    else
      ctx ← ostq_read_slot i;
      if port_of ctx =? port_idx then mret true else pending_loop port_of port_idx n (i + 1)
  end.

Definition l2_port_has_bypass_pending (port_idx : Z) : M l2_t bool :=
  l2 ← gets id;
  rd ← on l2_bypass_rd_ost (pending_loop br_port port_idx (Z.to_nat (q_depth (l2_bypass_rd_ost l2))) 0);
  if rd : bool then mret true
  else on l2_bypass_wr_ost (pending_loop bw_port port_idx (Z.to_nat (q_depth (l2_bypass_wr_ost l2))) 0).

(** A new burst of a port; [upd] stores the request. *)
Definition port_start (port_idx : Z) (upd : l2_port_t -> l2_port_t) (addr : Z) (state : l2_port_state_t) : M l2_t unit :=
  port_upd port_idx (fun p => upd p <| po_addr := addr |> <| po_beat_idx := 0 |> <| po_miss_resolved := false |>
    <| po_latency_active := false |> <| po_delay := 0 |> <| po_state := state |>).

(** Result: the request leaves its FIFO. *)
Definition idle_aw (port_idx : Z) (aw : axi4_aw_if_t) : M l2_t bool :=
  if aw_cache aw =? 0 then l2_start_bypass_write port_idx aw
  else
    pend ← l2_port_has_bypass_pending port_idx;
    if pend : bool then mret false
    else
      DBG_CHECK (aw_size aw =? AXI4_SIZE_B4);;
      DBG_CHECK (aw_burst aw =? AXI4_BURST_INCR);;
      port_start port_idx (fun p => p <| po_aw := aw |>) (aw_addr aw) L2_PORT_STATE_WRITE;;
      mret true.

Definition idle_ar (port_idx : Z) (ar : axi4_ar_if_t) : M l2_t bool :=
  if axi4_user_is_cmo (ar_user ar) then l2_start_cmo port_idx ar
  else if ar_cache ar =? 0 then l2_start_bypass_read port_idx ar
  else
    pend ← l2_port_has_bypass_pending port_idx;
    if pend : bool then mret false
    else
      DBG_CHECK (ar_size ar =? AXI4_SIZE_B4);;
      DBG_CHECK (ar_burst ar =? AXI4_BURST_INCR);;
      port_start port_idx (fun p => p <| po_ar := ar |>) (ar_addr ar) L2_PORT_STATE_READ;;
      mret true.

Definition l2_proc_port_idle (port_idx : Z) : M l2_t unit :=
  l2 ← gets id;
  aw_fifo ← of_option (aget (l2_aw_fifos l2) port_idx);
  if negb (chan_empty aw_fifo) then
    '(aw, _) ← of_option (chan_front aw_fifo);
    ok ← idle_aw port_idx aw;
    when ok (_ ← on l2_aw_fifos (at_elem port_idx chan_read); mret tt)
  else
    ar_fifo ← of_option (aget (l2_ar_fifos l2) port_idx);
    if chan_empty ar_fifo then mret tt
    else
      '(ar, _) ← of_option (chan_front ar_fifo);
      ok ← idle_ar port_idx ar;
      when ok (_ ← on l2_ar_fifos (at_elem port_idx chan_read); mret tt).

Definition l2_proc_port_cmo_rsp (port_idx : Z) : M l2_t unit :=
  l2 ← gets id;
  port ← port_get port_idx;
  if chan_full (l2_port_r_mst l2 port_idx) then mret tt
  else
    on_r_mst port_idx (chan_write (AxiR (ar_id (po_ar port)) 0 AXI4_RESP_OKAY true));;
    port_upd port_idx (fun p => p <| po_state := L2_PORT_STATE_IDLE |>).

(** A hit, or the first access to a refilled line. *)
Definition count_hit (port_idx : Z) : M l2_t unit :=
  port ← port_get port_idx;
  if po_miss_resolved port then port_upd port_idx (fun p => p <| po_miss_resolved := false |>)
  else modify (fun l2 => l2 <| l2_perf_hit := u64 (l2_perf_hit l2 + 1) |>).

Definition l2_proc_port_read (port_idx : Z) : M l2_t unit :=
  l2 ← gets id;
  if chan_full (l2_port_r_mst l2 port_idx) then mret tt
  else
    ready ← l2_port_latency_ready port_idx;
    if negb ready then mret tt
    else
      l2 ← gets id;
      port ← port_get port_idx;
      found ← of_option (l2_lookup l2 (po_addr port));
      match found with
      | None => _ ← l2_start_miss port_idx L2_PORT_STATE_READ; mret tt
      | Some line_idx =>
        count_hit port_idx;;
        let last := po_beat_idx port =? ar_len (po_ar port) in
        data ← of_option (l2_read_word l2 line_idx (po_addr port));
        on_r_mst port_idx (chan_write (AxiR (ar_id (po_ar port)) data AXI4_RESP_OKAY last));;
        if last : bool then port_upd port_idx (fun p => p <| po_state := L2_PORT_STATE_IDLE |>)
        else l2_port_next_read port_idx
      end.

Definition l2_proc_port_write (port_idx : Z) : M l2_t unit :=
  l2 ← gets id;
  w_fifo ← of_option (aget (l2_w_fifos l2) port_idx);
  if chan_empty w_fifo then mret tt
  else
    ready ← l2_port_latency_ready port_idx;
    if negb ready then mret tt
    else
      l2 ← gets id;
      port ← port_get port_idx;
      found ← of_option (l2_lookup l2 (po_addr port));
      match found with
      | None => _ ← l2_start_miss port_idx L2_PORT_STATE_WRITE; mret tt
      | Some line_idx =>
        if l2_data_write_used l2 then mret tt
        else
          '(w, _) ← of_option (chan_front w_fifo);
          let last := po_beat_idx port =? aw_len (po_aw port) in
          DBG_CHECK (Bool.eqb (w_last w) last);;
          if last && chan_full (l2_port_b_mst l2 port_idx) then mret tt
          else
            _ ← on l2_w_fifos (at_elem port_idx chan_read);
            l2_write_word line_idx (po_addr port) (w_data w) (w_strb w);;
            on l2_dirtys (put_elem line_idx true);;
            modify (fun l2 => l2 <| l2_data_write_used := true |>);;
            count_hit port_idx;;
            if last : bool then
              on_b_mst port_idx (chan_write (AxiB (aw_id (po_aw port)) AXI4_RESP_OKAY));;
              port_upd port_idx (fun p => p <| po_state := L2_PORT_STATE_IDLE |>)
            else l2_port_next_write port_idx
      end.

Definition l2_proc_port (port_idx : Z) : M l2_t unit :=
  port ← port_get port_idx;
  match po_state port with
  | L2_PORT_STATE_IDLE => l2_proc_port_idle port_idx
  | L2_PORT_STATE_READ => l2_proc_port_read port_idx
  | L2_PORT_STATE_WRITE => l2_proc_port_write port_idx
  | L2_PORT_STATE_CMO_RSP => l2_proc_port_cmo_rsp port_idx
  | _ => mret tt
  end.

(** ** Construction, reset and clock *)

(** The blocks of the arrays are arguments, since [malloc] leaves them uninitialised; [None] is a failed
    check or a division by zero. *)
Definition l2_construct (conf : l2_conf_t) (rd_ctx_size wr_ctx_size : Z) (tags data replace_ways : list Z)
    (valids dirtys : list bool) (l2 : l2_t) : option l2_t :=
  let set_size := u32 (l2f_way_num conf * L2_LINE_SIZE) in
  if (0 <? l2f_way_num conf) && (L2_LINE_SIZE <=? l2f_size conf) && negb (set_size =? 0) &&
     (l2f_size conf mod set_size =? 0) && (0 <? l2f_stg_fifo_depth conf) && (0 <? l2f_bypass_ost_depth conf)
  then
    rd ← ostq_construct rd_ctx_size (l2f_bypass_ost_depth conf);
    wr ← ostq_construct wr_ctx_size (l2f_bypass_ost_depth conf);
    let set_num := l2f_size conf / set_size in
    let n := Z.to_nat L2_PORT_NUM in
    Some (l2 <| l2_conf := conf |> <| l2_set_num := set_num |> <| l2_line_num := u32 (set_num * l2f_way_num conf) |>
      <| l2_tags := tags |> <| l2_data := data |> <| l2_replace_ways := replace_ways |> <| l2_valids := valids |>
      <| l2_dirtys := dirtys |> <| l2_ar_fifos := replicate n (Chan (l2f_stg_fifo_depth conf) []) |>
      <| l2_aw_fifos := replicate n (Chan (l2f_stg_fifo_depth conf) []) |>
      <| l2_w_fifos := replicate n (Chan (l2f_stg_fifo_depth conf) []) |>
      <| l2_bypass_rd_ost := rd |> <| l2_bypass_wr_ost := wr |>)
  else None.

Definition reset_port (port : Z) : M l2_t unit :=
  port_upd port (fun p => p <| po_state := L2_PORT_STATE_IDLE |> <| po_beat_idx := 0 |> <| po_miss_resolved := false |>
    <| po_latency_active := false |> <| po_delay := 0 |>);;
  on l2_ar_fifos (at_elem port chan_clear);;
  on l2_aw_fifos (at_elem port chan_clear);;
  on l2_w_fifos (at_elem port chan_clear).

Definition reset_counts (port : Z) : M l2_t unit :=
  on l2_perf_stg_ar_full (put_elem port 0);;
  on l2_perf_stg_aw_full (put_elem port 0);;
  on l2_perf_stg_w_full (put_elem port 0).

(** The loops over the lines and the [memset]s fill the first elements of their arrays. *)
Definition fill {A} (n : nat) (x : A) (xs : list A) : list A := replicate n x ++ drop n xs.

Definition l2_reset : M l2_t unit :=
  reset_port L2_I_PORT;;
  reset_port L2_D_PORT;;
  modify (fun l2 => l2 <| l2_mem_state := L2_MEM_STATE_IDLE |> <| l2_data_write_used := false |>);;
  on l2_bypass_rd_ost ostq_reset;;
  on l2_bypass_wr_ost ostq_reset;;
  l2 ← gets id;
  let n := Z.to_nat (l2_line_num l2) in
  let m := Z.to_nat (l2_line_num l2 * L2_WORD_NUM) in
  let s := Z.to_nat (l2_set_num l2) in
  DBG_CHECK (bool_decide (n <= length (l2_tags l2))%nat && bool_decide (n <= length (l2_valids l2))%nat &&
    bool_decide (n <= length (l2_dirtys l2))%nat && bool_decide (m <= length (l2_data l2))%nat &&
    bool_decide (s <= length (l2_replace_ways l2))%nat);;
  modify (fun l2 => l2 <| l2_tags := fill n 0 (l2_tags l2) |> <| l2_valids := fill n false (l2_valids l2) |>
    <| l2_dirtys := fill n false (l2_dirtys l2) |> <| l2_data := fill m 0 (l2_data l2) |>
    <| l2_replace_ways := fill s 0 (l2_replace_ways l2) |>);;
  modify (fun l2 => l2 <| l2_perf_hit := 0 |> <| l2_perf_miss := 0 |> <| l2_perf_bypass := 0 |> <| l2_perf_writeback := 0 |>
    <| l2_perf_bypass_rd_ost_full := 0 |> <| l2_perf_bypass_wr_ost_full := 0 |> <| l2_perf_miss_busy := 0 |>);;
  reset_counts L2_I_PORT;;
  reset_counts L2_D_PORT.

Definition l2_clock : M l2_t unit :=
  on l2_bypass_rd_ost ostq_clock;;
  on l2_bypass_wr_ost ostq_clock;;
  l2_capture_port L2_I_PORT;;
  l2_capture_port L2_D_PORT;;
  modify (fun l2 => l2 <| l2_data_write_used := false |>);;
  l2_proc_mem;;
  l2_proc_port L2_I_PORT;;
  l2_proc_port L2_D_PORT.
