(* ===== verification/L2Mem.v ===== *)
(** * The memory machine of the level 2 cache

    The arrays and the memory machine of [core/l2.c] have the shape of those of the level 1 cache: the
    relation between arrays, memory and flat memory and the states of a write back and of a refill are
    taken from there, through a view of this cache as one of the other kind. *)

From stdpp Require Import base numbers list.
From Stdlib Require Import ZArith Lia.
From S2P Require Import Prelude Fifo Ost OstScan OstSlot Bti Axi L1 L1Cache AxiMem L1Inv L1Stages L1Run L2.

(** ** The view *)

Definition l2_view_state (s : l2_mem_state_t) : l1_state_t :=
  match s with
  | L2_MEM_STATE_IDLE => L1_STATE_IDLE
  | L2_MEM_STATE_WB_AW => L1_STATE_WB_AW
  | L2_MEM_STATE_WB_W => L1_STATE_WB_W
  | L2_MEM_STATE_WB_B => L1_STATE_WB_B
  | L2_MEM_STATE_REFILL_AR => L1_STATE_REFILL_AR
  | L2_MEM_STATE_REFILL_R => L1_STATE_REFILL_R
  | L2_MEM_STATE_CMO_WB_AW => L1_STATE_CMO_L1_WB_AW
  | L2_MEM_STATE_CMO_WB_W => L1_STATE_CMO_L1_WB_W
  | L2_MEM_STATE_CMO_WB_B => L1_STATE_CMO_L1_WB_B
  end.

Definition victim_state (s : l2_mem_state_t) : bool :=
  match s with L2_MEM_STATE_WB_AW | L2_MEM_STATE_WB_W | L2_MEM_STATE_WB_B => true | _ => false end.
Definition miss_state (s : l2_mem_state_t) : bool :=
  match s with L2_MEM_STATE_REFILL_AR | L2_MEM_STATE_REFILL_R => true | s => victim_state s end.
Definition cmo_state (s : l2_mem_state_t) : bool :=
  match s with L2_MEM_STATE_CMO_WB_AW | L2_MEM_STATE_CMO_WB_W | L2_MEM_STATE_CMO_WB_B => true | _ => false end.

(** The lines whose data counts: a victim is dropped at once, but its data only when it is written back. *)
Definition l2_held (l : l2_t) : list bool :=
  if victim_state (l2_mem_state l) then <[Z.to_nat (l2_miss_line_idx l) := true]> (l2_valids l) else l2_valids l.

Definition mview (l : l2_t) (s : l1_state_t) (vs : list bool) (idx : Z) : l1_t :=
  L1 (Chan 0 []) (Chan 0 []) (l2_mem_axi4_aw_mst l) (l2_mem_axi4_w_mst l) (l2_mem_axi4_b_slv l) (l2_mem_axi4_ar_mst l)
    (l2_mem_axi4_r_slv l) None None (L1Conf false false 0 (l2f_way_num (l2_conf l)) 0 0 0 [] []) (l2_set_num l)
    (l2_line_num l) (l2_tags l) (l2_data l) (l2_replace_ways l) vs (l2_dirtys l) (Chan 0 []) (Ostq [] 0 0 0 0 0 0) false
    bti_req_zero false (L1LookupPipe bti_req_zero false false 0 0) false (L1HitPipe bti_req_zero 0 0 0) s 0
    (BtiReq 0 0 (l2_miss_line_addr l) 0 0 0) (l2_miss_set l) 0 idx (l2_miss_tag l) (l2_miss_line_addr l) 0 0
    (l2_wb_line_addr l) (l2_mem_beat_idx l) 0 true 0 0 0 0 0 0 0.

Definition l2_view (l : l2_t) : l1_t :=
  mview l (l2_view_state (l2_mem_state l)) (l2_held l) (if cmo_state (l2_mem_state l) then l2_cmo_line_idx l else l2_miss_line_idx l).

Lemma view_at l s : l2_mem_state l = s ->
  l2_view l = mview l (l2_view_state s) (if victim_state s then <[Z.to_nat (l2_miss_line_idx l) := true]> (l2_valids l) else l2_valids l)
    (if cmo_state s then l2_cmo_line_idx l else l2_miss_line_idx l).
Proof. intros <-. done. Qed.

(** ** The invariant of the machine *)

(** The counters of full FIFOs, one per port. *)
Definition counters_ok (l : l2_t) : Prop :=
  length (l2_perf_stg_ar_full l) = 2%nat /\ length (l2_perf_stg_aw_full l) = 2%nat /\ length (l2_perf_stg_w_full l) = 2%nat.

Record mem_inv (l : l2_t) (e : axi_mem) (V : Z -> Z) : Prop := {
  mv_cache : cache_ok (l2_view l) V (am_mem e) (refilling (l2_view l));
  mv_bytes : forall a, 0 <= am_mem e a < 256;
  mv_words : Forall is_u32 (l2_data l);
  mv_phase : phase (l2_view l) e;
  mv_chans : chan_wf (l2_mem_axi4_aw_mst l) /\ chan_wf (l2_mem_axi4_w_mst l) /\ chan_wf (l2_mem_axi4_ar_mst l);
  mv_victim : miss_state (l2_mem_state l) = true -> aget (l2_valids l) (l2_miss_line_idx l) = Some false;
  mv_addr : miss_state (l2_mem_state l) = true -> is_u32 (l2_miss_line_addr l);
  mv_bypass : ost_live (l2_bypass_rd_ost l) false [] /\ ost_live (l2_bypass_wr_ost l) false [];
  mv_counts : counters_ok l
}.

(** The burst a port works on, while it waits for the memory machine as well. *)
Definition po_task (p : l2_port_t) : l2_port_state_t :=
  match po_state p with
  | L2_PORT_STATE_MISS_WAIT => po_miss_return_state p
  | L2_PORT_STATE_CMO_WAIT => L2_PORT_STATE_CMO_RSP
  | s => s
  end.

Definition po_core (p : l2_port_t) := (po_task p, po_ar p, po_aw p, po_addr p, po_beat_idx p).

(** All that belongs to a port. *)
Definition port_part (l : l2_t) (p : Z) :=
  (po_core <$> aget (l2_ports l) p, aget (l2_ar_fifos l) p, aget (l2_aw_fifos l) p, aget (l2_w_fifos l) p,
   l2_port_ar_slv l p, l2_port_aw_slv l p, l2_port_w_slv l p, l2_port_r_mst l p, l2_port_b_mst l p).

(** The machine works for a port that waits for it. *)
Definition owned (l : l2_t) : Prop := l2_mem_state l <> L2_MEM_STATE_IDLE ->
  exists pt, aget (l2_ports l) (l2_mem_owner l) = Some pt /\
    (po_state pt = if cmo_state (l2_mem_state l) then L2_PORT_STATE_CMO_WAIT else L2_PORT_STATE_MISS_WAIT) /\
    (cmo_state (l2_mem_state l) = true -> l2_cmo_hit l = true) /\
    (cmo_state (l2_mem_state l) = false -> po_miss_return_state pt = L2_PORT_STATE_READ \/ po_miss_return_state pt = L2_PORT_STATE_WRITE).

Definition ports_same (l l' : l2_t) : Prop := forall p, port_part l' p = port_part l p.

Definition mem_stage (m : M l2_t unit) : Prop := forall l e V, mem_inv l e V -> owned l ->
  wp m (fun _ l' => mem_inv l' e V /\ owned l' /\ ports_same l l') l.

(** What a stage leaves alone that does not end the work of the machine. *)
Definition mem_kept (l : l2_t) :=
  (l2_ports l, l2_ar_fifos l, l2_aw_fifos l, l2_w_fifos l,
   (l2_i_axi4_ar_slv l, l2_i_axi4_aw_slv l, l2_i_axi4_w_slv l, l2_i_axi4_r_mst l, l2_i_axi4_b_mst l),
   (l2_d_axi4_ar_slv l, l2_d_axi4_aw_slv l, l2_d_axi4_w_slv l, l2_d_axi4_r_mst l, l2_d_axi4_b_mst l),
   (l2_bypass_rd_ost l, l2_bypass_wr_ost l), (l2_perf_stg_ar_full l, l2_perf_stg_aw_full l, l2_perf_stg_w_full l)).

Lemma kept_ports l l' : mem_kept l' = mem_kept l -> ports_same l l'.
Proof.
  intros E. injection E as E1 E2 E3 E4 E5 E6 E7 E8 E9 E10 E11 E12 E13 E14 E15 E16 E17 E18 E19. intros p.
  unfold port_part, l2_port_ar_slv, l2_port_aw_slv, l2_port_w_slv, l2_port_r_mst, l2_port_b_mst.
  by rewrite E1, E2, E3, E4, E5, E6, E7, E8, E9, E10, E11, E12, E13, E14.
Qed.

(** A stage that goes on with the same work. *)
Lemma mem_go_on l l' e V : mem_inv l e V -> owned l -> mem_kept l' = mem_kept l ->
  (l2_mem_owner l', l2_cmo_hit l', l2_miss_line_addr l', cmo_state (l2_mem_state l'), miss_state (l2_mem_state l')) =
    (l2_mem_owner l, l2_cmo_hit l, l2_miss_line_addr l, cmo_state (l2_mem_state l), miss_state (l2_mem_state l)) ->
  l2_mem_state l <> L2_MEM_STATE_IDLE ->
  cache_ok (l2_view l') V (am_mem e) (refilling (l2_view l')) -> phase (l2_view l') e -> Forall is_u32 (l2_data l') ->
  chan_wf (l2_mem_axi4_aw_mst l') /\ chan_wf (l2_mem_axi4_w_mst l') /\ chan_wf (l2_mem_axi4_ar_mst l') ->
  (miss_state (l2_mem_state l') = true -> aget (l2_valids l') (l2_miss_line_idx l') = Some false) ->
  mem_inv l' e V /\ owned l' /\ ports_same l l'.
Proof.
  intros [] Ho Ek Eo Hi Hc Hp Hw Hch Hv. injection Eo as E1 E2 Ea E3 Em. pose proof (kept_ports _ _ Ek) as Hk.
  unfold mem_kept in Ek. injection Ek as E4 E5 E6 E7 E8 E9 E10 E11 E12 E13 E14 E15 E16 E17 E18 E19 E20 E21 E22.
  split; [split; try done; [by rewrite Em, Ea|by rewrite E18, E19|unfold counters_ok; by rewrite E20, E21, E22]|]. split; [|done].
  intros _. rewrite E1, E2, E3, E4. by apply Ho.
Qed.

(** ** Writes back *)

Lemma data_word l e V i k : mem_inv l e V -> 0 <= i < l2_line_num l -> 0 <= k < 16 ->
  u32 (i * L2_WORD_NUM + k) = i * 16 + k /\ exists w, aget (l2_data l) (i * 16 + k) = Some w.
Proof.
  intros H Hi Hk. pose proof (co_geom _ _ _ _ (mv_cache _ _ _ H)) as G. destruct (word_idx _ G i k Hi Hk) as [E Hr].
  split; [exact E|]. by apply aget_is_Some.
Qed.

(** The beat the machine sends is the one of the line. *)
Lemma wp_l2_write_beat l e V i k Q : mem_inv l e V -> 0 <= i < l2_line_num l -> l2_mem_beat_idx l = Z.of_nat k -> (k < 16)%nat ->
  chan_full (l2_mem_axi4_w_mst l) = false ->
  (chan_wf (chan_snoc (l2_mem_axi4_w_mst l) (line_beat (l2_view l) i k)) ->
   Q (Z.of_nat k =? 15) (l <| l2_mem_axi4_w_mst := chan_snoc (l2_mem_axi4_w_mst l) (line_beat (l2_view l) i k) |>)) ->
  wp (l2_write_beat i) Q l.
Proof.
  intros H Hi Hb Hk Hf HQ. apply wp_bind, wp_gets. unfold id. rewrite Hb. destruct (data_word l e V i (Z.of_nat k) H Hi ltac:(lia)) as (-> & w & Ew).
  rewrite Ew. apply wp_bind, wp_ret. cbv zeta. change (L2_WORD_NUM - 1) with 15.
  assert (AxiW w 0xf (Z.of_nat k =? 15) = line_beat (l2_view l) i k) as -> by (unfold line_beat, cword; change (c_data (l2_view l)) with (l2_data l); by rewrite Ew).
  apply wp_bind, wp_on_write; [apply H|done|]. intros Hw. by apply wp_ret, HQ.
Qed.

Ltac mskip := apply wp_ret; by split_and!.
Ltac mguard Es := rewrite ?Es;
  repeat first [rewrite bool_decide_eq_true_2 by (done || congruence) | rewrite bool_decide_eq_false_2 by (intuition congruence)];
  cbn [andb orb negb].

(** The routine obligations of a step from the state [Es]: what it keeps is kept. *)
Ltac mgo H Ho Hc Es := apply (mem_go_on _ _ _ _ H Ho); upd_proj; rewrite ?Es; try done;
  try match goal with |- context [l2_view ?x] => rewrite !(view_at x _ (Es : l2_mem_state x = _)) end;
  try apply (mv_words _ _ _ H); try (by intros _; apply H; rewrite Es); try (by eapply cache_ok_arrays; [|exact Hc]).

(** The facts of the state [Es]. *)
Ltac mfacts H Es := let Hp := fresh "Hp" in let Hc := fresh "Hc" in
  pose proof (mv_phase _ _ _ H) as Hp; pose proof (mv_cache _ _ _ H) as Hc; pose proof (mv_chans _ _ _ H) as (W1 & W2 & W3);
  rewrite (view_at _ _ Es) in Hp, Hc; cbn [l2_view_state victim_state cmo_state] in Hp, Hc;
  match type of Hc with cache_ok ?a ?b ?c ?x => let y := eval hnf in x in change (cache_ok a b c y) in Hc end.

Section write_back.
  Context (l : l2_t) (e : axi_mem) (V : Z -> Z) (H : mem_inv l e V) (Ho : owned l).

Lemma send_aw s s' : l2_mem_state l = s ->
  s = L2_MEM_STATE_WB_AW /\ s' = L2_MEM_STATE_WB_W \/ s = L2_MEM_STATE_CMO_WB_AW /\ s' = L2_MEM_STATE_CMO_WB_W ->
  chan_full (l2_mem_axi4_aw_mst l) = false ->
  wp (on l2_mem_axi4_aw_mst (chan_write (l2_wb_aw (l2_wb_line_addr l)));;
      modify (fun l2 => l2 <| l2_mem_beat_idx := 0 |> <| l2_mem_state := s' |>))
    (fun _ l' => mem_inv l' e V /\ owned l' /\ ports_same l l') l.
Proof.
  intros Es Hs Hf. mfacts H Es. apply wp_bind, wp_on_write; [done..|]. intros Hw. apply wp_modify.
  destruct Hs as [[-> ->]|[-> ->]]; mgo H Ho Hc Es.
  - destruct Hp as [[(P1 & P2 & P3 & P4 & P5) [Hwb Hnr]] Hm]. split; [|exact Hm]. split; [|by split].
    exists 0%nat. split; [done|]. split; [lia|]. split; [done|]. left. cbn -[chan_snoc].
    rewrite chan_snoc_pkts. change (ch_pkts (l2_mem_axi4_aw_mst l) = []) in P1. rewrite P1. by split_and!.
  - destruct Hp as [(P1 & P2 & P3 & P4 & P5) [Hwb Hnr]]. split; [|by split].
    exists 0%nat. split; [done|]. split; [lia|]. split; [done|]. left. cbn -[chan_snoc].
    rewrite chan_snoc_pkts. change (ch_pkts (l2_mem_axi4_aw_mst l) = []) in P1. rewrite P1. by split_and!.
Qed.

Lemma send_w s s' i : l2_mem_state l = s ->
  s = L2_MEM_STATE_WB_W /\ s' = L2_MEM_STATE_WB_B /\ i = l2_miss_line_idx l \/
  s = L2_MEM_STATE_CMO_WB_W /\ s' = L2_MEM_STATE_CMO_WB_B /\ i = l2_cmo_line_idx l ->
  chan_full (l2_mem_axi4_w_mst l) = false ->
  wp (last ← l2_write_beat i;
      if last : bool then modify (fun l2 => l2 <| l2_mem_state := s' |>)
      else modify (fun l2 => l2 <| l2_mem_beat_idx := u32 (l2_mem_beat_idx l2 + 1) |>))
    (fun _ l' => mem_inv l' e V /\ owned l' /\ ports_same l l') l.
Proof.
  intros Es Hs Hf. mfacts H Es. pose proof (co_geom _ _ _ _ Hc) as G.
  assert (exists k : nat, l2_mem_beat_idx l = Z.of_nat k /\ (k < 16)%nat /\ 0 <= i < l2_line_num l) as (k & Hk & Hk' & Hi).
  { destruct Hs as [(-> & -> & ->)|(-> & -> & ->)]; [destruct Hp as [[(k & Hk & Hk' & _) [(Hv & _) _]] _]|destruct Hp as [(k & Hk & Hk' & _) [(Hv & _) _]]];
      exists k; (split; [exact Hk|]); (split; [done|]); exact (valid_range _ G _ Hv). }
  apply wp_bind. eapply wp_l2_write_beat; [done..|]. intros Hw. rewrite (view_at _ _ Es) in *.
  destruct Hs as [(-> & -> & ->)|(-> & -> & ->)]; (destruct (Z.eqb_spec (Z.of_nat k) 15) as [Ek|Nk]; apply wp_modify; mgo H Ho Hc Es).
  - destruct Hp as [[(k2 & Hk2 & _ & Hwr) [Hwb Hnr]] Hm]. split; [|exact Hm]. split; [|by split]. left.
    assert (k2 = k) as -> by (change (l2_mem_beat_idx l = Z.of_nat k2) in Hk2; lia).
    replace 16%nat with (S k) by lia. exact (writing_beat _ _ _ _ _ Hwr).
  - destruct Hp as [[(k2 & Hk2 & _ & Hwr) [Hwb Hnr]] Hm]. split; [|exact Hm]. split; [|by split].
    assert (k2 = k) as -> by (change (l2_mem_beat_idx l = Z.of_nat k2) in Hk2; lia). exists (S k). split; [|split; [lia|exact (writing_beat _ _ _ _ _ Hwr)]].
    change (u32 (l2_mem_beat_idx l + 1) = Z.of_nat (S k)). rewrite Hk, u32_small by (unfold is_u32, W32; lia). lia.
  - destruct Hp as [(k2 & Hk2 & _ & Hwr) [Hwb Hnr]]. split; [|by split]. left.
    assert (k2 = k) as -> by (change (l2_mem_beat_idx l = Z.of_nat k2) in Hk2; lia).
    replace 16%nat with (S k) by lia. exact (writing_beat _ _ _ _ _ Hwr).
  - destruct Hp as [(k2 & Hk2 & _ & Hwr) [Hwb Hnr]]. split; [|by split].
    assert (k2 = k) as -> by (change (l2_mem_beat_idx l = Z.of_nat k2) in Hk2; lia). exists (S k). split; [|split; [lia|exact (writing_beat _ _ _ _ _ Hwr)]].
    change (u32 (l2_mem_beat_idx l + 1) = Z.of_nat (S k)). rewrite Hk, u32_small by (unfold is_u32, W32; lia). lia.
Qed.

End write_back.

(** ** Arrays and ports *)

Lemma wp_port_get l p pt Q : aget (l2_ports l) p = Some pt -> Q pt l -> wp (port_get p) Q l.
Proof. intros E HQ. apply wp_bind, wp_gets. unfold id. rewrite E. by apply wp_ret. Qed.

Lemma wp_port_upd l p pt f Q : aget (l2_ports l) p = Some pt ->
  Q tt (l <| l2_ports := <[Z.to_nat p := f pt]> (l2_ports l) |>) -> wp (port_upd p f) Q l.
Proof. intros E HQ. apply wp_on. eapply wp_at_elem; [exact E|]. by apply wp_modify. Qed.

(** A port that only changes its state, but not its task. *)
Lemma same_task l p pt pt' : aget (l2_ports l) p = Some pt -> po_core pt' = po_core pt ->
  ports_same l (l <| l2_ports := <[Z.to_nat p := pt']> (l2_ports l) |>).
Proof.
  intros E Ec q. unfold port_part. upd_proj. rewrite aget_insert by (by eapply aget_Some).
  destruct (Z.eqb_spec q p) as [->|]; [|done]. rewrite E. cbn [fmap option_fmap option_map]. by rewrite Ec.
Qed.

Lemma ports_same_trans l1 l2 l3 : ports_same l1 l2 -> ports_same l2 l3 -> ports_same l1 l3.
Proof. intros H1 H2 p. by rewrite H2. Qed.

(** The line of the victim once its data is in memory. *)
Lemma insert_back (vs : list bool) i : aget vs i = Some false -> <[Z.to_nat i := false]> (<[Z.to_nat i := true]> vs) = vs.
Proof.
  intros E. pose proof (aget_Some _ _ _ E). rewrite aget_lookup in E by lia. rewrite list_insert_insert_eq. by apply list_insert_id.
Qed.

Lemma held_of_valid (vs : list bool) i j : aget vs j = Some true -> aget (<[Z.to_nat i := true]> vs) j = Some true.
Proof.
  intros E. pose proof (aget_Some _ _ _ E). rewrite aget_lookup in E |- * by lia.
  destruct (decide (Z.to_nat i = Z.to_nat j)) as [->|]; [rewrite list_lookup_insert_eq by lia; done|by rewrite list_lookup_insert_ne].
Qed.

Section refill.
  Context (l : l2_t) (e : axi_mem) (V : Z -> Z) (H : mem_inv l e V) (Ho : owned l).

Lemma recv_wb_b b bs : l2_mem_state l = L2_MEM_STATE_WB_B -> ch_pkts (l2_mem_axi4_b_slv l) = b :: bs ->
  wp (b ← on l2_mem_axi4_b_slv chan_read;
      DBG_CHECK (b_resp b =? AXI4_RESP_OKAY);;
      on l2_dirtys (put_elem (l2_miss_line_idx l) false);;
      modify (fun l2 => l2 <| l2_mem_beat_idx := 0 |> <| l2_mem_state := L2_MEM_STATE_REFILL_AR |>))
    (fun _ l' => mem_inv l' e V /\ owned l' /\ ports_same l l') l.
Proof.
  intros Es Eb. mfacts H Es. pose proof (mv_victim _ _ _ H ltac:(by rewrite Es)) as Hvic. pose proof (co_geom _ _ _ _ Hc) as G.
  destruct Hp as [Hp Hm]. destruct (wb_response _ _ _ _ _ Hp Eb) as (-> & -> & Hl & Hwb & Hnr).
  pose proof (valid_range _ G _ (proj1 Hwb)) as Hi. change (0 <= l2_miss_line_idx l < l2_line_num l) in Hi.
  pose proof (in_memory_V _ e _ _ _ _ Hc ltac:(done) Hwb Hl) as HV.
  apply wp_bind. eapply wp_on_read; [done|]. apply wp_bind, wp_check; [done|]. apply wp_bind, wp_on, wp_put_elem.
  { pose proof (gm_dirtys _ G) as Hd. change (Z.of_nat (length (l2_dirtys l)) = l2_line_num l) in Hd. upd_proj. lia. }
  upd_proj. apply wp_modify. set (i := l2_miss_line_idx l) in *.
  assert (cache_ok (mview l L1_STATE_REFILL_AR (l2_valids l) i <| c_dirtys := <[Z.to_nat i := false]> (l2_dirtys l) |>) V (am_mem e) None) as Hc'.
  { set (l0 := mview l L1_STATE_WB_B (<[Z.to_nat i := true]> (l2_valids l)) i) in *.
    eapply cache_ok_arrays; [|apply (drop_ok (l0 <| c_dirtys := <[Z.to_nat i := false]> (c_dirtys l0) |>) V (am_mem e) None i);
      [apply (clean_ok l0 V (am_mem e) None i Hc Hi); intros _; exact HV|exact Hi|]].
    - unfold arrays. upd_proj. cbn. by rewrite insert_back.
    - intros _ Hd. apply dirty_insert in Hd; [|done..]. by rewrite Z.eqb_refl in Hd. }
  mgo H Ho Hc' Es.
  destruct Hl as (L1 & L2 & L3 & L4 & L5 & _). split; [by split_and!|]. split; [done|].
  assert (~ aget (l2_valids l) i = Some true) as Hni by (by rewrite Hvic).
  split; [|intros Hv _; exact (Hni Hv)]. destruct Hm as (M1 & M2 & M3 & M4 & M5). do 4 (split; [done|]).
  intros j Hj. apply M5. by apply held_of_valid.
Qed.

Lemma send_ar : l2_mem_state l = L2_MEM_STATE_REFILL_AR -> chan_full (l2_mem_axi4_ar_mst l) = false ->
  wp (on l2_mem_axi4_ar_mst (chan_write
        (AxiAr 0 (l2_miss_line_addr l) (L2_WORD_NUM - 1) AXI4_SIZE_B4 AXI4_BURST_INCR false 0xf 0 0 0));;
      modify (fun l2 => l2 <| l2_mem_beat_idx := 0 |> <| l2_mem_state := L2_MEM_STATE_REFILL_R |>))
    (fun _ l' => mem_inv l' e V /\ owned l' /\ ports_same l l') l.
Proof.
  intros Es Hf. mfacts H Es. destruct Hp as (Hw & (R1 & R2 & R3) & Hm & Hd). apply wp_bind, wp_on_write; [done..|]. intros Hwf. apply wp_modify.
  mgo H Ho Hc Es.
  - eapply cache_ok_arrays; [|apply (busy_start _ V (am_mem e) (l2_miss_line_idx l) Hc Hd)]; done.
  - split; [done|]. split; [exact Hm|]. exists 0%nat. split; [done|]. split; [lia|]. split; [|intros; lia].
    left. cbn -[chan_snoc]. rewrite chan_snoc_pkts. change (ch_pkts (l2_mem_axi4_ar_mst l) = []) in R1. rewrite R1.
    destruct Hm as (_ & _ & _ & Ea & _). change (l2_miss_line_addr l = 64 * line_of (l2_miss_line_addr l)) in Ea. split_and!; try done.
    unfold refill_ar. by rewrite <- Ea.
Qed.

End refill.

(** The machine is done and its port goes on. *)
Lemma mem_done l l' e V p pt pt' : mem_inv l e V -> aget (l2_ports l) p = Some pt -> po_core pt' = po_core pt ->
  mem_kept l' = mem_kept (l <| l2_ports := <[Z.to_nat p := pt']> (l2_ports l) |>) -> l2_mem_state l' = L2_MEM_STATE_IDLE ->
  cache_ok (mview l' L1_STATE_IDLE (l2_valids l') (l2_miss_line_idx l')) V (am_mem e) None ->
  no_write (mview l' L1_STATE_IDLE (l2_valids l') (l2_miss_line_idx l')) e ->
  no_read (mview l' L1_STATE_IDLE (l2_valids l') (l2_miss_line_idx l')) e -> Forall is_u32 (l2_data l') ->
  chan_wf (l2_mem_axi4_aw_mst l') /\ chan_wf (l2_mem_axi4_w_mst l') /\ chan_wf (l2_mem_axi4_ar_mst l') ->
  mem_inv l' e V /\ owned l' /\ ports_same l l'.
Proof.
  intros [] Ep Ec Ek Es Hc Hw Hr Hd Hch. pose proof (view_at l' _ Es) as Ev. cbn [l2_view_state victim_state cmo_state] in Ev. split; [|split].
  - split; try done; rewrite ?Ev, ?Es; try done.
    all: unfold mem_kept in Ek; injection Ek as _ _ _ _ _ _ _ _ _ _ _ _ _ _ E1 E2 E3 E4 E5; unfold counters_ok; by rewrite ?E1, ?E2, ?E3, ?E4, ?E5.
  - intros Hn. by rewrite Es in Hn.
  - eapply ports_same_trans; [by eapply same_task|by apply kept_ports].
Qed.

Section finish.
  Context (l : l2_t) (e : axi_mem) (V : Z -> Z) (H : mem_inv l e V) (Ho : owned l).

Lemma recv_r r rs : l2_mem_state l = L2_MEM_STATE_REFILL_R -> ch_pkts (l2_mem_axi4_r_slv l) = r :: rs ->
  wp (r ← on l2_mem_axi4_r_slv chan_read;
      DBG_CHECK (r_resp r =? AXI4_RESP_OKAY);;
      on l2_data (put_elem (u32 (l2_miss_line_idx l * L2_WORD_NUM + l2_mem_beat_idx l)) (r_data r));;
      modify (fun l2 => l2 <| l2_data_write_used := true |>);;
      if r_last r || (l2_mem_beat_idx l =? L2_WORD_NUM - 1) then
        on l2_tags (put_elem (l2_miss_line_idx l) (l2_miss_tag l));;
        on l2_valids (put_elem (l2_miss_line_idx l) true);;
        on l2_dirtys (put_elem (l2_miss_line_idx l) false);;
        port_upd (l2_mem_owner l) (fun p => p <| po_miss_resolved := true |> <| po_state := po_miss_return_state p |>);;
        modify (fun l2 => l2 <| l2_mem_state := L2_MEM_STATE_IDLE |>)
      else modify (fun l2 => l2 <| l2_mem_beat_idx := u32 (l2_mem_beat_idx l2 + 1) |>))
    (fun _ l' => mem_inv l' e V /\ owned l' /\ ports_same l l') l.
Proof.
  intros Es Er. mfacts H Es. destruct (Ho ltac:(by rewrite Es)) as (pt & Ep & Est & _ & Hret). rewrite Es in Est, Hret. cbn [cmo_state] in Est. specialize (Hret eq_refl).
  pose proof (mv_victim _ _ _ H ltac:(by rewrite Es)) as Hvic.
  set (i := l2_miss_line_idx l) in *. set (l0 := mview l L1_STATE_REFILL_R (l2_valids l) i) in *. pose proof (co_geom _ _ _ _ Hc) as G.
  destruct Hp as (Hw & Hm & k & Hk & Hk' & Hrd & Hwords). destruct (refill_next _ _ _ _ _ _ Hrd Hk' Er) as (-> & Har & Hrest).
  change (l2_mem_beat_idx l = Z.of_nat k) in Hk. change (bq_addr (c_req l0)) with (l2_miss_line_addr l) in *. change (c_req_line_idx l0) with i in *.
  set (n := line_of (l2_miss_line_addr l)) in *. pose proof Hm as (Hi & Hset & Htag & Hadr & Hno). change (0 <= i < l2_line_num l) in Hi.
  change (l2_miss_tag l = n / l2_set_num l) in Htag. change (l2_miss_line_addr l = 64 * n) in Hadr.
  destruct (word_idx l0 G i (Z.of_nat k) Hi ltac:(lia)) as [Eidx Hr]. change (u32 (i * L2_WORD_NUM + Z.of_nat k) = i * 16 + Z.of_nat k) in Eidx.
  apply wp_bind. eapply wp_on_read; [done|]. apply wp_bind, wp_check; [done|]. rewrite Hk, Eidx. apply wp_bind, wp_on, wp_put_elem; [exact Hr|].
  apply wp_bind, wp_modify. upd_proj. change (r_data (read_beat (am_mem e) (refill_ar n) k)) with (load (am_mem e) (64 * n + 4 * Z.of_nat k) 4).
  set (w := load (am_mem e) (64 * n + 4 * Z.of_nat k) 4). set (d := <[Z.to_nat (i * 16 + Z.of_nat k) := w]> (l2_data l)).
  set (l1 := l0 <| c_data := d |>).
  assert (cache_ok l1 V (am_mem e) (Some i)) as Hc1 by (apply (busy_data l0); [exact Hc|done|lia]).
  assert (Forall is_u32 d) as Hd.
  { apply Forall_insert; [apply H|]. pose proof (load_range (am_mem e) (64 * n + 4 * Z.of_nat k) 4 ltac:(intros; apply H)). done. }
  assert (forall j, (j < S k)%nat -> cword l1 i (Z.of_nat j) = load (am_mem e) (64 * n + 4 * Z.of_nat j) 4) as Hwords1.
  { intros j Hj. etrans; [apply (cword_insert l0 i (Z.of_nat k) w i (Z.of_nat j) G Hi ltac:(lia) ltac:(lia))|].
    rewrite Z.eqb_refl. destruct (Z.eqb_spec (Z.of_nat j) (Z.of_nat k)) as [->|]; [done|]. apply Hwords. lia. }
  change (r_last (read_beat (am_mem e) (refill_ar n) k)) with (Z.of_nat k =? 15). change (L2_WORD_NUM - 1) with 15. rewrite orb_diag.
  destruct (Z.eqb_spec (Z.of_nat k) 15) as [Ek|Nk].
  - destruct (install_ok l1 V (am_mem e) i n Hc1 Hi) as (Hc2 & _ & _); [apply line_of_range, H; by rewrite Es|done|done| |].
    + intros off Hoff. apply word_at_byte; [apply H|done|]. replace (off / 4) with (Z.of_nat (Z.to_nat (off / 4))) at 1 by zdiv.
      rewrite Hwords1 by zdiv. rewrite Z2Nat.id by zdiv. done.
    + apply wp_bind, wp_on, wp_put_elem; [pose proof (gm_tags _ G) as Hg; change (Z.of_nat (length (l2_tags l)) = l2_line_num l) in Hg; upd_proj; lia|].
      apply wp_bind, wp_on, wp_put_elem; [pose proof (gm_valids _ G) as Hg; change (Z.of_nat (length (l2_valids l)) = l2_line_num l) in Hg; upd_proj; lia|].
      apply wp_bind, wp_on, wp_put_elem; [pose proof (gm_dirtys _ G) as Hg; change (Z.of_nat (length (l2_dirtys l)) = l2_line_num l) in Hg; upd_proj; lia|].
      upd_proj. apply wp_bind. eapply wp_port_upd; [exact Ep|]. apply wp_modify. cbv beta. rewrite Htag.
      assert (S k = 16%nat) as ES by lia. rewrite ES, refill_over in Hrest. apply app_eq_nil in Hrest as [Hr1 Hr2].
      eapply (mem_done l _ e V _ pt); [done|exact Ep| |reflexivity|done| | | |exact Hd|done].
      * unfold po_core, po_task. upd_proj. rewrite Est. by destruct Hret as [-> | ->].
      * eapply cache_ok_arrays; [|exact Hc2]. done.
      * done.
      * split_and!; done.
  - apply wp_modify. mgo H Ho Hc1 Es. split; [done|]. split; [exact Hm|]. exists (S k).
    split; [|split; [lia|split; [by right|exact Hwords1]]].
    change (u32 (l2_mem_beat_idx l + 1) = Z.of_nat (S k)). rewrite Hk, u32_small by (unfold is_u32, W32; lia). lia.
Qed.

Lemma recv_cmo_b b bs : l2_mem_state l = L2_MEM_STATE_CMO_WB_B -> ch_pkts (l2_mem_axi4_b_slv l) = b :: bs ->
  wp (b ← on l2_mem_axi4_b_slv chan_read; DBG_CHECK (b_resp b =? AXI4_RESP_OKAY);; l2_finish_cmo true)
    (fun _ l' => mem_inv l' e V /\ owned l' /\ ports_same l l') l.
Proof.
  intros Es Eb. mfacts H Es. destruct (Ho ltac:(by rewrite Es)) as (pt & Ep & Est & Hhit & _). rewrite Es in Est, Hhit. cbn [cmo_state] in Est.
  specialize (Hhit eq_refl). set (i := l2_cmo_line_idx l) in *. set (l0 := mview l L1_STATE_CMO_L1_WB_B (l2_valids l) i) in *.
  pose proof (co_geom _ _ _ _ Hc) as G. destruct (wb_response _ _ _ _ _ Hp Eb) as (-> & -> & Hl & Hwb & Hnr). change (c_req_line_idx l0) with i in *.
  pose proof (valid_range _ G _ (proj1 Hwb)) as Hi. change (0 <= i < l2_line_num l) in Hi.
  pose proof (in_memory_V _ e _ _ _ _ Hc ltac:(done) Hwb Hl) as HV. destruct Hl as (L1 & L2 & L3 & L4 & L5 & _).
  apply wp_bind. eapply wp_on_read; [done|]. apply wp_bind, wp_check; [done|]. apply wp_bind, wp_gets. unfold id. upd_proj. rewrite Hhit. cbn [andb when].
  set (l1 := l0 <| c_dirtys := <[Z.to_nat i := false]> (c_dirtys l0) |>).
  assert (cache_ok l1 V (am_mem e) None) as Hc1 by (apply clean_ok; [exact Hc|done|]; intros _; exact HV).
  assert (~ dirty l1 i) as Hd1 by (intros Hd; apply (dirty_insert l0) in Hd; [by rewrite Z.eqb_refl in Hd|done..]).
  apply wp_bind, wp_bind, wp_on, wp_put_elem; [pose proof (gm_dirtys _ G) as Hg; change (Z.of_nat (length (l2_dirtys l)) = l2_line_num l) in Hg; upd_proj; lia|].
  destruct (l2_cmo_invalidates _); cbn [when].
  - apply wp_on, wp_put_elem; [pose proof (gm_valids _ G) as Hg; change (Z.of_nat (length (l2_valids l)) = l2_line_num l) in Hg; upd_proj; lia|].
    apply wp_bind. eapply wp_port_upd; [exact Ep|]. apply wp_modify. cbv beta.
    eapply (mem_done l _ e V _ pt); [done|exact Ep| |reflexivity|done| | |exact Hnr|apply (mv_words _ _ _ H)|done].
    + unfold po_core, po_task. upd_proj. by rewrite Est.
    + eapply cache_ok_arrays; [|apply (drop_ok l1 V (am_mem e) None i Hc1 Hi); intros _; exact Hd1]. done.
    + split_and!; done.
  - apply wp_ret. apply wp_bind. eapply wp_port_upd; [exact Ep|]. apply wp_modify. cbv beta.
    eapply (mem_done l _ e V _ pt); [done|exact Ep| |reflexivity|done| | |exact Hnr|apply (mv_words _ _ _ H)|done].
    + unfold po_core, po_task. upd_proj. by rewrite Est.
    + eapply cache_ok_arrays; [|exact Hc1]. done.
    + split_and!; done.
Qed.

End finish.

(** ** The stages *)

(** Decides the guard of a stage: not in its state, or not ready, it does nothing. *)
Ltac mstart s := intros l e V H Ho; apply wp_bind, wp_gets; unfold id; cbv zeta;
  destruct (decide (l2_mem_state l = s)) as [Es|Es]; mguard Es; [|mskip].

Lemma wb_aw_mem : mem_stage l2_proc_mem_wb_aw.
Proof. mstart L2_MEM_STATE_WB_AW. destruct (chan_full _) eqn:Ef; [mskip|]. eapply send_aw; eauto. Qed.

Lemma cmo_wb_aw_mem : mem_stage l2_proc_mem_cmo_wb_aw.
Proof. mstart L2_MEM_STATE_CMO_WB_AW. destruct (chan_full _) eqn:Ef; [mskip|]. eapply send_aw; eauto. Qed.

Lemma wb_w_mem : mem_stage l2_proc_mem_wb_w.
Proof. mstart L2_MEM_STATE_WB_W. destruct (chan_full _) eqn:Ef; [mskip|]. eapply send_w; eauto. Qed.

Lemma cmo_wb_w_mem : mem_stage l2_proc_mem_cmo_wb_w.
Proof. mstart L2_MEM_STATE_CMO_WB_W. destruct (chan_full _) eqn:Ef; [mskip|]. eapply send_w; eauto. Qed.

Lemma wb_b_mem : mem_stage l2_proc_mem_wb_b.
Proof.
  mstart L2_MEM_STATE_WB_B. destruct (chan_empty _) eqn:Ee; [mskip|]. destruct (chan_empty_false _ Ee) as (b & bs & Eb).
  by eapply recv_wb_b.
Qed.

Lemma cmo_wb_b_mem : mem_stage l2_proc_mem_cmo_wb_b.
Proof.
  mstart L2_MEM_STATE_CMO_WB_B. destruct (chan_empty _) eqn:Ee; [mskip|]. destruct (chan_empty_false _ Ee) as (b & bs & Eb).
  by eapply recv_cmo_b.
Qed.

Lemma refill_ar_mem : mem_stage l2_proc_mem_refill_ar.
Proof. mstart L2_MEM_STATE_REFILL_AR. destruct (chan_full _) eqn:Ef; [mskip|]. by apply send_ar. Qed.

Lemma refill_r_mem : mem_stage l2_proc_mem_refill_r.
Proof.
  mstart L2_MEM_STATE_REFILL_R. destruct (chan_empty _) eqn:Ee; [mskip|]. destruct (chan_empty_false _ Ee) as (r & rs & Er).
  by eapply recv_r.
Qed.

(** Nothing passes through. *)
Lemma rd_queue_id (l : l2_t) : l <| l2_bypass_rd_ost := l2_bypass_rd_ost l |> = l.
Proof. by destruct l. Qed.
Lemma wr_queue_id (l : l2_t) : l <| l2_bypass_wr_ost := l2_bypass_wr_ost l |> = l.
Proof. by destruct l. Qed.

Lemma wp_no_rd l e V Q : mem_inv l e V -> Q None l -> wp (on l2_bypass_rd_ost ostq_peek_head) Q l.
Proof. intros H HQ. apply wp_on. eapply wp_ostq_peek; [apply H|by rewrite rd_queue_id|done]. Qed.

Lemma wp_no_wr l e V Q : mem_inv l e V -> Q None l -> wp (on l2_bypass_wr_ost ostq_peek_head) Q l.
Proof. intros H HQ. apply wp_on. eapply wp_ostq_peek; [apply H|by rewrite wr_queue_id|done]. Qed.

Lemma bypass_r_mem : mem_stage l2_proc_mem_bypass_r.
Proof. intros l e V H Ho. apply wp_bind, wp_gets. unfold id. destruct (chan_empty _); [mskip|]. apply wp_bind. eapply wp_no_rd; [done|mskip]. Qed.

Lemma bypass_w_mem : mem_stage l2_proc_mem_bypass_w.
Proof. intros l e V H Ho. apply wp_bind, wp_gets. unfold id. destruct (chan_full _); [mskip|]. apply wp_bind. eapply wp_no_wr; [done|mskip]. Qed.

Lemma bypass_b_mem : mem_stage l2_proc_mem_bypass_b.
Proof. intros l e V H Ho. apply wp_bind, wp_gets. unfold id. destruct (chan_empty _); [mskip|]. apply wp_bind. eapply wp_no_wr; [done|mskip]. Qed.

Lemma mem_stage_seq m1 m2 : mem_stage m1 -> mem_stage m2 -> mem_stage (m1;; m2).
Proof.
  intros H1 H2 l e V H Ho. apply wp_bind. eapply wp_mono; [by apply H1|]. intros [] l1 (Hi1 & Ho1 & S1).
  eapply wp_mono; [by apply H2|]. intros [] l2 (Hi2 & Ho2 & S2). split_and!; [done..|]. by eapply ports_same_trans.
Qed.

Lemma proc_mem_ok : mem_stage l2_proc_mem.
Proof.
  repeat apply mem_stage_seq; auto using bypass_r_mem, bypass_w_mem, bypass_b_mem, cmo_wb_b_mem, cmo_wb_w_mem, cmo_wb_aw_mem,
    wb_b_mem, refill_r_mem, wb_w_mem, wb_aw_mem, refill_ar_mem.
Qed.
