(* ===== verification/L2Port.v ===== *)
(** * The ports of the level 2 cache

    The invariant of [core/l2.c] between two cycles and between the stages of one: a log of the beats the
    two ports have performed, in one order for both, explains what was answered, what the flat memory
    is, and what is left of the bursts of each port. *)

From stdpp Require Import base numbers list.
From Stdlib Require Import ZArith Lia.
From S2P Require Import Prelude Fifo Ost OstScan OstSlot Bti Axi L1 L1Cache AxiMem L1Inv L1Stages L1Pipe L1Run AxiLog L2 L2Mem.

(** ** Bursts *)

(** The bursts the theorem is about: cacheable incrementing ones of whole aligned words, which stay below
    the end of the address space, and cache maintenance operations that keep the data, of the data port
    and of any burst kind (the level 1 cache sends them as fixed bursts). *)
Record ar_ok (p : Z) (ar : axi4_ar_if_t) : Prop := {
  ao_addr : 0 <= ar_addr ar /\ ar_addr ar mod 4 = 0;
  ao_len : 0 <= ar_len ar < 256;
  ao_end : ar_addr ar + 4 * (ar_len ar + 1) <= W32;
  ao_kind : ar_size ar = AXI4_SIZE_B4 /\ (axi4_user_is_cmo (ar_user ar) = false -> ar_burst ar = AXI4_BURST_INCR);
  ao_cached : axi4_user_is_cmo (ar_user ar) = false -> ar_cache ar <> 0;
  ao_cmo : axi4_user_is_cmo (ar_user ar) = true -> p = L2_D_PORT /\ ar_len ar = 0 /\ axi4_user_cmo_cleans (ar_user ar) = true
}.

Record aw_ok (p : Z) (aw : axi4_aw_if_t) : Prop := {
  wo_port : p = L2_D_PORT;
  wo_addr : 0 <= aw_addr aw /\ aw_addr aw mod 4 = 0;
  wo_len : 0 <= aw_len aw < 256;
  wo_end : aw_addr aw + 4 * (aw_len aw + 1) <= W32;
  wo_kind : aw_size aw = AXI4_SIZE_B4 /\ aw_burst aw = AXI4_BURST_INCR;
  wo_cached : aw_cache aw <> 0
}.

(** ** The invariant *)

Abbreviation po_core_t := (l2_port_state_t * axi4_ar_if_t * axi4_aw_if_t * Z * Z)%type.

(** What is left of the burst in progress. *)
Definition cur_reads (c : po_core_t) : list (axi4_ar_if_t * nat) :=
  let '(task, ar, _, _, beat) := c in
  match task with
  | L2_PORT_STATE_READ => drop (Z.to_nat beat) (rd_beats ar)
  | L2_PORT_STATE_CMO_RSP => rd_beats ar
  | _ => []
  end.
Definition cur_writes (c : po_core_t) : list (axi4_aw_if_t * nat) :=
  let '(task, _, aw, _, beat) := c in
  match task with L2_PORT_STATE_WRITE => drop (Z.to_nat beat) (wr_beats aw) | _ => [] end.

Definition core_ok (p : Z) (c : po_core_t) : Prop :=
  let '(task, ar, aw, addr, beat) := c in
  match task with
  | L2_PORT_STATE_IDLE => True
  | L2_PORT_STATE_READ => ar_ok p ar /\ axi4_user_is_cmo (ar_user ar) = false /\ 0 <= beat <= ar_len ar /\ addr = ar_addr ar + 4 * beat
  | L2_PORT_STATE_WRITE => aw_ok p aw /\ 0 <= beat <= aw_len aw /\ addr = aw_addr aw + 4 * beat
  | L2_PORT_STATE_CMO_RSP => ar_ok p ar /\ axi4_user_is_cmo (ar_user ar) = true
  | _ => False
  end.

Record port_rel (V0 : Z -> Z) (log : list axi_event) (p : Z) (h : port_hist) (c : po_core_t) (arq : list axi4_ar_if_t)
    (awq : list axi4_aw_if_t) (wq : list axi4_w_if_t) (rq : list axi4_r_if_t) (bq : list axi4_b_if_t) : Prop := {
  pr_core : core_ok p c;
  pr_reads : hs_ar h ≫= rd_beats = reads_of p log ++ cur_reads c ++ (arq ≫= rd_beats);
  pr_writes : hs_aw h ≫= wr_beats = (writes_of p log).*1 ++ cur_writes c ++ (awq ≫= wr_beats);
  pr_w : hs_w h = (writes_of p log).*2 ++ wq;
  pr_lasts : lasts_ok h;
  pr_r : hs_r h ++ rq = answers p V0 log;
  pr_b : hs_b h ++ bq = acks (writes_of p log);
  pr_ok : Forall (ar_ok p) arq /\ Forall (aw_ok p) awq
}.

Definition port_inv (V0 : Z -> Z) (log : list axi_event) (p : Z) (h : port_hist) (l : l2_t) : Prop :=
  exists pt arf awf wf, aget (l2_ports l) p = Some pt /\ aget (l2_ar_fifos l) p = Some arf /\ aget (l2_aw_fifos l) p = Some awf /\
    aget (l2_w_fifos l) p = Some wf /\ (chan_wf arf /\ chan_wf awf /\ chan_wf wf /\ chan_wf (l2_port_r_mst l p) /\ chan_wf (l2_port_b_mst l p)) /\
    port_rel V0 log p h (po_core pt) (ch_pkts arf ++ ch_pkts (l2_port_ar_slv l p)) (ch_pkts awf ++ ch_pkts (l2_port_aw_slv l p))
      (ch_pkts wf ++ ch_pkts (l2_port_w_slv l p)) (ch_pkts (l2_port_r_mst l p)) (ch_pkts (l2_port_b_mst l p)).

Record l2_inv (V0 : Z -> Z) (H : Z -> port_hist) (l : l2_t) (e : axi_mem) (log : list axi_event) : Prop := {
  li_mem : mem_inv l e (run_mem V0 log);
  li_owned : owned l;
  li_ports : forall p, p = L2_I_PORT \/ p = L2_D_PORT -> port_inv V0 log p (H p) l;
  li_num : forall q, is_Some (aget (l2_ports l) q) -> q = L2_I_PORT \/ q = L2_D_PORT
}.

Lemma port_inv_same V0 log p h l l' : port_part l' p = port_part l p -> port_inv V0 log p h l -> port_inv V0 log p h l'.
Proof.
  intros E (pt & arf & awf & wf & E1 & E2 & E3 & E4 & Hw & Hr). unfold port_part in E. rewrite E1, E2, E3, E4 in E.
  injection E as F1 F2 F3 F4 F5 F6 F7 F8 F9. destruct (aget (l2_ports l') p) as [pt'|] eqn:Ep; [|done]. cbn in F1. injection F1 as G1 G2 G3 G4 G5.
  exists pt', arf, awf, wf. rewrite F5, F6, F7, F8, F9. split_and!; try done; try apply Hw. unfold po_core in *. by rewrite G1, G2, G3, G4, G5.
Qed.

(** A beat of another port. *)
Lemma port_rel_other V0 log p h c arq awq wq rq bq ev : port_rel V0 log p h c arq awq wq rq bq ->
  match ev with EvRead q _ _ | EvWrite q _ _ _ => q <> p end -> port_rel V0 (log ++ [ev]) p h c arq awq wq rq bq.
Proof.
  intros [] Hq. assert (reads_of p (log ++ [ev]) = reads_of p log /\ writes_of p (log ++ [ev]) = writes_of p log /\
    answers p V0 (log ++ [ev]) = answers p V0 log) as (E1 & E2 & E3).
  { rewrite reads_snoc, writes_snoc, answers_snoc. destruct ev as [q ar k|q aw k w]; rewrite ?(proj2 (Z.eqb_neq _ _) Hq), !app_nil_r; done. }
  split; rewrite ?E1, ?E2, ?E3; done.
Qed.

Lemma num_same l l' : ports_same l l' -> (forall q, is_Some (aget (l2_ports l) q) -> q = L2_I_PORT \/ q = L2_D_PORT) ->
  forall q, is_Some (aget (l2_ports l') q) -> q = L2_I_PORT \/ q = L2_D_PORT.
Proof.
  intros Hs Hn q [pt Hq]. apply Hn. specialize (Hs q). unfold port_part in Hs. rewrite Hq in Hs. injection Hs as E _.
  destruct (aget (l2_ports l) q); [by eexists|done].
Qed.

Lemma mem_stage_inv m V0 H l e log : mem_stage m -> l2_inv V0 H l e log -> wp m (fun _ l' => l2_inv V0 H l' e log) l.
Proof.
  intros Hm []. eapply wp_mono; [by apply Hm|]. intros [] l' (? & ? & Hs). split; try done.
  - intros p Hp. eapply port_inv_same; [apply Hs|auto].
  - by eapply num_same.
Qed.

(** ** Lookup *)

Lemma l2_loop_view l s vs idx set tag n i : vs = l2_valids l ->
  l2_lookup_loop l set tag n i = (fmap (M := option) snd) <$> lookup_loop (mview l s vs idx) set tag n i.
Proof.
  intros ->. revert i. induction n as [|n IH]; intros i; [done|]. cbn [l2_lookup_loop lookup_loop].
  change (l1_line_idx (mview l s (l2_valids l) idx) set i) with (l2_line_idx l set i).
  change (c_valids (mview l s (l2_valids l) idx)) with (l2_valids l). change (c_tags (mview l s (l2_valids l) idx)) with (l2_tags l).
  destruct (aget (l2_valids l) _) as [v|]; [|done]. destruct (aget (l2_tags l) _) as [t|]; [|done]. simpl. destruct (v && _); [done|]. apply IH.
Qed.

Lemma geom_held l s vs idx s' idx' : geom (mview l s vs idx) -> length (l2_valids l) = length vs -> geom (mview l s' (l2_valids l) idx').
Proof. intros [] E. split; try done. cbn in *. by rewrite E. Qed.

Lemma held_length l : length (l2_held l) = length (l2_valids l).
Proof. unfold l2_held. destruct (victim_state _); [by rewrite length_insert|done]. Qed.

Lemma actual_held l i : aget (l2_valids l) i = Some true -> valid (l2_view l) i.
Proof. unfold valid. cbn. unfold l2_held. intros. destruct (victim_state _); [by apply held_of_valid|done]. Qed.

Lemma l2_lookup_ok l e V a : mem_inv l e V -> is_u32 a -> exists r, l2_lookup l a = Some r /\
  match r with
  | Some i => aget (l2_valids l) i = Some true /\ lnum (l2_view l) i = line_of a
  | None => forall i, aget (l2_valids l) i = Some true -> lnum (l2_view l) i <> line_of a
  end.
Proof.
  intros H Ha. set (la := mview l L1_STATE_IDLE (l2_valids l) 0).
  assert (geom la) as G by (eapply geom_held; [apply (co_geom _ _ _ _ (mv_cache _ _ _ H))|symmetry; apply held_length]).
  pose proof (line_of_range a Ha) as Hn. destruct (lookup_total la G (line_of a) ltac:(lia)) as [r Er].
  pose proof (lookup_ok la G (line_of a) r ltac:(lia) Er) as Hr.
  exists (snd <$> r). split.
  - unfold l2_lookup, l2_req_set, l2_req_tag. rewrite (l2_loop_view l L1_STATE_IDLE (l2_valids l) 0) by done. fold la.
    change (a / L2_LINE_SIZE) with (line_of a). change (l2_set_num l) with (c_set_num la).
    change (l2f_way_num (l2_conf l)) with (ways la). by rewrite Er.
  - destruct r as [[w i]|]; exact Hr.
Qed.

(** ** Steps of a port *)

Section port_steps.
  Context (V0 : Z -> Z) (log : list axi_event) (p : Z) (h : port_hist) (arq : list axi4_ar_if_t) (awq : list axi4_aw_if_t)
    (wq : list axi4_w_if_t) (rq : list axi4_r_if_t) (bq : list axi4_b_if_t) (ar : axi4_ar_if_t) (aw : axi4_aw_if_t) (addr beat : Z).
Abbreviation rel log c wq rq bq := (port_rel V0 log p h c arq awq wq rq bq).

(** A new burst. *)
Lemma rel_start_read ar0 arq' : arq = ar :: arq' -> axi4_user_is_cmo (ar_user ar) = false ->
  rel log (L2_PORT_STATE_IDLE, ar0, aw, addr, beat) wq rq bq ->
  port_rel V0 log p h (L2_PORT_STATE_READ, ar, aw, ar_addr ar, 0) arq' awq wq rq bq.
Proof.
  intros -> Hc []. destruct pr_ok0 as [Ha Hw]. apply Forall_cons in Ha as [Ha Hr]. pose proof (ao_len _ _ Ha). split; try done.
  split_and!; try done; lia.
Qed.

Lemma rel_start_cmo ar0 arq' a : arq = ar :: arq' -> axi4_user_is_cmo (ar_user ar) = true ->
  rel log (L2_PORT_STATE_IDLE, ar0, aw, addr, beat) wq rq bq ->
  port_rel V0 log p h (L2_PORT_STATE_CMO_RSP, ar, aw, a, 0) arq' awq wq rq bq.
Proof. intros -> Hc []. destruct pr_ok0 as [Ha Hw]. apply Forall_cons in Ha as [Ha Hr]. by split. Qed.

Lemma rel_start_write aw0 awq' : awq = aw :: awq' ->
  rel log (L2_PORT_STATE_IDLE, ar, aw0, addr, beat) wq rq bq ->
  port_rel V0 log p h (L2_PORT_STATE_WRITE, ar, aw, aw_addr aw, 0) arq awq' wq rq bq.
Proof.
  intros -> []. destruct pr_ok0 as [Ha Hw]. apply Forall_cons in Hw as [Hw Hr]. pose proof (wo_len _ _ Hw). split; try done.
  split_and!; try done; lia.
Qed.

(** A beat of a read. *)
Lemma rel_read : rel log (L2_PORT_STATE_READ, ar, aw, addr, beat) wq rq bq ->
  rel (log ++ [EvRead p ar (Z.to_nat beat)])
    (if beat =? ar_len ar then (L2_PORT_STATE_IDLE, ar, aw, addr, beat) else (L2_PORT_STATE_READ, ar, aw, addr + 4, beat + 1))
    wq (rq ++ [AxiR (ar_id ar) (load (run_mem V0 log) addr 4) AXI4_RESP_OKAY (beat =? ar_len ar)]) bq.
Proof.
  intros []. destruct pr_core0 as (Ha & Hc & Hb & Haddr). cbn [cur_reads] in pr_reads0. unfold rd_beats in pr_reads0 at 2. rewrite Hc in pr_reads0.
  rewrite drop_pairs in pr_reads0 by lia.
  split; try done; rewrite ?reads_snoc, ?writes_snoc, ?answers_snoc, ?Z.eqb_refl, ?app_nil_r; try done.
  - destruct (beat =? ar_len ar) eqn:E; [done|]. split_and!; try done; lia.
  - rewrite pr_reads0, <- app_assoc. cbn [app]. do 2 f_equal. destruct (Z.eqb_spec beat (ar_len ar)).
    + by rewrite drop_pairs_end by lia.
    + cbn [cur_reads]. unfold rd_beats at 2. rewrite Hc. do 3 f_equal. lia.
  - rewrite pr_writes0. by destruct (_ =? _).
  - rewrite app_assoc, pr_r0. f_equal. unfold ev_rsp, read_beat. by rewrite Hc, Z2Nat.id, Haddr by lia.
Qed.

(** The answer to a maintenance operation. *)
Lemma rel_cmo : rel log (L2_PORT_STATE_CMO_RSP, ar, aw, addr, beat) wq rq bq ->
  rel (log ++ [EvRead p ar 0]) (L2_PORT_STATE_IDLE, ar, aw, addr, beat) wq (rq ++ [AxiR (ar_id ar) 0 AXI4_RESP_OKAY true]) bq.
Proof.
  intros []. destruct pr_core0 as (Ha & Hc). cbn [cur_reads] in pr_reads0. unfold rd_beats in pr_reads0 at 2. rewrite Hc in pr_reads0.
  split; try done; rewrite ?reads_snoc, ?writes_snoc, ?answers_snoc, ?Z.eqb_refl, ?app_nil_r; try done.
  - by rewrite pr_reads0, <- app_assoc.
  - rewrite app_assoc, pr_r0. f_equal. unfold ev_rsp. by rewrite Hc.
Qed.

(** A beat of a write. *)
Lemma rel_write_last w wq' : wq = w :: wq' -> rel log (L2_PORT_STATE_WRITE, ar, aw, addr, beat) wq rq bq -> w_last w = (beat =? aw_len aw).
Proof.
  intros -> []. destruct pr_core0 as (Ha & Hb & _). destruct pr_lasts0 as [_ Hl]. cbn [cur_writes] in pr_writes0. unfold wr_beats in pr_writes0 at 2.
  rewrite drop_pairs in pr_writes0 by lia. specialize (Hl (length (writes_of p log)) (aw, Z.to_nat beat) w).
  rewrite Hl; [cbn; f_equal; lia| |].
  - rewrite pr_writes0, lookup_app_r, length_fmap, Nat.sub_diag by (by rewrite length_fmap). done.
  - rewrite pr_w0, lookup_app_r, length_fmap, Nat.sub_diag by (by rewrite length_fmap). done.
Qed.

Lemma rel_write w wq' : wq = w :: wq' -> rel log (L2_PORT_STATE_WRITE, ar, aw, addr, beat) wq rq bq ->
  rel (log ++ [EvWrite p aw (Z.to_nat beat) w])
    (if beat =? aw_len aw then (L2_PORT_STATE_IDLE, ar, aw, addr, beat) else (L2_PORT_STATE_WRITE, ar, aw, addr + 4, beat + 1))
    wq' rq (bq ++ (if beat =? aw_len aw then [AxiB (aw_id aw) AXI4_RESP_OKAY] else [])).
Proof.
  intros -> []. destruct pr_core0 as (Ha & Hb & Haddr). cbn [cur_writes] in pr_writes0. unfold wr_beats in pr_writes0 at 2.
  rewrite drop_pairs in pr_writes0 by lia.
  split; try done; rewrite ?reads_snoc, ?writes_snoc, ?answers_snoc, ?Z.eqb_refl, ?fmap_app, ?app_nil_r; try done.
  - destruct (beat =? aw_len aw) eqn:E; [done|]. split_and!; try done; lia.
  - rewrite pr_reads0. by destruct (_ =? _).
  - rewrite pr_writes0, <- app_assoc. cbn. do 2 f_equal. destruct (Z.eqb_spec beat (aw_len aw)).
    + by rewrite drop_pairs_end by lia.
    + cbn [cur_writes]. unfold wr_beats at 2. do 3 f_equal. lia.
  - by rewrite pr_w0, <- app_assoc.
  - unfold acks in *. rewrite bind_app, app_assoc, pr_b0. cbn. rewrite Z2Nat.id by lia. by rewrite app_nil_r.
Qed.
End port_steps.
