(* ===== verification/L2Data.v ===== *)
(** * Accesses to the arrays of the level 2 cache

    What a read, a write and the start of the memory machine do to the flat memory that the arrays and
    the memory represent. *)

From stdpp Require Import base numbers list.
From Stdlib Require Import ZArith Lia.
From S2P Require Import Prelude Fifo Ost OstScan OstSlot Bti Axi L1 L1Cache AxiMem L1Inv L1Stages L1Pipe L1Run AxiLog L2 L2Mem L2Port.

(** ** Words *)

Lemma word_load w a (m : Z -> Z) : is_u32 w -> (forall j, 0 <= j < 4 -> word_byte w j = m (a + j)) -> load m a 4 = w.
Proof.
  intros Hw H. cbn [load]. change (Z.of_nat 0) with 0. change (Z.of_nat 1) with 1. change (Z.of_nat 2) with 2. change (Z.of_nat 3) with 3.
  rewrite <- !H by lia. unfold word_byte. change (2 ^ (8 * 0)) with 1. change (2 ^ (8 * 1)) with 256. change (2 ^ (8 * 2)) with 65536.
  change (2 ^ (8 * 3)) with 16777216. change (256 ^ 0) with 1. change (256 ^ 1) with 256. change (256 ^ 2) with 65536. change (256 ^ 3) with 16777216.
  unfold is_u32, W32 in Hw. zdiv.
Qed.

(** A byte of a word replaced by that of another, as the code masks it. *)
Lemma word_byte_mask w d k j : 0 <= k < 4 -> 0 <= j < 4 ->
  word_byte (Z.lor (Z.land w (not32 (u32 (Z.shiftl 0xff (k * 8))))) (Z.land d (u32 (Z.shiftl 0xff (k * 8))))) j =
  if j =? k then word_byte d j else word_byte w j.
Proof.
  intros Hk Hj. apply Z.bits_inj'. intros n Hn. rewrite word_byte_bits, testbit_bits by lia.
  destruct (Z.ltb_spec n 8) as [Hn8|Hn8].
  - rewrite Z.lor_spec, !Z.land_spec, testbit_not32, !testbit_u32, !testbit_shiftl by lia.
    change 0xff with (Z.ones 8). rewrite (proj2 (Z.ltb_lt (n + 8 * j) 32)), !andb_true_r by lia.
    destruct (Z.eqb_spec j k) as [->|Hne]; rewrite word_byte_bits, testbit_bits by lia; rewrite (proj2 (Z.ltb_lt n 8)), andb_true_r by lia.
    + rewrite testbit_ones by lia. rewrite (proj2 (Z.leb_le (k * 8) (n + 8 * k))) by lia.
      rewrite (proj2 (Z.ltb_lt (n + 8 * k - k * 8) 8)) by lia. by rewrite andb_false_r, andb_true_r.
    + destruct (Z.leb_spec (k * 8) (n + 8 * j)).
      * rewrite testbit_ones by lia. rewrite (proj2 (Z.ltb_ge (n + 8 * j - k * 8) 8)) by lia.
        simpl. by rewrite andb_true_r, andb_false_r, orb_false_r.
      * simpl. by rewrite andb_true_r, andb_false_r, orb_false_r.
  - rewrite andb_false_r. destruct (Z.eqb_spec j k) as [->|Hne]; rewrite word_byte_bits, testbit_bits by lia;
      by rewrite (proj2 (Z.ltb_ge n 8)), andb_false_r by lia.
Qed.

Lemma write_word_ok data strb n k w : (Z.of_nat n + k = 4) -> 0 <= k -> is_u32 w ->
  is_u32 (write_word_loop data strb n k w) /\ forall j, 0 <= j < 4 ->
    word_byte (write_word_loop data strb n k w) j = if (k <=? j) && Z.testbit strb j then word_byte data j else word_byte w j.
Proof.
  revert k w. induction n as [|n IH]; intros k w Hn Hk Hw; cbn [write_word_loop].
  { split; [done|]. intros j Hj. by rewrite (proj2 (Z.leb_gt k j)) by lia. }
  cbv zeta. rewrite nz_testbit by lia.
  set (w' := Z.lor _ _). destruct (Z.testbit strb k) eqn:Ek.
  - destruct (IH (k + 1) w') as [Hu Hb]; [lia|lia|apply is_u32_lor; [by apply is_u32_land_l|apply is_u32_land_r, u32_range]|].
    split; [done|]. intros j Hj. rewrite Hb by done. unfold w'. rewrite word_byte_mask by lia.
    destruct (Z.eqb_spec j k) as [E|], (Z.leb_spec (k + 1) j), (Z.leb_spec k j); try lia; simpl; try done. by rewrite E, Ek.
  - destruct (IH (k + 1) w) as [Hu Hb]; [lia|lia|done|]. split; [done|]. intros j Hj. rewrite Hb by done.
    destruct (Z.leb_spec (k + 1) j), (Z.leb_spec k j); try lia; try done. assert (j = k) as -> by lia. by rewrite Ek.
Qed.

(** ** A word of a line written *)

Definition word_written (l : l1_t) (i k w : Z) : l1_t :=
  let l' := l <| c_data := <[Z.to_nat (i * 16 + k) := w]> (c_data l) |> in
  l' <| c_dirtys := <[Z.to_nat i := true]> (c_dirtys l') |>.

Section word_write.
  Context (l : l1_t) (i k w : Z) (G : geom l) (Hi : 0 <= i < lines l) (Hk : 0 <= k < 16).

Lemma word_dirty j : dirty (word_written l i k w) j <-> j = i \/ dirty l j.
Proof.
  unfold word_written. cbv zeta. rewrite dirty_insert by (by apply geom_insert_data || done).
  destruct (Z.eqb_spec j i) as [->|]; [intuition|]. change (dirty (l <| c_data := <[Z.to_nat (i * 16 + k) := w]> (c_data l) |>) j) with (dirty l j). intuition.
Qed.

Lemma word_word j k' : 0 <= k' < 16 -> cword (word_written l i k w) j k' = if (j =? i) && (k' =? k) then w else cword l j k'.
Proof. intros Hk'. by apply (cword_insert l i k w). Qed.

Lemma word_served : served l (word_written l i k w) i.
Proof.
  split; [by do 2 eexists|]. split.
  - intros j k' Hj Hne Hk'. rewrite word_word by done. by rewrite (proj2 (Z.eqb_neq j i)).
  - intros j Hne. rewrite word_dirty. intuition.
Qed.

(** The flat memory with the word in it. *)
Definition word_mem (V : Z -> Z) : Z -> Z := fun a =>
  if (line_of a =? lnum l i) && (a mod 64 / 4 =? k) then word_byte w (a mod 4) else V a.

Lemma word_written_ok V m x : cache_ok l V m x -> valid l i -> x <> Some i -> lf_ro (c_conf l) = false ->
  cache_ok (word_written l i k w) (word_mem V) m x.
Proof.
  intros H Hv Hx Hro. destruct H.
  split; [by apply geom_insert_dirty, geom_insert_data|done|done| | | |].
  - intros j off Hvj Hxj Ho. change (valid l j) in Hvj. change (lnum (word_written l i k w) j) with (lnum l j).
    unfold cbyte. rewrite word_word by zdiv. unfold word_mem. rewrite line_addr_of by done.
    assert ((64 * lnum l j + off) mod 64 = off /\ (64 * lnum l j + off) mod 4 = off mod 4) as [-> ->] by zdiv.
    destruct (Z.eqb_spec (lnum l j) (lnum l i)) as [El|Nl].
    + rewrite (co_unique j i Hvj Hv El), Z.eqb_refl. simpl. destruct (Z.eqb_spec (off / 4) k); [done|]. by apply co_data.
    + destruct (Z.eqb_spec j i) as [->|]; [done|]. simpl. by apply co_data.
  - intros a Ha Hd. assert (line_of a <> lnum l i) as Hl.
    { intros E. apply (Hd i Hv); [apply word_dirty; by left|done]. }
    unfold word_mem. rewrite (proj2 (Z.eqb_neq _ _) Hl). simpl. apply co_clean; [done|]. intros j Hvj Hdj. apply Hd; [done|].
    apply word_dirty. by right.
  - intros j Ej Hvj Hd. apply word_dirty in Hd as [->|Hd]; [done|]. by apply (co_busy j).
  - intros E. change (lf_ro (c_conf l) = true) in E. congruence.
Qed.

End word_write.

(** ** Hits *)

Section hit.
  Context (l : l2_t) (e : axi_mem) (V : Z -> Z) (H : mem_inv l e V) (i a : Z).
  Context (Hv : aget (l2_valids l) i = Some true) (Hn : lnum (l2_view l) i = line_of a) (Ha : is_u32 a) (H4 : a mod 4 = 0).

Lemma hit_not_victim : miss_state (l2_mem_state l) = true -> i <> l2_miss_line_idx l.
Proof. intros Hm ->. pose proof (mv_victim _ _ _ H Hm). congruence. Qed.

Lemma hit_not_refilling : refilling (l2_view l) <> Some i.
Proof.
  unfold refilling. cbn. destruct (l2_mem_state l) eqn:Es; cbn; try done. intros [= E]. apply hit_not_victim; [by rewrite Es|done].
Qed.

Lemma hit_range : 0 <= i < l2_line_num l.
Proof. exact (valid_range _ (co_geom _ _ _ _ (mv_cache _ _ _ H)) i (actual_held l i Hv)). Qed.

Lemma word_of_addr : Z.land a (L2_LINE_SIZE - 1) / L2_WORD_SIZE = a mod 64 / 4 /\ 0 <= a mod 64 / 4 < 16.
Proof. split; [|zdiv]. change (L2_LINE_SIZE - 1) with (Z.ones 6). by rewrite Z.land_ones by lia. Qed.

Lemma word_bytes j : 0 <= j < 4 -> word_byte (cword (l2_view l) i (a mod 64 / 4)) j = V (a + j).
Proof.
  intros Hj. pose proof (co_data _ _ _ _ (mv_cache _ _ _ H) i (a mod 64 + j) (actual_held l i Hv) hit_not_refilling ltac:(zdiv)) as E.
  unfold cbyte in E. replace ((a mod 64 + j) / 4) with (a mod 64 / 4) in E by zdiv. replace ((a mod 64 + j) mod 4) with j in E by zdiv.
  rewrite E, Hn. f_equal. unfold line_of. zdiv.
Qed.

Lemma cword_at : exists w, aget (l2_data l) (i * 16 + a mod 64 / 4) = Some w /\ w = cword (l2_view l) i (a mod 64 / 4) /\ is_u32 w.
Proof.
  destruct (data_word l e V i (a mod 64 / 4) H hit_range (proj2 word_of_addr)) as (_ & w & Ew). exists w. split; [done|].
  split; [unfold cword; change (c_data (l2_view l)) with (l2_data l); by rewrite Ew|].
  pose proof (aget_Some _ _ _ Ew). rewrite aget_lookup in Ew by lia. by apply (Forall_lookup_1 _ _ _ _ (mv_words _ _ _ H) Ew).
Qed.

Lemma read_word_ok : l2_read_word l i a = Some (load V a 4).
Proof.
  unfold l2_read_word. cbv zeta. rewrite (proj1 word_of_addr). destruct cword_at as (w & Ew & -> & Hu).
  destruct (data_word l e V i (a mod 64 / 4) H hit_range (proj2 word_of_addr)) as (-> & _). rewrite Ew. f_equal. symmetry.
  apply word_load; [done|]. exact word_bytes.
Qed.

(** The write of a beat. *)
Lemma write_word_mem (w : axi4_w_if_t) Q : cmo_state (l2_mem_state l) = false ->
  (forall d ds, mem_inv (l <| l2_data := d |> <| l2_dirtys := ds |>) e (put_word V a w) -> Q tt (l <| l2_data := d |> <| l2_dirtys := ds |>)) ->
  wp (l2_write_word i a (w_data w) (w_strb w);; on l2_dirtys (put_elem i true)) Q l.
Proof.
  intros Hcmo HQ. pose proof hit_range as Hi. pose proof word_of_addr as [Ew Hk]. set (k := a mod 64 / 4) in *.
  destruct cword_at as (old & Eo & Eold & Hu). fold k in Eo, Eold.
  destruct (data_word l e V i k H Hi Hk) as (Ei & _). pose proof (co_geom _ _ _ _ (mv_cache _ _ _ H)) as G.
  unfold l2_write_word. cbv zeta. rewrite Ew, Ei. apply wp_bind, wp_on. eapply wp_at_elem; [exact Eo|]. apply wp_modify, wp_on, wp_put_elem.
  { pose proof (gm_dirtys _ G) as Hg. change (Z.of_nat (length (l2_dirtys l)) = l2_line_num l) in Hg. upd_proj. lia. }
  upd_proj. change (Z.to_nat L2_WORD_SIZE) with 4%nat. destruct (write_word_ok (w_data w) (w_strb w) 4 0 old eq_refl ltac:(lia) Hu) as [Hnu Hnb].
  set (nw := write_word_loop (w_data w) (w_strb w) 4 0 old) in *. apply HQ.
  assert (same_mem (word_mem (l2_view l) i k nw V) (put_word V a w)) as Hsame.
  { intros x _. unfold word_mem, put_word. cbv zeta. rewrite Hn.
    destruct (Z.eqb_spec (line_of x) (line_of a)) as [El|Nl]; simpl.
    - destruct (Z.eqb_spec (x mod 64 / 4) k) as [Ek|Nk].
      + assert (0 <= x - a < 4 /\ x mod 4 = x - a) as [Ho ->] by (unfold k, line_of in *; zdiv).
        rewrite (proj2 (Z.leb_le 0 (x - a))), (proj2 (Z.ltb_lt (x - a) 4)) by lia. simpl. rewrite Hnb, (proj2 (Z.leb_le 0 (x - a))) by lia. simpl.
        destruct (Z.testbit _ _); [done|]. rewrite Eold. unfold k. rewrite word_bytes by lia. f_equal. lia.
      + destruct (Z.leb_spec 0 (x - a)), (Z.ltb_spec (x - a) 4); try done. destruct Nk. unfold k, line_of in *. zdiv.
    - destruct (Z.leb_spec 0 (x - a)), (Z.ltb_spec (x - a) 4); try done. destruct Nl. unfold line_of in *. zdiv. }
  pose proof (word_written_ok (l2_view l) i k nw G Hi Hk V (am_mem e) _ (mv_cache _ _ _ H) (actual_held l i Hv) hit_not_refilling eq_refl) as Hc.
  rewrite Hsame in Hc.
  assert (phase (word_written (l2_view l) i k nw) e) as Hp.
  { eapply phase_served; [by apply word_served|exact G| |by cbn; destruct (l2_mem_state l)|apply H].
    cbn. intros Hne. rewrite Hcmo. apply hit_not_victim. by destruct (l2_mem_state l). }
  destruct H. split; try done. apply Forall_insert; [done|exact Hnu].
Qed.

End hit.

(** ** Start of a miss *)

Lemma l2_free_ok l s vs idx0 set n i : geom (mview l s vs idx0) -> length (l2_valids l) = length vs -> 0 <= set < l2_set_num l -> 0 <= i ->
  i + Z.of_nat n = l2f_way_num (l2_conf l) ->
  exists r, l2_free_way_loop l set n i = Some r /\
    match r with Some idx => 0 <= idx < l2_line_num l /\ idx / l2f_way_num (l2_conf l) = set | None => True end.
Proof.
  intros G El Hs. revert i. induction n as [|n IH]; intros i Hi Hn; cbn [l2_free_way_loop]; [by eexists|].
  destruct (line_idx_eq _ G set i Hs ltac:(cbn; lia)) as (Ei & Hr & Hd). change (l2_line_idx l set i = set * l2f_way_num (l2_conf l) + i) in Ei. rewrite Ei.
  cbn in Hr, Hd. destruct (aget_is_Some (l2_valids l) (set * l2f_way_num (l2_conf l) + i)) as [v Hv].
  { pose proof (gm_valids _ G) as Hg. cbn in Hg. lia. }
  rewrite Hv. cbn. destruct v; cbn; [apply IH; lia|]. eexists. split; [done|]. done.
Qed.

Lemma wp_l2_victim l s vs idx0 set Q : geom (mview l s vs idx0) -> length (l2_valids l) = length vs -> 0 <= set < l2_set_num l ->
  (forall idx rw, 0 <= idx < l2_line_num l -> idx / l2f_way_num (l2_conf l) = set ->
     geom (mview (l <| l2_replace_ways := rw |>) s vs idx0) -> Q idx (l <| l2_replace_ways := rw |>)) ->
  wp (l2_select_victim set) Q l.
Proof.
  intros G El Hs HQ. pose proof (gm_ways _ G) as Hw. cbn in Hw. apply wp_bind, wp_gets. unfold id.
  destruct (l2_free_ok l s vs idx0 set (Z.to_nat (l2f_way_num (l2_conf l))) 0 G El Hs) as (r & -> & Hr); [lia|lia|]. apply wp_bind, wp_ret.
  destruct r as [idx|].
  { apply wp_ret. assert (l <| l2_replace_ways := l2_replace_ways l |> = l) as E by (by destruct l). rewrite <- E. apply HQ; [apply Hr..|]. by rewrite E. }
  destruct (aget_is_Some (l2_replace_ways l) set) as [way Hway].
  { pose proof (gm_replace _ G) as Hg. cbn in Hg. lia. }
  rewrite Hway. apply wp_bind, wp_ret, wp_bind, wp_on, wp_put_elem; [by eapply aget_Some|]. apply wp_ret.
  assert (0 <= way < l2f_way_num (l2_conf l)) as Hwr.
  { rewrite aget_lookup in Hway by lia. apply (Forall_lookup_1 _ _ _ _ (gm_victims _ G) Hway). }
  destruct (line_idx_eq _ G set way Hs Hwr) as (Ei & Hr2 & Hd2). change (l2_line_idx l set way = set * l2f_way_num (l2_conf l) + way) in Ei.
  rewrite Ei. apply HQ; [done|done|]. apply (geom_replace _ _ G); [cbn; rewrite length_insert; apply (gm_replace _ G)|].
  apply Forall_insert; [apply (gm_victims _ G)|]. cbn. by apply Z.mod_pos_bound.
Qed.

Lemma queues_empty l e V : mem_inv l e V -> ostq_empty (l2_bypass_rd_ost l) = true /\ ostq_empty (l2_bypass_wr_ost l) = true.
Proof.
  intros H. destruct (mv_bypass _ _ _ H) as [H1 H2]. apply ost_live_bound in H1 as [H1 _], H2 as [H2 _]. unfold ostq_empty. simpl in *. lia.
Qed.

Lemma wp_both {S} (v d : bool) Q (s : S) : Q (v && d) s -> wp (if v then of_option (Some d) else mret false) Q s.
Proof. by destruct v; apply wp_ret. Qed.

Lemma start_miss_ok l e V p pt ret Q : mem_inv l e V -> owned l -> aget (l2_ports l) p = Some pt -> po_state pt = ret -> is_u32 (po_addr pt) ->
  ret = L2_PORT_STATE_READ \/ ret = L2_PORT_STATE_WRITE ->
  (forall i, aget (l2_valids l) i = Some true -> lnum (l2_view l) i <> line_of (po_addr pt)) ->
  (forall b l', mem_inv l' e V -> owned l' -> ports_same l l' -> Q b l') -> wp (l2_start_miss p ret) Q l.
Proof.
  intros H Ho Ep Est Ha Hret Hno HQ. apply wp_bind, wp_gets. unfold id. destruct (queues_empty _ _ _ H) as [-> ->]. cbn [negb]. rewrite !orb_false_r.
  destruct (bool_decide (l2_mem_state l <> L2_MEM_STATE_IDLE)) eqn:Eb.
  { apply wp_bind, wp_modify, wp_ret, HQ; [by destruct H; split|done|done]. }
  apply bool_decide_eq_false, dec_stable in Eb as Es. mfacts H Es. pose proof (co_geom _ _ _ _ Hc) as G. destruct Hp as [Hw Hr].
  set (a := po_addr pt) in *. set (n := line_of a). pose proof (line_of_range a Ha) as Hn. fold n in Hn.
  apply wp_bind. eapply wp_port_get; [done|]. fold a. apply wp_bind, wp_modify.
  change (l2_req_set (l <| l2_mem_owner := p |> <| l2_miss_line_addr := Z.land a (not32 (L2_LINE_SIZE - 1)) |>) a) with (n mod l2_set_num l).
  change (l2_req_tag _ a) with (n / l2_set_num l). change (l2_req_set l a) with (n mod l2_set_num l).
  assert (Z.land a (not32 (L2_LINE_SIZE - 1)) = 64 * n) as -> by (by apply req_line_addr_eq).
  set (l1 := l <| l2_mem_owner := p |> <| l2_miss_line_addr := _ |> <| l2_miss_set := _ |> <| l2_miss_tag := _ |>).
  assert (geom (mview l1 L1_STATE_IDLE (l2_valids l) (l2_miss_line_idx l))) as G1 by (destruct G; by split).
  apply wp_bind. eapply wp_l2_victim; [exact G1|done|apply Z.mod_pos_bound, G|]. intros idx rw Hidx Hset Grw.
  apply wp_bind, wp_modify, wp_bind, wp_gets. unfold id. upd_proj. change (l2_tags l1) with (l2_tags l). change (l2_valids l1) with (l2_valids l).
  change (l2_dirtys l1) with (l2_dirtys l). change (l2_ports l1) with (l2_ports l).
  destruct (tag_at _ G idx Hidx) as [t Ht]. change (aget (l2_tags l) idx = Some t) in Ht. rewrite Ht. apply wp_bind, wp_ret, wp_bind, wp_modify.
  apply wp_bind. eapply wp_port_upd; [exact Ep|]. apply wp_bind, wp_modify.
  destruct (flag_at _ (l2_valids l) idx (gm_valids _ G) Hidx) as [v Hv]. destruct (flag_at _ (l2_dirtys l) idx (gm_dirtys _ G) Hidx) as [d Hd].
  rewrite Hv, Hd. apply wp_bind, wp_ret, wp_bind, wp_both. rewrite andb_assoc, andb_diag. apply wp_bind, wp_on, wp_put_elem; [exact (aget_Some _ _ _ Hv)|]. upd_proj.
  change (l2_valids l1) with (l2_valids l).
  set (l0 := mview l L1_STATE_IDLE (l2_valids l) (l2_miss_line_idx l)) in *.
  set (pt' := pt <| po_miss_return_state := ret |> <| po_state := L2_PORT_STATE_MISS_WAIT |>).
  assert (po_core pt' = po_core pt) as Ecore by (unfold po_core, po_task, pt'; upd_proj; rewrite Est; by destruct Hret as [-> | ->]).
  assert (cache_ok (l0 <| c_replace_ways := rw |>) V (am_mem e) None) as Hc2 by (apply cache_ok_replace; [exact Hc|destruct Grw; by split]).
  assert (forall vs, (forall j, aget vs j = Some true -> aget (l2_valids l) j = Some true) -> forall l', 
    (l2_conf l', l2_set_num l', l2_line_num l', l2_tags l', l2_miss_line_addr l', l2_miss_tag l') =
    (l2_conf l, l2_set_num l, l2_line_num l, l2_tags l, 64 * n, n / l2_set_num l) -> forall s, miss_ok (mview l' s vs idx)) as Hmiss.
  { intros vs Hvs l' E s. injection E as E1 E2 E3 E4 E5 E6. unfold miss_ok, lnum. cbn. rewrite E1, E2, E3, E4, E5, E6.
    assert (line_of (64 * n) = n) as -> by (unfold line_of; zdiv). split; [exact Hidx|]. do 3 (split; [done|]).
    intros j Hj. specialize (Hno j (Hvs j Hj)). unfold lnum in Hno. cbn in Hno. exact Hno. }
  assert (aget (<[Z.to_nat p := pt']> (l2_ports l)) p = Some pt') as Hown.
  { rewrite aget_insert by exact (aget_Some _ _ _ Ep). by rewrite Z.eqb_refl. }
  destruct (v && d) eqn:Evd.
  - apply andb_true_iff in Evd as [-> ->]. apply wp_bind, wp_modify, wp_ret. cbv beta.
    match goal with |- Q true ?x => set (l' := x) end.
    assert (<[Z.to_nat idx := true]> (<[Z.to_nat idx := false]> (l2_valids l)) = l2_valids l) as Hins.
    { rewrite list_insert_insert_eq. apply list_insert_id. by rewrite aget_lookup in Hv by lia. }
    assert (l2_view l' = mview l' L1_STATE_WB_AW (l2_valids l) idx) as Ev.
    { transitivity (mview l' L1_STATE_WB_AW (<[Z.to_nat idx := true]> (<[Z.to_nat idx := false]> (l2_valids l))) idx); [done|by rewrite Hins]. }
    apply HQ; [|intros _; exists pt'; split; [exact Hown|split; [reflexivity|split; [by intros|by intros _; exact Hret]]]|
      eapply ports_same_trans; [exact (same_task l p pt pt' Ep Ecore)|apply kept_ports; reflexivity]].
    assert (aget (<[Z.to_nat idx := false]> (l2_valids l)) idx = Some false) as Hvic.
    { rewrite aget_insert by exact (aget_Some _ _ _ Hv). by rewrite Z.eqb_refl. }
    pose proof (mv_words _ _ _ H). pose proof (mv_bytes _ _ _ H). pose proof (mv_bypass _ _ _ H). pose proof (mv_counts _ _ _ H).
    split; rewrite ?Ev; try done.
    + eapply cache_ok_arrays; [|exact Hc2]. done.
    + split; [|apply Hmiss; [done|reflexivity]]. split; [exact Hw|]. split; [|exact Hr]. split; [exact Hv|]. split; [exact Hd|].
      change (l1_line_addr l0 t (n mod l2_set_num l) = 64 * lnum l0 idx). rewrite <- (line_addr_eq l0 idx t G Hidx Ht); [by f_equal|].
      apply (co_range _ _ _ _ Hc). exact Hv.
    + intros _. unfold is_u32, W32. change (l2_miss_line_addr l') with (64 * n). lia.
  - apply wp_bind, wp_modify, wp_ret. cbv beta. match goal with |- Q true ?x => set (l' := x) end.
    assert (l2_view l' = mview l' L1_STATE_REFILL_AR (<[Z.to_nat idx := false]> (l2_valids l)) idx) as Ev by done.
    apply HQ; [|intros _; exists pt'; split; [exact Hown|split; [reflexivity|split; [by intros|by intros _; exact Hret]]]|
      eapply ports_same_trans; [exact (same_task l p pt pt' Ep Ecore)|apply kept_ports; reflexivity]].
    assert (aget (<[Z.to_nat idx := false]> (l2_valids l)) idx = Some false) as Hvic.
    { rewrite aget_insert by exact (aget_Some _ _ _ Hv). by rewrite Z.eqb_refl. }
    pose proof (mv_words _ _ _ H). pose proof (mv_bytes _ _ _ H). pose proof (mv_bypass _ _ _ H). pose proof (mv_counts _ _ _ H).
    split; rewrite ?Ev; try done.
    + eapply cache_ok_arrays; [|apply (drop_ok _ V (am_mem e) None idx Hc2 Hidx)]; [done|].
      intros Hv' Hd'. change (aget (l2_valids l) idx = Some true) in Hv'. change (aget (l2_dirtys l) idx = Some true) in Hd'. destruct v, d; done || congruence.
    + split; [exact Hw|]. split; [exact Hr|]. split; [apply Hmiss; [|reflexivity]|].
      * intros j Hj. rewrite aget_insert in Hj by exact (aget_Some _ _ _ Hv). by destruct (j =? idx).
      * intros Hv'. change (aget (<[Z.to_nat idx := false]> (l2_valids l)) idx = Some true) in Hv'. congruence.
    + intros _. unfold is_u32, W32. change (l2_miss_line_addr l') with (64 * n). lia.
Qed.

(** ** Start of a maintenance operation *)

(** Only the port [p] and the memory machine have changed. *)
Definition port_now (l l' : l2_t) (p : Z) (pt' : l2_port_t) : Prop :=
  ports_same (l <| l2_ports := <[Z.to_nat p := pt']> (l2_ports l) |>) l'.

Lemma start_cmo_ok l e V p pt ar Q : mem_inv l e V -> owned l -> aget (l2_ports l) p = Some pt -> is_u32 (ar_addr ar) ->
  ar_len ar = 0 -> ar_size ar = AXI4_SIZE_B4 -> axi4_user_cmo_cleans (ar_user ar) = true -> Q false l ->
  (forall l' pt', mem_inv l' e V -> owned l' -> port_now l l' p pt' ->
     (exists a, po_core pt' = (L2_PORT_STATE_CMO_RSP, ar, po_aw pt, a, 0)) -> Q true l') ->
  wp (l2_start_cmo p ar) Q l.
Proof.
  intros H Ho Ep Ha Hl0 Hsz Hcl HF HQ. apply wp_bind, wp_gets. unfold id. destruct (queues_empty _ _ _ H) as [-> ->]. cbn [negb]. rewrite !orb_false_r.
  destruct (bool_decide (l2_mem_state l <> L2_MEM_STATE_IDLE)) eqn:Eb; [by apply wp_ret|].
  apply bool_decide_eq_false, dec_stable in Eb as Es. apply wp_bind, wp_check; [by rewrite Hl0|]. apply wp_bind, wp_check; [by rewrite Hsz|]. cbv zeta.
  set (n := line_of (ar_addr ar)). pose proof (line_of_range _ Ha) as Hn. fold n in Hn.
  assert (Z.land (ar_addr ar) (not32 (L2_LINE_SIZE - 1)) = 64 * n) as -> by (by apply req_line_addr_eq).
  apply wp_bind. eapply wp_port_upd; [exact Ep|]. apply wp_bind, wp_modify.
  set (pt1 := pt <| po_ar := ar |> <| po_addr := 64 * n |> <| po_beat_idx := 0 |>).
  destruct (l2_lookup_ok l e V (64 * n) H) as (r & -> & Hr); [unfold is_u32, W32; lia|]. apply wp_bind, wp_ret, wp_bind, wp_modify.
  assert (line_of (64 * n) = n) as El by (unfold line_of; zdiv). rewrite El in Hr.
  assert (forall x, aget (<[Z.to_nat p := x]> (l2_ports l)) p = Some x) as Hget.
  { intros x. rewrite aget_insert by exact (aget_Some _ _ _ Ep). by rewrite Z.eqb_refl. }
  assert (forall x y, <[Z.to_nat p := y]> (<[Z.to_nat p := x]> (l2_ports l)) = <[Z.to_nat p := y]> (l2_ports l)) as Htwo
    by (intros; apply list_insert_insert_eq).
  mfacts H Es. pose proof (co_geom _ _ _ _ Hc) as G. pose proof (mv_words _ _ _ H). pose proof (mv_bytes _ _ _ H). pose proof (mv_bypass _ _ _ H). pose proof (mv_counts _ _ _ H).
  destruct r as [idx|]; cbn [is_Some].
  2: { apply wp_bind. eapply wp_port_upd; [apply Hget|]. apply wp_ret. upd_proj. rewrite Htwo.
    match goal with |- Q true ?x => set (l' := x) end.
    assert (l2_view l' = l2_view l) as Ev by (rewrite (view_at l _ Es), (view_at l' _ Es); reflexivity).
    apply (HQ l' (pt1 <| po_state := L2_PORT_STATE_CMO_RSP |>)); [| |by apply kept_ports|by eexists].
    - destruct H. split; rewrite ?Ev; done.
    - intros Hn'. by destruct Hn'. }
  destruct Hr as [Hv Hnum]. set (l0 := mview l L1_STATE_IDLE (l2_valids l) (l2_miss_line_idx l)) in *.
  pose proof (valid_range _ G idx Hv) as Hi. change (0 <= idx < l2_line_num l) in Hi.
  rewrite (view_at l _ Es) in Hnum. change (lnum l0 idx = n) in Hnum. destruct (tag_at _ G idx Hi) as [t Ht].
  destruct (flag_at _ (l2_dirtys l) idx (gm_dirtys _ G) Hi) as [d Hd]. change (aget (l2_tags l) idx = Some t) in Ht.
  apply wp_bind, wp_modify. change (l2_cmo_cleans (ar_user ar)) with (axi4_user_cmo_cleans (ar_user ar)). rewrite Hcl, Hd, Ht. apply wp_bind, wp_ret.
  destruct Hp as [Hw Hrd]. destruct d.
  - apply wp_bind, wp_ret, wp_bind, wp_modify, wp_bind. eapply wp_port_upd; [apply Hget|]. apply wp_bind, wp_modify, wp_ret. cbv beta.
    match goal with |- Q true ?x => set (l' := x) end.
    assert (l2_view l' = mview l' L1_STATE_CMO_L1_WB_AW (l2_valids l) idx) as Ev by done.
    apply (HQ l' (pt1 <| po_state := L2_PORT_STATE_CMO_WAIT |>)); [| | |by eexists].
    + split; rewrite ?Ev; try done.
      * eapply cache_ok_arrays; [|exact Hc]. done.
      * split; [exact Hw|]. split; [|exact Hrd]. split; [exact Hv|]. split; [exact Hd|].
        change (l1_line_addr l0 t (line_of (64 * n) mod l2_set_num l) = 64 * lnum l0 idx). rewrite El.
        rewrite <- (line_addr_eq l0 idx t G Hi Ht); [|by apply (co_range _ _ _ _ Hc)].
        f_equal. destruct (proj1 (lnum_split l0 G idx n t Hi Ht ltac:(lia)) Hnum) as [_ E]. symmetry. exact E.
    + intros _. exists (pt1 <| po_state := L2_PORT_STATE_CMO_WAIT |>). split; [|by split_and!].
      change (aget (<[Z.to_nat p := pt1 <| po_state := L2_PORT_STATE_CMO_WAIT |>]> (<[Z.to_nat p := pt1]> (l2_ports l))) p =
        Some (pt1 <| po_state := L2_PORT_STATE_CMO_WAIT |>)). by rewrite Htwo.
    + apply kept_ports. transitivity (mem_kept (l <| l2_ports := <[Z.to_nat p := pt1 <| po_state := L2_PORT_STATE_CMO_WAIT |>]>
        (<[Z.to_nat p := pt1]> (l2_ports l)) |>)); [reflexivity|by rewrite Htwo].
  - set (l1 := l0 <| c_dirtys := <[Z.to_nat idx := false]> (c_dirtys l0) |>).
    assert (cache_ok l1 V (am_mem e) None) as Hc1.
    { apply clean_ok; [exact Hc|done|]. intros _ off Hoff. apply (co_clean _ _ _ _ Hc); [apply u32_line_addr; [by apply (co_range _ _ _ _ Hc)|done]|].
      intros j Hvj Hdj. rewrite line_addr_of by done. intros E. rewrite (co_unique _ _ _ _ Hc j idx Hvj Hv E) in Hdj.
      change (aget (l2_dirtys l) idx = Some true) in Hdj. congruence. }
    assert (~ dirty l1 idx) as Hnd by (intros Hx; apply (dirty_insert l0) in Hx; [by rewrite Z.eqb_refl in Hx|done..]).
    apply wp_bind, wp_on, wp_put_elem; [exact (aget_Some _ _ _ Hd)|]. upd_proj. apply wp_bind.
    destruct (l2_cmo_invalidates _); cbn [when]; [apply wp_on, wp_put_elem; [exact (aget_Some _ _ _ Hv)|]|apply wp_ret].
    + apply wp_bind. eapply wp_port_upd; [apply Hget|]. apply wp_ret. cbv beta. match goal with |- Q true ?x => set (l' := x) end.
      assert (l2_view l' = mview l' L1_STATE_IDLE (<[Z.to_nat idx := false]> (l2_valids l)) (l2_miss_line_idx l)) as Ev by (rewrite (view_at l' _ Es); reflexivity).
      apply (HQ l' (pt1 <| po_state := L2_PORT_STATE_CMO_RSP |>)); [|by intros Hx; destruct Hx| |by eexists].
      * split; rewrite ?Ev; try done; try (by intros Hx; change (miss_state (l2_mem_state l) = true) in Hx; rewrite Es in Hx).
        eapply cache_ok_arrays; [|apply (drop_ok l1 V (am_mem e) None idx Hc1 Hi); intros _; exact Hnd]. done.
      * apply kept_ports. transitivity (mem_kept (l <| l2_ports := <[Z.to_nat p := pt1 <| po_state := L2_PORT_STATE_CMO_RSP |>]>
        (<[Z.to_nat p := pt1]> (l2_ports l)) |>)); [reflexivity|by rewrite Htwo].
    + apply wp_bind. eapply wp_port_upd; [apply Hget|]. apply wp_ret. cbv beta. match goal with |- Q true ?x => set (l' := x) end.
      assert (l2_view l' = mview l' L1_STATE_IDLE (l2_valids l) (l2_miss_line_idx l)) as Ev by (rewrite (view_at l' _ Es); reflexivity).
      apply (HQ l' (pt1 <| po_state := L2_PORT_STATE_CMO_RSP |>)); [|by intros Hx; destruct Hx| |by eexists].
      * split; rewrite ?Ev; try done; try (by intros Hx; change (miss_state (l2_mem_state l) = true) in Hx; rewrite Es in Hx).
      * apply kept_ports. transitivity (mem_kept (l <| l2_ports := <[Z.to_nat p := pt1 <| po_state := L2_PORT_STATE_CMO_RSP |>]>
        (<[Z.to_nat p := pt1]> (l2_ports l)) |>)); [reflexivity|by rewrite Htwo].
Qed.
