(* ===== verification/L2Spec.v ===== *)
(** * The clock of the level 2 cache

    Every stage of [l2_clock] keeps the invariant of L2Port.v. *)

From stdpp Require Import base numbers list.
From Stdlib Require Import ZArith Lia.
From S2P Require Import Prelude Fifo Ost OstScan OstSlot Bti Axi L1 L1Cache AxiMem L1Inv L1Stages L1Pipe L1Run AxiLog L2 L2Mem L2Port L2Data.

(** ** Parts of the state *)

(** The fields the invariant of the memory machine is about. *)
Definition mem_fields (l : l2_t) :=
  ((l2_mem_axi4_aw_mst l, l2_mem_axi4_w_mst l, l2_mem_axi4_b_slv l, l2_mem_axi4_ar_mst l, l2_mem_axi4_r_slv l),
   (l2_conf l, l2_set_num l, l2_line_num l), (l2_tags l, l2_data l, l2_replace_ways l, l2_valids l, l2_dirtys l),
   (l2_mem_state l, l2_miss_line_addr l, l2_miss_set l, l2_miss_tag l, l2_miss_line_idx l, l2_wb_line_addr l, l2_mem_beat_idx l, l2_cmo_line_idx l),
   (l2_bypass_rd_ost l, l2_bypass_wr_ost l),
   (length (l2_perf_stg_ar_full l), length (l2_perf_stg_aw_full l), length (l2_perf_stg_w_full l))).

Lemma mem_inv_fields l l' e V : mem_fields l' = mem_fields l -> mem_inv l e V -> mem_inv l' e V.
Proof.
  unfold mem_fields. intros E. injection E as E1 E2 E3 E4 E5 E6 E7 E8 E9 E10 E11 E12 E13 E14 E15 E16 E17 E18 E19 E20 E21 E22 E23 E24 E25 E26.
  assert (l2_view l' = l2_view l) as Ev.
  { unfold l2_view, mview, l2_held. by rewrite E1, E2, E3, E4, E5, E6, E7, E8, E9, E10, E11, E12, E13, E14, E15, E16, E17, E18, E19, E20, E21. }
  intros []. split; rewrite ?Ev, ?E1, ?E2, ?E4, ?E10, ?E12, ?E14, ?E15, ?E18, ?E22, ?E23; try done.
  unfold counters_ok. by rewrite E24, E25, E26.
Qed.

(** The FIFOs and interfaces of a port. *)
Definition port_rest (l : l2_t) (p : Z) :=
  (aget (l2_ar_fifos l) p, aget (l2_aw_fifos l) p, aget (l2_w_fifos l) p,
   l2_port_ar_slv l p, l2_port_aw_slv l p, l2_port_w_slv l p, l2_port_r_mst l p, l2_port_b_mst l p).

Definition is_port (p : Z) : Prop := p = L2_I_PORT \/ p = L2_D_PORT.
Definition awaits (p : l2_port_t) : Prop := po_state p = L2_PORT_STATE_MISS_WAIT \/ po_state p = L2_PORT_STATE_CMO_WAIT.
Definition ev_port (ev : axi_event) : Z := match ev with EvRead p _ _ | EvWrite p _ _ _ => p end.

Lemma owned_port l l' p pt pt' : owned l -> aget (l2_ports l) p = Some pt -> ~ awaits pt ->
  l2_ports l' = <[Z.to_nat p := pt']> (l2_ports l) ->
  (l2_mem_state l', l2_mem_owner l', l2_cmo_hit l') = (l2_mem_state l, l2_mem_owner l, l2_cmo_hit l) -> owned l'.
Proof.
  intros Ho Ep Hn Epo E. injection E as E1 E2 E3. unfold owned. rewrite E1, E2, E3, Epo. intros Hb.
  destruct (Ho Hb) as (q & Eq & Es & Hx). exists q. split; [|done]. rewrite aget_insert by exact (aget_Some _ _ _ Ep).
  destruct (Z.eqb_spec (l2_mem_owner l) p) as [E|]; [|done]. destruct Hn. rewrite E, Ep in Eq. injection Eq as ->.
  unfold awaits. rewrite Es. destruct (cmo_state _); auto.
Qed.

(** A step of the port [p], which may add a beat to the log. *)
Lemma ports_step V0 H l l' e log log' p pt pt' : l2_inv V0 H l e log -> aget (l2_ports l) p = Some pt ->
  l2_ports l' = <[Z.to_nat p := pt']> (l2_ports l) -> (forall q, is_port q -> q <> p -> port_rest l' q = port_rest l q) ->
  log' = log \/ (exists ev, log' = log ++ [ev] /\ ev_port ev = p) ->
  port_inv V0 log' p (H p) l' -> forall q, is_port q -> port_inv V0 log' q (H q) l'.
Proof.
  intros [] Ep Epo Hr Hlog Hi q Hq. destruct (decide (q = p)) as [->|Hne]; [done|].
  assert (port_inv V0 log q (H q) l') as Hiq.
  { eapply port_inv_same; [|by apply li_ports]. specialize (Hr q Hq Hne). unfold port_rest in Hr. injection Hr as R1 R2 R3 R4 R5 R6 R7 R8.
    unfold port_part. rewrite Epo, aget_insert, (proj2 (Z.eqb_neq _ _) Hne) by exact (aget_Some _ _ _ Ep). by rewrite R1, R2, R3, R4, R5, R6, R7, R8. }
  destruct Hlog as [->|(ev & -> & Hev)]; [done|]. destruct Hiq as (pq & a & b & c & H1 & H2 & H3 & H4 & H5 & H6).
  exists pq, a, b, c. split_and!; try done; try apply H5. apply port_rel_other; [done|]. by destruct ev; cbn in Hev; congruence.
Qed.

Lemma num_port V0 H l l' e log p pt pt' : l2_inv V0 H l e log -> aget (l2_ports l) p = Some pt -> l2_ports l' = <[Z.to_nat p := pt']> (l2_ports l) ->
  forall q, is_Some (aget (l2_ports l') q) -> q = L2_I_PORT \/ q = L2_D_PORT.
Proof.
  intros [] Ep Epo q. rewrite Epo, aget_insert by exact (aget_Some _ _ _ Ep). destruct (Z.eqb_spec q p) as [->|]; [|by apply li_num].
  intros _. apply li_num. by eexists.
Qed.

Lemma inv_port V0 H l l' e log log' p pt pt' : l2_inv V0 H l e log -> aget (l2_ports l) p = Some pt -> ~ awaits pt ->
  l2_ports l' = <[Z.to_nat p := pt']> (l2_ports l) ->
  (l2_mem_state l', l2_mem_owner l', l2_cmo_hit l') = (l2_mem_state l, l2_mem_owner l, l2_cmo_hit l) ->
  mem_inv l' e (run_mem V0 log') -> (forall q, is_port q -> q <> p -> port_rest l' q = port_rest l q) ->
  log' = log \/ (exists ev, log' = log ++ [ev] /\ ev_port ev = p) ->
  port_inv V0 log' p (H p) l' -> l2_inv V0 H l' e log'.
Proof.
  intros Hi Ep Hn Epo E Hm Hr Hlog Hip. split; [done|by eapply owned_port; [apply Hi|..]|by eapply ports_step|by eapply num_port].
Qed.

(** ** Rules of the port *)

Definition at_port (l : l2_t) (p : Z) (pt : l2_port_t) : l2_t := l <| l2_ports := <[Z.to_nat p := pt]> (l2_ports l) |>.

Lemma at_port_id l p pt : aget (l2_ports l) p = Some pt -> at_port l p pt = l.
Proof.
  intros E. pose proof (aget_Some _ _ _ E). rewrite aget_lookup in E by lia. unfold at_port. rewrite list_insert_id by done. by destruct l.
Qed.

Lemma at_port_twice l p x y : at_port (at_port l p x) p y = at_port l p y.
Proof. unfold at_port. upd_proj. rewrite list_insert_insert_eq. by destruct l. Qed.

Lemma at_port_get l p pt x : aget (l2_ports l) p = Some pt -> aget (l2_ports (at_port l p x)) p = Some x.
Proof. intros E. unfold at_port. upd_proj. rewrite aget_insert by exact (aget_Some _ _ _ E). by rewrite Z.eqb_refl. Qed.

Lemma wp_upd_at l p pt x f Q : aget (l2_ports l) p = Some pt -> Q tt (at_port l p (f x)) -> wp (port_upd p f) Q (at_port l p x).
Proof.
  intros E HQ. eapply wp_port_upd; [by eapply at_port_get|]. change (Q tt (at_port (at_port l p x) p (f x))). by rewrite at_port_twice.
Qed.

Lemma wp_get_at l p pt x Q : aget (l2_ports l) p = Some pt -> Q x (at_port l p x) -> wp (port_get p) Q (at_port l p x).
Proof. intros E HQ. eapply wp_port_get; [by eapply at_port_get|done]. Qed.

(** The latency counts in registers of the port only. *)
Lemma wp_latency l p pt Q : aget (l2_ports l) p = Some pt ->
  (forall b pt', po_core pt' = po_core pt -> po_state pt' = po_state pt -> Q b (at_port l p pt')) -> wp (l2_port_latency_ready p) Q l.
Proof.
  intros E HQ. rewrite <- (at_port_id l p pt E). apply wp_bind, wp_gets. unfold id. apply wp_bind. eapply wp_get_at; [done|].
  destruct (_ || _); [apply wp_bind; eapply wp_upd_at; [done|]; by apply wp_ret, HQ|].
  assert (forall x, po_core x = po_core pt -> po_state x = po_state pt ->
    wp (port_upd p (fun p => p <| po_delay := u32 (po_delay p + 1) |>);; p0 ← port_get p;
        if po_delay p0 <? l2f_latency (l2_conf (at_port l p pt)) then mret false
        else port_upd p (fun p => p <| po_latency_active := false |> <| po_delay := 0 |>);; mret true) Q (at_port l p x)) as Hrest.
  { intros x Hc Hs. apply wp_bind. eapply wp_upd_at; [done|]. apply wp_bind. eapply wp_get_at; [done|].
    destruct (_ <? _); [by apply wp_ret, HQ|]. apply wp_bind. eapply wp_upd_at; [done|]. by apply wp_ret, HQ. }
  apply wp_bind. destruct (negb _); cbn [when]; [|apply wp_ret; by apply Hrest]. eapply wp_upd_at; [done|]. by apply Hrest.
Qed.

Lemma perf_hit_id (l : l2_t) : l <| l2_perf_hit := l2_perf_hit l |> = l.
Proof. by destruct l. Qed.

Lemma wp_count_hit l p pt Q : aget (l2_ports l) p = Some pt ->
  (forall n pt', po_core pt' = po_core pt -> po_state pt' = po_state pt -> Q tt (at_port (l <| l2_perf_hit := n |>) p pt')) -> wp (count_hit p) Q l.
Proof.
  intros E HQ. apply wp_bind. eapply wp_port_get; [done|]. destruct (po_miss_resolved pt).
  - eapply wp_port_upd; [done|]. set (pt' := pt <| po_miss_resolved := false |>). specialize (HQ (l2_perf_hit l) pt' eq_refl eq_refl).
    rewrite perf_hit_id in HQ. exact HQ.
  - apply wp_modify. specialize (HQ (u64 (l2_perf_hit l + 1)) pt eq_refl eq_refl). by rewrite at_port_id in HQ.
Qed.

(** Interfaces of the port. *)
Definition set_ar_slv (l : l2_t) (p : Z) c := if p =? L2_I_PORT then l <| l2_i_axi4_ar_slv := c |> else l <| l2_d_axi4_ar_slv := c |>.
Definition set_aw_slv (l : l2_t) (p : Z) c := if p =? L2_I_PORT then l <| l2_i_axi4_aw_slv := c |> else l <| l2_d_axi4_aw_slv := c |>.
Definition set_w_slv (l : l2_t) (p : Z) c := if p =? L2_I_PORT then l <| l2_i_axi4_w_slv := c |> else l <| l2_d_axi4_w_slv := c |>.
Definition set_r_mst (l : l2_t) (p : Z) c := if p =? L2_I_PORT then l <| l2_i_axi4_r_mst := c |> else l <| l2_d_axi4_r_mst := c |>.
Definition set_b_mst (l : l2_t) (p : Z) c := if p =? L2_I_PORT then l <| l2_i_axi4_b_mst := c |> else l <| l2_d_axi4_b_mst := c |>.

Section interfaces.
  Context {B : Type} (l : l2_t) (p : Z) (Q : B -> l2_t -> Prop).
Lemma wp_ar_slv m : wp m (fun b c => Q b (set_ar_slv l p c)) (l2_port_ar_slv l p) -> wp (on_ar_slv p m) Q l.
Proof. unfold on_ar_slv, set_ar_slv, l2_port_ar_slv. destruct (_ =? _); apply wp_on. Qed.
Lemma wp_aw_slv m : wp m (fun b c => Q b (set_aw_slv l p c)) (l2_port_aw_slv l p) -> wp (on_aw_slv p m) Q l.
Proof. unfold on_aw_slv, set_aw_slv, l2_port_aw_slv. destruct (_ =? _); apply wp_on. Qed.
Lemma wp_w_slv m : wp m (fun b c => Q b (set_w_slv l p c)) (l2_port_w_slv l p) -> wp (on_w_slv p m) Q l.
Proof. unfold on_w_slv, set_w_slv, l2_port_w_slv. destruct (_ =? _); apply wp_on. Qed.
Lemma wp_r_mst m : wp m (fun b c => Q b (set_r_mst l p c)) (l2_port_r_mst l p) -> wp (on_r_mst p m) Q l.
Proof. unfold on_r_mst, set_r_mst, l2_port_r_mst. destruct (_ =? _); apply wp_on. Qed.
Lemma wp_b_mst m : wp m (fun b c => Q b (set_b_mst l p c)) (l2_port_b_mst l p) -> wp (on_b_mst p m) Q l.
Proof. unfold on_b_mst, set_b_mst, l2_port_b_mst. destruct (_ =? _); apply wp_on. Qed.
End interfaces.

(** ** Stages *)

(** The invariant with a log that goes on from [log0]. *)
Definition l2_some (V0 : Z -> Z) (H : Z -> port_hist) (e : axi_mem) (log0 : list axi_event) (l : l2_t) : Prop :=
  exists log, log0 `prefix_of` log /\ l2_inv V0 H l e log.

Lemma some_same V0 H e log l : l2_inv V0 H l e log -> l2_some V0 H e log l.
Proof. by exists log. Qed.

Lemma some_snoc V0 H e log ev l : l2_inv V0 H l e (log ++ [ev]) -> l2_some V0 H e log l.
Proof. intros Hi. exists (log ++ [ev]). split; [by apply prefix_app_r|done]. Qed.

Lemma some_trans V0 H e log log' l : log `prefix_of` log' -> l2_some V0 H e log' l -> l2_some V0 H e log l.
Proof. intros Hp (log2 & Hp2 & Hi). exists log2. split; [by etrans|done]. Qed.

Lemma inv_mem V0 H l l' e log : l2_inv V0 H l e log -> mem_inv l' e (run_mem V0 log) -> owned l' -> ports_same l l' -> l2_inv V0 H l' e log.
Proof. intros [] Hm Ho Hs. split; [done|done| |by eapply num_same]. intros p Hp. eapply port_inv_same; [apply Hs|auto]. Qed.

(** Registers of the port that do not count. *)
Lemma inv_core V0 H l l' e log p pt pt' : l2_inv V0 H l e log -> aget (l2_ports l) p = Some pt -> ~ awaits pt -> po_core pt' = po_core pt ->
  mem_kept l' = mem_kept (at_port l p pt') -> mem_fields l' = mem_fields l ->
  (l2_mem_owner l', l2_cmo_hit l') = (l2_mem_owner l, l2_cmo_hit l) -> l2_inv V0 H l' e log.
Proof.
  intros Hi Ep Hn Ec Ek Ef Eo. apply (inv_mem V0 H l); [done|by eapply mem_inv_fields, Hi| |].
  - eapply owned_port; [apply Hi|done|done| |]; [unfold mem_kept in Ek; injection Ek; intros; eassumption|].
    unfold mem_fields in Ef. injection Ef as _ _ _ _ _ _ _ _ _ _ _ _ _ ->. by injection Eo as -> ->.
  - eapply ports_same_trans; [exact (same_task l p pt pt' Ep Ec)|by apply kept_ports].
Qed.

(** Where a port is. *)
Lemma port_at V0 H l e log p pt : l2_inv V0 H l e log -> is_port p -> aget (l2_ports l) p = Some pt ->
  exists arf awf wf, aget (l2_ar_fifos l) p = Some arf /\ aget (l2_aw_fifos l) p = Some awf /\ aget (l2_w_fifos l) p = Some wf /\
    (chan_wf arf /\ chan_wf awf /\ chan_wf wf /\ chan_wf (l2_port_r_mst l p) /\ chan_wf (l2_port_b_mst l p)) /\
    port_rel V0 log p (H p) (po_core pt) (ch_pkts arf ++ ch_pkts (l2_port_ar_slv l p)) (ch_pkts awf ++ ch_pkts (l2_port_aw_slv l p))
      (ch_pkts wf ++ ch_pkts (l2_port_w_slv l p)) (ch_pkts (l2_port_r_mst l p)) (ch_pkts (l2_port_b_mst l p)).
Proof.
  intros Hi Hp Ep. destruct (li_ports _ _ _ _ _ Hi p Hp) as (pt' & arf & awf & wf & Ep' & Hrest). rewrite Ep in Ep'. injection Ep' as <-. by exists arf, awf, wf.
Qed.

Lemma core_at V0 H l e log p pt : l2_inv V0 H l e log -> is_port p -> aget (l2_ports l) p = Some pt -> core_ok p (po_core pt).
Proof. intros Hi Hp Ep. destruct (port_at _ _ _ _ _ _ _ Hi Hp Ep) as (? & ? & ? & ? & ? & ? & ? & Hr). apply Hr. Qed.

Lemma no_wait pt s : po_state pt = s -> s <> L2_PORT_STATE_MISS_WAIT -> s <> L2_PORT_STATE_CMO_WAIT -> ~ awaits pt.
Proof. intros <- H1 H2. by intros [E|E]. Qed.

(** The word a port works on. *)
Lemma read_addr p ar aw addr beat : core_ok p (L2_PORT_STATE_READ, ar, aw, addr, beat) -> is_u32 addr /\ addr mod 4 = 0 /\
  (beat < ar_len ar -> u32 (beat + 1) = beat + 1 /\ l2_next_addr addr (ar_size ar) (ar_burst ar) = Some (addr + 4)).
Proof.
  intros ([[Ha Hm] Hl He [Hs Hb] _ _] & Hcmo & Hbt & ->). specialize (Hb Hcmo). split; [unfold is_u32 in *; lia|]. split; [zdiv|]. intros Hlt.
  rewrite Hs, Hb. split; [apply u32_small; unfold is_u32, W32 in *; lia|]. change (l2_next_addr _ _ _) with (Some (u32 (ar_addr ar + 4 * beat + 4))).
  f_equal. apply u32_small. unfold is_u32. lia.
Qed.

Lemma write_addr p ar aw addr beat : core_ok p (L2_PORT_STATE_WRITE, ar, aw, addr, beat) -> is_u32 addr /\ addr mod 4 = 0 /\
  (beat < aw_len aw -> u32 (beat + 1) = beat + 1 /\ l2_next_addr addr (aw_size aw) (aw_burst aw) = Some (addr + 4)).
Proof.
  intros ([_ [Ha Hm] Hl He [Hs Hb] _] & Hbt & ->). split; [unfold is_u32 in *; lia|]. split; [zdiv|]. intros Hlt.
  rewrite Hs, Hb. split; [apply u32_small; unfold is_u32, W32 in *; lia|]. change (l2_next_addr _ _ _) with (Some (u32 (aw_addr aw + 4 * beat + 4))).
  f_equal. apply u32_small. unfold is_u32. lia.
Qed.

(** ** Answers on the read channel *)

(** A beat goes out, and the port goes on. *)
Lemma inv_answer V0 H l e log p pt pt' ar k r : l2_inv V0 H l e log -> is_port p -> aget (l2_ports l) p = Some pt -> ~ awaits pt ->
  chan_wf (chan_snoc (l2_port_r_mst l p) r) ->
  (forall arq awq wq rq bq, port_rel V0 log p (H p) (po_core pt) arq awq wq rq bq ->
     port_rel V0 (log ++ [EvRead p ar k]) p (H p) (po_core pt') arq awq wq (rq ++ [r]) bq) ->
  l2_inv V0 H (at_port (set_r_mst l p (chan_snoc (l2_port_r_mst l p) r)) p pt') e (log ++ [EvRead p ar k]).
Proof.
  intros Hi Hp Ep Hn Hw Hrel. destruct (port_at _ _ _ _ _ _ _ Hi Hp Ep) as (arf & awf & wf & E1 & E2 & E3 & (W1 & W2 & W3 & _ & W5) & Hr).
  apply Hrel in Hr. assert (mem_inv l e (run_mem V0 (log ++ [EvRead p ar k]))) as Hm by (rewrite run_mem_snoc; apply Hi).
  assert (aget (<[Z.to_nat p := pt']> (l2_ports l)) p = Some pt') as Hg by (rewrite aget_insert by exact (aget_Some _ _ _ Ep); by rewrite Z.eqb_refl).
  destruct Hp as [-> | ->]; (eapply inv_port; [exact Hi|exact Ep|exact Hn|reflexivity|reflexivity|eapply mem_inv_fields, Hm; reflexivity| |right; by eexists|]).
  1,3: intros q [-> | ->] Hne; done || reflexivity.
  all: exists pt', arf, awf, wf; by split_and!.
Qed.

Lemma cmo_rsp_ok V0 H l e log p pt : l2_inv V0 H l e log -> is_port p -> aget (l2_ports l) p = Some pt ->
  po_state pt = L2_PORT_STATE_CMO_RSP -> wp (l2_proc_port_cmo_rsp p) (fun _ => l2_some V0 H e log) l.
Proof.
  intros Hi Hp Ep Es. apply wp_bind, wp_gets, wp_bind. unfold id. eapply wp_port_get; [done|].
  destruct (port_at _ _ _ _ _ _ _ Hi Hp Ep) as (_ & _ & _ & _ & _ & _ & (_ & _ & _ & W4 & _) & _).
  destruct (chan_full _) eqn:Ef; [apply wp_ret; by apply some_same|]. apply wp_bind, wp_r_mst, wp_chan_write; [done..|]. intros Hw.
  eapply wp_port_upd; [by destruct Hp as [-> | ->]|]. eapply some_snoc.
  refine (eq_ind _ (fun l => l2_inv V0 H l e _) (inv_answer V0 H l e log p pt (pt <| po_state := L2_PORT_STATE_IDLE |>) (po_ar pt) 0 _ Hi Hp Ep _ Hw _) _ _).
  - by apply (no_wait pt L2_PORT_STATE_CMO_RSP).
  - intros. unfold po_core, po_task in *. upd_proj. rewrite Es in *. by apply rel_cmo.
  - reflexivity.
Qed.

(** The latency of a port, then the rest of the stage. *)
Lemma after_latency V0 H l e log p pt Q : l2_inv V0 H l e log -> aget (l2_ports l) p = Some pt -> ~ awaits pt ->
  (forall b l' pt', l2_inv V0 H l' e log -> aget (l2_ports l') p = Some pt' -> po_core pt' = po_core pt -> po_state pt' = po_state pt ->
     port_rest l' p = port_rest l p -> Q b l') -> wp (l2_port_latency_ready p) Q l.
Proof.
  intros Hi Ep Hn HQ. eapply wp_latency; [done|]. intros b pt' Hc Hs. apply (HQ b _ pt'); [|by eapply at_port_get|done|done|reflexivity].
  by eapply inv_core with (pt' := pt').
Qed.

Lemma after_hit V0 H l e log p pt Q : l2_inv V0 H l e log -> aget (l2_ports l) p = Some pt -> ~ awaits pt ->
  (forall l' pt', l2_inv V0 H l' e log -> aget (l2_ports l') p = Some pt' -> po_core pt' = po_core pt -> po_state pt' = po_state pt ->
     port_rest l' p = port_rest l p -> Q tt l') -> wp (count_hit p) Q l.
Proof.
  intros Hi Ep Hn HQ. eapply wp_count_hit; [done|]. intros n pt' Hc Hs. apply (HQ _ pt'); [|by eapply at_port_get|done|done|reflexivity].
  by eapply inv_core with (pt' := pt').
Qed.

(** A miss leaves the burst as it is. *)
Lemma miss_ok V0 H l e log p pt ret : l2_inv V0 H l e log -> aget (l2_ports l) p = Some pt -> po_state pt = ret ->
  ret = L2_PORT_STATE_READ \/ ret = L2_PORT_STATE_WRITE -> is_u32 (po_addr pt) ->
  (forall i, aget (l2_valids l) i = Some true -> lnum (l2_view l) i <> line_of (po_addr pt)) ->
  wp (_ ← l2_start_miss p ret; mret tt) (fun _ => l2_some V0 H e log) l.
Proof.
  intros Hi Ep Es Hret Ha Hno. apply wp_bind. eapply start_miss_ok; [apply Hi|apply Hi|done..|]. intros b l' Hm Ho Hs. apply wp_ret. apply some_same. by eapply inv_mem.
Qed.

Lemma port_read_ok V0 H l e log p pt : l2_inv V0 H l e log -> is_port p -> aget (l2_ports l) p = Some pt ->
  po_state pt = L2_PORT_STATE_READ -> wp (l2_proc_port_read p) (fun _ => l2_some V0 H e log) l.
Proof.
  intros Hi Hp Ep Es. apply wp_bind, wp_gets. unfold id. destruct (chan_full _) eqn:Ef; [apply wp_ret; by apply some_same|].
  assert (~ awaits pt) as Hn by (by apply (no_wait pt _ Es)).
  apply wp_bind. eapply after_latency; [done..|]. clear Hi. intros b l1 pt1 Hi1 Ep1 Ec1 Es1 Er1. rewrite Es in Es1.
  assert (chan_full (l2_port_r_mst l1 p) = false) as Ef1 by (unfold port_rest in Er1; injection Er1; congruence). clear Er1 Ec1.
  assert (~ awaits pt1) as Hn1 by (by apply (no_wait pt1 _ Es1)).
  destruct b; cbn [negb]; [|apply wp_ret; by apply some_same]. apply wp_bind, wp_gets, wp_bind. unfold id. eapply wp_port_get; [done|].
  assert (po_core pt1 = (L2_PORT_STATE_READ, po_ar pt1, po_aw pt1, po_addr pt1, po_beat_idx pt1)) as Ecore by (unfold po_core, po_task; by rewrite Es1).
  pose proof (core_at _ _ _ _ _ _ _ Hi1 Hp Ep1) as Hcore. rewrite Ecore in Hcore.
  destruct (read_addr _ _ _ _ _ Hcore) as (Ha & H4 & Hnext).
  destruct (l2_lookup_ok l1 e _ (po_addr pt1) (li_mem _ _ _ _ _ Hi1) Ha) as (r & -> & Hr). apply wp_bind, wp_ret.
  destruct r as [i|]; [|eapply miss_ok; eauto]. destruct Hr as [Hv Hnum].
  rewrite (read_word_ok l1 e _ (li_mem _ _ _ _ _ Hi1) i (po_addr pt1) Hv Hnum H4). clear Hv Hnum.
  apply wp_bind. eapply after_hit; [done..|]. clear Hi1. intros l2 pt2 Hi2 Ep2 Ec2 Es2 Er2. apply wp_bind, wp_ret, wp_bind.
  assert (chan_full (l2_port_r_mst l2 p) = false) as Ef2 by (unfold port_rest in Er2; injection Er2; congruence). clear Er2.
  destruct (port_at _ _ _ _ _ _ _ Hi2 Hp Ep2) as (_ & _ & _ & _ & _ & _ & (_ & _ & _ & W4 & _) & _).
  apply wp_r_mst, wp_chan_write; [done..|]. intros Hw.
  assert (~ awaits pt2) as Hn2 by (apply (no_wait pt2 _ (eq_trans Es2 Es1)); done).
  assert (forall pt', po_core pt' = (if po_beat_idx pt1 =? ar_len (po_ar pt1) then (L2_PORT_STATE_IDLE, po_ar pt1, po_aw pt1, po_addr pt1, po_beat_idx pt1)
      else (L2_PORT_STATE_READ, po_ar pt1, po_aw pt1, po_addr pt1 + 4, po_beat_idx pt1 + 1)) -> forall l',
    l' = at_port (set_r_mst l2 p (chan_snoc (l2_port_r_mst l2 p) (AxiR (ar_id (po_ar pt1)) (load (run_mem V0 log) (po_addr pt1) 4) AXI4_RESP_OKAY
      (po_beat_idx pt1 =? ar_len (po_ar pt1))))) p pt' -> l2_some V0 H e log l') as Hdone.
  { intros pt' Ec' l' ->. eapply some_snoc. apply (inv_answer V0 H l2 e log p pt2 pt' (po_ar pt1) (Z.to_nat (po_beat_idx pt1))); try done.
    intros. rewrite Ec'. apply rel_read. by rewrite <- Ecore, <- Ec2. }
  assert (aget (l2_ports (set_r_mst l2 p (chan_snoc (l2_port_r_mst l2 p) (AxiR (ar_id (po_ar pt1)) (load (run_mem V0 log) (po_addr pt1) 4)
    AXI4_RESP_OKAY (po_beat_idx pt1 =? ar_len (po_ar pt1)))))) p = Some pt2) as Ep3 by (by destruct Hp as [-> | ->]).
  set (l3 := set_r_mst l2 p _) in *. rewrite Ecore in Ec2. unfold po_core in Ec2. injection Ec2 as _ F1 F2 F3 F4.
  destruct (Z.eqb_spec (po_beat_idx pt1) (ar_len (po_ar pt1))) as [El|Hl].
  - eapply wp_port_upd; [exact Ep3|]. eapply Hdone; [|reflexivity]. unfold po_core, po_task. upd_proj. by rewrite F1, F2, F3, F4.
  - destruct Hcore as (_ & _ & Hbt & _). destruct (Hnext ltac:(lia)) as [Ebeat Eaddr].
    unfold l2_port_next_read. apply wp_bind. rewrite <- (at_port_id l3 p pt2 Ep3). eapply wp_upd_at; [done|]. apply wp_bind. eapply wp_get_at; [done|].
    upd_proj. rewrite F3, F1, Eaddr. apply wp_bind, wp_ret. eapply wp_upd_at; [done|]. eapply Hdone; [|reflexivity].
    unfold po_core, po_task. upd_proj. by rewrite Es2, Es1, F1, F2, F4, Ebeat.
Qed.

(** ** Writes *)

(** Only the data port writes, so no line is cleaned while a port writes. *)
Lemma writer_no_cmo V0 H l e log p pt : l2_inv V0 H l e log -> is_port p -> aget (l2_ports l) p = Some pt ->
  po_state pt = L2_PORT_STATE_WRITE -> cmo_state (l2_mem_state l) = false.
Proof.
  intros Hi Hp Ep Es. destruct (cmo_state (l2_mem_state l)) eqn:Ec; [exfalso|done].
  destruct (li_owned _ _ _ _ _ Hi) as (q & Eq & Eqs & _); [by intros E; rewrite E in Ec|]. rewrite Ec in Eqs.
  assert (is_port (l2_mem_owner l)) as Hq by (apply (li_num _ _ _ _ _ Hi); by eexists).
  pose proof (core_at _ _ _ _ _ _ _ Hi Hq Eq) as Cq. pose proof (core_at _ _ _ _ _ _ _ Hi Hp Ep) as Cp.
  unfold po_core, po_task in Cq, Cp. rewrite Eqs in Cq. rewrite Es in Cp. destruct Cq as [Ha Hcmo], Cp as [Hw _].
  destruct (ao_cmo _ _ Ha Hcmo) as [Ed _]. pose proof (wo_port _ _ Hw) as Ed'. rewrite Ed, <- Ed', Ep in Eq. injection Eq as <-. congruence.
Qed.

Lemma wp_seq2 {S A} (m1 m2 : M S unit) (m : M S A) Q s : wp (m1;; m2) (fun _ => wp m Q) s -> wp (m1;; m2;; m) Q s.
Proof. unfold wp, mbind, M_bind. destruct (m1 s) as [[[] s1]|]; [|done]. by destruct (m2 s1) as [[[] s2]|]. Qed.

Definition slv_part (l : l2_t) (p : Z) := (l2_port_ar_slv l p, l2_port_aw_slv l p, l2_port_w_slv l p, l2_port_r_mst l p).

Lemma inv_write V0 H l l' e log p pt pt' wf w ws aw k bs : l2_inv V0 H l e log -> is_port p -> aget (l2_ports l) p = Some pt -> ~ awaits pt ->
  aget (l2_w_fifos l) p = Some wf -> ch_pkts wf = w :: ws ->
  (l2_ports l', l2_w_fifos l', l2_ar_fifos l', l2_aw_fifos l') =
    (<[Z.to_nat p := pt']> (l2_ports l), <[Z.to_nat p := Chan (ch_depth wf) ws]> (l2_w_fifos l), l2_ar_fifos l, l2_aw_fifos l) ->
  (l2_mem_state l', l2_mem_owner l', l2_cmo_hit l') = (l2_mem_state l, l2_mem_owner l, l2_cmo_hit l) ->
  mem_inv l' e (put_word (run_mem V0 log) (aw_addr aw + 4 * Z.of_nat k) w) ->
  (forall q, is_port q -> slv_part l' q = slv_part l q) -> (forall q, is_port q -> q <> p -> l2_port_b_mst l' q = l2_port_b_mst l q) ->
  chan_wf (l2_port_b_mst l' p) -> ch_pkts (l2_port_b_mst l' p) = ch_pkts (l2_port_b_mst l p) ++ bs ->
  (forall arq awq wq rq bq, port_rel V0 log p (H p) (po_core pt) arq awq (w :: wq) rq bq ->
     port_rel V0 (log ++ [EvWrite p aw k w]) p (H p) (po_core pt') arq awq wq rq (bq ++ bs)) ->
  l2_inv V0 H l' e (log ++ [EvWrite p aw k w]).
Proof.
  intros Hi Hp Ep Hn Ewf Ew E Es Hm Hs Hb Wb Eb Hrel. injection E as E1 E2 E3 E4.
  destruct (port_at _ _ _ _ _ _ _ Hi Hp Ep) as (arf & awf & wf' & F1 & F2 & F3 & (W1 & W2 & W3 & W4 & W5) & Hr). rewrite Ewf in F3. injection F3 as <-.
  eapply inv_port; [exact Hi|exact Ep|exact Hn|exact E1|exact Es|by rewrite run_mem_snoc| |right; by eexists|].
  - intros q Hq Hne. specialize (Hs q Hq). specialize (Hb q Hq Hne). unfold slv_part in Hs. injection Hs as S1 S2 S3 S4. unfold port_rest.
    rewrite S1, S2, S3, S4, Hb, E3, E4, E2, aget_insert by exact (aget_Some _ _ _ Ewf). by rewrite (proj2 (Z.eqb_neq _ _) Hne).
  - specialize (Hs p Hp). unfold slv_part in Hs. injection Hs as S1 S2 S3 S4. exists pt', arf, awf, (Chan (ch_depth wf) ws).
    rewrite E1, E2, E3, E4, S1, S2, S3, S4, !aget_insert, Z.eqb_refl by (exact (aget_Some _ _ _ Ewf) || exact (aget_Some _ _ _ Ep)).
    split_and!; try done; [by eapply chan_wf_tail|]. rewrite Eb. apply Hrel. by rewrite Ew in Hr.
Qed.

(** The beat is in the arrays and has left its FIFO. *)
Record stored (l l' : l2_t) (e : axi_mem) (V : Z -> Z) (p : Z) (wf : chan axi4_w_if_t) (ws : list axi4_w_if_t) (pt : l2_port_t) : Prop := {
  st_arrays : (l2_ports l', l2_w_fifos l', l2_ar_fifos l', l2_aw_fifos l') =
    (<[Z.to_nat p := pt]> (l2_ports l), <[Z.to_nat p := Chan (ch_depth wf) ws]> (l2_w_fifos l), l2_ar_fifos l, l2_aw_fifos l);
  st_machine : (l2_mem_state l', l2_mem_owner l', l2_cmo_hit l') = (l2_mem_state l, l2_mem_owner l, l2_cmo_hit l);
  st_mem : mem_inv l' e V;
  st_slv : forall q, slv_part l' q = slv_part l q /\ l2_port_b_mst l' q = l2_port_b_mst l q
}.

Lemma store_beat l e V p pt i wf w ws Q : mem_inv l e V -> cmo_state (l2_mem_state l) = false -> aget (l2_ports l) p = Some pt ->
  aget (l2_valids l) i = Some true -> lnum (l2_view l) i = line_of (po_addr pt) -> po_addr pt mod 4 = 0 ->
  aget (l2_w_fifos l) p = Some wf -> ch_pkts wf = w :: ws ->
  (forall l' pt', stored l l' e (put_word V (po_addr pt) w) p wf ws pt' -> po_core pt' = po_core pt -> po_state pt' = po_state pt -> Q tt l') ->
  wp (_ ← on l2_w_fifos (at_elem p chan_read);
      l2_write_word i (po_addr pt) (w_data w) (w_strb w);;
      on l2_dirtys (put_elem i true);;
      modify (fun l2 => l2 <| l2_data_write_used := true |>);;
      count_hit p) Q l.
Proof.
  intros H Hcmo Ep Hv Hnum H4 Ewf Ew HQ.
  apply wp_bind, wp_on. eapply wp_at_elem; [exact Ewf|]. eapply wp_chan_read; [exact Ew|]. set (l1 := upd l2_w_fifos _ l).
  assert (mem_inv l1 e V) as Hm1 by (eapply mem_inv_fields, H; reflexivity).
  apply wp_seq2, (write_word_mem l1 e V Hm1 i (po_addr pt) Hv Hnum H4); [exact Hcmo|]. intros d ds Hm.
  set (l2 := l1 <| l2_data := d |> <| l2_dirtys := ds |>) in *.
  apply wp_bind, wp_modify. set (l3 := l2 <| l2_data_write_used := true |>). eapply (wp_count_hit l3 p pt); [exact Ep|]. intros n pt2 Ec2 Es2.
  apply (HQ _ pt2); [|done|done]. split; [reflexivity|reflexivity|eapply mem_inv_fields, Hm; reflexivity|split; reflexivity].
Qed.

(** The end of a beat: the acknowledgement of the burst or the next address. *)
Lemma end_beat V0 H l l3 e log p pt pt2 wf w ws : l2_inv V0 H l e log -> is_port p -> aget (l2_ports l) p = Some pt ->
  po_state pt = L2_PORT_STATE_WRITE -> aget (l2_w_fifos l) p = Some wf -> ch_pkts wf = w :: ws ->
  let last := po_beat_idx pt =? aw_len (po_aw pt) in
  last && chan_full (l2_port_b_mst l p) = false -> stored l l3 e (put_word (run_mem V0 log) (po_addr pt) w) p wf ws pt2 ->
  po_core pt2 = po_core pt -> po_state pt2 = po_state pt ->
  wp (if last : bool then
        on_b_mst p (chan_write (AxiB (aw_id (po_aw pt)) AXI4_RESP_OKAY));;
        port_upd p (fun p => p <| po_state := L2_PORT_STATE_IDLE |>)
      else l2_port_next_write p) (fun _ => l2_some V0 H e log) l3.
Proof.
  intros Hi Hp Ep Es Ewf Ew last Hb [Harr Hmach Hm Hslv] Ec2 Es2. assert (last = (po_beat_idx pt =? aw_len (po_aw pt))) as Hlast by done. clearbody last.
  assert (po_core pt = (L2_PORT_STATE_WRITE, po_ar pt, po_aw pt, po_addr pt, po_beat_idx pt)) as Ecore by (unfold po_core, po_task; by rewrite Es).
  pose proof (core_at _ _ _ _ _ _ _ Hi Hp Ep) as Hcore. rewrite Ecore in Hcore. destruct (write_addr _ _ _ _ _ Hcore) as (_ & _ & Hnext).
  destruct Hcore as (_ & Hbt & Haddr).
  destruct (port_at _ _ _ _ _ _ _ Hi Hp Ep) as (? & ? & ? & _ & _ & _ & (_ & _ & _ & _ & W5) & _).
  injection Harr as A1 A2 A3 A4. rewrite Ecore in Ec2. unfold po_core in Ec2. injection Ec2 as _ F1 F2 F3 F4. rewrite Es in Es2.
  assert (forall pt' l', l2_ports l' = <[Z.to_nat p := pt']> (l2_ports l3) -> mem_fields l' = mem_fields l3 ->
    (l2_w_fifos l', l2_ar_fifos l', l2_aw_fifos l', (l2_mem_owner l', l2_cmo_hit l')) =
      (l2_w_fifos l3, l2_ar_fifos l3, l2_aw_fifos l3, (l2_mem_owner l3, l2_cmo_hit l3)) ->
    (forall q, is_port q -> slv_part l' q = slv_part l3 q) -> (forall q, is_port q -> q <> p -> l2_port_b_mst l' q = l2_port_b_mst l3 q) ->
    po_core pt' = (if last then (L2_PORT_STATE_IDLE, po_ar pt, po_aw pt, po_addr pt, po_beat_idx pt)
      else (L2_PORT_STATE_WRITE, po_ar pt, po_aw pt, po_addr pt + 4, po_beat_idx pt + 1)) ->
    chan_wf (l2_port_b_mst l' p) ->
    ch_pkts (l2_port_b_mst l' p) = ch_pkts (l2_port_b_mst l3 p) ++ (if last then [AxiB (aw_id (po_aw pt)) AXI4_RESP_OKAY] else []) ->
    l2_some V0 H e log l') as Hdone.
  { intros pt' l' Epo Ef Ek Hs' Hb' Ec' Hwf Eb'. injection Ek as K1 K2 K3 K4 K5. apply (some_snoc V0 H e log (EvWrite p (po_aw pt) (Z.to_nat (po_beat_idx pt)) w)).
    eapply (inv_write V0 H l l' e log p pt pt' wf w ws (po_aw pt) (Z.to_nat (po_beat_idx pt))); [done..|by apply (no_wait pt _ Es)|done|done| | | | | |done| |].
    - by rewrite Epo, K1, K2, K3, A1, A2, A3, A4, list_insert_insert_eq.
    - rewrite K4, K5. unfold mem_fields in Ef. by injection Ef as _ _ _ _ _ _ _ _ _ _ _ _ _ ->.
    - rewrite Z2Nat.id, <- Haddr by lia. by eapply mem_inv_fields.
    - intros q Hq. rewrite Hs' by done. apply Hslv.
    - intros q Hq Hne. rewrite Hb' by done. apply Hslv.
    - rewrite Eb', (proj2 (Hslv p)). reflexivity.
    - intros. rewrite Ec', Hlast. eapply rel_write; [done|]. by rewrite <- Ecore. }
  assert (aget (l2_ports l3) p = Some pt2) as Ep3 by (rewrite A1, aget_insert by exact (aget_Some _ _ _ Ep); by rewrite Z.eqb_refl).
  assert (l2_port_b_mst l3 p = l2_port_b_mst l p) as Eb3 by apply Hslv. clear Hm Hslv Hmach A1 A2 A3 A4. destruct last.
  - apply wp_bind, wp_b_mst. rewrite Eb3. apply wp_chan_write; [done..|]. intros Hwf. eapply wp_port_upd; [by destruct Hp as [-> | ->]|].
    apply (Hdone (pt2 <| po_state := L2_PORT_STATE_IDLE |>)); destruct Hp as [-> | ->]; try done.
    1,2: by intros q [-> | ->].
    1,2: unfold po_core, po_task; upd_proj; by rewrite F1, F2, F3, F4.
    all: by rewrite Eb3.
  - destruct (Hnext ltac:(lia)) as [Ebeat Eaddr].
    unfold l2_port_next_write. apply wp_bind. rewrite <- (at_port_id l3 p pt2 Ep3). eapply wp_upd_at; [done|]. apply wp_bind. eapply wp_get_at; [done|].
    upd_proj. rewrite F3, F2, Eaddr. apply wp_bind, wp_ret. eapply wp_upd_at; [done|].
    eapply Hdone; try reflexivity; [unfold po_core, po_task; upd_proj; by rewrite Es2, F1, F2, F4, Ebeat|change (chan_wf (l2_port_b_mst l3 p)); by rewrite Eb3|symmetry; apply app_nil_r].
Qed.

Lemma wp_seq5 {S A} (m1 : M S A) (m2 m3 m4 m5 m : M S unit) Q s :
  wp (_ ← m1; m2;; m3;; m4;; m5) (fun _ => wp m Q) s -> wp (_ ← m1; m2;; m3;; m4;; m5;; m) Q s.
Proof.
  unfold wp, mbind, M_bind. destruct (m1 s) as [[? s1]|]; [|done]. destruct (m2 s1) as [[? s2]|]; [|done]. destruct (m3 s2) as [[? s3]|]; [|done].
  destruct (m4 s3) as [[? s4]|]; [|done]. by destruct (m5 s4) as [[? s5]|].
Qed.

Lemma port_write_ok V0 H l e log p pt : l2_inv V0 H l e log -> is_port p -> aget (l2_ports l) p = Some pt ->
  po_state pt = L2_PORT_STATE_WRITE -> wp (l2_proc_port_write p) (fun _ => l2_some V0 H e log) l.
Proof.
  intros Hi Hp Ep Es. apply wp_bind, wp_gets. unfold id. destruct (port_at _ _ _ _ _ _ _ Hi Hp Ep) as (_ & _ & wf & _ & _ & Ewf & _).
  rewrite Ewf. apply wp_bind, wp_ret. destruct (chan_empty wf) eqn:Ee; [apply wp_ret; by apply some_same|]. destruct (chan_empty_false _ Ee) as (w & ws & Ew).
  assert (~ awaits pt) as Hn by (by apply (no_wait pt _ Es)).
  apply wp_bind. eapply after_latency; [done..|]. clear Hi. intros b l1 pt1 Hi1 Ep1 Ec1 Es1 Er1. rewrite Es in Es1.
  assert (aget (l2_w_fifos l1) p = Some wf) as Ewf1 by (unfold port_rest in Er1; injection Er1; congruence). clear Er1 Ec1.
  destruct b; cbn [negb]; [|apply wp_ret; by apply some_same]. apply wp_bind, wp_gets, wp_bind. unfold id. eapply wp_port_get; [done|].
  assert (po_core pt1 = (L2_PORT_STATE_WRITE, po_ar pt1, po_aw pt1, po_addr pt1, po_beat_idx pt1)) as Ecore by (unfold po_core, po_task; by rewrite Es1).
  destruct (port_at _ _ _ _ _ _ _ Hi1 Hp Ep1) as (? & ? & wf' & _ & _ & Ewf' & _ & Hrel). rewrite Ewf1 in Ewf'. injection Ewf' as <-.
  rewrite Ecore, Ew in Hrel. pose proof (pr_core _ _ _ _ _ _ _ _ _ _ Hrel) as Hcore. destruct (write_addr _ _ _ _ _ Hcore) as (Ha & _).
  destruct (l2_lookup_ok l1 e _ (po_addr pt1) (li_mem _ _ _ _ _ Hi1) Ha) as (r & -> & Hr). apply wp_bind, wp_ret.
  destruct r as [i|]; [|eapply miss_ok; eauto]. destruct Hr as [Hv Hnum].
  destruct (l2_data_write_used l1); [apply wp_ret; by apply some_same|]. rewrite (front_cons _ _ _ Ew). apply wp_bind, wp_ret. cbv zeta.
  apply wp_bind, wp_check; [rewrite (rel_write_last _ _ _ _ _ _ _ _ _ _ _ _ _ _ _ eq_refl Hrel); apply eqb_reflx|].
  destruct (_ && _) eqn:El; [apply wp_ret; by apply some_same|].
  apply wp_seq5. eapply (store_beat l1 e (run_mem V0 log) p pt1 i wf w ws); [apply Hi1|by eapply writer_no_cmo|done|done|done|by eapply write_addr|done|done|].
  intros l' pt' Hst Ec' Es'. by eapply end_beat.
Qed.

(** ** New bursts *)

Definition pop_ar (l : l2_t) (p : Z) (c : chan axi4_ar_if_t) (r : list axi4_ar_if_t) : l2_t :=
  l <| l2_ar_fifos := <[Z.to_nat p := Chan (ch_depth c) r]> (l2_ar_fifos l) |>.
Definition pop_aw (l : l2_t) (p : Z) (c : chan axi4_aw_if_t) (r : list axi4_aw_if_t) : l2_t :=
  l <| l2_aw_fifos := <[Z.to_nat p := Chan (ch_depth c) r]> (l2_aw_fifos l) |>.

Section start.
  Context (V0 : Z -> Z) (H : Z -> port_hist) (l : l2_t) (e : axi_mem) (log : list axi_event) (p : Z) (pt : l2_port_t).
  Context (Hi : l2_inv V0 H l e log) (Hp : is_port p) (Ep : aget (l2_ports l) p = Some pt).

Lemma start_ar_rest c r : is_Some (aget (l2_ar_fifos l) p) ->
  forall pt' q, is_port q -> q <> p -> port_rest (at_port (pop_ar l p c r) p pt') q = port_rest l q.
Proof.
  intros [x Ex] pt' q Hq Hne. unfold port_rest.
  change (l2_ar_fifos (at_port (pop_ar l p c r) p pt')) with (<[Z.to_nat p := Chan (ch_depth c) r]> (l2_ar_fifos l)).
  rewrite aget_insert, (proj2 (Z.eqb_neq _ _) Hne) by exact (aget_Some _ _ _ Ex). reflexivity.
Qed.

Lemma start_aw_rest c r : is_Some (aget (l2_aw_fifos l) p) ->
  forall pt' q, is_port q -> q <> p -> port_rest (at_port (pop_aw l p c r) p pt') q = port_rest l q.
Proof.
  intros [x Ex] pt' q Hq Hne. unfold port_rest.
  change (l2_aw_fifos (at_port (pop_aw l p c r) p pt')) with (<[Z.to_nat p := Chan (ch_depth c) r]> (l2_aw_fifos l)).
  rewrite aget_insert, (proj2 (Z.eqb_neq _ _) Hne) by exact (aget_Some _ _ _ Ex). reflexivity.
Qed.

Lemma start_ar_inv pt' c ar r : aget (l2_ar_fifos l) p = Some c -> ch_pkts c = ar :: r ->
  (forall arq awq wq rq bq, port_rel V0 log p (H p) (po_core pt) (ar :: arq) awq wq rq bq -> port_rel V0 log p (H p) (po_core pt') arq awq wq rq bq) ->
  port_inv V0 log p (H p) (at_port (pop_ar l p c r) p pt').
Proof.
  intros Ec Ex Hrel. destruct (port_at _ _ _ _ _ _ _ Hi Hp Ep) as (arf & awf & wf & E1 & E2 & E3 & (W1 & W2 & W3 & W4 & W5) & Hr).
  rewrite Ec in E1. injection E1 as <-. exists pt', (Chan (ch_depth c) r), awf, wf.
  change (l2_ar_fifos (at_port (pop_ar l p c r) p pt')) with (<[Z.to_nat p := Chan (ch_depth c) r]> (l2_ar_fifos l)).
  change (l2_ports (at_port (pop_ar l p c r) p pt')) with (<[Z.to_nat p := pt']> (l2_ports l)).
  rewrite !aget_insert, Z.eqb_refl by (exact (aget_Some _ _ _ Ec) || exact (aget_Some _ _ _ Ep)).
  split_and!; try done; [by eapply chan_wf_tail|]. apply Hrel. by rewrite Ex in Hr.
Qed.

Lemma start_aw_inv pt' c aw r : aget (l2_aw_fifos l) p = Some c -> ch_pkts c = aw :: r ->
  (forall arq awq wq rq bq, port_rel V0 log p (H p) (po_core pt) arq (aw :: awq) wq rq bq -> port_rel V0 log p (H p) (po_core pt') arq awq wq rq bq) ->
  port_inv V0 log p (H p) (at_port (pop_aw l p c r) p pt').
Proof.
  intros Ec Ex Hrel. destruct (port_at _ _ _ _ _ _ _ Hi Hp Ep) as (arf & awf & wf & E1 & E2 & E3 & (W1 & W2 & W3 & W4 & W5) & Hr).
  rewrite Ec in E2. injection E2 as <-. exists pt', arf, (Chan (ch_depth c) r), wf.
  change (l2_aw_fifos (at_port (pop_aw l p c r) p pt')) with (<[Z.to_nat p := Chan (ch_depth c) r]> (l2_aw_fifos l)).
  change (l2_ports (at_port (pop_aw l p c r) p pt')) with (<[Z.to_nat p := pt']> (l2_ports l)).
  rewrite !aget_insert, Z.eqb_refl by (exact (aget_Some _ _ _ Ec) || exact (aget_Some _ _ _ Ep)).
  split_and!; try done; [by eapply chan_wf_tail|]. apply Hrel. by rewrite Ex in Hr.
Qed.
End start.

(** No access of a port passes through. *)
Lemma wp_none_pending {A} `{!Zero A} (f : A -> Z) p (q : ostq_t A) n i Q : ost_live q false [] -> 0 <= i -> i + Z.of_nat n <= q_depth q ->
  Q false q -> wp (pending_loop f p n i) Q q.
Proof.
  intros Hq. revert i. induction n as [|n IH]; intros i Hi Hn HQ; [by apply wp_ret|]. apply wp_bind.
  eapply wp_slot_valid; [done|lia| |done]. apply IH; [lia|lia|done].
Qed.

Lemma no_pending l e V p Q : mem_inv l e V -> Q false l -> wp (l2_port_has_bypass_pending p) Q l.
Proof.
  intros H HQ. destruct (mv_bypass _ _ _ H) as [H1 H2]. apply wp_bind, wp_gets, wp_bind. unfold id.
  pose proof (qwf_depth _ (ol_wf _ _ _ H1)). pose proof (qwf_depth _ (ol_wf _ _ _ H2)).
  apply wp_on, wp_none_pending; [done|lia|lia|]. rewrite rd_queue_id. apply wp_on, wp_none_pending; [done|lia|lia|]. by rewrite wr_queue_id.
Qed.

Section idle.
  Context (V0 : Z -> Z) (H : Z -> port_hist) (l : l2_t) (e : axi_mem) (log : list axi_event) (p : Z) (pt : l2_port_t).
  Context (Hi : l2_inv V0 H l e log) (Hp : is_port p) (Ep : aget (l2_ports l) p = Some pt) (Es : po_state pt = L2_PORT_STATE_IDLE).

Lemma idle_wait : ~ awaits pt.
Proof. by apply (no_wait pt _ Es). Qed.

Lemma idle_core : po_core pt = (L2_PORT_STATE_IDLE, po_ar pt, po_aw pt, po_addr pt, po_beat_idx pt).
Proof. unfold po_core, po_task. by rewrite Es. Qed.

Lemma idle_aw_ok c aw r : aget (l2_aw_fifos l) p = Some c -> ch_pkts c = aw :: r ->
  wp (ok ← idle_aw p aw; when ok (_ ← on l2_aw_fifos (at_elem p chan_read); mret tt)) (fun _ => l2_some V0 H e log) l.
Proof.
  intros Ec Ex. destruct (port_at _ _ _ _ _ _ _ Hi Hp Ep) as (arf & awf & wf & _ & E2 & _ & _ & Hr). rewrite Ec in E2. injection E2 as <-. rewrite Ex in Hr.
  pose proof (pr_ok _ _ _ _ _ _ _ _ _ _ Hr) as [_ Hok]. apply Forall_cons in Hok as [Hok _]. destruct Hok as [_ _ _ _ [Hsz Hbu] Hca]. clear Hr.
  apply wp_bind. unfold idle_aw. rewrite (proj2 (Z.eqb_neq _ _) Hca). apply wp_bind. eapply no_pending; [apply Hi|].
  apply wp_bind, wp_check; [by rewrite Hsz|]. apply wp_bind, wp_check; [by rewrite Hbu|]. apply wp_bind. eapply wp_port_upd; [exact Ep|].
  set (pt' := pt <| po_aw := aw |> <| po_addr := _ |> <| po_beat_idx := _ |> <| po_miss_resolved := _ |> <| po_latency_active := _ |> <| po_delay := _ |> <| po_state := _ |>).
  apply wp_ret. cbn [when]. apply wp_bind, wp_on. eapply wp_at_elem; [exact Ec|]. eapply wp_chan_read; [exact Ex|]. apply wp_ret.
  apply some_same. refine (eq_ind (at_port (pop_aw l p c r) p pt') (fun l => l2_inv V0 H l e log) _ _ _); [|reflexivity].
  eapply inv_port; [exact Hi|exact Ep|exact idle_wait|reflexivity|reflexivity|eapply mem_inv_fields, Hi; reflexivity|eapply start_aw_rest; by eexists|by left|].
  eapply start_aw_inv; [done..|]. intros. rewrite idle_core in *. by eapply (rel_start_write _ _ _ _ _ _ _ _ _ _ aw).
Qed.

Lemma idle_ar_ok c ar r : aget (l2_ar_fifos l) p = Some c -> ch_pkts c = ar :: r ->
  wp (ok ← idle_ar p ar; when ok (_ ← on l2_ar_fifos (at_elem p chan_read); mret tt)) (fun _ => l2_some V0 H e log) l.
Proof.
  intros Ec Ex. destruct (port_at _ _ _ _ _ _ _ Hi Hp Ep) as (arf & awf & wf & E1 & _ & _ & _ & Hr). rewrite Ec in E1. injection E1 as <-. rewrite Ex in Hr.
  pose proof (pr_ok _ _ _ _ _ _ _ _ _ _ Hr) as [Hok _]. apply Forall_cons in Hok as [Hok _]. destruct Hok as [[Ha _] Hle Hen [Hsz Hbu] Hca Hcm]. clear Hr.
  apply wp_bind. unfold idle_ar. destruct (axi4_user_is_cmo (ar_user ar)) eqn:Eu.
  - destruct (Hcm eq_refl) as (_ & Hl0 & Hcl). eapply start_cmo_ok; [apply Hi|apply Hi|exact Ep|unfold is_u32; lia|done..| |].
    { cbn [when]. apply wp_ret. by apply some_same. }
    intros l' pt' Hm Ho Hnow (a & Ecore). cbn [when]. pose proof (Hnow p) as Hpp. unfold port_part in Hpp. injection Hpp as _ R1 _.
    change (l2_ar_fifos (l <| l2_ports := <[Z.to_nat p := pt']> (l2_ports l) |>)) with (l2_ar_fifos l) in R1. rewrite Ec in R1.
    apply wp_bind, wp_on. eapply wp_at_elem; [exact R1|]. eapply wp_chan_read; [exact Ex|]. apply wp_ret.
    apply some_same. change (upd l2_ar_fifos _ l') with (pop_ar l' p c r).
    assert (forall q, port_part (pop_ar l' p c r) q = port_part (at_port (pop_ar l p c r) p pt') q) as Hsame.
    { intros q. specialize (Hnow q). unfold port_part in *. injection Hnow as N0 N1 N2 N3 N4 N5 N6 N7 N8.
      change (l2_ar_fifos (pop_ar l' p c r)) with (<[Z.to_nat p := Chan (ch_depth c) r]> (l2_ar_fifos l')).
      change (l2_ar_fifos (at_port (pop_ar l p c r) p pt')) with (<[Z.to_nat p := Chan (ch_depth c) r]> (l2_ar_fifos l)).
      rewrite !aget_insert by (exact (aget_Some _ _ _ Ec) || exact (aget_Some _ _ _ R1)).
      change (aget (l2_ar_fifos l') q = aget (l2_ar_fifos l) q) in N1. rewrite N1. clear R1. 
      f_equal; [|exact N8]. f_equal; [|exact N7]. f_equal; [|exact N6]. f_equal; [|exact N5]. f_equal; [|exact N4]. f_equal; [|exact N3]. f_equal; [|exact N2].
      f_equal. exact N0. }
    assert (forall q, is_port q -> port_inv V0 log q (H q) (at_port (pop_ar l p c r) p pt')) as Hall.
    { eapply ports_step; [exact Hi|exact Ep|reflexivity|eapply start_ar_rest; by eexists|by left|]. eapply start_ar_inv; [done..|].
      intros. rewrite idle_core in *. rewrite Ecore. by eapply (rel_start_cmo _ _ _ _ _ _ _ _ _ ar). }
    split; [eapply mem_inv_fields, Hm; reflexivity|exact Ho| |].
    + intros q Hq. eapply port_inv_same; [apply Hsame|]. by apply Hall.
    + change (forall q, is_Some (aget (l2_ports l') q) -> q = L2_I_PORT \/ q = L2_D_PORT). eapply num_same; [exact Hnow|]. eapply num_port; [exact Hi|exact Ep|reflexivity].
  - specialize (Hbu eq_refl). rewrite (proj2 (Z.eqb_neq _ _) (Hca eq_refl)). apply wp_bind. eapply no_pending; [apply Hi|].
    apply wp_bind, wp_check; [by rewrite Hsz|]. apply wp_bind, wp_check; [by rewrite Hbu|]. apply wp_bind. eapply wp_port_upd; [exact Ep|].
    set (pt' := pt <| po_ar := ar |> <| po_addr := _ |> <| po_beat_idx := _ |> <| po_miss_resolved := _ |> <| po_latency_active := _ |> <| po_delay := _ |> <| po_state := _ |>).
    apply wp_ret. cbn [when]. apply wp_bind, wp_on. eapply wp_at_elem; [exact Ec|]. eapply wp_chan_read; [exact Ex|]. apply wp_ret.
    apply some_same. refine (eq_ind (at_port (pop_ar l p c r) p pt') (fun l => l2_inv V0 H l e log) _ _ _); [|reflexivity].
    eapply inv_port; [exact Hi|exact Ep|exact idle_wait|reflexivity|reflexivity|eapply mem_inv_fields, Hi; reflexivity|eapply start_ar_rest; by eexists|by left|].
    eapply start_ar_inv; [done..|]. intros. rewrite idle_core in *. by eapply (rel_start_read _ _ _ _ _ _ _ _ _ ar).
Qed.

Lemma idle_ok : wp (l2_proc_port_idle p) (fun _ => l2_some V0 H e log) l.
Proof.
  destruct (port_at _ _ _ _ _ _ _ Hi Hp Ep) as (arf & awf & wf & E1 & E2 & _). apply wp_bind, wp_gets. unfold id. rewrite E2. apply wp_bind, wp_ret.
  destruct (chan_empty awf) eqn:Ew; cbn [negb].
  - rewrite E1. apply wp_bind, wp_ret. destruct (chan_empty arf) eqn:Er; [apply wp_ret; by apply some_same|]. destruct (chan_empty_false _ Er) as (ar & r & Ex).
    rewrite (front_cons _ _ _ Ex). apply wp_bind, wp_ret. by eapply idle_ar_ok.
  - destruct (chan_empty_false _ Ew) as (aw & r & Ex). rewrite (front_cons _ _ _ Ex). apply wp_bind, wp_ret. by eapply idle_aw_ok.
Qed.
End idle.

Lemma proc_port_ok V0 H e p log0 : is_port p -> forall l, l2_some V0 H e log0 l -> wp (l2_proc_port p) (fun _ => l2_some V0 H e log0) l.
Proof.
  intros Hp l (log & Hpre & Hi). destruct (li_ports _ _ _ _ _ Hi p Hp) as (pt & _ & _ & _ & Ep & _). apply wp_bind. eapply wp_port_get; [done|].
  eapply wp_mono with (Q := fun _ => l2_some V0 H e log); [|intros []; eauto using some_trans].
  destruct (po_state pt) eqn:Es; try (apply wp_ret; by apply some_same); [by eapply idle_ok|by eapply port_read_ok|by eapply port_write_ok|by eapply cmo_rsp_ok].
Qed.

(** ** Requests taken in *)

(** The wires of one port change, and what its master knows. *)
Lemma inv_wires V0 H H' l l' e log p : l2_inv V0 H l e log -> mem_fields l' = mem_fields l ->
  (l2_ports l', l2_mem_owner l', l2_cmo_hit l') = (l2_ports l, l2_mem_owner l, l2_cmo_hit l) ->
  (forall q, is_port q -> q <> p -> port_rest l' q = port_rest l q /\ H' q = H q) ->
  (port_inv V0 log p (H p) l -> port_inv V0 log p (H' p) l') -> l2_inv V0 H' l' e log.
Proof.
  intros [] Ef E Hr Hp. injection E as E1 E2 E3. split; [by eapply mem_inv_fields| | |by rewrite E1].
  - unfold mem_fields in Ef. injection Ef as _ _ _ _ _ _ _ _ _ _ _ _ _ Es. unfold owned. by rewrite Es, E1, E2, E3.
  - intros q Hq. destruct (decide (q = p)) as [->|Hne]; [by auto|]. destruct (Hr q Hq Hne) as [Er ->].
    eapply port_inv_same; [|by apply li_ports]. unfold port_rest in Er. injection Er as R1 R2 R3 R4 R5 R6 R7 R8.
    unfold port_part. by rewrite E1, R1, R2, R3, R4, R5, R6, R7, R8.
Qed.

Lemma inv_count V0 H l l' e log : l2_inv V0 H l e log -> ports_same l l' -> mem_fields l' = mem_fields l ->
  (l2_ports l', l2_mem_owner l', l2_cmo_hit l') = (l2_ports l, l2_mem_owner l, l2_cmo_hit l) -> l2_inv V0 H l' e log.
Proof.
  intros Hi Hs Ef E. apply (inv_mem V0 H l); [done|by eapply mem_inv_fields, Hi| |done].
  unfold mem_fields in Ef. injection Ef as _ _ _ _ _ _ _ _ _ _ _ _ _ Es. injection E as E1 E2 E3.
  destruct Hi as [_ Ho _ _]. unfold owned in *. by rewrite Es, E1, E2, E3.
Qed.

Lemma wp_count_up p (xs : list Z) Q : is_port p -> length xs = 2%nat -> (forall xs', length xs' = length xs -> Q tt xs') -> wp (count_up p) Q xs.
Proof.
  intros Hp Hl HQ. destruct (aget_is_Some xs p) as [x Hx]; [destruct Hp as [-> | ->]; unfold L2_I_PORT, L2_D_PORT; lia|].
  eapply wp_at_elem; [exact Hx|]. apply wp_modify, HQ. by rewrite length_insert.
Qed.

Lemma ar_fifos_kept l p c : l2_ar_fifos (set_ar_slv l p c) = l2_ar_fifos l.
Proof. unfold set_ar_slv. by destruct (_ =? _). Qed.
Lemma aw_fifos_kept l p c : l2_aw_fifos (set_aw_slv l p c) = l2_aw_fifos l.
Proof. unfold set_aw_slv. by destruct (_ =? _). Qed.
Lemma w_fifos_kept l p c : l2_w_fifos (set_w_slv l p c) = l2_w_fifos l.
Proof. unfold set_w_slv. by destruct (_ =? _). Qed.

Section capture.
  Context (V0 : Z -> Z) (H : Z -> port_hist) (e : axi_mem) (log0 : list axi_event) (p : Z) (Hp : is_port p).

(** A channel of the port: its FIFO is full, it is empty, or its first packet moves. *)
Ltac capture Ec rule setter same :=
  rewrite Ec; apply wp_bind, wp_ret; destruct (chan_full _) eqn:?;
  [destruct (negb _); cbn [when]; [|apply wp_ret; eexists; eauto]; apply wp_on, wp_count_up; [done|done|]; intros ? Hx;
   eexists; split; [eassumption|]; eapply inv_count; [eassumption|by intros ?| |reflexivity]; unfold mem_fields; upd_proj; by rewrite Hx|];
  destruct (chan_empty _) eqn:Ee; [apply wp_ret; eexists; eauto|]; destruct (chan_empty_false _ Ee) as (x & r & Ex);
  apply wp_bind, rule; (eapply wp_chan_read; [exact Ex|]);
  apply wp_on; (eapply wp_at_elem; [rewrite same; exact Ec|]); (apply wp_chan_write; [done..|]); intros Hw; eexists; (split; [eassumption|]); rewrite same; (eapply (inv_wires V0 H H _ _ e _ p); [eassumption|by destruct Hp as [-> | ->]..| |]);
  [intros q Hq Hne; (split; [|done]); unfold port_rest; destruct Hp as [-> | ->], Hq as [-> | ->]; try done; unfold setter; upd_proj;
     rewrite aget_insert by exact (aget_Some _ _ _ Ec); done|];
  intros (pt & arf' & awf' & wf' & Ep & E1' & E2' & E3' & W & Hr).

Lemma capture_ar_ok l : l2_some V0 H e log0 l -> wp (capture_ar p) (fun _ => l2_some V0 H e log0) l.
Proof.
  intros (log & Hpre & Hi). pose proof (mv_counts _ _ _ (li_mem _ _ _ _ _ Hi)) as (C1 & C2 & C3).
  destruct (li_ports _ _ _ _ _ Hi p Hp) as (y1 & arf & y2 & y3 & _ & E1 & _ & _ & (W1 & _) & _).
  apply wp_bind, wp_gets. unfold id. capture E1 @wp_ar_slv set_ar_slv ar_fifos_kept.
  rewrite E1 in E1'. injection E1' as <-. exists pt, (chan_snoc arf x), awf', wf'. unfold set_ar_slv. rewrite Ex in Hr.
  destruct Hp as [-> | ->]; upd_proj; rewrite aget_insert, Z.eqb_refl by exact (aget_Some _ _ _ E1); split_and!; try done; try apply W;
      rewrite chan_snoc_pkts, <- app_assoc; exact Hr.
Qed.

Lemma capture_aw_ok l : l2_some V0 H e log0 l -> wp (capture_aw p) (fun _ => l2_some V0 H e log0) l.
Proof.
  intros (log & Hpre & Hi). pose proof (mv_counts _ _ _ (li_mem _ _ _ _ _ Hi)) as (C1 & C2 & C3).
  destruct (li_ports _ _ _ _ _ Hi p Hp) as (y1 & y2 & awf & y3 & _ & _ & E2 & _ & (_ & W2 & _) & _).
  apply wp_bind, wp_gets. unfold id. capture E2 @wp_aw_slv set_aw_slv aw_fifos_kept.
  rewrite E2 in E2'. injection E2' as <-. exists pt, arf', (chan_snoc awf x), wf'. unfold set_aw_slv. rewrite Ex in Hr.
  destruct Hp as [-> | ->]; upd_proj; rewrite aget_insert, Z.eqb_refl by exact (aget_Some _ _ _ E2); split_and!; try done; try apply W;
      rewrite chan_snoc_pkts, <- app_assoc; exact Hr.
Qed.

Lemma capture_w_ok l : l2_some V0 H e log0 l -> wp (capture_w p) (fun _ => l2_some V0 H e log0) l.
Proof.
  intros (log & Hpre & Hi). pose proof (mv_counts _ _ _ (li_mem _ _ _ _ _ Hi)) as (C1 & C2 & C3).
  destruct (li_ports _ _ _ _ _ Hi p Hp) as (y1 & y2 & y3 & wf & _ & _ & _ & E3 & (_ & _ & W3 & _) & _).
  apply wp_bind, wp_gets. unfold id. capture E3 @wp_w_slv set_w_slv w_fifos_kept.
  rewrite E3 in E3'. injection E3' as <-. exists pt, arf', awf', (chan_snoc wf x). unfold set_w_slv. rewrite Ex in Hr.
  destruct Hp as [-> | ->]; upd_proj; rewrite aget_insert, Z.eqb_refl by exact (aget_Some _ _ _ E3); split_and!; try done; try apply W;
      rewrite chan_snoc_pkts, <- app_assoc; exact Hr.
Qed.

Lemma capture_ok l : l2_some V0 H e log0 l -> wp (l2_capture_port p) (fun _ => l2_some V0 H e log0) l.
Proof.
  intros Hi. apply wp_bind. eapply wp_mono; [by apply capture_ar_ok|]. intros [] l1 H1.
  apply wp_bind. eapply wp_mono; [by apply capture_aw_ok|]. intros [] l2 H2. by apply capture_w_ok.
Qed.
End capture.

(** ** The clock *)

Lemma queue_clock_ok V0 H e log0 l : l2_some V0 H e log0 l -> forall Q, (forall l', l2_some V0 H e log0 l' -> Q tt l') ->
  wp (on l2_bypass_rd_ost ostq_clock) Q l /\ wp (on l2_bypass_wr_ost ostq_clock) Q l.
Proof.
  intros (log & Hpre & Hi) Q HQ. destruct (mv_bypass _ _ _ (li_mem _ _ _ _ _ Hi)) as [H1 H2].
  split; apply wp_on; (eapply wp_ostq_clock; [eassumption|]); intros q Hq _; apply HQ; exists log; (split; [done|]);
    (eapply inv_mem; [exact Hi| |exact (li_owned _ _ _ _ _ Hi)|intros ?; reflexivity]); destruct (li_mem _ _ _ _ _ Hi); by split.
Qed.

Lemma l2_clock_ok V0 H e log0 l : l2_some V0 H e log0 l -> wp l2_clock (fun _ => l2_some V0 H e log0) l.
Proof.
  intros Hl. apply wp_bind, (queue_clock_ok _ _ _ _ _ Hl). clear l Hl. intros l Hl. apply wp_bind, (queue_clock_ok _ _ _ _ _ Hl). clear l Hl. intros l Hl.
  apply wp_bind. eapply wp_mono; [apply capture_ok; [by left|exact Hl]|]. clear l Hl. intros [] l Hl.
  apply wp_bind. eapply wp_mono; [apply capture_ok; [by right|exact Hl]|]. clear l Hl. intros [] l Hl.
  apply wp_bind, wp_modify. assert (l2_some V0 H e log0 (l <| l2_data_write_used := false |>)) as H1.
  { destruct Hl as (log & Hpre & Hi). exists log. split; [done|]. eapply inv_count; [exact Hi|by intros ?|reflexivity|reflexivity]. }
  apply wp_bind. destruct H1 as (log & Hpre & Hi). eapply wp_mono; [exact (mem_stage_inv _ V0 H _ e log proc_mem_ok Hi)|]. intros [] l' H2.
  apply wp_bind. eapply wp_mono; [apply proc_port_ok; [by left|by eexists]|]. intros [] l2 H3. apply proc_port_ok; [by right|done].
Qed.
