(* ===== verification/L2Run.v ===== *)
(** * Runs of the level 2 cache

    The cache of [core/l2.c], a memory behind it and a master at each of its ports, each moving at its own
    pace, from construction and reset: the invariant of L2Port.v holds all along. *)

From stdpp Require Import base numbers list relations.
From Stdlib Require Import ZArith Lia.
From S2P Require Import Prelude Fifo Ost OstScan OstSlot Bti Axi L1 L1Cache AxiMem L1Inv L1Stages L1Pipe L1Spec L1Run AxiLog L2 L2Mem L2Port L2Data L2Spec.

(** ** The memory takes a step *)

Definition l2_bus (l : l2_t) : bus_t :=
  (l2_mem_axi4_aw_mst l, l2_mem_axi4_w_mst l, l2_mem_axi4_b_slv l, l2_mem_axi4_ar_mst l, l2_mem_axi4_r_slv l).

Definition l2_set_bus (l : l2_t) (b : bus_t) : l2_t :=
  let '(aw, w, b, ar, r) := b in
  l <| l2_mem_axi4_aw_mst := aw |> <| l2_mem_axi4_w_mst := w |> <| l2_mem_axi4_b_slv := b |> <| l2_mem_axi4_ar_mst := ar |>
    <| l2_mem_axi4_r_slv := r |>.

Lemma l2_view_bus l b : l2_view (l2_set_bus l b) = set_bus (l2_view l) b.
Proof. by destruct b as [[[[aw w] b] ar] r]. Qed.

Lemma l2_inv_bus V0 H l e e' log b : l2_inv V0 H l e log -> phase (set_bus (l2_view l) b) e' ->
  cache_ok (set_bus (l2_view l) b) (run_mem V0 log) (am_mem e') (refilling (l2_view l)) -> (forall a, 0 <= am_mem e' a < 256) ->
  chan_wf (c_axi4_aw_mst (set_bus (l2_view l) b)) /\ chan_wf (c_axi4_w_mst (set_bus (l2_view l) b)) /\ chan_wf (c_axi4_ar_mst (set_bus (l2_view l) b)) ->
  l2_inv V0 H (l2_set_bus l b) e' log.
Proof.
  intros [[] Ho Hp Hn] Hph Hc Hb Hw.
  assert (refilling (set_bus (l2_view l) b) = refilling (l2_view l)) as Er by (by destruct b as [[[[aw w] b] ar] r]).
  rewrite <- Er in Hc. rewrite <- l2_view_bus in Hph, Hc. clear Er.
  destruct b as [[[[aw w] b] ar] r]. split; [split; try done|exact Ho|exact Hp|exact Hn].
Qed.

Lemma l2_mem_step V0 H l e log e' b' : l2_inv V0 H l e log -> axi_mem_step e (l2_bus l) e' b' -> l2_inv V0 H (l2_set_bus l b') e' log.
Proof.
  intros Hi Hs. destruct (li_mem _ _ _ _ _ Hi) as [Hc Hb _ Hp (W1 & W2 & W3) _ _ _ _].
  change (chan_wf (c_axi4_aw_mst (l2_view l))) in W1. change (chan_wf (c_axi4_w_mst (l2_view l))) in W2. change (chan_wf (c_axi4_ar_mst (l2_view l))) in W3.
  change (l2_bus l) with (bus (l2_view l)) in Hs. pose proof (l2_inv_bus V0 H l e e' log b' Hi) as Hend. clear Hi.
  set (v := l2_view l) in *. clearbody v. remember (bus v) as b0 eqn:E0. destruct Hs; unfold bus in E0; injection E0 as E1 E2 E3 E4 E5; subst; apply Hend; clear Hend.
  all: try done; try (by apply cache_bus).
  - by eapply mem_aw_phase.
  - rewrite <- E1 in W1. split_and!; try done. by apply (chan_wf_tail (Chan d (aw :: aws)) aw).
  - by eapply mem_w_phase.
  - rewrite <- E2 in W2. split_and!; try done. by apply (chan_wf_tail (Chan d (w :: ws)) w).
  - by eapply mem_b_ok.
  - by eapply (mem_b_ok v e).
  - intros a. by apply write_burst_range.
  - by eapply mem_ar_phase.
  - rewrite <- E4 in W3. split_and!; try done. by apply (chan_wf_tail (Chan d (x :: ars)) x).
  - by apply mem_r_phase.
Qed.

(** ** A master takes a step *)

Definition fn_upd {A} (f : Z -> A) (p : Z) (x : A) : Z -> A := fun q => if q =? p then x else f q.

Section master.
  Context (V0 : Z -> Z) (log : list axi_event) (p : Z) (h : port_hist) (c : po_core_t) (arq : list axi4_ar_if_t) (awq : list axi4_aw_if_t)
    (wq : list axi4_w_if_t) (rq : list axi4_r_if_t) (bq : list axi4_b_if_t) (Hr : port_rel V0 log p h c arq awq wq rq bq).

Lemma rel_ar ar : ar_ok p ar -> port_rel V0 log p (h <| hs_ar := hs_ar h ++ [ar] |>) c (arq ++ [ar]) awq wq rq bq.
Proof.
  intros Ha. destruct Hr. split; try done.
  - upd_proj. by rewrite !bind_app, pr_reads, !app_assoc.
  - split; [|apply pr_ok]. apply Forall_app. split; [apply pr_ok|by constructor].
Qed.

Lemma rel_aw aw : aw_ok p aw -> port_rel V0 log p (h <| hs_aw := hs_aw h ++ [aw] |>) c arq (awq ++ [aw]) wq rq bq.
Proof.
  intros Ha. destruct Hr. split; try done.
  - upd_proj. by rewrite !bind_app, pr_writes, !app_assoc.
  - by apply lasts_aw.
  - split; [apply pr_ok|]. apply Forall_app. split; [apply pr_ok|by constructor].
Qed.

Lemma rel_w w : w_fits h w -> port_rel V0 log p (h <| hs_w := hs_w h ++ [w] |>) c arq awq (wq ++ [w]) rq bq.
Proof.
  intros Hf. destruct Hr. split; try done; [upd_proj; by rewrite pr_w, app_assoc|by apply lasts_w].
Qed.

Lemma rel_r r rs : rq = r :: rs -> port_rel V0 log p (h <| hs_r := hs_r h ++ [r] |>) c arq awq wq rs bq.
Proof. intros ->. destruct Hr. split; try done. upd_proj. by rewrite <- app_assoc. Qed.

Lemma rel_b b bs : bq = b :: bs -> port_rel V0 log p (h <| hs_b := hs_b h ++ [b] |>) c arq awq wq rq bs.
Proof. intros ->. destruct Hr. split; try done. upd_proj. by rewrite <- app_assoc. Qed.

End master.

Section masters.
  Context (V0 : Z -> Z) (H : Z -> port_hist) (l : l2_t) (e : axi_mem) (log : list axi_event) (p : Z) (Hi : l2_inv V0 H l e log) (Hp : is_port p).

(** The interfaces of the port change, and what its master knows. *)
Ltac master_step :=
  eapply (inv_wires V0 H _ l _ e log p Hi);
  [by destruct Hp as [-> | ->]..
  |let Hne := fresh in intros q Hq Hne; split; [destruct Hp as [-> | ->], Hq as [-> | ->]; done || reflexivity
    |unfold fn_upd; by rewrite (proj2 (Z.eqb_neq _ _) Hne)]
  |unfold fn_upd; rewrite Z.eqb_refl; intros (pt & arf & awf & wf & E1 & E2 & E3 & E4 & (W1 & W2 & W3 & W4 & W5) & Hr); exists pt, arf, awf, wf].

Lemma send_ar_ok ar : ar_ok p ar ->
  l2_inv V0 (fn_upd H p (H p <| hs_ar := hs_ar (H p) ++ [ar] |>)) (set_ar_slv l p (chan_snoc (l2_port_ar_slv l p) ar)) e log.
Proof.
  intros Ha. master_step. destruct Hp as [-> | ->]; split_and!; try done;
    (eapply rel_ar in Hr; [|exact Ha]); rewrite <- app_assoc in Hr; exact Hr.
Qed.

Lemma send_aw_ok aw : aw_ok p aw ->
  l2_inv V0 (fn_upd H p (H p <| hs_aw := hs_aw (H p) ++ [aw] |>)) (set_aw_slv l p (chan_snoc (l2_port_aw_slv l p) aw)) e log.
Proof.
  intros Ha. master_step. destruct Hp as [-> | ->]; split_and!; try done;
    (eapply rel_aw in Hr; [|exact Ha]); rewrite <- app_assoc in Hr; exact Hr.
Qed.

Lemma send_w_ok w : w_fits (H p) w ->
  l2_inv V0 (fn_upd H p (H p <| hs_w := hs_w (H p) ++ [w] |>)) (set_w_slv l p (chan_snoc (l2_port_w_slv l p) w)) e log.
Proof.
  intros Ha. master_step. destruct Hp as [-> | ->]; split_and!; try done;
    (eapply rel_w in Hr; [|exact Ha]); rewrite <- app_assoc in Hr; exact Hr.
Qed.

Lemma take_r_ok d r rs : l2_port_r_mst l p = Chan d (r :: rs) ->
  l2_inv V0 (fn_upd H p (H p <| hs_r := hs_r (H p) ++ [r] |>)) (set_r_mst l p (Chan d rs)) e log.
Proof.
  intros Er. master_step. rewrite Er in W4, Hr.
  destruct Hp as [-> | ->]; split_and!; try done; try (by apply (chan_wf_tail (Chan d (r :: rs)) r)); by eapply rel_r in Hr.
Qed.

Lemma take_b_ok d b bs : l2_port_b_mst l p = Chan d (b :: bs) ->
  l2_inv V0 (fn_upd H p (H p <| hs_b := hs_b (H p) ++ [b] |>)) (set_b_mst l p (Chan d bs)) e log.
Proof.
  intros Er. master_step. rewrite Er in W5, Hr.
  destruct Hp as [-> | ->]; split_and!; try done; try (by apply (chan_wf_tail (Chan d (b :: bs)) b)); by eapply rel_b in Hr.
Qed.
End masters.

(** ** Runs *)

(** A state of the system: the cache, the memory, and what the masters have sent and taken. *)
Definition l2_world : Type := l2_t * axi_mem * (Z -> port_hist).

Inductive l2_step : l2_world -> l2_world -> Prop :=
| L2Clock l l' e H : l2_clock l = Some (tt, l') -> l2_step (l, e, H) (l', e, H)
| L2Mem l e e' b' H : axi_mem_step e (l2_bus l) e' b' -> l2_step (l, e, H) (l2_set_bus l b', e', H)
| L2SendAr l e H p ar : is_port p -> ar_ok p ar -> chan_full (l2_port_ar_slv l p) = false ->
    l2_step (l, e, H) (set_ar_slv l p (chan_snoc (l2_port_ar_slv l p) ar), e, fn_upd H p (H p <| hs_ar := hs_ar (H p) ++ [ar] |>))
| L2SendAw l e H p aw : is_port p -> aw_ok p aw -> chan_full (l2_port_aw_slv l p) = false ->
    l2_step (l, e, H) (set_aw_slv l p (chan_snoc (l2_port_aw_slv l p) aw), e, fn_upd H p (H p <| hs_aw := hs_aw (H p) ++ [aw] |>))
| L2SendW l e H p w : is_port p -> w_fits (H p) w -> chan_full (l2_port_w_slv l p) = false ->
    l2_step (l, e, H) (set_w_slv l p (chan_snoc (l2_port_w_slv l p) w), e, fn_upd H p (H p <| hs_w := hs_w (H p) ++ [w] |>))
| L2TakeR l e H p d r rs : is_port p -> l2_port_r_mst l p = Chan d (r :: rs) ->
    l2_step (l, e, H) (set_r_mst l p (Chan d rs), e, fn_upd H p (H p <| hs_r := hs_r (H p) ++ [r] |>))
| L2TakeB l e H p d b bs : is_port p -> l2_port_b_mst l p = Chan d (b :: bs) ->
    l2_step (l, e, H) (set_b_mst l p (Chan d bs), e, fn_upd H p (H p <| hs_b := hs_b (H p) ++ [b] |>)).

Definition l2_ok (V0 : Z -> Z) (log : list axi_event) (w : l2_world) : Prop := l2_some V0 w.2 w.1.2 log w.1.1.

Lemma l2_step_ok V0 log w w' : l2_step w w' -> l2_ok V0 log w -> l2_ok V0 log w'.
Proof.
  unfold l2_ok. intros []; cbn [fst snd]; intros (log1 & Hpre & Hi).
  - pose proof (l2_clock_ok V0 H e log l (ex_intro _ log1 (conj Hpre Hi))) as Hc. unfold wp in Hc. by rewrite H0 in Hc.
  - exists log1. split; [done|]. by eapply l2_mem_step.
  - exists log1. split; [done|]. by apply send_ar_ok.
  - exists log1. split; [done|]. by apply send_aw_ok.
  - exists log1. split; [done|]. by apply send_w_ok.
  - exists log1. split; [done|]. by apply take_r_ok.
  - exists log1. split; [done|]. by apply take_b_ok.
Qed.

Lemma l2_run_ok V0 log w w' : rtc l2_step w w' -> l2_ok V0 log w -> l2_ok V0 log w'.
Proof. induction 1 as [|w1 w2 w3 Hs _ IH]; [done|]. intros Hg. apply IH. by eapply l2_step_ok. Qed.

(** ** Construction and reset *)

(** The interfaces before the first cycle, and the arrays of fixed size of the structure. *)
Record l2_wired (l : l2_t) : Prop := {
  lw_i : ch_pkts (l2_i_axi4_aw_slv l) = [] /\ ch_pkts (l2_i_axi4_w_slv l) = [] /\ ch_pkts (l2_i_axi4_b_mst l) = [] /\
    ch_pkts (l2_i_axi4_ar_slv l) = [] /\ ch_pkts (l2_i_axi4_r_mst l) = [];
  lw_d : ch_pkts (l2_d_axi4_aw_slv l) = [] /\ ch_pkts (l2_d_axi4_w_slv l) = [] /\ ch_pkts (l2_d_axi4_b_mst l) = [] /\
    ch_pkts (l2_d_axi4_ar_slv l) = [] /\ ch_pkts (l2_d_axi4_r_mst l) = [];
  lw_mem : ch_pkts (l2_mem_axi4_aw_mst l) = [] /\ ch_pkts (l2_mem_axi4_w_mst l) = [] /\ ch_pkts (l2_mem_axi4_b_slv l) = [] /\
    ch_pkts (l2_mem_axi4_ar_mst l) = [] /\ ch_pkts (l2_mem_axi4_r_slv l) = [];
  lw_wf : chan_wf (l2_i_axi4_b_mst l) /\ chan_wf (l2_i_axi4_r_mst l) /\ chan_wf (l2_d_axi4_b_mst l) /\ chan_wf (l2_d_axi4_r_mst l) /\
    chan_wf (l2_mem_axi4_aw_mst l) /\ chan_wf (l2_mem_axi4_w_mst l) /\ chan_wf (l2_mem_axi4_ar_mst l);
  lw_ports : exists p0 p1, l2_ports l = [p0; p1];
  lw_counts : counters_ok l
}.

(** A configuration whose sizes fit their words. *)
Definition l2_conf_fits (conf : l2_conf_t) : Prop :=
  l2f_way_num conf < 67108864 /\ l2f_size conf < W32 /\ l2f_bypass_ost_depth conf <= 2147483648.

(** The blocks of the arrays have the sizes they are allocated with. *)
Definition l2_blocks (l : l2_t) : Prop :=
  Z.of_nat (length (l2_tags l)) = l2_line_num l /\ Z.of_nat (length (l2_data l)) = l2_line_num l * 16 /\
  Z.of_nat (length (l2_replace_ways l)) = l2_set_num l /\ Z.of_nat (length (l2_valids l)) = l2_line_num l /\
  Z.of_nat (length (l2_dirtys l)) = l2_line_num l.

(** The FIFOs, the queues and the sizes after construction. *)
Record l2_built (l : l2_t) : Prop := {
  lb_size : 0 < l2f_way_num (l2_conf l) /\ 0 < l2_set_num l /\ l2_line_num l = l2_set_num l * l2f_way_num (l2_conf l) /\ l2_line_num l * 16 < W32;
  lb_queues : ostq_wf (l2_bypass_rd_ost l) /\ q_depth (l2_bypass_rd_ost l) <= 2147483648 /\
    ostq_wf (l2_bypass_wr_ost l) /\ q_depth (l2_bypass_wr_ost l) <= 2147483648;
  lb_fifos : exists d, 0 < d /\ l2_ar_fifos l = [Chan d []; Chan d []] /\ l2_aw_fifos l = [Chan d []; Chan d []] /\ l2_w_fifos l = [Chan d []; Chan d []]
}.

Lemma l2_construct_ok conf rs ws tags data rw vs ds l0 l : l2_conf_fits conf -> rs <> 0 -> ws <> 0 -> l2_wired l0 ->
  l2_construct conf rs ws tags data rw vs ds l0 = Some l -> l2_built l /\ l2_wired l.
Proof.
  intros (Hw & Hz & Ho) Hrs Hws Hwi. unfold l2_construct. cbv zeta. destruct (_ && _) eqn:E; [|done].
  repeat (apply andb_true_iff in E as [E ?]). unfold L2_LINE_SIZE in *. rewrite (u32_small (_ * 64)) in * by (unfold is_u32, W32; lia).
  destruct (ostq_construct rs (l2f_bypass_ost_depth conf)) as [q1|] eqn:E1; cbn [mbind option_bind]; [|done].
  destruct (ostq_construct ws (l2f_bypass_ost_depth conf)) as [q2|] eqn:E2; cbn [mbind option_bind]; [|done]. intros [= <-].
  destruct (ostq_construct_ok _ _ _ E1 ltac:(unfold W32; lia) Hrs) as [Q1 A1]. destruct (ostq_construct_ok _ _ _ E2 ltac:(unfold W32; lia) Hws) as [Q2 A2].
  split; [|destruct Hwi; by split]. split; upd_proj.
  - assert (l2f_size conf = l2f_size conf / (l2f_way_num conf * 64) * (l2f_way_num conf * 64)) as Es by zdiv.
    set (n := l2f_size conf / (l2f_way_num conf * 64)) in *. unfold W32 in *. assert (0 < n) by nia. assert (n * l2f_way_num conf * 64 < 4294967296) by nia.
    assert (u32 (n * l2f_way_num conf) = n * l2f_way_num conf) as -> by (apply u32_small; unfold is_u32, W32; nia). split_and!; nia.
  - rewrite (abs_depth _ _ A1), (abs_depth _ _ A2). by split_and!.
  - exists (l2f_stg_fifo_depth conf). split; [lia|done].
Qed.

(** An empty cache at rest. *)
Lemma fresh_l2 V0 l : geom (mview l L1_STATE_IDLE (l2_valids l) (l2_miss_line_idx l)) -> (forall i, aget (l2_valids l) i <> Some true) ->
  l2_wired l -> l2_mem_state l = L2_MEM_STATE_IDLE -> Forall is_u32 (l2_data l) ->
  ost_live (l2_bypass_rd_ost l) false [] -> ost_live (l2_bypass_wr_ost l) false [] ->
  (exists d, 0 < d /\ l2_ar_fifos l = [Chan d []; Chan d []] /\ l2_aw_fifos l = [Chan d []; Chan d []] /\ l2_w_fifos l = [Chan d []; Chan d []]) ->
  Forall (fun pt => po_state pt = L2_PORT_STATE_IDLE) (l2_ports l) -> (forall a, 0 <= V0 a < 256) ->
  l2_inv V0 (fun _ => no_hist) l (AxiMem V0 [] None []) [].
Proof.
  intros G Hn [] Hs Hd H1 H2 (d & Hdp & F1 & F2 & F3) Hst HV. destruct lw_ports0 as (p0 & p1 & Ep). rewrite Ep in Hst.
  apply Forall_cons in Hst as [S0 Hst]. apply Forall_cons in Hst as [S1 _]. destruct_and?.
  pose proof (view_at l _ Hs) as Ev. cbn [l2_view_state victim_state cmo_state] in Ev. set (v := mview _ _ _ _) in *.
  assert (cache_ok v V0 V0 None) as Hc by (split; try done; intros; by match goal with H : valid _ ?i |- _ => destruct (Hn i) end).
  assert (forall pt, po_state pt = L2_PORT_STATE_IDLE -> forall q, port_rel V0 [] q no_hist (po_core pt) [] [] [] [] []) as Hrel.
  { intros pt Ept q. unfold po_core, po_task. rewrite Ept. by split. }
  assert (@chan_wf axi4_ar_if_t (Chan d []) /\ @chan_wf axi4_aw_if_t (Chan d []) /\ @chan_wf axi4_w_if_t (Chan d [])) as (C1 & C2 & C3)
    by (unfold chan_wf, chan_num; simpl; lia).
  split.
  - split; rewrite ?Ev, ?Hs; try done.
  - intros Hx. by rewrite Hs in Hx.
  - intros q [-> | ->]; [exists p0|exists p1]; exists (Chan d []), (Chan d []), (Chan d []); rewrite Ep, F1, F2, F3; split_and!; try done;
      unfold l2_port_ar_slv, l2_port_aw_slv, l2_port_w_slv, l2_port_r_mst, l2_port_b_mst; change (L2_I_PORT =? L2_I_PORT) with true; change (L2_D_PORT =? L2_I_PORT) with false; cbn [ch_pkts app];
      repeat match goal with E : ch_pkts _ = [] |- _ => rewrite E; clear E end; by apply Hrel.
  - intros q [pt Hq]. apply aget_Some in Hq. rewrite Ep in Hq. simpl in Hq. unfold L2_I_PORT, L2_D_PORT. lia.
Qed.

(** The arrays are filled and the counters cleared. *)
Lemma fill_all {A} n (x : A) xs : length xs = n -> fill n x xs = replicate n x.
Proof. intros E. unfold fill. by rewrite drop_ge, app_nil_r by lia. Qed.

Lemma reset_counts_ok l p Q : is_port p -> counters_ok l ->
  (forall a b c, length a = 2%nat -> length b = 2%nat -> length c = 2%nat ->
     Q tt (l <| l2_perf_stg_ar_full := a |> <| l2_perf_stg_aw_full := b |> <| l2_perf_stg_w_full := c |>)) -> wp (reset_counts p) Q l.
Proof.
  intros Hp (H1 & H2 & H3) HQ. assert (0 <= p < 2) by (destruct Hp as [-> | ->]; unfold L2_I_PORT, L2_D_PORT; lia).
  apply wp_bind, wp_on, wp_put_elem; [lia|]. apply wp_bind, wp_on, wp_put_elem; [upd_proj; lia|]. apply wp_on, wp_put_elem; [upd_proj; lia|].
  apply HQ; upd_proj; by rewrite length_insert.
Qed.

Lemma reset_port_ok l p pt c d w Q : aget (l2_ports l) p = Some pt -> aget (l2_ar_fifos l) p = Some (Chan c []) ->
  aget (l2_aw_fifos l) p = Some (Chan d []) -> aget (l2_w_fifos l) p = Some (Chan w []) ->
  (forall pt', po_state pt' = L2_PORT_STATE_IDLE -> Q tt (at_port l p pt')) -> wp (reset_port p) Q l.
Proof.
  intros E1 E2 E3 E4 HQ. apply wp_bind. eapply wp_port_upd; [exact E1|]. apply wp_bind, wp_on. eapply wp_at_elem; [exact E2|]. apply wp_modify.
  apply wp_bind, wp_on. eapply wp_at_elem; [exact E3|]. apply wp_modify. apply wp_on. eapply wp_at_elem; [exact E4|]. apply wp_modify. upd_proj.
  assert (forall A (xs : list (chan A)) d, aget xs p = Some (Chan d []) -> <[Z.to_nat p := Chan d [] <| ch_pkts := [] |>]> xs = xs) as Hid.
  { intros A xs d' Hx. pose proof (aget_Some _ _ _ Hx). rewrite aget_lookup in Hx by lia. by rewrite list_insert_id. }
  rewrite !Hid by done. set (pt' := pt <| po_state := _ |> <| po_beat_idx := _ |> <| po_miss_resolved := _ |> <| po_latency_active := _ |> <| po_delay := _ |>).
  specialize (HQ pt' eq_refl). unfold at_port in HQ. by destruct l.
Qed.

(** What reset leaves alone. *)
Definition l2_frame (l : l2_t) :=
  ((l2_i_axi4_aw_slv l, l2_i_axi4_w_slv l, l2_i_axi4_b_mst l, l2_i_axi4_ar_slv l, l2_i_axi4_r_mst l),
   (l2_d_axi4_aw_slv l, l2_d_axi4_w_slv l, l2_d_axi4_b_mst l, l2_d_axi4_ar_slv l, l2_d_axi4_r_mst l),
   l2_bus l, (l2_conf l, l2_set_num l, l2_line_num l), (l2_ar_fifos l, l2_aw_fifos l, l2_w_fifos l)).

Lemma wired_frame l l' : l2_frame l' = l2_frame l -> (exists p0 p1, l2_ports l' = [p0; p1]) -> counters_ok l' -> l2_wired l -> l2_wired l'.
Proof.
  unfold l2_frame, l2_bus. intros E Hp Hc []. injection E as E1 E2 E3 E4 E5 E6 E7 E8 E9 E10 E11 E12 E13 E14 E15 E16 E17 E18 E19 E20 E21.
  split; rewrite ?E1, ?E2, ?E3, ?E4, ?E5, ?E6, ?E7, ?E8, ?E9, ?E10, ?E11, ?E12, ?E13, ?E14, ?E15; done.
Qed.

(** The arrays and the machine at rest, with the ports and the queues cleared. *)
Record l2_cleared (l l' : l2_t) : Prop := {
  lc_frame : l2_frame l' = l2_frame l;
  lc_arrays : (l2_tags l', l2_data l', l2_replace_ways l', l2_valids l', l2_dirtys l') = (l2_tags l, l2_data l, l2_replace_ways l, l2_valids l, l2_dirtys l);
  lc_ports : exists p0 p1, l2_ports l' = [p0; p1] /\ po_state p0 = L2_PORT_STATE_IDLE /\ po_state p1 = L2_PORT_STATE_IDLE;
  lc_idle : l2_mem_state l' = L2_MEM_STATE_IDLE;
  lc_queues : ost_live (l2_bypass_rd_ost l') false [] /\ ost_live (l2_bypass_wr_ost l') false [];
  lc_counts : counters_ok l'
}.

Lemma two_ports (p0 p1 x y : l2_port_t) : <[Z.to_nat L2_D_PORT := y]> (<[Z.to_nat L2_I_PORT := x]> [p0; p1]) = [x; y].
Proof. reflexivity. Qed.

Lemma reset_first l (m : M l2_t unit) Q : l2_built l -> l2_wired l -> (forall l', l2_cleared l l' -> wp m Q l') ->
  wp (reset_port L2_I_PORT;; reset_port L2_D_PORT;;
      modify (fun l2 => l2 <| l2_mem_state := L2_MEM_STATE_IDLE |> <| l2_data_write_used := false |>);;
      on l2_bypass_rd_ost ostq_reset;; on l2_bypass_wr_ost ostq_reset;; m) Q l.
Proof.
  intros [_ (Q1 & D1 & Q2 & D2) (d & Hd & F1 & F2 & F3)] Hwi HQ. destruct (lw_ports _ Hwi) as (p0 & p1 & Ep). pose proof (lw_counts _ Hwi) as Hcnt.
  apply wp_bind. eapply reset_port_ok; [by rewrite Ep|by rewrite F1|by rewrite F2|by rewrite F3|]. intros p0' P0. set (l1 := at_port l _ p0').
  assert (l2_ports l1 = <[Z.to_nat L2_I_PORT := p0']> [p0; p1] /\ l2_ar_fifos l1 = l2_ar_fifos l /\ l2_aw_fifos l1 = l2_aw_fifos l /\ l2_w_fifos l1 = l2_w_fifos l)
    as (E1 & E2 & E3 & E4) by (unfold l1, at_port; upd_proj; by rewrite Ep).
  apply wp_bind. eapply (reset_port_ok _ L2_D_PORT p1 d d d); [by rewrite E1|by rewrite E2, F1|by rewrite E3, F2|by rewrite E4, F3|]. intros p1' P1.
  apply wp_bind, wp_modify, wp_bind, wp_on. apply ost_reset_live; [done..|]. intros q1 L1. apply wp_bind, wp_on. apply ost_reset_live; [done..|]. intros q2 L2.
  apply HQ. split; [reflexivity|reflexivity| |reflexivity|split; [exact L1|exact L2]|exact Hcnt]. exists p0', p1'. split; [|done].
  rewrite <- (two_ports p0 p1), <- E1. reflexivity.
Qed.

Lemma l2_reset_ok V0 l : l2_built l -> l2_wired l -> l2_blocks l -> (forall a, 0 <= V0 a < 256) ->
  wp l2_reset (fun _ l' => l2_inv V0 (fun _ => no_hist) l' (AxiMem V0 [] None []) []) l.
Proof.
  intros Hbu Hwi (B1 & B2 & B3 & B4 & B5) HV. apply reset_first; [done..|]. intros l1 [Fr Ar (p0 & p1 & Ep & P0 & P1) Hs [L1 L2] C1].
  destruct Hbu as [(Sw & Ss & Sl & S16) _ (d & Hd & F1 & F2 & F3)].
  pose proof Fr as Fr'. unfold l2_frame in Fr'. injection Fr' as _ _ _ _ _ _ _ _ _ _ _ _ _ _ _ K1 K2 K3 K4 K5 K6. injection Ar as A1 A2 A3 A4 A5.
  apply wp_bind, wp_gets. unfold id. cbv zeta. rewrite K2, K3, A1, A2, A3, A4, A5. change L2_WORD_NUM with 16.
  apply wp_bind, wp_check; [rewrite !bool_decide_eq_true_2 by lia; done|]. apply wp_bind, wp_modify. rewrite A1, A2, A3, A4, A5. rewrite !fill_all by lia.
  set (l2 := l1 <| l2_tags := _ |> <| l2_valids := _ |> <| l2_dirtys := _ |> <| l2_data := _ |> <| l2_replace_ways := _ |>). apply wp_bind, wp_modify.
  apply wp_bind. apply reset_counts_ok; [by left|exact C1|]. intros a b c La Lb Lc. apply reset_counts_ok; [by right|by split_and!|]. intros a' b' c' La' Lb' Lc'.
  apply fresh_l2; [| | |exact Hs| |exact L1|exact L2| | |exact HV].
  - split; unfold l2; cbn; rewrite ?K1, ?K2, ?K3, ?length_replicate; try done; try lia. apply Forall_replicate. lia.
  - intros i. unfold l2. cbn. apply aget_false.
  - apply (wired_frame l1); [reflexivity|by exists p0, p1|by split_and!|]. apply (wired_frame l); [done|by exists p0, p1|done|done].
  - unfold l2. cbn. apply Forall_replicate. unfold is_u32, W32. lia.
  - exists d. split; [done|]. unfold l2. cbn. by rewrite K4, K5, K6.
  - unfold l2. cbn. rewrite Ep. by repeat constructor.
Qed.
