(* ===== verification/L2Thm.v ===== *)
(** * Theorems on the level 2 cache

    Runs of [core/l2.c] in front of a memory, with a master at each port, from reset. *)

From stdpp Require Import base numbers list relations.
From Stdlib Require Import ZArith Lia.
From S2P Require Import Prelude Fifo Ost OstScan OstSlot Bti Axi L1 L1Cache AxiMem L1Inv L1Stages L1Pipe L1Spec L1Run L1Thm AxiLog L2 L2Mem L2Port L2Data L2Spec L2Run.

(** A run of a cache built for [conf] over a memory with the bytes [V0], from reset. *)
Definition l2_runs (conf : l2_conf_t) (V0 : Z -> Z) (w : l2_world) : Prop :=
  exists rs ws tags data rw vs ds l0 l l1, l2_conf_fits conf /\ rs <> 0 /\ ws <> 0 /\ l2_wired l0 /\
    l2_construct conf rs ws tags data rw vs ds l0 = Some l /\ l2_blocks l /\ (forall a, 0 <= V0 a < 256) /\
    l2_reset l = Some (tt, l1) /\ rtc l2_step (l1, AxiMem V0 [] None [], fun _ => no_hist) w.

(** Nothing of the port [p] is under way. *)
Definition port_quiet (l : l2_t) (p : Z) : Prop :=
  (po_state <$> aget (l2_ports l) p) = Some L2_PORT_STATE_IDLE /\
  (ch_pkts <$> aget (l2_ar_fifos l) p) = Some [] /\ (ch_pkts <$> aget (l2_aw_fifos l) p) = Some [] /\
  ch_pkts (l2_port_ar_slv l p) = [] /\ ch_pkts (l2_port_aw_slv l p) = [].

(** The log is a sequential history of a flat memory that explains what the masters see: the beats of
    each port in the order of its requests, each answered with what the memory holds at that point. *)
Definition explains (V0 : Z -> Z) (H : Z -> port_hist) (l : l2_t) (log : list axi_event) : Prop := forall p, is_port p ->
  reads_of p log `prefix_of` (hs_ar (H p) ≫= rd_beats) /\
  (writes_of p log).*1 `prefix_of` (hs_aw (H p) ≫= wr_beats) /\ (writes_of p log).*2 `prefix_of` hs_w (H p) /\
  hs_r (H p) ++ ch_pkts (l2_port_r_mst l p) = answers p V0 log /\
  hs_b (H p) ++ ch_pkts (l2_port_b_mst l p) = acks (writes_of p log) /\
  (port_quiet l p -> reads_of p log = hs_ar (H p) ≫= rd_beats /\ (writes_of p log).*1 = hs_aw (H p) ≫= wr_beats).

Lemma inv_explains V0 H l e log : l2_inv V0 H l e log -> explains V0 H l log.
Proof.
  intros Hi p Hp. destruct (li_ports _ _ _ _ _ Hi p Hp) as (pt & arf & awf & wf & E1 & E2 & E3 & E4 & _ & []).
  split; [rewrite pr_reads; by apply prefix_app_r|]. split; [rewrite pr_writes; by apply prefix_app_r|].
  split; [rewrite pr_w; by apply prefix_app_r|]. split; [done|]. split; [done|].
  unfold port_quiet. rewrite E1, E2, E3. cbn [fmap option_fmap option_map]. intros ([= Q1] & [= Q2] & [= Q3] & Q4 & Q5).
  rewrite pr_reads, pr_writes. unfold po_core, po_task. rewrite Q1, Q2, Q3, Q4, Q5. cbn. by rewrite !app_nil_r.
Qed.

Lemma l2_runs_ok conf V0 w : l2_runs conf V0 w -> l2_ok V0 [] w.
Proof.
  intros (rs & ws & tags & data & rw & vs & ds & l0 & l & l1 & Hf & Hrs & Hws & Hw & Hc & Hb & HV & Hr & Hrun).
  destruct (l2_construct_ok _ _ _ _ _ _ _ _ _ _ Hf Hrs Hws Hw Hc) as [Hbu Hwi].
  pose proof (l2_reset_ok V0 l Hbu Hwi Hb HV) as Hi. unfold wp in Hi. rewrite Hr in Hi.
  apply (l2_run_ok V0 [] _ _ Hrun). exists []. by split.
Qed.

(** C2: In every run of the cache from reset, in front of a memory that answers without errors and with a
    master at each port, all moving at their own pace, whose requests are incrementing bursts of
    aligned words to cacheable addresses, those that write by the data port only, and maintenance
    operations of the data port that clean the line (clean and flush, of any burst kind), but no
    bypass traffic and no invalidation without a write back: no check of the cache fails and every
    index into its arrays is in bounds, and the accesses of the two ports are linearizable.  There is one
    sequential history of a flat memory that has the beats of each port in the order it asked for
    them, with the answers and the acknowledgements it gets; when a port is quiet all its bursts are
    in the history; and whatever happens later only extends the history. *)
Theorem l2_linearizable conf V0 l e H : l2_runs conf V0 (l, e, H) ->
  (exists l', l2_clock l = Some (tt, l')) /\
  exists log, explains V0 H l log /\
    forall l' e' H', rtc l2_step (l, e, H) (l', e', H') -> exists log', log `prefix_of` log' /\ explains V0 H' l' log'.
Proof.
  intros Hr. apply l2_runs_ok in Hr. split.
  { destruct (wp_elim _ _ _ (l2_clock_ok V0 H e [] l Hr)) as ([] & l' & E & _). by exists l'. }
  destruct Hr as (log & _ & Hi). exists log. split; [by eapply inv_explains|]. intros l' e' H' Hrun.
  destruct (l2_run_ok V0 log _ _ Hrun (some_same _ _ _ _ _ Hi)) as (log' & Hpre & Hi'). exists log'. split; [done|by eapply inv_explains].
Qed.

(** ** Concrete runs *)

(** Moves of the memory and of the masters; a move that is not possible is skipped. *)
Inductive l2_move :=
| M2Clock | M2Mem (v : l1_move) | M2Ar (p : Z) (ar : axi4_ar_if_t) | M2Aw (p : Z) (aw : axi4_aw_if_t) | M2W (p : Z) (w : axi4_w_if_t) | M2R (p : Z) | M2B (p : Z).

Definition is_portb (p : Z) : bool := (p =? L2_I_PORT) || (p =? L2_D_PORT).

Definition ar_okb (p : Z) (ar : axi4_ar_if_t) : bool :=
  (0 <=? ar_addr ar) && (ar_addr ar mod 4 =? 0) && (0 <=? ar_len ar) && (ar_len ar <? 256) && (ar_addr ar + 4 * (ar_len ar + 1) <=? W32) &&
  (ar_size ar =? AXI4_SIZE_B4) &&
  (if axi4_user_is_cmo (ar_user ar) then (p =? L2_D_PORT) && (ar_len ar =? 0) && axi4_user_cmo_cleans (ar_user ar)
   else (ar_burst ar =? AXI4_BURST_INCR) && negb (ar_cache ar =? 0)).

Definition aw_okb (p : Z) (aw : axi4_aw_if_t) : bool :=
  (p =? L2_D_PORT) && (0 <=? aw_addr aw) && (aw_addr aw mod 4 =? 0) && (0 <=? aw_len aw) && (aw_len aw <? 256) &&
  (aw_addr aw + 4 * (aw_len aw + 1) <=? W32) && (aw_size aw =? AXI4_SIZE_B4) && (aw_burst aw =? AXI4_BURST_INCR) && negb (aw_cache aw =? 0).

Definition l2_do (s : l2_world) (v : l2_move) : l2_world :=
  let '(l, e, H) := s in
  match v with
  | M2Clock => match l2_clock l with Some (_, l') => (l', e, H) | None => s end
  | M2Mem v => match mem_move v e (l2_bus l) with Some (e', b') => (l2_set_bus l b', e', H) | None => s end
  | M2Ar p ar => if is_portb p && ar_okb p ar && negb (chan_full (l2_port_ar_slv l p)) then
      (set_ar_slv l p (chan_snoc (l2_port_ar_slv l p) ar), e, fn_upd H p (H p <| hs_ar := hs_ar (H p) ++ [ar] |>)) else s
  | M2Aw p aw => if is_portb p && aw_okb p aw && negb (chan_full (l2_port_aw_slv l p)) then
      (set_aw_slv l p (chan_snoc (l2_port_aw_slv l p) aw), e, fn_upd H p (H p <| hs_aw := hs_aw (H p) ++ [aw] |>)) else s
  | M2W p w => if is_portb p && w_fitsb (H p) w && negb (chan_full (l2_port_w_slv l p)) then
      (set_w_slv l p (chan_snoc (l2_port_w_slv l p) w), e, fn_upd H p (H p <| hs_w := hs_w (H p) ++ [w] |>)) else s
  | M2R p => if is_portb p then match l2_port_r_mst l p with
      | Chan d (r :: rs) => (set_r_mst l p (Chan d rs), e, fn_upd H p (H p <| hs_r := hs_r (H p) ++ [r] |>))
      | _ => s end else s
  | M2B p => if is_portb p then match l2_port_b_mst l p with
      | Chan d (b :: bs) => (set_b_mst l p (Chan d bs), e, fn_upd H p (H p <| hs_b := hs_b (H p) ++ [b] |>))
      | _ => s end else s
  end.

Lemma is_portb_ok p : is_portb p = true -> is_port p.
Proof. unfold is_portb, is_port. lia. Qed.

Lemma ar_okb_ok p ar : ar_okb p ar = true -> ar_ok p ar.
Proof.
  unfold ar_okb. intros H. repeat (apply andb_true_iff in H as [H ?]). split; try lia; try (split; [lia|]); intros E; rewrite E in *; [lia..|].
  repeat match goal with H : _ && _ = true |- _ => apply andb_true_iff in H as [H ?] end. split_and!; lia || done.
Qed.

Lemma aw_okb_ok p aw : aw_okb p aw = true -> aw_ok p aw.
Proof. unfold aw_okb. intros H. repeat (apply andb_true_iff in H as [H ?]). split; lia. Qed.

Lemma l2_do_sound s v : rtc l2_step s (l2_do s v).
Proof.
  destruct s as [[l e] H]. destruct v as [|v|p ar|p aw|p w|p|p]; cbn [l2_do].
  - destruct (l2_clock l) as [[[] l']|] eqn:E; [|done]. by apply rtc_once, L2Clock.
  - destruct (mem_move v e (l2_bus l)) as [[e' b']|] eqn:E; [|done]. apply rtc_once, L2Mem. by eapply mem_move_sound.
  - destruct (_ && _) eqn:E; [|done]. apply andb_true_iff in E as [[E1%is_portb_ok E2%ar_okb_ok]%andb_true_iff E3%negb_true_iff]. by apply rtc_once, L2SendAr.
  - destruct (_ && _) eqn:E; [|done]. apply andb_true_iff in E as [[E1%is_portb_ok E2%aw_okb_ok]%andb_true_iff E3%negb_true_iff]. by apply rtc_once, L2SendAw.
  - destruct (_ && _) eqn:E; [|done]. apply andb_true_iff in E as [[E1%is_portb_ok E2%w_fitsb_ok]%andb_true_iff E3%negb_true_iff]. by apply rtc_once, L2SendW.
  - destruct (is_portb p) eqn:E; [|done]. destruct (l2_port_r_mst l p) as [d [|r rs]] eqn:Er; [done|]. apply rtc_once, L2TakeR; [by apply is_portb_ok|done].
  - destruct (is_portb p) eqn:E; [|done]. destruct (l2_port_b_mst l p) as [d [|b bs]] eqn:Er; [done|]. apply rtc_once, L2TakeB; [by apply is_portb_ok|done].
Qed.

Lemma l2_script_sound vs s : rtc l2_step s (foldl l2_do s vs).
Proof. revert s. induction vs as [|v vs IH]; intros s; [done|]. simpl. etrans; [apply l2_do_sound|apply IH]. Qed.

(** A cache of four lines in two sets of two ways, its arrays allocated but not initialised. *)
Definition l2_example_conf : l2_conf_t := L2Conf 256 2 1 2 2.
Definition port_junk : l2_port_t :=
  L2Port L2_PORT_STATE_WRITE L2_PORT_STATE_READ (AxiAr 0 0 0 0 0 false 0 0 0 0) (AxiAw 0 0 0 0 0 false 0 0 0 0) 7 7 true true 7.
Definition l2_example_wires : l2_t :=
  L2 (Chan 2 []) (Chan 2 []) (Chan 2 []) (Chan 2 []) (Chan 2 []) (Chan 2 []) (Chan 2 []) (Chan 2 []) (Chan 2 []) (Chan 2 [])
    (Chan 2 []) (Chan 2 []) (Chan 2 []) (Chan 2 []) (Chan 2 []) l2_example_conf 0 0 [] [] [] [] [] [] [] []
    (Ostq [] 0 0 0 0 0 0) (Ostq [] 0 0 0 0 0 0) [port_junk; port_junk] L2_MEM_STATE_REFILL_R 0 0 0 0 0 0 0 0 0 false true 7 7 7 7 7 7 7
    [7; 7] [7; 7] [7; 7].

Definition l2_example_built : l2_t :=
  default l2_example_wires (l2_construct l2_example_conf 4 16 (replicate 4 7) (replicate 64 7) (replicate 2 7) (replicate 4 true)
    (replicate 4 true) l2_example_wires).

Definition l2_example_start : l2_world :=
  (snd (default (tt, l2_example_built) (l2_reset l2_example_built)), AxiMem l1_example_mem [] None [], fun _ => no_hist).

Lemma l2_example_runs w : rtc l2_step l2_example_start w -> l2_runs l2_example_conf l1_example_mem w.
Proof.
  intros Hr. exists 4, 16, (replicate 4 7), (replicate 64 7), (replicate 2 7), (replicate 4 true), (replicate 4 true), l2_example_wires.
  exists l2_example_built. eexists. split; [done|]. split; [done|]. split; [done|]. split; [split; by split_and! || by do 2 eexists|].
  split; [by vm_compute|]. split; [by vm_compute|]. split; [intros a; unfold l1_example_mem; zdiv|]. split; [|exact Hr]. vm_compute. reflexivity.
Qed.

Definition l2_cycles (n : nat) : list l2_move :=
  concat (replicate n [M2Mem MvAw; M2Mem MvW; M2Mem MvB; M2Mem MvAr; M2Mem MvR; M2Clock; M2R L2_I_PORT; M2R L2_D_PORT; M2B L2_D_PORT]).

Definition l2_read (id addr len : Z) : axi4_ar_if_t := AxiAr id addr len AXI4_SIZE_B4 AXI4_BURST_INCR false 0xf 0 0 0.
Definition l2_write (id addr len : Z) : axi4_aw_if_t := AxiAw id addr len AXI4_SIZE_B4 AXI4_BURST_INCR false 0xf 0 0 0.
Definition l2_clean (id addr : Z) : axi4_ar_if_t :=
  AxiAr id addr 0 AXI4_SIZE_B4 AXI4_BURST_FIXED false 0xf 0 0 AXI4_USER_CMO_CLEAN.

(** The data port writes two words, the instruction port reads them and one more, and the line is cleaned. *)
Definition l2_example_script : list l2_move :=
  [M2Aw L2_D_PORT (l2_write 1 4 1); M2W L2_D_PORT (AxiW 0x44332211 0xf false); M2W L2_D_PORT (AxiW 0x88776655 0x3 true)] ++ l2_cycles 60 ++
  [M2Ar L2_I_PORT (l2_read 2 4 2); M2Ar L2_D_PORT (l2_clean 3 4)] ++ l2_cycles 60.

Lemma l2_linearizable_witness : exists l e H, l2_runs l2_example_conf l1_example_mem (l, e, H) /\
  hs_r (H L2_I_PORT) = [AxiR 2 0x44332211 0 false; AxiR 2 0x0b0a6655 0 false; AxiR 2 0x0f0e0d0c 0 true] /\
  hs_r (H L2_D_PORT) = [AxiR 3 0 0 true] /\ hs_b (H L2_D_PORT) = [AxiB 1 0] /\ am_mem e 4 = 0x11 /\
  (exists l', l2_clock l = Some (tt, l')) /\ exists log, explains l1_example_mem H l log.
Proof.
  pose proof (l2_example_runs _ (l2_script_sound l2_example_script l2_example_start)) as Hr.
  assert ((let w := foldl l2_do l2_example_start l2_example_script in (hs_r (w.2 L2_I_PORT), hs_r (w.2 L2_D_PORT), hs_b (w.2 L2_D_PORT), am_mem w.1.2 4)) =
    ([AxiR 2 0x44332211 0 false; AxiR 2 0x0b0a6655 0 false; AxiR 2 0x0f0e0d0c 0 true], [AxiR 3 0 0 true], [AxiB 1 0], 0x11)) as Hx
    by (vm_compute; reflexivity).
  cbv zeta in Hx. destruct (foldl l2_do l2_example_start l2_example_script) as [[l e] H]. cbn [fst snd] in Hx. injection Hx as H1 H2 H3 H4.
  destruct (l2_linearizable l2_example_conf l1_example_mem l e H Hr) as (Hc & log & Hl & _).
  exists l, e, H. split; [exact Hr|]. split; [exact H1|]. split; [exact H2|]. split; [exact H3|]. split; [exact H4|]. split; [exact Hc|]. by exists log.
Defined.
