(* ===== verification/Ram.v ===== *)
(** * The memory

    [mem/ram.c]: an array of bytes behind one AXI4 port or up to two BTI ports.  Without latency a burst
    is served at once, one read and one write burst at a time; with a latency the requests wait in
    rings until their cycle has come. *)

From stdpp Require Import base numbers list.
From Stdlib Require Import ZArith Lia.
From S2P Require Import Prelude Fifo Bti Axi.

Definition RAM_MAX_PORT_NUM : Z := 2.
Definition RAM_PENDING_DEPTH : Z := 1024.

Inductive ram_mode_t := RAM_MODE_BTI | RAM_MODE_AXI.
#[export] Instance ram_mode_eq_dec : EqDecision ram_mode_t.
Proof. solve_decision. Defined.

Record ram_bti_entry_t := RamBtiEntry { rb_ready_cycle : Z; rb_rsp : bti_rsp_if_t }.

Record ram_axi_rd_entry_t := RamRdEntry {
  re_ready_cycle : Z; re_addr : Z; re_id : Z; re_len : Z; re_size : Z; re_burst : Z; re_beat_cnt : Z }.
#[export] Instance eta_ram_rd_entry : Eta ram_axi_rd_entry_t := fun x =>
  RamRdEntry (re_ready_cycle x) (re_addr x) (re_id x) (re_len x) (re_size x) (re_burst x) (re_beat_cnt x).

Record ram_axi_wr_entry_t := RamWrEntry {
  we_ready_cycle : Z; we_addr : Z; we_id : Z; we_len : Z; we_size : Z; we_burst : Z; we_beat_cnt : Z; we_w_done : bool }.
#[export] Instance eta_ram_wr_entry : Eta ram_axi_wr_entry_t := fun x =>
  RamWrEntry (we_ready_cycle x) (we_addr x) (we_id x) (we_len x) (we_size x) (we_burst x) (we_beat_cnt x) (we_w_done x).

(** [rm_cycle] is the cycle counter of the module, which belongs to the simulator; a ring that is not
    allocated has no elements. *)
Record ram_t := Ram {
  rm_bti_req_slvs : list (chan bti_req_if_t);
  rm_bti_rsp_msts : list (chan bti_rsp_if_t);
  rm_axi4_aw_slv : chan axi4_aw_if_t;
  rm_axi4_w_slv : chan axi4_w_if_t;
  rm_axi4_b_mst : chan axi4_b_if_t;
  rm_axi4_ar_slv : chan axi4_ar_if_t;
  rm_axi4_r_mst : chan axi4_r_if_t;
  rm_cycle : option Z;
  rm_port_num : Z;
  rm_mode : ram_mode_t;
  rm_base_addr : Z;
  rm_size : Z;
  rm_latency : Z;
  rm_data : list Z;
  rm_rd_burst_addr : Z;
  rm_rd_burst_id : Z;
  rm_rd_burst_len : Z;
  rm_rd_burst_size : Z;
  rm_rd_burst_type : Z;
  rm_rd_burst_cnt : Z;
  rm_rd_active : bool;
  rm_wr_burst_addr : Z;
  rm_wr_burst_id : Z;
  rm_wr_burst_len : Z;
  rm_wr_burst_size : Z;
  rm_wr_burst_type : Z;
  rm_wr_burst_cnt : Z;
  rm_wr_active : bool;
  rm_wr_b_pending : bool;
  rm_bti_entries : list (list ram_bti_entry_t);
  rm_bti_rptrs : list Z;
  rm_bti_wptrs : list Z;
  rm_bti_counts : list Z;
  rm_axi_rd_entries : list ram_axi_rd_entry_t;
  rm_axi_rd_rptr : Z;
  rm_axi_rd_wptr : Z;
  rm_axi_wr_entries : list ram_axi_wr_entry_t;
  rm_axi_wr_rptr : Z;
  rm_axi_wr_wptr : Z;
  rm_axi_wr_data_rptr : Z;
  rm_axi_wr_need_w_count : Z;
  rm_bti_count : Z;
  rm_axi_rd_count : Z;
  rm_axi_wr_count : Z
}.
#[export] Instance eta_ram : Eta ram_t := fun m =>
  Ram (rm_bti_req_slvs m) (rm_bti_rsp_msts m) (rm_axi4_aw_slv m) (rm_axi4_w_slv m) (rm_axi4_b_mst m) (rm_axi4_ar_slv m)
    (rm_axi4_r_mst m) (rm_cycle m) (rm_port_num m) (rm_mode m) (rm_base_addr m) (rm_size m) (rm_latency m) (rm_data m)
    (rm_rd_burst_addr m) (rm_rd_burst_id m) (rm_rd_burst_len m) (rm_rd_burst_size m) (rm_rd_burst_type m) (rm_rd_burst_cnt m)
    (rm_rd_active m) (rm_wr_burst_addr m) (rm_wr_burst_id m) (rm_wr_burst_len m) (rm_wr_burst_size m) (rm_wr_burst_type m)
    (rm_wr_burst_cnt m) (rm_wr_active m) (rm_wr_b_pending m) (rm_bti_entries m) (rm_bti_rptrs m) (rm_bti_wptrs m)
    (rm_bti_counts m) (rm_axi_rd_entries m) (rm_axi_rd_rptr m) (rm_axi_rd_wptr m) (rm_axi_wr_entries m) (rm_axi_wr_rptr m)
    (rm_axi_wr_wptr m) (rm_axi_wr_data_rptr m) (rm_axi_wr_need_w_count m) (rm_bti_count m) (rm_axi_rd_count m)
    (rm_axi_wr_count m).

(** ** Construction and reset *)

(** The blocks of [malloc] are arguments: [data] has [size + 3] bytes; [bti], [rd] and [wr] are the rings. *)
Definition ram_construct (port_num : Z) (mode : ram_mode_t) (size base_addr latency : Z) (data : list Z)
    (bti : list (list ram_bti_entry_t)) (rd : list ram_axi_rd_entry_t) (wr : list ram_axi_wr_entry_t) (ram : ram_t) : option ram_t :=
  if (0 <? port_num) && (port_num <=? RAM_MAX_PORT_NUM) then
    let lat := 0 <? latency in
    let axi := bool_decide (mode = RAM_MODE_AXI) in
    Some (ram <| rm_port_num := port_num |> <| rm_mode := mode |> <| rm_size := size |> <| rm_data := data |>
      <| rm_base_addr := base_addr |> <| rm_latency := latency |>
      <| rm_bti_entries := if lat && negb axi then take (Z.to_nat port_num) bti ++ replicate (Z.to_nat (RAM_MAX_PORT_NUM - port_num)) []
           else replicate (Z.to_nat RAM_MAX_PORT_NUM) [] |>
      <| rm_axi_rd_entries := if lat && axi then rd else [] |>
      <| rm_axi_wr_entries := if lat && axi then wr else [] |>)
  else None.

Definition ram_reset (ram : ram_t) : ram_t :=
  let zeros := replicate (Z.to_nat RAM_MAX_PORT_NUM) 0 in
  ram <| rm_rd_active := false |> <| rm_wr_active := false |> <| rm_wr_b_pending := false |>
    <| rm_bti_rptrs := zeros |> <| rm_bti_wptrs := zeros |> <| rm_bti_counts := zeros |>
    <| rm_axi_rd_rptr := 0 |> <| rm_axi_rd_wptr := 0 |> <| rm_axi_wr_rptr := 0 |> <| rm_axi_wr_wptr := 0 |>
    <| rm_axi_wr_data_rptr := 0 |> <| rm_axi_wr_need_w_count := 0 |> <| rm_bti_count := 0 |> <| rm_axi_rd_count := 0 |>
    <| rm_axi_wr_count := 0 |>.

(** ** The bytes *)

(** [memcpy] into the block at offset [addr]. *)
Fixpoint copy_in (addr : Z) (bs : list Z) : M (list Z) unit :=
  match bs with
  | [] => mret tt
  | b :: bs => put_elem addr b;; copy_in (addr + 1) bs
  end.

Definition ram_load (bytes : list Z) (addr size : Z) : M ram_t unit :=
  ram ← gets id;
  DBG_CHECK (addr <? rm_size ram);;
  DBG_CHECK (u32 (addr + size) <=? rm_size ram);;
  on rm_data (copy_in addr (take (Z.to_nat size) bytes)).

(** [memcpy] of [n] bytes from the block at offset [addr] into a word. *)
Fixpoint copy_out (data : list Z) (addr : Z) (n : nat) : option Z :=
  match n with
  | O => Some 0
  | S n =>
    b ← aget data addr;
    r ← copy_out data (addr + 1) n;
    Some (b + 256 * r)
  end.

Definition ram_bad (ram : ram_t) (addr byte_num : Z) : bool :=
  (4 <? byte_num) || (rm_size ram <=? addr) || (u32 (rm_size ram - addr) <? byte_num).

(** The inner [None] is a refused access. *)
Definition ram_read (ram : ram_t) (addr byte_num : Z) : option (option Z) :=
  if ram_bad ram addr byte_num then Some None
  else d ← copy_out (rm_data ram) addr (Z.to_nat byte_num); Some (Some d).

(** The loop over the bytes, from byte [i] on with [n] left. *)
Fixpoint write_loop (addr data strobe : Z) (n : nat) (i : Z) : M (list Z) unit :=
  match n with
  | O => mret tt
  | S n =>
    when (nz (Z.land strobe (u32 (Z.shiftl 1 i)))) (put_elem (addr + i) (u8 (Z.shiftr data (i * 8))));;
    write_loop addr data strobe n (i + 1)
  end.

Definition ram_write (addr byte_num data strobe : Z) : M ram_t bool :=
  ram ← gets id;
  if ram_bad ram addr byte_num then mret false
  else
    on rm_data (write_loop addr data strobe (Z.to_nat byte_num) 0);;
    mret true.

Definition axi_burst_next_addr (addr burst_type burst_size : Z) : Z :=
  let byte_step := u32 (Z.shiftl 1 burst_size) in
  if burst_type =? AXI4_BURST_FIXED then addr else u32 (addr + byte_step).

Definition ram_fifo_next (ptr : Z) : Z := u32 (ptr + 1) mod RAM_PENDING_DEPTH.

Definition ram_cycle (ram : ram_t) : Z := default 0 (rm_cycle ram).
Definition ram_ready_cycle (ram : ram_t) : Z := u64 (ram_cycle ram + rm_latency ram).
Definition ram_entry_ready (ram : ram_t) (ready_cycle : Z) : bool := ready_cycle <=? ram_cycle ram.

Definition ram_build_bti_rsp (req : bti_req_if_t) : M ram_t bti_rsp_if_t :=
  ram ← gets id;
  let addr := u32 (bq_addr req - rm_base_addr ram) in
  let byte_num := u32 (Z.shiftl 1 (bq_size req)) in
  if BTI_REQ_SIZE_B4 <? bq_size req then mret (BtiRsp (bq_trans_id req) 0 false)
  else if bq_cmd req =? BTI_REQ_CMD_READ then
    r ← of_option (ram_read ram addr byte_num);
    mret (match r with Some d => BtiRsp (bq_trans_id req) d true | None => BtiRsp (bq_trans_id req) 0 false end)
  else if bq_cmd req =? BTI_REQ_CMD_WRITE then
    ok ← ram_write addr byte_num (bq_data req) (bq_strobe req);
    mret (BtiRsp (bq_trans_id req) 0 ok)
  else mret (BtiRsp (bq_trans_id req) 0 false).

(** ** Without latency *)

Definition ram_fast_proc_axi_ar : M ram_t unit :=
  ram ← gets id;
  if rm_rd_active ram || chan_empty (rm_axi4_ar_slv ram) then mret tt
  else
    ar ← on rm_axi4_ar_slv chan_read;
    DBG_CHECK (rm_base_addr ram <=? ar_addr ar);;
    modify (fun ram => ram <| rm_rd_active := true |> <| rm_rd_burst_addr := u32 (ar_addr ar - rm_base_addr ram) |>
      <| rm_rd_burst_id := ar_id ar |> <| rm_rd_burst_len := ar_len ar |> <| rm_rd_burst_size := ar_size ar |>
      <| rm_rd_burst_type := ar_burst ar |> <| rm_rd_burst_cnt := 0 |>).

Definition ram_fast_proc_axi_r : M ram_t unit :=
  ram ← gets id;
  if negb (rm_rd_active ram) || chan_full (rm_axi4_r_mst ram) then mret tt
  else
    let byte_num := u32 (Z.shiftl 1 (rm_rd_burst_size ram)) in
    rd ← of_option (ram_read ram (rm_rd_burst_addr ram) byte_num);
    let last := rm_rd_burst_cnt ram =? rm_rd_burst_len ram in
    on rm_axi4_r_mst (chan_write (AxiR (rm_rd_burst_id ram) (default 0 rd)
      (match rd with Some _ => AXI4_RESP_OKAY | None => AXI4_RESP_SLVERR end) last));;
    if last : bool then modify (fun ram => ram <| rm_rd_active := false |>)
    else
      modify (fun ram => ram
        <| rm_rd_burst_addr := axi_burst_next_addr (rm_rd_burst_addr ram) (rm_rd_burst_type ram) (rm_rd_burst_size ram) |>
        <| rm_rd_burst_cnt := u8 (rm_rd_burst_cnt ram + 1) |>).

Definition ram_fast_proc_axi_aw : M ram_t unit :=
  ram ← gets id;
  if rm_wr_active ram || rm_wr_b_pending ram || chan_empty (rm_axi4_aw_slv ram) then mret tt
  else
    aw ← on rm_axi4_aw_slv chan_read;
    DBG_CHECK (rm_base_addr ram <=? aw_addr aw);;
    modify (fun ram => ram <| rm_wr_active := true |> <| rm_wr_burst_addr := u32 (aw_addr aw - rm_base_addr ram) |>
      <| rm_wr_burst_id := aw_id aw |> <| rm_wr_burst_len := aw_len aw |> <| rm_wr_burst_size := aw_size aw |>
      <| rm_wr_burst_type := aw_burst aw |> <| rm_wr_burst_cnt := 0 |> <| rm_wr_b_pending := false |>).

Definition ram_fast_proc_axi_w : M ram_t unit :=
  ram ← gets id;
  if negb (rm_wr_active ram) || chan_empty (rm_axi4_w_slv ram) then mret tt
  else
    w ← on rm_axi4_w_slv chan_front;
    let last := w_last w || (rm_wr_burst_cnt ram =? rm_wr_burst_len ram) in
    if last && rm_wr_b_pending ram then mret tt
    else
      _ ← on rm_axi4_w_slv chan_read;
      let byte_num := u32 (Z.shiftl 1 (rm_wr_burst_size ram)) in
      _ ← ram_write (rm_wr_burst_addr ram) byte_num (w_data w) (w_strb w);
      if last : bool then modify (fun ram => ram <| rm_wr_active := false |> <| rm_wr_b_pending := true |>)
      else
        modify (fun ram => ram
          <| rm_wr_burst_addr := axi_burst_next_addr (rm_wr_burst_addr ram) (rm_wr_burst_type ram) (rm_wr_burst_size ram) |>
          <| rm_wr_burst_cnt := u8 (rm_wr_burst_cnt ram + 1) |>).

Definition ram_fast_proc_axi_b : M ram_t unit :=
  ram ← gets id;
  if negb (rm_wr_b_pending ram) || chan_full (rm_axi4_b_mst ram) then mret tt
  else
    on rm_axi4_b_mst (chan_write (AxiB (rm_wr_burst_id ram) AXI4_RESP_OKAY));;
    modify (fun ram => ram <| rm_wr_b_pending := false |>).

Definition ram_fast_proc_axi : M ram_t unit :=
  ram_fast_proc_axi_b;;
  ram_fast_proc_axi_r;;
  ram_fast_proc_axi_w;;
  ram_fast_proc_axi_aw;;
  ram_fast_proc_axi_ar.

Definition ram_fast_proc_bti_port (port_idx : Z) : M ram_t unit :=
  ram ← gets id;
  DBG_CHECK (port_idx <? rm_port_num ram);;
  req_slv ← of_option (aget (rm_bti_req_slvs ram) port_idx);
  rsp_mst ← of_option (aget (rm_bti_rsp_msts ram) port_idx);
  if chan_empty req_slv || chan_full rsp_mst then mret tt
  else
    req ← on rm_bti_req_slvs (at_elem port_idx chan_read);
    DBG_CHECK (rm_base_addr ram <=? bq_addr req);;
    rsp ← ram_build_bti_rsp req;
    on rm_bti_rsp_msts (at_elem port_idx (chan_write rsp)).

(** A loop over the ports, from port [i] on with [n] left. *)
Fixpoint ports_loop (f : Z -> M ram_t unit) (n : nat) (i : Z) : M ram_t unit :=
  match n with
  | O => mret tt
  | S n => f i;; ports_loop f n (i + 1)
  end.

Definition ram_fast_proc_bti : M ram_t unit :=
  ram ← gets id;
  ports_loop ram_fast_proc_bti_port (Z.to_nat (rm_port_num ram)) 0.

(** ** With a latency *)

Definition ram_send_bti_rsp (port_idx : Z) : M ram_t unit :=
  ram ← gets id;
  count ← of_option (aget (rm_bti_counts ram) port_idx);
  rsp_mst ← of_option (aget (rm_bti_rsp_msts ram) port_idx);
  if (count =? 0) || chan_full rsp_mst then mret tt
  else
    entries ← of_option (aget (rm_bti_entries ram) port_idx);
    rptr ← of_option (aget (rm_bti_rptrs ram) port_idx);
    entry ← of_option (aget entries rptr);
    if negb (ram_entry_ready ram (rb_ready_cycle entry)) then mret tt
    else
      on rm_bti_rsp_msts (at_elem port_idx (chan_write (rb_rsp entry)));;
      on rm_bti_rptrs (put_elem port_idx (ram_fifo_next rptr));;
      on rm_bti_counts (put_elem port_idx (u32 (count - 1)));;
      modify (fun ram => ram <| rm_bti_count := u32 (rm_bti_count ram - 1) |>).

Definition ram_accept_bti_req (port_idx : Z) : M ram_t unit :=
  ram ← gets id;
  req_slv ← of_option (aget (rm_bti_req_slvs ram) port_idx);
  if chan_empty req_slv then mret tt
  else
    count ← of_option (aget (rm_bti_counts ram) port_idx);
    if count =? RAM_PENDING_DEPTH then mret tt
    else
      req ← on rm_bti_req_slvs (at_elem port_idx chan_read);
      DBG_CHECK (rm_base_addr ram <=? bq_addr req);;
      wptr ← of_option (aget (rm_bti_wptrs ram) port_idx);
      rsp ← ram_build_bti_rsp req;
      on rm_bti_entries (at_elem port_idx (put_elem wptr (RamBtiEntry (ram_ready_cycle ram) rsp)));;
      on rm_bti_wptrs (put_elem port_idx (ram_fifo_next wptr));;
      on rm_bti_counts (put_elem port_idx (u32 (count + 1)));;
      modify (fun ram => ram <| rm_bti_count := u32 (rm_bti_count ram + 1) |>).

Definition ram_proc_bti : M ram_t unit :=
  ram ← gets id;
  ports_loop ram_send_bti_rsp (Z.to_nat (rm_port_num ram)) 0;;
  ports_loop ram_accept_bti_req (Z.to_nat (rm_port_num ram)) 0.

Definition ram_accept_axi_ar : M ram_t unit :=
  ram ← gets id;
  if chan_empty (rm_axi4_ar_slv ram) then mret tt
  else if rm_axi_rd_count ram =? RAM_PENDING_DEPTH then mret tt
  else
    ar ← on rm_axi4_ar_slv chan_read;
    DBG_CHECK (rm_base_addr ram <=? ar_addr ar);;
    on rm_axi_rd_entries (put_elem (rm_axi_rd_wptr ram)
      (RamRdEntry (ram_ready_cycle ram) (u32 (ar_addr ar - rm_base_addr ram)) (ar_id ar) (ar_len ar) (ar_size ar) (ar_burst ar) 0));;
    modify (fun ram => ram <| rm_axi_rd_wptr := ram_fifo_next (rm_axi_rd_wptr ram) |>
      <| rm_axi_rd_count := u32 (rm_axi_rd_count ram + 1) |>).

Definition ram_send_axi_r : M ram_t unit :=
  ram ← gets id;
  if (rm_axi_rd_count ram =? 0) || chan_full (rm_axi4_r_mst ram) then mret tt
  else
    entry ← of_option (aget (rm_axi_rd_entries ram) (rm_axi_rd_rptr ram));
    if negb (ram_entry_ready ram (re_ready_cycle entry)) then mret tt
    else
      let byte_num := u32 (Z.shiftl 1 (re_size entry)) in
      rd ← of_option (ram_read ram (re_addr entry) byte_num);
      let last := re_beat_cnt entry =? re_len entry in
      on rm_axi4_r_mst (chan_write (AxiR (re_id entry) (default 0 rd)
        (match rd with Some _ => AXI4_RESP_OKAY | None => AXI4_RESP_SLVERR end) last));;
      if last : bool then
        modify (fun ram => ram <| rm_axi_rd_rptr := ram_fifo_next (rm_axi_rd_rptr ram) |>
          <| rm_axi_rd_count := u32 (rm_axi_rd_count ram - 1) |>)
      else
        on rm_axi_rd_entries (at_elem (rm_axi_rd_rptr ram) (modify (fun e =>
          e <| re_addr := axi_burst_next_addr (re_addr e) (re_burst e) (re_size e) |> <| re_beat_cnt := u8 (re_beat_cnt e + 1) |>))).

Definition ram_accept_axi_aw : M ram_t unit :=
  ram ← gets id;
  if chan_empty (rm_axi4_aw_slv ram) then mret tt
  else if rm_axi_wr_count ram =? RAM_PENDING_DEPTH then mret tt
  else
    aw ← on rm_axi4_aw_slv chan_read;
    DBG_CHECK (rm_base_addr ram <=? aw_addr aw);;
    let slot := rm_axi_wr_wptr ram in
    on rm_axi_wr_entries (put_elem slot
      (RamWrEntry 0 (u32 (aw_addr aw - rm_base_addr ram)) (aw_id aw) (aw_len aw) (aw_size aw) (aw_burst aw) 0 false));;
    when (rm_axi_wr_need_w_count ram =? 0) (modify (fun ram => ram <| rm_axi_wr_data_rptr := slot |>));;
    modify (fun ram => ram <| rm_axi_wr_wptr := ram_fifo_next (rm_axi_wr_wptr ram) |>
      <| rm_axi_wr_count := u32 (rm_axi_wr_count ram + 1) |> <| rm_axi_wr_need_w_count := u32 (rm_axi_wr_need_w_count ram + 1) |>).

Definition ram_accept_axi_w : M ram_t unit :=
  ram ← gets id;
  if chan_empty (rm_axi4_w_slv ram) then mret tt
  else if rm_axi_wr_need_w_count ram =? 0 then mret tt
  else
    entry ← of_option (aget (rm_axi_wr_entries ram) (rm_axi_wr_data_rptr ram));
    DBG_CHECK (negb (we_w_done entry));;
    w ← on rm_axi4_w_slv chan_front;
    let last := w_last w || (we_beat_cnt entry =? we_len entry) in
    _ ← on rm_axi4_w_slv chan_read;
    let byte_num := u32 (Z.shiftl 1 (we_size entry)) in
    _ ← ram_write (we_addr entry) byte_num (w_data w) (w_strb w);
    if last : bool then
      on rm_axi_wr_entries (at_elem (rm_axi_wr_data_rptr ram)
        (modify (fun e => e <| we_w_done := true |> <| we_ready_cycle := ram_ready_cycle ram |>)));;
      modify (fun ram => ram <| rm_axi_wr_need_w_count := u32 (rm_axi_wr_need_w_count ram - 1) |>);;
      ram ← gets id;
      when (0 <? rm_axi_wr_need_w_count ram)
        (modify (fun ram => ram <| rm_axi_wr_data_rptr := ram_fifo_next (rm_axi_wr_data_rptr ram) |>))
    else
      on rm_axi_wr_entries (at_elem (rm_axi_wr_data_rptr ram) (modify (fun e =>
        e <| we_addr := axi_burst_next_addr (we_addr e) (we_burst e) (we_size e) |> <| we_beat_cnt := u8 (we_beat_cnt e + 1) |>))).

Definition ram_send_axi_b : M ram_t unit :=
  ram ← gets id;
  if (rm_axi_wr_count ram =? 0) || chan_full (rm_axi4_b_mst ram) then mret tt
  else
    entry ← of_option (aget (rm_axi_wr_entries ram) (rm_axi_wr_rptr ram));
    if negb (we_w_done entry) || negb (ram_entry_ready ram (we_ready_cycle entry)) then mret tt
    else
      on rm_axi4_b_mst (chan_write (AxiB (we_id entry) AXI4_RESP_OKAY));;
      modify (fun ram => ram <| rm_axi_wr_rptr := ram_fifo_next (rm_axi_wr_rptr ram) |>
        <| rm_axi_wr_count := u32 (rm_axi_wr_count ram - 1) |>).

Definition ram_proc_axi : M ram_t unit :=
  ram_send_axi_b;;
  ram_send_axi_r;;
  ram_accept_axi_w;;
  ram_accept_axi_aw;;
  ram_accept_axi_ar.

Definition ram_clock : M ram_t unit :=
  ram ← gets id;
  if rm_latency ram =? 0 then
    if bool_decide (rm_mode ram = RAM_MODE_AXI) then ram_fast_proc_axi else ram_fast_proc_bti
  else if bool_decide (rm_mode ram = RAM_MODE_AXI) then ram_proc_axi else ram_proc_bti.
