(* ===== verification/RamSpec.v ===== *)
(** * The memory serves its port as a flat memory

    Runs of [mem/ram.c] in AXI mode, without and with a latency. *)

From stdpp Require Import base numbers list relations.
From Stdlib Require Import ZArith Lia.
From S2P Require Import Prelude Fifo Ost OstScan OstSlot Bti Axi L1 L1Cache AxiMem AxiLog Ram.

(** ** The server *)

(** Bursts of words within the memory of [size] bytes at [base]. *)
Record rd_ok (base size : Z) (ar : axi4_ar_if_t) : Prop := {
  rk_len : 0 <= ar_len ar < 256;
  rk_range : base <= ar_addr ar /\ ar_addr ar + 4 * (ar_len ar + 1) <= base + size;
  rk_kind : ar_size ar = AXI4_SIZE_B4 /\ ar_burst ar = AXI4_BURST_INCR;
  rk_user : axi4_user_is_cmo (ar_user ar) = false
}.
Record wr_ok (base size : Z) (aw : axi4_aw_if_t) : Prop := {
  wk_len : 0 <= aw_len aw < 256;
  wk_range : base <= aw_addr aw /\ aw_addr aw + 4 * (aw_len aw + 1) <= base + size;
  wk_kind : aw_size aw = AXI4_SIZE_B4 /\ aw_burst aw = AXI4_BURST_INCR
}.

(** What is left of the bursts that were accepted: of the first one, the beats from the [k]th on. *)
Definition rd_left (q : list (axi4_ar_if_t * nat)) : list (axi4_ar_if_t * nat) := q ≫= fun x => drop x.2 (rd_beats x.1).
Definition wr_left (q : list (axi4_aw_if_t * nat)) : list (axi4_aw_if_t * nat) := q ≫= fun x => drop x.2 (wr_beats x.1).
Definition ack_of (aw : axi4_aw_if_t) : axi4_b_if_t := AxiB (aw_id aw) AXI4_RESP_OKAY.

Section server.
  Context (base size : Z) (V0 : Z -> Z).

(** The bursts [rdq] and [wrq] are in service, [bp] are the bursts that wait for their acknowledgement. *)
Record srv (log : list axi_event) (h : port_hist) (rdq : list (axi4_ar_if_t * nat)) (wrq : list (axi4_aw_if_t * nat)) (bp : list axi4_aw_if_t)
    (arq : list axi4_ar_if_t) (awq : list axi4_aw_if_t) (wq : list axi4_w_if_t) (rq : list axi4_r_if_t) (bq : list axi4_b_if_t) : Prop := {
  sv_reads : hs_ar h ≫= rd_beats = reads_of 0 log ++ rd_left rdq ++ (arq ≫= rd_beats);
  sv_writes : hs_aw h ≫= wr_beats = (writes_of 0 log).*1 ++ wr_left wrq ++ (awq ≫= wr_beats);
  sv_w : hs_w h = (writes_of 0 log).*2 ++ wq;
  sv_lasts : lasts_ok h;
  sv_r : hs_r h ++ rq = answers 0 V0 log;
  sv_b : hs_b h ++ bq ++ (ack_of <$> bp) = acks (writes_of 0 log);
  sv_ok : Forall (fun x => rd_ok base size x.1 /\ Z.of_nat x.2 <= ar_len x.1) rdq /\ Forall (fun x => wr_ok base size x.1 /\ Z.of_nat x.2 <= aw_len x.1) wrq /\
    Forall (rd_ok base size) arq /\ Forall (wr_ok base size) awq
}.

Lemma rd_left_app q1 q2 : rd_left (q1 ++ q2) = rd_left q1 ++ rd_left q2.
Proof. unfold rd_left. apply bind_app. Qed.
Lemma wr_left_app q1 q2 : wr_left (q1 ++ q2) = wr_left q1 ++ wr_left q2.
Proof. unfold wr_left. apply bind_app. Qed.

Lemma srv_ar log h rdq wrq bp ar arq awq wq rq bq : srv log h rdq wrq bp (ar :: arq) awq wq rq bq -> srv log h (rdq ++ [(ar, 0%nat)]) wrq bp arq awq wq rq bq.
Proof.
  intros []. destruct sv_ok0 as (O1 & O2 & O3 & O4). apply Forall_cons in O3 as [O3 O5]. split; try done.
  - rewrite sv_reads0, rd_left_app. cbn. by rewrite app_nil_r, <- !app_assoc.
  - split_and!; try done. apply Forall_app. split; [done|]. constructor; [|done]. split; [done|]. pose proof (rk_len _ _ _ O3). simpl. lia.
Qed.

Lemma srv_aw log h rdq wrq bp aw arq awq wq rq bq : srv log h rdq wrq bp arq (aw :: awq) wq rq bq -> srv log h rdq (wrq ++ [(aw, 0%nat)]) bp arq awq wq rq bq.
Proof.
  intros []. destruct sv_ok0 as (O1 & O2 & O3 & O4). apply Forall_cons in O4 as [O4 O5]. split; try done.
  - rewrite sv_writes0, wr_left_app. cbn. by rewrite app_nil_r, <- !app_assoc.
  - split_and!; try done. apply Forall_app. split; [done|]. constructor; [|done]. split; [done|]. pose proof (wk_len _ _ _ O4). simpl. lia.
Qed.

Lemma srv_b log h rdq wrq aw bp arq awq wq rq bq : srv log h rdq wrq (aw :: bp) arq awq wq rq bq -> srv log h rdq wrq bp arq awq wq rq (bq ++ [ack_of aw]).
Proof. intros []. split; try done. by rewrite <- sv_b0, <- !app_assoc. Qed.

Lemma srv_r log h ar k rest wrq bp arq awq wq rq bq : srv log h ((ar, k) :: rest) wrq bp arq awq wq rq bq ->
  srv (log ++ [EvRead 0 ar k]) h (if Z.of_nat k =? ar_len ar then rest else (ar, S k) :: rest) wrq bp arq awq wq
    (rq ++ [read_beat (run_mem V0 log) ar k]) bq.
Proof.
  intros []. destruct sv_ok0 as (O1 & O2 & O3 & O4). apply Forall_cons in O1 as [[O1 O1'] O5]. cbn [fst snd] in O1, O1'. pose proof (rk_len _ _ _ O1).
  assert (rd_beats ar = pair ar <$> seq 0 (Z.to_nat (ar_len ar + 1))) as Eb by (unfold rd_beats; by rewrite (rk_user _ _ _ O1)).
  unfold rd_left in sv_reads0. cbn [mbind list_bind fst snd] in sv_reads0. rewrite Eb, drop_pairs in sv_reads0 by lia.
  split; rewrite ?reads_snoc, ?writes_snoc, ?answers_snoc, ?app_nil_r; try done.
  - change (0 =? 0) with true. cbv iota. rewrite sv_reads0, <- !app_assoc. cbn [app]. do 2 f_equal. destruct (Z.eqb_spec (Z.of_nat k) (ar_len ar)).
    + by rewrite drop_pairs_end by lia.
    + unfold rd_left. cbn [mbind list_bind fst snd]. by rewrite Eb, <- app_assoc.
  - change (0 =? 0) with true. cbv iota. rewrite app_assoc, sv_r0. f_equal. unfold ev_rsp. by rewrite (rk_user _ _ _ O1).
  - split_and!; try done. destruct (Z.eqb_spec (Z.of_nat k) (ar_len ar)); [done|]. constructor; [|done]. split; [done|]. simpl. lia.
Qed.

Lemma srv_last log h rdq aw k rest bp arq awq w wq rq bq : srv log h rdq ((aw, k) :: rest) bp arq awq (w :: wq) rq bq ->
  w_last w = (Z.of_nat k =? aw_len aw).
Proof.
  intros []. destruct sv_ok0 as (_ & O2 & _). apply Forall_cons in O2 as [[O2 O2'] _]. cbn [fst snd] in O2, O2'. pose proof (wk_len _ _ _ O2). destruct sv_lasts0 as [_ Hl].
  unfold wr_left in sv_writes0. cbn [mbind list_bind fst snd] in sv_writes0. unfold wr_beats in sv_writes0 at 2. rewrite drop_pairs in sv_writes0 by lia.
  apply (Hl (length (writes_of 0 log)) (aw, k)).
  - rewrite sv_writes0, lookup_app_r, length_fmap, Nat.sub_diag by (by rewrite length_fmap). done.
  - rewrite sv_w0, lookup_app_r, length_fmap, Nat.sub_diag by (by rewrite length_fmap). done.
Qed.

Lemma srv_wr log h rdq aw k rest bp arq awq w wq rq bq : srv log h rdq ((aw, k) :: rest) bp arq awq (w :: wq) rq bq ->
  srv (log ++ [EvWrite 0 aw k w]) h rdq (if Z.of_nat k =? aw_len aw then rest else (aw, S k) :: rest)
    (bp ++ if Z.of_nat k =? aw_len aw then [aw] else []) arq awq wq rq bq.
Proof.
  intros []. destruct sv_ok0 as (O1 & O2 & O3 & O4). apply Forall_cons in O2 as [[O2 O2'] O5]. cbn [fst snd] in O2, O2'. pose proof (wk_len _ _ _ O2).
  unfold wr_left in sv_writes0. cbn [mbind list_bind fst snd] in sv_writes0. unfold wr_beats in sv_writes0 at 2. rewrite drop_pairs in sv_writes0 by lia.
  split; rewrite ?reads_snoc, ?writes_snoc, ?answers_snoc, ?fmap_app, ?app_nil_r; try done.
  - rewrite sv_writes0, <- !app_assoc. cbn. do 2 f_equal. destruct (Z.eqb_spec (Z.of_nat k) (aw_len aw)).
    + by rewrite drop_pairs_end by lia.
    + unfold wr_left. cbn [mbind list_bind fst snd]. unfold wr_beats at 2. by rewrite <- app_assoc.
  - by rewrite sv_w0, <- app_assoc.
  - unfold acks in *. rewrite bind_app, <- sv_b0. change (0 =? 0) with true. cbn. destruct (Z.of_nat k =? aw_len aw); cbn; by rewrite ?app_nil_r, <- ?app_assoc.
  - split_and!; try done. destruct (Z.eqb_spec (Z.of_nat k) (aw_len aw)); [done|]. constructor; [|done]. split; [done|]. simpl. lia.
Qed.
End server.

(** ** The bytes *)

Record bytes_ok (m : ram_t) (V : Z -> Z) : Prop := {
  by_size : 0 <= rm_base_addr m /\ 0 < rm_size m < W32 /\ rm_base_addr m + rm_size m <= W32 /\ rm_size m <= Z.of_nat (length (rm_data m));
  by_data : forall o, 0 <= o < rm_size m -> aget (rm_data m) o = Some (V (rm_base_addr m + o))
}.

Lemma bytes_keep m m' V : (rm_base_addr m', rm_size m', rm_data m') = (rm_base_addr m, rm_size m, rm_data m) -> bytes_ok m V -> bytes_ok m' V.
Proof. intros E []. injection E as E1 E2 E3. split; by rewrite E1, E2, E3. Qed.

Ltac keepb H := eapply bytes_keep; [|exact H]; reflexivity.

Lemma word_fits m V o : bytes_ok m V -> 0 <= o -> o + 4 <= rm_size m -> ram_bad m o 4 = false.
Proof. intros [(H1 & H2 & H3 & H4) _] Ho He. unfold ram_bad. rewrite u32_small by (unfold is_u32; lia). destruct (Z.leb_spec (rm_size m) o), (Z.ltb_spec (rm_size m - o) 4); done || lia. Qed.

Lemma copy_word m V o : bytes_ok m V -> 0 <= o -> o + 4 <= rm_size m -> copy_out (rm_data m) o 4 = Some (load V (rm_base_addr m + o) 4).
Proof.
  intros [_ Hd] Ho He. cbn [copy_out]. rewrite (Hd o), (Hd (o + 1)), (Hd (o + 1 + 1)), (Hd (o + 1 + 1 + 1)) by lia. cbn. f_equal. cbn [load].
  change (Z.of_nat 0) with 0. change (Z.of_nat 1) with 1. change (Z.of_nat 2) with 2. change (Z.of_nat 3) with 3.
  change (256 ^ 0) with 1. change (256 ^ 1) with 256. change (256 ^ 2) with 65536. change (256 ^ 3) with 16777216.
  replace (rm_base_addr m + (o + 1)) with (rm_base_addr m + o + 1) by lia. replace (rm_base_addr m + (o + 1 + 1)) with (rm_base_addr m + o + 2) by lia.
  replace (rm_base_addr m + (o + 1 + 1 + 1)) with (rm_base_addr m + o + 3) by lia.
  replace (rm_base_addr m + o + 0) with (rm_base_addr m + o) by lia. generalize (V (rm_base_addr m + o)), (V (rm_base_addr m + o + 1)), (V (rm_base_addr m + o + 2)), (V (rm_base_addr m + o + 3)). lia.
Qed.

Lemma read_word m V o : bytes_ok m V -> 0 <= o -> o + 4 <= rm_size m -> ram_read m o 4 = Some (Some (load V (rm_base_addr m + o) 4)).
Proof. intros H Ho He. unfold ram_read. rewrite (word_fits _ _ _ H Ho He). change (Z.to_nat 4) with 4%nat. by rewrite (copy_word _ _ _ H Ho He). Qed.

(** The bytes the loop has not reached yet keep their value. *)
Lemma wp_write_loop (d : list Z) addr data strb k n i Q : 0 <= addr -> 0 <= i -> i + Z.of_nat n = k -> k <= 4 -> addr + k <= Z.of_nat (length d) ->
  (forall d', length d' = length d ->
     (forall o, aget d' o = if (addr + i <=? o) && (o <? addr + k) && Z.testbit strb (o - addr) then Some (word_byte data (o - addr)) else aget d o) -> Q tt d') ->
  wp (write_loop addr data strb n i) Q d.
Proof.
  revert i d. induction n as [|n IH]; intros i d Ha Hi Hn Hk Hl HQ; cbn [write_loop].
  { apply wp_ret, HQ; [done|]. intros o. destruct (Z.leb_spec (addr + i) o), (Z.ltb_spec o (addr + k)); simpl; try done; lia. }
  rewrite u32_small by (rewrite Z.shiftl_1_l; assert (i = 0 \/ i = 1 \/ i = 2 \/ i = 3) as [->|[->|[->| ->]]] by lia; unfold is_u32, W32; cbn; lia).
  rewrite nz_testbit by lia. apply wp_bind.
  assert (forall d1, length d1 = length d -> (forall o, aget d1 o = if (o =? addr + i) && Z.testbit strb i then Some (word_byte data i) else aget d o) ->
    wp (write_loop addr data strb n (i + 1)) Q d1) as Hgo.
  { intros d1 L1 E1. apply IH; [done|lia|lia|lia|lia|]. intros d' L' E'. apply HQ; [lia|]. intros o. rewrite E', E1.
    destruct (Z.eqb_spec o (addr + i)) as [->|]; simpl.
    - rewrite (proj2 (Z.leb_gt (addr + (i + 1)) (addr + i))), (proj2 (Z.leb_le (addr + i) (addr + i))), (proj2 (Z.ltb_lt (addr + i) (addr + k))) by lia.
      simpl. by replace (addr + i - addr) with i by lia.
    - destruct (Z.leb_spec (addr + (i + 1)) o), (Z.leb_spec (addr + i) o); try done; lia. }
  destruct (Z.testbit strb i) eqn:Et; cbn [when].
  - apply wp_put_elem; [lia|]. apply Hgo; [by rewrite length_insert|]. intros o. rewrite aget_insert by lia.
    destruct (o =? addr + i); [|done]. simpl. f_equal. by apply word_byte_u8.
  - apply wp_ret, Hgo; [done|]. intros o. by rewrite andb_false_r.
Qed.

Lemma wp_write_word m V o w Q : bytes_ok m V -> 0 <= o -> o + 4 <= rm_size m ->
  (forall d, bytes_ok (m <| rm_data := d |>) (put_word V (rm_base_addr m + o) w) -> Q true (m <| rm_data := d |>)) ->
  wp (ram_write o 4 (w_data w) (w_strb w)) Q m.
Proof.
  intros H Ho He HQ. apply wp_bind, wp_gets. unfold id. rewrite (word_fits _ _ _ H Ho He). destruct H as [(H1 & H2 & H3 & H4) Hd].
  apply wp_bind, wp_on. change (Z.to_nat 4) with 4%nat. apply (wp_write_loop _ _ _ _ 4); [lia|lia|lia|lia|lia|]. intros d' L E. apply wp_ret, HQ. split.
  - upd_proj. rewrite L. done.
  - upd_proj. intros x Hx. rewrite E, (Hd x Hx). unfold put_word. cbv zeta. replace (rm_base_addr m + x - (rm_base_addr m + o)) with (x - o) by lia.
    destruct (Z.leb_spec (o + 0) x), (Z.leb_spec 0 (x - o)), (Z.ltb_spec x (o + 4)), (Z.ltb_spec (x - o) 4); try lia; simpl; try done.
    by destruct (Z.testbit _ _).
Qed.

(** ** Bounds *)

(** An access of [n] bytes at offset [addr] lies inside the memory. *)
Definition access_fits (size addr n : Z) : bool := (n <=? 4) && (addr <? size) && (addr + n <=? size).

Lemma ram_bad_fits m addr n : 0 < rm_size m < W32 -> is_u32 addr -> ram_bad m addr n = negb (access_fits (rm_size m) addr n).
Proof.
  intros Hs Ha. unfold ram_bad, access_fits. destruct (Z.leb_spec n 4), (Z.ltb_spec 4 n); try lia; simpl; try done.
  destruct (Z.ltb_spec addr (rm_size m)), (Z.leb_spec (rm_size m) addr); try lia; simpl; try done.
  rewrite u32_small by (unfold is_u32 in *; lia).
  destruct (Z.leb_spec (addr + n) (rm_size m)), (Z.ltb_spec (rm_size m - addr) n); done || lia.
Qed.

Lemma load_front V a n : load V a (S n) = V a + 256 * load V (a + 1) n.
Proof.
  induction n as [|n IH].
  - cbn [load]. change (Z.of_nat 0) with 0. replace (a + 0) with a by lia. change (256 ^ 0) with 1. lia.
  - change (load V a (S (S n))) with (load V a (S n) + V (a + Z.of_nat (S n)) * 256 ^ Z.of_nat (S n)).
    change (load V (a + 1) (S n)) with (load V (a + 1) n + V (a + 1 + Z.of_nat n) * 256 ^ Z.of_nat n). rewrite IH.
    replace (a + 1 + Z.of_nat n) with (a + Z.of_nat (S n)) by lia.
    replace (256 ^ Z.of_nat (S n)) with (256 * 256 ^ Z.of_nat n) by (rewrite <- Z.pow_succ_r by lia; f_equal; lia). lia.
Qed.

Lemma copy_out_load d addr n : 0 <= addr -> addr + Z.of_nat n <= Z.of_nat (length d) ->
  copy_out d addr n = Some (load (fun o => default 0 (aget d o)) addr n).
Proof.
  revert addr. induction n as [|n IH]; intros addr Ha Hl; [done|]. rewrite load_front. cbn [copy_out].
  rewrite (aget_lookup d addr) by lia. destruct (lookup_lt_is_Some_2 d (Z.to_nat addr) ltac:(lia)) as [b ->].
  rewrite (IH (addr + 1)) by lia. done.
Qed.

(** C37: Every access of a memory of nonzero size below 2^32, of any number of bytes at any 32-bit
    offset, is inside it or refused.  A read returns the bytes, least significant first, exactly when there are at most four of them,
    all inside the memory, and is refused otherwise; a write says by its result whether it was done,
    changes exactly the bytes that it names and whose strobe is set, and none when it is refused;
    neither ever indexes outside the memory block. *)
Theorem ram_access_bounds m addr n data strb :
  0 < rm_size m < W32 -> rm_size m <= Z.of_nat (length (rm_data m)) -> is_u32 addr -> 0 <= n ->
  let fits := access_fits (rm_size m) addr n in
  ram_read m addr n =
    Some (if fits then Some (load (fun o => default 0 (aget (rm_data m) o)) addr (Z.to_nat n)) else None) /\
  exists d, ram_write addr n data strb m = Some (fits, m <| rm_data := d |>) /\ length d = length (rm_data m) /\
    forall o, aget d o =
      if fits && (addr <=? o) && (o <? addr + n) && Z.testbit strb (o - addr) then Some (word_byte data (o - addr))
      else aget (rm_data m) o.
Proof.
  intros Hs Hl Ha Hn fits. unfold ram_read. rewrite ram_bad_fits by done. fold fits.
  enough (wp (ram_write addr n data strb) (fun b m' => b = fits /\ exists d, m' = m <| rm_data := d |> /\ length d = length (rm_data m) /\
    forall o, aget d o = if fits && (addr <=? o) && (o <? addr + n) && Z.testbit strb (o - addr) then Some (word_byte data (o - addr))
      else aget (rm_data m) o) m) as Hw.
  { destruct (wp_elim _ _ _ Hw) as (b & m' & E & -> & d & -> & Hd). split; [|by exists d].
    destruct fits eqn:Ef; cbn [negb]; [|done]. unfold fits, access_fits in Ef.
    rewrite copy_out_load by (unfold is_u32 in *; lia). done. }
  unfold ram_write. apply wp_bind, wp_gets. unfold id. rewrite ram_bad_fits by done. fold fits. destruct fits eqn:Ef; cbn [negb].
  - unfold fits, access_fits in Ef. apply wp_bind, wp_on. apply (wp_write_loop _ _ _ _ n); [unfold is_u32 in *; lia..|].
    intros d' L E. apply wp_ret. split; [done|]. exists d'. split; [done|]. split; [done|]. intros o. rewrite E.
    replace (addr + 0) with addr by lia. done.
  - apply wp_ret. split; [done|]. exists (rm_data m). by destruct m.
Qed.

(** ** The registers without latency *)

Definition rd_regs (m : ram_t) (x : axi4_ar_if_t * nat) : Prop :=
  rm_rd_burst_addr m = ar_addr x.1 - rm_base_addr m + 4 * Z.of_nat x.2 /\
  (rm_rd_burst_id m, rm_rd_burst_len m, rm_rd_burst_size m, rm_rd_burst_type m, rm_rd_burst_cnt m) =
    (ar_id x.1, ar_len x.1, ar_size x.1, ar_burst x.1, Z.of_nat x.2).
Definition wr_regs (m : ram_t) (x : axi4_aw_if_t * nat) : Prop :=
  rm_wr_burst_addr m = aw_addr x.1 - rm_base_addr m + 4 * Z.of_nat x.2 /\
  (rm_wr_burst_id m, rm_wr_burst_len m, rm_wr_burst_size m, rm_wr_burst_type m, rm_wr_burst_cnt m) =
    (aw_id x.1, aw_len x.1, aw_size x.1, aw_burst x.1, Z.of_nat x.2).

Definition fast_rd (m : ram_t) (rdq : list (axi4_ar_if_t * nat)) : Prop :=
  if rm_rd_active m then exists x, rdq = [x] /\ rd_regs m x else rdq = [].
Definition fast_wr (m : ram_t) (wrq : list (axi4_aw_if_t * nat)) (bp : list axi4_aw_if_t) : Prop :=
  if rm_wr_active m then rm_wr_b_pending m = false /\ bp = [] /\ exists x, wrq = [x] /\ wr_regs m x
  else wrq = [] /\ if rm_wr_b_pending m then exists aw, bp = [aw] /\ rm_wr_burst_id m = aw_id aw else bp = [].

(** ** The rings with a latency *)

(** The elements of [q] in the ring [es], the first one at [r]. *)
Record ring {E X} (R : E -> X -> Prop) (es : list E) (r : Z) (q : list X) : Prop := {
  rn_len : length es = 1024%nat;
  rn_ptr : 0 <= r < 1024;
  rn_num : (length q <= 1024)%nat;
  rn_at : forall i x, q !! i = Some x -> exists e, aget es ((r + Z.of_nat i) mod 1024) = Some e /\ R e x
}.

Lemma ring_ne r i j : 0 <= r < 1024 -> (i < 1024)%nat -> (j < 1024)%nat -> i <> j -> (r + Z.of_nat i) mod 1024 <> (r + Z.of_nat j) mod 1024.
Proof. intros. zdiv. Qed.

Section rings.
  Context {E X : Type} (R : E -> X -> Prop).

Lemma ring_snoc es r q e x : ring R es r q -> (length q < 1024)%nat -> R e x ->
  ring R (<[Z.to_nat ((r + Z.of_nat (length q)) mod 1024) := e]> es) r (q ++ [x]).
Proof.
  intros [H1 H2 H3 H4] Hq HR. assert (forall i, 0 <= (r + i) mod 1024 < 1024) as Hm by (intros; zdiv).
  split; [by rewrite length_insert|done|rewrite length_app; simpl; lia|]. intros i y Hy. rewrite aget_insert by (rewrite H1; apply Hm).
  destruct (decide (i < length q)%nat) as [Hi|Hi].
  - rewrite lookup_app_l in Hy by done. rewrite (proj2 (Z.eqb_neq _ _)); [by apply H4|]. apply ring_ne; lia.
  - rewrite lookup_app_r in Hy by lia. destruct (i - length q)%nat eqn:En; [|done]. injection Hy as <-. assert (i = length q) as -> by lia.
    rewrite Z.eqb_refl. by exists e.
Qed.

Lemma ring_pop es r x q : ring R es r (x :: q) -> ring R es ((r + 1) mod 1024) q.
Proof.
  intros [H1 H2 H3 H4]. simpl in H3. split; [done|zdiv|lia|]. intros i y Hy. destruct (H4 (S i) y Hy) as (e & He & HR). exists e. split; [|done].
  rewrite <- He. f_equal. zdiv.
Qed.

Lemma ring_set es r q i e x : ring R es r q -> (i < length q)%nat -> R e x -> ring R (<[Z.to_nat ((r + Z.of_nat i) mod 1024) := e]> es) r (<[i := x]> q).
Proof.
  intros [H1 H2 H3 H4] Hi HR. assert (forall i, 0 <= (r + i) mod 1024 < 1024) as Hm by (intros; zdiv).
  split; [by rewrite length_insert|done|by rewrite length_insert|]. intros j y Hy. rewrite aget_insert by (rewrite H1; apply Hm).
  destruct (decide (j = i)) as [->|Hne].
  - rewrite list_lookup_insert_eq in Hy by done. injection Hy as <-. rewrite Z.eqb_refl. by exists e.
  - rewrite list_lookup_insert_ne in Hy by done. rewrite (proj2 (Z.eqb_neq _ _)); [by apply H4|]. apply lookup_lt_Some in Hy. apply ring_ne; lia.
Qed.

Lemma ring_get es r q i x : ring R es r q -> q !! i = Some x -> exists e, aget es ((r + Z.of_nat i) mod 1024) = Some e /\ R e x.
Proof. intros H. apply H. Qed.
End rings.

(** An entry and the burst it stands for. *)
Record rd_entry (base : Z) (e : ram_axi_rd_entry_t) (x : axi4_ar_if_t * nat) : Prop := {
  ren_addr : re_addr e = ar_addr x.1 - base + 4 * Z.of_nat x.2;
  ren_rest : (re_id e, re_len e, re_size e, re_burst e, re_beat_cnt e) = (ar_id x.1, ar_len x.1, ar_size x.1, ar_burst x.1, Z.of_nat x.2)
}.
(** A burst whose data is in, or one that has got [k] beats. *)
Definition wr_entry (base : Z) (e : ram_axi_wr_entry_t) (x : axi4_aw_if_t * option nat) : Prop :=
  we_id e = aw_id x.1 /\ match x.2 with
  | None => we_w_done e = true
  | Some k => we_w_done e = false /\ we_addr e = aw_addr x.1 - base + 4 * Z.of_nat k /\
      (we_len e, we_size e, we_burst e, we_beat_cnt e) = (aw_len x.1, aw_size x.1, aw_burst x.1, Z.of_nat k)
  end.

Definition wr_ring (wrq : list (axi4_aw_if_t * nat)) (bp : list axi4_aw_if_t) : list (axi4_aw_if_t * option nat) :=
  ((fun aw => (aw, None)) <$> bp) ++ ((fun x => (x.1, Some x.2)) <$> wrq).

Definition slow_rd (m : ram_t) (rdq : list (axi4_ar_if_t * nat)) : Prop :=
  ring (rd_entry (rm_base_addr m)) (rm_axi_rd_entries m) (rm_axi_rd_rptr m) rdq /\
  rm_axi_rd_wptr m = (rm_axi_rd_rptr m + Z.of_nat (length rdq)) mod 1024 /\ rm_axi_rd_count m = Z.of_nat (length rdq).
Definition slow_wr (m : ram_t) (wrq : list (axi4_aw_if_t * nat)) (bp : list axi4_aw_if_t) : Prop :=
  ring (wr_entry (rm_base_addr m)) (rm_axi_wr_entries m) (rm_axi_wr_rptr m) (wr_ring wrq bp) /\
  rm_axi_wr_wptr m = (rm_axi_wr_rptr m + Z.of_nat (length bp + length wrq)) mod 1024 /\
  rm_axi_wr_count m = Z.of_nat (length bp + length wrq) /\ rm_axi_wr_need_w_count m = Z.of_nat (length wrq) /\
  (wrq <> [] -> rm_axi_wr_data_rptr m = (rm_axi_wr_rptr m + Z.of_nat (length bp)) mod 1024).

(** ** The invariant *)

Record ram_inv (V0 : Z -> Z) (h : port_hist) (m : ram_t) (log : list axi_event) : Prop := {
  ri_mode : rm_mode m = RAM_MODE_AXI;
  ri_bytes : bytes_ok m (run_mem V0 log);
  ri_out : chan_wf (rm_axi4_r_mst m) /\ chan_wf (rm_axi4_b_mst m);
  ri_srv : exists rdq wrq bp, srv (rm_base_addr m) (rm_size m) V0 log h rdq wrq bp (ch_pkts (rm_axi4_ar_slv m)) (ch_pkts (rm_axi4_aw_slv m))
      (ch_pkts (rm_axi4_w_slv m)) (ch_pkts (rm_axi4_r_mst m)) (ch_pkts (rm_axi4_b_mst m)) /\
    if rm_latency m =? 0 then fast_rd m rdq /\ fast_wr m wrq bp else slow_rd m rdq /\ slow_wr m wrq bp
}.

Definition ram_some (V0 : Z -> Z) (h : port_hist) (log0 : list axi_event) (m : ram_t) : Prop := exists log, log0 `prefix_of` log /\ ram_inv V0 h m log.

(** Addresses of beats. *)
Lemma rd_beat_at base size ar k : 0 <= base -> size < W32 -> rd_ok base size ar -> Z.of_nat k <= ar_len ar ->
  let o := ar_addr ar - base + 4 * Z.of_nat k in 0 <= o /\ o + 4 <= size /\ u32 (ar_addr ar - base) = ar_addr ar - base /\
  (Z.of_nat k <> ar_len ar -> axi_burst_next_addr o (ar_burst ar) (ar_size ar) = ar_addr ar - base + 4 * Z.of_nat (S k) /\ u8 (Z.of_nat k + 1) = Z.of_nat (S k)).
Proof.
  intros Hb Hs [Hl [Hr1 Hr2] [-> ->] _] Hk o. split; [lia|]. split; [lia|]. split; [apply u32_small; unfold is_u32; lia|]. intros Hne.
  unfold axi_burst_next_addr. change (AXI4_BURST_INCR =? AXI4_BURST_FIXED) with false. cbv zeta iota. change (u32 (Z.shiftl 1 AXI4_SIZE_B4)) with 4.
  split; [rewrite u32_small; [lia|unfold is_u32; lia]|]. unfold u8. rewrite Z.mod_small; lia.
Qed.

Lemma wr_beat_at base size aw k : 0 <= base -> size < W32 -> wr_ok base size aw -> Z.of_nat k <= aw_len aw ->
  let o := aw_addr aw - base + 4 * Z.of_nat k in 0 <= o /\ o + 4 <= size /\ u32 (aw_addr aw - base) = aw_addr aw - base /\
  (Z.of_nat k <> aw_len aw -> axi_burst_next_addr o (aw_burst aw) (aw_size aw) = aw_addr aw - base + 4 * Z.of_nat (S k) /\ u8 (Z.of_nat k + 1) = Z.of_nat (S k)).
Proof.
  intros Hb Hs [Hl [Hr1 Hr2] [-> ->]] Hk o. split; [lia|]. split; [lia|]. split; [apply u32_small; unfold is_u32; lia|]. intros Hne.
  unfold axi_burst_next_addr. change (AXI4_BURST_INCR =? AXI4_BURST_FIXED) with false. cbv zeta iota. change (u32 (Z.shiftl 1 AXI4_SIZE_B4)) with 4.
  split; [rewrite u32_small; [lia|unfold is_u32; lia]|]. unfold u8. rewrite Z.mod_small; lia.
Qed.

Section fast.
  Context (V0 : Z -> Z) (h : port_hist) (log0 : list axi_event).
Abbreviation good m := (ram_some V0 h log0 m /\ rm_latency m = 0).

Ltac fopen := intros [Hsome Hlat]; pose proof Hsome as (log & Hpre & [Hmode Hb [W1 W2] (rdq & wrq & bp & Hs & Hreg)]); rewrite Hlat in Hreg; cbn in Hreg;
  destruct Hreg as [Hrd Hwr]; apply wp_bind, wp_gets; unfold id.

Lemma fast_b m : good m -> wp ram_fast_proc_axi_b (fun _ m' => good m') m.
Proof.
  fopen. destruct (rm_wr_b_pending m) eqn:Ep; cbn [negb orb]; [|by apply wp_ret]. destruct (chan_full _) eqn:Ef; [by apply wp_ret|].
  unfold fast_wr in Hwr. rewrite Ep in Hwr. destruct (rm_wr_active m) eqn:Ea; [by destruct Hwr|]. destruct Hwr as (-> & aw & -> & Hid).
  apply wp_bind, wp_on_write; [done..|]. intros Hw. apply wp_modify. split; [|done]. exists log. split; [done|]. split; [done|keepb Hb|done|].
  exists rdq, [], []. split; [|upd_proj; rewrite Hlat; split; [exact Hrd|unfold fast_wr; upd_proj; by rewrite Ea]].
  upd_proj. rewrite chan_snoc_pkts, Hid. by apply srv_b.
Qed.

Lemma fast_r m : good m -> wp ram_fast_proc_axi_r (fun _ m' => good m') m.
Proof.
  fopen. destruct (rm_rd_active m) eqn:Ea; cbn [negb orb]; [|by apply wp_ret]. destruct (chan_full _) eqn:Ef; [by apply wp_ret|].
  unfold fast_rd in Hrd. rewrite Ea in Hrd. destruct Hrd as ([ar k] & -> & [Haddr Hr]). cbn [fst snd] in *. injection Hr as R1 R2 R3 R4 R5.
  pose proof (sv_ok _ _ _ _ _ _ _ _ _ _ _ _ _ Hs) as (Ok & _). apply Forall_cons in Ok as [[Ok Hk] _]. cbn [fst snd] in Ok, Hk.
  destruct (by_size _ _ Hb) as (B1 & B2 & B3 & B4). destruct (rd_beat_at _ _ _ _ B1 (proj2 B2) Ok Hk) as (O1 & O2 & _ & Onext).
  rewrite R3, (proj1 (rk_kind _ _ _ Ok)). change (u32 (Z.shiftl 1 AXI4_SIZE_B4)) with 4. rewrite Haddr, (read_word _ _ _ Hb O1 O2). apply wp_bind, wp_ret.
  cbn [default from_option]. apply wp_bind, wp_on_write; [done..|]. intros Hw. rewrite R1, R2, R5 in *. apply srv_r in Hs. unfold read_beat in Hs.
  replace (rm_base_addr m + (ar_addr ar - rm_base_addr m + 4 * Z.of_nat k)) with (ar_addr ar + 4 * Z.of_nat k) in * by lia.
  set (r := AxiR _ _ _ _) in *. destruct (Z.eqb_spec (Z.of_nat k) (ar_len ar)) as [El|Hne].
  - apply wp_modify. split; [|done]. exists (log ++ [EvRead 0 ar k]). split; [by apply prefix_app_r|]. split; [done|rewrite run_mem_snoc; keepb Hb|done|].
    exists [], wrq, bp. split; [upd_proj; by rewrite chan_snoc_pkts|]. upd_proj. rewrite Hlat. split; [done|exact Hwr].
  - destruct (Onext Hne) as [N1 N2]. apply wp_modify. split; [|done]. exists (log ++ [EvRead 0 ar k]). split; [by apply prefix_app_r|].
    split; [done|rewrite run_mem_snoc; keepb Hb|done|].
    exists [(ar, S k)], wrq, bp. split; [upd_proj; by rewrite chan_snoc_pkts|]. upd_proj. rewrite Hlat. split; [|exact Hwr].
    unfold fast_rd. upd_proj. rewrite Ea. eexists. split; [done|]. split; upd_proj; [|by rewrite R1, R2, R3, R4, R5, N2].
    rewrite Haddr, R3, R4. exact N1.
Qed.

Lemma fast_w m : good m -> wp ram_fast_proc_axi_w (fun _ m' => good m') m.
Proof.
  fopen. destruct (rm_wr_active m) eqn:Ea; cbn [negb orb]; [|by apply wp_ret]. destruct (chan_empty _) eqn:Ee; [by apply wp_ret|].
  destruct (chan_empty_false _ Ee) as (w & ws & Ew). unfold fast_wr in Hwr. rewrite Ea in Hwr. destruct Hwr as (Ep & -> & [aw k] & -> & [Haddr Hr]).
  cbn [fst snd] in *. injection Hr as R1 R2 R3 R4 R5. rewrite Ew in Hs.
  pose proof (sv_ok _ _ _ _ _ _ _ _ _ _ _ _ _ Hs) as (_ & Ok & _). apply Forall_cons in Ok as [[Ok Hk] _]. cbn [fst snd] in Ok, Hk.
  destruct (by_size _ _ Hb) as (B1 & B2 & B3 & B4). destruct (wr_beat_at _ _ _ _ B1 (proj2 B2) Ok Hk) as (O1 & O2 & _ & Onext).
  apply wp_bind. eapply wp_on_front; [done|by destruct m|]. rewrite Ep, andb_false_r. rewrite R2, R5, (srv_last _ _ _ _ _ _ _ _ _ _ _ _ _ _ _ _ Hs), orb_diag.
  apply wp_bind. eapply wp_on_read; [done|]. cbv zeta. rewrite R3, (proj1 (wk_kind _ _ _ Ok)). change (u32 (Z.shiftl 1 AXI4_SIZE_B4)) with 4. rewrite Haddr.
  set (m1 := upd rm_axi4_w_slv _ m). assert (bytes_ok m1 (run_mem V0 log)) as Hb1 by (keepb Hb). apply wp_bind.
  eapply (wp_write_word m1); [exact Hb1|done|done|]. intros d Hd. apply srv_wr in Hs. change (rm_base_addr m1) with (rm_base_addr m) in Hd.
  replace (rm_base_addr m + (aw_addr aw - rm_base_addr m + 4 * Z.of_nat k)) with (aw_addr aw + 4 * Z.of_nat k) in Hd by lia.
  destruct (Z.eqb_spec (Z.of_nat k) (aw_len aw)) as [El|Hne].
  - apply wp_modify. split; [|done]. exists (log ++ [EvWrite 0 aw k w]). split; [by apply prefix_app_r|]. split; [done|rewrite run_mem_snoc; keepb Hd|done|].
    exists rdq, [], [aw]. split; [exact Hs|]. upd_proj. change (rm_latency m1) with (rm_latency m). rewrite Hlat. split; [exact Hrd|]. unfold fast_wr. upd_proj.
    split; [done|]. by exists aw.
  - destruct (Onext Hne) as [N1 N2]. apply wp_modify. split; [|done]. exists (log ++ [EvWrite 0 aw k w]). split; [by apply prefix_app_r|].
    split; [done|rewrite run_mem_snoc; keepb Hd|done|]. exists rdq, [(aw, S k)], []. split; [exact Hs|]. upd_proj. change (rm_latency m1) with (rm_latency m).
    rewrite Hlat. split; [exact Hrd|]. unfold fast_wr. upd_proj. change (rm_wr_active m1) with (rm_wr_active m). rewrite Ea.
    split; [exact Ep|]. split; [done|]. eexists. split; [done|]. split; unfold m1; upd_proj; [|by rewrite R1, R2, R3, R4, R5, N2]. rewrite Haddr, R3, R4. exact N1.
Qed.
Lemma fast_aw m : good m -> wp ram_fast_proc_axi_aw (fun _ m' => good m') m.
Proof.
  fopen. destruct (rm_wr_active m) eqn:Ea; cbn [orb]; [by apply wp_ret|]. destruct (rm_wr_b_pending m) eqn:Ep; cbn [orb]; [by apply wp_ret|].
  destruct (chan_empty _) eqn:Ee; [by apply wp_ret|]. destruct (chan_empty_false _ Ee) as (aw & r & Ex). unfold fast_wr in Hwr. rewrite Ea, Ep in Hwr.
  destruct Hwr as [-> ->]. rewrite Ex in Hs. pose proof (sv_ok _ _ _ _ _ _ _ _ _ _ _ _ _ Hs) as (_ & _ & _ & Ok). apply Forall_cons in Ok as [Ok _].
  destruct (by_size _ _ Hb) as (B1 & B2 & B3 & B4). destruct (wr_beat_at _ _ _ 0 B1 (proj2 B2) Ok) as (_ & _ & Eo & _); [pose proof (wk_len _ _ _ Ok); lia|].
  apply wp_bind. eapply wp_on_read; [done|]. apply wp_bind, wp_check; [pose proof (wk_range _ _ _ Ok); lia|]. apply wp_modify. split; [|done].
  exists log. split; [done|]. split; [done|keepb Hb|done|]. exists rdq, [(aw, 0%nat)], []. split; [exact (srv_aw _ _ _ _ _ _ _ _ _ _ _ _ _ _ Hs)|].
  upd_proj. rewrite Hlat. split; [exact Hrd|]. unfold fast_wr. upd_proj. split; [done|]. split; [done|]. eexists. split; [done|].
  split; upd_proj; [|done]. rewrite Eo. cbn. lia.
Qed.

Lemma fast_ar m : good m -> wp ram_fast_proc_axi_ar (fun _ m' => good m') m.
Proof.
  fopen. destruct (rm_rd_active m) eqn:Ea; cbn [orb]; [by apply wp_ret|].
  destruct (chan_empty _) eqn:Ee; [by apply wp_ret|]. destruct (chan_empty_false _ Ee) as (ar & r & Ex). unfold fast_rd in Hrd. rewrite Ea in Hrd. subst rdq.
  rewrite Ex in Hs. pose proof (sv_ok _ _ _ _ _ _ _ _ _ _ _ _ _ Hs) as (_ & _ & Ok & _). apply Forall_cons in Ok as [Ok _].
  destruct (by_size _ _ Hb) as (B1 & B2 & B3 & B4). destruct (rd_beat_at _ _ _ 0 B1 (proj2 B2) Ok) as (_ & _ & Eo & _); [pose proof (rk_len _ _ _ Ok); lia|].
  apply wp_bind. eapply wp_on_read; [done|]. apply wp_bind, wp_check; [pose proof (rk_range _ _ _ Ok); lia|]. apply wp_modify. split; [|done].
  exists log. split; [done|]. split; [done|keepb Hb|done|]. exists [(ar, 0%nat)], wrq, bp. split; [exact (srv_ar _ _ _ _ _ _ _ _ _ _ _ _ _ _ Hs)|].
  upd_proj. rewrite Hlat. split; [|exact Hwr]. unfold fast_rd. upd_proj. eexists. split; [done|]. split; upd_proj; [|done]. rewrite Eo. cbn. lia.
Qed.

Lemma fast_ok m : good m -> wp ram_fast_proc_axi (fun _ m' => good m') m.
Proof.
  intros H. apply wp_bind. eapply wp_mono; [by apply fast_b|]. intros [] m1 H1. apply wp_bind. eapply wp_mono; [by apply fast_r|]. intros [] m2 H2.
  apply wp_bind. eapply wp_mono; [by apply fast_w|]. intros [] m3 H3. apply wp_bind. eapply wp_mono; [by apply fast_aw|]. intros [] m4 H4. by apply fast_ar.
Qed.
End fast.

(** ** Stages with a latency *)

Lemma fifo_next r i : 0 <= r < 1024 -> 0 <= i <= 1024 -> ram_fifo_next ((r + i) mod 1024) = (r + (i + 1)) mod 1024.
Proof. intros Hr Hi. unfold ram_fifo_next. change RAM_PENDING_DEPTH with 1024. rewrite u32_small by (unfold is_u32, W32; zdiv). zdiv. Qed.

Lemma fifo_next_ptr r : 0 <= r < 1024 -> ram_fifo_next r = (r + 1) mod 1024.
Proof. intros Hr. unfold ram_fifo_next. change RAM_PENDING_DEPTH with 1024. by rewrite u32_small by (unfold is_u32, W32; lia). Qed.

Lemma wr_ring_length wrq bp : length (wr_ring wrq bp) = (length bp + length wrq)%nat.
Proof. unfold wr_ring. by rewrite length_app, !length_fmap. Qed.

Lemma wr_ring_new wrq bp aw : wr_ring (wrq ++ [(aw, 0%nat)]) bp = wr_ring wrq bp ++ [(aw, Some 0%nat)].
Proof. unfold wr_ring. by rewrite fmap_app, app_assoc. Qed.

Lemma wr_ring_data aw k rest bp : wr_ring ((aw, k) :: rest) bp !! length bp = Some (aw, Some k).
Proof. unfold wr_ring. rewrite lookup_app_r, length_fmap, Nat.sub_diag by (by rewrite length_fmap). done. Qed.

Lemma wr_ring_beat aw k rest bp : <[length bp := (aw, Some (S k))]> (wr_ring ((aw, k) :: rest) bp) = wr_ring ((aw, S k) :: rest) bp.
Proof. unfold wr_ring. rewrite insert_app_r_alt, length_fmap, Nat.sub_diag by (by rewrite length_fmap). done. Qed.

Lemma wr_ring_last aw k rest bp : <[length bp := (aw, None)]> (wr_ring ((aw, k) :: rest) bp) = wr_ring rest (bp ++ [aw]).
Proof.
  unfold wr_ring. rewrite insert_app_r_alt, length_fmap, Nat.sub_diag by (by rewrite length_fmap). cbn. by rewrite fmap_app, <- app_assoc.
Qed.

Section slow.
  Context (V0 : Z -> Z) (h : port_hist) (log0 : list axi_event).
Abbreviation good m := (ram_some V0 h log0 m /\ (rm_latency m =? 0) = false).

Ltac sopen := intros [Hsome Hlat]; pose proof Hsome as (log & Hpre & [Hmode Hb [W1 W2] (rdq & wrq & bp & Hs & Hreg)]); rewrite Hlat in Hreg;
  destruct Hreg as [Hrd Hwr]; apply wp_bind, wp_gets; unfold id.

Lemma slow_ar m : good m -> wp ram_accept_axi_ar (fun _ m' => good m') m.
Proof.
  sopen. destruct (chan_empty _) eqn:Ee; [by apply wp_ret|]. destruct (chan_empty_false _ Ee) as (ar & r & Ex). destruct Hrd as (Hring & Hwp & Hct).
  destruct (Z.eqb_spec (rm_axi_rd_count m) RAM_PENDING_DEPTH) as [|Hn]; [by apply wp_ret|]. change RAM_PENDING_DEPTH with 1024 in Hn.
  rewrite Ex in Hs. pose proof (sv_ok _ _ _ _ _ _ _ _ _ _ _ _ _ Hs) as (_ & _ & Ok & _). apply Forall_cons in Ok as [Ok _].
  destruct (by_size _ _ Hb) as (B1 & B2 & B3 & B4). destruct (rd_beat_at _ _ _ 0 B1 (proj2 B2) Ok) as (_ & _ & Eo & _); [pose proof (rk_len _ _ _ Ok); lia|].
  pose proof (rn_num _ _ _ _ Hring) as Hlen. pose proof (rn_ptr _ _ _ _ Hring) as Hptr.
  apply wp_bind. eapply wp_on_read; [done|]. apply wp_bind, wp_check; [pose proof (rk_range _ _ _ Ok); lia|].
  apply wp_bind, wp_on, wp_put_elem; [upd_proj; rewrite (rn_len _ _ _ _ Hring), Hwp; zdiv|]. apply wp_modify. split; [|done].
  exists log. split; [done|]. split; [done|keepb Hb|done|]. exists (rdq ++ [(ar, 0%nat)]), wrq, bp. split; [exact (srv_ar _ _ _ _ _ _ _ _ _ _ _ _ _ _ Hs)|].
  upd_proj. rewrite Hlat. split; [|exact Hwr]. split; upd_proj.
  - rewrite Hwp, Eo. apply ring_snoc; [done|lia|]. split; cbn; [lia|done].
  - rewrite Hwp, fifo_next, Hct, length_app, Nat2Z.inj_add by lia. split; [done|]. rewrite u32_small by (unfold is_u32, W32; lia). done.
Qed.

Lemma slow_r m : good m -> wp ram_send_axi_r (fun _ m' => good m') m.
Proof.
  sopen. destruct (Z.eqb_spec (rm_axi_rd_count m) 0) as [|Hn]; cbn [orb]; [by apply wp_ret|]. destruct (chan_full _) eqn:Ef; [by apply wp_ret|].
  destruct Hrd as (Hring & Hwp & Hct). destruct rdq as [|[ar k] rest]; [by rewrite Hct in Hn|].
  pose proof (rn_num _ _ _ _ Hring) as Hlen. pose proof (rn_ptr _ _ _ _ Hring) as Hptr. simpl in Hlen.
  destruct (ring_get _ _ _ _ 0 _ Hring eq_refl) as (en & He & [Haddr Hr]). cbn [fst snd] in *. injection Hr as R1 R2 R3 R4 R5.
  change (Z.of_nat 0) with 0 in He. rewrite Z.add_0_r, Z.mod_small in He by lia. rewrite He. apply wp_bind, wp_ret.
  destruct (ram_entry_ready _ _); cbn [negb]; [|by apply wp_ret].
  pose proof (sv_ok _ _ _ _ _ _ _ _ _ _ _ _ _ Hs) as (Ok & _). apply Forall_cons in Ok as [[Ok Hk] _]. cbn [fst snd] in Ok, Hk.
  destruct (by_size _ _ Hb) as (B1 & B2 & B3 & B4). destruct (rd_beat_at _ _ _ _ B1 (proj2 B2) Ok Hk) as (O1 & O2 & _ & Onext). cbv zeta.
  rewrite R3, (proj1 (rk_kind _ _ _ Ok)). change (u32 (Z.shiftl 1 AXI4_SIZE_B4)) with 4. rewrite Haddr, (read_word _ _ _ Hb O1 O2). apply wp_bind, wp_ret.
  cbn [default from_option]. apply wp_bind, wp_on_write; [done..|]. intros Hw. rewrite R1, R2, R5 in *. apply srv_r in Hs. unfold read_beat in Hs.
  replace (rm_base_addr m + (ar_addr ar - rm_base_addr m + 4 * Z.of_nat k)) with (ar_addr ar + 4 * Z.of_nat k) in * by lia.
  set (r := AxiR _ _ _ _) in *. destruct (Z.eqb_spec (Z.of_nat k) (ar_len ar)) as [El|Hne].
  - apply wp_modify. split; [|done]. exists (log ++ [EvRead 0 ar k]). split; [by apply prefix_app_r|]. split; [done|rewrite run_mem_snoc; keepb Hb|done|].
    exists rest, wrq, bp. split; [upd_proj; by rewrite chan_snoc_pkts|]. upd_proj. rewrite Hlat. split; [|exact Hwr]. split; upd_proj.
    + rewrite fifo_next_ptr by done. by eapply ring_pop.
    + rewrite fifo_next_ptr, Hwp, Hct by done. simpl length. split; [zdiv|]. rewrite u32_small by (unfold is_u32, W32; lia). lia.
  - destruct (Onext Hne) as [N1 N2]. apply wp_on. eapply wp_at_elem; [exact He|]. apply wp_modify. split; [|done].
    exists (log ++ [EvRead 0 ar k]). split; [by apply prefix_app_r|]. split; [done|rewrite run_mem_snoc; keepb Hb|done|].
    exists ((ar, S k) :: rest), wrq, bp. split; [upd_proj; by rewrite chan_snoc_pkts|]. upd_proj. rewrite Hlat. split; [|exact Hwr]. split; upd_proj; [|done].
    assert (rm_axi_rd_rptr m = (rm_axi_rd_rptr m + Z.of_nat 0) mod 1024) as Eptr by (change (Z.of_nat 0) with 0; rewrite Z.add_0_r, Z.mod_small; lia).
    rewrite Eptr at 1. change ((ar, S k) :: rest) with (<[0%nat := (ar, S k)]> ((ar, k) :: rest)). apply ring_set; [done|simpl; lia|].
    split; cbn [fst snd]; upd_proj; [rewrite Haddr, R3, R4; exact N1|by rewrite R1, R2, R3, R4, R5, N2].
Qed.
Lemma slow_aw m : good m -> wp ram_accept_axi_aw (fun _ m' => good m') m.
Proof.
  sopen. destruct (chan_empty _) eqn:Ee; [by apply wp_ret|]. destruct (chan_empty_false _ Ee) as (aw & r & Ex). destruct Hwr as (Hring & Hwp & Hct & Hnd & Hda).
  destruct (Z.eqb_spec (rm_axi_wr_count m) RAM_PENDING_DEPTH) as [|Hn]; [by apply wp_ret|]. change RAM_PENDING_DEPTH with 1024 in Hn.
  rewrite Ex in Hs. pose proof (sv_ok _ _ _ _ _ _ _ _ _ _ _ _ _ Hs) as (_ & _ & _ & Ok). apply Forall_cons in Ok as [Ok _].
  destruct (by_size _ _ Hb) as (B1 & B2 & B3 & B4). destruct (wr_beat_at _ _ _ 0 B1 (proj2 B2) Ok) as (_ & _ & Eo & _); [pose proof (wk_len _ _ _ Ok); lia|].
  pose proof (rn_num _ _ _ _ Hring) as Hlen. rewrite wr_ring_length in Hlen. pose proof (rn_ptr _ _ _ _ Hring) as Hptr.
  apply wp_bind. eapply wp_on_read; [done|]. apply wp_bind, wp_check; [pose proof (wk_range _ _ _ Ok); lia|]. cbv zeta.
  apply wp_bind, wp_on, wp_put_elem; [upd_proj; rewrite (rn_len _ _ _ _ Hring), Hwp; zdiv|]. upd_proj. rewrite Eo, Hwp, Hnd.
  set (en := RamWrEntry _ _ _ _ _ _ _ _). set (p := (rm_axi_wr_rptr m + Z.of_nat (length bp + length wrq)) mod 1024).
  assert (ring (wr_entry (rm_base_addr m)) (<[Z.to_nat p := en]> (rm_axi_wr_entries m)) (rm_axi_wr_rptr m) (wr_ring (wrq ++ [(aw, 0%nat)]) bp)) as Hring'.
  { rewrite wr_ring_new. unfold p. rewrite <- wr_ring_length. apply ring_snoc; [done|rewrite wr_ring_length; lia|]. split; [done|]. split; [done|]. split; cbn; [lia|done]. }
  assert (forall m', rm_latency m' = rm_latency m -> rm_mode m' = rm_mode m -> (rm_base_addr m', rm_size m', rm_data m') = (rm_base_addr m, rm_size m, rm_data m) ->
    (rm_axi4_ar_slv m', rm_axi4_aw_slv m', rm_axi4_w_slv m', rm_axi4_r_mst m', rm_axi4_b_mst m') =
      (rm_axi4_ar_slv m, Chan (ch_depth (rm_axi4_aw_slv m)) r, rm_axi4_w_slv m, rm_axi4_r_mst m, rm_axi4_b_mst m) ->
    (rm_axi_rd_entries m', rm_axi_rd_rptr m', rm_axi_rd_wptr m', rm_axi_rd_count m') = (rm_axi_rd_entries m, rm_axi_rd_rptr m, rm_axi_rd_wptr m, rm_axi_rd_count m) ->
    (rm_axi_wr_entries m', rm_axi_wr_rptr m', rm_axi_wr_wptr m', rm_axi_wr_count m', rm_axi_wr_need_w_count m', rm_axi_wr_data_rptr m') =
      (<[Z.to_nat p := en]> (rm_axi_wr_entries m), rm_axi_wr_rptr m, ram_fifo_next p, u32 (rm_axi_wr_count m + 1), u32 (Z.of_nat (length wrq) + 1),
       (rm_axi_wr_rptr m + Z.of_nat (length bp)) mod 1024) -> good m') as Hdone.
  { intros m' E1 E2 E3 E4 E5 E6. split; [|by rewrite E1]. exists log. split; [done|]. pose proof (bytes_keep _ _ _ E3 Hb) as Hb'.
    injection E3 as F1 F2 F3. injection E4 as G1 G2 G3 G4 G5. injection E5 as I1 I2 I3 I4. injection E6 as J1 J2 J3 J4 J5 J6.
    split; [by rewrite E2|done|by rewrite G4, G5|]. exists rdq, (wrq ++ [(aw, 0%nat)]), bp. rewrite F1, F2, G1, G2, G3, G4, G5, E1, Hlat.
    split; [exact (srv_aw _ _ _ _ _ _ _ _ _ _ _ _ _ _ Hs)|]. unfold slow_rd, slow_wr. rewrite F1, I1, I2, I3, I4, J1, J2, J3, J4, J5, J6. split; [exact Hrd|].
    split; [done|]. rewrite length_app. simpl length. unfold p. rewrite fifo_next, Hct, !u32_small by (unfold is_u32, W32; lia). split_and!; [f_equal; lia|lia|lia|done]. }
  apply wp_bind. destruct (Z.eqb_spec (Z.of_nat (length wrq)) 0) as [E0|E0]; cbn [when]; [apply wp_modify|apply wp_ret]; apply wp_modify; apply Hdone; try reflexivity; upd_proj; rewrite Hwp, Hnd.
  - fold p. assert (p = (rm_axi_wr_rptr m + Z.of_nat (length bp)) mod 1024) as -> by (unfold p; do 2 f_equal; lia). reflexivity.
  - rewrite Hda by (by intros ->). reflexivity.
Qed.

Lemma slow_b m : good m -> wp ram_send_axi_b (fun _ m' => good m') m.
Proof.
  sopen. destruct (Z.eqb_spec (rm_axi_wr_count m) 0) as [|Hn]; cbn [orb]; [by apply wp_ret|]. destruct (chan_full _) eqn:Ef; [by apply wp_ret|].
  destruct Hwr as (Hring & Hwp & Hct & Hnd & Hda). pose proof (rn_num _ _ _ _ Hring) as Hlen. rewrite wr_ring_length in Hlen. pose proof (rn_ptr _ _ _ _ Hring) as Hptr.
  destruct (wr_ring wrq bp !! 0%nat) as [x|] eqn:Ex; [|apply lookup_ge_None in Ex; rewrite wr_ring_length in Ex; lia].
  destruct (ring_get _ _ _ _ 0 _ Hring Ex) as (en & He & Hid & Hx). change (Z.of_nat 0) with 0 in He. rewrite Z.add_0_r, Z.mod_small in He by lia. rewrite He.
  apply wp_bind, wp_ret. destruct (we_w_done en) eqn:Ed; cbn [negb orb]; [|by apply wp_ret]. destruct (ram_entry_ready _ _); cbn [negb]; [|by apply wp_ret].
  destruct bp as [|aw bp].
  { destruct wrq as [|[aw k] rest]; [done|]. injection Ex as <-. destruct Hx as [Hx _]. congruence. }
  injection Ex as <-. cbn [fst] in Hid. apply wp_bind, wp_on_write; [done..|]. intros Hw. apply wp_modify. split; [|done].
  exists log. split; [done|]. split; [done|keepb Hb|done|]. exists rdq, wrq, bp. split; [upd_proj; rewrite chan_snoc_pkts, Hid; by apply srv_b|].
  upd_proj. rewrite Hlat. split; [exact Hrd|]. simpl length in *. split; upd_proj; [rewrite fifo_next_ptr by done; exact (ring_pop _ _ _ (aw, None) (wr_ring wrq bp) Hring)|].
  rewrite fifo_next_ptr, Hwp, Hct by done. rewrite u32_small by (unfold is_u32, W32; lia). split_and!; [zdiv|lia|done|]. intros Hne. rewrite Hda by done. zdiv.
Qed.

Lemma slow_w m : good m -> wp ram_accept_axi_w (fun _ m' => good m') m.
Proof.
  sopen. destruct (chan_empty _) eqn:Ee; [by apply wp_ret|]. destruct (chan_empty_false _ Ee) as (w & ws & Ew). destruct Hwr as (Hring & Hwp & Hct & Hnd & Hda).
  destruct (Z.eqb_spec (rm_axi_wr_need_w_count m) 0) as [|Hn]; [by apply wp_ret|]. destruct wrq as [|[aw k] rest]; [by rewrite Hnd in Hn|].
  specialize (Hda ltac:(done)). pose proof (rn_num _ _ _ _ Hring) as Hlen. rewrite wr_ring_length in Hlen. pose proof (rn_ptr _ _ _ _ Hring) as Hptr. simpl in Hlen.
  destruct (ring_get _ _ _ _ _ _ Hring (wr_ring_data aw k rest bp)) as (en & He & Hid & Hdn & Haddr & Hr). cbn [fst snd] in *. injection Hr as R2 R3 R4 R5.
  rewrite <- Hda in He. rewrite He. apply wp_bind, wp_ret, wp_bind, wp_check; [by rewrite Hdn|]. rewrite Ew in Hs.
  pose proof (sv_ok _ _ _ _ _ _ _ _ _ _ _ _ _ Hs) as (_ & Ok & _). apply Forall_cons in Ok as [[Ok Hk] _]. cbn [fst snd] in Ok, Hk.
  destruct (by_size _ _ Hb) as (B1 & B2 & B3 & B4). destruct (wr_beat_at _ _ _ _ B1 (proj2 B2) Ok Hk) as (O1 & O2 & _ & Onext).
  apply wp_bind. eapply wp_on_front; [done|by destruct m|]. cbv zeta. rewrite R2, R5, (srv_last _ _ _ _ _ _ _ _ _ _ _ _ _ _ _ _ Hs), orb_diag.
  apply wp_bind. eapply wp_on_read; [done|]. rewrite R3, (proj1 (wk_kind _ _ _ Ok)). change (u32 (Z.shiftl 1 AXI4_SIZE_B4)) with 4. rewrite Haddr.
  set (m1 := upd rm_axi4_w_slv _ m). assert (bytes_ok m1 (run_mem V0 log)) as Hb1 by (keepb Hb). apply wp_bind.
  eapply (wp_write_word m1); [exact Hb1|done|done|]. intros d Hd. apply srv_wr in Hs. change (rm_base_addr m1) with (rm_base_addr m) in Hd.
  replace (rm_base_addr m + (aw_addr aw - rm_base_addr m + 4 * Z.of_nat k)) with (aw_addr aw + 4 * Z.of_nat k) in Hd by lia.
  destruct (Z.eqb_spec (Z.of_nat k) (aw_len aw)) as [El|Hne].
  - apply wp_bind, wp_on. eapply wp_at_elem; [exact He|]. apply wp_modify. apply wp_bind, wp_modify, wp_bind, wp_gets. unfold id. upd_proj.
    change (rm_axi_wr_need_w_count m1) with (rm_axi_wr_need_w_count m). rewrite Hnd. simpl length. rewrite u32_small by (unfold is_u32, W32; lia).
    replace (Z.of_nat (S (length rest)) - 1) with (Z.of_nat (length rest)) by lia.
    assert (forall m', (rm_axi4_ar_slv m', rm_axi4_aw_slv m', rm_axi4_w_slv m', rm_axi4_r_mst m', rm_axi4_b_mst m', rm_mode m', rm_latency m') =
        (rm_axi4_ar_slv m, rm_axi4_aw_slv m, Chan (ch_depth (rm_axi4_w_slv m)) ws, rm_axi4_r_mst m, rm_axi4_b_mst m, rm_mode m, rm_latency m) ->
      (rm_base_addr m', rm_size m', rm_data m') = (rm_base_addr m, rm_size m, d) ->
      (rm_axi_rd_entries m', rm_axi_rd_rptr m', rm_axi_rd_wptr m', rm_axi_rd_count m') = (rm_axi_rd_entries m, rm_axi_rd_rptr m, rm_axi_rd_wptr m, rm_axi_rd_count m) ->
      (rm_axi_wr_entries m', rm_axi_wr_rptr m', rm_axi_wr_wptr m', rm_axi_wr_count m', rm_axi_wr_need_w_count m') =
        (<[Z.to_nat (rm_axi_wr_data_rptr m) := en <| we_w_done := true |> <| we_ready_cycle := ram_ready_cycle m |>]> (rm_axi_wr_entries m),
         rm_axi_wr_rptr m, rm_axi_wr_wptr m, rm_axi_wr_count m, Z.of_nat (length rest)) ->
      (rest <> [] -> rm_axi_wr_data_rptr m' = ram_fifo_next (rm_axi_wr_data_rptr m)) -> good m') as Hdone.
    { intros m' E4 E3 E5 E6 E7. injection E4 as G1 G2 G3 G4 G5 E2 E1. split; [|by rewrite E1]. exists (log ++ [EvWrite 0 aw k w]). split; [by apply prefix_app_r|].
      assert (bytes_ok m' (run_mem V0 (log ++ [EvWrite 0 aw k w]))) as Hb' by (rewrite run_mem_snoc; eapply bytes_keep; [|exact Hd]; exact E3).
      injection E3 as F1 F2 F3. injection E5 as I1 I2 I3 I4. injection E6 as J1 J2 J3 J4 J5.
      split; [by rewrite E2|done|by rewrite G4, G5|]. exists rdq, rest, (bp ++ [aw]). rewrite F1, F2, G1, G2, G3, G4, G5, E1, Hlat.
      split; [exact Hs|]. unfold slow_rd, slow_wr. rewrite F1, I1, I2, I3, I4, J1, J2, J3, J4, J5. split; [exact Hrd|].
      split; [rewrite <- wr_ring_last with (k := k), Hda; apply ring_set; [done|rewrite wr_ring_length; simpl; lia|by split]|].
      rewrite length_app. simpl length in *. split_and!; [rewrite Hwp; do 2 f_equal; lia|rewrite Hct; lia|done|]. intros Hne. rewrite E7, Hda, fifo_next by (done || lia). do 2 f_equal. lia. }
    destruct (Z.ltb_spec 0 (Z.of_nat (length rest))) as [Hl|Hl]; cbn [when]; [apply wp_modify|apply wp_ret]; apply Hdone; try reflexivity;
      try (upd_proj; change (rm_axi_wr_need_w_count m1) with (rm_axi_wr_need_w_count m); rewrite Hnd; simpl length; rewrite u32_small by (unfold is_u32, W32; lia);
        replace (Z.of_nat (S (length rest)) - 1) with (Z.of_nat (length rest)) by lia; reflexivity).
    intros Hne. destruct rest; [done|simpl in Hl; lia].
  - destruct (Onext Hne) as [N1 N2]. apply wp_on. eapply wp_at_elem; [exact He|]. apply wp_modify. split; [|done].
    exists (log ++ [EvWrite 0 aw k w]). split; [by apply prefix_app_r|]. split; [done|rewrite run_mem_snoc; keepb Hd|done|].
    exists rdq, ((aw, S k) :: rest), bp. rewrite app_nil_r in Hs. split; [exact Hs|]. upd_proj. change (rm_latency m1) with (rm_latency m). rewrite Hlat.
    split; [exact Hrd|]. split; [|split_and!; done]. unfold m1. upd_proj. rewrite Hda, <- wr_ring_beat. apply ring_set; [done|rewrite wr_ring_length; simpl; lia|].
    split; [done|]. cbn [fst snd]. upd_proj. split; [done|]. split; [rewrite Haddr, R3, R4; exact N1|by rewrite R2, R3, R4, R5, N2].
Qed.

Lemma slow_ok m : good m -> wp ram_proc_axi (fun _ m' => good m') m.
Proof.
  intros H. apply wp_bind. eapply wp_mono; [by apply slow_b|]. intros [] m1 H1. apply wp_bind. eapply wp_mono; [by apply slow_r|]. intros [] m2 H2.
  apply wp_bind. eapply wp_mono; [by apply slow_w|]. intros [] m3 H3. apply wp_bind. eapply wp_mono; [by apply slow_aw|]. intros [] m4 H4. by apply slow_ar.
Qed.
End slow.

Lemma ram_clock_ok V0 h log0 m : ram_some V0 h log0 m -> wp ram_clock (fun _ => ram_some V0 h log0) m.
Proof.
  intros H. pose proof H as (log & _ & [Hmode _ _ _]). apply wp_bind, wp_gets. unfold id. rewrite Hmode, bool_decide_eq_true_2 by done.
  destruct (rm_latency m =? 0) eqn:E; (eapply wp_mono; [by (apply fast_ok || apply slow_ok); split; [|lia]|by intros [] m' []]).
Qed.

(** ** A master takes a step *)

Section master.
  Context (base size : Z) (V0 : Z -> Z) (log : list axi_event) (h : port_hist) (rdq : list (axi4_ar_if_t * nat)) (wrq : list (axi4_aw_if_t * nat))
    (bp : list axi4_aw_if_t) (arq : list axi4_ar_if_t) (awq : list axi4_aw_if_t) (wq : list axi4_w_if_t) (rq : list axi4_r_if_t) (bq : list axi4_b_if_t).
  Context (Hs : srv base size V0 log h rdq wrq bp arq awq wq rq bq).

Lemma sent_ar ar : rd_ok base size ar -> srv base size V0 log (h <| hs_ar := hs_ar h ++ [ar] |>) rdq wrq bp (arq ++ [ar]) awq wq rq bq.
Proof.
  intros Ha. destruct Hs. split; try done; [upd_proj; by rewrite !bind_app, sv_reads0, !app_assoc|].
  destruct sv_ok0 as (? & ? & ? & ?). split_and!; try done. apply Forall_app. by split; [|constructor].
Qed.

Lemma sent_aw aw : wr_ok base size aw -> srv base size V0 log (h <| hs_aw := hs_aw h ++ [aw] |>) rdq wrq bp arq (awq ++ [aw]) wq rq bq.
Proof.
  intros Ha. destruct Hs. split; try done; [upd_proj; by rewrite !bind_app, sv_writes0, !app_assoc|by apply lasts_aw|].
  destruct sv_ok0 as (? & ? & ? & ?). split_and!; try done. apply Forall_app. by split; [|constructor].
Qed.

Lemma sent_w w : w_fits h w -> srv base size V0 log (h <| hs_w := hs_w h ++ [w] |>) rdq wrq bp arq awq (wq ++ [w]) rq bq.
Proof. intros Hf. destruct Hs. split; try done; [upd_proj; by rewrite sv_w0, app_assoc|by apply lasts_w]. Qed.

Lemma took_r r rs : rq = r :: rs -> srv base size V0 log (h <| hs_r := hs_r h ++ [r] |>) rdq wrq bp arq awq wq rs bq.
Proof. intros ->. destruct Hs. split; try done. upd_proj. by rewrite <- app_assoc. Qed.

Lemma took_b b bs : bq = b :: bs -> srv base size V0 log (h <| hs_b := hs_b h ++ [b] |>) rdq wrq bp arq awq wq rq bs.
Proof. intros ->. destruct Hs. split; try done. upd_proj. by rewrite <- app_assoc. Qed.
End master.

(** A state of the system: the memory, and what its master has sent and taken. *)
Definition ram_world : Type := ram_t * port_hist.

Inductive ram_step : ram_world -> ram_world -> Prop :=
| RamClock m m' h : ram_clock m = Some (tt, m') -> ram_step (m, h) (m', h)
| RamCycle m h c : ram_step (m, h) (m <| rm_cycle := c |>, h)
| RamSendAr m h ar : rd_ok (rm_base_addr m) (rm_size m) ar -> chan_full (rm_axi4_ar_slv m) = false ->
    ram_step (m, h) (m <| rm_axi4_ar_slv := chan_snoc (rm_axi4_ar_slv m) ar |>, h <| hs_ar := hs_ar h ++ [ar] |>)
| RamSendAw m h aw : wr_ok (rm_base_addr m) (rm_size m) aw -> chan_full (rm_axi4_aw_slv m) = false ->
    ram_step (m, h) (m <| rm_axi4_aw_slv := chan_snoc (rm_axi4_aw_slv m) aw |>, h <| hs_aw := hs_aw h ++ [aw] |>)
| RamSendW m h w : w_fits h w -> chan_full (rm_axi4_w_slv m) = false ->
    ram_step (m, h) (m <| rm_axi4_w_slv := chan_snoc (rm_axi4_w_slv m) w |>, h <| hs_w := hs_w h ++ [w] |>)
| RamTakeR m h d r rs : rm_axi4_r_mst m = Chan d (r :: rs) ->
    ram_step (m, h) (m <| rm_axi4_r_mst := Chan d rs |>, h <| hs_r := hs_r h ++ [r] |>)
| RamTakeB m h d b bs : rm_axi4_b_mst m = Chan d (b :: bs) ->
    ram_step (m, h) (m <| rm_axi4_b_mst := Chan d bs |>, h <| hs_b := hs_b h ++ [b] |>).

Definition ram_ok (V0 : Z -> Z) (log : list axi_event) (w : ram_world) : Prop := ram_some V0 w.2 log w.1.

Lemma ram_step_ok V0 log w w' : ram_step w w' -> ram_ok V0 log w -> ram_ok V0 log w'.
Proof.
  unfold ram_ok. intros Hst Hok. destruct Hst; cbn [fst snd] in *.
  { pose proof (ram_clock_ok _ _ _ _ Hok) as Hc. unfold wp in Hc. by rewrite H in Hc. }
  all: destruct Hok as (log1 & Hpre & [Hmode Hb [W1 W2] (rdq & wrq & bp & Hs & Hreg)]); exists log1; split; [done|];
    (split; [done|keepb Hb| |exists rdq, wrq, bp; split; [|exact Hreg]]).
  all: try (split; [exact W1|exact W2]); upd_proj; try rewrite !chan_snoc_pkts; try (by apply sent_ar); try (by apply sent_aw); try (by apply sent_w).
  - exact Hs.
  - split; [|done]. rewrite H in W1. by apply (chan_wf_tail (Chan d (r :: rs)) r).
  - rewrite H in Hs. by eapply took_r.
  - split; [done|]. rewrite H in W2. by apply (chan_wf_tail (Chan d (b :: bs)) b).
  - rewrite H in Hs. by eapply took_b.
Qed.

Lemma ram_run_ok V0 log w w' : rtc ram_step w w' -> ram_ok V0 log w -> ram_ok V0 log w'.
Proof. induction 1 as [|w1 w2 w3 Hst _ IH]; [done|]. intros Hg. apply IH. by eapply ram_step_ok. Qed.

(** ** Construction and reset *)

(** The interfaces before the first cycle. *)
Record ram_wired (m : ram_t) : Prop := {
  rw_empty : ch_pkts (rm_axi4_aw_slv m) = [] /\ ch_pkts (rm_axi4_w_slv m) = [] /\ ch_pkts (rm_axi4_b_mst m) = [] /\
    ch_pkts (rm_axi4_ar_slv m) = [] /\ ch_pkts (rm_axi4_r_mst m) = [];
  rw_wf : chan_wf (rm_axi4_r_mst m) /\ chan_wf (rm_axi4_b_mst m)
}.

(** The bytes at their addresses. *)
Definition ram_contents (base : Z) (data : list Z) : Z -> Z := fun a => default 0 (aget data (a - base)).

(** A run of a memory of [size] bytes at [base] with the contents [data], from reset. *)
Definition ram_runs (size base latency : Z) (data : list Z) (w : ram_world) : Prop :=
  exists rd wr m0 m, 0 <= base /\ 0 < size < W32 /\ base + size <= W32 /\ 0 <= latency /\ Z.of_nat (length data) = size + 3 /\
    length rd = 1024%nat /\ length wr = 1024%nat /\ ram_wired m0 /\
    ram_construct 1 RAM_MODE_AXI size base latency data [] rd wr m0 = Some m /\ rtc ram_step (ram_reset m, no_hist) w.

Lemma srv_start base size V0 : srv base size V0 [] no_hist [] [] [] [] [] [] [] [].
Proof. by split. Qed.

Lemma ram_reset_ok size base latency data rd wr m0 m : 0 <= base -> 0 < size < W32 -> base + size <= W32 -> 0 <= latency ->
  Z.of_nat (length data) = size + 3 -> length rd = 1024%nat -> length wr = 1024%nat -> ram_wired m0 ->
  ram_construct 1 RAM_MODE_AXI size base latency data [] rd wr m0 = Some m -> ram_inv (ram_contents base data) no_hist (ram_reset m) [].
Proof.
  intros H1 H2 H3 H4 H5 H6 H7 [(E1 & E2 & E3 & E4 & E5) [W1 W2]] Hc. unfold ram_construct in Hc. rewrite (bool_decide_eq_true_2 (RAM_MODE_AXI = RAM_MODE_AXI)) in Hc by done.
  cbn [andb negb] in Hc. change ((0 <? 1) && (1 <=? RAM_MAX_PORT_NUM)) with true in Hc. cbv iota zeta in Hc. injection Hc as <-.
  split; [done| |done|].
  - split; [cbn; lia|]. cbn. intros o Ho. unfold ram_contents. replace (base + o - base) with o by lia.
    destruct (aget_is_Some data o) as [b Eb]; [lia|]. by rewrite Eb.
  - exists [], [], []. split; [cbn; rewrite E1, E2, E3, E4, E5; apply srv_start|]. cbn. destruct (Z.eqb_spec latency 0) as [->|Hl].
    + unfold fast_rd, fast_wr. by cbn.
    + assert ((0 <? latency) = true) as Hp by lia. rewrite Hp. cbn. split; [split; [|done]|split; [|by split_and!]];
        (split; [done|cbn; lia|simpl; lia|by intros ? ? ?]).
Qed.

(** ** Theorems *)

(** No burst is accepted or waits. *)
Definition ram_quiet (m : ram_t) : Prop :=
  ch_pkts (rm_axi4_ar_slv m) = [] /\ ch_pkts (rm_axi4_aw_slv m) = [] /\
  if rm_latency m =? 0 then rm_rd_active m = false /\ rm_wr_active m = false /\ rm_wr_b_pending m = false
  else rm_axi_rd_count m = 0 /\ rm_axi_wr_count m = 0.

(** The log explains what the master sees. *)
Definition ram_explains (V0 : Z -> Z) (h : port_hist) (m : ram_t) (log : list axi_event) : Prop :=
  reads_of 0 log `prefix_of` (hs_ar h ≫= rd_beats) /\
  (writes_of 0 log).*1 `prefix_of` (hs_aw h ≫= wr_beats) /\ (writes_of 0 log).*2 `prefix_of` hs_w h /\
  hs_r h ++ ch_pkts (rm_axi4_r_mst m) = answers 0 V0 log /\
  hs_b h ++ ch_pkts (rm_axi4_b_mst m) `prefix_of` acks (writes_of 0 log) /\
  (ram_quiet m -> reads_of 0 log = hs_ar h ≫= rd_beats /\ (writes_of 0 log).*1 = hs_aw h ≫= wr_beats /\
     hs_b h ++ ch_pkts (rm_axi4_b_mst m) = acks (writes_of 0 log)).

Lemma quiet_queues m rdq wrq bp : ram_quiet m ->
  (if rm_latency m =? 0 then fast_rd m rdq /\ fast_wr m wrq bp else slow_rd m rdq /\ slow_wr m wrq bp) -> rdq = [] /\ wrq = [] /\ bp = [].
Proof.
  intros (_ & _ & Hq). destruct (rm_latency m =? 0).
  - destruct Hq as (Q1 & Q2 & Q3). unfold fast_rd, fast_wr. rewrite Q1, Q2, Q3. intros (-> & -> & ->). done.
  - destruct Hq as [Q1 Q2]. intros [(_ & _ & H1) (_ & _ & H2 & _)]. destruct rdq, wrq, bp; simpl in *; done || lia.
Qed.

Lemma ram_inv_explains V0 h m log : ram_inv V0 h m log -> ram_explains V0 h m log.
Proof.
  intros [_ _ _ (rdq & wrq & bp & [] & Hreg)]. split; [rewrite sv_reads0; by apply prefix_app_r|]. split; [rewrite sv_writes0; by apply prefix_app_r|].
  split; [rewrite sv_w0; by apply prefix_app_r|]. split; [done|]. split; [rewrite <- sv_b0, app_assoc; by apply prefix_app_r|].
  intros Hq. destruct (quiet_queues _ _ _ _ Hq Hreg) as (-> & -> & ->). destruct Hq as (Q1 & Q2 & _). rewrite sv_reads0, sv_writes0, <- sv_b0, Q1, Q2. cbn. by rewrite !app_nil_r.
Qed.

(** C11: In every run of the memory from reset in AXI mode, with any latency and any cycle counter, whose
    masters send incrementing bursts of words that lie inside the memory (no fixed, narrow or
    out-of-range burst): no check fails; the beats are served in one sequential history of a flat memory, in the order of their
    bursts on each channel, and only completed write bursts are acknowledged; when the memory is quiet
    every burst has been served and acknowledged; later steps only extend the history. *)
Theorem ram_linearizable size base latency data m h : ram_runs size base latency data (m, h) ->
  (exists m', ram_clock m = Some (tt, m')) /\
  exists log, ram_explains (ram_contents base data) h m log /\
    forall m' h', rtc ram_step (m, h) (m', h') -> exists log', log `prefix_of` log' /\ ram_explains (ram_contents base data) h' m' log'.
Proof.
  intros (rd & wr & m0 & m1 & H1 & H2 & H3 & H4 & H5 & H6 & H7 & H8 & H9 & Hrun). set (V0 := ram_contents base data).
  assert (ram_ok V0 [] (m, h)) as Hok.
  { apply (ram_run_ok V0 [] _ _ Hrun). exists []. split; [done|]. by eapply ram_reset_ok. }
  split; [destruct (wp_elim _ _ _ (ram_clock_ok V0 h [] m Hok)) as ([] & m' & E & _); by exists m'|].
  destruct Hok as (log & _ & Hi). exists log. split; [by apply ram_inv_explains|]. intros m' h' Hr.
  destruct (ram_run_ok V0 log _ _ Hr) as (log' & Hpre & Hi'); [by exists log|]. exists log'. split; [done|by apply ram_inv_explains].
Qed.

(** ** A run *)

Inductive ram_move := MRClock | MRCycle (c : Z) | MRAr (ar : axi4_ar_if_t) | MRAw (aw : axi4_aw_if_t) | MRW (w : axi4_w_if_t) | MRR | MRB.

Definition rd_okb (base size : Z) (ar : axi4_ar_if_t) : bool :=
  (0 <=? ar_len ar) && (ar_len ar <? 256) && (base <=? ar_addr ar) && (ar_addr ar + 4 * (ar_len ar + 1) <=? base + size) &&
  (ar_size ar =? AXI4_SIZE_B4) && (ar_burst ar =? AXI4_BURST_INCR) && negb (axi4_user_is_cmo (ar_user ar)).
Definition wr_okb (base size : Z) (aw : axi4_aw_if_t) : bool :=
  (0 <=? aw_len aw) && (aw_len aw <? 256) && (base <=? aw_addr aw) && (aw_addr aw + 4 * (aw_len aw + 1) <=? base + size) &&
  (aw_size aw =? AXI4_SIZE_B4) && (aw_burst aw =? AXI4_BURST_INCR).

(** A move that is not possible does nothing. *)
Definition ram_do (s : ram_world) (v : ram_move) : ram_world :=
  let '(m, h) := s in
  match v with
  | MRClock => match ram_clock m with Some (_, m') => (m', h) | None => s end
  | MRCycle c => (m <| rm_cycle := Some c |>, h)
  | MRAr ar => if rd_okb (rm_base_addr m) (rm_size m) ar && negb (chan_full (rm_axi4_ar_slv m))
      then (m <| rm_axi4_ar_slv := chan_snoc (rm_axi4_ar_slv m) ar |>, h <| hs_ar := hs_ar h ++ [ar] |>) else s
  | MRAw aw => if wr_okb (rm_base_addr m) (rm_size m) aw && negb (chan_full (rm_axi4_aw_slv m))
      then (m <| rm_axi4_aw_slv := chan_snoc (rm_axi4_aw_slv m) aw |>, h <| hs_aw := hs_aw h ++ [aw] |>) else s
  | MRW w => if w_fitsb h w && negb (chan_full (rm_axi4_w_slv m))
      then (m <| rm_axi4_w_slv := chan_snoc (rm_axi4_w_slv m) w |>, h <| hs_w := hs_w h ++ [w] |>) else s
  | MRR => match rm_axi4_r_mst m with
      | Chan d (r :: rs) => (m <| rm_axi4_r_mst := Chan d rs |>, h <| hs_r := hs_r h ++ [r] |>) | _ => s end
  | MRB => match rm_axi4_b_mst m with
      | Chan d (b :: bs) => (m <| rm_axi4_b_mst := Chan d bs |>, h <| hs_b := hs_b h ++ [b] |>) | _ => s end
  end.

Lemma rd_okb_ok base size ar : rd_okb base size ar = true -> rd_ok base size ar.
Proof. unfold rd_okb. intros H. repeat (apply andb_true_iff in H as [H ?]). split; try lia. by apply negb_true_iff. Qed.
Lemma wr_okb_ok base size aw : wr_okb base size aw = true -> wr_ok base size aw.
Proof. unfold wr_okb. intros H. repeat (apply andb_true_iff in H as [H ?]). split; lia. Qed.

Lemma ram_do_sound s v : rtc ram_step s (ram_do s v).
Proof.
  destruct s as [m h]. destruct v as [|c|ar|aw|w| |]; cbn [ram_do].
  - destruct (ram_clock m) as [[[] m']|] eqn:E; [|done]. by apply rtc_once, RamClock.
  - apply rtc_once, RamCycle.
  - destruct (_ && _) eqn:E; [|done]. apply andb_true_iff in E as [E1%rd_okb_ok E2%negb_true_iff]. by apply rtc_once, RamSendAr.
  - destruct (_ && _) eqn:E; [|done]. apply andb_true_iff in E as [E1%wr_okb_ok E2%negb_true_iff]. by apply rtc_once, RamSendAw.
  - destruct (_ && _) eqn:E; [|done]. apply andb_true_iff in E as [E1%w_fitsb_ok E2%negb_true_iff]. by apply rtc_once, RamSendW.
  - destruct (rm_axi4_r_mst m) as [d [|r rs]] eqn:Er; [done|]. by apply rtc_once, RamTakeR.
  - destruct (rm_axi4_b_mst m) as [d [|b bs]] eqn:Er; [done|]. by apply rtc_once, RamTakeB.
Qed.

Lemma ram_script_sound vs s : rtc ram_step s (foldl ram_do s vs).
Proof. revert s. induction vs as [|v vs IH]; intros s; [done|]. simpl. etrans; [apply ram_do_sound|apply IH]. Qed.

(** Sixteen bytes at 0x100; the blocks are allocated but not initialised. *)
Definition ram_example_data : list Z := [0; 1; 2; 3; 4; 5; 6; 7; 8; 9; 10; 11; 12; 13; 14; 15; 7; 7; 7].
Definition ram_example_wires : ram_t :=
  Ram [] [] (Chan 2 []) (Chan 2 []) (Chan 2 []) (Chan 2 []) (Chan 2 []) (Some 5) 0 RAM_MODE_BTI 0 0 0 [] 0 0 0 0 0 0 true 0 0 0 0 0 0 true true
    [] [] [] [] [] 7 7 [] 7 7 7 7 7 7 7.
Definition ram_example_built (latency : Z) : ram_t :=
  default ram_example_wires (ram_construct 1 RAM_MODE_AXI 16 0x100 latency ram_example_data [] (replicate 1024 (RamRdEntry 7 7 7 7 7 7 7))
    (replicate 1024 (RamWrEntry 7 7 7 7 7 7 7 true)) ram_example_wires).

Lemma ram_example_runs latency w : 0 <= latency -> rtc ram_step (ram_reset (ram_example_built latency), no_hist) w ->
  ram_runs 16 0x100 latency ram_example_data w.
Proof.
  intros Hl Hr. do 2 eexists. exists ram_example_wires, (ram_example_built latency). split_and!; try done; try exact Hr; try reflexivity.
Qed.

(** A write burst of two words, the second with two bytes enabled, then a read burst over both, after a wait of two cycles each. *)
Definition ram_example_script : list ram_move :=
  [MRAw (AxiAw 1 0x104 1 AXI4_SIZE_B4 AXI4_BURST_INCR false 0 0 0 0); MRW (AxiW 0x44332211 0xf false); MRW (AxiW 0x88776655 0x3 true);
   MRClock; MRClock; MRClock; MRB; MRCycle 7; MRClock; MRB; MRAr (AxiAr 2 0x104 1 AXI4_SIZE_B4 AXI4_BURST_INCR false 0 0 0 0);
   MRClock; MRClock; MRR; MRCycle 9; MRClock; MRR; MRClock; MRR; MRClock; MRR].

Lemma ram_linearizable_witness : exists m h, ram_runs 16 0x100 2 ram_example_data (m, h) /\
  hs_r h = [AxiR 2 0x44332211 0 false; AxiR 2 0x0b0a6655 0 true] /\ hs_b h = [AxiB 1 0] /\
  (exists m', ram_clock m = Some (tt, m')) /\ exists log, ram_explains (ram_contents 0x100 ram_example_data) h m log.
Proof.
  assert (0 <= 2) as Hl by lia.
  pose proof (ram_example_runs 2 _ Hl (ram_script_sound ram_example_script (ram_reset (ram_example_built 2), no_hist))) as Hr.
  assert ((let w := foldl ram_do (ram_reset (ram_example_built 2), no_hist) ram_example_script in (hs_r w.2, hs_b w.2)) =
    ([AxiR 2 0x44332211 0 false; AxiR 2 0x0b0a6655 0 true], [AxiB 1 0])) as Hx by (vm_compute; reflexivity).
  cbv zeta in Hx. destruct (foldl ram_do _ ram_example_script) as [m h]. cbn [fst snd] in Hx. injection Hx as H1 H2.
  destruct (ram_linearizable 16 0x100 2 ram_example_data m h Hr) as (Hc & log & Hl' & _).
  exists m, h. split; [exact Hr|]. split; [exact H1|]. split; [exact H2|]. split; [exact Hc|]. by exists log.
Defined.

(** A half word across the last two bytes is read and written; one byte further it is refused. *)
Lemma ram_access_bounds_witness :
  ram_read (ram_example_built 0) 14 2 = Some (Some 0x0f0e) /\ ram_read (ram_example_built 0) 15 2 = Some None /\
  exists d, ram_write 15 2 0x2211 0xf (ram_example_built 0) = Some (false, ram_example_built 0 <| rm_data := d |>) /\
    aget d 15 = Some 15.
Proof.
  assert (0 < rm_size (ram_example_built 0) < W32) as Hs by (split; reflexivity).
  assert (rm_size (ram_example_built 0) <= Z.of_nat (length (rm_data (ram_example_built 0)))) as Hl by (apply Z.leb_le; reflexivity).
  assert (is_u32 14 /\ is_u32 15) as [H1 H2] by (unfold is_u32, W32; lia). assert (0 <= 2) as Hn by lia.
  destruct (ram_access_bounds (ram_example_built 0) 14 2 0 0 Hs Hl H1 Hn) as [Hr _].
  destruct (ram_access_bounds (ram_example_built 0) 15 2 0x2211 0xf Hs Hl H2 Hn) as (Hr' & d & Hw & _ & Hd).
  split; [rewrite Hr; vm_compute; reflexivity|]. split; [rewrite Hr'; vm_compute; reflexivity|]. exists d. split; [exact Hw|].
  rewrite (Hd 15). vm_compute. reflexivity.
Defined.

(** A write beat past the end is dropped, but its burst is acknowledged with OKAY; a read beat there is answered with SLVERR. *)
Lemma ram_write_error_hidden : 
  (m ← (ram_clock;; ram_clock;; ram_clock) (ram_reset (ram_example_built 0)
     <| rm_axi4_aw_slv := Chan 2 [AxiAw 1 0x110 0 AXI4_SIZE_B4 AXI4_BURST_INCR false 0 0 0 0] |> <| rm_axi4_w_slv := Chan 2 [AxiW 0x44332211 0xf true] |>
     <| rm_axi4_ar_slv := Chan 2 [AxiAr 2 0x110 0 AXI4_SIZE_B4 AXI4_BURST_INCR false 0 0 0 0] |>);
   Some (ch_pkts (rm_axi4_b_mst m.2), ch_pkts (rm_axi4_r_mst m.2), rm_data m.2)) =
  Some ([AxiB 1 AXI4_RESP_OKAY], [AxiR 2 0 AXI4_RESP_SLVERR true], ram_example_data).
Proof. by vm_compute. Qed.
