(* ===== verification/AxiBus.v ===== *)
(** * The AXI interconnect

    [bus/mux/axi_mux.c] and [bus/demux/axi_demux.c]: hosts that share a guest, and guests behind the address
    decoder of a host.  Reads and write answers are matched by their number, write data by the order
    of the write addresses.  Unconnected interfaces of an array, null pointers, are [None]. *)

From stdpp Require Import base numbers list.
From Stdlib Require Import ZArith Lia.
From S2P Require Import Prelude Fifo Ost Ifu Axi BtiBus.

(** ** Staging FIFOs *)

Section stage.
  Context {S X : Type}.

(** The capture functions: a packet moves from the interface to its staging FIFO; a full FIFO is counted
    when a packet waits. *)
Definition stage_capture (slv fifo : S -> chan X) (perf : S -> Z) `{!Setter slv, !Setter fifo, !Setter perf} : M S unit :=
  s ← gets id;
  if chan_full (fifo s) then when (negb (chan_empty (slv s))) (modify (fun s => s <| perf := u64 (perf s + 1) |>))
  else if chan_empty (slv s) then mret tt
  else
    x ← on slv chan_read;
    on fifo (chan_write x).

(** The same for every host, from host [i] on with [n] left. *)
Fixpoint hosts_capture (slvs : S -> list (option (chan X))) (fifos : S -> list (chan X)) (perf : S -> Z)
    `{!Setter slvs, !Setter fifos, !Setter perf} (n : nat) (i : Z) : M S unit :=
  match n with
  | O => mret tt
  | Datatypes.S n =>
    s ← gets id;
    o ← of_option (aget (slvs s) i);
    slv ← of_option o;
    fifo ← of_option (aget (fifos s) i);
    (if chan_full fifo then when (negb (chan_empty slv)) (modify (fun s => s <| perf := u64 (perf s + 1) |>))
     else if chan_empty slv then mret tt
     else
       x ← on slvs (at_itf i chan_read);
       on fifos (at_elem i (chan_write x)));;
    hosts_capture slvs fifos perf n (i + 1)
  end.
End stage.

(** ** Searches of a keyed table *)

(** The search for the oldest entry that is ready and the oldest of its number, from slot [i] on with [n]
    left; [best] is the candidate so far. *)
Fixpoint ready_loop {A} `{!Zero A} (ready : A -> bool) (n : nat) (i : Z) (best : option (Z * Z)) : M (ostk_t A) (option (Z * Z)) :=
  match n with
  | O => mret best
  | S n =>
    entry ← k_get i;
    if negb (k_vld entry) || k_free_pending entry then ready_loop ready n (i + 1) best
    else if negb (ready (k_ctx entry)) then ready_loop ready n (i + 1) best
    else
      found ← ostk_peek_key (k_key entry);
      '(_, head_slot) ← of_option found;
      if negb (head_slot =? i) then ready_loop ready n (i + 1) best
      else
        ready_loop ready n (i + 1) (match best with
          | None => Some (i, k_issue_seq entry)
          | Some (_, best_seq) => if k_issue_seq entry <? best_seq then Some (i, k_issue_seq entry) else best
          end)
  end.

(** ** The multiplexer *)

Definition AXI_MUX_HOST_NUM_MAX : Z := 16.

Record axi_mux_ost_ctx_t := AxiMuxOstCtx { ax_host_idx : Z }.
#[export] Instance zero_axi_mux_ost_ctx : Zero axi_mux_ost_ctx_t := AxiMuxOstCtx 0.

Record axi_mux_t := AxiMux {
  am_host_aw_slvs : list (option (chan axi4_aw_if_t));
  am_host_w_slvs : list (option (chan axi4_w_if_t));
  am_host_b_msts : list (option (chan axi4_b_if_t));
  am_host_ar_slvs : list (option (chan axi4_ar_if_t));
  am_host_r_msts : list (option (chan axi4_r_if_t));
  am_gst_aw_mst : chan axi4_aw_if_t;
  am_gst_w_mst : chan axi4_w_if_t;
  am_gst_b_slv : chan axi4_b_if_t;
  am_gst_ar_mst : chan axi4_ar_if_t;
  am_gst_r_slv : chan axi4_r_if_t;
  am_host_num : Z;
  am_rd_rr_idx : Z;
  am_wr_rr_idx : Z;
  am_host_ar_fifos : list (chan axi4_ar_if_t);
  am_host_aw_fifos : list (chan axi4_aw_if_t);
  am_host_w_fifos : list (chan axi4_w_if_t);
  am_rd_ost : ostk_t axi_mux_ost_ctx_t;
  am_wr_data_ost : ostq_t axi_mux_ost_ctx_t;
  am_wr_rsp_ost : ostk_t axi_mux_ost_ctx_t;
  am_perf_stg_ar_full : Z;
  am_perf_stg_aw_full : Z;
  am_perf_stg_w_full : Z
}.
#[export] Instance eta_axi_mux : Eta axi_mux_t := fun m =>
  AxiMux (am_host_aw_slvs m) (am_host_w_slvs m) (am_host_b_msts m) (am_host_ar_slvs m) (am_host_r_msts m) (am_gst_aw_mst m)
    (am_gst_w_mst m) (am_gst_b_slv m) (am_gst_ar_mst m) (am_gst_r_slv m) (am_host_num m) (am_rd_rr_idx m) (am_wr_rr_idx m)
    (am_host_ar_fifos m) (am_host_aw_fifos m) (am_host_w_fifos m) (am_rd_ost m) (am_wr_data_ost m) (am_wr_rsp_ost m)
    (am_perf_stg_ar_full m) (am_perf_stg_aw_full m) (am_perf_stg_w_full m).

Fixpoint axi_mux_reset_loop (n : nat) (i : Z) : M axi_mux_t unit :=
  match n with
  | O => mret tt
  | S n =>
    on am_host_ar_fifos (at_elem i chan_clear);;
    on am_host_aw_fifos (at_elem i chan_clear);;
    on am_host_w_fifos (at_elem i chan_clear);;
    axi_mux_reset_loop n (i + 1)
  end.

Definition axi_mux_reset : M axi_mux_t unit :=
  modify (fun m => m <| am_rd_rr_idx := 0 |> <| am_wr_rr_idx := 0 |>);;
  m ← gets id;
  axi_mux_reset_loop (Z.to_nat (am_host_num m)) 0;;
  on am_rd_ost ostk_reset;;
  on am_wr_data_ost ostq_reset;;
  on am_wr_rsp_ost ostk_reset;;
  modify (fun m => m <| am_perf_stg_ar_full := 0 |> <| am_perf_stg_aw_full := 0 |> <| am_perf_stg_w_full := 0 |>).

Definition axi_mux_capture_ar : M axi_mux_t unit :=
  m ← gets id;
  hosts_capture am_host_ar_slvs am_host_ar_fifos am_perf_stg_ar_full (Z.to_nat (am_host_num m)) 0.

Definition axi_mux_capture_aw : M axi_mux_t unit :=
  m ← gets id;
  hosts_capture am_host_aw_slvs am_host_aw_fifos am_perf_stg_aw_full (Z.to_nat (am_host_num m)) 0.

Definition axi_mux_capture_w : M axi_mux_t unit :=
  m ← gets id;
  hosts_capture am_host_w_slvs am_host_w_fifos am_perf_stg_w_full (Z.to_nat (am_host_num m)) 0.

Definition axi_mux_proc_b : M axi_mux_t unit :=
  m ← gets id;
  if chan_empty (am_gst_b_slv m) then mret tt
  else
    b ← on am_gst_b_slv chan_front;
    found ← on am_wr_rsp_ost (ostk_peek_key (b_id b));
    '(ctx, slot) ← of_option found;
    DBG_CHECK (ax_host_idx ctx <? am_host_num m);;
    o ← of_option (aget (am_host_b_msts m) (ax_host_idx ctx));
    host_b ← of_option o;
    if chan_full host_b then mret tt
    else
      on am_gst_b_slv chan_read;;
      on am_host_b_msts (at_itf (ax_host_idx ctx) (chan_write b));;
      on am_wr_rsp_ost (ostk_free_slot slot).

Definition axi_mux_proc_r : M axi_mux_t unit :=
  m ← gets id;
  if chan_empty (am_gst_r_slv m) then mret tt
  else
    r ← on am_gst_r_slv chan_front;
    found ← on am_rd_ost (ostk_peek_key (r_id r));
    '(ctx, slot) ← of_option found;
    DBG_CHECK (ax_host_idx ctx <? am_host_num m);;
    o ← of_option (aget (am_host_r_msts m) (ax_host_idx ctx));
    host_r ← of_option o;
    if chan_full host_r then mret tt
    else
      on am_gst_r_slv chan_read;;
      on am_host_r_msts (at_itf (ax_host_idx ctx) (chan_write r));;
      when (r_last r) (on am_rd_ost (ostk_free_slot slot)).

Definition axi_mux_proc_w : M axi_mux_t unit :=
  m ← gets id;
  if chan_full (am_gst_w_mst m) then mret tt
  else
    head ← on am_wr_data_ost ostq_peek_head;
    match head with
    | None => mret tt
    | Some (ctx, _) =>
      DBG_CHECK (ax_host_idx ctx <? am_host_num m);;
      host_w_fifo ← of_option (aget (am_host_w_fifos m) (ax_host_idx ctx));
      if chan_empty host_w_fifo then mret tt
      else
        w ← on am_host_w_fifos (at_elem (ax_host_idx ctx) chan_read);
        on am_gst_w_mst (chan_write w);;
        when (w_last w) (on am_wr_data_ost ostq_free_head)
    end.

(** Turn [i] of the search for a host with a write address, [n] turns left. *)
Fixpoint axi_mux_aw_loop (n : nat) (i : Z) : M axi_mux_t unit :=
  match n with
  | O => mret tt
  | S n =>
    m ← gets id;
    let host_idx := u32 (am_wr_rr_idx m + i) mod am_host_num m in
    host_aw_fifo ← of_option (aget (am_host_aw_fifos m) host_idx);
    if chan_empty host_aw_fifo then axi_mux_aw_loop n (i + 1)
    else
      aw ← on am_host_aw_fifos (at_elem host_idx chan_front);
      let ctx := AxiMuxOstCtx host_idx in
      alloc_ok ← on am_wr_data_ost (ostq_alloc ctx);
      DBG_CHECK (bool_decide (is_Some alloc_ok));;
      alloc_ok ← on am_wr_rsp_ost (ostk_alloc (aw_id aw) ctx);
      DBG_CHECK (bool_decide (is_Some alloc_ok));;
      aw ← on am_host_aw_fifos (at_elem host_idx chan_read);
      on am_gst_aw_mst (chan_write aw);;
      modify (fun m => m <| am_wr_rr_idx := u32 (host_idx + 1) mod am_host_num m |>)
  end.

Definition axi_mux_proc_aw : M axi_mux_t unit :=
  m ← gets id;
  if ostq_full (am_wr_data_ost m) || ostk_full (am_wr_rsp_ost m) then mret tt
  else if chan_full (am_gst_aw_mst m) then mret tt
  else axi_mux_aw_loop (Z.to_nat (am_host_num m)) 0.

(** Turn [i] of the search for a host with a read address, [n] turns left. *)
Fixpoint axi_mux_ar_loop (n : nat) (i : Z) : M axi_mux_t unit :=
  match n with
  | O => mret tt
  | S n =>
    m ← gets id;
    let host_idx := u32 (am_rd_rr_idx m + i) mod am_host_num m in
    host_ar_fifo ← of_option (aget (am_host_ar_fifos m) host_idx);
    if chan_empty host_ar_fifo then axi_mux_ar_loop n (i + 1)
    else
      ar ← on am_host_ar_fifos (at_elem host_idx chan_front);
      alloc_ok ← on am_rd_ost (ostk_alloc (ar_id ar) (AxiMuxOstCtx host_idx));
      DBG_CHECK (bool_decide (is_Some alloc_ok));;
      ar ← on am_host_ar_fifos (at_elem host_idx chan_read);
      on am_gst_ar_mst (chan_write ar);;
      modify (fun m => m <| am_rd_rr_idx := u32 (host_idx + 1) mod am_host_num m |>)
  end.

Definition axi_mux_proc_ar : M axi_mux_t unit :=
  m ← gets id;
  if ostk_full (am_rd_ost m) then mret tt
  else if chan_full (am_gst_ar_mst m) then mret tt
  else axi_mux_ar_loop (Z.to_nat (am_host_num m)) 0.

Definition axi_mux_clock : M axi_mux_t unit :=
  on am_rd_ost ostk_clock;;
  on am_wr_data_ost ostq_clock;;
  on am_wr_rsp_ost ostk_clock;;
  axi_mux_capture_ar;;
  axi_mux_capture_aw;;
  axi_mux_capture_w;;
  axi_mux_proc_b;;
  axi_mux_proc_r;;
  axi_mux_proc_w;;
  axi_mux_proc_aw;;
  axi_mux_proc_ar.

(** ** The demultiplexer *)

Definition AXI_DEMUX_GST_NUM_MAX : Z := 16.

Record axi_demux_rd_ctx_t := AxiDemuxRdCtx { adr_gst_idx : Z }.
#[export] Instance zero_axi_demux_rd_ctx : Zero axi_demux_rd_ctx_t := AxiDemuxRdCtx 0.
Record axi_demux_wr_rsp_ctx_t := AxiDemuxWrRspCtx { adb_gst_idx : Z; adb_decerr : bool; adb_decerr_valid : bool }.
#[export] Instance zero_axi_demux_wr_rsp_ctx : Zero axi_demux_wr_rsp_ctx_t := AxiDemuxWrRspCtx 0 false false.
#[export] Instance eta_axi_demux_wr_rsp_ctx : Eta axi_demux_wr_rsp_ctx_t := fun c =>
  AxiDemuxWrRspCtx (adb_gst_idx c) (adb_decerr c) (adb_decerr_valid c).
Record axi_demux_wr_data_ctx_t := AxiDemuxWrDataCtx { adw_gst_idx : Z; adw_rsp_slot : Z; adw_decerr : bool }.
#[export] Instance zero_axi_demux_wr_data_ctx : Zero axi_demux_wr_data_ctx_t := AxiDemuxWrDataCtx 0 0 false.

Record axi_demux_t := AxiDemux {
  xd_host_aw_slv : chan axi4_aw_if_t;
  xd_host_w_slv : chan axi4_w_if_t;
  xd_host_b_mst : chan axi4_b_if_t;
  xd_host_ar_slv : chan axi4_ar_if_t;
  xd_host_r_mst : chan axi4_r_if_t;
  xd_gst_aw_msts : list (option (chan axi4_aw_if_t));
  xd_gst_w_msts : list (option (chan axi4_w_if_t));
  xd_gst_b_slvs : list (option (chan axi4_b_if_t));
  xd_gst_ar_msts : list (option (chan axi4_ar_if_t));
  xd_gst_r_slvs : list (option (chan axi4_r_if_t));
  xd_gst_num : Z;
  xd_gst_bases : list Z;
  xd_gst_sizes : list Z;
  xd_rd_rsp_rr_idx : Z;
  xd_wr_rsp_rr_idx : Z;
  xd_ar_fifo : chan axi4_ar_if_t;
  xd_aw_fifo : chan axi4_aw_if_t;
  xd_w_fifo : chan axi4_w_if_t;
  xd_rd_ost : ostk_t axi_demux_rd_ctx_t;
  xd_wr_data_ost : ostq_t axi_demux_wr_data_ctx_t;
  xd_wr_rsp_ost : ostk_t axi_demux_wr_rsp_ctx_t;
  xd_perf_stg_ar_full : Z;
  xd_perf_stg_aw_full : Z;
  xd_perf_stg_w_full : Z
}.
#[export] Instance eta_axi_demux : Eta axi_demux_t := fun d =>
  AxiDemux (xd_host_aw_slv d) (xd_host_w_slv d) (xd_host_b_mst d) (xd_host_ar_slv d) (xd_host_r_mst d) (xd_gst_aw_msts d)
    (xd_gst_w_msts d) (xd_gst_b_slvs d) (xd_gst_ar_msts d) (xd_gst_r_slvs d) (xd_gst_num d) (xd_gst_bases d) (xd_gst_sizes d)
    (xd_rd_rsp_rr_idx d) (xd_wr_rsp_rr_idx d) (xd_ar_fifo d) (xd_aw_fifo d) (xd_w_fifo d) (xd_rd_ost d) (xd_wr_data_ost d)
    (xd_wr_rsp_ost d) (xd_perf_stg_ar_full d) (xd_perf_stg_aw_full d) (xd_perf_stg_w_full d).

Definition axi_demux_reset : M axi_demux_t unit :=
  modify (fun d => d <| xd_rd_rsp_rr_idx := 0 |> <| xd_wr_rsp_rr_idx := 0 |>);;
  on xd_ar_fifo chan_clear;;
  on xd_aw_fifo chan_clear;;
  on xd_w_fifo chan_clear;;
  on xd_rd_ost ostk_reset;;
  on xd_wr_data_ost ostq_reset;;
  on xd_wr_rsp_ost ostk_reset;;
  modify (fun d => d <| xd_perf_stg_ar_full := 0 |> <| xd_perf_stg_aw_full := 0 |> <| xd_perf_stg_w_full := 0 |>).

(** The inner [None] is the return value [false]. *)
Definition axi_demux_decode (d : axi_demux_t) (addr : Z) : option (option Z) :=
  i ← decode_loop (xd_gst_bases d) (xd_gst_sizes d) addr (Z.to_nat (xd_gst_num d)) 0;
  Some (if i <? xd_gst_num d then Some i else None).

Definition axi_demux_capture_ar : M axi_demux_t unit := stage_capture xd_host_ar_slv xd_ar_fifo xd_perf_stg_ar_full.
Definition axi_demux_capture_aw : M axi_demux_t unit := stage_capture xd_host_aw_slv xd_aw_fifo xd_perf_stg_aw_full.
Definition axi_demux_capture_w : M axi_demux_t unit := stage_capture xd_host_w_slv xd_w_fifo xd_perf_stg_w_full.

Definition axi_demux_proc_ar : M axi_demux_t unit :=
  d ← gets id;
  if chan_empty (xd_ar_fifo d) then mret tt
  else
    ar ← on xd_ar_fifo chan_front;
    hit ← of_option (axi_demux_decode d (ar_addr ar));
    match hit with
    | None =>
      if chan_full (xd_host_r_mst d) then mret tt
      else
        ar ← on xd_ar_fifo chan_read;
        on xd_host_r_mst (chan_write (AxiR (ar_id ar) 0 AXI4_RESP_DECERR true))
    | Some gst_idx =>
      if ostk_full (xd_rd_ost d) then mret tt
      else
        o ← of_option (aget (xd_gst_ar_msts d) gst_idx);
        gst_ar ← of_option o;
        if chan_full gst_ar then mret tt
        else
          ar ← on xd_ar_fifo chan_read;
          on xd_gst_ar_msts (at_itf gst_idx (chan_write ar));;
          alloc_ok ← on xd_rd_ost (ostk_alloc (ar_id ar) (AxiDemuxRdCtx gst_idx));
          DBG_CHECK (bool_decide (is_Some alloc_ok))
    end.

Definition axi_demux_find_ready_decerr_b : M axi_demux_t (option Z) :=
  d ← gets id;
  best ← on xd_wr_rsp_ost (ready_loop (fun ctx => adb_decerr ctx && adb_decerr_valid ctx) (Z.to_nat (k_depth (xd_wr_rsp_ost d))) 0 None);
  mret (fst <$> best).

(** Turn [i] of the search for a guest with a write answer, [n] turns left. *)
Fixpoint axi_demux_b_loop (n : nat) (i : Z) : M axi_demux_t unit :=
  match n with
  | O => mret tt
  | S n =>
    d ← gets id;
    let gst_idx := u32 (xd_wr_rsp_rr_idx d + i) mod xd_gst_num d in
    o ← of_option (aget (xd_gst_b_slvs d) gst_idx);
    gst_b ← of_option o;
    if chan_empty gst_b then axi_demux_b_loop n (i + 1)
    else
      b ← on xd_gst_b_slvs (at_itf gst_idx chan_front);
      found ← on xd_wr_rsp_ost (ostk_peek_key (b_id b));
      '(ctx, slot) ← of_option found;
      if adb_decerr ctx || negb (adb_gst_idx ctx =? gst_idx) then axi_demux_b_loop n (i + 1)
      else
        on xd_gst_b_slvs (at_itf gst_idx chan_read);;
        on xd_host_b_mst (chan_write b);;
        on xd_wr_rsp_ost (ostk_free_slot slot);;
        modify (fun d => d <| xd_wr_rsp_rr_idx := u32 (gst_idx + 1) mod xd_gst_num d |>)
  end.

Definition axi_demux_proc_b : M axi_demux_t unit :=
  d ← gets id;
  if chan_full (xd_host_b_mst d) then mret tt
  else
    decerr_slot ← axi_demux_find_ready_decerr_b;
    match decerr_slot with
    | Some slot =>
      entry ← of_option (aget (k_entries (xd_wr_rsp_ost d)) slot);
      on xd_host_b_mst (chan_write (AxiB (u8 (k_key entry)) AXI4_RESP_DECERR));;
      on xd_wr_rsp_ost (ostk_free_slot slot)
    | None => axi_demux_b_loop (Z.to_nat (xd_gst_num d)) 0
    end.

(** Turn [i] of the search for a guest with a read answer, [n] turns left. *)
Fixpoint axi_demux_r_loop (n : nat) (i : Z) : M axi_demux_t unit :=
  match n with
  | O => mret tt
  | S n =>
    d ← gets id;
    let gst_idx := u32 (xd_rd_rsp_rr_idx d + i) mod xd_gst_num d in
    o ← of_option (aget (xd_gst_r_slvs d) gst_idx);
    gst_r ← of_option o;
    if chan_empty gst_r then axi_demux_r_loop n (i + 1)
    else
      r ← on xd_gst_r_slvs (at_itf gst_idx chan_front);
      found ← on xd_rd_ost (ostk_peek_key (r_id r));
      '(ctx, slot) ← of_option found;
      if negb (adr_gst_idx ctx =? gst_idx) then axi_demux_r_loop n (i + 1)
      else
        on xd_gst_r_slvs (at_itf gst_idx chan_read);;
        on xd_host_r_mst (chan_write r);;
        when (r_last r) (on xd_rd_ost (ostk_free_slot slot));;
        modify (fun d => d <| xd_rd_rsp_rr_idx := u32 (gst_idx + 1) mod xd_gst_num d |>)
  end.

Definition axi_demux_proc_r : M axi_demux_t unit :=
  d ← gets id;
  if chan_full (xd_host_r_mst d) then mret tt
  else axi_demux_r_loop (Z.to_nat (xd_gst_num d)) 0.

Definition axi_demux_proc_w : M axi_demux_t unit :=
  d ← gets id;
  if chan_empty (xd_w_fifo d) then mret tt
  else
    head ← on xd_wr_data_ost ostq_peek_head;
    match head with
    | None => mret tt
    | Some (ctx, _) =>
      w ← on xd_w_fifo chan_front;
      if adw_decerr ctx then
        w ← on xd_w_fifo chan_read;
        when (w_last w)
          (ok ← on xd_wr_rsp_ost (ostk_slot_valid (adw_rsp_slot ctx));
           DBG_CHECK ok;;
           rsp_ctx ← on xd_wr_rsp_ost (ostk_read_slot (adw_rsp_slot ctx));
           DBG_CHECK (adb_decerr rsp_ctx);;
           on xd_wr_rsp_ost (ostk_write_slot (adw_rsp_slot ctx) (rsp_ctx <| adb_decerr_valid := true |>));;
           on xd_wr_data_ost ostq_free_head)
      else
        DBG_CHECK (adw_gst_idx ctx <? xd_gst_num d);;
        o ← of_option (aget (xd_gst_w_msts d) (adw_gst_idx ctx));
        gst_w ← of_option o;
        if chan_full gst_w then mret tt
        else
          w ← on xd_w_fifo chan_read;
          on xd_gst_w_msts (at_itf (adw_gst_idx ctx) (chan_write w));;
          when (w_last w) (on xd_wr_data_ost ostq_free_head)
    end.

(** The test for room at the guest of a write address. *)
Definition gst_aw_full (d : axi_demux_t) (hit : option Z) : option bool :=
  match hit with
  | None => Some false
  | Some gst_idx => o ← aget (xd_gst_aw_msts d) gst_idx; gst_aw ← o; Some (chan_full gst_aw)
  end.

Definition axi_demux_proc_aw : M axi_demux_t unit :=
  d ← gets id;
  if chan_empty (xd_aw_fifo d) then mret tt
  else if ostq_full (xd_wr_data_ost d) || ostk_full (xd_wr_rsp_ost d) then mret tt
  else
    aw ← on xd_aw_fifo chan_front;
    hit ← of_option (axi_demux_decode d (aw_addr aw));
    full ← of_option (gst_aw_full d hit);
    if full : bool then mret tt
    else
      aw ← on xd_aw_fifo chan_read;
      let decerr := bool_decide (hit = None) in
      rsp_slot ← on xd_wr_rsp_ost (ostk_alloc (aw_id aw) (AxiDemuxWrRspCtx (default 0 hit) decerr false));
      rsp_slot ← of_option rsp_slot;
      alloc_ok ← on xd_wr_data_ost (ostq_alloc (AxiDemuxWrDataCtx (default 0 hit) rsp_slot decerr));
      DBG_CHECK (bool_decide (is_Some alloc_ok));;
      match hit with
      | Some gst_idx => on xd_gst_aw_msts (at_itf gst_idx (chan_write aw))
      | None => mret tt
      end.

Definition axi_demux_clock : M axi_demux_t unit :=
  on xd_rd_ost ostk_clock;;
  on xd_wr_data_ost ostq_clock;;
  on xd_wr_rsp_ost ostk_clock;;
  axi_demux_capture_ar;;
  axi_demux_capture_aw;;
  axi_demux_capture_w;;
  axi_demux_proc_b;;
  axi_demux_proc_r;;
  axi_demux_proc_w;;
  axi_demux_proc_aw;;
  axi_demux_proc_ar.
