(* ===== verification/Bridge.v ===== *)
(** * The bridges between the BTI and the AXI interconnect

    [bus/bridge/bti2axi.c] and [bus/bridge/axi2bti.c]. *)

From stdpp Require Import base numbers list.
From Stdlib Require Import ZArith Lia.
From S2P Require Import Prelude Fifo Ost Bti Axi AxiBus.

(** The cast [(u16)]. *)
Definition u16 (x : Z) : Z := x mod 65536.

(** ** BTI to AXI *)

Definition BTI2AXI_AXI_ID : Z := 0.

Record bti2axi_ost_ctx_t := Bti2axiOstCtx { bx_bti_trans_id : Z }.
#[export] Instance zero_bti2axi_ost_ctx : Zero bti2axi_ost_ctx_t := Bti2axiOstCtx 0.

Record bti2axi_t := Bti2axi {
  bx_bti_req_slv : chan bti_req_if_t;
  bx_bti_rsp_mst : chan bti_rsp_if_t;
  bx_axi4_aw_mst : chan axi4_aw_if_t;
  bx_axi4_w_mst : chan axi4_w_if_t;
  bx_axi4_b_slv : chan axi4_b_if_t;
  bx_axi4_ar_mst : chan axi4_ar_if_t;
  bx_axi4_r_slv : chan axi4_r_if_t;
  bx_bti_req_fifo : chan bti_req_if_t;
  bx_rd_ost : ostk_t bti2axi_ost_ctx_t;
  bx_wr_ost : ostk_t bti2axi_ost_ctx_t;
  bx_perf_stg_full : Z
}.
#[export] Instance eta_bti2axi : Eta bti2axi_t := fun b =>
  Bti2axi (bx_bti_req_slv b) (bx_bti_rsp_mst b) (bx_axi4_aw_mst b) (bx_axi4_w_mst b) (bx_axi4_b_slv b) (bx_axi4_ar_mst b)
    (bx_axi4_r_slv b) (bx_bti_req_fifo b) (bx_rd_ost b) (bx_wr_ost b) (bx_perf_stg_full b).

Definition bti2axi_reset : M bti2axi_t unit :=
  on bx_bti_req_fifo chan_clear;;
  on bx_rd_ost ostk_reset;;
  on bx_wr_ost ostk_reset;;
  modify (fun br => br <| bx_perf_stg_full := 0 |>).

Definition bti2axi_req_aligned (req : bti_req_if_t) : bool :=
  if bq_size req =? BTI_REQ_SIZE_B1 then true
  else if bq_size req =? BTI_REQ_SIZE_B2 then Z.land (bq_addr req) 1 =? 0
  else if bq_size req =? BTI_REQ_SIZE_B4 then Z.land (bq_addr req) 3 =? 0
  else false.

Definition bti2axi_capture_req : M bti2axi_t unit :=
  br ← gets id;
  if chan_full (bx_bti_req_fifo br) then
    when (negb (chan_empty (bx_bti_req_slv br))) (modify (fun br => br <| bx_perf_stg_full := u64 (bx_perf_stg_full br + 1) |>))
  else if chan_empty (bx_bti_req_slv br) then mret tt
  else
    bti_req ← on bx_bti_req_slv chan_read;
    DBG_CHECK (bti2axi_req_aligned bti_req);;
    on bx_bti_req_fifo (chan_write bti_req).

Definition bti2axi_proc_req : M bti2axi_t unit :=
  br ← gets id;
  if chan_empty (bx_bti_req_fifo br) then mret tt
  else
    bti_req ← on bx_bti_req_fifo chan_front;
    if bq_cmd bti_req =? BTI_REQ_CMD_READ then
      if ostk_full (bx_rd_ost br) then mret tt
      else if chan_full (bx_axi4_ar_mst br) then mret tt
      else
        bti_req ← on bx_bti_req_fifo chan_read;
        let ar := AxiAr BTI2AXI_AXI_ID (bq_addr bti_req) 0 (bq_size bti_req) AXI4_BURST_INCR false 0 0 0 0 in
        alloc_ok ← on bx_rd_ost (ostk_alloc (ar_id ar) (Bti2axiOstCtx (bq_trans_id bti_req)));
        DBG_CHECK (bool_decide (is_Some alloc_ok));;
        on bx_axi4_ar_mst (chan_write ar)
    else if bq_cmd bti_req =? BTI_REQ_CMD_WRITE then
      if ostk_full (bx_wr_ost br) then mret tt
      else if chan_full (bx_axi4_aw_mst br) || chan_full (bx_axi4_w_mst br) then mret tt
      else
        bti_req ← on bx_bti_req_fifo chan_read;
        let aw := AxiAw BTI2AXI_AXI_ID (bq_addr bti_req) 0 (bq_size bti_req) AXI4_BURST_INCR false 0 0 0 0 in
        let w := AxiW (bq_data bti_req) (u8 (Z.land (bq_strobe bti_req) 0xf)) true in
        alloc_ok ← on bx_wr_ost (ostk_alloc (aw_id aw) (Bti2axiOstCtx (bq_trans_id bti_req)));
        DBG_CHECK (bool_decide (is_Some alloc_ok));;
        on bx_axi4_aw_mst (chan_write aw);;
        on bx_axi4_w_mst (chan_write w)
    else if chan_full (bx_bti_rsp_mst br) then mret tt
    else
      bti_req ← on bx_bti_req_fifo chan_read;
      on bx_bti_rsp_mst (chan_write (BtiRsp (bq_trans_id bti_req) 0 false)).

Definition bti2axi_proc_rd_rsp : M bti2axi_t unit :=
  br ← gets id;
  if chan_empty (bx_axi4_r_slv br) then mret tt
  else if chan_full (bx_bti_rsp_mst br) then mret tt
  else
    r ← on bx_axi4_r_slv chan_front;
    DBG_CHECK (r_last r);;
    found ← on bx_rd_ost (ostk_peek_key (r_id r));
    '(ctx, slot) ← of_option found;
    r ← on bx_axi4_r_slv chan_read;
    on bx_bti_rsp_mst (chan_write (BtiRsp (bx_bti_trans_id ctx) (r_data r) (r_resp r =? 0)));;
    on bx_rd_ost (ostk_free_slot slot).

Definition bti2axi_proc_wr_rsp : M bti2axi_t unit :=
  br ← gets id;
  if chan_empty (bx_axi4_b_slv br) then mret tt
  else if chan_full (bx_bti_rsp_mst br) then mret tt
  else
    b ← on bx_axi4_b_slv chan_front;
    found ← on bx_wr_ost (ostk_peek_key (b_id b));
    '(ctx, slot) ← of_option found;
    b ← on bx_axi4_b_slv chan_read;
    on bx_bti_rsp_mst (chan_write (BtiRsp (bx_bti_trans_id ctx) 0 (b_resp b =? 0)));;
    on bx_wr_ost (ostk_free_slot slot).

Definition bti2axi_clock : M bti2axi_t unit :=
  on bx_rd_ost ostk_clock;;
  on bx_wr_ost ostk_clock;;
  bti2axi_capture_req;;
  bti2axi_proc_rd_rsp;;
  bti2axi_proc_wr_rsp;;
  bti2axi_proc_req.

(** ** AXI to BTI *)

Inductive axi2bti_beat_kind_t := AXI2BTI_BEAT_READ | AXI2BTI_BEAT_WRITE.

Record axi2bti_rd_ctx_t := Axi2btiRdCtx {
  rc_axid : Z; rc_axaddr : Z; rc_axlen : Z; rc_axsize : Z; rc_axburst : Z; rc_beat_idx : Z; rc_bti_rsp_pending : bool;
  rc_rsp_valid : bool; rc_rsp_ok : bool; rc_rsp_data : Z }.
#[export] Instance eta_axi2bti_rd_ctx : Eta axi2bti_rd_ctx_t := fun c =>
  Axi2btiRdCtx (rc_axid c) (rc_axaddr c) (rc_axlen c) (rc_axsize c) (rc_axburst c) (rc_beat_idx c) (rc_bti_rsp_pending c)
    (rc_rsp_valid c) (rc_rsp_ok c) (rc_rsp_data c).
#[export] Instance zero_axi2bti_rd_ctx : Zero axi2bti_rd_ctx_t := Axi2btiRdCtx 0 0 0 0 0 0 false false false 0.

Record axi2bti_wr_ctx_t := Axi2btiWrCtx {
  wc_axid : Z; wc_axaddr : Z; wc_axlen : Z; wc_axsize : Z; wc_axburst : Z; wc_beat_idx : Z; wc_bti_rsp_pending : bool;
  wc_pending_last : bool; wc_b_valid : bool; wc_b_ok : bool }.
#[export] Instance eta_axi2bti_wr_ctx : Eta axi2bti_wr_ctx_t := fun c =>
  Axi2btiWrCtx (wc_axid c) (wc_axaddr c) (wc_axlen c) (wc_axsize c) (wc_axburst c) (wc_beat_idx c) (wc_bti_rsp_pending c)
    (wc_pending_last c) (wc_b_valid c) (wc_b_ok c).
#[export] Instance zero_axi2bti_wr_ctx : Zero axi2bti_wr_ctx_t := Axi2btiWrCtx 0 0 0 0 0 0 false false false false.

Record axi2bti_beat_ctx_t := Axi2btiBeatCtx { bc_kind : axi2bti_beat_kind_t; bc_slot : Z }.
#[export] Instance zero_axi2bti_beat_ctx : Zero axi2bti_beat_ctx_t := Axi2btiBeatCtx AXI2BTI_BEAT_READ 0.

Record axi2bti_t := Axi2bti {
  xb_axi4_ar_slv : chan axi4_ar_if_t;
  xb_axi4_r_mst : chan axi4_r_if_t;
  xb_axi4_aw_slv : chan axi4_aw_if_t;
  xb_axi4_w_slv : chan axi4_w_if_t;
  xb_axi4_b_mst : chan axi4_b_if_t;
  xb_bti_req_mst : chan bti_req_if_t;
  xb_bti_rsp_slv : chan bti_rsp_if_t;
  xb_ar_fifo : chan axi4_ar_if_t;
  xb_aw_fifo : chan axi4_aw_if_t;
  xb_w_fifo : chan axi4_w_if_t;
  xb_rd_ost : ostk_t axi2bti_rd_ctx_t;
  xb_wr_ost : ostq_t axi2bti_wr_ctx_t;
  xb_beat_ost : ostk_t axi2bti_beat_ctx_t;
  xb_next_bti_trans_id : Z;
  xb_issue_wr_prio : bool;
  xb_perf_stg_ar_full : Z;
  xb_perf_stg_aw_full : Z;
  xb_perf_stg_w_full : Z
}.
#[export] Instance eta_axi2bti : Eta axi2bti_t := fun b =>
  Axi2bti (xb_axi4_ar_slv b) (xb_axi4_r_mst b) (xb_axi4_aw_slv b) (xb_axi4_w_slv b) (xb_axi4_b_mst b) (xb_bti_req_mst b)
    (xb_bti_rsp_slv b) (xb_ar_fifo b) (xb_aw_fifo b) (xb_w_fifo b) (xb_rd_ost b) (xb_wr_ost b) (xb_beat_ost b)
    (xb_next_bti_trans_id b) (xb_issue_wr_prio b) (xb_perf_stg_ar_full b) (xb_perf_stg_aw_full b) (xb_perf_stg_w_full b).

Definition axi2bti_next_addr (addr size burst : Z) : Z :=
  if burst =? 0 then addr else u32 (addr + u32 (Z.shiftl 1 size)).

Definition axi2bti_bti_id_active (br : axi2bti_t) (trans_id : Z) : bool :=
  existsb (fun entry => k_vld entry && negb (k_free_pending entry) && (k_key entry =? trans_id)) (k_entries (xb_beat_ost br)).

(** The turns of the search for a number that is not in use, [n] left. *)
Fixpoint trans_id_loop (n : nat) : M axi2bti_t Z :=
  match n with
  | O => abort
  | S n =>
    br ← gets id;
    let trans_id := xb_next_bti_trans_id br in
    modify (fun br => br <| xb_next_bti_trans_id := u16 (trans_id + 1) |>);;
    modify (fun br => if xb_next_bti_trans_id br =? 0 then br <| xb_next_bti_trans_id := 1 |> else br);;
    if trans_id =? 0 then trans_id_loop n
    else if negb (axi2bti_bti_id_active br trans_id) then mret trans_id
    else trans_id_loop n
  end.

Definition axi2bti_alloc_bti_trans_id : M axi2bti_t Z := trans_id_loop (Z.to_nat 0xffff).

Definition axi2bti_find_read_to_issue (br : axi2bti_t) : option Z :=
  fst <$> find_oldest (fun entry =>
    let ctx := k_ctx entry in
    negb (rc_bti_rsp_pending ctx || rc_rsp_valid ctx || (rc_axlen ctx <? rc_beat_idx ctx))) (k_entries (xb_rd_ost br)) 0 None.

(** With the test that the slot is the oldest of its number. *)
Definition axi2bti_find_read_to_output : M axi2bti_t (option Z) :=
  br ← gets id;
  best ← on xb_rd_ost (ready_loop rc_rsp_valid (Z.to_nat (k_depth (xb_rd_ost br))) 0 None);
  mret (fst <$> best).

Definition axi2bti_reset : M axi2bti_t unit :=
  on xb_ar_fifo chan_clear;;
  on xb_aw_fifo chan_clear;;
  on xb_w_fifo chan_clear;;
  on xb_rd_ost ostk_reset;;
  on xb_wr_ost ostq_reset;;
  on xb_beat_ost ostk_reset;;
  modify (fun br => br <| xb_next_bti_trans_id := 1 |> <| xb_issue_wr_prio := false |> <| xb_perf_stg_ar_full := 0 |>
    <| xb_perf_stg_aw_full := 0 |> <| xb_perf_stg_w_full := 0 |>).

Definition axi2bti_capture_ar : M axi2bti_t unit := stage_capture xb_axi4_ar_slv xb_ar_fifo xb_perf_stg_ar_full.
Definition axi2bti_capture_aw : M axi2bti_t unit := stage_capture xb_axi4_aw_slv xb_aw_fifo xb_perf_stg_aw_full.
Definition axi2bti_capture_w : M axi2bti_t unit := stage_capture xb_axi4_w_slv xb_w_fifo xb_perf_stg_w_full.

Definition axi2bti_proc_ar : M axi2bti_t unit :=
  br ← gets id;
  if chan_empty (xb_ar_fifo br) then mret tt
  else
    ar ← on xb_ar_fifo chan_front;
    if ar_burst ar =? AXI4_BURST_WRAP then
      if chan_full (xb_axi4_r_mst br) then mret tt
      else
        ar ← on xb_ar_fifo chan_read;
        on xb_axi4_r_mst (chan_write (AxiR (ar_id ar) 0 AXI4_RESP_SLVERR true))
    else if ostk_full (xb_rd_ost br) then mret tt
    else
      ar ← on xb_ar_fifo chan_read;
      alloc_ok ← on xb_rd_ost (ostk_alloc (ar_id ar)
        (Axi2btiRdCtx (ar_id ar) (ar_addr ar) (ar_len ar) (u8 (ar_size ar)) (u8 (ar_burst ar)) 0 false false false 0));
      DBG_CHECK (bool_decide (is_Some alloc_ok)).

Definition axi2bti_proc_aw : M axi2bti_t unit :=
  br ← gets id;
  if chan_empty (xb_aw_fifo br) then mret tt
  else
    aw ← on xb_aw_fifo chan_front;
    if aw_burst aw =? AXI4_BURST_WRAP then
      if chan_full (xb_axi4_b_mst br) then mret tt
      else
        aw ← on xb_aw_fifo chan_read;
        on xb_axi4_b_mst (chan_write (AxiB (aw_id aw) AXI4_RESP_SLVERR))
    else if ostq_full (xb_wr_ost br) then mret tt
    else
      aw ← on xb_aw_fifo chan_read;
      alloc_ok ← on xb_wr_ost (ostq_alloc
        (Axi2btiWrCtx (aw_id aw) (aw_addr aw) (aw_len aw) (u8 (aw_size aw)) (u8 (aw_burst aw)) 0 false false false false));
      DBG_CHECK (bool_decide (is_Some alloc_ok)).

Definition axi2bti_proc_bti_rsp : M axi2bti_t unit :=
  br ← gets id;
  if chan_empty (xb_bti_rsp_slv br) then mret tt
  else
    rsp ← on xb_bti_rsp_slv chan_front;
    found ← on xb_beat_ost (ostk_peek_key (bp_trans_id rsp));
    '(beat_ctx, beat_slot) ← of_option found;
    on xb_bti_rsp_slv chan_read;;
    match bc_kind beat_ctx with
    | AXI2BTI_BEAT_READ =>
      ok ← on xb_rd_ost (ostk_slot_valid (bc_slot beat_ctx));
      DBG_CHECK ok;;
      rd_ctx ← on xb_rd_ost (ostk_read_slot (bc_slot beat_ctx));
      DBG_CHECK (rc_bti_rsp_pending rd_ctx);;
      DBG_CHECK (negb (rc_rsp_valid rd_ctx));;
      on xb_rd_ost (ostk_write_slot (bc_slot beat_ctx) (rd_ctx <| rc_bti_rsp_pending := false |> <| rc_rsp_valid := true |>
        <| rc_rsp_ok := bp_ok rsp |> <| rc_rsp_data := bp_data rsp |>))
    | AXI2BTI_BEAT_WRITE =>
      ok ← on xb_wr_ost (ostq_slot_valid (bc_slot beat_ctx));
      DBG_CHECK ok;;
      wr_ctx ← on xb_wr_ost (ostq_read_slot (bc_slot beat_ctx));
      DBG_CHECK (wc_bti_rsp_pending wr_ctx);;
      DBG_CHECK (negb (wc_b_valid wr_ctx));;
      let wr_ctx := wr_ctx <| wc_bti_rsp_pending := false |> in
      let wr_ctx :=
        if negb (bp_ok rsp) || wc_pending_last wr_ctx then wr_ctx <| wc_b_valid := true |> <| wc_b_ok := bp_ok rsp |>
        else wr_ctx <| wc_axaddr := axi2bti_next_addr (wc_axaddr wr_ctx) (wc_axsize wr_ctx) (wc_axburst wr_ctx) |>
          <| wc_beat_idx := u8 (wc_beat_idx wr_ctx + 1) |> in
      on xb_wr_ost (ostq_write_slot (bc_slot beat_ctx) (wr_ctx <| wc_pending_last := false |>))
    end;;
    on xb_beat_ost (ostk_free_slot beat_slot).

Definition axi2bti_proc_r : M axi2bti_t unit :=
  br ← gets id;
  if chan_full (xb_axi4_r_mst br) then mret tt
  else
    found ← axi2bti_find_read_to_output;
    match found with
    | None => mret tt
    | Some slot =>
      ctx ← on xb_rd_ost (ostk_read_slot slot);
      let last := (rc_beat_idx ctx =? rc_axlen ctx) || negb (rc_rsp_ok ctx) in
      on xb_axi4_r_mst (chan_write (AxiR (rc_axid ctx) (if rc_rsp_ok ctx then rc_rsp_data ctx else 0)
        (if rc_rsp_ok ctx then AXI4_RESP_OKAY else AXI4_RESP_SLVERR) last));;
      if last : bool then on xb_rd_ost (ostk_free_slot slot)
      else
        on xb_rd_ost (ostk_write_slot slot (ctx <| rc_rsp_valid := false |> <| rc_rsp_ok := false |> <| rc_rsp_data := 0 |>
          <| rc_axaddr := axi2bti_next_addr (rc_axaddr ctx) (rc_axsize ctx) (rc_axburst ctx) |>
          <| rc_beat_idx := u8 (rc_beat_idx ctx + 1) |>))
    end.

Definition axi2bti_proc_b : M axi2bti_t unit :=
  br ← gets id;
  if chan_full (xb_axi4_b_mst br) then mret tt
  else
    head ← on xb_wr_ost ostq_peek_head;
    match head with
    | None => mret tt
    | Some (ctx, _) =>
      if negb (wc_b_valid ctx) then mret tt
      else
        on xb_axi4_b_mst (chan_write (AxiB (wc_axid ctx) (if wc_b_ok ctx then AXI4_RESP_OKAY else AXI4_RESP_SLVERR)));;
        on xb_wr_ost ostq_free_head
    end.

Definition axi2bti_try_issue_read_req : M axi2bti_t bool :=
  br ← gets id;
  if chan_full (xb_bti_req_mst br) || ostk_full (xb_beat_ost br) then mret false
  else
    match axi2bti_find_read_to_issue br with
    | None => mret false
    | Some rd_slot =>
      rd_ctx ← on xb_rd_ost (ostk_read_slot rd_slot);
      trans_id ← axi2bti_alloc_bti_trans_id;
      alloc_ok ← on xb_beat_ost (ostk_alloc trans_id (Axi2btiBeatCtx AXI2BTI_BEAT_READ rd_slot));
      DBG_CHECK (bool_decide (is_Some alloc_ok));;
      on xb_bti_req_mst (chan_write (BtiReq trans_id BTI_REQ_CMD_READ (rc_axaddr rd_ctx) (rc_axsize rd_ctx) 0 0));;
      on xb_rd_ost (ostk_write_slot rd_slot (rd_ctx <| rc_bti_rsp_pending := true |>));;
      mret true
    end.

Definition axi2bti_try_issue_write_req : M axi2bti_t bool :=
  br ← gets id;
  if chan_full (xb_bti_req_mst br) || ostk_full (xb_beat_ost br) then mret false
  else
    head ← on xb_wr_ost ostq_peek_head;
    match head with
    | None => mret false
    | Some (wr_ctx, wr_slot) =>
      if wc_bti_rsp_pending wr_ctx || wc_b_valid wr_ctx then mret false
      else if chan_empty (xb_w_fifo br) then mret false
      else
        w ← on xb_w_fifo chan_front;
        let last := w_last w || (wc_beat_idx wr_ctx =? wc_axlen wr_ctx) in
        trans_id ← axi2bti_alloc_bti_trans_id;
        alloc_ok ← on xb_beat_ost (ostk_alloc trans_id (Axi2btiBeatCtx AXI2BTI_BEAT_WRITE wr_slot));
        DBG_CHECK (bool_decide (is_Some alloc_ok));;
        w ← on xb_w_fifo chan_read;
        on xb_bti_req_mst (chan_write (BtiReq trans_id BTI_REQ_CMD_WRITE (wc_axaddr wr_ctx) (wc_axsize wr_ctx) (w_data w) (w_strb w)));;
        on xb_wr_ost (ostq_write_slot wr_slot (wr_ctx <| wc_bti_rsp_pending := true |> <| wc_pending_last := last |>));;
        mret true
    end.

Definition axi2bti_proc_issue_req : M axi2bti_t unit :=
  br ← gets id;
  if xb_issue_wr_prio br then
    ok ← axi2bti_try_issue_write_req;
    if ok : bool then modify (fun br => br <| xb_issue_wr_prio := false |>)
    else
      ok ← axi2bti_try_issue_read_req;
      when ok (modify (fun br => br <| xb_issue_wr_prio := true |>))
  else
    ok ← axi2bti_try_issue_read_req;
    if ok : bool then modify (fun br => br <| xb_issue_wr_prio := true |>)
    else
      ok ← axi2bti_try_issue_write_req;
      when ok (modify (fun br => br <| xb_issue_wr_prio := false |>)).

Definition axi2bti_clock : M axi2bti_t unit :=
  on xb_rd_ost ostk_clock;;
  on xb_wr_ost ostq_clock;;
  on xb_beat_ost ostk_clock;;
  axi2bti_capture_ar;;
  axi2bti_capture_aw;;
  axi2bti_capture_w;;
  axi2bti_proc_bti_rsp;;
  axi2bti_proc_r;;
  axi2bti_proc_b;;
  axi2bti_proc_ar;;
  axi2bti_proc_aw;;
  axi2bti_proc_issue_req.
