(* ===== verification/KeyRoute.v ===== *)
(** * Answers routed by number

    A keyed table remembers, for the requests passed on to a guest, whom their answers belong to.  The
    guest answers the requests of one number in their order, a request with one or several beats of
    which the last is marked.  [route] relates the table to the requests on their way. *)

From stdpp Require Import base numbers list.
From Stdlib Require Import ZArith Lia.
From S2P Require Import Prelude Fifo Ost OstSpec OstKey.

Section route.
  Context {Q A C : Type} `{!Zero C} (key : Q -> Z) (ctx : Q -> C) (akey : A -> Z) (last : A -> bool).
  Implicit Types (q : Q) (a : A) (l o u log open ins ch : list Q) (dn rt : list (Q * A)).

(** The requests that the beats complete. *)
Definition fin (l : list (Q * A)) : list Q := (filter (fun x => last x.2) l).*1.

Lemma fin_app (l1 l2 : list (Q * A)) : fin (l1 ++ l2) = fin l1 ++ fin l2.
Proof. unfold fin. by rewrite filter_app, fmap_app. Qed.

Lemma fin_one q a : fin [(q, a)] = if last a then [q] else [].
Proof. unfold fin. rewrite filter_bool. cbn. by destruct (last a). Qed.

(** The next request of a number. *)
Definition next_of (k : Z) l : option Q := head (filter (fun q => key q = k) l).

(** Every beat belongs to the oldest request of its number that is not completed before it. *)
Fixpoint beats_ok rt l : Prop :=
  match rt with
  | [] => True
  | x :: rt' => next_of (key x.1) (fin rt ++ l) = Some x.1 /\ beats_ok rt' l
  end.

Lemma next_of_same k l l' : same_by_key key l l' -> next_of k l = next_of k l'.
Proof. intros H. unfold next_of. by rewrite H. Qed.

Lemma next_of_snoc k l q y : next_of k l = Some y -> next_of k (l ++ [q]) = Some y.
Proof. unfold next_of. rewrite filter_app. by destruct (filter _ l). Qed.

Lemma next_of_first l1 q l2 : (forall y, y ∈ l1 -> key y <> key q) -> next_of (key q) (l1 ++ q :: l2) = Some q.
Proof. intros H. unfold next_of. by rewrite filter_app, (filter_key_none key), filter_cons_True. Qed.

Lemma next_of_inv k l y : next_of k l = Some y -> key y = k /\ exists l1 l2, l = l1 ++ y :: l2 /\ forall z, z ∈ l1 -> key z <> k.
Proof.
  unfold next_of. induction l as [|z l IH]; [done|]. rewrite filter_cons. destruct (decide (key z = k)) as [Hz|Hz].
  - intros [= <-]. split; [done|]. exists [], l. split; [done|]. intros w Hw. by apply elem_of_nil in Hw.
  - intros H. destruct (IH H) as (Hk & l1 & l2 & -> & Hn). split; [done|]. exists (z :: l1), l2. split; [done|]. by intros w [->|Hw]%elem_of_cons; [|apply Hn].
Qed.

Lemma beats_same rt l l' : same_by_key key l l' -> beats_ok rt l -> beats_ok rt l'.
Proof.
  intros H. induction rt as [|x rt IH]; [done|]. intros [Hx Hr]. split; [|by apply IH]. rewrite <- Hx. symmetry. apply next_of_same.
  intros k. rewrite !filter_app. f_equal. apply H.
Qed.

Lemma beats_snoc rt l q : beats_ok rt l -> beats_ok rt (l ++ [q]).
Proof. induction rt as [|x rt IH]; [done|]. intros [Hx Hr]. split; [|by apply IH]. rewrite app_assoc. by apply next_of_snoc. Qed.

(** A beat for the oldest request of its number comes last. *)
Lemma beats_give rt q a i1 i2 ch : (forall y, y ∈ i1 -> key y <> key q) -> beats_ok rt ((i1 ++ q :: i2) ++ ch) ->
  beats_ok (rt ++ [(q, a)]) ((if last a then i1 ++ i2 else i1 ++ q :: i2) ++ ch).
Proof.
  intros Hn. assert (same_by_key key ((i1 ++ q :: i2) ++ ch) ((q :: i1 ++ i2) ++ ch)) as Hs.
  { intros k. rewrite !filter_app, !filter_cons, filter_app, <- !app_assoc. destruct (decide (key q = k)) as [<-|]; [|by rewrite <- app_assoc].
    by rewrite (filter_key_none key (key q) i1). }
  induction rt as [|x rt IH]; intros H.
  - cbn [app beats_ok]. split; [|done]. rewrite fin_one. cbn [fst]. destruct (last a).
    + cbn. apply (next_of_first []). intros y Hy. by apply elem_of_nil in Hy.
    + cbn. rewrite <- app_assoc. cbn. by apply next_of_first.
  - destruct H as [Hx Hr]. cbn [app beats_ok]. split; [|by apply IH]. rewrite app_comm_cons, fin_app, fin_one.
    destruct (last a); [|by rewrite app_nil_r]. rewrite <- app_assoc. cbn [app]. rewrite <- Hx. symmetry. apply next_of_same.
    intros k. rewrite !(filter_app _ (fin _)). f_equal. apply Hs.
Qed.

Record route (ost : ostk_t C) log dn rt open ins ch : Prop := {
  ro_table : key_live ost (Z.of_nat (length log)) ((fun q => (key q, ctx q)) <$> open);
  ro_log : log ≡ₚ fin dn ++ open;
  ro_match : same_by_key key (fin rt ++ ins ++ ch) open;
  ro_beats : beats_ok rt (ins ++ ch);
  ro_ids : Forall (fun x => akey x.2 = key x.1) rt
}.

Section rules.
  Context (ost : ostk_t C) (log : list Q) (dn rt : list (Q * A)) (open ins ch : list Q).
  Context (Hr : route ost log dn rt open ins ch).

Lemma wp_route_clock R : (forall ost', route ost' log dn rt open ins ch -> R tt ost') -> wp ostk_clock R ost.
Proof. intros HR. destruct Hr. eapply wp_key_clock; [done|]. intros ost' Ht. by apply HR. Qed.

Lemma wp_route_issue q R : ostk_full ost = false -> Z.of_nat (length log) + 1 < W64 ->
  (forall slot ost', route ost' (log ++ [q]) dn rt (open ++ [q]) ins (ch ++ [q]) -> R (Some slot) ost') -> wp (ostk_alloc (key q) (ctx q)) R ost.
Proof.
  intros Hf Hn HR. destruct Hr. eapply wp_key_alloc; [done..|]. intros slot ost' Ht. apply HR. split; try done.
  - rewrite length_app, fmap_app. cbn. by replace (Z.of_nat (length log + 1)) with (Z.of_nat (length log) + 1) by lia.
  - by rewrite ro_log0, app_assoc.
  - rewrite !app_assoc. rewrite <- (app_assoc (fin rt)). by apply by_key_snoc.
  - rewrite app_assoc. by apply beats_snoc.
Qed.

(** The slot holds the oldest request of the number of [q], which is [q]. *)
Definition route_slot (slot : Z) q : Prop := exists u1 u2, open = u1 ++ q :: u2 /\ (forall z, z ∈ u1 -> key z <> key q) /\
  key_slot ost slot ((fun q => (key q, ctx q)) <$> u1) (key q, ctx q) ((fun q => (key q, ctx q)) <$> u2).

Lemma wp_route_peek q a rt' R : rt = (q, a) :: rt' -> (q ∈ log -> forall slot, route_slot slot q -> R (Some (ctx q, slot)) ost) ->
  wp (ostk_peek_key (akey a)) R ost.
Proof.
  intros -> HR. destruct Hr. apply Forall_cons in ro_ids0 as [Hid _]. cbn in Hid. destruct ro_beats0 as [Hb _]. cbn [fst] in Hb.
  rewrite (next_of_same _ _ open) in Hb by done. destruct (next_of_inv _ _ _ Hb) as (_ & u1 & u2 & Eo & Hu).
  eapply wp_key_peek; [exact ro_table0| |].
  { intros Hno. exfalso. apply (Hno (key q, ctx q)); [|done]. apply list_elem_of_fmap. exists q. split; [done|]. rewrite Eo. apply elem_of_app. right. by left. }
  intros l1 c l2 slot El Hnone Hslot. apply fmap_app_inv in El as (v1 & v2' & E1 & E2 & Ev). symmetry in E2.
  apply fmap_cons_inv in E2 as (y & v2 & Ey & E2 & ->). injection Ey as Hy ->. rewrite Hid in Hy.
  assert (forall z, z ∈ v1 -> key z <> key q) as Hv.
  { intros z Hz E. apply (Hnone (key z, ctx z)); [|by rewrite Hid]. rewrite E1. apply list_elem_of_fmap. by exists z. }
  assert (y = q) as ->.
  { pose proof Hb as Hb'. rewrite Ev in Hb'. rewrite Hy in Hb'. rewrite Hy in Hv. rewrite next_of_first in Hb' by done. by injection Hb'. }
  apply HR; [rewrite ro_log0, Ev; apply elem_of_app; right; apply elem_of_app; right; by left|].
  exists v1, v2. split; [done|]. split; [done|]. by rewrite <- E1, <- E2, <- Hid.
Qed.

Lemma route_beat q a rt' : rt = (q, a) :: rt' -> last a = false -> route ost log (dn ++ [(q, a)]) rt' open ins ch.
Proof.
  intros -> Hl. destruct Hr. apply Forall_cons in ro_ids0 as [_ Hid]. destruct ro_beats0 as [_ Hb].
  assert (fin ((q, a) :: rt') = fin rt') as Ef by (change ((q, a) :: rt') with ([(q, a)] ++ rt'); by rewrite fin_app, fin_one, Hl).
  split; try done; [by rewrite fin_app, fin_one, Hl, app_nil_r|by rewrite <- Ef].
Qed.

Lemma wp_route_done q a rt' slot R : rt = (q, a) :: rt' -> last a = true -> route_slot slot q ->
  (forall ost' open', route ost' log (dn ++ [(q, a)]) rt' open' ins ch -> R tt ost') -> wp (ostk_free_slot slot) R ost.
Proof.
  intros -> Hl (u1 & u2 & Eo & Hu & Hs) HR. destruct Hr. apply Forall_cons in ro_ids0 as [_ Hid]. destruct ro_beats0 as [_ Hb].
  assert (fin ((q, a) :: rt') = q :: fin rt') as Ef by (change ((q, a) :: rt') with ([(q, a)] ++ rt'); by rewrite fin_app, fin_one, Hl).
  rewrite Ef, Eo in ro_match0. destruct (by_key_pop key q _ u1 q u2 ro_match0 eq_refl Hu) as [_ Hm].
  eapply wp_key_free; [exact ro_table0|exact Hs|]. intros ost' Ht. apply (HR ost' (u1 ++ u2)). split; try done.
  - by rewrite fmap_app.
  - rewrite ro_log0, fin_app, fin_one, Hl, Eo, <- app_assoc. apply Permutation_app_head. by rewrite <- Permutation_middle.
Qed.

Lemma route_take q ch' : ch = q :: ch' -> route ost log dn rt open (ins ++ [q]) ch'.
Proof. intros ->. destruct Hr. by split; rewrite <- ?app_assoc. Qed.

Lemma route_give q a i1 i2 : ins = i1 ++ q :: i2 -> (forall y, y ∈ i1 -> key y <> key q) -> akey a = key q ->
  route ost log dn (rt ++ [(q, a)]) open (if last a then i1 ++ i2 else i1 ++ q :: i2) ch.
Proof.
  intros -> Hn Ha. destruct Hr. split; try done; [| |].
  - rewrite fin_app, fin_one. destruct (last a); [|by rewrite app_nil_r].
    rewrite <- (app_assoc i1 i2). apply by_key_overtake; [done|]. by rewrite <- (app_assoc i1 (q :: i2)) in ro_match0.
  - by apply beats_give.
  - apply Forall_app. split; [done|]. by constructor.
Qed.
End rules.
End route.
