(* ===== verification/HostRoute.v ===== *)
(** * Hosts that share a guest

    The arrays of interfaces and staging FIFOs of a multiplexer, its capture loops, and one direction of
    it: requests of the hosts that go to the guest, and answers that come back to the host that asked. *)

From stdpp Require Import base numbers list relations.
From Stdlib Require Import ZArith Lia.
From S2P Require Import Prelude Fifo Ost OstSpec OstKey BtiBus BtiMuxSpec AxiBus KeyRoute.

(** ** Arrays *)

Section arrays.
  Context {X : Type}.
  Implicit Types (slvs msts : list (option (chan X))) (fifos : list (chan X)).

Definition hosts_in (num : Z) slvs fifos : Prop := forall h, 0 <= h < num -> exists f s,
  aget fifos h = Some f /\ aget slvs h = Some (Some s) /\ chan_wf f.
Definition hosts_out (num : Z) msts : Prop := forall h, 0 <= h < num -> exists r, aget msts h = Some (Some r) /\ chan_wf r.

(** What waits for the guest, and what waits for the host. *)
Definition host_waiting slvs fifos (h : Z) : list X :=
  match aget fifos h, aget slvs h with Some f, Some (Some s) => ch_pkts f ++ ch_pkts s | _, _ => [] end.
Definition host_queued msts (h : Z) : list X := match aget msts h with Some (Some r) => ch_pkts r | _ => [] end.

(** Packets have moved into the FIFOs. *)
Definition staged (num : Z) slvs fifos slvs' fifos' : Prop :=
  hosts_in num slvs' fifos' /\ forall h, host_waiting slvs' fifos' h = host_waiting slvs fifos h.

Lemma hosts_out_set num msts h r : hosts_out num msts -> 0 <= h < num -> chan_wf r -> hosts_out num (<[Z.to_nat h := Some r]> msts).
Proof.
  intros Ho Hh Hr k Hk. destruct (Ho h Hh) as (r0 & E0 & _). rewrite aget_insert by apply (aget_Some _ _ _ E0).
  destruct (Z.eqb_spec k h); [by exists r|by apply Ho].
Qed.

Lemma queued_set msts h r0 r k : aget msts h = Some (Some r0) ->
  host_queued (<[Z.to_nat h := Some r]> msts) k = if k =? h then ch_pkts r else host_queued msts k.
Proof. intros E. unfold host_queued. rewrite aget_insert by apply (aget_Some _ _ _ E). by destruct (k =? h). Qed.

Lemma hosts_in_slv num slvs fifos h s : hosts_in num slvs fifos -> 0 <= h < num -> hosts_in num (<[Z.to_nat h := Some s]> slvs) fifos.
Proof.
  intros Hi Hh k Hk. destruct (Hi h Hh) as (f0 & s0 & _ & E0 & _). rewrite aget_insert by apply (aget_Some _ _ _ E0).
  destruct (Hi k Hk) as (f1 & s1 & ? & ? & ?). destruct (Z.eqb_spec k h); [by exists f1, s|by exists f1, s1].
Qed.

Lemma hosts_in_fifo num slvs fifos h f : hosts_in num slvs fifos -> 0 <= h < num -> chan_wf f -> hosts_in num slvs (<[Z.to_nat h := f]> fifos).
Proof.
  intros Hi Hh Hf k Hk. destruct (Hi h Hh) as (f0 & s0 & E0 & _). rewrite aget_insert by apply (aget_Some _ _ _ E0).
  destruct (Hi k Hk) as (f1 & s1 & ? & ? & ?). destruct (Z.eqb_spec k h); [by exists f, s1|by exists f1, s1].
Qed.

Lemma waiting_send num slvs fifos h s x k : hosts_in num slvs fifos -> 0 <= h < num -> aget slvs h = Some (Some s) ->
  host_waiting (<[Z.to_nat h := Some (chan_snoc s x)]> slvs) fifos k = host_waiting slvs fifos k ++ (if k =? h then [x] else []).
Proof.
  intros Hi Hh Es. unfold host_waiting. rewrite aget_insert by apply (aget_Some _ _ _ Es). destruct (Z.eqb_spec k h) as [->|]; [|by rewrite app_nil_r].
  destruct (Hi h Hh) as (f & s' & -> & _). rewrite Es. cbn. by rewrite app_assoc.
Qed.

Lemma waiting_pop num slvs fifos h f x xs k : hosts_in num slvs fifos -> 0 <= h < num -> aget fifos h = Some f -> ch_pkts f = x :: xs ->
  host_waiting slvs fifos k = (if k =? h then [x] else []) ++ host_waiting slvs (<[Z.to_nat h := Chan (ch_depth f) xs]> fifos) k.
Proof.
  intros Hi Hh Ef Ex. unfold host_waiting. rewrite aget_insert by apply (aget_Some _ _ _ Ef). destruct (Z.eqb_spec k h) as [->|]; [|done].
  destruct (Hi h Hh) as (f' & s & _ & -> & _). by rewrite Ef, Ex.
Qed.

Lemma staged_one num slvs fifos h f s x xs : hosts_in num slvs fifos -> 0 <= h < num -> aget fifos h = Some f -> aget slvs h = Some (Some s) ->
  ch_pkts s = x :: xs -> chan_wf (chan_snoc f x) ->
  staged num slvs fifos (<[Z.to_nat h := Some (Chan (ch_depth s) xs)]> slvs) (<[Z.to_nat h := chan_snoc f x]> fifos).
Proof.
  intros Hi Hh Ef Es Ex Hw. split; [by apply hosts_in_fifo; [apply hosts_in_slv|..]|]. intros k. unfold host_waiting.
  rewrite !aget_insert by (apply (aget_Some _ _ _ Ef) || apply (aget_Some _ _ _ Es)). destruct (Z.eqb_spec k h) as [->|]; [|done].
  rewrite Ef, Es, Ex. cbn. by rewrite <- app_assoc.
Qed.
End arrays.

(** ** The capture loop *)

Section capture.
  Context {S X : Type} (slvs : S -> list (option (chan X))) (fifos : S -> list (chan X)) (perf : S -> Z).
  Context `{!Setter slvs, !Setter fifos, !Setter perf} (put : list (option (chan X)) -> list (chan X) -> Z -> S -> S).

(** The three members are independent parts of the state; [put] sets them all. *)
Record stage_view : Prop := {
  vw_slvs : forall a b c s, slvs (put a b c s) = a;
  vw_fifos : forall a b c s, fifos (put a b c s) = b;
  vw_same : forall s, put (slvs s) (fifos s) (perf s) s = s;
  vw_put : forall a b c a' b' c' s, put a' b' c' (put a b c s) = put a' b' c' s;
  vw_set_slvs : forall f s, upd slvs f s = put (f (slvs s)) (fifos s) (perf s) s;
  vw_set_fifos : forall f s, upd fifos f s = put (slvs s) (f (fifos s)) (perf s) s;
  vw_set_perf : forall f s, upd perf f s = put (slvs s) (fifos s) (f (perf s)) s
}.
  Context (V : stage_view).

Lemma hosts_capture_ok num n i s : hosts_in num (slvs s) (fifos s) -> 0 <= i -> i + Z.of_nat n <= num ->
  wp (hosts_capture slvs fifos perf n i) (fun _ s' => exists a b c, s' = put a b c s /\ staged num (slvs s) (fifos s) a b) s.
Proof.
  revert i s. induction n as [|n IH]; intros i s Hin Hi Hn; cbn [hosts_capture].
  { apply wp_ret. exists (slvs s), (fifos s), (perf s). by rewrite (vw_same V). }
  apply wp_bind, wp_gets. unfold id. destruct (Hin i ltac:(lia)) as (f & sl & Ef & Es & Wf). rewrite Ef, Es. do 3 apply wp_bind, wp_ret. apply wp_bind.
  assert (forall a b c, staged num (slvs s) (fifos s) a b ->
    wp (hosts_capture slvs fifos perf n (i + 1)) (fun _ s' => exists a b c, s' = put a b c s /\ staged num (slvs s) (fifos s) a b) (put a b c s)) as Hnext.
  { intros a b c [Hin' Hq]. eapply wp_mono; [apply IH; rewrite ?(vw_slvs V), ?(vw_fifos V); [done|lia..]|].
    rewrite (vw_slvs V), (vw_fifos V). intros [] s' (a' & b' & c' & -> & Hin2 & Hq2). exists a', b', c'. rewrite (vw_put V). split; [done|].
    split; [done|]. intros h. by rewrite Hq2. }
  pose proof (Hnext (slvs s) (fifos s) (perf s)) as Hstay. rewrite (vw_same V) in Hstay.
  destruct (chan_full f) eqn:Eff.
  { destruct (chan_empty sl); cbn [negb when]; [apply wp_ret; by apply Hstay|].
    apply wp_modify. rewrite (vw_set_perf V). by apply Hnext. }
  destruct (chan_empty sl) eqn:Ee; [apply wp_ret; by apply Hstay|].
  destruct (chan_empty_false _ Ee) as (x & xs & Ex). apply wp_bind, wp_on. eapply wp_at_itf; [done|]. eapply wp_chan_read; [done|].
  apply wp_on. rewrite (vw_set_slvs V), (vw_fifos V). eapply wp_at_elem; [done|]. apply wp_chan_write; [done..|]. intros Wf'.
  rewrite (vw_set_fifos V), (vw_slvs V), (vw_put V). apply Hnext. apply staged_one; [done|lia|done..].
Qed.
End capture.

(** ** One direction *)

Section half.
  Context {Q A C : Type} `{!Zero C} (mk : Z -> C) (qid : Q -> Z) (aid : A -> Z) (alast : A -> bool).
  Implicit Types (log open ins ch : list (Z * Q)) (dn rt : list (Z * Q * A)).

Definition half_key (p : Z * Q) : Z := qid p.2.
Definition half_ctx (p : Z * Q) : C := mk p.1.
Abbreviation hroute := (route half_key half_ctx aid alast).

(** The hosts have sent [R] and taken the answers [T]; the guest has taken the requests [G], still
    answers those of [inside] and has given the answers [P], each with its request. *)
Record half (num : Z) (slvs : list (option (chan Q))) (fifos : list (chan Q)) (msts : list (option (chan A))) (greq : chan Q) (grsp : chan A)
    (ost : ostk_t C) (R : Z -> list Q) (T : Z -> list A) (G inside : list Q) (P : list (Q * A)) log dn rt open ins ch : Prop := {
  ha_route : hroute ost log dn rt open ins ch;
  ha_in : hosts_in num slvs fifos;
  ha_out : hosts_out num msts;
  ha_greq : chan_wf greq;
  ha_hosts : Forall (fun p => 0 <= p.1 < num) log;
  ha_guest : log.*2 = G ++ ch_pkts greq /\ ch.*2 = ch_pkts greq /\ ins.*2 = inside;
  ha_given : (fun x => (x.1.2, x.2)) <$> (dn ++ rt) = P /\ rt.*2 = ch_pkts grsp;
  ha_sent : forall h, 0 <= h < num -> R h = (of_host h fst log).*2 ++ host_waiting slvs fifos h;
  ha_got : forall h, 0 <= h < num -> T h ++ host_queued msts h = (of_host h (fun x => x.1.1) dn).*2
}.

Section rules.
  Context (num : Z) (slvs : list (option (chan Q))) (fifos : list (chan Q)) (msts : list (option (chan A))) (greq : chan Q) (grsp : chan A).
  Context (ost : ostk_t C) (R : Z -> list Q) (T : Z -> list A) (G inside : list Q) (P : list (Q * A)).
  Context (log : list (Z * Q)) (dn rt : list (Z * Q * A)) (open ins ch : list (Z * Q)).
  Context (Hh : half num slvs fifos msts greq grsp ost R T G inside P log dn rt open ins ch).

Lemma half_len : Z.of_nat (length log) <= Z.of_nat (length G) + ch_depth greq.
Proof.
  destruct Hh. destruct ha_guest0 as (E & _). apply (f_equal length) in E. rewrite length_fmap, length_app in E.
  unfold chan_wf, chan_num in ha_greq0. lia.
Qed.

Lemma half_staged slvs' fifos' : staged num slvs fifos slvs' fifos' -> half num slvs' fifos' msts greq grsp ost R T G inside P log dn rt open ins ch.
Proof. intros [Hi Hw]. destruct Hh. split; try done. intros h ?. rewrite Hw. by apply ha_sent0. Qed.

Lemma wp_half_clock K : (forall ost', half num slvs fifos msts greq grsp ost' R T G inside P log dn rt open ins ch -> K tt ost') -> wp ostk_clock K ost.
Proof. intros HK. destruct Hh. eapply wp_route_clock; [done|]. intros ost' Hr. apply HK. by split. Qed.

(** The answer at the front belongs to host [h], whose entry is in [slot]. *)
Definition half_next (h slot : Z) (a : A) : Prop := 0 <= h < num /\ exists q rt', rt = ((h, q), a) :: rt' /\
  route_slot half_key half_ctx ost open slot (h, q).

Lemma wp_half_peek a as_ K : ch_pkts grsp = a :: as_ -> (forall h slot, half_next h slot a -> K (Some (mk h, slot)) ost) -> wp (ostk_peek_key (aid a)) K ost.
Proof.
  intros Ea HK. destruct Hh. destruct ha_given0 as [_ Hrt]. rewrite Ea in Hrt. destruct rt as [|[[h q] a'] rt'] eqn:Ert; [done|]. injection Hrt as -> Hrt.
  eapply wp_route_peek; [done..|]. intros Hl slot Hs. apply HK. split; [|by exists q, rt']. exact (proj1 (Forall_forall _ _) ha_hosts0 (h, q) Hl).
Qed.

(** The rest of the invariant when the front answer has gone to host [h]. *)
Lemma half_moved ost' open' h q a rt' as_ c : ch_pkts grsp = a :: as_ -> rt = ((h, q), a) :: rt' -> 0 <= h < num -> aget msts h = Some (Some c) ->
  chan_wf (chan_snoc c a) -> hroute ost' log (dn ++ [((h, q), a)]) rt' open' ins ch ->
  half num slvs fifos (<[Z.to_nat h := Some (chan_snoc c a)]> msts) greq (Chan (ch_depth grsp) as_) ost' R T G inside P log (dn ++ [((h, q), a)]) rt' open' ins ch.
Proof.
  intros Ea Ert Hr Ec Hc Hro. destruct Hh. destruct ha_given0 as [HP Hrt]. rewrite Ert in HP, Hrt. rewrite Ea in Hrt. injection Hrt as Hrt.
  split; try done.
  - by apply hosts_out_set.
  - split; [|done]. by rewrite <- app_assoc.
  - intros k Hk. rewrite host_filter_snoc, fmap_app, <- ha_got0 by done. rewrite (queued_set _ _ c) by done. cbn [fst].
    unfold host_queued. destruct (Z.eqb_spec k h) as [->|]; [rewrite Z.eqb_refl, Ec, chan_snoc_pkts; by rewrite app_assoc|].
    destruct (Z.eqb_spec h k); [lia|]. by rewrite app_nil_r.
Qed.

Definition half_some num slvs fifos msts greq grsp ost R T G inside P log : Prop :=
  exists dn rt open ins ch, half num slvs fifos msts greq grsp ost R T G inside P log dn rt open ins ch.

Lemma half_beat h slot a as_ c : half_next h slot a -> alast a = false -> ch_pkts grsp = a :: as_ -> aget msts h = Some (Some c) -> chan_wf (chan_snoc c a) ->
  half_some num slvs fifos (<[Z.to_nat h := Some (chan_snoc c a)]> msts) greq (Chan (ch_depth grsp) as_) ost R T G inside P log.
Proof.
  intros (Hr & q & rt' & Ert & Hs) Hl Ea Ec Hc. do 5 eexists. eapply half_moved; [done..|]. eapply route_beat; [apply Hh|done..].
Qed.

Lemma wp_half_done h slot a as_ c K : half_next h slot a -> alast a = true -> ch_pkts grsp = a :: as_ -> aget msts h = Some (Some c) -> chan_wf (chan_snoc c a) ->
  (forall ost', half_some num slvs fifos (<[Z.to_nat h := Some (chan_snoc c a)]> msts) greq (Chan (ch_depth grsp) as_) ost' R T G inside P log -> K tt ost') ->
  wp (ostk_free_slot slot) K ost.
Proof.
  intros (Hr & q & rt' & Ert & Hs) Hl Ea Ec Hc HK. eapply wp_route_done; [apply Hh|done..|]. intros ost' open' Hro. apply HK.
  do 5 eexists. by eapply half_moved.
Qed.

(** The front request of host [h] goes to the guest. *)
Lemma wp_half_issue h f q qs K : 0 <= h < num -> aget fifos h = Some f -> ch_pkts f = q :: qs -> ostk_full ost = false ->
  Z.of_nat (length log) + 1 < W64 -> chan_full greq = false ->
  (forall slot ost', half_some num slvs (<[Z.to_nat h := Chan (ch_depth f) qs]> fifos) msts (chan_snoc greq q) grsp ost' R T G inside P (log ++ [(h, q)]) -> K (Some slot) ost') ->
  wp (ostk_alloc (qid q) (mk h)) K ost.
Proof.
  intros Hr Ef Eq Hf Hn Hg HK. destruct Hh. eapply (wp_route_issue half_key half_ctx _ _ _ _ _ _ _ _ _ ha_route0 (h, q)); [done..|].
  intros slot ost' Hro. apply (HK slot). destruct ha_guest0 as (Hlog & Hch & Hins). do 5 eexists. split; try done.
  - apply hosts_in_fifo; [done..|]. destruct (ha_in0 h Hr) as (f' & s & Ef' & _ & Wf). rewrite Ef in Ef'. injection Ef' as <-. by eapply chan_wf_tail.
  - apply chan_wf_snoc. pose proof (chan_not_full _ ha_greq0 Hg). unfold chan_num in *. lia.
  - apply Forall_app. split; [done|]. by constructor.
  - rewrite chan_snoc_pkts, !fmap_app, Hlog, Hch. by rewrite <- app_assoc.
  - intros k Hk. rewrite ha_sent0, host_filter_snoc, fmap_app by done. rewrite (waiting_pop _ _ _ h f q qs k ha_in0 Hr Ef Eq). cbn [fst].
    rewrite app_assoc. f_equal. f_equal. destruct (Z.eqb_spec k h) as [->|]; [by rewrite Z.eqb_refl|]. by destruct (Z.eqb_spec h k); [lia|].
Qed.

(** Steps of the hosts and of the guest. *)
Lemma half_send h s q : 0 <= h < num -> aget slvs h = Some (Some s) ->
  half_some num (<[Z.to_nat h := Some (chan_snoc s q)]> slvs) fifos msts greq grsp ost (fn_snoc R h q) T G inside P log.
Proof.
  intros Hr Es. destruct Hh. do 5 eexists. split; try done; [by apply hosts_in_slv|]. intros k Hk. rewrite (waiting_send num) by done.
  unfold fn_snoc. rewrite ha_sent0, app_assoc by done. destruct (k =? h); [done|by rewrite app_nil_r].
Qed.

Lemma half_take h d a as_ : 0 <= h < num -> aget msts h = Some (Some (Chan d (a :: as_))) ->
  half_some num slvs fifos (<[Z.to_nat h := Some (Chan d as_)]> msts) greq grsp ost R (fn_snoc T h a) G inside P log.
Proof.
  intros Hr Ea. destruct Hh. destruct (ha_out0 h Hr) as (r & Er & Wr). rewrite Ea in Er. injection Er as <-.
  do 5 eexists. split; try done; [apply hosts_out_set; [done..|]; by apply (chan_wf_tail (Chan d (a :: as_)) a)|].
  intros k Hk. rewrite <- ha_got0, (queued_set _ _ (Chan d (a :: as_))) by done. unfold fn_snoc, host_queued.
  destruct (Z.eqb_spec k h) as [->|]; [|done]. rewrite Ea. cbn. by rewrite <- app_assoc.
Qed.

Lemma half_guest_take d q qs : greq = Chan d (q :: qs) ->
  half_some num slvs fifos msts (Chan d qs) grsp ost R T (G ++ [q]) (inside ++ [q]) P log.
Proof.
  intros Eq. destruct Hh. destruct ha_guest0 as (Hlog & Hch & Hins). rewrite Eq in Hlog, Hch. cbn in Hlog, Hch.
  destruct ch as [|p ch']; [done|]. injection Hch as <- Hch. exists dn, rt, open, (ins ++ [p]), ch'. split; try done.
  - by eapply route_take.
  - rewrite Eq in ha_greq0. by apply (chan_wf_tail (Chan d (p.2 :: qs)) p.2).
  - rewrite Hlog, fmap_app, Hins. by rewrite <- app_assoc.
Qed.

Lemma half_guest_give i1 q i2 a : inside = i1 ++ q :: i2 -> (forall q', q' ∈ i1 -> qid q' <> qid q) -> aid a = qid q ->
  half_some num slvs fifos msts greq (chan_snoc grsp a) ost R T G (if alast a then i1 ++ i2 else i1 ++ q :: i2) (P ++ [(q, a)]) log.
Proof.
  intros Ei Hi Ha. destruct Hh. destruct ha_guest0 as (Hlog & Hch & Hins). destruct ha_given0 as (HP & Hrt).
  rewrite Ei in Hins. apply fmap_app_inv in Hins as (j1 & j2' & E1 & E2 & Ej). symmetry in E2. apply fmap_cons_inv in E2 as (p & j2 & -> & E2 & ->).
  exists dn, (rt ++ [(p, a)]), open, (if alast a then j1 ++ j2 else j1 ++ p :: j2), ch. split; try done.
  - apply (route_give half_key half_ctx aid alast _ _ _ _ _ _ _ ha_route0 p a j1 j2); [done| |done].
    intros y Hy. apply (Hi y.2). rewrite E1. apply list_elem_of_fmap. by exists y.
  - split; [done|]. split; [done|]. destruct (alast a); by rewrite fmap_app, ?fmap_cons, <- E1, E2.
  - split; [by rewrite app_assoc, fmap_app, HP|]. by rewrite fmap_app, Hrt, chan_snoc_pkts.
Qed.
End rules.

(** What the hosts see: [log] are the requests that were passed on, with their hosts, and [dn] the answers
    that were returned, with their requests. *)
Record half_served (num : Z) (slvs : list (option (chan Q))) (fifos : list (chan Q)) (msts : list (option (chan A))) (greq : chan Q) (grsp : chan A)
    (R : Z -> list Q) (T : Z -> list A) (G inside : list Q) (P : list (Q * A)) log dn : Prop := {
  hs_guest : log.*2 = G ++ ch_pkts greq;
  hs_sent : forall h, 0 <= h < num -> R h = (of_host h fst log).*2 ++ host_waiting slvs fifos h;
  hs_got : forall h, 0 <= h < num -> T h ++ host_queued msts h = (of_host h (fun x => x.1.1) dn).*2;
  hs_pairs : ((fun x => (x.1.2, x.2)) <$> dn) `prefix_of` P;
  hs_once : fin alast dn ⊆+ log;
  hs_all : inside = [] -> ch_pkts greq = [] -> ch_pkts grsp = [] -> fin alast dn ≡ₚ log
}.

Lemma half_served_of num slvs fifos msts greq grsp ost R T G inside P log dn rt open ins ch :
  half num slvs fifos msts greq grsp ost R T G inside P log dn rt open ins ch -> half_served num slvs fifos msts greq grsp R T G inside P log dn.
Proof.
  intros []. destruct ha_guest0 as (Hlog & Hch & Hins), ha_given0 as (HP & Hrt), ha_route0. split; try done.
  - rewrite <- HP, fmap_app. by apply prefix_app_r.
  - rewrite ro_log. by apply submseteq_inserts_r.
  - intros H1 H2 H3. rewrite H1 in Hins. rewrite H2 in Hch. rewrite H3 in Hrt. apply fmap_nil_inv in Hins, Hch, Hrt. subst.
    assert (open = []) as ->; [|by rewrite ro_log, app_nil_r].
    destruct open as [|p o]; [done|]. assert (p ∈ ([] : list (Z * Q))) as Hp by (apply (by_key_elem half_key _ _ p ro_match); by left).
    by apply elem_of_nil in Hp.
Qed.

(** Nothing is on its way. *)
Lemma half_start num slvs fifos msts greq grsp ost : key_live ost 0 [] -> hosts_in num slvs fifos -> hosts_out num msts -> chan_wf greq ->
  ch_pkts greq = [] -> ch_pkts grsp = [] -> (forall h, 0 <= h < num -> host_waiting slvs fifos h = []) -> (forall h, 0 <= h < num -> host_queued msts h = []) ->
  half_some num slvs fifos msts greq grsp ost (fun _ => []) (fun _ => []) [] [] [] [].
Proof.
  intros Hk Hi Ho Hg E1 E2 Hw Hq. exists [], [], [], [], []. split; try done.
  intros h Hh. by rewrite Hw.
Qed.
End half.
