(* ===== verification/AxiMuxSpec.v ===== *)
(** * The AXI multiplexer keeps the transactions of its hosts apart

    Runs of [bus/mux/axi_mux.c] with any number of hosts and a guest that answers the transactions of one
    number in their order: reads in bursts of any length, beats of different numbers interleaved. *)

From stdpp Require Import base numbers list relations.
From Stdlib Require Import ZArith Lia.
From S2P Require Import Prelude Fifo Ost OstScan OstSpec OstKey Axi BtiBus BtiMuxSpec AxiBus KeyRoute HostRoute.

(** ** Write data *)

(** What is left of the hosts whose bursts are due, after the beats [ws]; [None] if a beat is not from the
    host whose burst is due. *)
Fixpoint w_rest (hosts : list Z) (ws : list (Z * axi4_w_if_t)) : option (list Z) :=
  match ws with
  | [] => Some hosts
  | (h, w) :: ws =>
    match hosts with
    | h' :: hs => if h =? h' then w_rest (if w_last w then hs else hosts) ws else None
    | [] => None
    end
  end.

Lemma w_rest_snoc hosts ws h w hs : w_rest hosts ws = Some (h :: hs) ->
  w_rest hosts (ws ++ [(h, w)]) = Some (if w_last w then hs else h :: hs).
Proof.
  revert hosts. induction ws as [|[h' w'] ws IH]; intros hosts; cbn; [intros [= ->]; rewrite Z.eqb_refl; by destruct (w_last w)|].
  destruct hosts as [|h'' hosts]; [done|]. destruct (_ =? _); [|done]. apply IH.
Qed.

Lemma w_rest_more hosts ws hs h : w_rest hosts ws = Some hs -> w_rest (hosts ++ [h]) ws = Some (hs ++ [h]).
Proof.
  revert hosts. induction ws as [|[h' w'] ws IH]; intros hosts; cbn; [by intros [= ->]|]. destruct hosts as [|h'' hosts]; [done|]. cbn.
  destruct (_ =? _); [|done]. intros H. rewrite <- (IH _ H). by destruct (w_last w').
Qed.

(** The beats [dlog] that were passed on, with their hosts; [hosts] are those of the write addresses passed on. *)
Record wdata (num : Z) (slvs : list (option (chan axi4_w_if_t))) (fifos : list (chan axi4_w_if_t)) (gw : chan axi4_w_if_t)
    (ost : ostq_t axi_mux_ost_ctx_t) (R : Z -> list axi4_w_if_t) (G : list axi4_w_if_t) (hosts : list Z) (fr : bool)
    (dlog : list (Z * axi4_w_if_t)) (rest : list Z) : Prop := {
  wd_in : hosts_in num slvs fifos;
  wd_gw : chan_wf gw;
  wd_rest : w_rest hosts dlog = Some rest;
  wd_table : ost_live ost fr (AxiMuxOstCtx <$> rest);
  wd_hosts : Forall (fun h => 0 <= h < num) rest;
  wd_guest : dlog.*2 = G ++ ch_pkts gw;
  wd_sent : forall h, 0 <= h < num -> R h = (of_host h fst dlog).*2 ++ host_waiting slvs fifos h
}.

(** ** The invariant *)

(** The environment: what every host has sent and taken, what the guest has taken, holds and has given. *)
Record axm_hist := AxmHist {
  xh_ar : Z -> list axi4_ar_if_t; xh_r : Z -> list axi4_r_if_t; xh_gar : list axi4_ar_if_t; xh_rd : list axi4_ar_if_t;
  xh_gr : list (axi4_ar_if_t * axi4_r_if_t);
  xh_aw : Z -> list axi4_aw_if_t; xh_b : Z -> list axi4_b_if_t; xh_gaw : list axi4_aw_if_t; xh_wr : list axi4_aw_if_t;
  xh_gb : list (axi4_aw_if_t * axi4_b_if_t);
  xh_w : Z -> list axi4_w_if_t; xh_gw : list axi4_w_if_t
}.
#[export] Instance eta_axm_hist : Eta axm_hist := fun h =>
  AxmHist (xh_ar h) (xh_r h) (xh_gar h) (xh_rd h) (xh_gr h) (xh_aw h) (xh_b h) (xh_gaw h) (xh_wr h) (xh_gb h) (xh_w h) (xh_gw h).

Definition b_single (_ : axi4_b_if_t) : bool := true.

Definition rd_half (m : axi_mux_t) (x : axm_hist) rlog : Prop :=
  half_some AxiMuxOstCtx ar_id r_id r_last (am_host_num m) (am_host_ar_slvs m) (am_host_ar_fifos m) (am_host_r_msts m) (am_gst_ar_mst m) (am_gst_r_slv m)
    (am_rd_ost m) (xh_ar x) (xh_r x) (xh_gar x) (xh_rd x) (xh_gr x) rlog.
Definition wr_half (m : axi_mux_t) (x : axm_hist) wlog : Prop :=
  half_some AxiMuxOstCtx aw_id b_id b_single (am_host_num m) (am_host_aw_slvs m) (am_host_aw_fifos m) (am_host_b_msts m) (am_gst_aw_mst m) (am_gst_b_slv m)
    (am_wr_rsp_ost m) (xh_aw x) (xh_b x) (xh_gaw x) (xh_wr x) (xh_gb x) wlog.
Definition w_half (m : axi_mux_t) (x : axm_hist) (fr : bool) (hosts : list Z) : Prop := exists dlog rest,
  wdata (am_host_num m) (am_host_w_slvs m) (am_host_w_fifos m) (am_gst_w_mst m) (am_wr_data_ost m) (xh_w x) (xh_gw x) hosts fr dlog rest.

Record axm_inv (fr : bool) (m : axi_mux_t) (x : axm_hist) : Prop := {
  xi_num : 0 <= am_host_num m <= AXI_MUX_HOST_NUM_MAX;
  xi_rr : 0 <= am_rd_rr_idx m < Z.max 1 (am_host_num m) /\ 0 <= am_wr_rr_idx m < Z.max 1 (am_host_num m);
  xi_rd : exists rlog, rd_half m x rlog;
  xi_wr : exists wlog, wr_half m x wlog /\ w_half m x fr wlog.*1
}.

(** Issue numbers are 64 bits wide. *)
Definition axm_bound (Dr Dw : Z) (x : axm_hist) : Prop :=
  Z.of_nat (length (xh_gar x)) + Dr + 1 < W64 /\ Z.of_nat (length (xh_gaw x)) + Dw + 1 < W64.
Definition axm_depths (Dr Dw : Z) (m : axi_mux_t) : Prop := ch_depth (am_gst_ar_mst m) = Dr /\ ch_depth (am_gst_aw_mst m) = Dw.

(** ** The stages *)

Section stages.
  Context (x : axm_hist) (Dr Dw : Z) (Hbound : axm_bound Dr Dw x).

Definition axm_ok (fr : bool) (m : axi_mux_t) : Prop := axm_inv fr m x /\ axm_depths Dr Dw m.

Lemma ar_view : stage_view am_host_ar_slvs am_host_ar_fifos am_perf_stg_ar_full
  (fun a b c m => m <| am_host_ar_slvs := a |> <| am_host_ar_fifos := b |> <| am_perf_stg_ar_full := c |>).
Proof. split; try done. by intros []. Qed.
Lemma aw_view : stage_view am_host_aw_slvs am_host_aw_fifos am_perf_stg_aw_full
  (fun a b c m => m <| am_host_aw_slvs := a |> <| am_host_aw_fifos := b |> <| am_perf_stg_aw_full := c |>).
Proof. split; try done. by intros []. Qed.
Lemma w_view : stage_view am_host_w_slvs am_host_w_fifos am_perf_stg_w_full
  (fun a b c m => m <| am_host_w_slvs := a |> <| am_host_w_fifos := b |> <| am_perf_stg_w_full := c |>).
Proof. split; try done. by intros []. Qed.

Lemma mux_capture_ar_ok fr m : axm_ok fr m -> wp axi_mux_capture_ar (fun _ => axm_ok fr) m.
Proof.
  intros [[Hn Hr (rlog & dn & rt & op & ins & ch & Hh) Hw] Hd]. apply wp_bind, wp_gets. unfold id.
  eapply wp_mono; [eapply (hosts_capture_ok _ _ _ _ ar_view (am_host_num m)); [apply Hh|lia|lia]|].
  intros [] m' (a & b & c & -> & Hs). split; [|done]. split; [done|done| |done]. exists rlog, dn, rt, op, ins, ch. by eapply half_staged.
Qed.

Lemma mux_capture_aw_ok fr m : axm_ok fr m -> wp axi_mux_capture_aw (fun _ => axm_ok fr) m.
Proof.
  intros [[Hn Hr Hrd (wlog & (dn & rt & op & ins & ch & Hh) & Hw)] Hd]. apply wp_bind, wp_gets. unfold id.
  eapply wp_mono; [eapply (hosts_capture_ok _ _ _ _ aw_view (am_host_num m)); [apply Hh|lia|lia]|].
  intros [] m' (a & b & c & -> & Hs). split; [|done]. split; [done|done|done|]. exists wlog. split; [|done]. exists dn, rt, op, ins, ch. by eapply half_staged.
Qed.

Lemma mux_capture_w_ok fr m : axm_ok fr m -> wp axi_mux_capture_w (fun _ => axm_ok fr) m.
Proof.
  intros [[Hn Hr Hrd (wlog & Hh & dlog & rest & [])] Hd]. apply wp_bind, wp_gets. unfold id.
  eapply wp_mono; [eapply (hosts_capture_ok _ _ _ _ w_view (am_host_num m)); [done|lia|lia]|].
  intros [] m' (a & b & c & -> & Hs). split; [|done]. split; [done|done|done|]. exists wlog. split; [done|]. exists dlog, rest. destruct Hs as [Hi Hw].
  split; try done. intros h Hh'. upd_proj. rewrite Hw. by apply wd_sent0.
Qed.

Lemma proc_b_ok fr m : axm_ok fr m -> wp axi_mux_proc_b (fun _ => axm_ok fr) m.
Proof.
  intros Hok. pose proof Hok as [[Hn Hr Hrd (wlog & (dn & rt & op & ins & ch & Hh) & Hw)] Hd]. apply wp_bind, wp_gets. unfold id.
  destruct (chan_empty _) eqn:Ee; [by apply wp_ret|]. destruct (chan_empty_false _ Ee) as (b & bs & Eb).
  apply wp_bind. eapply wp_on_front; [done|by destruct m|]. apply wp_bind, wp_on. eapply wp_half_peek; [exact Hh|done|]. intros h slot Hnx.
  assert (m <| am_wr_rsp_ost := am_wr_rsp_ost m |> = m) as -> by (by destruct m). apply wp_bind, wp_ret. pose proof Hnx as [Hh' _].
  apply wp_bind, wp_check; [apply Z.ltb_lt; cbn; lia|]. cbn [ax_host_idx]. destruct (ha_out _ _ _ _ _ _ _ _ _ _ _ _ _ _ _ _ _ _ _ _ _ _ Hh h Hh') as (c & Ec & Wc).
  rewrite Ec. do 2 apply wp_bind, wp_ret. destruct (chan_full c) eqn:Ef; [by apply wp_ret|].
  apply wp_bind. eapply wp_on_read; [exact Eb|]. apply wp_bind, wp_on. upd_proj. eapply wp_at_itf; [done|]. apply wp_chan_write; [done..|]. intros Wc'.
  apply wp_on. upd_proj. eapply wp_half_done; [exact Hh|done..|]. intros ost' Hh2. split; [|done]. split; [done|done|done|]. by exists wlog.
Qed.

Lemma proc_r_ok fr m : axm_ok fr m -> wp axi_mux_proc_r (fun _ => axm_ok fr) m.
Proof.
  intros Hok. pose proof Hok as [[Hn Hr (rlog & dn & rt & op & ins & ch & Hh) Hw] Hd]. apply wp_bind, wp_gets. unfold id.
  destruct (chan_empty _) eqn:Ee; [by apply wp_ret|]. destruct (chan_empty_false _ Ee) as (r & rs & Er).
  apply wp_bind. eapply wp_on_front; [done|by destruct m|]. apply wp_bind, wp_on. eapply wp_half_peek; [exact Hh|done|]. intros h slot Hnx.
  assert (m <| am_rd_ost := am_rd_ost m |> = m) as -> by (by destruct m). apply wp_bind, wp_ret. pose proof Hnx as [Hh' _].
  apply wp_bind, wp_check; [apply Z.ltb_lt; cbn; lia|]. cbn [ax_host_idx]. destruct (ha_out _ _ _ _ _ _ _ _ _ _ _ _ _ _ _ _ _ _ _ _ _ _ Hh h Hh') as (c & Ec & Wc).
  rewrite Ec. do 2 apply wp_bind, wp_ret. destruct (chan_full c) eqn:Ef; [by apply wp_ret|].
  apply wp_bind. eapply wp_on_read; [exact Er|]. apply wp_bind, wp_on. upd_proj. eapply wp_at_itf; [done|]. apply wp_chan_write; [done..|]. intros Wc'.
  destruct (r_last r) eqn:El; cbn [when].
  - apply wp_on. upd_proj. eapply wp_half_done; [exact Hh|done..|]. intros ost' Hh2. split; [|done]. split; [done|done| |done]. by exists rlog.
  - apply wp_ret. split; [|done]. split; [done|done| |done]. exists rlog. by eapply half_beat.
Qed.

Lemma proc_w_ok m : axm_ok false m -> wp axi_mux_proc_w (fun _ m' => exists fr, axm_ok fr m') m.
Proof.
  intros Hok. pose proof Hok as [[Hn Hr Hrd (wlog & Hh & dlog & rest & Hw)] Hd]. apply wp_bind, wp_gets. unfold id.
  destruct (chan_full _) eqn:Ef; [apply wp_ret; by exists false|]. apply wp_bind, wp_on.
  assert (m <| am_wr_data_ost := am_wr_data_ost m |> = m) as Em by (by destruct m).
  eapply wp_ostq_peek; [apply Hw|intros _; rewrite Em; apply wp_ret; by exists false|]. intros ctx l2 slot _ El _. rewrite Em.
  destruct rest as [|h rest]; [done|]. injection El as <- El. destruct Hw. apply Forall_cons in wd_hosts0 as [Hh' Hhs].
  apply wp_bind, wp_check; [apply Z.ltb_lt; cbn; lia|]. cbn [ax_host_idx]. destruct (wd_in0 h Hh') as (f & s & Efi & Es & Wf). rewrite Efi.
  apply wp_bind, wp_ret. destruct (chan_empty f) eqn:Ee; [apply wp_ret; by exists false|]. destruct (chan_empty_false _ Ee) as (w & ws & Ews).
  apply wp_bind, wp_on. eapply wp_at_elem; [done|]. eapply wp_chan_read; [done|]. apply wp_bind. upd_proj. apply wp_on_write; [done..|]. intros Wg. upd_proj.
  assert (forall ost' fr rest', ost_live ost' fr (AxiMuxOstCtx <$> rest') -> rest' = (if w_last w then rest else h :: rest) ->
    wdata (am_host_num m) (am_host_w_slvs m) (<[Z.to_nat h := Chan (ch_depth f) ws]> (am_host_w_fifos m)) (chan_snoc (am_gst_w_mst m) w) ost' (xh_w x)
      (xh_gw x) wlog.*1 fr (dlog ++ [(h, w)]) rest') as Hnext.
  { intros ost' fr rest' Ht ->. split; try done.
    - apply hosts_in_fifo; [done..|]. by eapply chan_wf_tail.
    - by apply w_rest_snoc.
    - destruct (w_last w); [done|by constructor].
    - by rewrite fmap_app, chan_snoc_pkts, wd_guest0, <- app_assoc.
    - intros k Hk. rewrite wd_sent0, host_filter_snoc, fmap_app by done. rewrite (waiting_pop _ _ _ h f w ws k wd_in0 Hh' Efi Ews). cbn [fst].
      rewrite app_assoc. f_equal. f_equal. destruct (Z.eqb_spec k h) as [->|]; [by rewrite Z.eqb_refl|]. by destruct (Z.eqb_spec h k); [lia|]. }
  destruct (w_last w) eqn:El2; cbn [when].
  - apply wp_on. upd_proj. eapply wp_ostq_free; [exact wd_table0|]. intros ost' Ht _. exists true. split; [|done]. split; [done..|].
    exists wlog. split; [done|]. exists (dlog ++ [(h, w)]), rest. by apply Hnext.
  - apply wp_ret. exists false. split; [|done]. split; [done..|]. exists wlog. split; [done|]. exists (dlog ++ [(h, w)]), (h :: rest). by apply Hnext.
Qed.

(** The turn of the round robin. *)
Lemma turn_host m i idx : 0 <= am_host_num m <= AXI_MUX_HOST_NUM_MAX -> 0 <= idx < Z.max 1 (am_host_num m) -> 0 <= i < am_host_num m ->
  u32 (idx + i) mod am_host_num m = (idx + i) mod am_host_num m /\ 0 <= (idx + i) mod am_host_num m < am_host_num m.
Proof.
  unfold AXI_MUX_HOST_NUM_MAX. intros Hn Hx Hi. rewrite u32_small by (unfold is_u32, W32; lia). split; [done|]. apply Z.mod_pos_bound. lia.
Qed.

Lemma next_turn m h : 0 <= am_host_num m <= AXI_MUX_HOST_NUM_MAX -> 0 <= h < am_host_num m -> 0 <= u32 (h + 1) mod am_host_num m < Z.max 1 (am_host_num m).
Proof. intros Hn Hh. pose proof (Z.mod_pos_bound (u32 (h + 1)) (am_host_num m) ltac:(lia)). lia. Qed.

Lemma aw_loop_ok fr n i m : axm_ok fr m -> ostq_full (am_wr_data_ost m) = false -> ostk_full (am_wr_rsp_ost m) = false -> chan_full (am_gst_aw_mst m) = false ->
  0 <= i -> i + Z.of_nat n <= am_host_num m -> wp (axi_mux_aw_loop n i) (fun _ => axm_ok fr) m.
Proof.
  intros Hok Hf1 Hf2 Hf3. revert i. induction n as [|n IH]; intros i Hi Hn'; cbn [axi_mux_aw_loop]; [by apply wp_ret|].
  pose proof Hok as [[Hn [Hr1 Hr2] Hrd (wlog & (dn & rt & op & ins & ch & Hh) & dlog & rest & Hw)] [Hd1 Hd2]]. apply wp_bind, wp_gets. unfold id.
  destruct (turn_host m i _ Hn Hr2 ltac:(lia)) as [-> Hh']. set (h := (am_wr_rr_idx m + i) mod am_host_num m) in *. cbv zeta.
  destruct (ha_in _ _ _ _ _ _ _ _ _ _ _ _ _ _ _ _ _ _ _ _ _ _ Hh h Hh') as (f & s & Ef & Es & Wf). rewrite Ef. apply wp_bind, wp_ret.
  destruct (chan_empty f) eqn:Ee; [apply IH; lia|]. destruct (chan_empty_false _ Ee) as (aw & aws & Eaw).
  apply wp_bind, wp_on. eapply wp_at_elem; [done|]. unfold wp at 1. rewrite (front_cons _ _ _ Eaw).
  assert (<[Z.to_nat h := f]> (am_host_aw_fifos m) = am_host_aw_fifos m) as ->.
  { apply list_insert_id. by rewrite <- aget_lookup by lia. }
  assert (m <| am_host_aw_fifos := am_host_aw_fifos m |> = m) as -> by (by destruct m).
  apply wp_bind, wp_on. eapply wp_ostq_alloc; [apply Hw|done|]. intros qost' slot Ht _ _. apply wp_bind, wp_check; [by rewrite bool_decide_eq_true_2 by eauto|].
  apply wp_bind, wp_on. upd_proj. pose proof (half_len _ _ _ _ _ _ _ _ _ _ _ _ _ _ _ _ _ _ _ _ _ _ Hh) as Hlen. destruct Hbound as [_ Hb2].
  eapply wp_half_issue; [exact Hh|done..|lia|done|]. intros slot' ost' Hh2. apply wp_bind, wp_check; [by rewrite bool_decide_eq_true_2 by eauto|].
  apply wp_bind, wp_on. upd_proj. eapply wp_at_elem; [done|]. eapply wp_chan_read; [done|]. apply wp_bind. upd_proj.
  apply wp_on_write; [apply Hh|done|]. intros Wg. apply wp_modify. upd_proj. split; [|done]. split; [done| |done|].
  - split; [done|]. upd_proj. by apply next_turn.
  - exists (wlog ++ [(h, aw)]). split; [done|]. exists dlog, (rest ++ [h]). destruct Hw. rewrite fmap_app. cbn. split; try done.
    + by apply w_rest_more.
    + by rewrite fmap_app.
    + apply Forall_app. split; [done|]. by constructor.
Qed.

Lemma proc_aw_ok fr m : axm_ok fr m -> wp axi_mux_proc_aw (fun _ => axm_ok fr) m.
Proof.
  intros Hok. apply wp_bind, wp_gets. unfold id. destruct (_ || _) eqn:E1; [by apply wp_ret|]. apply orb_false_iff in E1 as [E1 E2].
  destruct (chan_full _) eqn:E3; [by apply wp_ret|]. apply aw_loop_ok; try done. destruct Hok as [[] _]. lia.
Qed.

Lemma ar_loop_ok fr n i m : axm_ok fr m -> ostk_full (am_rd_ost m) = false -> chan_full (am_gst_ar_mst m) = false ->
  0 <= i -> i + Z.of_nat n <= am_host_num m -> wp (axi_mux_ar_loop n i) (fun _ => axm_ok fr) m.
Proof.
  intros Hok Hf2 Hf3. revert i. induction n as [|n IH]; intros i Hi Hn'; cbn [axi_mux_ar_loop]; [by apply wp_ret|].
  pose proof Hok as [[Hn [Hr1 Hr2] (rlog & dn & rt & op & ins & ch & Hh) Hwr] [Hd1 Hd2]]. apply wp_bind, wp_gets. unfold id.
  destruct (turn_host m i _ Hn Hr1 ltac:(lia)) as [-> Hh']. set (h := (am_rd_rr_idx m + i) mod am_host_num m) in *. cbv zeta.
  destruct (ha_in _ _ _ _ _ _ _ _ _ _ _ _ _ _ _ _ _ _ _ _ _ _ Hh h Hh') as (f & s & Ef & Es & Wf). rewrite Ef. apply wp_bind, wp_ret.
  destruct (chan_empty f) eqn:Ee; [apply IH; lia|]. destruct (chan_empty_false _ Ee) as (ar & ars & Ear).
  apply wp_bind, wp_on. eapply wp_at_elem; [done|]. unfold wp at 1. rewrite (front_cons _ _ _ Ear).
  assert (<[Z.to_nat h := f]> (am_host_ar_fifos m) = am_host_ar_fifos m) as ->.
  { apply list_insert_id. by rewrite <- aget_lookup by lia. }
  assert (m <| am_host_ar_fifos := am_host_ar_fifos m |> = m) as -> by (by destruct m).
  apply wp_bind, wp_on. pose proof (half_len _ _ _ _ _ _ _ _ _ _ _ _ _ _ _ _ _ _ _ _ _ _ Hh) as Hlen. destruct Hbound as [Hb1 _].
  eapply wp_half_issue; [exact Hh|done..|lia|done|]. intros slot' ost' Hh2. apply wp_bind, wp_check; [by rewrite bool_decide_eq_true_2 by eauto|].
  apply wp_bind, wp_on. upd_proj. eapply wp_at_elem; [done|]. eapply wp_chan_read; [done|]. apply wp_bind. upd_proj.
  apply wp_on_write; [apply Hh|done|]. intros Wg. apply wp_modify. upd_proj. split; [|done]. split; [done| | |done].
  - split; [|done]. upd_proj. by apply next_turn.
  - by exists (rlog ++ [(h, ar)]).
Qed.

Lemma proc_ar_ok fr m : axm_ok fr m -> wp axi_mux_proc_ar (fun _ => axm_ok fr) m.
Proof.
  intros Hok. apply wp_bind, wp_gets. unfold id. destruct (ostk_full _) eqn:E2; [by apply wp_ret|].
  destruct (chan_full _) eqn:E3; [by apply wp_ret|]. apply ar_loop_ok; try done. destruct Hok as [[] _]. lia.
Qed.

(** The tables recycle what was freed. *)
Lemma tables_ok fr m Q : axm_ok fr m -> (forall m', axm_ok false m' -> Q tt m') ->
  wp (on am_rd_ost ostk_clock;; on am_wr_data_ost ostq_clock;; on am_wr_rsp_ost ostk_clock) Q m.
Proof.
  intros [[Hn Hr (rlog & dn & rt & op & ins & ch & Hh) (wlog & (dn2 & rt2 & op2 & ins2 & ch2 & Hh2) & dlog & rest & Hw)] Hd] HQ.
  apply wp_bind, wp_on. eapply wp_half_clock; [exact Hh|]. intros ost1 Hh'. apply wp_bind, wp_on. upd_proj.
  eapply wp_ostq_clock; [apply Hw|]. intros qost Ht _. apply wp_on. upd_proj. eapply wp_half_clock; [exact Hh2|]. intros ost2 Hh2'. apply HQ.
  split; [|done]. split; [done|done| |].
  - exists rlog, dn, rt, op, ins, ch. exact Hh'.
  - exists wlog. split; [exists dn2, rt2, op2, ins2, ch2; exact Hh2'|]. exists dlog, rest. by destruct Hw.
Qed.

Lemma axm_clock_ok fr m : axm_ok fr m -> wp axi_mux_clock (fun _ m' => exists fr', axm_ok fr' m') m.
Proof.
  intros Hok. change (wp ((on am_rd_ost ostk_clock;; on am_wr_data_ost ostq_clock;; on am_wr_rsp_ost ostk_clock;; axi_mux_capture_ar;; axi_mux_capture_aw;;
    axi_mux_capture_w;; axi_mux_proc_b;; axi_mux_proc_r;; axi_mux_proc_w;; axi_mux_proc_aw;; axi_mux_proc_ar)) (fun _ m' => exists fr', axm_ok fr' m') m).
  enough (wp ((on am_rd_ost ostk_clock;; on am_wr_data_ost ostq_clock;; on am_wr_rsp_ost ostk_clock);; axi_mux_capture_ar;; axi_mux_capture_aw;;
    axi_mux_capture_w;; axi_mux_proc_b;; axi_mux_proc_r;; axi_mux_proc_w;; axi_mux_proc_aw;; axi_mux_proc_ar) (fun _ m' => exists fr', axm_ok fr' m') m) as H.
  { revert H. unfold wp. mred. destruct (ostk_clock (am_rd_ost m)) as [[? ?]|]; [|done]. destruct (ostq_clock _) as [[? ?]|]; [|done]. by destruct (ostk_clock _) as [[? ?]|]. }
  apply wp_bind. eapply tables_ok; [exact Hok|]. clear m fr Hok. intros m Hok.
  apply wp_bind. eapply wp_mono; [by apply mux_capture_ar_ok|]. clear m Hok. intros [] m Hok.
  apply wp_bind. eapply wp_mono; [by apply mux_capture_aw_ok|]. clear m Hok. intros [] m Hok.
  apply wp_bind. eapply wp_mono; [by apply mux_capture_w_ok|]. clear m Hok. intros [] m Hok.
  apply wp_bind. eapply wp_mono; [by apply proc_b_ok|]. clear m Hok. intros [] m Hok.
  apply wp_bind. eapply wp_mono; [by apply proc_r_ok|]. clear m Hok. intros [] m Hok.
  apply wp_bind. eapply wp_mono; [by apply proc_w_ok|]. clear m Hok. intros [] m (fr & Hok).
  apply wp_bind. eapply wp_mono; [by apply proc_aw_ok|]. clear m Hok. intros [] m Hok.
  eapply wp_mono; [by apply proc_ar_ok|]. intros [] m' Hok'. by exists fr.
Qed.
End stages.

(** ** Runs *)

Definition axm_world : Type := axi_mux_t * axm_hist.

(** The guest may answer any transaction it holds, but those of one number in their order. *)
Inductive axm_step : axm_world -> axm_world -> Prop :=
| AxmClock m m' x : axi_mux_clock m = Some (tt, m') -> axm_step (m, x) (m', x)
| AxmSendAr m x h s q : 0 <= h < am_host_num m -> aget (am_host_ar_slvs m) h = Some (Some s) -> chan_full s = false ->
    axm_step (m, x) (m <| am_host_ar_slvs := <[Z.to_nat h := Some (chan_snoc s q)]> (am_host_ar_slvs m) |>, x <| xh_ar := fn_snoc (xh_ar x) h q |>)
| AxmSendAw m x h s q : 0 <= h < am_host_num m -> aget (am_host_aw_slvs m) h = Some (Some s) -> chan_full s = false ->
    axm_step (m, x) (m <| am_host_aw_slvs := <[Z.to_nat h := Some (chan_snoc s q)]> (am_host_aw_slvs m) |>, x <| xh_aw := fn_snoc (xh_aw x) h q |>)
| AxmSendW m x h s w : 0 <= h < am_host_num m -> aget (am_host_w_slvs m) h = Some (Some s) -> chan_full s = false ->
    axm_step (m, x) (m <| am_host_w_slvs := <[Z.to_nat h := Some (chan_snoc s w)]> (am_host_w_slvs m) |>, x <| xh_w := fn_snoc (xh_w x) h w |>)
| AxmTakeR m x h d r rs : 0 <= h < am_host_num m -> aget (am_host_r_msts m) h = Some (Some (Chan d (r :: rs))) ->
    axm_step (m, x) (m <| am_host_r_msts := <[Z.to_nat h := Some (Chan d rs)]> (am_host_r_msts m) |>, x <| xh_r := fn_snoc (xh_r x) h r |>)
| AxmTakeB m x h d b bs : 0 <= h < am_host_num m -> aget (am_host_b_msts m) h = Some (Some (Chan d (b :: bs))) ->
    axm_step (m, x) (m <| am_host_b_msts := <[Z.to_nat h := Some (Chan d bs)]> (am_host_b_msts m) |>, x <| xh_b := fn_snoc (xh_b x) h b |>)
| AxmGuestAr m x d q qs : am_gst_ar_mst m = Chan d (q :: qs) ->
    axm_step (m, x) (m <| am_gst_ar_mst := Chan d qs |>, x <| xh_gar := xh_gar x ++ [q] |> <| xh_rd := xh_rd x ++ [q] |>)
| AxmGuestAw m x d q qs : am_gst_aw_mst m = Chan d (q :: qs) ->
    axm_step (m, x) (m <| am_gst_aw_mst := Chan d qs |>, x <| xh_gaw := xh_gaw x ++ [q] |> <| xh_wr := xh_wr x ++ [q] |>)
| AxmGuestW m x d w ws : am_gst_w_mst m = Chan d (w :: ws) ->
    axm_step (m, x) (m <| am_gst_w_mst := Chan d ws |>, x <| xh_gw := xh_gw x ++ [w] |>)
| AxmGuestR m x i1 q i2 r : xh_rd x = i1 ++ q :: i2 -> (forall q', q' ∈ i1 -> ar_id q' <> ar_id q) -> r_id r = ar_id q ->
    chan_full (am_gst_r_slv m) = false ->
    axm_step (m, x) (m <| am_gst_r_slv := chan_snoc (am_gst_r_slv m) r |>,
      x <| xh_rd := if r_last r then i1 ++ i2 else i1 ++ q :: i2 |> <| xh_gr := xh_gr x ++ [(q, r)] |>)
| AxmGuestB m x i1 q i2 b : xh_wr x = i1 ++ q :: i2 -> (forall q', q' ∈ i1 -> aw_id q' <> aw_id q) -> b_id b = aw_id q ->
    chan_full (am_gst_b_slv m) = false ->
    axm_step (m, x) (m <| am_gst_b_slv := chan_snoc (am_gst_b_slv m) b |>, x <| xh_wr := i1 ++ i2 |> <| xh_gb := xh_gb x ++ [(q, b)] |>).

Definition axm_good (Dr Dw : Z) (w : axm_world) : Prop := exists fr, axm_ok w.2 Dr Dw fr w.1.

(** A step of the environment on the reading or the writing side. *)
Lemma axm_rd_step Dr Dw fr m x m' x' : axm_ok x Dr Dw fr m -> (forall rlog, rd_half m x rlog -> rd_half m' x' rlog) ->
  (am_host_num m', am_rd_rr_idx m', am_wr_rr_idx m', ch_depth (am_gst_ar_mst m')) = (am_host_num m, am_rd_rr_idx m, am_wr_rr_idx m, ch_depth (am_gst_ar_mst m)) ->
  (am_host_aw_slvs m', am_host_aw_fifos m', am_host_b_msts m', am_gst_aw_mst m', am_gst_b_slv m', am_wr_rsp_ost m') =
  (am_host_aw_slvs m, am_host_aw_fifos m, am_host_b_msts m, am_gst_aw_mst m, am_gst_b_slv m, am_wr_rsp_ost m) ->
  (am_host_w_slvs m', am_host_w_fifos m', am_gst_w_mst m', am_wr_data_ost m') = (am_host_w_slvs m, am_host_w_fifos m, am_gst_w_mst m, am_wr_data_ost m) ->
  (xh_aw x', xh_b x', xh_gaw x', xh_wr x', xh_gb x', xh_w x', xh_gw x') = (xh_aw x, xh_b x, xh_gaw x, xh_wr x, xh_gb x, xh_w x, xh_gw x) -> axm_good Dr Dw (m', x').
Proof.
  intros [[Hn Hr (rlog & Hrd) (wlog & Hwr & Hw)] [Hd1 Hd2]] Hst [= E1 E2 E3 E4] [= F1 F2 F3 F4 F5 F6] [= G1 G2 G3 G4] [= I1 I2 I3 I4 I5 I6 I7].
  exists fr. split; [split|split]; cbn [fst snd]; rewrite ?E1, ?E2, ?E3; try done.
  - exists rlog. by apply Hst.
  - exists wlog. unfold wr_half, w_half in *. by rewrite E1, F1, F2, F3, F4, F5, F6, G1, G2, G3, G4, I1, I2, I3, I4, I5, I6, I7.
  - congruence.
  - congruence.
Qed.

Lemma axm_wr_step Dr Dw fr m x m' x' : axm_ok x Dr Dw fr m ->
  (forall wlog, wr_half m x wlog /\ w_half m x fr wlog.*1 -> wr_half m' x' wlog /\ w_half m' x' fr wlog.*1) ->
  (am_host_num m', am_rd_rr_idx m', am_wr_rr_idx m', ch_depth (am_gst_aw_mst m')) = (am_host_num m, am_rd_rr_idx m, am_wr_rr_idx m, ch_depth (am_gst_aw_mst m)) ->
  (am_host_ar_slvs m', am_host_ar_fifos m', am_host_r_msts m', am_gst_ar_mst m', am_gst_r_slv m', am_rd_ost m') =
  (am_host_ar_slvs m, am_host_ar_fifos m, am_host_r_msts m, am_gst_ar_mst m, am_gst_r_slv m, am_rd_ost m) ->
  (xh_ar x', xh_r x', xh_gar x', xh_rd x', xh_gr x') = (xh_ar x, xh_r x, xh_gar x, xh_rd x, xh_gr x) -> axm_good Dr Dw (m', x').
Proof.
  intros [[Hn Hr (rlog & Hrd) (wlog & Hw)] [Hd1 Hd2]] Hst [= E1 E2 E3 E4] [= F1 F2 F3 F4 F5 F6] [= I1 I2 I3 I4 I5].
  exists fr. split; [split|split]; cbn [fst snd]; rewrite ?E1, ?E2, ?E3; try done.
  - exists rlog. unfold rd_half in *. by rewrite E1, F1, F2, F3, F4, F5, F6, I1, I2, I3, I4, I5.
  - exists wlog. by apply Hst.
  - congruence.
  - congruence.
Qed.

Lemma axm_step_ok Dr Dw w w' : axm_step w w' -> axm_bound Dr Dw w.2 -> axm_good Dr Dw w -> axm_good Dr Dw w'.
Proof.
  intros Hs Hb (fr & Hok). destruct Hs; cbn [fst snd] in *.
  - destruct (wp_elim _ _ _ (axm_clock_ok x Dr Dw Hb fr m Hok)) as ([] & m2 & E & fr' & Hok'). rewrite H in E. injection E as <-. by exists fr'.
  - eapply axm_rd_step; [exact Hok| |done..]. intros rlog (dn & rt & op & ins & ch & Hh). by eapply half_send.
  - eapply axm_wr_step; [exact Hok| |done..]. intros wlog [(dn & rt & op & ins & ch & Hh) Hw]. split; [by eapply half_send|done].
  - eapply axm_wr_step; [exact Hok| |done..]. intros wlog [Hh (dlog & rest & [])]. split; [done|]. exists dlog, rest. split; try done; upd_proj.
    + by apply hosts_in_slv.
    + intros k Hk. rewrite (waiting_send (am_host_num m)) by done. unfold fn_snoc. rewrite wd_sent0, app_assoc by done. destruct (k =? h); [done|by rewrite app_nil_r].
  - eapply axm_rd_step; [exact Hok| |done..]. intros rlog (dn & rt & op & ins & ch & Hh). by eapply half_take.
  - eapply axm_wr_step; [exact Hok| |done..]. intros wlog [(dn & rt & op & ins & ch & Hh) Hw]. split; [by eapply half_take|done].
  - eapply axm_rd_step; [exact Hok| |by upd_proj; rewrite H|done..]. intros rlog (dn & rt & op & ins & ch & Hh). by eapply half_guest_take.
  - eapply axm_wr_step; [exact Hok| |by upd_proj; rewrite H|done..]. intros wlog [(dn & rt & op & ins & ch & Hh) Hw]. split; [by eapply half_guest_take|done].
  - eapply axm_wr_step; [exact Hok| |done..]. intros wlog [Hh (dlog & rest & [])]. split; [done|]. exists dlog, rest. rewrite H in wd_gw0, wd_guest0.
    split; try done; upd_proj; [by apply (chan_wf_tail (Chan d (w :: ws)) w)|]. rewrite wd_guest0. cbn. by rewrite <- app_assoc.
  - eapply axm_rd_step; [exact Hok| |done..]. intros rlog (dn & rt & op & ins & ch & Hh). by eapply half_guest_give.
  - eapply axm_wr_step; [exact Hok| |done..]. intros wlog [(dn & rt & op & ins & ch & Hh) Hw]. split; [|done].
    exact (half_guest_give _ _ _ b_single _ _ _ _ _ _ _ _ _ _ _ _ _ _ _ _ _ _ Hh i1 q i2 b H H0 H1).
Qed.

Lemma axm_bound_back Dr Dw w w' : axm_step w w' -> axm_bound Dr Dw w'.2 -> axm_bound Dr Dw w.2.
Proof. unfold axm_bound. intros []; cbn [fst snd]; upd_proj; rewrite ?length_app; cbn [length]; try done; lia. Qed.

Lemma axm_run_ok Dr Dw w w' : rtc axm_step w w' -> axm_bound Dr Dw w'.2 -> axm_good Dr Dw w -> axm_bound Dr Dw w.2 /\ axm_good Dr Dw w'.
Proof.
  induction 1 as [|w1 w2 w3 Hs Hr IH]; [done|]. intros Hb Hg. assert (axm_bound Dr Dw w2.2) as Hb2.
  { clear -Hr Hb. induction Hr as [|a b c Hs Hr IH]; [done|]. eapply axm_bound_back; [done|]. by apply IH. }
  assert (axm_bound Dr Dw w1.2) as Hb1 by (by eapply axm_bound_back). split; [done|]. apply IH; [done|]. by eapply axm_step_ok.
Qed.

(** ** Reset *)

Lemma wp_ostq_reset {A} `{!Zero A} (ost : ostq_t A) Q : ostq_wf ost -> q_depth ost <= 2147483648 -> (forall ost', ost_live ost' false [] -> Q tt ost') -> wp ostq_reset Q ost.
Proof.
  intros Hw Hd HQ. destruct (ostq_reset_ok ost Hw) as (o & E & Hwo & Ha). apply (wp_intro _ _ _ _ _ E), HQ.
  split; [done| |exact (abs_freed _ _ Ha)|by rewrite Ha]. by rewrite (abs_depth _ _ Ha).
Qed.

(** The FIFOs from [lo] to [hi] are cleared. *)
Definition cleared {X} (lo hi : Z) (fs fs' : list (chan X)) : Prop := forall h,
  aget fs' h = if (lo <=? h) && (h <? hi) then (fun f => f <| ch_pkts := [] |>) <$> aget fs h else aget fs h.

Lemma cleared_one {X} (fs : list (chan X)) i f : aget fs i = Some f -> cleared i (i + 1) fs (<[Z.to_nat i := f <| ch_pkts := [] |>]> fs).
Proof.
  intros E h. rewrite aget_insert by apply (aget_Some _ _ _ E). destruct (Z.eqb_spec h i) as [->|].
  - replace ((i <=? i) && (i <? i + 1)) with true by lia. by rewrite E.
  - by replace ((i <=? h) && (h <? i + 1)) with false by lia.
Qed.

Lemma cleared_more {X} lo mid hi (fs fs1 fs2 : list (chan X)) : lo <= mid <= hi -> cleared lo mid fs fs1 -> cleared mid hi fs1 fs2 -> cleared lo hi fs fs2.
Proof.
  intros Hm H1 H2 h. rewrite H2, H1. destruct (Z.ltb_spec h mid).
  - replace ((mid <=? h) && (h <? hi)) with false by lia. by replace (h <? hi) with true by lia.
  - rewrite andb_false_r. replace (mid <=? h) with true by lia. by replace (lo <=? h) with true by lia.
Qed.

Lemma cleared_in {X} num slvs (fs fs' : list (chan X)) : hosts_in num slvs fs -> cleared 0 num fs fs' -> hosts_in num slvs fs'.
Proof.
  intros Hi Hc h Hh. destruct (Hi h Hh) as (f & s & Ef & Es & Wf). exists (f <| ch_pkts := [] |>), s. split_and!; [|done|].
  - rewrite Hc, Ef. by replace ((0 <=? h) && (h <? num)) with true by lia.
  - unfold chan_wf, chan_num in *. cbn. lia.
Qed.

Lemma cleared_waiting {X} num slvs (fs fs' : list (chan X)) h s : hosts_in num slvs fs -> cleared 0 num fs fs' -> 0 <= h < num ->
  aget slvs h = Some (Some s) -> ch_pkts s = [] -> host_waiting slvs fs' h = [].
Proof.
  intros Hi Hc Hh Es E. destruct (Hi h Hh) as (f & s' & Ef & _). unfold host_waiting. rewrite Hc, Ef, Es. 
  replace ((0 <=? h) && (h <? num)) with true by lia. cbn. by rewrite E.
Qed.

(** A multiplexer before its first cycle: nothing is on its way. *)
Definition slvs_empty {X} (num : Z) (slvs : list (option (chan X))) : Prop := forall h, 0 <= h < num -> exists s, aget slvs h = Some (Some s) /\ ch_pkts s = [].
Record axm_built (m : axi_mux_t) : Prop := {
  xb_num : 0 <= am_host_num m <= AXI_MUX_HOST_NUM_MAX;
  xb_in : hosts_in (am_host_num m) (am_host_ar_slvs m) (am_host_ar_fifos m) /\ hosts_in (am_host_num m) (am_host_aw_slvs m) (am_host_aw_fifos m) /\
    hosts_in (am_host_num m) (am_host_w_slvs m) (am_host_w_fifos m);
  xb_out : hosts_out (am_host_num m) (am_host_r_msts m) /\ hosts_out (am_host_num m) (am_host_b_msts m);
  xb_guest : chan_wf (am_gst_ar_mst m) /\ chan_wf (am_gst_aw_mst m) /\ chan_wf (am_gst_w_mst m);
  xb_empty : slvs_empty (am_host_num m) (am_host_ar_slvs m) /\ slvs_empty (am_host_num m) (am_host_aw_slvs m) /\ slvs_empty (am_host_num m) (am_host_w_slvs m) /\
    (forall h, 0 <= h < am_host_num m -> host_queued (am_host_r_msts m) h = [] /\ host_queued (am_host_b_msts m) h = []);
  xb_gempty : ch_pkts (am_gst_ar_mst m) = [] /\ ch_pkts (am_gst_r_slv m) = [] /\ ch_pkts (am_gst_aw_mst m) = [] /\ ch_pkts (am_gst_b_slv m) = [] /\
    ch_pkts (am_gst_w_mst m) = [];
  xb_ost : ostk_wf (am_rd_ost m) /\ ostk_wf (am_wr_rsp_ost m) /\ ostq_wf (am_wr_data_ost m) /\ q_depth (am_wr_data_ost m) <= 2147483648
}.

Definition axm_start : axm_hist := AxmHist (fun _ => []) (fun _ => []) [] [] [] (fun _ => []) (fun _ => []) [] [] [] (fun _ => []) [].

Lemma axm_reset_loop_ok n i m : 0 <= i -> i + Z.of_nat n <= am_host_num m ->
  (forall h, 0 <= h < am_host_num m -> is_Some (aget (am_host_ar_fifos m) h) /\ is_Some (aget (am_host_aw_fifos m) h) /\ is_Some (aget (am_host_w_fifos m) h)) ->
  wp (axi_mux_reset_loop n i) (fun _ m' => exists a b c, m' = m <| am_host_ar_fifos := a |> <| am_host_aw_fifos := b |> <| am_host_w_fifos := c |> /\
    cleared i (i + Z.of_nat n) (am_host_ar_fifos m) a /\ cleared i (i + Z.of_nat n) (am_host_aw_fifos m) b /\ cleared i (i + Z.of_nat n) (am_host_w_fifos m) c) m.
Proof.
  revert i m. induction n as [|n IH]; intros i m Hi Hn Hs; cbn [axi_mux_reset_loop].
  { apply wp_ret. exists (am_host_ar_fifos m), (am_host_aw_fifos m), (am_host_w_fifos m). split; [by destruct m|].
    assert (forall {X} (fs : list (chan X)), cleared i (i + Z.of_nat 0) fs fs) as Hc; [|by split_and!].
    intros X fs h. destruct (Z.leb_spec i h), (Z.ltb_spec h (i + Z.of_nat 0)); done || lia. }
  destruct (Hs i ltac:(lia)) as ([f1 E1] & [f2 E2] & [f3 E3]).
  apply wp_bind, wp_on. eapply wp_at_elem; [done|]. apply wp_modify. apply wp_bind, wp_on. upd_proj. eapply wp_at_elem; [done|]. apply wp_modify.
  apply wp_bind, wp_on. upd_proj. eapply wp_at_elem; [done|]. apply wp_modify.
  pose proof (cleared_one _ _ _ E1) as C1. pose proof (cleared_one _ _ _ E2) as C2. pose proof (cleared_one _ _ _ E3) as C3.
  set (a := <[Z.to_nat i := f1 <| ch_pkts := [] |>]> (am_host_ar_fifos m)) in *. set (b := <[Z.to_nat i := f2 <| ch_pkts := [] |>]> (am_host_aw_fifos m)) in *.
  set (c := <[Z.to_nat i := f3 <| ch_pkts := [] |>]> (am_host_w_fifos m)) in *.
  set (m1 := m <| am_host_ar_fifos := a |> <| am_host_aw_fifos := b |> <| am_host_w_fifos := c |>).
  eapply wp_mono; [apply (IH (i + 1) m1); [lia|change (am_host_num m1) with (am_host_num m); lia|]|].
  { intros h Hh. destruct (Hs h Hh) as (S1 & S2 & S3). change (is_Some (aget a h) /\ is_Some (aget b h) /\ is_Some (aget c h)).
    rewrite C1, C2, C3. destruct (_ && _); [|done]. by rewrite !fmap_is_Some. }
  intros [] m' (a' & b' & c' & -> & D1 & D2 & D3). exists a', b', c'. split; [done|].
  replace (i + Z.of_nat (S n)) with (i + 1 + Z.of_nat n) by lia.
  split_and!; (eapply cleared_more; [|eassumption..]; lia).
Qed.

Lemma axm_reset_ok m : axm_built m -> wp axi_mux_reset (fun _ m' => axm_good (ch_depth (am_gst_ar_mst m)) (ch_depth (am_gst_aw_mst m)) (m', axm_start)) m.
Proof.
  intros [Hn (I1 & I2 & I3) (O1 & O2) (W1 & W2 & W3) (S1 & S2 & S3 & Q) (G1 & G2 & G3 & G4 & G5) (T1 & T2 & T3 & T4)].
  apply wp_bind, wp_modify, wp_bind, wp_gets. unfold id. apply wp_bind. set (m0 := m <| am_rd_rr_idx := 0 |> <| am_wr_rr_idx := 0 |>).
  change (am_host_num m0) with (am_host_num m). eapply wp_mono; [apply (axm_reset_loop_ok (Z.to_nat (am_host_num m)) 0 m0); [lia| |]|].
  { change (am_host_num m0) with (am_host_num m). lia. }
  { intros h Hh. destruct (I1 h Hh) as (? & ? & ? & _), (I2 h Hh) as (? & ? & ? & _), (I3 h Hh) as (? & ? & ? & _). split_and!; by eexists. }
  intros [] m' (a & b & c & -> & C1 & C2 & C3). replace (0 + Z.of_nat (Z.to_nat (am_host_num m))) with (am_host_num m) in * by lia.
  change (am_host_ar_fifos m0) with (am_host_ar_fifos m) in C1. change (am_host_aw_fifos m0) with (am_host_aw_fifos m) in C2. change (am_host_w_fifos m0) with (am_host_w_fifos m) in C3.
  apply wp_bind, wp_on. upd_proj. apply wp_key_reset; [done|]. intros k1 K1. apply wp_bind, wp_on. upd_proj. apply wp_ostq_reset; [done..|]. intros q1 L1.
  apply wp_bind, wp_on. upd_proj. apply wp_key_reset; [done|]. intros k2 K2. apply wp_modify. exists false. split; [|done]. split; [done| | |].
  - cbn. lia.
  - exists []. apply half_start; try done; [by eapply cleared_in| |by intros h Hh; apply Q].
    intros h Hh. destruct (S1 h Hh) as (s & Es & E). by eapply cleared_waiting.
  - exists []. split.
    + apply half_start; try done; [by eapply cleared_in| |by intros h Hh; apply Q]. intros h Hh. destruct (S2 h Hh) as (s & Es & E). by eapply cleared_waiting.
    + exists [], []. split; try done; [by eapply cleared_in|]. intros h Hh. destruct (S3 h Hh) as (s & Es & E). symmetry. by eapply cleared_waiting.
Qed.

(** ** What the hosts and the guest see *)

(** Reads and write answers are routed as [half_served] says, by the logs [rlog] and [wlog] of the addresses
    passed on and [rdn] and [bdn] of the answers returned.  [dlog] are the beats of write data passed on,
    with their hosts: each host's in its order, and burst after burst for the addresses of [wlog]. *)
Record axm_served (m : axi_mux_t) (x : axm_hist) (rlog : list (Z * axi4_ar_if_t)) (rdn : list (Z * axi4_ar_if_t * axi4_r_if_t))
    (wlog : list (Z * axi4_aw_if_t)) (bdn : list (Z * axi4_aw_if_t * axi4_b_if_t)) (dlog : list (Z * axi4_w_if_t)) : Prop := {
  xs_reads : half_served r_last (am_host_num m) (am_host_ar_slvs m) (am_host_ar_fifos m) (am_host_r_msts m) (am_gst_ar_mst m) (am_gst_r_slv m)
    (xh_ar x) (xh_r x) (xh_gar x) (xh_rd x) (xh_gr x) rlog rdn;
  xs_writes : half_served b_single (am_host_num m) (am_host_aw_slvs m) (am_host_aw_fifos m) (am_host_b_msts m) (am_gst_aw_mst m) (am_gst_b_slv m)
    (xh_aw x) (xh_b x) (xh_gaw x) (xh_wr x) (xh_gb x) wlog bdn;
  xs_data : dlog.*2 = xh_gw x ++ ch_pkts (am_gst_w_mst m);
  xs_data_sent : forall h, 0 <= h < am_host_num m -> xh_w x h = (of_host h fst dlog).*2 ++ host_waiting (am_host_w_slvs m) (am_host_w_fifos m) h;
  xs_order : is_Some (w_rest wlog.*1 dlog)
}.

(** C10: In every run of the AXI multiplexer from reset no check fails; the guest gets the addresses of each
    host in the order the host sent them; each host gets the beats and acknowledgements that the guest
    gave to its own transactions and only those, even when hosts use the same numbers and bursts are
    interleaved; no transaction is completed twice, and all are once nothing is left with the guest;
    the write data reach the guest burst by burst in the order of the write addresses, each burst from
    the host of its address. *)
Theorem axi_mux_routes (m0 m1 m : axi_mux_t) (x : axm_hist) : axm_built m0 -> axi_mux_reset m0 = Some (tt, m1) ->
  rtc axm_step (m1, axm_start) (m, x) -> axm_bound (ch_depth (am_gst_ar_mst m0)) (ch_depth (am_gst_aw_mst m0)) x ->
  (exists m', axi_mux_clock m = Some (tt, m')) /\ exists rlog rdn wlog bdn dlog, axm_served m x rlog rdn wlog bdn dlog.
Proof.
  intros Hb E Hr Hn. pose proof (axm_reset_ok m0 Hb) as H0. unfold wp in H0. rewrite E in H0.
  destruct (axm_run_ok _ _ _ _ Hr Hn H0) as [_ (fr & Hok)]. split.
  - destruct (wp_elim _ _ _ (axm_clock_ok _ _ _ Hn fr m Hok)) as ([] & m' & Ec & _). by exists m'.
  - destruct Hok as [[_ _ (rlog & dn & rt & op & ins & ch & Hh) (wlog & (dn2 & rt2 & op2 & ins2 & ch2 & Hh2) & dlog & rest & [])] _].
    exists rlog, dn, wlog, dn2, dlog. split; try done; by eapply half_served_of.
Qed.

(** ** A run *)

Inductive axm_move :=
| XmClock | XmAr (h : Z) (q : axi4_ar_if_t) | XmAw (h : Z) (q : axi4_aw_if_t) | XmW (h : Z) (w : axi4_w_if_t) | XmTakeR (h : Z) | XmTakeB (h : Z)
| XmGuest | XmGuestR (r : axi4_r_if_t) | XmGuestB (b : axi4_b_if_t).

(** The guest takes an address or a beat of data, whatever waits. *)
Definition axm_guest_take (m : axi_mux_t) (x : axm_hist) : axm_world :=
  match am_gst_ar_mst m, am_gst_aw_mst m, am_gst_w_mst m with
  | Chan d (q :: qs), _, _ => (m <| am_gst_ar_mst := Chan d qs |>, x <| xh_gar := xh_gar x ++ [q] |> <| xh_rd := xh_rd x ++ [q] |>)
  | _, Chan d (q :: qs), _ => (m <| am_gst_aw_mst := Chan d qs |>, x <| xh_gaw := xh_gaw x ++ [q] |> <| xh_wr := xh_wr x ++ [q] |>)
  | _, _, Chan d (w :: ws) => (m <| am_gst_w_mst := Chan d ws |>, x <| xh_gw := xh_gw x ++ [w] |>)
  | _, _, _ => (m, x)
  end.

(** The guest answers the oldest transaction of the number. *)
Fixpoint split_id {Q} (id : Q -> Z) (k : Z) (l : list Q) : option (list Q * Q * list Q) :=
  match l with
  | [] => None
  | q :: l => if id q =? k then Some ([], q, l) else '(l1, y, l2) ← split_id id k l; Some (q :: l1, y, l2)
  end.

Definition host_slv {X} (m : axi_mux_t) (cs : list (option (chan X))) (h : Z) : option (chan X) :=
  if (0 <=? h) && (h <? am_host_num m) then (o ← aget cs h; o) else None.

Definition axm_do (w : axm_world) (v : axm_move) : axm_world :=
  let '(m, x) := w in
  match v with
  | XmClock => match axi_mux_clock m with Some (_, m') => (m', x) | None => w end
  | XmAr h q => match host_slv m (am_host_ar_slvs m) h with
    | Some s => if chan_full s then w else
        (m <| am_host_ar_slvs := <[Z.to_nat h := Some (chan_snoc s q)]> (am_host_ar_slvs m) |>, x <| xh_ar := fn_snoc (xh_ar x) h q |>)
    | None => w end
  | XmAw h q => match host_slv m (am_host_aw_slvs m) h with
    | Some s => if chan_full s then w else
        (m <| am_host_aw_slvs := <[Z.to_nat h := Some (chan_snoc s q)]> (am_host_aw_slvs m) |>, x <| xh_aw := fn_snoc (xh_aw x) h q |>)
    | None => w end
  | XmW h q => match host_slv m (am_host_w_slvs m) h with
    | Some s => if chan_full s then w else
        (m <| am_host_w_slvs := <[Z.to_nat h := Some (chan_snoc s q)]> (am_host_w_slvs m) |>, x <| xh_w := fn_snoc (xh_w x) h q |>)
    | None => w end
  | XmTakeR h => match host_slv m (am_host_r_msts m) h with
    | Some (Chan d (r :: rs)) => (m <| am_host_r_msts := <[Z.to_nat h := Some (Chan d rs)]> (am_host_r_msts m) |>, x <| xh_r := fn_snoc (xh_r x) h r |>)
    | _ => w end
  | XmTakeB h => match host_slv m (am_host_b_msts m) h with
    | Some (Chan d (b :: bs)) => (m <| am_host_b_msts := <[Z.to_nat h := Some (Chan d bs)]> (am_host_b_msts m) |>, x <| xh_b := fn_snoc (xh_b x) h b |>)
    | _ => w end
  | XmGuest => axm_guest_take m x
  | XmGuestR r => match split_id ar_id (r_id r) (xh_rd x) with
    | Some (i1, q, i2) => if chan_full (am_gst_r_slv m) then w else (m <| am_gst_r_slv := chan_snoc (am_gst_r_slv m) r |>,
        x <| xh_rd := if r_last r then i1 ++ i2 else i1 ++ q :: i2 |> <| xh_gr := xh_gr x ++ [(q, r)] |>)
    | None => w end
  | XmGuestB b => match split_id aw_id (b_id b) (xh_wr x) with
    | Some (i1, q, i2) => if chan_full (am_gst_b_slv m) then w else
        (m <| am_gst_b_slv := chan_snoc (am_gst_b_slv m) b |>, x <| xh_wr := i1 ++ i2 |> <| xh_gb := xh_gb x ++ [(q, b)] |>)
    | None => w end
  end.

Lemma split_id_ok {Q} (id : Q -> Z) k l l1 q l2 : split_id id k l = Some (l1, q, l2) -> l = l1 ++ q :: l2 /\ id q = k /\ forall y, y ∈ l1 -> id y <> id q.
Proof.
  revert l1. induction l as [|y l IH]; intros l1; [done|]. cbn. destruct (Z.eqb_spec (id y) k) as [E|N].
  - intros [= <- <- <-]. split_and!; [done..|]. intros z Hz. by apply elem_of_nil in Hz.
  - destruct (split_id id k l) as [[[a b] c]|]; [|done]. intros [= <- <- <-]. destruct (IH a eq_refl) as (-> & <- & H). split_and!; [done..|].
    by intros z [->|Hz]%elem_of_cons; [|apply H].
Qed.

Lemma host_slv_ok {X} m (cs : list (option (chan X))) h c : host_slv m cs h = Some c -> 0 <= h < am_host_num m /\ aget cs h = Some (Some c).
Proof. unfold host_slv. destruct (_ && _) eqn:E; [|done]. destruct (aget cs h) as [o|]; [|done]. cbn. intros ->. split; [lia|done]. Qed.

Lemma axm_do_sound w v : rtc axm_step w (axm_do w v).
Proof.
  destruct w as [m x]. destruct v as [|h q|h q|h q|h|h| |r|b]; cbn [axm_do].
  - destruct (axi_mux_clock m) as [[[] m']|] eqn:E; [|done]. by apply rtc_once, AxmClock.
  - destruct (host_slv _ _ h) as [s|] eqn:E; [|done]. apply host_slv_ok in E as [? ?]. destruct (chan_full s) eqn:Ef; [done|]. by apply rtc_once, AxmSendAr.
  - destruct (host_slv _ _ h) as [s|] eqn:E; [|done]. apply host_slv_ok in E as [? ?]. destruct (chan_full s) eqn:Ef; [done|]. by apply rtc_once, AxmSendAw.
  - destruct (host_slv _ _ h) as [s|] eqn:E; [|done]. apply host_slv_ok in E as [? ?]. destruct (chan_full s) eqn:Ef; [done|]. by apply rtc_once, AxmSendW.
  - destruct (host_slv _ _ h) as [[d [|r rs]]|] eqn:E; [done| |done]. apply host_slv_ok in E as [? ?]. by apply rtc_once, AxmTakeR.
  - destruct (host_slv _ _ h) as [[d [|b bs]]|] eqn:E; [done| |done]. apply host_slv_ok in E as [? ?]. by apply rtc_once, AxmTakeB.
  - unfold axm_guest_take. destruct (am_gst_ar_mst m) as [d [|q qs]] eqn:E1; [|by apply rtc_once, AxmGuestAr].
    destruct (am_gst_aw_mst m) as [d2 [|q qs]] eqn:E2; [|by apply rtc_once, AxmGuestAw].
    destruct (am_gst_w_mst m) as [d3 [|q qs]] eqn:E3; [done|by apply rtc_once, AxmGuestW].
  - destruct (split_id _ _ _) as [[[i1 q] i2]|] eqn:E; [|done]. apply split_id_ok in E as (? & ? & ?). destruct (chan_full _) eqn:Ef; [done|]. by apply rtc_once, AxmGuestR.
  - destruct (split_id _ _ _) as [[[i1 q] i2]|] eqn:E; [|done]. apply split_id_ok in E as (? & ? & ?). destruct (chan_full _) eqn:Ef; [done|]. by apply rtc_once, AxmGuestB.
Qed.

Lemma axm_script_sound vs w : rtc axm_step w (foldl axm_do w vs).
Proof. revert w. induction vs as [|v vs IH]; intros w; [done|]. simpl. etrans; [apply axm_do_sound|apply IH]. Qed.

(** Two hosts; the FIFOs hold junk before the reset. *)
Definition axm_table : ostk_t axi_mux_ost_ctx_t := default (Ostk [] 0 0 0 0 0 0 0) (ostk_construct 4 2).
Definition axm_queue : ostq_t axi_mux_ost_ctx_t := default (Ostq [] 0 0 0 0 0 0) (ostq_construct 4 2).
Definition axm_example0 : axi_mux_t :=
  AxiMux (replicate 2 (Some (Chan 2 []))) (replicate 2 (Some (Chan 2 []))) (replicate 2 (Some (Chan 2 []))) (replicate 2 (Some (Chan 2 [])))
    (replicate 2 (Some (Chan 2 []))) (Chan 2 []) (Chan 2 []) (Chan 2 []) (Chan 2 []) (Chan 2 []) 2 7 7 (replicate 2 (Chan 2 []))
    (replicate 2 (Chan 2 [])) (replicate 2 (Chan 2 [AxiW 7 7 true])) axm_table axm_queue axm_table 7 7 7.
Definition axm_example1 : axi_mux_t := default axm_example0 (snd <$> axi_mux_reset axm_example0).

Lemma axm_example_built : axm_built axm_example0.
Proof.
  assert (forall h, 0 <= h < 2 -> h = 0 \/ h = 1) as Hc by lia.
  assert (ostk_wf axm_table) as Hk.
  { assert (ostk_construct (A := axi_mux_ost_ctx_t) 4 2 = Some axm_table) as E by (vm_compute; reflexivity). by destruct (ostk_construct_run _ _ _ E ltac:(done) ltac:(done)). }
  assert (ostq_wf axm_queue) as Hq.
  { assert (ostq_construct (A := axi_mux_ost_ctx_t) 4 2 = Some axm_queue) as E by (vm_compute; reflexivity). by destruct (ostq_construct_ok _ _ _ E ltac:(done) ltac:(done)). }
  split; [done| | |done| |done|done].
  - split_and!; intros h [-> | ->]%Hc; do 2 eexists; by split_and!.
  - split; intros h [-> | ->]%Hc; eexists; by split_and!.
  - split_and!; intros h [-> | ->]%Hc; done || (eexists; by split_and!).
Qed.

Definition axm_read (id addr len : Z) : axi4_ar_if_t := AxiAr id addr len AXI4_SIZE_B4 AXI4_BURST_INCR false 0 0 0 0.
Definition axm_write (id addr len : Z) : axi4_aw_if_t := AxiAw id addr len AXI4_SIZE_B4 AXI4_BURST_INCR false 0 0 0 0.

(** Both hosts read with the number 5, host 0 two beats; both write, host 1 sends its data first. *)
Definition axm_example_run : list axm_move :=
  [XmAr 0 (axm_read 5 0x100 1); XmAr 1 (axm_read 5 0x200 0); XmAw 0 (axm_write 6 0x300 1); XmAw 1 (axm_write 7 0x400 0); XmW 1 (AxiW 20 15 true);
   XmClock; XmClock; XmGuest; XmGuest; XmGuest; XmGuest; XmClock; XmGuest; XmW 0 (AxiW 10 15 false); XmW 0 (AxiW 11 15 true); XmClock; XmClock; XmGuest; XmGuest;
   XmClock; XmGuest; XmClock; XmGuest; XmGuestR (AxiR 5 1 0 false); XmClock; XmGuestR (AxiR 5 2 0 true); XmClock; XmGuestR (AxiR 5 3 0 true);
   XmGuestB (AxiB 7 0); XmClock; XmGuestB (AxiB 6 0); XmClock; XmTakeR 0; XmTakeR 0; XmTakeR 1; XmTakeB 0; XmTakeB 1].
Definition axm_example_end : axm_world := foldl axm_do (axm_example1, axm_start) axm_example_run.

Lemma axi_mux_routes_witness : exists m x, rtc axm_step (axm_example1, axm_start) (m, x) /\
  xh_r x 0 = [AxiR 5 1 0 false; AxiR 5 2 0 true] /\ xh_r x 1 = [AxiR 5 3 0 true] /\ xh_b x 0 = [AxiB 6 0] /\ xh_b x 1 = [AxiB 7 0] /\
  xh_gw x = [AxiW 10 15 false; AxiW 11 15 true; AxiW 20 15 true] /\ exists rlog rdn wlog bdn dlog, axm_served m x rlog rdn wlog bdn dlog.
Proof.
  pose proof (axm_script_sound axm_example_run (axm_example1, axm_start)) as Hr.
  assert ((let x := (foldl axm_do (axm_example1, axm_start) axm_example_run).2 in
    (xh_r x 0, xh_r x 1, xh_b x 0, xh_b x 1, xh_gw x, length (xh_gar x), length (xh_gaw x))) =
    ([AxiR 5 1 0 false; AxiR 5 2 0 true], [AxiR 5 3 0 true], [AxiB 6 0], [AxiB 7 0], [AxiW 10 15 false; AxiW 11 15 true; AxiW 20 15 true], 2%nat, 2%nat)) as Hx
    by (vm_compute; reflexivity).
  cbv zeta in Hx. destruct (foldl axm_do _ axm_example_run) as [m x]. cbn [fst snd] in Hx. injection Hx as H1 H2 H3 H4 H5 H6 H7.
  exists m, x. split; [exact Hr|]. do 5 (split; [assumption|]).
  refine (proj2 (axi_mux_routes axm_example0 axm_example1 m x axm_example_built ltac:(vm_compute; reflexivity) Hr _)).
  unfold axm_bound. rewrite H6, H7. done.
Defined.
