(* ===== verification/Rom.v ===== *)
(** * The read-only memory

    [mem/rom.c]: an array of bytes behind one AXI4 or one BTI port; reads are served one at a time. *)

From stdpp Require Import base numbers list.
From Stdlib Require Import ZArith Lia.
From S2P Require Import Prelude Fifo Bti Axi Ram.

Inductive rom_mode_t := ROM_MODE_BTI | ROM_MODE_AXI.
#[export] Instance rom_mode_eq_dec : EqDecision rom_mode_t.
Proof. solve_decision. Defined.

(** The write channels of the port, which no function uses, are left out. *)
Record rom_t := Rom {
  ro_bti_req_slv : chan bti_req_if_t;
  ro_bti_rsp_mst : chan bti_rsp_if_t;
  ro_axi4_ar_slv : chan axi4_ar_if_t;
  ro_axi4_r_mst : chan axi4_r_if_t;
  ro_mode : rom_mode_t;
  ro_base_addr : Z;
  ro_size : Z;
  ro_data : list Z;
  ro_rd_burst_addr : Z;
  ro_rd_burst_id : Z;
  ro_rd_burst_len : Z;
  ro_rd_burst_size : Z;
  ro_rd_burst_type : Z;
  ro_rd_burst_cnt : Z;
  ro_rd_active : bool
}.
#[export] Instance eta_rom : Eta rom_t := fun m =>
  Rom (ro_bti_req_slv m) (ro_bti_rsp_mst m) (ro_axi4_ar_slv m) (ro_axi4_r_mst m) (ro_mode m) (ro_base_addr m) (ro_size m) (ro_data m)
    (ro_rd_burst_addr m) (ro_rd_burst_id m) (ro_rd_burst_len m) (ro_rd_burst_size m) (ro_rd_burst_type m) (ro_rd_burst_cnt m) (ro_rd_active m).

(** [block] is the block of [size + 3] bytes of [malloc]; [data] is [None] for a null pointer. *)
Definition rom_construct (mode : rom_mode_t) (size : Z) (data : option (list Z)) (data_size base_addr : Z) (block : list Z) : M rom_t unit :=
  modify (fun rom => rom <| ro_mode := mode |> <| ro_size := size |> <| ro_data := block |>);;
  match data with
  | Some bytes =>
    DBG_CHECK (data_size <=? size);;
    on ro_data (copy_in 0 (take (Z.to_nat data_size) bytes))
  | None => mret tt
  end;;
  modify (fun rom => rom <| ro_base_addr := base_addr |>).

Definition rom_reset : M rom_t unit := modify (fun rom => rom <| ro_rd_active := false |>).

Definition rom_burn (bytes : list Z) (addr size : Z) : M rom_t unit :=
  rom ← gets id;
  DBG_CHECK (addr <? ro_size rom);;
  DBG_CHECK (u32 (addr + size) <=? ro_size rom);;
  on ro_data (copy_in addr (take (Z.to_nat size) bytes)).

(** The inner [None] is a refused access. *)
Definition rom_read (rom : rom_t) (addr byte_num : Z) : option (option Z) :=
  if (4 <? byte_num) || (ro_size rom <=? addr) || (u32 (ro_size rom - addr) <? byte_num) then Some None
  else d ← copy_out (ro_data rom) addr (Z.to_nat byte_num); Some (Some d).

Definition rom_proc_axi_ar : M rom_t unit :=
  rom ← gets id;
  if ro_rd_active rom then mret tt
  else if chan_empty (ro_axi4_ar_slv rom) then mret tt
  else
    ar ← on ro_axi4_ar_slv chan_read;
    DBG_CHECK (ro_base_addr rom <=? ar_addr ar);;
    modify (fun rom => rom <| ro_rd_active := true |> <| ro_rd_burst_addr := u32 (ar_addr ar - ro_base_addr rom) |>
      <| ro_rd_burst_id := ar_id ar |> <| ro_rd_burst_len := ar_len ar |> <| ro_rd_burst_size := ar_size ar |>
      <| ro_rd_burst_type := ar_burst ar |> <| ro_rd_burst_cnt := 0 |>).

Definition rom_proc_axi_r : M rom_t unit :=
  rom ← gets id;
  if negb (ro_rd_active rom) then mret tt
  else if chan_full (ro_axi4_r_mst rom) then mret tt
  else
    let addr := ro_rd_burst_addr rom in
    let byte_num := u32 (Z.shiftl 1 (ro_rd_burst_size rom)) in
    rd ← of_option (rom_read rom addr byte_num);
    let last := ro_rd_burst_cnt rom =? ro_rd_burst_len rom in
    on ro_axi4_r_mst (chan_write (AxiR (ro_rd_burst_id rom) (default 0 rd)
      (match rd with Some _ => AXI4_RESP_OKAY | None => AXI4_RESP_SLVERR end) last));;
    if last : bool then modify (fun rom => rom <| ro_rd_active := false |>)
    else
      modify (fun rom => rom <| ro_rd_burst_addr := axi_burst_next_addr addr (ro_rd_burst_type rom) (ro_rd_burst_size rom) |>
        <| ro_rd_burst_cnt := u8 (ro_rd_burst_cnt rom + 1) |>).

Definition rom_proc_axi : M rom_t unit :=
  rom_proc_axi_r;;
  rom_proc_axi_ar.

Definition rom_proc_bti : M rom_t unit :=
  rom ← gets id;
  if chan_empty (ro_bti_req_slv rom) then mret tt
  else if chan_full (ro_bti_rsp_mst rom) then mret tt
  else
    bti_req ← on ro_bti_req_slv chan_read;
    DBG_CHECK (ro_base_addr rom <=? bq_addr bti_req);;
    let addr := u32 (bq_addr bti_req - ro_base_addr rom) in
    let byte_num := u32 (Z.shiftl 1 (bq_size bti_req)) in
    rd ← (if BTI_REQ_SIZE_B4 <? bq_size bti_req then mret None
          else if bq_cmd bti_req =? BTI_REQ_CMD_READ then of_option (rom_read rom addr byte_num)
          else mret None);
    on ro_bti_rsp_mst (chan_write (match rd with
      | Some d => BtiRsp (bq_trans_id bti_req) d true
      | None => BtiRsp (bq_trans_id bti_req) 0 false
      end)).

Definition rom_clock : M rom_t unit :=
  rom ← gets id;
  if bool_decide (ro_mode rom = ROM_MODE_AXI) then rom_proc_axi else rom_proc_bti.

(** ** Theorems *)

(** No cycle changes the bytes, whatever the requests. *)
Lemma rom_clock_keeps_data rom rom' : rom_clock rom = Some (tt, rom') -> ro_data rom' = ro_data rom.
Proof.
  intros E. enough (wlp rom_clock (fun _ r => ro_data r = ro_data rom) rom) as H by (unfold wlp in H; by rewrite E in H). clear E rom'.
  unfold rom_clock, rom_proc_axi, rom_proc_axi_r, rom_proc_axi_ar, rom_proc_bti, wlp. mred.
  repeat (case_match; simplify_eq/=; try done).
Qed.

(** The bytes of a word, least significant first. *)
Lemma copy_out_bytes data addr n d : copy_out data addr n = Some d -> 0 <= addr -> Forall (fun b => 0 <= b < 256) data ->
  forall i, 0 <= i < Z.of_nat n -> aget data (addr + i) = Some (bits d (8 * i) 8).
Proof.
  intros E Ha Hb. revert addr d E Ha. induction n as [|n IH]; intros addr d E Ha i Hi; [lia|]. cbn in E.
  destruct (aget data addr) as [b|] eqn:Eb; [|done]. cbn in E. destruct (copy_out data (addr + 1) n) as [r|] eqn:Er; [|done]. injection E as <-.
  assert (0 <= b < 256) as Hbr. { rewrite aget_lookup in Eb by done. by eapply (proj1 (Forall_lookup _ _) Hb). }
  assert (forall k, 0 <= k -> Z.shiftr (b + 256 * r) (8 + k) = Z.shiftr r k) as Hs.
  { intros k Hk. rewrite <- Z.shiftr_shiftr by lia. f_equal. rewrite Z.shiftr_div_pow2 by lia. change (2 ^ 8) with 256. zdiv. }
  destruct (Z.eqb_spec i 0) as [->|Ni].
  - rewrite Z.add_0_r, Eb. unfold bits. rewrite Z.shiftr_0_r, Z.land_ones by lia. change (2 ^ 8) with 256. f_equal. zdiv.
  - replace (addr + i) with (addr + 1 + (i - 1)) by lia. rewrite (IH (addr + 1) r Er ltac:(lia) (i - 1) ltac:(lia)). unfold bits.
    replace (8 * i) with (8 + 8 * (i - 1)) by lia. by rewrite Hs by lia.
Qed.

Lemma copy_out_some data addr n : 0 <= addr -> addr + Z.of_nat n <= Z.of_nat (length data) -> exists d, copy_out data addr n = Some d.
Proof.
  revert addr. induction n as [|n IH]; intros addr Ha Hl; [by exists 0|]. cbn. destruct (aget_is_Some data addr) as [b ->]; [lia|]. cbn.
  destruct (IH (addr + 1)) as [r ->]; [lia..|]. by eexists.
Qed.

Record rom_ok (rom : rom_t) : Prop := {
  rk_place : 0 <= ro_base_addr rom /\ 0 < ro_size rom < W32 /\ ro_base_addr rom + ro_size rom <= W32;
  rk_block : Z.of_nat (length (ro_data rom)) = ro_size rom + 3;
  rk_bytes : Forall (fun b => 0 <= b < 256) (ro_data rom)
}.

(** A cycle of the memory in BTI mode answers the request at the front: a read within the memory with its
    bytes, everything else with a failure. *)
Theorem rom_answers rom q qs : rom_ok rom -> ro_mode rom = ROM_MODE_BTI -> ch_pkts (ro_bti_req_slv rom) = q :: qs -> chan_wf (ro_bti_rsp_mst rom) ->
  chan_full (ro_bti_rsp_mst rom) = false -> ro_base_addr rom <= bq_addr q < W32 -> 0 <= bq_size q < 32 ->
  let off := bq_addr q - ro_base_addr rom in
  exists rom' rsp, rom_clock rom = Some (tt, rom') /\ ch_pkts (ro_bti_rsp_mst rom') = ch_pkts (ro_bti_rsp_mst rom) ++ [rsp] /\
    ch_pkts (ro_bti_req_slv rom') = qs /\ bp_trans_id rsp = bq_trans_id q /\
    bp_ok rsp = (bq_cmd q =? BTI_REQ_CMD_READ) && (bq_size q <=? 2) && (off + 2 ^ bq_size q <=? ro_size rom) /\
    (bp_ok rsp = true -> forall i, 0 <= i < 2 ^ bq_size q -> aget (ro_data rom) (off + i) = Some (bits (bp_data rsp) (8 * i) 8)) /\
    (bp_ok rsp = false -> bp_data rsp = 0).
Proof.
  intros [(P1 & P2 & P3) Hl Hb] Hm Eq Hw Hf Ha Hs off. unfold off. clear off. enough (wp rom_clock (fun _ rom' => exists rsp,
    ch_pkts (ro_bti_rsp_mst rom') = ch_pkts (ro_bti_rsp_mst rom) ++ [rsp] /\ ch_pkts (ro_bti_req_slv rom') = qs /\ bp_trans_id rsp = bq_trans_id q /\
    bp_ok rsp = (bq_cmd q =? BTI_REQ_CMD_READ) && (bq_size q <=? 2) && (bq_addr q - ro_base_addr rom + 2 ^ bq_size q <=? ro_size rom) /\
    (bp_ok rsp = true -> forall i, 0 <= i < 2 ^ bq_size q -> aget (ro_data rom) (bq_addr q - ro_base_addr rom + i) = Some (bits (bp_data rsp) (8 * i) 8)) /\
    (bp_ok rsp = false -> bp_data rsp = 0)) rom) as H.
  { destruct (wp_elim _ _ _ H) as ([] & rom' & E & rsp & H'). by exists rom', rsp. }
  apply wp_bind, wp_gets. unfold id. rewrite (bool_decide_eq_false_2 (ro_mode rom = ROM_MODE_AXI)) by congruence. apply wp_bind, wp_gets. unfold id.
  assert (chan_empty (ro_bti_req_slv rom) = false) as -> by (destruct (chan_empty _) eqn:E; [apply chan_empty_spec in E; congruence|done]). rewrite Hf.
  apply wp_bind. eapply wp_on_read; [exact Eq|]. apply wp_bind, wp_check; [lia|]. rewrite (u32_small (bq_addr q - _)) by (unfold is_u32; lia).
  assert (forall d, wp (on ro_bti_rsp_mst (chan_write d)) (fun _ rom' => ch_pkts (ro_bti_rsp_mst rom') = ch_pkts (ro_bti_rsp_mst rom) ++ [d] /\ ch_pkts (ro_bti_req_slv rom') = qs)
    (rom <| ro_bti_req_slv := Chan (ch_depth (ro_bti_req_slv rom)) qs |>)) as Hput by (intros d; by apply wp_on_write).
  unfold BTI_REQ_SIZE_B4. apply wp_bind. destruct (Z.ltb_spec 2 (bq_size q)) as [H2|H2].
  { apply wp_ret. eapply wp_mono; [apply Hput|]. intros [] rom' [E1 E2]. eexists. split; [exact E1|]. split_and!; try done. cbn.
    destruct (Z.leb_spec (bq_size q) 2); [lia|]. by rewrite andb_false_r. }
  destruct (Z.eqb_spec (bq_cmd q) BTI_REQ_CMD_READ) as [Ec|Nc]; [|apply wp_ret; eapply wp_mono; [apply Hput|]; intros [] rom' [E1 E2]; eexists; by split_and!].
  assert (u32 (Z.shiftl 1 (bq_size q)) = 2 ^ bq_size q /\ 1 <= 2 ^ bq_size q <= 4) as [-> Hp].
  { assert (bq_size q = 0 \/ bq_size q = 1 \/ bq_size q = 2) as [-> |[-> | ->]] by lia; done. }
  destruct (Z.leb_spec (bq_size q) 2); [|lia]. unfold rom_read. destruct (Z.leb_spec (bq_addr q - ro_base_addr rom + 2 ^ bq_size q) (ro_size rom)) as [H3|H3].
  - rewrite (u32_small (ro_size rom - _)) by (unfold is_u32; lia). destruct (_ || _) eqn:Ex; [lia|]. destruct (copy_out_some (ro_data rom) (bq_addr q - ro_base_addr rom) (Z.to_nat (2 ^ bq_size q))) as [d Ed]; [lia..|].
    rewrite Ed. apply wp_ret. eapply wp_mono; [apply Hput|]. intros [] rom' [E1 E2]. eexists. split; [exact E1|]. split_and!; try done. cbn. intros _ i Hi.
    by apply (copy_out_bytes _ _ _ _ Ed); [lia|done|lia].
  - assert ((4 <? 2 ^ bq_size q) || (ro_size rom <=? bq_addr q - ro_base_addr rom) || (u32 (ro_size rom - (bq_addr q - ro_base_addr rom)) <? 2 ^ bq_size q) = true) as ->.
    { destruct (Z.leb_spec (ro_size rom) (bq_addr q - ro_base_addr rom)); [by rewrite orb_true_r|]. rewrite u32_small by (unfold is_u32; lia). lia. }
    apply wp_ret. eapply wp_mono; [apply Hput|]. intros [] rom' [E1 E2]. eexists. by split_and!.
Qed.
