(* ===== verification/BridgeSpec.v ===== *)
(** * Errors of the bridges

    Runs of [bus/bridge/axi2bti.c] and [bus/bridge/bti2apb.c] in which data or answers go astray. *)

From stdpp Require Import base numbers list.
From Stdlib Require Import ZArith Lia.
From S2P Require Import Prelude Fifo Ost Bti Apb Axi BtiBus Bridge.

(** ** AXI to BTI *)





(** ** BTI to APB *)

Definition bti2apb_access (q : bti_req_if_t) : Prop := bq_cmd q = BTI_REQ_CMD_READ \/ bq_cmd q = BTI_REQ_CMD_WRITE.
Definition bti2apb_packet (q : bti_req_if_t) : apb_req_if_t := ApbReq (bq_addr q) (bq_cmd q =? BTI_REQ_CMD_WRITE) (bq_data q) (bq_strobe q).

(** An access in front of room goes out, and the bridge remembers its number. *)
Lemma bti2apb_pass d q qs rs ps t : bti2apb_access q -> Z.of_nat (length ps) < d ->
  bti2apb_proc_req (Bti2apb (Chan d (q :: qs)) rs (Chan d ps) (Chan d []) t) =
  Some (tt, Bti2apb (Chan d qs) rs (Chan d (ps ++ [bti2apb_packet q])) (Chan d []) (bq_trans_id q)).
Proof.
  intros Hq Hd. assert (chan_full (Chan d ps) = false) as Hf by (unfold chan_full, chan_num; cbn; lia).
  assert (negb (bq_cmd q =? BTI_REQ_CMD_READ) && negb (bq_cmd q =? BTI_REQ_CMD_WRITE) = false) as Hc by (destruct Hq as [-> | ->]; done).
  set (br := Bti2apb _ _ _ _ t). enough (wp bti2apb_proc_req (fun _ br' => br' =
    Bti2apb (Chan d qs) rs (Chan d (ps ++ [bti2apb_packet q])) (Chan d []) (bq_trans_id q)) br) as H.
  { destruct (wp_elim _ _ _ H) as ([] & br' & E & ->). exact E. }
  apply wp_bind, wp_gets. unfold id. assert (chan_empty (ba_req_slv br) = false) as ->.
  { destruct (chan_empty _) eqn:E; [|done]. by apply chan_empty_spec in E. }
  apply wp_bind. eapply wp_on_front; [done|done|]. rewrite Hc. change (ba_apb_req_mst br) with (Chan d ps). rewrite Hf.
  apply wp_bind. eapply wp_on_read; [done|]. apply wp_bind, wp_on_write; [unfold chan_wf, chan_num; cbn; lia|done|]. intros _. by apply wp_modify.
Qed.

Lemma bti2apb_clock_pass d q qs rs ps t : bti2apb_access q -> Z.of_nat (length ps) < d ->
  bti2apb_clock (Bti2apb (Chan d (q :: qs)) rs (Chan d ps) (Chan d []) t) =
  Some (tt, Bti2apb (Chan d qs) rs (Chan d (ps ++ [bti2apb_packet q])) (Chan d []) (bq_trans_id q)).
Proof. intros Hq Hd. unfold bti2apb_clock. mred. by rewrite bti2apb_pass. Qed.

(** C40: A bridge that passes on a second access before the answer to the first one arrives gives the first
    answer the number of the second access: the register for the number holds one value only. *)
Theorem bti2apb_answer_misrouted d a b p t : 2 <= d -> bti2apb_access a -> bti2apb_access b ->
  (bti2apb_clock;; bti2apb_clock;; on ba_apb_rsp_slv (chan_write p);; bti2apb_clock) (Bti2apb (Chan d [a; b]) (Chan d []) (Chan d []) (Chan d []) t) =
  Some (tt, Bti2apb (Chan d []) (Chan d [BtiRsp (bq_trans_id b mod 65536) (prdata p) (negb (pslverr p))])
    (Chan d [bti2apb_packet a; bti2apb_packet b]) (Chan d []) (bq_trans_id b)).
Proof.
  intros Hd Ha Hb. assert (forall {X} (x : X), chan_write x (Chan d []) = Some (tt, Chan d [x])) as Hw
    by (intros; rewrite chan_write_ok by (unfold chan_num; cbn; lia); done).
  mred. rewrite bti2apb_clock_pass by (done || cbn; lia). cbn [app]. rewrite bti2apb_clock_pass by (done || cbn; lia).
  cbn [app ba_apb_rsp_slv]. rewrite Hw. unfold bti2apb_clock, bti2apb_proc_req, bti2apb_proc_rsp. mred. cbn.
  change (chan_full (Chan d [])) with (0 =? d). destruct (Z.eqb_spec 0 d); [lia|]. cbn -[chan_write chan_read]. rewrite (chan_read_cons _ p []) by done. cbn -[chan_write]. by rewrite Hw.
Qed.

Lemma bti2apb_answer_misrouted_witness :
  (bti2apb_clock;; bti2apb_clock;; on ba_apb_rsp_slv (chan_write (ApbRsp 0x55 false));; bti2apb_clock)
    (Bti2apb (Chan 2 [BtiReq 1 BTI_REQ_CMD_READ 0x10 2 0 0; BtiReq 2 BTI_REQ_CMD_READ 0x20 2 0 0]) (Chan 2 []) (Chan 2 []) (Chan 2 []) 0) =
  Some (tt, Bti2apb (Chan 2 []) (Chan 2 [BtiRsp 2 0x55 true]) (Chan 2 [ApbReq 0x10 false 0 0; ApbReq 0x20 false 0 0]) (Chan 2 []) 2).
Proof.
  exact (bti2apb_answer_misrouted 2 (BtiReq 1 BTI_REQ_CMD_READ 0x10 2 0 0) (BtiReq 2 BTI_REQ_CMD_READ 0x20 2 0 0) (ApbRsp 0x55 false) 0
    ltac:(lia) ltac:(by left) ltac:(by left)).
Defined.
