(* ===== verification/Peri.v ===== *)
(** * Peripherals

    [peri/uart.c], [peri/gpio.c] and [peri/gtimer.c]: register files on the configuration bus.  Signals are the values
    of the shared records; notifying their readers is left out. *)

From stdpp Require Import base numbers list.
From Stdlib Require Import ZArith Lia.
From S2P Require Import Prelude Fifo Apb.

(** ** The serial port *)

Module Uart.

Definition REG_TX_ADDR : Z := 1.
Definition REG_RX_ADDR : Z := 2.
Definition REG_STS_ADDR : Z := 3.
Definition STS_RX_VALID_BIT : Z := 1.

(** The receiver may be left unconnected. *)
Record uart_t := Uart {
  ut_apb_req_slv : chan apb_req_if_t;
  ut_apb_rsp_mst : chan apb_rsp_if_t;
  ut_tx_mst : chan Z;
  ut_rx_slv : option (chan Z);
  ut_base_addr : Z;
  ut_size : Z;
  ut_irq : bool;
  ut_rx_data : Z;
  ut_rx_valid : bool
}.
#[export] Instance eta_uart : Eta uart_t := fun u =>
  Uart (ut_apb_req_slv u) (ut_apb_rsp_mst u) (ut_tx_mst u) (ut_rx_slv u) (ut_base_addr u) (ut_size u) (ut_irq u) (ut_rx_data u) (ut_rx_valid u).

Definition uart_construct (base_addr size : Z) : M uart_t unit := modify (fun u => u <| ut_base_addr := base_addr |> <| ut_size := size |>).

Definition uart_reset : M uart_t unit := modify (fun u => u <| ut_rx_data := 0 |> <| ut_rx_valid := false |> <| ut_irq := false |>).

Definition uart_update_irq : M uart_t unit :=
  uart ← gets id;
  let irq := ut_rx_valid uart in
  when (negb (Bool.eqb irq (ut_irq uart))) (modify (fun u => u <| ut_irq := irq |>)).

Definition uart_rx_proc : M uart_t unit :=
  uart ← gets id;
  match ut_rx_slv uart with
  | None => mret tt
  | Some rx =>
    if ut_rx_valid uart then mret tt
    else if chan_empty rx then mret tt
    else
      '(data, rx') ← of_option (chan_read rx);
      modify (fun u => u <| ut_rx_slv := Some rx' |> <| ut_rx_data := data |> <| ut_rx_valid := true |>)
  end.

Definition uart_apb_proc : M uart_t unit :=
  uart ← gets id;
  if chan_empty (ut_apb_req_slv uart) then mret tt
  else if chan_full (ut_apb_rsp_mst uart) then mret tt
  else if chan_full (ut_tx_mst uart) then mret tt
  else
    req ← on ut_apb_req_slv chan_read;
    DBG_CHECK (ut_base_addr uart <=? paddr req);;
    DBG_CHECK (paddr req <? u32 (ut_base_addr uart + ut_size uart));;
    let reg_addr := Z.shiftr (u32 (paddr req - ut_base_addr uart)) 2 in
    prdata ← (if pwrite req then
        when (reg_addr =? REG_TX_ADDR) (on ut_tx_mst (chan_write (pwdata req)));;
        mret 0
      else if reg_addr =? REG_RX_ADDR then
        modify (fun u => u <| ut_rx_valid := false |>);;
        mret (ut_rx_data uart)
      else if reg_addr =? REG_STS_ADDR then mret (if ut_rx_valid uart then STS_RX_VALID_BIT else 0)
      else mret 0);
    on ut_apb_rsp_mst (chan_write (ApbRsp prdata false)).

Definition uart_clock : M uart_t unit :=
  uart_rx_proc;;
  uart_apb_proc;;
  uart_update_irq.

(** After a cycle that does not fail the interrupt line shows whether a byte waits. *)
Lemma uart_irq_level u u' : uart_clock u = Some (tt, u') -> ut_irq u' = ut_rx_valid u'.
Proof.
  unfold uart_clock. mred. destruct (uart_rx_proc u) as [[? u1]|]; [|done]. destruct (uart_apb_proc u1) as [[? u2]|]; [|done].
  unfold uart_update_irq. mred. destruct (Bool.eqb _ _) eqn:E; cbn [negb]; intros [= <-]; [by apply eqb_prop in E|done].
Qed.
End Uart.

(** ** The pins *)

Module Gpio.

Definition REG_OUT : Z := 0.
Definition REG_MODE_LO : Z := 1.
Definition REG_MODE_HI : Z := 2.
Definition GPIO_PIN_NUM : Z := 24.
Definition GPIO_MODE_OUT : Z := 0.
Definition GPIO_MODE_IN : Z := 1.
Definition GPIO_MODE_IN_IRQ : Z := 2.

(** [gp_val] is the value of the signal that the pins share with the outside. *)
Record gpio_t := Gpio {
  gp_apb_req_slv : chan apb_req_if_t;
  gp_apb_rsp_mst : chan apb_rsp_if_t;
  gp_output_val : Z;
  gp_mode_lo : Z;
  gp_mode_hi : Z;
  gp_base_addr : Z;
  gp_size : Z;
  gp_val : Z;
  gp_irq : bool;
  gp_sig_shadow : Z
}.
#[export] Instance eta_gpio : Eta gpio_t := fun g =>
  Gpio (gp_apb_req_slv g) (gp_apb_rsp_mst g) (gp_output_val g) (gp_mode_lo g) (gp_mode_hi g) (gp_base_addr g) (gp_size g) (gp_val g) (gp_irq g) (gp_sig_shadow g).

Definition gpio_pin_mode (gpio : gpio_t) (pin : Z) : Z :=
  let reg := if pin <? 16 then gp_mode_lo gpio else gp_mode_hi gpio in
  let shift := u32 (Z.land pin 0xf * 2) in
  Z.land (Z.shiftr reg shift) 3.

Definition gpio_construct (base_addr size : Z) : M gpio_t unit := modify (fun g => g <| gp_base_addr := base_addr |> <| gp_size := size |>).

Definition gpio_reset : M gpio_t unit :=
  modify (fun g => g <| gp_output_val := 0 |> <| gp_mode_lo := 0 |> <| gp_mode_hi := 0 |> <| gp_val := 0 |> <| gp_sig_shadow := 0 |> <| gp_irq := false |>).

(** [val] with bit [i] as [b]. *)
Definition put_pin (val i : Z) (b : bool) : Z :=
  if b then Z.lor val (u32 (Z.shiftl 1 i)) else Z.land val (not32 (u32 (Z.shiftl 1 i))).

(** The loops over the pins, from pin [i] on with [n] left: the pins that satisfy [sel] become those of [src]. *)
Fixpoint pins_loop (sel : Z -> bool) (src : Z) (n : nat) (i val : Z) : Z :=
  match n with
  | O => val
  | S n => pins_loop sel src n (i + 1) (if sel i then put_pin val i (nz (Z.land src (u32 (Z.shiftl 1 i)))) else val)
  end.

Definition gpio_is_out (gpio : gpio_t) (i : Z) : bool := gpio_pin_mode gpio i =? GPIO_MODE_OUT.
Definition gpio_is_in (gpio : gpio_t) (i : Z) : bool :=
  let m := gpio_pin_mode gpio i in (m =? GPIO_MODE_IN) || (m =? GPIO_MODE_IN_IRQ).

Definition gpio_apb_proc : M gpio_t unit :=
  gpio ← gets id;
  if chan_empty (gp_apb_req_slv gpio) then mret tt
  else if chan_full (gp_apb_rsp_mst gpio) then mret tt
  else
    req ← on gp_apb_req_slv chan_read;
    DBG_CHECK (gp_base_addr gpio <=? paddr req);;
    DBG_CHECK (paddr req <? u32 (gp_base_addr gpio + gp_size gpio));;
    let reg_addr := Z.shiftr (u32 (paddr req - gp_base_addr gpio)) 2 in
    prdata ← (if pwrite req then
        (if reg_addr =? REG_OUT then
           modify (fun g => g <| gp_output_val := pwdata req |>
             <| gp_val := pins_loop (gpio_is_out gpio) (pwdata req) (Z.to_nat GPIO_PIN_NUM) 0 (gp_val gpio) |>)
         else if reg_addr =? REG_MODE_LO then modify (fun g => g <| gp_mode_lo := pwdata req |>)
         else if reg_addr =? REG_MODE_HI then modify (fun g => g <| gp_mode_hi := Z.land (pwdata req) 0xffff |>)
         else mret tt);;
        mret 0
      else if reg_addr =? REG_OUT then
        mret (pins_loop (gpio_is_in gpio) (gp_val gpio) (Z.to_nat GPIO_PIN_NUM) 0 (gp_output_val gpio))
      else if reg_addr =? REG_MODE_LO then mret (gp_mode_lo gpio)
      else if reg_addr =? REG_MODE_HI then mret (gp_mode_hi gpio)
      else mret 0);
    on gp_apb_rsp_mst (chan_write (ApbRsp prdata false)).

(** The loop over the pins that looks for an edge, from pin [i] on with [n] left. *)
Fixpoint edge_loop (gpio : gpio_t) (cur prev : Z) (n : nat) (i : Z) (irq : bool) : bool :=
  match n with
  | O => irq
  | S n =>
    edge_loop gpio cur prev n (i + 1)
      (if negb (gpio_pin_mode gpio i =? GPIO_MODE_IN_IRQ) then irq
       else if negb (Z.land (Z.shiftr cur i) 1 =? Z.land (Z.shiftr prev i) 1) then true else irq)
  end.

Definition gpio_irq_proc : M gpio_t unit :=
  gpio ← gets id;
  let cur := gp_val gpio in
  let prev := gp_sig_shadow gpio in
  modify (fun g => g <| gp_sig_shadow := cur |> <| gp_irq := edge_loop gpio cur prev (Z.to_nat GPIO_PIN_NUM) 0 false |>).

Definition gpio_clock : M gpio_t unit :=
  gpio_apb_proc;;
  gpio_irq_proc.

Lemma testbit_put_pin val i b j : 0 <= i < 32 -> 0 <= j -> is_u32 val -> Z.testbit (put_pin val i b) j = if j =? i then b else Z.testbit val j.
Proof.
  intros Hi Hj Hv. assert (u32 (Z.shiftl 1 i) = 2 ^ i) as E.
  { rewrite Z.shiftl_1_l. apply u32_small. split; [lia|]. change W32 with (2 ^ 32). apply Z.pow_lt_mono_r; lia. }
  unfold put_pin. rewrite E. destruct b.
  - rewrite Z.lor_spec, Z.pow2_bits_eqb by lia. rewrite (Z.eqb_sym i j). destruct (j =? i); [apply orb_true_r|apply orb_false_r].
  - unfold not32. change (W32 - 1) with (Z.ones 32). rewrite Z.land_spec, Z.lxor_spec, Z.pow2_bits_eqb, testbit_ones by lia. rewrite (Z.eqb_sym i j).
    destruct (Z.eqb_spec j i) as [->|].
    + destruct (Z.ltb_spec i 32); [|lia]. by rewrite andb_false_r.
    + cbn [xorb]. destruct (Z.ltb_spec j 32); [by rewrite andb_true_r|]. rewrite andb_false_r. symmetry. apply Z.bits_above_log2; [by destruct Hv|].
      destruct (Z.eqb_spec val 0) as [->|]; [cbn; lia|]. apply Z.log2_lt_pow2; [destruct Hv; lia|]. apply Z.lt_le_trans with (2 ^ 32); [by destruct Hv|]. apply Z.pow_le_mono_r; lia.
Qed.

Lemma put_pin_u32 val i b : is_u32 val -> is_u32 (put_pin val i b).
Proof. intros Hv. unfold put_pin. destruct b; [apply is_u32_lor; [done|apply u32_range]|by apply is_u32_land_l]. Qed.

Lemma testbit_pins sel src n i val j : 0 <= i -> i + Z.of_nat n <= 32 -> 0 <= j -> is_u32 val ->
  Z.testbit (pins_loop sel src n i val) j = if (i <=? j) && (j <? i + Z.of_nat n) && sel j then Z.testbit src j else Z.testbit val j.
Proof.
  intros Hi Hn Hj. revert i val Hi Hn. induction n as [|n IH]; intros i val Hi Hn Hv; cbn [pins_loop].
  { replace ((i <=? j) && (j <? i + Z.of_nat 0)) with false by (destruct (Z.leb_spec i j), (Z.ltb_spec j (i + Z.of_nat 0)); done || lia). done. }
  assert (nz (Z.land src (u32 (Z.shiftl 1 i))) = Z.testbit src i) as ->.
  { rewrite u32_small; [by apply nz_testbit|]. rewrite Z.shiftl_1_l. split; [lia|]. change W32 with (2 ^ 32). apply Z.pow_lt_mono_r; lia. }
  rewrite IH by (done || lia || (destruct (sel i); [by apply put_pin_u32|done])).
  destruct (Z.eqb_spec j i) as [->|Nj].
  - replace (i + 1 <=? i) with false by lia. replace (i <=? i) with true by lia. rewrite (proj2 (Z.ltb_lt i (i + Z.of_nat (S n)))) by lia. cbn [andb].
    destruct (sel i); [|done]. rewrite testbit_put_pin by (done || lia). by rewrite Z.eqb_refl.
  - replace ((i <=? j) && (j <? i + Z.of_nat (S n))) with ((i + 1 <=? j) && (j <? i + 1 + Z.of_nat n))
      by (destruct (Z.leb_spec (i + 1) j), (Z.leb_spec i j), (Z.ltb_spec j (i + 1 + Z.of_nat n)), (Z.ltb_spec j (i + Z.of_nat (S n))); done || lia).
    destruct (_ && _); [done|]. destruct (sel i); [|done]. rewrite testbit_put_pin by (done || lia). by destruct (Z.eqb_spec j i).
Qed.

(** The search for an edge changes the interrupt line only. *)
Lemma gpio_irq_keeps g : wp gpio_irq_proc (fun _ g' => gp_output_val g' = gp_output_val g /\ gp_val g' = gp_val g) g.
Proof. apply wp_bind, wp_gets. by apply wp_modify. Qed.

Lemma gpio_out_apb g q qs : ch_pkts (gp_apb_req_slv g) = q :: qs -> chan_wf (gp_apb_rsp_mst g) -> chan_full (gp_apb_rsp_mst g) = false ->
  pwrite q = true -> paddr q = gp_base_addr g -> 0 <= gp_base_addr g < u32 (gp_base_addr g + gp_size g) ->
  wp gpio_apb_proc (fun _ g' => gp_output_val g' = pwdata q /\ gp_val g' = pins_loop (gpio_is_out g) (pwdata q) (Z.to_nat GPIO_PIN_NUM) 0 (gp_val g)) g.
Proof.
  intros Eq Hw Hf Hwr Ha Hb. unfold gpio_apb_proc. generalize (Z.to_nat GPIO_PIN_NUM) as n. intros n. apply wp_bind, wp_gets. unfold id.
  assert (chan_empty (gp_apb_req_slv g) = false) as -> by (destruct (chan_empty _) eqn:E; [apply chan_empty_spec in E; congruence|done]).
  rewrite Hf. apply wp_bind. eapply wp_on_read; [exact Eq|]. apply wp_bind, wp_check; [lia|]. apply wp_bind, wp_check; [lia|].
  rewrite Ha, Z.sub_diag. change (Z.shiftr (u32 0) 2 =? REG_OUT) with true. rewrite Hwr. cbv iota zeta. apply wp_bind, wp_bind, wp_modify, wp_ret.
  by apply wp_on_write.
Qed.

(** A write to the output register drives the pins in output mode and leaves all others as they were. *)
Theorem gpio_write_out g q qs j : ch_pkts (gp_apb_req_slv g) = q :: qs -> chan_wf (gp_apb_rsp_mst g) -> chan_full (gp_apb_rsp_mst g) = false ->
  pwrite q = true -> paddr q = gp_base_addr g -> 0 <= gp_base_addr g < u32 (gp_base_addr g + gp_size g) -> is_u32 (gp_val g) -> 0 <= j ->
  exists g', gpio_clock g = Some (tt, g') /\ gp_output_val g' = pwdata q /\
    Z.testbit (gp_val g') j = if (j <? GPIO_PIN_NUM) && gpio_is_out g j then Z.testbit (pwdata q) j else Z.testbit (gp_val g) j.
Proof.
  intros Eq Hw Hf Hwr Ha Hb Hv Hj. destruct (wp_elim _ _ _ (gpio_out_apb g q qs Eq Hw Hf Hwr Ha Hb)) as ([] & g1 & E1 & Ho & Hp).
  destruct (wp_elim _ _ _ (gpio_irq_keeps g1)) as ([] & g2 & E2 & Ho2 & Hp2). exists g2. split; [unfold gpio_clock; mred; by rewrite E1|].
  split; [congruence|]. rewrite Hp2, Hp, testbit_pins by (done || (unfold GPIO_PIN_NUM; lia)).
  rewrite Z.add_0_l, Z2Nat.id by done. by rewrite (proj2 (Z.leb_le 0 j)).
Qed.
End Gpio.

(** ** The timer *)

Module Gtimer.

Definition REG_CTRL : Z := 0.
Definition REG_COUNT : Z := 1.
Definition REG_RELOAD : Z := 2.
Definition REG_IRQ : Z := 3.

Record gtimer_t := Gtimer {
  gt_apb_req_slv : chan apb_req_if_t;
  gt_apb_rsp_mst : chan apb_rsp_if_t;
  gt_base_addr : Z;
  gt_size : Z;
  gt_irq : bool;
  gt_ctrl : Z;
  gt_count : Z;
  gt_reload : Z;
  gt_irq_pend : bool
}.
#[export] Instance eta_gtimer : Eta gtimer_t := fun t =>
  Gtimer (gt_apb_req_slv t) (gt_apb_rsp_mst t) (gt_base_addr t) (gt_size t) (gt_irq t) (gt_ctrl t) (gt_count t) (gt_reload t) (gt_irq_pend t).

Definition gtimer_construct (base size : Z) : M gtimer_t unit := modify (fun t => t <| gt_base_addr := base |> <| gt_size := size |>).

Definition gtimer_reset : M gtimer_t unit :=
  modify (fun t => t <| gt_ctrl := 0 |> <| gt_count := 0 |> <| gt_reload := 0 |> <| gt_irq_pend := false |> <| gt_irq := false |>).

Definition gtimer_apb_proc : M gtimer_t unit :=
  t ← gets id;
  if chan_empty (gt_apb_req_slv t) then mret tt
  else if chan_full (gt_apb_rsp_mst t) then mret tt
  else
    req ← on gt_apb_req_slv chan_read;
    DBG_CHECK (gt_base_addr t <=? paddr req);;
    DBG_CHECK (paddr req <? u32 (gt_base_addr t + gt_size t));;
    let reg := Z.shiftr (u32 (paddr req - gt_base_addr t)) 2 in
    prdata ← (if pwrite req then
        (if reg =? REG_CTRL then modify (fun t => t <| gt_ctrl := Z.land (pwdata req) 1 |>)
         else if reg =? REG_RELOAD then
           modify (fun t => t <| gt_reload := pwdata req |> <| gt_count := pwdata req |> <| gt_irq_pend := false |> <| gt_irq := false |>)
         else if reg =? REG_IRQ then
           when (nz (Z.land (pwdata req) 1)) (modify (fun t => t <| gt_irq_pend := false |> <| gt_irq := false |>))
         else mret tt);;
        mret 0
      else if reg =? REG_CTRL then mret (gt_ctrl t)
      else if reg =? REG_COUNT then mret (gt_count t)
      else if reg =? REG_RELOAD then mret (gt_reload t)
      else if reg =? REG_IRQ then mret (if gt_irq_pend t then 1 else 0)
      else mret 0);
    on gt_apb_rsp_mst (chan_write (ApbRsp prdata false)).

Definition gtimer_count_proc : M gtimer_t unit :=
  t ← gets id;
  if negb (nz (Z.land (gt_ctrl t) 1)) then mret tt
  else if gt_count t =? 0 then mret tt
  else
    modify (fun t => t <| gt_count := u32 (gt_count t - 1) |>);;
    t ← gets id;
    when (gt_count t =? 0) (modify (fun t => t <| gt_irq_pend := true |> <| gt_irq := true |>)).

Definition gtimer_clock : M gtimer_t unit :=
  gtimer_count_proc;;
  gtimer_apb_proc.

Fixpoint gtimer_clocks (n : nat) : M gtimer_t unit :=
  match n with
  | O => mret tt
  | S n => gtimer_clock;; gtimer_clocks n
  end.

Lemma gtimer_idle_clock t : ch_pkts (gt_apb_req_slv t) = [] -> gt_ctrl t = 1 -> 0 < gt_count t < W32 ->
  gtimer_clock t = Some (tt, if gt_count t =? 1 then t <| gt_count := 0 |> <| gt_irq_pend := true |> <| gt_irq := true |> else t <| gt_count := gt_count t - 1 |>).
Proof.
  intros He Hc Hn. enough (wp gtimer_clock (fun _ t' => t' = if gt_count t =? 1 then t <| gt_count := 0 |> <| gt_irq_pend := true |> <| gt_irq := true |>
    else t <| gt_count := gt_count t - 1 |>) t) as H by (destruct (wp_elim _ _ _ H) as ([] & t' & E & ->); exact E).
  assert (forall t', gt_apb_req_slv t' = gt_apb_req_slv t -> wp gtimer_apb_proc (fun _ t'' => t'' = t') t') as Hidle.
  { intros t' E. apply wp_bind, wp_gets. unfold id. rewrite E. apply chan_empty_spec in He. rewrite He. by apply wp_ret. }
  apply wp_bind, wp_bind, wp_gets. unfold id. rewrite Hc. change (negb (nz (Z.land 1 1))) with false. cbv iota. destruct (Z.eqb_spec (gt_count t) 0); [lia|].
  apply wp_bind, wp_modify, wp_bind, wp_gets. unfold id. upd_proj. rewrite u32_small by (unfold is_u32; lia).
  destruct (Z.eqb_spec (gt_count t) 1) as [E1|N1].
  - rewrite E1. cbn [when]. change (1 - 1 =? 0) with true. cbn [when]. apply wp_modify. by apply Hidle.
  - destruct (Z.eqb_spec (gt_count t - 1) 0); [lia|]. apply wp_ret. by apply Hidle.
Qed.

(** A timer that is enabled and not accessed counts down by one per cycle and raises its interrupt when it
    reaches zero, not before. *)
Theorem gtimer_fires t k : ch_pkts (gt_apb_req_slv t) = [] -> gt_ctrl t = 1 -> gt_irq t = false -> 0 < gt_count t < W32 -> Z.of_nat k <= gt_count t ->
  exists t', gtimer_clocks k t = Some (tt, t') /\ gt_count t' = gt_count t - Z.of_nat k /\ gt_irq t' = (Z.of_nat k =? gt_count t).
Proof.
  revert t. induction k as [|k IH]; intros t He Hc Hi Hn Hk.
  { exists t. split; [done|]. split; [lia|]. rewrite Hi. destruct (Z.eqb_spec (Z.of_nat 0) (gt_count t)); [lia|done]. }
  cbn [gtimer_clocks]. mred. rewrite gtimer_idle_clock by done. destruct (Z.eqb_spec (gt_count t) 1) as [E1|N1].
  - assert (k = 0%nat) as -> by lia. cbn. eexists. split; [done|]. cbn. rewrite E1. done.
  - destruct (IH (t <| gt_count := gt_count t - 1 |>)) as (t' & E & H1 & H2); [done..| |upd_proj; lia|]; [upd_proj; lia|].
    exists t'. split; [exact E|]. revert H1 H2. upd_proj. intros -> ->. split; [lia|].
    destruct (Z.eqb_spec (Z.of_nat k) (gt_count t - 1)), (Z.eqb_spec (Z.of_nat (S k)) (gt_count t)); done || lia.
Qed.
End Gtimer.
